(* ===== verification/_CoqProject ===== *)
-Q . S2P
Prelude.v
PyStd.v
Regex.v
Logging.v
Blake2b.v
PyNum.v
DecText.v
Enums.v
PyDecimal.v
Models.v
CsvUpload.v
Db.v
Compliance.v
Requests.v
Http.v
AssistantMemory.v
Calendar.v
StrategistPlanner.v
Copywriting.v
Seo.v
Fixtures.v
AuditTrail.v
Tenancy.v
Auth.v
Jsonb.v
Preview.v
Outbound.v
Queue.v
Worker.v
WorkerSpec.v
BrandVoices.v
Agents.v
Segmentation.v
Audiences.v
Seeding.v
Scheduling.v
CustomKpi.v
SpendReconciliation.v
Report.v
ReportsApi.v
ReportProofs.v
StateMachine.v
Campaigns.v
LaunchProofs.v
ContentCreator.v
Strategist.v
StrategistProofs.v
Approvals.v
AbTesting.v
AbTestProofs.v
Review.v
ApprovalProofs.v
CampaignProofs.v
ContentProofs.v
EmailConnector.v
Webhooks.v
TenantSettings.v
EmailDispatch.v
EmailDispatchProofs.v
Distribution.v
SocialDispatch.v
DistributionProofs.v
UnsubscribeProofs.v
SocialProofs.v
SocialConnectors.v
AdsConnectors.v
WebAnalytics.v
Integrations.v
IntegrationProofs.v
PreviewProofs.v
KpiRollup.v
Recommendations.v
Anomaly.v
Analytics.v
AnomalyProofs.v
AbSignificance.v
Handlers.v
AssistantTools.v
AssistantRouter.v
AssistantProofs.v
