(* ===== verification/Prelude.v ===== *)
(** * Marketing Agentic System: verification library (root file)

    A marketing team's campaigns are planned, written, approved, sent and measured by a
    set of agents. This library models the program under src/app as executable
    definitions and proves what makes its components correct.

    ** The program, and which file models which part

    A campaign is a row with a status. The API endpoints, the review pages, the assistant
    and the worker read and write rows; the state machine moves the status; the queue
    carries the work of the agents. Every operation is a function of type [M A] (Db.v):
    it reads a clock, an actor and a source of randomness, reads and writes one finite map
    per table, and returns a value or raises. [transaction] is the commit or the rollback.

    Foundations. PyStd, PyNum, DecText, PyDecimal, Regex, Blake2b: the Python the
    program relies on (strings, JSON values, UUIDs, dates, [Decimal], [float], [re],
    [hashlib.blake2b]). Enums and Models: src/app/db/enums.py and models.py, member for
    member and column for column. Db: the tables and the session. Jsonb: the JSONB
    operators of the queries. AuditTrail: src/app/audit. Fixtures: the rows at which
    theorems are instantiated.

    Who asks. Requests: the role and the transaction of an endpoint, src/app/api/deps.py.
    Tenancy: row-level security, src/app/db/session.py and the policies of the migrations;
    elsewhere a [db] is what the session of one tenant sees, here it is the whole
    database, [view] is what a session sees and [scoped] runs a handler on it. Auth:
    src/app/api/auth.py, the login, and [serve], a whole request from its session on.
    Logging: src/app/observability/logging.py, the redaction of log events.

    The queue and the worker. Queue: src/app/orchestrator/queue.py, one definition per
    function. Worker: [run_once] of worker.py, with its three transactions, each of them by itself
    ([worker_tx]), its loops, and registry.py; a handler is a [Tx], a body that may commit along
    the way. WorkerSpec: the abstract life cycle of a job, the system of callers, workers, crashes,
    the reaper and cancellations, interleaved transaction by transaction, its refinement and its
    progress. Handlers: src/app/orchestrator/handlers and
    the tool registry, every handler a deployment runs with.

    The campaign. StateMachine: state_machine.py, every registered transition. Scheduling:
    the slots, pause and resume of agents/distribution.py, which its entry actions call.
    Seeding: the asset rows of a campaign. LaunchProofs: what launching means. Campaigns:
    the endpoints of api/campaigns.py and api/content_assets.py.

    Planning. Segmentation, Audiences, CsvUpload: audiences and uploaded contacts.
    StrategistPlanner, Strategist: the plan of a campaign and its proposals, with the
    endpoints of api/strategy.py and api/tenant_constraints.py. Calendar: the touches, the
    hard caps and the frequency warnings.

    Content. Copywriting, Seo, Compliance: the tools and checks of a draft.
    ContentCreator: one generation task. Approvals: api/approvals.py. Review: the review
    page, the approval tools of the assistant, the automatic advance. BrandVoices: the
    voices the checks read, api/brand_voice.py with the two unique indexes of the table.
    Preview: api/preview.py and agents/_preview.py, the merge fields, the audit of an
    audience and the shared links. Outbound: src/app/outbound, the segments of an
    audience, its enrichment, the templates and the personal drafts.

    Sending. EmailConnector, EmailDispatch: the SendGrid connector and the email tool.
    Distribution, SocialDispatch: the dispatch handlers. AbTesting: the assignment of
    recipients to variants and the life cycle of a test. TenantSettings: the unsubscribe
    endpoint, and the compliance rules and settings, frequency caps and rate limits the
    senders obey.

    Measuring. KpiRollup, CustomKpi, SpendReconciliation, Report: src/app/analytics.
    ReportsApi: api/reports.py and its CSV export.
    Anomaly, Recommendations, Analytics: the nightly analysis and its endpoints. Webhooks:
    src/app/webhooks and the two receivers of provider events. AbSignificance: the
    statistics of two arms and the evaluator of a running test. WebAnalytics: the
    Plausible sync, the attribution of its events, the listings of jobs and attempts.

    The outside. Http: programs of type [Http A] send requests, sleep and raise; the far
    side is a function of what was sent before and of the request. SocialConnectors and
    AdsConnectors: src/app/integrations/social and /ads. Integrations: HubSpot, the OAuth
    flows with the browser session, the channels they give rise to, the email
    configuration, credentials at rest.

    The assistant. AssistantTools: every tool of src/app/assistant/tools.py, which calls
    the operations above. AssistantMemory: the stored conversation. AssistantRouter: the
    loop of router.py and the chat endpoints of api/ui/dashboard.py, with the dashboard, the
    account page and the pages of a campaign; its Module Recovery is
    src/scripts/recover_stuck_campaign.py, which runs the tools in turn, each in a
    transaction of its tenant.

    ** What the theorems show

    The files named ...Proofs hold the properties of the component of the same name; where
    a component has few, they stand at the end of its own file.

    - Tasks: the invariant of the task table, the claim order, idempotent enqueueing, the
      backoff bounds, cancellation; a failed handler leaves what it committed and the
      recorded failure. The system refines the life cycle of a job, with any handlers that
      only enqueue and cancel and so with all the built-in ones: claims, handlers, reports, reaps
      and cancellations of any number of workers come in any order, and a job counts its lapsed
      leases and the workers that still hold it, since a report is taken whatever has become of
      the task meanwhile ([late_completion_revives]). A worker drains what is due.
    - Tenants: a handler run for one tenant changes nothing another sees and depends on
      nothing but its own rows; a login confines its session to the tenant the identity
      provider vouched for, and to a user who is active. No processed log event holds a
      secret of a known form.
    - Launching: no run of the state machine reaches a launched state without
      [start_launch] succeeding from [approval_pending]; what submission snapshots is what
      the gates read; a launched campaign has a slot for every required asset. What an edit
      can change, and that the emergency pause leaves no task waiting.
    - Decisions: who can approve what, what is logged, that a batch answers every id once,
      approves exactly the eligible ones and does what its dry run says, how the other review
      paths differ.
    - Sending: nobody suppressed, capped, or already sent to is mailed; a sent attempt is
      never overwritten; whom a dispatch hands to the tool, what it counts and when the campaign
      goes live; every message carries its footer; a social asset is not dispatched
      twice; the link of the footer suppresses the address it was sent to.
    - A/B tests: the shares are exact, assignments are sticky, promotion keeps one variant;
      the verdict does not depend on the naming of the arms, the evaluator on the life cycle.
    - Provider events: nothing is written without the tenant's secret, a delivery is
      recorded once however often it arrives.
    - Planning: a plan without warnings keeps every rule, the retry loop is bounded and
      returns the first of its best attempts, an accepted proposal is the only one with a calendar
      and what the calendar gains keeps the caps, the hard caps and frequency warnings against
      their declarative meaning.
    - Content: a draft is stored with the verdict on its own text, and one that breaks a
      rule cannot be submitted; the word checks against occurrence between boundaries;
      what the copywriting tool returns whatever the model says.
    - Brand voices: at most one active per tenant under any requests, and room is made for the
      one that is asked for. Clearing a compliance
      block clears it for every check. A shared preview shows its asset and no other.
    - Outbound: enrichment only fills what is missing, within its budget; generating again
      only adds templates; segments partition the members.
    - Connectors: a post is sent again only after a failure worth retrying, among them an answer
      that was lost; the parameters of an authorization URL come out of it as they went in; a
      callback stores tokens for the session that asked, once; the email configuration is
      read back as saved, if the provider is spelled as its readers spell it; an analytics event
      is stored with the campaign its utm_campaign resolves to, and once.
    - The assistant: a tool that asks for confirmation changes nothing before it, a
      viewer's chat changes nothing but the conversation whatever the language model
      answers, and a stored conversation is one the model accepts. The recovery of a
      campaign touches no other tenant and ends well only where somebody may approve.
    - Measuring: the version history of reports, what an anomaly pass reports and writes; the CSV
      export has every value of the report under its address, and [csv.reader] finds it there.
    - Pages: the queue page shows the queue of the API, the two ways to upload a file store
      the same, no draft is left out of the drafts page, a campaign's page shows the accepted
      proposal.
    - Where the code falls short of its documentation a theorem says so at a concrete
      state ([late_completion_revives], [dismissed_fires_again], [hash_one_unseen], ...).

    ** Conventions, bounds and fuel

    - One clock reading per operation, where the code reads [datetime.now] several times;
      [run_once] takes three, one per transaction. Where the application's clock and the
      database's meet in one answer both are there: the unsubscribe endpoint, and the saved email
      configuration.
    - A query without ORDER BY returns rows in key order, and sets are iterated in order of
      first insertion; no theorem depends on either.
    - The [updated_at] trigger fires on every assignment. Foreign keys and column lengths
      are not checked, nor are the widths of integer columns, so the SMALLINT counter of a task's
      attempts, which only lapses take past its limit, is unbounded. CITEXT compares lower-cased text.
    - Strings are code points 0 to 255; the literals outside that range are written with
      " - " for the em dash, "..." for the ellipsis and "+-" for the plus-minus sign.
    - Request bodies are what pydantic has validated. [random.uniform] is a field of the
      environment. The random batch id of the email tool is left out.
    - Decimals have 28 digits (the default context) without the exponent limits; [str] of a
      float tries at most 17 digits, which always suffice for binary64; the 30 rounds that
      strip trailing zeros exceed the 28 digits of a quotient.
    - Retry loops carry the program's own bound as fuel: 3 plans, 3 copywriting calls, 3
      generation attempts. Matching a regular expression is structural.

    ** Parameters

    Code that is not in the repository: the language model ([call_model], and of the
    assistant its client and the dump of its answers), [json.loads] ([loads]), the cipher
    of stored credentials ([encrypt], [decrypt]), the token serializers ([dumps],
    [unsign], and the timed one of the previews), the far side of every HTTP request
    ([post], [send], the Apollo client), [parsedate_to_datetime] ([parse_date]),
    [re.compile] on the patterns tenants type ([re_compile]), and [erf], [log], [pow] of
    the C library.

    ** Not modelled

    Settings, the set-up of structlog and OpenTelemetry, the migrations (but for their
    indexes and policies), the templates (a page is the context its template renders), the
    validation pydantic derives from the request schemas, and the demo scripts but for the recovery: framework
    glue, or code that only drives the rest. Of an answer of the language model the SDK's
    own parsing is left to the parameter. *)

From stdpp Require Export prelude gmap strings list sorting numbers pretty.
From Stdlib Require Export ZArith Lia.

(** ** Notation *)

Declare Scope py_scope.
Delimit Scope py_scope with py.

(** Python's [==] and [in] on decidable data, as booleans. *)
Notation "x ==b y" := (bool_decide (x = y)) (at level 70, no associativity) : py_scope.
Notation "x !=b y" := (negb (bool_decide (x = y))) (at level 70, no associativity) : py_scope.
Notation "x ∈b l" := (bool_decide (x ∈ l)) (at level 70, no associativity) : py_scope.
Open Scope py_scope.

(** ** Tactics *)

(** Split every [match] and [if] of the goal, closing the easy branches. *)
Ltac destruct_matches :=
  repeat (case_match; simplify_eq/=; try done).

(** Turn the boolean tests of the code in the context into propositions. *)
Ltac reflect_bools :=
  repeat match goal with
  | H : bool_decide _ = true |- _ => apply bool_decide_eq_true_1 in H
  | H : bool_decide _ = false |- _ => apply bool_decide_eq_false_1 in H
  | H : negb _ = true |- _ => apply negb_true_iff in H
  | H : negb _ = false |- _ => apply negb_false_iff in H
  | H : (_ && _)%bool = true |- _ => apply andb_true_iff in H as [??]
  | H : (_ || _)%bool = false |- _ => apply orb_false_iff in H as [??]
  | H : (_ <? _)%Z = true |- _ => apply Z.ltb_lt in H
  | H : (_ <? _)%Z = false |- _ => apply Z.ltb_ge in H
  | H : (_ <=? _)%Z = true |- _ => apply Z.leb_le in H
  | H : (_ <=? _)%Z = false |- _ => apply Z.leb_gt in H
  | H : (_ =? _)%Z = true |- _ => apply Z.eqb_eq in H
  | H : (_ =? _)%Z = false |- _ => apply Z.eqb_neq in H
  end.

(** ** Lists *)

Section lists.
Context {A B : Type}.
Implicit Types (l : list A) (f : A → bool).

Lemma elem_of_bfilter f l x : x ∈ List.filter f l ↔ x ∈ l ∧ f x = true.
Proof. rewrite !list_elem_of_In. apply filter_In. Qed.

Lemma NoDup_bfilter f l : NoDup l → NoDup (List.filter f l).
Proof. rewrite !NoDup_ListNoDup. apply List.NoDup_filter. Qed.

Lemma bfilter_ext (f g : A → bool) l :
  (∀ x, x ∈ l → f x = g x) → List.filter f l = List.filter g l.
Proof.
  induction l as [|x l IH]; intros Hf; simpl; [done|]. rewrite (Hf x) by left.
  rewrite IH; [done|]. intros y Hy. apply Hf. by right.
Qed.

Lemma bfilter_nil_iff f l : List.filter f l = [] ↔ ∀ x, x ∈ l → f x = false.
Proof.
  split.
  - intros Hnil x Hx. destruct (f x) eqn:Hf; [|done].
    assert (x ∈ List.filter f l) as H by (by apply elem_of_bfilter).
    rewrite Hnil in H. by apply not_elem_of_nil in H.
  - intros H. destruct (List.filter f l) as [|y k] eqn:E; [done|].
    assert (y ∈ List.filter f l) as Hy by (rewrite E; left).
    apply elem_of_bfilter in Hy as [Hy Hf]. by rewrite (H y Hy) in Hf.
Qed.

(** The rows a filter keeps and the rows it drops add up. *)
Lemma length_bfilter_split f l :
  length l = length (List.filter f l) + length (List.filter (λ x, negb (f x)) l).
Proof. induction l as [|x l IH]; simpl; [done|]. destruct (f x); simpl; lia. Qed.

Lemma existsb_elem_of f l : existsb f l = true ↔ ∃ x, x ∈ l ∧ f x = true.
Proof. rewrite existsb_exists. by setoid_rewrite list_elem_of_In. Qed.

Lemma forallb_elem_of f l : forallb f l = true ↔ ∀ x, x ∈ l → f x = true.
Proof. rewrite forallb_forall. by setoid_rewrite list_elem_of_In. Qed.
End lists.

(** ** Reflexive and transitive closures of step relations *)

(** [rtc] is stdpp's; an invariant of every step is an invariant of a run. *)
Lemma rtc_invariant {S} (R : relation S) (I : S → Prop) s s' :
  (∀ a b, I a → R a b → I b) → rtc R s s' → I s → I s'.
Proof. intros Hstep. induction 1 as [|a b c Hab _ IH]; eauto. Qed.

(** ** Hints *)

Create HintDb mas discriminated.
