(* ===== verification/PyStd.v ===== *)
(** * Python built-ins the program relies on

    Strings (code points 0 to 255), insertion-ordered dictionaries, JSON
    values, the canonical text of a UUID and its parser, and timestamps in
    microseconds. Decimals and dates as text are in PyNum, binary64 in Flt. *)

From Stdlib Require Export Strings.Ascii Strings.String.
From S2P Require Export Prelude.
Local Open Scope Z_scope.

(** ** Characters and strings *)

Definition code (c : ascii) : Z := Z.of_N (N_of_ascii c).

(** [str.lower] on one Latin-1 code point. *)
Definition lower_char (c : ascii) : ascii :=
  let n := N_of_ascii c in
  if ((65 <=? n) && (n <=? 90) || ((192 <=? n) && (n <=? 222) && negb (n =? 215)))%N
  then ascii_of_N (n + 32) else c.

(** [str.isspace] on one Latin-1 code point. *)
Definition is_space (c : ascii) : bool :=
  let n := code c in
  ((9 <=? n) && (n <=? 13)) || ((28 <=? n) && (n <=? 32)) || (n =? 133) || (n =? 160).

Fixpoint str_lower (s : string) : string :=
  match s with
  | EmptyString => EmptyString
  | String c s => String (lower_char c) (str_lower s)
  end.

Fixpoint str_lstrip (p : ascii → bool) (s : string) : string :=
  match s with
  | EmptyString => EmptyString
  | String c s' => if p c then str_lstrip p s' else s
  end.

Fixpoint str_rstrip (p : ascii → bool) (s : string) : string :=
  match s with
  | EmptyString => EmptyString
  | String c s' =>
      match str_rstrip p s' with
      | EmptyString => if p c then EmptyString else String c EmptyString
      | t => String c t
      end
  end.

(** [s.strip(chars)] and [s.strip()]. *)
Definition strip_by (p : ascii → bool) (s : string) : string := str_rstrip p (str_lstrip p s).
Definition str_strip (s : string) : string := strip_by is_space s.

(** [s.replace(p, "")] for a non-empty [p]; [k] counts characters still to skip. *)
Fixpoint remove_sub (p : string) (k : nat) (s : string) : string :=
  match s with
  | EmptyString => EmptyString
  | String c s' =>
      match k with
      | S k' => remove_sub p k' s'
      | O => if String.prefix p s then remove_sub p (String.length p - 1) s'
             else String c (remove_sub p 0 s')
      end
  end.

(** [p in s]. *)
Fixpoint contains (p s : string) : bool :=
  String.prefix p s ||
  match s with
  | EmptyString => false
  | String _ s' => contains p s'
  end.

Definition newline : string := String (ascii_of_nat 10) "".

(** [sep.join(l)]. *)
Fixpoint str_join (sep : string) (l : list string) : string :=
  match l with
  | [] => ""
  | [x] => x
  | x :: l => x +:+ sep +:+ str_join sep l
  end.

(** The order of [sorted] on strings, and the middle dot between spaces. *)
Definition string_le (x y : string) : Prop := String.leb x y = true.
#[export] Instance string_le_dec : RelDecision string_le.
Proof. intros x y. unfold string_le. apply _. Defined.
Definition middle_dot : string := " " +:+ String (ascii_of_nat 183) " ".

(** [s.split(c)], [acc] being the current piece. *)
Fixpoint str_split (c : ascii) (acc s : string) : list string :=
  match s with
  | EmptyString => [acc]
  | String x s =>
      if x ==b c then acc :: str_split c "" s else str_split c (acc +:+ String x "") s
  end.

(** [s.splitlines()] on Latin-1; [cr] after a carriage return. *)
Definition is_line_break (c : ascii) : bool :=
  let n := N_of_ascii c in
  (((10 <=? n) && (n <=? 13)) || ((28 <=? n) && (n <=? 30)) || (n =? 133))%N.
Fixpoint lines_from (cr : bool) (acc s : string) : list string :=
  match s with
  | EmptyString => if acc ==b "" then [] else [acc]
  | String c s =>
      if cr && (N_of_ascii c =? 10)%N then lines_from false acc s
      else if is_line_break c then acc :: lines_from (N_of_ascii c =? 13)%N "" s
      else lines_from false (acc +:+ String c "") s
  end.
Definition splitlines (s : string) : list string := lines_from false "" s.

(** [str.upper] on Latin-1: the sharp s becomes two letters; the two code points whose
    capital lies beyond it are kept. *)
Definition upper_char (c : ascii) : string :=
  let n := N_of_ascii c in
  if (n =? 223)%N then "SS"
  else if ((97 <=? n) && (n <=? 122) || (224 <=? n) && (n <=? 254) && negb (n =? 247))%N
  then String (ascii_of_N (n - 32)) "" else String c "".
Fixpoint str_upper (s : string) : string :=
  match s with EmptyString => "" | String c s => upper_char c +:+ str_upper s end.

Definition str_of_Z (z : Z) : string := pretty z.
Definition str_empty (s : string) : bool := match s with EmptyString => true | _ => false end.
Lemma str_empty_ne s : str_empty s = false ↔ s ≠ "".
Proof. by destruct s. Qed.

(** [s[:n]]. *)
Fixpoint str_take (n : nat) (s : string) : string :=
  match n, s with
  | S n, String c s => String c (str_take n s)
  | _, _ => EmptyString
  end.

Fixpoint str_all (p : ascii → bool) (s : string) : bool :=
  match s with
  | EmptyString => true
  | String c s => p c && str_all p s
  end.

(** ** Dictionaries, in insertion order *)

Section dict.
Context {V : Type}.
Implicit Types d : list (string * V).

(** [d.get(k)]. *)
Fixpoint dget (k : string) d : option V :=
  match d with
  | [] => None
  | (k', v) :: d => if k ==b k' then Some v else dget k d
  end.

(** [d[k] = v]: replaces in place, appends a new key. *)
Fixpoint dset (k : string) (v : V) d : list (string * V) :=
  match d with
  | [] => [(k, v)]
  | (k', v') :: d => if k ==b k' then (k', v) :: d else (k', v') :: dset k v d
  end.

(** [{**d, **e}], and [d.update(e)]. *)
Definition dmerge d (e : list (string * V)) : list (string * V) :=
  fold_left (λ acc kv, dset kv.1 kv.2 acc) e d.

Lemma dget_dset_eq k v d : dget k (dset k v d) = Some v.
Proof.
  induction d as [|[k' v'] d IH]; simpl.
  - by rewrite bool_decide_true.
  - case_bool_decide as E; simpl; [by rewrite bool_decide_true|].
    by rewrite bool_decide_false.
Qed.

Lemma dget_dset_ne k k' v d : k ≠ k' → dget k (dset k' v d) = dget k d.
Proof.
  intros Hne. induction d as [|[k1 v1] d IH]; simpl.
  - by rewrite bool_decide_false.
  - case_bool_decide; simpl; case_bool_decide; congruence.
Qed.

Lemma dget_dmerge_not_in k d e :
  (∀ v, (k, v) ∉ e) → dget k (dmerge d e) = dget k d.
Proof.
  revert d. induction e as [|[k' v'] e IH]; intros d Hk; simpl; [done|].
  rewrite IH; [|set_solver]. simpl. apply dget_dset_ne.
  intros ->. apply (Hk v'). left.
Qed.

(** The keys of an object are distinct, as those of every object. *)
Lemma dget_elem k (v : V) d : NoDup d.*1 → (k, v) ∈ d → dget k d = Some v.
Proof.
  induction d as [|[k' v'] d IH]; [by intros _ ?%not_elem_of_nil|].
  rewrite fmap_cons. intros [Hk Hd]%NoDup_cons [[= <- <-]|Hin]%elem_of_cons; cbn.
  - by rewrite bool_decide_eq_true_2.
  - rewrite bool_decide_eq_false_2; [by apply IH|]. intros <-. apply Hk. by apply (list_elem_of_fmap_2 fst) in Hin.
Qed.

Lemma elem_dget k (v : V) d : dget k d = Some v → (k, v) ∈ d.
Proof.
  induction d as [|[k' v'] d IH]; [done|]. cbn. case_bool_decide as E; [|right; by apply IH].
  intros [= <-]. subst k'. by left.
Qed.
End dict.

(** ** JSON values *)

(** A decimal number [m * 10 ^ e]. *)
Record dec := Dec { dm : Z; de : Z }.

(** A JSON document. A float is given by the decimal its [repr] prints. *)
#[warnings="-register-all"]
Inductive json :=
  | JNull
  | JBool (b : bool)
  | JInt (z : Z)
  | JFloat (d : dec)
  | JStr (s : string)
  | JList (l : list json)
  | JObj (d : list (string * json)).

Abbreviation jdict := (list (string * json)).

(** [bool(v)]. *)
Definition truthy (v : json) : bool :=
  match v with
  | JNull => false
  | JBool b => b
  | JInt z => negb (z =? 0)
  | JFloat d => negb (dm d =? 0)
  | JStr s => negb (str_empty s)
  | JList l => negb (bool_decide (length l = 0%nat))
  | JObj d => negb (bool_decide (length d = 0%nat))
  end.

(** [d.get(k) or None], as a truthiness test. *)
Definition opt_truthy (o : option json) : bool := from_option truthy false o.

(** [isinstance(v, str)], keeping the string. *)
Definition as_str (o : option json) : option string :=
  match o with Some (JStr s) => Some s | _ => None end.
Definition as_obj (o : option json) : option jdict :=
  match o with Some (JObj d) => Some d | _ => None end.
Definition as_list (o : option json) : option (list json) :=
  match o with Some (JList l) => Some l | _ => None end.

Definition jopt {A} (f : A → json) (o : option A) : json := from_option f JNull o.

(** ** Dates and times: microseconds since the epoch, UTC *)

Definition second : Z := 1000000.
Definition minute : Z := 60 * second.
Definition hour : Z := 60 * minute.
Definition day : Z := 24 * hour.

(** [dt.date()] as a day number, and [datetime.combine(d, time(h))]. *)
Definition date_of (t : Z) : Z := t / day.
Definition combine_hour (d h : Z) : Z := d * day + h * hour.

Lemma date_of_combine d h : 0 <= h < 24 → date_of (combine_hour d h) = d.
Proof.
  intros Hh. unfold date_of, combine_hour, day.
  rewrite Z.add_comm, Z_div_plus by (unfold hour, minute, second; lia).
  rewrite Z.div_small; [lia|]. unfold hour, minute, second. lia.
Qed.

(** ** Rounding *)

(** [round(a / b)] to the nearest integer, ties to even, for [b > 0]. The
    program divides small integers, where the binary64 quotient is a half
    exactly when the rational quotient is. *)
Definition round_half_even (a b : Z) : Z :=
  let q := a / b in
  let r2 := 2 * (a mod b) in
  if r2 <? b then q
  else if b <? r2 then q + 1
  else if Z.even q then q else q + 1.

Lemma round_half_even_bounds a b :
  0 < b → 2 * a - b <= 2 * b * round_half_even a b <= 2 * a + b.
Proof.
  intros Hb. unfold round_half_even.
  pose proof (Z.div_mod a b ltac:(lia)). pose proof (Z.mod_pos_bound a b Hb).
  destruct (2 * (a mod b) <? b) eqn:E1; reflect_bools; [nia|].
  destruct (b <? 2 * (a mod b)) eqn:E2; reflect_bools; [nia|].
  destruct (Z.even _); nia.
Qed.

Lemma round_half_even_exact k b : 0 < b → round_half_even (k * b) b = k.
Proof.
  intros Hb. unfold round_half_even.
  rewrite Z.mod_mul by lia. rewrite Z.div_mul by lia.
  destruct (2 * 0 <? b) eqn:E; reflect_bools; lia.
Qed.

Lemma round_half_even_mono a a' b :
  0 < b → a <= a' → round_half_even a b <= round_half_even a' b.
Proof.
  intros Hb Ha. unfold round_half_even.
  pose proof (Z.div_mod a b ltac:(lia)). pose proof (Z.mod_pos_bound a b Hb).
  pose proof (Z.div_mod a' b ltac:(lia)). pose proof (Z.mod_pos_bound a' b Hb).
  assert (a / b <= a' / b) by (apply Z.div_le_mono; lia).
  destruct (decide (a / b = a' / b)) as [Eq|Ne].
  - assert (a mod b <= a' mod b) by nia. rewrite Eq.
    destruct (2 * (a mod b) <? b) eqn:E1, (2 * (a' mod b) <? b) eqn:E2,
      (b <? 2 * (a mod b)) eqn:E3, (b <? 2 * (a' mod b)) eqn:E4,
      (Z.even (a' / b)) eqn:E5; reflect_bools; lia.
  - destruct (2 * (a mod b) <? b), (b <? 2 * (a mod b)), (Z.even (a / b)),
      (2 * (a' mod b) <? b), (b <? 2 * (a' mod b)), (Z.even (a' / b)); lia.
Qed.

(** ** Integers in base 16 and UUIDs *)

Definition hex_char (d : N) : ascii :=
  if (d <? 10)%N then ascii_of_N (48 + d) else ascii_of_N (87 + d).

(** The last [k] hexadecimal digits of [n]. *)
Fixpoint hexs (k : nat) (n : N) : string :=
  match k with
  | O => ""
  | S k' => String (hex_char ((n / 16 ^ N.of_nat k') mod 16)) (hexs k' n)
  end.

(** [str(UUID(int=n))]. *)
Definition uuid_str (n : N) : string :=
  hexs 8 (n / 16 ^ 24) +:+ "-" +:+ hexs 4 (n / 16 ^ 20) +:+ "-" +:+ hexs 4 (n / 16 ^ 16)
  +:+ "-" +:+ hexs 4 (n / 16 ^ 12) +:+ "-" +:+ hexs 12 n.

Definition hex_val (c : ascii) : option N :=
  let n := N_of_ascii c in
  if ((48 <=? n) && (n <=? 57))%N then Some (n - 48)%N
  else if ((97 <=? n) && (n <=? 102))%N then Some (n - 87)%N
  else if ((65 <=? n) && (n <=? 70))%N then Some (n - 55)%N
  else None.

(** Digits with single underscores between them; [us] allows an underscore here. *)
Fixpoint hex_digits (us : bool) (acc : N) (s : string) : option N :=
  match s with
  | EmptyString => if us then Some acc else None
  | String c s' =>
      if c ==b "_"%char then (if us then hex_digits false acc s' else None)
      else match hex_val c with
           | Some d => hex_digits true (acc * 16 + d) s'
           | None => None
           end
  end.

(** [int(s, 16)]. *)
Definition int_hex (s : string) : option Z :=
  let s := str_strip s in
  let '(neg, s) := match s with
                   | String "-" s' => (true, s')
                   | String "+" s' => (false, s')
                   | _ => (false, s)
                   end in
  let n := match s with
           | String "0" (String "x" (String "_" s')) => hex_digits false 0 s'
           | String "0" (String "X" (String "_" s')) => hex_digits false 0 s'
           | String "0" (String "x" s') => hex_digits false 0 s'
           | String "0" (String "X" s') => hex_digits false 0 s'
           | _ => hex_digits false 0 s
           end in
  (λ n, if neg : bool then - Z.of_N n else Z.of_N n) <$> n.

Definition is_brace (c : ascii) : bool := (c ==b "{"%char) || (c ==b "}"%char).

(** [UUID(s)]; [None] is the [ValueError]. *)
Definition uuid_parse (s : string) : option N :=
  let hex := remove_sub "-" 0 (strip_by is_brace (remove_sub "uuid:" 0 (remove_sub "urn:" 0 s))) in
  if bool_decide (String.length hex = 32%nat) then
    match int_hex hex with
    | Some i => if (0 <=? i) && (i <? 2 ^ 128) then Some (Z.to_N i) else None
    | None => None
    end
  else None.

(** *** The round trip *)

Lemma append_nil_l (b : string) : "" +:+ b = b.
Proof. done. Qed.

Lemma append_cons c (a b : string) : String c a +:+ b = String c (a +:+ b).
Proof. done. Qed.

Lemma append_assoc_s (a b c : string) : (a +:+ b) +:+ c = a +:+ (b +:+ c).
Proof. induction a as [|x a IH]; [done|]. by rewrite !append_cons, IH. Qed.

Lemma length_append (a b : string) :
  String.length (a +:+ b) = (String.length a + String.length b)%nat.
Proof. induction a as [|x a IH]; [done|]. rewrite append_cons; simpl; lia. Qed.

Lemma str_all_app p a b : str_all p (a +:+ b) = str_all p a && str_all p b.
Proof. induction a as [|x a IH]; [done|]. rewrite append_cons; simpl. by rewrite IH, andb_assoc. Qed.

Lemma length_hexs k n : String.length (hexs k n) = k.
Proof. induction k; simpl; auto. Qed.

Lemma hexs_app a b n : hexs a (n / 16 ^ N.of_nat b) +:+ hexs b n = hexs (a + b) n.
Proof.
  induction a as [|a IH]; [done|]. simpl. rewrite append_cons. f_equal; [|done].
  do 2 f_equal. rewrite N.Div0.div_div, <- N.pow_add_r. do 2 f_equal. lia.
Qed.

(** The characters [hexs] prints. *)
Definition is_hex (c : ascii) : bool :=
  let n := N_of_ascii c in
  ((48 <=? n) && (n <=? 57) || (97 <=? n) && (n <=? 102))%N.

Lemma hex_char_cases (p : N → bool) :
  forallb p (N.of_nat <$> seq 0 16) = true → ∀ d, (d < 16)%N → p d = true.
Proof.
  rewrite forallb_elem_of. intros Hp d Hd. apply Hp, list_elem_of_fmap.
  exists (N.to_nat d). rewrite elem_of_seq. lia.
Qed.

Lemma is_hex_char d : (d < 16)%N → is_hex (hex_char d) = true.
Proof. revert d. by apply hex_char_cases. Qed.

Lemma hex_val_char d : (d < 16)%N → hex_val (hex_char d) = Some d.
Proof.
  intros Hd. apply (bool_decide_eq_true_1 _).
  revert d Hd. by apply (hex_char_cases (λ d, bool_decide (hex_val (hex_char d) = Some d))).
Qed.

Lemma is_hex_hexs k n : str_all is_hex (hexs k n) = true.
Proof.
  induction k as [|k IH]; simpl; [done|]. rewrite IH, is_hex_char; [done|].
  apply N.mod_lt. lia.
Qed.

Lemma hex_not_underscore c : is_hex c = true → (c ==b "_"%char) = false.
Proof. intros Hc. apply bool_decide_eq_false_2. by intros ->. Qed.

Lemma hex_digits_hexs k n us acc :
  (0 < k)%nat ∨ us = true →
  hex_digits us acc (hexs k n) = Some (acc * 16 ^ N.of_nat k + n mod 16 ^ N.of_nat k)%N.
Proof.
  revert us acc. induction k as [|k IH]; intros us acc Hk; cbn [hexs hex_digits].
  - destruct Hk as [?| ->]; [lia|]. rewrite N.pow_0_r, N.mod_1_r. f_equal. lia.
  - assert ((n / 16 ^ N.of_nat k) mod 16 < 16)%N by (apply N.mod_lt; lia).
    rewrite hex_not_underscore by (by apply is_hex_char).
    rewrite hex_val_char by done. rewrite IH by auto. f_equal.
    rewrite Nat2N.inj_succ, N.pow_succ_r'.
    rewrite (N.mul_comm 16 (16 ^ _)), (N.Div0.mod_mul_r n (16 ^ N.of_nat k) 16). lia.
Qed.

(** A pattern whose first character does not occur removes nothing. *)
Lemma remove_sub_absent c p s :
  str_all (λ x, negb (x ==b c)) s = true → remove_sub (String c p) 0 s = s.
Proof.
  induction s as [|x s IH]; [done|]. cbn [str_all]. intros [Hx Hs]%andb_true_iff.
  cbn [remove_sub]. assert (String.prefix (String c p) (String x s) = false) as ->.
  { simpl. reflect_bools. destruct (ascii_dec c x); [congruence|done]. }
  by rewrite IH.
Qed.

Lemma remove_sub_app_char c a b :
  remove_sub (String c "") 0 (a +:+ b) =
  remove_sub (String c "") 0 a +:+ remove_sub (String c "") 0 b.
Proof.
  induction a as [|x a IH]; [done|]. rewrite append_cons. cbn [remove_sub String.length Nat.sub].
  simpl String.prefix. destruct (ascii_dec c x); simpl.
  - assert (String.prefix "" (a +:+ b) = true) as -> by (by destruct (a +:+ b)).
    assert (String.prefix "" a = true) as -> by (by destruct a). done.
  - by rewrite IH.
Qed.

Lemma str_all_impl (p q : ascii → bool) s :
  (∀ c, p c = true → q c = true) → str_all p s = true → str_all q s = true.
Proof.
  intros Hpq. induction s as [|c s IH]; simpl; [done|].
  intros [Hc Hs]%andb_true_iff. by rewrite Hpq, IH.
Qed.

Lemma strip_by_none p s : str_all (λ c, negb (p c)) s = true → strip_by p s = s.
Proof.
  intros Hs. unfold strip_by. assert (str_lstrip p s = s) as ->.
  { destruct s as [|c s]; simpl in *; [done|]. by destruct (p c). }
  induction s as [|c s IH]; simpl in *; [done|].
  apply andb_true_iff in Hs as [Hc Hs]. rewrite IH by done.
  destruct s; simpl; [|done]. by destruct (p c).
Qed.

Lemma hex_ne c x : is_hex x = false → is_hex c = true → negb (c ==b x) = true.
Proof. intros Hx Hc. apply negb_true_iff, bool_decide_eq_false_2. congruence. Qed.

Lemma remove_sub_hexs c p k n :
  is_hex c = false → remove_sub (String c p) 0 (hexs k n) = hexs k n.
Proof.
  intros Hc. apply remove_sub_absent.
  apply (str_all_impl is_hex); [intros x; by apply hex_ne|apply is_hex_hexs].
Qed.

Lemma int_hex_hexs k n :
  (2 ≤ k)%nat → int_hex (hexs k n) = Some (Z.of_N (n mod 16 ^ N.of_nat k)).
Proof.
  intros Hk. unfold int_hex. unfold str_strip. rewrite strip_by_none.
  2:{ apply (str_all_impl is_hex); [|apply is_hex_hexs].
      by intros [[] [] [] [] [] [] [] []]. }
  pose proof (is_hex_hexs k n) as Hx. pose proof (hex_digits_hexs k n false 0) as Hd.
  rewrite N.mul_0_l, N.add_0_l in Hd.
  destruct (hexs k n) as [|c [|d s]] eqn:E;
    [apply (f_equal String.length) in E; rewrite length_hexs in E; simpl in E; lia..|].
  cbn [str_all] in Hx. apply andb_true_iff in Hx as [Hc [Hdd _]%andb_true_iff].
  transitivity (Z.of_N <$> hex_digits false 0 (String c (String d s)));
    [|by rewrite (Hd ltac:(lia))].
  destruct c as [[] [] [] [] [] [] [] []]; try done;
    destruct d as [[] [] [] [] [] [] [] []]; try done.
Qed.

Lemma uuid_str_no_sub c p n :
  is_hex c = false → c ≠ "-"%char → remove_sub (String c p) 0 (uuid_str n) = uuid_str n.
Proof.
  intros Hc Hne. apply remove_sub_absent. unfold uuid_str.
  assert (∀ k m, str_all (λ x, negb (x ==b c)) (hexs k m) = true) as Hh.
  { intros k m. apply (str_all_impl is_hex); [intros x; by apply hex_ne|apply is_hex_hexs]. }
  rewrite !str_all_app, !Hh. simpl. rewrite bool_decide_eq_false_2 by congruence. done.
Qed.

Lemma uuid_str_no_braces n : strip_by is_brace (uuid_str n) = uuid_str n.
Proof.
  apply strip_by_none. unfold uuid_str.
  assert (∀ k m, str_all (λ x, negb (is_brace x)) (hexs k m) = true) as Hh.
  { intros k m. apply (str_all_impl is_hex); [|apply is_hex_hexs].
    by intros [[] [] [] [] [] [] [] []]. }
  by rewrite !str_all_app, !Hh.
Qed.

Lemma uuid_str_no_dashes n : remove_sub "-" 0 (uuid_str n) = hexs 32 n.
Proof.
  unfold uuid_str. rewrite !remove_sub_app_char, !remove_sub_hexs by done.
  change (remove_sub "-" 0 "-") with "". rewrite !append_nil_l.
  rewrite (hexs_app 4 12), (hexs_app 4 16), (hexs_app 4 20). apply (hexs_app 8 24).
Qed.

(** [UUID(str(u)) == u]. *)
Lemma uuid_parse_str n : (n < 2 ^ 128)%N → uuid_parse (uuid_str n) = Some n.
Proof.
  intros Hn. unfold uuid_parse.
  rewrite !uuid_str_no_sub, uuid_str_no_braces, uuid_str_no_dashes by done.
  rewrite length_hexs, int_hex_hexs by lia. rewrite bool_decide_true by done.
  rewrite N.mod_small by done.
  assert ((0 <=? Z.of_N n) && (Z.of_N n <? 2 ^ 128) = true) as -> by lia.
  by rewrite N2Z.id.
Qed.

Lemma uuid_str_inj n m :
  (n < 2 ^ 128)%N → (m < 2 ^ 128)%N → uuid_str n = uuid_str m → n = m.
Proof.
  intros Hn Hm E. apply uuid_parse_str in Hn, Hm. rewrite E in Hn. congruence.
Qed.
