(* ===== verification/Regex.v ===== *)
(** * Regular expressions

    The part of Python's [re] the program relies on: backtracking matching of greedy
    expressions over Latin-1 text, [finditer], word boundaries and word tokens. A
    repetition stops at a match of nothing, so every function is structural. *)

From S2P Require Export PyStd.
Local Open Scope Z_scope.

(** [\w] on one Latin-1 code point. *)
Definition is_word (c : ascii) : bool :=
  let n := N_of_ascii c in
  ((48 <=? n) && (n <=? 57) || (65 <=? n) && (n <=? 90) || (n =? 95) || (97 <=? n) && (n <=? 122) ||
   (n =? 170) || (n =? 178) || (n =? 179) || (n =? 181) || (n =? 185) || (n =? 186) ||
   (188 <=? n) && (n <=? 190) ||
   (192 <=? n) && negb (n =? 215) && negb (n =? 247))%N.

Inductive regex :=
  | Eps
  | Chr (p : ascii → bool)
  | WordB
  | Cat (a b : regex)
  | Alt (a b : regex)
  | Star (a : regex).

Definition Opt (a : regex) : regex := Alt a Eps.

(** A boundary between a word character and what is none. *)
Definition boundary (prev : option ascii) (s : string) : bool :=
  xorb (from_option is_word false prev) (match s with String c _ => is_word c | "" => false end).

(** Match [r] at a position of a text, [prev] being the character before it, and go on with
    [k]; the result is the end of the first match found. *)
Fixpoint rmatch (r : regex) (prev : option ascii) (s : string) (pos : nat)
    (k : option ascii → string → nat → option nat) : option nat :=
  match r with
  | Eps => k prev s pos
  | Chr p => match s with
             | String c s => if p c then k (Some c) s (S pos) else None
             | "" => None
             end
  | WordB => if boundary prev s then k prev s pos else None
  | Cat a b => rmatch a prev s pos (λ prev s pos, rmatch b prev s pos k)
  | Alt a b => match rmatch a prev s pos k with Some e => Some e | None => rmatch b prev s pos k end
  | Star a =>
      (fix star (n : nat) (prev : option ascii) (s : string) (pos : nat) : option nat :=
         match n with
         | O => k prev s pos
         | S n =>
             match rmatch a prev s pos (λ prev' s' pos',
                     if (pos' =? pos)%nat then None else star n prev' s' pos') with
             | Some e => Some e
             | None => k prev s pos
             end
         end) (String.length s) prev s pos
  end.

(** The end of the match at a position; a match of nothing can be forbidden. *)
Definition match_end (r : regex) (nonempty : bool) (prev : option ascii) (s : string) (pos : nat) : option nat :=
  rmatch r prev s pos (λ _ _ e, if nonempty && (e =? pos)%nat then None else Some e).

(** [finditer]: the spans of the matches from left to right, none overlapping another;
    [skip] characters belong to the last one. *)
Fixpoint finditer_from (r : regex) (skip : nat) (prev : option ascii) (s : string) (pos : nat)
    : list (nat * nat) :=
  let step e := match s with
                | "" => []
                | String c s => finditer_from r (e - S pos) (Some c) s (S pos)
                end in
  match skip with
  | S skip => match s with "" => [] | String c s => finditer_from r skip (Some c) s (S pos) end
  | O =>
      match match_end r false prev s pos with
      | None => step (S pos)
      | Some e =>
          if (pos <? e)%nat then (pos, e) :: step e
          else (pos, pos) :: match match_end r true prev s pos with
                             | Some e => (pos, e) :: step e
                             | None => step (S pos)
                             end
      end
  end.

Definition finditer (r : regex) (s : string) : list (nat * nat) := finditer_from r 0 None s 0.

(** [re.search(...)] is not None. *)
Definition matches (r : regex) (s : string) : bool := match finditer r s with [] => false | _ => true end.

(** ** Building expressions *)

(** A literal under IGNORECASE. *)
Fixpoint lit (s : string) : regex :=
  match s with
  | "" => Eps
  | String c s => Cat (Chr (λ x, lower_char x ==b lower_char c)) (lit s)
  end.

Definition one_of (cs : list ascii) : regex := Chr (λ x, existsb (λ c, x ==b c) cs).
Definition space_class : regex := Chr is_space.
Fixpoint alts (rs : list regex) : regex :=
  match rs with [] => Chr (λ _, false) | [r] => r | r :: rs => Alt r (alts rs) end.
Definition seqs (rs : list regex) : regex := foldr Cat Eps rs.

(** [\b(?:...)\b] *)
Definition bounded (r : regex) : regex := Cat WordB (Cat r WordB).

(** [r"\b" + re.escape(word) + r"\b"] under IGNORECASE. *)
Definition exact_word (word : string) : regex := bounded (lit word).

(** ** Tokens *)

(** [re.findall(r"\b\w+\b", s)]: the maximal runs of word characters. *)
Fixpoint tokens_from (acc s : string) : list string :=
  let close := if acc ==b "" then [] else [acc] in
  match s with
  | "" => close
  | String c s => if is_word c then tokens_from (acc +:+ String c "") s else close ++ tokens_from "" s
  end.
Definition tokens (s : string) : list string := tokens_from "" s.

Example finditer_words : finditer (exact_word "best") "The BEST bestie, best" = [(4, 8); (17, 21)]%nat.
Proof. vm_compute. reflexivity. Qed.
Example finditer_empty : finditer (Star (lit "a")) "baac" = [(0, 0); (1, 3); (3, 3); (4, 4)]%nat.
Proof. vm_compute. reflexivity. Qed.
Example tokens_sample : tokens "it's 100% new" = ["it"; "s"; "100"; "new"].
Proof. vm_compute. reflexivity. Qed.
