(* ===== verification/Blake2b.v ===== *)
(** * BLAKE2b

    [hashlib.blake2b(data, digest_size=n)] without key, salt or personalisation, as
    RFC 7693 defines it: 64-bit words as [Z] with their wrap-around written out,
    data as a list of bytes. The A/B assignment buckets recipients with it. *)

From S2P Require Export PyStd.
Local Open Scope Z_scope.

Definition w64 : Z := 2 ^ 64.
Definition add64 (a b : Z) : Z := (a + b) mod w64.
Definition rotr64 (x : Z) (n : Z) : Z :=
  Z.lor (Z.shiftr x n) (Z.shiftl x (64 - n) mod w64).

Definition IV : list Z := [
  0x6a09e667f3bcc908; 0xbb67ae8584caa73b; 0x3c6ef372fe94f82b; 0xa54ff53a5f1d36f1;
  0x510e527fade682d1; 0x9b05688c2b3e6c1f; 0x1f83d9abfb41bd6b; 0x5be0cd19137e2179].

Definition SIGMA : list (list nat) := [
  [0; 1; 2; 3; 4; 5; 6; 7; 8; 9; 10; 11; 12; 13; 14; 15];
  [14; 10; 4; 8; 9; 15; 13; 6; 1; 12; 0; 2; 11; 7; 5; 3];
  [11; 8; 12; 0; 5; 2; 15; 13; 10; 14; 3; 6; 7; 1; 9; 4];
  [7; 9; 3; 1; 13; 12; 11; 14; 2; 6; 5; 10; 4; 0; 15; 8];
  [9; 0; 5; 7; 2; 4; 10; 15; 14; 1; 11; 12; 6; 8; 3; 13];
  [2; 12; 6; 10; 0; 11; 8; 3; 4; 13; 7; 5; 15; 14; 1; 9];
  [12; 5; 1; 15; 14; 13; 4; 10; 0; 7; 6; 3; 9; 2; 8; 11];
  [13; 11; 7; 14; 12; 1; 3; 9; 5; 0; 15; 4; 8; 6; 2; 10];
  [6; 15; 14; 9; 11; 3; 0; 8; 12; 2; 13; 7; 1; 4; 10; 5];
  [10; 2; 8; 4; 7; 6; 1; 5; 15; 11; 9; 14; 3; 12; 13; 0];
  [0; 1; 2; 3; 4; 5; 6; 7; 8; 9; 10; 11; 12; 13; 14; 15];
  [14; 10; 4; 8; 9; 15; 13; 6; 1; 12; 0; 2; 11; 7; 5; 3]]%nat.

Definition word (l : list Z) (i : nat) : Z := nth i l 0.

(** The mixing function G on the words [a b c d] of [v]. *)
Definition mix (a b c d : nat) (x y : Z) (v : list Z) : list Z :=
  let va := add64 (add64 (word v a) (word v b)) x in
  let vd := rotr64 (Z.lxor (word v d) va) 32 in
  let vc := add64 (word v c) vd in
  let vb := rotr64 (Z.lxor (word v b) vc) 24 in
  let va := add64 (add64 va vb) y in
  let vd := rotr64 (Z.lxor vd va) 16 in
  let vc := add64 vc vd in
  let vb := rotr64 (Z.lxor vb vc) 63 in
  <[a := va]> (<[b := vb]> (<[c := vc]> (<[d := vd]> v))).

Definition MIX_STEPS : list (nat * nat * nat * nat) := [
  (0, 4, 8, 12); (1, 5, 9, 13); (2, 6, 10, 14); (3, 7, 11, 15);
  (0, 5, 10, 15); (1, 6, 11, 12); (2, 7, 8, 13); (3, 4, 9, 14)]%nat.

Definition blake_round (m : list Z) (v : list Z) (s : list nat) : list Z :=
  fold_left (λ v i,
    let '(a, b, c, d) := nth i MIX_STEPS (0, 0, 0, 0)%nat in
    mix a b c d (word m (nth (2 * i) s 0%nat)) (word m (nth (2 * i + 1) s 0%nat)) v)
    (seq 0 8) v.

(** The compression function; [t] counts the bytes hashed, [last] the final block. *)
Definition compress (h m : list Z) (t : Z) (last : bool) : list Z :=
  let v := h ++ IV in
  let v := <[12%nat := Z.lxor (word v 12) (t mod w64)]> v in
  let v := <[13%nat := Z.lxor (word v 13) (t / w64)]> v in
  let v := if last then <[14%nat := Z.lxor (word v 14) (w64 - 1)]> v else v in
  let v := fold_left (blake_round m) SIGMA v in
  (λ i, Z.lxor (word h i) (Z.lxor (word v i) (word v (i + 8)%nat))) <$> seq 0 8.

(** A little-endian word of eight bytes. *)
Definition le_word (bs : list Z) : Z := foldr (λ b acc, b + 256 * acc) 0 bs.

(** The sixteen words of a block, padded with zeros. *)
Definition block_words (bs : list Z) : list Z :=
  (λ i, le_word (take 8 (drop (8 * i) bs))) <$> seq 0 16.

(** The blocks of the message, [fuel] more than enough of them. *)
Fixpoint blocks (fuel : nat) (h : list Z) (t : Z) (data : list Z) : list Z :=
  match fuel with
  | O => h
  | S fuel =>
      let n := Z.of_nat (length data) in
      if n <=? 128 then compress h (block_words data) (t + n) true
      else blocks fuel (compress h (block_words (take 128 data)) (t + 128) false)
             (t + 128) (drop 128 data)
  end.

Definition le_bytes (w : Z) : list Z := (λ i, Z.shiftr w (8 * Z.of_nat i) mod 256) <$> seq 0 8.

Definition blake2b (digest_size : Z) (data : list Z) : list Z :=
  let h := match IV with
           | h0 :: hs => Z.lxor h0 (Z.lor 0x01010000 digest_size) :: hs
           | [] => []
           end in
  take (Z.to_nat digest_size)
    (mjoin (le_bytes <$> blocks (S (length data)) h 0 data)).

(** [int.from_bytes(b, "big")]. *)
Definition from_bytes_big (bs : list Z) : Z := fold_left (λ acc b, acc * 256 + b) bs 0.

(** [s.encode()]: UTF-8 of code points below 256. *)
Fixpoint encode (s : string) : list Z :=
  match s with
  | EmptyString => []
  | String c s =>
      let n := code c in
      (if n <? 128 then [n] else [192 + n / 64; 128 + n mod 64]) ++ encode s
  end.

Lemma from_bytes_fold_nonneg bs acc :
  0 <= acc → Forall (λ b, 0 <= b) bs → 0 <= fold_left (λ acc b, acc * 256 + b) bs acc.
Proof.
  revert acc. induction bs as [|b bs IH]; intros acc Hacc Hb; simpl; [done|].
  apply Forall_cons in Hb as [Hb Hbs]. apply IH; [lia|done].
Qed.

Lemma from_bytes_big_nonneg bs : Forall (λ b, 0 <= b) bs → 0 <= from_bytes_big bs.
Proof. by apply from_bytes_fold_nonneg. Qed.

Lemma blake2b_bytes n data : Forall (λ b, 0 <= b) (blake2b n data).
Proof.
  unfold blake2b. apply Forall_take, Forall_join, Forall_fmap, Forall_true.
  intros w. simpl. apply Forall_fmap, Forall_true. intros i. simpl.
  apply Z.mod_pos_bound. lia.
Qed.

Definition digest_int (s : string) : Z := from_bytes_big (blake2b 8 (encode s)).

Example blake2b_abc : digest_int "abc" = 15617099051652453721.
Proof. vm_compute. reflexivity. Qed.
Example blake2b_two_blocks : from_bytes_big (blake2b 8 (repeat 120 129)) = 1791892490181060003.
Proof. vm_compute. reflexivity. Qed.
Example blake2b_full : take 4 (blake2b 64 (encode "abc")) = [0xba; 0x80; 0xa5; 0x3f].
Proof. vm_compute. reflexivity. Qed.
