(* ===== verification/PyNum.v ===== *)
(** * Decimal literals and calendar dates as text

    [Decimal(s)], the order on decimals and [str(Decimal)]; ISO dates and the
    two renderings of an aware UTC [datetime], [str(dt)] and [dt.isoformat()]. *)

From S2P Require Export PyStd.
Local Open Scope Z_scope.

(** ** Decimals *)

(** Python's decimal triple: sign, coefficient, exponent. *)
Inductive pydec :=
  | DFin (neg : bool) (c : N) (e : Z)
  | DInf (neg : bool)
  | DNaN.

Definition digit_val (c : ascii) : option N :=
  let n := N_of_ascii c in
  if ((48 <=? n) && (n <=? 57))%N then Some (n - 48)%N else None.

(** The leading digits of [s]: their value, their number, and the rest. *)
Fixpoint span_digits (acc : N) (k : Z) (s : string) : N * Z * string :=
  match s with
  | String c s' => match digit_val c with
                   | Some d => span_digits (acc * 10 + d)%N (k + 1) s'
                   | None => (acc, k, s)
                   end
  | EmptyString => (acc, k, s)
  end.

Definition take_sign (s : string) : bool * string :=
  match s with
  | String "-" s' => (true, s')
  | String "+" s' => (false, s')
  | _ => (false, s)
  end.

(** [Decimal(s)]; [None] is [InvalidOperation]. *)
Definition dec_parse (s : string) : option pydec :=
  let '(neg, s) := take_sign (str_lower (remove_sub "_" 0 (str_strip s))) in
  if (s ==b "inf") || (s ==b "infinity") then Some (DInf neg)
  else if String.prefix "nan" s || String.prefix "snan" s then
    let rest := String.substring (if String.prefix "nan" s then 3 else 4)%nat
                  (String.length s) s in
    if str_all (λ c, bool_decide (is_Some (digit_val c))) rest then Some DNaN else None
  else
    let '(ip, ki, s) := span_digits 0 0 s in
    let '(cf, kf, s) := match s with
                        | String "." s' => span_digits ip 0 s'
                        | _ => (ip, 0, s)
                        end in
    if (ki =? 0) && (kf =? 0) then None
    else match s with
         | EmptyString => Some (DFin neg cf (- kf))
         | String "e" s' =>
             let '(en, s') := take_sign s' in
             let '(ev, ke, s') := span_digits 0 0 s' in
             if (ke =? 0) || negb (str_empty s') then None
             else Some (DFin neg cf ((if en then - Z.of_N ev else Z.of_N ev) - kf))
         | _ => None
         end.

(** The signed coefficient of a finite decimal. *)
Definition dec_coef (neg : bool) (c : N) : Z := if neg then - Z.of_N c else Z.of_N c.

(** A [Numeric(p, 2)] column value as Python reads it: [Decimal] with exponent -2. *)
Definition dec_of_cents (z : Z) : pydec := DFin (z <? 0) (Z.to_N (Z.abs z)) (-2).

(** [a > b]; [None] is the [InvalidOperation] a NaN operand raises. *)
Definition dec_gt (a b : pydec) : option bool :=
  match a, b with
  | DNaN, _ | _, DNaN => None
  | DInf na, DInf nb => Some (negb na && nb)
  | DInf na, DFin _ _ _ => Some (negb na)
  | DFin _ _ _, DInf nb => Some nb
  | DFin na ca ea, DFin nb cb eb =>
      let e := Z.min ea eb in
      Some (dec_coef nb cb * 10 ^ (eb - e) <? dec_coef na ca * 10 ^ (ea - e))
  end.

Fixpoint zeros (k : nat) : string := match k with O => "" | S k => String "0" (zeros k) end.

(** [str(d)]: plain while the exponent is at most 0 and the first digit is at
    worst the sixth decimal place, scientific otherwise. *)
Definition dec_str (d : pydec) : string :=
  match d with
  | DNaN => "NaN"
  | DInf neg => if neg then "-Infinity" else "Infinity"
  | DFin neg c e =>
      let ds := pretty c in
      let n := Z.of_nat (String.length ds) in
      let left := e + n in
      let body :=
        if (e <=? 0) && (-6 <=? left - 1) then
          if e =? 0 then ds
          else if left <=? 0 then "0." +:+ zeros (Z.to_nat (- left)) +:+ ds
          else str_take (Z.to_nat left) ds +:+ "."
               +:+ String.substring (Z.to_nat left) (Z.to_nat (- e)) ds
        else
          let x := left - 1 in
          let m := if n =? 1 then ds
                   else str_take 1 ds +:+ "." +:+ String.substring 1 (Z.to_nat n) ds in
          m +:+ "E" +:+ (if 0 <=? x then "+" else "") +:+ str_of_Z x in
      (if neg then "-" else "") +:+ body
  end.

Example dec_str_zero : dec_str (dec_of_cents 0) = "0.00".
Proof. reflexivity. Qed.
Example dec_str_amount : dec_str (dec_of_cents 1234567) = "12345.67".
Proof. reflexivity. Qed.
Example dec_parse_amount : dec_parse " +1_0.50e2" = Some (DFin false 1050 0).
Proof. reflexivity. Qed.
Example dec_str_sci : dec_str (DFin true 15 3) = "-1.5E+4".
Proof. reflexivity. Qed.

(** Comparing two cent amounts compares the integers. *)
Lemma dec_gt_cents a b : dec_gt (dec_of_cents a) (dec_of_cents b) = Some (b <? a).
Proof.
  unfold dec_of_cents, dec_gt, dec_coef. f_equal. change (-2 - Z.min (-2) (-2)) with 0.
  rewrite !Z.pow_0_r, !Z.mul_1_r.
  destruct (Z.ltb_spec a 0), (Z.ltb_spec b 0); f_equal; lia.
Qed.

(** ** Dates *)

(** The proleptic Gregorian (year, month, day) of a day number (0 is 1970-01-01). *)
Definition civil (z : Z) : Z * Z * Z :=
  let z := z + 719468 in
  let era := z / 146097 in
  let doe := z - era * 146097 in
  let yoe := (doe - doe / 1460 + doe / 36524 - doe / 146096) / 365 in
  let doy := doe - (365 * yoe + yoe / 4 - yoe / 100) in
  let mp := (5 * doy + 2) / 153 in
  let d := doy - (153 * mp + 2) / 5 + 1 in
  let m := if mp <? 10 then mp + 3 else mp - 9 in
  ((yoe + era * 400) + (if m <=? 2 then 1 else 0), m, d).

(** [z] in at least [k] digits. *)
Definition pad (k : nat) (z : Z) : string :=
  let s := str_of_Z z in zeros (k - String.length s) +:+ s.

(** [str(date)] and [date.isoformat()]. *)
Definition date_str (z : Z) : string :=
  let '(y, m, d) := civil z in pad 4 y +:+ "-" +:+ pad 2 m +:+ "-" +:+ pad 2 d.

(** An aware UTC datetime, with [sep] between date and time. *)
Definition datetime_with (sep : string) (t : Z) : string :=
  let us := t mod day in
  date_str (date_of t) +:+ sep +:+ pad 2 (us / hour) +:+ ":" +:+ pad 2 (us / minute mod 60)
  +:+ ":" +:+ pad 2 (us / second mod 60)
  +:+ (if us mod second =? 0 then "" else "." +:+ pad 6 (us mod second)) +:+ "+00:00".

(** [str(dt)] and [dt.isoformat()]. *)
Definition datetime_str : Z → string := datetime_with " ".
Definition isoformat : Z → string := datetime_with "T".

Example isoformat_epoch : isoformat 0 = "1970-01-01T00:00:00+00:00".
Proof. vm_compute. reflexivity. Qed.
Example isoformat_leap : isoformat (19782 * day + 13 * hour + 5 * minute + 1500000)
  = "2024-02-29T13:05:01.500000+00:00".
Proof. vm_compute. reflexivity. Qed.

(** ** [str] and [int] of JSON values *)

(** Drop the trailing zeros of a positive coefficient, raising the exponent. *)
Fixpoint dec_norm (fuel : nat) (m e : Z) : Z * Z :=
  match fuel with
  | S k => if (m mod 10 =? 0) && negb (m =? 0) then dec_norm k (m / 10) (e + 1) else (m, e)
  | O => (m, e)
  end.

(** [repr(float)] of the decimal that prints as it: at most 17 digits, so 20
    steps of [dec_norm] reach the shortest form. *)
Definition float_repr (d : dec) : string :=
  let '(m, e) := dec_norm 20 (Z.abs (dm d)) (de d) in
  let ds := str_of_Z m in
  let n := Z.of_nat (String.length ds) in
  let x := e + n - 1 in
  (if dm d <? 0 then "-" else "") +:+
  if m =? 0 then "0.0"
  else if (-4 <=? x) && (x <? 16) then
    if 0 <=? e then ds +:+ zeros (Z.to_nat e) +:+ ".0"
    else if x <? 0 then "0." +:+ zeros (Z.to_nat (- x - 1)) +:+ ds
    else str_take (Z.to_nat (x + 1)) ds +:+ "." +:+ String.substring (Z.to_nat (x + 1)) (Z.to_nat n) ds
  else
    str_take 1 ds +:+ (if n =? 1 then "" else "." +:+ String.substring 1 (Z.to_nat n) ds)
    +:+ "e" +:+ (if x <? 0 then "-" else "+") +:+ pad 2 (Z.abs x).

Example float_repr_1 : float_repr (Dec 150 (-2)) = "1.5". Proof. reflexivity. Qed.
Example float_repr_2 : float_repr (Dec 3 0) = "3.0". Proof. reflexivity. Qed.
Example float_repr_3 : float_repr (Dec 12 (-7)) = "1.2e-06". Proof. reflexivity. Qed.
Example float_repr_4 : float_repr (Dec 25 (-4)) = "0.0025". Proof. reflexivity. Qed.

(** One character of [repr(str)] quoted with [q]. *)
Definition repr_char (q c : ascii) : string :=
  let n := N_of_ascii c in
  if (c ==b q) || (c ==b "\"%char) then String "\" (String c "")
  else if (n =? 9)%N then "\t"
  else if (n =? 10)%N then "\n"
  else if (n =? 13)%N then "\r"
  else if ((n <? 32) || (127 <=? n) && (n <=? 160) || (n =? 173))%N
       then "\x" +:+ hexs 2 n
  else String c "".

Fixpoint repr_body (q : ascii) (s : string) : string :=
  match s with
  | EmptyString => ""
  | String c s => repr_char q c +:+ repr_body q s
  end.

(** [repr(str)]: single quotes unless the text has one and no double quote. *)
Definition str_repr (s : string) : string :=
  let sq := ascii_of_N 39 in
  let dq := ascii_of_N 34 in
  let q := if contains (String sq "") s && negb (contains (String dq "") s) then dq else sq in
  String q (repr_body q s +:+ String q "").

Fixpoint json_repr (v : json) : string :=
  match v with
  | JNull => "None"
  | JBool b => if b then "True" else "False"
  | JInt z => str_of_Z z
  | JFloat d => float_repr d
  | JStr s => str_repr s
  | JList l => "[" +:+ str_join ", " (json_repr <$> l) +:+ "]"
  | JObj d => "{" +:+ str_join ", " ((λ kv, str_repr kv.1 +:+ ": " +:+ json_repr kv.2) <$> d)
              +:+ "}"
  end.

(** [str(v)]. *)
Definition json_str (v : json) : string := match v with JStr s => s | _ => json_repr v end.

Example json_repr_1 :
  json_repr (JObj [("a", JList [JInt 1; JNull; JBool true]); ("b", JStr "x'y")])
  = str_join "" ["{'a': [1, None, True], 'b': "; String (ascii_of_N 34) "x'y";
                 String (ascii_of_N 34) "}"].
Proof. reflexivity. Qed.

(** Decimal digits with single underscores between them. *)
Fixpoint int_digits (us : bool) (acc : N) (s : string) : option N :=
  match s with
  | EmptyString => if us then Some acc else None
  | String c s' =>
      if c ==b "_"%char then (if us then int_digits false acc s' else None)
      else match digit_val c with
           | Some d => int_digits true (acc * 10 + d)%N s'
           | None => None
           end
  end.

(** [int(s)] for a string. *)
Definition int_of_str (s : string) : option Z :=
  let '(neg, s) := take_sign (str_strip s) in
  (λ n, if neg : bool then - Z.of_N n else Z.of_N n) <$> int_digits false 0 s.

(** [int(v)]; [None] is a [TypeError] or a [ValueError]. A float is truncated. *)
Definition py_int (v : json) : option Z :=
  match v with
  | JBool b => Some (if b then 1 else 0)
  | JInt z => Some z
  | JFloat d => Some (if 0 <=? de d then dm d * 10 ^ de d else Z.quot (dm d) (10 ^ (- de d)))
  | JStr s => int_of_str s
  | _ => None
  end.

(** ** Equality of JSON values *)

(** A boolean, an integer or a float as a number. *)
Definition json_num (v : json) : option dec :=
  match v with
  | JBool b => Some (Dec (if b then 1 else 0) 0)
  | JInt z => Some (Dec z 0)
  | JFloat d => Some d
  | _ => None
  end.
Definition same_num (a b : dec) : bool :=
  let e := Z.min (de a) (de b) in dm a * 10 ^ (de a - e) =? dm b * 10 ^ (de b - e).

(** [x == y]: numbers by value, floats as the decimals they print; dicts by key. *)
Fixpoint py_eq (x y : json) {struct x} : bool :=
  match x, y with
  | JNull, JNull => true
  | JStr a, JStr b => a ==b b
  | JList l, JList m =>
      (fix go (l m : list json) : bool :=
         match l, m with
         | [], [] => true
         | x :: l, y :: m => py_eq x y && go l m
         | _, _ => false
         end) l m
  | JObj d, JObj e =>
      (length d =? length e)%nat &&
      (fix go (d : list (string * json)) : bool :=
         match d with
         | [] => true
         | (k, v) :: d => match dget k e with Some w => py_eq v w | None => false end && go d
         end) d
  | x, y => match json_num x, json_num y with Some a, Some b => same_num a b | _, _ => false end
  end.

Example py_eq_1 : py_eq (JObj [("a", JInt 1); ("b", JList [JNull])]) (JObj [("b", JList [JNull]); ("a", JFloat (Dec 10 (-1)))]) = true.
Proof. reflexivity. Qed.
