(* ===== verification/DecText.v ===== *)
(** * Amounts as text, read back

    [Decimal(str(d))] is [d] for every [Numeric(14, 2)] value: the amounts the
    state machine writes into an asset's metadata are the amounts the approval
    gate reads. *)

From S2P Require Export PyNum.
Local Open Scope Z_scope.

(** ** Digits *)

Definition is_digit (c : ascii) : bool := bool_decide (is_Some (digit_val c)).

(** The value of a digit string read after [acc]. *)
Fixpoint dval (acc : N) (s : string) : N :=
  match s with
  | EmptyString => acc
  | String c s => dval (acc * 10 + default 0 (digit_val c))%N s
  end.

Lemma dval_app acc a b : dval acc (a +:+ b) = dval (dval acc a) b.
Proof. revert acc. induction a as [|c a IH]; intros acc; [done|]. rewrite append_cons. apply IH. Qed.

Lemma digit_val_pretty d : (d < 10)%N → digit_val (pretty_N_char d) = Some d.
Proof.
  intros Hd. assert (d = 0 ∨ d = 1 ∨ d = 2 ∨ d = 3 ∨ d = 4 ∨ d = 5 ∨ d = 6 ∨ d = 7 ∨ d = 8 ∨ d = 9)%N
    as H by lia. by repeat destruct H as [->|H]; subst.
Qed.

Lemma pretty_N_go_digits x s :
  str_all is_digit s = true →
  str_all is_digit (pretty_N_go x s) = true ∧ dval 0 (pretty_N_go x s) = dval x s ∧
  ((0 < x)%N → (0 < String.length (pretty_N_go x s))%nat).
Proof.
  revert s. induction (N.lt_wf_0 x) as [x _ IH]; intros s Hs.
  assert (x = 0 ∨ 0 < x)%N as [->|Hx] by lia; [by rewrite pretty_N_go_0; split_and!|].
  rewrite pretty_N_go_step by done.
  assert (digit_val (pretty_N_char (x `mod` 10)) = Some (x `mod` 10)%N) as Hd
    by (apply digit_val_pretty, N.mod_lt; lia).
  destruct (IH (x `div` 10)%N (N.div_lt x 10 Hx eq_refl)
    (String (pretty_N_char (x `mod` 10)) s)) as (H1 & H2 & H3).
  { simpl. unfold is_digit at 1. rewrite Hd. by rewrite bool_decide_true. }
  split_and!; [done| |].
  - rewrite H2. simpl. rewrite Hd. cbn [default from_option]. f_equal.
    rewrite (N.div_mod x 10) at 3 by done. unfold id. lia.
  - intros _. destruct (N.eq_0_gt_0_cases (x `div` 10)) as [->|Hq]; [|auto].
    rewrite pretty_N_go_0. simpl. apply Nat.lt_0_succ.
Qed.

Lemma pretty_digits (c : N) :
  str_all is_digit (pretty c) = true ∧ dval 0 (pretty c) = c ∧ (0 < String.length (pretty c))%nat.
Proof.
  unfold pretty, pretty_N. destruct (decide (c = 0)%N) as [->|Hc]; [by split_and!; simpl; try lia|].
  destruct (pretty_N_go_digits c "" eq_refl) as (H1 & H2 & H3). split_and!; [done..|]. apply H3. lia.
Qed.

(** ** Spans *)

Lemma span_digits_app acc k a b :
  str_all is_digit a = true →
  span_digits acc k (a +:+ b) = span_digits (dval acc a) (k + Z.of_nat (String.length a)) b.
Proof.
  revert acc k. induction a as [|c a IH]; intros acc k Ha.
  - rewrite append_nil_l. simpl. f_equal. lia.
  - simpl in Ha. apply andb_true_iff in Ha as [Hc Ha]. unfold is_digit in Hc.
    apply bool_decide_eq_true_1 in Hc as [d Hd]. rewrite append_cons. simpl. rewrite Hd. simpl.
    rewrite IH by done. f_equal. lia.
Qed.

Lemma span_digits_dot acc k s : span_digits acc k (String "." s) = (acc, k, String "." s).
Proof. done. Qed.

Lemma str_split_at k s :
  (k <= String.length s)%nat → ∃ a b, s = a +:+ b ∧ String.length a = k ∧ str_take k s = a ∧
    ∀ m, (String.length s - k <= m)%nat → String.substring k m s = b.
Proof.
  revert s. induction k as [|k IH]; intros s Hk.
  - exists "", s. split_and!; [done..|]. intros m Hm. clear Hk. revert m Hm.
    induction s as [|c s IHs]; intros [|m] Hm; simpl in *; try done; [lia|].
    f_equal. apply IHs. lia.
  - destruct s as [|c s]; simpl in Hk; [lia|]. destruct (IH s) as (a & b & -> & Hl & Ht & Hs); [lia|].
    exists (String c a), b. split_and!; [done| |by simpl; rewrite Ht|].
    + simpl. by rewrite Hl.
    + intros m Hm. simpl. apply Hs. simpl in Hm. lia.
Qed.

Lemma string_app_nil_r s : s +:+ "" = s.
Proof. induction s as [|c s IH]; [done|]. by rewrite append_cons, IH. Qed.

(** ** Amounts *)

Definition sign_str (neg : bool) : string := if neg then "-" else "".

(** An amount prints as its digits with a point before the last two. *)
Lemma dec_str_cents_shape z :
  ∃ a b, dec_str (dec_of_cents z) = sign_str (z <? 0) +:+ a +:+ "." +:+ b ∧
    str_all is_digit a = true ∧ str_all is_digit b = true ∧ (0 < String.length a)%nat ∧
    String.length b = 2%nat ∧ dval (dval 0 a) b = Z.to_N (Z.abs z).
Proof.
  unfold dec_of_cents, dec_str. set (c := Z.to_N (Z.abs z)).
  destruct (pretty_digits c) as (Hd & Hv & Hl). set (ds := pretty c) in *.
  assert ((-6 <=? -2 + Z.of_nat (String.length ds) - 1) = true) as ->
    by (apply Z.leb_le; lia).
  simpl. destruct (-2 + Z.of_nat (String.length ds) <=? 0) eqn:E; reflect_bools.
  - exists "0", (zeros (Z.to_nat (- (-2 + Z.of_nat (String.length ds)))) +:+ ds).
    split; [by rewrite !append_cons, !append_nil_l|].
    assert (String.length ds = 1%nat ∨ String.length ds = 2%nat) as [Hn|Hn] by lia; rewrite Hn; simpl;
      rewrite ?append_cons, ?append_nil_l; simpl; rewrite ?Hn; by split_and!; try lia.
  - set (k := Z.to_nat (-2 + Z.of_nat (String.length ds))).
    destruct (str_split_at k ds) as (a & b & Hs & Hk & Ht & Hsub); [lia|].
    rewrite Ht. rewrite (Hsub _) by lia.
    pose proof (length_append a b) as Hlen. rewrite <- Hs in Hlen.
    rewrite Hs, str_all_app in Hd. apply andb_true_iff in Hd as [Ha Hb].
    rewrite Hs, dval_app in Hv. subst k. exists a, b. split_and!; [done..|lia|lia|done].
Qed.

(** The characters of a printed amount. *)
Definition is_plain (c : ascii) : bool := is_digit c || (c ==b "."%char) || (c ==b "-"%char).

Lemma is_plain_ok c :
  is_plain c = true → is_space c = false ∧ lower_char c = c ∧ negb (c ==b "_"%char) = true.
Proof.
  unfold is_plain. intros H. apply orb_true_iff in H as [[H|H]%orb_true_iff|H].
  - unfold is_digit, digit_val in H. apply bool_decide_eq_true_1 in H as [d Hd].
    destruct ((48 <=? N_of_ascii c) && (N_of_ascii c <=? 57))%N eqn:E; [|done].
    apply andb_true_iff in E as [E1%N.leb_le E2%N.leb_le].
    rewrite <- (ascii_N_embedding c). set (n := N_of_ascii c) in *. clearbody n. clear Hd.
    assert (n = 48 ∨ n = 49 ∨ n = 50 ∨ n = 51 ∨ n = 52 ∨ n = 53 ∨ n = 54 ∨ n = 55 ∨ n = 56 ∨ n = 57)%N
      as Hn by lia. by repeat destruct Hn as [->|Hn]; subst.
  - apply bool_decide_eq_true_1 in H as ->. done.
  - apply bool_decide_eq_true_1 in H as ->. done.
Qed.

Lemma str_lower_plain s : str_all is_plain s = true → str_lower s = s.
Proof.
  induction s as [|c s IH]; simpl; [done|]. intros [Hc Hs]%andb_true_iff.
  destruct (is_plain_ok c Hc) as (_ & -> & _). by rewrite IH.
Qed.

Lemma dec_clean s : str_all is_plain s = true → str_lower (remove_sub "_" 0 (str_strip s)) = s.
Proof.
  intros Hs. unfold str_strip. rewrite strip_by_none.
  - rewrite remove_sub_absent; [by apply str_lower_plain|].
    eapply str_all_impl; [|done]. intros c Hc. by destruct (is_plain_ok c Hc) as (_ & _ & ?).
  - eapply str_all_impl; [|done]. intros c Hc. by destruct (is_plain_ok c Hc) as (-> & _ & _).
Qed.

Lemma is_digit_plain c : is_digit c = true → is_plain c = true.
Proof. unfold is_plain. by intros ->. Qed.

(** A digit starts neither a sign, an infinity nor a NaN. *)
Lemma digit_head x t :
  is_digit x = true →
  take_sign (String x t) = (false, String x t) ∧
  (String x t ==b "inf") = false ∧ (String x t ==b "infinity") = false ∧
  String.prefix "nan" (String x t) = false ∧ String.prefix "snan" (String x t) = false.
Proof.
  intros Hx. assert (x ≠ "-" ∧ x ≠ "+" ∧ x ≠ "i" ∧ x ≠ "n" ∧ x ≠ "s")%char as (Hm & Hp & Hi & Hn & Hs)
    by (split_and!; intros ->; vm_compute in Hx; discriminate).
  split_and!; [|by rewrite bool_decide_false by congruence..| |].
  - unfold take_sign. repeat case_match; congruence.
  - cbn [String.prefix]. destruct (ascii_dec "n" x); [congruence|done].
  - cbn [String.prefix]. destruct (ascii_dec "s" x); [congruence|done].
Qed.

(** [Decimal(str(amount))] is the amount. *)
Lemma dec_parse_amount_str z : dec_parse (dec_str (dec_of_cents z)) = Some (dec_of_cents z).
Proof.
  destruct (dec_str_cents_shape z) as (a & b & -> & Ha & Hb & Hla & Hlb & Hv).
  unfold dec_parse. rewrite dec_clean.
  2:{ rewrite !str_all_app, (str_all_impl _ _ a is_digit_plain Ha),
        (str_all_impl _ _ b is_digit_plain Hb). by destruct (z <? 0). }
  destruct a as [|x a]; [simpl in Hla; lia|].
  assert (is_digit x = true) as Hx by (simpl in Ha; by apply andb_true_iff in Ha as [? _]).
  destruct (digit_head x (a +:+ "." +:+ b) Hx) as (Hsign & E1 & E2 & E3 & E4).
  assert (take_sign (sign_str (z <? 0) +:+ String x a +:+ "." +:+ b) =
    (z <? 0, String x (a +:+ "." +:+ b))) as -> by (by destruct (z <? 0)).
  cbv beta iota. rewrite E1, E2, E3, E4. cbn [orb]. change (String x (a +:+ "." +:+ b)) with (String x a +:+ "." +:+ b).
  rewrite span_digits_app by done. rewrite append_cons, append_nil_l, span_digits_dot. cbv beta iota.
  rewrite <- (string_app_nil_r b), span_digits_app by done. cbn [span_digits]. rewrite Hv, Hlb.
  rewrite !Z.add_0_l. destruct (_ && _) eqn:E; [|done].
  apply andb_true_iff in E as [_ E]. reflect_bools. discriminate.
Qed.
