(* ===== verification/Enums.v ===== *)
(** * Enumerations: src/app/db/enums.py

    One module per Python [StrEnum], with the source's members as constructors
    and the string each member carries. Equality with a member, with its string
    and the lookup [E(value)] all go through [StrEnum]. *)

From S2P Require Export PyStd.

(** A Python [StrEnum]: its members and the string of each. *)
Class StrEnum (E : Type) `{EqDecision E} := {
  members : list E;
  value : E → string;
  members_complete : ∀ x, x ∈ members;
  value_nodup : NoDup (value <$> members);
}.
Arguments members E {_ _}.

(** [E(v)]: the member whose value is [v]; [None] is the [ValueError]. *)
Definition of_value E `{StrEnum E} (v : string) : option E :=
  List.find (λ x, value x ==b v) (members E).

Section str_enum.
Context `{StrEnum E}.

Lemma value_inj (x y : E) : value x = value y → x = y.
Proof.
  intros Hv.
  destruct (list_elem_of_lookup_1 _ _ (members_complete x)) as [i Hi].
  destruct (list_elem_of_lookup_1 _ _ (members_complete y)) as [j Hj].
  assert (i = j) as ->; [|congruence].
  apply (NoDup_lookup (value <$> members E) i j (value x) value_nodup).
  - by rewrite list_lookup_fmap, Hi.
  - by rewrite list_lookup_fmap, Hj, Hv.
Qed.

Lemma of_value_value (x : E) : of_value E (value x) = Some x.
Proof.
  unfold of_value. destruct (List.find _ _) as [y|] eqn:E'.
  - apply find_some in E' as [_ E']. reflect_bools. by rewrite (value_inj _ _ E').
  - pose proof (find_none _ _ E' x) as Hx.
    rewrite <- list_elem_of_In in Hx. specialize (Hx (members_complete x)).
    simpl in Hx. by rewrite bool_decide_true in Hx.
Qed.

Lemma of_value_Some v (x : E) : of_value E v = Some x ↔ v = value x.
Proof.
  split; [|intros ->; apply of_value_value].
  intros [_ Hv]%find_some. by reflect_bools.
Qed.
End str_enum.

(** [app/db/enums.py] lines 9-13, [UserRole]. *)
Module UserRole.

Inductive t :=
  | admin
  | manager
  | marketer
  | viewer.

#[global] Instance t_eq_dec : EqDecision t.
Proof. solve_decision. Defined.

#[global] Instance t_str_enum : StrEnum t.
Proof.
  refine {|
    members := [admin; manager; marketer; viewer];
    value x := match x with
      | admin => "admin"
      | manager => "manager"
      | marketer => "marketer"
      | viewer => "viewer"
      end |}.
  - intros []; compute_done.
  - apply (bool_decide_unpack _); vm_compute; exact I.
Defined.

End UserRole.

(** [app/db/enums.py] lines 16-23, [AgentKind]. *)
Module AgentKind.

Inductive t :=
  | orchestrator
  | campaign_strategist
  | audience_targeting
  | content_creator
  | approval_orchestrator
  | channel_distribution
  | analytics_optimisation.

#[global] Instance t_eq_dec : EqDecision t.
Proof. solve_decision. Defined.

#[global] Instance t_str_enum : StrEnum t.
Proof.
  refine {|
    members := [orchestrator; campaign_strategist; audience_targeting; content_creator; approval_orchestrator; channel_distribution; analytics_optimisation];
    value x := match x with
      | orchestrator => "orchestrator"
      | campaign_strategist => "campaign_strategist"
      | audience_targeting => "audience_targeting"
      | content_creator => "content_creator"
      | approval_orchestrator => "approval_orchestrator"
      | channel_distribution => "channel_distribution"
      | analytics_optimisation => "analytics_optimisation"
      end |}.
  - intros []; compute_done.
  - apply (bool_decide_unpack _); vm_compute; exact I.
Defined.

End AgentKind.

(** [app/db/enums.py] lines 26-30, [AgentStatus]. *)
Module AgentStatus.

Inductive t :=
  | idle
  | busy
  | degraded
  | disabled.

#[global] Instance t_eq_dec : EqDecision t.
Proof. solve_decision. Defined.

#[global] Instance t_str_enum : StrEnum t.
Proof.
  refine {|
    members := [idle; busy; degraded; disabled];
    value x := match x with
      | idle => "idle"
      | busy => "busy"
      | degraded => "degraded"
      | disabled => "disabled"
      end |}.
  - intros []; compute_done.
  - apply (bool_decide_unpack _); vm_compute; exact I.
Defined.

End AgentStatus.

(** [app/db/enums.py] lines 33-43, [CampaignStatus]. *)
Module CampaignStatus.

Inductive t :=
  | drafted
  | audience_built
  | strategy_set
  | content_in_production
  | approval_pending
  | ready_to_launch
  | live
  | optimising
  | paused
  | completed.

#[global] Instance t_eq_dec : EqDecision t.
Proof. solve_decision. Defined.

#[global] Instance t_str_enum : StrEnum t.
Proof.
  refine {|
    members := [drafted; audience_built; strategy_set; content_in_production; approval_pending; ready_to_launch; live; optimising; paused; completed];
    value x := match x with
      | drafted => "drafted"
      | audience_built => "audience_built"
      | strategy_set => "strategy_set"
      | content_in_production => "content_in_production"
      | approval_pending => "approval_pending"
      | ready_to_launch => "ready_to_launch"
      | live => "live"
      | optimising => "optimising"
      | paused => "paused"
      | completed => "completed"
      end |}.
  - intros []; compute_done.
  - apply (bool_decide_unpack _); vm_compute; exact I.
Defined.

End CampaignStatus.

(** [app/db/enums.py] lines 46-54, [CampaignType]. *)
Module CampaignType.

Inductive t :=
  | awareness
  | lead_gen
  | demand_gen
  | nurture
  | product_launch
  | event_promo
  | retention
  | reactivation.

#[global] Instance t_eq_dec : EqDecision t.
Proof. solve_decision. Defined.

#[global] Instance t_str_enum : StrEnum t.
Proof.
  refine {|
    members := [awareness; lead_gen; demand_gen; nurture; product_launch; event_promo; retention; reactivation];
    value x := match x with
      | awareness => "awareness"
      | lead_gen => "lead_gen"
      | demand_gen => "demand_gen"
      | nurture => "nurture"
      | product_launch => "product_launch"
      | event_promo => "event_promo"
      | retention => "retention"
      | reactivation => "reactivation"
      end |}.
  - intros []; compute_done.
  - apply (bool_decide_unpack _); vm_compute; exact I.
Defined.

End CampaignType.

(** [app/db/enums.py] lines 57-67, [ChannelPlatform]. *)
Module ChannelPlatform.

Inductive t :=
  | email
  | linkedin
  | x
  | meta
  | instagram
  | google_ads
  | meta_ads
  | web
  | blog
  | sms.

#[global] Instance t_eq_dec : EqDecision t.
Proof. solve_decision. Defined.

#[global] Instance t_str_enum : StrEnum t.
Proof.
  refine {|
    members := [email; linkedin; x; meta; instagram; google_ads; meta_ads; web; blog; sms];
    value x := match x with
      | email => "email"
      | linkedin => "linkedin"
      | x => "x"
      | meta => "meta"
      | instagram => "instagram"
      | google_ads => "google_ads"
      | meta_ads => "meta_ads"
      | web => "web"
      | blog => "blog"
      | sms => "sms"
      end |}.
  - intros []; compute_done.
  - apply (bool_decide_unpack _); vm_compute; exact I.
Defined.

End ChannelPlatform.

(** [app/db/enums.py] lines 70-76, [TaskStatus]. *)
Module TaskStatus.

Inductive t :=
  | queued
  | running
  | succeeded
  | failed
  | cancelled
  | awaiting_retry.

#[global] Instance t_eq_dec : EqDecision t.
Proof. solve_decision. Defined.

#[global] Instance t_str_enum : StrEnum t.
Proof.
  refine {|
    members := [queued; running; succeeded; failed; cancelled; awaiting_retry];
    value x := match x with
      | queued => "queued"
      | running => "running"
      | succeeded => "succeeded"
      | failed => "failed"
      | cancelled => "cancelled"
      | awaiting_retry => "awaiting_retry"
      end |}.
  - intros []; compute_done.
  - apply (bool_decide_unpack _); vm_compute; exact I.
Defined.

End TaskStatus.

(** [app/db/enums.py] lines 79-89, [AssetType]. *)
Module AssetType.

Inductive t :=
  | email
  | social_post
  | ad_creative
  | blog_post
  | landing_page_copy
  | sms
  | push
  | linkedin_dm.

#[global] Instance t_eq_dec : EqDecision t.
Proof. solve_decision. Defined.

#[global] Instance t_str_enum : StrEnum t.
Proof.
  refine {|
    members := [email; social_post; ad_creative; blog_post; landing_page_copy; sms; push; linkedin_dm];
    value x := match x with
      | email => "email"
      | social_post => "social_post"
      | ad_creative => "ad_creative"
      | blog_post => "blog_post"
      | landing_page_copy => "landing_page_copy"
      | sms => "sms"
      | push => "push"
      | linkedin_dm => "linkedin_dm"
      end |}.
  - intros []; compute_done.
  - apply (bool_decide_unpack _); vm_compute; exact I.
Defined.

End AssetType.

(** [app/db/enums.py] lines 92-104, [AssetStatus]. *)
Module AssetStatus.

Inductive t :=
  | requested
  | generating
  | drafted
  | pending_approval
  | approved
  | rejected
  | scheduled
  | published
  | failed
  | measuring
  | variant_winner
  | archived.

#[global] Instance t_eq_dec : EqDecision t.
Proof. solve_decision. Defined.

#[global] Instance t_str_enum : StrEnum t.
Proof.
  refine {|
    members := [requested; generating; drafted; pending_approval; approved; rejected; scheduled; published; failed; measuring; variant_winner; archived];
    value x := match x with
      | requested => "requested"
      | generating => "generating"
      | drafted => "drafted"
      | pending_approval => "pending_approval"
      | approved => "approved"
      | rejected => "rejected"
      | scheduled => "scheduled"
      | published => "published"
      | failed => "failed"
      | measuring => "measuring"
      | variant_winner => "variant_winner"
      | archived => "archived"
      end |}.
  - intros []; compute_done.
  - apply (bool_decide_unpack _); vm_compute; exact I.
Defined.

End AssetStatus.

(** [app/db/enums.py] lines 107-112, [AbTestStatus]. *)
Module AbTestStatus.

Inductive t :=
  | designing
  | running
  | significant
  | inconclusive
  | stopped.

#[global] Instance t_eq_dec : EqDecision t.
Proof. solve_decision. Defined.

#[global] Instance t_str_enum : StrEnum t.
Proof.
  refine {|
    members := [designing; running; significant; inconclusive; stopped];
    value x := match x with
      | designing => "designing"
      | running => "running"
      | significant => "significant"
      | inconclusive => "inconclusive"
      | stopped => "stopped"
      end |}.
  - intros []; compute_done.
  - apply (bool_decide_unpack _); vm_compute; exact I.
Defined.

End AbTestStatus.

(** [app/db/enums.py] lines 115-118, [ApprovalDecision]. *)
Module ApprovalDecision.

Inductive t :=
  | approved
  | approved_with_edits
  | rejected.

#[global] Instance t_eq_dec : EqDecision t.
Proof. solve_decision. Defined.

#[global] Instance t_str_enum : StrEnum t.
Proof.
  refine {|
    members := [approved; approved_with_edits; rejected];
    value x := match x with
      | approved => "approved"
      | approved_with_edits => "approved_with_edits"
      | rejected => "rejected"
      end |}.
  - intros []; compute_done.
  - apply (bool_decide_unpack _); vm_compute; exact I.
Defined.

End ApprovalDecision.

(** [app/db/enums.py] lines 121-130, [EventKind]. *)
Module EventKind.

Inductive t :=
  | impression
  | click
  | open
  | reply
  | conversion
  | unsubscribe
  | bounce
  | spam_complaint
  | spend.

#[global] Instance t_eq_dec : EqDecision t.
Proof. solve_decision. Defined.

#[global] Instance t_str_enum : StrEnum t.
Proof.
  refine {|
    members := [impression; click; open; reply; conversion; unsubscribe; bounce; spam_complaint; spend];
    value x := match x with
      | impression => "impression"
      | click => "click"
      | open => "open"
      | reply => "reply"
      | conversion => "conversion"
      | unsubscribe => "unsubscribe"
      | bounce => "bounce"
      | spam_complaint => "spam_complaint"
      | spend => "spend"
      end |}.
  - intros []; compute_done.
  - apply (bool_decide_unpack _); vm_compute; exact I.
Defined.

End EventKind.

(** [app/db/enums.py] lines 133-141, [TenantConstraintKind]. *)
Module TenantConstraintKind.

Inductive t :=
  | forbid_channel
  | hard_cap.

#[global] Instance t_eq_dec : EqDecision t.
Proof. solve_decision. Defined.

#[global] Instance t_str_enum : StrEnum t.
Proof.
  refine {|
    members := [forbid_channel; hard_cap];
    value x := match x with
      | forbid_channel => "forbid_channel"
      | hard_cap => "hard_cap"
      end |}.
  - intros []; compute_done.
  - apply (bool_decide_unpack _); vm_compute; exact I.
Defined.

End TenantConstraintKind.

(** [app/db/enums.py] lines 144-148, [CompliancePatternKind]. *)
Module CompliancePatternKind.

Inductive t :=
  | exact
  | regex.

#[global] Instance t_eq_dec : EqDecision t.
Proof. solve_decision. Defined.

#[global] Instance t_str_enum : StrEnum t.
Proof.
  refine {|
    members := [exact; regex];
    value x := match x with
      | exact => "exact"
      | regex => "regex"
      end |}.
  - intros []; compute_done.
  - apply (bool_decide_unpack _); vm_compute; exact I.
Defined.

End CompliancePatternKind.

(** [app/db/enums.py] lines 151-159, [ComplianceSeverity]. *)
Module ComplianceSeverity.

Inductive t :=
  | warn
  | block.

#[global] Instance t_eq_dec : EqDecision t.
Proof. solve_decision. Defined.

#[global] Instance t_str_enum : StrEnum t.
Proof.
  refine {|
    members := [warn; block];
    value x := match x with
      | warn => "warn"
      | block => "block"
      end |}.
  - intros []; compute_done.
  - apply (bool_decide_unpack _); vm_compute; exact I.
Defined.

End ComplianceSeverity.

(** [app/db/enums.py] lines 162-172, [ApprovalRejectionCategory]. *)
Module ApprovalRejectionCategory.

Inductive t :=
  | off_voice
  | inaccurate
  | wrong_audience
  | length
  | compliance
  | other.

#[global] Instance t_eq_dec : EqDecision t.
Proof. solve_decision. Defined.

#[global] Instance t_str_enum : StrEnum t.
Proof.
  refine {|
    members := [off_voice; inaccurate; wrong_audience; length; compliance; other];
    value x := match x with
      | off_voice => "off_voice"
      | inaccurate => "inaccurate"
      | wrong_audience => "wrong_audience"
      | length => "length"
      | compliance => "compliance"
      | other => "other"
      end |}.
  - intros []; compute_done.
  - apply (bool_decide_unpack _); vm_compute; exact I.
Defined.

End ApprovalRejectionCategory.
