(* ===== verification/PyDecimal.v ===== *)
(** * Binary64 arithmetic

    Python's [float] operations through the Standard Library's [SpecFloat], which
    computes them on integers with a 53-bit significand, so nothing is assumed
    about hardware floats. *)

From Stdlib Require Import Floats.SpecFloat.
From S2P Require Export PyNum.
Local Open Scope Z_scope.

Definition prec : Z := 53.
Definition emax : Z := 1024.

Definition flt : Type := spec_float.

(** [float(int)]. *)
Definition flt_of_Z (z : Z) : flt := binary_normalize prec emax z 0 false.

(** The correctly rounded quotient of two integers: Python's [int / int] for
    [b ≠ 0]; zero has the sign Python gives it, plus. *)
Definition flt_of_ratio (a b : Z) : flt :=
  match Z.abs a, Z.abs b with
  | Zpos m1, Zpos m2 =>
      let '(q, e, l) := SFdiv_core_binary prec emax (Zpos m1) 0 (Zpos m2) 0 in
      binary_round_aux prec emax (xorb (a <? 0) (b <? 0)) q e l
  | _, _ => S754_zero false
  end.

(** [float(repr)] of a decimal literal. *)
Definition flt_of_dec (d : dec) : flt :=
  if 0 <=? de d then flt_of_Z (dm d * 10 ^ de d) else flt_of_ratio (dm d) (10 ^ (- de d)).

Definition flt_add : flt → flt → flt := SFadd prec emax.
Definition flt_sub : flt → flt → flt := SFsub prec emax.
Definition flt_mul : flt → flt → flt := SFmul prec emax.
Definition flt_div : flt → flt → flt := SFdiv prec emax.
Definition flt_gt (a b : flt) : bool := SFltb b a.

(** [round(x, k)] as the decimal it prints: the exact binary value rounded half to
    even at the k-th decimal; [None] for an infinity or a NaN. *)
Definition flt_round_dec (k : Z) (x : flt) : option dec :=
  match x with
  | S754_zero _ => Some (Dec 0 (- k))
  | S754_finite s m e =>
      let n := if 0 <=? e then Zpos m * 2 ^ e * 10 ^ k
               else round_half_even (Zpos m * 10 ^ k) (2 ^ (- e)) in
      Some (Dec (if s then - n else n) (- k))
  | _ => None
  end.

(** [int(round(x))]. *)
Definition flt_round (x : flt) : option Z := dm <$> flt_round_dec 0 x.

Example flt_ratio_third : flt_of_ratio 1 3 = S754_finite false 6004799503160661 (-54).
Proof. vm_compute. reflexivity. Qed.
Example flt_tenth : flt_round_dec 2 (flt_add (flt_of_dec (Dec 1 (-1))) (flt_of_dec (Dec 2 (-1))))
  = Some (Dec 30 (-2)).
Proof. vm_compute. reflexivity. Qed.
Example flt_half_even : flt_round (flt_of_dec (Dec 25 (-1))) = Some 2.
Proof. vm_compute. reflexivity. Qed.

(** * Decimal arithmetic

    Python's [decimal] in its default context: 28 significant digits, ROUND_HALF_EVEN,
    exceptions for invalid operations and divisions by zero ([None]). The exponent
    limits of the context (a million) are left out. Also the conversions between
    decimals and binary64. *)

Definition dprec : Z := 28.

(** ** Digits *)

Fixpoint ndigits_aux (fuel : nat) (z : Z) : Z :=
  match fuel with
  | O => 0
  | S k => if z =? 0 then 0 else 1 + ndigits_aux k (z / 10)
  end.

(** The number of decimal digits of [z >= 0]; zero has one. *)
Definition ndigits (z : Z) : Z := Z.max 1 (ndigits_aux (S (Z.to_nat (Z.log2 z))) z).

(** ** Rounding *)

(** Half away from zero, for a non-negative numerator. *)
Definition round_half_up (a b : Z) : Z := (2 * a + b) / (2 * b).

Inductive rounding := ROUND_HALF_EVEN | ROUND_HALF_UP.
Definition round_div (r : rounding) (a b : Z) : Z :=
  match r with ROUND_HALF_EVEN => round_half_even a b | ROUND_HALF_UP => round_half_up a b end.

(** The coefficient [c >= 0] at exponent [e], moved to exponent [e']. *)
Definition rescale (r : rounding) (c e e' : Z) : Z :=
  if e' <=? e then c * 10 ^ (e - e') else round_div r c (10 ^ (e' - e)).

(** Round a result to the precision of the context. *)
Definition dec_fix (neg : bool) (c e : Z) : pydec :=
  let d := ndigits c - dprec in
  if d <=? 0 then DFin neg (Z.to_N c) e
  else
    let c' := round_half_even c (10 ^ d) in
    if ndigits c' <=? dprec then DFin neg (Z.to_N c') (e + d)
    else DFin neg (Z.to_N (c' / 10)) (e + d + 1).

(** ** Arithmetic *)

Definition dec_of_Z (z : Z) : pydec := DFin (z <? 0) (Z.to_N (Z.abs z)) 0.

Definition dec_neg_of (d : pydec) : bool :=
  match d with DFin neg _ _ | DInf neg => neg | DNaN => false end.

Definition dec_zero (d : pydec) : bool :=
  match d with DFin _ c _ => (c =? 0)%N | _ => false end.

(** [a + b] of finite decimals. *)
Definition dec_add_fin (na : bool) (ca : N) (ea : Z) (nb : bool) (cb : N) (eb : Z) : pydec :=
  let e := Z.min ea eb in
  if ((ca =? 0) && (cb =? 0))%N then dec_fix (na && nb) 0 e
  else if (ca =? 0)%N then
    let e := Z.max e (eb - dprec - 1) in dec_fix nb (Z.of_N cb * 10 ^ (eb - e)) e
  else if (cb =? 0)%N then
    let e := Z.max e (ea - dprec - 1) in dec_fix na (Z.of_N ca * 10 ^ (ea - e)) e
  else
    let s := dec_coef na ca * 10 ^ (ea - e) + dec_coef nb cb * 10 ^ (eb - e) in
    dec_fix (s <? 0) (Z.abs s) e.

Definition dec_add (a b : pydec) : option pydec :=
  match a, b with
  | DNaN, _ | _, DNaN => Some DNaN
  | DInf na, DInf nb => if eqb na nb then Some a else None
  | DInf _, _ => Some a
  | _, DInf _ => Some b
  | DFin na ca ea, DFin nb cb eb => Some (dec_add_fin na ca ea nb cb eb)
  end.

Definition dec_opp (d : pydec) : pydec :=
  match d with DFin neg c e => DFin (negb neg) c e | DInf neg => DInf (negb neg) | DNaN => DNaN end.
Definition dec_sub (a b : pydec) : option pydec := dec_add a (dec_opp b).
Definition dec_abs (d : pydec) : pydec :=
  match d with DFin _ c e => dec_fix false (Z.of_N c) e | DInf _ => DInf false | DNaN => DNaN end.

Definition dec_mul (a b : pydec) : option pydec :=
  match a, b with
  | DNaN, _ | _, DNaN => Some DNaN
  | DInf _, _ | _, DInf _ =>
      if dec_zero a || dec_zero b then None else Some (DInf (xorb (dec_neg_of a) (dec_neg_of b)))
  | DFin na ca ea, DFin nb cb eb =>
      Some (dec_fix (xorb na nb) (Z.of_N ca * Z.of_N cb) (ea + eb))
  end.

(** Drop trailing zeros while the exponent is below [ideal]. *)
Fixpoint strip_zeros (fuel : nat) (ideal c e : Z) : Z * Z :=
  match fuel with
  | S k => if (e <? ideal) && (c mod 10 =? 0) then strip_zeros k ideal (c / 10) (e + 1) else (c, e)
  | O => (c, e)
  end.

(** [a / b] of finite decimals with [b] not zero. A quotient has at most 30 digits before
    it is rounded, so 30 steps of [strip_zeros] suffice. *)
Definition dec_div_fin (na : bool) (ca : N) (ea : Z) (nb : bool) (cb : N) (eb : Z) : pydec :=
  let neg := xorb na nb in
  if (ca =? 0)%N then dec_fix neg 0 (ea - eb)
  else
    let a := Z.of_N ca in
    let b := Z.of_N cb in
    let shift := ndigits b - ndigits a + dprec + 1 in
    let e := ea - eb - shift in
    let '(num, den) := if 0 <=? shift then (a * 10 ^ shift, b) else (a, b * 10 ^ (- shift)) in
    let q := num / den in
    if num mod den =? 0 then
      let '(q, e) := strip_zeros 30 (ea - eb) q e in dec_fix neg q e
    else dec_fix neg (if q mod 5 =? 0 then q + 1 else q) e.

Definition dec_div (a b : pydec) : option pydec :=
  match a, b with
  | DNaN, _ | _, DNaN => Some DNaN
  | DInf _, DInf _ => None
  | DInf na, DFin nb _ _ => Some (DInf (xorb na nb))
  | DFin na _ _, DInf nb => Some (DFin (xorb na nb) 0 (-1000026))
  | DFin na ca ea, DFin nb cb eb =>
      if (cb =? 0)%N then None else Some (dec_div_fin na ca ea nb cb eb)
  end.

(** [d.quantize(Decimal("1e-k"), rounding=r)]. *)
Definition dec_quantize_by (r : rounding) (k : Z) (d : pydec) : option pydec :=
  match d with
  | DNaN => Some DNaN
  | DInf _ => None
  | DFin neg c e =>
      let c' := rescale r (Z.of_N c) e (- k) in
      if ndigits c' <=? dprec then Some (DFin neg (Z.to_N c') (- k)) else None
  end.
Definition dec_quantize : Z → pydec → option pydec := dec_quantize_by ROUND_HALF_EVEN.

(** [a < b], [a <= b], [a >= b]; [None] where a NaN raises. *)
Definition dec_ltb (a b : pydec) : option bool := dec_gt b a.
Definition dec_leb (a b : pydec) : option bool := negb <$> dec_gt a b.
Definition dec_geb (a b : pydec) : option bool := negb <$> dec_gt b a.
(** [a == b]. *)
Definition dec_eqb (a b : pydec) : bool :=
  match dec_gt a b, dec_gt b a with Some false, Some false => true | _, _ => false end.

(** ** Formatting *)

(** [f"{d:.kf}"]. *)
Definition dec_format_f (k : Z) (d : pydec) : string :=
  match d with
  | DFin neg c e =>
      let n := rescale ROUND_HALF_EVEN (Z.of_N c) e (- k) in
      let ds := str_of_Z n in
      let len := Z.of_nat (String.length ds) in
      let ds := zeros (Z.to_nat (k + 1 - len)) +:+ ds in
      let cut := Z.to_nat (Z.of_nat (String.length ds) - k) in
      (if neg then "-" else "") +:+ str_take cut ds +:+
      (if k =? 0 then "" else "." +:+ String.substring cut (Z.to_nat k) ds)
  | d => dec_str d
  end.

(** ** Floats *)

(** The exact value of a finite float, as a quotient. *)
Definition flt_ratio (x : flt) : option (Z * Z) :=
  match x with
  | S754_zero _ => Some (0, 1)
  | S754_finite s m e =>
      let z := if s then Zneg m else Zpos m in
      Some (if 0 <=? e then (z * 2 ^ e, 1) else (z, 2 ^ (- e)))
  | _ => None
  end.

(** The power of ten below a positive quotient. *)
Definition exp10 (num den : Z) : Z :=
  let x := ndigits num - ndigits den in
  let below x := if 0 <=? x then den * 10 ^ x <=? num else den <=? num * 10 ^ (- x) in
  if below x then x else x - 1.

(** The shortest decimal that reads back as [x]: at most 17 digits. *)
Fixpoint shortest (fuel : nat) (n : Z) (x : flt) (neg : bool) (num den x10 : Z) : dec :=
  let k := n - 1 - x10 in
  let c := if 0 <=? k then round_half_even (num * 10 ^ k) den
           else round_half_even num (den * 10 ^ (- k)) in
  let d := Dec (if neg then - c else c) (- k) in
  match fuel with
  | O => d
  | S fuel => if bool_decide (flt_ratio (flt_of_dec d) = flt_ratio x) then d
              else shortest fuel (n + 1) x neg num den x10
  end.

(** [repr(x)] of a finite float, as the decimal it prints. *)
Definition flt_repr (x : flt) : option dec :=
  match flt_ratio x with
  | None => None
  | Some (num, den) =>
      if num =? 0 then Some (Dec 0 0)
      else Some (shortest 16 1 x (num <? 0) (Z.abs num) den (exp10 (Z.abs num) den))
  end.

Definition pydec_of_dec (d : dec) : pydec := DFin (dm d <? 0) (Z.to_N (Z.abs (dm d))) (de d).
Definition dec_of_pydec (d : pydec) : option dec :=
  match d with DFin neg c e => Some (Dec (dec_coef neg c) e) | _ => None end.

(** [Decimal(str(x))] of a finite float: integral values print a trailing [.0]. *)
Definition dec_of_flt (x : flt) : option pydec :=
  (λ d, let '(m, e) := dec_norm 20 (Z.abs (dm d)) (de d) in
        let neg := dm d <? 0 in
        if (0 <=? e) && (ndigits m + e <=? 16) then DFin neg (Z.to_N (m * 10 ^ (e + 1))) (-1)
        else DFin neg (Z.to_N m) e) <$> flt_repr x.

(** [round(x, k)] as a float. *)
Definition flt_round_to (k : Z) (x : flt) : option flt := flt_of_dec <$> flt_round_dec k x.

(** [float(d)]. *)
Definition flt_of_pydec (d : pydec) : option flt := flt_of_dec <$> dec_of_pydec d.

Example dec_div_third : dec_div (dec_of_Z 1) (dec_of_Z 3)
  = Some (DFin false 3333333333333333333333333333 (-28)).
Proof. vm_compute. reflexivity. Qed.
Example dec_div_exact : dec_div (dec_of_Z 10) (dec_of_Z 4) = Some (DFin false 25 (-1)).
Proof. vm_compute. reflexivity. Qed.
Example dec_div_ideal : dec_div (DFin false 600 (-2)) (dec_of_Z 2) = Some (DFin false 300 (-2)).
Proof. vm_compute. reflexivity. Qed.
Example dec_quantize_even : dec_quantize 2 (DFin false 12345 (-3)) = Some (DFin false 1234 (-2)).
Proof. vm_compute. reflexivity. Qed.
Example dec_format_1 : dec_format_f 4 (DFin true 15 (-1)) = "-1.5000".
Proof. vm_compute. reflexivity. Qed.
Example flt_repr_1 : flt_repr (flt_add (flt_of_dec (Dec 1 (-1))) (flt_of_dec (Dec 2 (-1))))
  = Some (Dec 30000000000000004 (-17)).
Proof. vm_compute. reflexivity. Qed.
Example flt_repr_2 : flt_repr (flt_of_ratio 1 3) = Some (Dec 3333333333333333 (-16)).
Proof. vm_compute. reflexivity. Qed.
Example dec_of_flt_1 : dec_of_flt (flt_of_Z 9999) = Some (DFin false 99990 (-1)).
Proof. vm_compute. reflexivity. Qed.

(** ** Numeric columns *)

(** A decimal stored in a [Numeric(p, k)] column, rounded half away from zero; [None] is
    the numeric field overflow. *)
Definition numeric_column (p k : Z) (d : pydec) : option Z :=
  match d with
  | DFin neg c e =>
      let z := rescale ROUND_HALF_UP (Z.of_N c) e (- k) in
      if z <? 10 ^ p then Some (if neg then - z else z) else None
  | _ => None
  end.

(** The decimal of a column with [k] places. *)
Definition dec_of_col (k z : Z) : pydec := DFin (z <? 0) (Z.to_N (Z.abs z)) (- k).
