(* ===== verification/Models.v ===== *)
(** * Tables: src/app/db/models.py

    One record per ORM class, one field per column, in the source's order. A
    UUID is an [N], a timestamp a number of microseconds, a date a day number,
    a [Numeric(p, s)] column the integer number of its 10^-s units, a JSONB
    object a [jdict], a nullable column an [option]. [r <| f := v |>] is the assignment
    [r.f = v] on a copy of the row. *)

From S2P Require Export Enums.
Local Open Scope Z_scope.

(** ** Field update *)

(** The eta-expansion of a record type: its constructor applied to its fields. *)
Class Eta (R : Type) := eta_of : R → R.

(** Updating one field; the instance is computed from [Eta]. *)
Class Setter {R A : Type} (proj : R → A) := set_field : (A → A) → R → R.
Arguments set_field {R A} proj {_} _ _ /.

Ltac solve_setter :=
  match goal with
  | |- @Setter ?R ?A ?proj =>
      let e := eval hnf in (@eta_of R _) in
      match eval pattern proj in e with
      | ?body proj => exact (λ (f : A → A) (r : R), body (λ x : R, f (proj x)) r)
      end
  end.
#[export] Hint Extern 1 (Setter _) => solve_setter : typeclass_instances.

#[warning="-postfix-notation-not-level-1"]
Notation "r <| f := v |>" := (set_field f (λ _, v) r)
  (at level 12, f at next level, v at level 200, left associativity) : py_scope.

(** [app/db/models.py] lines 124-139, [Tenant]. *)
Module Tenant.

Record t := mk {
  id : N;
  name : string;
  domain : option string;
  oidc_hosted_domain : option string;
  plan : string;
  created_at : Z;
  updated_at : Z;
}.

#[global] Instance t_eta : Eta t :=
  λ r, mk (id r) (name r) (domain r) (oidc_hosted_domain r) (plan r) (created_at r) (updated_at r).

End Tenant.

(** [app/db/models.py] lines 142-162, [AppUser]. *)
Module AppUser.

Record t := mk {
  id : N;
  tenant_id : N;
  email : string;
  display_name : option string;
  role : UserRole.t;
  is_active : bool;
  last_login_at : option Z;
  created_at : Z;
  updated_at : Z;
}.

#[global] Instance t_eta : Eta t :=
    λ r, mk (id r) (tenant_id r) (email r) (display_name r) (role r) (is_active r)
    (last_login_at r) (created_at r) (updated_at r).

End AppUser.

(** [app/db/models.py] lines 165-187, [Agent]. *)
Module Agent.

Record t := mk {
  id : N;
  tenant_id : N;
  name : string;
  agent_type : AgentKind.t;
  status : AgentStatus.t;
  config : jdict;
  last_active_at : option Z;
  created_at : Z;
  updated_at : Z;
}.

#[global] Instance t_eta : Eta t :=
    λ r, mk (id r) (tenant_id r) (name r) (agent_type r) (status r) (config r)
    (last_active_at r) (created_at r) (updated_at r).

End Agent.

(** [app/db/models.py] lines 190-223, [Campaign]. *)
Module Campaign.

Record t := mk {
  id : N;
  tenant_id : N;
  owner_id : option N;
  name : string;
  status : CampaignStatus.t;
  campaign_type : CampaignType.t;
  objective : string;
  budget_total : Z; (* Numeric(14,2) *)
  currency : string;
  start_date : Z;
  end_date : Z;
  brief : option string;
  kpi_targets : jdict;
  launched_at : option Z;
  completed_at : option Z;
  created_at : Z;
  updated_at : Z;
}.

#[global] Instance t_eta : Eta t :=
    λ r, mk (id r) (tenant_id r) (owner_id r) (name r) (status r) (campaign_type r)
    (objective r) (budget_total r) (currency r) (start_date r) (end_date r) (brief r)
    (kpi_targets r) (launched_at r) (completed_at r) (created_at r) (updated_at r).

End Campaign.

(** [app/db/models.py] lines 226-269, [Task]. *)
Module Task.

Record t := mk {
  id : N;
  tenant_id : N;
  campaign_id : option N;
  agent_id : N;
  parent_task_id : option N;
  skill_name : string;
  status : TaskStatus.t;
  priority : Z;
  attempt : Z;
  max_attempts : Z;
  idempotency_key : option string;
  leased_until : option Z;
  worker_id : option string;
  input_data : jdict;
  output_data : jdict;
  error_message : option string;
  scheduled_for : Z;
  started_at : option Z;
  completed_at : option Z;
  created_at : Z;
  updated_at : Z;
}.

#[global] Instance t_eta : Eta t :=
    λ r, mk (id r) (tenant_id r) (campaign_id r) (agent_id r) (parent_task_id r) (skill_name r)
    (status r) (priority r) (attempt r) (max_attempts r) (idempotency_key r) (leased_until r)
    (worker_id r) (input_data r) (output_data r) (error_message r) (scheduled_for r)
    (started_at r) (completed_at r) (created_at r) (updated_at r).

End Task.

(** [app/db/models.py] lines 272-295, [AuditLog]. *)
Module AuditLog.

Record t := mk {
  id : N;
  tenant_id : N;
  actor_kind : string;
  actor_id : option N;
  entity_kind : string;
  entity_id : N;
  action : string;
  before_state : option jdict;
  after_state : option jdict;
  extra_metadata : jdict;
  logged_at : Z;
}.

#[global] Instance t_eta : Eta t :=
    λ r, mk (id r) (tenant_id r) (actor_kind r) (actor_id r) (entity_kind r) (entity_id r)
    (action r) (before_state r) (after_state r) (extra_metadata r) (logged_at r).

End AuditLog.

(** [app/db/models.py] lines 298-318, [AgentLog]. *)
Module AgentLog.

Record t := mk {
  id : N;
  tenant_id : N;
  agent_id : N;
  task_id : option N;
  action : string;
  log_data : jdict;
  severity : string;
  logged_at : Z;
}.

#[global] Instance t_eta : Eta t :=
    λ r, mk (id r) (tenant_id r) (agent_id r) (task_id r) (action r) (log_data r) (severity r)
    (logged_at r).

End AgentLog.

(** [app/db/models.py] lines 321-347, [Channel]. *)
Module Channel.

Record t := mk {
  id : N;
  tenant_id : N;
  name : string;
  platform : ChannelPlatform.t;
  api_config : jdict;
  is_active : bool;
  created_at : Z;
  updated_at : Z;
}.

#[global] Instance t_eta : Eta t :=
    λ r, mk (id r) (tenant_id r) (name r) (platform r) (api_config r) (is_active r)
    (created_at r) (updated_at r).

End Channel.

(** [app/db/models.py] lines 350-381, [IntegrationCredential]. *)
Module IntegrationCredential.

Record t := mk {
  id : N;
  tenant_id : N;
  channel_id : option N;
  provider : string;
  label : string;
  encrypted_payload : string;
  key_version : Z;
  expires_at : option Z;
  created_at : Z;
  updated_at : Z;
}.

#[global] Instance t_eta : Eta t :=
    λ r, mk (id r) (tenant_id r) (channel_id r) (provider r) (label r) (encrypted_payload r)
    (key_version r) (expires_at r) (created_at r) (updated_at r).

End IntegrationCredential.

(** [app/db/models.py] lines 384-414, [Audience]. *)
Module Audience.

Record t := mk {
  id : N;
  tenant_id : N;
  campaign_id : N;
  name : string;
  segment_criteria : jdict;
  estimated_size : option Z;
  actual_size : option Z;
  refreshed_at : option Z;
  created_at : Z;
  updated_at : Z;
}.

#[global] Instance t_eta : Eta t :=
    λ r, mk (id r) (tenant_id r) (campaign_id r) (name r) (segment_criteria r)
    (estimated_size r) (actual_size r) (refreshed_at r) (created_at r) (updated_at r).

End Audience.

(** [app/db/models.py] lines 417-439, [AudienceMember]. *)
Module AudienceMember.

Record t := mk {
  audience_id : N;
  external_id : string;
  payload : jdict;
  source : option string;
  fetched_at : option Z;
  added_at : Z;
}.

#[global] Instance t_eta : Eta t :=
  λ r, mk (audience_id r) (external_id r) (payload r) (source r) (fetched_at r) (added_at r).

End AudienceMember.

(** [app/db/models.py] lines 442-472, [AnalyticEvent]. *)
Module AnalyticEvent.

Record t := mk {
  id : N;
  tenant_id : N;
  campaign_id : option N;
  channel_id : option N;
  event_type : EventKind.t;
  metric_value : option Z; (* Numeric(18,4) *)
  payload : jdict;
  provider_event_id : option string;
  event_at : Z;
}.

#[global] Instance t_eta : Eta t :=
    λ r, mk (id r) (tenant_id r) (campaign_id r) (channel_id r) (event_type r) (metric_value r)
    (payload r) (provider_event_id r) (event_at r).

End AnalyticEvent.

(** [app/db/models.py] lines 475-505, [BrandVoice]. *)
Module BrandVoice.

Record t := mk {
  id : N;
  tenant_id : N;
  name : string;
  is_active : bool;
  tone_descriptors : list string;
  do_words : list string;
  dont_words : list string;
  sample_paragraphs : list string;
  reading_grade_target : option Z; (* Numeric(4,2) *)
  created_at : Z;
  updated_at : Z;
}.

#[global] Instance t_eta : Eta t :=
    λ r, mk (id r) (tenant_id r) (name r) (is_active r) (tone_descriptors r) (do_words r)
    (dont_words r) (sample_paragraphs r) (reading_grade_target r) (created_at r) (updated_at r).

End BrandVoice.

(** [app/db/models.py] lines 508-537, [TenantConstraint]. *)
Module TenantConstraint.

Record t := mk {
  id : N;
  tenant_id : N;
  kind : string;
  payload : jdict;
  created_at : Z;
  updated_at : Z;
}.

#[global] Instance t_eta : Eta t :=
  λ r, mk (id r) (tenant_id r) (kind r) (payload r) (created_at r) (updated_at r).

End TenantConstraint.

(** [app/db/models.py] lines 540-580, [StrategyProposal]. *)
Module StrategyProposal.

Record t := mk {
  id : N;
  tenant_id : N;
  campaign_id : N;
  version : Z;
  payload : jdict;
  is_accepted : bool;
  created_by_kind : string;
  created_by_id : option N;
  validation_warnings : list json;
  created_at : Z;
  updated_at : Z;
}.

#[global] Instance t_eta : Eta t :=
    λ r, mk (id r) (tenant_id r) (campaign_id r) (version r) (payload r) (is_accepted r)
    (created_by_kind r) (created_by_id r) (validation_warnings r) (created_at r) (updated_at r).

End StrategyProposal.

(** [app/db/models.py] lines 583-616, [StrategyTouchpoint]. *)
Module StrategyTouchpoint.

Record t := mk {
  id : N;
  tenant_id : N;
  proposal_id : N;
  channel_platform : string;
  audience_id : N;
  scheduled_at : Z;
  position : Z;
  human_override : bool;
  frequency_warning : option jdict;
  created_at : Z;
  updated_at : Z;
}.

#[global] Instance t_eta : Eta t :=
    λ r, mk (id r) (tenant_id r) (proposal_id r) (channel_platform r) (audience_id r)
    (scheduled_at r) (position r) (human_override r) (frequency_warning r) (created_at r)
    (updated_at r).

End StrategyTouchpoint.

(** [app/db/models.py] lines 619-660, [ContentAsset]. *)
Module ContentAsset.

Record t := mk {
  id : N;
  tenant_id : N;
  campaign_id : N;
  channel_id : option N;
  asset_type : AssetType.t;
  status : AssetStatus.t;
  title : option string;
  content : option string;
  extra_metadata : jdict;
  is_required : bool;
  scheduled_at : option Z;
  published_at : option Z;
  created_at : Z;
  updated_at : Z;
}.

#[global] Instance t_eta : Eta t :=
    λ r, mk (id r) (tenant_id r) (campaign_id r) (channel_id r) (asset_type r) (status r)
    (title r) (content r) (extra_metadata r) (is_required r) (scheduled_at r) (published_at r)
    (created_at r) (updated_at r).

End ContentAsset.

(** [app/db/models.py] lines 663-706, [ComplianceRule]. *)
Module ComplianceRule.

Record t := mk {
  id : N;
  tenant_id : N;
  keyword : string;
  pattern_kind : string;
  severity : string;
  description : option string;
  created_at : Z;
  updated_at : Z;
}.

#[global] Instance t_eta : Eta t :=
    λ r, mk (id r) (tenant_id r) (keyword r) (pattern_kind r) (severity r) (description r)
    (created_at r) (updated_at r).

End ComplianceRule.

(** [app/db/models.py] lines 709-765, [AbTest]. *)
Module AbTest.

Record t := mk {
  id : N;
  tenant_id : N;
  campaign_id : N;
  name : string;
  hypothesis : option string;
  primary_metric : string;
  status : AbTestStatus.t;
  variant_a_id : option N;
  variant_b_id : option N;
  winner_id : option N;
  confidence : option Z; (* Numeric(5,4) *)
  lift : option Z; (* Numeric(8,4) *)
  last_evaluated_at : option Z;
  traffic_split : jdict;
  min_runtime_hours : option Z;
  max_runtime_hours : option Z;
  started_at : option Z;
  stopped_at : option Z;
  created_at : Z;
  updated_at : Z;
}.

#[global] Instance t_eta : Eta t :=
    λ r, mk (id r) (tenant_id r) (campaign_id r) (name r) (hypothesis r) (primary_metric r)
    (status r) (variant_a_id r) (variant_b_id r) (winner_id r) (confidence r) (lift r)
    (last_evaluated_at r) (traffic_split r) (min_runtime_hours r) (max_runtime_hours r)
    (started_at r) (stopped_at r) (created_at r) (updated_at r).

End AbTest.

(** [app/db/models.py] lines 768-805, [AbTestAssignment]. *)
Module AbTestAssignment.

Record t := mk {
  id : N;
  tenant_id : N;
  ab_test_id : N;
  audience_external_id : string;
  variant_id : N;
  assigned_at : Z;
}.

#[global] Instance t_eta : Eta t :=
    λ r, mk (id r) (tenant_id r) (ab_test_id r) (audience_external_id r) (variant_id r)
    (assigned_at r).

End AbTestAssignment.

(** [app/db/models.py] lines 808-836, [ApprovalDecisionLog]. *)
Module ApprovalDecisionLog.

Record t := mk {
  id : N;
  content_asset_id : N;
  reviewer_id : N;
  decision : ApprovalDecision.t;
  reason : option string;
  edits : option jdict;
  decided_at : Z;
}.

#[global] Instance t_eta : Eta t :=
    λ r, mk (id r) (content_asset_id r) (reviewer_id r) (decision r) (reason r) (edits r)
    (decided_at r).

End ApprovalDecisionLog.

(** [app/db/models.py] lines 839-879, [TenantApprovalSettings]. *)
Module TenantApprovalSettings.

Record t := mk {
  id : N;
  tenant_id : N;
  admin_required_above_amount : option Z; (* Numeric(14,2) *)
  auto_approval_cap_amount : Z; (* Numeric(14,2) *)
  currency : string;
  created_at : Z;
  updated_at : Z;
}.

#[global] Instance t_eta : Eta t :=
    λ r, mk (id r) (tenant_id r) (admin_required_above_amount r) (auto_approval_cap_amount r)
    (currency r) (created_at r) (updated_at r).

End TenantApprovalSettings.

(** [app/db/models.py] lines 882-916, [SuppressionEntry]. *)
Module SuppressionEntry.

Record t := mk {
  id : N;
  tenant_id : N;
  channel_platform : ChannelPlatform.t;
  identifier : string;
  reason : string;
  source_event_id : option N;
  suppressed_at : Z;
}.

#[global] Instance t_eta : Eta t :=
    λ r, mk (id r) (tenant_id r) (channel_platform r) (identifier r) (reason r)
    (source_event_id r) (suppressed_at r).

End SuppressionEntry.

(** [app/db/models.py] lines 919-969, [DispatchAttempt]. *)
Module DispatchAttempt.

Record t := mk {
  id : N;
  tenant_id : N;
  content_asset_id : N;
  audience_external_id : option string;
  recipient_identifier : string;
  idempotency_key : string;
  provider : string;
  provider_message_id : option string;
  status : string;
  attempt_count : Z;
  last_error : option string;
  sent_at : option Z;
  created_at : Z;
  updated_at : Z;
}.

#[global] Instance t_eta : Eta t :=
    λ r, mk (id r) (tenant_id r) (content_asset_id r) (audience_external_id r)
    (recipient_identifier r) (idempotency_key r) (provider r) (provider_message_id r) (status r)
    (attempt_count r) (last_error r) (sent_at r) (created_at r) (updated_at r).

End DispatchAttempt.

(** [app/db/models.py] lines 972-1014, [FrequencyCapSetting]. *)
Module FrequencyCapSetting.

Record t := mk {
  id : N;
  tenant_id : N;
  channel_platform : ChannelPlatform.t;
  max_sends_per_recipient : Z;
  window_days : Z;
  enabled : bool;
  created_at : Z;
  updated_at : Z;
}.

#[global] Instance t_eta : Eta t :=
    λ r, mk (id r) (tenant_id r) (channel_platform r) (max_sends_per_recipient r)
    (window_days r) (enabled r) (created_at r) (updated_at r).

End FrequencyCapSetting.

(** [app/db/models.py] lines 1017-1050, [TenantComplianceSettings]. *)
Module TenantComplianceSettings.

Record t := mk {
  id : N;
  tenant_id : N;
  postal_address : option string;
  unsubscribe_secret : option string;
  auto_pause_on_critical_anomaly : bool;
  created_at : Z;
  updated_at : Z;
}.

#[global] Instance t_eta : Eta t :=
    λ r, mk (id r) (tenant_id r) (postal_address r) (unsubscribe_secret r)
    (auto_pause_on_critical_anomaly r) (created_at r) (updated_at r).

End TenantComplianceSettings.

(** [app/db/models.py] lines 1053-1086, [ProviderRateLimit]. *)
Module ProviderRateLimit.

Record t := mk {
  id : N;
  tenant_id : N;
  provider : string;
  requests_per_minute : Z;
  enabled : bool;
  created_at : Z;
  updated_at : Z;
}.

#[global] Instance t_eta : Eta t :=
    λ r, mk (id r) (tenant_id r) (provider r) (requests_per_minute r) (enabled r) (created_at r)
    (updated_at r).

End ProviderRateLimit.

(** [app/db/models.py] lines 1089-1120, [RawWebhook]. *)
Module RawWebhook.

Record t := mk {
  id : N;
  tenant_id : option N;
  provider : string;
  signature_valid : bool;
  signature_reason : option string;
  headers : jdict;
  payload : string;
  mapped_event_id : option N;
  received_at : Z;
}.

#[global] Instance t_eta : Eta t :=
    λ r, mk (id r) (tenant_id r) (provider r) (signature_valid r) (signature_reason r)
    (headers r) (payload r) (mapped_event_id r) (received_at r).

End RawWebhook.

(** [app/db/models.py] lines 1123-1167, [MetricAnomaly]. *)
Module MetricAnomaly.

Record t := mk {
  id : N;
  tenant_id : N;
  campaign_id : N;
  metric : string;
  window_start : Z;
  window_end : Z;
  observed_value : Z; (* Numeric(18,6) *)
  baseline_median : Z; (* Numeric(18,6) *)
  baseline_stddev : Z; (* Numeric(18,6) *)
  sigma : Z; (* Numeric(8,4) *)
  severity : string;
  dismissed_at : option Z;
  dismissed_by : option N;
  created_at : Z;
}.

#[global] Instance t_eta : Eta t :=
    λ r, mk (id r) (tenant_id r) (campaign_id r) (metric r) (window_start r) (window_end r)
    (observed_value r) (baseline_median r) (baseline_stddev r) (sigma r) (severity r)
    (dismissed_at r) (dismissed_by r) (created_at r).

End MetricAnomaly.

(** [app/db/models.py] lines 1170-1218, [OptimisationRecommendation]. *)
Module OptimisationRecommendation.

Record t := mk {
  id : N;
  tenant_id : N;
  campaign_id : N;
  kind : string;
  proposal : jdict;
  rationale : option string;
  predicted_uplift : option Z; (* Numeric(6,4) *)
  status : string;
  applied_at : option Z;
  applied_by : option N;
  created_at : Z;
}.

#[global] Instance t_eta : Eta t :=
    λ r, mk (id r) (tenant_id r) (campaign_id r) (kind r) (proposal r) (rationale r)
    (predicted_uplift r) (status r) (applied_at r) (applied_by r) (created_at r).

End OptimisationRecommendation.

(** [app/db/models.py] lines 1221-1252, [CustomKpi]. *)
Module CustomKpi.

Record t := mk {
  id : N;
  tenant_id : N;
  campaign_id : option N;
  name : string;
  formula : jdict;
  deleted_at : option Z;
  created_by : option N;
  created_at : Z;
}.

#[global] Instance t_eta : Eta t :=
    λ r, mk (id r) (tenant_id r) (campaign_id r) (name r) (formula r) (deleted_at r)
    (created_by r) (created_at r).

End CustomKpi.

(** [app/db/models.py] lines 1255-1305, [SpendReconciliation]. *)
Module SpendReconciliation.

Record t := mk {
  id : N;
  tenant_id : N;
  campaign_id : N;
  period_start : Z;
  period_end : Z;
  committed_amount : Z; (* Numeric(14,2) *)
  invoiced_amount : Z; (* Numeric(14,2) *)
  delta_pct : Z; (* Numeric(8,4) *)
  status : string;
  note : option string;
  resolved_at : option Z;
  resolved_by : option N;
  created_at : Z;
}.

#[global] Instance t_eta : Eta t :=
    λ r, mk (id r) (tenant_id r) (campaign_id r) (period_start r) (period_end r)
    (committed_amount r) (invoiced_amount r) (delta_pct r) (status r) (note r) (resolved_at r)
    (resolved_by r) (created_at r).

End SpendReconciliation.

(** [app/db/models.py] lines 1308-1341, [CampaignChannelBudget]. *)
Module CampaignChannelBudget.

Record t := mk {
  campaign_id : N;
  channel_id : N;
  allocated : Z; (* Numeric(14,2) *)
  spent : Z; (* Numeric(14,2) *)
  updated_at : Z;
}.

#[global] Instance t_eta : Eta t :=
  λ r, mk (campaign_id r) (channel_id r) (allocated r) (spent r) (updated_at r).

End CampaignChannelBudget.

(** [app/db/models.py] lines 1344-1384, [CampaignReport]. *)
Module CampaignReport.

Record t := mk {
  id : N;
  tenant_id : N;
  campaign_id : N;
  version : Z;
  generated_at : Z;
  generated_by : string;
  data : jdict;
  is_latest : bool;
}.

#[global] Instance t_eta : Eta t :=
    λ r, mk (id r) (tenant_id r) (campaign_id r) (version r) (generated_at r) (generated_by r)
    (data r) (is_latest r).

End CampaignReport.

(** [app/db/models.py] lines 1387-1417, [AssistantConversation]. *)
Module AssistantConversation.

Record t := mk {
  user_id : N;
  tenant_id : N;
  messages : list json;
  active_campaign_id : option N;
  updated_at : Z;
}.

#[global] Instance t_eta : Eta t :=
  λ r, mk (user_id r) (tenant_id r) (messages r) (active_campaign_id r) (updated_at r).

End AssistantConversation.
