(* ===== verification/CsvUpload.v ===== *)
(** * Audience uploads: src/app/audiences/csv_upload.py

    The reader of the Standard Library's [csv] module in its default dialect, as its
    state machine, and the per-row validation of an uploaded contact list. The limit
    of the reader on the length of one field is left out. *)

From S2P Require Export PyNum.
Local Open Scope Z_scope.

(** ** [csv.reader] *)

Inductive csv_state :=
  START_RECORD | START_FIELD | IN_FIELD | IN_QUOTED_FIELD | QUOTE_IN_QUOTED_FIELD | EAT_CRNL.

Record csv_acc := mkacc { cst : csv_state; cfield : string; cfields : list string }.
Definition csv_start : csv_acc := mkacc START_RECORD "" [].

Definition dquote : ascii := ascii_of_N 34.
Definition newline_char : ascii := ascii_of_N 10.
Definition is_newline (c : ascii) : bool := (c ==b newline_char) || (c ==b ascii_of_N 13).

Definition save_field (st : csv_state) (a : csv_acc) : csv_acc :=
  mkacc st "" (cfields a ++ [cfield a]).
Definition add_char (st : csv_state) (c : ascii) (a : csv_acc) : csv_acc :=
  mkacc st (cfield a +:+ String c "") (cfields a).
Definition to_state (st : csv_state) (a : csv_acc) : csv_acc := mkacc st (cfield a) (cfields a).

(** One character of a line; [None] is its end, and the result [None] the error of a
    carriage return that is not followed by one. *)
Definition process_char (a : csv_acc) (c : option ascii) : option csv_acc :=
  match cst a, c with
  | START_RECORD, None => Some a
  | EAT_CRNL, None => Some (to_state START_RECORD a)
  | EAT_CRNL, Some c => if is_newline c then Some a else None
  | IN_QUOTED_FIELD, None => Some a
  | IN_QUOTED_FIELD, Some c =>
      Some (if c ==b dquote then to_state QUOTE_IN_QUOTED_FIELD a else add_char IN_QUOTED_FIELD c a)
  | (START_FIELD | IN_FIELD | QUOTE_IN_QUOTED_FIELD), None => Some (save_field START_RECORD a)
  | st, Some c =>
      Some (if is_newline c then
              match st with
              | START_RECORD => to_state EAT_CRNL a
              | _ => save_field EAT_CRNL a
              end
            else if c ==b ","%char then save_field START_FIELD a
            else if c ==b dquote then
              match st with
              | START_RECORD | START_FIELD => to_state IN_QUOTED_FIELD a
              | QUOTE_IN_QUOTED_FIELD => add_char IN_QUOTED_FIELD c a
              | _ => add_char IN_FIELD c a
              end
            else add_char IN_FIELD c a)
  end.

(** The rows read, and whether an error ends them. *)
Definition csv_result : Type := list (list string) * bool.
Definition csv_row (row : list string) (r : csv_result) : csv_result := (row :: r.1, r.2).

(** The end of a line closes the record, unless it is inside quotes. *)
Definition end_of_line (a : csv_acc) (k : csv_acc → csv_result) : csv_result :=
  match process_char a None with
  | None => ([], true)
  | Some a => match cst a with
              | START_RECORD => csv_row (cfields a) (k csv_start)
              | _ => k a
              end
  end.

(** The end of the input saves an open quoted field. *)
Definition end_of_input (a : csv_acc) : csv_result :=
  match cst a with
  | IN_QUOTED_FIELD => ([cfields a ++ [cfield a]], false)
  | _ => ([], false)
  end.

Fixpoint csv_rows (a : csv_acc) (line_open : bool) (s : string) : csv_result :=
  match s with
  | EmptyString => if line_open then end_of_line a end_of_input else end_of_input a
  | String c s =>
      match process_char a (Some c) with
      | None => ([], true)
      | Some a =>
          if c ==b newline_char then end_of_line a (λ a, csv_rows a false s)
          else csv_rows a true s
      end
  end.

Definition csv_reader (s : string) : csv_result := csv_rows csv_start false s.

(** ** [csv.DictReader] *)

(** The dictionary of a row; fields beyond the header go under the key [None], which is
    dropped here. *)
Fixpoint dict_row (names row : list string) (d : list (string * option string))
    : list (string * option string) :=
  match names, row with
  | [], _ => d
  | n :: names, [] => dict_row names [] (dset n None d)
  | n :: names, x :: row => dict_row names row (dset n (Some x) d)
  end.

(** ** Validation *)

(** [app/audiences/csv_upload.py] lines 35-41, [_NAME_FIELDS]. *)
Definition NAME_FIELDS : list string := ["first_name"; "last_name"; "company"; "title"; "industry"].
Definition MAX_NAME_LEN : nat := 200.
Definition DEFAULT_MAX_ROWS : Z := 10000.

(** [app/audiences/csv_upload.py] lines 46-51, [CsvRowError]. *)
Record CsvRowError := mkerr {
  err_row : Z; reason : string; err_field : option string; err_value : option string }.
(** [app/audiences/csv_upload.py] lines 54-58, [ParsedRow]. *)
Record ParsedRow := { row_number : Z; row_external_id : string; row_payload : jdict }.
(** [app/audiences/csv_upload.py] lines 61-65, [CsvParseResult]. *)
Record CsvParseResult := mkparse {
  total_rows : Z; valid : list ParsedRow; errors : list CsvRowError }.

Definition in_range (lo hi : ascii) (c : ascii) : bool :=
  (N_of_ascii lo <=? N_of_ascii c)%N && (N_of_ascii c <=? N_of_ascii hi)%N.
Definition is_letter (c : ascii) : bool := in_range "a" "z" c || in_range "A" "Z" c.
Definition is_alnum (c : ascii) : bool := is_letter c || in_range "0" "9" c.

(** What follows the last dot, and what precedes it. *)
Definition split_last_dot (s : string) : option (string * string) :=
  match rev (str_split "." "" s) with
  | tld :: x :: init => Some (str_join "." (rev (x :: init)), tld)
  | _ => None
  end.

(** [app/audiences/csv_upload.py] lines 16-16, [_EMAIL_RE]. On text that does not end in a
    newline. *)
Definition CSV_EMAIL_RE (s : string) : bool :=
  match str_split "@" "" s with
  | [local; domain] =>
      negb (str_empty local) &&
      str_all (λ c, is_alnum c || (c ∈b ["."; "_"; "%"; "+"; "-"]%char)) local &&
      match split_last_dot domain with
      | Some (host, tld) =>
          negb (str_empty host) &&
          str_all (λ c, is_alnum c || (c ∈b ["."; "-"]%char)) host &&
          bool_decide (2 <= String.length tld)%nat && str_all is_letter tld
      | None => false
      end
  | _ => false
  end.

(** [app/audiences/csv_upload.py] lines 17-17, [_COUNTRY_RE]. *)
Definition COUNTRY_RE (s : string) : bool := bool_decide (String.length s = 2%nat) && str_all is_letter s.

Definition field_of (normalized : list (string * string)) (k : string) : string :=
  default "" (dget k normalized).

(** The row's dictionary with stripped values under lowered, stripped keys. *)
Definition normalize (raw : list (string * option string)) : list (string * string) :=
  fold_left (λ d kv, dset (str_lower (str_strip kv.1)) (str_strip (default "" kv.2)) d) raw [].

(** The fields of [names] that are not empty, set on the payload. *)
Definition copy_fields (names : list string) (normalized : list (string * string)) (d : jdict) : jdict :=
  fold_left (λ d f, let v := field_of normalized f in if str_empty v then d else dset f (JStr v) d)
    names d.

Definition parse_tags (raw : string) : list string :=
  List.filter (λ t, negb (str_empty t)) (str_strip <$> str_split "," "" raw).

(** The payload of a valid row. *)
Definition row_payload_of (normalized : list (string * string)) (email country : string) : jdict :=
  let d := copy_fields NAME_FIELDS normalized [("email", JStr email)] in
  let d := if str_empty country then d else dset "country" (JStr country) d in
  let tags := parse_tags (field_of normalized "tags") in
  let d := if tags ==b [] then d else dset "tags" (JList (JStr <$> tags)) d in
  copy_fields ["linkedin_url"; "phone"; "seniority"] normalized d.

(** The verdict on one row. *)
Definition check_row (row_index : Z) (normalized : list (string * string)) (seen : list string)
    : CsvRowError + ParsedRow :=
  let email := str_lower (field_of normalized "email") in
  let country := str_upper (field_of normalized "country") in
  if str_empty email then inl (mkerr row_index "missing_required_field" (Some "email") None)
  else if negb (CSV_EMAIL_RE email) then
    inl (mkerr row_index "invalid_email_format" (Some "email") (Some email))
  else
    match List.find (λ f, bool_decide (MAX_NAME_LEN < String.length (field_of normalized f))%nat)
            NAME_FIELDS with
    | Some f => inl (mkerr row_index "field_too_long" (Some f) (Some "max=200"))
    | None =>
        if negb (str_empty country) && negb (COUNTRY_RE country) then
          inl (mkerr row_index "invalid_country_code" (Some "country") (Some country))
        else if email ∈b seen then
          inl (mkerr row_index "duplicate_in_file" (Some "email") (Some email))
        else inr {| row_number := row_index; row_external_id := email;
                    row_payload := row_payload_of normalized email country |}
    end.

(** The loop over the rows, up to the limit. *)
Fixpoint parse_rows (max_rows : Z) (names : list string) (row_index : Z) (rows : list (list string))
    (failed : bool) (r : CsvParseResult) : option CsvParseResult :=
  match rows with
  | [] => if failed then None else Some r
  | [] :: rows => parse_rows max_rows names row_index rows failed r
  | row :: rows =>
      let total := total_rows r + 1 in
      if max_rows <? total then
        Some (mkparse total (valid r)
          (errors r ++ [mkerr row_index "file_exceeds_max_rows" None (Some (str_of_Z max_rows))]))
      else
        parse_rows max_rows names (row_index + 1) rows failed
          match check_row row_index (normalize (dict_row names row [])) (row_external_id <$> valid r) with
          | inl err => mkparse total (valid r) (errors r ++ [err])
          | inr p => mkparse total (valid r ++ [p]) (errors r)
          end
  end.

(** [app/audiences/csv_upload.py] lines 68-171, [parse_csv]. [None] is a [csv.Error]. *)
Definition parse_csv (content : string) (max_rows : Z) : option CsvParseResult :=
  let '(rows, failed) := csv_reader content in
  let names := default [] (head rows) in
  if negb ("email" ∈b ((λ h, str_lower (str_strip h)) <$> names)) then
    if bool_decide (rows = []) && failed then None
    else Some (mkparse 0 [] [mkerr 0 "missing_required_header" (Some "email") None])
  else parse_rows max_rows names 2 (tail rows) failed (mkparse 0 [] []).

Definition lines (l : list string) : string := str_join (String newline_char "") l.

Example csv_quotes :
  csv_reader (lines ["a,b"; "1," +:+ String dquote ("x" +:+ String dquote (String dquote (", y" +:+ String dquote ""))); ""; "2"])
  = ([["a"; "b"]; ["1"; "x" +:+ String dquote ", y"]; []; ["2"]], false).
Proof. reflexivity. Qed.

Example csv_return : csv_reader ("a" +:+ String (ascii_of_N 13) "b") = ([], true).
Proof. reflexivity. Qed.

Example parse_sample :
  parse_csv (lines ["Email , country,tags"; " A@x.io,de, vip ,"; "a@X.io"; "b@x,,"; "c@x.io,deu"; ",,"]) 10000
  = Some (mkparse 5
      [{| row_number := 2; row_external_id := "a@x.io"; row_payload :=
            [("email", JStr "a@x.io"); ("country", JStr "DE"); ("tags", JList [JStr "vip"])] |}]
      [mkerr 3 "duplicate_in_file" (Some "email") (Some "a@x.io");
       mkerr 4 "invalid_email_format" (Some "email") (Some "b@x");
       mkerr 5 "invalid_country_code" (Some "country") (Some "DEU");
       mkerr 6 "missing_required_field" (Some "email") None]).
Proof. vm_compute. reflexivity. Qed.

(** ** What a parsed file is *)

Lemma copy_fields_get names normalized d k :
  dget k (copy_fields names normalized d) =
  if (k ∈b names) && negb (str_empty (field_of normalized k)) then Some (JStr (field_of normalized k))
  else dget k d.
Proof.
  unfold copy_fields. revert d. induction names as [|f names IH]; intros d.
  { by rewrite (bool_decide_eq_false_2 (k ∈ [])) by apply not_elem_of_nil. }
  simpl. rewrite IH. destruct (decide (k = f)) as [->|Hne].
  - rewrite (bool_decide_eq_true_2 (f ∈ f :: names)) by left. cbn [andb].
    destruct (str_empty (field_of normalized f)) eqn:E; cbn [negb]; [by rewrite andb_false_r|].
    rewrite andb_true_r. case_bool_decide; [done|]. by rewrite dget_dset_eq.
  - replace (k ∈b f :: names) with (k ∈b names) by (apply bool_decide_ext; rewrite elem_of_cons; tauto).
    destruct ((k ∈b names) && _); [done|]. destruct (str_empty (field_of normalized f)); [done|].
    by rewrite dget_dset_ne.
Qed.

(** A valid row: addressed by its email, which matches; a two-letter country; tags that
    are not empty; every other field non-empty text, the names of at most 200
    characters. *)
Record row_typed (p : ParsedRow) : Prop := {
  typed_email : CSV_EMAIL_RE (row_external_id p) = true;
  typed_address : dget "email" (row_payload p) = Some (JStr (row_external_id p));
  typed_country v : dget "country" (row_payload p) = Some v → ∃ c, v = JStr c ∧ COUNTRY_RE c = true;
  typed_tags v : dget "tags" (row_payload p) = Some v →
    ∃ ts, v = JList (JStr <$> ts) ∧ ts ≠ [] ∧ ∀ t, t ∈ ts → t ≠ "";
  typed_text k v : k ≠ "email" → k ≠ "country" → k ≠ "tags" → dget k (row_payload p) = Some v →
    ∃ x, v = JStr x ∧ x ≠ "" ∧ (k ∈ NAME_FIELDS → String.length x <= MAX_NAME_LEN)%nat;
}.

(** The fields of a valid row, in one equation. *)
Lemma row_payload_get normalized email country k :
  dget k (row_payload_of normalized email country) =
  if (k ∈b ["linkedin_url"; "phone"; "seniority"]) && negb (str_empty (field_of normalized k))
  then Some (JStr (field_of normalized k))
  else if k ==b "tags" then
    (if parse_tags (field_of normalized "tags") ==b [] then None
     else Some (JList (JStr <$> parse_tags (field_of normalized "tags"))))
  else if k ==b "country" then (if str_empty country then None else Some (JStr country))
  else if (k ∈b NAME_FIELDS) && negb (str_empty (field_of normalized k))
  then Some (JStr (field_of normalized k))
  else if k ==b "email" then Some (JStr email) else None.
Proof.
  unfold row_payload_of. cbv zeta. rewrite copy_fields_get.
  destruct (_ && _); [done|].
  assert (∀ d : jdict, dget k (if parse_tags (field_of normalized "tags") ==b [] then d
      else dset "tags" (JList (JStr <$> parse_tags (field_of normalized "tags"))) d) =
    if (k ==b "tags") && negb (parse_tags (field_of normalized "tags") ==b [])
    then Some (JList (JStr <$> parse_tags (field_of normalized "tags"))) else dget k d) as Ht.
  { intros d. destruct (parse_tags _ ==b []); [by rewrite andb_false_r|].
    case_bool_decide as Ek; [subst; by rewrite dget_dset_eq|by rewrite dget_dset_ne]. }
  rewrite Ht. clear Ht.
  assert (∀ d : jdict, dget k (if str_empty country then d else dset "country" (JStr country) d) =
    if (k ==b "country") && negb (str_empty country) then Some (JStr country) else dget k d) as Hc.
  { intros d. destruct (str_empty country); [by rewrite andb_false_r|].
    case_bool_decide as Ek; [subst; by rewrite dget_dset_eq|by rewrite dget_dset_ne]. }
  rewrite Hc, copy_fields_get. clear Hc.
  destruct (decide (k = "tags")) as [->|Nt].
  { rewrite (bool_decide_eq_true_2 ("tags" = "tags")) by done. by destruct (parse_tags _ ==b []). }
  rewrite (bool_decide_eq_false_2 (k = "tags")) by done. cbn [andb].
  destruct (decide (k = "country")) as [->|Nc].
  { rewrite (bool_decide_eq_true_2 ("country" = "country")) by done. by destruct (str_empty country). }
  rewrite (bool_decide_eq_false_2 (k = "country")) by done. done.
Qed.

Lemma row_payload_tags normalized email country :
  dget "tags" (row_payload_of normalized email country) =
  if parse_tags (field_of normalized "tags") ==b [] then None
  else Some (JList (JStr <$> parse_tags (field_of normalized "tags"))).
Proof. exact (row_payload_get normalized email country "tags"). Qed.

Lemma row_payload_country normalized email country :
  dget "country" (row_payload_of normalized email country) =
  if str_empty country then None else Some (JStr country).
Proof. exact (row_payload_get normalized email country "country"). Qed.

Lemma row_payload_email normalized email country :
  dget "email" (row_payload_of normalized email country) = Some (JStr email).
Proof. exact (row_payload_get normalized email country "email"). Qed.

Lemma find_none {A} (f : A → bool) l : List.find f l = None → ∀ x, x ∈ l → f x = false.
Proof. intros H x Hx%list_elem_of_In. by eapply List.find_none. Qed.

Lemma check_row_typed i normalized seen p :
  check_row i normalized seen = inr p → row_typed p ∧ row_external_id p ∉ seen.
Proof.
  unfold check_row. cbv zeta. set (email := str_lower _). set (country := str_upper _).
  destruct (str_empty email) eqn:He; [done|]. destruct (CSV_EMAIL_RE email) eqn:Hre; [|done].
  destruct (List.find _ _) eqn:Hlen; [done|]. cbn [negb].
  destruct (negb (str_empty country) && negb (COUNTRY_RE country)) eqn:Hc; [done|].
  case_bool_decide as Hs; [done|]. intros [= <-]. split; [|done].
  pose proof (find_none _ _ Hlen) as Hl. cbn beta in Hl.
  split; cbn [row_external_id row_payload]; [done|apply row_payload_email|..].
  - intros v. rewrite row_payload_country. destruct (str_empty country); [done|]. intros [= <-].
    exists country. split; [done|]. by apply negb_false_iff in Hc.
  - intros v. rewrite row_payload_tags. case_bool_decide; [done|]. intros [= <-].
    eexists. split; [done|]. split; [done|]. intros t [_ Ht]%elem_of_bfilter.
    by apply str_empty_ne, negb_true_iff.
  - intros k v N1 N2 N3. rewrite row_payload_get.
    rewrite (bool_decide_eq_false_2 (k = "tags")), (bool_decide_eq_false_2 (k = "country")),
      (bool_decide_eq_false_2 (k = "email")) by done.
    assert (k ∈ NAME_FIELDS → String.length (field_of normalized k) <= MAX_NAME_LEN)%nat as Hk.
    { intros Hin. specialize (Hl k Hin). apply bool_decide_eq_false_1 in Hl. lia. }
    clear Hc. destruct ((k ∈b ["linkedin_url"; "phone"; "seniority"]) && _) eqn:E1.
    + intros [= <-]. exists (field_of normalized k). apply andb_true_iff in E1 as [_ E1].
      split_and!; [done|by apply str_empty_ne, negb_true_iff|done].
    + destruct ((k ∈b NAME_FIELDS) && _) eqn:E2; [|done]. intros [= <-].
      exists (field_of normalized k). apply andb_true_iff in E2 as [_ E2].
      split_and!; [done|by apply str_empty_ne, negb_true_iff|done].
Qed.

(** What the loop keeps. *)
Record parse_ok (r : CsvParseResult) : Prop := {
  ok_typed p : p ∈ valid r → row_typed p;
  ok_unique : NoDup (row_external_id <$> valid r);
  ok_count : total_rows r = Z.of_nat (length (valid r) + length (errors r));
}.

Lemma parse_rows_ok max_rows names i rows failed r r' :
  parse_rows max_rows names i rows failed r = Some r' → parse_ok r → total_rows r <= max_rows →
  parse_ok r' ∧ total_rows r' <= max_rows + 1.
Proof.
  revert i r. induction rows as [|row rows IH]; intros i r; cbn [parse_rows].
  { destruct failed; [done|]. intros [= <-] Hr Hm. split; [done|lia]. }
  destruct row as [|x row]; [by apply IH|].
  destruct (Z.ltb_spec max_rows (total_rows r + 1)) as [Hlt|Hle].
  - intros [= <-] [Ht Hu Hn] Hm. split; [split; cbn; [done|done|]|cbn; lia].
    rewrite length_app. cbn. lia.
  - intros Hrun [Ht Hu Hn] Hm. apply IH in Hrun; [done|..].
    + destruct (check_row _ _ _) as [err|p] eqn:Hc.
      * split; cbn; [done|done|]. rewrite length_app. cbn. lia.
      * apply check_row_typed in Hc as [Hp Hnew]. split; cbn.
        -- intros q [Hq| ->%list_elem_of_singleton]%elem_of_app; [by apply Ht|done].
        -- rewrite fmap_app. apply NoDup_app. split; [done|]. split; [|apply NoDup_singleton].
           intros y Hy ->%list_elem_of_singleton. done.
        -- rewrite length_app. cbn. lia.
    + destruct (check_row _ _ _); cbn; lia.
Qed.

(** C39: what a parsed file is. Every accepted row is well typed: addressed by an email
    that matches and is its payload's, with a two-letter country, tags that are not empty
    and non-empty text elsewhere. No two accepted rows have the same address. Unless the
    email column is missing, every row is answered for exactly once, as accepted or as an
    error, and at most one row more than the limit is looked at. *)
Theorem parse_csv_typed content max_rows r :
  parse_csv content max_rows = Some r → 0 <= max_rows →
  (∀ p, p ∈ valid r → row_typed p) ∧ NoDup (row_external_id <$> valid r) ∧
  (valid r = [] ∧ errors r = [mkerr 0 "missing_required_header" (Some "email") None] ∨
   total_rows r = Z.of_nat (length (valid r) + length (errors r)) ∧ total_rows r <= max_rows + 1).
Proof.
  unfold parse_csv. destruct (csv_reader content) as [rows failed]. intros Hrun Hm.
  destruct (negb _).
  - destruct (_ && failed); [done|]. injection Hrun as <-. cbn. split; [|split; [constructor|by left]].
    intros p Hp. by apply not_elem_of_nil in Hp.
  - apply parse_rows_ok in Hrun as [[Ht Hu Hn] Hb].
    + split; [done|]. split; [done|]. by right.
    + split; cbn; [|constructor|done]. intros p Hp. by apply not_elem_of_nil in Hp.
    + done.
Qed.

Lemma parse_csv_typed_witness :
  ∃ r, parse_csv (lines ["email,tags"; "a@x.io,vip"; "b@x"]) 10 = Some r ∧
    NoDup (row_external_id <$> valid r).
Proof.
  eexists. split; [vm_compute; reflexivity|].
  apply (parse_csv_typed (lines ["email,tags"; "a@x.io,vip"; "b@x"]) 10); [vm_compute; reflexivity|lia].
Defined.
