(* ===== verification/Db.v ===== *)
(** * The database and the session

    The state of every model: one finite map per table, from the primary key to
    the row, and the supply of fresh UUIDs that stands for [gen_random_uuid()].
    A session's rows are those the tenant's row-level security lets it see, so a
    [db] is what one tenant's session reads and writes.

    [M A] is a coroutine body: it reads the clock and the actor from [env],
    reads and writes the database, and returns a value or raises. A raised
    exception keeps the writes made so far (they are pending in the session);
    [transaction] is the commit-or-rollback boundary. A query without ORDER BY
    returns rows in key order; nothing proved depends on that order. *)

From S2P Require Export PyNum Models.
Local Open Scope Z_scope.

(** ** Tables *)

Record db := mkdb {
  t_tenant : gmap N Tenant.t;
  t_app_user : gmap N AppUser.t;
  t_agent : gmap N Agent.t;
  t_campaign : gmap N Campaign.t;
  t_task : gmap N Task.t;
  t_audit_log : gmap N AuditLog.t;
  t_agent_log : gmap N AgentLog.t;
  t_channel : gmap N Channel.t;
  t_integration_credential : gmap N IntegrationCredential.t;
  t_audience : gmap N Audience.t;
  t_audience_member : gmap (N * string) AudienceMember.t;
  t_analytic_event : gmap N AnalyticEvent.t;
  t_brand_voice : gmap N BrandVoice.t;
  t_tenant_constraint : gmap N TenantConstraint.t;
  t_strategy_proposal : gmap N StrategyProposal.t;
  t_strategy_touchpoint : gmap N StrategyTouchpoint.t;
  t_content_asset : gmap N ContentAsset.t;
  t_compliance_rule : gmap N ComplianceRule.t;
  t_ab_test : gmap N AbTest.t;
  t_ab_test_assignment : gmap N AbTestAssignment.t;
  t_approval_decision_log : gmap N ApprovalDecisionLog.t;
  t_tenant_approval_settings : gmap N TenantApprovalSettings.t;
  t_suppression_entry : gmap N SuppressionEntry.t;
  t_dispatch_attempt : gmap N DispatchAttempt.t;
  t_frequency_cap_setting : gmap N FrequencyCapSetting.t;
  t_tenant_compliance_settings : gmap N TenantComplianceSettings.t;
  t_provider_rate_limit : gmap N ProviderRateLimit.t;
  t_raw_webhook : gmap N RawWebhook.t;
  t_metric_anomaly : gmap N MetricAnomaly.t;
  t_optimisation_recommendation : gmap N OptimisationRecommendation.t;
  t_custom_kpi : gmap N CustomKpi.t;
  t_spend_reconciliation : gmap N SpendReconciliation.t;
  t_campaign_channel_budget : gmap (N * N) CampaignChannelBudget.t;
  t_campaign_report : gmap N CampaignReport.t;
  t_assistant_conversation : gmap N AssistantConversation.t;
  next_uuid : N;
}.

#[export] Instance db_eta : Eta db :=
  λ s, mkdb (t_tenant s) (t_app_user s) (t_agent s) (t_campaign s) (t_task s) (t_audit_log s)
    (t_agent_log s) (t_channel s) (t_integration_credential s) (t_audience s)
    (t_audience_member s) (t_analytic_event s) (t_brand_voice s) (t_tenant_constraint s)
    (t_strategy_proposal s) (t_strategy_touchpoint s) (t_content_asset s) (t_compliance_rule s)
    (t_ab_test s) (t_ab_test_assignment s) (t_approval_decision_log s)
    (t_tenant_approval_settings s) (t_suppression_entry s) (t_dispatch_attempt s)
    (t_frequency_cap_setting s) (t_tenant_compliance_settings s) (t_provider_rate_limit s)
    (t_raw_webhook s) (t_metric_anomaly s) (t_optimisation_recommendation s) (t_custom_kpi s)
    (t_spend_reconciliation s) (t_campaign_channel_budget s) (t_campaign_report s)
    (t_assistant_conversation s) (next_uuid s).

Definition empty_db : db :=
  mkdb ∅ ∅ ∅ ∅ ∅ ∅ ∅ ∅ ∅ ∅ ∅ ∅ ∅ ∅ ∅ ∅ ∅ ∅ ∅ ∅ ∅ ∅ ∅ ∅ ∅ ∅ ∅ ∅ ∅ ∅ ∅ ∅ ∅ ∅ ∅ 1%N.

(** What the session needs of a table: its primary key, where it lives in the
    database, and the [set_updated_at] trigger ([touch], the identity where the
    schema has no trigger). *)
Class Table (K R : Type) `{Countable K} := {
  pk : R → K;
  rows : db → gmap K R;
  set_rows : gmap K R → db → db;
  touch : Z → R → R;
  rows_set_rows : ∀ m s, rows (set_rows m s) = m;
  pk_touch : ∀ t r, pk (touch t r) = pk r;
}.
#[export] Hint Mode Table - ! - - : typeclass_instances.

#[export] Instance tenant_table : Table N Tenant.t := {|
  pk := Tenant.id; rows := t_tenant;
  set_rows m s := s <| t_tenant := m |>; touch := λ t r, r <| Tenant.updated_at := t |>;
  rows_set_rows _ _ := eq_refl; pk_touch _ _ := eq_refl |}.
#[export] Instance app_user_table : Table N AppUser.t := {|
  pk := AppUser.id; rows := t_app_user;
  set_rows m s := s <| t_app_user := m |>; touch := λ t r, r <| AppUser.updated_at := t |>;
  rows_set_rows _ _ := eq_refl; pk_touch _ _ := eq_refl |}.
#[export] Instance agent_table : Table N Agent.t := {|
  pk := Agent.id; rows := t_agent;
  set_rows m s := s <| t_agent := m |>; touch := λ t r, r <| Agent.updated_at := t |>;
  rows_set_rows _ _ := eq_refl; pk_touch _ _ := eq_refl |}.
#[export] Instance campaign_table : Table N Campaign.t := {|
  pk := Campaign.id; rows := t_campaign;
  set_rows m s := s <| t_campaign := m |>; touch := λ t r, r <| Campaign.updated_at := t |>;
  rows_set_rows _ _ := eq_refl; pk_touch _ _ := eq_refl |}.
#[export] Instance task_table : Table N Task.t := {|
  pk := Task.id; rows := t_task;
  set_rows m s := s <| t_task := m |>; touch := λ t r, r <| Task.updated_at := t |>;
  rows_set_rows _ _ := eq_refl; pk_touch _ _ := eq_refl |}.
#[export] Instance audit_log_table : Table N AuditLog.t := {|
  pk := AuditLog.id; rows := t_audit_log;
  set_rows m s := s <| t_audit_log := m |>; touch := λ _ r, r;
  rows_set_rows _ _ := eq_refl; pk_touch _ _ := eq_refl |}.
#[export] Instance agent_log_table : Table N AgentLog.t := {|
  pk := AgentLog.id; rows := t_agent_log;
  set_rows m s := s <| t_agent_log := m |>; touch := λ _ r, r;
  rows_set_rows _ _ := eq_refl; pk_touch _ _ := eq_refl |}.
#[export] Instance channel_table : Table N Channel.t := {|
  pk := Channel.id; rows := t_channel;
  set_rows m s := s <| t_channel := m |>; touch := λ t r, r <| Channel.updated_at := t |>;
  rows_set_rows _ _ := eq_refl; pk_touch _ _ := eq_refl |}.
#[export] Instance integration_credential_table : Table N IntegrationCredential.t := {|
  pk := IntegrationCredential.id; rows := t_integration_credential;
  set_rows m s := s <| t_integration_credential := m |>; touch := λ t r, r <| IntegrationCredential.updated_at := t |>;
  rows_set_rows _ _ := eq_refl; pk_touch _ _ := eq_refl |}.
#[export] Instance audience_table : Table N Audience.t := {|
  pk := Audience.id; rows := t_audience;
  set_rows m s := s <| t_audience := m |>; touch := λ t r, r <| Audience.updated_at := t |>;
  rows_set_rows _ _ := eq_refl; pk_touch _ _ := eq_refl |}.
#[export] Instance audience_member_table : Table (N * string) AudienceMember.t := {|
  pk := λ r, (AudienceMember.audience_id r, AudienceMember.external_id r); rows := t_audience_member;
  set_rows m s := s <| t_audience_member := m |>; touch := λ _ r, r;
  rows_set_rows _ _ := eq_refl; pk_touch _ _ := eq_refl |}.
#[export] Instance analytic_event_table : Table N AnalyticEvent.t := {|
  pk := AnalyticEvent.id; rows := t_analytic_event;
  set_rows m s := s <| t_analytic_event := m |>; touch := λ _ r, r;
  rows_set_rows _ _ := eq_refl; pk_touch _ _ := eq_refl |}.
#[export] Instance brand_voice_table : Table N BrandVoice.t := {|
  pk := BrandVoice.id; rows := t_brand_voice;
  set_rows m s := s <| t_brand_voice := m |>; touch := λ _ r, r;
  rows_set_rows _ _ := eq_refl; pk_touch _ _ := eq_refl |}.
#[export] Instance tenant_constraint_table : Table N TenantConstraint.t := {|
  pk := TenantConstraint.id; rows := t_tenant_constraint;
  set_rows m s := s <| t_tenant_constraint := m |>; touch := λ _ r, r;
  rows_set_rows _ _ := eq_refl; pk_touch _ _ := eq_refl |}.
#[export] Instance strategy_proposal_table : Table N StrategyProposal.t := {|
  pk := StrategyProposal.id; rows := t_strategy_proposal;
  set_rows m s := s <| t_strategy_proposal := m |>; touch := λ _ r, r;
  rows_set_rows _ _ := eq_refl; pk_touch _ _ := eq_refl |}.
#[export] Instance strategy_touchpoint_table : Table N StrategyTouchpoint.t := {|
  pk := StrategyTouchpoint.id; rows := t_strategy_touchpoint;
  set_rows m s := s <| t_strategy_touchpoint := m |>; touch := λ _ r, r;
  rows_set_rows _ _ := eq_refl; pk_touch _ _ := eq_refl |}.
#[export] Instance content_asset_table : Table N ContentAsset.t := {|
  pk := ContentAsset.id; rows := t_content_asset;
  set_rows m s := s <| t_content_asset := m |>; touch := λ t r, r <| ContentAsset.updated_at := t |>;
  rows_set_rows _ _ := eq_refl; pk_touch _ _ := eq_refl |}.
#[export] Instance compliance_rule_table : Table N ComplianceRule.t := {|
  pk := ComplianceRule.id; rows := t_compliance_rule;
  set_rows m s := s <| t_compliance_rule := m |>; touch := λ _ r, r;
  rows_set_rows _ _ := eq_refl; pk_touch _ _ := eq_refl |}.
#[export] Instance ab_test_table : Table N AbTest.t := {|
  pk := AbTest.id; rows := t_ab_test;
  set_rows m s := s <| t_ab_test := m |>; touch := λ t r, r <| AbTest.updated_at := t |>;
  rows_set_rows _ _ := eq_refl; pk_touch _ _ := eq_refl |}.
#[export] Instance ab_test_assignment_table : Table N AbTestAssignment.t := {|
  pk := AbTestAssignment.id; rows := t_ab_test_assignment;
  set_rows m s := s <| t_ab_test_assignment := m |>; touch := λ _ r, r;
  rows_set_rows _ _ := eq_refl; pk_touch _ _ := eq_refl |}.
#[export] Instance approval_decision_log_table : Table N ApprovalDecisionLog.t := {|
  pk := ApprovalDecisionLog.id; rows := t_approval_decision_log;
  set_rows m s := s <| t_approval_decision_log := m |>; touch := λ _ r, r;
  rows_set_rows _ _ := eq_refl; pk_touch _ _ := eq_refl |}.
#[export] Instance tenant_approval_settings_table : Table N TenantApprovalSettings.t := {|
  pk := TenantApprovalSettings.id; rows := t_tenant_approval_settings;
  set_rows m s := s <| t_tenant_approval_settings := m |>; touch := λ _ r, r;
  rows_set_rows _ _ := eq_refl; pk_touch _ _ := eq_refl |}.
#[export] Instance suppression_entry_table : Table N SuppressionEntry.t := {|
  pk := SuppressionEntry.id; rows := t_suppression_entry;
  set_rows m s := s <| t_suppression_entry := m |>; touch := λ _ r, r;
  rows_set_rows _ _ := eq_refl; pk_touch _ _ := eq_refl |}.
#[export] Instance dispatch_attempt_table : Table N DispatchAttempt.t := {|
  pk := DispatchAttempt.id; rows := t_dispatch_attempt;
  set_rows m s := s <| t_dispatch_attempt := m |>; touch := λ _ r, r;
  rows_set_rows _ _ := eq_refl; pk_touch _ _ := eq_refl |}.
#[export] Instance frequency_cap_setting_table : Table N FrequencyCapSetting.t := {|
  pk := FrequencyCapSetting.id; rows := t_frequency_cap_setting;
  set_rows m s := s <| t_frequency_cap_setting := m |>; touch := λ _ r, r;
  rows_set_rows _ _ := eq_refl; pk_touch _ _ := eq_refl |}.
#[export] Instance tenant_compliance_settings_table : Table N TenantComplianceSettings.t := {|
  pk := TenantComplianceSettings.id; rows := t_tenant_compliance_settings;
  set_rows m s := s <| t_tenant_compliance_settings := m |>; touch := λ _ r, r;
  rows_set_rows _ _ := eq_refl; pk_touch _ _ := eq_refl |}.
#[export] Instance provider_rate_limit_table : Table N ProviderRateLimit.t := {|
  pk := ProviderRateLimit.id; rows := t_provider_rate_limit;
  set_rows m s := s <| t_provider_rate_limit := m |>; touch := λ _ r, r;
  rows_set_rows _ _ := eq_refl; pk_touch _ _ := eq_refl |}.
#[export] Instance raw_webhook_table : Table N RawWebhook.t := {|
  pk := RawWebhook.id; rows := t_raw_webhook;
  set_rows m s := s <| t_raw_webhook := m |>; touch := λ _ r, r;
  rows_set_rows _ _ := eq_refl; pk_touch _ _ := eq_refl |}.
#[export] Instance metric_anomaly_table : Table N MetricAnomaly.t := {|
  pk := MetricAnomaly.id; rows := t_metric_anomaly;
  set_rows m s := s <| t_metric_anomaly := m |>; touch := λ _ r, r;
  rows_set_rows _ _ := eq_refl; pk_touch _ _ := eq_refl |}.
#[export] Instance optimisation_recommendation_table : Table N OptimisationRecommendation.t := {|
  pk := OptimisationRecommendation.id; rows := t_optimisation_recommendation;
  set_rows m s := s <| t_optimisation_recommendation := m |>; touch := λ _ r, r;
  rows_set_rows _ _ := eq_refl; pk_touch _ _ := eq_refl |}.
#[export] Instance custom_kpi_table : Table N CustomKpi.t := {|
  pk := CustomKpi.id; rows := t_custom_kpi;
  set_rows m s := s <| t_custom_kpi := m |>; touch := λ _ r, r;
  rows_set_rows _ _ := eq_refl; pk_touch _ _ := eq_refl |}.
#[export] Instance spend_reconciliation_table : Table N SpendReconciliation.t := {|
  pk := SpendReconciliation.id; rows := t_spend_reconciliation;
  set_rows m s := s <| t_spend_reconciliation := m |>; touch := λ _ r, r;
  rows_set_rows _ _ := eq_refl; pk_touch _ _ := eq_refl |}.
#[export] Instance campaign_channel_budget_table : Table (N * N) CampaignChannelBudget.t := {|
  pk := λ r, (CampaignChannelBudget.campaign_id r, CampaignChannelBudget.channel_id r); rows := t_campaign_channel_budget;
  set_rows m s := s <| t_campaign_channel_budget := m |>; touch := λ t r, r <| CampaignChannelBudget.updated_at := t |>;
  rows_set_rows _ _ := eq_refl; pk_touch _ _ := eq_refl |}.
#[export] Instance campaign_report_table : Table N CampaignReport.t := {|
  pk := CampaignReport.id; rows := t_campaign_report;
  set_rows m s := s <| t_campaign_report := m |>; touch := λ _ r, r;
  rows_set_rows _ _ := eq_refl; pk_touch _ _ := eq_refl |}.
#[export] Instance assistant_conversation_table : Table N AssistantConversation.t := {|
  pk := AssistantConversation.user_id; rows := t_assistant_conversation;
  set_rows m s := s <| t_assistant_conversation := m |>; touch := λ _ r, r;
  rows_set_rows _ _ := eq_refl; pk_touch _ _ := eq_refl |}.
(** ** Exceptions *)

Inductive exn :=
  | ValueError (msg : string)
  | LookupError (msg : string)
  | AssertionError (msg : string)
  | KeyError
  | TypeError
  | InvalidOperation
  | MultipleResultsFound
  | NoResultFound
  | IntegrityError
  | HTTPException (status_code : Z) (detail : string)
  | HTTPExceptionDetail (status_code : Z) (detail : json)
  | UnknownTransitionError (msg : string)
  | GuardFailedError (msg : string)
  | ContentCreatorError (msg : string)
  | PlannerError (msg : string)
  | ComplianceCheckError (msg : string)
  | CopywritingError (msg : string)
  | SeoAnalysisError (msg : string)
  | DistributionPreconditionError (msg : string)
  | DispatchValidationError (msg : string)
  | ProviderUnreachableError (msg : string)
  | ProviderRejectedError (msg : string)
  | UnknownProviderError (msg : string)
  | MediaRequiredError (msg : string)
  | SocialPublishError (msg : string)
  | OAuthRevokedError (msg : string)
  | AbTestAssignmentError (msg : string)
  | ToolError (msg : string)
  | ToolPermissionError (msg : string)
  | FieldUnavailableError (msg section : string) (index : Z)
  | OperatorUnsupportedError (msg section : string) (index : Z)
  | CriteriaValueError (msg section : string) (index : Z)
  | StrategistError (msg : string)
  | StrategistPreconditionError (msg : string)
  | CalendarSeedError (msg : string)
  | HardCapViolationError (msg : string) (violations : list jdict)
  | SpendReadOnlyError (msg : string)
  | AttributeError (msg : string)
  | OutreachGenerationError (msg : string)
  | EnrichmentRequestError (msg : string)
  | EnrichmentDisabledError (msg : string)
  | AssistantError (msg : string)
  | ToolUnavailableError (msg : string)
  | UnknownSocialProviderError (msg : string)
  | HTTPStatusError (msg : string)
  | UnknownAdProviderError (msg : string)
  | NotImplementedError (msg : string)
  | OtherError (msg : string).

(** [str(exc)]. *)
Definition exn_str (x : exn) : string :=
  match x with
  | ValueError m | LookupError m | AssertionError m | UnknownTransitionError m
  | GuardFailedError m | ContentCreatorError m | PlannerError m | ComplianceCheckError m
  | CopywritingError m | SeoAnalysisError m | OutreachGenerationError m | EnrichmentRequestError m
  | EnrichmentDisabledError m | AssistantError m | ToolUnavailableError m
  | DistributionPreconditionError m | DispatchValidationError m | ProviderUnreachableError m
  | ProviderRejectedError m | UnknownProviderError m | MediaRequiredError m
  | SocialPublishError m | OAuthRevokedError m | AbTestAssignmentError m | ToolError m | ToolPermissionError m
  | FieldUnavailableError m _ _ | OperatorUnsupportedError m _ _ | CriteriaValueError m _ _
  | StrategistError m | StrategistPreconditionError m | CalendarSeedError m
  | HardCapViolationError m _ | SpendReadOnlyError m
  | UnknownSocialProviderError m | HTTPStatusError m | UnknownAdProviderError m | NotImplementedError m
  | AttributeError m | OtherError m => m
  | HTTPExceptionDetail c d => str_of_Z c +:+ ": " +:+ json_str d
  | HTTPException c d => str_of_Z c +:+ ": " +:+ d
  | MultipleResultsFound => "Multiple rows were found when one or none was required"
  | NoResultFound => "No row was found when one was required"
  | KeyError => "KeyError"
  | TypeError => "TypeError"
  | InvalidOperation => "InvalidOperation"
  | IntegrityError => "IntegrityError"
  end.

(** ** The monad *)

(** What a coroutine reads from its surroundings: the clock (one reading per
    run), the audit actor of the request and [random.uniform(0, hi)]. *)
Record env := mkenv {
  now : Z;
  current_actor_kind : string;
  current_actor_id : option N;
  uniform : Z → Z;
}.

Definition M (A : Type) : Type := env → db → db * (exn + A).

#[export] Instance M_ret : MRet M := λ A x e s, (s, inr x).
#[export] Instance M_bind : MBind M := λ A B f m e s,
  match m e s with
  | (s', inl x) => (s', inl x)
  | (s', inr a) => f a e s'
  end.

Definition raise {A} (x : exn) : M A := λ e s, (s, inl x).
Definition of_sum {A} (r : exn + A) : M A := match r with inl x => raise x | inr a => mret a end.
Definition asks {A} (f : env → A) : M A := λ e s, (s, inr (f e)).
Definition gets {A} (f : db → A) : M A := λ e s, (s, inr (f s)).
Definition modify (f : db → db) : M () := λ e s, (f s, inr ()).
Definition when (b : bool) (m : M ()) : M () := if b then m else mret ().
Definition raise_if (b : bool) (x : exn) : M () := when b (raise x).

(** [try: m except ...]: [h] says which exceptions are caught. *)
Definition try_except {A} (m : M A) (h : exn → option (M A)) : M A := λ e s,
  match m e s with
  | (s', inl x) => match h x with Some k => k e s' | None => (s', inl x) end
  | r => r
  end.

(** [async with session.begin()], and the request boundary of [get_tenant_db]. *)
Definition transaction {A} (m : M A) : M A := λ e s,
  match m e s with
  | (_, inl x) => (s, inl x)
  | r => r
  end.

Fixpoint foreach {A} (l : list A) (f : A → M ()) : M () :=
  match l with
  | [] => mret ()
  | x :: l => f x ;; foreach l f
  end.

Fixpoint foldM {A B} (f : B → A → M B) (b : B) (l : list A) : M B :=
  match l with
  | [] => mret b
  | x :: l => b' ← f b x; foldM f b' l
  end.

Fixpoint mapM_ {A B} (f : A → M B) (l : list A) : M (list B) :=
  match l with
  | [] => mret []
  | x :: l => y ← f x; ys ← mapM_ f l; mret (y :: ys)
  end.

(** ** Session operations *)

Section session.
Context `{Table K R}.

(** [session.get(R, k)]. *)
Definition get_row (k : K) : M (option R) := gets (λ s, rows s !! k).

(** [select(R).where(p)]. *)
Definition select (p : R → bool) : M (list R) :=
  gets (λ s, List.filter p (snd <$> map_to_list (rows s))).

(** [.scalar_one_or_none()] on the rows of a select. *)
Definition scalar_one_or_none {A} (l : list A) : M (option A) :=
  match l with
  | [] => mret None
  | [x] => mret (Some x)
  | _ => raise MultipleResultsFound
  end.

Definition scalar_one {A} (l : list A) : M A :=
  match l with
  | [] => raise NoResultFound
  | [x] => mret x
  | _ => raise MultipleResultsFound
  end.

(** Assignments to attributes of the ORM object [k], flushed. *)
Definition update_row (k : K) (f : R → R) : M () := λ e s,
  (set_rows (alter (λ r, touch (now e) (f r)) k (rows s)) s, inr ()).

(** Assignments to attributes of the ORM object [r], flushed: the row is updated
    (and its trigger fires), the object in hand changes as assigned. *)
Definition assign (r : R) (f : R → R) : M R := update_row (pk r) f ;; mret (f r).

(** [update(R).where(p).values(f)]; returns the row count. *)
Definition update_where (p : R → bool) (f : R → R) : M Z := λ e s,
  (set_rows ((λ r, if p r then touch (now e) (f r) else r) <$> rows s) s,
   inr (Z.of_nat (length (List.filter p (snd <$> map_to_list (rows s)))))).

(** [delete(R).where(p)]; returns the row count. *)
Definition delete_where (p : R → bool) : M Z := λ e s,
  (set_rows (filter (λ kr, p kr.2 = false) (rows s)) s,
   inr (Z.of_nat (length (List.filter p (snd <$> map_to_list (rows s)))))).

(** [session.add(r)] of a row whose key is chosen by the caller. *)
Definition put_row (r : R) : M () := modify (λ s, set_rows (<[pk r := r]> (rows s)) s).
End session.

(** [session.add(mk)] of a row with a server-generated UUID. *)
Definition add_row `{Table N R} (mk : N → R) : M R := λ e s,
  let r := mk (next_uuid s) in
  (set_rows (<[next_uuid s := r]> (rows s)) (s <| next_uuid := (next_uuid s + 1)%N |>), inr r).

(** ORDER BY keys, ascending and descending; ties keep the model's row order. *)
Definition order_by {R} (key : R → Z) (l : list R) : list R :=
  @merge_sort _ (λ x y, key x ≤ key y) (λ x y, Z_le_dec (key x) (key y)) l.
Definition order_by_desc {R} (key : R → Z) (l : list R) : list R :=
  @merge_sort _ (λ x y, key y ≤ key x) (λ x y, Z_le_dec (key y) (key x)) l.

(** ** Running *)

Definition run_db {A} (r : db * (exn + A)) : db := r.1.
Definition run_val {A} (r : db * (exn + A)) : option A :=
  match r.2 with inr a => Some a | inl _ => None end.
Definition run_exn {A} (r : db * (exn + A)) : option exn :=
  match r.2 with inl x => Some x | inr _ => None end.

Lemma bind_inr {A B} (m : M A) (f : A → M B) e s s' b :
  (m ≫= f) e s = (s', inr b) ↔ ∃ s1 a, m e s = (s1, inr a) ∧ f a e s1 = (s', inr b).
Proof.
  unfold mbind, M_bind. split.
  - destruct (m e s) as [s1 [x|a]]; [done|]. eauto.
  - by intros (s1 & a & -> & Hf).
Qed.

Lemma bind_ok {A B} (m : M A) (f : A → M B) e s s1 a :
  m e s = (s1, inr a) → (m ≫= f) e s = f a e s1.
Proof. unfold mbind, M_bind. by intros ->. Qed.

Lemma bind_fail {A B} (m : M A) (f : A → M B) e s s1 x :
  m e s = (s1, inl x) → (m ≫= f) e s = (s1, inl x).
Proof. unfold mbind, M_bind. by intros ->. Qed.

Lemma bind_assoc {A B C} (m : M A) (f : A → M B) (g : B → M C) e s :
  ((m ≫= f) ≫= g) e s = (m ≫= λ a, f a ≫= g) e s.
Proof. unfold mbind, M_bind. by destruct (m e s) as [? [|]]. Qed.

Lemma bind_ret {A B} (x : A) (f : A → M B) e s : (mret x ≫= f) e s = f x e s.
Proof. done. Qed.

Lemma bind_asks {A B} (g : env → A) (f : A → M B) e s : (asks g ≫= f) e s = f (g e) e s.
Proof. done. Qed.

Lemma bind_gets {A B} (g : db → A) (f : A → M B) e s : (gets g ≫= f) e s = f (g s) e s.
Proof. done. Qed.

Lemma bind_raise {A B} x (f : A → M B) e s : (raise x ≫= f) e s = (s, inl x).
Proof. done. Qed.

Lemma bind_pass {B} x (f : () → M B) e s : (raise_if false x ≫= f) e s = f () e s.
Proof. done. Qed.

Lemma bind_get_row `{Table K T} {B} k (f : option T → M B) e s :
  (get_row k ≫= f) e s = f (rows s !! k) e s.
Proof. done. Qed.

Lemma bind_select `{Table K T} {B} (p : T → bool) (f : list T → M B) e s :
  (select p ≫= f) e s = f (List.filter p (snd <$> map_to_list (rows s))) e s.
Proof. done. Qed.

(** Run the head of a program: pure reads by computation, the rest by [H]. *)
Ltac run_pure := repeat first
  [ rewrite bind_assoc | rewrite bind_ret | rewrite bind_asks | rewrite bind_gets
  | rewrite bind_raise | rewrite bind_get_row | rewrite bind_select ].
Ltac run_with H := rewrite ?bind_assoc; rewrite (bind_ok _ _ _ _ _ _ H); cbn beta; run_pure.

Lemma raise_if_inr b x e s s' u :
  raise_if b x e s = (s', inr u) ↔ b = false ∧ s' = s.
Proof.
  unfold raise_if, when, raise. destruct b, u; simpl.
  - split; [done|]. by intros [? _].
  - split; [by inversion 1|]. by intros [_ ->].
Qed.

(** ** Preorders every operation respects

    [respects R m]: running [m] moves the database along [R], whether it returns
    or raises. With [R] a preorder the property is closed under sequencing, so
    an invariant of a whole handler follows from its table writes. *)

Definition respects (R : relation db) {A} (m : M A) : Prop := ∀ e s, R s (m e s).1.

Section respects.
Context (R : relation db) `{!PreOrder R}.

Lemma respects_ret {A} (x : A) : respects R (mret x).
Proof. intros e s. reflexivity. Qed.

Lemma respects_raise {A} x : respects R (raise (A:=A) x).
Proof. intros e s. reflexivity. Qed.

Lemma respects_of_sum {A} (r : exn + A) : respects R (of_sum r).
Proof. intros e s. by destruct r. Qed.

Lemma respects_asks {A} (f : env → A) : respects R (asks f).
Proof. intros e s. reflexivity. Qed.

Lemma respects_gets {A} (f : db → A) : respects R (gets f).
Proof. intros e s. reflexivity. Qed.

Lemma respects_bind {A B} (m : M A) (f : A → M B) :
  respects R m → (∀ a, respects R (f a)) → respects R (m ≫= f).
Proof.
  intros Hm Hf e s. unfold mbind, M_bind. specialize (Hm e s).
  destruct (m e s) as [s1 [x|a]]; simpl in *; [done|]. etrans; [done|apply Hf].
Qed.

Lemma respects_when b m : respects R m → respects R (when b m).
Proof. destruct b; [done|]. intros _. apply respects_ret. Qed.

Lemma respects_foreach {A} (l : list A) f :
  (∀ x, x ∈ l → respects R (f x)) → respects R (foreach l f).
Proof.
  induction l as [|x l IH]; intros Hf; simpl; [apply respects_ret|].
  apply respects_bind; [apply Hf; left|]. intros _. apply IH.
  intros y Hy. apply Hf. by right.
Qed.

Lemma respects_foldM {A B} (f : B → A → M B) b l :
  (∀ b x, x ∈ l → respects R (f b x)) → respects R (foldM f b l).
Proof.
  revert b. induction l as [|x l IH]; intros b Hf; simpl; [apply respects_ret|].
  apply respects_bind; [apply Hf; left|]. intros b'. apply IH.
  intros b1 y Hy. apply Hf. by right.
Qed.

Lemma respects_mapM {A B} (f : A → M B) l :
  (∀ x, x ∈ l → respects R (f x)) → respects R (mapM_ f l).
Proof.
  induction l as [|x l IH]; intros Hf; simpl; [apply respects_ret|].
  apply respects_bind; [apply Hf; left|]. intros y.
  apply respects_bind; [|intros; apply respects_ret]. apply IH.
  intros z Hz. apply Hf. by right.
Qed.

Lemma respects_try {A} (m : M A) h :
  respects R m → (∀ x k, h x = Some k → respects R k) → respects R (try_except m h).
Proof.
  intros Hm Hh e s. unfold try_except. specialize (Hm e s).
  destruct (m e s) as [s1 [x|a]]; simpl in *; [|done].
  destruct (h x) as [k|] eqn:Hk; simpl; [|done].
  etrans; [done|]. by apply (Hh x).
Qed.

Lemma respects_transaction {A} (m : M A) : respects R m → respects R (transaction m).
Proof.
  intros Hm e s. unfold transaction. specialize (Hm e s).
  destruct (m e s) as [s1 [x|a]]; simpl in *; [reflexivity|done].
Qed.

Lemma respects_scalar_one_or_none {A} (l : list A) : respects R (scalar_one_or_none l).
Proof. destruct l as [|x [|y l]]; intros e s; reflexivity. Qed.

Lemma respects_scalar_one {A} (l : list A) : respects R (scalar_one l).
Proof. destruct l as [|x [|y l]]; intros e s; reflexivity. Qed.

Section tables.
Context `{Table K T}.

Lemma respects_get_row k : respects R (get_row (R:=T) k).
Proof. apply respects_gets. Qed.

Lemma respects_select p : respects R (select (R:=T) p).
Proof. apply respects_gets. Qed.

(** A write to a table the preorder does not look at. *)
Lemma respects_frame_update k (f : T → T) :
  (∀ m s, R s (set_rows (R:=T) m s)) → respects R (update_row k f).
Proof. intros Hf e s. apply Hf. Qed.

Lemma respects_frame_update_where p (f : T → T) :
  (∀ m s, R s (set_rows (R:=T) m s)) → respects R (update_where p f).
Proof. intros Hf e s. apply Hf. Qed.

Lemma respects_frame_delete_where (p : T → bool) :
  (∀ m s, R s (set_rows (R:=T) m s)) → respects R (delete_where p).
Proof. intros Hf e s. apply Hf. Qed.

Lemma respects_frame_put (r : T) :
  (∀ m s, R s (set_rows (R:=T) m s)) → respects R (put_row r).
Proof. intros Hf e s. apply Hf. Qed.
End tables.

Lemma respects_frame_add `{Table N T} (mk : N → T) :
  (∀ m s, R s (set_rows (R:=T) m (s <| next_uuid := (next_uuid s + 1)%N |>))) →
  respects R (add_row mk).
Proof. intros Hf e s. apply Hf. Qed.
End respects.

(** [R s s'] where [s'] differs from [s] only in what [R] does not look at. *)
Ltac frame_refl := intros; match goal with |- ?R ?s _ => change (R s s); reflexivity end.

(** Walk through a program; leaves the writes to the tables the preorder reads. *)
Ltac respects_step :=
  match goal with
  | |- respects ?R (mret _) => apply (respects_ret R)
  | |- respects ?R (raise _) => apply (respects_raise R)
  | |- respects ?R (of_sum _) => apply (respects_of_sum R)
  | |- respects ?R (asks _) => apply (respects_asks R)
  | |- respects ?R (gets _) => apply (respects_gets R)
  | |- respects ?R (get_row _) => apply (respects_get_row R)
  | |- respects ?R (select _) => apply (respects_select R)
  | |- respects ?R (scalar_one_or_none _) => apply (respects_scalar_one_or_none R)
  | |- respects ?R (scalar_one _) => apply (respects_scalar_one R)
  | |- respects ?R (mbind _ _) => apply (respects_bind R); [|intros ?]
  | |- respects ?R (when _ _) => apply (respects_when R)
  | |- respects ?R (raise_if _ _) => apply (respects_when R)
  | |- respects ?R (foreach _ _) => apply (respects_foreach R); intros ? ?
  | |- respects ?R (foldM _ _ _) => apply (respects_foldM R); intros ? ? ?
  | |- respects ?R (mapM_ _ _) => apply (respects_mapM R); intros ? ?
  | |- respects ?R (transaction _) => apply (respects_transaction R)
  | |- respects ?R (assign _ _) => unfold assign
  | |- respects ?R (update_row _ _) => apply (respects_frame_update R); frame_refl
  | |- respects ?R (update_where _ _) => apply (respects_frame_update_where R); frame_refl
  | |- respects ?R (delete_where _) => apply (respects_frame_delete_where R); frame_refl
  | |- respects ?R (put_row _) => apply (respects_frame_put R); frame_refl
  | |- respects ?R (add_row _) => apply (respects_frame_add R); frame_refl
  | |- respects ?R (match ?x with _ => _ end) => destruct x eqn:?
  end.
Ltac respects_auto := repeat respects_step.

(** ** What a program can raise

    [raises P m]: every exception [m] ends with satisfies [P]. With [P] false
    everywhere, [m] always returns. *)

Definition raises (P : exn → Prop) {A} (m : M A) : Prop :=
  ∀ e s x, (m e s).2 = inl x → P x.

Section raises.
Context (P : exn → Prop).

Lemma raises_ret {A} (x : A) : raises P (mret x).
Proof. by intros e s y. Qed.

Lemma raises_raise {A} x : P x → raises P (raise (A:=A) x).
Proof. by intros Hx e s y [= <-]. Qed.

Lemma raises_asks {A} (f : env → A) : raises P (asks f).
Proof. by intros e s y. Qed.

Lemma raises_gets {A} (f : db → A) : raises P (gets f).
Proof. by intros e s y. Qed.

Lemma raises_bind {A B} (m : M A) (f : A → M B) :
  raises P m → (∀ a, raises P (f a)) → raises P (m ≫= f).
Proof.
  intros Hm Hf e s x. unfold mbind, M_bind. specialize (Hm e s).
  destruct (m e s) as [s1 [y|a]]; simpl in *; [|apply Hf]. intros [= <-]. by apply Hm.
Qed.

Lemma raises_when b m : raises P m → raises P (when b m).
Proof. destruct b; [done|]. intros _. apply raises_ret. Qed.

Lemma raises_foreach {A} (l : list A) f :
  (∀ x, x ∈ l → raises P (f x)) → raises P (foreach l f).
Proof.
  induction l as [|x l IH]; intros Hf; simpl; [apply raises_ret|].
  apply raises_bind; [apply Hf; left|]. intros _. apply IH. intros y Hy. apply Hf. by right.
Qed.

Lemma raises_foldM {A B} (f : B → A → M B) b l :
  (∀ b x, x ∈ l → raises P (f b x)) → raises P (foldM f b l).
Proof.
  revert b. induction l as [|x l IH]; intros b Hf; simpl; [apply raises_ret|].
  apply raises_bind; [apply Hf; left|]. intros b'. apply IH. intros b1 y Hy. apply Hf. by right.
Qed.

Lemma raises_mapM {A B} (f : A → M B) l :
  (∀ x, x ∈ l → raises P (f x)) → raises P (mapM_ f l).
Proof.
  induction l as [|x l IH]; intros Hf; simpl; [apply raises_ret|].
  apply raises_bind; [apply Hf; left|]. intros y.
  apply raises_bind; [|intros; apply raises_ret]. apply IH. intros z Hz. apply Hf. by right.
Qed.

Lemma raises_transaction {A} (m : M A) : raises P m → raises P (transaction m).
Proof.
  intros Hm e s x. unfold transaction. specialize (Hm e s).
  destruct (m e s) as [s1 [y|a]]; simpl in *; auto.
Qed.

(** A handler takes over the exceptions it catches. *)
Lemma raises_try {A} (m : M A) h (Q : exn → Prop) :
  raises Q m → (∀ x, Q x → h x = None → P x) → (∀ x k, h x = Some k → raises P k) →
  raises P (try_except m h).
Proof.
  intros Hm HN Hh e s x. unfold try_except. specialize (Hm e s).
  destruct (m e s) as [s1 [y|a]]; simpl in *; [|done].
  destruct (h y) as [k|] eqn:Hk; simpl; [by apply (Hh y)|]. intros [= <-]. eauto.
Qed.

Lemma raises_scalar {A} (l : list A) : P MultipleResultsFound → raises P (scalar_one_or_none l).
Proof. destruct l as [|x [|y l]]; intros HP e s z; simpl; try done. by intros [= <-]. Qed.

Lemma raises_scalar_one {A} (l : list A) :
  P NoResultFound → P MultipleResultsFound → raises P (scalar_one l).
Proof. destruct l as [|x [|y l]]; intros HN HM e s z; simpl; try done; by intros [= <-]. Qed.
End raises.

(** Walk through a program; leaves [P x] for the exceptions it finds. *)
Ltac raises_step :=
  match goal with
  | |- raises ?P (mret _) => apply (raises_ret P)
  | |- raises ?P (raise _) => apply (raises_raise P)
  | |- raises ?P (asks _) => apply (raises_asks P)
  | |- raises ?P (gets _) => apply (raises_gets P)
  | |- raises ?P (get_row _) => apply (raises_gets P)
  | |- raises ?P (select _) => apply (raises_gets P)
  | |- raises ?P (scalar_one_or_none _) => apply (raises_scalar P)
  | |- raises ?P (scalar_one _) => apply (raises_scalar_one P)
  | |- raises ?P (mbind _ _) => apply (raises_bind P); [|intros ?]
  | |- raises ?P (when _ _) => apply (raises_when P)
  | |- raises ?P (raise_if _ _) => apply (raises_when P)
  | |- raises ?P (foreach _ _) => apply (raises_foreach P); intros ? ?
  | |- raises ?P (foldM _ _ _) => apply (raises_foldM P); intros ? ? ?
  | |- raises ?P (mapM_ _ _) => apply (raises_mapM P); intros ? ?
  | |- raises ?P (transaction _) => apply (raises_transaction P)
  | |- raises ?P (assign _ _) => unfold assign
  | |- raises ?P (update_row _ _) => by intros ? ? ?
  | |- raises ?P (update_where _ _) => by intros ? ? ?
  | |- raises ?P (delete_where _) => by intros ? ? ?
  | |- raises ?P (put_row _) => by intros ? ? ?
  | |- raises ?P (add_row _) => by intros ? ? ?
  | |- raises ?P (match ?x with _ => _ end) => destruct x eqn:?
  end.
Ltac raises_auto := repeat raises_step.

(** A program that cannot raise returns. *)
Lemma raises_never {A} (m : M A) e s : raises (λ _, False) m → ∃ s' a, m e s = (s', inr a).
Proof. intros Hm. specialize (Hm e s). destruct (m e s) as [s' [x|a]]; [by destruct (Hm x)|eauto]. Qed.

(** *** Invariants *)

(** [P] is kept: a preorder whatever [P] is. *)
Definition keeps (P : db → Prop) : relation db := λ s s', P s → P s'.

#[export] Instance keeps_preorder P : PreOrder (keeps P).
Proof. split; unfold keeps; [by intros s|]. intros s1 s2 s3 H12 H23. auto. Qed.

(** Every row of a table satisfies [P] at its key. *)
Definition rows_ok `{Table K T} (P : K → T → Prop) (s : db) : Prop := map_Forall P (rows s).

Section rows_ok.
Context `{Table K T} (P : K → T → Prop).

Lemma update_row_ok k (f : T → T) :
  (∀ t r, P k r → P k (touch t (f r))) → respects (keeps (rows_ok P)) (update_row k f).
Proof.
  intros Hf e s Hs. unfold rows_ok. simpl. rewrite rows_set_rows.
  intros k' r. rewrite lookup_alter_Some. intros [(<- & r0 & Hr0 & ->)|[_ Hr]]; eauto.
Qed.

Lemma update_where_ok p (f : T → T) :
  (∀ t k r, P k r → p r = true → P k (touch t (f r))) →
  respects (keeps (rows_ok P)) (update_where p f).
Proof.
  intros Hf e s Hs. unfold rows_ok. simpl. rewrite rows_set_rows.
  intros k r. rewrite lookup_fmap_Some. intros (r0 & <- & Hr0).
  destruct (p r0) eqn:Hp; eauto.
Qed.

Lemma delete_where_ok (p : T → bool) : respects (keeps (rows_ok P)) (delete_where p).
Proof.
  intros e s Hs. unfold rows_ok. simpl. rewrite rows_set_rows.
  intros k r. rewrite map_lookup_filter_Some. intros [Hr _]. eauto.
Qed.

Lemma put_row_ok (r : T) : P (pk r) r → respects (keeps (rows_ok P)) (put_row r).
Proof.
  intros Hr e s Hs. unfold rows_ok. simpl. rewrite rows_set_rows. by apply map_Forall_insert_2.
Qed.
End rows_ok.

Lemma add_row_ok `{Table N T} (P : N → T → Prop) (mk : N → T) :
  (∀ k, P k (mk k)) → respects (keeps (rows_ok P)) (add_row mk).
Proof.
  intros Hk e s Hs. unfold rows_ok. simpl. rewrite rows_set_rows. by apply map_Forall_insert_2.
Qed.

(** *** Reading back *)

Section lookup.
Context `{Table K T}.

Lemma elem_of_rows (s : db) (r : T) :
  r ∈ snd <$> map_to_list (rows s) ↔ ∃ k, rows s !! k = Some r.
Proof.
  rewrite list_elem_of_fmap. split.
  - intros ([k r'] & -> & Hk%elem_of_map_to_list). eauto.
  - intros [k Hk]. exists (k, r). split; [done|]. by apply elem_of_map_to_list.
Qed.

Lemma select_run (p : T → bool) e s :
  select p e s = (s, inr (List.filter p (snd <$> map_to_list (rows s)))).
Proof. done. Qed.

Lemma elem_of_select (p : T → bool) (s : db) (r : T) :
  r ∈ List.filter p (snd <$> map_to_list (rows s)) ↔ (∃ k, rows s !! k = Some r) ∧ p r = true.
Proof. by rewrite elem_of_bfilter, elem_of_rows. Qed.

Lemma select_nil (p : T → bool) (s : db) :
  List.filter p (snd <$> map_to_list (rows s)) = [] ↔
  ∀ k r, rows s !! k = Some r → p r = false.
Proof.
  rewrite bfilter_nil_iff. setoid_rewrite elem_of_rows. split.
  - intros Hf k r Hr. eauto.
  - intros Hf r [k Hr]. eauto.
Qed.

Lemma get_row_run (k : K) e s : get_row (R:=T) k e s = (s, inr (rows s !! k)).
Proof. done. Qed.

(** Updating a row that exists overwrites it. *)
Lemma update_row_run k (f : T → T) e s r :
  rows s !! k = Some r →
  update_row k f e s = (set_rows (<[k := touch (now e) (f r)]> (rows s)) s, inr ()).
Proof.
  intros Hr. unfold update_row. do 2 f_equal. apply map_eq. intros k'.
  destruct (decide (k' = k)) as [->|Hne].
  - by rewrite lookup_alter_eq, lookup_insert_eq, Hr.
  - by rewrite lookup_alter_ne, lookup_insert_ne by done.
Qed.

Lemma update_row_lookup k (f : T → T) e s r :
  rows s !! k = Some r →
  rows (update_row k f e s).1 !! k = Some (touch (now e) (f r)).
Proof. intros Hr. simpl. by rewrite rows_set_rows, lookup_alter_eq, Hr. Qed.

Lemma update_row_lookup_ne k k' (f : T → T) e s :
  k ≠ k' → rows (R:=T) (update_row k f e s).1 !! k' = rows s !! k'.
Proof. intros Hk. simpl. by rewrite rows_set_rows, lookup_alter_ne. Qed.

Lemma update_where_lookup p (f : T → T) e s k :
  rows (update_where p f e s).1 !! k =
  (λ r, if p r then touch (now e) (f r) else r) <$> rows s !! k.
Proof. simpl. by rewrite rows_set_rows, lookup_fmap. Qed.
End lookup.

(** ** Sorting *)

Section order_by.
Context {R : Type} (le : relation R) `{!RelDecision le, !Total le, !Transitive le}.

(** The head of an ORDER BY is a row of the table no other row precedes. *)
Lemma merge_sort_head l x l' :
  merge_sort le l = x :: l' → x ∈ l ∧ ∀ y, y ∈ l → y = x ∨ le x y.
Proof.
  intros E. pose proof (merge_sort_Permutation le l) as Hp. rewrite E in Hp. split.
  - rewrite <- Hp. left.
  - intros y. rewrite <- Hp. rewrite elem_of_cons. intros [->|Hy]; [by left|right].
    pose proof (StronglySorted_merge_sort le l) as Hs. rewrite E in Hs.
    apply StronglySorted_inv in Hs as [_ Hs]. rewrite Forall_forall in Hs. auto.
Qed.

Lemma merge_sort_nil l : merge_sort le l = [] → l = [].
Proof.
  intros E. pose proof (merge_sort_Permutation le l) as Hp. rewrite E in Hp.
  by apply Permutation_nil_l in Hp.
Qed.
End order_by.

Section order_by_key.
Context {R : Type} (key : R → Z).
Local Instance key_le_total : Total (λ x y, key x ≤ key y). Proof. intros x y. lia. Qed.
Local Instance key_le_trans : Transitive (λ x y, key x ≤ key y). Proof. intros x y z. lia. Qed.
Local Instance key_ge_total : Total (λ x y, key y ≤ key x). Proof. intros x y. lia. Qed.
Local Instance key_ge_trans : Transitive (λ x y, key y ≤ key x). Proof. intros x y z. lia. Qed.

Lemma order_by_Permutation l : order_by key l ≡ₚ l.
Proof. apply merge_sort_Permutation. Qed.

Lemma order_by_desc_Permutation l : order_by_desc key l ≡ₚ l.
Proof. apply merge_sort_Permutation. Qed.

Lemma order_by_sorted l : StronglySorted (λ x y, key x ≤ key y) (order_by key l).
Proof. apply (StronglySorted_merge_sort _ l). Qed.

Lemma order_by_desc_nil l : order_by_desc key l = [] → l = [].
Proof. intros E. pose proof (order_by_desc_Permutation l) as H. rewrite E in H. by apply Permutation_nil_l in H. Qed.

Lemma order_by_desc_head l x l' :
  order_by_desc key l = x :: l' → x ∈ l ∧ ∀ y, y ∈ l → key y ≤ key x.
Proof.
  intros E. destruct (merge_sort_head (λ x y, key y ≤ key x) l x l' E) as [Hx Hbest].
  split; [done|]. intros y Hy. destruct (Hbest y Hy) as [->|?]; lia.
Qed.
End order_by_key.

(** ** Unique indexes

    [proj] gives the indexed columns of a row, [None] where the index's predicate
    leaves the row out. *)
Definition unique_on `{Table K T} {X} (proj : T → option X) (s : db) : Prop :=
  ∀ k1 k2 r1 r2 x, rows s !! k1 = Some r1 → rows s !! k2 = Some r2 →
    proj r1 = Some x → proj r2 = Some x → k1 = k2.

Section unique_on.
Context `{Table K T} {X : Type} (proj : T → option X).

Lemma update_row_unique k (f : T → T) :
  (∀ t r, proj (touch t (f r)) = proj r) →
  respects (keeps (unique_on proj)) (update_row k f).
Proof.
  intros Hf e s Hs k1 k2 r1 r2 x. simpl. rewrite rows_set_rows, !lookup_alter_Some.
  intros [(<- & r & Hr & ->)|[_ H1]] [(<- & r' & Hr' & ->)|[_ H2]]; rewrite ?Hf; eauto.
Qed.

Lemma update_where_unique p (f : T → T) :
  (∀ t r, proj (touch t (f r)) = proj r) →
  respects (keeps (unique_on proj)) (update_where p f).
Proof.
  intros Hf e s Hs k1 k2 r1 r2 x. simpl. rewrite rows_set_rows, !lookup_fmap_Some.
  intros (r & <- & Hr) (r' & <- & Hr').
  destruct (p r), (p r'); rewrite ?Hf; eauto.
Qed.
End unique_on.

(** An insert whose indexed columns no row has yet. *)
Lemma add_row_unique `{Table N T} {X} (proj : T → option X) (mk : N → T) e s :
  (∀ k r x, rows s !! k = Some r → proj (mk (next_uuid s)) = Some x → proj r ≠ Some x) →
  unique_on proj s → unique_on proj (add_row mk e s).1.
Proof.
  intros Hnew Hs k1 k2 r1 r2 x. simpl. rewrite rows_set_rows, !lookup_insert_Some.
  intros [[<- <-]|[_ H1]] [[<- <-]|[_ H2]] Hx1 Hx2; eauto; exfalso; by eapply Hnew.
Qed.

(** *** Selecting one row *)

Lemma bfilter_fmap {A B} (f : A → B) (p : B → bool) (l : list A) :
  List.filter p (f <$> l) = f <$> List.filter (λ x, p (f x)) l.
Proof.
  induction l as [|x l IH]; [done|]. rewrite fmap_cons. simpl.
  destruct (p (f x)); by rewrite IH, ?fmap_cons.
Qed.

Lemma NoDup_all_eq {A} (l : list A) x : NoDup l → x ∈ l → (∀ y, y ∈ l → y = x) → l = [x].
Proof.
  intros Hnd Hx Hall. destruct l as [|a [|b l]].
  - by apply not_elem_of_nil in Hx.
  - f_equal. apply Hall. left.
  - assert (a = x) as -> by (apply Hall; left).
    assert (b = x) as -> by (apply Hall; right; left).
    apply NoDup_cons in Hnd as [Hn _]. by destruct Hn; left.
Qed.

(** A predicate that holds of the row at [k] only selects exactly that row. *)
Lemma select_single `{Table K T} (p : T → bool) (s : db) k r :
  rows s !! k = Some r → p r = true →
  (∀ k' r', rows s !! k' = Some r' → p r' = true → k' = k) →
  List.filter p (snd <$> map_to_list (rows s)) = [r].
Proof.
  intros Hk Hp Huniq. rewrite bfilter_fmap.
  rewrite (NoDup_all_eq _ (k, r)); [done|..].
  - apply NoDup_bfilter, NoDup_map_to_list.
  - apply elem_of_bfilter. split; [by apply elem_of_map_to_list|done].
  - intros [k' r'] [Hin Hp']%elem_of_bfilter. apply elem_of_map_to_list in Hin.
    assert (k' = k) as -> by eauto. by simplify_eq.
Qed.

Lemma add_row_run `{Table N T} (mk : N → T) e s :
  add_row mk e s =
  (set_rows (<[next_uuid s := mk (next_uuid s)]> (rows s))
     (s <| next_uuid := (next_uuid s + 1)%N |>), inr (mk (next_uuid s))).
Proof. done. Qed.

(** An UPDATE whose WHERE names the primary key. *)
Lemma update_where_key `{Table K T} (k : K) (p : T → bool) (f : T → T) e s :
  (∀ k' r, rows s !! k' = Some r → p r = bool_decide (k' = k)) →
  (update_where p f e s).1 = set_rows (alter (λ r, touch (now e) (f r)) k (rows s)) s.
Proof.
  intros Hp. unfold update_where. simpl. f_equal. apply map_eq. intros k'.
  rewrite lookup_fmap. destruct (decide (k' = k)) as [->|Hne].
  - rewrite lookup_alter_eq. destruct (rows s !! k) as [r|] eqn:E; [|done]. simpl.
    by rewrite (Hp _ _ E), bool_decide_true.
  - rewrite lookup_alter_ne by done. destruct (rows s !! k') as [r|] eqn:E; [|done]. simpl.
    by rewrite (Hp _ _ E), bool_decide_false.
Qed.

Lemma update_where_key_run `{Table K T} (k : K) (p : T → bool) (f : T → T) e s r :
  (∀ k' r', rows s !! k' = Some r' → p r' = bool_decide (k' = k)) →
  rows s !! k = Some r →
  update_where p f e s = (set_rows (<[k := touch (now e) (f r)]> (rows s)) s, inr 1).
Proof.
  intros Hp Hr. pose proof (update_where_key k p f e s Hp) as Hu.
  unfold update_where in *. simpl in Hu. rewrite Hu. f_equal.
  - f_equal. apply map_eq. intros k'. destruct (decide (k' = k)) as [->|Hne].
    + by rewrite lookup_alter_eq, lookup_insert_eq, Hr.
    + by rewrite lookup_alter_ne, lookup_insert_ne by done.
  - rewrite (select_single p s k r); [done|done|by rewrite (Hp _ _ Hr), bool_decide_true|].
    intros k' r' Hr'. rewrite (Hp _ _ Hr'). apply bool_decide_eq_true_1.
Qed.

(** ** A concrete environment, for evaluating programs *)

Definition demo_env (t : Z) : env := mkenv t "system" None (λ hi, hi / 2).

(** A run that is known to return. *)
Lemma run_returns {A} (m : M A) e s : run_exn (m e s) = None → ∃ s' a, m e s = (s', inr a).
Proof. destruct (m e s) as [s' [x|a]]; [done|eauto]. Qed.

(** ** Inverting a successful run *)

Lemma respects_run (R : relation db) {A} (m : M A) e s s' r :
  respects R m → m e s = (s', r) → R s s'.
Proof. intros Hm Hr. specialize (Hm e s). by rewrite Hr in Hm. Qed.

Lemma when_inr b m e s s' u :
  when b m e s = (s', inr u) → (b = true ∧ m e s = (s', inr u)) ∨ (b = false ∧ s' = s).
Proof. destruct b; simpl; [by left|]. intros [= ->]. by right. Qed.

Lemma ret_inr {A} (x : A) e s s' y : mret (M:=M) x e s = (s', inr y) → s' = s ∧ y = x.
Proof. by intros [= -> ->]. Qed.

Lemma assign_inr `{Table K T} (r : T) (f : T → T) e s s' r' r0 :
  rows s !! pk r = Some r0 → assign r f e s = (s', inr r') →
  s' = set_rows (<[pk r := touch (now e) (f r0)]> (rows s)) s ∧ r' = f r.
Proof.
  intros Hr. unfold assign. rewrite (bind_ok _ _ _ _ _ _ (update_row_run _ f e s r0 Hr)).
  by intros [= <- <-].
Qed.

Lemma assign_val `{Table K T} (r : T) (f : T → T) e s s' r' :
  assign r f e s = (s', inr r') → r' = f r.
Proof. by intros [= _ <-]. Qed.

Lemma scalar_inr {A} (l : list A) e s s' o :
  scalar_one_or_none l e s = (s', inr o) → s' = s ∧ o = head l.
Proof. destruct l as [|x [|y l]]; simpl; [by intros [= <- <-]..|done]. Qed.

Lemma of_sum_inr {A} (r : exn + A) e s s' a : of_sum r e s = (s', inr a) → r = inr a ∧ s' = s.
Proof. destruct r; [done|]. by intros [= -> ->]. Qed.

Lemma scalar_one_inr {A} (l : list A) e s s' a : scalar_one l e s = (s', inr a) → l = [a] ∧ s' = s.
Proof. destruct l as [|x [|y l]]; simpl; [done| |done]. by intros [= -> ->]. Qed.

Lemma scalar_cases {A} (l : list A) e s s' o :
  scalar_one_or_none l e s = (s', inr o) →
  s' = s ∧ ((o = None ∧ l = []) ∨ ∃ x, o = Some x ∧ l = [x]).
Proof. destruct l as [|x [|y l]]; simpl; [intros [= <- <-]; eauto..|done]. Qed.

(** Split a successful sequence of steps into its steps. *)
Ltac inv_run := repeat match goal with
  | H : (mbind _ _) _ _ = (_, inr _) |- _ => apply bind_inr in H as (? & ? & ? & H); cbv beta zeta in H
  | H : asks _ _ _ = (_, inr _) |- _ => injection H as <- <-
  | H : gets _ _ _ = (_, inr _) |- _ => injection H as <- <-
  | H : get_row _ _ _ = (_, inr _) |- _ => injection H as <- <-
  | H : select _ _ _ = (_, inr _) |- _ => injection H as <- <-
  | H : raise_if _ _ _ _ = (_, inr _) |- _ => apply raise_if_inr in H as [? ->]
  | H : mret _ _ ?s = (?s, inr _) |- _ => apply ret_inr in H as [_ ->]
  | H : mret _ _ _ = (_, inr _) |- _ => apply ret_inr in H as [-> ->]
  | H : scalar_one_or_none _ _ _ = (_, inr _) |- _ => apply scalar_inr in H as [-> ->]
  | H : of_sum _ _ _ = (_, inr _) |- _ => apply of_sum_inr in H as [H ->]
  | H : raise _ _ _ = (_, inr _) |- _ => discriminate H
  end.

(** Every row of the table sits at its primary key. *)
Definition keyed (T : Type) `{Table K T} (s : db) : Prop := rows_ok (λ (k : K) (r : T), pk r = k) s.

(** The rows a query returns have different keys. *)
Lemma select_pk_NoDup `{Table K T} (p : T → bool) (s : db) :
  keyed T s →
  NoDup (pk <$> List.filter p (snd <$> map_to_list (rows s))).
Proof.
  intros Hok. rewrite bfilter_fmap, <- list_fmap_compose.
  rewrite (list_fmap_ext _ fst).
  - assert (∀ l : list (K * T), NoDup l.*1 → NoDup (List.filter (λ x, p x.2) l).*1) as Hf.
    { induction l as [|x l IH]; simpl; [done|]. intros [Hx Hl]%NoDup_cons.
      destruct (p x.2); [|auto]. rewrite fmap_cons. apply NoDup_cons. split; [|auto].
      intros Hin. apply Hx. apply list_elem_of_fmap in Hin as (y & -> & Hy).
      apply elem_of_bfilter in Hy as [Hy _]. by apply list_elem_of_fmap_2. }
    apply Hf, NoDup_fst_map_to_list.
  - intros i [k r] Hi. apply list_elem_of_lookup_2, elem_of_bfilter in Hi as [Hi _].
    apply elem_of_map_to_list in Hi. by apply (Hok _ _ Hi).
Qed.

Lemma select_pk_lookup `{Table K T} (p : T → bool) (s : db) r :
  keyed T s →
  r ∈ List.filter p (snd <$> map_to_list (rows s)) ↔ rows s !! pk r = Some r ∧ p r = true.
Proof.
  intros Hok. rewrite elem_of_select. split.
  - intros [[k Hk] Hp]. pose proof (Hok _ _ Hk) as Epk. simpl in Epk. by subst k.
  - intros [Hk Hp]. eauto.
Qed.
