(* ===== verification/Compliance.v ===== *)
(** * The compliance and brand checks of drafts

    src/app/agents/_compliance.py: forbidden patterns and the similarity of A/B variants;
    src/app/agents/brand_voice.py: the words a voice avoids and its prompt block. The
    regular expressions tenants type are parsed by [re_compile], a parameter: what
    Python's [re.compile] makes of a pattern under IGNORECASE. *)

From Stdlib Require Import Floats.SpecFloat.
From S2P Require Export Regex Db PyDecimal.
Local Open Scope Z_scope.

(** ** Patterns *)

Record pattern := mkpattern { pattern_label : string; pattern_regex : regex; pattern_severity : string }.

Definition space_or_dash : regex := Chr (λ c, is_space c || (c ==b "-"%char)).
Definition words (ws : list string) : regex := alts (lit <$> ws).

(** [app/agents/_compliance.py] lines 31-41, [_UNIVERSAL_PATTERNS]. *)
Definition _UNIVERSAL_PATTERNS : list pattern := [
  mkpattern "guaranteed_results"
    (bounded (alts [lit "guaranteed"; lit "guarantee";
       seqs [lit "100"; Star space_class; lit "%"; Star space_class; lit "effective"]])) "block";
  mkpattern "absolute_always_never"
    (bounded (alts [lit "always works"; lit "never fails"; seqs [lit "risk"; Opt space_or_dash; lit "free"]])) "block";
  mkpattern "medical_claim"
    (bounded (alts [Cat (lit "cure") (Opt (lit "s")); Cat (lit "treat") (Opt (lit "s"));
       seqs [lit "FDA"; Opt space_or_dash; lit "approved"]; lit "clinically proven"])) "block";
  mkpattern "financial_guarantee"
    (bounded (alts [Cat (lit "guaranteed return") (Opt (lit "s")); lit "double your money"])) "block";
  mkpattern "unqualified_superlative"
    (bounded (alts [lit "the best"; lit "#1"; lit "the only";
       seqs [lit "world"; Opt space_or_dash; lit "class"]])) "warn"].

(** ** Results *)

(** [app/agents/_compliance.py] lines 66-79, [ComplianceHit]. *)
Record ComplianceHit := mkhit {
  hit_rule : string; hit_severity : string; hit_snippet : string; hit_pattern_kind : string }.

(** [app/agents/_compliance.py] lines 73-79, [ComplianceHit.as_dict]. *)
Definition hit_as_dict (h : ComplianceHit) : jdict :=
  [("rule", JStr (hit_rule h)); ("severity", JStr (hit_severity h));
   ("snippet", JStr (hit_snippet h)); ("pattern_kind", JStr (hit_pattern_kind h))].

(** [app/agents/_compliance.py] lines 86-88, [ComplianceResult.passed]. *)
Definition passed (hits : list ComplianceHit) : bool := match hits with [] => true | _ => false end.

(** [app/agents/_compliance.py] lines 90-92, [ComplianceResult.blocked]. *)
Definition blocked (hits : list ComplianceHit) : bool :=
  existsb (λ h, hit_severity h ==b "block") hits.

(** [app/agents/_compliance.py] lines 94-97, [ComplianceResult.warn_keywords]. *)
Definition warn_keywords (hits : list ComplianceHit) : list string :=
  hit_rule <$> List.filter (λ h, hit_severity h ==b "warn") hits.

(** [app/agents/_compliance.py] lines 99-105, [ComplianceResult.as_metadata]. *)
Definition as_metadata (hits : list ComplianceHit) (rewritten_for_suppression : bool) : jdict :=
  [("pass", JBool (passed hits));
   ("blocked", JBool (blocked hits));
   ("hits", JList (JObj ∘ hit_as_dict <$> hits));
   ("rewritten_for_suppression", JBool rewritten_for_suppression)].

(** [app/agents/_compliance.py] lines 189-195, [_snippet]. *)
Definition _snippet (text : string) (start end_ : nat) : string :=
  let lo := (start - 30)%nat in
  let hi := Nat.min (String.length text) (end_ + 30) in
  (if (0 <? lo)%nat then "..." else "") +:+ String.substring lo (hi - lo) text +:+
  (if (hi <? String.length text)%nat then "..." else "").

(** ** The check *)

(** The hits of one expression. *)
Definition hits_of (rule severity kind text : string) (r : regex) : list ComplianceHit :=
  (λ span, mkhit rule severity (_snippet text span.1 span.2) kind) <$> finditer r text.

Definition universal_hits (text : string) : list ComplianceHit :=
  p ← _UNIVERSAL_PATTERNS;
  hits_of (pattern_label p) (pattern_severity p) "regex" text (pattern_regex p).

Section check.
(** The message of [re.error], or the expression. *)
Context (re_compile : string → string + regex).

Definition rule_regex (rule : ComplianceRule.t) : exn + regex :=
  if ComplianceRule.pattern_kind rule ==b "regex" then
    match re_compile (ComplianceRule.keyword rule) with
    | inl msg => inl (ComplianceCheckError ("tenant compliance rule '" +:+ ComplianceRule.keyword rule
                   +:+ "' has invalid regex: " +:+ msg))
    | inr r => inr r
    end
  else inr (exact_word (str_strip (ComplianceRule.keyword rule))).

Definition rule_severity (rule : ComplianceRule.t) : string :=
  if ComplianceRule.severity rule ∈b ["block"; "warn"] then ComplianceRule.severity rule else "warn".

(** The hits of one tenant rule. *)
Definition rule_hits (text : string) (rule : ComplianceRule.t) : exn + list ComplianceHit :=
  let keyword := str_strip (ComplianceRule.keyword rule) in
  if str_empty keyword then inr []
  else
    match rule_regex rule with
    | inl x => inl x
    | inr r =>
        let kind := ComplianceRule.pattern_kind rule in
        inr (hits_of keyword (rule_severity rule) (if str_empty kind then "exact" else kind) text r)
    end.

Fixpoint rules_hits (text : string) (rules : list ComplianceRule.t) : exn + list ComplianceHit :=
  match rules with
  | [] => inr []
  | rule :: rules =>
      match rule_hits text rule with
      | inl x => inl x
      | inr hits => match rules_hits text rules with
                    | inl x => inl x
                    | inr rest => inr (hits ++ rest)
                    end
      end
  end.

(** [app/agents/_compliance.py] lines 108-159, [check_compliance]. *)
Definition check_compliance (text : string) (tenant_rules : list ComplianceRule.t)
    : exn + list ComplianceHit :=
  if str_empty text then inr []
  else match rules_hits text tenant_rules with
       | inl x => inl x
       | inr hits => inr (universal_hits text ++ hits)
       end.
End check.

(** ** Similarity *)

(** [app/agents/_compliance.py] lines 201-202, [_tokenise]. *)
Definition _tokenise (text : string) : list string := str_lower <$> tokens text.

Definition count_of (t : string) (ts : list string) : Z :=
  Z.of_nat (length (List.filter (λ x, x ==b t) ts)).

Definition flt_sqrt (x : flt) : flt := SFsqrt prec emax x.

(** [math.sqrt] of the sum of the squared counts. *)
Definition magnitude (ts : list string) : flt :=
  flt_sqrt (flt_of_Z (foldr Z.add 0 ((λ t, count_of t ts * count_of t ts) <$> remove_dups ts))).

(** [app/agents/_compliance.py] lines 162-186, [body_cosine_similarity]. *)
Definition body_cosine_similarity (a b : string) : flt :=
  let ta := _tokenise a in
  let tb := _tokenise b in
  match ta, tb with
  | [], _ | _, [] => S754_zero false
  | _, _ =>
      let dot := foldr Z.add 0 ((λ t, count_of t ta * count_of t tb) <$>
                   List.filter (λ t, t ∈b tb) (remove_dups ta)) in
      flt_div (flt_of_Z dot) (flt_mul (magnitude ta) (magnitude tb))
  end.

(** ** Brand voice *)

(** [app/agents/brand_voice.py] lines 41-65, [format_brand_voice_prompt]. *)
Definition format_brand_voice_prompt (voice : BrandVoice.t) : string :=
  let line prefix l := match l with [] => [] | _ => [prefix +:+ str_join ", " l] end in
  str_join newline (
    ["## Brand voice: " +:+ BrandVoice.name voice] ++
    line "Tone descriptors: " (BrandVoice.tone_descriptors voice) ++
    line "Prefer these words/phrases: " (BrandVoice.do_words voice) ++
    line "Avoid these words/phrases entirely: " (BrandVoice.dont_words voice) ++
    match BrandVoice.reading_grade_target voice with
    | Some g => ["Target reading grade level: " +:+ dec_str (dec_of_col 2 g)]
    | None => []
    end ++
    match BrandVoice.sample_paragraphs voice with
    | [] => []
    | samples => "Sample paragraphs that exemplify this voice:" ::
        imap (λ i sample, "  [" +:+ str_of_Z (Z.of_nat (S i)) +:+ "] " +:+ sample) samples
    end).

(** [app/agents/brand_voice.py] lines 68-85, [check_dont_words]. *)
Definition check_dont_words (text : string) (dont_words : list string) : list string :=
  if str_empty text then []
  else List.filter (λ w, negb (str_empty w) && matches (exact_word w) text) (str_strip <$> dont_words).

Example compliance_hits :
  (λ h, (hit_rule h, hit_severity h)) <$> universal_hits "Guaranteed returns, risk-free! World class."
  = [("guaranteed_results", "block"); ("absolute_always_never", "block");
     ("financial_guarantee", "block"); ("unqualified_superlative", "warn")].
Proof. vm_compute. reflexivity. Qed.
Example similarity_sample : flt_repr (body_cosine_similarity "buy now and save" "Buy now, save more")
  = Some (Dec 75 (-2)).
Proof. vm_compute. reflexivity. Qed.
Example dont_words_sample : check_dont_words "Best in class energy" ["synergy"; " best in class "] = ["best in class"].
Proof. vm_compute. reflexivity. Qed.

(** * Properties of the word checks

    A word is found exactly when it occurs, whatever its case, between word boundaries. *)

(** The character before a position. *)
Fixpoint last_char (prev : option ascii) (s : string) : option ascii :=
  match s with "" => prev | String c s => last_char (Some c) s end.

(** [word] occurs in [text] between boundaries, compared without case. *)
Definition occurs (word text : string) : Prop :=
  ∃ pre mid post, text = pre +:+ mid +:+ post ∧ str_lower mid = str_lower word ∧
    boundary (last_char None pre) (mid +:+ post) = true ∧
    boundary (last_char (last_char None pre) mid) post = true.

(** ** Searching *)

Lemma finditer_found r prev s pos :
  finditer_from r 0 prev s pos ≠ [] ↔
  ∃ pre suf, s = pre +:+ suf ∧
    match_end r false (last_char prev pre) suf (pos + String.length pre) ≠ None.
Proof.
  revert prev pos. induction s as [|c s IH]; intros prev pos; cbn [finditer_from];
    (destruct (match_end r false prev _ pos) as [e|] eqn:E;
      [split; [|by destruct (_ <? _)%nat]; intros _; eexists "", _; split; [reflexivity|];
       cbn [String.length last_char]; rewrite Nat.add_0_r; congruence|]).
  - split; [done|]. intros (pre & suf & Hs & H). destruct pre; [|done]. rewrite append_nil_l in Hs. subst suf.
    cbn [String.length last_char] in H. by rewrite Nat.add_0_r in H.
  - rewrite Nat.sub_diag, IH. split.
    + intros (pre & suf & -> & H). exists (String c pre), suf. split; [done|].
      cbn [String.length last_char]. by rewrite <- Nat.add_succ_comm.
    + intros (pre & suf & Hs & H). destruct pre as [|d pre].
      * rewrite append_nil_l in Hs. subst suf. cbn [String.length last_char] in H. by rewrite Nat.add_0_r in H.
      * rewrite append_cons in Hs. injection Hs as <- ->. exists pre, suf. split; [done|].
        cbn [String.length last_char] in H. by rewrite <- Nat.add_succ_comm in H.
Qed.

(** A literal consumes exactly its spelling. *)
Lemma rmatch_lit w prev s pos k e :
  rmatch (lit w) prev s pos k = Some e ↔
  ∃ mid post, s = mid +:+ post ∧ str_lower mid = str_lower w ∧
    k (last_char prev mid) post (pos + String.length mid)%nat = Some e.
Proof.
  revert prev s pos. induction w as [|c w IH]; intros prev s pos; cbn [lit rmatch].
  - split.
    + intros H. exists "", s. cbn. rewrite Nat.add_0_r. done.
    + intros ([|d mid] & post & -> & Hl & H); [|done]. cbn in H. by rewrite Nat.add_0_r in H.
  - split.
    + destruct s as [|x s]; [done|]. destruct (_ ==b _) eqn:Hc; [|done]. intros H.
      apply IH in H as (mid & post & -> & Hl & H). apply bool_decide_eq_true_1 in Hc.
      exists (String x mid), post. split; [done|]. cbn. rewrite Hc, Hl. split; [done|].
      by rewrite <- Nat.add_succ_comm.
    + intros ([|x mid] & post & -> & Hl & H); [done|]. cbn in Hl. injection Hl as Hc Hl.
      rewrite append_cons. cbv beta iota. rewrite bool_decide_eq_true_2 by done. apply IH. exists mid, post. split; [done|]. split; [done|].
      cbn in H. by rewrite <- Nat.add_succ_comm in H.
Qed.

Lemma match_exact w prev s pos :
  match_end (exact_word w) false prev s pos ≠ None ↔
  ∃ mid post, s = mid +:+ post ∧ str_lower mid = str_lower w ∧
    boundary prev (mid +:+ post) = true ∧ boundary (last_char prev mid) post = true.
Proof.
  unfold match_end, exact_word, bounded. cbn [rmatch andb]. split.
  - destruct (boundary prev s) eqn:Hb; [|done]. destruct (rmatch _ _ _ _ _) as [e|] eqn:H; [|done]. intros _.
    apply rmatch_lit in H as (mid & post & -> & Hl & H). exists mid, post. split_and!; try done.
    by destruct (boundary _ post).
  - intros (mid & post & -> & Hl & Hb & Hb'). rewrite Hb.
    destruct (rmatch _ _ _ _ _) as [e|] eqn:H; [done|]. exfalso.
    assert (rmatch (lit w) prev (mid +:+ post) pos (λ prev s pos, if boundary prev s then Some pos else None) =
            Some (pos + String.length mid)%nat) as H'.
    { apply rmatch_lit. exists mid, post. by rewrite Hb'. }
    congruence.
Qed.

Lemma matches_exact w text : matches (exact_word w) text = true ↔ occurs w text.
Proof.
  assert (matches (exact_word w) text = true ↔ finditer_from (exact_word w) 0 None text 0 ≠ []) as ->
    by (unfold matches, finditer; by destruct (finditer_from _ _ _ _ _)).
  rewrite finditer_found. unfold occurs. setoid_rewrite match_exact. split.
  - intros (pre & suf & -> & mid & post & -> & H). by exists pre, mid, post.
  - intros (pre & mid & post & -> & H). exists pre, (mid +:+ post). split; [done|]. by exists mid, post.
Qed.

(** ** The checks *)

Lemma occurs_nonempty w text : w ≠ "" → occurs w text → text ≠ "".
Proof.
  intros Hw (pre & mid & post & -> & Hl & _) H. destruct w as [|c w]; [done|].
  destruct pre; [|done]. rewrite append_nil_l in H. destruct mid; [done|]. by rewrite append_cons in H.
Qed.

Lemma str_empty_spec s : str_empty s = true ↔ s = "".
Proof. by destruct s. Qed.

Lemma hits_of_nil rule severity kind text r : hits_of rule severity kind text r ≠ [] ↔ matches r text = true.
Proof. unfold hits_of, matches. by destruct (finditer r text). Qed.

(** C36: the word checks find exactly the words that occur. A word of the do-not-use list is
    reported, trimmed, if and only if it occurs in the draft between word boundaries whatever
    its case; and a tenant rule that is no regular expression hits if and only if its trimmed
    keyword does, every hit having the rule's severity. *)
Theorem word_checks_spec re_compile text :
  (∀ dont_words h, h ∈ check_dont_words text dont_words ↔
     ∃ w, w ∈ dont_words ∧ h = str_strip w ∧ h ≠ "" ∧ occurs h text) ∧
  (∀ rule, ComplianceRule.pattern_kind rule ≠ "regex" →
     ∃ hits, rule_hits re_compile text rule = inr hits ∧
       (hits ≠ [] ↔ str_strip (ComplianceRule.keyword rule) ≠ "" ∧
                    occurs (str_strip (ComplianceRule.keyword rule)) text) ∧
       ∀ h, h ∈ hits → hit_severity h = rule_severity rule).
Proof.
  split.
  - intros ws h. unfold check_dont_words. destruct (str_empty text) eqn:E.
    + apply str_empty_spec in E. split; [by intros ?%elem_of_nil|].
      intros (w & _ & _ & Hne & Ho). by apply (occurs_nonempty _ _ Hne) in Ho.
    + rewrite elem_of_bfilter, andb_true_iff, matches_exact, negb_true_iff, list_elem_of_fmap. split.
      * intros [(w & -> & Hw) [Hne Ho]]. exists w. split_and!; try done. by intros Hs%str_empty_spec; congruence.
      * intros (w & Hw & -> & Hne & Ho). split; [by exists w|]. split; [|done].
        apply not_true_iff_false. by rewrite str_empty_spec.
  - intros rule Hk. unfold rule_hits, rule_regex. cbv zeta.
    destruct (str_empty (str_strip (ComplianceRule.keyword rule))) eqn:E.
    + apply str_empty_spec in E. exists []. split_and!; [done| |by intros ? ?%elem_of_nil]. by rewrite E; split; [|intros [? _]].
    + rewrite bool_decide_eq_false_2 by done. eexists. split; [reflexivity|]. split.
      * rewrite hits_of_nil, matches_exact. split; [|by intros [_ ?]]. intros Ho. split; [|done].
        intros Hs%str_empty_spec. congruence.
      * intros h (span & -> & _)%list_elem_of_fmap. done.
Qed.

Lemma word_checks_spec_witness :
  let rule := ComplianceRule.mk 1 1 "cheap" "exact" "block" None 0 0 in
  ∃ hits, rule_hits inl "Cheap, not cheaper." rule = inr hits ∧ hits ≠ [].
Proof.
  intros rule. destruct (word_checks_spec inl "Cheap, not cheaper.") as [_ Hrule].
  destruct (Hrule rule) as (hits & Hh & Hiff & _); [done|]. exists hits. split; [done|]. apply Hiff.
  split; [done|]. apply matches_exact. by vm_compute.
Defined.

(** The pattern for number-one claims wants a word character before the hash sign, so the claim
    as one writes it is not found. *)
Theorem hash_one_unseen : universal_hits "We are #1 in service. #1!" = [].
Proof. by vm_compute. Qed.
