(* ===== verification/Requests.v ===== *)
(** * Requests: src/app/api/deps.py

    What every endpoint of the API goes through: the role dependency and the
    transaction of the tenant's session. *)

From S2P Require Export Db.
Local Open Scope Z_scope.

(** ** The browser session *)

(** [request.session]: a dict of the signed cookie. *)
Abbreviation session := (list (string * string)).

(** ** Roles and the request boundary *)

(** [app/api/deps.py] lines 61-66, [_ROLE_RANK]. *)
Definition ROLE_RANK (r : UserRole.t) : Z :=
  match r with
  | UserRole.viewer => 0 | UserRole.marketer => 1 | UserRole.manager => 2 | UserRole.admin => 3
  end.

(** [app/api/deps.py] lines 69-82, [require_role]. *)
Definition require_role (minimum : UserRole.t) (current : AppUser.t) : M AppUser.t :=
  raise_if (ROLE_RANK (AppUser.role current) <? ROLE_RANK minimum)
    (HTTPException 403 ("requires role >= " +:+ value minimum)) ;;
  mret current.

(** [app/api/deps.py] lines 42-58, [get_tenant_db]. A request: its role dependency, then the
    handler in one transaction. *)
Definition request {A} (minimum : UserRole.t) (current : AppUser.t) (handler : AppUser.t → M A)
    : M A :=
  user ← require_role minimum current;
  transaction (handler user).

(** A successful request had the role, and is the handler's run. *)
Lemma request_inr {A} r user (h : AppUser.t → M A) e s s' x :
  request r user h e s = (s', inr x) →
  ROLE_RANK r <= ROLE_RANK (AppUser.role user) ∧ h user e s = (s', inr x).
Proof.
  unfold request, require_role. intros Hrun. inv_run. reflect_bools. split; [done|].
  unfold transaction in Hrun. destruct (h user e s) as [s1 [y|y]]; [done|]. by injection Hrun as -> ->.
Qed.

(** A request that does not succeed leaves the database as it was. *)
Lemma request_inl {A} r user (h : AppUser.t → M A) e s s' x :
  request r user h e s = (s', inl x) → s' = s.
Proof.
  unfold request, require_role, raise_if, when, raise, transaction, mbind, M_bind.
  destruct (_ <? _); simpl; [by intros [= <- _]|].
  destruct (h user e s) as [s1 [y|y]]; [by intros [= <- _]|done].
Qed.
