(* ===== verification/Http.v ===== *)
(** * The HTTP client

    What the connectors of src/app/integrations use of httpx and urllib. A connector is a program
    of type [Http A]: it sends requests and sleeps, and returns a value or raises. The far side is a
    function of what has been sent before and of the request, so it may answer the same request
    differently each time. *)

From S2P Require Export PyNum Db.
Local Open Scope Z_scope.

(** ** Requests and responses *)

Inductive http_body :=
  | NoBody
  | FormBody (data : jdict)
  | JsonBody (body : json).

Record http_request := mkrequest {
  rq_method : string;
  rq_url : string;
  rq_params : list (string * string);
  rq_body : http_body;
  rq_headers : list (string * string);
  rq_auth : option (string * string);
}.

Record http_response := mkresponse {
  status_code : Z;
  resp_text : string;
  resp_headers : list (string * string); (* names in lower case *)
}.

(** [TransportError] stands for TimeoutException, ConnectError and NetworkError; [ClientError] for
    any other exception of httpx. *)
Inductive http_result :=
  | TransportError (msg : string)
  | ClientError (msg : string)
  | Responded (r : http_response).

(** How long a connector waits: its own backoff in tenths of a second, or what a Retry-After header
    asks for. The jitter on top is left out. *)
Inductive wait := Backoff (tenths : Z) | RetryAfter (seconds : pydec).

Inductive http_event := Sent (r : http_request) | Slept (w : wait).

(** [resp.headers.get(name)]. *)
Definition header (name : string) (r : http_response) : option string := dget name (resp_headers r).

(** ** The programs *)

Definition Http (A : Type) : Type := list http_event → list http_event * (exn + A).

#[export] Instance H_ret : MRet Http := λ A x h, (h, inr x).
#[export] Instance H_bind : MBind Http := λ A B f m h,
  match m h with
  | (h', inl x) => (h', inl x)
  | (h', inr a) => f a h'
  end.

Definition h_raise {A} (x : exn) : Http A := λ h, (h, inl x).
Definition h_of_sum {A} (r : exn + A) : Http A := match r with inl x => h_raise x | inr a => mret a end.
Definition h_raise_if (b : bool) (x : exn) : Http () := if b then h_raise x else mret ().
Definition h_sleep (w : wait) : Http () := λ h, (h ++ [Slept w], inr ()).
Definition h_try {A} (m : Http A) (f : exn → option exn) : Http A := λ h,
  match m h with
  | (h', inl x) => (h', inl (default x (f x)))
  | r => r
  end.

(** What a connector's operation comes to, from a fresh start. *)
Definition settle {A} (m : Http A) : exn + A := (m []).2.

Fixpoint requests (h : list http_event) : list http_request :=
  match h with
  | [] => []
  | Sent r :: h => r :: requests h
  | Slept _ :: h => requests h
  end.

Lemma requests_app h1 h2 : requests (h1 ++ h2) = requests h1 ++ requests h2.
Proof. induction h1 as [|[r|w] h IH]; [done| |done]. cbn. by rewrite IH. Qed.

Lemma h_bind_inr {A B} (m : Http A) (f : A → Http B) h h' b :
  (m ≫= f) h = (h', inr b) ↔ ∃ h1 a, m h = (h1, inr a) ∧ f a h1 = (h', inr b).
Proof.
  unfold mbind, H_bind. split.
  - destruct (m h) as [h1 [x|a]]; [done|]. eauto.
  - by intros (h1 & a & -> & Hf).
Qed.

Section client.
Context (send : list http_event → http_request → http_result).

(** One call of the client. *)
Definition h_send (r : http_request) : Http http_result := λ h, (h ++ [Sent r], inr (send h r)).

(** One call whose exceptions are not caught. *)
Definition h_call (r : http_request) : Http http_response :=
  out ← h_send r;
  match out with
  | TransportError msg | ClientError msg => h_raise (OtherError msg)
  | Responded resp => mret resp
  end.
End client.

(** ** Reading a response *)

(** [resp.json()], [loads] being [json.loads]. *)
Definition resp_json (loads : string → option json) (r : http_response) : exn + json :=
  match loads (resp_text r) with Some v => inr v | None => inl (ValueError "body is not JSON") end.

(** [v.get(k)] on what should be an object. *)
Definition jget_or_raise (k : string) (v : json) : exn + json :=
  match v with JObj d => inr (default JNull (dget k d)) | _ => inl (AttributeError "get") end.

(** [resp.raise_for_status()] of httpx. *)
Definition httpx_raise_for_status (r : http_response) : exn + () :=
  if (200 <=? status_code r) && (status_code r <? 300) then inr ()
  else inl (HTTPStatusError (str_of_Z (status_code r))).

(** [float(s)]: the decimal grammar without the signalling NaN and the NaN payloads. *)
Definition float_of_str (s : string) : option pydec :=
  d ← dec_parse s; match d with DNaN => if str_lower (str_strip s) ∈b ["nan"; "+nan"; "-nan"] then Some d else None
                   | d => Some d end.

(** [int(v or d)]. *)
Definition int_or (v : json) (d : Z) : exn + Z :=
  if truthy v then match py_int v with Some z => inr z | None => inl (ValueError "invalid literal for int()") end
  else inr d.

Definition form_headers : list (string * string) := [("Content-Type", "application/x-www-form-urlencoded")].

(** ** [urllib.parse.urlencode] *)

Definition is_unreserved (c : ascii) : bool :=
  let n := N_of_ascii c in
  ((48 <=? n)%N && (n <=? 57)%N) || ((65 <=? n)%N && (n <=? 90)%N) || ((97 <=? n)%N && (n <=? 122)%N) ||
  (c ==b "_"%char) || (c ==b "."%char) || (c ==b "-"%char) || (c ==b "~"%char).

Definition upper_hex (n : N) : ascii := if (n <? 10)%N then ascii_of_N (48 + n) else ascii_of_N (55 + n).
Definition percent (n : N) : string := String "%" (String (upper_hex (n / 16)) (String (upper_hex (n mod 16)) "")).

(** A code point below 256 is one byte of UTF-8 below 128, and two from there on. *)
Definition quote_one (c : ascii) : string :=
  let n := N_of_ascii c in
  if c ==b " "%char then "+"
  else if is_unreserved c then String c ""
  else if (n <? 128)%N then percent n
  else percent (192 + n / 64) +:+ percent (128 + n mod 64).

Fixpoint quote_plus (s : string) : string :=
  match s with EmptyString => "" | String c s => quote_one c +:+ quote_plus s end.

Definition urlencode (params : list (string * string)) : string :=
  str_join "&" ((λ kv, quote_plus kv.1 +:+ "=" +:+ quote_plus kv.2) <$> params).

Example urlencode_1 : urlencode [("scope", "a b"); ("u", "https://x.io/?" +:+ String (ascii_of_N 233) "")] =
  "scope=a+b&u=https%3A%2F%2Fx.io%2F%3F%C3%A9".
Proof. vm_compute. reflexivity. Qed.
