(* ===== verification/AssistantMemory.v ===== *)
(** * The memory of the assistant: src/app/assistant/memory.py

    The conversation of a user, trimmed to a window that the language model accepts, and the
    campaign the user is working on. Messages are JSON objects, identifiers of tool calls text. *)

From S2P Require Export Requests.
Local Open Scope Z_scope.

(** [app/assistant/memory.py] lines 27-27, [MAX_MESSAGES]. *)
Definition MAX_MESSAGES : nat := 20.

(** [m.get(k)]. *)
Definition msg_get (k : string) (m : json) : option json := match m with JObj d => dget k d | _ => None end.

(** The blocks of a message whose content is a list. *)
Definition blocks_of (m : json) : list json :=
  match msg_get "content" m with Some (JList blocks) => blocks | _ => [] end.

(** The identifiers under [k], none empty, in the blocks of the given type. *)
Definition block_ids (kind k : string) (m : json) : list string :=
  omap (λ block, if as_str (msg_get "type" block) ==b Some kind
                 then match as_str (msg_get k block) with
                      | Some i => if str_empty i then None else Some i
                      | None => None
                      end
                 else None) (blocks_of m).

(** The tool calls a message makes, and those it answers. *)
Definition tool_uses : json → list string := block_ids "tool_use" "id".
Definition tool_results : json → list string := block_ids "tool_result" "tool_use_id".

Definition is_user (m : json) : bool := as_str (msg_get "role" m) ==b Some "user".

(** A result in the first message whose call is not in the slice. *)
Definition dangling (first : json) (candidate : list json) : bool :=
  existsb (λ tu_id, negb (tu_id ∈b concat (tool_uses <$> candidate))) (tool_results first).

(** The loop that peels the slice from the front. *)
Fixpoint peel (candidate : list json) : list json :=
  match candidate with
  | [] => []
  | first :: rest => if negb (is_user first) || dangling first candidate then peel rest else candidate
  end.

(** [app/assistant/memory.py] lines 113-161, [_trim]. *)
Definition _trim (messages : list json) : list json :=
  if bool_decide (length messages <= MAX_MESSAGES)%nat then messages
  else peel (drop (length messages - MAX_MESSAGES) messages).

(** [app/assistant/memory.py] lines 30-38, [load_history]. *)
Definition load_history (user_id : N) : M (list json) :=
  row ← get_row (R:=AssistantConversation.t) user_id;
  mret (from_option AssistantConversation.messages [] row).

(** The row of a user who has none yet. *)
Definition new_conversation (user_id tenant_id : N) (messages : list json) (campaign : option N) (t : Z)
    : AssistantConversation.t := {|
  AssistantConversation.user_id := user_id;
  AssistantConversation.tenant_id := tenant_id;
  AssistantConversation.messages := messages;
  AssistantConversation.active_campaign_id := campaign;
  AssistantConversation.updated_at := t |}.

(** [app/assistant/memory.py] lines 41-61, [save_history]. *)
Definition save_history (user_id tenant_id : N) (messages : list json) : M () :=
  let trimmed := _trim messages in
  row ← get_row (R:=AssistantConversation.t) user_id;
  t ← asks now;
  match row with
  | None => put_row (new_conversation user_id tenant_id trimmed None t)
  | Some row => assign row (λ r, r <| AssistantConversation.messages := trimmed |>
                                   <| AssistantConversation.updated_at := t |>) ;; mret ()
  end.

(** [app/assistant/memory.py] lines 64-76, [clear_history]. *)
Definition clear_history (user_id : N) : M () :=
  row ← get_row (R:=AssistantConversation.t) user_id;
  t ← asks now;
  match row with
  | None => mret ()
  | Some row => assign row (λ r, r <| AssistantConversation.messages := [] |>
                                   <| AssistantConversation.active_campaign_id := None |>
                                   <| AssistantConversation.updated_at := t |>) ;; mret ()
  end.

(** [app/assistant/memory.py] lines 79-85, [get_active_campaign]. *)
Definition get_active_campaign (user_id : N) : M (option N) :=
  row ← get_row (R:=AssistantConversation.t) user_id;
  mret (row ≫= AssistantConversation.active_campaign_id).

(** [app/assistant/memory.py] lines 88-110, [set_active_campaign]. *)
Definition set_active_campaign (user_id tenant_id : N) (campaign_id : option N) : M () :=
  row ← get_row (R:=AssistantConversation.t) user_id;
  t ← asks now;
  match row with
  | None => put_row (new_conversation user_id tenant_id [] campaign_id t)
  | Some row => assign row (λ r, r <| AssistantConversation.active_campaign_id := campaign_id |>
                                   <| AssistantConversation.updated_at := t |>) ;; mret ()
  end.

(** ** What the trimmed history is *)

(** Every result answers a call of an earlier message, [seen] being the calls before. *)
Fixpoint answered (seen : list string) (messages : list json) : Prop :=
  match messages with
  | [] => True
  | m :: messages => (∀ i, i ∈ tool_results m → i ∈ seen) ∧ answered (tool_uses m ++ seen) messages
  end.

(** A conversation as the router builds it: results answer the calls of the message just before. *)
Fixpoint conversation (previous : list string) (messages : list json) : Prop :=
  match messages with
  | [] => True
  | m :: messages => (∀ i, i ∈ tool_results m → i ∈ previous) ∧ conversation (tool_uses m) messages
  end.

Definition calls (messages : list json) : list string := concat (tool_uses <$> messages).

Lemma conversation_answered seen previous messages :
  (∀ i, i ∈ previous → i ∈ seen) → conversation previous messages → answered seen messages.
Proof.
  revert seen previous. induction messages as [|m l IH]; intros seen previous Hsub; [done|].
  intros [Hm Hl]. split; [by intros i Hi; apply Hsub, Hm|].
  apply (IH _ (tool_uses m)); [|done]. intros i Hi. apply elem_of_app. by left.
Qed.

Lemma conversation_drop previous n messages :
  conversation previous messages →
  ∃ previous', conversation previous' (drop n messages) ∧
    (∀ i, i ∈ previous' → i ∈ previous ∨ i ∈ calls (take n messages)).
Proof.
  revert previous n. induction messages as [|m l IH]; intros previous n Hc.
  { exists previous. destruct n; (split; [done|tauto]). }
  destruct n as [|n]; [exists previous; split; [done|tauto]|].
  destruct Hc as [Hm Hl]. destruct (IH (tool_uses m) n Hl) as (p & Hp & Hsub). exists p. split; [done|].
  intros i Hi. right. cbn. apply elem_of_app. destruct (Hsub i Hi); [by left|by right].
Qed.

(** Peeling stops at the first message that can open a request. *)
Lemma peel_drop l :
  ∃ n, peel l = drop n l ∧
    ∀ k m r, (k < n)%nat → drop k l = m :: r → is_user m = false ∨ dangling m (m :: r) = true.
Proof.
  induction l as [|x l (n & IH & Hn)]; [exists 0%nat; split; [done|lia]|]. cbn [peel].
  destruct (_ || _) eqn:E; [|exists 0%nat; split; [done|lia]].
  exists (S n). split; [done|]. intros [|k] m r Hk; cbn.
  - intros [= -> ->]. apply orb_prop in E as [E|E]; [left; by apply negb_true_iff|by right].
  - apply Hn. lia.
Qed.

Lemma peel_first l m r : peel l = m :: r → is_user m = true ∧ dangling m (m :: r) = false.
Proof.
  induction l as [|x l IH]; [done|]. cbn [peel]. destruct (_ || _) eqn:E; [apply IH|].
  intros [= -> ->]. apply orb_false_elim in E as [E1 E2]. by rewrite negb_false_iff in E1.
Qed.

Lemma calls_app l1 l2 : calls (l1 ++ l2) = calls l1 ++ calls l2.
Proof. unfold calls. by rewrite fmap_app, concat_app. Qed.

(** In a conversation whose calls have distinct identifiers, the message a slice starts with answers
    no call at all, unless the check finds one that the slice has lost. *)
Lemma slice_answered messages n m r :
  conversation [] messages → NoDup (calls messages) → drop n messages = m :: r →
  dangling m (m :: r) = false → tool_results m = [] ∧ answered [] (m :: r).
Proof.
  intros Hc Hnd Hd Hdang. destruct (conversation_drop [] n messages Hc) as (p & Hp & Hsub).
  rewrite Hd in Hp. destruct Hp as [Hm Hr].
  assert (tool_results m = []) as Hempty.
  { destruct (tool_results m) as [|i l] eqn:E; [done|]. exfalso.
    specialize (Hm i ltac:(left)) as Hi. unfold dangling in Hdang. rewrite E in Hdang. cbn [existsb] in Hdang.
    apply orb_false_elim in Hdang as [Hin _]. rewrite negb_false_iff, bool_decide_eq_true in Hin.
    destruct (Hsub i Hi) as [?%not_elem_of_nil|Hbefore]; [done|].
    rewrite <- (take_drop n messages), calls_app, Hd in Hnd. apply NoDup_app in Hnd as (_ & Hdisj & _).
    by apply (Hdisj i). }
  split; [done|]. split; [by rewrite Hempty|]. rewrite app_nil_r. by eapply conversation_answered.
Qed.

(** Trimming leaves a history the language model accepts. It keeps the end of the conversation,
    at most twenty messages; a longer conversation then starts with a message of the user that
    answers no tool call, and every tool result left has its call in an earlier message that is left
    too. No longer end of at most twenty messages has these two properties. *)
Theorem trim_spec messages :
  conversation [] messages → NoDup (calls messages) →
  ∃ n, _trim messages = drop n messages ∧
    (length (_trim messages) <= MAX_MESSAGES)%nat ∧ answered [] (_trim messages) ∧
    ((MAX_MESSAGES < length messages)%nat →
     (∀ m r, _trim messages = m :: r → is_user m = true ∧ tool_results m = []) ∧
     ∀ k m r, (length messages - MAX_MESSAGES <= k < n)%nat → drop k messages = m :: r →
       ¬ (is_user m = true ∧ answered [] (m :: r))).
Proof.
  intros Hc Hnd. unfold _trim. case_bool_decide as Hlen.
  { exists 0%nat. split; [done|]. split; [done|]. split; [|lia]. by apply (conversation_answered _ []). }
  set (w := (length messages - MAX_MESSAGES)%nat).
  destruct (peel_drop (drop w messages)) as (n & Hpeel & Hn). exists (w + n)%nat.
  rewrite Hpeel, drop_drop. split; [done|]. split; [rewrite length_drop; lia|].
  assert (∀ m r, drop (w + n) messages = m :: r → is_user m = true ∧ tool_results m = [] ∧ answered [] (m :: r)) as Hfirst.
  { intros m r E. destruct (peel_first (drop w messages) m r) as [Hu Hd].
    { by rewrite Hpeel, drop_drop. }
    destruct (slice_answered messages _ m r Hc Hnd E Hd). done. }
  split.
  { destruct (drop (w + n) messages) as [|m r] eqn:E; [done|]. by apply Hfirst. }
  intros _. split; [intros m r E; by destruct (Hfirst m r E) as (? & ? & _)|].
  intros k m r Hk E [Hu Ha].
  destruct (Hn (k - w)%nat m r) as [Hf|Hdang]; [lia| |congruence|].
  { rewrite drop_drop, <- E. f_equal. lia. }
  destruct Ha as [Hres _]. unfold dangling in Hdang.
  destruct (tool_results m) as [|i l]; [done|]. by destruct (not_elem_of_nil i (Hres i ltac:(left))).
Qed.

(** A conversation of the router: one question, ten tool calls with their results. *)
Definition sample_turn (i : nat) : list json :=
  [JObj [("role", JStr "assistant"); ("content", JList [JObj [("type", JStr "tool_use"); ("id", JStr (pretty i))]])];
   JObj [("role", JStr "user");
         ("content", JList [JObj [("type", JStr "tool_result"); ("tool_use_id", JStr (pretty i))]])]].
Definition sample_question (q : string) : json := JObj [("role", JStr "user"); ("content", JStr q)].
Definition sample_talk : list json :=
  sample_question "a" :: sample_turn 0 ++ sample_turn 1 ++ sample_turn 2 ++
  sample_question "b" :: sample_turn 3 ++ sample_turn 4 ++ sample_turn 5 ++
  sample_turn 6 ++ sample_turn 7 ++ sample_turn 8 ++ sample_turn 9.

Lemma trim_spec_witness :
  length sample_talk = 22%nat ∧ ∃ n, _trim sample_talk = drop n sample_talk ∧ n = 7%nat ∧
    answered [] (_trim sample_talk).
Proof.
  split; [reflexivity|]. destruct (trim_spec sample_talk) as (n & Hn & _ & Ha & _).
  - vm_compute. repeat split; set_solver.
  - apply (bool_decide_eq_true_1 _). vm_compute. reflexivity.
  - exists 7%nat. split; [vm_compute; reflexivity|]. split; [reflexivity|exact Ha].
Defined.
