(* ===== verification/Calendar.v ===== *)
(** * The sequence calendar: src/app/agents/_calendar.py

    Pure functions: touches laid out for a proposal, the soft frequency warnings and the
    hard caps. The touchpoints are values; the functions that fill in
    [frequency_warning] in place return the updated list. *)

From Stdlib Require Import Floats.SpecFloat.
From S2P Require Export PyDecimal Db.
Local Open Scope Z_scope.

(** [app/agents/_calendar.py] lines 33-33, [_TOUCH_PER_WEEK_FLOOR]. *)
Definition TOUCH_PER_WEEK_FLOOR : Z := 1.
Definition DEFAULT_FREQUENCY_CAP : Z := 3.
Definition DEFAULT_FREQUENCY_WINDOW : Z := 7 * day.

(** [app/agents/_calendar.py] lines 36-40, [_HARD_CAP_WINDOWS]. *)
Definition HARD_CAP_WINDOWS : list (string * Z) :=
  [("day", 1 * day); ("week", 7 * day); ("month", 30 * day)].

(** [app/agents/_calendar.py] lines 53-63, [PlannedTouchpoint]. *)
Module PlannedTouchpoint.
Record t := mk {
  channel_platform : string;
  audience_id : N;
  scheduled_at : Z;
  position : Z;
  human_override : bool;
  frequency_warning : option jdict;
}.

#[global] Instance t_eta : Eta t :=
  λ r, mk (channel_platform r) (audience_id r) (scheduled_at r) (position r) (human_override r)
    (frequency_warning r).
End PlannedTouchpoint.

(** [str(d.get(k, ""))]. *)
Definition get_str (k : string) (d : jdict) : string := json_str (default (JStr "") (dget k d)).

(** [int(d.get("limit", 0))]; [None] is the error the code catches. *)
Definition cap_limit (cap : jdict) : option Z := py_int (default (JInt 0) (dget "limit" cap)).

(** ** Layout *)

(** [app/agents/_calendar.py] lines 231-237, [_index_hard_caps]. *)
Definition _index_hard_caps (caps : list jdict) : list (string * jdict) :=
  fold_left (λ out c, let platform := str_lower (get_str "platform" c) in
    if str_empty platform then out else dset platform c out) caps [].

(** [app/agents/_calendar.py] lines 240-250, [_max_touches_for_cap]. *)
Definition _max_touches_for_cap (cap : jdict) (duration_days : Z) : Z :=
  match cap_limit cap, dget (str_lower (get_str "per" cap)) HARD_CAP_WINDOWS with
  | Some limit, Some window =>
      if limit <=? 0 then 0
      else Z.max 1 (duration_days * limit / Z.max 1 (window / day))
  | _, _ => 0
  end.

Definition duration (start_date end_date : Z) : Z := Z.max 1 (end_date - start_date + 1).

(** The day offsets of [count] touches. *)
Definition offsets (count duration_days : Z) : list Z :=
  if count =? 1 then [duration_days / 2]
  else (λ i, round_half_even (Z.of_nat i * (duration_days - 1)) (count - 1)) <$> seq 0 (Z.to_nat count).

(** [app/agents/_calendar.py] lines 253-287, [_distribute]. *)
Definition _distribute (count start_date end_date : Z) (platform : string) (audience_id : N)
    (position_start : Z) : list PlannedTouchpoint.t :=
  imap (λ idx day_offset, {|
    PlannedTouchpoint.channel_platform := platform;
    PlannedTouchpoint.audience_id := audience_id;
    PlannedTouchpoint.scheduled_at := combine_hour (start_date + day_offset) 9;
    PlannedTouchpoint.position := position_start + Z.of_nat idx;
    PlannedTouchpoint.human_override := false;
    PlannedTouchpoint.frequency_warning := None |})
  (offsets count (duration start_date end_date)).

(** [int(round(float(pct) / 100.0 * duration_days / 7.0))]; [None] is the error of rounding
    an infinity. *)
Definition raw_touch_count (allocation_pct : pydec) (duration_days : Z) : option Z :=
  match allocation_pct with
  | DFin neg c e =>
      let x := flt_of_dec (Dec (dec_coef neg c) e) in
      flt_round (flt_div (flt_mul (flt_div x (flt_of_Z 100)) (flt_of_Z duration_days)) (flt_of_Z 7))
  | _ => None
  end.

(** The touches of one channel; none where it is skipped. *)
Definition channel_touches (caps : list (string * jdict)) (start_date end_date : Z) (audience_id : N)
    (position_start : Z) (ch : json) : exn + list PlannedTouchpoint.t :=
  match ch with
  | JObj ch =>
      let platform := str_lower (str_strip (get_str "platform" ch)) in
      if str_empty platform then inr []
      else
        let allocation_pct :=
          default (dec_of_Z 0) (dec_parse (json_str (default (JInt 0) (dget "allocation_pct" ch)))) in
        match dec_leb allocation_pct (dec_of_Z 0) with
        | None => inl InvalidOperation
        | Some true => inr []
        | Some false =>
            match raw_touch_count allocation_pct (duration start_date end_date) with
            | None => inl (OtherError "OverflowError")
            | Some n =>
                let touch_count := Z.max TOUCH_PER_WEEK_FLOOR n in
                let touch_count :=
                  match dget platform caps with
                  | Some cap => Z.min touch_count (_max_touches_for_cap cap (duration start_date end_date))
                  | None => touch_count
                  end in
                inr (_distribute (Z.max 1 touch_count) start_date end_date platform audience_id
                       position_start)
            end
        end
  | _ => inr []
  end.

Fixpoint lay_out (caps : list (string * jdict)) (start_date end_date : Z) (audience_id : N)
    (position_cursor : Z) (channels : list json) : exn + list PlannedTouchpoint.t :=
  match channels with
  | [] => inr []
  | ch :: channels =>
      match channel_touches caps start_date end_date audience_id position_cursor ch with
      | inl x => inl x
      | inr touches =>
          match lay_out caps start_date end_date audience_id
                  (position_cursor + Z.of_nat (length touches)) channels with
          | inl x => inl x
          | inr rest => inr (touches ++ rest)
          end
      end
  end.

Definition touch_order (x y : PlannedTouchpoint.t) : Prop :=
  PlannedTouchpoint.scheduled_at x < PlannedTouchpoint.scheduled_at y ∨
  (PlannedTouchpoint.scheduled_at x = PlannedTouchpoint.scheduled_at y ∧
   PlannedTouchpoint.position x <= PlannedTouchpoint.position y).
#[export] Instance touch_order_dec : RelDecision touch_order.
Proof. intros x y. unfold touch_order. apply _. Defined.

(** ** Hard caps *)

(** A cap the check applies: its platform, period, window and limit. *)
Record active_cap := mkcap { cap_platform : string; cap_per : string; cap_window : Z; cap_max : Z }.

Definition read_cap (cap : jdict) : option active_cap :=
  let platform := str_lower (get_str "platform" cap) in
  let per := str_lower (get_str "per" cap) in
  match cap_limit cap, dget per HARD_CAP_WINDOWS with
  | Some limit, Some window =>
      if str_empty platform || (limit <=? 0) then None else Some (mkcap platform per window limit)
  | _, _ => None
  end.

(** The run of touches of a sorted list that fall within [window] of [from]. *)
Fixpoint count_within (from window : Z) (l : list Z) : Z :=
  match l with
  | [] => 0
  | t :: l => if t - from <? window then 1 + count_within from window l else 0
  end.

(** The first anchor whose window holds more than [limit] touches, and their number. *)
Fixpoint first_breach (limit window : Z) (l : list Z) : option (Z * Z) :=
  match l with
  | [] => None
  | t :: l =>
      let count := 1 + count_within t window l in
      if limit <? count then Some (t, count) else first_breach limit window l
  end.

Definition times_of (platform : string) (touchpoints : list PlannedTouchpoint.t) : list Z :=
  PlannedTouchpoint.scheduled_at <$>
    List.filter (λ t, PlannedTouchpoint.channel_platform t ==b platform) touchpoints.

(** [dt.isoformat()]: a datetime read from the database is aware, a generated one not. *)
Definition iso (aware : bool) (t : Z) : string :=
  let s := isoformat t in if aware then s else str_take (String.length s - 6) s.

Definition violation_of (aware : bool) (c : active_cap) (breach : Z * Z) : jdict :=
  let '(t, count) := breach in
  [("platform", JStr (cap_platform c)); ("per", JStr (cap_per c)); ("limit", JInt (cap_max c));
   ("observed", JInt count); ("window_start", JStr (iso aware t));
   ("detail", JStr (cap_platform c +:+ ": " +:+ str_of_Z count +:+ " touches within " +:+ cap_per c
      +:+ " starting " +:+ iso aware t +:+ " (cap " +:+ str_of_Z (cap_max c) +:+ ")"))].

(** The breach of one cap, if any. *)
Definition cap_violation (aware : bool) (touchpoints : list PlannedTouchpoint.t) (cap : jdict)
    : option jdict :=
  c ← read_cap cap;
  let matching := order_by (λ t, t) (times_of (cap_platform c) touchpoints) in
  if Z.of_nat (length matching) <=? cap_max c then None
  else violation_of aware c <$> first_breach (cap_max c) (cap_window c) matching.

(** [app/agents/_calendar.py] lines 43-50, [HardCapViolationError]. *)
Definition hard_cap_violation (violations : list jdict) : exn :=
  HardCapViolationError ("hard cap violations: " +:+ str_join "; " (get_str "detail" <$> violations))
    violations.

(** [app/agents/_calendar.py] lines 166-223, [enforce_hard_caps]. *)
Definition enforce_hard_caps (aware : bool) (touchpoints : list PlannedTouchpoint.t)
    (hard_caps : list jdict) : exn + () :=
  match omap (cap_violation aware touchpoints) hard_caps with
  | [] => inr ()
  | violations => inl (hard_cap_violation violations)
  end.

(** What iterating over [payload.get("channels", [])] gives. *)
Definition payload_channels (payload : jdict) : exn + list json :=
  match dget "channels" payload with
  | None => inr []
  | Some (JList l) => inr l
  | Some (JStr _) | Some (JObj _) => inr []
  | Some _ => inl TypeError
  end.

(** [app/agents/_calendar.py] lines 66-131, [generate_calendar]. *)
Definition generate_calendar (proposal_payload : jdict) (start_date end_date : Z) (audience_id : N)
    (hard_caps : list jdict) : exn + list PlannedTouchpoint.t :=
  match payload_channels proposal_payload with
  | inl x => inl x
  | inr channels =>
      match lay_out (_index_hard_caps hard_caps) start_date end_date audience_id 0 channels with
      | inl x => inl x
      | inr touches =>
          let out := merge_sort touch_order touches in
          match enforce_hard_caps false out hard_caps with
          | inl x => inl x
          | inr _ => inr out
          end
      end
  end.

(** ** Frequency warnings *)

Definition warning (cap window count : Z) : jdict :=
  [("cap_per_days", JInt (window / day)); ("limit", JInt cap); ("count_in_window", JInt count)].

(** The warning of the [i]-th touch of an audience's touches in time order: at most
    [2 * cap] neighbours are looked at on either side. *)
Definition warning_at (cap window : Z) (times : list Z) (i : nat) (anchor : Z) : option jdict :=
  let near := Z.to_nat (cap * 2) in
  let nearby := take (i + near + 1 - (i - near)) (drop (i - near) times) in
  let in_window := List.filter (λ t, Z.abs (t - anchor) <? window) nearby in
  let count := Z.of_nat (length in_window) in
  if cap <? count then Some (warning cap window count) else None.

(** The touches of an audience, each with its place in the whole list, in time order. *)
Definition audience_touches (touchpoints : list PlannedTouchpoint.t) (aud : N)
    : list (nat * PlannedTouchpoint.t) :=
  order_by (λ kt : nat * PlannedTouchpoint.t, PlannedTouchpoint.scheduled_at kt.2)
    (List.filter (λ kt, PlannedTouchpoint.audience_id kt.2 ==b aud) (imap pair touchpoints)).

(** The warning of the touch at place [k]. *)
Definition warning_for (cap window : Z) (touchpoints : list PlannedTouchpoint.t) (k : nat)
    (tp : PlannedTouchpoint.t) : option jdict :=
  let group := audience_touches touchpoints (PlannedTouchpoint.audience_id tp) in
  let times := (λ kt : nat * PlannedTouchpoint.t, PlannedTouchpoint.scheduled_at kt.2) <$> group in
  i ← fst <$> list_find (λ kt : nat * PlannedTouchpoint.t, kt.1 = k) group;
  warning_at cap window times i (PlannedTouchpoint.scheduled_at tp).

(** [app/agents/_calendar.py] lines 134-163, [detect_frequency_warnings]. *)
Definition detect_frequency_warnings (cap window : Z) (touchpoints : list PlannedTouchpoint.t)
    : list PlannedTouchpoint.t :=
  imap (λ k tp, tp <| PlannedTouchpoint.frequency_warning := warning_for cap window touchpoints k tp |>)
    touchpoints.

Definition sample_payload : jdict :=
  [("channels", JList [JObj [("platform", JStr "Email"); ("allocation_pct", JFloat (Dec 600 (-1)))];
                       JObj [("platform", JStr "linkedin"); ("allocation_pct", JInt 40)]])].

Example calendar_sample :
  match generate_calendar sample_payload 100 127 7 [] with
  | inr l => (λ t, (PlannedTouchpoint.channel_platform t, PlannedTouchpoint.scheduled_at t / day)) <$> l
  | inl _ => []
  end = [("email", 100); ("linkedin", 100); ("email", 127); ("linkedin", 127)].
Proof. vm_compute. reflexivity. Qed.

Example calendar_capped :
  match generate_calendar sample_payload 100 127 7
    [[("platform", JStr "email"); ("per", JStr "month"); ("limit", JInt 1)]] with
  | inr l => Some (length l) | inl _ => None end = Some 3%nat.
Proof. vm_compute. reflexivity. Qed.

(** * Properties of the sequence calendar

    The sliding-window check of the hard caps against its declarative meaning, and the
    clipped neighbourhood of the frequency warnings against the whole calendar. *)

(** ** Hard caps *)

(** The touches of the half-open window that starts at [from]. *)
Definition in_window (from window t : Z) : bool := (from <=? t) && (t - from <? window).
Definition window_count (from window : Z) (l : list Z) : Z :=
  Z.of_nat (length (List.filter (in_window from window) l)).

Lemma window_count_cons from window t l :
  window_count from window (t :: l) = (if in_window from window t then 1 else 0) + window_count from window l.
Proof. unfold window_count. simpl. destruct (in_window _ _ _); simpl; lia. Qed.

Lemma bfilter_Permutation {A} (f : A → bool) l l' :
  l ≡ₚ l' → List.filter f l ≡ₚ List.filter f l'.
Proof.
  induction 1 as [|x l l' _ IH|x y l|l l' l'' _ IH1 _ IH2]; simpl; [done| |..].
  - destruct (f x); [by constructor|done].
  - destruct (f x), (f y); try done. constructor.
  - by etrans.
Qed.

Lemma window_count_Permutation from window l l' :
  l ≡ₚ l' → window_count from window l = window_count from window l'.
Proof. intros H. unfold window_count. by rewrite (Permutation_length (bfilter_Permutation _ _ _ H)). Qed.

Lemma window_count_length from window l : window_count from window l <= Z.of_nat (length l).
Proof. unfold window_count. pose proof (length_bfilter_split (in_window from window) l). lia. Qed.

Definition sorted : list Z → Prop := StronglySorted (λ x y, x <= y).

Lemma count_within_sorted from window l :
  sorted (from :: l) → count_within from window l = window_count from window l.
Proof.
  induction l as [|t l IH]; intros Hs; [done|].
  apply StronglySorted_inv in Hs as [Hs Hf]. apply Forall_cons in Hf as [Hft Hf].
  apply StronglySorted_inv in Hs as [Hs Ht]. rewrite Forall_forall in Ht.
  rewrite window_count_cons. simpl. unfold in_window at 1.
  replace (from <=? t) with true by (symmetry; by apply Z.leb_le). simpl.
  destruct (Z.ltb_spec (t - from) window) as [Hlt|Hge].
  - rewrite IH; [done|]. by constructor.
  - assert (List.filter (in_window from window) l = []) as E; [|unfold window_count; by rewrite E].
    apply bfilter_nil_iff. intros y Hy. unfold in_window. specialize (Ht y Hy).
    apply andb_false_iff. right. apply Z.ltb_ge. lia.
Qed.

Lemma first_breach_spec limit window l :
  0 < window → sorted l →
  match first_breach limit window l with
  | None => ∀ from, from ∈ l → window_count from window l <= limit
  | Some (from, n) => from ∈ l ∧ limit < n <= window_count from window l
  end.
Proof.
  intros Hw. induction l as [|t l IH]; intros Hs; simpl; [intros f Hf; by apply not_elem_of_nil in Hf|].
  assert (window_count t window (t :: l) = 1 + count_within t window l) as Ht.
  { rewrite window_count_cons, count_within_sorted by done. unfold in_window.
    rewrite Z.leb_refl. by replace (t - t <? window) with true by (symmetry; apply Z.ltb_lt; lia). }
  apply StronglySorted_inv in Hs as [Hs Hf]. rewrite Forall_forall in Hf.
  destruct (Z.ltb_spec limit (1 + count_within t window l)) as [Hlt|Hge].
  { split; [left|]. rewrite Ht. lia. }
  specialize (IH Hs). destruct (first_breach limit window l) as [[from n]|].
  - destruct IH as [Hin Hn]. split; [by right|]. rewrite window_count_cons.
    destruct (in_window from window t); lia.
  - intros from [->|Hin]%elem_of_cons; [lia|]. destruct (decide (from = t)) as [->|Hne]; [lia|].
    rewrite window_count_cons. specialize (IH from Hin). unfold in_window.
    specialize (Hf from Hin). replace (from <=? t) with false by (symmetry; apply Z.leb_gt; lia). simpl. lia.
Qed.

Lemma times_sorted l : sorted (order_by (λ t, t) l).
Proof. apply order_by_sorted. Qed.

Lemma read_cap_window cap c : read_cap cap = Some c → 0 < cap_window c ∧ 0 < cap_max c.
Proof.
  unfold read_cap. destruct (cap_limit cap) as [limit|]; [|done].
  destruct (dget _ HARD_CAP_WINDOWS) as [window|] eqn:Hw; [|done].
  destruct (_ || _) eqn:E; [done|]. intros [= <-]. simpl. apply orb_false_iff in E as [_ E].
  split; [|lia]. unfold HARD_CAP_WINDOWS, day, hour, minute, second in Hw. simpl in Hw.
  repeat case_bool_decide; simplify_eq; lia.
Qed.

(** A calendar respects a cap: no window of its period, wherever a touch of the platform
    starts it, holds more touches of the platform than the limit. *)
Definition respects_cap (touchpoints : list PlannedTouchpoint.t) (cap : jdict) : Prop :=
  ∀ c, read_cap cap = Some c → ∀ from, from ∈ times_of (cap_platform c) touchpoints →
    window_count from (cap_window c) (times_of (cap_platform c) touchpoints) <= cap_max c.

Lemma cap_violation_none aware touchpoints cap :
  cap_violation aware touchpoints cap = None ↔ respects_cap touchpoints cap.
Proof.
  unfold cap_violation, respects_cap. destruct (read_cap cap) as [c|] eqn:Hc; simpl; [|done].
  set (l := times_of _ _). pose proof (order_by_Permutation (λ t, t) l) as Hp.
  destruct (read_cap_window _ _ Hc) as [Hw Hm].
  pose proof (first_breach_spec (cap_max c) (cap_window c) _ Hw (times_sorted l)) as Hb.
  assert (∀ from, window_count from (cap_window c) (order_by (λ t, t) l) = window_count from (cap_window c) l) as He.
  { intros from. by apply window_count_Permutation. }
  destruct (Z.leb_spec (Z.of_nat (length (order_by (λ t, t) l))) (cap_max c)) as [Hle|Hgt].
  - split; [|done]. intros _ c' [= <-] from _. fold l. rewrite <- He.
    pose proof (window_count_length from (cap_window c) (order_by (λ t, t) l)). lia.
  - destruct (first_breach _ _ _) as [[from n]|]; simpl.
    + split; [done|]. intros Hr. destruct Hb as [Hin Hn]. rewrite He in Hn.
      assert (from ∈ l) as Hin' by by rewrite <- Hp.
      specialize (Hr c eq_refl from Hin'). fold l in Hr. lia.
    + split; [|done]. intros _ c' [= <-] from Hin. fold l in Hin |- *. rewrite <- He. apply Hb. by rewrite Hp.
Qed.

Lemma omap_nil_iff {A B} (f : A → option B) l : omap f l = [] ↔ ∀ x, x ∈ l → f x = None.
Proof.
  induction l as [|x l IH]; simpl; [split; [intros _ x Hx; by apply not_elem_of_nil in Hx|done]|].
  destruct (f x) as [y|] eqn:E; split.
  - done.
  - intros H. specialize (H x ltac:(left)). congruence.
  - intros H y [->|Hy]%elem_of_cons; [done|]. by apply IH.
  - intros H. apply IH. intros y Hy. apply H. by right.
Qed.

Lemma enforce_ok aware touchpoints caps :
  enforce_hard_caps aware touchpoints caps = inr () ↔ ∀ cap, cap ∈ caps → respects_cap touchpoints cap.
Proof.
  unfold enforce_hard_caps. setoid_rewrite <- (cap_violation_none aware touchpoints).
  rewrite <- omap_nil_iff. destruct (omap _ _); by split.
Qed.

(** The hard-cap check means what it says. It accepts a list of touchpoints exactly when,
    for every well-formed cap, no window of the cap's period that starts at a touch of its
    platform holds more touches of the platform than the limit: the sliding count over the
    sorted touches, its early exit and the shortcut for short lists change nothing. *)
Theorem enforce_hard_caps_spec aware touchpoints caps :
  (∃ x, enforce_hard_caps aware touchpoints caps = inl x) ↔
  ∃ cap c from, cap ∈ caps ∧ read_cap cap = Some c ∧ from ∈ times_of (cap_platform c) touchpoints ∧
    cap_max c < window_count from (cap_window c) (times_of (cap_platform c) touchpoints).
Proof.
  split.
  - intros [x Hx]. unfold enforce_hard_caps in Hx.
    destruct (omap (cap_violation aware touchpoints) caps) as [|v vs] eqn:E; [done|]. clear Hx x.
    assert (v ∈ omap (cap_violation aware touchpoints) caps) as Hv by (rewrite E; left).
    apply list_elem_of_omap in Hv as (cap & Hcap & Hv). unfold cap_violation in Hv.
    destruct (read_cap cap) as [c|] eqn:Hc; simpl in Hv; [|done].
    destruct (read_cap_window _ _ Hc) as [Hw _]. set (l := times_of _ _) in *.
    pose proof (first_breach_spec (cap_max c) (cap_window c) _ Hw (times_sorted l)) as Hb.
    destruct (_ <=? _); [done|]. destruct (first_breach _ _ _) as [[from n]|]; [|done].
    destruct Hb as [Hin Hn]. exists cap, c, from. split; [done|]. split; [done|]. fold l.
    rewrite (order_by_Permutation (λ t, t) l) in Hin. split; [done|].
    rewrite (window_count_Permutation from (cap_window c) _ _ (order_by_Permutation (λ t, t) l)) in Hn. lia.
  - intros (cap & c & from & Hcap & Hc & Hin & Hn).
    destruct (enforce_hard_caps aware touchpoints caps) as [x|[]] eqn:E; [eauto|].
    pose proof (proj1 (enforce_ok aware touchpoints caps) E cap Hcap c Hc from Hin). lia.
Qed.

(** ** Frequency warnings *)

Definition near (window a t : Z) : bool := Z.abs (t - a) <? window.
Definition near_count (window a : Z) (l : list Z) : nat := length (List.filter (near window a) l).

Lemma near_count_app window a l l' : near_count window a (l ++ l') = (near_count window a l + near_count window a l')%nat.
Proof. unfold near_count. by rewrite List.filter_app, length_app. Qed.

Lemma near_count_all window a l : (∀ t, t ∈ l → near window a t = true) → near_count window a l = length l.
Proof.
  unfold near_count. induction l as [|t l IH]; intros H; [done|]. simpl. rewrite H by left. simpl.
  f_equal. apply IH. intros x Hx. apply H. by right.
Qed.

Lemma near_count_pos window a l : near_count window a l ≠ 0%nat → ∃ t, t ∈ l ∧ near window a t = true.
Proof.
  unfold near_count. destruct (List.filter _ l) as [|t l'] eqn:E; [done|]. intros _.
  assert (t ∈ List.filter (near window a) l) as Ht by (rewrite E; left).
  apply elem_of_bfilter in Ht. eauto.
Qed.

Lemma sorted_lookup l i j x y : sorted l → l !! i = Some x → l !! j = Some y → (i ≤ j)%nat → x <= y.
Proof.
  intros Hs. revert i j. induction Hs as [|t l Hs IH Hf]; intros i j Hi Hj Hij; [done|].
  rewrite Forall_forall in Hf. destruct i as [|i], j as [|j]; simpl in *; simplify_eq; try lia.
  - apply Hf. by eapply list_elem_of_lookup_2.
  - eapply IH; [done..|lia].
Qed.

(** Between two touches near the anchor, all are. *)
Lemma near_between l i j k a x y z window :
  sorted l → l !! i = Some x → l !! j = Some y → l !! k = Some z → (i ≤ j ≤ k)%nat →
  near window a x = true → near window a z = true → near window a y = true.
Proof.
  unfold near. intros Hs Hi Hj Hk [Hij Hjk] Hx Hz.
  pose proof (sorted_lookup _ _ _ _ _ Hs Hi Hj Hij). pose proof (sorted_lookup _ _ _ _ _ Hs Hj Hk Hjk). lia.
Qed.

(** Looking at [2 * cap] neighbours on either side is enough to know whether more than
    [cap] touches are near. *)
Lemma clipped_count cap window l i a :
  sorted l → l !! i = Some a → 0 <= cap →
  let n := Z.to_nat (cap * 2) in
  cap < Z.of_nat (near_count window a (take (i + n + 1 - (i - n)) (drop (i - n) l))) ↔
  cap < Z.of_nat (near_count window a l).
Proof.
  intros Hs Hi Hc n. set (m := (i + n + 1 - (i - n))%nat).
  assert (near_count window a l = (near_count window a (take (i - n) l) +
    (near_count window a (take m (drop (i - n) l)) + near_count window a (drop m (drop (i - n) l))))%nat) as E.
  { rewrite <- !near_count_app. by rewrite !take_drop. }
  pose proof (lookup_lt_Some _ _ _ Hi) as Hlen.
  split; [lia|]. intros Htot.
  assert (∀ t, near window a t = true → near window a a = true) as Haa by (unfold near; intros t; lia).
  destruct (decide (near_count window a (take (i - n) l) = 0%nat)) as [Hpre|Hpre].
  - destruct (decide (near_count window a (drop m (drop (i - n) l)) = 0%nat)) as [Hpost|Hpost]; [lia|].
    apply near_count_pos in Hpost as (t & Ht & Hnear). rewrite drop_drop in Ht.
    apply list_elem_of_lookup in Ht as [j Hj]. rewrite lookup_drop in Hj.
    assert (take m (drop (i - n) l) = take (i - (i - n)) (drop (i - n) l) ++ take (n + 1) (drop i l)) as Em.
    { rewrite <- (take_drop (i - (i - n)) (take m (drop (i - n) l))).
      rewrite take_take, skipn_firstn_comm, drop_drop. f_equal; f_equal; try lia. f_equal. lia. }
    rewrite Em, near_count_app. rewrite (near_count_all window a (take (n + 1) (drop i l))).
    + rewrite length_take, length_drop. pose proof (lookup_lt_Some _ _ _ Hj). lia.
    + intros y Hy. apply list_elem_of_lookup in Hy as [p Hp].
      pose proof (lookup_lt_Some _ _ _ Hp) as Hlp. rewrite length_take in Hlp.
      rewrite lookup_take_lt, lookup_drop in Hp by lia.
      refine (near_between l i (i + p) _ a a y t window Hs Hi Hp Hj _ (Haa _ Hnear) Hnear). lia.
  - apply near_count_pos in Hpre as (t & Ht & Hnear). apply list_elem_of_lookup in Ht as [j Hj].
    pose proof (lookup_lt_Some _ _ _ Hj) as Hlj. rewrite length_take in Hlj.
    rewrite lookup_take_lt in Hj by lia.
    rewrite <- (take_drop (n + 1) (take m (drop (i - n) l))), near_count_app, take_take.
    replace ((n + 1) `min` m)%nat with (n + 1)%nat by lia.
    rewrite (near_count_all window a (take (n + 1) (drop (i - n) l))).
    + rewrite length_take, length_drop. lia.
    + intros y Hy. apply list_elem_of_lookup in Hy as [p Hp].
      pose proof (lookup_lt_Some _ _ _ Hp) as Hlp. rewrite length_take in Hlp.
      rewrite lookup_take_lt, lookup_drop in Hp by lia.
      refine (near_between l j (i - n + p) i a t y a window Hs Hj Hp Hi _ Hnear (Haa _ Hnear)). lia.
Qed.

(** The touches of the audience of [tp] within a window of it, [tp] among them. *)
Definition crowd (window : Z) (tp : PlannedTouchpoint.t) (touchpoints : list PlannedTouchpoint.t) : nat :=
  length (List.filter (λ t, (PlannedTouchpoint.audience_id t ==b PlannedTouchpoint.audience_id tp) &&
    near window (PlannedTouchpoint.scheduled_at tp) (PlannedTouchpoint.scheduled_at t)) touchpoints).

Lemma imap_pair_snd {A} (l : list A) : (imap pair l).*2 = l.
Proof. rewrite fmap_imap. apply (list_eq_same_length _ _ _ eq_refl); [by rewrite length_imap|].
  intros i x y _ Hx Hy. rewrite list_lookup_imap in Hx. rewrite Hy in Hx. by injection Hx as <-. Qed.

Lemma bfilter_bfilter {A} (f g : A → bool) l : List.filter f (List.filter g l) = List.filter (λ x, g x && f x) l.
Proof.
  induction l as [|x l IH]; [done|]. simpl. destruct (g x); simpl; [|done]. by destruct (f x); rewrite IH.
Qed.

Lemma audience_count window a aud touchpoints :
  near_count window a ((λ kt : nat * PlannedTouchpoint.t, PlannedTouchpoint.scheduled_at kt.2) <$>
    audience_touches touchpoints aud) =
  length (List.filter (λ t, (PlannedTouchpoint.audience_id t ==b aud) &&
    near window a (PlannedTouchpoint.scheduled_at t)) touchpoints).
Proof.
  unfold near_count, audience_touches. rewrite bfilter_fmap, length_fmap.
  rewrite (Permutation_length (bfilter_Permutation _ _ _ (order_by_Permutation _ _))), bfilter_bfilter.
  rewrite <- (imap_pair_snd touchpoints) at 2. by rewrite bfilter_fmap, length_fmap.
Qed.

(** A touch is flagged exactly when it is crowded. Detection changes only the warnings, and
    touch by touch: one is flagged if and only if more than [cap] touches of its audience,
    itself among them, lie less than the window away from it on either side, although
    only [2 * cap] neighbours on either side are looked at. *)
Theorem frequency_warning_spec cap window touchpoints k tp :
  0 <= cap → touchpoints !! k = Some tp →
  ∃ w, detect_frequency_warnings cap window touchpoints !! k =
         Some (tp <| PlannedTouchpoint.frequency_warning := w |>) ∧
    (is_Some w ↔ cap < Z.of_nat (crowd window tp touchpoints)).
Proof.
  intros Hc Hk. exists (warning_for cap window touchpoints k tp). split.
  { unfold detect_frequency_warnings. by rewrite list_lookup_imap, Hk. }
  unfold warning_for, crowd. cbv zeta. rewrite <- audience_count.
  set (group := audience_touches _ _).
  set (times := (λ kt : nat * PlannedTouchpoint.t, PlannedTouchpoint.scheduled_at kt.2) <$> group).
  assert (∀ kt, kt ∈ group ↔ touchpoints !! kt.1 = Some kt.2 ∧
    PlannedTouchpoint.audience_id kt.2 = PlannedTouchpoint.audience_id tp) as Hg.
  { intros [j t]. unfold group, audience_touches. rewrite (order_by_Permutation _), elem_of_bfilter, bool_decide_eq_true.
    rewrite elem_of_lookup_imap. simpl. split.
    - intros [(i & y & [= -> ->] & Hy) Ha]. done.
    - intros [Hj Ha]. split; [|done]. by exists j, t. }
  destruct (list_find_elem_of (λ kt : nat * PlannedTouchpoint.t, kt.1 = k) group (k, tp)) as [[i [j t]] Hf];
    [by apply Hg|done|].
  rewrite Hf. apply list_find_Some in Hf as (Hi & Hj & _). simpl in Hj. subst j.
  assert ((k, t) ∈ group) as Hin by by eapply list_elem_of_lookup_2. apply Hg in Hin as [Ht _]. simpl in Ht.
  replace t with tp in * by congruence. clear Ht t. simpl.
  assert (sorted times) as Hs.
  { unfold times, group, audience_touches. eapply StronglySorted_fmap; [|apply order_by_sorted]. by intros x y. }
  assert (times !! i = Some (PlannedTouchpoint.scheduled_at tp)) as Hti.
  { unfold times. by rewrite list_lookup_fmap, Hi. }
  pose proof (clipped_count cap window times i _ Hs Hti Hc) as Hclip. cbv zeta in Hclip.
  unfold warning_at. rewrite <- Hclip. unfold near_count. change (near window ?a) with (λ t, Z.abs (t - a) <? window).
  destruct (Z.ltb_spec cap (Z.of_nat (length (List.filter (λ t, Z.abs (t - PlannedTouchpoint.scheduled_at tp) <? window)
    (take (i + Z.to_nat (cap * 2) + 1 - (i - Z.to_nat (cap * 2))) (drop (i - Z.to_nat (cap * 2)) times)))))).
  - split; [done|]. intros _. eauto.
  - split; [by intros [? ?]|lia].
Qed.

Definition touch (day_ : Z) : PlannedTouchpoint.t := {|
  PlannedTouchpoint.channel_platform := "email"; PlannedTouchpoint.audience_id := 7;
  PlannedTouchpoint.scheduled_at := combine_hour day_ 9; PlannedTouchpoint.position := 0;
  PlannedTouchpoint.human_override := false; PlannedTouchpoint.frequency_warning := None |}.

Lemma frequency_warning_spec_witness :
  touch <$> [0; 3; 6; 9; 12] !! 2%nat = Some (touch 6) ∧
  ∃ w, detect_frequency_warnings 3 (7 * day) (touch <$> [0; 3; 6; 9; 12]) !! 2%nat =
         Some (touch 6 <| PlannedTouchpoint.frequency_warning := w |>) ∧
    (is_Some w ↔ 3 < Z.of_nat (crowd (7 * day) (touch 6) (touch <$> [0; 3; 6; 9; 12]))).
Proof.
  split; [reflexivity|].
  exact (frequency_warning_spec 3 (7 * day) (touch <$> [0; 3; 6; 9; 12]) 2 (touch 6) ltac:(lia) eq_refl).
Defined.

(** Three touches a week, one every third day, are within a cap of three per week; still
    the middle one of five is flagged, because its neighbourhood is two windows wide. *)
Theorem frequency_warning_too_wide :
  (∀ from, from ∈ PlannedTouchpoint.scheduled_at ∘ touch <$> [0; 3; 6; 9; 12] →
     window_count from (7 * day) (PlannedTouchpoint.scheduled_at ∘ touch <$> [0; 3; 6; 9; 12]) <= 3) ∧
  (PlannedTouchpoint.frequency_warning <$>
     detect_frequency_warnings 3 (7 * day) (touch <$> [0; 3; 6; 9; 12]) !! 2%nat) =
  Some (Some (warning 3 (7 * day) 5)).
Proof.
  split; [|by vm_compute]. apply Forall_forall. apply (bool_decide_eq_true_1 _). by vm_compute.
Qed.
