(* ===== verification/StrategistPlanner.v ===== *)
(** * The strategist's planner: src/app/agents/_strategist_planner.py

    The validator of a proposed plan, which is the planner's contract, and the retry loop
    around the model. The model's answer is a parameter: it may depend on the attempt and
    on all the prompt is built from, the context and the violations of the attempt before.
    [json.loads] is a parameter too. *)

From S2P Require Export Db PyDecimal.
Local Open Scope Z_scope.

(** [app/agents/_strategist_planner.py] lines 23-23, [_MAX_RETRIES]. *)
Definition MAX_RETRIES : nat := 2.
Definition ALLOCATION_PCT_TOLERANCE : pydec := DFin false 10 (-1).
Definition BUDGET_PER_CHANNEL_TOLERANCE : pydec := DFin false 50 (-2).

(** [app/agents/_strategist_planner.py] lines 32-37, [ChannelInfo]. *)
Record ChannelInfo := mkinfo { info_platform : string; info_name : string }.

(** [app/agents/_strategist_planner.py] lines 40-50, [HumanOverride]. *)
Record HumanOverride := mkoverride {
  ov_platform : string; ov_allocation_pct : pydec; ov_allocation_amount : pydec }.

(** [app/agents/_strategist_planner.py] lines 53-70, [StrategyContext]. *)
Module StrategyContext.
Record t := {
  campaign_name : string;
  campaign_type : string;
  objective : string;
  brief : option string;
  budget_total : pydec;
  currency : string;
  start_date : string;
  end_date : string;
  audience_size : Z;
  audience_summary : string;
  available_channels : list ChannelInfo;
  forbidden_platforms : list string;
  hard_caps : list jdict;
  human_overrides : list HumanOverride;
}.
End StrategyContext.

(** [app/agents/_strategist_planner.py] lines 73-77, [PlannerResult]. *)
Record PlannerResult := {
  plan_payload : jdict; plan_warnings : list jdict; plan_attempts : Z }.

(** [app/agents/_strategist_planner.py] lines 129-132, [StrategistPlanner._allowed_platforms]. *)
Definition _allowed_platforms (ctx : StrategyContext.t) : list string :=
  let forbidden := str_lower <$> StrategyContext.forbidden_platforms ctx in
  List.filter (λ p, negb (p ∈b forbidden)) (str_lower ∘ info_platform <$> StrategyContext.available_channels ctx).

(** ** Validation *)

Definition violation (kind detail : string) : jdict := [("kind", JStr kind); ("detail", JStr detail)].

Definition channel_at (i : nat) : string := "channels[" +:+ str_of_Z (Z.of_nat i) +:+ "]".

(** [Decimal(str(d.get(k)))]; [None] is the error the code catches. *)
Definition get_decimal (k : string) (d : jdict) : option pydec :=
  dec_parse (json_str (default JNull (dget k d))).

(** [str(d.get(k, "")).strip()] is empty. *)
Definition blank (k : string) (d : jdict) : bool :=
  str_empty (str_strip (json_str (default (JStr "") (dget k d)))).

Definition platform_of (ch : jdict) : string :=
  str_lower (json_str (default (JStr "") (dget "platform" ch))).

(** What one pass over the channels carries: the violations, the platforms seen and the sums. *)
Record scan := mkscan {
  violations : list jdict; seen_platforms : list string; total_pct : pydec; total_amount : pydec }.

Definition report (v : jdict) (a : scan) : scan :=
  mkscan (violations a ++ [v]) (seen_platforms a) (total_pct a) (total_amount a).

Definition report_if (b : bool) (v : jdict) (a : scan) : scan := if b then report v a else a.

(** A decimal expression whose error is not caught. *)
Definition need {A} (o : option A) : exn + A :=
  match o with Some a => inr a | None => inl InvalidOperation end.

Definition sbind {A B} (m : exn + A) (f : A → exn + B) : exn + B :=
  match m with inl x => inl x | inr a => f a end.
Notation "x <- m ;; k" := (sbind m (λ x, k)) (at level 60, m at level 50, right associativity) : py_scope.

(** The checks on the numbers of an admissible channel. *)
Definition scan_amounts (ctx : StrategyContext.t) (i : nat) (ch : jdict) (pct amount : pydec) (a : scan)
    : exn + scan :=
  neg_pct <- need (dec_ltb pct (dec_of_Z 0)) ;;
  over_pct <- (if neg_pct : bool then inr true else need (dec_gt pct (dec_of_Z 100))) ;;
  let a := report_if over_pct (violation "out_of_range"
    (channel_at i +:+ ".allocation_pct=" +:+ dec_str pct +:+ " outside 0..100")) a in
  neg_amount <- need (dec_ltb amount (dec_of_Z 0)) ;;
  let a := report_if neg_amount (violation "out_of_range"
    (channel_at i +:+ ".allocation_amount=" +:+ dec_str amount +:+ " negative")) a in
  expected_amount <- need (dec_mul (StrategyContext.budget_total ctx) pct ≫= λ x, dec_div x (dec_of_Z 100)
    ≫= dec_quantize_by ROUND_HALF_UP 2) ;;
  off <- need (dec_sub amount expected_amount ≫= λ x, dec_gt (dec_abs x) BUDGET_PER_CHANNEL_TOLERANCE) ;;
  let a := report_if off (violation "amount_mismatch"
    (channel_at i +:+ ".allocation_amount=" +:+ dec_str amount +:+ " does not match "
     +:+ "pct*budget_total=" +:+ dec_str expected_amount)) a in
  let a := report_if (blank "rationale" ch) (violation "missing_rationale"
    (channel_at i +:+ ".rationale is empty")) a in
  pct_sum <- need (dec_add (total_pct a) pct) ;;
  amount_sum <- need (dec_add (total_amount a) amount) ;;
  inr (mkscan (violations a) (seen_platforms a) pct_sum amount_sum).

(** One channel of the plan. *)
Definition scan_channel (ctx : StrategyContext.t) (allowed : list string) (i : nat) (ch : json) (a : scan)
    : exn + scan :=
  match ch with
  | JObj ch =>
      let platform := platform_of ch in
      let quoted := channel_at i +:+ ".platform '" +:+ platform +:+ "'" in
      if str_empty platform then
        inr (report (violation "shape" (channel_at i +:+ ".platform is required")) a)
      else if platform ∈b (str_lower <$> StrategyContext.forbidden_platforms ctx) then
        inr (report (violation "forbidden_channel" (quoted +:+ " is forbidden")) a)
      else if negb (platform ∈b allowed) then
        inr (report (violation "unknown_channel" (quoted +:+ " is not an active channel for this tenant")) a)
      else if platform ∈b seen_platforms a then
        inr (report (violation "duplicate_channel" (quoted +:+ " is listed twice")) a)
      else
        let a := mkscan (violations a) (platform :: seen_platforms a) (total_pct a) (total_amount a) in
        match get_decimal "allocation_pct" ch, get_decimal "allocation_amount" ch with
        | Some pct, Some amount => scan_amounts ctx i ch pct amount a
        | _, _ => inr (report (violation "shape"
            (channel_at i +:+ " allocation_pct/amount must be numeric")) a)
        end
  | _ => inr (report (violation "shape" (channel_at i +:+ " must be an object")) a)
  end.

Fixpoint scan_channels (ctx : StrategyContext.t) (allowed : list string) (i : nat) (l : list json) (a : scan)
    : exn + scan :=
  match l with
  | [] => inr a
  | ch :: l => a <- scan_channel ctx allowed i ch a ;; scan_channels ctx allowed (S i) l a
  end.

(** The first channel of a platform. *)
Definition find_channel (platform : string) (channels : list json) : option jdict :=
  head (List.filter (λ ch, platform_of ch ==b platform) (omap (λ ch, as_obj (Some ch)) channels)).

(** The violations of one human override. *)
Definition check_override (channels : list json) (ov : HumanOverride) : exn + list jdict :=
  let target_platform := str_lower (ov_platform ov) in
  match find_channel target_platform channels with
  | None => inr [violation "missing_override" ("human override for '" +:+ target_platform
                   +:+ "' was dropped - must appear in the plan")]
  | Some ch =>
      match get_decimal "allocation_pct" ch with
      | None => inr []
      | Some proposed_pct =>
          drift <- need (dec_sub proposed_pct (ov_allocation_pct ov) ≫= λ x,
                     dec_gt (dec_abs x) ALLOCATION_PCT_TOLERANCE) ;;
          inr ((if drift : bool then [violation "override_drift"
                  ("override '" +:+ target_platform +:+ "' allocation_pct=" +:+ dec_str proposed_pct
                   +:+ " differs from required " +:+ dec_str (ov_allocation_pct ov))] else []) ++
               (if opt_truthy (dget "human_override" ch) then [] else
                  [violation "override_unflagged" ("channel '" +:+ target_platform
                     +:+ "' is an override but human_override flag is not true")]))
      end
  end.

Fixpoint check_overrides (channels : list json) (ovs : list HumanOverride) : exn + list jdict :=
  match ovs with
  | [] => inr []
  | ov :: ovs => v <- check_override channels ov ;; vs <- check_overrides channels ovs ;; inr (v ++ vs)
  end.

(** The violations of the KPI block. *)
Definition check_kpis (payload : jdict) : list jdict :=
  match dget "kpis" payload with
  | Some (JObj kpis) =>
      match dget "primary" kpis with
      | Some (JObj primary) =>
          (if blank "metric" primary then [violation "shape" "kpis.primary.metric is required"] else []) ++
          (match dget "target" primary with
           | None | Some JNull => [violation "shape" "kpis.primary.target is required"]
           | _ => []
           end) ++
          (if blank "rationale" primary then
             [violation "missing_rationale" "kpis.primary.rationale is empty"] else [])
      | _ => [violation "shape" "kpis.primary must be an object"]
      end
  | _ => [violation "shape" "kpis must be an object"]
  end.

Definition start_scan : scan := mkscan [] [] (dec_of_Z 0) (dec_of_Z 0).

(** [app/agents/_strategist_planner.py] lines 257-449, [StrategistPlanner._validate]. *)
Definition _validate (payload : jdict) (ctx : StrategyContext.t) (allowed : list string)
    : exn + list jdict :=
  match dget "channels" payload with
  | Some (JList ((_ :: _) as channels)) =>
      a <- scan_channels ctx allowed 0 channels start_scan ;;
      off <- need (dec_sub (total_pct a) (dec_of_Z 100) ≫= λ x,
               dec_gt (dec_abs x) ALLOCATION_PCT_TOLERANCE) ;;
      overrides <- check_overrides channels (StrategyContext.human_overrides ctx) ;;
      inr (violations a ++
           (if off : bool then [violation "allocation_sum"
              ("allocation_pct sum is " +:+ dec_str (total_pct a) +:+ ", must be 100 (+-1)")] else []) ++
           overrides ++ check_kpis payload)
  | _ => inr [violation "shape" "channels must be a non-empty list"]
  end.

(** ** The model *)

Definition fence : string := "```".

(** [s.endswith(p)]. *)
Definition ends_with (p s : string) : bool :=
  String.substring (String.length s - String.length p) (String.length p) s ==b p.

(** The text inside a code fence, or the whole text. *)
Definition strip_fence (text : string) : string :=
  if String.prefix fence text && bool_decide (6 <= String.length text)%nat && ends_with fence text then
    let body := String.substring 3 (String.length text - 6) text in
    let body := if String.prefix "json" body
                then String.substring 4 (String.length body) body else body in
    str_strip body
  else text.

Section planner.
Context (loads : string → option json).
Context (call_model : nat → StrategyContext.t → list jdict → exn + string).

(** [app/agents/_strategist_planner.py] lines 243-255, [StrategistPlanner._parse_response]. *)
Definition _parse_response (raw : string) : exn + jdict :=
  match loads (strip_fence (str_strip raw)) with
  | None => inl (StrategistError "model output was not valid JSON")
  | Some (JObj obj) => inr obj
  | Some _ => inl (StrategistError "model output was not a JSON object")
  end.

(** The attempts that are left, the best one so far, and the violations of the last. *)
Fixpoint attempt_plans (ctx : StrategyContext.t) (allowed : list string) (fuel made : nat)
    (best : option (jdict * list jdict)) (last_violations : list jdict) : exn + PlannerResult :=
  match fuel with
  | O => match best with
         | Some (payload, vs) =>
             inr {| plan_payload := payload; plan_warnings := vs; plan_attempts := Z.of_nat made |}
         | None => inl (AssertionError "")
         end
  | S fuel =>
      raw <- call_model made ctx last_violations ;;
      payload <- _parse_response raw ;;
      vs <- _validate payload ctx allowed ;;
      match vs with
      | [] => inr {| plan_payload := payload; plan_warnings := [];
                     plan_attempts := Z.of_nat (S made) |}
      | _ =>
          let best := match best with
                      | Some (p, b) => if bool_decide (length vs < length b)%nat
                                       then Some (payload, vs) else Some (p, b)
                      | None => Some (payload, vs)
                      end in
          attempt_plans ctx allowed fuel (S made) best vs
      end
  end.

(** [app/agents/_strategist_planner.py] lines 85-127, [StrategistPlanner.propose]. *)
Definition plan (ctx : StrategyContext.t) : exn + PlannerResult :=
  match StrategyContext.available_channels ctx with
  | [] => inl (StrategistError "no active channels configured for this tenant")
  | _ =>
      poor <- need (dec_leb (StrategyContext.budget_total ctx) (dec_of_Z 0)) ;;
      if poor : bool then inl (StrategistError "campaign budget_total must be positive")
      else
        let allowed := _allowed_platforms ctx in
        if allowed ==b [] then
          inl (StrategistError "every configured channel is forbidden by tenant constraints")
        else attempt_plans ctx allowed (S MAX_RETRIES) 0 None []
  end.
End planner.
