(* ===== verification/Copywriting.v ===== *)
(** * The copywriting tool: src/app/tools/copywriting.py

    A prompt for the channel, a model's answer, the required fields and the length
    budgets; an answer over budget is asked for again, at most twice. The provider is
    [call_model] (the number of calls already made, the prompt, whether a seed pins the
    temperature) and [json.loads] is [loads]: parameters. *)

From S2P Require Export StrategistPlanner.
From S2P Require Import Db PyStd.
Local Open Scope Z_scope.

(** [app/tools/copywriting.py] lines 34-49, [_DEFAULT_LENGTH_CONSTRAINTS]. *)
Definition _DEFAULT_LENGTH_CONSTRAINTS : list (string * jdict) := [
  ("email", [("subject", JInt 78); ("preheader", JInt 110); ("body", JInt 1500); ("cta", JInt 40)]);
  ("linkedin", [("headline", JInt 150); ("body", JInt 1300); ("cta", JInt 40)]);
  ("x", [("body", JInt 280)]);
  ("twitter", [("body", JInt 280)]);
  ("ad_creative", [("headline", JInt 40); ("body", JInt 90); ("cta", JInt 30); ("primary_text", JInt 125)]);
  ("social_post", [("body", JInt 600); ("cta", JInt 40)]);
  ("sms", [("body", JInt 160)]);
  ("blog_post", [("title", JInt 70); ("meta_description", JInt 160); ("body", JInt 6000); ("cta", JInt 60)]);
  ("landing_page_copy", [("headline", JInt 90); ("body", JInt 2000); ("cta", JInt 60)])].

(** [app/tools/copywriting.py] lines 53-63, [_REQUIRED_FIELDS]. *)
Definition _REQUIRED_FIELDS : list (string * list string) := [
  ("email", ["subject"; "preheader"; "body"; "cta"]);
  ("linkedin", ["headline"; "body"; "cta"]);
  ("x", ["body"]);
  ("twitter", ["body"]);
  ("ad_creative", ["headline"; "body"; "primary_text"]);
  ("social_post", ["body"]);
  ("sms", ["body"]);
  ("blog_post", ["title"; "meta_description"; "body"]);
  ("landing_page_copy", ["headline"; "body"; "cta"])].

(** [app/tools/copywriting.py] lines 65-65, [_MAX_RETRIES]. *)
Definition _MAX_RETRIES : nat := 2.

(** [app/tools/copywriting.py] lines 72-76, [_Attempt]. *)
Record attempt := mkattempt {
  att_fields : list (string * string);
  att_metrics : list (string * Z);
  att_over : list (string * Z) }.

(** A budget: a positive integer ([True] is one). *)
Definition budget (v : json) : option Z :=
  match v with
  | JInt n => if 0 <? n then Some n else None
  | JBool true => Some 1
  | _ => None
  end.

(** [app/tools/copywriting.py] lines 167-176, [CopywritingTool._resolve_constraints]. *)
Definition _resolve_constraints (channel : string) (caller_supplied : option json) : jdict :=
  let defaults := default [] (dget channel _DEFAULT_LENGTH_CONSTRAINTS) in
  match caller_supplied with
  | Some (JObj supplied) =>
      fold_left (λ d (kv : string * json), match budget kv.2 with Some _ => dset kv.1 kv.2 d | None => d end)
        supplied defaults
  | _ => defaults
  end.

Definition blank_line : string := newline +:+ newline.

(** [app/tools/copywriting.py] lines 178-216, [CopywritingTool._build_prompt]. *)
Definition _build_prompt (channel asset_type brief : string) (voice audience_summary : option json)
    (constraints : jdict) (seed : option json) (tightening : option (list (string * Z))) : string :=
  let required := default [] (dget channel _REQUIRED_FIELDS) in
  let budget_lines := str_join newline ((λ kv : string * json,
    "  - " +:+ kv.1 +:+ ": <= " +:+ json_str kv.2 +:+ " characters") <$> constraints) in
  let mention label (v : option json) :=
    match v with Some v => if truthy v then [label +:+ json_str v] else [] | None => [] end in
  str_join blank_line (
    ["You are writing " +:+ asset_type +:+ " copy for the " +:+ channel +:+ " channel.";
     "Brief:" +:+ newline +:+ brief] ++
    mention "Brand voice: " voice ++
    mention "Audience: " audience_summary ++
    match seed with
    | None | Some JNull => []
    | Some s => ["Determinism seed (do not echo): " +:+ json_str s]
    end ++
    ["Required output fields: " +:+ str_join ", " required;
     "Length budgets:" +:+ newline +:+ budget_lines] ++
    match tightening with
    | None | Some [] => []
    | Some over => ["Your previous attempt exceeded the budget on: " +:+
        str_join ", " ((λ kv : string * Z, kv.1 +:+ " by " +:+ str_of_Z kv.2 +:+ " chars") <$> over) +:+
        ". Tighten those fields this time."]
    end ++
    ["Respond with a SINGLE JSON object containing exactly the required " +:+
     "fields above (string values only). No prose, no markdown, no code fences."]).

(** [app/tools/copywriting.py] lines 258-266, [CopywritingTool._measure]. *)
Definition _measure (fields : list (string * string)) (constraints : jdict) : attempt :=
  let metrics := (λ kv : string * string, (kv.1, Z.of_nat (String.length kv.2))) <$> fields in
  {| att_fields := fields;
     att_metrics := metrics;
     att_over := omap (λ kv : string * json,
       n ← dget kv.1 metrics;
       max ← budget kv.2;
       if max <? n then Some (kv.1, n - max) else None) constraints |}.

Definition total_over (a : attempt) : Z := foldr Z.add 0 (snd <$> att_over a).

Section tool.
Context (loads : string → string + json).
Context (call_model : nat → string → bool → exn + string).

Definition string_field (kv : string * json) : option (string * string) :=
  match kv.2 with JStr s => Some (kv.1, s) | _ => None end.

(** [app/tools/copywriting.py] lines 233-256, [CopywritingTool._parse_response]. *)
Definition _parse_response (raw channel : string) : exn + list (string * string) :=
  match loads (strip_fence (str_strip raw)) with
  | inl msg => inl (CopywritingError ("model output was not valid JSON: " +:+ msg))
  | inr (JObj obj) =>
      let fields := omap string_field obj in
      let missing := List.filter (λ f, str_empty (default "" (dget f fields)))
                       (default [] (dget channel _REQUIRED_FIELDS)) in
      if missing ==b [] then inr fields
      else inl (CopywritingError ("model output missing required field(s) for " +:+ channel +:+ ": "
             +:+ json_repr (JList (JStr <$> missing))))
  | inr _ => inl (CopywritingError "model output was not a JSON object")
  end.

(** The attempts that are left; [best] is the one with the smallest overrun so far. *)
Fixpoint attempt_copy (prompt : option (list (string * Z)) → string) (seeded : bool) (channel : string)
    (constraints : jdict) (fuel made : nat) (best : option attempt) : exn + attempt :=
  match fuel with
  | O => match best with Some b => inr b | None => inl (AssertionError "") end
  | S fuel =>
      match call_model made (prompt (att_over <$> best)) seeded with
      | inl x => inl x
      | inr raw =>
          match _parse_response raw channel with
          | inl x => inl x
          | inr fields =>
              let a := _measure fields constraints in
              if att_over a ==b [] then inr a
              else
                let best := match best with
                            | Some b => if total_over a <? total_over b then a else b
                            | None => a
                            end in
                attempt_copy prompt seeded channel constraints fuel (S made) (Some best)
          end
      end
  end.

Definition j_counts (l : list (string * Z)) : json := JObj ((λ kv : string * Z, (kv.1, JInt kv.2)) <$> l).

(** The output of the tool for an attempt. *)
Definition copy_result (best : attempt) : jdict :=
  let result := dset "length_metrics" (j_counts (att_metrics best))
                  ((λ kv : string * string, (kv.1, JStr kv.2)) <$> att_fields best) in
  if att_over best ==b [] then result else dset "length_warning" (j_counts (att_over best)) result.

(** [app/tools/copywriting.py] lines 127-165, [CopywritingTool.call]. *)
Definition copywrite (inputs : jdict) : exn + jdict :=
  let text k := json_str (default (JStr "") (dget k inputs)) in
  let channel := str_lower (text "channel") in
  match dget channel _REQUIRED_FIELDS with
  | None => inl (CopywritingError ("unsupported channel '" +:+ channel +:+ "'"))
  | Some _ =>
      let constraints := _resolve_constraints channel (dget "length_constraints" inputs) in
      let seed := dget "seed" inputs in
      let seeded := match seed with None | Some JNull => false | Some _ => true end in
      let prompt := _build_prompt channel (text "asset_type") (text "brief") (dget "voice" inputs)
                      (dget "audience_summary" inputs) constraints seed in
      match attempt_copy prompt seeded channel constraints (S _MAX_RETRIES) 0 None with
      | inl x => inl x
      | inr best => inr (copy_result best)
      end
  end.
End tool.

(** ** What a result satisfies *)

Lemma dget_fmap {V W} (f : V → W) k (d : list (string * V)) :
  dget k ((λ kv : string * V, (kv.1, f kv.2)) <$> d) = f <$> dget k d.
Proof. induction d as [|[k' v] d IH]; [done|]. cbn. by case_bool_decide. Qed.

Section result.
Context (loads : string → string + json).

(** The kept attempt measures an answer that had the required fields. *)
Definition answered (channel : string) (constraints : jdict) (a : attempt) : Prop :=
  ∃ raw fields, _parse_response loads raw channel = inr fields ∧ a = _measure fields constraints.

Lemma attempt_copy_answered call_model prompt seeded channel constraints fuel made best a :
  (∀ b, best = Some b → answered channel constraints b) →
  attempt_copy loads call_model prompt seeded channel constraints fuel made best = inr a →
  answered channel constraints a.
Proof.
  revert made best. induction fuel as [|fuel IH]; intros made best Hbest; cbn [attempt_copy].
  { destruct best as [b|]; [|done]. intros [= <-]. by apply Hbest. }
  destruct (call_model _ _ _) as [|raw]; [done|].
  destruct (_parse_response loads raw channel) as [|fields] eqn:Hf; [done|]. cbv zeta.
  assert (answered channel constraints (_measure fields constraints)) as Hnew by by exists raw, fields.
  destruct (_ ==b _); [by intros [= <-]|]. apply IH. intros b.
  destruct best as [b'|]; [|by intros [= <-]]. destruct (_ <? _); intros [= <-]; auto.
Qed.

Lemma attempt_copy_calls cm cm' prompt seeded channel constraints fuel made best :
  (∀ i p b, (i < made + fuel)%nat → cm' i p b = cm i p b) →
  attempt_copy loads cm' prompt seeded channel constraints fuel made best =
  attempt_copy loads cm prompt seeded channel constraints fuel made best.
Proof.
  revert made best. induction fuel as [|fuel IH]; intros made best Hcm; [done|]. cbn [attempt_copy].
  rewrite Hcm by lia. destruct (cm _ _ _) as [|raw]; [done|]. destruct (_parse_response _ _ _); [done|].
  cbv zeta. destruct (_ ==b _); [done|]. apply IH. intros i p b Hi. apply Hcm. lia.
Qed.

Lemma parse_required raw channel fields fs f :
  _parse_response loads raw channel = inr fields → dget channel _REQUIRED_FIELDS = Some fs → f ∈ fs →
  ∃ s, dget f fields = Some s ∧ s ≠ "".
Proof.
  intros Hp Hfs Hf. unfold _parse_response in Hp. rewrite Hfs in Hp.
  destruct (loads _) as [|[| | | | | |obj]]; try done. cbv zeta in Hp. cbn [from_option default id] in Hp.
  destruct (_ ==b _) eqn:Hm in Hp; [|done]. injection Hp as <-. apply bool_decide_eq_true_1 in Hm.
  rewrite bfilter_nil_iff in Hm. specialize (Hm f Hf). cbv beta in Hm.
  destruct (dget f _) as [s|]; [|done]. exists s. split; [done|]. by intros ->.
Qed.

Lemma measure_within fields constraints k v n s :
  att_over (_measure fields constraints) = [] → (k, v) ∈ constraints → budget v = Some n →
  dget k fields = Some s → Z.of_nat (String.length s) <= n.
Proof.
  intros Ho Hk Hn Hs. destruct (decide (Z.of_nat (String.length s) <= n)) as [|Hgt]; [done|exfalso].
  assert ((k, Z.of_nat (String.length s) - n) ∈ att_over (_measure fields constraints)) as Hin.
  { cbn. apply list_elem_of_omap. exists (k, v). split; [done|]. cbn.
    rewrite (dget_fmap (λ s, Z.of_nat (String.length s))), Hs. cbn. rewrite Hn. cbn.
    by rewrite (proj2 (Z.ltb_lt _ _)) by lia. }
  rewrite Ho in Hin. by apply elem_of_nil in Hin.
Qed.

(** A field of the result that is text is one of the answer's. *)
Lemma result_field a k s :
  dget k (copy_result a) = Some (JStr s) → dget k (att_fields a) = Some s.
Proof.
  unfold copy_result. cbv zeta. intros H.
  assert (dget k (dset "length_metrics" (j_counts (att_metrics a))
            ((λ kv : string * string, (kv.1, JStr kv.2)) <$> att_fields a)) = Some (JStr s)) as H1.
  { destruct (att_over a ==b []); [done|]. destruct (decide (k = "length_warning")) as [->|Hne].
    - by rewrite dget_dset_eq in H.
    - by rewrite dget_dset_ne in H. }
  destruct (decide (k = "length_metrics")) as [->|Hne]; [by rewrite dget_dset_eq in H1|].
  rewrite dget_dset_ne, (dget_fmap JStr) in H1 by done. revert H1. destruct (dget k (att_fields a)); cbn; congruence.
Qed.

Lemma field_result a k s :
  k ≠ "length_metrics" → k ≠ "length_warning" → dget k (att_fields a) = Some s →
  dget k (copy_result a) = Some (JStr s).
Proof.
  intros H1 H2 Hs. unfold copy_result. cbv zeta.
  destruct (_ ==b _); rewrite ?(dget_dset_ne k "length_warning") by done;
    rewrite dget_dset_ne by done; by rewrite (dget_fmap JStr), Hs.
Qed.

Lemma required_names channel fs f :
  dget channel _REQUIRED_FIELDS = Some fs → f ∈ fs → f ≠ "length_metrics" ∧ f ≠ "length_warning".
Proof.
  intros Hfs Hf.
  assert (Forall (λ e : string * list string, Forall (λ f, f ≠ "length_metrics" ∧ f ≠ "length_warning") e.2)
    _REQUIRED_FIELDS) as H by (apply (bool_decide_eq_true_1 _); by vm_compute).
  revert Hfs H. induction _REQUIRED_FIELDS as [|[k v] d IH]; [done|]. cbn.
  intros Hfs [Hv Hd]%Forall_cons. destruct (_ ==b _); [|by apply IH]. injection Hfs as ->.
  rewrite Forall_forall in Hv. by apply Hv.
Qed.
End result.

(** What the copywriting tool returns, whatever the model answers. Every field the channel
    requires is there and not empty. Without a length warning every text of the result that
    has a budget is within it. And the model is asked three times at most: the result is
    decided by its first three answers. *)
Theorem copywrite_spec loads call_model inputs out :
  copywrite loads call_model inputs = inr out →
  let channel := str_lower (json_str (default (JStr "") (dget "channel" inputs))) in
  (∃ fs, dget channel _REQUIRED_FIELDS = Some fs ∧
     ∀ f, f ∈ fs → ∃ s, dget f out = Some (JStr s) ∧ s ≠ "") ∧
  (dget "length_warning" out = None →
     ∀ k v n s, (k, v) ∈ _resolve_constraints channel (dget "length_constraints" inputs) →
       budget v = Some n → dget k out = Some (JStr s) → Z.of_nat (String.length s) <= n) ∧
  (∀ call_model', (∀ i p b, (i < 3)%nat → call_model' i p b = call_model i p b) →
     copywrite loads call_model' inputs = inr out).
Proof.
  intros Hrun channel. unfold copywrite in *. cbv zeta in *. fold channel in Hrun |- *.
  destruct (dget channel _REQUIRED_FIELDS) as [fs|] eqn:Hfs; [|done].
  destruct (attempt_copy _ _ _ _ _ _ _ _ _) as [|a] eqn:Ha in Hrun; [done|]. injection Hrun as <-.
  pose proof Ha as (raw & fields & Hp & ->)%attempt_copy_answered; [|done]. split_and!.
  - exists fs. split; [done|]. intros f Hf. destruct (parse_required _ _ _ _ _ _ Hp Hfs Hf) as (s & Hs & Hne).
    exists s. split; [|done]. destruct (required_names _ _ _ Hfs Hf). by apply field_result.
  - intros Hw k v n s Hk Hn Hs. apply result_field in Hs. eapply measure_within; try done.
    unfold copy_result in Hw. cbv zeta in Hw.
    destruct (_ ==b _) eqn:E in Hw; [by apply bool_decide_eq_true_1 in E|by rewrite dget_dset_eq in Hw].
  - intros cm' Hcm. rewrite (attempt_copy_calls loads call_model) by (intros; by apply Hcm). by rewrite Ha.
Qed.

Lemma copywrite_spec_witness :
  let model := λ i _ _, inr (if (i =? 0)%nat then "long" else "short") : exn + string in
  let loads := λ s, inr (JObj [("body", JStr (if s ==b "long" then str_join " " (repeat "word" 60) else "short"))]) in
  let inputs := [("channel", JStr "X"); ("brief", JStr "b")] in
  ∃ out s, copywrite loads model inputs = inr out ∧ dget "body" out = Some (JStr s) ∧
    Z.of_nat (String.length s) <= 280.
Proof.
  intros model loads inputs. destruct (copywrite loads model inputs) as [x|out] eqn:Hrun; [by vm_compute in Hrun|].
  destruct (copywrite_spec loads model inputs out Hrun) as (_ & Hw & _).
  assert (Ho : out = [("body", JStr "short"); ("length_metrics", JObj [("body", JInt 5)])])
    by (vm_compute in Hrun; by injection Hrun as <-).
  exists out, "short". split; [done|]. split; [by rewrite Ho|].
  apply (Hw ltac:(by rewrite Ho) "body" (JInt 280)); [by vm_compute; left|done|by rewrite Ho].
Defined.
