(* ===== verification/Seo.v ===== *)
(** * The SEO tool: src/app/tools/seo.py

    A rule-based score of a draft against target keywords: density of each keyword, the
    title, the meta description and the length of the body. *)

From S2P Require Export Regex Db.
From S2P Require Export PyDecimal.
Local Open Scope Z_scope.

(** [app/tools/seo.py] lines 28-28, [_MIN_WORDS_FOR_SCORE]. *)
Definition _MIN_WORDS_FOR_SCORE : Z := 50.
(** [app/tools/seo.py] lines 29-29, [_RECOMMENDED_MIN_BODY_WORDS]. *)
Definition _RECOMMENDED_MIN_BODY_WORDS : Z := 300.
(** [app/tools/seo.py] lines 31-31, [_TITLE_MIN_CHARS]. *)
Definition _TITLE_MIN_CHARS : Z := 30.
(** [app/tools/seo.py] lines 32-32, [_TITLE_MAX_CHARS]. *)
Definition _TITLE_MAX_CHARS : Z := 60.
(** [app/tools/seo.py] lines 34-34, [_META_MIN_CHARS]. *)
Definition _META_MIN_CHARS : Z := 120.
(** [app/tools/seo.py] lines 35-35, [_META_MAX_CHARS]. *)
Definition _META_MAX_CHARS : Z := 160.
(** [app/tools/seo.py] lines 36-36, [_META_TRUNCATE_CHARS]. *)
Definition _META_TRUNCATE_CHARS : nat := 155.
(** [app/tools/seo.py] lines 38-38, [_DENSITY_FLOOR_PCT]. *)
Definition _DENSITY_FLOOR_PCT : dec := Dec 3 (-1).
(** [app/tools/seo.py] lines 39-39, [_DENSITY_CEILING_PCT]. *)
Definition _DENSITY_CEILING_PCT : dec := Dec 3 0.
(** [app/tools/seo.py] lines 41-47 in [_PENALTY_MISSING_KEYWORD]. *)
Definition penalty_missing : Z := 15.
Definition penalty_stuffing : Z := 10.
Definition penalty_sparse : Z := 5.
Definition penalty_title_length : Z := 10.
Definition penalty_title_no_keyword : Z := 10.
Definition penalty_body_short : Z := 10.
Definition penalty_meta_length : Z := 5.

(** ** The title *)

(** [app/tools/seo.py] lines 56-79, [_TitleAssessment]. *)
Record TitleAssessment := {
  title_text : string;
  title_length : Z;
  in_range : bool;
  matched_keywords : list string;
}.
Definition contains_keyword (t : TitleAssessment) : bool := negb (matched_keywords t ==b []).

(** [app/tools/seo.py] lines 64-79, [_TitleAssessment.as_dict]. *)
Definition title_as_dict (t : TitleAssessment) : jdict :=
  let issues :=
    (if title_length t <? _TITLE_MIN_CHARS then ["title_too_short"]
     else if _TITLE_MAX_CHARS <? title_length t then ["title_too_long"] else []) ++
    (if contains_keyword t then [] else ["title_missing_target_keyword"]) in
  [("text", JStr (title_text t)); ("length", JInt (title_length t)); ("in_range", JBool (in_range t));
   ("contains_keyword", JBool (contains_keyword t));
   ("matched_keywords", JList (JStr <$> matched_keywords t)); ("issues", JList (JStr <$> issues))].

(** [app/tools/seo.py] lines 214-226, [SeoAnalysisTool._assess_title]. *)
Definition _assess_title (title : string) (keywords : list string) : TitleAssessment :=
  let length := Z.of_nat (String.length title) in
  {| title_text := title;
     title_length := length;
     in_range := (_TITLE_MIN_CHARS <=? length) && (length <=? _TITLE_MAX_CHARS);
     matched_keywords := List.filter (λ k, contains (str_lower k) (str_lower title)) keywords |}.

(** [re.sub(r"^#+\s*", "", line)] *)
Definition strip_heading (line : string) : string :=
  let rest := str_lstrip (λ c, c ==b "#"%char) line in
  if rest ==b line then line else str_lstrip is_space rest.

Definition text_of (v : option json) : option string :=
  match v with Some (JStr s) => if str_empty (str_strip s) then None else Some (str_strip s) | _ => None end.

(** The first line with text, and the lines after it. *)
Fixpoint peel_title (lines : list string) : option (string * list string) :=
  match lines with
  | [] => None
  | l :: lines => if str_empty (str_strip l) then peel_title lines else Some (l, lines)
  end.

(** [app/tools/seo.py] lines 181-195, [SeoAnalysisTool._split_title]. *)
Definition _split_title (draft : string) (supplied_title : option json) : string * string :=
  match text_of supplied_title with
  | Some _ => (draft, "")
  | None =>
      match peel_title (splitlines draft) with
      | Some (line, rest) => (str_join newline rest, str_take 200 (strip_heading (str_strip line)))
      | None => (draft, "")
      end
  end.

(** ** Keywords *)

(** [haystack[i:i+len(needle)] == needle] at the head. *)
Fixpoint list_prefix (needle haystack : list string) : bool :=
  match needle, haystack with
  | [], _ => true
  | x :: needle, y :: haystack => (x ==b y) && list_prefix needle haystack
  | _ :: _, [] => false
  end.

(** Occurrences from the left, none overlapping another; [skip] words belong to the last. *)
Fixpoint count_from (needle : list string) (skip : nat) (haystack : list string) : Z :=
  match haystack with
  | [] => 0
  | _ :: rest =>
      match skip with
      | S skip => count_from needle skip rest
      | O => if list_prefix needle haystack then 1 + count_from needle (length needle - 1) rest
             else count_from needle 0 rest
      end
  end.

(** [app/tools/seo.py] lines 305-319, [_count_phrase_occurrences]. *)
Definition _count_phrase_occurrences (haystack needle : list string) : Z :=
  match needle with [] => 0 | _ => count_from needle 0 haystack end.

(** [round((matches * len(kw_words) / total) * 100, 3)] *)
Definition density_of (body_words : list string) (kw : string) : dec :=
  let total := Z.of_nat (length body_words) in
  let kw_words := tokens (str_lower kw) in
  if total =? 0 then Dec 0 0
  else if kw_words ==b [] then Dec 0 0
  else
    let n := _count_phrase_occurrences body_words kw_words * Z.of_nat (length kw_words) in
    default (Dec 0 0) (flt_round_dec 3 (flt_mul (flt_of_ratio n total) (flt_of_Z 100))).

(** [app/tools/seo.py] lines 197-212, [SeoAnalysisTool._keyword_density]. *)
Definition _keyword_density (keywords body_words : list string) : list (string * dec) :=
  fold_left (λ d kw, dset kw (density_of body_words kw) d) keywords [].

(** ** The meta description *)

(** [re.sub(r"\s+", " ", s)] *)
Fixpoint squeeze (in_space : bool) (s : string) : string :=
  match s with
  | "" => ""
  | String c s =>
      if is_space c then (if in_space then squeeze true s else " " +:+ squeeze true s)
      else String c (squeeze false s)
  end.

(** [s.rfind(" ")], the index of the last space. *)
Fixpoint rfind_space (i : nat) (s : string) : option nat :=
  match s with
  | "" => None
  | String c s => match rfind_space (S i) s with
                  | Some j => Some j
                  | None => if c ==b " "%char then Some i else None
                  end
  end.

(** [app/tools/seo.py] lines 228-240, [SeoAnalysisTool._resolve_meta]. *)
Definition _resolve_meta (supplied : option json) (body : string) : string :=
  match text_of supplied with
  | Some s => s
  | None =>
      let flat := str_strip (squeeze false body) in
      if (String.length flat <=? _META_TRUNCATE_CHARS)%nat then flat
      else
        let truncated := str_take _META_TRUNCATE_CHARS flat in
        (match rfind_space 0 truncated with
         | Some (S i) => str_take (S i) truncated
         | _ => truncated
         end) +:+ "..."
  end.

(** ** The score *)

Definition flt_le_zero (d : dec) : bool := negb (flt_gt (flt_of_dec d) (flt_of_Z 0)).

(** The penalty of one keyword and its recommendation. *)
Definition keyword_penalty (density : list (string * dec)) (kw : string) : Z * list string :=
  let d := default (Dec 0 0) (dget kw density) in
  if flt_le_zero d then (penalty_missing, ["target keyword '" +:+ kw +:+ "' is missing from the body"])
  else if flt_gt (flt_of_dec d) (flt_of_dec _DENSITY_CEILING_PCT) then
    (penalty_stuffing, ["keyword '" +:+ kw +:+ "' density is " +:+ float_repr d +:+ "% (over " +:+
      float_repr _DENSITY_CEILING_PCT +:+ "%) - reduce repetition"])
  else if flt_gt (flt_of_dec _DENSITY_FLOOR_PCT) (flt_of_dec d) then
    (penalty_sparse, ["keyword '" +:+ kw +:+ "' density is " +:+ float_repr d +:+ "% (under " +:+
      float_repr _DENSITY_FLOOR_PCT +:+ "%) - use it more"])
  else (0, []).

(** [app/tools/seo.py] lines 242-302, [SeoAnalysisTool._score]. *)
Definition _score (keywords : list string) (density : list (string * dec)) (title : TitleAssessment)
    (word_count : Z) (meta_text : string) (meta_was_supplied : bool) : Z * list string :=
  let meta_len := Z.of_nat (String.length meta_text) in
  let penalties :=
    (keyword_penalty density <$> keywords) ++
    [(if in_range title then (0, [])
      else (penalty_title_length,
            [if title_length title <? _TITLE_MIN_CHARS
             then "title is " +:+ str_of_Z (title_length title) +:+ " chars; aim for " +:+
                  str_of_Z _TITLE_MIN_CHARS +:+ "-" +:+ str_of_Z _TITLE_MAX_CHARS
             else "title is " +:+ str_of_Z (title_length title) +:+ " chars; trim to " +:+
                  str_of_Z _TITLE_MAX_CHARS +:+ " or fewer"]));
     (if contains_keyword title then (0, [])
      else (penalty_title_no_keyword, ["title does not contain any target keyword"]));
     (if word_count <? _RECOMMENDED_MIN_BODY_WORDS
      then (penalty_body_short, ["body has " +:+ str_of_Z word_count +:+ " words; aim for at least " +:+
              str_of_Z _RECOMMENDED_MIN_BODY_WORDS])
      else (0, []));
     (if meta_was_supplied && ((meta_len <? _META_MIN_CHARS) || (_META_MAX_CHARS <? meta_len))
      then (penalty_meta_length, ["meta_description is " +:+ str_of_Z meta_len +:+ " chars; aim for " +:+
              str_of_Z _META_MIN_CHARS +:+ "-" +:+ str_of_Z _META_MAX_CHARS])
      else (0, []))] in
  let score := 100 - foldr Z.add 0 (fst <$> penalties) in
  (Z.max 0 (Z.min 100 score), mjoin (snd <$> penalties)).

(** [app/tools/seo.py] lines 121-179, [SeoAnalysisTool.call]. *)
Definition seo_call (inputs : jdict) : exn + jdict :=
  let draft := json_str (default (JStr "") (dget "draft" inputs)) in
  match dget "target_keywords" inputs with
  | Some (JList ((_ :: _) as raw)) =>
      let keywords := omap (λ k, text_of (Some k)) raw in
      match keywords with
      | [] => inl (SeoAnalysisError "target_keywords must contain at least one non-empty string")
      | _ =>
          let locale := json_str (match dget "locale" inputs with
                                  | Some v => if truthy v then v else JStr "en"
                                  | None => JStr "en"
                                  end) in
          let supplied_title := dget "title" inputs in
          let supplied_meta := dget "meta_description" inputs in
          let '(body, extracted_title) := _split_title draft supplied_title in
          let title := _assess_title (default extracted_title (text_of supplied_title)) keywords in
          let body_words := tokens (str_lower body) in
          let word_count := Z.of_nat (length body_words) in
          let meta := _resolve_meta supplied_meta body in
          let out score reason density recommendations :=
            [("score", score)] ++ reason ++
            [("keyword_density", JObj density); ("title_quality", JObj (title_as_dict title));
             ("meta_description", JStr meta); ("recommendations", JList (JStr <$> recommendations));
             ("word_count", JInt word_count); ("locale", JStr locale)] in
          if word_count <? _MIN_WORDS_FOR_SCORE then
            inr (out JNull [("reason", JStr "insufficient_length")]
              (fold_left (λ d kw, dset kw (JFloat (Dec 0 0)) d) keywords [])
              ["draft has " +:+ str_of_Z word_count +:+ " words, need at least " +:+
               str_of_Z _MIN_WORDS_FOR_SCORE +:+ " to score"])
          else
            let density := _keyword_density keywords body_words in
            let '(score, recommendations) :=
              _score keywords density title word_count meta (opt_truthy supplied_meta) in
            inr (out (JInt score) [] ((λ kd : string * dec, (kd.1, JFloat kd.2)) <$> density) recommendations)
      end
  | _ => inl (SeoAnalysisError "target_keywords must be a non-empty list")
  end.

Example density_sample :
  density_of ["solar"; "power"; "is"; "solar"; "power"; "x"; "y"] "Solar Power" = Dec 57143 (-3).
Proof. vm_compute. reflexivity. Qed.
Example meta_sample : _resolve_meta None (" a  b" +:+ newline +:+ "c ") = "a b c".
Proof. vm_compute. reflexivity. Qed.
