(* ===== verification/Fixtures.v ===== *)
(** * Sample rows

    Rows at which the theorems of the development are instantiated: a tenant with
    one campaign, its assets, a reviewer and approval settings. *)

From S2P Require Export Db.
Local Open Scope Z_scope.

Definition sample_campaign (st : CampaignStatus.t) : Campaign.t := {|
  Campaign.id := 10; Campaign.tenant_id := 1; Campaign.owner_id := None;
  Campaign.name := "Spring"; Campaign.status := st;
  Campaign.campaign_type := CampaignType.awareness; Campaign.objective := "reach";
  Campaign.budget_total := 100000; Campaign.currency := "USD";
  Campaign.start_date := 0; Campaign.end_date := 30; Campaign.brief := None;
  Campaign.kpi_targets := []; Campaign.launched_at := None; Campaign.completed_at := None;
  Campaign.created_at := 0; Campaign.updated_at := 0 |}.

Definition sample_asset (k : N) (kind : AssetType.t) (st : AssetStatus.t) (md : jdict)
    : ContentAsset.t := {|
  ContentAsset.id := k; ContentAsset.tenant_id := 1; ContentAsset.campaign_id := 10;
  ContentAsset.channel_id := None; ContentAsset.asset_type := kind; ContentAsset.status := st;
  ContentAsset.title := Some "Hello"; ContentAsset.content := Some "Body";
  ContentAsset.extra_metadata := md; ContentAsset.is_required := true;
  ContentAsset.scheduled_at := None; ContentAsset.published_at := None;
  ContentAsset.created_at := 0; ContentAsset.updated_at := 0 |}.

Definition sample_settings (admin_above : option Z) (cap : Z) : TenantApprovalSettings.t := {|
  TenantApprovalSettings.id := 20; TenantApprovalSettings.tenant_id := 1;
  TenantApprovalSettings.admin_required_above_amount := admin_above;
  TenantApprovalSettings.auto_approval_cap_amount := cap;
  TenantApprovalSettings.currency := "USD";
  TenantApprovalSettings.created_at := 0; TenantApprovalSettings.updated_at := 0 |}.

Definition sample_user (r : UserRole.t) : AppUser.t := {|
  AppUser.id := 30; AppUser.tenant_id := 1; AppUser.email := "r@example.com";
  AppUser.display_name := None; AppUser.role := r; AppUser.is_active := true;
  AppUser.last_login_at := None; AppUser.created_at := 0; AppUser.updated_at := 0 |}.

(** A database holding one campaign and some of its assets. *)
Definition sample_db (c : Campaign.t) (assets : list ContentAsset.t) : db :=
  empty_db <| t_campaign := {[ Campaign.id c := c ]} |>
           <| t_content_asset := list_to_map ((λ a, (ContentAsset.id a, a)) <$> assets) |>
           <| next_uuid := 100%N |>.

Lemma sample_db_keyed c assets : keyed ContentAsset.t (sample_db c assets).
Proof.
  intros k a Ha. simpl in Ha. apply elem_of_list_to_map_2 in Ha.
  by apply list_elem_of_fmap in Ha as (a' & [= -> ->] & _).
Qed.

Definition sample_credential (provider_name : string) (ch : option N) : IntegrationCredential.t := {|
  IntegrationCredential.id := 70; IntegrationCredential.tenant_id := 1;
  IntegrationCredential.channel_id := ch; IntegrationCredential.provider := provider_name;
  IntegrationCredential.label := ""; IntegrationCredential.encrypted_payload := "x";
  IntegrationCredential.key_version := 1; IntegrationCredential.expires_at := None;
  IntegrationCredential.created_at := 0; IntegrationCredential.updated_at := 0 |}.
