(* ===== verification/AuditTrail.v ===== *)
(** * The audit trail: src/app/audit

    JSON snapshots of rows, the explicit [write_audit] and the insert listeners
    that audit every new agent, campaign and audience. *)

From S2P Require Export PyNum Db.
Local Open Scope Z_scope.

(** ** Snapshots *)

Definition j_uuid (u : N) : json := JStr (uuid_str u).
Definition j_time (t : Z) : json := JStr (datetime_str t).
Definition j_date (d : Z) : json := JStr (date_str d).
Definition j_cents (z : Z) : json := JStr (dec_str (dec_of_cents z)).
Definition j_enum `{StrEnum E} (x : E) : json := JStr (value x).

(** [app/audit/writer.py] lines 31-37, [column_snapshot]. The column values of a
    row after [_to_jsonable]: UUIDs, dates and decimals as [str] gives them. *)
Class Snapshot (R : Type) := column_snapshot : R → jdict.

#[export] Instance content_asset_snapshot : Snapshot ContentAsset.t := λ a, [
  ("id", j_uuid (ContentAsset.id a));
  ("tenant_id", j_uuid (ContentAsset.tenant_id a));
  ("campaign_id", j_uuid (ContentAsset.campaign_id a));
  ("channel_id", jopt j_uuid (ContentAsset.channel_id a));
  ("asset_type", j_enum (ContentAsset.asset_type a));
  ("status", j_enum (ContentAsset.status a));
  ("title", jopt JStr (ContentAsset.title a));
  ("content", jopt JStr (ContentAsset.content a));
  ("extra_metadata", JObj (ContentAsset.extra_metadata a));
  ("is_required", JBool (ContentAsset.is_required a));
  ("scheduled_at", jopt j_time (ContentAsset.scheduled_at a));
  ("published_at", jopt j_time (ContentAsset.published_at a));
  ("created_at", j_time (ContentAsset.created_at a));
  ("updated_at", j_time (ContentAsset.updated_at a))].

#[export] Instance campaign_snapshot : Snapshot Campaign.t := λ c, [
  ("id", j_uuid (Campaign.id c));
  ("tenant_id", j_uuid (Campaign.tenant_id c));
  ("owner_id", jopt j_uuid (Campaign.owner_id c));
  ("name", JStr (Campaign.name c));
  ("status", j_enum (Campaign.status c));
  ("campaign_type", j_enum (Campaign.campaign_type c));
  ("objective", JStr (Campaign.objective c));
  ("budget_total", j_cents (Campaign.budget_total c));
  ("currency", JStr (Campaign.currency c));
  ("start_date", j_date (Campaign.start_date c));
  ("end_date", j_date (Campaign.end_date c));
  ("brief", jopt JStr (Campaign.brief c));
  ("kpi_targets", JObj (Campaign.kpi_targets c));
  ("launched_at", jopt j_time (Campaign.launched_at c));
  ("completed_at", jopt j_time (Campaign.completed_at c));
  ("created_at", j_time (Campaign.created_at c));
  ("updated_at", j_time (Campaign.updated_at c))].

#[export] Instance agent_snapshot : Snapshot Agent.t := λ a, [
  ("id", j_uuid (Agent.id a));
  ("tenant_id", j_uuid (Agent.tenant_id a));
  ("name", JStr (Agent.name a));
  ("agent_type", j_enum (Agent.agent_type a));
  ("status", j_enum (Agent.status a));
  ("config", JObj (Agent.config a));
  ("last_active_at", jopt j_time (Agent.last_active_at a));
  ("created_at", j_time (Agent.created_at a));
  ("updated_at", j_time (Agent.updated_at a))].

#[export] Instance audience_snapshot : Snapshot Audience.t := λ a, [
  ("id", j_uuid (Audience.id a));
  ("tenant_id", j_uuid (Audience.tenant_id a));
  ("campaign_id", j_uuid (Audience.campaign_id a));
  ("name", JStr (Audience.name a));
  ("segment_criteria", JObj (Audience.segment_criteria a));
  ("estimated_size", jopt JInt (Audience.estimated_size a));
  ("actual_size", jopt JInt (Audience.actual_size a));
  ("refreshed_at", jopt j_time (Audience.refreshed_at a));
  ("created_at", j_time (Audience.created_at a));
  ("updated_at", j_time (Audience.updated_at a))].

#[export] Instance tenant_snapshot : Snapshot Tenant.t := λ t, [
  ("id", j_uuid (Tenant.id t));
  ("name", JStr (Tenant.name t));
  ("domain", jopt JStr (Tenant.domain t));
  ("oidc_hosted_domain", jopt JStr (Tenant.oidc_hosted_domain t));
  ("plan", JStr (Tenant.plan t));
  ("created_at", j_time (Tenant.created_at t));
  ("updated_at", j_time (Tenant.updated_at t))].

(** ** Writing *)

(** [app/audit/context.py] lines 21-30, [actor_context]. [m] with another actor. *)
Definition actor_context {A} (kind : string) (actor_id : option N) (m : M A) : M A := λ e s,
  m (mkenv (now e) kind actor_id (uniform e)) s.

(** [app/audit/writer.py] lines 40-70, [write_audit]. *)
Definition write_audit (tenant_id : N) (actor_kind : string) (actor_id : option N)
    (entity_kind : string) (entity_id : N) (action : string)
    (before_state after_state : option jdict) (metadata : jdict) : M AuditLog.t :=
  t ← asks now;
  add_row (λ id, {|
    AuditLog.id := id;
    AuditLog.tenant_id := tenant_id;
    AuditLog.actor_kind := actor_kind;
    AuditLog.actor_id := actor_id;
    AuditLog.entity_kind := entity_kind;
    AuditLog.entity_id := entity_id;
    AuditLog.action := action;
    AuditLog.before_state := before_state;
    AuditLog.after_state := after_state;
    AuditLog.extra_metadata := metadata;
    AuditLog.logged_at := t |}).

(** [write_audit] with the actor of the request context. *)
Definition audit (tenant_id : N) (entity_kind : string) (entity_id : N) (action : string)
    (before_state after_state : option jdict) (metadata : jdict) : M () :=
  kind ← asks current_actor_kind;
  actor ← asks current_actor_id;
  write_audit tenant_id kind actor entity_kind entity_id action before_state after_state
    metadata ;;
  mret ().

(** [app/audit/listeners.py] lines 35-61, [_make_insert_listener]. *)
Definition on_insert `{Snapshot R} (entity_kind : string) (tenant_of id_of : R → N) (r : R)
    : M () :=
  audit (tenant_of r) entity_kind (id_of r) "created" None (Some (column_snapshot r)) [].

(** [app/audit/listeners.py] lines 64-90, [register]. The models whose inserts are audited; those of
    users and of credentials are declared with the code that inserts them. *)
Class Tracked (R : Type) := {
  entity_kind : string;
  tenant_of : R → N;
}.
#[export] Instance tenant_tracked : Tracked Tenant.t :=
  {| entity_kind := "tenant"; tenant_of := Tenant.id |}.
#[export] Instance agent_tracked : Tracked Agent.t :=
  {| entity_kind := "agent"; tenant_of := Agent.tenant_id |}.
#[export] Instance campaign_tracked : Tracked Campaign.t :=
  {| entity_kind := "campaign"; tenant_of := Campaign.tenant_id |}.
#[export] Instance audience_tracked : Tracked Audience.t :=
  {| entity_kind := "audience"; tenant_of := Audience.tenant_id |}.

(** [session.add(r); await session.flush()] on a tracked model. *)
Definition add_tracked `{Table N R, Snapshot R, Tracked R} (mk : N → R) : M R :=
  r ← add_row mk;
  on_insert (entity_kind (R:=R)) tenant_of pk r ;;
  mret r.

(** ** What the audit trail leaves alone *)

Lemma respects_audit (R : relation db) `{!PreOrder R} tid ek eid act b a md :
  (∀ m s, R s (set_rows (R:=AuditLog.t) m (s <| next_uuid := (next_uuid s + 1)%N |>))) →
  respects R (audit tid ek eid act b a md).
Proof.
  intros HR. unfold audit, write_audit. respects_auto. apply respects_frame_add. apply HR.
Qed.

Lemma respects_add_tracked (R : relation db) `{!PreOrder R, Table N T, Snapshot T, Tracked T}
    (mk : N → T) :
  (∀ m s, R s (set_rows (R:=AuditLog.t) m (s <| next_uuid := (next_uuid s + 1)%N |>))) →
  respects R (add_row mk) → respects R (add_tracked mk).
Proof.
  intros HR Hadd. unfold add_tracked, on_insert. respects_auto; [done|]. by apply respects_audit.
Qed.
