(* ===== verification/Tenancy.v ===== *)
(** * Tenants: row-level security, src/app/db/session.py and the policies of src/app/db/migrations

    The session of a request sees the rows of one tenant. A [db] elsewhere in this development is
    what such a session sees; here it is the whole database, [view] is what a tenant's session sees
    of it, and [scoped] runs a handler under the tenant's policies. The policies are those the
    migrations create; that PostgreSQL applies them, to the rows read and to the rows written, is
    its documented behaviour and part of the definition. *)

From S2P Require Export Db.
From S2P Require Import Fixtures.
Local Open Scope Z_scope.

(** ** One table under a policy *)

Section policy.
Context `{Countable K} {R : Type}.
Implicit Types (p q : R → bool) (m : gmap K R).

(** The rows the policy lets through. *)
Definition restrict p m : gmap K R := filter (λ kr, p kr.2 = true) m.

(** The table after a session that saw [restrict p m] has left [m']. *)
Definition overlay p m m' : gmap K R := m' ∪ restrict (λ r, negb (p r)) m.

(** No row of [m'] takes the key of a row the session does not see. *)
Definition no_collision p m m' : Prop := map_Forall (λ k r, p r = true ∨ m' !! k = None) m.

Lemma lookup_restrict p m k r : restrict p m !! k = Some r ↔ m !! k = Some r ∧ p r = true.
Proof. apply map_lookup_filter_Some. Qed.
Lemma restrict_eq p m m' : (∀ k r, m !! k = Some r ∧ p r = true ↔ m' !! k = Some r) → restrict p m = m'.
Proof.
  intros Hm. apply map_eq. intros k. apply option_eq. intros r. by rewrite lookup_restrict, Hm.
Qed.
Lemma lookup_overlay p m m' k r :
  no_collision p m m' → overlay p m m' !! k = Some r ↔ m' !! k = Some r ∨ m !! k = Some r ∧ p r = false.
Proof.
  intros Hc. unfold overlay. rewrite lookup_union_Some_raw, lookup_restrict, negb_true_iff. split.
  - intros [?|(_ & ? & ?)]; eauto.
  - intros [?|[Hk Hp]]; [by left|right]. destruct (Hc k r Hk) as [?|?]; [congruence|done].
Qed.

(** The session's own rows: what it left. [p'] is the policy afterwards. *)
Lemma restrict_own p p' m m' :
  no_collision p m m' → map_Forall (λ _ r, p' r = true) m' →
  (∀ k r, m !! k = Some r → p r = false → p' r = false) → restrict p' (overlay p m m') = m'.
Proof.
  intros Hc Hm' Hm. apply restrict_eq. intros k r. rewrite lookup_overlay by done. split.
  - intros [[?|[Hk Hp]] Hr]; [done|]. rewrite (Hm k r Hk Hp) in Hr. done.
  - intros Hk. split; [by left|by apply (Hm' k r)].
Qed.

(** The rows another policy lets through, before [q] and afterwards [q'], are as they were. *)
Lemma restrict_other p q q' m m' :
  no_collision p m m' → map_Forall (λ _ r, q' r = false) m' →
  (∀ k r, m !! k = Some r → p r = true → q r = false) →
  (∀ k r, m !! k = Some r → p r = false → q' r = q r) → restrict q' (overlay p m m') = restrict q m.
Proof.
  intros Hc Hm' Hpq Hq. apply restrict_eq. intros k r. rewrite lookup_overlay, lookup_restrict by done. split.
  - intros [[Hk|[Hk Hp]] Hr]; [by rewrite (Hm' k r Hk) in Hr|]. by rewrite <- (Hq k r Hk Hp).
  - intros [Hk Hr]. destruct (p r) eqn:Hp; [by rewrite (Hpq k r Hk Hp) in Hr|].
    split; [by right|]. by rewrite (Hq k r Hk Hp).
Qed.
End policy.

(** ** The policies *)

(** [USING (audience_id IN (SELECT id FROM audience))], the subquery being under its own policy:
    the parent is there, and is the tenant's. *)
Definition parent_visible {P : Type} (tenant : P → N) (tid : N) (parents : gmap N P) (k : N) : bool :=
  bool_decide (is_Some (restrict (λ r, tenant r ==b tid) parents !! k)).

Definition member_visible (tid : N) (s : db) (r : AudienceMember.t) : bool :=
  parent_visible Audience.tenant_id tid (t_audience s) (AudienceMember.audience_id r).
Definition decision_visible (tid : N) (s : db) (r : ApprovalDecisionLog.t) : bool :=
  parent_visible ContentAsset.tenant_id tid (t_content_asset s) (ApprovalDecisionLog.content_asset_id r).
Definition budget_visible (tid : N) (s : db) (r : CampaignChannelBudget.t) : bool :=
  parent_visible Campaign.tenant_id tid (t_campaign s) (CampaignChannelBudget.campaign_id r).

(** [USING (tenant_id IS NULL OR tenant_id = ...)]. *)
Definition webhook_visible (tid : N) (r : RawWebhook.t) : bool :=
  from_option (λ t, t ==b tid) true (RawWebhook.tenant_id r).

(** What the session of tenant [tid] sees. *)
Definition view (tid : N) (s : db) : db := mkdb
  (restrict (λ r, Tenant.id r ==b tid) (t_tenant s))
  (restrict (λ r, AppUser.tenant_id r ==b tid) (t_app_user s))
  (restrict (λ r, Agent.tenant_id r ==b tid) (t_agent s))
  (restrict (λ r, Campaign.tenant_id r ==b tid) (t_campaign s))
  (restrict (λ r, Task.tenant_id r ==b tid) (t_task s))
  (restrict (λ r, AuditLog.tenant_id r ==b tid) (t_audit_log s))
  (restrict (λ r, AgentLog.tenant_id r ==b tid) (t_agent_log s))
  (restrict (λ r, Channel.tenant_id r ==b tid) (t_channel s))
  (restrict (λ r, IntegrationCredential.tenant_id r ==b tid) (t_integration_credential s))
  (restrict (λ r, Audience.tenant_id r ==b tid) (t_audience s))
  (restrict (member_visible tid s) (t_audience_member s))
  (restrict (λ r, AnalyticEvent.tenant_id r ==b tid) (t_analytic_event s))
  (restrict (λ r, BrandVoice.tenant_id r ==b tid) (t_brand_voice s))
  (restrict (λ r, TenantConstraint.tenant_id r ==b tid) (t_tenant_constraint s))
  (restrict (λ r, StrategyProposal.tenant_id r ==b tid) (t_strategy_proposal s))
  (restrict (λ r, StrategyTouchpoint.tenant_id r ==b tid) (t_strategy_touchpoint s))
  (restrict (λ r, ContentAsset.tenant_id r ==b tid) (t_content_asset s))
  (restrict (λ r, ComplianceRule.tenant_id r ==b tid) (t_compliance_rule s))
  (restrict (λ r, AbTest.tenant_id r ==b tid) (t_ab_test s))
  (restrict (λ r, AbTestAssignment.tenant_id r ==b tid) (t_ab_test_assignment s))
  (restrict (decision_visible tid s) (t_approval_decision_log s))
  (restrict (λ r, TenantApprovalSettings.tenant_id r ==b tid) (t_tenant_approval_settings s))
  (restrict (λ r, SuppressionEntry.tenant_id r ==b tid) (t_suppression_entry s))
  (restrict (λ r, DispatchAttempt.tenant_id r ==b tid) (t_dispatch_attempt s))
  (restrict (λ r, FrequencyCapSetting.tenant_id r ==b tid) (t_frequency_cap_setting s))
  (restrict (λ r, TenantComplianceSettings.tenant_id r ==b tid) (t_tenant_compliance_settings s))
  (restrict (λ r, ProviderRateLimit.tenant_id r ==b tid) (t_provider_rate_limit s))
  (restrict (webhook_visible tid) (t_raw_webhook s))
  (restrict (λ r, MetricAnomaly.tenant_id r ==b tid) (t_metric_anomaly s))
  (restrict (λ r, OptimisationRecommendation.tenant_id r ==b tid) (t_optimisation_recommendation s))
  (restrict (λ r, CustomKpi.tenant_id r ==b tid) (t_custom_kpi s))
  (restrict (λ r, SpendReconciliation.tenant_id r ==b tid) (t_spend_reconciliation s))
  (restrict (budget_visible tid s) (t_campaign_channel_budget s))
  (restrict (λ r, CampaignReport.tenant_id r ==b tid) (t_campaign_report s))
  (restrict (λ r, AssistantConversation.tenant_id r ==b tid) (t_assistant_conversation s))
  (next_uuid s).

(** The whole database, after the session of [tid] that began with [view tid s] has left [v]. *)
Definition merge (tid : N) (s v : db) : db := mkdb
  (overlay (λ r, Tenant.id r ==b tid) (t_tenant s) (t_tenant v))
  (overlay (λ r, AppUser.tenant_id r ==b tid) (t_app_user s) (t_app_user v))
  (overlay (λ r, Agent.tenant_id r ==b tid) (t_agent s) (t_agent v))
  (overlay (λ r, Campaign.tenant_id r ==b tid) (t_campaign s) (t_campaign v))
  (overlay (λ r, Task.tenant_id r ==b tid) (t_task s) (t_task v))
  (overlay (λ r, AuditLog.tenant_id r ==b tid) (t_audit_log s) (t_audit_log v))
  (overlay (λ r, AgentLog.tenant_id r ==b tid) (t_agent_log s) (t_agent_log v))
  (overlay (λ r, Channel.tenant_id r ==b tid) (t_channel s) (t_channel v))
  (overlay (λ r, IntegrationCredential.tenant_id r ==b tid) (t_integration_credential s) (t_integration_credential v))
  (overlay (λ r, Audience.tenant_id r ==b tid) (t_audience s) (t_audience v))
  (overlay (member_visible tid s) (t_audience_member s) (t_audience_member v))
  (overlay (λ r, AnalyticEvent.tenant_id r ==b tid) (t_analytic_event s) (t_analytic_event v))
  (overlay (λ r, BrandVoice.tenant_id r ==b tid) (t_brand_voice s) (t_brand_voice v))
  (overlay (λ r, TenantConstraint.tenant_id r ==b tid) (t_tenant_constraint s) (t_tenant_constraint v))
  (overlay (λ r, StrategyProposal.tenant_id r ==b tid) (t_strategy_proposal s) (t_strategy_proposal v))
  (overlay (λ r, StrategyTouchpoint.tenant_id r ==b tid) (t_strategy_touchpoint s) (t_strategy_touchpoint v))
  (overlay (λ r, ContentAsset.tenant_id r ==b tid) (t_content_asset s) (t_content_asset v))
  (overlay (λ r, ComplianceRule.tenant_id r ==b tid) (t_compliance_rule s) (t_compliance_rule v))
  (overlay (λ r, AbTest.tenant_id r ==b tid) (t_ab_test s) (t_ab_test v))
  (overlay (λ r, AbTestAssignment.tenant_id r ==b tid) (t_ab_test_assignment s) (t_ab_test_assignment v))
  (overlay (decision_visible tid s) (t_approval_decision_log s) (t_approval_decision_log v))
  (overlay (λ r, TenantApprovalSettings.tenant_id r ==b tid) (t_tenant_approval_settings s) (t_tenant_approval_settings v))
  (overlay (λ r, SuppressionEntry.tenant_id r ==b tid) (t_suppression_entry s) (t_suppression_entry v))
  (overlay (λ r, DispatchAttempt.tenant_id r ==b tid) (t_dispatch_attempt s) (t_dispatch_attempt v))
  (overlay (λ r, FrequencyCapSetting.tenant_id r ==b tid) (t_frequency_cap_setting s) (t_frequency_cap_setting v))
  (overlay (λ r, TenantComplianceSettings.tenant_id r ==b tid) (t_tenant_compliance_settings s) (t_tenant_compliance_settings v))
  (overlay (λ r, ProviderRateLimit.tenant_id r ==b tid) (t_provider_rate_limit s) (t_provider_rate_limit v))
  (overlay (webhook_visible tid) (t_raw_webhook s) (t_raw_webhook v))
  (overlay (λ r, MetricAnomaly.tenant_id r ==b tid) (t_metric_anomaly s) (t_metric_anomaly v))
  (overlay (λ r, OptimisationRecommendation.tenant_id r ==b tid) (t_optimisation_recommendation s) (t_optimisation_recommendation v))
  (overlay (λ r, CustomKpi.tenant_id r ==b tid) (t_custom_kpi s) (t_custom_kpi v))
  (overlay (λ r, SpendReconciliation.tenant_id r ==b tid) (t_spend_reconciliation s) (t_spend_reconciliation v))
  (overlay (budget_visible tid s) (t_campaign_channel_budget s) (t_campaign_channel_budget v))
  (overlay (λ r, CampaignReport.tenant_id r ==b tid) (t_campaign_report s) (t_campaign_report v))
  (overlay (λ r, AssistantConversation.tenant_id r ==b tid) (t_assistant_conversation s) (t_assistant_conversation v))
  (next_uuid v).

(** The policies on the rows written: every row the session leaves is one it sees. *)
Definition admissible (tid : N) (s : db) : Prop :=
  map_Forall (λ _ r, (λ r, Tenant.id r ==b tid) r = true) (t_tenant s) ∧
  map_Forall (λ _ r, (λ r, AppUser.tenant_id r ==b tid) r = true) (t_app_user s) ∧
  map_Forall (λ _ r, (λ r, Agent.tenant_id r ==b tid) r = true) (t_agent s) ∧
  map_Forall (λ _ r, (λ r, Campaign.tenant_id r ==b tid) r = true) (t_campaign s) ∧
  map_Forall (λ _ r, (λ r, Task.tenant_id r ==b tid) r = true) (t_task s) ∧
  map_Forall (λ _ r, (λ r, AuditLog.tenant_id r ==b tid) r = true) (t_audit_log s) ∧
  map_Forall (λ _ r, (λ r, AgentLog.tenant_id r ==b tid) r = true) (t_agent_log s) ∧
  map_Forall (λ _ r, (λ r, Channel.tenant_id r ==b tid) r = true) (t_channel s) ∧
  map_Forall (λ _ r, (λ r, IntegrationCredential.tenant_id r ==b tid) r = true) (t_integration_credential s) ∧
  map_Forall (λ _ r, (λ r, Audience.tenant_id r ==b tid) r = true) (t_audience s) ∧
  map_Forall (λ _ r, (member_visible tid s) r = true) (t_audience_member s) ∧
  map_Forall (λ _ r, (λ r, AnalyticEvent.tenant_id r ==b tid) r = true) (t_analytic_event s) ∧
  map_Forall (λ _ r, (λ r, BrandVoice.tenant_id r ==b tid) r = true) (t_brand_voice s) ∧
  map_Forall (λ _ r, (λ r, TenantConstraint.tenant_id r ==b tid) r = true) (t_tenant_constraint s) ∧
  map_Forall (λ _ r, (λ r, StrategyProposal.tenant_id r ==b tid) r = true) (t_strategy_proposal s) ∧
  map_Forall (λ _ r, (λ r, StrategyTouchpoint.tenant_id r ==b tid) r = true) (t_strategy_touchpoint s) ∧
  map_Forall (λ _ r, (λ r, ContentAsset.tenant_id r ==b tid) r = true) (t_content_asset s) ∧
  map_Forall (λ _ r, (λ r, ComplianceRule.tenant_id r ==b tid) r = true) (t_compliance_rule s) ∧
  map_Forall (λ _ r, (λ r, AbTest.tenant_id r ==b tid) r = true) (t_ab_test s) ∧
  map_Forall (λ _ r, (λ r, AbTestAssignment.tenant_id r ==b tid) r = true) (t_ab_test_assignment s) ∧
  map_Forall (λ _ r, (decision_visible tid s) r = true) (t_approval_decision_log s) ∧
  map_Forall (λ _ r, (λ r, TenantApprovalSettings.tenant_id r ==b tid) r = true) (t_tenant_approval_settings s) ∧
  map_Forall (λ _ r, (λ r, SuppressionEntry.tenant_id r ==b tid) r = true) (t_suppression_entry s) ∧
  map_Forall (λ _ r, (λ r, DispatchAttempt.tenant_id r ==b tid) r = true) (t_dispatch_attempt s) ∧
  map_Forall (λ _ r, (λ r, FrequencyCapSetting.tenant_id r ==b tid) r = true) (t_frequency_cap_setting s) ∧
  map_Forall (λ _ r, (λ r, TenantComplianceSettings.tenant_id r ==b tid) r = true) (t_tenant_compliance_settings s) ∧
  map_Forall (λ _ r, (λ r, ProviderRateLimit.tenant_id r ==b tid) r = true) (t_provider_rate_limit s) ∧
  map_Forall (λ _ r, (webhook_visible tid) r = true) (t_raw_webhook s) ∧
  map_Forall (λ _ r, (λ r, MetricAnomaly.tenant_id r ==b tid) r = true) (t_metric_anomaly s) ∧
  map_Forall (λ _ r, (λ r, OptimisationRecommendation.tenant_id r ==b tid) r = true) (t_optimisation_recommendation s) ∧
  map_Forall (λ _ r, (λ r, CustomKpi.tenant_id r ==b tid) r = true) (t_custom_kpi s) ∧
  map_Forall (λ _ r, (λ r, SpendReconciliation.tenant_id r ==b tid) r = true) (t_spend_reconciliation s) ∧
  map_Forall (λ _ r, (budget_visible tid s) r = true) (t_campaign_channel_budget s) ∧
  map_Forall (λ _ r, (λ r, CampaignReport.tenant_id r ==b tid) r = true) (t_campaign_report s) ∧
  map_Forall (λ _ r, (λ r, AssistantConversation.tenant_id r ==b tid) r = true) (t_assistant_conversation s).

(** And no row it leaves has the key of a row it does not see. *)
Definition collision_free (tid : N) (s v : db) : Prop :=
  no_collision (λ r, Tenant.id r ==b tid) (t_tenant s) (t_tenant v) ∧
  no_collision (λ r, AppUser.tenant_id r ==b tid) (t_app_user s) (t_app_user v) ∧
  no_collision (λ r, Agent.tenant_id r ==b tid) (t_agent s) (t_agent v) ∧
  no_collision (λ r, Campaign.tenant_id r ==b tid) (t_campaign s) (t_campaign v) ∧
  no_collision (λ r, Task.tenant_id r ==b tid) (t_task s) (t_task v) ∧
  no_collision (λ r, AuditLog.tenant_id r ==b tid) (t_audit_log s) (t_audit_log v) ∧
  no_collision (λ r, AgentLog.tenant_id r ==b tid) (t_agent_log s) (t_agent_log v) ∧
  no_collision (λ r, Channel.tenant_id r ==b tid) (t_channel s) (t_channel v) ∧
  no_collision (λ r, IntegrationCredential.tenant_id r ==b tid) (t_integration_credential s) (t_integration_credential v) ∧
  no_collision (λ r, Audience.tenant_id r ==b tid) (t_audience s) (t_audience v) ∧
  no_collision (member_visible tid s) (t_audience_member s) (t_audience_member v) ∧
  no_collision (λ r, AnalyticEvent.tenant_id r ==b tid) (t_analytic_event s) (t_analytic_event v) ∧
  no_collision (λ r, BrandVoice.tenant_id r ==b tid) (t_brand_voice s) (t_brand_voice v) ∧
  no_collision (λ r, TenantConstraint.tenant_id r ==b tid) (t_tenant_constraint s) (t_tenant_constraint v) ∧
  no_collision (λ r, StrategyProposal.tenant_id r ==b tid) (t_strategy_proposal s) (t_strategy_proposal v) ∧
  no_collision (λ r, StrategyTouchpoint.tenant_id r ==b tid) (t_strategy_touchpoint s) (t_strategy_touchpoint v) ∧
  no_collision (λ r, ContentAsset.tenant_id r ==b tid) (t_content_asset s) (t_content_asset v) ∧
  no_collision (λ r, ComplianceRule.tenant_id r ==b tid) (t_compliance_rule s) (t_compliance_rule v) ∧
  no_collision (λ r, AbTest.tenant_id r ==b tid) (t_ab_test s) (t_ab_test v) ∧
  no_collision (λ r, AbTestAssignment.tenant_id r ==b tid) (t_ab_test_assignment s) (t_ab_test_assignment v) ∧
  no_collision (decision_visible tid s) (t_approval_decision_log s) (t_approval_decision_log v) ∧
  no_collision (λ r, TenantApprovalSettings.tenant_id r ==b tid) (t_tenant_approval_settings s) (t_tenant_approval_settings v) ∧
  no_collision (λ r, SuppressionEntry.tenant_id r ==b tid) (t_suppression_entry s) (t_suppression_entry v) ∧
  no_collision (λ r, DispatchAttempt.tenant_id r ==b tid) (t_dispatch_attempt s) (t_dispatch_attempt v) ∧
  no_collision (λ r, FrequencyCapSetting.tenant_id r ==b tid) (t_frequency_cap_setting s) (t_frequency_cap_setting v) ∧
  no_collision (λ r, TenantComplianceSettings.tenant_id r ==b tid) (t_tenant_compliance_settings s) (t_tenant_compliance_settings v) ∧
  no_collision (λ r, ProviderRateLimit.tenant_id r ==b tid) (t_provider_rate_limit s) (t_provider_rate_limit v) ∧
  no_collision (webhook_visible tid) (t_raw_webhook s) (t_raw_webhook v) ∧
  no_collision (λ r, MetricAnomaly.tenant_id r ==b tid) (t_metric_anomaly s) (t_metric_anomaly v) ∧
  no_collision (λ r, OptimisationRecommendation.tenant_id r ==b tid) (t_optimisation_recommendation s) (t_optimisation_recommendation v) ∧
  no_collision (λ r, CustomKpi.tenant_id r ==b tid) (t_custom_kpi s) (t_custom_kpi v) ∧
  no_collision (λ r, SpendReconciliation.tenant_id r ==b tid) (t_spend_reconciliation s) (t_spend_reconciliation v) ∧
  no_collision (budget_visible tid s) (t_campaign_channel_budget s) (t_campaign_channel_budget v) ∧
  no_collision (λ r, CampaignReport.tenant_id r ==b tid) (t_campaign_report s) (t_campaign_report v) ∧
  no_collision (λ r, AssistantConversation.tenant_id r ==b tid) (t_assistant_conversation s) (t_assistant_conversation v).

#[export] Instance no_collision_dec `{Countable K} {R} (p : R → bool) (m m' : gmap K R) : Decision (no_collision p m m').
Proof. unfold no_collision. apply _. Defined.
#[export] Instance admissible_dec tid v : Decision (admissible tid v).
Proof. unfold admissible. apply _. Defined.
#[export] Instance collision_free_dec tid s v : Decision (collision_free tid s v).
Proof. unfold collision_free. apply _. Defined.

Definition policy_violation : exn := OtherError "new row violates row-level security policy".

(** [app/db/session.py] lines 31-41, [set_tenant_context]. The session becomes the tenant's, then
    runs [m]; a row that is not the tenant's is refused, and so is a key that is taken. *)
Definition scoped {A} (tid : N) (m : M A) : M A := λ e s,
  let '(v, r) := m e (view tid s) in
  if bool_decide (admissible tid v) then
    if bool_decide (collision_free tid s v) then (merge tid s v, r) else (s, inl IntegrityError)
  else (s, inl policy_violation).

(** ** Isolation *)

(** The foreign keys of the tables that have no tenant of their own. *)
Record fk_ok (s : db) : Prop := {
  fk_member : ∀ k r, t_audience_member s !! k = Some r → is_Some (t_audience s !! AudienceMember.audience_id r);
  fk_decision : ∀ k r, t_approval_decision_log s !! k = Some r → is_Some (t_content_asset s !! ApprovalDecisionLog.content_asset_id r);
  fk_budget : ∀ k r, t_campaign_channel_budget s !! k = Some r → is_Some (t_campaign s !! CampaignChannelBudget.campaign_id r);
}.

Section parents.
Context {P : Type} (tenant : P → N).
Implicit Types m : gmap N P.

Lemma parent_visible_eq tid m m' k :
  restrict (λ r, tenant r ==b tid) m = restrict (λ r, tenant r ==b tid) m' →
  parent_visible tenant tid m k = parent_visible tenant tid m' k.
Proof. unfold parent_visible. by intros ->. Qed.

Lemma parent_visible_true tid m k :
  parent_visible tenant tid m k = true ↔ ∃ r, m !! k = Some r ∧ tenant r = tid.
Proof.
  unfold parent_visible. rewrite bool_decide_eq_true. split.
  - intros [r [Hr Ht]%lookup_restrict]. apply bool_decide_eq_true in Ht. eauto.
  - intros (r & Hr & Ht). exists r. apply lookup_restrict. by rewrite bool_decide_eq_true.
Qed.
Lemma parent_visible_false tid m k :
  is_Some (m !! k) → parent_visible tenant tid m k = false ↔ ∃ r, m !! k = Some r ∧ tenant r ≠ tid.
Proof.
  intros [r Hr]. rewrite <- not_true_iff_false, parent_visible_true. split.
  - intros Hn. exists r. split; [done|]. intros Ht. apply Hn. eauto.
  - intros (r' & Hr' & Ht) (r'' & Hr'' & Ht'). simplify_eq.
Qed.

Lemma tenant_own tid m m' :
  no_collision (λ r, tenant r ==b tid) m m' → map_Forall (λ _ r, (tenant r ==b tid) = true) m' →
  restrict (λ r, tenant r ==b tid) (overlay (λ r, tenant r ==b tid) m m') = m'.
Proof. intros Hc Hm'. by apply restrict_own. Qed.
Lemma tenant_other tid tid2 m m' : tid2 ≠ tid →
  no_collision (λ r, tenant r ==b tid) m m' → map_Forall (λ _ r, (tenant r ==b tid) = true) m' →
  restrict (λ r, tenant r ==b tid2) (overlay (λ r, tenant r ==b tid) m m') = restrict (λ r, tenant r ==b tid2) m.
Proof.
  intros Hne Hc Hm'. apply restrict_other; [done| | |done].
  - intros k r Hr. specialize (Hm' k r Hr). cbn in Hm'. apply bool_decide_eq_true in Hm'. apply bool_decide_eq_false. congruence.
  - intros k r _ Hr. apply bool_decide_eq_true in Hr. apply bool_decide_eq_false. congruence.
Qed.
Lemma restrict_all tid m : map_Forall (λ _ r, (tenant r ==b tid) = true) m → restrict (λ r, tenant r ==b tid) m = m.
Proof. intros Hm. apply restrict_eq. intros k r. split; [by intros [? _]|]. intros Hr. split; [done|by apply (Hm k r)]. Qed.
End parents.

(** The children of a table of parents, under the same tenant and under another one. *)
Section children.
Context {P C : Type} `{Countable K} (tenant : P → N) (parent : C → N).
Context (tid : N) (ps ps' : gmap N P) (cs cs' : gmap K C).
Let vis t m r := parent_visible tenant t m (parent r).
Let own r := tenant r ==b tid.
Context (Hps : no_collision own ps ps') (Hps' : map_Forall (λ _ r, own r = true) ps').
Context (Hcs : no_collision (vis tid ps) cs cs') (Hcs' : map_Forall (λ _ r, vis tid ps' r = true) cs').
Context (Hfk : ∀ k r, cs !! k = Some r → is_Some (ps !! parent r)).

Lemma children_own : restrict (vis tid (overlay own ps ps')) (overlay (vis tid ps) cs cs') = cs'.
Proof.
  assert (∀ r, vis tid (overlay own ps ps') r = vis tid ps' r) as Heq.
  { intros r. apply parent_visible_eq. fold own. unfold own at 1 3.
    rewrite tenant_own by done. by rewrite restrict_all. }
  apply restrict_own; [done| |].
  - intros k r Hr. rewrite Heq. by apply (Hcs' k r).
  - intros k r Hr Hv. rewrite Heq. apply (parent_visible_false tenant tid ps) in Hv as (p & Hp & Hne); [|by eapply Hfk].
    apply not_true_is_false. intros (p' & Hp' & Ht)%parent_visible_true.
    destruct (Hps _ _ Hp) as [Ho|?]; [|congruence]. by apply bool_decide_eq_true in Ho.
Qed.

Lemma children_other tid2 : tid2 ≠ tid →
  restrict (vis tid2 (overlay own ps ps')) (overlay (vis tid ps) cs cs') = restrict (vis tid2 ps) cs.
Proof.
  intros Hne.
  assert (∀ r, vis tid2 (overlay own ps ps') r = vis tid2 ps r) as Heq.
  { intros r. apply parent_visible_eq. by apply tenant_other. }
  apply restrict_other; [done| | |by intros; rewrite Heq].
  - intros k r Hr. rewrite Heq. specialize (Hcs' k r Hr). apply parent_visible_true in Hcs' as (p & Hp & Ht).
    apply not_true_is_false. intros (p' & Hp' & Ht')%parent_visible_true.
    destruct (Hps _ _ Hp') as [Ho|?]; [|congruence]. apply bool_decide_eq_true in Ho. congruence.
  - intros k r _ Hv. apply parent_visible_true in Hv as (p & Hp & Ht).
    apply not_true_is_false. intros (p' & Hp' & Ht')%parent_visible_true. congruence.
Qed.
End children.

Lemma view_merge tid s v :
  fk_ok s → admissible tid v → collision_free tid s v → view tid (merge tid s v) = v.
Proof.
  intros [Hm Hd Hb] Ha Hc. unfold admissible, collision_free in *. destruct_and!.
  unfold view, merge. destruct v. cbn in *. f_equal.
  all: first [by apply tenant_own | by apply children_own | by apply restrict_own].
Qed.

(** What another tenant sees is not touched; the webhooks that belong to nobody are everybody's. *)
Lemma view_merge_other tid tid2 s v : tid2 ≠ tid →
  admissible tid v → collision_free tid s v →
  view tid2 (merge tid s v) =
    view tid2 s <| t_raw_webhook := restrict (webhook_visible tid2) (t_raw_webhook (merge tid s v)) |>
                <| next_uuid := next_uuid v |>.
Proof.
  intros Hne Ha Hc. unfold admissible, collision_free in *. destruct_and!.
  unfold view, merge. destruct v. cbn in *. f_equal.
  all: first [done | by apply tenant_other | by apply children_other].
Qed.

(** A session that did not get its outcome from the handler changed nothing. *)
Lemma scoped_cases {A} tid (m : M A) e s s' r :
  scoped tid m e s = (s', r) →
  s' = s ∧ (r = inl IntegrityError ∨ r = inl policy_violation) ∨
  ∃ v, m e (view tid s) = (v, r) ∧ s' = merge tid s v ∧ admissible tid v ∧ collision_free tid s v.
Proof.
  unfold scoped. destruct (m e (view tid s)) as [v r'].
  case_bool_decide; [case_bool_decide|]; intros [= <- <-]; eauto 10.
Qed.

(** A webhook of another tenant stays, and none appears. *)
Lemma merge_webhook tid tid2 s v k w : tid2 ≠ tid →
  admissible tid v → collision_free tid s v → RawWebhook.tenant_id w = Some tid2 →
  t_raw_webhook (merge tid s v) !! k = Some w ↔ t_raw_webhook s !! k = Some w.
Proof.
  intros Hne Ha Hc Hw. unfold admissible, collision_free in *. destruct_and!. unfold merge. cbn.
  assert (webhook_visible tid w = false) as Hv.
  { unfold webhook_visible. rewrite Hw. by apply bool_decide_eq_false. }
  rewrite lookup_overlay by done. split; [|by right].
  intros [Hk|[? _]]; [|done].
  assert (map_Forall (λ _ r, webhook_visible tid r = true) (t_raw_webhook v)) as Hw' by done.
  specialize (Hw' k w Hk). cbn in Hw'. congruence.
Qed.

(** C5: whatever a handler does, run under [set_tenant_context] for one tenant it leaves what every
    other tenant sees as it was (the webhooks that belong to nobody, which every tenant sees, apart);
    what its own tenant sees is what the handler computed from its own tenant's rows, or nothing
    changed and the request failed; and its answer and its effect on its tenant depend on nothing
    but that tenant's rows: two databases it cannot tell apart give the same. *)
Theorem tenant_isolation {A} (tid : N) (m : M A) e s s' r :
  fk_ok s → scoped tid m e s = (s', r) →
  (∀ tid2, tid2 ≠ tid →
    view tid2 s' = view tid2 s <| t_raw_webhook := restrict (webhook_visible tid2) (t_raw_webhook s') |>
                               <| next_uuid := next_uuid s' |> ∧
    ∀ k w, RawWebhook.tenant_id w = Some tid2 → t_raw_webhook s' !! k = Some w ↔ t_raw_webhook s !! k = Some w) ∧
  (s' = s ∧ (∃ x, r = inl x) ∨ m e (view tid s) = (view tid s', r)) ∧
  (∀ s2 s2' x y, fk_ok s2 → view tid s2 = view tid s → scoped tid m e s2 = (s2', inr y) → r = inr x →
    x = y ∧ view tid s2' = view tid s').
Proof.
  intros Hfk Hrun. destruct (scoped_cases _ _ _ _ _ _ Hrun) as [[-> Hr]|(v & Hm & -> & Ha & Hc)].
  - split_and!.
    + intros tid2 _. split; [|done]. by destruct s.
    + left. destruct Hr; eauto.
    + intros ???? _ _ _ ->. by destruct Hr.
  - split_and!.
    + intros tid2 Hne. split; [by rewrite (view_merge_other tid tid2 s v)|].
      intros k w. by apply merge_webhook.
    + right. by rewrite view_merge.
    + intros s2 s2' x y Hfk2 Hv Hrun2 ->.
      destruct (scoped_cases _ _ _ _ _ _ Hrun2) as [[_ [?|?]]|(v2 & Hm2 & -> & Ha2 & Hc2)]; [done..|].
      rewrite Hv, Hm in Hm2. simplify_eq. by rewrite !view_merge.
Qed.

(** Two tenants with a campaign each; the handler of one renames every campaign and deletes every
    task it can. *)
Definition two_tenants : db := empty_db
  <| t_campaign := {[ 10%N := sample_campaign CampaignStatus.drafted;
                      11%N := sample_campaign CampaignStatus.live <| Campaign.id := 11%N |>
                                                                  <| Campaign.tenant_id := 2%N |> ]} |>
  <| t_campaign_channel_budget := {[ (10%N, 1%N) := CampaignChannelBudget.mk 10 1 5 5 0;
                                     (11%N, 2%N) := CampaignChannelBudget.mk 11 2 5 5 0 ]} |>.
Definition rename_all : M Z := update_where (λ _, true) (λ c, c <| Campaign.name := "Mine" |>).

Definition tenancy_env : env := mkenv 1 "user" None id.

Lemma two_tenants_fk : fk_ok two_tenants.
Proof.
  split; [done..|]. intros k r Hr. revert k r Hr. change (map_Forall (λ _ r, is_Some
    (t_campaign two_tenants !! CampaignChannelBudget.campaign_id r)) (t_campaign_channel_budget two_tenants)).
  eapply (bool_decide_unpack (map_Forall _ _)). by vm_compute.
Qed.

Lemma tenant_isolation_witness :
  let '(s', r) := scoped 1 rename_all tenancy_env two_tenants in
  r = inr 1 ∧ Campaign.name <$> t_campaign s' !! 10%N = Some "Mine" ∧
  t_campaign (view 2 s') = t_campaign (view 2 two_tenants).
Proof.
  destruct (scoped 1 rename_all tenancy_env two_tenants) as [s' r] eqn:Hrun.
  destruct (tenant_isolation 1 rename_all tenancy_env two_tenants s' r two_tenants_fk Hrun) as (Hother & _ & _).
  destruct (Hother 2%N ltac:(done)) as [-> _].
  vm_compute in Hrun. injection Hrun as <- <-. repeat split; vm_compute; reflexivity.
Defined.
