(* ===== verification/Auth.v ===== *)
(** * Logging in: src/app/api/auth.py, src/app/api/deps.py, src/app/api/me.py

    Who a browser session belongs to, and what a request made with it can reach. The provider's
    answer is an argument ([authorised]); the session is threaded explicitly. [serve] is a whole
    request: who is asking, their role, and the handler under their tenant's policies. Here a [db]
    is the whole database: the login and [get_current_user] run before any tenant is known. *)

From S2P Require Export Requests AuditTrail Tenancy.
From S2P Require Import Fixtures.
Local Open Scope Z_scope.

(** A new user is audited as any insert is. *)
#[export] Instance app_user_snapshot : Snapshot AppUser.t := λ u, [
  ("id", j_uuid (AppUser.id u));
  ("tenant_id", j_uuid (AppUser.tenant_id u));
  ("email", JStr (AppUser.email u));
  ("display_name", jopt JStr (AppUser.display_name u));
  ("role", j_enum (AppUser.role u));
  ("is_active", JBool (AppUser.is_active u));
  ("last_login_at", jopt j_time (AppUser.last_login_at u));
  ("created_at", j_time (AppUser.created_at u));
  ("updated_at", j_time (AppUser.updated_at u))].
#[export] Instance app_user_tracked : Tracked AppUser.t :=
  {| entity_kind := "app_user"; tenant_of := AppUser.tenant_id |}.

(** ** Sessions *)

Definition logged_in (user : AppUser.t) (tenant_id : N) (sess : session) : session :=
  dset "tenant_id" (uuid_str tenant_id) (dset "user_id" (uuid_str (AppUser.id user)) sess).

(** What [authorize_access_token] gives: the token, or its [OAuthError]. *)
Inductive authorised := Token (token : jdict) | OAuthError (msg : string).

(** [token.get("userinfo") or {}]. *)
Definition userinfo (token : jdict) : exn + jdict :=
  match dget "userinfo" token with
  | Some (JObj claims) => inr claims
  | Some v => if truthy v then inl (AttributeError "get") else inr []
  | None => inr []
  end.

(** A parameter of a query, or of an insert, into a text column. *)
Definition text_param (v : json) : exn + string :=
  match v with JStr x => inr x | _ => inl (OtherError "DataError") end.

(** [if not v: raise x]. *)
Definition required (v : option json) (x : exn) : M json :=
  match v with
  | Some v => raise_if (negb (truthy v)) x ;; mret v
  | None => raise x
  end.

(** Columns of type CITEXT compare in lower case; NULL equals nothing. *)
Definition citext_eq (x y : string) : bool := str_lower x ==b str_lower y.
Definition hosts (hd : string) (t : Tenant.t) : bool :=
  from_option (citext_eq hd) false (Tenant.oidc_hosted_domain t).
Definition has_email (email : string) (u : AppUser.t) : bool := citext_eq (AppUser.email u) email.

(** The user made on the first login. *)
Definition new_viewer (t : Z) (tenant_id : N) (email name : string) (id : N) : AppUser.t := {|
  AppUser.id := id; AppUser.tenant_id := tenant_id; AppUser.email := email;
  AppUser.display_name := Some name; AppUser.role := UserRole.viewer; AppUser.is_active := true;
  AppUser.last_login_at := None; AppUser.created_at := t; AppUser.updated_at := t |}.

(** The user with this email at the tenant; a viewer is made of one who has none. *)
Definition user_or_viewer (tenant : Tenant.t) (email : string) (name : json) : M AppUser.t :=
  users ← select (λ u, (AppUser.tenant_id u ==b Tenant.id tenant) && has_email email u);
  found ← scalar_one_or_none users;
  match found with
  | Some user => mret user
  | None =>
      t ← asks now;
      name ← of_sum (text_param (if truthy name then name else JStr email));
      add_tracked (new_viewer t (Tenant.id tenant) email name)
  end.

(** [app/api/auth.py] lines 52-100, [callback]. The new session; the address is always /api/me. *)
Definition callback (sess : session) (auth : authorised) : M session := transaction (
  token ← match auth with
          | Token token => mret token
          | OAuthError msg => raise (HTTPException 400 ("OIDC error: " +:+ msg))
          end;
  claims ← of_sum (userinfo token);
  let email := dget "email" claims in
  let hd := dget "hd" claims in
  email ← required email (HTTPException 400 "ID token missing email");
  hd ← required hd (HTTPException 403 "ID token missing hosted-domain claim (hd)");
  hd ← of_sum (text_param hd);
  tenants ← select (hosts hd);
  found ← scalar_one_or_none tenants;
  match found with
  | None => raise (HTTPException 403 ("No tenant configured for hosted domain '" +:+ hd +:+ "'"))
  | Some tenant =>
      email ← of_sum (text_param email);
      user ← user_or_viewer tenant email (default JNull (dget "name" claims));
      mret (logged_in user (Tenant.id tenant) sess)
  end).

(** [app/api/auth.py] lines 103-106, [logout]. *)
Definition logout (sess : session) : session := [].

(** [app/api/auth.py] lines 109-131, [dev_impersonate]. *)
Definition dev_impersonate (dev_impersonation_enabled : bool) (sess : session) (email : string) : M session :=
  raise_if (negb dev_impersonation_enabled) (HTTPException 404 "Not Found") ;;
  users ← select (has_email email);
  found ← scalar_one_or_none users;
  match found with
  | None => raise (HTTPException 404 ("no user with email '" +:+ email +:+ "'"))
  | Some user => mret (logged_in user (AppUser.tenant_id user) sess)
  end.

(** ** Requests *)

(** [app/api/deps.py] lines 21-39, [get_current_user]. [None]: no session middleware. *)
Definition get_current_user (sess : option session) : M AppUser.t :=
  let user_id := dget "user_id" (default [] sess) in
  match user_id with
  | None => raise (HTTPException 401 "Not authenticated")
  | Some user_id =>
      if str_empty user_id then raise (HTTPException 401 "Not authenticated") else
      match uuid_parse user_id with
      | None => raise (ValueError "badly formed hexadecimal UUID string")
      | Some k =>
          found ← get_row k;
          match found with
          | None => raise (HTTPException 401 "User not found or inactive")
          | Some user =>
              raise_if (negb (AppUser.is_active user)) (HTTPException 401 "User not found or inactive") ;;
              mret user
          end
      end
  end.

(** [current_actor_kind.set("user")] and [current_actor_id.set(user.id)], for the rest of the request. *)
Definition acting {A} (user : AppUser.t) (m : M A) : M A := actor_context "user" (Some (AppUser.id user)) m.

(** A request to an endpoint of the tenant's data. *)
Definition serve {A} (minimum : UserRole.t) (sess : option session) (handler : AppUser.t → M A) : M A :=
  current ← get_current_user sess;
  acting current (request minimum current (λ user, scoped (AppUser.tenant_id user) (handler user))).

(** [app/api/me.py] lines 11-19, [me]. *)
Definition me (sess : option session) : M jdict :=
  current ← get_current_user sess;
  mret [("id", j_uuid (AppUser.id current)); ("tenant_id", j_uuid (AppUser.tenant_id current));
        ("email", JStr (AppUser.email current)); ("display_name", jopt JStr (AppUser.display_name current));
        ("role", j_enum (AppUser.role current))].

(** [app/api/_protected.py] lines 15-17, [marketer_only]. *)
Definition marketer_only (sess : option session) : M jdict :=
  current ← get_current_user sess;
  require_role UserRole.marketer current ;;
  mret [("status", JStr "ok")].

(** [app/observability/middleware.py] lines 13-29, [tag_span_with_actor]. The attributes set on the
    span of the request, where there is a recording one; [None]: no session yet. *)
Definition tag_span_with_actor (recording : bool) (sess : option session) : list (string * string) :=
  let tag k name := match dget k (default [] sess) with
                    | Some v => if str_empty v then [] else [(name, v)]
                    | None => []
                    end in
  if recording then tag "user_id" "mas.user.id" ++ tag "tenant_id" "mas.tenant.id" else [].

(** ** What a login gives *)

(** A claim of the provider's answer. *)
Definition claimed (auth : authorised) (k : string) : option json :=
  match auth with
  | Token token => match dget "userinfo" token with Some (JObj claims) => dget k claims | _ => None end
  | OAuthError _ => None
  end.

(** UUIDs have 128 bits. *)
Definition uuids_ok (s : db) : Prop :=
  map_Forall (λ k _, (k < 2 ^ 128)%N) (t_app_user s) ∧ (next_uuid s < 2 ^ 128)%N.

(** What a session can do: it is one user's, whose row decides, every time, whether there is a request
    at all, its role and its tenant. *)
Lemma serve_session {A} sess k minimum (h : AppUser.t → M A) e s :
  (k < 2 ^ 128)%N → dget "user_id" sess = Some (uuid_str k) →
  serve minimum (Some sess) h e s =
    match t_app_user s !! k with
    | Some u => if AppUser.is_active u
                then acting u (request minimum u (λ u, scoped (AppUser.tenant_id u) (h u))) e s
                else (s, inl (HTTPException 401 "User not found or inactive"))
    | None => (s, inl (HTTPException 401 "User not found or inactive"))
    end.
Proof.
  intros Hk Hs. unfold serve, get_current_user. change (default [] (Some sess)) with sess. rewrite Hs.
  replace (str_empty (uuid_str k)) with false by done. cbn.
  rewrite uuid_parse_str by done. unfold mbind at 1, M_bind at 1. run_pure.
  change (rows s) with (t_app_user s). destruct (t_app_user s !! k) as [u|]; [|done].
  by destruct (AppUser.is_active u).
Qed.

Lemma logged_in_user user tid sess : dget "user_id" (logged_in user tid sess) = Some (uuid_str (AppUser.id user)).
Proof. unfold logged_in. rewrite dget_dset_ne by done. by rewrite dget_dset_eq. Qed.

(** A request of one tenant leaves what another sees, whether it succeeds or not. *)
Lemma request_scoped_other {A} tid2 minimum user (h : AppUser.t → M A) e s s' r :
  tid2 ≠ AppUser.tenant_id user →
  request minimum user (λ u, scoped (AppUser.tenant_id u) (h u)) e s = (s', r) →
  view tid2 s' = view tid2 s <| t_raw_webhook := restrict (webhook_visible tid2) (t_raw_webhook s') |>
                             <| next_uuid := next_uuid s' |>.
Proof.
  intros Hne Hrun. destruct r as [x|x].
  - apply request_inl in Hrun as ->. by destruct s.
  - apply request_inr in Hrun as [_ Hrun].
    apply scoped_cases in Hrun as [[_ [?|?]]|(v & _ & -> & Ha & Hc)]; [done..|].
    by rewrite (view_merge_other (AppUser.tenant_id user) tid2 s v).
Qed.

Lemma transaction_inr {A} (m : M A) e s s' x : transaction m e s = (s', inr x) → m e s = (s', inr x).
Proof. unfold transaction. by destruct (m e s) as [s1 [y|y]]. Qed.

Lemma required_inr v x e s s' a : required v x e s = (s', inr a) → v = Some a ∧ s' = s.
Proof. destruct v as [v|]; [|done]. intros Hrun. cbn in Hrun. inv_run. done. Qed.

Lemma text_param_inr v x : text_param v = inr x → v = JStr x.
Proof. destruct v; try done. by intros [= ->]. Qed.

Lemma userinfo_dget token claims k v :
  userinfo token = inr claims → dget k claims = Some v → claimed (Token token) k = Some v.
Proof.
  unfold userinfo, claimed. destruct (dget "userinfo" token) as [[]|]; simpl; intros Hu Hk;
    repeat case_match; simplify_eq; done.
Qed.

(** The database after the first login of [u]: its row, and the audit row of the insert. *)
Definition provisioned (e : env) (u : AppUser.t) (s : db) : db :=
  (add_tracked (λ _, u) e s).1.

Lemma user_or_viewer_inr tenant email name e s s' user :
  keyed AppUser.t s → user_or_viewer tenant email name e s = (s', inr user) →
  AppUser.tenant_id user = Tenant.id tenant ∧ has_email email user = true ∧
  (s' = s ∧ t_app_user s !! AppUser.id user = Some user ∨
   (∃ x, user = new_viewer (now e) (Tenant.id tenant) email x (next_uuid s)) ∧ s' = provisioned e user s ∧
   ∀ k u, t_app_user s !! k = Some u → AppUser.tenant_id u = Tenant.id tenant → has_email email u = false).
Proof.
  intros Hkey. unfold user_or_viewer. intros Hrun. rewrite bind_select in Hrun.
  apply bind_inr in Hrun as (s1 & found & Hone & Hrun).
  apply scalar_cases in Hone as [-> [[-> Hnil]|(u & -> & Hu)]]; simpl in Hrun; cbv zeta in Hrun.
  - inv_run. set (v := new_viewer _ _ _ _) in Hrun.
    assert (user = v (next_uuid s) ∧ s' = provisioned e user s) as [-> ->].
    { unfold provisioned, add_tracked in *. cbn in *. by injection Hrun as <- <-. }
    split_and!; [done|apply bool_decide_eq_true; done|]. right. split_and!; [by eexists|done|].
    intros k u Hk Ht. apply not_true_is_false. intros He.
    assert (u ∈ @nil AppUser.t) as []%elem_of_nil.
    rewrite <- Hnil. apply elem_of_select. split; [by exists k|]. by rewrite Ht, He, bool_decide_true.
  - apply ret_inr in Hrun as [-> ->].
    assert (u ∈ [u]) as Hin by by left. rewrite <- Hu in Hin.
    apply (select_pk_lookup _ _ _ Hkey) in Hin as [Hrow Hp].
    apply andb_true_iff in Hp as [Ht He]. apply bool_decide_eq_true in Ht. split_and!; eauto.
Qed.

(** The callback that succeeds. *)
Lemma callback_inr sess auth e s s' sess' :
  keyed Tenant.t s → keyed AppUser.t s → callback sess auth e s = (s', inr sess') →
  ∃ hd email name tenant user,
    claimed auth "hd" = Some (JStr hd) ∧ claimed auth "email" = Some (JStr email) ∧
    t_tenant s !! Tenant.id tenant = Some tenant ∧
    (∀ k t, t_tenant s !! k = Some t → hosts hd t = true ↔ t = tenant) ∧
    sess' = logged_in user (Tenant.id tenant) sess ∧
    user_or_viewer tenant email name e s = (s', inr user).
Proof.
  intros Hkt Hku. unfold callback. intros Hrun.
  apply transaction_inr in Hrun. destruct auth as [token|msg]; [|done].
  apply bind_inr in Hrun as (? & ? & Hr & Hrun). apply ret_inr in Hr as [-> ->].
  apply bind_inr in Hrun as (? & claims & Hr & Hrun). apply of_sum_inr in Hr as [Hc ->]. cbv zeta in Hrun.
  apply bind_inr in Hrun as (? & email & Hr & Hrun). apply required_inr in Hr as [Hemail ->].
  apply bind_inr in Hrun as (? & hd & Hr & Hrun). apply required_inr in Hr as [Hhd ->].
  apply bind_inr in Hrun as (? & h & Hr & Hrun). apply of_sum_inr in Hr as [->%text_param_inr ->].
  rewrite bind_select in Hrun. apply bind_inr in Hrun as (? & found & Hr & Hrun).
  apply scalar_cases in Hr as [-> [[-> _]|(tenant & -> & Ht)]]; [done|].
  apply bind_inr in Hrun as (? & m & Hr & Hrun). apply of_sum_inr in Hr as [->%text_param_inr ->].
  apply bind_inr in Hrun as (? & user & Hr & Hrun). apply ret_inr in Hrun as [-> ->].
  exists h, m, (default JNull (dget "name" claims)), tenant, user.
  assert (∀ t, (∃ k, t_tenant s !! k = Some t) ∧ hosts h t = true ↔ t ∈ [tenant]) as Hall.
  { intros t. rewrite <- Ht. symmetry. change (t_tenant s) with (rows (R:=Tenant.t) s). apply elem_of_select. }
  split_and!; [by eapply userinfo_dget..| | |done|done].
  - assert (tenant ∈ [tenant]) as Hin by by left. rewrite <- Ht in Hin.
    by apply (select_pk_lookup _ _ _ Hkt) in Hin as [Hrow _].
  - intros k t Hk. rewrite <- (list_elem_of_singleton t tenant), <- Hall. split; [eauto|by intros [_ ?]].
Qed.

(** C6: a login puts the session in exactly one tenant, the only one whose hosted domain the identity
    provider vouched for, as its user of the vouched email: a user it has, or a new viewer, whose row
    and audit row are all the login writes. From then on, whatever the database becomes while that
    user stays in that tenant, a request of this session runs as that user and as nobody else: a
    user who is gone or deactivated is refused with 401 and changes nothing, one whose role is too
    low is refused with 403 and changes nothing, and no request, whatever its handler, touches what
    another tenant sees. *)
Theorem login_confines sess auth e s s' sess' :
  keyed Tenant.t s → keyed AppUser.t s → uuids_ok s →
  callback sess auth e s = (s', inr sess') →
  ∃ hd email tenant user,
    claimed auth "hd" = Some (JStr hd) ∧ claimed auth "email" = Some (JStr email) ∧
    (∀ k t, t_tenant s !! k = Some t → hosts hd t = true ↔ t = tenant) ∧
    AppUser.tenant_id user = Tenant.id tenant ∧ has_email email user = true ∧
    (s' = s ∧ t_app_user s !! AppUser.id user = Some user ∨
     AppUser.role user = UserRole.viewer ∧ s' = provisioned e user s ∧
     ∀ k u, t_app_user s !! k = Some u → AppUser.tenant_id u = Tenant.id tenant → has_email email u = false) ∧
    ∀ A minimum (h : AppUser.t → M A) e1 s1 s2 r,
      (∀ u, t_app_user s1 !! AppUser.id user = Some u → AppUser.tenant_id u = Tenant.id tenant) →
      serve minimum (Some sess') h e1 s1 = (s2, r) →
      match t_app_user s1 !! AppUser.id user with
      | Some u =>
          if AppUser.is_active u then
            if ROLE_RANK (AppUser.role u) <? ROLE_RANK minimum
            then s2 = s1 ∧ r = inl (HTTPException 403 ("requires role >= " +:+ value minimum))
            else ∀ tid2, tid2 ≠ Tenant.id tenant →
              view tid2 s2 = view tid2 s1 <| t_raw_webhook := restrict (webhook_visible tid2) (t_raw_webhook s2) |>
                                          <| next_uuid := next_uuid s2 |>
          else s2 = s1 ∧ r = inl (HTTPException 401 "User not found or inactive")
      | None => s2 = s1 ∧ r = inl (HTTPException 401 "User not found or inactive")
      end.
Proof.
  intros Hkt Hku [Hids Hnext] Hrun.
  destruct (callback_inr _ _ _ _ _ _ Hkt Hku Hrun) as (hd & email & name & tenant & user & Hhd & Hem & _ & Honly & -> & Hu).
  destruct (user_or_viewer_inr _ _ _ _ _ _ _ Hku Hu) as (Htid & Hmail & Hrow).
  assert (AppUser.id user < 2 ^ 128)%N as Hid.
  { destruct Hrow as [[_ Hrow]|[[x ->] _]]; [by apply (Hids _ _ Hrow)|done]. }
  exists hd, email, tenant, user. split_and!; [done..| |].
  { destruct Hrow as [?|[[x ->] ?]]; [by left|right]. split; [done|done]. }
  intros A minimum h e1 s1 s2 r Hstay Hserve.
  rewrite (serve_session _ _ _ _ _ _ Hid (logged_in_user _ _ _)) in Hserve.
  destruct (t_app_user s1 !! AppUser.id user) as [u|]; [|by injection Hserve as <- <-].
  destruct (AppUser.is_active u); [|by injection Hserve as <- <-].
  specialize (Hstay u eq_refl).
  destruct (_ <? _) eqn:Hrank.
  - unfold acting, actor_context, request, require_role in Hserve. rewrite Hrank in Hserve. by injection Hserve as <- <-.
  - intros tid2 Hne. unfold acting, actor_context in Hserve.
    apply (request_scoped_other tid2 minimum u h _ _ _ _) in Hserve; [done|]. by rewrite Hstay.
Qed.

(** A returning user of the first of two tenants, whose requests rename campaigns. *)
Definition acme_tenant (k : N) (hd : string) : Tenant.t := Tenant.mk k "Acme" None (Some hd) "standard" 0 0.
Definition acme_db : db := two_tenants
  <| t_tenant := {[ 1%N := acme_tenant 1 "Example.com"; 2%N := acme_tenant 2 "other.com" ]} |>
  <| t_app_user := {[ 30%N := sample_user UserRole.marketer ]} |>.
Definition acme_token : authorised := Token
  [("userinfo", JObj [("email", JStr "R@example.com"); ("hd", JStr "example.com")])].
Definition acme_session : session := logged_in (sample_user UserRole.marketer) 1 [].

Lemma acme_keyed : keyed Tenant.t acme_db ∧ keyed AppUser.t acme_db.
Proof.
  split; intros k r Hr; revert k r Hr.
  - change (map_Forall (λ k r, Tenant.id r = k) (t_tenant acme_db)).
    eapply (bool_decide_unpack (map_Forall _ _)). by vm_compute.
  - change (map_Forall (λ k r, AppUser.id r = k) (t_app_user acme_db)).
    eapply (bool_decide_unpack (map_Forall _ _)). by vm_compute.
Qed.

Lemma acme_uuids : uuids_ok acme_db.
Proof.
  split; [|done]. apply (map_Forall_singleton (λ k _, (k < 2 ^ 128)%N) 30%N (sample_user UserRole.marketer)). done.
Qed.

Lemma login_confines_witness :
  callback [] acme_token tenancy_env acme_db = (acme_db, inr acme_session) ∧
  let '(s2, r) := serve UserRole.marketer (Some acme_session) (λ _, rename_all) tenancy_env acme_db in
  r = inr 1 ∧ t_campaign (view 2 s2) = t_campaign (view 2 acme_db) ∧
  serve UserRole.manager (Some acme_session) (λ _, rename_all) tenancy_env acme_db =
    (acme_db, inl (HTTPException 403 "requires role >= manager")).
Proof.
  assert (callback [] acme_token tenancy_env acme_db = (acme_db, inr acme_session)) as Hlogin by by vm_compute.
  split; [exact Hlogin|].
  destruct (login_confines _ _ _ _ _ _ (proj1 acme_keyed) (proj2 acme_keyed) acme_uuids Hlogin)
    as (hd & email & tenant & user & Hhd & Hem & Honly & Htid & Hmail & Hrow & Hserve).
  injection Hhd as <-. injection Hem as <-.
  pose proof (proj1 (Honly 1%N (acme_tenant 1 "Example.com") eq_refl) eq_refl) as <-.
  assert (AppUser.id user = 30%N) as Hid.
  { destruct Hrow as [[_ Hu]|(_ & _ & Hnew)]; [|by specialize (Hnew 30%N _ eq_refl eq_refl)].
    change (({[ 30%N := sample_user UserRole.marketer ]} : gmap N AppUser.t) !! AppUser.id user = Some user) in Hu.
    by apply lookup_singleton_Some in Hu as [<- _]. }
  assert (∀ u, t_app_user acme_db !! AppUser.id user = Some u → AppUser.tenant_id u = 1%N) as Hstay.
  { rewrite Hid. by intros u [= <-]. }
  destruct (serve UserRole.marketer _ _ _ _) as [s2 r] eqn:Hrun.
  pose proof (Hserve _ _ _ _ _ _ _ Hstay Hrun) as Hother. rewrite Hid in Hother. simpl in Hother.
  split_and!.
  - vm_compute in Hrun. by injection Hrun as _ <-.
  - by rewrite (Hother 2%N ltac:(done)).
  - destruct (serve UserRole.manager _ _ _ _) as [s3 r3] eqn:Hrun3.
    pose proof (Hserve _ _ _ _ _ _ _ Hstay Hrun3) as Hlow. rewrite Hid in Hlow.
    by destruct Hlow as [-> ->].
Defined.

(** [dev_impersonate] looks an email up over all the tenants: where two have a user of that email, and
    emails are unique only within a tenant, neither can be impersonated. *)
Lemma dev_impersonate_ambiguous sess e :
  (dev_impersonate true sess "r@example.com" e
    (acme_db <| t_app_user := {[ 30%N := sample_user UserRole.viewer;
                                 31%N := sample_user UserRole.viewer <| AppUser.id := 31%N |>
                                                                     <| AppUser.tenant_id := 2%N |> ]} |>)).2
  = inl MultipleResultsFound.
Proof. vm_compute. reflexivity. Qed.

(** A deactivated user still gets a session, one that no request accepts. *)
Lemma inactive_user_session :
  let s := acme_db <| t_app_user := {[ 30%N := sample_user UserRole.marketer <| AppUser.is_active := false |> ]} |> in
  (callback [] acme_token tenancy_env s).2 = inr acme_session ∧
  (get_current_user (Some acme_session) tenancy_env s).2 = inl (HTTPException 401 "User not found or inactive").
Proof. split; vm_compute; reflexivity. Qed.
