(* ===== verification/Jsonb.v ===== *)
(** * JSONB operators of the queries

    The text of a JSONB value as [->>] gives it, path access, and the pattern
    match of ILIKE. SQL's NULL is [None]. *)

From S2P Require Export AuditTrail.
Local Open Scope Z_scope.

(** ** Text of a JSONB value *)

(** JSONB orders an object's keys by length, then bytewise. *)
Definition jsonb_key_le (a b : string * json) : Prop :=
  (String.length a.1 < String.length b.1)%nat ∨
  (String.length a.1 = String.length b.1 ∧ String.leb a.1 b.1 = true).
#[export] Instance jsonb_key_le_dec : RelDecision jsonb_key_le.
Proof. intros x y. unfold jsonb_key_le. apply _. Defined.

(** [d.items()] of an object that comes from a JSONB column. *)
Definition items (d : jdict) : jdict := merge_sort jsonb_key_le d.

Definition quote_char : ascii := ascii_of_N 34.

Fixpoint json_escape (s : string) : string :=
  match s with
  | EmptyString => ""
  | String c s =>
      let n := N_of_ascii c in
      (if (c ==b quote_char) || (c ==b "\"%char) then String "\" (String c "")
       else if (n =? 8)%N then "\b" else if (n =? 9)%N then "\t"
       else if (n =? 10)%N then "\n" else if (n =? 12)%N then "\f"
       else if (n =? 13)%N then "\r"
       else if (n <? 32)%N then "\u00" +:+ hexs 2 n
       else String c "") +:+ json_escape s
  end.

Definition json_quote (s : string) : string :=
  String quote_char (json_escape s +:+ String quote_char "").

(** The [numeric] a JSON number becomes, in plain notation. *)
Definition numeric_text (d : dec) : string :=
  let ds := str_of_Z (Z.abs (dm d)) in
  let n := Z.of_nat (String.length ds) in
  (if dm d <? 0 then "-" else "") +:+
  if 0 <=? de d then ds +:+ zeros (Z.to_nat (de d))
  else if n <=? - de d then "0." +:+ zeros (Z.to_nat (- de d - n)) +:+ ds
  else str_take (Z.to_nat (n + de d)) ds +:+ "."
       +:+ String.substring (Z.to_nat (n + de d)) (Z.to_nat n) ds.

Fixpoint jsonb_text (v : json) : string :=
  match v with
  | JNull => "null"
  | JBool b => if b then "true" else "false"
  | JInt z => str_of_Z z
  | JFloat d => numeric_text d
  | JStr s => json_quote s
  | JList l => "[" +:+ str_join ", " (jsonb_text <$> l) +:+ "]"
  | JObj d =>
      "{" +:+ str_join ", "
        ((λ kv : string * json, json_quote kv.1 +:+ ": " +:+ json_str kv.2) <$>
           merge_sort jsonb_key_le ((λ kv, (kv.1, JStr (jsonb_text kv.2))) <$> d)) +:+ "}"
  end.

(** [v #>> '{}']: what [->>] gives for a value. *)
Definition astext (v : option json) : option string :=
  match v with
  | None | Some JNull => None
  | Some (JStr s) => Some s
  | Some v => Some (jsonb_text v)
  end.

(** [v -> k]: NULL unless [v] is an object that has [k]. *)
Definition jget (k : string) (v : option json) : option json :=
  match v with Some (JObj d) => dget k d | _ => None end.

Example astext_true : astext (jget "a" (Some (JObj [("a", JBool true)]))) = Some "true".
Proof. reflexivity. Qed.
Example jsonb_text_obj :
  jsonb_text (JObj [("bb", JInt 1); ("a", JList [JNull; JFloat (Dec 15 (-1))])])
  = "{" +:+ json_quote "a" +:+ ": [null, 1.5], " +:+ json_quote "bb" +:+ ": 1}".
Proof. reflexivity. Qed.

(** ** ILIKE *)

(** [LIKE] on already lowered strings: [%] any sequence, [_] any character, a
    backslash escapes. *)
Fixpoint like_match (p s : string) {struct p} : bool :=
  match p with
  | EmptyString => str_empty s
  | String c p' =>
      if c ==b "%"%char then
        (fix any (s : string) : bool :=
           like_match p' s || match s with EmptyString => false | String _ s' => any s' end) s
      else if c ==b "\"%char then
        match p' with
        | String c' p'' =>
            match s with
            | String x s' => (x ==b c') && like_match p'' s'
            | EmptyString => false
            end
        | EmptyString => false
        end
      else
        match s with
        | String x s' => ((c ==b "_"%char) || (x ==b c)) && like_match p' s'
        | EmptyString => false
        end
  end.

Definition ilike (s p : string) : bool := like_match (str_lower p) (str_lower s).

Example ilike_1 : ilike "Demo-2024" "%DEMO%" = true. Proof. reflexivity. Qed.
Example ilike_2 : ilike "abc" "a_d%" = false. Proof. reflexivity. Qed.
