(* ===== verification/Preview.v ===== *)
(** * Previews of an asset

    src/app/agents/_preview.py: the merge fields of a draft, their sample values, and the audit
    of an audience against them. src/app/api/preview.py: the preview endpoints and the signed
    links that show a preview without a login. [URLSafeTimedSerializer] is a parameter:
    [dumps secret salt t payload] signs at the time [t], [loads secret salt t max_age token]
    verifies at the time [t]. *)

From S2P Require Export Requests Jsonb Regex Copywriting.
Local Open Scope Z_scope.

(** ** Merge fields *)

(** [app/agents/_preview.py] lines 34-47, [_DEFAULT_SAMPLE_VALUES]. *)
Definition _DEFAULT_SAMPLE_VALUES : list (string * string) := [
  ("first_name", "Alex");
  ("last_name", "Rivera");
  ("full_name", "Alex Rivera");
  ("company", "Acme Corp");
  ("company_name", "Acme Corp");
  ("email", "alex@example.com");
  ("title", "Director of Marketing");
  ("city", "London");
  ("country", "United Kingdom");
  ("today", "Today");
  ("unsubscribe_url", "https://example.com/unsubscribe");
  ("preferences_url", "https://example.com/preferences")].

Definition char_is (c : ascii) : regex := Chr (λ x, x ==b c).
Definition char_range (lo hi : ascii) (x : ascii) : bool :=
  ((N_of_ascii lo <=? N_of_ascii x) && (N_of_ascii x <=? N_of_ascii hi))%N.
Definition name_start (x : ascii) : bool :=
  char_range "a" "z" x || char_range "A" "Z" x || (x ==b "_"%char).
Definition name_char (x : ascii) : bool := name_start x || char_range "0" "9" x.

(** [app/agents/_preview.py] lines 51-51, [_MERGE_FIELD_RE]. *)
Definition _MERGE_FIELD_RE : regex :=
  seqs [char_is "{"; char_is "{"; Star space_class; Chr name_start; Star (Chr name_char);
        Star space_class; char_is "}"; char_is "}"].

(** The text between two positions. *)
Definition slice (s : string) (span : nat * nat) : string := String.substring span.1 (span.2 - span.1) s.

(** [m.group(1)]: a match without its braces and the space inside them. *)
Definition group_1 (m : string) : string := str_strip (String.substring 2 (String.length m - 4) m).

(** [re.sub(f, s)], the spans of the matches given. *)
Fixpoint sub_spans (f : string → string) (s : string) (pos : nat) (spans : list (nat * nat)) : string :=
  match spans with
  | [] => slice s (pos, String.length s)
  | span :: spans => slice s (pos, span.1) +:+ f (slice s span) +:+ sub_spans f s span.2 spans
  end.
Definition re_sub (r : regex) (f : string → string) (s : string) : string := sub_spans f s 0 (finditer r s).

(** The names a text refers to, in lower case, in order. *)
Definition merge_names (s : string) : list string :=
  (λ span, str_lower (group_1 (slice s span))) <$> finditer _MERGE_FIELD_RE s.

(** [app/agents/_preview.py] lines 71-85, [extract_merge_fields]. *)
Definition extract_merge_fields (raw_strings : list json) : list string :=
  fold_left (λ out v,
    match v with
    | JStr s => fold_left (λ out name, if name ∈b out then out else out ++ [name]) (merge_names s) out
    | _ => out
    end) raw_strings [].

(** [app/agents/_preview.py] lines 182-184, [_normalise_keys]. *)
Definition _normalise_keys (d : jdict) : jdict := fold_left (λ acc kv, dset (str_lower kv.1) kv.2 acc) d [].

(** [app/agents/_preview.py] lines 54-68, [PreviewResolution]. *)
Record PreviewResolution := {
  resolved_fields : list (string * string);
  unresolved_fields : list string;
  referenced_fields : list string;
}.

(** The replacement of one match. *)
Definition replace_field (resolved : list (string * string)) (m : string) : string :=
  default m (dget (str_lower (group_1 m)) resolved).

(** [app/agents/_preview.py] lines 62-68, [PreviewResolution.applied_to]. *)
Definition applied_to (self : PreviewResolution) (raw : string) : string :=
  re_sub _MERGE_FIELD_RE (replace_field (resolved_fields self)) raw.

(** The value of a referenced name: the caller's, or the default. *)
Definition field_value (caller_lookup : jdict) (name : string) : option string :=
  match dget name caller_lookup with
  | Some v => Some (json_str v)
  | None => dget name _DEFAULT_SAMPLE_VALUES
  end.

(** The loop over the referenced names. *)
Definition resolve_names (caller_lookup : jdict) (referenced : list string)
    : list (string * string) * list string :=
  fold_left (λ acc name,
    match field_value caller_lookup name with
    | Some v => (dset name v acc.1, acc.2)
    | None => (acc.1, acc.2 ++ [name])
    end) referenced ([], []).

Definition render (resolved : list (string * string)) (raw : json) : json :=
  match raw with
  | JStr s => JStr (re_sub _MERGE_FIELD_RE (replace_field resolved) s)
  | _ => raw
  end.

(** [app/agents/_preview.py] lines 88-129, [resolve_merge_fields]. *)
Definition resolve_merge_fields (text_fields sample_values : jdict) : jdict * PreviewResolution :=
  let caller_lookup := _normalise_keys sample_values in
  let referenced := extract_merge_fields (snd <$> text_fields) in
  let '(resolved, unresolved) := resolve_names caller_lookup referenced in
  ((λ kv, (kv.1, render resolved kv.2)) <$> text_fields,
   {| resolved_fields := resolved; unresolved_fields := unresolved; referenced_fields := referenced |}).

(** [app/agents/_preview.py] lines 187-192, [_is_resolvable]. *)
Definition _is_resolvable (value : json) : bool :=
  match value with
  | JNull => false
  | JStr s => negb (str_empty (str_strip s))
  | _ => true
  end.

(** The totals of one name. *)
Record field_count := mkcount { n_total : Z; n_unresolved : Z }.
#[export] Instance field_count_eq_dec : EqDecision field_count.
Proof. solve_decision. Defined.

Definition count_one (payload : json) (counts : list (string * field_count)) (name : string)
    : list (string * field_count) :=
  let c := default (mkcount 0 0) (dget name counts) in
  let value := match payload with JObj d => default JNull (dget name d) | _ => JNull end in
  dset name (mkcount (n_total c + 1) (n_unresolved c + (if _is_resolvable value then 0 else 1))) counts.

(** [app/agents/_preview.py] lines 132-152, [audit_audience_resolution]. *)
Definition audit_audience_resolution (referenced : list string) (payloads : list json)
    : list (string * field_count) :=
  fold_left (λ counts payload, fold_left (count_one payload) referenced counts) payloads
    (fold_left (λ counts name, dset name (mkcount 0 0) counts) referenced []).

(** [app/agents/_preview.py] lines 155-179, [channel_constraints_for]. *)
Definition channel_constraints_for (asset_type : string) (channel_platform : option string) : jdict :=
  let keys_to_try := from_option (λ p, if str_empty p then [] else [str_lower p]) [] channel_platform
                     ++ [str_lower asset_type] in
  let found := List.find (λ key, bool_decide (is_Some (dget key _DEFAULT_LENGTH_CONSTRAINTS))) keys_to_try in
  [("length_budgets", JObj (default [] (found ≫= λ key, dget key _DEFAULT_LENGTH_CONSTRAINTS)));
   ("required_fields", JList (JStr <$> default [] (found ≫= λ key, dget key _REQUIRED_FIELDS)))].

(** ** The endpoints *)

(** [app/api/schemas/preview.py] lines 19-28, [PreviewResponse]. *)
Record PreviewResponse := {
  pv_asset_id : N;
  pv_asset_type : string;
  pv_channel_kind : option string;
  pv_title : option string;
  pv_rendered : jdict;
  pv_referenced_fields : list string;
  pv_unresolved_fields : list string;
  pv_resolved_with : list (string * string);
  pv_channel_constraints : jdict;
}.

(** [app/api/preview.py] lines 61-73, [_asset_text_fields]. *)
Definition _asset_text_fields (asset : ContentAsset.t) : jdict :=
  let content := default "" (ContentAsset.content asset) in
  let out := if str_empty content then [] else [("body", JStr content)] in
  match as_obj (dget "fields" (ContentAsset.extra_metadata asset)) with
  | Some fields => fold_left (λ out kv, match kv.2 with JStr _ => dset kv.1 kv.2 out | _ => out end)
                     (items fields) out
  | None => out
  end.

(** [app/api/preview.py] lines 76-81, [_channel_kind]. *)
Definition _channel_kind (asset : ContentAsset.t) : option string :=
  as_str (dget "channel_platform" (ContentAsset.extra_metadata asset))
    ≫= λ platform, if str_empty platform then None else Some platform.

(** [app/api/preview.py] lines 84-104, [_build_preview]. *)
Definition _build_preview (asset : ContentAsset.t) (sample_values : jdict) : PreviewResponse :=
  let '(rendered, report) := resolve_merge_fields (_asset_text_fields asset) sample_values in
  {| pv_asset_id := ContentAsset.id asset;
     pv_asset_type := value (ContentAsset.asset_type asset);
     pv_channel_kind := _channel_kind asset;
     pv_title := ContentAsset.title asset;
     pv_rendered := rendered;
     pv_referenced_fields := referenced_fields report;
     pv_unresolved_fields := unresolved_fields report;
     pv_resolved_with := resolved_fields report;
     pv_channel_constraints := channel_constraints_for (value (ContentAsset.asset_type asset)) (_channel_kind asset) |}.

Definition asset_not_found : exn := HTTPException 404 "content asset not found".

(** [await db.get(ContentAsset, asset_id)], or the 404. *)
Definition preview_target (asset_id : N) : M ContentAsset.t :=
  asset ← get_row (R:=ContentAsset.t) asset_id;
  match asset with None => raise asset_not_found | Some a => mret a end.

(** [app/api/preview.py] lines 107-119, [preview_asset]. *)
Definition preview_asset (asset_id : N) : M PreviewResponse :=
  asset ← preview_target asset_id;
  mret (_build_preview asset []).

(** [app/api/preview.py] lines 122-135, [preview_asset_with_sample_values]. *)
Definition preview_asset_with_sample_values (asset_id : N) (sample_values : list (string * string))
    : M PreviewResponse :=
  asset ← preview_target asset_id;
  mret (_build_preview asset ((λ kv, (kv.1, JStr kv.2)) <$> sample_values)).

(** [app/api/schemas/preview.py] lines 31-34, [AudienceAuditEntry]. *)
Record AudienceAuditEntry := { ae_field : string; ae_total_members : Z; ae_unresolved : Z }.
(** [app/api/schemas/preview.py] lines 37-40, [AudienceAuditResponse]. *)
Record AudienceAuditResponse := {
  ar_asset_id : N; ar_total_members : Z; ar_field_audit : list AudienceAuditEntry }.

(** [app/api/preview.py] lines 138-189, [audit_against_audience]. *)
Definition audit_against_audience (asset_id : N) : M AudienceAuditResponse :=
  asset ← preview_target asset_id;
  audiences ← select (λ a, Audience.campaign_id a ==b ContentAsset.campaign_id asset);
  match head (order_by_desc Audience.created_at audiences) with
  | None => mret {| ar_asset_id := ContentAsset.id asset; ar_total_members := 0; ar_field_audit := [] |}
  | Some audience =>
      members ← select (λ m, AudienceMember.audience_id m ==b Audience.id audience);
      let payloads := (λ m, JObj (AudienceMember.payload m)) <$> members in
      let total := Z.of_nat (length payloads) in
      let report := (resolve_merge_fields (_asset_text_fields asset) []).2 in
      let counts := audit_audience_resolution (referenced_fields report) payloads in
      mret {| ar_asset_id := ContentAsset.id asset;
              ar_total_members := total;
              ar_field_audit := (λ field,
                {| ae_field := field; ae_total_members := total;
                   ae_unresolved := from_option n_unresolved total (dget field counts) |})
                <$> referenced_fields report |}
  end.

(** [app/api/schemas/preview.py] lines 49-53, [ShareResponse]. *)
Record ShareResponse := { sh_asset_id : N; sh_token : string; sh_url_path : string; sh_expires_at : Z }.

(** [app/api/preview.py] lines 51-51, [_SERIALIZER_SALT]. *)
Definition _PREVIEW_SALT : string := "asset-preview-share".

(** What [URLSafeTimedSerializer.loads] does: the payload, or one of its two exceptions. *)
Inductive load_result := Loaded (payload : json) | SignatureExpired | BadSignature.

Definition preview_link_not_found : exn := HTTPException 404 "preview link not found".

Section share.
Context (dumps : string → string → Z → json → string).
Context (loads : string → string → Z → Z → string → load_result).
(** [get_settings()]: effective_preview_share_secret and preview_share_ttl_days. *)
Context (secret : string) (preview_share_ttl_days : Z).

(** What the token carries. *)
Definition share_payload (asset : ContentAsset.t) : json :=
  JObj [("asset_id", j_uuid (ContentAsset.id asset)); ("tenant_id", j_uuid (ContentAsset.tenant_id asset))].

(** [app/api/preview.py] lines 192-244, [share_preview]. *)
Definition share_preview (asset_id : N) (body_ttl_days : option Z) (user : AppUser.t) : M ShareResponse :=
  asset ← preview_target asset_id;
  let ttl_days := match body_ttl_days with
                  | Some d => if d =? 0 then preview_share_ttl_days else d
                  | None => preview_share_ttl_days
                  end in
  t ← asks now;
  let expires_at := t + ttl_days * day in
  let token := dumps secret _PREVIEW_SALT t (share_payload asset) in
  audit (ContentAsset.tenant_id asset) "content_asset" (ContentAsset.id asset) "preview_shared" None None
    [("shared_by_user_id", j_uuid (AppUser.id user)); ("ttl_days", JInt ttl_days);
     ("expires_at", JStr (isoformat expires_at))] ;;
  mret {| sh_asset_id := ContentAsset.id asset; sh_token := token;
          sh_url_path := "/api/preview-links/" +:+ token; sh_expires_at := expires_at |}.

(** [UUID(str(v))]. *)
Definition uuid_of_any (v : json) : option N := uuid_parse (json_str v).

(** [app/api/preview.py] lines 247-288, [consume_share_token]. The session sees the rows of the
    tenant of the token only. *)
Definition consume_share_token (token : string) : M PreviewResponse :=
  t ← asks now;
  match loads secret _PREVIEW_SALT t (preview_share_ttl_days * 86400) token with
  | SignatureExpired => raise (HTTPException 410 "preview link has expired")
  | BadSignature => raise preview_link_not_found
  | Loaded (JObj payload) =>
      match uuid_of_any (default JNull (dget "asset_id" payload)),
            uuid_of_any (default JNull (dget "tenant_id" payload)) with
      | Some asset_id, Some tenant_id =>
          asset ← get_row (R:=ContentAsset.t) asset_id;
          match asset with
          | Some a => if ContentAsset.tenant_id a ==b tenant_id then mret (_build_preview a [])
                      else raise preview_link_not_found
          | None => raise preview_link_not_found
          end
      | _, _ => raise preview_link_not_found
      end
  | Loaded _ => raise preview_link_not_found
  end.
End share.

Example preview_fields :
  resolve_merge_fields [("body", JStr "Hi {{ First_Name }}, {{code}} {{x y}}")] [("CODE", JStr "A1")] =
  ([("body", JStr "Hi Alex, A1 {{x y}}")],
   {| resolved_fields := [("first_name", "Alex"); ("code", "A1")]; unresolved_fields := [];
      referenced_fields := ["first_name"; "code"] |}).
Proof. vm_compute. reflexivity. Qed.
