(* ===== verification/Outbound.v ===== *)
(** * The outbound flow: src/app/outbound and src/app/integrations/apollo.py

    Contacts are enriched by a people directory, sorted into seniority segments, and each
    segment gets a message template per channel, which is rendered contact by contact. The
    HTTP client ([post]), [json.loads] ([loads]) and the language model ([call_model]) are
    parameters. *)

From S2P Require Export Preview.
From S2P Require Import Fixtures.
Local Open Scope Z_scope.

(** [(payload.get(k) or "").strip()]. *)
Definition stripped (k : string) (payload : jdict) : exn + string :=
  match dget k payload with
  | Some (JStr s) => inr (str_strip s)
  | Some v => if truthy v then inl (AttributeError "strip") else inr ""
  | None => inr ""
  end.

(** ** Segments: segmentation.py *)

(** [app/outbound/segmentation.py] lines 27-33, [SegmentBucket]. The talking points are
    [talking_points]. *)
Record SegmentBucket := mkbucket {
  seg_key : string;
  seg_label : string;
  seniority_values : list string;
  title_keywords : list string;
  talking_points : string;
}.

(** [app/outbound/segmentation.py] lines 36-105, [SENIORITY_BUCKETS]. *)
Definition SENIORITY_BUCKETS : list SegmentBucket := [
  mkbucket "c_suite" "C-suite" ["c_suite"; "owner"; "founder"; "partner"]
    ["ceo"; "cto"; "cfo"; "cmo"; "coo"; "cio"; "chief "; "founder"; "co-founder"; "president"; "owner"]
    ("strategic business outcomes, board-level metrics, the cost of " +:+
     "inaction; short and high-altitude. Avoid feature lists.");
  mkbucket "vp" "VP / Head of" ["vp"; "head"]
    ["vp "; "vice president"; "head of"; "svp"; "evp"]
    ("department-level impact, headcount/productivity ratios, the " +:+
     "team's capacity story. One concrete proof point.");
  mkbucket "director" "Director" ["director"; "senior_director"]
    ["director"; "head of"]
    ("operational outcomes for their function, ROI, time-to-value. " +:+
     "Mention a peer/competitor by category if relevant.");
  mkbucket "manager" "Manager" ["manager"; "senior_manager"; "lead"]
    ["manager"; "lead "]
    ("team-level pain, workflow automation, what would free up " +:+
     "their team's time this quarter.");
  mkbucket "ic" "Individual contributor" ["entry"; "senior"; "intern"; "ic"; ""]
    []
    ("concrete workflow pain, hours saved per week, easy to try. " +:+
     "Avoid corporate speak.")].

(** [SENIORITY_BUCKETS[-1]]. *)
Definition last_bucket : SegmentBucket := List.last SENIORITY_BUCKETS (mkbucket "" "" [] [] "").

Definition title_matches (title : string) (bucket : SegmentBucket) : bool :=
  existsb (λ kw, matches (exact_word (str_strip kw)) title) (title_keywords bucket).

(** The bucket of a seniority and a title, both stripped and in lower case. *)
Definition bucket_of (seniority title : string) : SegmentBucket :=
  let by_seniority := if str_empty seniority then None
    else List.find (λ b, seniority ∈b seniority_values b) SENIORITY_BUCKETS in
  let by_title := if str_empty title then None else List.find (title_matches title) SENIORITY_BUCKETS in
  default (default last_bucket by_title) by_seniority.

(** [app/outbound/segmentation.py] lines 108-133, [_bucket_for_member]. *)
Definition _bucket_for_member (m : AudienceMember.t) : exn + SegmentBucket :=
  match stripped "seniority" (AudienceMember.payload m), stripped "title" (AudienceMember.payload m) with
  | inl x, _ => inl x
  | _, inl x => inl x
  | inr seniority, inr title => inr (bucket_of (str_lower seniority) (str_lower title))
  end.

(** [app/outbound/segmentation.py] lines 136-139, [SegmentationResult]. *)
Record SegmentationResult := mkseg { seg_bucket : SegmentBucket; seg_members : list AudienceMember.t }.

(** The members with the keys of their buckets. *)
Fixpoint keyed_members (members : list AudienceMember.t) : exn + list (string * AudienceMember.t) :=
  match members with
  | [] => inr []
  | m :: members =>
      match _bucket_for_member m, keyed_members members with
      | inl x, _ => inl x
      | inr _, inl x => inl x
      | inr b, inr l => inr ((seg_key b, m) :: l)
      end
  end.

(** The members under one key. *)
Definition under_key (l : list (string * AudienceMember.t)) (b : SegmentBucket) : list AudienceMember.t :=
  omap (λ km, if km.1 ==b seg_key b then Some km.2 else None) l.

(** The segment of a bucket, when it has members. *)
Definition one_segment (l : list (string * AudienceMember.t)) (b : SegmentBucket) : option SegmentationResult :=
  match under_key l b with
  | [] => None
  | rows => Some (mkseg b rows)
  end.

(** [app/outbound/segmentation.py] lines 142-159, [segment_members]. *)
Definition segment_members (members : list AudienceMember.t) : exn + list SegmentationResult :=
  match keyed_members members with
  | inl x => inl x
  | inr l => inr (omap (one_segment l) SENIORITY_BUCKETS)
  end.

(** ** The people directory: integrations/apollo.py *)

(** [app/integrations/apollo.py] lines 46-71, [EnrichedPerson]. The attributes in the order of the
    class. *)
Definition EnrichedPerson : Type := list (string * json).

(** [app/integrations/apollo.py] lines 62-71, [EnrichedPerson.merge_into_payload]. *)
Definition merge_into_payload (person : EnrichedPerson) (payload : jdict) : jdict :=
  fold_left (λ out kv, if truthy kv.2 && negb (opt_truthy (dget kv.1 out)) then dset kv.1 kv.2 out else out)
    person payload.

(** [app/integrations/apollo.py] lines 74-93, [_coerce_country]. The table. *)
Definition country_codes : list (string * string) := [
  ("united states", "US"); ("united kingdom", "GB"); ("canada", "CA"); ("australia", "AU");
  ("germany", "DE"); ("france", "FR"); ("india", "IN"); ("singapore", "SG"); ("ireland", "IE");
  ("netherlands", "NL")].

(** [app/integrations/apollo.py] lines 74-93, [_coerce_country]. *)
Definition _coerce_country (raw : json) : exn + json :=
  if negb (truthy raw) then inr JNull
  else match raw with
       | JStr s => inr (match dget (str_lower (str_strip s)) country_codes with
                        | Some c => JStr c
                        | None => if bool_decide (String.length s = 2%nat) then raw else JNull
                        end)
       | _ => inl (AttributeError "strip")
       end.

(** [a or b]. *)
Definition py_or (a b : json) : json := if truthy a then a else b.

(** [app/integrations/apollo.py] lines 96-111, [_person_from_apollo]. *)
Definition _person_from_apollo (person : jdict) : exn + EnrichedPerson :=
  let get k := default JNull (dget k person) in
  match py_or (get "organization") (JObj []) with
  | JObj org =>
      let oget k := default JNull (dget k org) in
      match _coerce_country (get "country") with
      | inl x => inl x
      | inr country => inr [
          ("title", get "title");
          ("seniority", get "seniority");
          ("linkedin_url", get "linkedin_url");
          ("company", py_or (oget "name") (get "organization_name"));
          ("industry", py_or (oget "industry") (get "industry"));
          ("country", country);
          ("first_name", get "first_name");
          ("last_name", get "last_name");
          ("headline", get "headline")]
      end
  | _ => inl (AttributeError "get")
  end.

(** What the HTTP client reports of a call. *)
Inductive apollo_outcome :=
  | Timeout
  | HTTPError (msg : string)
  | Answer (status_code : Z) (text : string).

Section apollo.
Context (post : string → string → jdict → apollo_outcome).
Context (loads : string → option json).
(** The settings of the client: its key and its base URL without the slashes at its end. *)
Context (api_key base_url : string).

(** [app/integrations/apollo.py] lines 139-196, [ApolloClient.match_person]. *)
Definition match_person (email first_name last_name company : json) : exn + option EnrichedPerson :=
  let optional k v := if truthy v then [(k, v)] else [] in
  let params := ("email", email) :: optional "first_name" first_name ++ optional "last_name" last_name
                ++ optional "organization_name" company in
  match post (base_url +:+ "/people/match") api_key params with
  | Timeout => inl (EnrichmentRequestError "apollo request timed out")
  | HTTPError msg => inl (EnrichmentRequestError ("apollo request failed: " +:+ msg))
  | Answer code text =>
      if code =? 404 then inr None
      else if 400 <=? code then
        inl (EnrichmentRequestError ("apollo returned " +:+ str_of_Z code +:+ ": " +:+ str_take 200 text))
      else
        match loads text with
        | None => inl (ValueError "body is not JSON")
        | Some (JObj body) =>
            let person := default JNull (dget "person" body) in
            if negb (truthy person) then inr None
            else match person with
                 | JObj p => match _person_from_apollo p with inl x => inl x | inr q => inr (Some q) end
                 | _ => inl (AttributeError "get")
                 end
        | Some _ => inl (AttributeError "get")
        end
  end.
End apollo.

(** ** Enrichment: enrichment.py *)

(** [app/outbound/enrichment.py] lines 31-36, [_ENRICHMENT_TARGET_FIELDS]. *)
Definition _ENRICHMENT_TARGET_FIELDS : list string := ["title"; "linkedin_url"; "seniority"; "company"].

(** [app/outbound/enrichment.py] lines 39-49, [EnrichmentSummary]. *)
Record EnrichmentSummary := mksummary {
  es_audience_id : N;
  es_total_members : Z;
  es_already_complete : Z;
  es_enriched : Z;
  es_not_found : Z;
  es_failed : Z;
  es_errors : list string;
}.
#[global] Instance enrichment_summary_eta : Eta EnrichmentSummary :=
  λ r, mksummary (es_audience_id r) (es_total_members r) (es_already_complete r) (es_enriched r)
         (es_not_found r) (es_failed r) (es_errors r).

(** [app/outbound/enrichment.py] lines 52-53, [_needs_enrichment]. *)
Definition _needs_enrichment (payload : jdict) : bool :=
  existsb (λ f, negb (opt_truthy (dget f payload))) _ENRICHMENT_TARGET_FIELDS.

Definition append_error (error : string) (errors : list string) : list string :=
  if str_empty error then errors else errors ++ [str_take 200 error].

Section enrichment.
(** The client: [match_person] at an email, a first and a last name and a company. *)
Context (match_person : json → json → json → json → exn + option EnrichedPerson).

(** The call made for one member. *)
Definition lookup_member (m : AudienceMember.t) : exn + option EnrichedPerson :=
  let payload := AudienceMember.payload m in
  let get k := default JNull (dget k payload) in
  match_person (py_or (get "email") (JStr (AudienceMember.external_id m)))
    (get "first_name") (get "last_name") (get "company").

(** [member.source or "csv"]. *)
Definition source_or_csv (source : option string) : string :=
  match source with Some s => if str_empty s then "csv" else s | None => "csv" end.

(** The assignments to a member that was found. *)
Definition enriched_member (person : EnrichedPerson) (t : Z) (m : AudienceMember.t) : AudienceMember.t := m
  <| AudienceMember.payload := merge_into_payload person (AudienceMember.payload m) |>
  <| AudienceMember.fetched_at := Some t |>
  <| AudienceMember.source := Some (source_or_csv (AudienceMember.source m) +:+ "+apollo") |>.

(** The loop over the rows. *)
Fixpoint enrich_rows (max_to_enrich t : Z) (rows : list AudienceMember.t) (enriched_count : Z)
    (summary : EnrichmentSummary) : M EnrichmentSummary :=
  match rows with
  | [] => mret summary
  | member :: rows =>
      if negb (_needs_enrichment (AudienceMember.payload member)) then
        enrich_rows max_to_enrich t rows enriched_count
          (summary <| es_already_complete := es_already_complete summary + 1 |>)
      else if max_to_enrich <=? enriched_count then mret summary
      else
        match lookup_member member with
        | inl (EnrichmentRequestError msg) =>
            enrich_rows max_to_enrich t rows enriched_count
              (summary <| es_failed := es_failed summary + 1 |>
                       <| es_errors := append_error msg (es_errors summary) |>)
        | inl x => raise x
        | inr None =>
            enrich_rows max_to_enrich t rows enriched_count
              (summary <| es_not_found := es_not_found summary + 1 |>)
        | inr (Some person) =>
            assign member (enriched_member person t) ;;
            enrich_rows max_to_enrich t rows (enriched_count + 1)
              (summary <| es_enriched := es_enriched summary + 1 |>)
        end
  end.

(** [app/outbound/enrichment.py] lines 56-120, [enrich_audience]. *)
Definition enrich_audience (audience_id : N) (max_to_enrich : Z) : M EnrichmentSummary :=
  rows ← select (λ m, AudienceMember.audience_id m ==b audience_id);
  t ← asks now;
  enrich_rows max_to_enrich t rows 0 (mksummary audience_id (Z.of_nat (length rows)) 0 0 0 0 []).
End enrichment.

(** ** Rendering: rendering.py *)

(** [app/outbound/rendering.py] lines 34-34, [_TOKEN_RE]. *)
Definition _TOKEN_RE : regex :=
  seqs [char_is "{"; Chr (λ x, char_range "a" "z" x || (x ==b "_"%char));
        Star (Chr (λ x, char_range "a" "z" x || (x ==b "_"%char))); char_is "}"].

(** [app/outbound/rendering.py] lines 40-45, [_FIELD_FALLBACKS]. *)
Definition _FIELD_FALLBACKS : list (string * string) :=
  [("first_name", "there"); ("last_name", ""); ("company", "your company"); ("title", "your role")].

(** The token a match names. *)
Definition token_of (m : string) : string := String.substring 1 (String.length m - 2) m.

(** The replacement of one token. *)
Definition token_value (payload : jdict) (m : string) : string :=
  let val := default JNull (dget (token_of m) payload) in
  if truthy val then json_str val else default "" (dget (token_of m) _FIELD_FALLBACKS).

(** [app/outbound/rendering.py] lines 72-80, [_render]. *)
Definition _render (template : json) (payload : jdict) : exn + string :=
  match template with
  | JStr s => inr (re_sub _TOKEN_RE (token_value payload) s)
  | _ => inl TypeError
  end.

(** [app/outbound/rendering.py] lines 83-88, [_contact_name]. *)
Definition _contact_name (payload : jdict) : exn + json :=
  match stripped "first_name" payload, stripped "last_name" payload with
  | inl x, _ => inl x
  | _, inl x => inl x
  | inr first, inr last =>
      if str_empty first && str_empty last then inr (default (JStr "") (dget "email" payload))
      else inr (JStr (str_strip (first +:+ " " +:+ last)))
  end.

(** [app/outbound/rendering.py] lines 48-62, [PersonalisedDraft]. *)
Record PersonalisedDraft := {
  contact_email : json;
  contact_name : json;
  contact_title : json;
  contact_company : json;
  contact_linkedin_url : json;
  draft_segment_key : string;
  draft_segment_label : string;
  draft_channel : string;
  draft_subject : option string;
  draft_body : string;
}.

(** A template of the audience in a channel. *)
Definition is_template (campaign_id audience_id : N) (a : ContentAsset.t) : bool :=
  (ContentAsset.campaign_id a ==b campaign_id) &&
  (ContentAsset.asset_type a ∈b [AssetType.linkedin_dm; AssetType.email]) &&
  (astext (dget "audience_id" (ContentAsset.extra_metadata a)) ==b Some (uuid_str audience_id)).

Definition channel_of (a : ContentAsset.t) : string :=
  if ContentAsset.asset_type a ==b AssetType.linkedin_dm then "linkedin_dm" else "email".

(** The templates by segment and channel; the last row wins. A key that cannot be hashed raises. *)
Fixpoint template_for (assets : list ContentAsset.t) (seg channel : string) : option ContentAsset.t :=
  match assets with
  | [] => None
  | a :: assets =>
      match template_for assets seg channel with
      | Some b => Some b
      | None => match dget "segment_key" (ContentAsset.extra_metadata a) with
                | Some (JStr k) => if negb (str_empty k) && (k ==b seg) && (channel_of a ==b channel)
                                   then Some a else None
                | _ => None
                end
      end
  end.
Definition unhashable_segment (a : ContentAsset.t) : bool :=
  match dget "segment_key" (ContentAsset.extra_metadata a) with
  | Some (JList _ as v) | Some (JObj _ as v) => truthy v
  | _ => false
  end.

(** One draft: a member, a template, a channel. *)
Definition render_draft (bucket : SegmentBucket) (member : AudienceMember.t) (channel : string)
    (template : ContentAsset.t) : exn + PersonalisedDraft :=
  let payload := AudienceMember.payload member in
  match py_or (default JNull (dget "fields" (ContentAsset.extra_metadata template))) (JObj []) with
  | JObj fields =>
      let subject := if channel ==b "email"
                     then match _render (default (JStr "") (dget "subject" fields)) payload with
                          | inl x => inl x
                          | inr s => inr (Some s)
                          end
                     else inr None in
      let body_template := py_or (default JNull (dget "body" fields))
                             (JStr (default "" (ContentAsset.content template))) in
      match subject with
      | inl x => inl x
      | inr subject =>
          match _render body_template payload, _contact_name payload with
          | inl x, _ => inl x
          | _, inl x => inl x
          | inr body, inr name => inr {|
              contact_email := default (JStr "") (dget "email" payload);
              contact_name := name;
              contact_title := default (JStr "") (dget "title" payload);
              contact_company := default (JStr "") (dget "company" payload);
              contact_linkedin_url := default JNull (dget "linkedin_url" payload);
              draft_segment_key := seg_key bucket;
              draft_segment_label := seg_label bucket;
              draft_channel := channel;
              draft_subject := subject;
              draft_body := body |}
          end
      end
  | _ => inl (AttributeError "get")
  end.

(** The drafts of one member of a segment. *)
Definition member_drafts (assets : list ContentAsset.t) (bucket : SegmentBucket) (member : AudienceMember.t)
    : M (list PersonalisedDraft) :=
  drafts ← mapM_ (λ channel,
    match template_for assets (seg_key bucket) channel with
    | None => mret []
    | Some template => d ← of_sum (render_draft bucket member channel template); mret [d]
    end) ["linkedin_dm"; "email"];
  mret (concat drafts).

(** [app/outbound/rendering.py] lines 91-165, [render_personalised_drafts]. *)
Definition render_personalised_drafts (campaign_id audience_id : N) : M (list PersonalisedDraft) :=
  members ← select (λ m, AudienceMember.audience_id m ==b audience_id);
  if bool_decide (length members = 0%nat) then mret []
  else
    assets ← select (is_template campaign_id audience_id);
    if bool_decide (length assets = 0%nat) then mret []
    else
      raise_if (existsb unhashable_segment assets) TypeError ;;
      segs ← of_sum (segment_members members);
      drafts ← mapM_ (λ seg, mapM_ (member_drafts assets (seg_bucket seg)) (seg_members seg)) segs;
      mret (concat (concat drafts)).

(** ** The drafts page: src/app/api/ui/outbound.py *)

(** What the page shows. *)
Record DraftsPage := {
  page_campaign : Campaign.t;
  page_audience : option Audience.t;
  drafts_by_contact : list jdict;
  page_member_count : Z;
}.

(** The entry of a contact, and a draft in it. *)
Definition contact_bucket (d : PersonalisedDraft) : jdict := [
  ("email", contact_email d); ("name", contact_name d); ("title", contact_title d);
  ("company", contact_company d); ("linkedin_url", contact_linkedin_url d);
  ("segment_label", JStr (draft_segment_label d)); ("linkedin_dm", JNull); ("email_draft", JNull)].
Definition add_draft (d : PersonalisedDraft) (bucket : jdict) : jdict :=
  if draft_channel d ==b "linkedin_dm" then dset "linkedin_dm" (JObj [("body", JStr (draft_body d))]) bucket
  else dset "email_draft" (JObj [("subject", jopt JStr (draft_subject d)); ("body", JStr (draft_body d))]) bucket.

(** The drafts by contact, in order of first appearance; an address that cannot be hashed raises. *)
Definition group_drafts (drafts : list PersonalisedDraft) : exn + list jdict :=
  if existsb (λ d, match contact_email d with JList _ | JObj _ => true | _ => false end) drafts then inl TypeError
  else inr (snd <$> fold_left (λ grouped d,
         let k := json_repr (contact_email d) in
         dset k (add_draft d (default (contact_bucket d) (dget k grouped))) grouped) drafts []).

(** [app/api/ui/outbound.py] lines 189-277, [personalised_drafts_page]. *)
Definition personalised_drafts_page (campaign_id : N) (audience_id : option N) (current_user : AppUser.t)
    : M DraftsPage :=
  campaign ← get_row (R:=Campaign.t) campaign_id;
  match campaign with
  | None => raise (HTTPException 404 "campaign not found")
  | Some campaign =>
      raise_if (Campaign.tenant_id campaign !=b AppUser.tenant_id current_user)
        (HTTPException 404 "campaign not found") ;;
      audience ← match audience_id with
                 | None =>
                     audiences ← select (λ a, Audience.campaign_id a ==b campaign_id);
                     mret (head (order_by_desc Audience.created_at audiences))
                 | Some audience_id =>
                     audience ← get_row (R:=Audience.t) audience_id;
                     match audience with
                     | Some a => raise_if (Audience.tenant_id a !=b AppUser.tenant_id current_user)
                                   (HTTPException 404 "audience not found") ;;
                                 mret (Some a)
                     | None => raise (HTTPException 404 "audience not found")
                     end
                 end;
      match audience with
      | None => mret {| page_campaign := campaign; page_audience := None; drafts_by_contact := [];
                        page_member_count := 0 |}
      | Some audience =>
          members ← select (λ m, AudienceMember.audience_id m ==b Audience.id audience);
          drafts ← render_personalised_drafts campaign_id (Audience.id audience);
          contacts ← of_sum (group_drafts drafts);
          mret {| page_campaign := campaign; page_audience := Some audience; drafts_by_contact := contacts;
                  page_member_count := Z.of_nat (length members) |}
      end
  end.

(** A draft is in the entry of its contact. *)
Definition shows (d : PersonalisedDraft) (bucket : jdict) : Prop :=
  ∃ fields, dget (if draft_channel d ==b "linkedin_dm" then "linkedin_dm" else "email_draft") bucket = Some (JObj fields).

Lemma add_draft_keeps d d' bucket : shows d bucket → shows d (add_draft d' bucket).
Proof.
  unfold shows, add_draft. intros [fields Hb].
  destruct (draft_channel d ==b "linkedin_dm"), (draft_channel d' ==b "linkedin_dm");
    rewrite ?dget_dset_eq, ?dget_dset_ne by done; eauto.
Qed.
Lemma add_draft_shows d bucket : shows d (add_draft d bucket).
Proof. unfold shows, add_draft. destruct (draft_channel d ==b "linkedin_dm"); rewrite dget_dset_eq; eauto. Qed.

(** The page leaves no draft out: of every draft the entry of its contact, and there is one per contact,
    has a text in its channel. *)
Lemma group_drafts_complete drafts contacts :
  group_drafts drafts = inr contacts → ∀ d, d ∈ drafts → ∃ bucket, bucket ∈ contacts ∧ shows d bucket.
Proof.
  unfold group_drafts. destruct (existsb _ _); [done|]. intros [= <-].
  match goal with |- context [fold_left ?f drafts []] => set (step := f) end.
  enough (∀ d, d ∈ drafts → ∃ bucket,
    dget (json_repr (contact_email d)) (fold_left step drafts []) = Some bucket ∧ shows d bucket) as Hall.
  { intros d Hd. destruct (Hall d Hd) as (bucket & Hb & Hs). exists bucket. split; [|done].
    apply list_elem_of_fmap. exists (json_repr (contact_email d), bucket). split; [done|by apply elem_dget]. }
  induction drafts as [|d' drafts IH] using rev_ind; [by intros d ?%elem_of_nil|].
  intros d Hd. rewrite fold_left_app. cbn [fold_left]. unfold step at 1. cbv zeta.
  destruct (decide (json_repr (contact_email d) = json_repr (contact_email d'))) as [Heq|Hne].
  - rewrite Heq, dget_dset_eq. eexists. split; [done|].
    apply elem_of_app in Hd as [Hd|Hd]; [|apply list_elem_of_singleton in Hd as ->; apply add_draft_shows].
    destruct (IH d Hd) as (bucket & Hb & Hs). rewrite <- Heq, Hb. by apply add_draft_keeps.
  - rewrite dget_dset_ne by done. apply IH. apply elem_of_app in Hd as [Hd|Hd]; [done|apply list_elem_of_singleton in Hd].
    by subst.
Qed.

(** ** Templates: generation.py *)

(** [app/outbound/generation.py] lines 42-47, [_MERGE_TOKENS]. *)
Definition _MERGE_TOKENS : list string := ["first_name"; "last_name"; "company"; "title"].
(** [app/outbound/generation.py] lines 49-49, [_LINKEDIN_BUDGET_CHARS]. *)
Definition _LINKEDIN_BUDGET_CHARS : Z := 800.
(** [app/outbound/generation.py] lines 50-50, [_EMAIL_SUBJECT_BUDGET]. *)
Definition _EMAIL_SUBJECT_BUDGET : Z := 90.
(** [app/outbound/generation.py] lines 51-51, [_EMAIL_BODY_BUDGET_CHARS]. *)
Definition _EMAIL_BODY_BUDGET_CHARS : Z := 1500.

(** [app/outbound/generation.py] lines 58-66, [OutreachGenerationSummary]. *)
Record OutreachGenerationSummary := mkoutreach {
  og_campaign_id : N;
  og_audience_id : N;
  og_segments_generated : Z;
  og_linkedin_assets : Z;
  og_email_assets : Z;
  og_skipped_existing : Z;
  og_errors : list string;
}.
#[global] Instance outreach_summary_eta : Eta OutreachGenerationSummary :=
  λ r, mkoutreach (og_campaign_id r) (og_audience_id r) (og_segments_generated r) (og_linkedin_assets r)
         (og_email_assets r) (og_skipped_existing r) (og_errors r).

(** [sorted({...})] of the values under [k] in the first three payloads; what is not text cannot be
    joined. *)
Definition sample_values (k : string) (members : list AudienceMember.t) : exn + list string :=
  let vs := (λ m, default (JStr "(unknown)") (dget k (AudienceMember.payload m))) <$> take 3 members in
  if forallb (λ v, match v with JStr _ => true | _ => false end) vs
  then inr (merge_sort string_le (remove_dups (omap (λ v, as_str (Some v)) vs)))
  else inl TypeError.

(** [sep.join(l) or "n/a"]. *)
Definition joined_or_na (l : list string) : string :=
  let s := str_join ", " l in if str_empty s then "n/a" else s.

Definition in_quotes (s : string) : string := String quote_char (s +:+ String quote_char "").

(** [app/outbound/generation.py] lines 69-124, [_build_segment_prompt]. *)
Definition _build_segment_prompt (campaign : Campaign.t) (segment : SegmentationResult)
    (sample_members : list AudienceMember.t) (channel : string) : exn + string :=
  match sample_values "title" sample_members, sample_values "company" sample_members with
  | inl x, _ => inl x
  | _, inl x => inl x
  | inr sample_titles, inr sample_companies =>
      let token_list := str_join ", " ((λ t, "{" +:+ t +:+ "}") <$> _MERGE_TOKENS) in
      let channel_brief :=
        if channel ==b "linkedin_dm" then
          "Write a LinkedIn connection-request DM (under " +:+ str_of_Z _LINKEDIN_BUDGET_CHARS +:+
          " characters). One paragraph. No subject line. Start with 'Hi {first_name},' on its own line."
        else
          "Write a cold outbound email. Subject line under " +:+ str_of_Z _EMAIL_SUBJECT_BUDGET +:+
          " chars; body under " +:+ str_of_Z _EMAIL_BODY_BUDGET_CHARS +:+
          " chars. Body uses 2-3 short paragraphs + a one-line CTA. Start the body with " +:+
          "'Hi {first_name},' on its own line." in
      let required_json :=
        if channel ==b "linkedin_dm" then "{" +:+ in_quotes "body" +:+ ": " +:+ in_quotes "..." +:+ "}"
        else "{" +:+ in_quotes "subject" +:+ ": " +:+ in_quotes "..." +:+ ", " +:+
             in_quotes "body" +:+ ": " +:+ in_quotes "..." +:+ "}" in
      inr (
        "You are writing 1:1 outbound copy for the campaign " +:+ in_quotes (Campaign.name campaign) +:+
        "." +:+ newline +:+
        "Campaign objective: " +:+ Campaign.objective campaign +:+ newline +:+
        "Campaign brief: " +:+ default "None" (Campaign.brief campaign) +:+ blank_line +:+
        "This template will be sent to " +:+ str_of_Z (Z.of_nat (length (seg_members segment))) +:+
        " recipients in the **" +:+ seg_label (seg_bucket segment) +:+ "** segment." +:+ newline +:+
        "Sample titles in this segment: " +:+ joined_or_na sample_titles +:+ newline +:+
        "Sample companies: " +:+ joined_or_na sample_companies +:+ blank_line +:+
        "Tone guidance for this segment: " +:+ talking_points (seg_bucket segment) +:+ blank_line +:+
        channel_brief +:+ blank_line +:+
        "MERGE TOKENS: the body must contain these literal tokens where " +:+
        "per-recipient values go: " +:+ token_list +:+ ". Use {first_name} at the " +:+
        "opener. Use {{company}} or {{title}} at least once where it makes " +:+
        "the message feel addressed to them. Do NOT invent placeholders; " +:+
        "stick to the four listed." +:+ blank_line +:+
        "Respond with a SINGLE JSON object: " +:+ required_json +:+ ". No prose, no " +:+
        "markdown, no code fences.")
  end.

(** [app/outbound/generation.py] lines 138-139, [_used_tokens]. *)
Definition _used_tokens (text : string) : list string :=
  merge_sort string_le (remove_dups (List.filter (λ m, m ∈b _MERGE_TOKENS)
    ((λ span, token_of (slice text span)) <$> finditer _TOKEN_RE text))).

(** [app/outbound/generation.py] lines 294-313, [_bump]. *)
Definition _bump (summary : OutreachGenerationSummary) (linkedin_assets email_assets skipped_existing : Z)
    (error : option string) : OutreachGenerationSummary := summary
  <| og_linkedin_assets := og_linkedin_assets summary + linkedin_assets |>
  <| og_email_assets := og_email_assets summary + email_assets |>
  <| og_skipped_existing := og_skipped_existing summary + skipped_existing |>
  <| og_errors := from_option (λ e, append_error e (og_errors summary)) (og_errors summary) error |>.

(** What the language model answers: an exception, no text, or text. *)
Inductive model_answer := ModelFailure (msg : string) | NoText | ModelText (text : string).

Section generation.
Context (loads : string → option json).
(** The answer to a prompt. *)
Context (call_model : string → model_answer).

(** [app/outbound/generation.py] lines 127-135, [_extract_json]. A text that is no JSON is a
    JSONDecodeError, which is a ValueError. *)
Definition _extract_json (raw : string) : exn + list (string * string) :=
  match loads (strip_fence (str_strip raw)) with
  | None => inl (ValueError "Expecting value")
  | Some (JObj obj) => inr (omap string_field obj)
  | Some _ => inl (OutreachGenerationError "model output was not a JSON object")
  end.

(** [app/outbound/generation.py] lines 142-160, [_generate_one]. *)
Definition _generate_one (prompt : string) : exn + list (string * string) :=
  match call_model prompt with
  | ModelFailure msg => inl (OutreachGenerationError ("LLM call failed: " +:+ msg))
  | NoText => inl (OutreachGenerationError "model returned no text content")
  | ModelText text => _extract_json text
  end.

(** The content and the fields of a template, or the error noted. *)
Definition template_text (channel : string) (obj : list (string * string)) : string + (string * jdict) :=
  let body := default "" (dget "body" obj) in
  if channel ==b "linkedin_dm" then
    if str_empty body then inl "model returned empty linkedin body"
    else inr (body, [("body", JStr body)])
  else
    let subject := default "" (dget "subject" obj) in
    if str_empty subject || str_empty body then inl "model returned empty email fields"
    else inr (subject +:+ blank_line +:+ body, [("subject", JStr subject); ("body", JStr body)]).

Definition template_metadata (segment : SegmentationResult) (audience_id : N) (content_text : string)
    (fields : jdict) : jdict := [
  ("segment_key", JStr (seg_key (seg_bucket segment)));
  ("segment_label", JStr (seg_label (seg_bucket segment)));
  ("audience_id", j_uuid audience_id);
  ("recipient_count", JInt (Z.of_nat (length (seg_members segment))));
  ("merge_tokens", JList (JStr <$> _used_tokens content_text));
  ("fields", JObj fields);
  ("personalisation_kind", JStr "outbound_segment_template")].

Definition channel_type (channel : string) : AssetType.t :=
  if channel ==b "linkedin_dm" then AssetType.linkedin_dm else AssetType.email.

(** The row the templates of a segment and a channel are looked up with. *)
Definition same_template (campaign_id audience_id : N) (key channel : string) (a : ContentAsset.t) : bool :=
  (ContentAsset.campaign_id a ==b campaign_id) && (ContentAsset.asset_type a ==b channel_type channel) &&
  (astext (dget "segment_key" (ContentAsset.extra_metadata a)) ==b Some key) &&
  (astext (dget "audience_id" (ContentAsset.extra_metadata a)) ==b Some (uuid_str audience_id)).

(** The template that is written: the existing row again, or a new one. *)
Definition write_template (campaign : Campaign.t) (existing : option ContentAsset.t) (channel title content_text : string)
    (metadata : jdict) : M () :=
  match existing with
  | Some a =>
      assign a (λ a, a <| ContentAsset.content := Some content_text |>
                       <| ContentAsset.extra_metadata := dmerge (ContentAsset.extra_metadata a) metadata |>
                       <| ContentAsset.status := AssetStatus.drafted |>
                       <| ContentAsset.title := Some title |>) ;;
      mret ()
  | None =>
      t ← asks now;
      add_row (λ id, {|
        ContentAsset.id := id;
        ContentAsset.tenant_id := Campaign.tenant_id campaign;
        ContentAsset.campaign_id := Campaign.id campaign;
        ContentAsset.channel_id := None;
        ContentAsset.asset_type := channel_type channel;
        ContentAsset.status := AssetStatus.drafted;
        ContentAsset.title := Some title;
        ContentAsset.content := Some content_text;
        ContentAsset.extra_metadata := metadata;
        ContentAsset.is_required := true;
        ContentAsset.scheduled_at := None;
        ContentAsset.published_at := None;
        ContentAsset.created_at := t;
        ContentAsset.updated_at := t |}) ;;
      mret ()
  end.

(** One segment in one channel. *)
Definition generate_template (campaign : Campaign.t) (audience_id : N) (overwrite : bool)
    (segment : SegmentationResult) (summary : OutreachGenerationSummary) (channel : string)
    : M OutreachGenerationSummary :=
  rows ← select (same_template (Campaign.id campaign) audience_id (seg_key (seg_bucket segment)) channel);
  existing ← scalar_one_or_none rows;
  if bool_decide (is_Some existing) && negb overwrite then mret (_bump summary 0 0 1 None)
  else
    prompt ← of_sum (_build_segment_prompt campaign segment (seg_members segment) channel);
    match _generate_one prompt with
    | inl (OutreachGenerationError msg) => mret (_bump summary 0 0 0 (Some msg))
    | inl x => raise x
    | inr obj =>
        match template_text channel obj with
        | inl error => mret (_bump summary 0 0 0 (Some error))
        | inr (content_text, fields) =>
            write_template campaign existing channel
              (seg_label (seg_bucket segment) +:+ middle_dot +:+ channel) content_text
              (template_metadata segment audience_id content_text fields) ;;
            mret (if channel ==b "linkedin_dm" then _bump summary 1 0 0 None else _bump summary 0 1 0 None)
        end
    end.

(** [app/outbound/generation.py] lines 163-291, [generate_outreach_drafts]. *)
Definition generate_outreach_drafts (campaign : Campaign.t) (audience_id : N) (channels : list string)
    (overwrite : bool) : M OutreachGenerationSummary :=
  audience ← get_row (R:=Audience.t) audience_id;
  raise_if (negb (from_option (λ a, Audience.tenant_id a ==b Campaign.tenant_id campaign) false audience))
    (OutreachGenerationError ("audience " +:+ uuid_str audience_id +:+ " not found in this tenant")) ;;
  members ← select (λ m, AudienceMember.audience_id m ==b audience_id);
  raise_if (bool_decide (length members = 0%nat)) (OutreachGenerationError "audience is empty") ;;
  segments ← of_sum (segment_members members);
  foldM (λ summary segment, foldM (generate_template campaign audience_id overwrite segment) summary channels)
    (mkoutreach (Campaign.id campaign) audience_id (Z.of_nat (length segments)) 0 0 0 []) segments.
End generation.

Example segment_titles :
  (λ t, seg_key (bucket_of "" t)) <$> ["head of growth"; "senior director"; "team lead"; "vice president, sales";
    "chief of staff"; "engineer"]
  = ["vp"; "director"; "manager"; "c_suite"; "c_suite"; "ic"].
Proof. vm_compute. reflexivity. Qed.
Example render_tokens :
  _render (JStr "Hi {first_name}, {company} {x}{Y}") [("company", JStr "Acme")] = inr "Hi there, Acme {Y}".
Proof. vm_compute. reflexivity. Qed.

(** * The outbound flow, proved

    Segments partition an audience, enrichment only fills what is missing, and generating
    templates without overwriting only adds. *)

(** ** Segments *)

Lemma bucket_of_in seniority title : bucket_of seniority title ∈ SENIORITY_BUCKETS.
Proof.
  unfold bucket_of.
  assert (∀ f b, List.find f SENIORITY_BUCKETS = Some b → b ∈ SENIORITY_BUCKETS) as Hfind.
  { intros f b Hb. apply List.find_some in Hb as [Hb _]. by apply list_elem_of_In. }
  assert (last_bucket ∈ SENIORITY_BUCKETS) as Hlast by (unfold SENIORITY_BUCKETS; do 4 right; left).
  destruct (if str_empty seniority then _ else _) as [b|] eqn:E1; cbn [default].
  { destruct (str_empty seniority); [done|]. by eapply Hfind. }
  destruct (if str_empty title then _ else _) as [b|] eqn:E2; cbn [default]; [|done].
  destruct (str_empty title); [done|]. by eapply Hfind.
Qed.

Lemma bucket_for_member_in m b : _bucket_for_member m = inr b → b ∈ SENIORITY_BUCKETS.
Proof.
  unfold _bucket_for_member. destruct (stripped "seniority" (AudienceMember.payload m)); [done|].
  destruct (stripped "title" (AudienceMember.payload m)); [done|]. intros [= <-]. apply bucket_of_in.
Qed.

(** The keys tell the buckets apart. *)
Lemma bucket_keys b1 b2 :
  b1 ∈ SENIORITY_BUCKETS → b2 ∈ SENIORITY_BUCKETS → seg_key b1 = seg_key b2 → b1 = b2.
Proof.
  intros [i Hi]%list_elem_of_lookup [j Hj]%list_elem_of_lookup E.
  assert (NoDup (seg_key <$> SENIORITY_BUCKETS)) as Hnd by (apply (bool_decide_eq_true_1 _); reflexivity).
  assert (i = j) as ->; [|congruence].
  apply (NoDup_lookup _ i j (seg_key b1) Hnd); rewrite list_lookup_fmap; [by rewrite Hi|by rewrite Hj, E].
Qed.

Lemma keyed_members_inr ms l :
  keyed_members ms = inr l →
  l.*2 = ms ∧ Forall (λ km, ∃ b, _bucket_for_member km.2 = inr b ∧ km.1 = seg_key b ∧ b ∈ SENIORITY_BUCKETS) l.
Proof.
  revert l. induction ms as [|m ms IH]; intros l; cbn [keyed_members]; [by intros [= <-]|].
  destruct (_bucket_for_member m) as [x|b] eqn:Eb; [done|].
  destruct (keyed_members ms) as [x|l'] eqn:El; [done|]. intros [= <-].
  destruct (IH l' eq_refl) as [<- Hl]. split; [done|]. constructor; [|done].
  exists b. split; [done|]. split; [done|]. by eapply bucket_for_member_in.
Qed.

Lemma elem_of_under_key l b m : m ∈ under_key l b ↔ (seg_key b, m) ∈ l.
Proof.
  unfold under_key. rewrite list_elem_of_omap. split.
  - intros ([k x] & Hin & Hx). cbn in Hx. case_bool_decide; [|done]. injection Hx as ->. by subst.
  - intros Hin. exists (seg_key b, m). split; [done|]. cbn. by rewrite bool_decide_eq_true_2.
Qed.

(** Distributing over the buckets loses no member. *)
Lemma under_keys_permutation l (bs : list SegmentBucket) :
  NoDup (seg_key <$> bs) → Forall (λ km : string * AudienceMember.t, km.1 ∈ seg_key <$> bs) l →
  concat (under_key l <$> bs) ≡ₚ l.*2.
Proof.
  revert l. induction bs as [|b bs IH]; intros l Hnd Hl.
  - destruct l as [|km l]; [done|]. apply Forall_cons in Hl as [Hkm%not_elem_of_nil _]. done.
  - change (seg_key <$> b :: bs) with (seg_key b :: (seg_key <$> bs)) in *.
    change (under_key l <$> b :: bs) with (under_key l b :: (under_key l <$> bs)).
    apply NoDup_cons in Hnd as [Hb Hnd].
    cbn [concat]. set (rest := List.filter (λ km : string * AudienceMember.t, negb (km.1 ==b seg_key b)) l).
    assert (under_key l <$> bs = under_key rest <$> bs) as ->.
    { apply list_fmap_ext. intros i b' Hi%list_elem_of_lookup_2. unfold under_key, rest.
      assert (seg_key b' ≠ seg_key b) as Hne.
      { intros E. apply Hb. rewrite <- E. by apply list_elem_of_fmap_2. }
      clear -Hne. induction l as [|[k m] l IH]; [done|]. cbn.
      destruct (k ==b seg_key b) eqn:Ek; cbn; [|by rewrite IH].
      apply bool_decide_eq_true in Ek as ->. rewrite bool_decide_eq_false_2 by done. exact IH. }
    rewrite (IH rest).
    + unfold under_key, rest. clear. induction l as [|[k m] l IH]; [done|]. cbn.
      case_bool_decide as E; cbn; [by rewrite IH|]. by rewrite <- IH, Permutation_middle.
    + done.
    + unfold rest. apply Forall_forall. intros km [Hin Hne]%elem_of_bfilter.
      apply negb_true_iff, bool_decide_eq_false in Hne.
      rewrite Forall_forall in Hl. specialize (Hl km Hin).
      by apply elem_of_cons in Hl as [?|?].
Qed.

Lemma concat_nonempty_segs l (bs : list SegmentBucket) :
  concat (seg_members <$> omap (one_segment l) bs) = concat (under_key l <$> bs).
Proof.
  induction bs as [|b bs IH]; [done|]. rewrite fmap_cons. cbn [concat omap list_omap].
  unfold one_segment at 1. destruct (under_key l b) as [|m rows] eqn:E; [exact IH|]. cbn. by rewrite IH.
Qed.

(** Segmentation partitions an audience. Every member lands in exactly one segment; a segment
    holds the members of its bucket and at least one; the segments are buckets of the table, each
    once, in the order of the table. It succeeds unless a seniority or a title is no text. *)
Theorem segment_members_spec members :
  (∀ segs, segment_members members = inr segs →
    concat (seg_members <$> segs) ≡ₚ members ∧
    (seg_bucket <$> segs) `sublist_of` SENIORITY_BUCKETS ∧
    Forall (λ seg, seg_members seg ≠ [] ∧
      ∀ m, m ∈ seg_members seg ↔ m ∈ members ∧ _bucket_for_member m = inr (seg_bucket seg)) segs) ∧
  ((∀ x, segment_members members ≠ inl x) ↔
   ∀ m, m ∈ members → ∃ b, _bucket_for_member m = inr b).
Proof.
  unfold segment_members. destruct (keyed_members members) as [x|l] eqn:El.
  { split; [done|]. split; [by intros H; destruct (H x)|]. intros H.
    exfalso. clear -El H. revert El. induction members as [|m ms IH]; [done|]. cbn [keyed_members].
    destruct (H m) as [b ->]; [left|]. destruct (keyed_members ms) as [y|]; [|done].
    intros [= ->]. apply IH; [|done]. intros m' Hm'. apply H. by right. }
  destruct (keyed_members_inr members l El) as [Hl Hb].
  split.
  - intros segs H. assert (segs = omap (one_segment l) SENIORITY_BUCKETS) as -> by congruence. clear H.
    split; [|split].
    + rewrite (concat_nonempty_segs l SENIORITY_BUCKETS), <- Hl. apply under_keys_permutation.
      * apply (bool_decide_eq_true_1 _). reflexivity.
      * apply (Forall_impl _ _ _ Hb). intros km (b & _ & -> & Hin). by apply list_elem_of_fmap_2.
    + generalize SENIORITY_BUCKETS. intros bs. induction bs as [|b bs IH]; [done|]. cbn [omap list_omap]. unfold one_segment at 1.
      destruct (under_key l b); [by apply sublist_cons|by apply sublist_skip].
    + apply Forall_forall. intros seg (b & Hin & Hseg)%list_elem_of_omap.
      assert (seg = mkseg b (under_key l b) ∧ under_key l b ≠ []) as [-> Hne].
      { unfold one_segment in Hseg. destruct (under_key l b); [done|]. by injection Hseg as <-. }
      split; [done|]. intros m. cbn [seg_members seg_bucket]. rewrite elem_of_under_key.
      rewrite Forall_forall in Hb. split.
      * intros Hkm. split; [rewrite <- Hl; by apply (list_elem_of_fmap_2 snd) in Hkm|].
        destruct (Hb _ Hkm) as (b' & Hm & Hk & Hin'). cbn in Hm, Hk. by rewrite (bucket_keys b b').
      * intros [Hm Hbm]. rewrite <- Hl in Hm. apply list_elem_of_fmap in Hm as ([k m'] & E & Hkm).
        cbn in E. subst m'. destruct (Hb _ Hkm) as (b' & Hm & Hk & _). cbn in Hm, Hk.
        rewrite Hm in Hbm. injection Hbm as ->. by subst k.
  - split; [|done]. intros _ m Hm. rewrite <- Hl in Hm.
    apply list_elem_of_fmap in Hm as (km & -> & Hkm). rewrite Forall_forall in Hb.
    destruct (Hb _ Hkm) as (b & Hbm & _). by exists b.
Qed.

(** A vice president is written to as if heading the company: "president" is a keyword of the first
    bucket, so the keyword "vice president" of the second is never reached. *)
Theorem vice_president_in_c_suite :
  seg_key (bucket_of "" "vice president of sales") = "c_suite" ∧
  existsb (λ b, (seg_key b ==b "vp") && title_matches "vice president of sales" b) SENIORITY_BUCKETS = true.
Proof. split; vm_compute; reflexivity. Qed.

(** ** Enrichment *)

Lemma merge_keeps person payload k v :
  dget k payload = Some v → truthy v = true → dget k (merge_into_payload person payload) = Some v.
Proof.
  intros Hk Hv. unfold merge_into_payload. revert payload Hk. induction person as [|[k' v'] p IH]; intros d Hk; [done|].
  cbn [fold_left fst snd]. apply IH. destruct (truthy v' && negb (opt_truthy (dget k' d))) eqn:E; [|done].
  destruct (decide (k = k')) as [->|Hne]; [|by rewrite dget_dset_ne].
  rewrite Hk in E. cbn in E. rewrite Hv in E. by rewrite andb_false_r in E.
Qed.

Lemma merge_unknown person payload k :
  k ∉ person.*1 → dget k (merge_into_payload person payload) = dget k payload.
Proof.
  unfold merge_into_payload. revert payload. induction person as [|[k' v'] p IH]; intros d Hk; [done|].
  rewrite fmap_cons, not_elem_of_cons in Hk. destruct Hk as [Hne Hk]. cbn [fold_left fst snd].
  rewrite IH by done. destruct (_ && _); [|done]. by rewrite dget_dset_ne.
Qed.

(** What enrichment may do to a member's row. *)
Record enriched_from (t : Z) (m m' : AudienceMember.t) : Prop := {
  ef_key : pk m' = pk m;
  ef_kept k v : dget k (AudienceMember.payload m) = Some v → truthy v = true →
    dget k (AudienceMember.payload m') = Some v;
  ef_needed : m' ≠ m → _needs_enrichment (AudienceMember.payload m) = true ∧
    AudienceMember.fetched_at m' = Some t ∧
    AudienceMember.source m' = Some (source_or_csv (AudienceMember.source m) +:+ "+apollo");
}.

Lemma enriched_refl t m : enriched_from t m m.
Proof. split; done. Qed.

Lemma enriched_step person t m :
  _needs_enrichment (AudienceMember.payload m) = true → enriched_from t m (enriched_member person t m).
Proof.
  intros Hn. split.
  - by destruct m.
  - intros k v Hk Hv. by apply merge_keeps.
  - done.
Qed.

(** The members that were looked at and counted. *)
Definition counted (r : EnrichmentSummary) : Z :=
  es_already_complete r + es_enriched r + es_not_found r + es_failed r.

(** The loop, from a state in which the rows that are left are stored. *)
Lemma enrich_rows_spec mp max t rows n r0 e s s' r :
  enrich_rows mp max t rows n r0 e s = (s', inr r) →
  NoDup (pk <$> rows) → (∀ m, m ∈ rows → t_audience_member s !! pk m = Some m) →
  s' = s <| t_audience_member := t_audience_member s' |> ∧
  (∀ k, match t_audience_member s !! k with
        | Some m => ∃ m', t_audience_member s' !! k = Some m' ∧ enriched_from t m m' ∧ (m ∈ rows ∨ m' = m)
        | None => t_audience_member s' !! k = None
        end) ∧
  counted r0 <= counted r <= counted r0 + Z.of_nat (length rows) ∧
  es_total_members r = es_total_members r0 ∧
  0 <= es_enriched r - es_enriched r0 <= Z.max 0 (max - n).
Proof.
  revert n r0 s. induction rows as [|m rows IH]; intros n r0 s.
  { cbn. intros [= <- <-] _ _. split; [by destruct s|]. split; [|cbn; lia].
    intros k. destruct (t_audience_member s !! k) as [m|]; [|done].
    exists m. split; [done|]. split; [apply enriched_refl|by right]. }
  intros Hrun [Hm Hnd]%NoDup_cons Hrows.
  assert (∀ s1 n1 r1, enrich_rows mp max t rows n1 r1 e s = (s', inr r) → s1 = s →
    counted r1 = counted r0 + 1 → es_total_members r1 = es_total_members r0 → es_enriched r1 = es_enriched r0 → n1 = n →
    s' = s <| t_audience_member := t_audience_member s' |> ∧
    (∀ k, match t_audience_member s !! k with
          | Some m0 => ∃ m', t_audience_member s' !! k = Some m' ∧ enriched_from t m0 m' ∧ (m0 ∈ m :: rows ∨ m' = m0)
          | None => t_audience_member s' !! k = None
          end) ∧
    counted r0 <= counted r <= counted r0 + Z.of_nat (length (m :: rows)) ∧
    es_total_members r = es_total_members r0 ∧ 0 <= es_enriched r - es_enriched r0 <= Z.max 0 (max - n)) as Hskip.
  { intros s1 n1 r1 H -> Hc Ht He ->. apply IH in H as (H1 & H2 & H3 & H4 & H5); [|done|].
    2: { intros m' Hm'. apply Hrows. by right. }
    split; [done|]. split; [|cbn [length]; lia]. intros k. specialize (H2 k).
    destruct (t_audience_member s !! k) as [m0|]; [|done].
    destruct H2 as (m' & ? & ? & Hin). exists m'. split; [done|]. split; [done|].
    destruct Hin; [left; by right|by right]. }
  cbn [enrich_rows] in Hrun. destruct (_needs_enrichment (AudienceMember.payload m)) eqn:Hneed; cbn [negb] in Hrun.
  2: { eapply (Hskip s); [exact Hrun|..]; unfold counted; cbn; lia || done. }
  destruct (max <=? n) eqn:Hmax.
  { injection Hrun as <- <-. split; [by destruct s|]. split; [|cbn [length]; lia].
    intros k. destruct (t_audience_member s !! k) as [m0|]; [|done].
    exists m0. split; [done|]. split; [apply enriched_refl|by right]. }
  destruct (lookup_member mp m) as [x|[person|]].
  { destruct x; try done. eapply (Hskip s); [exact Hrun|..]; unfold counted; cbn; lia || done. }
  2: { eapply (Hskip s); [exact Hrun|..]; unfold counted; cbn; lia || done. }
  clear Hskip. apply bind_inr in Hrun as (s1 & m1 & Ha & Hrun).
  assert (t_audience_member s !! pk m = Some m) as Hkm by (apply Hrows; left).
  apply (assign_inr m _ e s s1 m1 m Hkm) in Ha as [-> ->].
  set (m1 := enriched_member person t m) in *.
  apply IH in Hrun as (H1 & H2 & H3 & H4 & H5); [|done|].
  2: { intros m' Hm'. cbn. rewrite lookup_insert_ne; [apply Hrows; by right|].
       intros E. apply Hm. assert (pk m = pk m') as -> by exact E. by apply list_elem_of_fmap_2. }
  split; [rewrite H1; by destruct s|]. split.
  - intros k. specialize (H2 k). cbn in H2. destruct (decide (k = pk m)) as [->|Hne].
    + rewrite lookup_insert_eq in H2. rewrite Hkm. destruct H2 as (m' & Hm' & Hef & Hin). exists m'. split; [done|].
      assert (m' = m1) as ->.
      { destruct Hin as [Hin|?]; [|done]. exfalso. apply Hm.
        change (pk m1 ∈ pk <$> rows). by apply list_elem_of_fmap_2. }
      split; [by apply enriched_step|left; left].
    + rewrite lookup_insert_ne in H2 by done.
      destruct (t_audience_member s !! k) as [m0|]; [|done].
      destruct H2 as (m' & ? & ? & Hin). exists m'. split; [done|]. split; [done|].
      destruct Hin; [left; by right|by right].
  - unfold counted in *. cbn in *. apply Z.leb_gt in Hmax. lia.
Qed.

(** Enrichment only fills what is missing. It changes member rows of the audience only, adds and
    removes none, and of a row it changes, which lacked one of the four fields, every value that was
    there is kept; the row is stamped with the time and the source. At most [max_to_enrich] rows are
    enriched, and the four counts of the summary add up to at most the members of the audience. *)
Theorem enrich_audience_spec mp audience_id max e s s' r :
  keyed AudienceMember.t s →
  enrich_audience mp audience_id max e s = (s', inr r) →
  s' = s <| t_audience_member := t_audience_member s' |> ∧
  (∀ k, match t_audience_member s !! k with
        | Some m => ∃ m', t_audience_member s' !! k = Some m' ∧ enriched_from (now e) m m' ∧
            (AudienceMember.audience_id m = audience_id ∨ m' = m)
        | None => t_audience_member s' !! k = None
        end) ∧
  0 <= counted r <= es_total_members r ∧ 0 <= es_enriched r <= Z.max 0 max.
Proof.
  intros Hkeyed. unfold enrich_audience. rewrite bind_select, bind_asks.
  set (rows := List.filter _ _). intros Hrun.
  apply enrich_rows_spec in Hrun as (H1 & H2 & H3 & H4 & H5).
  - split; [done|]. split; [|unfold counted in *; cbn in *; lia].
    intros k. specialize (H2 k). destruct (t_audience_member s !! k) as [m|]; [|done].
    destruct H2 as (m' & ? & ? & Hin). exists m'. split; [done|]. split; [done|].
    destruct Hin as [Hin|?]; [left|by right]. unfold rows in Hin. apply elem_of_bfilter in Hin as [_ Hin].
    by apply bool_decide_eq_true in Hin.
  - by apply (select_pk_NoDup (T:=AudienceMember.t)).
  - intros m Hm. by apply (select_pk_lookup (T:=AudienceMember.t)) in Hm as [? _].
Qed.

Definition sample_member (k email : string) (payload : jdict) : AudienceMember.t := {|
  AudienceMember.audience_id := 5; AudienceMember.external_id := k;
  AudienceMember.payload := ("email", JStr email) :: payload;
  AudienceMember.source := None; AudienceMember.fetched_at := None; AudienceMember.added_at := 0 |}.
Definition sample_audience_db : db := empty_db <| t_audience_member :=
  {[ (5%N, "a") := sample_member "a" "a@x.io" [("title", JStr "CTO")] ]} |>.

Lemma enrich_audience_spec_witness :
  let mp := λ _ _ _ _, inr (Some [("title", JStr "VP"); ("seniority", JStr "vp")]) in
  ∃ s' r m, enrich_audience mp 5 10 (demo_env 7) sample_audience_db = (s', inr r) ∧
    t_audience_member s' !! (5%N, "a") = Some m ∧ dget "title" (AudienceMember.payload m) = Some (JStr "CTO") ∧
    es_enriched r = 1 ∧ 0 <= es_enriched r <= Z.max 0 10.
Proof.
  intros mp.
  assert (run_exn (enrich_audience mp 5 10 (demo_env 7) sample_audience_db) = None) as Hok by (vm_compute; reflexivity).
  assert (es_enriched <$> run_val (enrich_audience mp 5 10 (demo_env 7) sample_audience_db) = Some 1) as Hone
    by (vm_compute; reflexivity).
  destruct (enrich_audience mp 5 10 (demo_env 7) sample_audience_db) as [s' [x|r]] eqn:Hrun; [discriminate Hok|].
  assert (keyed AudienceMember.t sample_audience_db) as Hk.
  { intros k m H. change (({[ (5%N, "a") := sample_member "a" "a@x.io" [("title", JStr "CTO")] ]}
      : gmap (N * string) AudienceMember.t) !! k = Some m) in H.
    apply lookup_singleton_Some in H as [<- <-]. reflexivity. }
  destruct (enrich_audience_spec mp 5 10 (demo_env 7) sample_audience_db s' r Hk Hrun) as (_ & Hrow & _ & Hn).
  specialize (Hrow (5%N, "a")).
  change (t_audience_member sample_audience_db !! (5%N, "a"))
    with (Some (sample_member "a" "a@x.io" [("title", JStr "CTO")])) in Hrow.
  destruct Hrow as (m & Hm & Hef & _). exists s', r, m. split; [reflexivity|]. split; [exact Hm|].
  split; [apply (ef_kept _ _ _ Hef); reflexivity|]. split; [|exact Hn].
  by injection Hone.
Defined.

(** ** Templates *)

(** An invariant that counts the steps of a loop. *)
Lemma foldM_steps {A B} (I : Z → db → B → Prop) (w : Z) (f : B → A → M B) l :
  (∀ n x b e s s' b', x ∈ l → I n s b → f b x e s = (s', inr b') → I (n + w) s' b') →
  ∀ n b e s s' b', I n s b → foldM f b l e s = (s', inr b') → I (n + w * Z.of_nat (length l)) s' b'.
Proof.
  induction l as [|x l IH]; intros Hf n b e s s' b' HI; cbn [foldM].
  - intros [= <- <-]. by rewrite Z.mul_0_r, Z.add_0_r.
  - intros (s1 & b1 & H1 & H2)%bind_inr. pose proof (Hf _ _ _ _ _ _ _ ltac:(left) HI H1) as HI1.
    assert (∀ n x b e s s' b', x ∈ l → I n s b → f b x e s = (s', inr b') → I (n + w) s' b') as Hf'
      by (intros ????????; apply Hf; by right).
    specialize (IH Hf' _ _ _ _ _ _ HI1 H2). cbn [length].
    by replace (n + w * Z.of_nat (S (length l))) with (n + w + w * Z.of_nat (length l)) by lia.
Qed.

(** A template that a run has added. *)
Definition is_new_template (campaign : Campaign.t) (audience_id : N) (a : ContentAsset.t) : Prop :=
  ContentAsset.status a = AssetStatus.drafted ∧ ContentAsset.tenant_id a = Campaign.tenant_id campaign ∧
  is_template (Campaign.id campaign) audience_id a = true ∧ ContentAsset.content a ≠ Some "" ∧
  (∃ b, b ∈ SENIORITY_BUCKETS ∧ dget "segment_key" (ContentAsset.extra_metadata a) = Some (JStr (seg_key b))) ∧
  ∃ fields body, dget "fields" (ContentAsset.extra_metadata a) = Some (JObj fields) ∧
    dget "body" fields = Some (JStr body) ∧ body ≠ "".

(** What has been done after [n] pairs of one of [segs] segments and a channel. *)
Record generated (campaign : Campaign.t) (audience_id : N) (segs : Z) (s0 : db) (n : Z) (s : db)
    (r : OutreachGenerationSummary) : Prop := {
  g_frame : s = s0 <| t_content_asset := t_content_asset s |> <| next_uuid := next_uuid s |>;
  g_old : t_content_asset s0 ⊆ t_content_asset s;
  g_new k a : t_content_asset s !! k = Some a → t_content_asset s0 !! k = None → is_new_template campaign audience_id a;
  g_fresh k a : t_content_asset s !! k = Some a → (k < next_uuid s)%N;
  g_size : Z.of_nat (size (t_content_asset s)) =
    Z.of_nat (size (t_content_asset s0)) + og_linkedin_assets r + og_email_assets r;
  g_segments : og_segments_generated r = segs;
  g_count : og_linkedin_assets r + og_email_assets r + og_skipped_existing r + Z.of_nat (length (og_errors r)) = n;
}.

Lemma generate_one_error loads cm prompt msg :
  _generate_one loads cm prompt = inl (OutreachGenerationError msg) → str_empty msg = false.
Proof.
  unfold _generate_one, _extract_json. destruct (cm prompt); [by intros [= <-]..|].
  destruct (loads _) as [[]|]; by intros [= <-].
Qed.

Lemma length_append_error msg l : str_empty msg = false → length (append_error msg l) = S (length l).
Proof. unfold append_error. intros ->. rewrite length_app. simpl. lia. Qed.

Lemma template_text_body channel obj content_text fields :
  template_text channel obj = inr (content_text, fields) →
  content_text ≠ "" ∧ ∃ body, dget "body" fields = Some (JStr body) ∧ body ≠ "".
Proof.
  unfold template_text. set (body := default "" (dget "body" obj)).
  destruct (channel ==b "linkedin_dm").
  - destruct (str_empty body) eqn:E; [done|]. intros [= <- <-]. apply str_empty_ne in E. eauto.
  - destruct (str_empty (default "" (dget "subject" obj))) eqn:E1; [done|].
    destruct (str_empty body) eqn:E2; [done|]. intros [= <- <-].
    apply str_empty_ne in E1, E2. split; [|by exists body].
    by destruct (default "" (dget "subject" obj)).
Qed.

Lemma generated_step loads cm campaign aid seg segs s0 n r channel e s s' r' :
  seg_bucket seg ∈ SENIORITY_BUCKETS →
  generated campaign aid segs s0 n s r →
  generate_template loads cm campaign aid false seg r channel e s = (s', inr r') →
  generated campaign aid segs s0 (n + 1) s' r'.
Proof.
  intros Hb HI. unfold generate_template. rewrite bind_select.
  intros (s1 & existing & [-> Hex]%scalar_inr & Hrun)%bind_inr.
  assert (∀ li em sk err, li = 0 → em = 0 →
    sk + Z.of_nat (length (og_errors (_bump r li em sk err))) = Z.of_nat (length (og_errors r)) + 1 →
    generated campaign aid segs s0 (n + 1) s (_bump r li em sk err)) as Hsame.
  { intros li em sk err -> -> Hc. destruct HI. split; try done; cbn in *; lia. }
  destruct existing as [a|].
  { cbn in Hrun. injection Hrun as <- <-. apply Hsame; cbn; lia. }
  cbn [bool_decide] in Hrun. rewrite (bool_decide_eq_false_2 (is_Some None)) in Hrun by (by intros []).
  cbn [andb] in Hrun. apply bind_inr in Hrun as (s1 & prompt & [_ ->]%of_sum_inr & Hrun).
  destruct (_generate_one loads cm prompt) as [x|obj] eqn:Hg.
  { destruct x; try done. injection Hrun as <- <-. apply Hsame; [done..|]. cbn.
    rewrite length_append_error by (by eapply generate_one_error). lia. }
  destruct (template_text channel obj) as [err|[content_text fields]] eqn:Ht.
  { injection Hrun as <- <-. apply Hsame; [done..|]. cbn. rewrite length_append_error; [lia|].
    unfold template_text in Ht. repeat case_match; simplify_eq; done. }
  clear Hsame Hg. apply bind_inr in Hrun as (s2 & [] & Hw & Hrun). unfold write_template in Hw.
  rewrite bind_asks in Hw. 
    match type of Hw with (add_row ?f ≫= _) _ _ = _ => set (new := f) in Hw end. rewrite (bind_ok _ _ _ _ _ _ (add_row_run new e s)) in Hw.
  injection Hw as <-. injection Hrun as <- <-. destruct HI as [Hframe Hold Hnew Hfresh Hsize Hsegs Hcount].
  assert (t_content_asset s !! next_uuid s = None) as Hnone.
  { destruct (t_content_asset s !! next_uuid s) as [a|] eqn:E; [|done]. specialize (Hfresh _ _ E). lia. }
  change (set_rows ?m ?s1) with (s1 <| t_content_asset := m |>).
  change (rows (R:=ContentAsset.t) s) with (t_content_asset s).
  split; cbn [t_content_asset next_uuid].
  - assert (∃ ca nu, s = s0 <| t_content_asset := ca |> <| next_uuid := nu |>) as (ca & nu & ->) by eauto.
    reflexivity.
  - etrans; [exact Hold|]. by apply insert_subseteq.
  - intros k a. cbn. rewrite lookup_insert_Some. intros [[<- <-]|[_ Hk]] Hk0; [|by eapply Hnew].
    destruct (template_text_body _ _ _ _ Ht) as (Hne & body & Hbody & Hbody').
    split; [done|]. split; [done|]. split; [|split; [by intros [= ->]|]].
    + unfold is_template, new. cbn [ContentAsset.campaign_id ContentAsset.asset_type ContentAsset.extra_metadata].
      rewrite bool_decide_eq_true_2 by done. unfold channel_type.
      assert (astext (dget "audience_id" (template_metadata seg aid content_text fields)) = Some (uuid_str aid)) as ->
        by reflexivity.
      rewrite (bool_decide_eq_true_2 (Some (uuid_str aid) = _)) by done.
      by destruct (channel ==b "linkedin_dm").
    + split; [by exists (seg_bucket seg)|]. by exists fields, body.
  - intros k a. cbn. rewrite lookup_insert_Some. intros [[<- _]|[_ Hk]]; [lia|]. specialize (Hfresh _ _ Hk). lia.
  - cbn. rewrite map_size_insert_None by done. destruct (channel ==b "linkedin_dm"); cbn; lia.
  - by destruct (channel ==b "linkedin_dm").
  - destruct (channel ==b "linkedin_dm"); cbn; lia.
Qed.

Lemma segments_in_table members segs seg :
  segment_members members = inr segs → seg ∈ segs → seg_bucket seg ∈ SENIORITY_BUCKETS.
Proof.
  unfold segment_members. destruct (keyed_members members) as [x|l]; [done|]. intros H.
  assert (segs = omap (one_segment l) SENIORITY_BUCKETS) as -> by congruence.
  intros (b & Hb & Hseg)%list_elem_of_omap. unfold one_segment in Hseg.
  destruct (under_key l b); [done|]. by injection Hseg as <-.
Qed.

(** C30: generating without overwriting only adds templates. A run changes no table but the assets,
    and leaves every asset there was as it was; each new one is a draft of the campaign for this
    audience, under a bucket of the table, with a body that is not empty. What the summary counts as
    written is the number of new assets, and written, skipped and failed add up to one for every
    segment and channel. *)
Theorem generate_outreach_spec loads cm campaign aid channels e s s' r :
  (∀ k a, t_content_asset s !! k = Some a → (k < next_uuid s)%N) →
  generate_outreach_drafts loads cm campaign aid channels false e s = (s', inr r) →
  generated campaign aid (og_segments_generated r) s (og_segments_generated r * Z.of_nat (length channels)) s' r.
Proof.
  intros Hfresh. unfold generate_outreach_drafts. rewrite bind_get_row.
  intros (s1 & [] & [_ ->]%raise_if_inr & Hrun)%bind_inr. rewrite bind_select in Hrun.
  set (members := List.filter _ _) in Hrun.
  apply bind_inr in Hrun as (s1 & [] & [_ ->]%raise_if_inr & Hrun).
  apply bind_inr in Hrun as (s1 & segments & [Hsegs ->]%of_sum_inr & Hrun).
  set (r0 := mkoutreach _ _ _ _ _ _ _) in Hrun.
  assert (generated campaign aid (Z.of_nat (length segments)) s 0 s r0) as H0.
  { split; try done; cbn; [by destruct s| |lia]. intros k a H1 H2. by rewrite H1 in H2. }
  apply (foldM_steps (generated campaign aid (Z.of_nat (length segments)) s)
           (Z.of_nat (length channels)) _ _) with (n := 0) in Hrun; [| |done].
  - rewrite Z.add_0_l in Hrun. rewrite (g_segments _ _ _ _ _ _ _ Hrun).
    by rewrite (Z.mul_comm (Z.of_nat (length segments))).
  - intros n seg r1 e1 s1 s2 r2 Hseg HI Hinner.
    apply (foldM_steps (generated campaign aid (Z.of_nat (length segments)) s) 1) with (n := n) in Hinner; [| |done].
    + by rewrite Z.mul_1_l in Hinner.
    + intros n1 channel r3 e3 s3 s4 r4 _ HI3 H3. eapply generated_step; [|exact HI3|exact H3].
      by eapply segments_in_table.
Qed.

Definition sample_answer (prompt : string) : model_answer := ModelText "{}".
Definition sample_json (text : string) : option json := Some (JObj [("subject", JStr "S"); ("body", JStr "Hi {first_name}")]).
Definition outbound_db : db := sample_audience_db
  <| t_audience := {[ 5%N := {| Audience.id := 5; Audience.tenant_id := 1; Audience.campaign_id := 10;
       Audience.name := "A"; Audience.segment_criteria := []; Audience.estimated_size := None;
       Audience.actual_size := None; Audience.refreshed_at := None; Audience.created_at := 0;
       Audience.updated_at := 0 |} ]} |>
  <| next_uuid := 100%N |>.

Lemma generate_outreach_spec_witness :
  ∃ s' r, generate_outreach_drafts sample_json sample_answer (sample_campaign CampaignStatus.strategy_set) 5
      ["linkedin_dm"; "email"] false (demo_env 0) outbound_db = (s', inr r) ∧
    og_segments_generated r = 1 ∧ og_linkedin_assets r + og_email_assets r = 2 ∧
    size (t_content_asset s') = 2%nat.
Proof.
  set (run := generate_outreach_drafts _ _ _ _ _ _).
  assert (run_exn (run (demo_env 0) outbound_db) = None) as Hok by (vm_compute; reflexivity).
  assert ((λ r, (og_segments_generated r, og_linkedin_assets r + og_email_assets r)) <$>
    run_val (run (demo_env 0) outbound_db) = Some (1, 2)) as Hval by (vm_compute; reflexivity).
  destruct (run (demo_env 0) outbound_db) as [s' [x|r]] eqn:Hrun; [discriminate Hok|].
  injection Hval as Hs Hw. exists s', r. split; [reflexivity|]. split; [exact Hs|]. split; [exact Hw|].
  pose proof (g_size _ _ _ _ _ _ _ (generate_outreach_spec sample_json sample_answer
    (sample_campaign CampaignStatus.strategy_set) 5 ["linkedin_dm"; "email"] (demo_env 0) outbound_db s' r
    (λ k a H, match lookup_empty_Some k a H with end) Hrun)) as Hsize.
  change (size (t_content_asset outbound_db)) with 0%nat in Hsize. lia.
Defined.

(** The prompt names two of the tokens in doubled braces, its lines not being format strings. A
    model that follows it to the letter gets braces around the value. *)
Theorem doubled_braces_stay :
  _render (JStr "Hi {first_name}, at {{company}}") [("first_name", JStr "Ada"); ("company", JStr "Acme")]
  = inr "Hi Ada, at {Acme}".
Proof. vm_compute. reflexivity. Qed.
