(* ===== verification/Queue.v ===== *)
(** * The durable task queue: src/app/orchestrator/queue.py

    Each operation is one function of the source; the column assignments of its
    UPDATE are a row function of their own ([claim_values], [fail_values], ...).
    A claim runs in its own transaction, so two workers interleave at the level
    of whole operations; [locked] is the set of rows a concurrent transaction
    holds, which FOR UPDATE SKIP LOCKED passes over. Two claims that overlap are
    a claim and a second one whose [locked] holds the first one's row. *)

From S2P Require Export AuditTrail.
Local Open Scope Z_scope.

(** ** Backoff *)

(** [app/orchestrator/queue.py] lines 29-29, [_BACKOFF_BASE_SECONDS]. *)
Definition BACKOFF_BASE_SECONDS : Z := 30.
Definition BACKOFF_MAX_SECONDS : Z := 3600.

(** [app/orchestrator/queue.py] lines 38-42, [_compute_next_attempt_delay]. In
    microseconds; the jitter fraction is one tenth. *)
Definition _compute_next_attempt_delay (attempt : Z) : M Z :=
  let delay := Z.min (BACKOFF_BASE_SECONDS * 2 ^ attempt) BACKOFF_MAX_SECONDS * second in
  u ← asks uniform;
  mret (delay + u (delay / 10)).

(** ** Operations *)

(** The row [enqueue_task] inserts; [scheduled_for] and the rest take the column
    defaults when the caller does not give them. *)
Definition new_task (tenant_id agent_id : N) (skill_name : string) (input_data : jdict)
    (campaign_id parent_task_id : option N) (idempotency_key : option string)
    (scheduled_for : option Z) (max_attempts priority : Z) (t : Z) (id : N) : Task.t := {|
  Task.id := id;
  Task.tenant_id := tenant_id;
  Task.campaign_id := campaign_id;
  Task.agent_id := agent_id;
  Task.parent_task_id := parent_task_id;
  Task.skill_name := skill_name;
  Task.status := TaskStatus.queued;
  Task.priority := priority;
  Task.attempt := 0;
  Task.max_attempts := max_attempts;
  Task.idempotency_key := idempotency_key;
  Task.leased_until := None;
  Task.worker_id := None;
  Task.input_data := input_data;
  Task.output_data := [];
  Task.error_message := None;
  Task.scheduled_for := default t scheduled_for;
  Task.started_at := None;
  Task.completed_at := None;
  Task.created_at := t;
  Task.updated_at := t |}.

Definition has_key (tenant_id : N) (key : string) (t : Task.t) : bool :=
  (Task.tenant_id t ==b tenant_id) && (Task.idempotency_key t ==b Some key).

(** [app/orchestrator/queue.py] lines 45-101, [enqueue_task]. The rows that make
    ON CONFLICT DO NOTHING skip the insert are those of the partial unique index. *)
Definition enqueue_task (tenant_id agent_id : N) (skill_name : string) (input_data : jdict)
    (campaign_id parent_task_id : option N) (idempotency_key : option string)
    (scheduled_for : option Z) (max_attempts priority : Z) : M Task.t :=
  conflict ← match idempotency_key with
             | None => mret []
             | Some key => select (has_key tenant_id key)
             end;
  match conflict with
  | [] =>
      t ← asks now;
      add_row (new_task tenant_id agent_id skill_name input_data campaign_id parent_task_id
        idempotency_key scheduled_for max_attempts priority t)
  | existing => scalar_one existing
  end.

(** The rows [claim_next] may take. *)
Definition is_queued (t : Task.t) : bool :=
  (Task.status t ==b TaskStatus.queued) || (Task.status t ==b TaskStatus.awaiting_retry).
Definition is_ready (now : Z) (t : Task.t) : bool :=
  is_queued t && (Task.scheduled_for t <=? now).

(** ORDER BY priority DESC, scheduled_for ASC. *)
Definition claim_order (x y : Task.t) : Prop :=
  Task.priority y < Task.priority x ∨
  (Task.priority x = Task.priority y ∧ Task.scheduled_for x ≤ Task.scheduled_for y).
#[export] Instance claim_order_dec : RelDecision claim_order.
Proof. intros x y. unfold claim_order. apply _. Defined.

Definition claim_values (now : Z) (worker_id : string) (lease_seconds : Z) (t : Task.t)
    : Task.t :=
  t <| Task.status := TaskStatus.running |>
    <| Task.worker_id := Some worker_id |>
    <| Task.leased_until := Some (now + lease_seconds * second) |>
    <| Task.started_at := Some now |>
    <| Task.attempt := Task.attempt t + 1 |>
    <| Task.error_message := None |>.

(** [app/orchestrator/queue.py] lines 104-144, [claim_next]. *)
Definition claim_next (locked : gset N) (worker_id : string) (lease_seconds : Z)
    : M (option Task.t) :=
  t ← asks now;
  ready ← select (λ r, is_ready t r && negb (Task.id r ∈b locked));
  match merge_sort claim_order ready with
  | [] => mret None
  | r :: _ =>
      update_row (Task.id r) (claim_values t worker_id lease_seconds) ;;
      get_row (Task.id r)
  end.

Definition complete_values (now : Z) (output_data : jdict) (t : Task.t) : Task.t :=
  t <| Task.status := TaskStatus.succeeded |>
    <| Task.output_data := output_data |>
    <| Task.completed_at := Some now |>
    <| Task.leased_until := None |>
    <| Task.worker_id := None |>
    <| Task.error_message := None |>.

(** [app/orchestrator/queue.py] lines 147-165, [complete]. *)
Definition complete (task_id : N) (output_data : jdict) : M () :=
  t ← asks now;
  update_where (λ r, Task.id r ==b task_id) (complete_values t output_data) ;;
  mret ().

Definition fail_values (now : Z) (error : string) (t : Task.t) : Task.t :=
  t <| Task.status := TaskStatus.failed |>
    <| Task.error_message := Some error |>
    <| Task.completed_at := Some now |>
    <| Task.leased_until := None |>
    <| Task.worker_id := None |>.

Definition retry_values (at_ : Z) (error : string) (t : Task.t) : Task.t :=
  t <| Task.status := TaskStatus.awaiting_retry |>
    <| Task.error_message := Some error |>
    <| Task.scheduled_for := at_ |>
    <| Task.leased_until := None |>
    <| Task.worker_id := None |>.

(** [app/orchestrator/queue.py] lines 168-209, [fail]. *)
Definition fail (task_id : N) (error : string) (permanent : bool) : M Task.t :=
  task ← get_row task_id;
  match task with
  | None => raise (AssertionError "task not found")
  | Some task =>
      t ← asks now;
      (if permanent || (Task.max_attempts task <=? Task.attempt task) then
         update_where (λ r, Task.id r ==b task_id) (fail_values t error) ;; mret ()
       else
         delay ← _compute_next_attempt_delay (Task.attempt task);
         update_where (λ r, Task.id r ==b task_id) (retry_values (t + delay) error) ;;
         mret ()) ;;
      task ← get_row task_id;
      match task with
      | Some task => mret task
      | None => raise (OtherError "InvalidRequestError")
      end
  end.

Definition is_expired (now : Z) (t : Task.t) : bool :=
  (Task.status t ==b TaskStatus.running) &&
  match Task.leased_until t with Some u => u <? now | None => false end.

Definition reap_values (t : Task.t) : Task.t :=
  t <| Task.status := TaskStatus.awaiting_retry |>
    <| Task.leased_until := None |>
    <| Task.worker_id := None |>.

(** [app/orchestrator/queue.py] lines 212-224, [reap_expired_leases]. *)
Definition reap_expired_leases : M Z :=
  t ← asks now;
  update_where (is_expired t) reap_values.

Definition cancel_values (now : Z) (t : Task.t) : Task.t :=
  t <| Task.status := TaskStatus.cancelled |>
    <| Task.completed_at := Some now |>
    <| Task.leased_until := None |>
    <| Task.worker_id := None |>.

(** [app/orchestrator/queue.py] lines 227-251, [cancel_queued_for_campaign]. *)
Definition cancel_queued_for_campaign (campaign_id : N) : M Z :=
  t ← asks now;
  update_where (λ r, (Task.campaign_id r ==b Some campaign_id) && is_queued r)
    (cancel_values t).

(** ** The queue as a transition system *)

(** One committed transaction of some worker, caller or reaper, at any time. *)
Inductive queue_step (s : db) : db → Prop :=
  | step_enqueue tid aid sk inp cid pid key at_ mx pr e :
      queue_step s (enqueue_task tid aid sk inp cid pid key at_ mx pr e s).1
  | step_claim locked w lease e : queue_step s (claim_next locked w lease e s).1
  | step_complete id out e : queue_step s (complete id out e s).1
  | step_fail id err perm e : queue_step s (fail id err perm e s).1
  | step_reap e : queue_step s (reap_expired_leases e s).1
  | step_cancel cid e : queue_step s (cancel_queued_for_campaign cid e s).1.

(** ** Invariant *)

Definition is_terminal (st : TaskStatus.t) : bool :=
  match st with
  | TaskStatus.succeeded | TaskStatus.failed | TaskStatus.cancelled => true
  | _ => false
  end.

(** What every task row satisfies: a lease and a worker exactly while it runs, a
    completion time once finished, no attempt counted before the first claim. *)
Record task_ok (k : N) (t : Task.t) : Prop := {
  task_ok_id : Task.id t = k;
  task_ok_running : Task.status t = TaskStatus.running →
    is_Some (Task.leased_until t) ∧ is_Some (Task.worker_id t) ∧
    is_Some (Task.started_at t) ∧ 1 ≤ Task.attempt t;
  task_ok_idle : Task.status t ≠ TaskStatus.running →
    Task.leased_until t = None ∧ Task.worker_id t = None;
  task_ok_done : is_terminal (Task.status t) = true → is_Some (Task.completed_at t);
  task_ok_queued : Task.status t = TaskStatus.queued →
    Task.attempt t = 0 ∧ Task.started_at t = None;
  task_ok_attempt : 0 ≤ Task.attempt t;
}.

(** The partial unique index of migration 0005. *)
Definition idem_key (t : Task.t) : option (N * string) :=
  pair (Task.tenant_id t) <$> Task.idempotency_key t.

Record queue_ok (s : db) : Prop := {
  queue_ok_rows : rows_ok task_ok s;
  queue_ok_unique : unique_on idem_key s;
}.

Section rows.
Local Ltac task_ok := intros []; split; simpl; try done; intros; try split_and!; eauto; lia.

Lemma claim_values_ok t now w l k : task_ok k t → task_ok k (claim_values now w l t).
Proof. task_ok. Qed.

Lemma complete_values_ok t now out k : task_ok k t → task_ok k (complete_values now out t).
Proof. task_ok. Qed.

Lemma fail_values_ok t now err k : task_ok k t → task_ok k (fail_values now err t).
Proof. task_ok. Qed.

Lemma retry_values_ok t at_ err k : task_ok k t → task_ok k (retry_values at_ err t).
Proof. task_ok. Qed.

Lemma reap_values_ok t k : task_ok k t → task_ok k (reap_values t).
Proof. task_ok. Qed.

Lemma cancel_values_ok t now k : task_ok k t → task_ok k (cancel_values now t).
Proof. task_ok. Qed.

Lemma touch_task_ok t now k : task_ok k t → task_ok k (touch now t).
Proof. task_ok. Qed.
End rows.
#[export] Hint Resolve claim_values_ok complete_values_ok fail_values_ok retry_values_ok
  reap_values_ok cancel_values_ok touch_task_ok : mas.

Ltac keeps_rows := respects_auto;
  try (first [apply update_where_ok | apply update_row_ok | apply add_row_ok];
       intros; eauto 6 with mas).
Ltac keeps_unique := respects_auto;
  try (first [apply update_where_unique | apply update_row_unique]; by intros).

Lemma enqueue_task_rows tid aid sk inp cid pid key at_ mx pr :
  respects (keeps (rows_ok task_ok)) (enqueue_task tid aid sk inp cid pid key at_ mx pr).
Proof. unfold enqueue_task. keeps_rows. split; simpl; try done; lia. Qed.

Lemma claim_next_keeps (P : db → Prop) locked w l :
  (∀ t k, respects (keeps P) (update_row k (claim_values t w l))) →
  respects (keeps P) (claim_next locked w l).
Proof. intros Hu. unfold claim_next. respects_auto. apply Hu. Qed.

Lemma complete_keeps (P : db → Prop) id out :
  (∀ t p, respects (keeps P) (update_where p (complete_values t out))) →
  respects (keeps P) (complete id out).
Proof. intros Hu. unfold complete. respects_auto. apply Hu. Qed.

Lemma fail_keeps (P : db → Prop) id err perm :
  (∀ t p, respects (keeps P) (update_where p (fail_values t err))) →
  (∀ t p, respects (keeps P) (update_where p (retry_values t err))) →
  respects (keeps P) (fail id err perm).
Proof.
  intros Hf Hr. unfold fail, _compute_next_attempt_delay. respects_auto; [apply Hf|apply Hr].
Qed.

(** A step keeps what [enqueue_task] keeps and every row update keeps. *)
Lemma queue_step_keeps (P : db → Prop) s s' :
  (∀ tid aid sk inp cid pid key at_ mx pr,
     respects (keeps P) (enqueue_task tid aid sk inp cid pid key at_ mx pr)) →
  (∀ t w l k, respects (keeps P) (update_row k (claim_values t w l))) →
  (∀ t p out, respects (keeps P) (update_where p (complete_values t out))) →
  (∀ t p err, respects (keeps P) (update_where p (fail_values t err))) →
  (∀ t p err, respects (keeps P) (update_where p (retry_values t err))) →
  (∀ p, respects (keeps P) (update_where p reap_values)) →
  (∀ t p, respects (keeps P) (update_where p (cancel_values t))) →
  queue_step s s' → P s → P s'.
Proof.
  intros He Hcl Hco Hf Hr Hre Hca Hstep. revert s s' Hstep. intros s s' [ ].
  - apply He.
  - apply claim_next_keeps; auto.
  - apply complete_keeps; auto.
  - apply fail_keeps; auto.
  - assert (respects (keeps P) reap_expired_leases) as H; [|apply H].
    unfold reap_expired_leases. respects_auto. apply Hre.
  - assert (respects (keeps P) (cancel_queued_for_campaign cid)) as H; [|apply H].
    unfold cancel_queued_for_campaign. respects_auto. apply Hca.
Qed.

Lemma has_key_true tid key t :
  has_key tid key t = true ↔ Task.tenant_id t = tid ∧ Task.idempotency_key t = Some key.
Proof. unfold has_key. by rewrite andb_true_iff, !bool_decide_eq_true. Qed.

Lemma enqueue_task_unique tid aid sk inp cid pid key at_ mx pr :
  respects (keeps (unique_on idem_key)) (enqueue_task tid aid sk inp cid pid key at_ mx pr).
Proof.
  intros e s Hs. unfold enqueue_task. destruct key as [key|].
  - rewrite bind_select.
    destruct (List.filter _ _) as [|x l] eqn:E.
    + apply add_row_unique; [|done].
      intros k r x Hr [= <-] Hx. rewrite select_nil in E. specialize (E k r Hr).
      apply not_true_iff_false in E. apply E, has_key_true. unfold idem_key in Hx.
      destruct (Task.idempotency_key r); by simplify_eq/=.
    + exact (respects_scalar_one (keeps _) _ e s Hs).
  - apply add_row_unique; [|done]. by intros.
Qed.

Lemma queue_step_ok s s' : queue_step s s' → queue_ok s → queue_ok s'.
Proof.
  intros Hstep [Hr Hu]. split.
  - revert Hr. apply queue_step_keeps; [apply enqueue_task_rows|..|done]; intros;
      first [apply update_where_ok | apply update_row_ok]; eauto with mas.
  - revert Hu. apply queue_step_keeps; [apply enqueue_task_unique|..|done]; intros;
      first [apply update_where_unique | apply update_row_unique]; by intros.
Qed.

(** ** Properties *)

(** C3: whatever sequence of enqueues, claims, completions, failures, reaps and
    cancellations the workers commit, at whatever times, every task row stays
    well formed: it has a lease, a worker and a start time exactly while it is
    running, a completion time once it is finished, an attempt count that is zero
    until the first claim; and no two tasks of a tenant share an idempotency key. *)
Theorem queue_invariant s s' : queue_ok s → rtc queue_step s s' → queue_ok s'.
Proof. intros Hs Hrun. eapply rtc_invariant; eauto using queue_step_ok. Qed.

#[export] Instance claim_order_total : Total claim_order.
Proof. intros x y. unfold claim_order. lia. Qed.
#[export] Instance claim_order_trans : Transitive claim_order.
Proof. intros x y z. unfold claim_order. lia. Qed.

(** A task [claim_next] may take in [s] at time [now]. *)
Definition claimable (locked : gset N) (now : Z) (s : db) (t : Task.t) : Prop :=
  rows s !! Task.id t = Some t ∧ is_ready now t = true ∧ Task.id t ∉ locked.

Lemma claim_next_run locked w l e s :
  rows_ok task_ok s →
  match claim_next locked w l e s with
  | (s', inr (Some t')) =>
      ∃ t, claimable locked (now e) s t ∧
        (∀ u, claimable locked (now e) s u → u = t ∨ claim_order t u) ∧
        t' = touch (now e) (claim_values (now e) w l t) ∧
        s' = set_rows (<[Task.id t := t']> (rows s)) s
  | (s', inr None) => s' = s ∧ ∀ t, ¬ claimable locked (now e) s t
  | (_, inl _) => False
  end.
Proof.
  intros Hok. unfold claim_next. run_pure.
  set (ready := List.filter _ _).
  assert (∀ t, t ∈ ready ↔ claimable locked (now e) s t) as Hready.
  { intros t. unfold ready. rewrite elem_of_select. unfold claimable. split.
    - intros [[k Hk] [Hr Hl]%andb_true_iff]. reflect_bools.
      pose proof (task_ok_id _ _ (Hok _ _ Hk)) as Eid. subst k. done.
    - intros (Hk & Hr & Hl). split; [eauto|]. rewrite Hr. by rewrite bool_decide_false. }
  destruct (merge_sort claim_order ready) as [|t rest] eqn:E.
  - split; [done|]. intros t Ht%Hready.
    rewrite (merge_sort_nil _ _ E) in Ht. by apply not_elem_of_nil in Ht.
  - destruct (merge_sort_head _ _ _ _ E) as [Ht Hbest]. apply Hready in Ht as Hc.
    destruct Hc as [Hk _].
    rewrite (bind_ok _ _ _ _ _ _ (update_row_run _ _ e s _ Hk)), get_row_run.
    rewrite rows_set_rows, lookup_insert_eq.
    exists t. split; [by apply Hready|]. split; [|done].
    intros u Hu. by apply Hbest, Hready.
Qed.

(** [claim_next] takes, of the queued or awaiting-retry tasks that are due
    and not locked by another transaction, one of the highest priority and among
    those one scheduled earliest; it returns it running, with the lease, the
    worker and one more attempt, and changes no other row. It returns nothing,
    and changes nothing, only when there is no such task. *)
Theorem claim_next_spec locked w l e s :
  rows_ok task_ok s →
  match claim_next locked w l e s with
  | (s', inr (Some t')) =>
      ∃ t, claimable locked (now e) s t ∧
        (∀ u, claimable locked (now e) s u → u = t ∨ claim_order t u) ∧
        t' = touch (now e) (claim_values (now e) w l t) ∧
        s' = set_rows (<[Task.id t := t']> (rows s)) s
  | (s', inr None) => s' = s ∧ ∀ t, ¬ claimable locked (now e) s t
  | (_, inl _) => False
  end.
Proof. apply claim_next_run. Qed.

(** Claims of two workers that overlap take different tasks. *)
Lemma claim_next_locked locked w l e s s' t' :
  rows_ok task_ok s → claim_next locked w l e s = (s', inr (Some t')) →
  Task.id t' ∉ locked.
Proof.
  intros Hok Hc. pose proof (claim_next_run locked w l e s Hok) as H. rewrite Hc in H.
  destruct H as (t & (_ & _ & Hl) & _ & -> & _). done.
Qed.

Lemma enqueue_hit tid aid sk inp cid pid key at_ mx pr e s k t :
  unique_on idem_key s → rows s !! k = Some t → has_key tid key t = true →
  enqueue_task tid aid sk inp cid pid (Some key) at_ mx pr e s = (s, inr t).
Proof.
  intros Hu Hk Hkey. unfold enqueue_task.
  rewrite bind_select.
  rewrite (select_single _ s k t); [done|done|done|].
  intros k' t' Hk' Hp. apply has_key_true in Hp as [Ht' Hkey'].
  apply has_key_true in Hkey as [Ht Hkey].
  eapply (Hu _ _ t' t (tid, key)); [done|done|..]; unfold idem_key;
    [rewrite Hkey', Ht'|rewrite Hkey, Ht]; done.
Qed.

Lemma enqueue_miss tid aid sk inp cid pid key at_ mx pr e s :
  (∀ k t, rows s !! k = Some t → has_key tid key t = false) →
  enqueue_task tid aid sk inp cid pid (Some key) at_ mx pr e s =
  add_row (new_task tid aid sk inp cid pid (Some key) at_ mx pr (now e)) e s.
Proof.
  intros Hno. unfold enqueue_task.
  rewrite bind_select. apply select_nil in Hno. by rewrite Hno.
Qed.

(** Enqueueing under an idempotency key always succeeds, and once it has, any
    later enqueue under the same tenant and key, with whatever other arguments and
    at whatever time, returns that same task and changes nothing. *)
Theorem enqueue_task_idempotent tid aid sk inp cid pid key at_ mx pr e s :
  queue_ok s →
  ∃ s' t, enqueue_task tid aid sk inp cid pid (Some key) at_ mx pr e s = (s', inr t) ∧
    rows s' !! Task.id t = Some t ∧
    (s' = s ∨ Task.status t = TaskStatus.queued ∧ Task.skill_name t = sk) ∧
    ∀ aid' sk' inp' cid' pid' at_' mx' pr' e',
      enqueue_task tid aid' sk' inp' cid' pid' (Some key) at_' mx' pr' e' s' = (s', inr t).
Proof.
  intros Hs.
  destruct (List.filter (has_key tid key) (snd <$> map_to_list (rows s))) as [|t l] eqn:E.
  - rewrite select_nil in E. rewrite enqueue_miss, add_row_run by done.
    do 2 eexists. split; [done|]. rewrite rows_set_rows. simpl Task.id.
    rewrite lookup_insert_eq. split; [done|]. split; [by right|]. intros.
    eapply enqueue_hit; [|by rewrite rows_set_rows, lookup_insert_eq|].
    + pose proof (enqueue_task_unique tid aid sk inp cid pid (Some key) at_ mx pr e s) as Hu.
      rewrite enqueue_miss, add_row_run in Hu by done. apply Hu, Hs.
    + by apply has_key_true.
  - assert (t ∈ List.filter (has_key tid key) (snd <$> map_to_list (rows s))) as Ht
      by (rewrite E; left).
    apply elem_of_select in Ht as [[k Hk] Hkey]. destruct Hs as [Hok Hu].
    exists s, t. pose proof (task_ok_id _ _ (Hok _ _ Hk)) as <-.
    split; [by eapply enqueue_hit|]. split; [done|]. split; [by left|].
    intros. by eapply enqueue_hit.
Qed.

(** ** Failure and retry *)

(** The jitter [random.uniform(0, hi)] draws. *)
Definition uniform_ok (e : env) : Prop := ∀ hi, 0 ≤ hi → 0 ≤ uniform e hi ≤ hi.

Lemma next_attempt_delay_bounds attempt e s :
  uniform_ok e → 0 ≤ attempt →
  ∃ d, _compute_next_attempt_delay attempt e s = (s, inr d) ∧
    Z.min (30 * 2 ^ attempt) 3600 * second ≤ d ≤ Z.min (33 * 2 ^ attempt) 3960 * second.
Proof.
  intros Hu Ha. eexists. split; [done|].
  unfold BACKOFF_BASE_SECONDS, BACKOFF_MAX_SECONDS, second.
  pose proof (Z.pow_pos_nonneg 2 attempt ltac:(lia) Ha).
  set (hi := _ / 10). assert (hi = Z.min (30 * 2 ^ attempt) 3600 * 100000) as Hhi.
  { unfold hi. rewrite (Z.mul_comm _ 1000000). change 1000000 with (10 * 100000) at 1.
    rewrite <- Z.mul_assoc, (Z.mul_comm 10), Z.div_mul; lia. }
  specialize (Hu hi). clearbody hi. lia.
Qed.

(** Updating a task by its id is updating its row. *)
Lemma update_task_by_id id (f : Task.t → Task.t) e s t :
  rows_ok task_ok s → rows s !! id = Some t →
  update_where (λ r, Task.id r ==b id) f e s =
  (set_rows (<[id := touch (now e) (f t)]> (rows s)) s, inr 1).
Proof.
  intros Hok Ht. apply update_where_key_run; [|done].
  intros k r Hr. by rewrite (task_ok_id _ _ (Hok _ _ Hr)).
Qed.

Lemma fail_run id err perm e s t :
  rows_ok task_ok s → rows s !! id = Some t → uniform_ok e →
  ∃ t', fail id err perm e s = (set_rows (<[id := t']> (rows s)) s, inr t') ∧
    if perm || (Task.max_attempts t <=? Task.attempt t)
    then t' = touch (now e) (fail_values (now e) err t)
    else ∃ d, t' = touch (now e) (retry_values (now e + d) err t) ∧
      Z.min (30 * 2 ^ Task.attempt t) 3600 * second ≤ d
        ≤ Z.min (33 * 2 ^ Task.attempt t) 3960 * second.
Proof.
  intros Hok Ht Hun. unfold fail.
  run_pure. rewrite Ht. run_pure.
  destruct (perm || _).
  - eexists. split; [|done]. run_with (update_task_by_id id (fail_values (now e) err) e s t Hok Ht).
    by rewrite rows_set_rows, lookup_insert_eq.
  - destruct (next_attempt_delay_bounds (Task.attempt t) e s Hun
      (task_ok_attempt _ _ (Hok _ _ Ht))) as (d & Hd & Hb).
    eexists. split; [|by eauto]. run_with Hd.
    run_with (update_task_by_id id (retry_values (now e + d) err) e s t Hok Ht).
    by rewrite rows_set_rows, lookup_insert_eq.
Qed.

(** C40: failing a task that exists always succeeds: it is finished as [failed]
    when the failure is permanent or its attempts are used up, and otherwise waits
    for a retry due between [min(30 * 2^attempt, 3600)] seconds and that plus ten
    per cent from now. Either way the error is recorded, the lease and worker are
    cleared, the attempt count is kept and no other task changes. *)
Theorem fail_spec id err perm e s t :
  rows_ok task_ok s → rows s !! id = Some t → uniform_ok e →
  ∃ t', fail id err perm e s = (set_rows (<[id := t']> (rows s)) s, inr t') ∧
    Task.error_message t' = Some err ∧ Task.leased_until t' = None ∧
    Task.worker_id t' = None ∧ Task.attempt t' = Task.attempt t ∧
    (perm = true ∨ Task.max_attempts t ≤ Task.attempt t →
       Task.status t' = TaskStatus.failed ∧ Task.completed_at t' = Some (now e)) ∧
    (perm = false → Task.attempt t < Task.max_attempts t →
       Task.status t' = TaskStatus.awaiting_retry ∧
       now e + Z.min (30 * 2 ^ Task.attempt t) 3600 * second ≤ Task.scheduled_for t'
         ≤ now e + Z.min (33 * 2 ^ Task.attempt t) 3960 * second).
Proof.
  intros Hok Ht Hun. destruct (fail_run id err perm e s t Hok Ht Hun) as (t' & Hf & Ht').
  exists t'. split; [done|]. destruct perm; simpl in Ht'; [by subst t'; naive_solver lia|].
  destruct (Z.leb_spec (Task.max_attempts t) (Task.attempt t)).
  - subst t'. do 5 (split; [done|]). intros; lia.
  - destruct Ht' as (d & -> & Hd). do 4 (split; [done|]).
    split; [intros [|]; [done|lia]|]. intros _ _. split; [done|].
    change (now e + Z.min (30 * 2 ^ Task.attempt t) 3600 * second ≤ now e + d
         ≤ now e + Z.min (33 * 2 ^ Task.attempt t) 3960 * second). lia.
Qed.

(** ** Cancelling and reaping *)

Lemma claim_next_status locked w l e s s' t' :
  rows_ok task_ok s → claim_next locked w l e s = (s', inr (Some t')) →
  ∃ t, rows s !! Task.id t' = Some t ∧ is_queued t = true ∧
    Task.campaign_id t' = Task.campaign_id t.
Proof.
  intros Hok Hc. pose proof (claim_next_run locked w l e s Hok) as H. rewrite Hc in H.
  destruct H as (t & (Hk & Hr & _) & _ & -> & _). exists t.
  unfold is_ready in Hr. by apply andb_true_iff in Hr as [Hr _].
Qed.

(** Cancelling a campaign's queued work finishes every queued or
    awaiting-retry task of that campaign as [cancelled], leaves running tasks and
    every other campaign's tasks exactly as they were, reports how many it
    cancelled, and no worker can then claim a task of that campaign. *)
Theorem cancel_queued_spec cid e s :
  rows_ok task_ok s →
  ∃ s' n, cancel_queued_for_campaign cid e s = (s', inr n) ∧
    (∀ k t, rows s !! k = Some t →
       ∃ t', rows s' !! k = Some t' ∧
         if (Task.campaign_id t ==b Some cid) && is_queued t
         then Task.status t' = TaskStatus.cancelled ∧ Task.completed_at t' = Some (now e)
         else t' = t) ∧
    n = Z.of_nat (length (List.filter (λ t, (Task.campaign_id t ==b Some cid) && is_queued t)
                            (snd <$> map_to_list (rows s)))) ∧
    ∀ locked w l e' s'' t', claim_next locked w l e' s' = (s'', inr (Some t')) →
      Task.campaign_id t' ≠ Some cid.
Proof.
  intros Hok. do 2 eexists. split; [done|].
  set (p := λ r, (Task.campaign_id r ==b Some cid) && is_queued r).
  pose proof (update_where_lookup p (cancel_values (now e)) e s) as Hl.
  split; [|split; [done|]].
  - intros k t Hk. eexists. split; [by rewrite Hl, Hk|]. fold (p t). by destruct (p t).
  - intros locked w l e' s'' t' Hc Hcid.
    apply claim_next_status in Hc as (t & Ht & Hq & Hct).
    2:{ by apply update_where_ok; [intros; eauto with mas|]. }
    rewrite Hl in Ht. apply fmap_Some in Ht as (t0 & _ & ->).
    destruct (p t0) eqn:Hp; [done|]. unfold p in Hp. rewrite <- Hct, Hcid in Hp.
    by rewrite bool_decide_true, Hq in Hp.
Qed.

(** reaping turns exactly the running tasks whose lease has expired into
    awaiting-retry tasks without lease or worker, keeping their attempt count, and
    touches nothing else; afterwards no running task has an expired lease, and
    every reaped task whose scheduled time had come can be claimed at once. *)
Theorem reap_expired_leases_spec e s :
  rows_ok task_ok s →
  ∃ s' n, reap_expired_leases e s = (s', inr n) ∧
    (∀ k t, rows s !! k = Some t → is_expired (now e) t = false → rows s' !! k = Some t) ∧
    (∀ k t, rows s !! k = Some t → is_expired (now e) t = true →
       ∃ t', rows s' !! k = Some t' ∧ Task.status t' = TaskStatus.awaiting_retry ∧
         Task.worker_id t' = None ∧ Task.attempt t' = Task.attempt t ∧
         (Task.scheduled_for t ≤ now e → claimable ∅ (now e) s' t')) ∧
    ∀ k t', rows s' !! k = Some t' → is_expired (now e) t' = false.
Proof.
  intros Hok. do 2 eexists. split; [done|].
  pose proof (update_where_lookup (is_expired (now e)) reap_values e s) as Hl.
  split_and!.
  - intros k t Hk Hx. by rewrite Hl, Hk; simpl; rewrite Hx.
  - intros k t Hk Hx. eexists. split; [by rewrite Hl, Hk; simpl; rewrite Hx|].
    do 3 (split; [done|]). intros Hs. split.
    + pose proof (task_ok_id _ _ (Hok _ _ Hk)). subst k. rewrite Hl. simpl Task.id. rewrite Hk.
      cbn [fmap option_fmap option_map]. by rewrite Hx.
    + split; [|set_solver]. change ((Task.scheduled_for t <=? now e) = true). lia.
  - intros k t'. rewrite Hl. intros (t & _ & ->)%fmap_Some. by destruct (is_expired _ t) eqn:E.
Qed.

(** ** The theorems at concrete inputs *)

(** One task enqueued at time 5 under a key, with three attempts. *)
Definition demo_queue : db * (exn + Task.t) :=
  enqueue_task 1 2 "echo" [] (Some 9%N) None (Some "k") None 3 5 (demo_env 5) empty_db.

Lemma queue_ok_empty : queue_ok empty_db.
Proof. split; [apply map_Forall_empty|]. by intros k1 k2 r1 r2 x. Qed.

Lemma demo_queue_step : queue_step empty_db demo_queue.1.
Proof. exact (step_enqueue _ 1 2 "echo" [] (Some 9%N) None (Some "k") None 3 5 (demo_env 5)). Qed.

Lemma queue_ok_demo : queue_ok demo_queue.1.
Proof. eapply queue_step_ok; [apply demo_queue_step|apply queue_ok_empty]. Qed.

Lemma demo_uniform t : uniform_ok (demo_env t).
Proof. intros hi Hhi. simpl. split; [by apply Z.div_pos|]. apply Z.div_le_upper_bound; lia. Qed.

Lemma queue_invariant_witness :
  queue_ok empty_db ∧ rtc queue_step empty_db (claim_next ∅ "w" 300 (demo_env 6) demo_queue.1).1 ∧
  queue_ok (claim_next ∅ "w" 300 (demo_env 6) demo_queue.1).1.
Proof.
  split; [apply queue_ok_empty|].
  assert (rtc queue_step empty_db (claim_next ∅ "w" 300 (demo_env 6) demo_queue.1).1) as Hr.
  { eapply rtc_l; [apply demo_queue_step|]. apply rtc_once, step_claim. }
  split; [exact Hr|]. exact (queue_invariant _ _ queue_ok_empty Hr).
Defined.

Lemma claim_next_spec_witness :
  rows_ok task_ok demo_queue.1 ∧
  run_val (claim_next ∅ "w" 300 (demo_env 6) demo_queue.1) ≠ Some None ∧
  match claim_next ∅ "w" 300 (demo_env 6) demo_queue.1 with
  | (_, inr (Some t')) => Task.status t' = TaskStatus.running
  | _ => False
  end.
Proof.
  split; [apply queue_ok_rows, queue_ok_demo|]. split; [by vm_compute|].
  pose proof (claim_next_spec ∅ "w" 300 (demo_env 6) demo_queue.1 (queue_ok_rows _ queue_ok_demo)) as H.
  destruct (claim_next ∅ "w" 300 (demo_env 6) demo_queue.1) as [s' [x|[t'|]]] eqn:E; [done| |].
  - by destruct H as (t & _ & _ & -> & _).
  - apply (f_equal run_val) in E. vm_compute in E. discriminate.
Defined.

Lemma enqueue_task_idempotent_witness :
  queue_ok empty_db ∧
  ∃ s' t, enqueue_task 1 2 "echo" [] None None (Some "k") None 3 5 (demo_env 5) empty_db
          = (s', inr t) ∧
    enqueue_task 1 7 "other" [] None None (Some "k") None 1 9 (demo_env 8) s' = (s', inr t).
Proof.
  split; [apply queue_ok_empty|].
  destruct (enqueue_task_idempotent 1 2 "echo" [] None None "k" None 3 5 (demo_env 5) empty_db
    queue_ok_empty) as (s' & t & Hr & _ & _ & Hagain).
  exists s', t. split; [exact Hr|]. apply Hagain.
Defined.

Lemma fail_spec_witness :
  ∃ t t' : Task.t, rows demo_queue.1 !! 1%N = Some t ∧
    fail 1 "boom" false (demo_env 9) demo_queue.1 = (set_rows (<[1%N := t']> (rows demo_queue.1)) demo_queue.1, inr t') ∧
    Task.status t' = TaskStatus.awaiting_retry.
Proof.
  assert (is_Some (rows (R:=Task.t) demo_queue.1 !! 1%N)) as [t Ht] by (vm_compute; eauto).
  destruct (fail_spec 1 "boom" false (demo_env 9) demo_queue.1 t (queue_ok_rows _ queue_ok_demo) Ht
    (demo_uniform 9)) as (t' & Hf & _ & _ & _ & _ & _ & Hretry).
  exists t, t'. split; [done|]. split; [done|]. apply Hretry; [done|].
  vm_compute in Ht. by injection Ht as <-.
Defined.

Lemma cancel_queued_spec_witness :
  rows_ok task_ok demo_queue.1 ∧
  ∃ s' n, cancel_queued_for_campaign 9 (demo_env 7) demo_queue.1 = (s', inr n) ∧ n = 1.
Proof.
  split; [apply queue_ok_rows, queue_ok_demo|].
  destruct (cancel_queued_spec 9 (demo_env 7) demo_queue.1 (queue_ok_rows _ queue_ok_demo))
    as (s' & n & Hr & _ & -> & _).
  do 2 eexists. split; [exact Hr|]. by vm_compute.
Defined.

Lemma reap_expired_leases_spec_witness :
  let s := (claim_next ∅ "w" 300 (demo_env 6) demo_queue.1).1 in
  rows_ok task_ok s ∧
  ∃ s' n, reap_expired_leases (demo_env (1000 * second)) s = (s', inr n) ∧
    ∀ k t', rows s' !! k = Some t' → is_expired (1000 * second) t' = false.
Proof.
  intros s. assert (queue_ok s) as Hs by (eapply queue_step_ok; [apply step_claim|apply queue_ok_demo]).
  split; [apply queue_ok_rows, Hs|].
  destruct (reap_expired_leases_spec (demo_env (1000 * second)) s (queue_ok_rows _ Hs))
    as (s' & n & Hr & _ & _ & Hx).
  exists s', n. split; [exact Hr|exact Hx].
Defined.
