(* ===== verification/Worker.v ===== *)
(** * The worker: src/app/orchestrator/worker.py and registry.py

    One iteration of the worker loop is three transactions: the claim, the
    handler, and the recording of its outcome. Each runs in an environment of its
    own ([e1], [e2], [e3]), since the clock moves between them. The two loops are iterated
    over a clock; the logging is not modelled. *)

From S2P Require Export Queue.
Local Open Scope Z_scope.

(** ** Transactions that commit along the way *)

(** What a session leaves: what it committed before it was done, its own state, and its outcome. *)
Definition Tx (A : Type) : Type := env → db → db * db * (exn + A).

(** A session that never commits, and one that commits what [m] wrote. *)
Definition pending {A} (m : M A) : Tx A := λ e s, let '(s', r) := m e s in (s, s', r).
Definition committing {A} (m : M A) : Tx A := λ e s, let '(s', r) := m e s in (s', s', r).

(** [async with session_maker() as session, session.begin()]: a body that raises is rolled back to
    what it committed itself. *)
Definition begin {A} (m : Tx A) : M A := λ e s,
  match m e s with
  | (committed, _, inl x) => (committed, inl x)
  | (_, s', inr a) => (s', inr a)
  end.

(** ** The registry *)

(** [app/orchestrator/registry.py] lines 13-13, [HandlerFn]. *)
Definition HandlerFn : Type := Task.t → Tx (option jdict).

(** [app/orchestrator/registry.py] lines 15-15, [_HANDLERS]. *)
Definition HANDLERS : Type := list (string * HandlerFn).

(** [app/orchestrator/registry.py] lines 18-20, [register_handler]. *)
Definition register_handler (skill_name : string) (handler : HandlerFn) (h : HANDLERS)
    : HANDLERS := dset skill_name handler h.

(** [app/orchestrator/registry.py] lines 23-24, [get_handler]. *)
Definition get_handler (skill_name : string) (h : HANDLERS) : option HandlerFn :=
  dget skill_name h.

(** ** One iteration *)

(** [str(exc)] recorded on the task, and [True] returned. *)
Definition record_failure (task_id : N) (error : string) (permanent : bool) (e : env) (s : db)
    : db * (exn + bool) :=
  match transaction (fail task_id error permanent) e s with
  | (s', inl x) => (s', inl x)
  | (s', inr _) => (s', inr true)
  end.

(** [app/orchestrator/worker.py] lines 27-66, [run_once]. *)
Definition run_once (h : HANDLERS) (locked : gset N) (worker_id : string) (lease_seconds : Z)
    (e1 e2 e3 : env) (s : db) : db * (exn + bool) :=
  match transaction (claim_next locked worker_id lease_seconds) e1 s with
  | (s1, inl x) => (s1, inl x)
  | (s1, inr None) => (s1, inr false)
  | (s1, inr (Some task)) =>
      match get_handler (Task.skill_name task) h with
      | None =>
          record_failure (Task.id task)
            ("no handler registered for skill '" +:+ Task.skill_name task +:+ "'") true e2 s1
      | Some handler =>
          match begin (handler task) e2 s1 with
          | (s2, inl x) => record_failure (Task.id task) (exn_str x) false e3 s2
          | (s2, inr output) =>
              match transaction (complete (Task.id task) (default [] output)) e3 s2 with
              | (s3, inl x) => record_failure (Task.id task) (exn_str x) false e3 s3
              | (s3, inr _) => (s3, inr true)
              end
          end
      end
  end.

(** ** One transaction of an iteration *)

(** A worker between two transactions: it has claimed a task and is to handle it, or has run the handler
    and is to report the outcome. *)
Inductive worker :=
  | Handling (t : Task.t)
  | Reporting (t : Task.t) (outcome : exn + option jdict).
Definition worker_task (w : worker) : Task.t := match w with Handling t | Reporting t _ => t end.
Definition claimed (r : exn + option Task.t) : option Task.t := match r with inr o => o | inl _ => None end.

(** The next transaction of the iteration, and where the worker is after it, if the iteration goes on. *)
Definition worker_tx (h : HANDLERS) (w : worker) (e : env) (s : db) : db * option worker :=
  match w with
  | Handling task =>
      match get_handler (Task.skill_name task) h with
      | None =>
          ((record_failure (Task.id task)
              ("no handler registered for skill '" +:+ Task.skill_name task +:+ "'") true e s).1, None)
      | Some handler => ((begin (handler task) e s).1, Some (Reporting task (begin (handler task) e s).2))
      end
  | Reporting task (inr output) =>
      match transaction (complete (Task.id task) (default [] output)) e s with
      | (s', inl x) => (s', Some (Reporting task (inl x)))
      | (s', inr _) => (s', None)
      end
  | Reporting task (inl x) => ((record_failure (Task.id task) (exn_str x) false e s).1, None)
  end.

(** The rest of an iteration: its transactions, one after the other. *)
Fixpoint worker_run (h : HANDLERS) (o : option worker) (es : list env) (s : db) : db :=
  match o, es with
  | Some w, e :: es => worker_run h (worker_tx h w e s).2 es (worker_tx h w e s).1
  | _, _ => s
  end.

(** [run_once] is the claim and those transactions, of which there are three at most. *)
Lemma run_once_transactions h locked w l e1 e2 e3 s :
  (run_once h locked w l e1 e2 e3 s).1 =
  let c := transaction (claim_next locked w l) e1 s in
  worker_run h (Handling <$> claimed c.2) [e2; e3; e3] c.1.
Proof.
  unfold run_once. destruct (transaction (claim_next _ _ _) e1 s) as [s1 [x|[t|]]]; cbn; [done| |done].
  destruct (get_handler _ h) as [f|]; cbn; [|done].
  destruct (begin (f t) e2 s1) as [s2 [x|o]]; cbn; [done|].
  destruct (transaction (complete _ _) e3 s2) as [s3 [x|a]]; done.
Qed.

(** ** Transactions *)

Lemma transaction_ok {A} (m : M A) e s s' a :
  m e s = (s', inr a) → transaction m e s = (s', inr a).
Proof. unfold transaction. by intros ->. Qed.

Lemma transaction_fail {A} (m : M A) e s s' x :
  m e s = (s', inl x) → transaction m e s = (s, inl x).
Proof. unfold transaction. by intros ->. Qed.

Lemma begin_pending {A} (m : M A) e s : begin (pending m) e s = transaction m e s.
Proof. unfold begin, pending, transaction. by destruct (m e s) as [s' [x|a]]. Qed.

Lemma begin_raised {A} (m : Tx A) e s c s' x : m e s = (c, s', inl x) → begin m e s = (c, inl x).
Proof. unfold begin. by intros ->. Qed.

Lemma begin_ok {A} (m : Tx A) e s c s' a : m e s = (c, s', inr a) → begin m e s = (s', inr a).
Proof. unfold begin. by intros ->. Qed.

(** ** What one iteration does *)

(** The queue is well formed whatever the other tables hold. *)
Lemma queue_ok_same s s' : t_task s' = t_task s → queue_ok s → queue_ok s'.
Proof.
  intros Ht [Hr Hu]. unfold rows_ok, unique_on in *.
  split; [unfold rows_ok|unfold unique_on]; change (rows (R:=Task.t) s') with (t_task s'); by rewrite Ht.
Qed.

Lemma set_task_rows_twice (m m' : gmap N Task.t) s :
  set_rows m' (set_rows (R:=Task.t) m s) = set_rows m' s.
Proof. done. Qed.

(** A claim that finds a task runs its handler on a database where only that
    task's row has changed. *)
Lemma run_once_claimed h locked w l e1 e2 e3 s s1 t handler :
  claim_next locked w l e1 s = (s1, inr (Some t)) →
  get_handler (Task.skill_name t) h = Some handler →
  run_once h locked w l e1 e2 e3 s =
  match begin (handler t) e2 s1 with
  | (s2, inl x) => record_failure (Task.id t) (exn_str x) false e3 s2
  | (s2, inr output) =>
      (set_rows ((λ r, if Task.id r ==b Task.id t
                       then touch (now e3) (complete_values (now e3) (default [] output) r)
                       else r) <$> rows s2) s2, inr true)
  end.
Proof.
  intros Hc Hh. unfold run_once. rewrite (transaction_ok _ _ _ _ _ Hc), Hh.
  by destruct (begin (handler t) e2 s1) as [s2 [x|out]].
Qed.

(** The columns of a task no operation on it assigns. *)
Record same_job (t t' : Task.t) : Prop := {
  same_id : Task.id t' = Task.id t;
  same_tenant : Task.tenant_id t' = Task.tenant_id t;
  same_skill : Task.skill_name t' = Task.skill_name t;
  same_input : Task.input_data t' = Task.input_data t;
  same_max : Task.max_attempts t' = Task.max_attempts t;
  same_key : Task.idempotency_key t' = Task.idempotency_key t;
}.

(** A failing handler leaves what it committed, with its task's row failed or put back for a retry. *)
Lemma run_once_failing h handler w l locked e1 e2 e3 s s1 c s2 t x :
  queue_ok s → uniform_ok e3 →
  claim_next locked w l e1 s = (s1, inr (Some t)) →
  get_handler (Task.skill_name t) h = Some handler →
  handler t e2 s1 = (c, s2, inl x) → t_task c = t_task s1 →
  ∃ t', run_once h locked w l e1 e2 e3 s =
          (set_rows (<[Task.id t := t']> (rows s)) c, inr true) ∧
    queue_ok (set_rows (<[Task.id t := t']> (rows s)) c) ∧
    same_job t t' ∧ Task.attempt t' = Task.attempt t ∧
    Task.error_message t' = Some (exn_str x) ∧
    if Task.max_attempts t <=? Task.attempt t
    then Task.status t' = TaskStatus.failed
    else Task.status t' = TaskStatus.awaiting_retry ∧
         Task.scheduled_for t' ≤ now e3 + 3960 * second.
Proof.
  intros Hs Hun Hc Hh Hx Hkeep. rewrite (run_once_claimed _ _ _ _ _ _ _ _ _ _ _ Hc Hh).
  rewrite (begin_raised _ _ _ _ _ _ Hx).
  assert (queue_ok s1) as Hok1.
  { apply (queue_step_ok s); [|done].
    rewrite <- (f_equal fst Hc : _ = s1). apply step_claim. }
  pose proof (queue_ok_same _ _ Hkeep Hok1) as Hokc.
  pose proof (claim_next_run locked w l e1 s (queue_ok_rows _ Hs)) as Hrun.
  rewrite Hc in Hrun. destruct Hrun as (t0 & Ht0 & _ & Ht & Hs1).
  assert (rows c = <[Task.id t0 := t]> (rows s)) as Hrows.
  { change (t_task c = <[Task.id t0 := t]> (t_task s)). by rewrite Hkeep, Hs1. }
  assert (rows c !! Task.id t = Some t) as Hk.
  { rewrite Hrows, Ht. simpl Task.id. by rewrite lookup_insert_eq. }
  destruct (fail_run (Task.id t) (exn_str x) false e3 c t (queue_ok_rows _ Hokc) Hk Hun)
    as (t' & Hf & Ht').
  pose proof (queue_step_ok _ _ (step_fail c (Task.id t) (exn_str x) false e3) Hokc) as Hok2.
  exists t'. unfold record_failure. rewrite (transaction_ok _ _ _ _ _ Hf).
  rewrite Hf, Hrows in Hok2. rewrite Hrows. replace (Task.id t0) with (Task.id t) in * by (by rewrite Ht).
  rewrite insert_insert_eq in *.
  split; [done|]. split; [done|]. simpl in Ht'.
  destruct (_ <=? _); [by rewrite Ht'|]. destruct Ht' as (d & -> & Hd).
  do 4 (split; [done|]).
  change (now e3 + d ≤ now e3 + 3960 * second). unfold second in *. lia.
Qed.

(** C9: a handler runs all or nothing, except for what it commits itself. When it returns, the
    database after the iteration is the one it left, with its task marked succeeded and given its
    output; when it raises, everything it did not commit is undone: the database is the last one it
    committed (the one before the iteration, for a handler that commits nothing), except that the
    claimed task's row counts one more attempt and records the error, as failed or awaiting a
    retry. *)
Theorem run_once_atomic h handler w l locked e1 e2 e3 s s1 t :
  queue_ok s → uniform_ok e3 →
  claim_next locked w l e1 s = (s1, inr (Some t)) →
  get_handler (Task.skill_name t) h = Some handler →
  match handler t e2 s1 with
  | (_, s2, inr out) =>
      run_once h locked w l e1 e2 e3 s =
        ((complete (Task.id t) (default [] out) e3 s2).1, inr true)
  | (c, _, inl x) =>
      t_task c = t_task s1 →
      ∃ t', run_once h locked w l e1 e2 e3 s =
              (set_rows (<[Task.id t := t']> (rows s)) c, inr true) ∧
        (c = s1 → set_rows (<[Task.id t := t']> (rows s)) c = set_rows (<[Task.id t := t']> (rows s)) s) ∧
        same_job t t' ∧ Task.attempt t' = Task.attempt t ∧
        Task.error_message t' = Some (exn_str x) ∧
        Task.status t' ∈ [TaskStatus.failed; TaskStatus.awaiting_retry]
  end.
Proof.
  intros Hs Hun Hc Hh. destruct (handler t e2 s1) as [[c s2] [x|out]] eqn:Hx; [intros Hkeep|].
  - destruct (run_once_failing _ _ _ _ _ _ _ _ _ _ _ _ _ _ Hs Hun Hc Hh Hx Hkeep)
      as (t' & Hr & _ & Hj & Ha & Herr & Hst).
    exists t'. split; [done|]. split.
    + intros ->. pose proof (claim_next_run locked w l e1 s (queue_ok_rows _ Hs)) as Hrun.
      rewrite Hc in Hrun. by destruct Hrun as (t0 & _ & _ & _ & ->).
    + do 3 (split; [done|]). destruct (_ <=? _); [rewrite Hst|destruct Hst as [-> _]]; set_solver.
  - rewrite (run_once_claimed _ _ _ _ _ _ _ _ _ _ _ Hc Hh).
    by rewrite (begin_ok _ _ _ _ _ _ Hx).
Qed.

(** ** A failing task is retried a bounded number of times *)

(** [app/orchestrator/worker.py] lines 69-89, [run_loop]. [n] iterations, each wholly at one time of the
    clock; the sleep after an idle one is in the clock. *)
Fixpoint run_many (h : HANDLERS) (w : string) (l : Z) (clock : nat → env) (i n : nat) (s : db)
    : db :=
  match n with
  | O => s
  | S n => run_many h w l clock (S i) n (run_once h ∅ w l (clock i) (clock i) (clock i) s).1
  end.

(** [app/orchestrator/worker.py] lines 92-104, [_reap_loop]. [n] iterations; one that raises is rolled
    back and logged. *)
Fixpoint _reap_loop (clock : nat → env) (i n : nat) (s : db) : db :=
  match n with
  | O => s
  | S n => _reap_loop clock (S i) n (transaction reap_expired_leases (clock i) s).1
  end.

Section retries.
Context (h : HANDLERS) (handler : HandlerFn) (w : string) (l : Z).
(** It always raises; what it commits is not in the queue. *)
Hypothesis handler_raises : ∀ t e s, ∃ c s' x, handler t e s = (c, s', inl x) ∧ t_task c = t_task s.

(** The only task, due, with [n] attempts left. *)
Record single_task (s : db) (t : Task.t) (time : Z) : Prop := {
  single_ok : queue_ok s;
  single_rows : rows s = {[ Task.id t := t ]};
  single_due : is_ready time t = true;
  single_handler : get_handler (Task.skill_name t) h = Some handler;
}.

Lemma single_claim s t e :
  single_task s t (now e) →
  claim_next ∅ w l e s =
    (set_rows {[ Task.id t := touch (now e) (claim_values (now e) w l t) ]} s,
     inr (Some (touch (now e) (claim_values (now e) w l t)))).
Proof.
  intros [Hok Hrows Hdue _].
  assert (claimable ∅ (now e) s t) as Ht.
  { split; [by rewrite Hrows, lookup_singleton_eq|]. split; [done|]. set_solver. }
  pose proof (claim_next_run ∅ w l e s (queue_ok_rows _ Hok)) as H.
  destruct (claim_next ∅ w l e s) as [s' [x|[t'|]]]; [done| |].
  - destruct H as (t0 & (Hk & _ & _) & _ & -> & ->).
    rewrite Hrows in Hk. apply lookup_singleton_Some in Hk as [_ <-].
    by rewrite Hrows, insert_singleton_eq.
  - destruct H as [_ H]. by destruct (H t).
Qed.

Lemma single_run s t e :
  single_task s t (now e) → uniform_ok e →
  ∃ t' s', run_once h ∅ w l e e e s = (s', inr true) ∧ t_task s' = {[ Task.id t := t' ]} ∧
    queue_ok s' ∧ same_job t t' ∧ Task.attempt t' = Task.attempt t + 1 ∧
    if Task.max_attempts t <=? Task.attempt t + 1
    then Task.status t' = TaskStatus.failed
    else Task.status t' = TaskStatus.awaiting_retry ∧
         Task.scheduled_for t' ≤ now e + 3960 * second.
Proof.
  intros Hs Hun. pose proof (single_claim s t e Hs) as Hc. destruct Hs as [Hok Hrows _ Hh].
  destruct (handler_raises (touch (now e) (claim_values (now e) w l t)) e
    (set_rows {[ Task.id t := touch (now e) (claim_values (now e) w l t) ]} s)) as (c & s2 & x & Hx & Hkeep).
  destruct (run_once_failing h handler w l ∅ e e e s _ _ _ _ _ Hok Hun Hc Hh Hx Hkeep)
    as (t' & -> & Hok' & Hjob & Ha & _ & Hst).
  simpl Task.id in *. rewrite Hrows, insert_singleton_eq in *.
  exists t'. eexists. split; [done|]. split; [done|]. split; [done|]. destruct Hjob. by split.
Qed.

Variable clock : nat → env.
Hypothesis clock_uniform : ∀ i, uniform_ok (clock i).
(** The iterations are further apart than the longest backoff. *)
Hypothesis clock_advances : ∀ i, now (clock i) + 3960 * second ≤ now (clock (S i)).

(** Iterations until the attempts are used up: at least one. *)
Definition runs_left (t : Task.t) : nat :=
  Z.to_nat (Z.max 1 (Task.max_attempts t - Task.attempt t)).

Lemma gives_up n s t i :
  single_task s t (now (clock i)) → n = runs_left t →
  ∃ t', t_task (run_many h w l clock i n s) = {[ Task.id t := t' ]} ∧
    same_job t t' ∧ Task.status t' = TaskStatus.failed ∧
    Task.attempt t' = Z.max (Task.max_attempts t) (Task.attempt t + 1).
Proof.
  revert s t i. induction n as [|n IH]; intros s t i Hs Hn; [unfold runs_left in Hn; lia|].
  destruct (single_run s t _ Hs (clock_uniform i)) as (t1 & s1 & Hrun & Hrows & Hok1 & Hjob & Ha & Hst).
  simpl run_many. rewrite Hrun. destruct (Z.leb_spec (Task.max_attempts t) (Task.attempt t + 1)).
  - assert (n = 0%nat) as -> by (unfold runs_left in Hn; lia).
    exists t1. do 3 (split; [done|]). lia.
  - destruct Hst as [Hst Hdue], Hjob as [Hid Hten Hsk Hin Hmax Hkey].
    destruct (IH s1 t1 (S i)) as (t2 & Hr2 & Hj2 & Hf2 & Ha2).
    + split; [done|by rewrite Hid| |].
      * unfold is_ready, is_queued. rewrite Hst. specialize (clock_advances i).
        apply andb_true_iff. split; [done|]. lia.
      * rewrite Hsk. apply Hs.
    + unfold runs_left in *. rewrite Hmax, Ha. lia.
    + exists t2. rewrite Hid in Hr2. split; [done|]. split; [|split; [done|lia]].
      destruct Hj2. split; congruence.
Qed.

(** C37: a task whose handler always fails is not retried for ever: worked on when
    it is due, each iteration more than the longest backoff after the one before,
    it is [failed] after exactly [max(1, max_attempts - attempt)] iterations; from
    then on the worker finds nothing to do and changes nothing. *)
Theorem failing_task_gives_up s t i :
  single_task s t (now (clock i)) →
  ∃ t', t_task (run_many h w l clock i (runs_left t) s) = {[ Task.id t := t' ]} ∧
    Task.status t' = TaskStatus.failed ∧
    Task.attempt t' = Z.max (Task.max_attempts t) (Task.attempt t + 1) ∧
    ∀ locked e1 e2 e3,
      run_once h locked w l e1 e2 e3 (run_many h w l clock i (runs_left t) s) =
        (run_many h w l clock i (runs_left t) s, inr false).
Proof.
  intros Hs. destruct (gives_up _ s t i Hs eq_refl) as (t' & Hrun & Hjob & Hst & Ha).
  exists t'. do 3 (split; [done|]). intros locked e1 e2 e3.
  set (s' := run_many _ _ _ _ _ _ _) in *. unfold run_once, transaction, claim_next.
  run_pure. assert (select_none : List.filter
    (λ r, is_ready (now e1) r && negb (Task.id r ∈b locked))
    (snd <$> map_to_list (rows (R:=Task.t) s')) = []).
  { apply select_nil. intros k r. change (rows s') with (t_task s'). rewrite Hrun.
    intros [_ <-]%lookup_singleton_Some. unfold is_ready, is_queued. by rewrite Hst. }
  by rewrite select_none.
Qed.
End retries.

(** ** The theorems at concrete inputs *)

Definition bad_handler : HandlerFn := λ _, pending (raise (ValueError "boom")).
Definition demo_handlers : HANDLERS := register_handler "echo" bad_handler [].
Lemma bad_raises t e s : ∃ c s' x, bad_handler t e s = (c, s', inl x) ∧ t_task c = t_task s.
Proof. by do 3 eexists. Qed.

Definition demo_clock (i : nat) : env := demo_env (6 + Z.of_nat i * 4000 * second).

Lemma failing_task_gives_up_witness :
  ∃ t, single_task demo_handlers bad_handler demo_queue.1 t (now (demo_clock 0)) ∧
    runs_left t = 3%nat ∧
    ∃ t', t_task (run_many demo_handlers "w" 300 demo_clock 0 3 demo_queue.1)
            = {[ Task.id t := t' ]} ∧ Task.status t' = TaskStatus.failed.
Proof.
  set (t := new_task 1 2 "echo" [] (Some 9%N) None (Some "k") None 3 5 5 1).
  assert (single_task demo_handlers bad_handler demo_queue.1 t (now (demo_clock 0))) as Hs.
  { split; [apply queue_ok_demo|by vm_compute..]. }
  exists t. split; [exact Hs|]. split; [done|].
  destruct (failing_task_gives_up demo_handlers bad_handler "w" 300
    bad_raises demo_clock
    (λ i, demo_uniform _) ltac:(intros i; unfold demo_clock, demo_env; simpl; unfold second; lia)
    demo_queue.1 t 0 Hs) as (t' & Hr & Hst & _).
  exists t'. split; [exact Hr|exact Hst].
Defined.

Lemma run_once_atomic_witness :
  ∃ s1 (t t' : Task.t), claim_next ∅ "w" 300 (demo_env 6) demo_queue.1 = (s1, inr (Some t)) ∧
    run_once demo_handlers ∅ "w" 300 (demo_env 6) (demo_env 7) (demo_env 8) demo_queue.1
      = (set_rows (<[Task.id t := t']> (rows demo_queue.1)) demo_queue.1, inr true).
Proof.
  assert (single_task demo_handlers bad_handler demo_queue.1
    (new_task 1 2 "echo" [] (Some 9%N) None (Some "k") None 3 5 5 1) (now (demo_env 6))) as Hs.
  { split; [apply queue_ok_demo|by vm_compute..]. }
  pose proof (single_claim _ _ "w" 300 bad_raises _ _ (demo_env 6) Hs) as Hc.
  destruct (run_once_atomic demo_handlers bad_handler "w" 300 ∅ (demo_env 6) (demo_env 7)
    (demo_env 8) demo_queue.1 _ _ queue_ok_demo (demo_uniform 8) Hc eq_refl eq_refl) as (t' & Hr & Hsame & _).
  do 3 eexists. split; [exact Hc|]. rewrite Hr. by rewrite Hsame.
Defined.
