(* ===== verification/WorkerSpec.v ===== *)
(** * The worker system: its abstract specification, refinement and progress

    A job is abstractly a phase, the number of times it was started, its limit, how often its lease
    ran out, and how many workers still hold it. [life] is the life cycle of one job. The system
    interleaves the transactions of callers, of any number of workers and of the reaper, and refines
    it, job by job; and a worker whose handlers return drains every task that is due. *)

From S2P Require Export Worker.
Local Open Scope Z_scope.

(** ** The abstract life cycle *)

Inductive phase := Waiting | Working | Succeeded | Failed | Cancelled.
#[export] Instance phase_eq_dec : EqDecision phase.
Proof. solve_decision. Defined.

(** [job_holders] counts the workers that claimed the job and have not reported yet; [job_known] says
    that its skill has a handler. *)
Record job := Job {
  job_phase : phase;
  job_tries : Z;
  job_limit : Z;
  job_lapses : nat;
  job_holders : nat;
  job_known : bool;
}.

(** A holder reports once, and its report is taken in whatever phase the job is by then. *)
Inductive life : job → job → Prop :=
  | life_start n m l h kn : life (Job Waiting n m l h kn) (Job Working (n + 1) m l (S h) kn)
  | life_done p n m l h : life (Job p n m l (S h) true) (Job Succeeded n m l h true)
  | life_retry p n m l h : n < m → life (Job p n m l (S h) true) (Job Waiting n m l h true)
  | life_give_up p n m l h : m <= n → life (Job p n m l (S h) true) (Job Failed n m l h true)
  | life_unknown p n m l h : life (Job p n m l (S h) false) (Job Failed n m l h false)
  | life_lapse n m l h kn : life (Job Working n m l h kn) (Job Waiting n m (S l) h kn)
  | life_cancel n m l h kn : life (Job Waiting n m l h kn) (Job Cancelled n m l h kn)
  | life_crash p n m l h kn : life (Job p n m l (S h) kn) (Job p n m l h kn).
#[export] Hint Constructors life rtc : mas.

Definition new_job (m : Z) (kn : bool) : job := Job Waiting 0 m 0 0 kn.
Definition finished (j : job) : Prop :=
  match job_phase j with Succeeded | Failed | Cancelled => True | _ => False end.

(** What every job satisfies: it is started once, and once more for every lapse and every try below the
    limit; it has one holder while it works, and one more for every lapse; where it failed it had
    used up its tries. *)
Record job_bounded (j : job) : Prop := {
  bounded_tries : job_tries j <= Z.max 1 (job_limit j) + Z.of_nat (job_lapses j);
  bounded_waiting : job_phase j = Waiting → job_tries j < Z.max 1 (job_limit j) + Z.of_nat (job_lapses j);
  bounded_working : job_phase j = Working → (job_holders j <= S (job_lapses j))%nat;
  bounded_idle : job_phase j ≠ Working → (job_holders j <= job_lapses j)%nat;
  bounded_failed : job_phase j = Failed → job_known j = true → job_limit j <= job_tries j;
}.

Lemma new_job_bounded m kn : job_bounded (new_job m kn).
Proof. split; cbn; first [done | lia]. Qed.

Lemma life_bounded j j' : rtc life j j' → job_bounded j → job_bounded j'.
Proof.
  induction 1 as [|j1 j2 j3 Hl _ IH]; [done|]. intros [Ht Hw Hk Hi Hf]. apply IH.
  destruct Hl as [| [] | [] | [] | [] | | | []]; split; cbn in *; intros; try done;
    repeat match goal with H : ?P → _, Hp : ?P |- _ => specialize (H Hp) end;
    try specialize (Hw eq_refl); try specialize (Hk eq_refl); try specialize (Hi ltac:(done)); lia.
Qed.

(** A finished job nobody holds any more is final. *)
Lemma life_final j j' : rtc life j j' → finished j → job_holders j = 0%nat → j' = j.
Proof.
  induction 1 as [|j1 j2 j3 Hl _ _]; [done|]. unfold finished. intros Hf Hh. exfalso.
  by destruct Hl as [| | | | | | |]; cbn in *.
Qed.

(** A job is never started more often than it says, its leases lapse no less often, and its limit and its
    skill never change. *)
Lemma life_monotone j j' : rtc life j j' →
  job_tries j <= job_tries j' ∧ (job_lapses j <= job_lapses j')%nat ∧
  job_limit j' = job_limit j ∧ job_known j' = job_known j.
Proof.
  induction 1 as [|j1 j2 j3 Hl _ (IH1 & IH2 & IH3 & IH4)]; [done|]. rewrite IH3, IH4.
  destruct Hl; cbn in *; split_and!; done || lia.
Qed.

(** ** The system *)

(** The database, the workers in the middle of an iteration, and, for the record, how often the reaper
    has put each task back. *)
Record system := mksys { sys_db : db; sys_workers : list worker; sys_lapses : N → nat }.

Definition held_by (k : N) (w : worker) : bool := Task.id (worker_task w) ==b k.
Definition holders (k : N) (ws : list worker) : nat := length (List.filter (held_by k) ws).
#[global] Arguments holders : simpl never.
Definition lapse (s : db) (t : Z) (lapses : N → nat) (k : N) : nat :=
  if from_option (is_expired t) false (t_task s !! k) then S (lapses k) else lapses k.

(** One transaction, of a caller, of a worker in whatever iteration it is, or of the reaper; or the
    death of a worker. Any number of workers are at work, and their transactions come in any order. *)
Inductive system_step (h : HANDLERS) : system → system → Prop :=
  | sys_enqueue s ws ls tid aid sk inp cid pid key at_ mx pr e :
      system_step h (mksys s ws ls) (mksys (enqueue_task tid aid sk inp cid pid key at_ mx pr e s).1 ws ls)
  | sys_claim s ws ls locked w l e :
      system_step h (mksys s ws ls)
        (mksys (claim_next locked w l e s).1
           (option_list (Handling <$> claimed (claim_next locked w l e s).2) ++ ws) ls)
  | sys_work s ws1 w ws2 ls e : uniform_ok e →
      system_step h (mksys s (ws1 ++ w :: ws2) ls)
        (mksys (worker_tx h w e s).1 (ws1 ++ option_list (worker_tx h w e s).2 ++ ws2) ls)
  | sys_crash s ws1 w ws2 ls : system_step h (mksys s (ws1 ++ w :: ws2) ls) (mksys s (ws1 ++ ws2) ls)
  | sys_reap s ws ls e :
      system_step h (mksys s ws ls) (mksys (reap_expired_leases e s).1 ws (lapse s (now e) ls))
  | sys_cancel s ws ls cid e :
      system_step h (mksys s ws ls) (mksys (cancel_queued_for_campaign cid e s).1 ws ls).

(** ** The abstraction *)

Definition phase_of (st : TaskStatus.t) : phase :=
  match st with
  | TaskStatus.queued | TaskStatus.awaiting_retry => Waiting
  | TaskStatus.running => Working
  | TaskStatus.succeeded => Succeeded
  | TaskStatus.failed => Failed
  | TaskStatus.cancelled => Cancelled
  end.

Definition known (h : HANDLERS) (t : Task.t) : bool := bool_decide (is_Some (get_handler (Task.skill_name t) h)).
Definition job_of (h : HANDLERS) (lapses held : nat) (t : Task.t) : job :=
  Job (phase_of (Task.status t)) (Task.attempt t) (Task.max_attempts t) lapses held (known h t).
Definition job_at (h : HANDLERS) (S : system) (k : N) : option job :=
  job_of h (sys_lapses S k) (holders k (sys_workers S)) <$> t_task (sys_db S) !! k.

(** How a job of the system evolves: it is not lost, and a new one starts its life. *)
Definition job_evolves (o o' : option job) : Prop :=
  match o, o' with
  | Some j, Some j' => rtc life j j'
  | None, Some j' => ∃ m kn, rtc life (new_job m kn) j'
  | None, None => True
  | Some _, None => False
  end.
Definition jobs_evolve (h : HANDLERS) (S S' : system) : Prop := ∀ k, job_evolves (job_at h S k) (job_at h S' k).

#[export] Instance job_evolves_preorder : PreOrder job_evolves.
Proof.
  split; [by intros [j|]; cbn|].
  intros [j1|] [j2|] [j3|] H12 H23; cbn in *; try done.
  - by etrans.
  - destruct H12 as (m & kn & H12). exists m, kn. by etrans.
Qed.
#[export] Instance jobs_evolve_preorder h : PreOrder (jobs_evolve h).
Proof. split; [intros S k; reflexivity|]. intros S1 S2 S3 H12 H23 k. etrans; [apply H12|apply H23]. Qed.

(** ** What a handler may do to the queue: enqueue, and cancel what waits *)

(** Well-formed queues whose keys are below the key supply. *)
Record store_ok (s : db) : Prop := {
  store_queue : queue_ok s;
  store_fresh : ∀ k t, t_task s !! k = Some t → (k < next_uuid s)%N;
}.

Definition soft (t t' : Task.t) : Prop :=
  t' = t ∨ (is_queued t = true ∧ Task.status t' = TaskStatus.cancelled ∧
            Task.attempt t' = Task.attempt t ∧ Task.max_attempts t' = Task.max_attempts t ∧
            Task.skill_name t' = Task.skill_name t).
Definition born (t : Task.t) : Prop :=
  Task.attempt t = 0 ∧ (Task.status t = TaskStatus.queued ∨ Task.status t = TaskStatus.cancelled).

Definition handler_step : relation db := λ s s',
  store_ok s → store_ok s' ∧ ∀ k,
    match t_task s !! k, t_task s' !! k with
    | Some t, Some t' => soft t t'
    | None, Some t' => born t'
    | None, None => True
    | Some _, None => False
    end.

Lemma soft_trans t1 t2 t3 : soft t1 t2 → soft t2 t3 → soft t1 t3.
Proof.
  intros [->|(Hq & Hs & Ha & Hm)] [->|(Hq' & Hs' & Ha' & Hm')]; unfold soft; auto.
  exfalso. unfold is_queued in Hq'. by rewrite Hs in Hq'.
Qed.

Lemma born_soft t t' : born t → soft t t' → born t'.
Proof. intros [Ha Hs] [->|(_ & Hs' & Ha' & _)]; [by split|]. split; [congruence|by right]. Qed.

#[export] Instance handler_step_preorder : PreOrder handler_step.
Proof.
  split.
  - intros s Hok. split; [done|]. intros k. destruct (t_task s !! k); [by left|done].
  - intros s1 s2 s3 H12 H23 H1. destruct (H12 H1) as [H2 S12]. destruct (H23 H2) as [H3 S23].
    split; [done|]. intros k. specialize (S12 k). specialize (S23 k).
    destruct (t_task s1 !! k), (t_task s2 !! k), (t_task s3 !! k);
      try done; eauto using soft_trans, born_soft.
Qed.

(** The handlers of the registry keep to it, in what they commit along the way and in what they leave. *)
Definition handlers_ok (h : HANDLERS) : Prop :=
  ∀ n f, get_handler n h = Some f → ∀ t e s,
    handler_step s (f t e s).1.1 ∧ handler_step s (f t e s).1.2.

Lemma waiting_of t : is_queued t = true ↔ phase_of (Task.status t) = Waiting.
Proof. unfold is_queued. by destruct (Task.status t). Qed.

Lemma job_waiting h l n t :
  is_queued t = true → job_of h l n t = Job Waiting (Task.attempt t) (Task.max_attempts t) l n (known h t).
Proof. intros ?%waiting_of. unfold job_of. congruence. Qed.

Lemma soft_life h l n t t' : soft t t' → rtc life (job_of h l n t) (job_of h l n t').
Proof.
  intros [->|(Hq & Hs & Ha & Hm & Hsk)]; [done|]. rewrite (job_waiting h l n t Hq). unfold job_of, known.
  rewrite Hs, Ha, Hm, Hsk. apply rtc_once. constructor.
Qed.

Lemma born_life h t : born t → ∃ m kn, rtc life (new_job m kn) (job_of h 0 0 t).
Proof.
  intros [Ha Hs]. exists (Task.max_attempts t), (known h t). unfold job_of, new_job. rewrite Ha.
  destruct Hs as [-> | ->]; [done|]. apply rtc_once. constructor.
Qed.

Lemma store_row s k (t t' : Task.t) :
  store_ok s → t_task s !! k = Some t → queue_ok (set_rows (<[k := t']> (rows s)) s) →
  store_ok (set_rows (<[k := t']> (rows s)) s).
Proof.
  intros [_ Hf] Hk Hq. split; [done|]. intros k' t0. simpl. rewrite lookup_insert_Some.
  intros [[<- _]|[_ H]]; eauto.
Qed.

Lemma store_rows s (f : Task.t → Task.t) :
  store_ok s → queue_ok (set_rows (f <$> rows s) s) → store_ok (set_rows (f <$> rows s) s).
Proof.
  intros [_ Hf] Hq. split; [done|]. intros k t. simpl. rewrite lookup_fmap_Some.
  intros (t0 & _ & Ht). eauto.
Qed.

Lemma enqueue_handler_step tid aid sk inp cid pid key at_ mx pr :
  respects handler_step (enqueue_task tid aid sk inp cid pid key at_ mx pr).
Proof.
  intros e s Hok.
  pose proof (queue_step_ok _ _ (step_enqueue s tid aid sk inp cid pid key at_ mx pr e) (store_queue s Hok)) as Hq.
  assert ((enqueue_task tid aid sk inp cid pid key at_ mx pr e s).1 = s ∨
    ∃ t, (enqueue_task tid aid sk inp cid pid key at_ mx pr e s).1 =
      set_rows (<[next_uuid s := t]> (rows s)) (s <| next_uuid := (next_uuid s + 1)%N |>) ∧ born t) as [E|(t & E & Hb)].
  { unfold enqueue_task. destruct key as [key|]; rewrite ?bind_select.
    - destruct (List.filter _ _) as [|x [|y l]]; [right|by left..]. eexists. split; [reflexivity|]. split; auto.
    - right. eexists. split; [reflexivity|]. split; auto. }
  - rewrite E in *. split; [by destruct Hok|]. intros k. destruct (t_task s !! k); [by left|done].
  - rewrite E in *. destruct Hok as [_ Hf]. split; [split; [done|]|].
    + intros k t0. simpl. rewrite lookup_insert_Some. intros [[<- _]|[_ H]]; [lia|].
      specialize (Hf _ _ H). lia.
    + intros k. simpl. destruct (decide (k = next_uuid s)) as [->|Hne].
      * rewrite lookup_insert_eq. destruct (t_task s !! next_uuid s) as [t0|] eqn:H0; [|done].
        specialize (Hf _ _ H0). lia.
      * rewrite lookup_insert_ne by done. destruct (t_task s !! k); [by left|done].
Qed.

Lemma cancel_handler_step cid : respects handler_step (cancel_queued_for_campaign cid).
Proof.
  intros e s Hok. pose proof (queue_step_ok _ _ (step_cancel s cid e) (store_queue s Hok)) as Hq.
  split; [exact (store_rows s _ Hok Hq)|]. intros k. simpl. rewrite lookup_fmap.
  destruct (t_task s !! k) as [t|]; [|done]. simpl. destruct (_ && _) eqn:E; [|by left].
  apply andb_true_iff in E as [_ E]. by right.
Qed.

(** ** Well-formed systems *)

(** The task a worker is at is in the queue under its skill, which has a handler once the worker has run
    it. *)
Definition worker_ok (h : HANDLERS) (s : db) (w : worker) : Prop :=
  (∃ t, t_task s !! Task.id (worker_task w) = Some t ∧ Task.skill_name t = Task.skill_name (worker_task w)) ∧
  match w with Handling _ => True | Reporting t _ => known h t = true end.

Record grounded (h : HANDLERS) (S : system) : Prop := {
  grounded_store : store_ok (sys_db S);
  grounded_workers : Forall (worker_ok h (sys_db S)) (sys_workers S);
  grounded_lapses : ∀ k, t_task (sys_db S) !! k = None → sys_lapses S k = 0%nat;
}.

Record system_ok (h : HANDLERS) (S : system) : Prop := {
  system_grounded : grounded h S;
  system_bounded : ∀ k j, job_at h S k = Some j → job_bounded j;
}.

Definition refines (h : HANDLERS) (S S' : system) : Prop := grounded h S → grounded h S' ∧ jobs_evolve h S S'.

Lemma refines_trans h S1 S2 S3 : refines h S1 S2 → refines h S2 S3 → refines h S1 S3.
Proof. intros H12 H23 H1. destruct (H12 H1) as [H2 E12]. destruct (H23 H2) as [H3 E23]. split; [done|by etrans]. Qed.

Lemma evolves_bounded o o' : job_evolves o o' →
  (∀ j, o = Some j → job_bounded j) → ∀ j, o' = Some j → job_bounded j.
Proof.
  intros He Hb j ->. destruct o as [j0|]; cbn in He; [by eapply life_bounded; [|apply Hb]|].
  destruct He as (m & kn & He). eapply life_bounded; [done|]. apply new_job_bounded.
Qed.

Lemma refines_ok h S S' : refines h S S' → system_ok h S → system_ok h S' ∧ jobs_evolve h S S'.
Proof.
  intros Hr [Hg Hb]. destruct (Hr Hg) as [Hg' He]. split; [|done]. split; [done|]. intros k j.
  by apply (evolves_bounded _ _ (He k) (Hb k)).
Qed.

(** ** The workers at a task *)

Lemma holders_app k ws1 ws2 : holders k (ws1 ++ ws2) = (holders k ws1 + holders k ws2)%nat.
Proof. unfold holders. by rewrite List.filter_app, length_app. Qed.
Lemma holders_cons k w ws : holders k (w :: ws) = ((if held_by k w then 1 else 0) + holders k ws)%nat.
Proof. unfold holders. cbn. by destruct (held_by k w). Qed.
Lemma holders_mid k ws1 w ws2 :
  holders k (ws1 ++ w :: ws2) = ((if held_by k w then 1 else 0) + holders k (ws1 ++ ws2))%nat.
Proof. rewrite !holders_app, holders_cons. lia. Qed.
Lemma held_by_self w : held_by (Task.id (worker_task w)) w = true.
Proof. unfold held_by. by apply bool_decide_eq_true. Qed.
Lemma held_by_other k w : k ≠ Task.id (worker_task w) → held_by k w = false.
Proof. intros Hne. unfold held_by. apply bool_decide_eq_false. congruence. Qed.

Lemma holders_none h s k ws : Forall (worker_ok h s) ws → t_task s !! k = None → holders k ws = 0%nat.
Proof.
  intros Hw Hk. induction Hw as [|w ws [(t & Ht & _) _] _ IH]; [done|].
  rewrite holders_cons, IH. destruct (held_by k w) eqn:E; [|done].
  unfold held_by in E. apply bool_decide_eq_true in E as <-. congruence.
Qed.

Lemma workers_mid h s ws1 w ws2 :
  Forall (worker_ok h s) (ws1 ++ w :: ws2) ↔ worker_ok h s w ∧ Forall (worker_ok h s) (ws1 ++ ws2).
Proof. rewrite !Forall_app, Forall_cons. tauto. Qed.

(** The workers are still at tasks of the queue when no task is lost or changes its skill. *)
Lemma workers_kept h s s' ws :
  (∀ k t, t_task s !! k = Some t → ∃ t', t_task s' !! k = Some t' ∧ Task.skill_name t' = Task.skill_name t) →
  Forall (worker_ok h s) ws → Forall (worker_ok h s') ws.
Proof.
  intros Hk Hall. eapply Forall_impl; [exact Hall|]. intros w [(t & Ht & Hs) Hw]. split; [|done].
  destruct (Hk _ _ Ht) as (t' & Ht' & Hs'). exists t'. split; [done|congruence].
Qed.

(** ** Single steps *)

(** A step of a caller or a handler, with the same workers at the same tasks. *)
Lemma handler_refines h s s' ws ws' ls :
  handler_step s s' → (∀ k, holders k ws' = holders k ws) →
  (Forall (worker_ok h s') ws → Forall (worker_ok h s') ws') →
  refines h (mksys s ws ls) (mksys s' ws' ls).
Proof.
  intros Hstep Hh Hws [Hst Hw Hl]. cbn in *. destruct (Hstep Hst) as [Hst' Hk]. split.
  - split; cbn; [done| |].
    + apply Hws. eapply workers_kept; [|done]. intros k t Ht. specialize (Hk k). rewrite Ht in Hk.
      destruct (t_task s' !! k) as [t'|]; [|done]. exists t'. split; [done|].
      by destruct Hk as [->|(_ & _ & _ & _ & ?)].
    + intros k Hn. apply Hl. specialize (Hk k). rewrite Hn in Hk. by destruct (t_task s !! k).
  - intros k. unfold job_at. cbn. rewrite Hh. specialize (Hk k).
    destruct (t_task s !! k) as [t|] eqn:E, (t_task s' !! k) as [t'|]; cbn; try done; [by apply soft_life|].
    rewrite (holders_none h s k ws Hw E), (Hl k E). by apply born_life.
Qed.

(** A step that writes the row of one task, and changes who is at it. *)
Lemma row_refines h s k (t t' : Task.t) ws ws' ls :
  t_task s !! k = Some t → Task.skill_name t' = Task.skill_name t →
  (queue_ok s → queue_ok (set_rows (<[k := t']> (rows s)) s)) →
  (∀ k', k' ≠ k → holders k' ws' = holders k' ws) →
  (Forall (worker_ok h (set_rows (<[k := t']> (rows s)) s)) ws →
   Forall (worker_ok h (set_rows (<[k := t']> (rows s)) s)) ws') →
  rtc life (job_of h (ls k) (holders k ws) t) (job_of h (ls k) (holders k ws') t') →
  refines h (mksys s ws ls) (mksys (set_rows (<[k := t']> (rows s)) s) ws' ls).
Proof.
  intros Hk Hs Hq Hh Hws Hl [Hst Hw Hn]. cbn in *. split.
  - split; cbn.
    + eapply store_row; [done..|]. by apply Hq, Hst.
    + apply Hws. eapply workers_kept; [|done]. intros k' t0 H0. cbn.
      destruct (decide (k' = k)) as [->|Hne].
      * exists t'. rewrite lookup_insert_eq. split; [done|congruence].
      * exists t0. by rewrite lookup_insert_ne.
    + intros k'. rewrite lookup_insert_None. intros [? _]. by apply Hn.
  - intros k'. unfold job_at. cbn. destruct (decide (k' = k)) as [->|Hne].
    + by rewrite Hk, lookup_insert_eq.
    + rewrite lookup_insert_ne, Hh by done. reflexivity.
Qed.

(** A claim: nothing, or one job started, with one more holder. *)
Lemma claim_refines h s ws ls locked w l e :
  refines h (mksys s ws ls) (mksys (claim_next locked w l e s).1
    (option_list (Handling <$> claimed (claim_next locked w l e s).2) ++ ws) ls).
Proof.
  intros Hok. pose proof (queue_step_ok _ _ (step_claim s locked w l e)) as Hq.
  pose proof (claim_next_run locked w l e s (queue_ok_rows _ (store_queue _ (grounded_store _ _ Hok)))) as Hrun.
  destruct (claim_next locked w l e s) as [s1 [x|[t'|]]]; [done| |]; cbn in *.
  2:{ destruct Hrun as [-> _]. split; [done|reflexivity]. }
  destruct Hrun as (t & (Hk & Hr & _) & _ & Ht' & ->). apply andb_true_iff in Hr as [Hr _].
  assert (Task.id t' = Task.id t) as Hid by by rewrite Ht'.
  revert Hok. eapply row_refines; [done|by rewrite Ht'|done| | |].
  - intros k' Hne. rewrite holders_cons, held_by_other by (cbn; congruence). done.
  - intros Hw. apply Forall_cons. split; [|done]. split; [|done]. exists t'. cbn. by rewrite Hid, lookup_insert_eq.
  - rewrite holders_cons.
    assert (held_by (Task.id t) (Handling t') = true) as -> by (rewrite <- Hid; apply (held_by_self (Handling t'))).
    rewrite (job_waiting h _ _ t Hr), Ht'. apply rtc_once. constructor.
Qed.

(** A worker that leaves: it dies, or has reported. *)
Lemma crash_refines h s ws1 w ws2 ls : refines h (mksys s (ws1 ++ w :: ws2) ls) (mksys s (ws1 ++ ws2) ls).
Proof.
  intros [Hst Hw Hl]. cbn in *. apply workers_mid in Hw as [_ Hw]. split; [by split|].
  intros k. unfold job_at. cbn. rewrite holders_mid. destruct (t_task s !! k) as [t|]; [cbn|done].
  destruct (held_by k w); [|done]. apply rtc_once. constructor.
Qed.

(** A report that writes the row of its task as [life] allows. *)
Lemma report_refines h s ws1 w ws2 ls t t' :
  t_task s !! Task.id (worker_task w) = Some t → Task.skill_name t' = Task.skill_name t →
  (queue_ok s → queue_ok (set_rows (<[Task.id (worker_task w) := t']> (rows s)) s)) →
  (∀ l n, life (job_of h l (S n) t) (job_of h l n t')) →
  refines h (mksys s (ws1 ++ w :: ws2) ls)
    (mksys (set_rows (<[Task.id (worker_task w) := t']> (rows s)) s) (ws1 ++ ws2) ls).
Proof.
  intros Hk Hs Hq Hl. eapply row_refines; [done..| | |].
  - intros k' Hne. by rewrite holders_mid, held_by_other.
  - intros Hw. by apply workers_mid in Hw as [_ Hw].
  - rewrite holders_mid, held_by_self. apply rtc_once, Hl.
Qed.

(** Recording a failure, whose limit is that of the row as it is by then. *)
Lemma fail_refines h s ws1 w ws2 ls err perm e :
  uniform_ok e → worker_ok h s w → perm = negb (known h (worker_task w)) →
  refines h (mksys s (ws1 ++ w :: ws2) ls)
    (mksys (record_failure (Task.id (worker_task w)) err perm e s).1 (ws1 ++ ws2) ls).
Proof.
  intros Hun [(t & Hk & Hsk) _] Hperm Hok. pose proof (store_queue _ (grounded_store _ _ Hok)) as Hq. cbn in Hq.
  destruct (fail_run (Task.id (worker_task w)) err perm e s t (queue_ok_rows _ Hq) Hk Hun) as (t' & Hf & Ht').
  pose proof (queue_step_ok _ _ (step_fail s (Task.id (worker_task w)) err perm e)) as Hq'.
  unfold record_failure. rewrite (transaction_ok _ _ _ _ _ Hf). rewrite Hf in Hq'. cbn [fst] in Hq' |- *.
  assert (known h t = negb perm) as Hkn by (rewrite Hperm, negb_involutive; unfold known; by rewrite Hsk).
  revert Hok. eapply report_refines; [done| |done|].
  - destruct (perm || _); [by rewrite Ht'|]. by destruct Ht' as (d & -> & _).
  - intros l n. unfold job_of at 1. rewrite Hkn. destruct perm; cbn [orb negb] in *.
    + rewrite Ht'. unfold job_of. replace (known h _) with false by (symmetry; exact Hkn). constructor.
    + destruct (Z.leb_spec (Task.max_attempts t) (Task.attempt t)).
      * rewrite Ht'. unfold job_of. replace (known h _) with true by (symmetry; exact Hkn). by constructor.
      * destruct Ht' as (d & -> & _). unfold job_of. replace (known h _) with true by (symmetry; exact Hkn).
        by constructor.
Qed.

Lemma complete_refines h s ws1 w ws2 ls out e :
  worker_ok h s w → known h (worker_task w) = true →
  refines h (mksys s (ws1 ++ w :: ws2) ls)
    (mksys (complete (Task.id (worker_task w)) out e s).1 (ws1 ++ ws2) ls).
Proof.
  intros [(t & Hk & Hsk) _] Hknown Hok. pose proof (store_queue _ (grounded_store _ _ Hok)) as Hq. cbn in Hq.
  pose proof (queue_step_ok _ _ (step_complete s (Task.id (worker_task w)) out e)) as Hq'.
  unfold complete in *. rewrite bind_asks in *.
  rewrite (bind_ok _ _ _ _ _ _ (update_task_by_id _ (complete_values (now e) out) e s t (queue_ok_rows _ Hq) Hk)) in *.
  cbn [fst] in *. revert Hok. eapply report_refines; [done|done|exact Hq'|].
  intros l n. unfold job_of. assert (known h t = true) as -> by (unfold known in *; by rewrite Hsk).
  replace (known h _) with true; [constructor|]. symmetry. unfold known in *. cbn. by rewrite Hsk.
Qed.

Lemma reap_refines h s ws ls e :
  refines h (mksys s ws ls) (mksys (reap_expired_leases e s).1 ws (lapse s (now e) ls)).
Proof.
  intros [Hst Hw Hl]. cbn in *. pose proof (queue_step_ok _ _ (step_reap s e) (store_queue _ Hst)) as Hq.
  assert (∀ k, t_task (reap_expired_leases e s).1 !! k =
    (λ r, if is_expired (now e) r then touch (now e) (reap_values r) else r) <$> t_task s !! k) as Hrows.
  { intros k. cbn. apply lookup_fmap. }
  split; [split; cbn [sys_db sys_workers sys_lapses]|].
  - by apply store_rows.
  - eapply workers_kept; [|done]. intros k t Ht. rewrite Hrows, Ht. eexists. split; [done|]. by destruct (is_expired _ _).
  - intros k. rewrite Hrows, fmap_None. intros Hn. unfold lapse. rewrite Hn. exact (Hl k Hn).
  - intros k. unfold job_at. cbn [sys_db sys_workers sys_lapses]. rewrite Hrows. unfold lapse.
    destruct (t_task s !! k) as [t|]; [cbn|done]. destruct (is_expired (now e) t) eqn:Hx; [|done].
    unfold is_expired in Hx. apply andb_true_iff in Hx as [Hx _]. apply bool_decide_eq_true_1 in Hx.
    unfold job_of. rewrite Hx. apply rtc_once, life_lapse.
Qed.

(** A transaction of a worker. *)
Lemma work_refines h s ws1 w ws2 ls e :
  handlers_ok h → uniform_ok e →
  refines h (mksys s (ws1 ++ w :: ws2) ls)
    (mksys (worker_tx h w e s).1 (ws1 ++ option_list (worker_tx h w e s).2 ++ ws2) ls).
Proof.
  intros Hh Hun Hok. pose proof (grounded_workers _ _ Hok) as Hw. cbn in Hw.
  apply workers_mid in Hw as [Hw _]. revert Hok. unfold worker_tx. destruct w as [t|t [x|out]].
  - destruct (get_handler (Task.skill_name t) h) as [f|] eqn:Hget; cbn [fst snd option_list app].
    + apply handler_refines.
      * destruct (Hh _ _ Hget t e s) as [Hcom Hf]. unfold begin. by destruct (f t e s) as [[c s2] [x|out]].
      * intros k. change (holders k (ws1 ++ Reporting t (begin (f t) e s).2 :: ws2) = holders k (ws1 ++ Handling t :: ws2)).
        by rewrite (holders_mid k ws1 (Handling t)), (holders_mid k ws1 (Reporting t _)).
      * intros Hall. apply workers_mid in Hall as [[Ht _] Hall]. apply workers_mid. split; [|done]. split; [done|].
        cbn. unfold known. rewrite Hget. by apply bool_decide_eq_true.
    + apply (fail_refines h s ws1 (Handling t)); [done..|]. unfold known. cbn. by rewrite Hget.
  - apply (fail_refines h s ws1 (Reporting t (inl x))); [done..|]. destruct Hw as [_ Hkn]. cbn in *. by rewrite Hkn.
  - rewrite (transaction_ok _ e s (complete (Task.id t) (default [] out) e s).1 ()) by done.
    cbn [fst snd option_list app]. apply (complete_refines h s ws1 (Reporting t (inr out))); [done|apply Hw].
Qed.

Lemma system_step_refines h S S' : handlers_ok h → system_step h S S' → refines h S S'.
Proof.
  intros Hh [ ].
  - by apply handler_refines; [apply enqueue_handler_step|..].
  - apply claim_refines.
  - by apply work_refines.
  - apply crash_refines.
  - apply reap_refines.
  - by apply handler_refines; [apply cancel_handler_step|..].
Qed.

Lemma system_refines h S S' : handlers_ok h → rtc (system_step h) S S' → refines h S S'.
Proof.
  intros Hh. induction 1 as [S|S1 S2 S3 H12 _ IH]; [done|].
  eapply refines_trans; [by eapply system_step_refines|exact IH].
Qed.

(** ** An iteration nothing disturbs *)

Lemma claim_returns locked w l e s : ∃ s' o, claim_next locked w l e s = (s', inr o).
Proof.
  unfold claim_next. run_pure. destruct (merge_sort _ _) as [|r rs]; [by do 2 eexists|].
  unfold mbind, M_bind, update_row, get_row, modify, gets. by do 2 eexists.
Qed.

(** [run_once] is the transactions of one worker, one after the other. *)
Lemma run_once_steps h s ws ls locked w l e1 e2 e3 : uniform_ok e2 → uniform_ok e3 →
  rtc (system_step h) (mksys s ws ls) (mksys (run_once h locked w l e1 e2 e3 s).1 ws ls).
Proof.
  intros Hu2 Hu3. unfold run_once. destruct (claim_returns locked w l e1 s) as (s1 & o & Hc).
  rewrite (transaction_ok _ _ _ _ _ Hc).
  pose proof (sys_claim h s ws ls locked w l e1) as Hclaim. rewrite Hc in Hclaim. cbn in Hclaim.
  destruct o as [t|]; [|by apply rtc_once]. eapply rtc_l; [exact Hclaim|]. clear Hclaim Hc. cbn [fmap option_fmap option_map option_list app].
  pose proof (sys_work h s1 [] (Handling t) ws ls e2 Hu2) as Hwork. unfold worker_tx in Hwork.
  destruct (get_handler (Task.skill_name t) h) as [f|]; [|by apply rtc_once].
  eapply rtc_l; [exact Hwork|]. clear Hwork. cbn [fst snd option_list app].
  destruct (begin (f t) e2 s1) as [s2 [x|out]]; cbn [fst snd].
  - apply rtc_once, (sys_work h s2 [] (Reporting t (inl x)) ws ls e3 Hu3).
  - pose proof (sys_work h s2 [] (Reporting t (inr out)) ws ls e3 Hu3) as Hdone. unfold worker_tx in Hdone.
    rewrite (transaction_ok _ e3 s2 (complete (Task.id t) (default [] out) e3 s2).1 ()) in * by done.
    by apply rtc_once.
Qed.

(** ** The refinement *)

(** What a well-formed system says of a task. *)
Lemma system_ok_task h c k t : system_ok h c → t_task (sys_db c) !! k = Some t →
  job_bounded (job_of h (sys_lapses c k) (holders k (sys_workers c)) t).
Proof. intros [_ Hb] Hk. apply (Hb k). unfold job_at. by rewrite Hk. Qed.

Lemma terminal_finished h l n t : is_terminal (Task.status t) = true ↔ finished (job_of h l n t).
Proof. unfold finished, job_of. cbn. by destruct (Task.status t). Qed.

(** How a task of a well-formed system fares in a run. *)
Lemma task_evolves h c c' k t : system_ok h c → jobs_evolve h c c' → t_task (sys_db c) !! k = Some t →
  ∃ t', t_task (sys_db c') !! k = Some t' ∧
    Task.attempt t <= Task.attempt t' ∧ Task.max_attempts t' = Task.max_attempts t ∧ known h t' = known h t ∧
    (sys_lapses c k <= sys_lapses c' k)%nat ∧
    (is_terminal (Task.status t) = true → sys_lapses c k = 0%nat ∨ holders k (sys_workers c) = 0%nat →
       phase_of (Task.status t') = phase_of (Task.status t) ∧ Task.attempt t' = Task.attempt t).
Proof.
  intros Hok Hev Hk. pose proof (system_ok_task h c k t Hok Hk) as Hb. specialize (Hev k).
  unfold job_at in Hev. rewrite Hk in Hev. destruct (t_task (sys_db c') !! k) as [t'|]; [|done].
  exists t'. split; [done|]. cbn [job_evolves fmap option_fmap option_map] in Hev.
  destruct (life_monotone _ _ Hev) as (? & ? & ? & ?). do 4 (split; [done|]).
  intros Hfin Hlast. rewrite (terminal_finished h (sys_lapses c k) (holders k (sys_workers c))) in Hfin.
  assert (holders k (sys_workers c) = 0%nat) as Hnone.
  { destruct Hlast as [Hl|?]; [|done]. pose proof (bounded_idle _ Hb) as Hi. cbn in Hi. rewrite Hl in Hi.
    unfold finished in Hfin. cbn in Hfin. destruct (phase_of (Task.status t)) eqn:Hp; try done; specialize (Hi ltac:(done)); lia. }
  apply life_final in Hev; [|done|done]. by injection Hev.
Qed.

(** C1: the worker system refines the life cycle of a job. Callers, any number of workers, crashes, the
    reaper and cancellations interleave transaction by transaction, in any order; handlers may enqueue
    and cancel. Each task is abstractly a job that moves only along the edges of [life]: started from
    waiting with one more try, put back by a report only below its limit, given up by one only at its
    limit or when its skill has no handler, cancelled only while waiting, and finished only by a worker
    that holds it; a task that appears starts from the beginning, and none is lost. So a task is
    started at most [max 1 max_attempts] times and once more for every time its lease ran out, a
    task that failed under a handler had used up its tries, and what is finished stays so, unless
    its lease ran out before and a worker that lost it is still to report. *)
Theorem worker_refines_life h c c' :
  handlers_ok h → system_ok h c → rtc (system_step h) c c' →
  system_ok h c' ∧ jobs_evolve h c c' ∧
  (∀ k t', t_task (sys_db c') !! k = Some t' →
     Task.attempt t' <= Z.max 1 (Task.max_attempts t') + Z.of_nat (sys_lapses c' k) ∧
     (holders k (sys_workers c') <= S (sys_lapses c' k))%nat ∧
     (Task.status t' = TaskStatus.failed → known h t' = true → Task.max_attempts t' <= Task.attempt t')) ∧
  ∀ k t, t_task (sys_db c) !! k = Some t → ∃ t', t_task (sys_db c') !! k = Some t' ∧
    Task.attempt t <= Task.attempt t' ∧ Task.max_attempts t' = Task.max_attempts t ∧
    (is_terminal (Task.status t) = true → sys_lapses c k = 0%nat ∨ holders k (sys_workers c) = 0%nat →
       phase_of (Task.status t') = phase_of (Task.status t) ∧ Task.attempt t' = Task.attempt t).
Proof.
  intros Hh Hok Hrun. destruct (refines_ok _ _ _ (system_refines _ _ _ Hh Hrun) Hok) as [Hok' Hev].
  split; [done|]. split; [done|]. split.
  - intros k t' Hk. destruct (system_ok_task _ _ _ _ Hok' Hk) as [Ht _ Hw Hi Hf]. cbn in *. split; [done|]. split.
    + destruct (decide (phase_of (Task.status t') = Working)) as [?|Hne]; [by apply Hw|]. specialize (Hi Hne). lia.
    + intros Hst. apply Hf. by rewrite Hst.
  - intros k t Hk. destruct (task_evolves _ _ _ _ _ Hok Hev Hk) as (t' & ? & ? & ? & _ & _ & ?). by exists t'.
Qed.

(** ** What the life cycle allows, and nobody wants *)

Definition one_task : db := demo_queue.1.

(** The worker's lease runs out, the task is reaped and its campaign cancelled, and
    then the worker completes it. *)
Definition cancelled_late : db :=
  (cancel_queued_for_campaign 9 (demo_env (11 * second))
    (reap_expired_leases (demo_env (10 * second)) (claim_next ∅ "w" 1 (demo_env 6) one_task).1).1).1.

(** Completion is not fenced. [complete] does not look at the status of the row, so a worker whose lease
    ran out can finish a task after it was cancelled: the edge [life_done] from [Cancelled]. *)
Theorem late_completion_revives :
  queue_ok cancelled_late ∧ (Task.status <$> t_task cancelled_late !! 1%N) = Some TaskStatus.cancelled ∧
  (Task.status <$> t_task (complete 1 [] (demo_env (12 * second)) cancelled_late).1 !! 1%N) = Some TaskStatus.succeeded.
Proof.
  split; [|by vm_compute]. do 3 (eapply queue_step_ok; [constructor|]). exact queue_ok_demo.
Qed.

(** ** Progress *)

(** The skill has a handler, which returns and leaves the queue alone. *)
Definition returns (h : HANDLERS) (skill : string) : Prop :=
  ∃ f, get_handler skill h = Some f ∧
    ∀ t e s, ∃ c s' out, f t e s = (c, s', inr out) ∧ t_task s' = t_task s.

(** The number of tasks that wait. *)
Definition backlog (s : db) : nat := size (filter (λ kt : N * Task.t, is_queued kt.2 = true) (t_task s)).

Lemma backlog_finish s s' k (t t' : Task.t) :
  t_task s !! k = Some t → is_queued t = true → is_queued t' = false →
  t_task s' = <[k := t']> (t_task s) → S (backlog s') = backlog s.
Proof.
  unfold backlog. intros Hk Hq Hq' ->.
  rewrite map_filter_insert_False by (simpl; by rewrite Hq').
  rewrite map_filter_delete.
  set (m := filter _ _).
  assert (m !! k = Some t) as Hm by by apply map_lookup_filter_Some.
  rewrite <- (insert_delete_id m k t Hm) at 2.
  by rewrite (map_size_insert_None (M:=gmap N)) by apply lookup_delete_eq.
Qed.

Lemma backlog_zero s k (t : Task.t) :
  backlog s = 0%nat → t_task s !! k = Some t → is_queued t = false.
Proof.
  intros Hz%map_size_empty_inv Hk. destruct (is_queued t) eqn:Hq; [|done].
  by apply (map_filter_empty_not_lookup _ _ k t) in Hz; [destruct Hz|].
Qed.

Section progress.
Context (h : HANDLERS) (w : string) (l : Z).

Definition serviced (s : db) : Prop := ∀ k t, t_task s !! k = Some t → returns h (Task.skill_name t).

(** An iteration does nothing, or finishes a task that was due. *)
Lemma work_step e s :
  queue_ok s → serviced s →
  let s' := (run_once h ∅ w l e e e s).1 in
  (s' = s ∧ ∀ t, ¬ claimable ∅ (now e) s t) ∨
  ∃ t0 t1, claimable ∅ (now e) s t0 ∧ t_task s' = <[Task.id t0 := t1]> (t_task s) ∧
    Task.status t1 = TaskStatus.succeeded ∧ Task.skill_name t1 = Task.skill_name t0 ∧ queue_ok s'.
Proof.
  intros Hok Hsv. cbv zeta. pose proof (claim_next_run ∅ w l e s (queue_ok_rows _ Hok)) as Hrun.
  pose proof (queue_step_ok _ _ (step_claim s ∅ w l e) Hok) as Hok1.
  destruct (claim_next ∅ w l e s) as [s1 [x|[t|]]] eqn:Hc; [done| |].
  2:{ left. unfold run_once. rewrite (transaction_ok _ _ _ _ _ Hc). destruct Hrun as [-> Hno]. done. }
  right. destruct Hrun as (t0 & Hcl & _ & Ht & Hs1). pose proof Hcl as (Hk & _ & _).
  destruct (Hsv _ _ Hk) as (f & Hf & Hret).
  assert (Task.skill_name t = Task.skill_name t0) as Hsk by (by rewrite Ht).
  destruct (Hret t e s1) as (c & s2 & out & Hf2 & Ht2). rewrite <- Hsk in Hf.
  rewrite (run_once_claimed _ _ _ _ _ _ _ _ _ _ _ Hc Hf), (begin_ok _ _ _ _ _ _ Hf2). simpl in Hok1 |- *.
  pose proof (queue_ok_same _ _ Ht2 Hok1) as Hok2.
  assert (t_task s2 !! Task.id t = Some t) as Hk2 by (rewrite Ht2, Hs1, Ht; simpl; by rewrite lookup_insert_eq).
  pose proof (update_task_by_id (Task.id t) (complete_values (now e) (default [] out)) e s2 t
    (queue_ok_rows _ Hok2) Hk2) as Hup.
  exists t0, (touch (now e) (complete_values (now e) (default [] out) t)).
  pose proof (queue_step_ok _ _ (step_complete s2 (Task.id t) (default [] out) e) Hok2) as Hok3.
  split; [done|]. split; [|split; [done|]; split; [done|exact Hok3]].
  apply (f_equal (λ p, rows (R:=Task.t) p.1)) in Hup. etrans; [exact Hup|]. cbn [fst].
  rewrite rows_set_rows. change (rows (R:=Task.t) s2) with (t_task s2). rewrite Ht2, Hs1, Ht.
  simpl. by rewrite insert_insert_eq.
Qed.

Variable clock : nat → env.
Hypothesis clock_runs : ∀ i, now (clock i) <= now (clock (S i)).

Definition done_at (s : db) (k : N) : Prop :=
  ∃ t, t_task s !! k = Some t ∧ Task.status t = TaskStatus.succeeded.

(** What one iteration leaves, whether it worked or idled. *)
Lemma work_step_keeps e s :
  queue_ok s → serviced s →
  let s' := (run_once h ∅ w l e e e s).1 in
  queue_ok s' ∧ serviced s' ∧ ∀ k, done_at s k → done_at s' k.
Proof.
  intros Hok Hsv. cbv zeta.
  destruct (work_step e s Hok Hsv) as [[-> _]|(t0 & t1 & (Hk0 & Hr & _) & Ht & Hst & Hsk & Hok')]; [done|].
  split; [exact Hok'|]. split.
  - intros k t. rewrite Ht. rewrite lookup_insert_Some. intros [[_ <-]|[_ Hk]]; [|by eapply Hsv].
    rewrite Hsk. by eapply Hsv.
  - intros k (t & Hk & Hs). unfold done_at. rewrite Ht. destruct (decide (k = Task.id t0)) as [->|Hne].
    + exists t1. by rewrite lookup_insert_eq.
    + exists t. by rewrite lookup_insert_ne.
Qed.

Lemma run_many_keeps n i s :
  queue_ok s → serviced s → ∀ k, done_at s k → done_at (run_many h w l clock i n s) k.
Proof.
  revert i s. induction n as [|n IH]; intros i s Hok Hsv k Hd; [done|].
  destruct (work_step_keeps (clock i) s Hok Hsv) as (? & ? & ?). simpl. auto.
Qed.

Lemma ready_later i t : is_ready (now (clock i)) t = true → is_ready (now (clock (S i))) t = true.
Proof.
  unfold is_ready. specialize (clock_runs i). rewrite !andb_true_iff. intros [Hq Hd]. split; [done|]. lia.
Qed.

Lemma drains n i s :
  queue_ok s → serviced s → (backlog s ≤ n)%nat →
  ∀ k t, t_task s !! k = Some t → is_ready (now (clock i)) t = true →
  done_at (run_many h w l clock i n s) k.
Proof.
  revert i s. induction n as [|n IH]; intros i s Hok Hsv Hn k t Hk Hr.
  { unfold is_ready in Hr. by rewrite (backlog_zero s k t) in Hr by (done || lia). }
  simpl. destruct (work_step (clock i) s Hok Hsv)
    as [[_ Hno]|(t0 & t1 & (Hk0 & Hr0 & _) & Ht & Hst & Hsk & Hok')].
  - destruct (Hno t). pose proof (task_ok_id _ _ (queue_ok_rows _ Hok _ _ Hk)) as <-.
    split; [done|]. split; [done|]. by apply not_elem_of_empty.
  - destruct (work_step_keeps (clock i) s Hok Hsv) as (_ & Hsv' & _).
    destruct (decide (k = Task.id t0)) as [->|Hne].
    + apply run_many_keeps; [done..|]. exists t1. by rewrite Ht, lookup_insert_eq.
    + eapply IH; [done..| |by rewrite Ht, lookup_insert_ne|by apply ready_later].
      unfold is_ready in Hr0. apply andb_true_iff in Hr0 as [Hq0 _].
      pose proof (backlog_finish s _ _ _ t1 Hk0 Hq0 ltac:(unfold is_queued; by rewrite Hst) Ht). lia.
Qed.

(** C35: a worker drains its queue. Iterations at the times of a clock that does not run
    backwards, with handlers that return for every skill in the queue: after as many
    iterations as there are waiting tasks (or more) every task that was due at the first
    is [succeeded], whatever its priority, and what had succeeded before still has. *)
Theorem worker_drains n i s :
  queue_ok s → serviced s → (backlog s ≤ n)%nat →
  (∀ k t, t_task s !! k = Some t → is_ready (now (clock i)) t = true →
     ∃ t', t_task (run_many h w l clock i n s) !! k = Some t' ∧ Task.status t' = TaskStatus.succeeded) ∧
  ∀ k, done_at s k → done_at (run_many h w l clock i n s) k.
Proof. intros. split; [by apply drains|by apply run_many_keeps]. Qed.
End progress.

(** ** The theorems at concrete inputs *)

Definition good_handler : HandlerFn := λ _, pending (mret (Some [])).
Definition good_handlers : HANDLERS := register_handler "echo" good_handler [].

(** A second task, of a higher priority, beside the first. *)
Definition two_tasks : db :=
  (enqueue_task 1 2 "echo" [] None None (Some "other") None 3 9 (demo_env 5) one_task).1.

Lemma queue_ok_two : queue_ok two_tasks.
Proof. eapply queue_step_ok; [constructor|]. exact queue_ok_demo. Qed.

Lemma two_tasks_serviced : serviced good_handlers two_tasks.
Proof.
  intros k t Hk. exists good_handler. split.
  - assert (map_Forall (λ (_ : N) t, Task.skill_name t = "echo") (t_task two_tasks)) as Hs
      by (apply (bool_decide_eq_true_1 _); by vm_compute).
    by rewrite (Hs _ _ Hk).
  - intros t' e s. by exists s, s, (Some []).
Qed.

Lemma worker_drains_witness :
  (backlog two_tasks ≤ 2)%nat ∧
  ∃ t', t_task (run_many good_handlers "w" 300 demo_clock 0 2 two_tasks) !! 1%N = Some t' ∧
    Task.status t' = TaskStatus.succeeded.
Proof.
  assert (backlog two_tasks ≤ 2)%nat as Hb by (vm_compute; lia). split; [exact Hb|].
  assert (∃ t, t_task two_tasks !! 1%N = Some t ∧ is_ready (now (demo_clock 0)) t = true) as (t & Ht & Hr).
  { eexists. split; [by vm_compute|by vm_compute]. }
  exact (proj1 (worker_drains good_handlers "w" 300 demo_clock
    ltac:(intros i; unfold demo_clock, demo_env; simpl; unfold second; lia) 2 0 two_tasks
    queue_ok_two two_tasks_serviced Hb) 1%N t Ht Hr).
Defined.

Lemma good_handlers_ok : handlers_ok good_handlers.
Proof.
  intros n f Hf t e s. unfold get_handler, good_handlers, register_handler in Hf. simpl in Hf.
  destruct (bool_decide _); [|done]. by injection Hf as <-.
Qed.

Lemma store_ok_one : store_ok one_task.
Proof.
  split; [exact queue_ok_demo|]. intros k t Hk.
  assert (map_Forall (λ k (_ : Task.t), (k < next_uuid one_task)%N) (t_task one_task)) as Hs
      by (apply (bool_decide_eq_true_1 _); by vm_compute).
  exact (Hs _ _ Hk).
Qed.

(** A system before anything is claimed. *)
Definition idle (s : db) : system := mksys s [] (λ _, 0%nat).

Lemma idle_ok h : system_ok h (idle one_task).
Proof.
  split; [split; [exact store_ok_one|apply Forall_nil_2|done]|]. intros k j. unfold job_at.
  rewrite fmap_Some. intros (t & Hk & ->).
  assert (map_Forall (λ (_ : N) t, Task.status t = TaskStatus.queued ∧ Task.attempt t = 0) (t_task one_task)) as Hs
      by (apply (bool_decide_eq_true_1 _); by vm_compute).
  destruct (Hs _ _ Hk) as [Hst Ha]. split; cbn; rewrite ?Hst, ?Ha; first [done | lia].
Qed.

(** A worker runs its handler past its lease: the task is put back, its campaign is cancelled, and the
    worker's report revives it. It was started once. *)
Definition late_run : system :=
  mksys (complete 1 [] (demo_env (12 * second)) cancelled_late).1 []
    (lapse (claim_next ∅ "w" 1 (demo_env 6) one_task).1 (10 * second) (λ _, 0%nat)).

Lemma late_run_runs : rtc (system_step good_handlers) (idle one_task) late_run.
Proof.
  unfold idle, late_run, cancelled_late.
  eapply rtc_l; [apply (sys_claim _ _ _ _ ∅ "w" 1 (demo_env 6))|].
  set (s1 := (claim_next ∅ "w" 1 (demo_env 6) one_task).1).
  destruct (claimed (claim_next ∅ "w" 1 (demo_env 6) one_task).2) as [t|] eqn:Hc; [|by vm_compute in Hc].
  assert (Task.id t = 1%N ∧ Task.skill_name t = "echo") as [Hid Hsk] by (vm_compute in Hc; by injection Hc as <-).
  cbn [fmap option_fmap option_map option_list app].
  pose proof (sys_work good_handlers s1 [] (Handling t) [] (λ _, 0%nat) (demo_env 7) (demo_uniform 7)) as Hw.
  unfold worker_tx in Hw. rewrite Hsk in Hw. cbn [fst snd option_list app get_handler] in Hw.
  eapply rtc_l; [exact Hw|]. clear Hw. cbn.
  eapply rtc_l; [apply (sys_reap _ _ _ _ (demo_env (10 * second)))|].
  eapply rtc_l; [apply (sys_cancel _ _ _ _ 9 (demo_env (11 * second)))|].
  apply rtc_once.
  pose proof (sys_work good_handlers cancelled_late [] (Reporting t (inr (Some []))) []
    (lapse s1 (10 * second) (λ _, 0%nat)) (demo_env (12 * second)) (demo_uniform _)) as Hd.
  unfold worker_tx in Hd. rewrite Hid in Hd. exact Hd.
Qed.

Lemma worker_refines_life_witness :
  ∃ t', t_task (sys_db late_run) !! 1%N = Some t' ∧ Task.status t' = TaskStatus.succeeded ∧
    sys_lapses late_run 1%N = 1%nat ∧ Task.attempt t' = 1 ∧ Task.attempt t' <= 3 + 1.
Proof.
  destruct (worker_refines_life good_handlers (idle one_task) late_run good_handlers_ok (idle_ok _) late_run_runs)
    as (_ & _ & Hnow & _).
  assert ((λ t, (Task.status t, Task.attempt t, Task.max_attempts t)) <$> t_task (sys_db late_run) !! 1%N
    = Some (TaskStatus.succeeded, 1, 3)) as Hst by by vm_compute.
  destruct (t_task (sys_db late_run) !! 1%N) as [t'|] eqn:Hk; [|discriminate Hst]. exists t'.
  destruct (Hnow 1%N t' Hk) as [Ht _]. injection Hst as Hs Ha Hm. rewrite Hm in Ht.
  split; [done|]. split; [done|]. assert (sys_lapses late_run 1%N = 1%nat) as Hl by by vm_compute.
  split; [done|]. split; [done|]. by rewrite Hl in Ht.
Defined.
