(* ===== verification/BrandVoices.v ===== *)
(** * Brand voices: src/app/api/brand_voice.py

    A tenant's voices and which one the agents use. The table has two unique indexes: the name
    within the tenant, and the tenant among the active rows. Grade targets are in hundredths. *)

From S2P Require Export AuditTrail Requests Fixtures.
From S2P Require Import Worker.
Local Open Scope Z_scope.

(** ** Rows *)

#[export] Instance brand_voice_snapshot : Snapshot BrandVoice.t := λ v, [
  ("id", j_uuid (BrandVoice.id v));
  ("tenant_id", j_uuid (BrandVoice.tenant_id v));
  ("name", JStr (BrandVoice.name v));
  ("is_active", JBool (BrandVoice.is_active v));
  ("tone_descriptors", JList (JStr <$> BrandVoice.tone_descriptors v));
  ("do_words", JList (JStr <$> BrandVoice.do_words v));
  ("dont_words", JList (JStr <$> BrandVoice.dont_words v));
  ("sample_paragraphs", JList (JStr <$> BrandVoice.sample_paragraphs v));
  ("reading_grade_target", jopt j_cents (BrandVoice.reading_grade_target v));
  ("created_at", j_time (BrandVoice.created_at v));
  ("updated_at", j_time (BrandVoice.updated_at v))].

(** The columns of uq_brand_voice_tenant_name and of idx_brand_voice_active. *)
Definition voice_name_key (v : BrandVoice.t) : option (N * string) :=
  Some (BrandVoice.tenant_id v, BrandVoice.name v).
Definition voice_active_key (v : BrandVoice.t) : option N :=
  if BrandVoice.is_active v then Some (BrandVoice.tenant_id v) else None.

(** A row of another id that an index holds against [v]. *)
Definition voice_conflict (v r : BrandVoice.t) : bool :=
  negb (BrandVoice.id r ==b BrandVoice.id v) &&
  ((voice_name_key r ==b voice_name_key v) ||
   (BrandVoice.is_active v && (voice_active_key r ==b voice_active_key v))).

(** The flush of an inserted or changed row [v]. *)
Definition check_indexes (v : BrandVoice.t) : M () :=
  conflicts ← select (voice_conflict v);
  raise_if (negb (conflicts ==b [])) IntegrityError.

(** ** Requests *)

(** [app/api/schemas/brand_voice.py] lines 11-22, [BrandVoiceCreate]. *)
Record BrandVoiceCreate := {
  bc_name : string;
  bc_is_active : bool;
  bc_tone_descriptors : list string;
  bc_do_words : list string;
  bc_dont_words : list string;
  bc_sample_paragraphs : list string;
  bc_reading_grade_target : option Z;
}.

(** [app/api/schemas/brand_voice.py] lines 25-35, [BrandVoicePatch]. The outer option is whether the
    field is set, the inner one whether it is null. *)
Record BrandVoicePatch := {
  bp_name : option (option string);
  bp_tone_descriptors : option (option (list string));
  bp_do_words : option (option (list string));
  bp_dont_words : option (option (list string));
  bp_sample_paragraphs : option (option (list string));
  bp_reading_grade_target : option (option Z);
}.

Definition field_set {A} (k : string) (o : option A) : list string :=
  match o with Some _ => [k] | None => [] end.

(** [sorted(updates.keys())] of the fields set. *)
Definition updated_fields (b : BrandVoicePatch) : list string :=
  field_set "dont_words" (bp_dont_words b) ++ field_set "do_words" (bp_do_words b) ++
  field_set "name" (bp_name b) ++ field_set "reading_grade_target" (bp_reading_grade_target b) ++
  field_set "sample_paragraphs" (bp_sample_paragraphs b) ++
  field_set "tone_descriptors" (bp_tone_descriptors b).

(** A null for a NOT NULL column. *)
Definition null_field {A} (o : option (option A)) : bool := match o with Some None => true | _ => false end.
Definition patch_nulls (b : BrandVoicePatch) : bool :=
  null_field (bp_name b) || null_field (bp_tone_descriptors b) || null_field (bp_do_words b) ||
  null_field (bp_dont_words b) || null_field (bp_sample_paragraphs b).

(** [setattr(voice, field, value)] for every field set. *)
Definition set_field {A} (o : option (option A)) (old : A) : A :=
  match o with Some (Some x) => x | _ => old end.
Definition patch_voice (b : BrandVoicePatch) (v : BrandVoice.t) : BrandVoice.t := v
  <| BrandVoice.name := set_field (bp_name b) (BrandVoice.name v) |>
  <| BrandVoice.tone_descriptors := set_field (bp_tone_descriptors b) (BrandVoice.tone_descriptors v) |>
  <| BrandVoice.do_words := set_field (bp_do_words b) (BrandVoice.do_words v) |>
  <| BrandVoice.dont_words := set_field (bp_dont_words b) (BrandVoice.dont_words v) |>
  <| BrandVoice.sample_paragraphs := set_field (bp_sample_paragraphs b) (BrandVoice.sample_paragraphs v) |>
  <| BrandVoice.reading_grade_target :=
       match bp_reading_grade_target b with Some x => x | None => BrandVoice.reading_grade_target v end |>.

Definition voice_not_found : exn := HTTPException 404 "brand voice not found".

(** [except IntegrityError as exc: raise HTTPException(409, ...)]. *)
Definition or_conflict {A} (msg : string) (m : M A) : M A :=
  try_except m (λ x, match x with IntegrityError => Some (raise (HTTPException 409 msg)) | _ => None end).

(** ** Endpoints *)

(** [app/api/brand_voice.py] lines 201-215, [_deactivate_others]. *)
Definition _deactivate_others (tenant_id : N) (except_id : option N) : M Z :=
  update_where (λ v, (BrandVoice.tenant_id v ==b tenant_id) && BrandVoice.is_active v &&
                     negb (Some (BrandVoice.id v) ==b except_id))
    (λ v, v <| BrandVoice.is_active := false |>).

(** [app/api/brand_voice.py] lines 41-76, [create_brand_voice]. *)
Definition create_brand_voice (body : BrandVoiceCreate) (user : AppUser.t) : M BrandVoice.t :=
  (if bc_is_active body then _deactivate_others (AppUser.tenant_id user) None ;; mret () else mret ()) ;;
  t ← asks now;
  or_conflict ("a brand voice named '" +:+ bc_name body +:+ "' already exists") (
    voice ← add_row (λ id, {|
      BrandVoice.id := id;
      BrandVoice.tenant_id := AppUser.tenant_id user;
      BrandVoice.name := bc_name body;
      BrandVoice.is_active := bc_is_active body;
      BrandVoice.tone_descriptors := bc_tone_descriptors body;
      BrandVoice.do_words := bc_do_words body;
      BrandVoice.dont_words := bc_dont_words body;
      BrandVoice.sample_paragraphs := bc_sample_paragraphs body;
      BrandVoice.reading_grade_target := bc_reading_grade_target body;
      BrandVoice.created_at := t;
      BrandVoice.updated_at := t |});
    check_indexes voice ;;
    mret voice).

(** ORDER BY is_active DESC, name. *)
Definition voice_order (x y : BrandVoice.t) : Prop :=
  (BrandVoice.is_active x = true ∧ BrandVoice.is_active y = false) ∨
  (BrandVoice.is_active x = BrandVoice.is_active y ∧ String.leb (BrandVoice.name x) (BrandVoice.name y) = true).
#[export] Instance voice_order_dec : RelDecision voice_order.
Proof. intros x y. unfold voice_order. apply _. Defined.

(** [app/api/brand_voice.py] lines 79-92, [list_brand_voices]. *)
Definition list_brand_voices : M (list BrandVoice.t) :=
  rows ← select (λ _, true);
  mret (merge_sort voice_order rows).

(** [app/api/brand_voice.py] lines 95-108, [get_active_brand_voice]. *)
Definition get_active_brand_voice : M BrandVoice.t :=
  rows ← select BrandVoice.is_active;
  row ← scalar_one_or_none rows;
  match row with
  | None => raise (HTTPException 404 "no active brand voice configured")
  | Some row => mret row
  end.

(** [app/api/brand_voice.py] lines 111-120, [get_brand_voice]. *)
Definition get_brand_voice (voice_id : N) : M BrandVoice.t :=
  row ← get_row (R:=BrandVoice.t) voice_id;
  match row with None => raise voice_not_found | Some row => mret row end.

(** [app/api/brand_voice.py] lines 123-163, [patch_brand_voice]. *)
Definition patch_brand_voice (voice_id : N) (body : BrandVoicePatch) : M BrandVoice.t :=
  voice ← get_brand_voice voice_id;
  if updated_fields body ==b [] then mret voice
  else
    t ← asks now;
    after ← or_conflict "a brand voice with that name already exists" (
      raise_if (patch_nulls body) IntegrityError ;;
      voice ← assign voice (λ v, patch_voice body v <| BrandVoice.updated_at := t |>);
      check_indexes voice ;;
      mret voice);
    audit (BrandVoice.tenant_id voice) "brand_voice" (BrandVoice.id voice) "updated"
      (Some (column_snapshot voice)) (Some (column_snapshot after))
      [("fields", JList (JStr <$> updated_fields body))] ;;
    mret after.

(** [app/api/brand_voice.py] lines 166-198, [activate_brand_voice]. *)
Definition activate_brand_voice (voice_id : N) : M BrandVoice.t :=
  voice ← get_brand_voice voice_id;
  if BrandVoice.is_active voice then mret voice
  else
    _deactivate_others (BrandVoice.tenant_id voice) (Some (BrandVoice.id voice)) ;;
    t ← asks now;
    after ← assign voice (λ v, v <| BrandVoice.is_active := true |> <| BrandVoice.updated_at := t |>);
    check_indexes after ;;
    audit (BrandVoice.tenant_id voice) "brand_voice" (BrandVoice.id voice) "activated"
      (Some (column_snapshot voice)) (Some (column_snapshot after)) [] ;;
    mret after.

(** ** The requests a client makes *)

Inductive voice_request :=
  | CreateVoice (body : BrandVoiceCreate)
  | PatchVoice (id : N) (body : BrandVoicePatch)
  | ActivateVoice (id : N)
  | ListVoices
  | GetVoice (id : N)
  | GetActiveVoice.

Definition serve_voice (user : AppUser.t) (r : voice_request) : M (list BrandVoice.t) :=
  let one (m : M BrandVoice.t) := v ← m; mret [v] in
  match r with
  | CreateVoice body => request UserRole.marketer user (λ u, one (create_brand_voice body u))
  | PatchVoice id body => request UserRole.marketer user (λ _, one (patch_brand_voice id body))
  | ActivateVoice id => request UserRole.marketer user (λ _, one (activate_brand_voice id))
  | ListVoices => request UserRole.viewer user (λ _, list_brand_voices)
  | GetVoice id => request UserRole.viewer user (λ _, one (get_brand_voice id))
  | GetActiveVoice => request UserRole.viewer user (λ _, one get_active_brand_voice)
  end.

(** * At most one active voice

    The brand voice endpoints keep the table's indexes, and activation makes one voice the
    active one. *)

(** ** The invariant *)

Record voices_ok (s : db) : Prop := {
  bv_fresh : ∀ k v, t_brand_voice s !! k = Some v → (k < next_uuid s)%N;
  bv_keyed : ∀ k v, t_brand_voice s !! k = Some v → BrandVoice.id v = k;
  bv_names : unique_on voice_name_key s;
  bv_active : unique_on voice_active_key s;
}.

(** Rows of other ids that conflict with nothing. *)
Lemma check_indexes_inr v e s s' u :
  check_indexes v e s = (s', inr u) →
  s' = s ∧ ∀ k r, t_brand_voice s !! k = Some r → voice_conflict v r = false.
Proof.
  unfold check_indexes. rewrite bind_select.
  destruct (_ ==b []) eqn:E; [|done]. intros [= <- _]. split; [done|].
  apply bool_decide_eq_true in E.
  exact (proj1 (select_nil (T:=BrandVoice.t) (voice_conflict v) s) E).
Qed.

Lemma voice_conflict_false v r :
  BrandVoice.id r ≠ BrandVoice.id v → voice_conflict v r = false →
  voice_name_key r ≠ voice_name_key v ∧ ∀ x, voice_active_key v = Some x → voice_active_key r ≠ Some x.
Proof.
  unfold voice_conflict. intros Hne. rewrite (bool_decide_false (BrandVoice.id r = _)) by done. simpl.
  intros [Hn Ha]%orb_false_iff. split; [by apply bool_decide_eq_false in Hn|].
  intros x Hx Hr. unfold voice_active_key at 1 in Hx. destruct (BrandVoice.is_active v) eqn:E; [|done].
  simpl in Ha. apply bool_decide_eq_false in Ha. apply Ha. unfold voice_active_key at 2. rewrite E. congruence.
Qed.

(** A row written at its id, when the indexes find nothing against it. *)
Lemma voices_ok_put s s' v :
  voices_ok s →
  t_brand_voice s' = <[BrandVoice.id v := v]> (t_brand_voice s) →
  (next_uuid s <= next_uuid s')%N → (BrandVoice.id v < next_uuid s')%N →
  (∀ k r, t_brand_voice s' !! k = Some r → voice_conflict v r = false) →
  voices_ok s'.
Proof.
  intros [Hf Hk Hn Ha] Ht Hle Hlt Hc.
  assert (∀ k r, k ≠ BrandVoice.id v → t_brand_voice s !! k = Some r →
    voice_name_key r ≠ voice_name_key v ∧ ∀ x, voice_active_key v = Some x → voice_active_key r ≠ Some x) as Hother.
  { intros k r Hne Hr. apply voice_conflict_false; [by rewrite (Hk _ _ Hr)|].
    apply (Hc k). by rewrite Ht, lookup_insert_ne. }
  split.
  - intros k r. rewrite Ht, lookup_insert_Some. intros [[<- _]|[_ Hr]]; [done|]. specialize (Hf _ _ Hr). lia.
  - intros k r. rewrite Ht, lookup_insert_Some. intros [[<- <-]|[_ Hr]]; eauto.
  - intros k1 k2 r1 r2 x. change (rows (R:=BrandVoice.t) s') with (t_brand_voice s').
    rewrite Ht, !lookup_insert_Some.
    intros [[<- <-]|[Hne1 H1]] [[<- <-]|[Hne2 H2]] Hx1 Hx2; [done| | |by eapply Hn]; exfalso.
    + apply (Hother k2 r2); [done|done|congruence].
    + apply (Hother k1 r1); [done|done|congruence].
  - intros k1 k2 r1 r2 x. change (rows (R:=BrandVoice.t) s') with (t_brand_voice s').
    rewrite Ht, !lookup_insert_Some.
    intros [[<- <-]|[Hne1 H1]] [[<- <-]|[Hne2 H2]] Hx1 Hx2; [done| | |by eapply Ha]; exfalso.
    + by apply (proj2 (Hother k2 r2 (not_eq_sym Hne2) H2) x).
    + by apply (proj2 (Hother k1 r1 (not_eq_sym Hne1) H1) x).
Qed.

(** Deactivating frees the index. *)
Definition deactivated (tid : N) (except : option N) (v : BrandVoice.t) : bool :=
  (BrandVoice.tenant_id v ==b tid) && BrandVoice.is_active v && negb (Some (BrandVoice.id v) ==b except).

Lemma deactivate_run tid except e s :
  ∃ n, _deactivate_others tid except e s =
    (set_rows ((λ v, if deactivated tid except v
                     then touch (now e) (v <| BrandVoice.is_active := false |>) else v)
               <$> t_brand_voice s) s, inr n).
Proof. eexists. reflexivity. Qed.

Lemma deactivate_ok tid except e s : voices_ok s → voices_ok (_deactivate_others tid except e s).1.
Proof.
  intros [Hf Hk Hn Ha]. destruct (deactivate_run tid except e s) as [n ->]. cbn [fst]. split.
  - intros k v. cbn. rewrite lookup_fmap_Some. intros (r & _ & Hr). eauto.
  - intros k v. cbn. rewrite lookup_fmap_Some. intros (r & <- & Hr). rewrite <- (Hk _ _ Hr). by destruct (deactivated _ _ _).
  - intros k1 k2 r1 r2 x. cbn. rewrite !lookup_fmap_Some. intros (v1 & <- & H1) (v2 & <- & H2) Hx1 Hx2.
    apply (Hn k1 k2 v1 v2 x); [done|done| |].
    + rewrite <- Hx1. by destruct (deactivated _ _ v1).
    + rewrite <- Hx2. by destruct (deactivated _ _ v2).
  - intros k1 k2 r1 r2 x. cbn. rewrite !lookup_fmap_Some. intros (v1 & <- & H1) (v2 & <- & H2).
    destruct (deactivated _ _ v1); [done|]. destruct (deactivated _ _ v2); [done|]. by apply (Ha k1 k2 v1 v2 x).
Qed.

(** ** The endpoints *)

Lemma audit_voices tid ek eid act b a md e s s' u :
  audit tid ek eid act b a md e s = (s', inr u) →
  t_brand_voice s' = t_brand_voice s ∧ (next_uuid s <= next_uuid s')%N.
Proof. intros [= <- _]. cbn. split; [done|lia]. Qed.

Lemma voices_ok_frame s s' :
  t_brand_voice s' = t_brand_voice s → (next_uuid s <= next_uuid s')%N → voices_ok s → voices_ok s'.
Proof.
  intros Ht Hn [Hf Hk Hnm Ha]. unfold unique_on in *.
  split; try (unfold unique_on; change (rows (R:=BrandVoice.t)) with t_brand_voice in * ); rewrite Ht; eauto.
  intros k v Hv. specialize (Hf _ _ Hv). lia.
Qed.

(** Only an IntegrityError becomes a conflict. *)
Lemma or_conflict_inr {A} msg (m : M A) e s s' a :
  or_conflict msg m e s = (s', inr a) ↔ m e s = (s', inr a).
Proof.
  unfold or_conflict, try_except. destruct (m e s) as [s1 [[]|x]]; try done.
Qed.

(** Assigning a new state to a voice that was read, then flushing. *)
Lemma flush_assigned s v (f : BrandVoice.t → BrandVoice.t) e s' v' s'' u :
  voices_ok s → t_brand_voice s !! BrandVoice.id v = Some v →
  assign v f e s = (s', inr v') → check_indexes v' e s' = (s'', inr u) →
  (∀ r, BrandVoice.id (f r) = BrandVoice.id r) →
  voices_ok s'' ∧ t_brand_voice s'' = <[BrandVoice.id v := touch (now e) (f v)]> (t_brand_voice s) ∧ v' = f v ∧
  ∀ k r, k ≠ BrandVoice.id v → t_brand_voice s !! k = Some r → voice_conflict (f v) r = false.
Proof.
  intros Hok Hv Ha Hc Hid.
  assert (rows (R:=BrandVoice.t) s !! pk v = Some v) as Hv' by exact Hv.
  apply (assign_inr v f e s s' v' v Hv') in Ha as [-> ->].
  apply check_indexes_inr in Hc as [-> Hc]. cbn in Hc.
  split; [|split; [done|split; [done|]]].
  - apply (voices_ok_put s _ (touch (now e) (f v))); [done| | | |].
    + cbn. by rewrite Hid.
    + cbn. lia.
    + cbn. rewrite Hid. by eapply bv_fresh.
    + exact Hc.
  - intros k r Hne Hr. apply (Hc k). by rewrite lookup_insert_ne.
Qed.

Lemma create_ok body user e s s' v :
  voices_ok s → create_brand_voice body user e s = (s', inr v) → voices_ok s'.
Proof.
  intros Hok H. unfold create_brand_voice in H. apply bind_inr in H as (s1 & [] & Hd & H).
  assert (voices_ok s1) as Hok1.
  { destruct (bc_is_active body); [|by injection Hd as <-].
    apply bind_inr in Hd as (s2 & n & Hd & H2). injection H2 as <-.
    pose proof (deactivate_ok (AppUser.tenant_id user) None e s Hok) as Hd'. by rewrite Hd in Hd'. }
  clear Hd Hok. rewrite bind_asks in H. apply or_conflict_inr in H.
  rewrite (bind_ok _ _ _ _ _ _ (add_row_run _ e s1)) in H.
  apply bind_inr in H as (s2 & [] & Hc & [= <- _]). apply check_indexes_inr in Hc as [-> Hc]. cbn in Hc.
  match type of Hc with context [<[_ := ?v]> _] => apply (voices_ok_put s1 _ v Hok1); [reflexivity|cbn; lia|cbn; lia|exact Hc] end.
Qed.

Lemma get_voice_inr k e s s' v :
  get_brand_voice k e s = (s', inr v) → s' = s ∧ t_brand_voice s !! k = Some v.
Proof.
  unfold get_brand_voice. rewrite bind_get_row. change (rows (R:=BrandVoice.t) s) with (t_brand_voice s).
  destruct (t_brand_voice s !! k); [|done]. by intros [= <- <-].
Qed.

Lemma patch_ok k body e s s' v :
  voices_ok s → patch_brand_voice k body e s = (s', inr v) → voices_ok s'.
Proof.
  intros Hok H. unfold patch_brand_voice in H.
  apply bind_inr in H as (s1 & old & [-> Hold]%get_voice_inr & H).
  destruct (updated_fields body ==b []); [by injection H as <- <-|].
  rewrite bind_asks in H. apply bind_inr in H as (s1 & after & Hp & H). apply or_conflict_inr in Hp.
  apply bind_inr in Hp as (s2 & ? & [_ ->]%raise_if_inr & Hp).
  apply bind_inr in Hp as (s2 & v2 & Ha & Hp). apply bind_inr in Hp as (s3 & ? & Hc & [= <- <-]).
  assert (BrandVoice.id old = k) as <- by by eapply bv_keyed.
  destruct (flush_assigned s old _ e s2 v2 s3 _ Hok Hold Ha Hc ltac:(done)) as (Hok3 & _).
  apply bind_inr in H as (s4 & [] & [Ht Hn]%audit_voices & [= <- _]). by apply (voices_ok_frame s3).
Qed.

(** What activating an inactive voice writes. *)
Lemma activate_inr k e s s' v :
  voices_ok s → activate_brand_voice k e s = (s', inr v) →
  ∃ old, t_brand_voice s !! k = Some old ∧ voices_ok s' ∧
  (BrandVoice.is_active old = true ∧ s' = s ∧ v = old ∨
   BrandVoice.is_active old = false ∧ v = old <| BrandVoice.is_active := true |> <| BrandVoice.updated_at := now e |> ∧
   t_brand_voice s' = <[k := v]> ((λ r, if deactivated (BrandVoice.tenant_id old) (Some k) r
     then touch (now e) (r <| BrandVoice.is_active := false |>) else r) <$> t_brand_voice s)).
Proof.
  intros Hok H. unfold activate_brand_voice in H.
  apply bind_inr in H as (s1 & old & [-> Hold]%get_voice_inr & H). exists old. split; [done|].
  assert (BrandVoice.id old = k) as <- by by eapply bv_keyed.
  destruct (BrandVoice.is_active old) eqn:Eact; [injection H as <- <-; by eauto|].
  destruct (deactivate_run (BrandVoice.tenant_id old) (Some (BrandVoice.id old)) e s) as [n Hd].
  pose proof (deactivate_ok (BrandVoice.tenant_id old) (Some (BrandVoice.id old)) e s Hok) as Hok1.
  rewrite Hd in Hok1. rewrite (bind_ok _ _ _ _ _ _ Hd), bind_asks in H. cbn [fst] in Hok1.
  set (s1 := set_rows _ s) in *.
  assert (t_brand_voice s1 !! BrandVoice.id old = Some old) as Hold1.
  { cbn. rewrite lookup_fmap, Hold. cbn. unfold deactivated. by rewrite Eact, andb_false_r. }
  apply bind_inr in H as (s2 & v2 & Ha & H). apply bind_inr in H as (s3 & ? & Hc & H).
  destruct (flush_assigned s1 old _ e s2 v2 s3 _ Hok1 Hold1 Ha Hc ltac:(done)) as (Hok3 & Ht & -> & _).
  apply bind_inr in H as (s4 & [] & [Ht4 Hn4]%audit_voices & H). injection H as <- <-.
  split; [by apply (voices_ok_frame s3)|]. right. split; [done|]. split; [done|].
  rewrite Ht4, Ht. done.
Qed.

Lemma serve_ok user r : respects (keeps voices_ok) (serve_voice user r).
Proof.
  intros e s Hok. destruct (serve_voice user r e s) as [s' [x|l]] eqn:E; cbn.
  - destruct r; cbn in E; apply request_inl in E; by subst.
  - destruct r; cbn in E; apply request_inr in E as [_ E]; cbv beta in E; inv_run; subst; try done.
    + by eapply create_ok.
    + by eapply patch_ok.
    + eapply activate_inr in Hok as (old & _ & Hok' & _); [|done]. done.
    + unfold list_brand_voices in *. by inv_run; subst.
    + match goal with H : get_brand_voice _ _ _ = _ |- _ => by apply get_voice_inr in H as [-> _] end.
    + unfold get_active_brand_voice in *. by inv_run; subst; repeat case_match; inv_run; subst.
Qed.

(** ** Any sequence of requests *)

Fixpoint serve_voices (l : list (env * AppUser.t * voice_request)) (s : db) : db :=
  match l with
  | [] => s
  | (e, user, r) :: l => serve_voices l (serve_voice user r e s).1
  end.

Lemma serve_voices_ok l s : voices_ok s → voices_ok (serve_voices l s).
Proof. revert s. induction l as [|[[e user] r] l IH]; intros s Hok; [done|]. by apply IH, serve_ok. Qed.

(** The indexes hold nothing against a row whose name is free in its tenant and which, when it is
    active, is so alone. *)
Lemma check_indexes_free v e s :
  (∀ k r, t_brand_voice s !! k = Some r → BrandVoice.id r ≠ BrandVoice.id v →
     BrandVoice.tenant_id r = BrandVoice.tenant_id v →
     BrandVoice.name r ≠ BrandVoice.name v ∧ (BrandVoice.is_active v = true → BrandVoice.is_active r = false)) →
  check_indexes v e s = (s, inr ()).
Proof.
  intros Hfree. unfold check_indexes. rewrite bind_select.
  rewrite (proj2 (select_nil (T:=BrandVoice.t) (voice_conflict v) s)); [by rewrite bool_decide_eq_true_2|].
  intros k r Hr. unfold voice_conflict. specialize (Hfree k r Hr). case_bool_decide as Hid; [done|]. specialize (Hfree Hid).
  apply orb_false_iff. split.
  - apply bool_decide_eq_false_2. unfold voice_name_key. intros [= Ht Hn]. by destruct (Hfree Ht).
  - destruct (BrandVoice.is_active v) eqn:Hv; [|done]. apply bool_decide_eq_false_2. unfold voice_active_key.
    rewrite Hv. destruct (BrandVoice.is_active r) eqn:Hr'; [|done]. intros [= Ht]. destruct (Hfree Ht) as [_ Ha].
    by specialize (Ha eq_refl).
Qed.

(** After [_deactivate_others] no voice of the tenant but the one excepted is active. *)
Lemma deactivated_rows tid except e s k r' :
  t_brand_voice (_deactivate_others tid except e s).1 !! k = Some r' →
  ∃ r, t_brand_voice s !! k = Some r ∧
    r' <| BrandVoice.is_active := BrandVoice.is_active r |> <| BrandVoice.updated_at := BrandVoice.updated_at r |> = r ∧
    (BrandVoice.tenant_id r ≠ tid → r' = r) ∧
    (BrandVoice.tenant_id r = tid → Some (BrandVoice.id r) ≠ except → BrandVoice.is_active r' = false).
Proof.
  destruct (deactivate_run tid except e s) as [n ->]. cbn. rewrite lookup_fmap_Some. intros (r & <- & Hr).
  exists r. split; [done|]. unfold deactivated. case_bool_decide as Ht; cbn.
  2: { split; [by destruct r|]. split; [done|]. done. }
  destruct (BrandVoice.is_active r) eqn:Ha; cbn.
  2: { split; [by destruct r; cbn in *; subst|]. by split. }
  case_bool_decide as He; cbn; (split; [by destruct r; cbn in *; subst|]); by split.
Qed.

(** The voice [v] under [k] is the active one of its tenant. Every other voice is there as before, but
    for its flag and time stamp, and the voices of other tenants for these too. *)
Definition made_active (k : N) (v : BrandVoice.t) (s s' : db) : Prop :=
  t_brand_voice s' !! k = Some v ∧ BrandVoice.is_active v = true ∧
  ∀ i, i ≠ k → match t_brand_voice s !! i, t_brand_voice s' !! i with
    | Some r, Some r' =>
        r' <| BrandVoice.is_active := BrandVoice.is_active r |>
           <| BrandVoice.updated_at := BrandVoice.updated_at r |> = r ∧
        (BrandVoice.tenant_id r ≠ BrandVoice.tenant_id v → r' = r) ∧
        (BrandVoice.tenant_id r = BrandVoice.tenant_id v → BrandVoice.is_active r' = false)
    | None, None => True
    | _, _ => False
    end.

(** Deactivating the others and writing the row makes it the active one. *)
Lemma made_active_put tid except e s s' k v :
  voices_ok s → BrandVoice.tenant_id v = tid → BrandVoice.is_active v = true → (∀ x, except = Some x → x = k) →
  t_brand_voice s' = <[k := v]> (t_brand_voice (_deactivate_others tid except e s).1) →
  made_active k v s s'.
Proof.
  intros Hok Ht Ha Hexc Hs'. unfold made_active. rewrite Hs', lookup_insert_eq. split; [done|]. split; [done|].
  intros i Hi. rewrite lookup_insert_ne by done. subst tid.
  destruct (t_brand_voice (_deactivate_others _ except e s).1 !! i) as [r'|] eqn:Hr'.
  - destruct (deactivated_rows _ _ _ _ _ _ Hr') as (r & Hr & Hsame & Hother & Hoff). rewrite Hr.
    split; [exact Hsame|]. split; [exact Hother|]. intros Htid. apply Hoff; [done|].
    rewrite (bv_keyed _ Hok _ _ Hr). intros E. by apply Hi, Hexc.
  - destruct (deactivate_run (BrandVoice.tenant_id v) except e s) as [n Hd]. rewrite Hd in Hr'. cbn in Hr'.
    rewrite lookup_fmap in Hr'. by destruct (t_brand_voice s !! i).
Qed.

Lemma assign_voice_run (r : BrandVoice.t) f e s r0 :
  t_brand_voice s !! BrandVoice.id r = Some r0 →
  assign r f e s = (set_rows (<[BrandVoice.id r := touch (now e) (f r0)]> (t_brand_voice s)) s, inr (f r)).
Proof.
  intros Hr. assert (rows (R:=BrandVoice.t) s !! pk r = Some r0) as Hr' by exact Hr.
  unfold assign. by rewrite (bind_ok _ _ _ _ _ _ (update_row_run _ f e s r0 Hr')).
Qed.

(** Once the others are deactivated the indexes let the row through, wherever it is written. *)
Lemma check_after_deactivation tid except e s s1 e1 v w :
  voices_ok s → BrandVoice.tenant_id v = tid → BrandVoice.id w = BrandVoice.id v →
  (∀ x, except = Some x → x = BrandVoice.id v) →
  (∀ k r, t_brand_voice s !! k = Some r → BrandVoice.tenant_id r = tid → k ≠ BrandVoice.id v →
     BrandVoice.name r ≠ BrandVoice.name v) →
  t_brand_voice s1 = <[BrandVoice.id v := w]> (t_brand_voice (_deactivate_others tid except e s).1) →
  check_indexes v e1 s1 = (s1, inr ()).
Proof.
  intros Hok <- Hw Hexc Hfree Hs1. apply check_indexes_free. rewrite Hs1. intros k r'.
  rewrite lookup_insert_Some. intros [[<- <-]|[Hk Hr']] Hne Htid; [done|].
  destruct (deactivated_rows _ _ _ _ _ _ Hr') as (r & Hr & Hsame & _ & Hoff).
  pose proof (bv_keyed _ Hok _ _ Hr) as Hid. pose proof (f_equal BrandVoice.name Hsame) as Hn.
  pose proof (f_equal BrandVoice.tenant_id Hsame) as Ht. cbn in Hn, Ht. rewrite Hn. rewrite Htid in Ht. split.
  - by apply (Hfree k).
  - intros _. apply Hoff; [done|]. rewrite Hid. intros E. by apply Hk; rewrite (Hexc k).
Qed.

(** An activation of a voice that is there is answered. *)
Lemma activate_total k old e s :
  voices_ok s → t_brand_voice s !! k = Some old → ∃ s' v, activate_brand_voice k e s = (s', inr v).
Proof.
  intros Hok Hold. unfold activate_brand_voice, get_brand_voice. rewrite bind_assoc, bind_get_row.
  change (rows (R:=BrandVoice.t) s) with (t_brand_voice s). rewrite Hold, bind_ret.
  destruct (BrandVoice.is_active old) eqn:Hact; [by eauto|].
  assert (BrandVoice.id old = k) as <- by by eapply bv_keyed.
  destruct (deactivate_run (BrandVoice.tenant_id old) (Some (BrandVoice.id old)) e s) as [n Hd].
  rewrite (bind_ok _ _ _ _ _ _ Hd), bind_asks. set (s1 := set_rows _ s) in *.
  assert (t_brand_voice s1 !! BrandVoice.id old = Some old) as Hold1.
  { cbn. rewrite lookup_fmap, Hold. cbn. unfold deactivated. by rewrite Hact, andb_false_r. }
  rewrite (bind_ok _ _ _ _ _ _ (assign_voice_run old _ e s1 old Hold1)).
  erewrite bind_ok; [by do 2 eexists|].
  eapply (check_after_deactivation (BrandVoice.tenant_id old) (Some (BrandVoice.id old)) e s); try done.
  - by intros x [= <-].
  - cbn. intros i r Hr Htid Hi Hn. apply Hi, (bv_names _ Hok i _ r old (BrandVoice.tenant_id old, BrandVoice.name old)); [done..| |done].
    unfold voice_name_key. by rewrite Htid, Hn.
Qed.

(** So is the creation of an active voice under a free name. *)
Lemma create_total body user e s :
  voices_ok s → bc_is_active body = true →
  (∀ k r, t_brand_voice s !! k = Some r → BrandVoice.tenant_id r = AppUser.tenant_id user →
     BrandVoice.name r ≠ bc_name body) →
  ∃ s' v, create_brand_voice body user e s = (s', inr v) ∧
    BrandVoice.name v = bc_name body ∧ BrandVoice.dont_words v = bc_dont_words body ∧
    BrandVoice.tenant_id v = AppUser.tenant_id user ∧ made_active (next_uuid s) v s s'.
Proof.
  intros Hok Hact Hfree. unfold create_brand_voice. rewrite Hact, bind_assoc.
  destruct (deactivate_run (AppUser.tenant_id user) None e s) as [n Hd].
  rewrite (bind_ok _ _ _ _ _ _ Hd), bind_ret, bind_asks. set (s1 := set_rows _ s) in *.
  unfold or_conflict, try_except. rewrite (bind_ok _ _ _ _ _ _ (add_row_run _ e s1)).
  match goal with |- context [check_indexes ?v] => set (v0 := v) end.
  assert (BrandVoice.id v0 = next_uuid s) as Hid by done.
  match goal with |- context [(check_indexes v0 ≫= _) e ?s0] => set (s2 := s0) end.
  assert (t_brand_voice s2 = <[next_uuid s := v0]> (t_brand_voice (_deactivate_others (AppUser.tenant_id user) None e s).1))
    as Hs2 by by rewrite Hd.
  erewrite bind_ok; [|eapply (check_after_deactivation (AppUser.tenant_id user) None e s); [done|done| |done|by eauto|exact Hs2]; done].
  exists s2, v0. split; [done|]. split; [done|]. split; [done|]. split; [done|].
  by eapply (made_active_put (AppUser.tenant_id user) None e).
Qed.

Lemma activate_spec k e s s' v :
  voices_ok s → activate_brand_voice k e s = (s', inr v) → ∃ old, t_brand_voice s !! k = Some old ∧
    v <| BrandVoice.is_active := BrandVoice.is_active old |> <| BrandVoice.updated_at := BrandVoice.updated_at old |> = old ∧
    made_active k v s s'.
Proof.
  intros Hok H. destruct (activate_inr _ _ _ _ _ Hok H) as (old & Hold & _ & [(Hact & -> & ->)|(Hact & -> & Ht)]);
    exists old; split; [done| |done|]; (split; [by destruct old|]).
  - split; [done|]. split; [done|]. intros i Hi. destruct (t_brand_voice s !! i) as [r|] eqn:Hr; [|done].
    split; [by destruct r|]. split; [done|]. intros Htid. destruct (BrandVoice.is_active r) eqn:Hr'; [|done].
    exfalso. apply Hi, (bv_active s Hok i k r old (BrandVoice.tenant_id old)); [done|done| |];
      unfold voice_active_key; [by rewrite Hr', Htid|by rewrite Hact].
  - apply (made_active_put (BrandVoice.tenant_id old) (Some k) e); [done|done|done|by intros x [= <-]|].
    destruct (deactivate_run (BrandVoice.tenant_id old) (Some k) e s) as [n ->]. exact Ht.
Qed.

(** A request of somebody with its role is its handler in a transaction. *)
Lemma request_run {A} r user (h : AppUser.t → M A) e s s' x :
  ROLE_RANK r <= ROLE_RANK (AppUser.role user) → h user e s = (s', inr x) → request r user h e s = (s', inr x).
Proof.
  intros Hr Hh. unfold request, require_role. replace (_ <? _) with false by (symmetry; by apply Z.ltb_ge).
  rewrite bind_assoc, bind_pass, bind_ret. unfold transaction. by rewrite Hh.
Qed.

(** C19: the active voice of a tenant. Whatever requests have been made, by whomever, answered or
    refused, the names of a tenant's voices are different and at most one of them is active. And the
    endpoints make room for the one that is asked for, where the index by itself would refuse it:
    after any such requests a marketer who activates a voice that is there, or creates an active
    one under a name that is free in the tenant, is answered, and then that voice is the tenant's
    active one and the others are not; but for that flag and their time stamp the others are as before,
    and the voices of other tenants entirely so. *)
Theorem brand_voice_one_active l s user e :
  voices_ok s → let s0 := serve_voices l s in
  voices_ok s0 ∧
  (ROLE_RANK UserRole.marketer <= ROLE_RANK (AppUser.role user) →
   (∀ k old, t_brand_voice s0 !! k = Some old → ∃ s' v,
      serve_voice user (ActivateVoice k) e s0 = (s', inr [v]) ∧
      v <| BrandVoice.is_active := BrandVoice.is_active old |> <| BrandVoice.updated_at := BrandVoice.updated_at old |> = old ∧
      made_active k v s0 s') ∧
   (∀ body, bc_is_active body = true →
      (∀ k r, t_brand_voice s0 !! k = Some r → BrandVoice.tenant_id r = AppUser.tenant_id user →
         BrandVoice.name r ≠ bc_name body) → ∃ s' v,
      serve_voice user (CreateVoice body) e s0 = (s', inr [v]) ∧
      BrandVoice.name v = bc_name body ∧ BrandVoice.dont_words v = bc_dont_words body ∧
      BrandVoice.tenant_id v = AppUser.tenant_id user ∧ made_active (next_uuid s0) v s0 s')).
Proof.
  intros Hok. apply (serve_voices_ok l) in Hok. intros s0. fold s0 in Hok. split; [done|]. intros Hrole. split.
  - intros k old Hold. destruct (activate_total k old e s0 Hok Hold) as (s' & v & Hrun).
    destruct (activate_spec k e s0 s' v Hok Hrun) as (old' & Hold' & Hsame & Hmade).
    rewrite Hold in Hold'. injection Hold' as <-. exists s', v. split; [|done].
    apply request_run; [done|]. by rewrite (bind_ok _ _ _ _ _ _ Hrun).
  - intros body Hact Hfree. destruct (create_total body user e s0 Hok Hact Hfree) as (s' & v & Hrun & Hv).
    exists s', v. split; [|done]. apply request_run; [done|]. by rewrite (bind_ok _ _ _ _ _ _ Hrun).
Qed.

Definition sample_voice (nm : string) (act : bool) : BrandVoiceCreate := {|
  bc_name := nm; bc_is_active := act; bc_tone_descriptors := ["warm"]; bc_do_words := []; bc_dont_words := ["cheap"];
  bc_sample_paragraphs := []; bc_reading_grade_target := Some 850 |}.

Lemma brand_voice_one_active_witness :
  let marketer := sample_user UserRole.marketer in
  let s := serve_voices [(demo_env 1, marketer, CreateVoice (sample_voice "plain" true));
                         (demo_env 2, marketer, CreateVoice (sample_voice "bold" false))] empty_db in
  BrandVoice.is_active <$> t_brand_voice s !! 1%N = Some true ∧
  ∃ s' v, serve_voice marketer (ActivateVoice 2) (demo_env 3) s = (s', inr [v]) ∧ made_active 2 v s s'.
Proof.
  intros marketer s. split; [vm_compute; reflexivity|].
  destruct (brand_voice_one_active [(demo_env 1, marketer, CreateVoice (sample_voice "plain" true));
      (demo_env 2, marketer, CreateVoice (sample_voice "bold" false))] empty_db marketer (demo_env 3)) as [_ H];
    [by split; intros ?|].
  destruct (H ltac:(by vm_compute)) as [Hact _].
  destruct (t_brand_voice s !! 2%N) as [old|] eqn:Hold; [|by vm_compute in Hold].
  destruct (Hact 2%N old Hold) as (s' & v & Hrun & _ & Hmade).
  by exists s', v.
Defined.
