(* ===== verification/Agents.v ===== *)
(** * Agent rows: the get-or-create helpers

    Every specialist agent has one row per tenant, created on first use and
    audited by the insert listener. *)

From S2P Require Export Queue.
Local Open Scope Z_scope.

(** The row a new agent gets; status, config and times take the column defaults. *)
Definition new_agent (tenant_id : N) (name : string) (kind : AgentKind.t) (t : Z) (id : N)
    : Agent.t := {|
  Agent.id := id;
  Agent.tenant_id := tenant_id;
  Agent.name := name;
  Agent.agent_type := kind;
  Agent.status := AgentStatus.idle;
  Agent.config := [];
  Agent.last_active_at := None;
  Agent.created_at := t;
  Agent.updated_at := t |}.

(** The body the get-or-create helpers share. *)
Definition ensure_agent (kind : AgentKind.t) (name : string) (tenant_id : N) : M Agent.t :=
  rows ← select (λ a, (Agent.tenant_id a ==b tenant_id) && (Agent.agent_type a ==b kind));
  existing ← scalar_one_or_none rows;
  match existing with
  | Some a => mret a
  | None =>
      t ← asks now;
      add_tracked (new_agent tenant_id name kind t)
  end.

(** [app/orchestrator/state_machine.py] lines 119-142, [_ensure_orchestrator_agent]. *)
Definition _ensure_orchestrator_agent : N → M Agent.t :=
  ensure_agent AgentKind.orchestrator "Marketing Orchestrator".

(** [app/agents/content_creator.py] lines 82-102, [ensure_content_creator_agent]. *)
Definition ensure_content_creator_agent : N → M Agent.t :=
  ensure_agent AgentKind.content_creator "Content Creator".

(** [app/agents/distribution.py] lines 87-105, [ensure_distribution_agent]. *)
Definition ensure_distribution_agent : N → M Agent.t :=
  ensure_agent AgentKind.channel_distribution "Channel Distribution".

(** [app/agents/log.py] lines 16-36, [agent_log_emit]. *)
Definition agent_log_emit (tenant_id agent_id : N) (task_id : option N) (action : string)
    (log_data : jdict) (severity : string) : M AgentLog.t :=
  t ← asks now;
  add_row (λ id, {|
    AgentLog.id := id;
    AgentLog.tenant_id := tenant_id;
    AgentLog.agent_id := agent_id;
    AgentLog.task_id := task_id;
    AgentLog.action := action;
    AgentLog.log_data := log_data;
    AgentLog.severity := severity;
    AgentLog.logged_at := t |}).

(** A task for [agent] about an asset of a campaign, as the agents enqueue them. *)
Definition enqueue_asset_task (tenant_id agent_id campaign_id : N) (skill_name : string)
    (input_data : jdict) (scheduled_for : option Z) : M Task.t :=
  enqueue_task tenant_id agent_id skill_name input_data (Some campaign_id) None None
    scheduled_for 3 5.

(** [UUID(inputs["asset_id"])]. *)
Definition input_asset_id (task : Task.t) : exn + N :=
  match dget "asset_id" (Task.input_data task) with
  | None => inl KeyError
  | Some (JStr s) => match uuid_parse s with
                     | Some k => inr k
                     | None => inl (ValueError "badly formed hexadecimal UUID string")
                     end
  | Some JNull => inl TypeError
  | Some _ => inl (AttributeError "object has no attribute 'replace'")
  end.

(** ** What enqueueing and agent creation leave alone *)

Lemma respects_enqueue_task (R : relation db) `{!PreOrder R} tid aid sk inp cid pid key at_ mx pr :
  (∀ m s, R s (set_rows (R:=Task.t) m (s <| next_uuid := (next_uuid s + 1)%N |>))) →
  respects R (enqueue_task tid aid sk inp cid pid key at_ mx pr).
Proof.
  intros HR. unfold enqueue_task. respects_auto. apply (respects_frame_add R). apply HR.
Qed.

Lemma respects_ensure_agent (R : relation db) `{!PreOrder R} kind name tid :
  (∀ m s, R s (set_rows (R:=Agent.t) m (s <| next_uuid := (next_uuid s + 1)%N |>))) →
  (∀ m s, R s (set_rows (R:=AuditLog.t) m (s <| next_uuid := (next_uuid s + 1)%N |>))) →
  respects R (ensure_agent kind name tid).
Proof.
  intros Ha Hl. unfold ensure_agent. respects_auto.
  apply (respects_add_tracked R); [done|]. apply (respects_frame_add R). apply Ha.
Qed.

(** Extend the walk with the shared effects. *)
Ltac frame_rows := intros; first
  [ match goal with |- ?R ?s _ => change (R s s); reflexivity end | idtac ].
Ltac walk_step := first
  [ respects_step
  | match goal with
    | |- respects ?R (audit _ _ _ _ _ _ _) => apply (respects_audit R); frame_rows
    | |- respects ?R (enqueue_task _ _ _ _ _ _ _ _ _ _) =>
        apply (respects_enqueue_task R); frame_rows
    | |- respects ?R (enqueue_asset_task _ _ _ _ _ _) => unfold enqueue_asset_task
    | |- respects ?R (ensure_agent _ _ _) => apply (respects_ensure_agent R); frame_rows
    | |- respects ?R (ensure_distribution_agent _) => unfold ensure_distribution_agent
    | |- respects ?R (ensure_content_creator_agent _) => unfold ensure_content_creator_agent
    | |- respects ?R (_ensure_orchestrator_agent _) => unfold _ensure_orchestrator_agent
    | |- respects ?R (cancel_queued_for_campaign _) => unfold cancel_queued_for_campaign
    end ].
Ltac walk := repeat walk_step.
