(* ===== verification/Segmentation.v ===== *)
(** * Audience targeting: src/app/audiences/segmentation.py and the agent that uses it

    A criteria document is validated into include and exclude rules. A rule is a
    condition of the query, in SQL's three-valued logic ([None] is unknown, which a
    WHERE drops even under NOT). *)

From S2P Require Export Agents Jsonb Fixtures.
Local Open Scope Z_scope.

(** ** Criteria *)

(** [app/audiences/segmentation.py] lines 34-41, [SUPPORTED_FIELDS]. *)
Definition SUPPORTED_FIELDS : list (string * list string) :=
  [("email", ["eq"; "contains"]);
   ("country", ["eq"; "in"]);
   ("tags", ["has"]);
   ("company", ["eq"; "contains"]);
   ("first_name", ["eq"; "contains"]);
   ("last_name", ["eq"; "contains"])].

(** [app/audiences/segmentation.py] lines 94-98, [SegmentationRule]. The value of [in] is a
    list of strings, of the other operators a string. *)
Inductive rule_value := OneValue (v : string) | ManyValues (vs : list string).
Record SegmentationRule := mkrule { rule_field : string; rule_op : string; rule_value_ : rule_value }.

(** [app/audiences/segmentation.py] lines 101-104, [SegmentationCriteria]. *)
Record SegmentationCriteria := mkcriteria {
  include : list SegmentationRule;
  exclude : list SegmentationRule;
}.

Definition at_index (section : string) (index : Z) : string :=
  section +:+ "[" +:+ str_of_Z index +:+ "]: ".

(** [app/audiences/segmentation.py] lines 58-67, [FieldUnavailableError]. *)
Definition field_unavailable (section : string) (index : Z) (field : string) : exn :=
  FieldUnavailableError (at_index section index +:+ "field '" +:+ field +:+ "' is not available")
    section index.

(** [sorted(...)] of strings. *)
Definition str_le (a b : string) : Prop := String.leb a b = true.
#[export] Instance str_le_dec : RelDecision str_le.
Proof. intros x y. unfold str_le. apply _. Defined.
Definition str_sort (l : list string) : list string := merge_sort str_le l.

(** [app/audiences/segmentation.py] lines 70-82, [OperatorUnsupportedError]. *)
Definition operator_unsupported (section : string) (index : Z) (field op : string) : exn :=
  OperatorUnsupportedError (at_index section index +:+ "operator '" +:+ op +:+
      "' not valid for field '" +:+ field +:+ "' (allowed: " +:+
      str_join ", " (str_sort (default [] (dget field SUPPORTED_FIELDS))) +:+ ")")
    section index.

(** The elements of a list of strings. *)
Fixpoint all_str (l : list json) : option (list string) :=
  match l with
  | [] => Some []
  | JStr s :: l => cons s <$> all_str l
  | _ :: _ => None
  end.

(** [app/audiences/segmentation.py] lines 132-162, [_validate_rule]. *)
Definition _validate_rule (raw : json) (section : string) (index : Z) : exn + SegmentationRule :=
  match raw with
  | JObj d =>
      let get k := default JNull (dget k d) in
      match get "field" with
      | JStr field =>
          match dget field SUPPORTED_FIELDS with
          | None => inl (field_unavailable section index field)
          | Some ops =>
              match get "op" with
              | JStr op =>
                  if negb (op ∈b ops) then inl (operator_unsupported section index field op)
                  else if op ==b "in" then
                    match as_list (dget "value" d) ≫= all_str with
                    | Some vs => inr (mkrule field op (ManyValues vs))
                    | None => inl (CriteriaValueError (at_index section index +:+
                        "'in' requires a non-empty list of strings") section index)
                    end
                  else
                    match get "value" with
                    | JStr v =>
                        if str_empty v then
                          inl (CriteriaValueError (at_index section index +:+ "'" +:+ op +:+
                            "' requires a non-empty string value") section index)
                        else inr (mkrule field op (OneValue v))
                    | _ => inl (CriteriaValueError (at_index section index +:+ "'" +:+ op +:+
                        "' requires a non-empty string value") section index)
                    end
              | op => inl (operator_unsupported section index field (json_str op))
              end
          end
      | field => inl (field_unavailable section index (json_str field))
      end
  | _ => inl (CriteriaValueError (at_index section index +:+ "rule must be an object") section index)
  end.

(** What iterating over a JSON value gives; a number, a boolean or null cannot be. *)
Fixpoint chars (s : string) : list json :=
  match s with EmptyString => [] | String c s => JStr (String c "") :: chars s end.
Definition json_iter (v : json) : exn + list json :=
  match v with
  | JList l => inr l
  | JObj d => inr ((λ kv : string * json, JStr kv.1) <$> d)
  | JStr s => inr (chars s)
  | _ => inl TypeError
  end.

Fixpoint validate_rules (section : string) (index : Z) (l : list json)
    : exn + list SegmentationRule :=
  match l with
  | [] => inr []
  | raw :: l =>
      match _validate_rule raw section index with
      | inl x => inl x
      | inr r => match validate_rules section (index + 1) l with
                 | inl x => inl x
                 | inr rs => inr (r :: rs)
                 end
      end
  end.

Definition validate_section (payload : jdict) (section : string) : exn + list SegmentationRule :=
  match json_iter (default (JList []) (dget section payload)) with
  | inl x => inl x
  | inr l => validate_rules section 0 l
  end.

(** [app/audiences/segmentation.py] lines 119-129, [validate_criteria]. *)
Definition validate_criteria (payload : jdict) : exn + SegmentationCriteria :=
  match validate_section payload "include" with
  | inl x => inl x
  | inr inc => match validate_section payload "exclude" with
               | inl x => inl x
               | inr exc => inr (mkcriteria inc exc)
               end
  end.

(** ** The query *)

(** NOT of a three-valued condition. *)
Definition sql_not (c : option bool) : option bool := negb <$> c.

(** [app/audiences/segmentation.py] lines 170-187, [_rule_to_condition]. An IN over no values is
    false also of NULL. *)
Definition _rule_to_condition (rule : SegmentationRule) (payload : jdict) : option bool :=
  let column := dget (rule_field rule) payload in
  match rule_value_ rule with
  | ManyValues vs =>
      if vs ==b [] then Some false else (λ x, x ∈b vs) <$> astext column
  | OneValue v =>
      if rule_op rule ==b "eq" then (λ x, x ==b v) <$> astext column
      else if rule_op rule ==b "contains" then (λ x, ilike x ("%" +:+ v +:+ "%")) <$> astext column
      else Some (match column with
                 | Some (JList l) => existsb (λ j, bool_decide (as_str (Some j) = Some v)) l
                 | _ => false
                 end)
  end.

Definition holds (c : option bool) : bool := default false c.

(** The WHERE of the query on one member. *)
Definition member_matches (criteria : SegmentationCriteria) (m : AudienceMember.t) : bool :=
  forallb (λ r, holds (_rule_to_condition r (AudienceMember.payload m))) (include criteria) &&
  forallb (λ r, holds (sql_not (_rule_to_condition r (AudienceMember.payload m)))) (exclude criteria).

(** The members of the audiences of a tenant. *)
Definition tenant_member (s : db) (tenant_id : N) (m : AudienceMember.t) : bool :=
  match t_audience s !! AudienceMember.audience_id m with
  | Some a => Audience.tenant_id a ==b tenant_id
  | None => false
  end.

Definition tenant_members (tenant_id : N) (p : AudienceMember.t → bool) : M (list AudienceMember.t) :=
  gets (λ s, List.filter (λ m, tenant_member s tenant_id m && p m)
               (snd <$> map_to_list (t_audience_member s))).

(** [app/audiences/segmentation.py] lines 190-207, [_base_query]. *)
Definition _base_query (criteria : SegmentationCriteria) (tenant_id : N) : M (list string) :=
  rows ← tenant_members tenant_id (member_matches criteria);
  mret (remove_dups (AudienceMember.external_id <$> rows)).

(** [app/audiences/segmentation.py] lines 107-111, [EstimateResult]. *)
Record EstimateResult := { total_reachable : Z; suppressed : Z; net : Z }.

(** [app/audiences/segmentation.py] lines 210-224, [estimate]. *)
Definition estimate (tenant_id : N) (criteria : jdict) : M EstimateResult :=
  parsed ← of_sum (validate_criteria criteria);
  rows ← _base_query parsed tenant_id;
  let total := Z.of_nat (length rows) in
  mret {| total_reachable := total; suppressed := 0; net := total |}.

(** [app/audiences/segmentation.py] lines 227-236, [build]. *)
Definition build (tenant_id : N) (criteria : jdict) : M (list string) :=
  parsed ← of_sum (validate_criteria criteria);
  _base_query parsed tenant_id.

(** ** The agent *)

(** [app/agents/audience_targeting.py] lines 29-49, [ensure_audience_targeting_agent]. *)
Definition ensure_audience_targeting_agent : N → M Agent.t :=
  ensure_agent AgentKind.audience_targeting "Audience Targeting".

(** The freshest payload of a contact: DISTINCT ON its id, latest first. *)
Definition freshest (external_id : string) (members : list AudienceMember.t) : option jdict :=
  AudienceMember.payload <$>
    head (order_by_desc AudienceMember.added_at
      (List.filter (λ m, AudienceMember.external_id m ==b external_id) members)).

(** [app/agents/audience_targeting.py] lines 52-121, [materialise]. *)
Definition materialise (campaign_id : N) (audience_name : string) (criteria : jdict) : M jdict :=
  of_sum (validate_criteria criteria) ;;
  campaign ← get_row (R:=Campaign.t) campaign_id;
  match campaign with
  | None => raise (ValueError ("campaign " +:+ uuid_str campaign_id +:+ " not found"))
  | Some campaign =>
      let tenant_id := Campaign.tenant_id campaign in
      external_ids ← build tenant_id criteria;
      members ← tenant_members tenant_id (λ m, AudienceMember.external_id m ∈b external_ids);
      t ← asks now;
      let size := Z.of_nat (length external_ids) in
      audience ← add_tracked (λ id, {|
        Audience.id := id;
        Audience.tenant_id := tenant_id;
        Audience.campaign_id := campaign_id;
        Audience.name := audience_name;
        Audience.segment_criteria := criteria;
        Audience.estimated_size := Some size;
        Audience.actual_size := Some size;
        Audience.refreshed_at := Some t;
        Audience.created_at := t;
        Audience.updated_at := t |});
      foreach external_ids (λ ext_id, put_row {|
        AudienceMember.audience_id := Audience.id audience;
        AudienceMember.external_id := ext_id;
        AudienceMember.payload := default [("email", JStr ext_id)] (freshest ext_id members);
        AudienceMember.source := Some "targeted";
        AudienceMember.fetched_at := Some t;
        AudienceMember.added_at := t |}) ;;
      mret [("audience_id", j_uuid (Audience.id audience)); ("campaign_id", j_uuid campaign_id);
            ("member_count", JInt size)]
  end.

(** [app/orchestrator/handlers/audience.py] lines 12-24, [audience_materialise_handler]. *)
Definition audience_materialise_handler (task : Task.t) : M (option jdict) :=
  let inputs := Task.input_data task in
  match dget "campaign_id" inputs with
  | None => raise KeyError
  | Some cid =>
      match as_str (Some cid) with
      | None => raise (AttributeError "replace")
      | Some cid =>
          match uuid_parse cid with
          | None => raise (ValueError "badly formed hexadecimal UUID string")
          | Some cid =>
              match dget "audience_name" inputs, dget "criteria" inputs with
              | Some name, Some criteria =>
                  match criteria with
                  | JObj criteria =>
                      match name with
                      | JStr name => out ← materialise cid name criteria; mret (Some out)
                      | _ => of_sum (validate_criteria criteria) ;; raise (OtherError "DataError")
                      end
                  | _ => raise (AttributeError "get")
                  end
              | _, _ => raise KeyError
              end
          end
      end
  end.

(** ** What a query returns *)

Definition contact_matches (s : db) (tenant_id : N) (c : SegmentationCriteria) (x : string) : Prop :=
  ∃ k m, t_audience_member s !! k = Some m ∧ tenant_member s tenant_id m = true ∧
    member_matches c m = true ∧ AudienceMember.external_id m = x.

Lemma elem_of_members (s : db) (m : AudienceMember.t) :
  m ∈ snd <$> map_to_list (t_audience_member s) ↔ ∃ k, t_audience_member s !! k = Some m.
Proof. exact (elem_of_rows (T:=AudienceMember.t) s m). Qed.

Lemma base_query_run c tenant_id e s :
  ∃ ids, _base_query c tenant_id e s = (s, inr ids) ∧ NoDup ids ∧
    ∀ x, x ∈ ids ↔ contact_matches s tenant_id c x.
Proof.
  eexists. split; [reflexivity|]. split; [apply NoDup_remove_dups|]. intros x.
  rewrite elem_of_remove_dups, list_elem_of_fmap. split.
  - intros (m & -> & [Hm Hb]%elem_of_bfilter). apply andb_true_iff in Hb as [Ht Hc].
    apply elem_of_members in Hm as [k Hk]. by exists k, m.
  - intros (k & m & Hk & Ht & Hc & <-). exists m. split; [done|]. apply elem_of_bfilter.
    rewrite Ht, Hc. split; [|done]. apply elem_of_members. by exists k.
Qed.

(** Adding rows with the keys [g x], for [x] in a list. *)
Lemma put_members_run (l : list string) (aid : N) (f : string → AudienceMember.t) e s :
  (∀ x, pk (f x) = (aid, x)) →
  ∃ m, foreach l (λ x, put_row (f x)) e s = (s <| t_audience_member := m |>, inr ()) ∧
    ∀ k, m !! k = if (k.1 ==b aid) && (k.2 ∈b l) then Some (f k.2) else t_audience_member s !! k.
Proof.
  intros Hpk. revert s. induction l as [|x l IH]; intros s.
  - exists (t_audience_member s). split; [by destruct s|]. intros k.
    rewrite (bool_decide_eq_false_2 (k.2 ∈ [])) by apply not_elem_of_nil. by rewrite andb_false_r.
  - simpl. destruct (IH (set_rows (<[pk (f x) := f x]> (rows s)) s)) as (m & Hm & Hk).
    exists m. unfold mbind, M_bind. simpl. split; [exact Hm|]. intros k. rewrite Hk.
    assert (pk (f x) = (aid, x)) as Ex by apply Hpk.
    simpl in Ex. simpl. rewrite Ex. destruct k as [a y]. simpl.
    destruct (decide (a = aid)) as [->|Ha].
    2:{ rewrite bool_decide_eq_false_2 by done. simpl. rewrite lookup_insert_ne; [done|congruence]. }
    rewrite (bool_decide_eq_true_2 (aid = aid)) by done. simpl.
    destruct (decide (y = x)) as [->|Hy].
    + rewrite (bool_decide_eq_true_2 (x ∈ x :: l)) by left. case_bool_decide; [done|].
      by rewrite lookup_insert_eq.
    + rewrite lookup_insert_ne by congruence.
      replace (bool_decide (y ∈ x :: l)) with (bool_decide (y ∈ l)); [done|].
      apply bool_decide_ext. rewrite elem_of_cons. split; [by right|]. by intros [->|?].
Qed.

Lemma add_audience_run (mk : N → Audience.t) e s :
  ∃ logs n, add_tracked mk e s =
    (s <| t_audience := <[next_uuid s := mk (next_uuid s)]> (t_audience s) |>
       <| t_audit_log := logs |> <| next_uuid := n |>, inr (mk (next_uuid s))).
Proof. by do 2 eexists. Qed.

(** The freshest of some rows is one of them. *)
Lemma freshest_spec x members :
  (∃ m, m ∈ members ∧ AudienceMember.external_id m = x) →
  ∃ m0, freshest x members = Some (AudienceMember.payload m0) ∧ m0 ∈ members ∧
    AudienceMember.external_id m0 = x ∧
    ∀ m1, m1 ∈ members → AudienceMember.external_id m1 = x →
      AudienceMember.added_at m1 <= AudienceMember.added_at m0.
Proof.
  intros (m & Hm & Hx). unfold freshest. set (l := List.filter _ members).
  assert (∀ y, y ∈ l ↔ y ∈ members ∧ AudienceMember.external_id y = x) as Hl.
  { intros y. unfold l. by rewrite elem_of_bfilter, bool_decide_eq_true. }
  destruct (order_by_desc _ l) as [|m0 l'] eqn:E.
  - apply order_by_desc_nil in E. exfalso. apply (not_elem_of_nil m). rewrite <- E. by apply Hl.
  - apply order_by_desc_head in E as [H0 Hbest]. apply Hl in H0 as [H0 Hx0]. exists m0.
    do 3 (split; [done|]). intros m1 H1 Hx1. apply Hbest. by apply Hl.
Qed.

(** C32: what materialising an audience leaves behind. It returns only for valid criteria of
    an existing campaign; the new audience, under a key no audience had, belongs to the
    campaign and its tenant and counts its members; its members are, once each, the
    contacts that some member row of the tenant matches, each with the payload of one of
    the tenant's rows for that contact of which none is fresher; and the members of every
    other audience are what they were. *)
Theorem materialise_spec campaign_id name criteria e s s' out :
  (∀ k m, t_audience_member s !! k = Some m → (k.1 < next_uuid s)%N) →
  materialise campaign_id name criteria e s = (s', inr out) →
  let aid := next_uuid s in
  ∃ c camp ids a,
    validate_criteria criteria = inr c ∧ t_campaign s !! campaign_id = Some camp ∧
    (NoDup ids ∧ ∀ x, x ∈ ids ↔ contact_matches s (Campaign.tenant_id camp) c x) ∧
    (t_audience s' !! aid = Some a ∧ Audience.campaign_id a = campaign_id ∧
     Audience.tenant_id a = Campaign.tenant_id camp ∧
     Audience.actual_size a = Some (Z.of_nat (length ids))) ∧
    (∀ x, match t_audience_member s' !! (aid, x) with
          | Some m => x ∈ ids ∧ AudienceMember.external_id m = x ∧
              ∃ k m0, t_audience_member s !! k = Some m0 ∧
                tenant_member s (Campaign.tenant_id camp) m0 = true ∧
                AudienceMember.external_id m0 = x ∧
                AudienceMember.payload m = AudienceMember.payload m0 ∧
                ∀ k1 m1, t_audience_member s !! k1 = Some m1 →
                  tenant_member s (Campaign.tenant_id camp) m1 = true →
                  AudienceMember.external_id m1 = x →
                  AudienceMember.added_at m1 <= AudienceMember.added_at m0
          | None => x ∉ ids
          end) ∧
    (∀ k, k.1 ≠ aid → t_audience_member s' !! k = t_audience_member s !! k).
Proof.
  intros Hfresh Hrun. cbv zeta. unfold materialise in Hrun. inv_run. rename H into Hc.
  destruct (t_campaign s !! campaign_id) as [camp|] eqn:Hcamp; [|done]. unfold build in Hrun. inv_run.
  rename x0 into c, x1 into ids, x3 into members, x7 into a.
  replace x11 with c in * by congruence. clear x11 H4.
  destruct (base_query_run c (Campaign.tenant_id camp) e s) as (ids' & Hq & Hnd & Hids).
  rewrite Hq in H. injection H as <- ->.
  unfold tenant_members in H0. injection H0 as <- Hmem.
  match type of H2 with add_tracked ?mk _ _ = _ =>
    destruct (add_audience_run mk e s) as (logs & n & Ha); rewrite Ha in H2; clear Ha end.
  injection H2 as <- Ha.
  match type of H3 with foreach _ (λ x, put_row (@?f x)) _ ?s1 = _ =>
    destruct (put_members_run ids (next_uuid s) f e s1) as (m & Hm & Hk); [by rewrite <- Ha|] end.
  rewrite Hm in H3. injection H3 as <- _. cbn [t_audience t_audience_member] in *.
  exists c, camp, ids, a. do 2 (split; [done|]). split; [done|]. split.
  { simpl. rewrite lookup_insert_eq. by rewrite <- Ha. }
  assert (∀ m1, m1 ∈ members ↔ ∃ k, t_audience_member s !! k = Some m1 ∧
    tenant_member s (Campaign.tenant_id camp) m1 = true ∧ AudienceMember.external_id m1 ∈ ids) as Hms.
  { intros m1. rewrite <- Hmem, elem_of_bfilter, elem_of_members, andb_true_iff, bool_decide_eq_true.
    split; [intros ([k Hk1] & ? & ?); by exists k|intros (k & ? & ? & ?); eauto]. }
  split.
  - intros x. rewrite Hk. simpl.
    rewrite (bool_decide_eq_true_2 (next_uuid s = next_uuid s)) by done. simpl.
    case_bool_decide as Hx.
    + split; [done|]. split; [done|]. simpl.
      destruct (freshest_spec x members) as (m0 & Hf & H0 & Hx0 & Hbest).
      { apply Hids in Hx as (k & m1 & ? & ? & ? & ?). exists m1. split; [|done]. apply Hms. exists k.
        split_and!; [done..|]. subst x. apply Hids. by exists k, m1. }
      apply Hms in H0 as (k & Hk0 & Ht0 & _). exists k, m0. rewrite Hf. do 4 (split; [done|]).
      intros k1 m1 Hk1 Ht1 Hx1. apply Hbest; [|done]. apply Hms. exists k1. by rewrite Hx1.
    + destruct (t_audience_member s !! (next_uuid s, x)) as [m1|] eqn:E; [|done].
      apply Hfresh in E. simpl in E. lia.
  - intros k Hne. rewrite Hk.
    by rewrite bool_decide_eq_false_2.
Qed.

(** ** An exclusion that does not exclude *)

Definition sample_audience (k : N) : Audience.t := {|
  Audience.id := k; Audience.tenant_id := 1; Audience.campaign_id := 10; Audience.name := "seed";
  Audience.segment_criteria := []; Audience.estimated_size := None; Audience.actual_size := None;
  Audience.refreshed_at := None; Audience.created_at := 0; Audience.updated_at := 0 |}.

Definition sample_member (aid : N) (x : string) (payload : jdict) : AudienceMember.t := {|
  AudienceMember.audience_id := aid; AudienceMember.external_id := x;
  AudienceMember.payload := payload; AudienceMember.source := None;
  AudienceMember.fetched_at := None; AudienceMember.added_at := 0 |}.

(** Two audiences: one knows that [ann] is blocked, an older upload does not; [bob] has no
    country. *)
Definition audience_db : db :=
  let members := [sample_member 40 "ann" [("tags", JList [JStr "blocked"])];
                  sample_member 41 "ann" [("tags", JList [])];
                  sample_member 41 "bob" [("tags", JList [JStr "vip"])];
                  sample_member 41 "eve" [("country", JStr "US"); ("tags", JList [JStr "vip"])]] in
  sample_db (sample_campaign CampaignStatus.drafted) []
    <| t_audience := {[40%N := sample_audience 40; 41%N := sample_audience 41]} |>
    <| t_audience_member := list_to_map ((λ m, (pk m, m)) <$> members) |>.

Definition excluding (field op value : string) : jdict :=
  [("include", JList []);
   ("exclude", JList [JObj [("field", JStr field); ("op", JStr op); ("value", JStr value)]])].

(** An exclusion is per row, and only of what is known. A contact that one of the
    tenant's audiences tags as blocked is still targeted, through the row of another
    audience that does not; and excluding a country drops the contacts whose country is
    not known too, because the negation of an unknown condition is unknown. *)
Theorem exclusion_leaks :
  (∃ ids, run_val (build 1 (excluding "tags" "has" "blocked") (demo_env 5) audience_db) = Some ids ∧
     "ann" ∈ ids) ∧
  (∃ ids, run_val (build 1 (excluding "country" "eq" "FR") (demo_env 5) audience_db) = Some ids ∧
     "bob" ∉ ids).
Proof.
  split; eexists; (split; [by vm_compute|]).
  - apply (bool_decide_eq_true_1 _). by vm_compute.
  - apply (bool_decide_eq_true_1 _). by vm_compute.
Qed.

Lemma materialise_spec_witness :
  ∃ s' out, materialise 10 "targeted" (excluding "country" "eq" "FR") (demo_env 5) audience_db = (s', inr out) ∧
    ∃ c camp (ids : list string) a, validate_criteria (excluding "country" "eq" "FR") = inr c ∧
      t_campaign audience_db !! 10%N = Some camp ∧ t_audience s' !! 100%N = Some a ∧
      Audience.actual_size a = Some (Z.of_nat (length ids)).
Proof.
  destruct (run_returns (materialise 10 "targeted" (excluding "country" "eq" "FR")) (demo_env 5) audience_db)
    as (s' & out & Hrun); [by vm_compute|].
  exists s', out. split; [exact Hrun|].
  assert (∀ k m, t_audience_member audience_db !! k = Some m → (k.1 < next_uuid audience_db)%N) as Hf.
  { assert (map_Forall (λ k (_ : AudienceMember.t), (k.1 < next_uuid audience_db)%N) (t_audience_member audience_db))
      as Hs by (apply (bool_decide_eq_true_1 _); by vm_compute). exact Hs. }
  destruct (materialise_spec _ _ _ _ _ _ _ Hf Hrun) as (c & camp & ids & a & Hc & Hcamp & _ & (Ha & _ & _ & Hsize) & _).
  exists c, camp, ids, a. split; [exact Hc|]. split; [exact Hcamp|]. split; [exact Ha|exact Hsize].
Defined.
