(* ===== verification/Audiences.v ===== *)
(** * The audience endpoints: src/app/api/audiences.py

    The upload takes the file as its size and its text, [None] where it is not UTF-8. *)

From S2P Require Export Requests CsvUpload Segmentation.
Local Open Scope Z_scope.

(** [app/api/audiences.py] lines 51-51, [_MAX_UPLOAD_BYTES]. *)
Definition MAX_UPLOAD_BYTES : Z := 10 * 1024 * 1024.
Definition MAX_INLINE_ERRORS : nat := 100.

(** [app/api/schemas/audience.py] lines 17-21, [CsvUploadSummary]. *)
Record CsvUploadSummary := {
  sum_total_rows : Z; imported : Z; skipped_duplicate : Z; sum_failed : Z }.
(** [app/api/schemas/audience.py] lines 24-31, [CsvUploadResponse]. *)
Record CsvUploadResponse := {
  up_audience_id : N; up_audience_name : string; up_summary : CsvUploadSummary;
  up_errors : list CsvRowError; errors_truncated : bool }.

Definition is_duplicate (e : CsvRowError) : bool := reason e ==b "duplicate_in_file".

(** The finished task the upload leaves for the ingest dashboard. *)
Definition ingest_task (tenant_id agent_id campaign_id : N) (inputs outputs : jdict) (t : Z) (id : N)
    : Task.t := {|
  Task.id := id;
  Task.tenant_id := tenant_id;
  Task.campaign_id := Some campaign_id;
  Task.agent_id := agent_id;
  Task.parent_task_id := None;
  Task.skill_name := "ingest.csv_upload";
  Task.status := TaskStatus.succeeded;
  Task.priority := 5;
  Task.attempt := 1;
  Task.max_attempts := 3;
  Task.idempotency_key := None;
  Task.leased_until := None;
  Task.worker_id := None;
  Task.input_data := inputs;
  Task.output_data := outputs;
  Task.error_message := None;
  Task.scheduled_for := t;
  Task.started_at := Some t;
  Task.completed_at := Some t;
  Task.created_at := t;
  Task.updated_at := t |}.

(** [name or f"CSV upload - {filename or 'unnamed'}"]. *)
Definition upload_name (name filename : option string) : string :=
  let named (o : option string) d :=
    match o with Some x => if str_empty x then d else x | None => d end in
  named name ("CSV upload - " +:+ named filename "unnamed").

(** The audience of an uploaded file, and a member of it. *)
Definition csv_audience (campaign_id : N) (audience_name : string) (filename : option string) (imported : Z)
    (user : AppUser.t) (started_at : Z) (id : N) : Audience.t := {|
  Audience.id := id;
  Audience.tenant_id := AppUser.tenant_id user;
  Audience.campaign_id := campaign_id;
  Audience.name := audience_name;
  Audience.segment_criteria :=
    [("source", JStr "csv"); ("filename", jopt JStr filename);
     ("uploaded_at", JStr (isoformat started_at));
     ("uploaded_by", j_uuid (AppUser.id user))];
  Audience.estimated_size := None;
  Audience.actual_size := Some imported;
  Audience.refreshed_at := Some started_at;
  Audience.created_at := started_at;
  Audience.updated_at := started_at |}.
Definition csv_member (audience_id : N) (started_at : Z) (row : ParsedRow) : AudienceMember.t := {|
  AudienceMember.audience_id := audience_id;
  AudienceMember.external_id := row_external_id row;
  AudienceMember.payload := row_payload row;
  AudienceMember.source := Some "csv";
  AudienceMember.fetched_at := Some started_at;
  AudienceMember.added_at := started_at |}.

(** [if result.total_rows == 0 and result.errors]: the reason of the first. *)
Definition format_error (result : CsvParseResult) : option string :=
  match errors result with
  | err :: _ => if total_rows result =? 0 then Some (reason err) else None
  | [] => None
  end.

(** [app/api/audiences.py] lines 55-182, [upload_audience_csv]. *)
Definition upload_audience_csv (campaign_id : N) (size : Z) (text filename name : option string)
    (user : AppUser.t) : M CsvUploadResponse :=
  started_at ← asks now;
  raise_if (MAX_UPLOAD_BYTES <? size) (HTTPException 413 "file exceeds 10 MB limit") ;;
  campaign ← get_row (R:=Campaign.t) campaign_id;
  match campaign with
  | None => raise (HTTPException 404 "campaign not found")
  | Some _ =>
      match text with
      | None => raise (HTTPException 400 "file is not valid UTF-8")
      | Some text =>
          match parse_csv text DEFAULT_MAX_ROWS with
          | None => raise (OtherError "csv.Error")
          | Some result =>
              match format_error result with
              | Some reason => raise (HTTPException 400 reason)
              | None => mret ()
              end ;;
              let audience_name := upload_name name filename in
              let imported := Z.of_nat (length (valid result)) in
              audience ← add_tracked (csv_audience campaign_id audience_name filename imported user started_at);
              foreach (valid result) (λ row, put_row (csv_member (Audience.id audience) started_at row)) ;;
              let failed := Z.of_nat (length (List.filter (λ e, negb (is_duplicate e)) (errors result))) in
              let skipped := Z.of_nat (length (List.filter is_duplicate (errors result))) in
              agent ← _ensure_orchestrator_agent (AppUser.tenant_id user);
              add_row (ingest_task (AppUser.tenant_id user) (Agent.id agent) campaign_id
                [("filename", jopt JStr filename); ("rows_attempted", JInt (total_rows result));
                 ("audience_id", j_uuid (Audience.id audience))]
                [("imported", JInt imported); ("skipped_duplicate", JInt skipped);
                 ("failed", JInt failed); ("audience_id", j_uuid (Audience.id audience))]
                started_at) ;;
              mret {|
                up_audience_id := Audience.id audience;
                up_audience_name := audience_name;
                up_summary := {| sum_total_rows := total_rows result; imported := imported;
                                 skipped_duplicate := skipped; sum_failed := failed |};
                up_errors := take MAX_INLINE_ERRORS (errors result);
                errors_truncated :=
                  bool_decide (MAX_INLINE_ERRORS < length (errors result))%nat |}
          end
      end
  end.

(** ** The upload page: src/app/api/ui/outbound.py *)

(** What the browser gets: the form again with an error, or the address of the drafts. *)
Inductive UploadAnswer :=
  | upload_again (campaigns : list Campaign.t) (error : string)
  | upload_done (campaign_id audience_id : N).

(** [app/api/ui/outbound.py] lines 51-72, [upload_form]. The campaigns to choose from. *)
Definition upload_form : M (list Campaign.t) :=
  campaigns ← select (λ _, true);
  mret (take 50 (order_by_desc Campaign.created_at campaigns)).

(** [app/api/ui/outbound.py] lines 75-186, [upload_submit]. *)
Definition upload_submit (campaign_id : N) (size : Z) (text filename audience_name : option string)
    (current_user : AppUser.t) : M UploadAnswer :=
  started ← asks now;
  raise_if (MAX_UPLOAD_BYTES <? size) (HTTPException 413 "file exceeds 10 MB limit") ;;
  campaign ← get_row (R:=Campaign.t) campaign_id;
  match campaign with
  | None => raise (HTTPException 404 "campaign not found")
  | Some campaign =>
      raise_if (Campaign.tenant_id campaign !=b AppUser.tenant_id current_user)
        (HTTPException 404 "campaign not found") ;;
      match text with
      | None => mret (upload_again [campaign] "File is not valid UTF-8 - re-save the CSV as UTF-8 and try again.")
      | Some text =>
          match parse_csv text DEFAULT_MAX_ROWS with
          | None => raise (OtherError "csv.Error")
          | Some result =>
              match format_error result with
              | Some e => mret (upload_again [campaign] ("CSV format error: " +:+ e))
              | None =>
                  let imported := Z.of_nat (length (valid result)) in
                  audience ← add_tracked (csv_audience campaign_id (upload_name audience_name filename) filename
                                            imported current_user started);
                  foreach (valid result) (λ row, put_row (csv_member (Audience.id audience) started row)) ;;
                  agent ← _ensure_orchestrator_agent (AppUser.tenant_id current_user);
                  add_row (ingest_task (AppUser.tenant_id current_user) (Agent.id agent) campaign_id
                    [("filename", jopt JStr filename); ("rows_attempted", JInt (total_rows result));
                     ("audience_id", j_uuid (Audience.id audience))]
                    [("imported", JInt imported); ("audience_id", j_uuid (Audience.id audience))] started) ;;
                  mret (upload_done campaign_id (Audience.id audience))
              end
          end
      end
  end.

(** [app/api/schemas/audience.py] lines 63-70, [SegmentationRuleIn]. *)
Record SegmentationRuleIn := { in_field : string; in_op : string; in_value : json }.
(** [app/api/schemas/audience.py] lines 73-79, [SegmentationCriteriaIn]. *)
Record SegmentationCriteriaIn := {
  in_include : list SegmentationRuleIn; in_exclude : list SegmentationRuleIn }.

(** [model_dump()]. *)
Definition dump_criteria (c : SegmentationCriteriaIn) : jdict :=
  let rule r := JObj [("field", JStr (in_field r)); ("op", JStr (in_op r)); ("value", in_value r)] in
  [("include", JList (rule <$> in_include c)); ("exclude", JList (rule <$> in_exclude c))].

(** The 422 of a [SegmentationError]. *)
Definition segmentation_422 (x : exn) : exn :=
  match x with
  | FieldUnavailableError m sec i | OperatorUnsupportedError m sec i | CriteriaValueError m sec i =>
      HTTPExceptionDetail 422 (JObj [("message", JStr m); ("section", JStr sec); ("index", JInt i)])
  | x => x
  end.

(** [app/api/audiences.py] lines 185-236, [create_audience]. *)
Definition create_audience (campaign_id : N) (name : string) (criteria : SegmentationCriteriaIn)
    (user : AppUser.t) : M Task.t :=
  match validate_criteria (dump_criteria criteria) with
  | inl x => raise (segmentation_422 x)
  | inr _ =>
      campaign ← get_row (R:=Campaign.t) campaign_id;
      match campaign with
      | None => raise (HTTPException 404 "campaign not found")
      | Some _ =>
          agent ← ensure_audience_targeting_agent (AppUser.tenant_id user);
          enqueue_task (AppUser.tenant_id user) (Agent.id agent) "audience_targeting.materialise"
            [("campaign_id", j_uuid campaign_id); ("audience_name", JStr name);
             ("criteria", JObj (dump_criteria criteria))]
            (Some campaign_id) None None None 3 5
      end
  end.

(** [app/api/audiences.py] lines 239-268, [estimate_audience]. *)
Definition estimate_audience (criteria : SegmentationCriteriaIn) (user : AppUser.t)
    : M EstimateResult :=
  try_except (estimate (AppUser.tenant_id user) (dump_criteria criteria))
    (λ x, match x with
          | FieldUnavailableError _ _ _ | OperatorUnsupportedError _ _ _ | CriteriaValueError _ _ _ =>
              Some (raise (segmentation_422 x))
          | _ => None
          end).

(** [app/api/schemas/audience.py] lines 49-54, [AudienceFreshness]. *)
Record AudienceFreshness := { member_count : Z; stale_member_count : Z; ttl_days : Z }.

(** [app/api/audiences.py] lines 271-324, [get_audience]. *)
Definition get_audience (ttl_days : Z) (audience_id : N) : M (Audience.t * AudienceFreshness) :=
  audience ← get_row (R:=Audience.t) audience_id;
  match audience with
  | None => raise (HTTPException 404 "audience not found")
  | Some audience =>
      t ← asks now;
      let cutoff := t - ttl_days * day in
      total ← select (λ m, AudienceMember.audience_id m ==b audience_id);
      stale ← select (λ m, (AudienceMember.audience_id m ==b audience_id) &&
        from_option (λ f, f <? cutoff) true (AudienceMember.fetched_at m));
      mret (audience, {| member_count := Z.of_nat (length total);
                         stale_member_count := Z.of_nat (length stale);
                         ttl_days := ttl_days |})
  end.

(** ** The two ways to upload a file *)

(** The page stores what the endpoint stores: the same audience, members and task, except that the
    task's output does not count the rows that were refused. *)
Lemma upload_paths_agree cid size text filename name user e s s1 r c :
  t_campaign s !! cid = Some c → Campaign.tenant_id c = AppUser.tenant_id user →
  upload_audience_csv cid size text filename name user e s = (s1, inr r) →
  ∃ k t, t_task s1 !! k = Some t ∧
    upload_submit cid size text filename name user e s =
      (s1 <| t_task := <[k := t <| Task.output_data :=
               [("imported", JInt (imported (up_summary r))); ("audience_id", j_uuid (up_audience_id r))] |>]>
             (t_task s1) |>, inr (upload_done cid (up_audience_id r))).
Proof.
  intros Hc Htid. unfold upload_audience_csv, upload_submit. rewrite !bind_asks.
  destruct (_ <? size); [done|]. rewrite !bind_pass, !bind_get_row. change (rows s) with (t_campaign s). rewrite Hc.
  rewrite bool_decide_true by done. cbn [negb]. rewrite bind_pass.
  destruct text as [text|]; [|done]. destruct (parse_csv text _) as [result|]; [|done].
  destruct (format_error result); [done|]. rewrite bind_ret. cbv zeta.
  intros Hrun. apply bind_inr in Hrun as (s2 & a & Ha & Hrun). rewrite (bind_ok _ _ _ _ _ _ Ha).
  apply bind_inr in Hrun as (s3 & [] & Hm & Hrun). rewrite (bind_ok _ _ _ _ _ _ Hm).
  apply bind_inr in Hrun as (s4 & g & Hg & Hrun). rewrite (bind_ok _ _ _ _ _ _ Hg).
  apply bind_inr in Hrun as (s5 & t & Ht & Hrun). apply ret_inr in Hrun as [-> ->].
  injection Ht as <- <-. cbn. exists (next_uuid s4). eexists.
  split; [by rewrite lookup_insert_eq|]. cbn. unfold mbind, M_bind, add_row. cbn.
  rewrite insert_insert_eq. done.
Qed.
