(* ===== verification/Seeding.v ===== *)
(** * Content seeding: the planner tables, the A/B specs and the seed phase

    [src/app/agents/_content_planner.py] (the platform tables),
    [src/app/agents/_variants.py] and [seed_assets_for_campaign] of
    [src/app/agents/content_creator.py]: one asset row per touchpoint and
    variant, the A/B test rows, one generation task per asset. *)

From S2P Require Export Agents.
Local Open Scope Z_scope.

(** ** The planner's tables *)

(** [app/agents/_content_planner.py] lines 18-29, [_PLATFORM_TO_ASSET_TYPE]. *)
Definition PLATFORM_TO_ASSET_TYPE : list (string * AssetType.t) := [
  (value ChannelPlatform.email, AssetType.email);
  (value ChannelPlatform.linkedin, AssetType.social_post);
  (value ChannelPlatform.x, AssetType.social_post);
  (value ChannelPlatform.meta, AssetType.social_post);
  (value ChannelPlatform.instagram, AssetType.social_post);
  (value ChannelPlatform.google_ads, AssetType.ad_creative);
  (value ChannelPlatform.meta_ads, AssetType.ad_creative);
  (value ChannelPlatform.web, AssetType.landing_page_copy);
  (value ChannelPlatform.blog, AssetType.blog_post);
  (value ChannelPlatform.sms, AssetType.sms)].

(** [app/agents/_content_planner.py] lines 34-45, [_ASSET_TYPE_TO_TOOL_CHANNEL]. *)
Definition ASSET_TYPE_TO_TOOL_CHANNEL : list (AssetType.t * option string * string) := [
  (AssetType.email, None, "email");
  (AssetType.social_post, Some (value ChannelPlatform.linkedin), "linkedin");
  (AssetType.social_post, Some (value ChannelPlatform.x), "x");
  (AssetType.social_post, Some (value ChannelPlatform.meta), "social_post");
  (AssetType.social_post, Some (value ChannelPlatform.instagram), "social_post");
  (AssetType.ad_creative, Some (value ChannelPlatform.google_ads), "ad_creative");
  (AssetType.ad_creative, Some (value ChannelPlatform.meta_ads), "ad_creative");
  (AssetType.blog_post, None, "blog_post");
  (AssetType.landing_page_copy, None, "landing_page_copy");
  (AssetType.sms, None, "sms")].

(** [app/agents/_content_planner.py] lines 48-50, [_SEO_ASSET_TYPES]. *)
Definition SEO_ASSET_TYPES : list AssetType.t := [AssetType.blog_post; AssetType.landing_page_copy].

(** [app/agents/_content_planner.py] lines 58-69, [AssetPlan]. *)
Record AssetPlan := {
  plan_asset_type : AssetType.t;
  tool_channel : string;
  requires_seo : bool;
}.

Definition tool_channel_for (k : AssetType.t * option string) : option string :=
  snd <$> List.find (λ e, e.1 ==b k) ASSET_TYPE_TO_TOOL_CHANNEL.

(** [app/agents/_content_planner.py] lines 72-89, [plan_for_platform]. [inl] is the
    [PlannerError]. *)
Definition plan_for_platform (platform : string) : exn + AssetPlan :=
  let normalised := str_lower (str_strip platform) in
  match dget normalised PLATFORM_TO_ASSET_TYPE with
  | None => inl (PlannerError
      ("no asset_type mapping for channel platform '" +:+ platform +:+ "'"))
  | Some asset_type => inr {|
      plan_asset_type := asset_type;
      tool_channel :=
        default (default normalised (tool_channel_for (asset_type, None)))
          (tool_channel_for (asset_type, Some normalised));
      requires_seo := asset_type ∈b SEO_ASSET_TYPES |}
  end.

(** ** A/B specifications *)

(** [app/agents/_variants.py] lines 27-33, [VARIANT_ANGLES]. *)
Definition VARIANT_ANGLES : list string := [
  "lead with social proof — cite customer outcomes or peer adoption";
  "lead with risk reduction — emphasise safety, support, guarantees you can defend";
  "lead with novelty — frame it as something the reader hasn't seen before";
  "lead with urgency — give a concrete reason to act this week, not next quarter";
  "lead with savings — quantify the time or money the reader gets back"].

(** [app/agents/_variants.py] lines 35-35, [MAX_VARIANTS]. *)
Definition MAX_VARIANTS : Z := 5.
(** [app/agents/_variants.py] lines 36-36, [MIN_VARIANTS]. *)
Definition MIN_VARIANTS : Z := 2.

(** [app/agents/_variants.py] lines 41-46, [AbTestSpec]. *)
Record AbTestSpec := { spec_channel : string; spec_variants : Z }.

(** [app/agents/_variants.py] lines 49-57, [angle_for_index]. *)
Definition angle_for_index (index : Z) : string :=
  if index <=? 0 then ""
  else match VARIANT_ANGLES !! Z.to_nat (index - 1) with
       | Some a => a
       | None => default "" (last VARIANT_ANGLES)
       end.

(** [app/agents/_variants.py] lines 60-81, [parse_ab_test_specs]. *)
Definition parse_ab_test_specs (payload : jdict) : list AbTestSpec :=
  match as_list (dget "ab_tests" payload) with
  | None => []
  | Some raw =>
      omap (λ entry,
        match entry with
        | JObj entry =>
            let channel :=
              str_lower (str_strip (json_str (default (JStr "") (dget "channel" entry)))) in
            if str_empty channel then None
            else
              let variants :=
                default MIN_VARIANTS
                  (py_int (default (JInt MIN_VARIANTS) (dget "variants" entry))) in
              Some {| spec_channel := channel;
                      spec_variants := Z.max MIN_VARIANTS (Z.min MAX_VARIANTS variants) |}
        | _ => None
        end) raw
  end.

(** ** Seeding *)

(** [app/agents/content_creator.py] lines 614-624, [_primary_metric_for_campaign]. *)
Definition _primary_metric_for_campaign (campaign : Campaign.t) : string :=
  match as_obj (dget "primary" (Campaign.kpi_targets campaign)) with
  | Some raw =>
      match as_str (dget "metric" raw) with
      | Some metric => if str_empty (str_strip metric) then "conversion_rate" else str_strip metric
      | None => "conversion_rate"
      end
  | None => "conversion_rate"
  end.

(** The metadata of a seeded asset. *)
Definition seed_metadata (tp : StrategyTouchpoint.t) (spec : option AbTestSpec) (idx : Z) : jdict :=
  [("touchpoint_id", j_uuid (StrategyTouchpoint.id tp));
   ("channel_platform", JStr (StrategyTouchpoint.channel_platform tp))]
  ++ match spec with
     | Some _ => [("variant_index", JInt idx);
                  ("variant_angle", JStr (angle_for_index idx));
                  ("is_baseline", JBool (idx =? 0))]
     | None => []
     end.

Definition new_asset (campaign : Campaign.t) (channel_id : option N) (asset_type : AssetType.t)
    (scheduled_at : Z) (metadata : jdict) (t : Z) (id : N) : ContentAsset.t := {|
  ContentAsset.id := id;
  ContentAsset.tenant_id := Campaign.tenant_id campaign;
  ContentAsset.campaign_id := Campaign.id campaign;
  ContentAsset.channel_id := channel_id;
  ContentAsset.asset_type := asset_type;
  ContentAsset.status := AssetStatus.requested;
  ContentAsset.title := None;
  ContentAsset.content := None;
  ContentAsset.extra_metadata := metadata;
  ContentAsset.is_required := true;
  ContentAsset.scheduled_at := Some scheduled_at;
  ContentAsset.published_at := None;
  ContentAsset.created_at := t;
  ContentAsset.updated_at := t |}.

(** The body of the touchpoint loop: the variants of one touchpoint, and the A/B
    test they will form. *)
Definition seed_touchpoint (campaign : Campaign.t) (channels : list Channel.t)
    (specs : list AbTestSpec) (tp : StrategyTouchpoint.t)
    : M (list ContentAsset.t * option (AbTestSpec * list ContentAsset.t)) :=
  let platform := StrategyTouchpoint.channel_platform tp in
  match plan_for_platform platform with
  | inl _ => mret ([], None)
  | inr plan =>
      (* the dictionaries keep the last entry of a key *)
      let channel := last (List.filter (λ c, value (Channel.platform c) ==b platform) channels) in
      let spec := last (List.filter (λ s, spec_channel s ==b platform) specs) in
      let variant_count := from_option spec_variants 1 spec in
      t ← asks now;
      variant_rows ← mapM_ (λ idx,
        add_row (new_asset campaign (Channel.id <$> channel) (plan_asset_type plan)
          (StrategyTouchpoint.scheduled_at tp) (seed_metadata tp spec idx) t))
        (seqZ 0 variant_count);
      mret (variant_rows,
            match spec, variant_rows with
            | Some s, _ :: _ => Some (s, variant_rows)
            | _, _ => None
            end)
  end.

(** One pending A/B test: its row, and the back-links of its variants. *)
Definition seed_ab_test (campaign : Campaign.t) (spec : AbTestSpec)
    (variant_rows : list ContentAsset.t) : M () :=
  t ← asks now;
  ab_test ← add_row (λ id, {|
    AbTest.id := id;
    AbTest.tenant_id := Campaign.tenant_id campaign;
    AbTest.campaign_id := Campaign.id campaign;
    AbTest.name := "A/B test: " +:+ spec_channel spec +:+ " touchpoint";
    AbTest.hypothesis := Some "Variant differentiation per E06-S05";
    AbTest.primary_metric := _primary_metric_for_campaign campaign;
    AbTest.status := AbTestStatus.designing;
    AbTest.variant_a_id := ContentAsset.id <$> head variant_rows;
    AbTest.variant_b_id := ContentAsset.id <$> variant_rows !! 1%nat;
    AbTest.winner_id := None;
    AbTest.confidence := None;
    AbTest.lift := None;
    AbTest.last_evaluated_at := None;
    AbTest.traffic_split := [];
    AbTest.min_runtime_hours := None;
    AbTest.max_runtime_hours := None;
    AbTest.started_at := None;
    AbTest.stopped_at := None;
    AbTest.created_at := t;
    AbTest.updated_at := t |});
  foreach variant_rows (λ asset,
    assign asset (λ a, a <| ContentAsset.extra_metadata :=
      dset "ab_test_group_id" (j_uuid (AbTest.id ab_test)) (ContentAsset.extra_metadata a) |>) ;;
    mret ()).

(** ORDER BY scheduled_at ASC, position ASC. *)
Definition touchpoint_order (x y : StrategyTouchpoint.t) : Prop :=
  StrategyTouchpoint.scheduled_at x < StrategyTouchpoint.scheduled_at y ∨
  (StrategyTouchpoint.scheduled_at x = StrategyTouchpoint.scheduled_at y ∧
   StrategyTouchpoint.position x ≤ StrategyTouchpoint.position y).
#[export] Instance touchpoint_order_dec : RelDecision touchpoint_order.
Proof. intros x y. unfold touchpoint_order. apply _. Defined.

(** [app/agents/content_creator.py] lines 105-241, [seed_assets_for_campaign]. Returns
    the ids of the rows created, in order. *)
Definition seed_assets_for_campaign (campaign : Campaign.t) : M (list N) :=
  proposals ← select (λ p, (StrategyProposal.campaign_id p ==b Campaign.id campaign) &&
                           StrategyProposal.is_accepted p);
  accepted ← scalar_one_or_none proposals;
  match accepted with
  | None => raise (ContentCreatorError "no accepted strategy proposal for this campaign")
  | Some accepted =>
      tps ← select (λ tp, StrategyTouchpoint.proposal_id tp ==b StrategyProposal.id accepted);
      let touchpoints := merge_sort touchpoint_order tps in
      raise_if (touchpoints ==b [])
        (ContentCreatorError "accepted proposal has no calendar touchpoints") ;;
      agent ← ensure_content_creator_agent (Campaign.tenant_id campaign);
      channels ← select (λ c, Channel.tenant_id c ==b Campaign.tenant_id campaign);
      let specs := parse_ab_test_specs (StrategyProposal.payload accepted) in
      seeded ← mapM_ (seed_touchpoint campaign channels specs) touchpoints;
      let rows := mjoin (fst <$> seeded) in
      let pending := omap snd seeded in
      raise_if (rows ==b [])
        (ContentCreatorError
           "no asset rows could be created — every touchpoint platform is unmapped") ;;
      foreach pending (λ p, seed_ab_test campaign p.1 p.2) ;;
      foreach rows (λ asset,
        enqueue_asset_task (Campaign.tenant_id campaign) (Agent.id agent) (Campaign.id campaign)
          "content_creator.generate_asset"
          [("asset_id", j_uuid (ContentAsset.id asset));
           ("campaign_id", j_uuid (Campaign.id campaign))] None ;;
        mret ()) ;;
      mret (ContentAsset.id <$> rows)
  end.
