(* ===== verification/Scheduling.v ===== *)
(** * Scheduling: slots, pause and resume

    The part of [src/app/agents/distribution.py] the campaign state machine calls:
    giving approved assets their slot and dispatch task, pausing a campaign, and
    resuming its scheduled assets. *)

From S2P Require Export Agents.
Local Open Scope Z_scope.

(** ** Touchpoints of an asset *)

(** [app/agents/distribution.py] lines 962-969, [_touchpoint_id_for]. *)
Definition _touchpoint_id_for (asset : ContentAsset.t) : option N :=
  match as_str (dget "touchpoint_id" (ContentAsset.extra_metadata asset)) with
  | Some raw => uuid_parse raw
  | None => None
  end.

(** [app/agents/distribution.py] lines 972-978, [_collect_touchpoint_ids]. *)
Definition _collect_touchpoint_ids (assets : list ContentAsset.t) : list N :=
  omap _touchpoint_id_for assets.

(** [app/agents/distribution.py] lines 231-241, [_dispatch_skill_for]. *)
Definition _dispatch_skill_for (asset : ContentAsset.t) : option string :=
  match ContentAsset.asset_type asset with
  | AssetType.email => Some "distribution.dispatch_email"
  | AssetType.social_post => Some "distribution.dispatch_social"
  | _ => None
  end.

Definition asset_task_input (asset : ContentAsset.t) (campaign : Campaign.t) : jdict :=
  [("asset_id", j_uuid (ContentAsset.id asset)); ("campaign_id", j_uuid (Campaign.id campaign))].

(** ** Scheduling *)

Definition with_metadata (k : string) (v : json) (a : ContentAsset.t) : ContentAsset.t :=
  a <| ContentAsset.extra_metadata := dset k v (ContentAsset.extra_metadata a) |>.

(** The slot and the warning an approved asset gets, and its new status. *)
Definition slot_for (now : Z) (touchpoint : option StrategyTouchpoint.t) (a : ContentAsset.t)
    : ContentAsset.t :=
  (match touchpoint with
   | Some tp =>
       let at_ := StrategyTouchpoint.scheduled_at tp in
       if now <=? at_ then a <| ContentAsset.scheduled_at := Some at_ |>
       else with_metadata "schedule_warning"
              (JObj [("kind", JStr "past_slot"); ("original_slot", JStr (isoformat at_));
                     ("resolved_at", JStr (isoformat now))])
              (a <| ContentAsset.scheduled_at := Some now |>)
   | None =>
       with_metadata "schedule_warning"
         (JObj [("kind", JStr "no_touchpoint"); ("resolved_at", JStr (isoformat now))])
         (a <| ContentAsset.scheduled_at := Some (default now (ContentAsset.scheduled_at a)) |>)
   end) <| ContentAsset.status := AssetStatus.scheduled |>.

(** The body of the scheduling loop. *)
Definition schedule_asset (campaign : Campaign.t) (agent : Agent.t)
    (touchpoints_by_id : list StrategyTouchpoint.t) (asset : ContentAsset.t) : M ContentAsset.t :=
  t ← asks now;
  let before := column_snapshot asset in
  let tp_id := _touchpoint_id_for asset in
  let touchpoint :=
    tp_id ≫= λ i, List.find (λ tp, StrategyTouchpoint.id tp ==b i) touchpoints_by_id in
  let prior_slot := ContentAsset.scheduled_at asset in
  asset ← assign asset (slot_for t touchpoint);
  audit (ContentAsset.tenant_id asset) "content_asset" (ContentAsset.id asset) "scheduled"
    (Some before) (Some (column_snapshot asset))
    [("prior_slot", jopt (λ x, JStr (isoformat x)) prior_slot);
     ("new_slot", jopt (λ x, JStr (isoformat x)) (ContentAsset.scheduled_at asset));
     ("touchpoint_id", jopt j_uuid tp_id)] ;;
  match _dispatch_skill_for asset with
  | None =>
      assign asset (with_metadata "schedule_warning"
        (JObj [("kind", JStr "no_dispatch_handler");
               ("asset_type", j_enum (ContentAsset.asset_type asset))]))
  | Some skill =>
      enqueue_asset_task (ContentAsset.tenant_id asset) (Agent.id agent) (Campaign.id campaign)
        skill (asset_task_input asset campaign) (ContentAsset.scheduled_at asset) ;;
      mret asset
  end.

(** [app/agents/distribution.py] lines 113-228, [schedule_approved_assets]. *)
Definition schedule_approved_assets (campaign : Campaign.t) : M (list ContentAsset.t) :=
  assets ← select (λ a, (ContentAsset.campaign_id a ==b Campaign.id campaign) &&
                        (ContentAsset.status a ==b AssetStatus.approved));
  match assets with
  | [] => mret []
  | _ =>
      let touchpoint_ids := _collect_touchpoint_ids assets in
      touchpoints_by_id ← match touchpoint_ids with
                          | [] => mret []
                          | _ => select (λ tp, StrategyTouchpoint.id tp ∈b touchpoint_ids)
                          end;
      agent ← ensure_distribution_agent (Campaign.tenant_id campaign);
      mapM_ (schedule_asset campaign agent touchpoints_by_id) assets
  end.

(** ** Pause and resume *)

(** [app/agents/distribution.py] lines 754-787, [pause_campaign]. *)
Definition pause_campaign (campaign : Campaign.t) (reason : string) (metadata : jdict)
    : M Campaign.t :=
  if Campaign.status campaign ==b CampaignStatus.paused then mret campaign
  else
    let before := column_snapshot campaign in
    campaign ← assign campaign (λ c, c <| Campaign.status := CampaignStatus.paused |>);
    cancel_queued_for_campaign (Campaign.id campaign) ;;
    audit (Campaign.tenant_id campaign) "campaign" (Campaign.id campaign) "paused"
      (Some before) (Some (column_snapshot campaign))
      (dmerge [("reason", JStr reason)] metadata) ;;
    mret campaign.

(** The assignments to an asset whose slot passed while its campaign was paused. *)
Definition elapsed_values (now : Z) (a : ContentAsset.t) : ContentAsset.t :=
  with_metadata "elapsed_at" (JStr (isoformat now))
    (with_metadata "skip_reason" (JStr "slot_elapsed_during_pause")
      (a <| ContentAsset.status := AssetStatus.failed |>)).

(** The body of the resume loop; counts [(requeued, elapsed)]. *)
Definition resume_asset (campaign : Campaign.t) (agent : Agent.t) (counts : Z * Z)
    (asset : ContentAsset.t) : M (Z * Z) :=
  t ← asks now;
  if from_option (λ at_, at_ <? t) false (ContentAsset.scheduled_at asset) then
    let before := column_snapshot asset in
    asset ← assign asset (elapsed_values t);
    audit (ContentAsset.tenant_id asset) "content_asset" (ContentAsset.id asset)
      "skipped_elapsed" (Some before) (Some (column_snapshot asset))
      [("reason", JStr "slot_elapsed_during_pause")] ;;
    mret (counts.1, counts.2 + 1)
  else
    match _dispatch_skill_for asset with
    | None => mret counts
    | Some skill =>
        enqueue_asset_task (ContentAsset.tenant_id asset) (Agent.id agent)
          (Campaign.id campaign) skill (asset_task_input asset campaign)
          (Some (default t (ContentAsset.scheduled_at asset))) ;;
        mret (counts.1 + 1, counts.2)
    end.

(** [app/agents/distribution.py] lines 790-861, [resume_distribution_for_campaign].
    Returns [(requeued, elapsed_failed)]. *)
Definition resume_distribution_for_campaign (campaign : Campaign.t) : M (Z * Z) :=
  rows ← select (λ a, (ContentAsset.campaign_id a ==b Campaign.id campaign) &&
                      (ContentAsset.status a ==b AssetStatus.scheduled));
  match rows with
  | [] => mret (0, 0)
  | _ =>
      agent ← ensure_distribution_agent (Campaign.tenant_id campaign);
      foldM (resume_asset campaign agent) (0, 0) rows
  end.
