(* ===== verification/CustomKpi.v ===== *)
(** * Custom KPIs: src/app/analytics/custom_kpis.py

    A KPI formula counts a campaign's events of one kind that pass AND-joined
    payload filters. A filter becomes a condition of the query; a malformed one is
    dropped, and one the database cannot type ([inl]) fails the query. *)

From S2P Require Export Jsonb.
Local Open Scope Z_scope.

(** [app/analytics/custom_kpis.py] lines 46-46, [_SUPPORTED_OPS]. *)
Definition SUPPORTED_OPS : list string := ["eq"; "neq"; "in"; "not_in"; "contains"].

(** [app/analytics/custom_kpis.py] lines 49-53, [EvaluationResult]. *)
Record EvaluationResult := {
  kpi_value : option Z;
  missing_event : bool;
  message : option string;
}.

(** ** Events of a campaign *)

(** The event is linked to the campaign through the message id of one of its
    assets' dispatch attempts. *)
Definition indirect_link (s : db) (tenant_id campaign_id : N) (ev : AnalyticEvent.t) : bool :=
  match astext (dget "sg_message_id" (AnalyticEvent.payload ev)) with
  | None => false
  | Some mid =>
      existsb (λ d, (DispatchAttempt.tenant_id d ==b tenant_id) &&
        (DispatchAttempt.provider_message_id d ==b Some mid) &&
        match t_content_asset s !! DispatchAttempt.content_asset_id d with
        | Some a => ContentAsset.campaign_id a ==b campaign_id
        | None => false
        end) (snd <$> map_to_list (t_dispatch_attempt s))
  end.

Definition campaign_event (s : db) (tenant_id campaign_id : N) (ev : AnalyticEvent.t) : bool :=
  (AnalyticEvent.tenant_id ev ==b tenant_id) &&
  ((AnalyticEvent.campaign_id ev ==b Some campaign_id) || indirect_link s tenant_id campaign_id ev).

(** Its rows that satisfy [p]. *)
Definition campaign_events (tenant_id campaign_id : N) (p : AnalyticEvent.t → bool)
    : M (list AnalyticEvent.t) :=
  gets (λ s, List.filter (λ ev, campaign_event s tenant_id campaign_id ev && p ev)
               (snd <$> map_to_list (t_analytic_event s))).

(** [app/analytics/custom_kpis.py] lines 136-167, [_has_any_event_of_kind]. *)
Definition _has_any_event_of_kind (tenant_id campaign_id : N) (kind : EventKind.t) : M bool :=
  rows ← campaign_events tenant_id campaign_id (λ ev, AnalyticEvent.event_type ev ==b kind);
  mret (negb (rows ==b [])).

(** ** Filters *)

Inductive kpi_column :=
  | PayloadPath (parents : list string) (leaf : string)
  | ChannelId
  | EventType.

(** [app/analytics/custom_kpis.py] lines 204-228, [_column_for_path]. *)
Definition _column_for_path (path : string) : option kpi_column :=
  match List.filter (λ p, negb (str_empty p)) (str_split "." "" path) with
  | [] => None
  | "payload" :: rest =>
      match rev rest with
      | [] => None
      | leaf :: parents => Some (PayloadPath (rev parents) leaf)
      end
  | "channel_id" :: _ => Some ChannelId
  | "event_type" :: _ => Some EventType
  | _ => None
  end.

(** [app/analytics/custom_kpis.py] lines 231-232, [_str_value]. *)
Definition _str_value (v : option json) : string :=
  match v with None | Some JNull => "" | Some v => json_str v end.

(** The column of an event as text; NULL is [None]. *)
Definition column_text (c : kpi_column) (ev : AnalyticEvent.t) : option string :=
  match c with
  | PayloadPath parents leaf =>
      astext (jget leaf (fold_left (λ v k, jget k v) parents (Some (JObj (AnalyticEvent.payload ev)))))
  | ChannelId => uuid_str <$> AnalyticEvent.channel_id ev
  | EventType => Some (value (AnalyticEvent.event_type ev))
  end.

(** A bound text parameter compared with the column: a UUID is read as one, an
    event type must be a member of the enum. *)
Definition column_param (c : kpi_column) (v : string) : exn + string :=
  match c with
  | PayloadPath _ _ => inr v
  | ChannelId => match uuid_parse v with
                 | Some u => inr (uuid_str u)
                 | None => inl (OtherError "DataError")
                 end
  | EventType => match of_value EventKind.t v with
                 | Some _ => inr v
                 | None => inl (OtherError "DataError")
                 end
  end.

Fixpoint column_params (c : kpi_column) (vs : list json) : exn + list string :=
  match vs with
  | [] => inr []
  | v :: vs => match column_param c (_str_value (Some v)), column_params c vs with
               | inr x, inr xs => inr (x :: xs)
               | inl e, _ | _, inl e => inl e
               end
  end.

Definition clause : Type := exn + (AnalyticEvent.t → bool).

(** [app/analytics/custom_kpis.py] lines 170-201, [_filter_clause]. NULL compares as
    unknown, which a WHERE drops; [NOT IN] of an empty list is true. *)
Definition _filter_clause (filter_obj : json) : option clause :=
  match filter_obj with
  | JObj f =>
      let path := default JNull (dget "path" f) in
      let op := match dget "op" f with Some v => if truthy v then v else JStr "eq"
                | None => JStr "eq" end in
      let v := dget "value" f in
      if negb (truthy path) then None
      else match op with
      | JList _ | JObj _ => Some (inl TypeError)
      | JStr op =>
          if negb (op ∈b SUPPORTED_OPS) then None
          else match path with
          | JStr path =>
              match _column_for_path path with
              | None => None
              | Some c =>
                  let cmp test := match column_param c (_str_value v) with
                                  | inl e => inl e
                                  | inr p => inr (λ ev, from_option (test p) false (column_text c ev))
                                  end in
                  if op ==b "eq" then Some (cmp (λ p x, x ==b p))
                  else if op ==b "neq" then Some (cmp (λ p x, x !=b p))
                  else if op ==b "contains" then
                    match c with
                    | PayloadPath _ _ =>
                        let p := "%" +:+ _str_value v +:+ "%" in
                        Some (inr (λ ev, from_option (λ x, ilike x p) false (column_text c ev)))
                    | _ => Some (inl (OtherError "ProgrammingError"))
                    end
                  else match v with
                  | Some (JList vs) =>
                      match column_params c vs with
                      | inl e => Some (inl e)
                      | inr ps =>
                          if op ==b "in" then
                            Some (inr (λ ev, from_option (λ x, x ∈b ps) false (column_text c ev)))
                          else if ps ==b [] then Some (inr (λ _, true))
                          else Some (inr (λ ev, from_option (λ x, negb (x ∈b ps)) false (column_text c ev)))
                      end
                  | _ => None
                  end
              end
          | _ => Some (inl (OtherError "AttributeError"))
          end
      | _ => None
      end
  | _ => None
  end.

(** [formula.get("filters") or []], iterated: only a list has objects in it. *)
Definition formula_filters (formula : jdict) : exn + list json :=
  match dget "filters" formula with
  | None => inr []
  | Some v => if truthy v then
                match v with
                | JList l => inr l
                | JStr _ | JObj _ => inr []
                | _ => inl TypeError
                end
              else inr []
  end.

(** Conjoin the conditions of the filters that have one. *)
Fixpoint conjoin (cs : list clause) : clause :=
  match cs with
  | [] => inr (λ _, true)
  | inl e :: _ => inl e
  | inr p :: cs => match conjoin cs with
                   | inl e => inl e
                   | inr q => inr (λ ev, p ev && q ev)
                   end
  end.

(** [isinstance(w, (int, float)) and w > 0], and [int(w)]. *)
Definition positive_days (v : option json) : option Z :=
  match v with
  | Some (JBool true) => Some 1
  | Some (JInt z) => if 0 <? z then Some z else None
  | Some (JFloat d) => if 0 <? dm d then py_int (JFloat d) else None
  | _ => None
  end.

(** [app/analytics/custom_kpis.py] lines 56-133, [evaluate_custom_kpi]. *)
Definition evaluate_custom_kpi (kpi : CustomKpi.t) (campaign_id : N) (now : Z)
    : M EvaluationResult :=
  let formula := CustomKpi.formula kpi in
  let raw := default JNull (dget "event_type" formula) in
  let missing m := {| kpi_value := None; missing_event := true; message := Some m |} in
  if negb (truthy raw) then mret (missing "formula.event_type is required")
  else match as_str (Some raw) ≫= of_value EventKind.t with
  | None => mret (missing ("unknown event_type '" +:+ json_str raw +:+ "'"))
  | Some kind =>
      any ← _has_any_event_of_kind (CustomKpi.tenant_id kpi) campaign_id kind;
      if negb any then
        mret (missing ("no '" +:+ value kind +:+ "' events recorded for this campaign"))
      else
        match formula_filters formula with
        | inl e => raise e
        | inr filters =>
            match conjoin (omap _filter_clause filters) with
            | inl e => raise e
            | inr p =>
                rows ← campaign_events (CustomKpi.tenant_id kpi) campaign_id (λ ev,
                  (AnalyticEvent.event_type ev ==b kind) &&
                  from_option (λ d, now - d * day <=? AnalyticEvent.event_at ev) true
                    (positive_days (dget "window_days" formula)) && p ev);
                mret {| kpi_value := Some (Z.of_nat (length rows)); missing_event := false;
                        message := None |}
            end
        end
  end.
