(* ===== verification/SpendReconciliation.v ===== *)
(** * Spend ingest and reconciliation: src/app/analytics/spend_reconciliation.py

    Committed against invoiced amounts, one row per campaign and period, and the
    endpoints of src/app/api/custom_kpis.py on custom KPIs and reconciliations. *)

From S2P Require Export Requests PyDecimal CustomKpi.
Local Open Scope Z_scope.

(** [app/analytics/spend_reconciliation.py] lines 42-42, [MATCH_THRESHOLD_PCT]. *)
Definition MATCH_THRESHOLD_PCT : pydec := DFin false 100 (-2).

(** A decimal operation that can raise. *)
Definition calc (o : option pydec) : M pydec :=
  match o with Some d => mret d | None => raise InvalidOperation end.
Definition tested (o : option bool) : M bool :=
  match o with Some b => mret b | None => raise InvalidOperation end.
Definition store (o : option Z) : M Z :=
  match o with Some z => mret z | None => raise (OtherError "DataError") end.

Definition campaign_not_found (campaign_id : N) : exn :=
  LookupError ("campaign " +:+ uuid_str campaign_id +:+ " not found").

(** ** Ingest *)

(** [app/analytics/spend_reconciliation.py] lines 54-57, [ChannelSpend]. *)
Record ChannelSpend := { spend_channel_id : N; amount : pydec }.

(** [app/analytics/spend_reconciliation.py] lines 98-115, [_is_spend_read_only]. *)
Definition _is_spend_read_only (campaign : Campaign.t) : M bool :=
  if Campaign.status campaign !=b CampaignStatus.completed then mret false
  else
    rows ← select (λ r, SpendReconciliation.campaign_id r ==b Campaign.id campaign);
    mret (match order_by_desc SpendReconciliation.period_end rows with
          | latest :: _ => SpendReconciliation.status latest ==b "matched"
          | [] => false
          end).

(** INSERT ... ON CONFLICT DO UPDATE of one budget row. *)
Definition upsert_spent (campaign_id : N) (record : ChannelSpend) : M () :=
  spent ← store (numeric_column 14 2 (amount record));
  existing ← get_row (R:=CampaignChannelBudget.t) (campaign_id, spend_channel_id record);
  match existing with
  | Some _ =>
      update_row (R:=CampaignChannelBudget.t) (campaign_id, spend_channel_id record)
        (λ r, r <| CampaignChannelBudget.spent := spent |>)
  | None =>
      t ← asks now;
      put_row {| CampaignChannelBudget.campaign_id := campaign_id;
                 CampaignChannelBudget.channel_id := spend_channel_id record;
                 CampaignChannelBudget.allocated := 0;
                 CampaignChannelBudget.spent := spent;
                 CampaignChannelBudget.updated_at := t |}
  end.

(** [app/analytics/spend_reconciliation.py] lines 60-95, [ingest_platform_spend]. *)
Definition ingest_platform_spend (tenant_id campaign_id : N) (records : list ChannelSpend) : M () :=
  campaign ← get_row (R:=Campaign.t) campaign_id;
  match campaign with
  | None => raise (campaign_not_found campaign_id)
  | Some campaign =>
      raise_if (Campaign.tenant_id campaign !=b tenant_id) (campaign_not_found campaign_id) ;;
      read_only ← _is_spend_read_only campaign;
      raise_if read_only (SpendReadOnlyError ("campaign " +:+ uuid_str campaign_id +:+
        " is completed + reconciled - spend is read-only")) ;;
      foreach records (upsert_spent campaign_id)
  end.

(** ** Reconciliation *)

(** [app/analytics/spend_reconciliation.py] lines 164-174, [_committed_total]. [Decimal(total or 0)]. *)
Definition _committed_total (campaign_id : N) : M pydec :=
  rows ← select (λ r, CampaignChannelBudget.campaign_id r ==b campaign_id);
  let total := foldr Z.add 0 (CampaignChannelBudget.spent <$> rows) in
  mret (if total =? 0 then dec_of_Z 0 else dec_of_col 2 total).

(** [app/analytics/spend_reconciliation.py] lines 177-184, [_delta_pct]. *)
Definition _delta_pct (committed invoiced : pydec) : option pydec :=
  if dec_eqb committed (dec_of_Z 0) then
    Some (if negb (dec_eqb invoiced (dec_of_Z 0)) then DFin false 1000000 (-4) else DFin false 0 (-4))
  else
    dec_sub invoiced committed ≫= λ d, dec_div d committed ≫= λ q,
    dec_mul q (dec_of_Z 100) ≫= dec_quantize 4.

(** The row of the unique constraint on campaign and period. *)
Definition same_period (tenant_id campaign_id : N) (period_start period_end : Z)
    (r : SpendReconciliation.t) : bool :=
  (SpendReconciliation.tenant_id r ==b tenant_id) &&
  (SpendReconciliation.campaign_id r ==b campaign_id) &&
  (SpendReconciliation.period_start r =? period_start) &&
  (SpendReconciliation.period_end r =? period_end).

(** [app/analytics/spend_reconciliation.py] lines 187-225, [_upsert_reconciliation]. *)
Definition _upsert_reconciliation (tenant_id campaign_id : N) (period_start period_end : Z)
    (committed invoiced delta_pct : pydec) (status : string) : M SpendReconciliation.t :=
  committed ← store (numeric_column 14 2 committed);
  invoiced ← store (numeric_column 14 2 invoiced);
  delta_pct ← store (numeric_column 8 4 delta_pct);
  existing ← select (same_period tenant_id campaign_id period_start period_end);
  match existing with
  | [] =>
      t ← asks now;
      add_row (λ id, {|
        SpendReconciliation.id := id;
        SpendReconciliation.tenant_id := tenant_id;
        SpendReconciliation.campaign_id := campaign_id;
        SpendReconciliation.period_start := period_start;
        SpendReconciliation.period_end := period_end;
        SpendReconciliation.committed_amount := committed;
        SpendReconciliation.invoiced_amount := invoiced;
        SpendReconciliation.delta_pct := delta_pct;
        SpendReconciliation.status := status;
        SpendReconciliation.note := None;
        SpendReconciliation.resolved_at := None;
        SpendReconciliation.resolved_by := None;
        SpendReconciliation.created_at := t |})
  | existing =>
      r ← scalar_one existing;
      assign r (λ r, r <| SpendReconciliation.committed_amount := committed |>
                       <| SpendReconciliation.invoiced_amount := invoiced |>
                       <| SpendReconciliation.delta_pct := delta_pct |>
                       <| SpendReconciliation.status := status |>)
  end.

(** [app/analytics/spend_reconciliation.py] lines 123-161, [run_reconciliation]. *)
Definition run_reconciliation (tenant_id : N) (period_start period_end : Z)
    (invoices : list (N * pydec)) : M (list SpendReconciliation.t) :=
  rows ← mapM_ (λ invoice : N * pydec, let '(campaign_id, invoiced) := invoice in
    campaign ← get_row (R:=Campaign.t) campaign_id;
    match campaign with
    | None => mret []
    | Some campaign =>
        if Campaign.tenant_id campaign !=b tenant_id then mret []
        else
          committed ← _committed_total campaign_id;
          delta_pct ← calc (_delta_pct committed invoiced);
          matched ← tested (dec_leb (dec_abs delta_pct) MATCH_THRESHOLD_PCT);
          row ← _upsert_reconciliation tenant_id campaign_id period_start period_end committed
                  invoiced delta_pct (if matched : bool then "matched" else "pending");
          mret [row]
    end) invoices;
  mret (mjoin rows).

(** The assignments [mark_explained] and [mark_disputed] share. *)
Definition resolve (status : string) (reconciliation_id user_id : N) (note : option string) (now : Z)
    : M SpendReconciliation.t :=
  row ← get_row (R:=SpendReconciliation.t) reconciliation_id;
  match row with
  | None => raise (LookupError ("spend_reconciliation " +:+ uuid_str reconciliation_id +:+ " not found"))
  | Some row =>
      assign row (λ r, r <| SpendReconciliation.status := status |>
                         <| SpendReconciliation.note := note |>
                         <| SpendReconciliation.resolved_at := Some now |>
                         <| SpendReconciliation.resolved_by := Some user_id |>)
  end.

(** [app/analytics/spend_reconciliation.py] lines 233-249, [mark_explained]. *)
Definition mark_explained (reconciliation_id user_id : N) (note : string) (now : Z)
    : M SpendReconciliation.t := resolve "explained" reconciliation_id user_id (Some note) now.

(** [app/analytics/spend_reconciliation.py] lines 252-268, [mark_disputed]. *)
Definition mark_disputed (reconciliation_id user_id : N) (note : option string) (now : Z)
    : M SpendReconciliation.t := resolve "disputed" reconciliation_id user_id note now.

(** ** Endpoints *)

(** [app/api/custom_kpis.py] lines 64-97, [create_custom_kpi]. *)
Definition create_custom_kpi (name : string) (campaign_id : option N) (formula : jdict)
    (user : AppUser.t) : M CustomKpi.t :=
  match campaign_id with
  | None => mret ()
  | Some cid =>
      campaign ← get_row (R:=Campaign.t) cid;
      match campaign with
      | None => raise (HTTPException 422 "campaign not found")
      | Some c => raise_if (Campaign.tenant_id c !=b AppUser.tenant_id user)
                    (HTTPException 422 "campaign not found")
      end
  end ;;
  raise_if (negb (opt_truthy (dget "event_type" formula)))
    (HTTPException 422 "formula.event_type is required") ;;
  t ← asks now;
  add_row (λ id, {|
    CustomKpi.id := id;
    CustomKpi.tenant_id := AppUser.tenant_id user;
    CustomKpi.campaign_id := campaign_id;
    CustomKpi.name := name;
    CustomKpi.formula := formula;
    CustomKpi.deleted_at := None;
    CustomKpi.created_by := Some (AppUser.id user);
    CustomKpi.created_at := t |}).

(** [app/api/custom_kpis.py] lines 100-119, [list_custom_kpis]. *)
Definition list_custom_kpis (campaign_id : option N) (include_deleted : bool) (user : AppUser.t)
    : M (list CustomKpi.t) :=
  rows ← select (λ k, (CustomKpi.tenant_id k ==b AppUser.tenant_id user) &&
    from_option (λ cid, (CustomKpi.campaign_id k ==b Some cid) || (CustomKpi.campaign_id k ==b None))
      true campaign_id &&
    (include_deleted || (CustomKpi.deleted_at k ==b None)));
  mret (order_by_desc CustomKpi.created_at rows).

(** [app/api/custom_kpis.py] lines 122-137, [delete_custom_kpi]. *)
Definition delete_custom_kpi (kpi_id : N) (user : AppUser.t) : M CustomKpi.t :=
  kpi ← get_row (R:=CustomKpi.t) kpi_id;
  match kpi with
  | None => raise (HTTPException 404 "kpi not found")
  | Some kpi =>
      raise_if (CustomKpi.tenant_id kpi !=b AppUser.tenant_id user) (HTTPException 404 "kpi not found") ;;
      if CustomKpi.deleted_at kpi ==b None then
        t ← asks now;
        assign kpi (λ k, k <| CustomKpi.deleted_at := Some t |>)
      else mret kpi
  end.

(** A campaign of the user's tenant. *)
Definition tenant_campaign (campaign_id : N) (user : AppUser.t) : M Campaign.t :=
  campaign ← get_row (R:=Campaign.t) campaign_id;
  match campaign with
  | None => raise (HTTPException 404 "campaign not found")
  | Some c =>
      raise_if (Campaign.tenant_id c !=b AppUser.tenant_id user) (HTTPException 404 "campaign not found") ;;
      mret c
  end.

(** [app/api/custom_kpis.py] lines 140-177, [list_evaluated_custom_kpis]. *)
Definition list_evaluated_custom_kpis (campaign_id : N) (include_deleted : bool) (user : AppUser.t)
    : M (list (N * string * EvaluationResult)) :=
  tenant_campaign campaign_id user ;;
  kpis ← select (λ k, (CustomKpi.tenant_id k ==b AppUser.tenant_id user) &&
    ((CustomKpi.campaign_id k ==b Some campaign_id) || (CustomKpi.campaign_id k ==b None)) &&
    (include_deleted || (CustomKpi.deleted_at k ==b None)));
  t ← asks now;
  mapM_ (λ kpi, result ← evaluate_custom_kpi kpi campaign_id t;
                mret (CustomKpi.id kpi, CustomKpi.name kpi, result)) kpis.

(** [app/api/custom_kpis.py] lines 185-220, [run_spend_reconciliation]. *)
Definition run_spend_reconciliation (period_start period_end : Z) (invoices : list (N * pydec))
    (user : AppUser.t) : M (list SpendReconciliation.t) :=
  rows ← run_reconciliation (AppUser.tenant_id user) period_start period_end invoices;
  audit (AppUser.tenant_id user) "spend_reconciliation" (AppUser.id user) "reconciliation_run" None None
    [("period_start", j_date period_start); ("period_end", j_date period_end);
     ("campaigns", JInt (Z.of_nat (length invoices)))] ;;
  mret rows.

(** [app/api/custom_kpis.py] lines 223-245, [list_campaign_reconciliation]. *)
Definition list_campaign_reconciliation (campaign_id : N) (user : AppUser.t)
    : M (list SpendReconciliation.t) :=
  tenant_campaign campaign_id user ;;
  rows ← select (λ r, SpendReconciliation.campaign_id r ==b campaign_id);
  mret (order_by_desc SpendReconciliation.period_end rows).

(** A reconciliation of the user's tenant. *)
Definition tenant_reconciliation (recon_id : N) (user : AppUser.t) : M () :=
  row ← get_row (R:=SpendReconciliation.t) recon_id;
  match row with
  | None => raise (HTTPException 404 "reconciliation not found")
  | Some r => raise_if (SpendReconciliation.tenant_id r !=b AppUser.tenant_id user)
                (HTTPException 404 "reconciliation not found")
  end.

(** [app/api/custom_kpis.py] lines 248-268, [explain_reconciliation]. *)
Definition explain_reconciliation (recon_id : N) (note : string) (user : AppUser.t)
    : M SpendReconciliation.t :=
  tenant_reconciliation recon_id user ;;
  t ← asks now;
  mark_explained recon_id (AppUser.id user) note t.

(** [app/api/custom_kpis.py] lines 271-291, [dispute_reconciliation]. *)
Definition dispute_reconciliation (recon_id : N) (note : option string) (user : AppUser.t)
    : M SpendReconciliation.t :=
  tenant_reconciliation recon_id user ;;
  t ← asks now;
  mark_disputed recon_id (AppUser.id user) note t.

Example delta_pct_sample :
  _delta_pct (dec_of_col 2 30000) (dec_of_col 2 30301) = Some (DFin false 10033 (-4)).
Proof. vm_compute. reflexivity. Qed.
