(* ===== verification/Report.v ===== *)
(** * Campaign reports: src/app/analytics/report.py

    A report is a versioned snapshot: every section of its [data] is computed from
    the rows at generation time, and generating one demotes the previous latest. *)

From S2P Require Export CustomKpi PyDecimal.
Local Open Scope Z_scope.

(** [str] of a Numeric column with [k] decimals. *)
Definition j_num (k z : Z) : json := JStr (dec_str (DFin (z <? 0) (Z.to_N (Z.abs z)) (- k))).
Definition j_iso (t : Z) : json := JStr (isoformat t).

(** ** Sections *)

(** [app/analytics/report.py] lines 239-249, [_objectives_section]. *)
Definition _objectives_section (c : Campaign.t) : jdict :=
  [("name", JStr (Campaign.name c));
   ("objective", JStr (Campaign.objective c));
   ("brief", jopt JStr (Campaign.brief c));
   ("budget_total", j_cents (Campaign.budget_total c));
   ("currency", JStr (Campaign.currency c));
   ("start_date", j_date (Campaign.start_date c));
   ("end_date", j_date (Campaign.end_date c));
   ("status", j_enum (Campaign.status c))].

(** [app/analytics/report.py] lines 300-357, [_count_metric]. *)
Definition _count_metric (tenant_id campaign_id : N) (metric : json) : M (option Z) :=
  match as_str (Some metric) ≫= of_value EventKind.t with
  | None => mret None
  | Some kind =>
      any ← campaign_events tenant_id campaign_id (λ _, true);
      if any ==b [] then mret None
      else
        rows ← campaign_events tenant_id campaign_id (λ ev, AnalyticEvent.event_type ev ==b kind);
        mret (Some (Z.of_nat (length rows)))
  end.

(** [round(((observed - target) / target) * 100, 2)] for a positive numeric target. *)
Definition delta_pct (observed : Z) (target : json) : option (option dec) :=
  let pct q := Some (flt_round_dec 2 (flt_mul q (flt_of_Z 100))) in
  match target with
  | JBool true => pct (flt_of_ratio (observed - 1) 1)
  | JInt t => if 0 <? t then pct (flt_of_ratio (observed - t) t) else None
  | JFloat d =>
      if 0 <? dm d
      then pct (flt_div (flt_sub (flt_of_Z observed) (flt_of_dec d)) (flt_of_dec d)) else None
  | _ => None
  end.

(** [secondary = blob.get("secondary") or []], its objects. *)
Definition kpi_entries (blob : jdict) : list jdict :=
  match as_obj (dget "primary" blob) with Some p => [p] | None => [] end ++
  omap (λ v, as_obj (Some v)) (default [] (as_list (dget "secondary" blob))).

(** [app/analytics/report.py] lines 252-297, [_kpis_vs_target]. A float that overflows
    cannot be stored as JSON. *)
Definition _kpis_vs_target (tenant_id : N) (campaign : Campaign.t) : M (list json) :=
  rows ← mapM_ (λ t,
    match dget "metric" t with
    | Some metric =>
        if truthy metric then
          let target := default JNull (dget "target" t) in
          observed ← _count_metric tenant_id (Campaign.id campaign) metric;
          delta ← match observed ≫= λ o, delta_pct o target with
                  | None => mret JNull
                  | Some (Some d) => mret (JFloat d)
                  | Some None => raise (OtherError "StatementError")
                  end;
          mret [JObj [("name", metric); ("target", target); ("observed", jopt JInt observed);
                      ("delta_pct", delta);
                      ("rationale", default JNull (dget "rationale" t))]]
        else mret []
    | None => mret []
    end) (kpi_entries (Campaign.kpi_targets campaign));
  mret (mjoin rows).

(** The bucket of one channel. *)
Definition channel_bucket (events : list AnalyticEvent.t) : jdict :=
  let count k := Z.of_nat (length (List.filter (λ ev, AnalyticEvent.event_type ev ==b k) events)) in
  let spend := foldr Z.add 0 (omap AnalyticEvent.metric_value
                 (List.filter (λ ev, AnalyticEvent.event_type ev ==b EventKind.spend) events)) in
  [("clicks", JInt (count EventKind.click));
   ("impressions", JInt (count EventKind.impression));
   ("opens", JInt (count EventKind.open));
   ("conversions", JInt (count EventKind.conversion));
   ("spend", if spend =? 0 then JStr "0" else j_num 4 spend)].

Definition row_name (r : string * json) : string := r.1.
Definition name_le (x y : string * json) : Prop := String.leb x.1 y.1 = true.
#[export] Instance name_le_dec : RelDecision name_le.
Proof. intros x y. unfold name_le. apply _. Defined.

(** [app/analytics/report.py] lines 360-433, [_channel_breakdown]. *)
Definition _channel_breakdown (tenant_id campaign_id : N) : M (list json) :=
  events ← campaign_events tenant_id campaign_id (λ _, true);
  let channels := remove_dups (AnalyticEvent.channel_id <$> events) in
  rows ← mapM_ (λ ch,
    let bucket :=
      channel_bucket (List.filter (λ ev, AnalyticEvent.channel_id ev ==b ch) events) in
    name ← match ch with
           | None => mret "(unattributed)"
           | Some cid =>
               c ← get_row (R:=Channel.t) cid;
               mret (match c with
                     | Some c => if str_empty (Channel.name c) then uuid_str cid else Channel.name c
                     | None => uuid_str cid
                     end)
           end;
    mret (name, JObj ([("channel_id", jopt j_uuid ch); ("name", JStr name)] ++ bucket))) channels;
  mret (snd <$> merge_sort name_le rows).

(** [app/analytics/report.py] lines 436-462, [_ab_tests_section]. *)
Definition _ab_tests_section (tenant_id campaign_id : N) : M (list json) :=
  rows ← select (λ t, (AbTest.tenant_id t ==b tenant_id) && (AbTest.campaign_id t ==b campaign_id));
  mret ((λ t, JObj [
    ("id", j_uuid (AbTest.id t));
    ("name", JStr (AbTest.name t));
    ("primary_metric", JStr (AbTest.primary_metric t));
    ("status", j_enum (AbTest.status t));
    ("winner_id", jopt j_uuid (AbTest.winner_id t));
    ("confidence", jopt (j_num 4) (AbTest.confidence t));
    ("lift", jopt (j_num 4) (AbTest.lift t));
    ("started_at", jopt j_iso (AbTest.started_at t));
    ("stopped_at", jopt j_iso (AbTest.stopped_at t))]) <$> order_by AbTest.created_at rows).

(** ORDER BY dismissed_at ASC NULLS FIRST, created_at DESC. *)
Definition anomaly_order (x y : MetricAnomaly.t) : Prop :=
  match MetricAnomaly.dismissed_at x, MetricAnomaly.dismissed_at y with
  | None, Some _ => True
  | Some _, None => False
  | None, None => MetricAnomaly.created_at y ≤ MetricAnomaly.created_at x
  | Some a, Some b =>
      a < b ∨ (a = b ∧ MetricAnomaly.created_at y ≤ MetricAnomaly.created_at x)
  end.
#[export] Instance anomaly_order_dec : RelDecision anomaly_order.
Proof. intros x y. unfold anomaly_order. repeat case_match; apply _. Defined.

(** [app/analytics/report.py] lines 465-493, [_anomalies_section]. *)
Definition _anomalies_section (tenant_id campaign_id : N) : M (list json) :=
  rows ← select (λ a, (MetricAnomaly.tenant_id a ==b tenant_id) &&
                      (MetricAnomaly.campaign_id a ==b campaign_id));
  mret ((λ a, JObj [
    ("id", j_uuid (MetricAnomaly.id a));
    ("metric", JStr (MetricAnomaly.metric a));
    ("severity", JStr (MetricAnomaly.severity a));
    ("sigma", j_num 4 (MetricAnomaly.sigma a));
    ("observed_value", j_num 6 (MetricAnomaly.observed_value a));
    ("baseline_median", j_num 6 (MetricAnomaly.baseline_median a));
    ("dismissed_at", jopt j_iso (MetricAnomaly.dismissed_at a));
    ("created_at", j_iso (MetricAnomaly.created_at a))]) <$> merge_sort anomaly_order rows).

(** [app/analytics/report.py] lines 496-525, [_recommendations_by_status]. *)
Definition _recommendations_by_status (tenant_id campaign_id : N) (status : string)
    : M (list json) :=
  rows ← select (λ r, (OptimisationRecommendation.tenant_id r ==b tenant_id) &&
                      (OptimisationRecommendation.campaign_id r ==b campaign_id) &&
                      (OptimisationRecommendation.status r ==b status));
  mret ((λ r, JObj [
    ("id", j_uuid (OptimisationRecommendation.id r));
    ("kind", JStr (OptimisationRecommendation.kind r));
    ("proposal", JObj (OptimisationRecommendation.proposal r));
    ("rationale", jopt JStr (OptimisationRecommendation.rationale r));
    ("predicted_uplift", jopt (j_num 4) (OptimisationRecommendation.predicted_uplift r));
    ("applied_at", jopt j_iso (OptimisationRecommendation.applied_at r));
    ("applied_by", jopt j_uuid (OptimisationRecommendation.applied_by r))]) <$> rows).

(** [app/analytics/report.py] lines 528-571, [_spend_total]. *)
Definition _spend_total (tenant_id campaign_id : N) : M json :=
  any ← campaign_events tenant_id campaign_id (λ _, true);
  if any ==b [] then mret JNull
  else
    rows ← campaign_events tenant_id campaign_id
      (λ ev, AnalyticEvent.event_type ev ==b EventKind.spend);
    let total := foldr Z.add 0 (omap AnalyticEvent.metric_value rows) in
    mret (if total =? 0 then JStr "0" else j_num 4 total).

(** [app/analytics/report.py] lines 166-206, [_custom_kpis_section]. *)
Definition _custom_kpis_section (tenant_id campaign_id : N) : M (list json) :=
  kpis ← select (λ k, (CustomKpi.tenant_id k ==b tenant_id) &&
    (CustomKpi.deleted_at k ==b None) &&
    ((CustomKpi.campaign_id k ==b Some campaign_id) || (CustomKpi.campaign_id k ==b None)));
  t ← asks now;
  mapM_ (λ kpi,
    result ← evaluate_custom_kpi kpi campaign_id t;
    mret (JObj [
      ("id", j_uuid (CustomKpi.id kpi));
      ("name", JStr (CustomKpi.name kpi));
      ("value", jopt JInt (kpi_value result));
      ("missing_event", JBool (missing_event result));
      ("message", jopt JStr (message result))])) kpis.

(** [app/analytics/report.py] lines 209-236, [_spend_reconciliation_section]. *)
Definition _spend_reconciliation_section (tenant_id campaign_id : N) : M (list json) :=
  rows ← select (λ r, (SpendReconciliation.tenant_id r ==b tenant_id) &&
                      (SpendReconciliation.campaign_id r ==b campaign_id));
  mret ((λ r, JObj [
    ("id", j_uuid (SpendReconciliation.id r));
    ("period_start", j_date (SpendReconciliation.period_start r));
    ("period_end", j_date (SpendReconciliation.period_end r));
    ("committed_amount", j_num 2 (SpendReconciliation.committed_amount r));
    ("invoiced_amount", j_num 2 (SpendReconciliation.invoiced_amount r));
    ("delta_pct", j_num 4 (SpendReconciliation.delta_pct r));
    ("status", JStr (SpendReconciliation.status r));
    ("note", jopt JStr (SpendReconciliation.note r))])
    <$> order_by_desc SpendReconciliation.period_end rows).

(** [app/analytics/report.py] lines 125-163, [_build_data]. *)
Definition _build_data (tenant_id : N) (campaign : Campaign.t) : M jdict :=
  let cid := Campaign.id campaign in
  kpis ← _kpis_vs_target tenant_id campaign;
  channels ← _channel_breakdown tenant_id cid;
  tests ← _ab_tests_section tenant_id cid;
  anomalies ← _anomalies_section tenant_id cid;
  applied ← _recommendations_by_status tenant_id cid "applied";
  rejected ← _recommendations_by_status tenant_id cid "rejected";
  spend ← _spend_total tenant_id cid;
  custom ← _custom_kpis_section tenant_id cid;
  reconciliation ← _spend_reconciliation_section tenant_id cid;
  mret [("objectives", JObj (_objectives_section campaign));
        ("kpis_vs_target", JList kpis);
        ("channel_breakdown", JList channels);
        ("ab_tests", JList tests);
        ("anomalies", JList anomalies);
        ("recommendations_applied", JList applied);
        ("recommendations_rejected", JList rejected);
        ("spend_total", spend);
        ("custom_kpis", JList custom);
        ("spend_reconciliation", JList reconciliation)].

(** ** Generation *)

Definition report_of (tenant_id campaign_id : N) (r : CampaignReport.t) : bool :=
  (CampaignReport.tenant_id r ==b tenant_id) && (CampaignReport.campaign_id r ==b campaign_id).

(** The version after every existing one. *)
Definition max_version (rows : list CampaignReport.t) : option Z :=
  match CampaignReport.version <$> rows with
  | [] => None
  | v :: vs => Some (foldr Z.max v vs)
  end.

(** [app/analytics/report.py] lines 57-117, [generate_report]. *)
Definition generate_report (tenant_id campaign_id : N) (now : Z) (generated_by : string)
    : M CampaignReport.t :=
  campaign ← get_row (R:=Campaign.t) campaign_id;
  match campaign with
  | None => raise (LookupError ("campaign " +:+ uuid_str campaign_id +:+ " not found"))
  | Some campaign =>
      raise_if (Campaign.tenant_id campaign !=b tenant_id)
        (LookupError ("campaign " +:+ uuid_str campaign_id +:+ " not found")) ;;
      data ← _build_data tenant_id campaign;
      latest ← select (λ r, report_of tenant_id campaign_id r && CampaignReport.is_latest r);
      prior_latest ← scalar_one_or_none latest;
      next_version ← match prior_latest with
        | Some prior =>
            prior ← assign prior (λ r, r <| CampaignReport.is_latest := false |>);
            mret (CampaignReport.version prior + 1)
        | None =>
            existing ← select (report_of tenant_id campaign_id);
            mret (from_option (λ m, m + 1) 1 (max_version existing))
        end;
      add_row (λ id, {|
        CampaignReport.id := id;
        CampaignReport.tenant_id := tenant_id;
        CampaignReport.campaign_id := campaign_id;
        CampaignReport.version := next_version;
        CampaignReport.generated_at := now;
        CampaignReport.generated_by := generated_by;
        CampaignReport.data := data;
        CampaignReport.is_latest := true |})
  end.
