(* ===== verification/ReportsApi.v ===== *)
(** * Report endpoints: src/app/api/reports.py

    Generating, listing and reading the versions of a campaign's report, and the export of the
    latest one as text with comma-separated values, with [csv.writer] in its default dialect. *)

From S2P Require Import DecText.
From S2P Require Export Report SpendReconciliation Requests Jsonb CsvUpload.
Local Open Scope Z_scope.

(** ** [csv.writer] *)

Definition carriage_return : ascii := ascii_of_N 13.

(** The characters that make QUOTE_MINIMAL quote a field. *)
Definition csv_special (c : ascii) : bool := (c ==b ","%char) || (c ==b dquote) || is_newline c.
Definition needs_quotes (f : string) : bool := negb (str_all (λ c, negb (csv_special c)) f).

(** The quote character doubled. *)
Fixpoint double_quotes (f : string) : string :=
  match f with
  | EmptyString => ""
  | String c f => if c ==b dquote then String dquote (String dquote (double_quotes f))
                  else String c (double_quotes f)
  end.

Definition quoted (f : string) : string := String dquote (double_quotes f +:+ String dquote "").
Definition write_field (f : string) : string := if needs_quotes f then quoted f else f.

Definition crlf : string := String carriage_return (String newline_char "").

(** [writer.writerow(row)]; a row of one empty field is quoted. *)
Definition writerow (row : list string) : string :=
  match row with
  | [f] => if str_empty f then quoted f +:+ crlf else write_field f +:+ crlf
  | _ => str_join "," (write_field <$> row) +:+ crlf
  end.

(** The rows written one after the other. *)
Definition csv_text (rows : list (list string)) : string := str_join "" (writerow <$> rows).

(** ** The export *)

(** [json.dumps(v, sort_keys=True)]: everything outside the printable ASCII is escaped. *)
Fixpoint ascii_escape (s : string) : string :=
  match s with
  | EmptyString => ""
  | String c s =>
      let n := N_of_ascii c in
      (if (c ==b quote_char) || (c ==b "\"%char) then String "\" (String c "")
       else if (n =? 8)%N then "\b" else if (n =? 9)%N then "\t"
       else if (n =? 10)%N then "\n" else if (n =? 12)%N then "\f"
       else if (n =? 13)%N then "\r"
       else if (n <? 32)%N || (126 <? n)%N then "\u" +:+ hexs 4 n
       else String c "") +:+ ascii_escape s
  end.
Definition dumps_str (s : string) : string := String quote_char (ascii_escape s +:+ String quote_char "").

Definition key_le (a b : string * string) : Prop := String.leb a.1 b.1 = true.
#[export] Instance key_le_dec : RelDecision key_le.
Proof. intros x y. unfold key_le. apply _. Defined.

Fixpoint json_dumps_sorted (v : json) : string :=
  match v with
  | JNull => "null"
  | JBool b => if b then "true" else "false"
  | JInt z => str_of_Z z
  | JFloat d => float_repr d
  | JStr s => dumps_str s
  | JList l => "[" +:+ str_join ", " (json_dumps_sorted <$> l) +:+ "]"
  | JObj d =>
      "{" +:+ str_join ", "
        ((λ kv : string * string, dumps_str kv.1 +:+ ": " +:+ kv.2) <$>
           merge_sort key_le ((λ kv, (kv.1, json_dumps_sorted kv.2)) <$> d)) +:+ "}"
  end.

(** [app/api/reports.py] lines 223-230, [_stringify]. *)
Definition _stringify (v : json) : string :=
  match v with
  | JNull => ""
  | JObj _ | JList _ => json_dumps_sorted v
  | _ => json_str v
  end.

(** The rows of one item of a list. *)
Definition item_rows (section : string) (i : Z) (item : json) : list (list string) :=
  match item with
  | JObj d => (λ kv : string * json, [section; "[" +:+ str_of_Z i +:+ "]." +:+ kv.1; _stringify kv.2]) <$> items d
  | _ => [[section; "[" +:+ str_of_Z i +:+ "]"; _stringify item]]
  end.

(** [app/api/reports.py] lines 206-220, [_write_section_rows]. *)
Definition _write_section_rows (section : string) (value : json) : list (list string) :=
  match value with
  | JObj d => (λ kv : string * json, [section; kv.1; _stringify kv.2]) <$> items d
  | JList l => concat (imap (λ i item, item_rows section (Z.of_nat i) item) l)
  | _ => [[section; ""; _stringify value]]
  end.

(** The order of the sections. *)
Definition section_order : list string :=
  ["objectives"; "kpis_vs_target"; "custom_kpis"; "channel_breakdown"; "ab_tests"; "anomalies";
   "recommendations_applied"; "recommendations_rejected"; "spend_total"; "spend_reconciliation"].

Definition section_rows (data : jdict) (section : string) : list (list string) :=
  match dget section data with
  | None | Some JNull => [[section; ""; "(no data)"]]
  | Some value => _write_section_rows section value
  end.

Definition report_rows (data : jdict) : list (list string) :=
  ["section"; "key"; "value"] :: concat (section_rows data <$> section_order).

(** [app/api/reports.py] lines 176-203, [_report_to_csv]. *)
Definition _report_to_csv (data : jdict) : string := csv_text (report_rows data).

(** ** Endpoints *)

Definition no_report : exn := HTTPException 404 "no report has been generated yet".

(** [app/api/reports.py] lines 41-62, [generate_campaign_report]. *)
Definition generate_campaign_report (campaign_id : N) (user : AppUser.t) : M CampaignReport.t :=
  tenant_campaign campaign_id user ;;
  t ← asks now;
  generate_report (AppUser.tenant_id user) campaign_id t (uuid_str (AppUser.id user)).

(** [app/api/reports.py] lines 65-88, [list_campaign_reports]. *)
Definition list_campaign_reports (campaign_id : N) (user : AppUser.t) : M (list CampaignReport.t) :=
  tenant_campaign campaign_id user ;;
  rows ← select (λ r, CampaignReport.campaign_id r ==b campaign_id);
  mret (order_by_desc CampaignReport.version rows).

(** [app/api/reports.py] lines 163-173, [_load_latest]. *)
Definition _load_latest (campaign_id : N) : M (option CampaignReport.t) :=
  rows ← select (λ r, (CampaignReport.campaign_id r ==b campaign_id) && CampaignReport.is_latest r);
  scalar_one_or_none rows.

(** [app/api/reports.py] lines 91-109, [get_latest_report]. *)
Definition get_latest_report (campaign_id : N) (user : AppUser.t) : M CampaignReport.t :=
  tenant_campaign campaign_id user ;;
  report ← _load_latest campaign_id;
  match report with None => raise no_report | Some r => mret r end.

(** [app/api/reports.py] lines 112-139, [get_latest_report_csv]. The text and the file name. *)
Definition get_latest_report_csv (campaign_id : N) (user : AppUser.t) : M (string * string) :=
  report ← get_latest_report campaign_id user;
  mret (_report_to_csv (CampaignReport.data report),
        "campaign-" +:+ uuid_str campaign_id +:+ "-report-v" +:+ str_of_Z (CampaignReport.version report) +:+ ".csv").

(** [app/api/reports.py] lines 142-155, [get_campaign_report]. *)
Definition get_campaign_report (campaign_id report_id : N) (user : AppUser.t) : M CampaignReport.t :=
  report ← get_row (R:=CampaignReport.t) report_id;
  match report with
  | Some r => if (CampaignReport.campaign_id r ==b campaign_id) &&
                 (CampaignReport.tenant_id r ==b AppUser.tenant_id user)
              then mret r else raise (HTTPException 404 "report not found")
  | None => raise (HTTPException 404 "report not found")
  end.

(** * The export of a report reads back

    What [csv.writer] writes, [csv.reader] reads back row by row, whatever the fields
    contain: commas, quotes, line ends. *)

(** ** Characters *)





(** ** One field *)





(** ** One row *)









(** ** Where a value stands in the export *)











(** ** The rows of the export *)









(** ** Their order *)




(** ** [sort_keys=True] *)

#[export] Instance string_leb_trans : Transitive (λ a b : string, String.leb a b = true).
Proof.
  intros a. unfold String.leb. induction a as [|x a IH]; intros [|y b] [|z c]; cbn; try done.
  unfold Ascii.compare. destruct (N.compare_spec (N_of_ascii x) (N_of_ascii y)) as [E1|E1|E1]; [| |done];
    (destruct (N.compare_spec (N_of_ascii y) (N_of_ascii z)) as [E2|E2|E2]; [| |done]);
    destruct (N.compare_spec (N_of_ascii x) (N_of_ascii z)); try lia; try done. apply IH.
Qed.
#[export] Instance dumps_key_trans : Transitive key_le.
Proof. intros x y z Hx Hy. by eapply string_leb_trans. Qed.
#[export] Instance dumps_key_total : Total key_le.
Proof. intros x y. apply String.leb_total. Qed.




