(* ===== verification/ReportProofs.v ===== *)
(** * Campaign reports: the version history

    [generate_report] keeps the history of a campaign well formed: versions are
    different, at most one row is the latest, and it has the highest version. *)

From S2P Require Export Fixtures Report Agents.
Local Open Scope Z_scope.

Definition same_campaign (r r' : CampaignReport.t) : Prop :=
  CampaignReport.tenant_id r = CampaignReport.tenant_id r' ∧
  CampaignReport.campaign_id r = CampaignReport.campaign_id r'.

(** The reports of a database: rows at their keys, below the key supply, and for
    each campaign different versions and at most one latest row, the highest. *)
Record history_ok (s : db) : Prop := {
  ho_keyed : ∀ k r, t_campaign_report s !! k = Some r → CampaignReport.id r = k;
  ho_fresh : ∀ k r, t_campaign_report s !! k = Some r → (k < next_uuid s)%N;
  ho_version : ∀ k k' r r', t_campaign_report s !! k = Some r → t_campaign_report s !! k' = Some r' →
    same_campaign r r' → CampaignReport.version r = CampaignReport.version r' → k = k';
  ho_latest : ∀ k k' r r', t_campaign_report s !! k = Some r → t_campaign_report s !! k' = Some r' →
    same_campaign r r' → CampaignReport.is_latest r = true →
    CampaignReport.version r' <= CampaignReport.version r ∧
    (CampaignReport.is_latest r' = true → k = k');
}.

(** ** Building the data only reads *)

Lemma campaign_events_pure tid cid p : respects eq (campaign_events tid cid p).
Proof. apply (respects_gets eq). Qed.

Ltac pure_walk := repeat first
  [ respects_step
  | match goal with
    | |- respects eq (campaign_events _ _ _) => apply campaign_events_pure
    | |- respects eq (?f _) => unfold f
    | |- respects eq (?f _ _) => unfold f
    | |- respects eq (?f _ _ _) => unfold f
    end ].

Lemma evaluate_custom_kpi_pure kpi cid t : respects eq (evaluate_custom_kpi kpi cid t).
Proof. pure_walk. Qed.

Lemma build_data_pure tid c : respects eq (_build_data tid c).
Proof. pure_walk. Qed.

(** ** The version a report gets *)

Lemma max_version_spec rows m :
  max_version rows = Some m →
  (∀ r, r ∈ rows → CampaignReport.version r <= m) ∧ ∃ r, r ∈ rows ∧ CampaignReport.version r = m.
Proof.
  unfold max_version. destruct rows as [|r0 rows]; [done|]. rewrite fmap_cons. intros [= <-].
  induction rows as [|r rows [IHle (x & Hx & IHeq)]]; cbn [fmap list_fmap foldr].
  - split; [|exists r0; split; [left|done]]. intros r ->%list_elem_of_singleton. lia.
  - split.
    + intros y. rewrite !elem_of_cons. intros [->|[->|Hy]]; [|lia|].
      * specialize (IHle r0 ltac:(left)). lia.
      * specialize (IHle y ltac:(by right)). lia.
    + destruct (Z.max_spec (CampaignReport.version r)
        (foldr Z.max (CampaignReport.version r0) (CampaignReport.version <$> rows))) as [[_ ->]|[_ ->]].
      * exists x. split; [|done]. apply elem_of_cons in Hx as [->|Hx]; [left|do 2 right; done].
      * exists r. split; [right; left|done].
Qed.

Lemma max_version_none rows : max_version rows = None → rows = [].
Proof. by destruct rows. Qed.

(** ** Generating *)

(** A row after the previous latest of its campaign is demoted. *)
Definition demote (tid cid : N) (r : CampaignReport.t) : CampaignReport.t :=
  if report_of tid cid r && CampaignReport.is_latest r
  then r <| CampaignReport.is_latest := false |> else r.

Lemma demote_insert s tid cid p :
  history_ok s →
  List.filter (λ r, report_of tid cid r && CampaignReport.is_latest r)
    (snd <$> map_to_list (t_campaign_report s)) = [p] →
  <[CampaignReport.id p := p <| CampaignReport.is_latest := false |>]> (t_campaign_report s)
    = demote tid cid <$> t_campaign_report s.
Proof.
  intros Hok Hsel. apply map_eq. intros k. rewrite lookup_fmap.
  assert (keyed CampaignReport.t s) as Hkey by exact (ho_keyed s Hok).
  pose proof (λ r, select_pk_lookup (T:=CampaignReport.t) (λ r, report_of tid cid r && CampaignReport.is_latest r) s r Hkey) as Hin.
  change (rows s) with (t_campaign_report s) in Hin. rewrite Hsel in Hin.
  destruct (decide (k = CampaignReport.id p)) as [->|Hne].
  - destruct (proj1 (Hin p) (list_elem_of_here _ _)) as [Hp Htest].
    change (pk p) with (CampaignReport.id p) in Hp. rewrite lookup_insert_eq, Hp. simpl. unfold demote. by rewrite Htest.
  - rewrite lookup_insert_ne by done. destruct (t_campaign_report s !! k) as [r|] eqn:Hr; [|done].
    simpl. unfold demote. destruct (_ && _) eqn:E; [|done].
    pose proof (ho_keyed s Hok _ _ Hr) as Hid.
    assert (r ∈ [p]) as ->%list_elem_of_singleton; [|by destruct Hne].
    apply Hin. split; [by rewrite <- Hid in Hr|done].
Qed.

Lemma demote_id s tid cid :
  List.filter (λ r, report_of tid cid r && CampaignReport.is_latest r)
    (snd <$> map_to_list (t_campaign_report s)) = [] →
  t_campaign_report s = demote tid cid <$> t_campaign_report s.
Proof.
  intros Hsel. pose proof (proj1 (select_nil (T:=CampaignReport.t) _ s) Hsel) as Hno. apply map_eq. intros k.
  rewrite lookup_fmap. destruct (t_campaign_report s !! k) as [r|] eqn:Hr; [|done].
  simpl. unfold demote. by rewrite (Hno k r Hr).
Qed.

Lemma report_of_true tid cid r :
  report_of tid cid r = true ↔ CampaignReport.tenant_id r = tid ∧ CampaignReport.campaign_id r = cid.
Proof. unfold report_of. rewrite andb_true_iff. by rewrite !bool_decide_eq_true. Qed.

Definition next_after (s : db) (tid cid : N) (v : Z) : Prop :=
  (∀ k r, t_campaign_report s !! k = Some r → report_of tid cid r = true →
     CampaignReport.version r < v) ∧
  (v = 1 ∨ ∃ k r, t_campaign_report s !! k = Some r ∧ report_of tid cid r = true ∧
     v = CampaignReport.version r + 1).

Lemma version_of_existing s tid cid :
  next_after s tid cid (from_option (λ m, m + 1) 1
    (max_version (List.filter (report_of tid cid) (snd <$> map_to_list (t_campaign_report s))))).
Proof.
  pose proof (elem_of_select (T:=CampaignReport.t) (report_of tid cid) s) as Hin.
  change (rows s) with (t_campaign_report s) in Hin.
  destruct (max_version _) as [m|] eqn:E; simpl.
  - apply max_version_spec in E as [Hle (r & Hr & <-)]. split.
    + intros k r' Hk Hof. assert (CampaignReport.version r' <= CampaignReport.version r); [|lia].
      apply Hle, Hin. eauto.
    + right. apply Hin in Hr as [[k Hk] Hof]. eauto.
  - apply max_version_none in E. split; [|by left]. intros k r Hk Hof.
    assert (r ∈ List.filter (report_of tid cid) (snd <$> map_to_list (t_campaign_report s))) as Hr
      by (apply Hin; eauto). rewrite E in Hr. by apply not_elem_of_nil in Hr.
Qed.

Lemma version_after_latest s tid cid p :
  history_ok s → t_campaign_report s !! CampaignReport.id p = Some p →
  report_of tid cid p && CampaignReport.is_latest p = true →
  next_after s tid cid (CampaignReport.version p + 1).
Proof.
  intros Hok Hp [Hof Hl]%andb_true_iff. split; [|right; eauto].
  intros k r Hk Hofr. apply report_of_true in Hof as [Ht Hc]. apply report_of_true in Hofr as [Ht' Hc'].
  destruct (ho_latest s Hok _ _ _ _ Hp Hk) as [Hle _]; [|done|lia]. split; congruence.
Qed.

Lemma generate_report_inr tid cid t by_ e s s' r :
  history_ok s → generate_report tid cid t by_ e s = (s', inr r) →
  ∃ v data, r = {| CampaignReport.id := next_uuid s; CampaignReport.tenant_id := tid;
      CampaignReport.campaign_id := cid; CampaignReport.version := v;
      CampaignReport.generated_at := t; CampaignReport.generated_by := by_;
      CampaignReport.data := data; CampaignReport.is_latest := true |} ∧
    s' = s <| t_campaign_report := <[next_uuid s := r]> (demote tid cid <$> t_campaign_report s) |>
           <| next_uuid := (next_uuid s + 1)%N |> ∧
    next_after s tid cid v.
Proof.
  intros Hok Hrun. unfold generate_report in Hrun. inv_run.
  destruct (t_campaign s !! cid) as [c|]; [|done]. apply bind_inr in Hrun as (s0 & u & H0 & Hrun).
  apply raise_if_inr in H0 as [_ ->]. apply bind_inr in Hrun as (s0 & data & Hdata & Hrun).
  pose proof (respects_run eq _ _ _ _ _ (build_data_pure _ _) Hdata) as <-. rewrite bind_select in Hrun.
  apply bind_inr in Hrun as (s1 & prior & Hprior & Hrun).
  apply scalar_cases in Hprior as [-> [(-> & Hsel)|(p & -> & Hsel)]];
    apply bind_inr in Hrun as (s2 & v & Hv & Hrun).
  - inv_run. rewrite add_row_run in Hrun. injection Hrun as <- <-. eexists _, data.
    split; [reflexivity|]. rewrite <- (demote_id s tid cid Hsel). split; [done|].
    apply version_of_existing.
  - inv_run. match goal with H : assign _ _ _ _ = _ |- _ => rename H into Hass end.
    pose proof (list_elem_of_here p []) as Hp. rewrite <- Hsel in Hp.
    apply (select_pk_lookup (T:=CampaignReport.t)) in Hp as [Hp Htest]; [|exact (ho_keyed s Hok)].
    apply (assign_inr _ _ _ _ _ _ p) in Hass as [-> ->]; [|done].
    rewrite add_row_run in Hrun. injection Hrun as <- <-. eexists _, data.
    split; [reflexivity|]. split.
    + simpl. by rewrite <- (demote_insert s tid cid p Hok Hsel).
    + by eapply version_after_latest.
Qed.

Lemma demote_same tid cid r :
  CampaignReport.id (demote tid cid r) = CampaignReport.id r ∧
  CampaignReport.tenant_id (demote tid cid r) = CampaignReport.tenant_id r ∧
  CampaignReport.campaign_id (demote tid cid r) = CampaignReport.campaign_id r ∧
  CampaignReport.version (demote tid cid r) = CampaignReport.version r ∧
  (CampaignReport.is_latest (demote tid cid r) = true →
   CampaignReport.is_latest r = true ∧ report_of tid cid r = false).
Proof.
  unfold demote. destruct (report_of tid cid r), (CampaignReport.is_latest r) eqn:E; simpl;
    split_and!; try done; intros H; congruence.
Qed.

(** A new latest row over the demoted history. *)
Lemma history_ok_extend s tid cid r :
  history_ok s → CampaignReport.id r = next_uuid s →
  CampaignReport.tenant_id r = tid → CampaignReport.campaign_id r = cid →
  next_after s tid cid (CampaignReport.version r) →
  history_ok (s <| t_campaign_report := <[next_uuid s := r]> (demote tid cid <$> t_campaign_report s) |>
                <| next_uuid := (next_uuid s + 1)%N |>).
Proof.
  intros [Hk Hf Hv Hl] Hid Ht Hc [Hnext _]. split; simpl.
  - intros k x. rewrite lookup_insert_Some, lookup_fmap_Some.
    intros [[<- <-]|[_ (y & <- & Hy)]]; [done|]. destruct (demote_same tid cid y) as (-> & _). eauto.
  - intros k x. rewrite lookup_insert_Some, lookup_fmap_Some.
    intros [[<- <-]|[_ (y & <- & Hy)]]; [lia|]. specialize (Hf _ _ Hy). lia.
  - intros k k' x x'. rewrite !lookup_insert_Some, !lookup_fmap_Some.
    intros [[<- <-]|[_ (y & <- & Hy)]] [[<- <-]|[_ (y' & <- & Hy')]] Hsame Hver; [done|..].
    + exfalso. destruct (demote_same tid cid y') as (_ & E1 & E2 & E3 & _), Hsame as [S1 S2].
      assert (CampaignReport.version y' < CampaignReport.version r); [|lia].
      eapply Hnext; [done|]. apply report_of_true. split; congruence.
    + exfalso. destruct (demote_same tid cid y) as (_ & E1 & E2 & E3 & _), Hsame as [S1 S2].
      assert (CampaignReport.version y < CampaignReport.version r); [|lia].
      eapply Hnext; [done|]. apply report_of_true. split; congruence.
    + destruct (demote_same tid cid y) as (_ & E1 & E2 & E3 & _).
      destruct (demote_same tid cid y') as (_ & E1' & E2' & E3' & _), Hsame as [S1 S2].
      eapply Hv; [done..| |congruence]. split; congruence.
  - intros k k' x x'. rewrite !lookup_insert_Some, !lookup_fmap_Some.
    intros [[<- <-]|[_ (y & <- & Hy)]] [[<- <-]|[_ (y' & <- & Hy')]] Hsame Hlat; [done|..].
    + destruct (demote_same tid cid y') as (_ & E1 & E2 & E3 & E4), Hsame as [S1 S2].
      assert (report_of tid cid y' = true) as Hof by (apply report_of_true; split; congruence).
      pose proof (Hnext _ _ Hy' Hof). split; [lia|]. intros [_ Hof']%E4. congruence.
    + destruct (demote_same tid cid y) as (_ & E1 & E2 & E3 & E4), Hsame as [S1 S2].
      apply E4 in Hlat as [_ Hof]. exfalso. rewrite (proj2 (report_of_true tid cid y)) in Hof; [done|].
      split; congruence.
    + destruct (demote_same tid cid y) as (_ & E1 & E2 & E3 & E4).
      destruct (demote_same tid cid y') as (_ & E1' & E2' & E3' & E4'), Hsame as [S1 S2].
      apply E4 in Hlat as [Hlat _]. destruct (Hl _ _ _ _ Hy Hy') as [Hle Hone]; [by split; congruence|done|].
      rewrite E3, E3'. split; [done|]. intros [Hl' _]%E4'. auto.
Qed.

Lemma generate_report_history tid cid t by_ e s s' r :
  history_ok s → generate_report tid cid t by_ e s = (s', inr r) → history_ok s'.
Proof.
  intros Hok Hrun. destruct (generate_report_inr _ _ _ _ _ _ _ _ Hok Hrun) as (v & data & Hr & -> & Hnext).
  apply history_ok_extend; rewrite ?Hr; done.
Qed.

(** Generating a report keeps the history well formed and extends it by one row.
    The new report is the latest of its campaign, the only latest, and its version is
    one more than the highest before it, or 1 for the first. Earlier reports keep their
    data and their version; no other table changes. *)
Theorem generate_report_spec tid cid t by_ e s s' r :
  history_ok s → generate_report tid cid t by_ e s = (s', inr r) →
  history_ok s' ∧ CampaignReport.is_latest r = true ∧
  next_after s tid cid (CampaignReport.version r) ∧
  t_campaign_report s' !! CampaignReport.id r = Some r ∧
  (∀ k r', t_campaign_report s' !! k = Some r' → report_of tid cid r' = true →
     CampaignReport.is_latest r' = true → k = CampaignReport.id r) ∧
  (∀ k r0, t_campaign_report s !! k = Some r0 →
     t_campaign_report s' !! k = Some (demote tid cid r0)) ∧
  s' = s <| t_campaign_report := t_campaign_report s' |> <| next_uuid := (next_uuid s + 1)%N |>.
Proof.
  intros Hok Hrun. destruct (generate_report_inr _ _ _ _ _ _ _ _ Hok Hrun)
    as (v & data & Hr & Hs' & Hnext).
  pose proof (generate_report_history _ _ _ _ _ _ _ _ Hok Hrun) as Hok'.
  assert (t_campaign_report s' !! CampaignReport.id r = Some r) as Hlook.
  { rewrite Hs', Hr. simpl. apply lookup_insert_eq. }
  split; [done|]. split; [by rewrite Hr|]. split; [by rewrite Hr|]. split; [done|]. split_and!.
  - intros k r' Hk [Ht Hc]%report_of_true Hl. symmetry.
    refine (proj2 (ho_latest s' Hok' _ _ _ _ Hlook Hk _ _) Hl); [|by rewrite Hr].
    rewrite Hr. by split.
  - intros k r0 Hk. rewrite Hs'. simpl. rewrite lookup_insert_ne, lookup_fmap, Hk; [done|].
    pose proof (ho_fresh s Hok _ _ Hk). lia.
  - by rewrite Hs'.
Qed.

Definition first_report_db : db :=
  run_db (generate_report 1 10 5 "system" (demo_env 5)
            (sample_db (sample_campaign CampaignStatus.live) [])).

Lemma generate_report_spec_witness :
  history_ok first_report_db ∧
  ∃ s' r, generate_report 1 10 6 "user" (demo_env 6) first_report_db = (s', inr r) ∧
    history_ok s' ∧ CampaignReport.version r = 2.
Proof.
  assert (history_ok first_report_db) as Hs.
  { assert (history_ok (sample_db (sample_campaign CampaignStatus.live) [])) as H0
      by (split; intros k; by intros).
    destruct (run_returns (generate_report 1 10 5 "system") (demo_env 5)
      (sample_db (sample_campaign CampaignStatus.live) [])) as (s1 & r1 & E1); [by vm_compute|].
    pose proof (generate_report_history _ _ _ _ _ _ _ _ H0 E1) as H1.
    unfold first_report_db. by rewrite E1. }
  split; [done|].
  destruct (run_returns (generate_report 1 10 6 "user") (demo_env 6) first_report_db)
    as (s2 & r2 & E2); [by vm_compute|].
  exists s2, r2. split; [done|].
  destruct (generate_report_spec _ _ _ _ _ _ _ _ Hs E2) as (Hs2 & _). split; [done|].
  apply (f_equal (λ x, CampaignReport.version <$> run_val x)) in E2.
  vm_compute in E2. by injection E2.
Defined.
