(* ===== verification/StateMachine.v ===== *)
(** * The campaign state machine: src/app/orchestrator/state_machine.py

    [StateMachine] is the registry class: an insertion-ordered table of
    transitions keyed by source state and name, and [apply]. [campaign_sm] is the
    machine the module builds at import time, with its guards and entry actions. *)

From S2P Require Export Seeding Scheduling Report.
Local Open Scope Z_scope.

(** ** The machine *)

(** [app/orchestrator/state_machine.py] lines 41-47, [Transition]. *)
Record Transition := {
  tr_name : string;
  from_state : CampaignStatus.t;
  to_state : CampaignStatus.t;
  guard : option (Campaign.t → M bool);
  on_enter : option (Campaign.t → M ());
}.

(** [app/orchestrator/state_machine.py] lines 50-109, [StateMachine]. The dict of
    transitions, in insertion order. *)
Definition StateMachine : Type := list (CampaignStatus.t * string * Transition).

Definition sm_get (k : CampaignStatus.t * string) (sm : StateMachine) : option Transition :=
  snd <$> List.find (λ e, e.1 ==b k) sm.

(** [app/orchestrator/state_machine.py] lines 54-61, [StateMachine.register]. *)
Definition register (t : Transition) (sm : StateMachine) : exn + StateMachine :=
  match sm_get (from_state t, tr_name t) sm with
  | Some _ => inl (ValueError ("transition '" +:+ tr_name t +:+ "' from "
                +:+ value (from_state t) +:+ " is already registered"))
  | None => inr (sm ++ [((from_state t, tr_name t), t)])
  end.

(** Python's order on strings. *)
Definition str_le (a b : string) : Prop := String.leb a b = true.
#[export] Instance str_le_dec : RelDecision str_le.
Proof. intros x y. unfold str_le. apply _. Defined.

(** [app/orchestrator/state_machine.py] lines 63-64, [StateMachine.transitions_from]. *)
Definition transitions_from (state : CampaignStatus.t) (sm : StateMachine) : list string :=
  merge_sort str_le
    (omap (λ e : CampaignStatus.t * string * Transition,
             if e.1.1 ==b state then Some e.1.2 else None) sm).

(** [app/orchestrator/state_machine.py] lines 66-109, [StateMachine.apply]. Returns the
    campaign object as [apply] leaves it. *)
Definition apply (sm : StateMachine) (campaign : Campaign.t) (transition_name : string)
    : M Campaign.t :=
  let status := Campaign.status campaign in
  match sm_get (status, transition_name) sm with
  | None => raise (UnknownTransitionError
      ("no transition '" +:+ transition_name +:+ "' from status '" +:+ value status
       +:+ "'; allowed: " +:+ json_repr (JList (JStr <$> transitions_from status sm))))
  | Some transition =>
      ok ← match guard transition with Some g => g campaign | None => mret true end;
      raise_if (negb ok) (GuardFailedError
        ("transition '" +:+ transition_name +:+ "' from '" +:+ value status
         +:+ "' rejected by guard")) ;;
      campaign ← assign campaign (λ c, c <| Campaign.status := to_state transition |>);
      audit (Campaign.tenant_id campaign) "campaign" (Campaign.id campaign) "transition_applied"
        (Some [("status", j_enum status)]) (Some [("status", j_enum (to_state transition))])
        [("transition", JStr (tr_name transition))] ;;
      match on_enter transition with Some f => f campaign | None => mret () end ;;
      mret campaign
  end.

(** ** Guards and entry actions *)

(** [app/orchestrator/state_machine.py] lines 145-158, [_enqueue_echo_step]. *)
Definition _enqueue_echo_step (campaign : Campaign.t) : M () :=
  agent ← _ensure_orchestrator_agent (Campaign.tenant_id campaign);
  enqueue_task (Campaign.tenant_id campaign) (Agent.id agent) "echo"
    [("campaign_id", j_uuid (Campaign.id campaign)); ("transition", JStr "echo_step")]
    (Some (Campaign.id campaign)) None None None 3 5 ;;
  mret ().

(** [app/orchestrator/state_machine.py] lines 171-183, [_has_accepted_strategy]. *)
Definition _has_accepted_strategy (campaign : Campaign.t) : M bool :=
  rows ← select (λ p, (StrategyProposal.campaign_id p ==b Campaign.id campaign) &&
                      StrategyProposal.is_accepted p);
  mret (negb (rows ==b [])).

(** [app/orchestrator/state_machine.py] lines 196-205, [_seed_content_assets]. *)
Definition _seed_content_assets (campaign : Campaign.t) : M () :=
  seed_assets_for_campaign campaign ;; mret ().

(** The required assets of a campaign that satisfy [p]; [.first() is not None]. *)
Definition required_asset (cid : N) (p : ContentAsset.t → bool) (a : ContentAsset.t) : bool :=
  (ContentAsset.campaign_id a ==b cid) && ContentAsset.is_required a && p a.
Definition any_required (cid : N) (p : ContentAsset.t → bool) : M bool :=
  rows ← select (required_asset cid p);
  mret (negb (rows ==b [])).

Definition status_in (l : list AssetStatus.t) (a : ContentAsset.t) : bool :=
  ContentAsset.status a ∈b l.

(** [extra_metadata["compliance"]["blocked"].astext == "true"]. *)
Definition compliance_blocked_sql (a : ContentAsset.t) : bool :=
  astext (jget "blocked" (jget "compliance" (Some (JObj (ContentAsset.extra_metadata a)))))
    ==b Some "true".

(** [app/orchestrator/state_machine.py] lines 218-265, [_all_required_assets_drafted]. *)
Definition _all_required_assets_drafted (campaign : Campaign.t) : M bool :=
  let cid := Campaign.id campaign in
  total_required ← any_required cid (λ _, true);
  if negb total_required then mret false
  else
    state_blocking ← any_required cid
      (status_in [AssetStatus.requested; AssetStatus.generating; AssetStatus.failed]);
    if state_blocking : bool then mret false
    else
      compliance_blocking ← any_required cid compliance_blocked_sql;
      mret (negb compliance_blocking).

(** [app/orchestrator/state_machine.py] lines 305-316 in [_flip_drafted_assets_to_pending_approval]. The
    thresholds copied onto a submitted asset. *)
Definition approval_snapshot (settings_row : option TenantApprovalSettings.t) (now : Z) : jdict :=
  [("admin_required_above_amount",
     jopt j_cents (settings_row ≫= TenantApprovalSettings.admin_required_above_amount));
   ("auto_approval_cap_amount",
     match settings_row with
     | Some r => j_cents (TenantApprovalSettings.auto_approval_cap_amount r)
     | None => JStr "0"
     end);
   ("currency", JStr (from_option TenantApprovalSettings.currency "USD" settings_row));
   ("snapshot_taken_at", JStr (isoformat now))].

(** [app/orchestrator/state_machine.py] lines 268-324,
    [_flip_drafted_assets_to_pending_approval]. *)
Definition _flip_drafted_assets_to_pending_approval (campaign : Campaign.t) : M () :=
  rows ← select (required_asset (Campaign.id campaign) (status_in [AssetStatus.drafted]));
  match rows with
  | [] => mret ()
  | _ =>
      settings ← select (λ r,
        TenantApprovalSettings.tenant_id r ==b Campaign.tenant_id campaign);
      settings_row ← scalar_one_or_none settings;
      t ← asks now;
      let snapshot := approval_snapshot settings_row t in
      foreach rows (λ row,
        assign row (λ a,
          with_metadata "approval_threshold" (JObj snapshot)
            (a <| ContentAsset.status := AssetStatus.pending_approval |>
               <| ContentAsset.updated_at := t |>)) ;;
        mret ())
  end.

(** [app/orchestrator/state_machine.py] lines 338-363, [_all_required_assets_approved]. *)
Definition _all_required_assets_approved (campaign : Campaign.t) : M bool :=
  let cid := Campaign.id campaign in
  total_required ← any_required cid (λ _, true);
  if negb total_required then mret false
  else
    not_yet ← any_required cid (λ a, ContentAsset.status a !=b AssetStatus.approved);
    mret (negb not_yet).

(** [app/orchestrator/state_machine.py] lines 366-375, [_schedule_approved_assets]. *)
Definition _schedule_approved_assets (campaign : Campaign.t) : M () :=
  schedule_approved_assets campaign ;; mret ().

(** The states that block going live. *)
Definition pre_scheduled : list AssetStatus.t :=
  [AssetStatus.requested; AssetStatus.generating; AssetStatus.drafted;
   AssetStatus.pending_approval; AssetStatus.approved; AssetStatus.rejected;
   AssetStatus.failed].

(** [app/orchestrator/state_machine.py] lines 389-431, [_ready_to_go_live]. *)
Definition _ready_to_go_live (campaign : Campaign.t) : M bool :=
  let cid := Campaign.id campaign in
  t ← asks now;
  if date_of t <? Campaign.start_date campaign then mret false
  else
    total_required ← any_required cid (λ _, true);
    if negb total_required then mret false
    else
      blocking ← any_required cid (status_in pre_scheduled);
      mret (negb blocking).

(** [app/orchestrator/state_machine.py] lines 444-458, [_any_required_asset_rejected]. *)
Definition _any_required_asset_rejected (campaign : Campaign.t) : M bool :=
  any_required (Campaign.id campaign) (status_in [AssetStatus.rejected]).

(** [app/orchestrator/state_machine.py] lines 471-479, [_cancel_queued_on_pause]. *)
Definition _cancel_queued_on_pause (campaign : Campaign.t) : M () :=
  cancel_queued_for_campaign (Campaign.id campaign) ;; mret ().

(** [app/orchestrator/state_machine.py] lines 499-510, [_resume_distribution]. *)
Definition _resume_distribution (campaign : Campaign.t) : M () :=
  resume_distribution_for_campaign campaign ;; mret ().

(** [app/orchestrator/state_machine.py] lines 523-540, [_auto_generate_report]. *)
Definition _auto_generate_report (campaign : Campaign.t) : M () :=
  t ← asks now;
  generate_report (Campaign.tenant_id campaign) (Campaign.id campaign) t "system" ;;
  mret ().

(** ** The campaign machine *)

Definition transition name from to g e : Transition :=
  {| tr_name := name; from_state := from; to_state := to; guard := g; on_enter := e |}.

(** [app/orchestrator/state_machine.py] lines 161-168 in [campaign_sm.register]. *)
Definition t_echo_step : Transition :=
  transition "echo_step" CampaignStatus.drafted CampaignStatus.drafted
    None (Some _enqueue_echo_step).

(** [app/orchestrator/state_machine.py] lines 186-193 in [campaign_sm.register]. *)
Definition t_set_strategy : Transition :=
  transition "set_strategy" CampaignStatus.audience_built CampaignStatus.strategy_set
    (Some _has_accepted_strategy) None.

(** [app/orchestrator/state_machine.py] lines 208-215 in [campaign_sm.register]. *)
Definition t_start_content : Transition :=
  transition "start_content" CampaignStatus.strategy_set CampaignStatus.content_in_production
    None (Some _seed_content_assets).

(** [app/orchestrator/state_machine.py] lines 327-335 in [campaign_sm.register]. *)
Definition t_submit_for_approval : Transition :=
  transition "submit_for_approval" CampaignStatus.content_in_production CampaignStatus.approval_pending
    (Some _all_required_assets_drafted) (Some _flip_drafted_assets_to_pending_approval).

(** [app/orchestrator/state_machine.py] lines 378-386 in [campaign_sm.register]. *)
Definition t_start_launch : Transition :=
  transition "start_launch" CampaignStatus.approval_pending CampaignStatus.ready_to_launch
    (Some _all_required_assets_approved) (Some _schedule_approved_assets).

(** [app/orchestrator/state_machine.py] lines 434-441 in [campaign_sm.register]. *)
Definition t_start_live : Transition :=
  transition "start_live" CampaignStatus.ready_to_launch CampaignStatus.live
    (Some _ready_to_go_live) None.

(** [app/orchestrator/state_machine.py] lines 461-468 in [campaign_sm.register]. *)
Definition t_regenerate_after_rejection : Transition :=
  transition "regenerate_after_rejection" CampaignStatus.approval_pending CampaignStatus.content_in_production
    (Some _any_required_asset_rejected) None.

(** [app/orchestrator/state_machine.py] lines 484-496 in [campaign_sm.register]. *)
Definition pause_transitions : list Transition :=
  (λ f, transition "pause" f CampaignStatus.paused None (Some _cancel_queued_on_pause)) <$>
    [CampaignStatus.live; CampaignStatus.optimising; CampaignStatus.ready_to_launch].

(** [app/orchestrator/state_machine.py] lines 513-520 in [campaign_sm.register]. *)
Definition t_resume : Transition :=
  transition "resume" CampaignStatus.paused CampaignStatus.live None (Some _resume_distribution).

(** [app/orchestrator/state_machine.py] lines 545-557 in [campaign_sm.register]. *)
Definition complete_transitions : list Transition :=
  (λ f, transition "complete_campaign" f CampaignStatus.completed None
          (Some _auto_generate_report)) <$>
    [CampaignStatus.live; CampaignStatus.optimising; CampaignStatus.paused].

(** The [register] calls of the module, in order. *)
Definition campaign_transitions : list Transition :=
  [t_echo_step; t_set_strategy; t_start_content; t_submit_for_approval; t_start_launch;
   t_start_live; t_regenerate_after_rejection]
  ++ pause_transitions ++ [t_resume] ++ complete_transitions.

Definition register_all (ts : list Transition) : exn + StateMachine :=
  fold_left (λ sm t, match sm with inl e => inl e | inr sm => register t sm end) ts (inr []).

(** [app/orchestrator/state_machine.py] lines 116-116, [campaign_sm]. *)
Definition campaign_sm : StateMachine :=
  match register_all campaign_transitions with inr sm => sm | inl _ => [] end.
