(* ===== verification/Campaigns.v ===== *)
(** * Campaign and asset endpoints: src/app/api/campaigns.py, src/app/api/content_assets.py

    Authoring and editing a campaign, driving its state machine, the emergency pause and the
    resume; starting content production, regenerating an asset, clearing a compliance block.
    Amounts are in cents. *)

From S2P Require Export StateMachine Requests Jsonb.
Local Open Scope Z_scope.

(** ** Campaigns *)

(** [app/api/schemas/campaign.py] lines 13-28, [CampaignCreate]. *)
Record CampaignCreate := {
  cc_name : string;
  cc_campaign_type : CampaignType.t;
  cc_objective : string;
  cc_start_date : Z;
  cc_end_date : Z;
  cc_budget_total : Z;
  cc_currency : string;
  cc_brief : option string;
  cc_kpi_targets : jdict;
}.

(** [app/api/schemas/campaign.py] lines 31-46, [CampaignPatch]. The outer option is whether the field
    is set, the inner one whether it is null; a null [kpi_targets] is left out. *)
Record CampaignPatch := {
  cp_name : option (option string);
  cp_campaign_type : option (option CampaignType.t);
  cp_objective : option (option string);
  cp_start_date : option (option Z);
  cp_end_date : option (option Z);
  cp_budget_total : option (option Z);
  cp_currency : option (option string);
  cp_brief : option (option string);
  cp_kpi_targets : option jdict;
}.

(** [app/api/campaigns.py] lines 47-56, [_EDITABLE_STATES]. *)
Definition _EDITABLE_STATES : list CampaignStatus.t :=
  [CampaignStatus.drafted; CampaignStatus.audience_built; CampaignStatus.strategy_set;
   CampaignStatus.content_in_production; CampaignStatus.approval_pending; CampaignStatus.ready_to_launch].

Definition bad_dates : exn := HTTPException 422 "end_date must be on or after start_date".
Definition campaign_404 : exn := HTTPException 404 "campaign not found".

(** [app/api/campaigns.py] lines 59-93, [create_campaign]. *)
Definition create_campaign (body : CampaignCreate) (user : AppUser.t) : M Campaign.t :=
  raise_if (cc_end_date body <? cc_start_date body) bad_dates ;;
  t ← asks now;
  add_tracked (λ id, {|
    Campaign.id := id;
    Campaign.tenant_id := AppUser.tenant_id user;
    Campaign.owner_id := Some (AppUser.id user);
    Campaign.name := cc_name body;
    Campaign.status := CampaignStatus.drafted;
    Campaign.campaign_type := cc_campaign_type body;
    Campaign.objective := cc_objective body;
    Campaign.budget_total := cc_budget_total body;
    Campaign.currency := cc_currency body;
    Campaign.start_date := cc_start_date body;
    Campaign.end_date := cc_end_date body;
    Campaign.brief := cc_brief body;
    Campaign.kpi_targets := cc_kpi_targets body;
    Campaign.launched_at := None;
    Campaign.completed_at := None;
    Campaign.created_at := t;
    Campaign.updated_at := t |}).

(** [app/api/campaigns.py] lines 96-122, [list_campaigns]. The page and the number of all matches. *)
Definition list_campaigns (status_filter : option CampaignStatus.t) (campaign_type : option CampaignType.t)
    (q : option string) (limit offset : nat) : M (list Campaign.t * Z) :=
  rows ← select (λ c, from_option (λ st, Campaign.status c ==b st) true status_filter &&
                      from_option (λ k, Campaign.campaign_type c ==b k) true campaign_type &&
                      match q with
                      | Some q => str_empty q || ilike (Campaign.name c) ("%" +:+ q +:+ "%")
                      | None => true
                      end);
  mret (take limit (drop offset (order_by_desc Campaign.updated_at rows)), Z.of_nat (length rows)).

(** [app/api/campaigns.py] lines 125-135, [get_campaign]. *)
Definition get_campaign (campaign_id : N) : M Campaign.t :=
  campaign ← get_row (R:=Campaign.t) campaign_id;
  match campaign with None => raise campaign_404 | Some c => mret c end.

Definition is_set {A} (k : string) (o : option A) : list string := match o with Some _ => [k] | None => [] end.

(** [sorted(updates.keys())]. *)
Definition patched_fields (b : CampaignPatch) : list string :=
  is_set "brief" (cp_brief b) ++ is_set "budget_total" (cp_budget_total b) ++
  is_set "campaign_type" (cp_campaign_type b) ++ is_set "currency" (cp_currency b) ++
  is_set "end_date" (cp_end_date b) ++ is_set "kpi_targets" (cp_kpi_targets b) ++
  is_set "name" (cp_name b) ++ is_set "objective" (cp_objective b) ++
  is_set "start_date" (cp_start_date b).

(** The value of a column after the loop of [setattr]; [None] for a null. *)
Definition attr {A} (o : option (option A)) (old : A) : option A := default (Some old) o.

(** The campaign after the loop, when no NOT NULL column is null. *)
Definition patched (b : CampaignPatch) (c : Campaign.t) : option Campaign.t :=
  name ← attr (cp_name b) (Campaign.name c);
  kind ← attr (cp_campaign_type b) (Campaign.campaign_type c);
  objective ← attr (cp_objective b) (Campaign.objective c);
  start_date ← attr (cp_start_date b) (Campaign.start_date c);
  end_date ← attr (cp_end_date b) (Campaign.end_date c);
  budget ← attr (cp_budget_total b) (Campaign.budget_total c);
  currency ← attr (cp_currency b) (Campaign.currency c);
  Some (c <| Campaign.name := name |>
          <| Campaign.campaign_type := kind |>
          <| Campaign.objective := objective |>
          <| Campaign.start_date := start_date |>
          <| Campaign.end_date := end_date |>
          <| Campaign.budget_total := budget |>
          <| Campaign.currency := currency |>
          <| Campaign.brief := default (Campaign.brief c) (cp_brief b) |>
          <| Campaign.kpi_targets := default (Campaign.kpi_targets c) (cp_kpi_targets b) |>).

(** [app/api/campaigns.py] lines 138-192, [patch_campaign]. A null date cannot be compared; a null in
    another NOT NULL column fails at the flush. *)
Definition patch_campaign (campaign_id : N) (body : CampaignPatch) (_user : AppUser.t) : M Campaign.t :=
  campaign ← get_campaign campaign_id;
  raise_if (negb (Campaign.status campaign ∈b _EDITABLE_STATES))
    (HTTPException 409 ("campaign in '" +:+ value (Campaign.status campaign) +:+
       "' state; editing the core fields is locked until it returns to a pre-launch state")) ;;
  if patched_fields body ==b [] then mret campaign
  else
    (match attr (cp_start_date body) (Campaign.start_date campaign),
           attr (cp_end_date body) (Campaign.end_date campaign) with
     | Some start_date, Some end_date => raise_if (end_date <? start_date) bad_dates
     | _, _ => raise TypeError
     end) ;;
    t ← asks now;
    match patched body campaign with
    | None => raise IntegrityError
    | Some new =>
        after ← assign campaign (λ c, new <| Campaign.updated_at := t |>);
        audit (Campaign.tenant_id campaign) "campaign" (Campaign.id campaign) "updated"
          (Some (column_snapshot campaign)) (Some (column_snapshot after))
          [("fields", JList (JStr <$> patched_fields body))] ;;
        mret after
    end.

(** [except (UnknownTransitionError, GuardFailedError) as exc: raise HTTPException(409, ...)],
    with a prefix on the message of the first. *)
Definition or_409 {A} (prefix : string) (m : M A) : M A :=
  try_except m (λ x, match x with
    | UnknownTransitionError msg => Some (raise (HTTPException 409 (prefix +:+ msg)))
    | GuardFailedError msg => Some (raise (HTTPException 409 msg))
    | _ => None
    end).

(** [app/api/campaigns.py] lines 195-212, [apply_transition]. *)
Definition apply_transition (campaign_id : N) (transition_name : string) (_user : AppUser.t) : M Campaign.t :=
  campaign ← get_campaign campaign_id;
  or_409 "" (StateMachine.apply campaign_sm campaign transition_name).

(** [app/api/schemas/campaign.py] lines 90-94, [PauseCampaignResponse]. *)
Record PauseCampaignResponse := { p_status : CampaignStatus.t; p_reason : string; p_cancelled_tasks : Z }.

(** [app/api/campaigns.py] lines 215-281, [pause_campaign_endpoint]. *)
Definition pause_campaign_endpoint (campaign_id : N) (reason : string) (_user : AppUser.t)
    : M PauseCampaignResponse :=
  campaign ← get_campaign campaign_id;
  queued ← select (λ t, (Task.campaign_id t ==b Some (Campaign.id campaign)) && is_queued t);
  let queued_count := Z.of_nat (length queued) in
  paused ← or_409 ("campaign in '" +:+ value (Campaign.status campaign) +:+ "' cannot be paused: ")
    (StateMachine.apply campaign_sm campaign "pause");
  audit (Campaign.tenant_id campaign) "campaign" (Campaign.id campaign) "pause_reason" None None
    [("reason", JStr reason); ("cancelled_tasks", JInt queued_count)] ;;
  mret {| p_status := Campaign.status paused; p_reason := reason; p_cancelled_tasks := queued_count |}.

(** [app/api/schemas/campaign.py] lines 97-101, [ResumeCampaignResponse]. *)
Record ResumeCampaignResponse := { rs_status : CampaignStatus.t; rs_requeued : Z; rs_elapsed_failed : Z }.

(** [app/api/campaigns.py] lines 284-350, [resume_campaign_endpoint]. *)
Definition resume_campaign_endpoint (campaign_id : N) (_user : AppUser.t) : M ResumeCampaignResponse :=
  campaign ← get_campaign campaign_id;
  raise_if (Campaign.status campaign !=b CampaignStatus.paused)
    (HTTPException 409 ("campaign in '" +:+ value (Campaign.status campaign) +:+ "' is not paused")) ;;
  resumed ← or_409 "" (StateMachine.apply campaign_sm campaign "resume");
  requeued ← select (λ t, (Task.campaign_id t ==b Some (Campaign.id campaign)) &&
                          (Task.status t ==b TaskStatus.queued));
  elapsed ← select (λ a, (ContentAsset.campaign_id a ==b Campaign.id campaign) &&
    (astext (dget "skip_reason" (ContentAsset.extra_metadata a)) ==b Some "slot_elapsed_during_pause"));
  mret {| rs_status := Campaign.status resumed; rs_requeued := Z.of_nat (length requeued);
          rs_elapsed_failed := Z.of_nat (length elapsed) |}.

(** ** Content assets *)

Definition asset_404 : exn := HTTPException 404 "content asset not found".
Definition not_configured : exn :=
  HTTPException 503 "content creator is not configured (ANTHROPIC_API_KEY missing)".

(** ORDER BY scheduled_at NULLS LAST, created_at. *)
Definition asset_list_order (x y : ContentAsset.t) : Prop :=
  match ContentAsset.scheduled_at x, ContentAsset.scheduled_at y with
  | Some a, Some b => a < b ∨ (a = b ∧ ContentAsset.created_at x <= ContentAsset.created_at y)
  | Some _, None => True
  | None, Some _ => False
  | None, None => ContentAsset.created_at x <= ContentAsset.created_at y
  end.
#[export] Instance asset_list_order_dec : RelDecision asset_list_order.
Proof. intros x y. unfold asset_list_order. destruct (ContentAsset.scheduled_at x), (ContentAsset.scheduled_at y); apply _. Defined.

(** [app/api/content_assets.py] lines 48-75, [list_content_assets]. *)
Definition list_content_assets (campaign_id : N) (asset_status : option AssetStatus.t) : M (list ContentAsset.t) :=
  rows ← select (λ a, (ContentAsset.campaign_id a ==b campaign_id) &&
                      from_option (λ st, ContentAsset.status a ==b st) true asset_status);
  mret (merge_sort asset_list_order rows).

(** [app/api/content_assets.py] lines 78-87, [get_content_asset]. *)
Definition get_content_asset (asset_id : N) : M ContentAsset.t :=
  asset ← get_row (R:=ContentAsset.t) asset_id;
  match asset with None => raise asset_404 | Some a => mret a end.

(** [app/api/content_assets.py] lines 90-135, [start_content_production]. [anthropic]: an API key is
    configured. The campaign and the number of its assets. *)
Definition start_content_production (anthropic : bool) (campaign_id : N) (_user : AppUser.t)
    : M (Campaign.t * Z) :=
  raise_if (negb anthropic) not_configured ;;
  campaign ← get_campaign campaign_id;
  started ← try_except (or_409 "" (StateMachine.apply campaign_sm campaign "start_content"))
    (λ x, match x with ContentCreatorError msg => Some (raise (HTTPException 422 msg)) | _ => None end);
  assets ← select (λ a, ContentAsset.campaign_id a ==b Campaign.id campaign);
  mret (started, Z.of_nat (length assets)).

(** [app/api/content_assets.py] lines 138-191, [regenerate_asset]. *)
Definition regenerate_asset (anthropic : bool) (asset_id : N) (user : AppUser.t) : M ContentAsset.t :=
  raise_if (negb anthropic) not_configured ;;
  asset ← get_content_asset asset_id;
  campaign ← get_campaign (ContentAsset.campaign_id asset);
  raise_if (negb (Campaign.status campaign ∈b [CampaignStatus.content_in_production; CampaignStatus.approval_pending]))
    (HTTPException 409 ("cannot regenerate assets while campaign is in '" +:+
       value (Campaign.status campaign) +:+ "'")) ;;
  asset ← assign asset (λ a, a <| ContentAsset.status := AssetStatus.requested |>);
  agent ← ensure_content_creator_agent (ContentAsset.tenant_id asset);
  enqueue_asset_task (ContentAsset.tenant_id asset) (Agent.id agent) (ContentAsset.campaign_id asset)
    "content_creator.generate_asset"
    [("asset_id", j_uuid (ContentAsset.id asset)); ("campaign_id", j_uuid (ContentAsset.campaign_id asset));
     ("triggered_by_user_id", j_uuid (AppUser.id user))] None ;;
  mret asset.

(** [len(compliance.get("hits", []))]. *)
Definition hit_count (compliance : jdict) : exn + Z :=
  match dget "hits" compliance with
  | None => inr 0
  | Some (JList l) => inr (Z.of_nat (length l))
  | Some (JObj d) => inr (Z.of_nat (length d))
  | Some (JStr s) => inr (Z.of_nat (String.length s))
  | Some _ => inl TypeError
  end.

Definition cleared (user : AppUser.t) (compliance : jdict) (a : ContentAsset.t) : ContentAsset.t :=
  a <| ContentAsset.extra_metadata :=
       dset "compliance" (JObj (dset "cleared_by_user_id" (j_uuid (AppUser.id user))
                                 (dset "blocked" (JBool false) compliance)))
         (ContentAsset.extra_metadata a) |>.

(** [app/api/content_assets.py] lines 194-239, [clear_compliance_block]. *)
Definition clear_compliance_block (asset_id : N) (user : AppUser.t) : M ContentAsset.t :=
  asset ← get_content_asset asset_id;
  match as_obj (dget "compliance" (ContentAsset.extra_metadata asset)) with
  | Some compliance =>
      raise_if (negb (opt_truthy (dget "blocked" compliance)))
        (HTTPException 409 "asset has no active compliance block to clear") ;;
      after ← assign asset (cleared user compliance);
      n ← of_sum (hit_count compliance);
      audit (ContentAsset.tenant_id asset) "content_asset" (ContentAsset.id asset) "compliance_cleared"
        (Some (column_snapshot asset)) (Some (column_snapshot after)) [("cleared_hit_count", JInt n)] ;;
      mret after
  | None => raise (HTTPException 409 "asset has no active compliance block to clear")
  end.
