(* ===== verification/LaunchProofs.v ===== *)
(** * Launching a campaign: proofs about scheduling and the state machine

    What the [start_launch] transition does to the asset table, and what the
    guards of the machine mean. *)

From S2P Require Export Fixtures StateMachine.
Local Open Scope Z_scope.

(** ** Frames *)

(** The asset table is left alone. *)
Definition same_assets : relation db := λ s s', t_content_asset s' = t_content_asset s.
#[export] Instance same_assets_preorder : PreOrder same_assets.
Proof. split; unfold same_assets; [by intros s|]. intros s1 s2 s3 H12 H23. congruence. Qed.

Lemma audit_same_assets tid ek eid act b a md : respects same_assets (audit tid ek eid act b a md).
Proof. walk. Qed.
Lemma enqueue_asset_task_same_assets tid aid cid sk inp at_ :
  respects same_assets (enqueue_asset_task tid aid cid sk inp at_).
Proof. walk. Qed.
Lemma ensure_distribution_agent_same_assets tid :
  respects same_assets (ensure_distribution_agent tid).
Proof. walk. Qed.
#[export] Hint Resolve audit_same_assets enqueue_asset_task_same_assets
  ensure_distribution_agent_same_assets : mas.

(** ** Scheduling one asset *)

(** What an asset keeps when it is scheduled, and what it becomes. *)
Record scheduled_from (t : Z) (a r : ContentAsset.t) : Prop := {
  sf_id : ContentAsset.id r = ContentAsset.id a;
  sf_campaign : ContentAsset.campaign_id r = ContentAsset.campaign_id a;
  sf_required : ContentAsset.is_required r = ContentAsset.is_required a;
  sf_status : ContentAsset.status r = AssetStatus.scheduled;
  sf_slot : is_Some (ContentAsset.scheduled_at r);
}.

Lemma slot_for_from t tp a now : scheduled_from t a (touch now (slot_for t tp a)).
Proof.
  unfold slot_for. destruct tp as [tp|]; [destruct (_ <=? _)|]; split; simpl; eauto.
Qed.

Lemma with_metadata_from t a r k v now :
  scheduled_from t a r → scheduled_from t a (touch now (with_metadata k v r)).
Proof. intros []. by split. Qed.

Lemma assign_asset_inr (a : ContentAsset.t) f e s s' a' r0 :
  t_content_asset s !! ContentAsset.id a = Some r0 → assign a f e s = (s', inr a') →
  t_content_asset s' = <[ContentAsset.id a := touch (now e) (f r0)]> (t_content_asset s) ∧
  a' = f a.
Proof.
  intros Hr Hrun. pose proof (assign_inr a f e s s' a' r0) as H.
  by destruct (H Hr Hrun) as [-> ->].
Qed.

(** Turn the runs of steps that leave assets alone into equalities of tables. *)
Ltac frame_assets := repeat match goal with
  | H : ?m ?e ?s = (?s', inr _) |- _ =>
      assert (t_content_asset s' = t_content_asset s) by
        (eapply (respects_run same_assets); [|exact H]; solve [eauto with mas]);
      clear H
  end.
Ltac rewrite_assets := repeat match goal with
  | H : t_content_asset ?x = _ |- context [t_content_asset ?x] => rewrite H
  end.

Lemma schedule_asset_effect c ag tps a e s s' a' :
  t_content_asset s !! ContentAsset.id a = Some a →
  schedule_asset c ag tps a e s = (s', inr a') →
  ∃ r, t_content_asset s' = <[ContentAsset.id a := r]> (t_content_asset s) ∧
    scheduled_from (now e) a r.
Proof.
  intros Ha Hrun. unfold schedule_asset in Hrun. inv_run.
  destruct (assign_asset_inr _ _ _ _ _ _ _ Ha H0) as [Hs1 ->]. clear H0. frame_assets.
  pose proof (slot_for_from (now e) (_touchpoint_id_for a
    ≫= λ i, List.find (λ tp, StrategyTouchpoint.id tp ==b i) tps) a (now e)) as Hsf.
  set (f := slot_for _ _) in *.
  assert (ContentAsset.id (f a) = ContentAsset.id a) as Hid by exact (sf_id _ _ _ Hsf).
  destruct (_dispatch_skill_for _) as [skill|].
  - inv_run. frame_assets. eexists. by rewrite_assets.
  - eapply assign_asset_inr in Hrun as [-> _]; [|by rewrite_assets; rewrite Hid, lookup_insert_eq].
    rewrite_assets. rewrite Hid, insert_insert_eq. eexists. split; [done|].
    by apply with_metadata_from.
Qed.

(** ** Scheduling a batch *)

Lemma schedule_batch_effect c ag tps l e s s' l' :
  NoDup (ContentAsset.id <$> l) →
  (∀ a, a ∈ l → t_content_asset s !! ContentAsset.id a = Some a) →
  mapM_ (schedule_asset c ag tps) l e s = (s', inr l') →
  (∀ k, k ∉ ContentAsset.id <$> l → t_content_asset s' !! k = t_content_asset s !! k) ∧
  (∀ a, a ∈ l → ∃ r, t_content_asset s' !! ContentAsset.id a = Some r ∧ scheduled_from (now e) a r).
Proof.
  revert s l'. induction l as [|a l IH]; intros s l' Hnd Hl Hrun.
  - simpl in Hrun. inv_run. split; [done|]. intros a Ha. by apply not_elem_of_nil in Ha.
  - simpl in Hrun. inv_run. rewrite fmap_cons in Hnd. apply NoDup_cons in Hnd as [Ha Hnd].
    destruct (schedule_asset_effect _ _ _ _ _ _ _ _ (Hl a (list_elem_of_here _ _)) H)
      as (r & Hs1 & Hr).
    apply IH in H0 as [Hout Hin]; [|done|].
    + split.
      * intros k. rewrite fmap_cons, not_elem_of_cons. intros [Hk Hkl].
        rewrite Hout, Hs1 by done. by apply lookup_insert_ne.
      * intros b. rewrite elem_of_cons. intros [->|Hb]; [|auto].
        exists r. split; [|done]. by rewrite Hout, Hs1, lookup_insert_eq.
    + intros b Hb. rewrite Hs1, lookup_insert_ne; [apply Hl; by right|].
      intros Heq. apply Ha. rewrite Heq. by apply list_elem_of_fmap_2.
Qed.

(** ** Looking transitions up *)

Lemma campaign_sm_entries :
  campaign_sm = (λ t, ((from_state t, tr_name t), t)) <$> campaign_transitions.
Proof. reflexivity. Qed.

Lemma campaign_sm_get st n tr :
  sm_get (st, n) campaign_sm = Some tr →
  tr ∈ campaign_transitions ∧ from_state tr = st ∧ tr_name tr = n.
Proof.
  unfold sm_get. rewrite campaign_sm_entries.
  destruct (List.find _ _) as [e|] eqn:E; [|done]. intros [= <-].
  apply find_some in E as [Hin He]. reflect_bools.
  apply list_elem_of_In, list_elem_of_fmap in Hin as (t & -> & Ht). by simplify_eq/=.
Qed.

(** The steps of a transition that is taken: the guard, the status and its audit
    row ([mid]), the entry action. *)
Definition move (c : Campaign.t) (tr : Transition) : M Campaign.t :=
  c' ← assign c (λ c, c <| Campaign.status := to_state tr |>);
  audit (Campaign.tenant_id c') "campaign" (Campaign.id c') "transition_applied"
    (Some [("status", j_enum (Campaign.status c))]) (Some [("status", j_enum (to_state tr))])
    [("transition", JStr (tr_name tr))] ;;
  mret c'.

Lemma apply_inr sm c n e s s' c' :
  apply sm c n e s = (s', inr c') →
  ∃ tr s1 s2, sm_get (Campaign.status c, n) sm = Some tr ∧
    match guard tr with Some g => g c e s = (s1, inr true) | None => s1 = s end ∧
    c' = c <| Campaign.status := to_state tr |> ∧ move c tr e s1 = (s2, inr c') ∧
    match on_enter tr with Some f => ∃ u, f c' e s2 = (s', inr u) | None => s' = s2 end.
Proof.
  unfold apply. destruct (sm_get _ sm) as [tr|]; [|done]. intros Hrun. inv_run. exists tr.
  match goal with H : assign _ _ _ _ = _ |- _ => pose proof (assign_val _ _ _ _ _ _ H) as -> end.
  match goal with H : negb ?b = false |- _ => destruct b; [|done] end.
  do 2 eexists. split; [done|]. split.
  { destruct (guard tr); [eassumption|]. by match goal with H : mret _ _ _ = _ |- _ => injection H end. }
  split; [done|]. split.
  { unfold move. by repeat (erewrite bind_ok by done; cbv beta zeta). }
  destruct (on_enter tr); [eauto|]. by inv_run.
Qed.

Lemma move_same_assets c tr : respects same_assets (move c tr).
Proof. unfold move. walk. Qed.
#[export] Hint Resolve move_same_assets : mas.

(** ** Guards *)

Definition has_required (s : db) (cid : N) (p : ContentAsset.t → bool) : bool :=
  negb (List.filter (required_asset cid p) (snd <$> map_to_list (t_content_asset s)) ==b []).

Lemma any_required_run cid p e s : any_required cid p e s = (s, inr (has_required s cid p)).
Proof. done. Qed.

Lemma has_required_true s cid p :
  has_required s cid p = true ↔
  ∃ k a, t_content_asset s !! k = Some a ∧ ContentAsset.campaign_id a = cid ∧
    ContentAsset.is_required a = true ∧ p a = true.
Proof.
  unfold has_required. rewrite negb_true_iff, bool_decide_eq_false.
  pose proof (select_nil (required_asset cid p) s) as Hnil. unfold required_asset in *.
  split.
  - intros Hne. destruct (List.filter _ _) as [|a l] eqn:E; [done|].
    assert (a ∈ a :: l) as Ha by left. rewrite <- E in Ha.
    apply (elem_of_select _ s) in Ha as [[k Hk] Hp]. exists k, a.
    apply andb_true_iff in Hp as [[Hc Hr]%andb_true_iff Hp]. by reflect_bools.
  - intros (k & a & Hk & Hc & Hr & Hp) Hf. destruct Hnil as [Hnil _].
    specialize (Hnil Hf k a Hk). by rewrite bool_decide_true, Hr, Hp in Hnil.
Qed.

Lemma has_required_false s cid p :
  has_required s cid p = false ↔
  ∀ k a, t_content_asset s !! k = Some a → ContentAsset.campaign_id a = cid →
    ContentAsset.is_required a = true → p a = false.
Proof.
  rewrite <- not_true_iff_false, has_required_true. split.
  - intros Hn k a Hk Hc Hr. destruct (p a) eqn:Hp; [|done]. exfalso. apply Hn. eauto 10.
  - intros Hf (k & a & Hk & Hc & Hr & Hp). by rewrite (Hf k a) in Hp.
Qed.

(** ** The whole launch *)

Lemma keyed_same s s' :
  t_content_asset s' = t_content_asset s → keyed ContentAsset.t s → keyed ContentAsset.t s'.
Proof. unfold keyed, rows_ok. simpl. by intros ->. Qed.

Definition approved_of (cid : N) (a : ContentAsset.t) : bool :=
  (ContentAsset.campaign_id a ==b cid) && (ContentAsset.status a ==b AssetStatus.approved).

(** The rows of a query on assets, and their keys. *)
Definition assets_where (p : ContentAsset.t → bool) (s : db) : list ContentAsset.t :=
  List.filter p (snd <$> map_to_list (t_content_asset s)).

Lemma elem_of_assets_where p s a :
  keyed ContentAsset.t s →
  a ∈ assets_where p s ↔ t_content_asset s !! ContentAsset.id a = Some a ∧ p a = true.
Proof. exact (select_pk_lookup p s a). Qed.

Lemma assets_where_NoDup p s :
  keyed ContentAsset.t s → NoDup (ContentAsset.id <$> assets_where p s).
Proof. exact (select_pk_NoDup p s). Qed.

(** [schedule_approved_assets] schedules every approved asset of the campaign and
    leaves the other assets alone. *)
Lemma schedule_approved_effect c e s s' l :
  keyed ContentAsset.t s → schedule_approved_assets c e s = (s', inr l) →
  ∀ k, match t_content_asset s !! k with
       | Some a =>
           if approved_of (Campaign.id c) a
           then ∃ r, t_content_asset s' !! k = Some r ∧ scheduled_from (now e) a r
           else t_content_asset s' !! k = Some a
       | None => t_content_asset s' !! k = None
       end.
Proof.
  intros Hkey Hrun k. unfold schedule_approved_assets in Hrun. inv_run.
  change (List.filter _ _) with (assets_where (approved_of (Campaign.id c)) s) in Hrun.
  pose proof (λ b, elem_of_assets_where (approved_of (Campaign.id c)) s b Hkey) as Hsel.
  pose proof (assets_where_NoDup (approved_of (Campaign.id c)) s Hkey) as Hnd.
  destruct (assets_where _ s) as [|b l'].
  { inv_run. destruct (t_content_asset s !! k) as [a|] eqn:Hk; [|done].
    pose proof (Hkey k a Hk) as Hid. simpl in Hid. subst k.
    destruct (approved_of _ a) eqn:Ha; [|done].
    by destruct (not_elem_of_nil a); apply Hsel. }
  inv_run.
  assert (t_content_asset x1 = t_content_asset s) as Hs1.
  { frame_assets. match goal with E : t_content_asset x1 = _ |- _ => rewrite E end.
    destruct (_collect_touchpoint_ids _); by inv_run. }
  destruct (schedule_batch_effect _ _ _ _ _ _ _ _ Hnd
    (λ b0 Hb, eq_trans (f_equal (lookup _) Hs1) (proj1 (proj1 (Hsel b0) Hb))) Hrun) as [Hout Hin].
  destruct (t_content_asset s !! k) as [a|] eqn:Hk.
  - destruct (approved_of _ a) eqn:Ha.
    2:{ rewrite Hout, Hs1; [done|]. intros (a2 & -> & Ha2)%list_elem_of_fmap.
        apply Hsel in Ha2 as [Hk2 Hp2]. congruence. }
    pose proof (Hkey k a Hk) as Hid. simpl in Hid. subst k. by apply Hin, Hsel.
  - rewrite Hout, Hs1; [done|]. intros (a2 & -> & Ha2)%list_elem_of_fmap.
    apply Hsel in Ha2 as [Hk2 _]. congruence.
Qed.

(** Name the transition a lookup found. *)
Ltac find_transition H :=
  let Hin := fresh in let Hf := fresh "Hfrom" in let Hn := fresh in
  apply campaign_sm_get in H as (Hin & Hf & Hn);
  repeat (apply elem_of_cons in Hin as [->|Hin]; [try discriminate Hn|]);
  try (by apply not_elem_of_nil in Hin); clear Hn.

Lemma approved_guard_run c e s :
  _all_required_assets_approved c e s =
  (s, inr (has_required s (Campaign.id c) (λ _, true) &&
           negb (has_required s (Campaign.id c) (λ a, ContentAsset.status a !=b AssetStatus.approved)))).
Proof.
  unfold _all_required_assets_approved. rewrite (bind_ok _ _ _ _ _ _ (any_required_run _ _ e s)).
  by destruct (has_required s _ _).
Qed.

Lemma go_live_guard_run c e s :
  _ready_to_go_live c e s =
  (s, inr ((Campaign.start_date c <=? date_of (now e)) &&
           has_required s (Campaign.id c) (λ _, true) &&
           negb (has_required s (Campaign.id c) (status_in pre_scheduled)))).
Proof.
  unfold _ready_to_go_live. run_pure. rewrite Z.ltb_antisym.
  destruct (_ <=? _); simpl; [|done].
  rewrite (bind_ok _ _ _ _ _ _ (any_required_run _ _ e s)). by destruct (has_required s _ _).
Qed.

(** Scheduling when every required asset is approved. *)
Lemma schedule_required c e s s' l :
  keyed ContentAsset.t s →
  has_required s (Campaign.id c) (λ _, true) = true →
  has_required s (Campaign.id c) (λ a, ContentAsset.status a !=b AssetStatus.approved) = false →
  schedule_approved_assets c e s = (s', inr l) →
  has_required s' (Campaign.id c) (λ _, true) = true ∧
  ∀ k a, t_content_asset s' !! k = Some a → ContentAsset.campaign_id a = Campaign.id c →
    ContentAsset.is_required a = true →
    ContentAsset.status a = AssetStatus.scheduled ∧ is_Some (ContentAsset.scheduled_at a).
Proof.
  intros Hkey Htot Happ Hsch. rewrite has_required_false in Happ.
  pose proof (schedule_approved_effect _ _ _ _ _ Hkey Hsch) as Heff.
  assert (∀ k a, t_content_asset s !! k = Some a → ContentAsset.campaign_id a = Campaign.id c →
    ContentAsset.is_required a = true → approved_of (Campaign.id c) a = true) as Hall.
  { intros k a Hk Hc Hr. specialize (Happ k a Hk Hc Hr). unfold approved_of.
    reflect_bools. by rewrite Hc, Happ, !bool_decide_true. }
  split.
  - rewrite has_required_true in Htot |- *. destruct Htot as (k & a & Hk & Hc & Hr & _).
    specialize (Heff k). rewrite Hk, (Hall k a) in Heff by done.
    destruct Heff as (r & Hr' & [_ Hc' Hreq _ _]). exists k, r. by rewrite Hc', Hreq.
  - intros k r Hk Hc Hr. specialize (Heff k).
    destruct (t_content_asset s !! k) as [a|] eqn:Ha; [|congruence].
    destruct (approved_of _ a) eqn:Hap.
    + destruct Heff as (r' & Hr' & [_ _ _ Hst Hslot]). by simplify_eq.
    + rewrite Hk in Heff. injection Heff as <-. by rewrite (Hall k r) in Hap.
Qed.

Lemma start_launch_effect c e s s' c' :
  keyed ContentAsset.t s →
  apply campaign_sm c "start_launch" e s = (s', inr c') →
  Campaign.status c = CampaignStatus.approval_pending ∧
  c' = c <| Campaign.status := CampaignStatus.ready_to_launch |> ∧
  has_required s' (Campaign.id c) (λ _, true) = true ∧
  (∀ k a, t_content_asset s' !! k = Some a → ContentAsset.campaign_id a = Campaign.id c →
     ContentAsset.is_required a = true →
     ContentAsset.status a = AssetStatus.scheduled ∧ is_Some (ContentAsset.scheduled_at a)) ∧
  ∀ e', _ready_to_go_live c' e' s' = (s', inr (Campaign.start_date c <=? date_of (now e'))).
Proof.
  intros Hkey Hrun. apply apply_inr in Hrun as (tr & s1 & s2 & Htr & Hg & Hc' & Hmove & Hent).
  find_transition Htr. simpl in Hfrom, Hg, Hent. destruct Hent as [u Hent]. inv_run.
  unfold _schedule_approved_assets in Hent. inv_run.
  match goal with H : schedule_approved_assets _ _ _ = _ |- _ => rename H into Hsch end.
  rewrite approved_guard_run in Hg. injection Hg as <- [Htot Happ%negb_true_iff]%andb_true_iff.
  frame_assets. assert (keyed ContentAsset.t s2) as Hkey2 by (by eapply keyed_same).
  assert (∀ p, has_required s2 (Campaign.id c') p = has_required s (Campaign.id c) p) as Hsame.
  { intros p. unfold has_required. rewrite_assets. by rewrite Hc'. }
  apply schedule_required in Hsch as [Htot' Hsched]; [|done|by rewrite Hsame..].
  rewrite Hc' in Htot', Hsched. split; [done|]. split; [done|]. split; [done|]. split; [done|].
  intros e'. rewrite go_live_guard_run, Hc'. simpl Campaign.start_date. simpl Campaign.id.
  assert (has_required x (Campaign.id c) (status_in pre_scheduled) = false) as ->.
  { apply has_required_false. intros k a Hk Hc Hr. destruct (Hsched k a Hk Hc Hr) as [Hst _].
    unfold status_in. by rewrite Hst. }
  simpl in Htot'. by rewrite Htot', !andb_true_r.
Qed.

(** When [start_launch] succeeds the campaign is ready to launch, it has a
    required asset, and every required asset of it is scheduled with a slot: none
    is left in a state that blocks going live. So from that moment the guard of
    [start_live] depends on nothing but the date: it accepts exactly when the
    campaign's start date has arrived. *)
Theorem start_launch_ready c e s s' c' :
  keyed ContentAsset.t s →
  apply campaign_sm c "start_launch" e s = (s', inr c') →
  Campaign.status c = CampaignStatus.approval_pending ∧
  c' = c <| Campaign.status := CampaignStatus.ready_to_launch |> ∧
  has_required s' (Campaign.id c) (λ _, true) = true ∧
  (∀ k a, t_content_asset s' !! k = Some a → ContentAsset.campaign_id a = Campaign.id c →
     ContentAsset.is_required a = true →
     ContentAsset.status a = AssetStatus.scheduled ∧ is_Some (ContentAsset.scheduled_at a)) ∧
  ∀ e', _ready_to_go_live c' e' s' = (s', inr (Campaign.start_date c <=? date_of (now e'))).
Proof. apply start_launch_effect. Qed.

(** ** Submitting for approval *)

(** A loop that assigns the same way to each asset of a list. *)
Lemma foreach_assign l (f : ContentAsset.t → ContentAsset.t) e s s' u :
  NoDup (ContentAsset.id <$> l) →
  (∀ a, a ∈ l → t_content_asset s !! ContentAsset.id a = Some a) →
  foreach l (λ a, assign a f ;; mret ()) e s = (s', inr u) →
  ∀ k, t_content_asset s' !! k =
       (λ a, if bool_decide (k ∈ ContentAsset.id <$> l) then touch (now e) (f a) else a) <$>
       t_content_asset s !! k.
Proof.
  revert s. induction l as [|a l IH]; intros s Hnd Hl Hrun k.
  - simpl in Hrun. inv_run. destruct (t_content_asset s !! k) as [b|]; [|done].
    change (Some b = Some (if k ∈b [] then touch (now e) (f b) else b)).
    by rewrite bool_decide_false by (by apply not_elem_of_nil).
  - simpl foreach in Hrun. inv_run. rewrite fmap_cons in Hnd. apply NoDup_cons in Hnd as [Ha Hnd].
    match goal with H : assign a _ _ _ = _ |- _ =>
      destruct (assign_asset_inr _ _ _ _ _ _ _ (Hl a (list_elem_of_here _ _)) H) as [Hs1 _] end.
    erewrite (IH _ Hnd); [|intros b Hb|eassumption].
    + rewrite Hs1, fmap_cons. destruct (decide (k = ContentAsset.id a)) as [->|Hne].
      * rewrite lookup_insert_eq, (Hl a (list_elem_of_here _ _)).
        cbn [fmap option_fmap option_map].
        by rewrite (bool_decide_false _ Ha), bool_decide_true by left.
      * rewrite lookup_insert_ne by done.
        destruct (t_content_asset s !! k); [|done].
        cbn [fmap option_fmap option_map]. f_equal.
        erewrite bool_decide_ext; [reflexivity|]. rewrite elem_of_cons.
        split; [by right|by intros [|]].
    + rewrite Hs1, lookup_insert_ne; [apply Hl; by right|].
      intros Heq. apply Ha. rewrite Heq. by apply list_elem_of_fmap_2.
Qed.

(** The assignments of a submission. *)
Definition submit_values (t : Z) (snapshot : jdict) (a : ContentAsset.t) : ContentAsset.t :=
  with_metadata "approval_threshold" (JObj snapshot)
    (a <| ContentAsset.status := AssetStatus.pending_approval |>
       <| ContentAsset.updated_at := t |>).

Definition settings_rows (s : db) (tid : N) : list TenantApprovalSettings.t :=
  List.filter (λ r, TenantApprovalSettings.tenant_id r ==b tid)
    (snd <$> map_to_list (t_tenant_approval_settings s)).

Definition drafted_required (cid : N) : ContentAsset.t → bool :=
  required_asset cid (status_in [AssetStatus.drafted]).

(** The entry action moves exactly the required drafted assets. *)
Lemma flip_drafted_effect c e s s' u :
  keyed ContentAsset.t s → _flip_drafted_assets_to_pending_approval c e s = (s', inr u) →
  ∀ k, t_content_asset s' !! k =
       (λ a, if drafted_required (Campaign.id c) a
             then touch (now e) (submit_values (now e)
                    (approval_snapshot (head (settings_rows s (Campaign.tenant_id c))) (now e)) a)
             else a) <$> t_content_asset s !! k.
Proof.
  intros Hkey Hrun k. unfold _flip_drafted_assets_to_pending_approval in Hrun. inv_run.
  change (List.filter _ (snd <$> map_to_list (t_content_asset s)))
    with (assets_where (drafted_required (Campaign.id c)) s) in Hrun.
  pose proof (λ b, elem_of_assets_where (drafted_required (Campaign.id c)) s b Hkey) as Hsel.
  pose proof (assets_where_NoDup (drafted_required (Campaign.id c)) s Hkey) as Hnd.
  assert (∀ a, t_content_asset s !! k = Some a →
    (k ∈b (ContentAsset.id <$> assets_where (drafted_required (Campaign.id c)) s)) =
    drafted_required (Campaign.id c) a) as Hmem.
  { intros a Hk. pose proof (Hkey k a Hk) as Hid. simpl in Hid. subst k.
    destruct (drafted_required _ a) eqn:Hp.
    - apply bool_decide_eq_true, list_elem_of_fmap_2. by apply Hsel.
    - apply bool_decide_eq_false. intros (b & Heq & Hb)%list_elem_of_fmap.
      apply Hsel in Hb as [Hb Hpb]. rewrite <- Heq in Hb. congruence. }
  destruct (assets_where _ s) as [|b l'] eqn:E.
  { inv_run. destruct (t_content_asset s !! k) as [a|] eqn:Hk; [simpl|done].
    rewrite <- (Hmem a eq_refl). by rewrite bool_decide_false by apply not_elem_of_nil. }
  rewrite <- E in *. clear E b l'. inv_run.
  change (List.filter _ _) with (settings_rows s (Campaign.tenant_id c)) in Hrun.
  erewrite (foreach_assign _ (submit_values (now e) _)); [|done|by intros a [? _]%Hsel|exact Hrun].
  destruct (t_content_asset s !! k) as [a|] eqn:Hk; [|done].
  cbn [fmap option_fmap option_map]. by rewrite (Hmem a eq_refl).
Qed.

Lemma drafted_guard_run c e s :
  _all_required_assets_drafted c e s =
  (s, inr (has_required s (Campaign.id c) (λ _, true) &&
           negb (has_required s (Campaign.id c)
                   (status_in [AssetStatus.requested; AssetStatus.generating; AssetStatus.failed])) &&
           negb (has_required s (Campaign.id c) compliance_blocked_sql))).
Proof.
  unfold _all_required_assets_drafted. cbv zeta.
  rewrite (bind_ok _ _ _ _ _ _ (any_required_run _ _ e s)).
  destruct (has_required s _ (λ _, true)); [|done]. cbn [negb andb].
  rewrite (bind_ok _ _ _ _ _ _ (any_required_run _ _ e s)).
  by destruct (has_required s _ (status_in _)).
Qed.

(** The tables a submission reads or leaves alone. *)
Definition same_settings : relation db := λ s s',
  t_tenant_approval_settings s' = t_tenant_approval_settings s.
#[export] Instance same_settings_preorder : PreOrder same_settings.
Proof. split; unfold same_settings; [by intros s|]. intros s1 s2 s3 H12 H23. congruence. Qed.

Lemma move_same_settings c tr : respects same_settings (move c tr).
Proof. unfold move. walk. Qed.

(** What a submission makes of an asset. *)
Definition submit_asset (t : Z) (cid : N) (snap : jdict) (a : ContentAsset.t) : ContentAsset.t :=
  if drafted_required cid a then touch t (submit_values t snap a) else a.

Lemma submit_asset_same t cid snap a :
  ContentAsset.campaign_id (submit_asset t cid snap a) = ContentAsset.campaign_id a ∧
  ContentAsset.is_required (submit_asset t cid snap a) = ContentAsset.is_required a ∧
  compliance_blocked_sql (submit_asset t cid snap a) = compliance_blocked_sql a.
Proof.
  unfold submit_asset. destruct (drafted_required cid a); [|done]. split; [done|split; [done|]].
  unfold compliance_blocked_sql. simpl. by rewrite dget_dset_ne.
Qed.

Lemma submit_asset_status t cid snap a :
  ContentAsset.campaign_id a = cid → ContentAsset.is_required a = true →
  status_in [AssetStatus.requested; AssetStatus.generating; AssetStatus.failed] a = false →
  status_in [AssetStatus.requested; AssetStatus.generating; AssetStatus.drafted;
             AssetStatus.failed] (submit_asset t cid snap a) = false.
Proof.
  intros Hc Hr. unfold submit_asset, drafted_required, required_asset.
  rewrite Hc, Hr, bool_decide_true by done. unfold status_in.
  destruct (ContentAsset.status a) eqn:E; simpl; rewrite ?E; done.
Qed.

(** A query after a pointwise change of the assets is a query before it. *)
Lemma has_required_map s s' cid g q :
  (∀ k, t_content_asset s' !! k = g <$> t_content_asset s !! k) →
  (∀ a, ContentAsset.campaign_id (g a) = ContentAsset.campaign_id a ∧
        ContentAsset.is_required (g a) = ContentAsset.is_required a) →
  has_required s' cid q = has_required s cid (λ a, q (g a)).
Proof.
  intros Hs Hg. apply eq_true_iff_eq. rewrite !has_required_true. split.
  - intros (k & a' & Hk & Hc & Hr & Hq). rewrite Hs in Hk.
    apply fmap_Some in Hk as (a & Hk & ->). destruct (Hg a) as [Ec Er].
    exists k, a. by rewrite <- Ec, <- Er.
  - intros (k & a & Hk & Hc & Hr & Hq). destruct (Hg a) as [Ec Er].
    exists k, (g a). by rewrite Hs, Hk, Ec, Er.
Qed.

(** What a submission does: its guard held, and it flipped the drafted required assets. *)
Lemma submit_effect c e s s' c' :
  keyed ContentAsset.t s →
  apply campaign_sm c "submit_for_approval" e s = (s', inr c') →
  c' = c <| Campaign.status := CampaignStatus.approval_pending |> ∧
  has_required s (Campaign.id c) (λ _, true) = true ∧
  has_required s (Campaign.id c)
    (status_in [AssetStatus.requested; AssetStatus.generating; AssetStatus.failed]) = false ∧
  has_required s (Campaign.id c) compliance_blocked_sql = false ∧
  ∀ k, t_content_asset s' !! k =
    submit_asset (now e) (Campaign.id c)
      (approval_snapshot (head (settings_rows s (Campaign.tenant_id c))) (now e)) <$> t_content_asset s !! k.
Proof.
  intros Hkey Hrun. apply apply_inr in Hrun as (tr & s1 & s2 & Htr & Hg & Hc' & Hmove & Hent).
  find_transition Htr. simpl in Hfrom, Hg, Hent. destruct Hent as [u Hent].
  rewrite drafted_guard_run in Hg.
  injection Hg as <- [[Htot Hst%negb_true_iff]%andb_true_iff Hblk%negb_true_iff]%andb_true_iff.
  assert (t_tenant_approval_settings s2 = t_tenant_approval_settings s) as Hset
    by exact (respects_run same_settings _ _ _ _ _ (move_same_settings _ _) Hmove).
  frame_assets.
  pose proof (flip_drafted_effect _ _ _ _ _ (keyed_same _ _ H Hkey) Hent) as Heff.
  unfold settings_rows in Heff. rewrite Hset, H, Hc' in Heff. by split_and!.
Qed.

(** When [submit_for_approval] succeeds the campaign is pending approval and
    no required asset of it is still requested, generating, drafted or failed, nor
    carries a compliance block. Each required asset that was drafted is now pending
    approval and carries the tenant's approval thresholds as they are at that
    moment; every other asset is untouched. *)
Theorem submit_for_approval_spec c e s s' c' :
  keyed ContentAsset.t s →
  apply campaign_sm c "submit_for_approval" e s = (s', inr c') →
  c' = c <| Campaign.status := CampaignStatus.approval_pending |> ∧
  has_required s' (Campaign.id c) (λ _, true) = true ∧
  has_required s' (Campaign.id c)
    (status_in [AssetStatus.requested; AssetStatus.generating; AssetStatus.drafted;
                AssetStatus.failed]) = false ∧
  has_required s' (Campaign.id c) compliance_blocked_sql = false ∧
  ∀ k a, t_content_asset s !! k = Some a →
    ∃ a', t_content_asset s' !! k = Some a' ∧
      if drafted_required (Campaign.id c) a
      then ContentAsset.status a' = AssetStatus.pending_approval ∧
           dget "approval_threshold" (ContentAsset.extra_metadata a') =
             Some (JObj (approval_snapshot (head (settings_rows s (Campaign.tenant_id c))) (now e)))
      else a' = a.
Proof.
  intros Hkey Hrun. apply submit_effect in Hrun as (Hc' & Htot & Hst & Hblk & Heff); [|done].
  set (snap := approval_snapshot _ _) in *.
  pose proof (submit_asset_same (now e) (Campaign.id c) snap) as Hsame.
  assert (∀ q, has_required s' (Campaign.id c) q =
               has_required s (Campaign.id c) (λ a, q (submit_asset (now e) (Campaign.id c) snap a)))
    as Hmap.
  { intros q. apply has_required_map; [exact Heff|]. intros a. by destruct (Hsame a) as (-> & -> & _). }
  rewrite !Hmap. split; [done|]. split; [exact Htot|].
  rewrite !has_required_false. rewrite !has_required_false in Hst, Hblk. split_and!.
  - intros k a Hk Hc Hr. apply submit_asset_status; eauto.
  - intros k a Hk Hc Hr. destruct (Hsame a) as (_ & _ & ->). eauto.
  - intros k a Hk. exists (submit_asset (now e) (Campaign.id c) snap a).
    split; [by rewrite Heff, Hk|]. unfold submit_asset. destruct (drafted_required _ a); [|done].
    split; [done|]. apply dget_dset_eq.
Qed.

(** ** The machine as a whole *)

(** The guards only read. *)
Lemma guards_pure tr g c e s :
  tr ∈ campaign_transitions → guard tr = Some g → ∃ b, g c e s = (s, inr b).
Proof.
  intros Hin Hg.
  repeat (apply elem_of_cons in Hin as [->|Hin]; [simplify_eq/=|]);
    try (by apply not_elem_of_nil in Hin); try done;
    eexists; first
    [ apply drafted_guard_run | apply approved_guard_run | apply go_live_guard_run | reflexivity ].
Qed.

(** The edges the module registers. *)
Definition machine_edges : list (CampaignStatus.t * string * CampaignStatus.t) :=
  (λ t, (from_state t, tr_name t, to_state t)) <$> campaign_transitions.

Lemma apply_edge c n e s s' c' :
  apply campaign_sm c n e s = (s', inr c') →
  (Campaign.status c, n, Campaign.status c') ∈ machine_edges ∧
  c' = c <| Campaign.status := Campaign.status c' |>.
Proof.
  intros (tr & s1 & s2 & Htr & _ & -> & _)%apply_inr.
  apply campaign_sm_get in Htr as (Hin & <- & <-). split; [|done].
  unfold machine_edges. apply list_elem_of_fmap. by exists tr.
Qed.

(** The states of a campaign that has not been launched. *)
Definition planning : list CampaignStatus.t :=
  [CampaignStatus.drafted; CampaignStatus.audience_built; CampaignStatus.strategy_set;
   CampaignStatus.content_in_production; CampaignStatus.approval_pending].

Definition edge_ok (e : CampaignStatus.t * string * CampaignStatus.t) : bool :=
  let '(a, n, b) := e in
  (a !=b CampaignStatus.completed) && (b !=b CampaignStatus.audience_built) &&
  (b !=b CampaignStatus.optimising) &&
  (negb (a ∈b planning) ||
   ((b ∈b planning) ||
    ((n ==b "start_launch") && (a ==b CampaignStatus.approval_pending) &&
     (b ==b CampaignStatus.ready_to_launch)))).

Lemma machine_edges_shape a n b :
  (a, n, b) ∈ machine_edges →
  a ≠ CampaignStatus.completed ∧ b ≠ CampaignStatus.audience_built ∧
  b ≠ CampaignStatus.optimising ∧
  (a ∈ planning → b ∈ planning ∨
     (n = "start_launch" ∧ a = CampaignStatus.approval_pending ∧ b = CampaignStatus.ready_to_launch)).
Proof.
  intros He. pose proof (proj1 (forallb_elem_of edge_ok machine_edges) eq_refl _ He) as Hok.
  unfold edge_ok in Hok. reflect_bools. split_and!; [done..|]. intros Ha.
  rewrite (bool_decide_true _ Ha) in *. simpl in *.
  match goal with H : (_ || _)%bool = true |- _ => apply orb_true_iff in H as [H|H] end;
    reflect_bools; auto.
Qed.

(** The registered table loads without a clash, and [apply] on it is exactly
    this: a transition that is not in the table raises [UnknownTransitionError]; one
    whose guard refuses raises [GuardFailedError]; both leave the database as it was.
    A transition that succeeds is an edge of the table and changes nothing of the
    campaign but its status. No edge leaves a completed campaign, and no edge enters
    [audience_built] or [optimising]. *)
Theorem campaign_sm_spec c n e s :
  register_all campaign_transitions = inr campaign_sm ∧
  (sm_get (Campaign.status c, n) campaign_sm = None →
     ∃ msg, apply campaign_sm c n e s = (s, inl (UnknownTransitionError msg))) ∧
  (∀ tr g, sm_get (Campaign.status c, n) campaign_sm = Some tr → guard tr = Some g →
     run_val (g c e s) ≠ Some true →
     ∃ msg, apply campaign_sm c n e s = (s, inl (GuardFailedError msg))) ∧
  (∀ s' c', apply campaign_sm c n e s = (s', inr c') →
     (Campaign.status c, n, Campaign.status c') ∈ machine_edges ∧
     c' = c <| Campaign.status := Campaign.status c' |> ∧
     Campaign.status c ≠ CampaignStatus.completed ∧
     Campaign.status c' ≠ CampaignStatus.audience_built ∧
     Campaign.status c' ≠ CampaignStatus.optimising).
Proof.
  split; [reflexivity|]. split_and!.
  - intros Hn. unfold apply. rewrite Hn. by eexists.
  - intros tr g Htr Hg Hrun. unfold apply. rewrite Htr, Hg.
    apply campaign_sm_get in Htr as (Hin & _ & _).
    destruct (guards_pure tr g c e s Hin Hg) as [b Hb]. rewrite Hb in Hrun.
    rewrite (bind_ok _ _ _ _ _ _ Hb). destruct b; [done|]. by eexists.
  - intros s' c' [He Hc]%apply_edge. split; [done|]. split; [done|].
    by destruct (machine_edges_shape _ _ _ He) as (? & ? & ? & _).
Qed.

(** A transition applied to a campaign, whatever else happens to the database in
    between. *)
Inductive sm_step : Campaign.t → Campaign.t → Prop :=
  | sm_step_apply c n e s s' c' :
      apply campaign_sm c n e s = (s', inr c') → sm_step c c'.

(** C4: no sequence of transitions takes a campaign that is still being planned
    to a launched state without [start_launch] succeeding on the way, from
    [approval_pending]: the approval gate cannot be walked around. *)
Theorem launch_gate c c' :
  rtc sm_step c c' → Campaign.status c ∈ planning → Campaign.status c' ∉ planning →
  ∃ c1 c2 e s s', rtc sm_step c c1 ∧ Campaign.status c1 = CampaignStatus.approval_pending ∧
    apply campaign_sm c1 "start_launch" e s = (s', inr c2) ∧ rtc sm_step c2 c'.
Proof.
  induction 1 as [c|c c1 c' Hstep Hrest IH]; intros Hp Hn; [done|].
  destruct Hstep as [c n e s s1 c1 Hrun].
  destruct (apply_edge _ _ _ _ _ _ Hrun) as [He _].
  destruct (proj2 (proj2 (proj2 (machine_edges_shape _ _ _ He))) Hp) as [Hp1|(-> & Ha & _)].
  - destruct (IH Hp1 Hn) as (d1 & d2 & e' & t & t' & H1 & H2 & H3 & H4).
    exists d1, d2, e', t, t'. split; [|done].
    eapply rtc_l; [|done]. by eapply sm_step_apply.
  - exists c, c1, e, s, s1. by split; [apply rtc_refl|].
Qed.

(** ** The theorems at concrete inputs *)

Definition launch_db : db :=
  sample_db (sample_campaign CampaignStatus.approval_pending)
    [sample_asset 11 AssetType.email AssetStatus.approved []].

Lemma start_launch_ready_witness :
  let c := sample_campaign CampaignStatus.approval_pending in
  ∃ s' c', apply campaign_sm c "start_launch" (demo_env 5) launch_db = (s', inr c') ∧
    ∀ e', _ready_to_go_live c' e' s' = (s', inr (0 <=? date_of (now e'))).
Proof.
  intros c. destruct (apply campaign_sm c "start_launch" (demo_env 5) launch_db) as [s' r] eqn:E.
  destruct r as [x|c'].
  - exfalso. apply (f_equal run_exn) in E. by vm_compute in E.
  - exists s', c'. split; [done|].
    destruct (start_launch_ready c (demo_env 5) launch_db s' c' (sample_db_keyed _ _) E)
      as (_ & _ & _ & _ & Hgo). exact Hgo.
Defined.

Definition submit_db : db :=
  sample_db (sample_campaign CampaignStatus.content_in_production)
    [sample_asset 11 AssetType.email AssetStatus.drafted []]
  <| t_tenant_approval_settings := {[ 20%N := sample_settings (Some 5000) 1000 ]} |>.

Lemma submit_db_keyed : keyed ContentAsset.t submit_db.
Proof. apply (sample_db_keyed (sample_campaign CampaignStatus.content_in_production)). Qed.

Lemma submit_for_approval_spec_witness :
  let c := sample_campaign CampaignStatus.content_in_production in
  ∃ s' c' a', apply campaign_sm c "submit_for_approval" (demo_env 5) submit_db = (s', inr c') ∧
    t_content_asset s' !! 11%N = Some a' ∧ ContentAsset.status a' = AssetStatus.pending_approval.
Proof.
  intros c. destruct (apply campaign_sm c "submit_for_approval" (demo_env 5) submit_db)
    as [s' r] eqn:E.
  destruct r as [x|c'].
  - exfalso. apply (f_equal run_exn) in E. by vm_compute in E.
  - destruct (submit_for_approval_spec c (demo_env 5) submit_db s' c' submit_db_keyed E)
      as (_ & _ & _ & _ & Ha).
    destruct (Ha 11%N _ eq_refl) as (a' & Hk & Hst & _). by exists s', c', a'.
Defined.

Lemma launch_gate_witness :
  let c := sample_campaign CampaignStatus.approval_pending in
  let c' := c <| Campaign.status := CampaignStatus.ready_to_launch |> in
  sm_step c c' ∧
  ∃ c1 e s s' c2, apply campaign_sm c1 "start_launch" e s = (s', inr c2) ∧ rtc sm_step c2 c'.
Proof.
  intros c c'. assert (sm_step c c') as Hstep.
  { apply (sm_step_apply c "start_launch" (demo_env 5) launch_db
      (apply campaign_sm c "start_launch" (demo_env 5) launch_db).1). by vm_compute. }
  split; [done|].
  destruct (launch_gate c c' (rtc_once _ _ Hstep)) as (c1 & c2 & e & s & s' & _ & _ & Hr & Hc).
  - by apply (bool_decide_eq_true_1 (_ ∈ planning)).
  - by apply (bool_decide_eq_false_1 (_ ∈ planning)).
  - by exists c1, e, s, s', c2.
Defined.
