(* ===== verification/ContentCreator.v ===== *)
(** * Generating content: src/app/agents/content_creator.py

    One generation task: the copywriting tool with the voice, the variant angle and the
    rewrite directives, the compliance and brand checks, the SEO pass, the draft written to
    the asset, and the campaign submitted when the draft was the last one it waited for.
    The tools and [re.compile] are parameters, as the agent gets them; the handler at the
    end passes the tools of Copywriting and Seo. *)

From S2P Require Export Compliance Copywriting Seo Seeding.
From S2P Require Export Segmentation StateMachine.
From S2P Require Import Db PyDecimal StateMachine.
Local Open Scope Z_scope.

(** [app/agents/_variants.py] lines 37-37, [SIMILARITY_THRESHOLD]. *)
Definition SIMILARITY_THRESHOLD : dec := Dec 9 (-1).
(** [app/agents/_variants.py] lines 38-38, [SIM_REGEN_MAX_RETRIES]. *)
Definition SIM_REGEN_MAX_RETRIES : nat := 2.

(** ** Prompt inputs and metadata *)

(** [app/agents/_content_planner.py] lines 92-130, [build_copywriting_inputs]. *)
Definition build_copywriting_inputs (plan : AssetPlan) (campaign_brief : option string)
    (audience_summary : string) (voice_prompt : option string) (touchpoint_position total : Z)
    (target_keywords : list string) (seed : string) : jdict :=
  let parts :=
    match campaign_brief with
    | Some b => if str_empty b then [] else [str_strip b]
    | None => []
    end ++
    ["Touch " +:+ str_of_Z touchpoint_position +:+ " of " +:+ str_of_Z total +:+ " on the " +:+
     tool_channel plan +:+ " channel."] ++
    (if requires_seo plan && negb (target_keywords ==b [])
     then ["Target keywords: " +:+ str_join ", " target_keywords] else []) in
  [("channel", JStr (tool_channel plan)); ("asset_type", j_enum (plan_asset_type plan));
   ("brief", JStr (str_join blank_line parts))] ++
  match voice_prompt with
  | Some v => if str_empty v then [] else [("voice", JStr v)]
  | None => []
  end ++
  (if str_empty audience_summary then [] else [("audience_summary", JStr audience_summary)]) ++
  [("seed", JStr seed)].

(** [app/agents/_content_planner.py] lines 133-145, [extract_title]. *)
Definition extract_title (copywriting_output : jdict) : option string :=
  let nonblank k := s ← as_str (dget k copywriting_output);
                    if str_empty (str_strip s) then None else Some (str_strip s) in
  match omap nonblank ["title"; "subject"; "headline"] with
  | s :: _ => Some (str_take 300 s)
  | [] => b ← nonblank "body"; str_take 300 <$> head (splitlines b)
  end.

(** [app/agents/_content_planner.py] lines 148-172, [bundle_metadata]. *)
Definition bundle_metadata (copywriting_output : jdict) (brand_check : jdict) (seo : option jdict) : jdict :=
  let fields := List.filter (λ kv : string * json,
    negb (kv.1 ∈b ["length_metrics"; "length_warning"; "body"]) &&
    match kv.2 with JStr _ => true | _ => false end) copywriting_output in
  [("storage_uri", JNull); ("fields", JObj fields);
   ("length_metrics", default (JObj []) (dget "length_metrics" copywriting_output));
   ("brand_check", JObj brand_check)] ++
  match dget "length_warning" copywriting_output with Some w => [("length_warning", w)] | None => [] end ++
  match seo with Some s => [("seo", JObj s)] | None => [] end.

(** [app/agents/content_creator.py] lines 601-611, [_brief_with_directives]. *)
Definition _brief_with_directives (brief : option string) (directives : list string) : option string :=
  let sections :=
    match brief with
    | Some b => if str_empty (str_strip b) then [] else [str_strip b]
    | None => []
    end ++ List.filter (λ d, negb (str_empty d)) directives in
  match sections with [] => None | _ => Some (str_join blank_line sections) end.

(** ** What a generation reads *)

(** [app/agents/content_creator.py] lines 518-528, [_load_active_voice]. *)
Definition _load_active_voice (tenant_id : N) : M (option BrandVoice.t) :=
  rows ← select (λ v, (BrandVoice.tenant_id v ==b tenant_id) && BrandVoice.is_active v);
  scalar_one_or_none rows.

(** [app/agents/content_creator.py] lines 531-541, [_load_audience]. *)
Definition _load_audience (campaign_id : N) : M (option Audience.t) :=
  rows ← select (λ a, Audience.campaign_id a ==b campaign_id);
  mret (head (order_by_desc Audience.created_at rows)).

(** [app/agents/content_creator.py] lines 544-547, [_summarise_audience]. *)
Definition _summarise_audience (audience : option Audience.t) : string :=
  match audience with
  | None => ""
  | Some a => "audience '" +:+ Audience.name a +:+ "' (criteria: "
              +:+ json_str (JObj (Audience.segment_criteria a)) +:+ ")"
  end.

(** [app/agents/content_creator.py] lines 550-557, [_target_keywords]. *)
Definition _target_keywords (campaign : Campaign.t) : list string :=
  match dget "target_keywords" (Campaign.kpi_targets campaign) with
  | Some (JList raw) => omap (λ k, text_of (Some k)) raw
  | _ => []
  end.

(** [app/agents/content_creator.py] lines 560-568, [_load_compliance_rules]. *)
Definition _load_compliance_rules (tenant_id : N) : M (list ComplianceRule.t) :=
  select (λ r, ComplianceRule.tenant_id r ==b tenant_id).

(** [app/agents/content_creator.py] lines 571-598, [_baseline_variant_body]. *)
Definition _baseline_variant_body (asset : ContentAsset.t) : M (option string) :=
  let md := ContentAsset.extra_metadata asset in
  let group_id := default JNull (dget "ab_test_group_id" md) in
  if py_eq (default (JInt 0) (dget "variant_index" md)) (JInt 0) then mret None
  else if negb (truthy group_id) then mret None
  else
    rows ← select (λ a, (ContentAsset.campaign_id a ==b ContentAsset.campaign_id asset) &&
                        (ContentAsset.id a !=b ContentAsset.id asset));
    let baseline a :=
      py_eq (default JNull (dget "ab_test_group_id" (ContentAsset.extra_metadata a))) group_id &&
      py_eq (default JNull (dget "variant_index" (ContentAsset.extra_metadata a))) (JInt 0) in
    mret (List.find baseline rows ≫= ContentAsset.content).

(** ORDER BY scheduled_at ASC, created_at ASC: NULL comes last. *)
Definition schedule_order (x y : ContentAsset.t) : Prop :=
  match ContentAsset.scheduled_at x, ContentAsset.scheduled_at y with
  | Some a, Some b => a < b ∨ (a = b ∧ ContentAsset.created_at x <= ContentAsset.created_at y)
  | None, None => ContentAsset.created_at x <= ContentAsset.created_at y
  | None, Some _ => False
  | Some _, None => True
  end.
#[export] Instance schedule_order_dec : RelDecision schedule_order.
Proof. intros x y. unfold schedule_order. repeat case_match; apply _. Defined.

(** [app/agents/content_creator.py] lines 627-648, [_channel_sibling_index]. *)
Definition _channel_sibling_index (campaign_id : N) (asset : ContentAsset.t) : M (Z * Z) :=
  rows ← select (λ a, (ContentAsset.campaign_id a ==b campaign_id) &&
                      (ContentAsset.asset_type a ==b ContentAsset.asset_type asset));
  let ids := ContentAsset.id <$> merge_sort schedule_order rows in
  let idx := from_option (λ i : nat * N, Z.of_nat (S i.1)) 1 (list_find (λ k, k = ContentAsset.id asset) ids) in
  mret (idx, Z.max (Z.of_nat (length ids)) 1).

Section generation.
Context (re_compile : string → string + regex).
Context (copywriting_tool seo_tool : jdict → exn + jdict).

(** ** The attempts *)

(** What the attempts leave behind. *)
Record generation := {
  cw_output : jdict;
  compliance_result : list ComplianceHit;
  rewritten_for_suppression : bool;
  sim_score : option flt;
}.

(** The directives of an attempt. *)
Definition directives_for (variant_angle : string) (suppression_hints : list string)
    (differentiation_hint : bool) : list string :=
  (if str_empty variant_angle then [] else ["Variant angle: " +:+ variant_angle +:+ "."]) ++
  (if suppression_hints ==b [] then [] else
     ["Compliance rewrite required - do NOT use these terms: " +:+
      str_join ", " (str_sort (remove_dups suppression_hints)) +:+ "."]) ++
  (if differentiation_hint then
     ["This variant is too similar to the baseline. Rewrite with a " +:+
      "materially different opening, narrative structure, and CTA. " +:+
      "Keep the channel and offer the same but change the angle."] else []).

(** [isinstance(variant_idx, int) and variant_idx > 0]. *)
Definition is_variant (variant_idx : option json) : bool :=
  match variant_idx with
  | Some (JInt z) => 0 <? z
  | Some (JBool b) => b
  | _ => false
  end.

Definition body_of (output : jdict) : string := json_str (default (JStr "") (dget "body" output)).

(** The loop of [_run_generation]: [inputs] builds the tool's inputs from the directives and
    the number of the attempt. *)
Fixpoint attempts (inputs : list string → nat → jdict) (rules : list ComplianceRule.t)
    (variant_angle : string) (baseline_body : option string) (variant : bool) (fuel attempt : nat)
    (hints : list string) (differentiate rewritten : bool) (sim : option flt) : exn + generation :=
  match copywriting_tool (inputs (directives_for variant_angle hints differentiate) attempt) with
  | inl x => inl x
  | inr output =>
      let body_text := body_of output in
      match check_compliance re_compile body_text rules with
      | inl x => inl x
      | inr hits =>
          let need_suppression := negb (warn_keywords hits ==b []) in
          let sim' := match baseline_body with
                      | Some b => if negb (str_empty b) && variant && negb (str_empty body_text)
                                  then Some (body_cosine_similarity b body_text) else None
                      | None => None
                      end in
          let need_differentiation :=
            from_option (λ s, flt_gt s (flt_of_dec SIMILARITY_THRESHOLD)) false sim' in
          let sim := match sim' with Some s => Some s | None => sim end in
          let done := inr {| cw_output := output; compliance_result := hits;
                             rewritten_for_suppression := rewritten; sim_score := sim |} in
          match fuel with
          | O => done
          | S fuel =>
              if negb (need_suppression || need_differentiation) then done
              else attempts inputs rules variant_angle baseline_body variant fuel (S attempt)
                     (if need_suppression then hints ++ warn_keywords hits else hints)
                     need_differentiation (rewritten || need_suppression) sim
          end
      end
  end.

(** ** A draft *)

Definition similarity_metadata (s : flt) : json :=
  JObj [("score", jopt JFloat (flt_round_dec 4 s)); ("threshold", JFloat SIMILARITY_THRESHOLD);
        ("passed", JBool (negb (flt_gt s (flt_of_dec SIMILARITY_THRESHOLD))))].

(** The SEO pass of a long-form asset. *)
Definition seo_pass (plan : AssetPlan) (target_keywords : list string) (output : jdict)
    : exn + option jdict :=
  if negb (requires_seo plan) then inr None
  else if target_keywords ==b [] then
    inr (Some [("reason", JStr "no_target_keywords"); ("score", JNull)])
  else
    let or_else a b := if opt_truthy a then default JNull a else b in
    let title := or_else (dget "title" output) (or_else (dget "headline" output) (JStr "")) in
    match seo_tool [("draft", JStr (body_of output)); ("target_keywords", JList (JStr <$> target_keywords));
                    ("title", title)] with
    | inl x => inl x
    | inr out => inr (Some out)
    end.

(** The metadata a generation adds. *)
Definition metadata_extras (g : generation) : jdict :=
  [("compliance", JObj (as_metadata (compliance_result g) (rewritten_for_suppression g)))] ++
  match sim_score g with Some s => [("variant_similarity", similarity_metadata s)] | None => [] end.

(** [app/agents/content_creator.py] lines 312-467, [_run_generation]. *)
Definition _run_generation (asset : ContentAsset.t) (campaign : Campaign.t) (plan : AssetPlan) : M jdict :=
  voice ← _load_active_voice (Campaign.tenant_id campaign);
  audience ← _load_audience (Campaign.id campaign);
  siblings ← _channel_sibling_index (Campaign.id campaign) asset;
  let target_keywords := _target_keywords campaign in
  tenant_rules ← _load_compliance_rules (Campaign.tenant_id campaign);
  let md := ContentAsset.extra_metadata asset in
  let variant_angle := match dget "variant_angle" md with
                       | Some v => if truthy v then json_str v else ""
                       | None => ""
                       end in
  baseline_body ← _baseline_variant_body asset;
  let inputs directives attempt :=
    build_copywriting_inputs plan (_brief_with_directives (Campaign.brief campaign) directives)
      (_summarise_audience audience) (format_brand_voice_prompt <$> voice) siblings.1 siblings.2
      (if requires_seo plan then target_keywords else [])
      (uuid_str (ContentAsset.id asset) +:+ "-" +:+ str_of_Z (Z.of_nat attempt)) in
  g ← of_sum (attempts inputs tenant_rules variant_angle baseline_body
                (is_variant (dget "variant_index" md)) SIM_REGEN_MAX_RETRIES 0 [] false false None);
  let output := cw_output g in
  let body_text := body_of output in
  let dont_words := from_option BrandVoice.dont_words [] voice in
  let brand_hits := check_dont_words body_text dont_words in
  let brand_check := [("pass", JBool (brand_hits ==b [])); ("failing_words", JList (JStr <$> brand_hits));
                      ("dont_words_checked", JList (JStr <$> dont_words))] in
  seo_payload ← of_sum (seo_pass plan target_keywords output);
  asset ← assign asset (λ a, a
    <| ContentAsset.title := extract_title output |>
    <| ContentAsset.content := if str_empty body_text then None else Some body_text |>
    <| ContentAsset.extra_metadata :=
         dmerge (dmerge (ContentAsset.extra_metadata a) (bundle_metadata output brand_check seo_payload))
                (metadata_extras g) |>
    <| ContentAsset.status := AssetStatus.drafted |>);
  mret [("asset_id", j_uuid (ContentAsset.id asset));
        ("asset_type", j_enum (ContentAsset.asset_type asset));
        ("status", j_enum (ContentAsset.status asset));
        ("brand_check_pass", JBool (brand_hits ==b []));
        ("length_warning", default JNull (dget "length_warning" output));
        ("seo_score", default JNull (seo_payload ≫= dget "score"));
        ("compliance_blocked", JBool (blocked (compliance_result g)));
        ("variant_similarity", jopt similarity_metadata (sim_score g))].

(** ** The task *)

(** [app/agents/content_creator.py] lines 470-510, [_maybe_submit_for_approval]. *)
Definition _maybe_submit_for_approval (campaign : Campaign.t) : M () :=
  if Campaign.status campaign !=b CampaignStatus.content_in_production then mret ()
  else
    blocking ← select (λ a, (ContentAsset.campaign_id a ==b Campaign.id campaign) &&
      ContentAsset.is_required a &&
      (ContentAsset.status a ∈b [AssetStatus.requested; AssetStatus.generating; AssetStatus.failed]));
    if negb (blocking ==b []) then mret ()
    else
      try_except (apply campaign_sm campaign "submit_for_approval" ;; mret ())
        (λ x, match x with
              | UnknownTransitionError _ | GuardFailedError _ => Some (mret ())
              | _ => None
              end).

(** What a failed compliance check returns. *)
Definition compliance_failed (asset : ContentAsset.t) (msg : string) : jdict :=
  [("asset_id", j_uuid (ContentAsset.id asset));
   ("asset_type", j_enum (ContentAsset.asset_type asset));
   ("status", j_enum (ContentAsset.status asset));
   ("error", JStr "compliance_check_failed");
   ("message", JStr msg)].

(** The two [except] clauses around the generation: a check that could not run is an
    outcome, every other exception goes on. *)
Definition generation_failed (asset : ContentAsset.t) (x : exn) : M (bool * jdict) :=
  match x with
  | ComplianceCheckError msg =>
      asset ← assign asset (λ a, a
        <| ContentAsset.status := AssetStatus.failed |>
        <| ContentAsset.extra_metadata :=
             dset "compliance_error" (JStr msg) (ContentAsset.extra_metadata a) |>);
      mret (false, compliance_failed asset msg)
  | x =>
      assign asset (λ a, a <| ContentAsset.status := AssetStatus.requested |>) ;;
      raise x
  end.

(** [app/agents/content_creator.py] lines 244-309, [generate_asset]. *)
Definition generate_asset (asset_id : N) : M jdict :=
  asset ← get_row (R:=ContentAsset.t) asset_id;
  match asset with
  | None => raise (ContentCreatorError ("content_asset " +:+ uuid_str asset_id +:+ " not found"))
  | Some asset =>
      campaign ← get_row (R:=Campaign.t) (ContentAsset.campaign_id asset);
      match campaign with
      | None => raise (ContentCreatorError ("campaign " +:+ uuid_str (ContentAsset.campaign_id asset)
                  +:+ " not found"))
      | Some campaign =>
          let platform := str_lower (json_str (default (JStr "")
            (dget "channel_platform" (ContentAsset.extra_metadata asset)))) in
          match plan_for_platform platform with
          | inl x =>
              assign asset (λ a, a <| ContentAsset.status := AssetStatus.failed |>) ;;
              raise (ContentCreatorError (exn_str x))
          | inr plan =>
              asset ← assign asset (λ a, a <| ContentAsset.status := AssetStatus.generating |>);
              done ← try_except (result ← _run_generation asset campaign plan; mret (true, result))
                       (λ x, Some (generation_failed asset x));
              if done.1 : bool then
                _maybe_submit_for_approval campaign ;;
                mret done.2
              else mret done.2
          end
      end
  end.
End generation.

(** ** The queue handler *)

(** [app/orchestrator/handlers/content_creator.py] lines 32-48, [content_creator_generate_asset_handler].
    [configured]: the API key is set. *)
Definition content_creator_generate_asset_handler (re_compile : string → string + regex)
    (loads : string → string + json) (call_model : nat → string → bool → exn + string)
    (configured : bool) (task : Task.t) : M (option jdict) :=
  raise_if (negb configured)
    (OtherError "ANTHROPIC_API_KEY is not configured; content creator is unavailable") ;;
  asset_id ← of_sum (input_asset_id task);
  out ← generate_asset re_compile (copywrite loads call_model) seo_call asset_id;
  mret (Some out).
