(* ===== verification/Strategist.v ===== *)
(** * The Campaign Strategist: src/app/agents/strategist.py, src/app/api/strategy.py

    Proposing a plan, seeding the calendar of an accepted one, and the endpoints that
    override, accept and drag. The planner is a parameter of [propose]: what
    [StrategistPlanner.plan] returns for a context. *)

From S2P Require Export Requests Segmentation Calendar StrategistPlanner StateMachine.
Local Open Scope Z_scope.

(** [app/agents/strategist.py] lines 56-75, [ensure_strategist_agent]. *)
Definition ensure_strategist_agent : N → M Agent.t :=
  ensure_agent AgentKind.campaign_strategist "Campaign Strategist".

(** [app/agents/strategist.py] lines 78-105, [assert_preconditions]. *)
Definition assert_preconditions (campaign : Campaign.t) : M () :=
  raise_if (str_empty (str_strip (Campaign.objective campaign)))
    (StrategistPreconditionError "campaign objective is empty") ;;
  audiences ← select (λ a, Audience.campaign_id a ==b Campaign.id campaign);
  raise_if (audiences ==b []) (StrategistPreconditionError
    "no audience materialised for this campaign - run Audience Targeting first") ;;
  channels ← select (λ c, (Channel.tenant_id c ==b Campaign.tenant_id campaign) && Channel.is_active c);
  raise_if (channels ==b []) (StrategistPreconditionError "no active channels configured for this tenant").

(** ORDER BY created_at DESC LIMIT 1. *)
Definition latest_audience (campaign_id : N) : M (option Audience.t) :=
  rows ← select (λ a, Audience.campaign_id a ==b campaign_id);
  mret (head (order_by_desc Audience.created_at rows)).

Definition latest_proposal (campaign_id : N) : M (option StrategyProposal.t) :=
  rows ← select (λ p, StrategyProposal.campaign_id p ==b campaign_id);
  mret (head (order_by_desc StrategyProposal.version rows)).

Definition tenant_constraints (tenant_id : N) : M (list TenantConstraint.t) :=
  select (λ c, TenantConstraint.tenant_id c ==b tenant_id).

Definition of_kind (k : TenantConstraintKind.t) (c : TenantConstraint.t) : bool :=
  TenantConstraint.kind c ==b value k.

Definition hard_caps_of (constraints : list TenantConstraint.t) : list jdict :=
  TenantConstraint.payload <$> List.filter (of_kind TenantConstraintKind.hard_cap) constraints.

(** [app/agents/strategist.py] lines 224-227, [_summarise_audience]. *)
Definition _summarise_audience (audience : option Audience.t) : string :=
  match audience with
  | None => "no audience materialised"
  | Some a => "audience '" +:+ Audience.name a +:+ "' (criteria: "
              +:+ json_str (JObj (Audience.segment_criteria a)) +:+ ")"
  end.

(** The override a channel row of a payload carries. *)
Definition channel_override (ch : json) : option HumanOverride :=
  match ch with
  | JObj ch =>
      if opt_truthy (dget "human_override" ch) then
        platform ← dget "platform" ch;
        pct ← (dget "allocation_pct" ch ≫= λ v, dec_parse (json_str v));
        amount ← (dget "allocation_amount" ch ≫= λ v, dec_parse (json_str v));
        Some (mkoverride (json_str platform) pct amount)
      else None
  | _ => None
  end.

(** [app/agents/strategist.py] lines 349-379, [_carry_overrides]. *)
Definition _carry_overrides (campaign_id : N) : M (list HumanOverride) :=
  latest ← latest_proposal campaign_id;
  match latest with
  | None => mret []
  | Some p =>
      channels ← of_sum (payload_channels (StrategyProposal.payload p));
      mret (omap channel_override channels)
  end.

(** ORDER BY name. *)
Definition channel_order (x y : Channel.t) : Prop := str_le (Channel.name x) (Channel.name y).
#[export] Instance channel_order_dec : RelDecision channel_order.
Proof. intros x y. unfold channel_order. apply _. Defined.

(** [app/agents/strategist.py] lines 169-221, [_build_context]. *)
Definition _build_context (campaign : Campaign.t) : M StrategyContext.t :=
  audience_row ← latest_audience (Campaign.id campaign);
  let nonzero (o : option Z) := match o with Some z => if z =? 0 then None else Some z | None => None end in
  let size a := match nonzero (Audience.actual_size a) with
                | Some n => n
                | None => default 0 (nonzero (Audience.estimated_size a))
                end in
  channels ← select (λ c, (Channel.tenant_id c ==b Campaign.tenant_id campaign) && Channel.is_active c);
  constraints ← tenant_constraints (Campaign.tenant_id campaign);
  overrides ← _carry_overrides (Campaign.id campaign);
  mret {|
    StrategyContext.campaign_name := Campaign.name campaign;
    StrategyContext.campaign_type := value (Campaign.campaign_type campaign);
    StrategyContext.objective := Campaign.objective campaign;
    StrategyContext.brief := Campaign.brief campaign;
    StrategyContext.budget_total := dec_of_col 2 (Campaign.budget_total campaign);
    StrategyContext.currency := Campaign.currency campaign;
    StrategyContext.start_date := date_str (Campaign.start_date campaign);
    StrategyContext.end_date := date_str (Campaign.end_date campaign);
    StrategyContext.audience_size := from_option size 0 audience_row;
    StrategyContext.audience_summary := _summarise_audience audience_row;
    StrategyContext.available_channels :=
      (λ c, mkinfo (value (Channel.platform c)) (Channel.name c)) <$>
        merge_sort channel_order channels;
    StrategyContext.forbidden_platforms :=
      (λ c, str_lower (get_str "platform" (TenantConstraint.payload c))) <$>
        List.filter (λ c, of_kind TenantConstraintKind.forbid_channel c &&
          opt_truthy (dget "platform" (TenantConstraint.payload c))) constraints;
    StrategyContext.hard_caps := hard_caps_of constraints;
    StrategyContext.human_overrides := overrides |}.

(** The proposal row [propose] inserts. *)
Definition new_proposal (campaign : Campaign.t) (version : Z) (payload : jdict) (actor_kind : string)
    (actor_id : option N) (warnings : list jdict) (t : Z) (id : N) : StrategyProposal.t := {|
  StrategyProposal.id := id;
  StrategyProposal.tenant_id := Campaign.tenant_id campaign;
  StrategyProposal.campaign_id := Campaign.id campaign;
  StrategyProposal.version := version;
  StrategyProposal.payload := payload;
  StrategyProposal.is_accepted := false;
  StrategyProposal.created_by_kind := actor_kind;
  StrategyProposal.created_by_id := actor_id;
  StrategyProposal.validation_warnings := JObj <$> warnings;
  StrategyProposal.created_at := t;
  StrategyProposal.updated_at := t |}.

(** [app/agents/strategist.py] lines 108-166, [propose]. *)
Definition propose (planner : StrategyContext.t → exn + PlannerResult) (campaign_id : N)
    (triggered_by_user_id : option N) : M jdict :=
  campaign ← get_row (R:=Campaign.t) campaign_id;
  match campaign with
  | None => raise (StrategistPreconditionError ("campaign " +:+ uuid_str campaign_id +:+ " not found"))
  | Some campaign =>
      assert_preconditions campaign ;;
      ctx ← _build_context campaign;
      result ← of_sum (planner ctx);
      rows ← select (λ p, StrategyProposal.campaign_id p ==b Campaign.id campaign);
      let next_version := foldr Z.max 0 (StrategyProposal.version <$> rows) + 1 in
      actor ← match triggered_by_user_id with
              | Some u => mret ("user", Some u)
              | None => agent ← ensure_strategist_agent (Campaign.tenant_id campaign);
                        mret ("agent", Some (Agent.id agent))
              end;
      t ← asks now;
      proposal ← add_row (new_proposal campaign next_version (plan_payload result) actor.1 actor.2
                            (plan_warnings result) t);
      mret [("proposal_id", j_uuid (StrategyProposal.id proposal));
            ("campaign_id", j_uuid (Campaign.id campaign));
            ("version", JInt next_version);
            ("warnings_count", JInt (Z.of_nat (length (plan_warnings result))));
            ("attempts", JInt (plan_attempts result))]
  end.

(** ** The calendar of a proposal *)

Definition touchpoint_row (tenant_id proposal_id : N) (tp : PlannedTouchpoint.t) (t : Z) (id : N)
    : StrategyTouchpoint.t := {|
  StrategyTouchpoint.id := id;
  StrategyTouchpoint.tenant_id := tenant_id;
  StrategyTouchpoint.proposal_id := proposal_id;
  StrategyTouchpoint.channel_platform := PlannedTouchpoint.channel_platform tp;
  StrategyTouchpoint.audience_id := PlannedTouchpoint.audience_id tp;
  StrategyTouchpoint.scheduled_at := PlannedTouchpoint.scheduled_at tp;
  StrategyTouchpoint.position := PlannedTouchpoint.position tp;
  StrategyTouchpoint.human_override := PlannedTouchpoint.human_override tp;
  StrategyTouchpoint.frequency_warning := PlannedTouchpoint.frequency_warning tp;
  StrategyTouchpoint.created_at := t;
  StrategyTouchpoint.updated_at := t |}.

Definition planned_of (r : StrategyTouchpoint.t) : PlannedTouchpoint.t := {|
  PlannedTouchpoint.channel_platform := StrategyTouchpoint.channel_platform r;
  PlannedTouchpoint.audience_id := StrategyTouchpoint.audience_id r;
  PlannedTouchpoint.scheduled_at := StrategyTouchpoint.scheduled_at r;
  PlannedTouchpoint.position := StrategyTouchpoint.position r;
  PlannedTouchpoint.human_override := StrategyTouchpoint.human_override r;
  PlannedTouchpoint.frequency_warning := None |}.

(** [app/agents/strategist.py] lines 230-289, [seed_calendar]. *)
Definition seed_calendar (proposal : StrategyProposal.t) : M (list StrategyTouchpoint.t) :=
  campaign ← get_row (R:=Campaign.t) (StrategyProposal.campaign_id proposal);
  match campaign with
  | None => raise (CalendarSeedError ("campaign " +:+ uuid_str (StrategyProposal.campaign_id proposal)
              +:+ " not found"))
  | Some campaign =>
      audience ← latest_audience (Campaign.id campaign);
      match audience with
      | None => raise (CalendarSeedError "no audience materialised for this campaign")
      | Some audience =>
          constraints ← tenant_constraints (Campaign.tenant_id campaign);
          planned ← of_sum (generate_calendar (StrategyProposal.payload proposal)
            (Campaign.start_date campaign) (Campaign.end_date campaign) (Audience.id audience)
            (hard_caps_of constraints));
          t ← asks now;
          mapM_ (λ tp, add_row (touchpoint_row (Campaign.tenant_id campaign)
                                  (StrategyProposal.id proposal) tp t))
            (detect_frequency_warnings DEFAULT_FREQUENCY_CAP DEFAULT_FREQUENCY_WINDOW planned)
      end
  end.

(** ORDER BY scheduled_at, position. *)
Definition calendar_order (x y : StrategyTouchpoint.t) : Prop :=
  StrategyTouchpoint.scheduled_at x < StrategyTouchpoint.scheduled_at y ∨
  (StrategyTouchpoint.scheduled_at x = StrategyTouchpoint.scheduled_at y ∧
   StrategyTouchpoint.position x <= StrategyTouchpoint.position y).
#[export] Instance calendar_order_dec : RelDecision calendar_order.
Proof. intros x y. unfold calendar_order. apply _. Defined.

Definition accepted_proposal (campaign_id : N) : M (option StrategyProposal.t) :=
  rows ← select (λ p, (StrategyProposal.campaign_id p ==b campaign_id) && StrategyProposal.is_accepted p);
  scalar_one_or_none rows.

Definition calendar_rows (proposal_id : N) : M (list StrategyTouchpoint.t) :=
  rows ← select (λ t, StrategyTouchpoint.proposal_id t ==b proposal_id);
  mret (merge_sort calendar_order rows).

(** [app/agents/strategist.py] lines 292-313, [get_accepted_calendar]. *)
Definition get_accepted_calendar (campaign_id : N) : M (list StrategyTouchpoint.t) :=
  accepted ← accepted_proposal campaign_id;
  match accepted with
  | None => mret []
  | Some p => calendar_rows (StrategyProposal.id p)
  end.

(** [app/agents/strategist.py] lines 316-346, [re_evaluate_warnings]. *)
Definition re_evaluate_warnings (proposal_id : N) : M () :=
  rows ← select (λ t, StrategyTouchpoint.proposal_id t ==b proposal_id);
  let rows := order_by StrategyTouchpoint.scheduled_at rows in
  let planned := detect_frequency_warnings DEFAULT_FREQUENCY_CAP DEFAULT_FREQUENCY_WINDOW
                   (planned_of <$> rows) in
  foreach (zip rows planned) (λ rp,
    update_row (R:=StrategyTouchpoint.t) (StrategyTouchpoint.id rp.1)
      (λ r, r <| StrategyTouchpoint.frequency_warning := PlannedTouchpoint.frequency_warning rp.2 |>)).

(** ** Endpoints *)

#[export] Instance strategy_proposal_snapshot : Snapshot StrategyProposal.t := λ p, [
  ("id", j_uuid (StrategyProposal.id p));
  ("tenant_id", j_uuid (StrategyProposal.tenant_id p));
  ("campaign_id", j_uuid (StrategyProposal.campaign_id p));
  ("version", JInt (StrategyProposal.version p));
  ("payload", JObj (StrategyProposal.payload p));
  ("is_accepted", JBool (StrategyProposal.is_accepted p));
  ("created_by_kind", JStr (StrategyProposal.created_by_kind p));
  ("created_by_id", jopt j_uuid (StrategyProposal.created_by_id p));
  ("validation_warnings", JList (StrategyProposal.validation_warnings p));
  ("created_at", j_time (StrategyProposal.created_at p));
  ("updated_at", j_time (StrategyProposal.updated_at p))].

#[export] Instance strategy_touchpoint_snapshot : Snapshot StrategyTouchpoint.t := λ r, [
  ("id", j_uuid (StrategyTouchpoint.id r));
  ("tenant_id", j_uuid (StrategyTouchpoint.tenant_id r));
  ("proposal_id", j_uuid (StrategyTouchpoint.proposal_id r));
  ("channel_platform", JStr (StrategyTouchpoint.channel_platform r));
  ("audience_id", j_uuid (StrategyTouchpoint.audience_id r));
  ("scheduled_at", j_time (StrategyTouchpoint.scheduled_at r));
  ("position", JInt (StrategyTouchpoint.position r));
  ("human_override", JBool (StrategyTouchpoint.human_override r));
  ("frequency_warning", jopt JObj (StrategyTouchpoint.frequency_warning r));
  ("created_at", j_time (StrategyTouchpoint.created_at r));
  ("updated_at", j_time (StrategyTouchpoint.updated_at r))].

(** [app/api/strategy.py] lines 59-104, [enqueue_strategy_propose]. *)
Definition enqueue_strategy_propose (configured : bool) (campaign_id : N) (user : AppUser.t) : M Task.t :=
  raise_if (negb configured) (HTTPException 503
    "campaign strategist is not configured (ANTHROPIC_API_KEY missing)") ;;
  campaign ← get_row (R:=Campaign.t) campaign_id;
  match campaign with
  | None => raise (HTTPException 404 "campaign not found")
  | Some campaign =>
      try_except (assert_preconditions campaign)
        (λ x, match x with
              | StrategistPreconditionError m => Some (raise (HTTPException 422 m))
              | _ => None
              end) ;;
      agent ← ensure_strategist_agent (AppUser.tenant_id user);
      enqueue_task (AppUser.tenant_id user) (Agent.id agent) "campaign_strategist.propose"
        [("campaign_id", j_uuid campaign_id); ("triggered_by_user_id", j_uuid (AppUser.id user))]
        (Some campaign_id) None None None 3 5
  end.

(** [app/api/strategy.py] lines 107-130, [get_latest_strategy]. *)
Definition get_latest_strategy (campaign_id : N) : M StrategyProposal.t :=
  row ← latest_proposal campaign_id;
  match row with
  | None => raise (HTTPException 404 "no strategy proposal exists for this campaign")
  | Some p => mret p
  end.

(** [app/api/strategy.py] lines 133-152, [list_strategy_history]. *)
Definition list_strategy_history (campaign_id : N) : M (list StrategyProposal.t) :=
  rows ← select (λ p, StrategyProposal.campaign_id p ==b campaign_id);
  mret (order_by_desc StrategyProposal.version rows).

(** [app/api/schemas/strategy.py] lines 42-50, [ChannelOverridePatch]. *)
Record ChannelOverridePatch := {
  patch_platform : string; patch_pct : option dec; patch_amount : option string; patch_flag : bool }.

(** [channels_by_platform.get(platform)]: the last channel of the platform. *)
Definition channel_index (channels : list json) (platform : string) : option nat :=
  fst <$> last (List.filter (λ ich : nat * json,
    match ich.2 with JObj ch => platform_of ch ==b platform | _ => false end) (imap pair channels)).

(** One override of the patch, on the channels as the earlier ones left them. *)
Definition apply_override (found : string → option nat) (channels : list json)
    (override : ChannelOverridePatch) : M (list json) :=
  match found (str_lower (patch_platform override)) with
  | None => raise (HTTPException 422 ("platform '" +:+ patch_platform override
              +:+ "' is not in this proposal"))
  | Some idx =>
      let ch := default [] (as_obj (channels !! idx)) in
      let ch := match patch_pct override with Some p => dset "allocation_pct" (JFloat p) ch | None => ch end in
      ch ← match patch_amount override with
           | None => mret ch
           | Some a =>
               match dec_parse a with
               | None => raise (HTTPException 422 ("allocation_amount '" +:+ a +:+ "' is not numeric"))
               | Some _ => mret (dset "allocation_amount" (JStr a) ch)
               end
           end;
      mret (<[idx := JObj (dset "human_override" (JBool (patch_flag override)) ch)]> channels)
  end.

(** [app/api/strategy.py] lines 155-228, [patch_strategy_overrides]. *)
Definition patch_strategy_overrides (proposal_id : N) (overrides : list ChannelOverridePatch)
    : M StrategyProposal.t :=
  proposal ← get_row (R:=StrategyProposal.t) proposal_id;
  match proposal with
  | None => raise (HTTPException 404 "proposal not found")
  | Some proposal =>
      raise_if (StrategyProposal.is_accepted proposal)
        (HTTPException 409 "accepted proposals are immutable; re-propose to amend") ;;
      let payload := StrategyProposal.payload proposal in
      channels ← of_sum (json_iter (default (JList []) (dget "channels" payload)));
      channels' ← foldM (apply_override (channel_index channels)) channels overrides;
      let before := column_snapshot proposal in
      proposal ← assign proposal (λ p, p <| StrategyProposal.payload :=
        dset "channels" (JList channels') payload |>);
      audit (StrategyProposal.tenant_id proposal) "strategy_proposal" (StrategyProposal.id proposal)
        "overridden" (Some before) (Some (column_snapshot proposal))
        [("channels", JList (JStr ∘ str_lower ∘ patch_platform <$> overrides))] ;;
      mret proposal
  end.

(** [app/api/strategy.py] lines 231-327, [accept_strategy]. *)
Definition accept_strategy (proposal_id : N) : M StrategyProposal.t :=
  proposal ← get_row (R:=StrategyProposal.t) proposal_id;
  match proposal with
  | None => raise (HTTPException 404 "proposal not found")
  | Some proposal =>
      if StrategyProposal.is_accepted proposal then mret proposal
      else
        campaign ← get_row (R:=Campaign.t) (StrategyProposal.campaign_id proposal);
        match campaign with
        | None => raise (HTTPException 404 "campaign not found")
        | Some campaign =>
            let other p := (StrategyProposal.campaign_id p ==b StrategyProposal.campaign_id proposal) &&
                           (StrategyProposal.id p !=b StrategyProposal.id proposal) in
            update_where (λ p, other p && StrategyProposal.is_accepted p)
              (λ p, p <| StrategyProposal.is_accepted := false |>) ;;
            others ← select other;
            delete_where (λ t, StrategyTouchpoint.proposal_id t ∈b (StrategyProposal.id <$> others)) ;;
            let before := column_snapshot proposal in
            proposal ← assign proposal (λ p, p <| StrategyProposal.is_accepted := true |>);
            try_except (seed_calendar proposal)
              (λ x, match x with
                    | CalendarSeedError m => Some (raise (HTTPException 422 m))
                    | HardCapViolationError _ vs => Some (raise (HTTPExceptionDetail 422
                        (JObj [("message", JStr "hard cap violation"); ("violations", JList (JObj <$> vs))])))
                    | _ => None
                    end) ;;
            audit (StrategyProposal.tenant_id proposal) "strategy_proposal" (StrategyProposal.id proposal)
              "accepted" (Some before) (Some (column_snapshot proposal))
              [("campaign_id", j_uuid (StrategyProposal.campaign_id proposal));
               ("version", JInt (StrategyProposal.version proposal))] ;;
            (if Campaign.status campaign ==b CampaignStatus.audience_built then
               try_except (apply campaign_sm campaign "set_strategy" ;; mret ())
                 (λ x, match x with
                       | UnknownTransitionError m | GuardFailedError m => Some (raise (HTTPException 409 m))
                       | _ => None
                       end)
             else mret ()) ;;
            mret proposal
        end
  end.

(** [app/api/strategy.py] lines 330-369, [get_campaign_calendar]. *)
Definition get_campaign_calendar (campaign_id : N) : M (N * list StrategyTouchpoint.t) :=
  accepted ← accepted_proposal campaign_id;
  match accepted with
  | None => raise (HTTPException 404 "no accepted strategy proposal for this campaign")
  | Some p => rows ← calendar_rows (StrategyProposal.id p); mret (StrategyProposal.id p, rows)
  end.

(** [app/api/strategy.py] lines 372-461, [patch_touchpoint]. *)
Definition patch_touchpoint (touchpoint_id : N) (scheduled_at : Z) (human_override : bool)
    : M StrategyTouchpoint.t :=
  touchpoint ← get_row (R:=StrategyTouchpoint.t) touchpoint_id;
  match touchpoint with
  | None => raise (HTTPException 404 "touchpoint not found")
  | Some touchpoint =>
      proposal ← get_row (R:=StrategyProposal.t) (StrategyTouchpoint.proposal_id touchpoint);
      match proposal with
      | None => raise (HTTPException 404 "parent proposal missing")
      | Some proposal =>
          let before := column_snapshot touchpoint in
          touchpoint ← assign touchpoint (λ r, r <| StrategyTouchpoint.scheduled_at := scheduled_at |>
                                                 <| StrategyTouchpoint.human_override := human_override |>);
          siblings ← select (λ r, StrategyTouchpoint.proposal_id r ==b StrategyTouchpoint.proposal_id touchpoint);
          constraints ← tenant_constraints (StrategyProposal.tenant_id proposal);
          match enforce_hard_caps true (planned_of <$> siblings) (hard_caps_of constraints) with
          | inl (HardCapViolationError _ vs) => raise (HTTPExceptionDetail 422
              (JObj [("message", JStr "hard cap violation"); ("violations", JList (JObj <$> vs))]))
          | inl x => raise x
          | inr _ => mret ()
          end ;;
          re_evaluate_warnings (StrategyTouchpoint.proposal_id touchpoint) ;;
          t ← asks now;
          assign proposal (λ p, p <| StrategyProposal.updated_at := t |>) ;;
          fresh ← get_row (R:=StrategyTouchpoint.t) touchpoint_id;
          let touchpoint := touchpoint <| StrategyTouchpoint.frequency_warning :=
            fresh ≫= StrategyTouchpoint.frequency_warning |> in
          audit (StrategyTouchpoint.tenant_id touchpoint) "strategy_touchpoint"
            (StrategyTouchpoint.id touchpoint) "moved" (Some before) (Some (column_snapshot touchpoint))
            [("proposal_id", j_uuid (StrategyTouchpoint.proposal_id touchpoint))] ;;
          mret touchpoint
      end
  end.

(** ** Tenant constraints *)

(** [app/api/tenant_constraints.py] lines 30-48, [create_tenant_constraint]. *)
Definition create_tenant_constraint (kind : TenantConstraintKind.t) (payload : jdict) (user : AppUser.t)
    : M TenantConstraint.t :=
  t ← asks now;
  add_row (λ id, {|
    TenantConstraint.id := id;
    TenantConstraint.tenant_id := AppUser.tenant_id user;
    TenantConstraint.kind := value kind;
    TenantConstraint.payload := payload;
    TenantConstraint.created_at := t;
    TenantConstraint.updated_at := t |}).

(** The platform names a constraint may carry. *)
Definition known_platform (v : option json) : bool :=
  match as_str v with
  | Some p => bool_decide (is_Some (of_value ChannelPlatform.t p))
  | None => false
  end.

(** [app/api/schemas/tenant_constraint.py] lines 12-38, [TenantConstraintCreate]. Whether the body
    passes validation: [isinstance(True, int)] holds. *)
Definition constraint_body_ok (kind : TenantConstraintKind.t) (payload : jdict) : bool :=
  known_platform (dget "platform" payload) &&
  match kind with
  | TenantConstraintKind.forbid_channel => true
  | TenantConstraintKind.hard_cap =>
      match as_str (dget "per" payload) with
      | Some per => per ∈b ["day"; "week"; "month"]
      | None => false
      end &&
      match dget "limit" payload with
      | Some (JInt z) => 0 <? z
      | Some (JBool b) => b
      | _ => false
      end
  end.

(** ORDER BY kind, created_at. *)
Definition constraint_order (x y : TenantConstraint.t) : Prop :=
  (str_le (TenantConstraint.kind x) (TenantConstraint.kind y) ∧
   TenantConstraint.kind x ≠ TenantConstraint.kind y) ∨
  (TenantConstraint.kind x = TenantConstraint.kind y ∧
   TenantConstraint.created_at x <= TenantConstraint.created_at y).
#[export] Instance constraint_order_dec : RelDecision constraint_order.
Proof. intros x y. unfold constraint_order. apply _. Defined.

(** [app/api/tenant_constraints.py] lines 51-66, [list_tenant_constraints]. *)
Definition list_tenant_constraints : M (list TenantConstraint.t) :=
  rows ← select (λ _, true);
  mret (merge_sort constraint_order rows).

(** [app/api/tenant_constraints.py] lines 69-79, [delete_tenant_constraint]. *)
Definition delete_tenant_constraint (constraint_id : N) : M () :=
  row ← get_row (R:=TenantConstraint.t) constraint_id;
  match row with
  | None => raise (HTTPException 404 "constraint not found")
  | Some _ => delete_where (λ c, TenantConstraint.id c ==b constraint_id) ;; mret ()
  end.

(** ** The queue handler *)

(** [UUID(v)] of a JSON value. *)
Definition json_uuid (v : json) : M N :=
  match v with
  | JStr s => match uuid_parse s with
              | Some u => mret u
              | None => raise (ValueError "badly formed hexadecimal UUID string")
              end
  | _ => raise (AttributeError "replace")
  end.

(** [app/orchestrator/handlers/strategist.py] lines 31-47, [campaign_strategist_propose_handler]. The
    planner is [None] without an API key. *)
Definition campaign_strategist_propose_handler (planner : option (StrategyContext.t → exn + PlannerResult))
    (task : Task.t) : M (option jdict) :=
  let inputs := Task.input_data task in
  match planner with
  | None => raise (OtherError "ANTHROPIC_API_KEY is not configured; campaign strategist is unavailable")
  | Some planner =>
      match dget "campaign_id" inputs with
      | None => raise KeyError
      | Some cid =>
          campaign_id ← json_uuid cid;
          triggered ← match dget "triggered_by_user_id" inputs with
                      | Some v => if truthy v then u ← json_uuid v; mret (Some u) else mret None
                      | None => mret None
                      end;
          out ← propose planner campaign_id triggered;
          mret (Some out)
      end
  end.
