(* ===== verification/StrategistProofs.v ===== *)
(** * Properties of the strategist

    What a plan without warnings satisfies, what the retry loop returns, and what an
    accepted proposal leaves on the calendar. *)

From S2P Require Export Calendar Strategist.
Local Open Scope Z_scope.

(** ** Valid plans *)

Lemma sbind_inr {A B} (m : exn + A) (f : A → exn + B) b :
  sbind m f = inr b ↔ ∃ a, m = inr a ∧ f a = inr b.
Proof.
  destruct m as [x|a]; simpl; [by split; [|intros (? & ? & _)]|]. split; [eauto|].
  by intros (a' & [= <-] & Hf).
Qed.

Lemma need_inr {A} (o : option A) a : need o = inr a ↔ o = Some a.
Proof. destruct o; simpl; split; by intros [= ->]. Qed.

Lemma report_if_clean b v a : violations (report_if b v a) = [] ↔ b = false ∧ violations a = [].
Proof.
  destruct b; simpl; [|tauto]. split; [|by intros [? _]]. intros H. by destruct (app_cons_not_nil (violations a) [] v).
Qed.

Lemma report_if_seen b v a : seen_platforms (report_if b v a) = seen_platforms a.
Proof. by destruct b. Qed.
Lemma report_if_total b v a : total_pct (report_if b v a) = total_pct a.
Proof. by destruct b. Qed.

Lemma report_clean v a : violations (report v a) ≠ [].
Proof. simpl. intros H. by destruct (app_cons_not_nil (violations a) [] v). Qed.

(** The numbers of a channel are admissible: a share of 0 to 100 per cent and an amount
    within fifty cents of that share of the budget, rounded half up. *)
Definition amounts_ok (ctx : StrategyContext.t) (pct amount : pydec) : Prop :=
  dec_ltb pct (dec_of_Z 0) = Some false ∧ dec_gt pct (dec_of_Z 100) = Some false ∧
  dec_ltb amount (dec_of_Z 0) = Some false ∧
  ∃ expected diff,
    (dec_mul (StrategyContext.budget_total ctx) pct ≫= λ x, dec_div x (dec_of_Z 100)
       ≫= dec_quantize_by ROUND_HALF_UP 2) = Some expected ∧
    dec_sub amount expected = Some diff ∧ dec_gt (dec_abs diff) BUDGET_PER_CHANNEL_TOLERANCE = Some false.

Lemma scan_amounts_clean ctx i ch pct amount a a' :
  scan_amounts ctx i ch pct amount a = inr a' → violations a' = [] →
  violations a = [] ∧ seen_platforms a' = seen_platforms a ∧ amounts_ok ctx pct amount ∧
  blank "rationale" ch = false ∧ dec_add (total_pct a) pct = Some (total_pct a').
Proof.
  unfold scan_amounts. intros Hrun Hclean.
  apply sbind_inr in Hrun as (neg & Hneg%need_inr & Hrun).
  apply sbind_inr in Hrun as (over & Hover & Hrun).
  apply sbind_inr in Hrun as (nega & Hnega%need_inr & Hrun).
  apply sbind_inr in Hrun as (expected & Hexp%need_inr & Hrun).
  apply sbind_inr in Hrun as (off & Hoff%need_inr & Hrun).
  apply sbind_inr in Hrun as (sum & Hsum%need_inr & Hrun).
  apply sbind_inr in Hrun as (asum & _ & Hrun). injection Hrun as <-. cbn [violations seen_platforms total_pct] in *.
  apply report_if_clean in Hclean as [Hbl Hclean]. apply report_if_clean in Hclean as [-> Hclean].
  apply report_if_clean in Hclean as [-> Hclean]. apply report_if_clean in Hclean as [-> Hclean].
  destruct neg; [done|]. apply need_inr in Hover.
  apply bind_Some in Hoff as (diff & Hd & Hoff).
  rewrite !report_if_seen, !report_if_total in *. split; [done|]. split; [done|]. split; [|done].
  do 3 (split; [done|]). by exists expected, diff.
Qed.

(** An admissible channel of a plan. *)
Record channel_ok (ctx : StrategyContext.t) (allowed : list string) (ch : jdict) : Prop := {
  channel_allowed : platform_of ch ∈ allowed;
  channel_not_forbidden : platform_of ch ∉ (str_lower <$> StrategyContext.forbidden_platforms ctx);
  channel_rationale : blank "rationale" ch = false;
  channel_numbers : ∃ pct amount, get_decimal "allocation_pct" ch = Some pct ∧
    get_decimal "allocation_amount" ch = Some amount ∧ amounts_ok ctx pct amount;
}.

Lemma scan_channel_clean ctx allowed i ch a a' :
  scan_channel ctx allowed i ch a = inr a' → violations a' = [] →
  ∃ obj pct, ch = JObj obj ∧ violations a = [] ∧ channel_ok ctx allowed obj ∧
    (platform_of obj ∉ seen_platforms a) ∧ seen_platforms a' = platform_of obj :: seen_platforms a ∧
    get_decimal "allocation_pct" obj = Some pct ∧ dec_add (total_pct a) pct = Some (total_pct a').
Proof.
  unfold scan_channel. intros Hrun Hclean.
  destruct ch as [|b|z|d|x|l|obj]; try (injection Hrun as <-; by destruct (report_clean _ _ Hclean)).
  destruct (str_empty (platform_of obj)); [injection Hrun as <-; by destruct (report_clean _ _ Hclean)|].
  case_bool_decide as Hf; [injection Hrun as <-; by destruct (report_clean _ _ Hclean)|].
  case_bool_decide as Ha; cbn [negb] in Hrun; [|injection Hrun as <-; by destruct (report_clean _ _ Hclean)].
  case_bool_decide as Hs; [injection Hrun as <-; by destruct (report_clean _ _ Hclean)|].
  destruct (get_decimal "allocation_pct" obj) as [pct|] eqn:Hp;
    [|injection Hrun as <-; by destruct (report_clean _ _ Hclean)].
  destruct (get_decimal "allocation_amount" obj) as [amount|] eqn:Hm;
    [|injection Hrun as <-; by destruct (report_clean _ _ Hclean)].
  apply scan_amounts_clean in Hrun as (Hv & Hseen & Hok & Hbl & Hsum); [|done].
  cbn [violations seen_platforms total_pct] in *. exists obj, pct.
  split; [done|]. split; [done|]. split; [|by repeat split].
  split; [done..|]. by exists pct, amount.
Qed.

(** The sum of the shares, as the validator adds them up. *)
Fixpoint sum_pct (acc : pydec) (objs : list jdict) : option pydec :=
  match objs with
  | [] => Some acc
  | ch :: objs => get_decimal "allocation_pct" ch ≫= λ p, dec_add acc p ≫= λ acc, sum_pct acc objs
  end.

Lemma scan_channels_clean ctx allowed i l a a' :
  scan_channels ctx allowed i l a = inr a' → violations a' = [] → NoDup (seen_platforms a) →
  violations a = [] ∧ ∃ objs, l = JObj <$> objs ∧ Forall (channel_ok ctx allowed) objs ∧
    NoDup (platform_of <$> objs) ∧ (∀ p, p ∈ (platform_of <$> objs) → p ∉ seen_platforms a) ∧
    sum_pct (total_pct a) objs = Some (total_pct a').
Proof.
  revert i a. induction l as [|ch l IH]; intros i a; cbn [scan_channels].
  { intros [= <-] Hc _. split; [done|]. exists []. split; [done|]. split; [constructor|]. split; [constructor|].
    split; [|done]. intros p Hp. by apply not_elem_of_nil in Hp. }
  intros Hrun Hclean Hnd. apply sbind_inr in Hrun as (a1 & H1 & Hrun).
  assert (violations a1 = [] ∧ violations a = [] ∧ NoDup (seen_platforms a1)) as (Hv1 & Hv & Hnd1).
  { destruct (decide (violations a1 = [])) as [Hv1|Hv1].
    - destruct (scan_channel_clean _ _ _ _ _ _ H1 Hv1) as (obj & pct & _ & Hv & _ & Hnew & Hseen & _).
      split_and!; [done..|]. rewrite Hseen. by constructor.
    - exfalso. clear IH H1 Hnd. revert i a1 Hrun Hv1. induction l as [|ch' l IH]; intros i a1; cbn [scan_channels].
      + intros [= ->]. done.
      + intros Hrun Hv1. apply sbind_inr in Hrun as (a2 & H2 & Hrun).
        destruct (decide (violations a2 = [])) as [Hv2|Hv2]; [|by apply (IH (S i) a2)].
        destruct (scan_channel_clean _ _ _ _ _ _ H2 Hv2) as (_ & _ & _ & Hv & _). done. }
  destruct (IH (S i) a1 Hrun Hclean Hnd1) as (_ & objs & -> & Hok & Hdup & Hfresh & Hsum).
  destruct (scan_channel_clean _ _ _ _ _ _ H1 Hv1) as (obj & pct & -> & _ & Hobj & Hnew & Hseen & Hp & Hadd).
  split; [done|]. exists (obj :: objs). split; [done|]. split; [by constructor|]. rewrite Hseen in Hfresh.
  split; [|split].
  - rewrite fmap_cons. constructor; [|done]. intros Hin. apply (Hfresh _ Hin). left.
  - intros p. rewrite fmap_cons, elem_of_cons. intros [->|Hp']; [done|].
    intros Hin. apply (Hfresh p Hp'). by right.
  - cbn [sum_pct]. rewrite Hp. cbn. by rewrite Hadd.
Qed.

(** An override is kept: its platform is in the plan, flagged, and its share, where it is a
    number, within one point of the one required. *)
Definition override_kept (objs : list jdict) (ov : HumanOverride) : Prop :=
  ∃ ch, ch ∈ objs ∧ platform_of ch = str_lower (ov_platform ov) ∧
    ∀ pct, get_decimal "allocation_pct" ch = Some pct →
      opt_truthy (dget "human_override" ch) = true ∧
      ∃ diff, dec_sub pct (ov_allocation_pct ov) = Some diff ∧
        dec_gt (dec_abs diff) ALLOCATION_PCT_TOLERANCE = Some false.

Lemma omap_as_obj (objs : list jdict) : omap (λ ch, as_obj (Some ch)) (JObj <$> objs) = objs.
Proof. induction objs as [|o objs IH]; [done|]. exact (f_equal (cons o) IH). Qed.

Lemma check_override_clean objs ov :
  check_override (JObj <$> objs) ov = inr [] → override_kept objs ov.
Proof.
  unfold check_override, find_channel. rewrite omap_as_obj.
  destruct (List.filter _ objs) as [|ch l] eqn:Hf; simpl; [done|].
  assert (ch ∈ List.filter (λ ch, platform_of ch ==b str_lower (ov_platform ov)) objs) as Hin by (rewrite Hf; left).
  apply elem_of_bfilter in Hin as [Hin Hp]. apply bool_decide_eq_true_1 in Hp.
  intros Hrun. exists ch. split; [done|]. split; [done|]. intros pct Hpct. rewrite Hpct in Hrun.
  apply sbind_inr in Hrun as (drift & Hd%need_inr & Hrun). injection Hrun as Hrun.
  apply app_eq_nil in Hrun as [H1 H2]. destruct drift; [done|]. apply bind_Some in Hd as (diff & Hd & Hg).
  split; [|by exists diff]. by destruct (opt_truthy _).
Qed.

Lemma check_overrides_clean objs ovs :
  check_overrides (JObj <$> objs) ovs = inr [] → Forall (override_kept objs) ovs.
Proof.
  induction ovs as [|ov ovs IH]; cbn [check_overrides]; [constructor|].
  intros Hrun. apply sbind_inr in Hrun as (v & Hv & Hrun). apply sbind_inr in Hrun as (vs & Hvs & Hrun).
  injection Hrun as Hrun. apply app_eq_nil in Hrun as [-> ->]. constructor; [by apply check_override_clean|auto].
Qed.

(** What the validator enforces. *)
Definition plan_ok (payload : jdict) (ctx : StrategyContext.t) (allowed : list string) : Prop :=
  ∃ objs total diff,
    dget "channels" payload = Some (JList (JObj <$> objs)) ∧ objs ≠ [] ∧
    Forall (channel_ok ctx allowed) objs ∧ NoDup (platform_of <$> objs) ∧
    sum_pct (dec_of_Z 0) objs = Some total ∧ dec_sub total (dec_of_Z 100) = Some diff ∧
    dec_gt (dec_abs diff) ALLOCATION_PCT_TOLERANCE = Some false ∧
    Forall (override_kept objs) (StrategyContext.human_overrides ctx) ∧
    check_kpis payload = [].

Lemma validate_sound payload ctx allowed : _validate payload ctx allowed = inr [] → plan_ok payload ctx allowed.
Proof.
  unfold _validate. intros Hrun. destruct (dget "channels" payload) as [v|] eqn:Hch; [|done].
  destruct v as [|b|z|d|x|[|ch l]|obj]; try done.
  apply sbind_inr in Hrun as (a & Ha & Hrun). apply sbind_inr in Hrun as (off & Hoff%need_inr & Hrun).
  apply sbind_inr in Hrun as (ovs & Hovs & Hrun). injection Hrun as Hrun.
  apply app_eq_nil in Hrun as [Hv Hrun]. apply app_eq_nil in Hrun as [Ho Hrun].
  apply app_eq_nil in Hrun as [-> Hk]. destruct off; [done|].
  apply bind_Some in Hoff as (diff & Hd & Hg).
  destruct (scan_channels_clean _ _ _ _ _ _ Ha Hv ltac:(constructor)) as (_ & objs & E & Hok & Hnd & _ & Hsum).
  exists objs, (total_pct a), diff. rewrite Hch, E. rewrite E in Hovs.
  split; [done|]. split; [by destruct objs|]. do 5 (split; [done|]). split; [|done].
  by apply check_overrides_clean.
Qed.

(** ** The retry loop *)

Section attempts.
Context (loads : string → option json) (call_model : nat → StrategyContext.t → list jdict → exn + string).
Context (ctx : StrategyContext.t) (allowed : list string).

(** The attempts of a run, each a plan with its violations: the model is told those of the attempt
    before. *)
Definition told (l : list (jdict * list jdict)) (i : nat) : list jdict :=
  match i with O => [] | S j => from_option snd [] (l !! j) end.
Definition tried (l : list (jdict * list jdict)) : Prop := ∀ i p vs, l !! i = Some (p, vs) →
  ∃ raw, call_model i ctx (told l i) = inr raw ∧ _parse_response loads raw = inr p ∧ _validate p ctx allowed = inr vs.

(** The [n]th attempt is the first of those with the fewest violations. *)
Definition best_attempt (l : list (jdict * list jdict)) (n : nat) (x : jdict * list jdict) : Prop :=
  l !! n = Some x ∧ ∀ j y, l !! j = Some y →
    (length x.2 ≤ length y.2)%nat ∧ ((j < n)%nat → (length x.2 < length y.2)%nat).

Lemma tried_snoc l raw p vs :
  tried l → call_model (length l) ctx (told l (length l)) = inr raw → _parse_response loads raw = inr p →
  _validate p ctx allowed = inr vs → tried (l ++ [(p, vs)]).
Proof.
  intros Hl Hraw Hp Hvs i p' vs' Hi.
  assert ((i ≤ length l)%nat → told (l ++ [(p, vs)]) i = told l i) as Htold.
  { intros Hle. destruct i as [|j]; [done|]. cbn. by rewrite lookup_app_l by lia. }
  apply lookup_app_Some in Hi as [Hi|[Hle Hi]].
  - rewrite Htold; [by apply Hl|]. apply lookup_lt_Some in Hi. lia.
  - apply list_lookup_singleton_Some in Hi as [Hi [= <- <-]]. assert (i = length l) as -> by lia.
    exists raw. by rewrite Htold.
Qed.

Lemma best_attempt_snoc l n x y :
  best_attempt l n x →
  best_attempt (l ++ [y]) (if bool_decide (length y.2 < length x.2)%nat then length l else n)
    (if bool_decide (length y.2 < length x.2)%nat then y else x).
Proof.
  intros [Hn Hbest]. pose proof (lookup_lt_Some _ _ _ Hn) as Hlt. case_bool_decide as Hc; split.
  - by rewrite lookup_app_r, Nat.sub_diag by lia.
  - intros j z Hz. apply lookup_app_Some in Hz as [Hz|[Hle Hz]].
    + destruct (Hbest j z Hz). split; lia.
    + apply list_lookup_singleton_Some in Hz as [Hz <-]. split; lia.
  - by rewrite lookup_app_l by lia.
  - intros j z Hz. apply lookup_app_Some in Hz as [Hz|[Hle Hz]]; [by apply Hbest|].
    apply list_lookup_singleton_Some in Hz as [Hz <-]. split; lia.
Qed.

(** What the loop knows before an attempt, and what it returns. *)
Definition best_so_far (l : list (jdict * list jdict)) (best : option (jdict * list jdict)) : Prop :=
  Forall (λ x, x.2 ≠ []) l ∧ match best with None => l = [] | Some x => ∃ n, best_attempt l n x end.

Definition plan_result (fuel : nat) (r : PlannerResult) (l : list (jdict * list jdict)) (n : nat) : Prop :=
  tried l ∧ plan_attempts r = Z.of_nat (length l) ∧ best_attempt l n (plan_payload r, plan_warnings r) ∧
  (plan_warnings r = [] ∧ (length l ≤ fuel)%nat ∧ length l = S n ∨ plan_warnings r ≠ [] ∧ length l = fuel).

Lemma attempt_plans_spec fuel l best r :
  attempt_plans loads call_model ctx allowed fuel (length l) best (told l (length l)) = inr r →
  tried l → best_so_far l best → ∃ l' n, plan_result (length l + fuel) r l' n.
Proof.
  revert l best. induction fuel as [|fuel IH]; intros l best Hrun Hl [Hne Hbest]; cbn [attempt_plans] in Hrun.
  - destruct best as [[p vs]|]; [|done]. injection Hrun as <-. destruct Hbest as [n Hb]. exists l, n.
    split; [done|]. split; [done|]. split; [done|]. right. split; [|lia]. cbn [plan_warnings].
    rewrite Forall_lookup in Hne. exact (Hne n (p, vs) (proj1 Hb)).
  - apply sbind_inr in Hrun as (raw & Hraw & Hrun). apply sbind_inr in Hrun as (payload & Hp & Hrun).
    apply sbind_inr in Hrun as (vs & Hv & Hrun). pose proof (tried_snoc l raw payload vs Hl Hraw Hp Hv) as Hl'.
    destruct vs as [|v vs].
    + injection Hrun as <-. exists (l ++ [(payload, [])]), (length l).
      split; [done|]. rewrite length_app. cbn [length plan_attempts plan_warnings plan_payload]. split; [lia|].
      split; [|left; split; [done|lia]]. split; [by rewrite lookup_app_r, Nat.sub_diag by lia|].
      intros j [q ws] Hj. cbn. split; [lia|]. intros Hlt. rewrite lookup_app_l in Hj by done.
      rewrite Forall_lookup in Hne. specialize (Hne j _ Hj). cbn in Hne. destruct ws; [done|cbn; lia].
    + set (l1 := l ++ [(payload, v :: vs)]) in *.
      assert (length l1 = S (length l)) as Hlen by (unfold l1; rewrite length_app; cbn; lia).
      assert (told l1 (length l1) = v :: vs) as Ht.
      { rewrite Hlen. cbn. unfold l1. by rewrite lookup_app_r, Nat.sub_diag by lia. }
      match type of Hrun with attempt_plans _ _ _ _ _ _ ?b _ = _ => destruct (IH l1 b) as (l' & n & Hr) end.
      * rewrite Ht, Hlen. exact Hrun.
      * done.
      * split; [by apply Forall_app; split; [|by repeat constructor]|].
        destruct best as [x|]; [destruct Hbest as [n Hb]|subst l].
        -- pose proof (best_attempt_snoc l n x (payload, v :: vs) Hb) as Hb'. destruct x as [p ws]. cbn [snd] in Hb'.
           case_bool_decide; eauto.
        -- exists 0%nat. split; [done|]. intros [|j] y Hj; [injection Hj as <-; by split; [|lia]|done].
      * exists l', n. by replace (length l + S fuel)%nat with (length l1 + fuel)%nat by lia.
Qed.
End attempts.

(** C31: what the planner returns, whatever the model answers. It makes one to three attempts, telling the
    model the violations of the attempt before, and returns the first of those with the fewest
    violations, with exactly these as its warnings. Either there are none, it was the last
    attempt, and the plan keeps the contract: channels that are active, not forbidden and
    named once, each with a rationale, a share of 0 to 100 per cent and an amount within
    fifty cents of that share of the budget, shares that add up to 100 within one point,
    every human override present, flagged and within one point, and a primary KPI with a
    rationale; or all three attempts were made and none was free of violations. *)
Theorem plan_spec loads call_model ctx r :
  plan loads call_model ctx = inr r →
  1 <= plan_attempts r <= 3 ∧
  _validate (plan_payload r) ctx (_allowed_platforms ctx) = inr (plan_warnings r) ∧
  (∃ l n, tried loads call_model ctx (_allowed_platforms ctx) l ∧ plan_attempts r = Z.of_nat (length l) ∧
     best_attempt l n (plan_payload r, plan_warnings r) ∧ (plan_warnings r = [] → length l = S n)) ∧
  (plan_warnings r = [] ∧ plan_ok (plan_payload r) ctx (_allowed_platforms ctx) ∨
   plan_warnings r ≠ [] ∧ plan_attempts r = 3).
Proof.
  unfold plan. destruct (StrategyContext.available_channels ctx) as [|c cs]; [done|]. intros Hrun.
  apply sbind_inr in Hrun as (poor & _ & Hrun). destruct poor; [done|].
  destruct (_ ==b []); [done|]. apply (attempt_plans_spec _ _ _ _ _ []) in Hrun as (l & n & Hl & Hn & Hbest & Hc);
    [|by intros ? ? ?|by split].
  destruct (Hl n _ _ (proj1 Hbest)) as (raw & _ & _ & Hv). pose proof (lookup_lt_Some _ _ _ (proj1 Hbest)) as Hlt.
  rewrite Hn. unfold MAX_RETRIES in Hc. cbn [length] in Hc.
  destruct Hc as [(Hw & Hle & HS)|[Hw HS]]; (split; [lia|]); (split; [done|]).
  - split; [by exists l, n|]. left. split; [done|]. apply validate_sound. by rewrite Hv, Hw.
  - split; [by exists l, n|]. right. split; [done|lia].
Qed.

Definition sample_context : StrategyContext.t := {|
  StrategyContext.campaign_name := "Spring"; StrategyContext.campaign_type := "awareness";
  StrategyContext.objective := "reach"; StrategyContext.brief := None;
  StrategyContext.budget_total := DFin false 100000 (-2); StrategyContext.currency := "USD";
  StrategyContext.start_date := "2026-01-01"; StrategyContext.end_date := "2026-01-31";
  StrategyContext.audience_size := 10; StrategyContext.audience_summary := "";
  StrategyContext.available_channels := [mkinfo "email" "Mail"; mkinfo "linkedin" "LinkedIn"];
  StrategyContext.forbidden_platforms := []; StrategyContext.hard_caps := [];
  StrategyContext.human_overrides := [mkoverride "Email" (dec_of_Z 60) (dec_of_Z 600)] |}.

Definition sample_plan (pct : Z) : json :=
  let channel p share amount := JObj [("platform", JStr p); ("allocation_pct", JInt share);
    ("allocation_amount", JStr amount); ("rationale", JStr "reach"); ("human_override", JBool true)] in
  JObj [("channels", JList [channel "Email" pct "600.00"; channel "linkedin" 40 "400"]);
        ("kpis", JObj [("primary", JObj [("metric", JStr "ctr"); ("target", JInt 2); ("rationale", JStr "r")])])].

(** A model whose first answer has the wrong share. *)
Definition sample_loads (text : string) : option json :=
  if text ==b "first" then Some (sample_plan 61) else Some (sample_plan 60).
Definition sample_model (attempt : nat) (_ : StrategyContext.t) (_ : list jdict) : exn + string :=
  inr (if bool_decide (attempt = 0)%nat then "first" else "then").

Lemma plan_spec_witness :
  ∃ r, plan sample_loads sample_model sample_context = inr r ∧ plan_attempts r = 2 ∧
    plan_ok (plan_payload r) sample_context (_allowed_platforms sample_context).
Proof.
  eexists. split; [vm_compute; reflexivity|]. split; [reflexivity|].
  destruct (plan_spec sample_loads sample_model sample_context _ ltac:(vm_compute; reflexivity))
    as (_ & _ & _ & [[_ H]|[H _]]); [exact H|by destruct H].
Defined.

(** ** Accepting a proposal *)

(** The tables of the strategy are left alone. *)
Definition strategy_same : relation db := λ s s',
  t_strategy_proposal s' = t_strategy_proposal s ∧ t_strategy_touchpoint s' = t_strategy_touchpoint s.
#[export] Instance strategy_same_preorder : PreOrder strategy_same.
Proof. split; [by intros s|]. intros s1 s2 s3 [A B] [C D]. split; congruence. Qed.

Lemma audit_strategy_same tid ek eid act b a md : respects strategy_same (audit tid ek eid act b a md).
Proof. apply respects_audit; [apply _|by intros]. Qed.

Lemma set_strategy_same campaign :
  Campaign.status campaign = CampaignStatus.audience_built →
  respects strategy_same (apply campaign_sm campaign "set_strategy").
Proof.
  intros Hst. unfold apply. rewrite Hst.
  assert (sm_get (CampaignStatus.audience_built, "set_strategy") campaign_sm = Some t_set_strategy) as ->
    by by vm_compute.
  unfold t_set_strategy, transition. cbn [guard on_enter to_state tr_name]. unfold _has_accepted_strategy.
  respects_auto; apply audit_strategy_same.
Qed.

(** The rows a list of inserts adds. *)
Lemma add_touchpoints_run {X} (f : X → N → StrategyTouchpoint.t) (l : list X) e s :
  ∃ m rs, mapM_ (λ x, add_row (f x)) l e s =
    (s <| t_strategy_touchpoint := m |> <| next_uuid := (next_uuid s + N.of_nat (length l))%N |>, inr rs) ∧
    ∀ k, m !! k = if decide (next_uuid s ≤ k < next_uuid s + N.of_nat (length l))%N
                  then (λ x, f x k) <$> l !! N.to_nat (k - next_uuid s) else t_strategy_touchpoint s !! k.
Proof.
  revert s. induction l as [|x l IH]; intros s.
  - exists (t_strategy_touchpoint s), []. split.
    + cbn. rewrite N.add_0_r. by destruct s.
    + intros k. rewrite decide_False; [done|cbn; lia].
  - cbn [mapM_]. rewrite (bind_ok _ _ _ _ _ _ (add_row_run (f x) e s)).
    destruct (IH (set_rows (<[next_uuid s := f x (next_uuid s)]> (rows s)) (s <| next_uuid := (next_uuid s + 1)%N |>)))
      as (m & rs & Hm & Hk).
    exists m, (f x (next_uuid s) :: rs). split.
    + rewrite (bind_ok _ _ _ _ _ _ Hm). cbn [mret M_ret length]. f_equal. cbn.
      replace (next_uuid s + 1 + N.of_nat (length l))%N with (next_uuid s + N.pos (Pos.of_succ_nat (length l)))%N by lia.
      reflexivity.
    + intros k. rewrite Hk. cbn [length]. change (next_uuid (set_rows _ ?s0)) with (next_uuid s0). cbn [next_uuid].
      destruct (decide (k = next_uuid s)) as [->|Hne].
      * rewrite decide_False by (cbn; lia). rewrite decide_True by lia. cbn. rewrite N.sub_diag. cbn.
        by rewrite lookup_insert_eq.
      * destruct (decide (next_uuid s + 1 <= k < next_uuid s + 1 + N.of_nat (length l))%N) as [Hin|Hout].
        -- rewrite decide_True by (cbn; lia). rewrite decide_True by lia. cbn.
           replace (N.to_nat (k - next_uuid s)) with (S (N.to_nat (k - (next_uuid s + 1)))) by lia. done.
        -- rewrite decide_False by (cbn; lia). rewrite decide_False by lia. cbn. by rewrite lookup_insert_ne.
Qed.

(** The touchpoints of a proposal, as the hard-cap check sees them. *)
Definition calendar_of (s : db) (proposal_id : N) : list PlannedTouchpoint.t :=
  planned_of <$> List.filter (λ r, StrategyTouchpoint.proposal_id r ==b proposal_id)
    (snd <$> map_to_list (t_strategy_touchpoint s)).

Lemma times_of_Permutation p l l' : l ≡ₚ l' → times_of p l ≡ₚ times_of p l'.
Proof. intros H. unfold times_of. apply fmap_Permutation. by apply bfilter_Permutation. Qed.

Lemma times_of_ext {X} p (f g : nat → X → PlannedTouchpoint.t) l :
  (∀ i x, PlannedTouchpoint.channel_platform (f i x) = PlannedTouchpoint.channel_platform (g i x) ∧
          PlannedTouchpoint.scheduled_at (f i x) = PlannedTouchpoint.scheduled_at (g i x)) →
  times_of p (imap f l) = times_of p (imap g l).
Proof.
  unfold times_of. revert f g. induction l as [|x l IH]; intros f g Hfg; [done|]. cbn.
  destruct (Hfg 0%nat x) as [-> Hs].
  specialize (IH (λ i, f (S i)) (λ i, g (S i)) (λ i, Hfg (S i))).
  destruct (bool_decide _); cbn; [rewrite Hs; f_equal|]; exact IH.
Qed.

Lemma respects_cap_times l l' cap :
  (∀ p, times_of p l ≡ₚ times_of p l') → respects_cap l cap → respects_cap l' cap.
Proof.
  intros Ht H c Hc from Hf. rewrite <- (window_count_Permutation _ _ _ _ (Ht _)). apply (H c Hc).
  by rewrite Ht.
Qed.

Lemma keyed_rows_NoDup `{Table K T} (p : T → bool) (s : db) :
  keyed T s → NoDup (List.filter p (snd <$> map_to_list (rows s))).
Proof. intros Hk. eapply NoDup_fmap_1, select_pk_NoDup. exact Hk. Qed.

(** The rows of a proposal that had none are those that were inserted for it. *)
Lemma inserted_calendar (s : db) (m : gmap N StrategyTouchpoint.t) (n pid tid : N)
    (l : list PlannedTouchpoint.t) (t : Z) :
  keyed StrategyTouchpoint.t s →
  (∀ k r, t_strategy_touchpoint s !! k = Some r → StrategyTouchpoint.proposal_id r ≠ pid) →
  (∀ k, m !! k = if decide (n ≤ k < n + N.of_nat (length l))%N
                 then (λ x, touchpoint_row tid pid x t k) <$> l !! N.to_nat (k - n)
                 else t_strategy_touchpoint s !! k) →
  List.filter (λ r, StrategyTouchpoint.proposal_id r ==b pid) (snd <$> map_to_list m) ≡ₚ
  imap (λ i x, touchpoint_row tid pid x t (n + N.of_nat i)) l.
Proof.
  intros Hkeyed Hnone Hm. pose (s' := s <| t_strategy_touchpoint := m |>).
  assert (keyed StrategyTouchpoint.t s') as Hkeyed'.
  { intros k r Hr. change (m !! k = Some r) in Hr. rewrite Hm in Hr. destruct (decide _).
    - apply fmap_Some in Hr as (x & _ & ->). done.
    - by apply Hkeyed. }
  apply NoDup_Permutation.
  - exact (keyed_rows_NoDup _ s' Hkeyed').
  - apply (NoDup_fmap_1 StrategyTouchpoint.id). rewrite fmap_imap.
    apply NoDup_alt. intros i j k. rewrite !list_lookup_imap, !fmap_Some.
    intros (x & _ & ->) (y & _ & Hk). unfold compose in Hk. cbn in Hk. lia.
  - intros r. rewrite elem_of_bfilter, bool_decide_eq_true, elem_of_lookup_imap.
    change (snd <$> map_to_list m) with (snd <$> map_to_list (rows (R:=StrategyTouchpoint.t) s')).
    rewrite elem_of_rows. split.
    + intros [[k Hk] Hp]. change (m !! k = Some r) in Hk. rewrite Hm in Hk. destruct (decide _) as [Hr|Hr].
      * apply fmap_Some in Hk as (x & Hx & ->). exists (N.to_nat (k - n)), x. split; [|done]. f_equal. lia.
      * by destruct (Hnone _ _ Hk).
    + intros (i & x & -> & Hx). split; [|done]. exists (n + N.of_nat i)%N.
      change (rows s') with m. rewrite Hm. pose proof (lookup_lt_Some _ _ _ Hx). rewrite decide_True by lia.
      replace (N.to_nat (n + N.of_nat i - n)) with i by lia. by rewrite Hx.
Qed.

Lemma imap_const {A} (l : list A) : imap (λ _ x, x) l = l.
Proof. induction l as [|x l IH]; [done|]. cbn. f_equal. exact IH. Qed.

Lemma imap_imap {A B C} (f : nat → B → C) (g : nat → A → B) l :
  imap f (imap g l) = imap (λ i x, f i (g i x)) l.
Proof. revert f g. induction l as [|x l IH]; intros f g; [done|]. cbn. f_equal. apply IH. Qed.

(** The touchpoints of a proposal that were not there before. *)
Definition new_calendar (old : gmap N StrategyTouchpoint.t) (s' : db) (proposal_id : N) : list PlannedTouchpoint.t :=
  calendar_of (s' <| t_strategy_touchpoint := t_strategy_touchpoint s' ∖ old |>) proposal_id.

(** What a range of fresh keys adds to a table. *)
Lemma inserted_only {V} (f : N → option V) (base old m : gmap N V) (n : N) (len : N) :
  base ⊆ old → (∀ k r, old !! k = Some r → (k < n)%N) →
  (∀ k, m !! k = if decide (n ≤ k < n + len)%N then f k else base !! k) →
  ∀ k, (m ∖ old) !! k = if decide (n ≤ k < n + len)%N then f k else (∅ : gmap N V) !! k.
Proof.
  intros Hsub Hold Hm k. rewrite lookup_difference, Hm, lookup_empty. destruct (decide _) as [Hr|Hr].
  - destruct (old !! k) as [r|] eqn:Hk; [|done]. specialize (Hold _ _ Hk). lia.
  - destruct (base !! k) as [r|] eqn:Hk; [|by destruct (old !! k)]. by rewrite (lookup_weaken _ _ _ _ Hk Hsub).
Qed.

(** Filtering the rows of a table is reading the filtered table. *)
Lemma filter_rows {V} (p : V → bool) (m : gmap N V) :
  List.filter p (snd <$> map_to_list m) ≡ₚ snd <$> map_to_list (filter (λ kr : N * V, p kr.2 = true) m).
Proof.
  induction m as [|k x m Hk IH] using map_ind; [by rewrite map_filter_empty, map_to_list_empty|].
  etrans; [exact (bfilter_Permutation p _ _ (fmap_Permutation snd _ _ (map_to_list_insert m k x Hk)))|].
  rewrite fmap_cons. cbn [snd List.filter]. destruct (p x) eqn:Hp.
  - rewrite map_filter_insert_True by done. etrans; [by apply Permutation_skip, IH|].
    symmetry. apply (fmap_Permutation snd _ ((k, x) :: _)), map_to_list_insert.
    apply map_lookup_filter_None. by left.
  - rewrite map_filter_insert_False, delete_id by (cbn; congruence). exact IH.
Qed.

(** A calendar none of whose touchpoints was there before is all new. *)
Lemma calendar_all_new (old : gmap N StrategyTouchpoint.t) s' pid :
  (∀ k r, t_strategy_touchpoint s' !! k = Some r → StrategyTouchpoint.proposal_id r = pid → old !! k = None) →
  new_calendar old s' pid ≡ₚ calendar_of s' pid.
Proof.
  intros Hnew. unfold new_calendar, calendar_of. apply fmap_Permutation. rewrite !filter_rows.
  set (m := t_strategy_touchpoint s') in *. cbn [t_strategy_touchpoint].
  apply fmap_Permutation, reflexive_eq, (f_equal map_to_list), map_eq.
  intros k. apply option_eq. intros r. rewrite !map_lookup_filter_Some.
  change ((m ∖ old) !! k = Some r ∧ bool_decide (StrategyTouchpoint.proposal_id r = pid) = true
          ↔ m !! k = Some r ∧ bool_decide (StrategyTouchpoint.proposal_id r = pid) = true).
  rewrite lookup_difference_Some.
  split; [by intros [[? _] ?]|]. intros [Hr Hp]. split; [|done]. split; [done|].
  apply (Hnew k r Hr). by apply bool_decide_eq_true_1 in Hp.
Qed.

(** What seeding a calendar does: the touchpoints there stay, and those that are new to [old], which
    holds at least those, keep the caps. *)
Lemma seed_calendar_spec proposal (old : gmap N StrategyTouchpoint.t) e s s' rs :
  t_strategy_touchpoint s ⊆ old → (∀ k r, old !! k = Some r → (k < next_uuid s)%N) →
  seed_calendar proposal e s = (s', inr rs) →
  t_strategy_proposal s' = t_strategy_proposal s ∧
  t_strategy_touchpoint s ⊆ t_strategy_touchpoint s' ∧
  (∀ k r, t_strategy_touchpoint s' !! k = Some r →
     StrategyTouchpoint.proposal_id r = StrategyProposal.id proposal ∧ old !! k = None ∨
     t_strategy_touchpoint s !! k = Some r) ∧
  ∃ c, t_campaign s !! StrategyProposal.campaign_id proposal = Some c ∧
    ∀ k tc, t_tenant_constraint s !! k = Some tc → TenantConstraint.tenant_id tc = Campaign.tenant_id c →
      of_kind TenantConstraintKind.hard_cap tc = true →
      respects_cap (new_calendar old s' (StrategyProposal.id proposal)) (TenantConstraint.payload tc).
Proof.
  intros Hsub Hold Hrun. unfold seed_calendar in Hrun. inv_run.
  destruct (t_campaign s !! StrategyProposal.campaign_id proposal) as [c|] eqn:Hc; [|done].
  unfold latest_audience, tenant_constraints in Hrun. inv_run.
  destruct (head _) as [audience|]; [|done]. inv_run.
  match goal with H : generate_calendar _ _ _ _ (hard_caps_of ?cs) = inr ?l |- _ =>
    rename H into Hgen; set (constraints := cs) in Hgen; rename l into planned end.
  match type of Hrun with mapM_ (λ tp, add_row (?f tp ?t)) ?l _ _ = _ =>
    destruct (add_touchpoints_run (λ tp, f tp t) l e s) as (m & rs' & Hm & Hk) end.
  assert (s' = s <| t_strategy_touchpoint := m |> <| next_uuid := (next_uuid s + N.of_nat (length
    (detect_frequency_warnings DEFAULT_FREQUENCY_CAP DEFAULT_FREQUENCY_WINDOW planned)))%N |>) as ->
    by congruence.
  clear Hrun. cbn [t_strategy_proposal t_strategy_touchpoint].
  split; [done|]. split.
  { apply map_subseteq_spec. intros k r Hr. change (m !! k = Some r). rewrite Hk, decide_False; [done|].
    pose proof (Hold k r (lookup_weaken _ _ _ _ Hr Hsub)). lia. }
  split.
  { intros k r Hr. change (m !! k = Some r) in Hr. rewrite Hk in Hr. destruct (decide _) as [Hin|]; [left|by right].
    apply fmap_Some in Hr as (x & _ & ->). split; [done|].
    apply eq_None_not_Some. intros [r0 Hr0]. pose proof (Hold _ _ Hr0). lia. }
  exists c. split; [done|]. intros k tc Htc Htid Hkind.
  assert (TenantConstraint.payload tc ∈ hard_caps_of constraints) as Hcap.
  { unfold hard_caps_of. apply list_elem_of_fmap_2, elem_of_bfilter. split; [|done].
    unfold constraints. apply elem_of_bfilter. split; [|by rewrite Htid, bool_decide_eq_true_2].
    change (t_tenant_constraint s) with (rows (R:=TenantConstraint.t) s).
    rewrite elem_of_rows. by exists k. }
  unfold generate_calendar in Hgen. destruct (payload_channels _); [done|]. destruct (lay_out _ _ _ _ _ _); [done|].
  destruct (enforce_hard_caps _ _ _) as [|[]] eqn:Hcaps; [done|]. injection Hgen as Hpl; rewrite Hpl in Hcaps.
  pose proof (proj1 (enforce_ok _ _ _) Hcaps _ Hcap) as Hresp. eapply respects_cap_times; [|exact Hresp].
  intros p. unfold new_calendar, calendar_of.
  assert (∀ {P : Prop} k r, t_strategy_touchpoint empty_db !! k = Some r → P) as Hempty by done.
  match goal with |- context [snd <$> map_to_list (t_strategy_touchpoint ?s0)] =>
    change (t_strategy_touchpoint s0) with (m ∖ old) end.
  rewrite (times_of_Permutation p _ _ (fmap_Permutation planned_of _ _
    (inserted_calendar empty_db (m ∖ old) (next_uuid s) (StrategyProposal.id proposal) _ _ _
       (λ k r, Hempty _ k r) (λ k r, Hempty _ k r) (inserted_only _ _ _ _ _ _ Hsub Hold Hk)))).
  rewrite fmap_imap. unfold detect_frequency_warnings at 1. rewrite imap_imap. unfold compose.
  match goal with |- times_of p planned ≡ₚ times_of p (imap ?f planned) =>
    rewrite (times_of_ext p f (λ _ x, x) planned) by done end.
  by rewrite imap_const.
Qed.

Lemma try_except_raise {A} (m : M A) h e s s' a :
  (∀ x k, h x = Some k → ∃ y, k = raise y) → try_except m h e s = (s', inr a) → m e s = (s', inr a).
Proof.
  intros Hh. unfold try_except. destruct (m e s) as [s1 [x|b]]; [|done].
  destruct (h x) as [k|] eqn:E; [|done]. by destruct (Hh _ _ E) as [y ->].
Qed.

(** The state an acceptance seeds the calendar from: the siblings are un-accepted and
    their touchpoints gone, the proposal itself is accepted. *)
Definition acceptance_base (proposal : StrategyProposal.t) (e : env) (s : db) : db :=
  let other p := (StrategyProposal.campaign_id p ==b StrategyProposal.campaign_id proposal) &&
                 (StrategyProposal.id p !=b StrategyProposal.id proposal) in
  let s1 := (update_where (λ p, other p && StrategyProposal.is_accepted p)
               (λ p, p <| StrategyProposal.is_accepted := false |>) e s).1 in
  let others := List.filter other (snd <$> map_to_list (t_strategy_proposal s1)) in
  let s2 := (delete_where (λ t, StrategyTouchpoint.proposal_id t ∈b (StrategyProposal.id <$> others)) e s1).1 in
  (update_row (StrategyProposal.id proposal) (λ p, p <| StrategyProposal.is_accepted := true |>) e s2).1.

Lemma accept_strategy_run proposal e s s' p' :
  t_strategy_proposal s !! StrategyProposal.id proposal = Some proposal →
  StrategyProposal.is_accepted proposal = false →
  accept_strategy (StrategyProposal.id proposal) e s = (s', inr p') →
  ∃ s4 rs, seed_calendar (proposal <| StrategyProposal.is_accepted := true |>) e
             (acceptance_base proposal e s) = (s4, inr rs) ∧ strategy_same s4 s'.
Proof.
  intros Hp Hacc Hrun. unfold accept_strategy in Hrun. inv_run.
  change (rows s) with (t_strategy_proposal s) in Hrun. rewrite Hp, Hacc in Hrun. inv_run.
  match type of Hrun with context [match ?o with Some _ => _ | None => _ end] => destruct o as [c|] eqn:Hc end; [|done].
  unfold assign in Hrun. inv_run.
  match goal with
  | Hu : update_where _ _ _ _ = (?a, _), Hd : delete_where _ _ ?a = (?b, _), Hr : update_row _ _ _ ?b = (?d, _),
    Hs : try_except _ _ _ _ = (?s4, inr ?rs), Ha : audit _ _ _ _ _ _ _ _ _ = (?s5, _),
    Hm : (if _ then _ else _) _ ?s5 = (_, _) |- _ =>
      apply (f_equal fst) in Hu; apply (f_equal fst) in Hd; apply (f_equal fst) in Hr; cbn [fst] in Hu, Hd, Hr;
      exists s4, rs; split
  end.
  - match goal with Hs : try_except _ _ _ _ = _ |- _ => apply try_except_raise in Hs end.
    + subst. eassumption.
    + intros [] k Hk; try discriminate Hk; injection Hk as <-; eauto.
  - match goal with Ha : audit _ _ _ _ _ _ _ _ ?a = (?b, _) |- _ => trans b end.
    + match goal with Ha : audit ?t ?k ?i ?n ?o ?w ?m _ ?a = (?b, _) |- _ =>
        replace b with (fst (audit t k i n o w m e a)) by (by rewrite Ha) end. apply audit_strategy_same.
    + match goal with Hm : (if ?b then _ else _) _ _ = _ |- _ => destruct b eqn:Hst in Hm end.
      * match goal with Hm : try_except _ _ _ _ = _ |- _ => apply try_except_raise in Hm end.
        -- inv_run. match goal with Ha : apply _ _ _ _ ?a = (?b, _) |- _ =>
             replace b with (fst (apply campaign_sm c "set_strategy" e a)) by (by rewrite Ha) end.
           apply set_strategy_same. by apply bool_decide_eq_true_1 in Hst.
        -- intros [] k Hk; try discriminate Hk; injection Hk as <-; eauto.
      * inv_run. reflexivity.
Qed.

Lemma update_row_at `{Table K T} (k k' : K) (f : T → T) e s :
  rows (update_row k f e s).1 !! k' =
  if decide (k' = k) then (λ r, touch (now e) (f r)) <$> rows s !! k' else rows s !! k'.
Proof.
  cbn. rewrite rows_set_rows. destruct (decide (k' = k)) as [->|]; [apply lookup_alter_eq|by apply lookup_alter_ne].
Qed.

(** A proposal after the siblings' flags are reset and its own is set. *)
Lemma acceptance_base_proposals proposal e s k q :
  keyed StrategyProposal.t s →
  t_strategy_proposal (acceptance_base proposal e s) !! k = Some q →
  StrategyProposal.id q = k ∧
  (StrategyProposal.campaign_id q = StrategyProposal.campaign_id proposal →
   StrategyProposal.is_accepted q = bool_decide (k = StrategyProposal.id proposal)).
Proof.
  intros Hkeyed Hq. unfold acceptance_base in Hq. cbv zeta in Hq.
  match type of Hq with t_strategy_proposal (fst (update_row ?k0 ?f e ?s2)) !! k = _ =>
    change (t_strategy_proposal (fst (update_row k0 f e s2))) with (rows (R:=StrategyProposal.t) (fst (update_row k0 f e s2))) in Hq end.
  rewrite update_row_at in Hq.
  match type of Hq with context [rows (fst (delete_where ?p e ?s1)) !! k] =>
    change (rows (R:=StrategyProposal.t) (fst (delete_where p e s1)) !! k) with (rows (R:=StrategyProposal.t) s1 !! k) in Hq end.
  rewrite update_where_lookup in Hq.
  destruct (rows s !! k) as [q0|] eqn:Hq0; [|by destruct (decide _)].
  pose proof (Hkeyed _ _ Hq0) as Hid. cbn in Hid. cbn in Hq.
  destruct (decide (k = StrategyProposal.id proposal)) as [Hk|Hk].
  - injection Hq as <-. rewrite (bool_decide_eq_true_2 (k = _)) by done. by destruct (_ && _).
  - rewrite (bool_decide_eq_false_2 (k = _)) by done. injection Hq as <-. split; [by destruct (_ && _)|].
    rewrite (bool_decide_eq_false_2 (StrategyProposal.id q0 = _)) by congruence.
    destruct (decide (StrategyProposal.campaign_id q0 = StrategyProposal.campaign_id proposal)) as [Hc|Hc].
    + rewrite (bool_decide_eq_true_2 _ Hc). cbn. by destruct (StrategyProposal.is_accepted q0) eqn:E; cbn; rewrite ?E.
    + rewrite (bool_decide_eq_false_2 _ Hc). cbn. by intros.
Qed.

(** A touchpoint left before seeding was there, and its proposal is no sibling. *)
Lemma acceptance_base_touchpoints proposal e s k r :
  keyed StrategyProposal.t s →
  t_strategy_touchpoint (acceptance_base proposal e s) !! k = Some r →
  t_strategy_touchpoint s !! k = Some r ∧
  ∀ k' q, t_strategy_proposal (acceptance_base proposal e s) !! k' = Some q →
    k' = StrategyTouchpoint.proposal_id r →
    StrategyProposal.campaign_id q = StrategyProposal.campaign_id proposal → k' = StrategyProposal.id proposal.
Proof.
  intros Hkeyed Hr. unfold acceptance_base in Hr. cbv zeta in Hr.
  match type of Hr with t_strategy_touchpoint (fst (update_row ?k0 ?f e (fst (delete_where ?p e ?s1)))) !! k = _ =>
    change (filter (λ kr : N * StrategyTouchpoint.t, p kr.2 = false) (t_strategy_touchpoint s) !! k = Some r) in Hr end.
  apply map_lookup_filter_Some in Hr as [Hr Hno]. cbn beta in Hno. split; [exact Hr|].
  intros k' q Hq Hk' Hc. destruct (acceptance_base_proposals _ _ _ _ _ Hkeyed Hq) as [Hid _].
  destruct (decide (k' = StrategyProposal.id proposal)) as [|Hne]; [done|exfalso].
  unfold acceptance_base in Hq. cbv zeta in Hq.
  match type of Hq with t_strategy_proposal (fst (update_row ?k0 ?f e ?s2)) !! k' = _ =>
    change (rows (R:=StrategyProposal.t) (fst (update_row k0 f e s2)) !! k' = Some q) in Hq end.
  rewrite update_row_at, decide_False in Hq by done.
  apply bool_decide_eq_false_1 in Hno. apply Hno. cbn [snd]. rewrite <- Hk', <- Hid.
  apply list_elem_of_fmap_2, elem_of_bfilter. split.
  - match type of Hq with rows (fst (delete_where ?p e ?s1)) !! k' = _ =>
      change (rows (R:=StrategyProposal.t) s1 !! k' = Some q) in Hq;
      change (t_strategy_proposal s1) with (rows (R:=StrategyProposal.t) s1) end.
    rewrite elem_of_rows. by exists k'.
  - rewrite Hc, Hid. by rewrite bool_decide_eq_true_2, bool_decide_eq_false_2.
Qed.

(** The proposal's own touchpoints are not among those deleted. *)
Lemma acceptance_base_keeps proposal e s k r :
  keyed StrategyProposal.t s → t_strategy_touchpoint s !! k = Some r →
  StrategyTouchpoint.proposal_id r = StrategyProposal.id proposal →
  t_strategy_touchpoint (acceptance_base proposal e s) !! k = Some r.
Proof.
  intros Hkeyed Hr Hpid. unfold acceptance_base. cbv zeta.
  match goal with |- t_strategy_touchpoint (fst (update_row ?k0 ?f e (fst (delete_where ?p e ?s1)))) !! k = _ =>
    change (filter (λ kr : N * StrategyTouchpoint.t, p kr.2 = false) (t_strategy_touchpoint s) !! k = Some r) end.
  apply map_lookup_filter_Some. split; [exact Hr|]. cbn beta. apply bool_decide_eq_false_2.
  intros (q & Hid & Hq)%list_elem_of_fmap. apply elem_of_bfilter in Hq as [_ Hq].
  apply andb_prop in Hq as [_ Hq]. cbn [snd] in Hid. rewrite Hpid in Hid.
  by rewrite bool_decide_eq_true_2 in Hq.
Qed.

(** C10: accepting a proposal, whatever it has been through. When the endpoint succeeds on a proposal
    that is not accepted, then among the proposals of its campaign it is the accepted one and the
    only one, and no touchpoint of a sibling proposal is left. Its own touchpoints from before stay as
    they are, and those it gets keep every hard cap of the tenant: no window of the cap's period that
    starts at one of them on the cap's platform holds more of them than the cap allows. So when the
    proposal had no touchpoints, which is so unless it was accepted before, its whole calendar keeps
    the caps; [reaccepted_calendar_doubles] shows what happens otherwise. The key supply must be fresh,
    as random identifiers are. *)
Theorem accept_strategy_spec e s s' proposal p' :
  keyed StrategyProposal.t s →
  (∀ k r, t_strategy_touchpoint s !! k = Some r → (k < next_uuid s)%N) →
  t_strategy_proposal s !! StrategyProposal.id proposal = Some proposal →
  StrategyProposal.is_accepted proposal = false →
  accept_strategy (StrategyProposal.id proposal) e s = (s', inr p') →
  (∀ k q, t_strategy_proposal s' !! k = Some q →
     StrategyProposal.campaign_id q = StrategyProposal.campaign_id proposal →
     StrategyProposal.is_accepted q = bool_decide (k = StrategyProposal.id proposal)) ∧
  (∀ k r q, t_strategy_touchpoint s' !! k = Some r →
     t_strategy_proposal s' !! StrategyTouchpoint.proposal_id r = Some q →
     StrategyProposal.campaign_id q = StrategyProposal.campaign_id proposal →
     StrategyTouchpoint.proposal_id r = StrategyProposal.id proposal) ∧
  (∀ k r, t_strategy_touchpoint s !! k = Some r →
     StrategyTouchpoint.proposal_id r = StrategyProposal.id proposal → t_strategy_touchpoint s' !! k = Some r) ∧
  ∃ c, t_campaign s !! StrategyProposal.campaign_id proposal = Some c ∧
    ∀ k tc, t_tenant_constraint s !! k = Some tc → TenantConstraint.tenant_id tc = Campaign.tenant_id c →
      of_kind TenantConstraintKind.hard_cap tc = true →
      respects_cap (new_calendar (t_strategy_touchpoint s) s' (StrategyProposal.id proposal)) (TenantConstraint.payload tc) ∧
      ((∀ k r, t_strategy_touchpoint s !! k = Some r → StrategyTouchpoint.proposal_id r ≠ StrategyProposal.id proposal) →
       respects_cap (calendar_of s' (StrategyProposal.id proposal)) (TenantConstraint.payload tc)).
Proof.
  intros Hkp Hfresh Hp Hacc Hrun.
  destruct (accept_strategy_run _ _ _ _ _ Hp Hacc Hrun) as (s4 & rs & Hseed & Hprop & Htouch).
  apply (seed_calendar_spec _ (t_strategy_touchpoint s)) in Hseed as (Hprop4 & Hkept & Htouch4 & c & Hc & Hcaps).
  - rewrite Hprop, Hprop4. unfold new_calendar in *. rewrite Htouch. split; [|split; [|split]].
    + intros k q Hq. by apply (acceptance_base_proposals _ _ _ _ _ Hkp Hq).
    + intros k r q Hr Hq Hqc. destruct (Htouch4 _ _ Hr) as [[? _]|Hr0]; [done|].
      exact (proj2 (acceptance_base_touchpoints _ _ _ _ _ Hkp Hr0) _ _ Hq eq_refl Hqc).
    + intros k r Hr Hpid. eapply lookup_weaken; [|exact Hkept]. by apply acceptance_base_keeps.
    + exists c. split; [exact Hc|]. intros k tc Htc Htid Hkind. specialize (Hcaps k tc Htc Htid Hkind).
      split; [exact Hcaps|]. intros Hnone. eapply respects_cap_times; [|exact Hcaps]. intros p.
      rewrite <- Htouch.
      apply times_of_Permutation, (calendar_all_new (t_strategy_touchpoint s) s'). intros k' r Hr Hpid.
      rewrite Htouch in Hr. destruct (Htouch4 _ _ Hr) as [[_ ?]|Hr0]; [done|].
      by destruct (Hnone k' r); [apply (acceptance_base_touchpoints _ _ _ _ _ Hkp Hr0)|].
  - apply map_subseteq_spec. intros k r Hr. by apply (acceptance_base_touchpoints proposal e s).
  - exact Hfresh.
Qed.

(** A campaign with an audience, a cap of one e-mail a month, an accepted first proposal with
    one touchpoint on the calendar, and a second proposal. *)
Definition strategy_row (id : N) (accepted : bool) : StrategyProposal.t :=
  StrategyProposal.mk id 1 10 (Z.of_N id - 59) sample_payload accepted "user" None [] 0 0.

Definition strategy_db : db :=
  sample_db (sample_campaign CampaignStatus.audience_built) []
    <| t_audience := {[ 50%N := Audience.mk 50 1 10 "All" [] None None None 0 0 ]} |>
    <| t_tenant_constraint := {[ 55%N := TenantConstraint.mk 55 1 "hard_cap"
         [("platform", JStr "email"); ("per", JStr "month"); ("limit", JInt 1)] 0 0 ]} |>
    <| t_strategy_proposal := {[ 60%N := strategy_row 60 true; 61%N := strategy_row 61 false ]} |>
    <| t_strategy_touchpoint := {[ 70%N := StrategyTouchpoint.mk 70 1 60 "email" 50 0 0 false None 0 0 ]} |>.

Lemma accept_strategy_spec_witness :
  let proposal := strategy_row 61 false in
  ∃ s' p', accept_strategy 61 (demo_env 5) strategy_db = (s', inr p') ∧
    (StrategyProposal.is_accepted <$> t_strategy_proposal s' !! 60%N) = Some false ∧
    length (calendar_of s' 61) = 3%nat ∧
    respects_cap (calendar_of s' 61) [("platform", JStr "email"); ("per", JStr "month"); ("limit", JInt 1)].
Proof.
  intros proposal.
  destruct (run_returns (accept_strategy 61) (demo_env 5) strategy_db) as (s' & p' & Hrun); [by vm_compute|].
  assert (keyed StrategyProposal.t strategy_db) as Hkp by (apply (bool_decide_eq_true_1 _); by vm_compute).
  assert (map_Forall (λ k r, StrategyTouchpoint.proposal_id r ≠ 61%N ∧ (k < 100)%N)
    (t_strategy_touchpoint strategy_db)) as Hold by (apply (bool_decide_eq_true_1 _); by vm_compute).
  destruct (accept_strategy_spec (demo_env 5) strategy_db s' proposal p' Hkp (λ k r H, proj2 (Hold k r H)) eq_refl
    eq_refl Hrun) as (_ & _ & _ & c & Hc & Hcaps).
  assert (s' = (accept_strategy 61 (demo_env 5) strategy_db).1) as Hs by by rewrite Hrun.
  exists s', p'. split_and!.
  - exact Hrun.
  - rewrite Hs. by vm_compute.
  - rewrite Hs. by vm_compute.
  - apply (Hcaps 55%N _ eq_refl); [|done|exact (λ k r H, proj1 (Hold k r H))]. vm_compute in Hc. by injection Hc as <-.
Defined.
