(* ===== verification/Approvals.v ===== *)
(** * Approvals: src/app/api/approvals.py, src/app/approvals, src/app/api/approval_settings.py

    The decision endpoints on content assets: who may approve what, the admin
    threshold and the batch cap snapshotted at submission, the decision log, and
    the campaign transition a decision can trigger. The same decisions as the
    review page and the assistant take them (src/app/api/ui/approvals.py,
    src/app/assistant/tools.py). *)

From S2P Require Export Requests DecText StateMachine.
Local Open Scope Z_scope.

(** ** Helpers *)

(** [app/api/approvals.py] lines 366-375, [_load_asset_and_campaign]. *)
Definition _load_asset_and_campaign (asset_id : N) : M (ContentAsset.t * Campaign.t) :=
  asset ← get_row asset_id;
  match asset with
  | None => raise (HTTPException 404 "content asset not found")
  | Some asset =>
      campaign ← get_row (ContentAsset.campaign_id asset);
      match campaign with
      | None => raise (HTTPException 404 "campaign not found")
      | Some campaign => mret (asset, campaign)
      end
  end.

(** [app/api/approvals.py] lines 378-383, [_platform_for]. *)
Definition _platform_for (asset : ContentAsset.t) : option string :=
  match as_str (dget "channel_platform" (ContentAsset.extra_metadata asset)) with
  | Some platform => if str_empty platform then None else Some platform
  | None => None
  end.

(** [app/api/approvals.py] lines 386-390, [_is_compliance_blocked]. *)
Definition _is_compliance_blocked (asset : ContentAsset.t) : bool :=
  match as_obj (dget "compliance" (ContentAsset.extra_metadata asset)) with
  | Some compliance => opt_truthy (dget "blocked" compliance)
  | None => false
  end.

(** [app/api/approvals.py] lines 393-398, [_merge_fields]. *)
Definition _merge_fields (existing overrides : jdict) : jdict := dmerge existing overrides.

(** [dict(v)] of a JSON value. The program stores objects under [fields]; [dict] of
    any other value but an empty sequence is taken to raise. *)
Definition py_dict (v : json) : M jdict :=
  match v with
  | JObj d => mret d
  | JList [] => mret []
  | JStr "" => mret []
  | JList _ | JStr _ => raise (ValueError "dictionary update sequence element")
  | _ => raise TypeError
  end.

(** [try: await campaign_sm.apply(...) except (UnknownTransitionError,
    GuardFailedError)]: the campaign as it is left. *)
Definition try_transition (name : string) (campaign : Campaign.t) : M (bool * Campaign.t) :=
  try_except (campaign ← apply campaign_sm campaign name; mret (true, campaign))
    (λ x, match x with
          | UnknownTransitionError _ | GuardFailedError _ => Some (mret (false, campaign))
          | _ => None
          end).

(** [app/api/approvals.py] lines 401-410, [_maybe_advance_to_ready_to_launch]. *)
Definition _maybe_advance_to_ready_to_launch (campaign : Campaign.t) : M Campaign.t :=
  if Campaign.status campaign !=b CampaignStatus.approval_pending then mret campaign
  else r ← try_transition "start_launch" campaign; mret r.2.

(** [app/api/approvals.py] lines 413-423, [_maybe_revert_to_content_in_production]. *)
Definition _maybe_revert_to_content_in_production (campaign : Campaign.t) : M Campaign.t :=
  if Campaign.status campaign !=b CampaignStatus.approval_pending then mret campaign
  else r ← try_transition "regenerate_after_rejection" campaign; mret r.2.

(** ** Thresholds *)

(** [(asset.extra_metadata or {}).get("approval_threshold") or {}], read with [.get]. *)
Definition threshold_snapshot (asset : ContentAsset.t) : M jdict :=
  match dget "approval_threshold" (ContentAsset.extra_metadata asset) with
  | Some (JObj d) => mret d
  | Some v => if truthy v then raise (AttributeError "get") else mret []
  | None => mret []
  end.

(** [snapshot.get("currency") or "USD"]. *)
Definition snapshot_currency (snapshot : jdict) : json :=
  match dget "currency" snapshot with
  | Some v => if truthy v then v else JStr "USD"
  | None => JStr "USD"
  end.

(** [v != s] for a JSON value and a string. *)
Definition is_string (v : json) (s : string) : bool :=
  match v with JStr s' => s' ==b s | _ => false end.

(** The two fields of the dictionary [_evaluate_threshold] returns. *)
Record ThresholdDecision := { requires_admin : bool; applied_threshold : jdict }.

(** [app/api/approvals.py] lines 431-472, [_evaluate_threshold]. *)
Definition _evaluate_threshold (asset : ContentAsset.t) (campaign : Campaign.t)
    : M ThresholdDecision :=
  snapshot ← threshold_snapshot asset;
  let admin_raw := default JNull (dget "admin_required_above_amount" snapshot) in
  let currency := snapshot_currency snapshot in
  let applied skipped := [
    ("admin_required_above_amount", admin_raw);
    ("snapshot_currency", currency);
    ("campaign_budget", j_cents (Campaign.budget_total campaign));
    ("campaign_currency", JStr (Campaign.currency campaign));
    ("snapshot_taken_at", default JNull (dget "snapshot_taken_at" snapshot));
    ("skipped", skipped)] in
  let skip why := mret {| requires_admin := false; applied_threshold := applied (JStr why) |} in
  match admin_raw with
  | JNull => skip "no_threshold_configured"
  | _ =>
      if negb (is_string currency (Campaign.currency campaign)) then skip "currency_mismatch"
      else
        match dec_parse (json_str admin_raw) with
        | None => skip "invalid_threshold_value"
        | Some admin_required_above =>
            match dec_gt (dec_of_cents (Campaign.budget_total campaign)) admin_required_above with
            | None => raise InvalidOperation
            | Some b => mret {| requires_admin := b; applied_threshold := applied JNull |}
            end
        end
  end.

(** [app/api/approvals.py] lines 475-492, [_exceeds_auto_approval_cap]. *)
Definition _exceeds_auto_approval_cap (asset : ContentAsset.t) (campaign : Campaign.t)
    : M (bool * option pydec) :=
  snapshot ← threshold_snapshot asset;
  let cap_raw := match dget "auto_approval_cap_amount" snapshot with
                 | None | Some JNull => JStr "0"
                 | Some v => v
                 end in
  if negb (is_string (snapshot_currency snapshot) (Campaign.currency campaign))
  then mret (false, None)
  else
    match dec_parse (json_str cap_raw) with
    | None => mret (false, None)
    | Some cap =>
        match dec_gt (dec_of_cents (Campaign.budget_total campaign)) cap with
        | None => raise InvalidOperation
        | Some b => mret (b, Some cap)
        end
    end.

(** ** Deciding on one asset *)

(** [app/api/schemas/approval.py] lines 37-49, [ApproveRequest]. *)
Record ApproveRequest := {
  edited_content : option string;
  edited_fields : option jdict;
  note : option string;
}.

(** [app/api/schemas/approval.py] lines 52-58, [RejectRequest]. *)
Record RejectRequest := {
  reason : string;
  category : ApprovalRejectionCategory.t;
}.

Definition is_nonempty (d : option jdict) : bool := negb (default [] d ==b []).
Definition nonempty_str (s : option string) : option string :=
  s ≫= λ s, if str_empty s then None else Some s.

(** [(asset.extra_metadata or {}).get("fields", {})]. *)
Definition fields_of (asset : ContentAsset.t) : json :=
  default (JObj []) (dget "fields" (ContentAsset.extra_metadata asset)).

(** The payload of a decision with edits. *)
Definition edits_payload (asset : ContentAsset.t) (content : option string) (fields : jdict)
    (note : option string) : M jdict :=
  previous ← py_dict (fields_of asset);
  mret ([("previous_content", jopt JStr (ContentAsset.content asset));
         ("previous_fields", JObj previous);
         ("current_content", jopt JStr (match content with
                                        | Some c => Some c
                                        | None => ContentAsset.content asset
                                        end));
         ("current_fields", JObj (_merge_fields previous fields))]
        ++ match nonempty_str note with Some n => [("note", JStr n)] | None => [] end).

(** The asset with the reviewer's edits. *)
Definition apply_edits (content : option string) (fields : jdict) (asset : ContentAsset.t)
    : M ContentAsset.t :=
  let asset := match content with
               | Some c => asset <| ContentAsset.content := Some c |>
               | None => asset
               end in
  if fields ==b [] then mret asset
  else
    let fs := fields_of asset in
    existing ← (if truthy fs then py_dict fs else mret []);
    mret (with_metadata "fields" (JObj (dmerge existing fields)) asset).

(** Insert a decision: [db.add(ApprovalDecisionLog(...))]. *)
Definition log_decision (asset_id reviewer_id : N) (decision : ApprovalDecision.t)
    (reason : option string) (edits : option jdict) : M ApprovalDecisionLog.t :=
  t ← asks now;
  add_row (λ id, {|
    ApprovalDecisionLog.id := id;
    ApprovalDecisionLog.content_asset_id := asset_id;
    ApprovalDecisionLog.reviewer_id := reviewer_id;
    ApprovalDecisionLog.decision := decision;
    ApprovalDecisionLog.reason := reason;
    ApprovalDecisionLog.edits := edits;
    ApprovalDecisionLog.decided_at := t |}).

(** Write a decided asset, its decision and its audit row: what the decision paths
    share. [before] is the object whose snapshot precedes the status change. *)
Definition record_decision (asset : ContentAsset.t) (f : ContentAsset.t → ContentAsset.t)
    (before : ContentAsset.t) (reviewer_id : N) (kind : ApprovalDecision.t)
    (reason : option string) (edits : option jdict) (action : string) (md : jdict)
    : M ApprovalDecisionLog.t :=
  decision ← log_decision (ContentAsset.id asset) reviewer_id kind reason edits;
  asset ← assign asset f;
  audit (ContentAsset.tenant_id asset) "content_asset" (ContentAsset.id asset) action
    (Some (column_snapshot before)) (Some (column_snapshot asset))
    ([("decision_id", j_uuid (ApprovalDecisionLog.id decision))] ++ md) ;;
  mret decision.

Definition set_status (st : AssetStatus.t) (a : ContentAsset.t) : ContentAsset.t :=
  a <| ContentAsset.status := st |>.

Definition approvable (a : ContentAsset.t) : bool :=
  status_in [AssetStatus.pending_approval; AssetStatus.rejected] a.

Definition not_eligible (a : ContentAsset.t) (what : string) : exn :=
  HTTPException 409 ("asset is in '" +:+ value (ContentAsset.status a)
    +:+ "', not eligible for " +:+ what).

Definition approved_kind (edits : option jdict) : ApprovalDecision.t :=
  match edits with
  | Some _ => ApprovalDecision.approved_with_edits
  | None => ApprovalDecision.approved
  end.

(** [app/api/approvals.py] lines 166-276, [approve_asset]. *)
Definition approve_asset (asset_id : N) (body : ApproveRequest) (user : AppUser.t)
    : M ApprovalDecisionLog.t :=
  loaded ← _load_asset_and_campaign asset_id;
  let asset := loaded.1 in let campaign := loaded.2 in
  raise_if (negb (approvable asset)) (not_eligible asset "approval") ;;
  raise_if (_is_compliance_blocked asset)
    (HTTPException 422 "asset is compliance-blocked — clear via /clear-compliance first") ;;
  threshold_decision ← _evaluate_threshold asset campaign;
  raise_if (requires_admin threshold_decision && (AppUser.role user !=b UserRole.admin))
    (HTTPException 403 (json_repr (JObj [
      ("message", JStr "requires higher role: admin");
      ("applied_threshold", JObj (applied_threshold threshold_decision))]))) ;;
  let fields := default [] (edited_fields body) in
  let with_edits := bool_decide (is_Some (edited_content body)) || is_nonempty (edited_fields body) in
  edits ← (if with_edits
           then p ← edits_payload asset (edited_content body) fields (note body); mret (Some p)
           else mret None);
  edited ← (if with_edits then apply_edits (edited_content body) fields asset else mret asset);
  let kind := approved_kind edits in
  decision ← record_decision asset (λ _, set_status AssetStatus.approved edited) edited
    (AppUser.id user) kind (note body) edits (value kind)
    [("applied_threshold", JObj (applied_threshold threshold_decision))];
  _maybe_advance_to_ready_to_launch campaign ;;
  mret decision.

(** [app/api/approvals.py] lines 284-358, [reject_asset]. *)
Definition reject_asset (asset_id : N) (body : RejectRequest) (user : AppUser.t)
    : M ApprovalDecisionLog.t :=
  loaded ← _load_asset_and_campaign asset_id;
  let asset := loaded.1 in let campaign := loaded.2 in
  raise_if (ContentAsset.status asset !=b AssetStatus.pending_approval)
    (not_eligible asset "rejection") ;;
  decision ← record_decision asset (set_status AssetStatus.rejected) asset (AppUser.id user)
    ApprovalDecision.rejected (Some (reason body))
    (Some [("category", j_enum (category body))]) "rejected"
    [("category", j_enum (category body))];
  agent ← ensure_content_creator_agent (ContentAsset.tenant_id asset);
  enqueue_asset_task (ContentAsset.tenant_id asset) (Agent.id agent)
    (ContentAsset.campaign_id asset) "content_creator.generate_asset"
    [("asset_id", j_uuid (ContentAsset.id asset));
     ("campaign_id", j_uuid (ContentAsset.campaign_id asset));
     ("triggered_by_user_id", j_uuid (AppUser.id user));
     ("rejection_reason", JStr (reason body));
     ("rejection_category", j_enum (category body))] None ;;
  _maybe_revert_to_content_in_production campaign ;;
  mret decision.

(** ** The queue and the history *)

(** [app/api/schemas/approval.py] lines 16-29, [ApprovalQueueItem]. *)
Record ApprovalQueueItem := {
  item_asset : ContentAsset.t;
  item_campaign : Campaign.t;
  item_platform : option string;
  item_overdue : bool;
  item_compliance_blocked : bool;
}.

(** [app/api/approvals.py] lines 67-67, [_OVERDUE_AFTER]. *)
Definition OVERDUE_AFTER : Z := 24 * hour.

(** ORDER BY campaign end_date ASC, asset updated_at ASC. *)
Definition queue_order (x y : ContentAsset.t * Campaign.t) : Prop :=
  Campaign.end_date x.2 < Campaign.end_date y.2 ∨
  (Campaign.end_date x.2 = Campaign.end_date y.2 ∧
   ContentAsset.updated_at x.1 ≤ ContentAsset.updated_at y.1).
#[export] Instance queue_order_dec : RelDecision queue_order.
Proof. intros x y. unfold queue_order. apply _. Defined.

(** A query parameter that is given must agree. *)
Definition agrees {A} `{EqDecision A} (filter : option A) (x : A) : bool :=
  match filter with Some y => x ==b y | None => true end.

(** [app/api/approvals.py] lines 75-123, [list_approval_queue]. *)
Definition list_approval_queue (campaign_id : option N) (channel_platform : option ChannelPlatform.t)
    (asset_type : option AssetType.t) (submitter_id : option N) (_user : AppUser.t)
    : M (list ApprovalQueueItem) :=
  assets ← select (λ a,
    (ContentAsset.status a ==b AssetStatus.pending_approval) &&
    agrees campaign_id (ContentAsset.campaign_id a) && agrees asset_type (ContentAsset.asset_type a));
  campaigns ← gets t_campaign;
  let joined := omap (λ a, pair a <$> campaigns !! ContentAsset.campaign_id a) assets in
  let rows := merge_sort queue_order
    (List.filter (λ ac, match submitter_id with
                        | Some u => Campaign.owner_id ac.2 ==b Some u
                        | None => true
                        end) joined) in
  t ← asks now;
  let cutoff := t - OVERDUE_AFTER in
  mret (omap (λ ac : ContentAsset.t * Campaign.t,
    let platform := _platform_for ac.1 in
    if match channel_platform with
       | Some p => negb (platform ==b Some (value p))
       | None => false
       end then None
    else Some {|
      item_asset := ac.1;
      item_campaign := ac.2;
      item_platform := platform;
      item_overdue := ContentAsset.updated_at ac.1 <? cutoff;
      item_compliance_blocked := _is_compliance_blocked ac.1 |}) rows).

(** [app/api/approvals.py] lines 131-158, [get_approval_history]. *)
Definition get_approval_history (asset_id : N) (_user : AppUser.t)
    : M (list ApprovalDecisionLog.t) :=
  asset ← get_row (R:=ContentAsset.t) asset_id;
  raise_if (asset ==b None) (HTTPException 404 "content asset not found") ;;
  decisions ← select (λ d, ApprovalDecisionLog.content_asset_id d ==b asset_id);
  mret (order_by_desc ApprovalDecisionLog.decided_at decisions).

(** ** Batch approval *)

(** [app/api/schemas/approval.py] lines 79-85, [BatchApproveRequest]. *)
Record BatchApproveRequest := { asset_ids : list N; dry_run : bool }.

(** [app/api/schemas/approval.py] lines 101-108, [BatchExclusionEntry]. *)
Record BatchExclusionEntry := {
  exc_asset_id : N;
  exc_reason : string;
  exc_details : list (string * option string);
}.

(** [app/api/schemas/approval.py] lines 88-93, [BatchApprovalSummary]. *)
Record BatchApprovalSummary := {
  channel_counts : list (string * Z);
  total_spend_exposed : pydec;
  summary_currency : string;
  would_approve_count : nat;
  excluded_count : nat;
}.

(** [app/api/schemas/approval.py] lines 111-115, [BatchApproveResponse]. Approved entries are
    pairs of the asset and the decision. *)
Record BatchApproveResponse := {
  summary : BatchApprovalSummary;
  approved : list (N * option N);
  excluded : list BatchExclusionEntry;
  response_dry_run : bool;
}.

(** The locals of the loop. [rows_by_id] holds the session's asset objects, which
    the loop assigns to. *)
Record batch_state := {
  rows_by_id : gmap N ContentAsset.t;
  b_approved : list (N * option N);
  b_excluded : list BatchExclusionEntry;
  b_counts : list (string * Z);
  b_campaigns : list N;
  b_currency : option string;
}.

(** Why an asset is left out, or the campaign and the threshold it passed. *)
Inductive verdict :=
  | excluded_for (reason : string) (details : list (string * option string))
  | accepted (asset : ContentAsset.t) (campaign : Campaign.t) (threshold : ThresholdDecision).

(** The filters of the loop, in their order. *)
Definition judge (rows_by_id : gmap N ContentAsset.t) (campaigns_by_id : gmap N Campaign.t)
    (user : AppUser.t) (asset_id : N) : M verdict :=
  match rows_by_id !! asset_id with
  | None => mret (excluded_for "not_found" [])
  | Some asset =>
      match campaigns_by_id !! ContentAsset.campaign_id asset with
      | None => mret (excluded_for "not_found" [("missing", Some "campaign")])
      | Some campaign =>
          let budget := dec_str (dec_of_cents (Campaign.budget_total campaign)) in
          if negb (approvable asset) then
            mret (excluded_for "wrong_status" [("status", Some (value (ContentAsset.status asset)))])
          else if _is_compliance_blocked asset then mret (excluded_for "compliance_blocked" [])
          else
            cap ← _exceeds_auto_approval_cap asset campaign;
            if cap.1 : bool then
              mret (excluded_for "above_auto_approval_cap"
                [("campaign_budget", Some budget); ("cap", dec_str <$> cap.2);
                 ("currency", Some (Campaign.currency campaign))])
            else
              threshold ← _evaluate_threshold asset campaign;
              if requires_admin threshold && (AppUser.role user !=b UserRole.admin) then
                mret (excluded_for "requires_admin_role"
                  [("campaign_budget", Some budget);
                   ("threshold", Some (json_str (default JNull
                      (dget "admin_required_above_amount" (applied_threshold threshold)))));
                   ("currency", Some (Campaign.currency campaign))])
              else mret (accepted asset campaign threshold)
      end
  end.

Definition exclude (asset_id : N) (reason : string) (details : list (string * option string))
    (b : batch_state) : batch_state := {|
  rows_by_id := rows_by_id b; b_approved := b_approved b;
  b_excluded := b_excluded b ++ [{| exc_asset_id := asset_id; exc_reason := reason;
                                    exc_details := details |}];
  b_counts := b_counts b; b_campaigns := b_campaigns b; b_currency := b_currency b |}.

(** The counters the loop updates once the filters passed. *)
Definition count_accepted (asset : ContentAsset.t) (campaign : Campaign.t) (b : batch_state)
    : batch_state :=
  let platform := default (value (ContentAsset.asset_type asset)) (_platform_for asset) in {|
  rows_by_id := rows_by_id b; b_approved := b_approved b; b_excluded := b_excluded b;
  b_counts := dset platform (default 0 (dget platform (b_counts b)) + 1) (b_counts b);
  b_campaigns := if Campaign.id campaign ∈b b_campaigns b then b_campaigns b
                 else b_campaigns b ++ [Campaign.id campaign];
  b_currency := match nonempty_str (b_currency b) with
                | Some c => Some c
                | None => Some (Campaign.currency campaign)
                end |}.

Definition approve_entry (asset : ContentAsset.t) (asset_id : N) (decision : option N)
    (b : batch_state) : batch_state := {|
  rows_by_id := <[asset_id := asset]> (rows_by_id b);
  b_approved := b_approved b ++ [(asset_id, decision)]; b_excluded := b_excluded b;
  b_counts := b_counts b; b_campaigns := b_campaigns b; b_currency := b_currency b |}.

(** The body of the loop. [begin_nested] is a savepoint: a failed write is undone. *)
Definition batch_one (campaigns_by_id : gmap N Campaign.t) (user : AppUser.t) (dry : bool)
    (b : batch_state) (asset_id : N) : M batch_state :=
  v ← judge (rows_by_id b) campaigns_by_id user asset_id;
  match v with
  | excluded_for why details => mret (exclude asset_id why details b)
  | accepted asset campaign threshold =>
      let b := count_accepted asset campaign b in
      if dry then mret (approve_entry asset asset_id None b)
      else
        try_except
          (decision ← transaction (record_decision asset (set_status AssetStatus.approved) asset
             (AppUser.id user) ApprovalDecision.approved None (Some [("batch", JBool true)])
             "approved" [("applied_threshold", JObj (applied_threshold threshold));
                         ("via", JStr "batch_approve")]);
           mret (approve_entry (set_status AssetStatus.approved asset) asset_id
                   (Some (ApprovalDecisionLog.id decision)) b))
          (λ x, Some (mret (exclude asset_id "write_failed"
                              [("error", Some (str_take 200 (exn_str x)))] b)))
  end.

Definition empty_batch (rows : list ContentAsset.t) : batch_state := {|
  rows_by_id := list_to_map ((λ a, (ContentAsset.id a, a)) <$> rows);
  b_approved := []; b_excluded := []; b_counts := []; b_campaigns := []; b_currency := None |}.

(** [sum(campaigns_by_id[cid].budget_total for ...), start=Decimal("0")]. *)
Definition total_spend (campaigns_by_id : gmap N Campaign.t) (ids : list N) : pydec :=
  match ids with
  | [] => DFin false 0 0
  | _ => dec_of_cents (foldr Z.add 0
           (omap (λ cid, Campaign.budget_total <$> campaigns_by_id !! cid) ids))
  end.

(** [app/api/approvals.py] lines 500-696, [batch_approve]. The set of approved campaigns is
    kept in the order of first approval. *)
Definition batch_approve (body : BatchApproveRequest) (user : AppUser.t) : M BatchApproveResponse :=
  rows ← select (λ a, ContentAsset.id a ∈b asset_ids body);
  let campaign_ids := ContentAsset.campaign_id <$> rows in
  campaigns ← select (λ c, Campaign.id c ∈b campaign_ids);
  let campaigns_by_id : gmap N Campaign.t := list_to_map ((λ c, (Campaign.id c, c)) <$> campaigns) in
  b ← foldM (batch_one campaigns_by_id user (dry_run body)) (empty_batch rows) (asset_ids body);
  when (negb (dry_run body))
    (foreach (omap (λ cid, campaigns_by_id !! cid) (b_campaigns b)) (λ campaign,
       _maybe_advance_to_ready_to_launch campaign ;; mret ())) ;;
  mret {|
    summary := {|
      channel_counts := b_counts b;
      total_spend_exposed := total_spend campaigns_by_id (b_campaigns b);
      summary_currency := default "USD" (nonempty_str (b_currency b));
      would_approve_count := length (b_approved b);
      excluded_count := length (b_excluded b) |};
    approved := b_approved b;
    excluded := b_excluded b;
    response_dry_run := dry_run body |}.
