(* ===== verification/AbTesting.v ===== *)
(** * A/B tests: src/app/ab_testing/assignment.py and src/app/api/ab_tests.py

    The deterministic bucket of a recipient, its durable assignment row, and the
    life cycle of a test: create, add a variant, launch, stop, promote. *)

From S2P Require Export Blake2b Approvals.
Local Open Scope Z_scope.

(** ** Assignment *)

(** ORDER of [sorted(split.items())]; the keys are different. *)
Definition item_le (x y : string * Z) : Prop := String.leb x.1 y.1 = true.
#[export] Instance item_le_dec : RelDecision item_le.
Proof. intros x y. unfold item_le. apply _. Defined.
Definition sorted_items (split : list (string * Z)) : list (string * Z) := merge_sort item_le split.

(** [sum(split.values())]. *)
Definition sum_values (split : list (string * Z)) : Z := foldr Z.add 0 split.*2.

(** The loop over the cumulative weights. *)
Fixpoint pick_bucket (items : list (string * Z)) (cumulative bucket : Z) : option string :=
  match items with
  | [] => None
  | (variant_id, weight) :: items =>
      let cumulative := cumulative + weight in
      if bucket <? cumulative then Some variant_id else pick_bucket items cumulative bucket
  end.

Definition bucket_of (ab_test_id : N) (audience_external_id : string) (total : Z) : Z :=
  digest_int (uuid_str ab_test_id +:+ ":" +:+ audience_external_id) mod total.

(** [app/ab_testing/assignment.py] lines 40-76, [pick_variant_index]. *)
Definition pick_variant_index (ab_test_id : N) (audience_external_id : string)
    (split : list (string * Z)) : exn + string :=
  if split ==b [] then
    inl (AbTestAssignmentError ("ab_test " +:+ uuid_str ab_test_id +:+ " has no traffic_split configured"))
  else
    let total := sum_values split in
    if total <=? 0 then
      inl (AbTestAssignmentError ("ab_test " +:+ uuid_str ab_test_id +:+ " traffic_split sums to "
                                  +:+ str_of_Z total))
    else
      let items := sorted_items split in
      match pick_bucket items 0 (bucket_of ab_test_id audience_external_id total) with
      | Some variant_id => inr variant_id
      | None => inr (default "" (last items.*1))
      end.

(** [app/ab_testing/assignment.py] lines 150-164, [_coerce_split]. *)
Definition _coerce_split (raw : json) : exn + list (string * Z) :=
  match raw with
  | JObj d =>
      fold_left (λ (out : exn + list (string * Z)) kv,
        match out with
        | inl x => inl x
        | inr out =>
            match py_int kv.2 with
            | None => inl (AbTestAssignmentError
                             ("traffic_split[" +:+ str_repr kv.1 +:+ "] is not an integer"))
            | Some weight => if weight <=? 0 then inr out else inr (dset kv.1 weight out)
            end
        end) d (inr [])
  | _ => inl (AbTestAssignmentError "traffic_split must be a JSON object")
  end.

Definition assignment_of (tenant_id ab_test_id : N) (external_id : string) (r : AbTestAssignment.t)
    : bool :=
  (AbTestAssignment.tenant_id r ==b tenant_id) && (AbTestAssignment.ab_test_id r ==b ab_test_id) &&
  (AbTestAssignment.audience_external_id r ==b external_id).

(** [app/ab_testing/assignment.py] lines 79-147, [assign_variant]. *)
Definition assign_variant (tenant_id ab_test_id : N) (audience_external_id : string) : M N :=
  let mine := assignment_of tenant_id ab_test_id audience_external_id in
  rows ← select mine;
  existing ← scalar_one_or_none (AbTestAssignment.variant_id <$> rows);
  match existing with
  | Some v => mret v
  | None =>
      tests ← select (λ t, (AbTest.id t ==b ab_test_id) && (AbTest.tenant_id t ==b tenant_id));
      test ← scalar_one_or_none tests;
      match test with
      | None => raise (AbTestAssignmentError ("ab_test " +:+ uuid_str ab_test_id +:+ " not found"))
      | Some test =>
          split ← of_sum (_coerce_split (JObj (AbTest.traffic_split test)));
          picked ← of_sum (pick_variant_index ab_test_id audience_external_id split);
          match uuid_parse picked with
          | None => raise (ValueError "badly formed hexadecimal UUID string")
          | Some variant_id =>
              t ← asks now;
              conflict ← select mine;
              (if conflict ==b [] then
                 add_row (λ id, {|
                   AbTestAssignment.id := id;
                   AbTestAssignment.tenant_id := tenant_id;
                   AbTestAssignment.ab_test_id := ab_test_id;
                   AbTestAssignment.audience_external_id := audience_external_id;
                   AbTestAssignment.variant_id := variant_id;
                   AbTestAssignment.assigned_at := t |}) ;; mret ()
               else mret ()) ;;
              rows ← select mine;
              scalar_one (AbTestAssignment.variant_id <$> rows)
          end
      end
  end.

(** ** The endpoints *)

(** [extra_metadata["ab_test_group_id"].astext == str(ab_test_id)]. *)
Definition in_group (ab_test_id : N) (a : ContentAsset.t) : bool :=
  astext (jget "ab_test_group_id" (Some (JObj (ContentAsset.extra_metadata a))))
    ==b Some (uuid_str ab_test_id).

(** [app/api/ab_tests.py] lines 448-458, [_list_variants]. *)
Definition _list_variants (ab_test_id : N) : M (list ContentAsset.t) := select (in_group ab_test_id).

(** [app/api/ab_tests.py] lines 461-463, [_list_variant_ids]. *)
Definition _list_variant_ids (ab_test_id : N) : M (list N) :=
  rows ← _list_variants ab_test_id; mret (ContentAsset.id <$> rows).

(** [app/api/ab_tests.py] lines 42-61, [list_ab_tests]. *)
Definition list_ab_tests (campaign_id : N) (_user : AppUser.t) : M (list AbTest.t) :=
  rows ← select (λ t, AbTest.campaign_id t ==b campaign_id);
  mret (order_by AbTest.created_at rows).

Definition find_ab_test (ab_test_id : N) : M AbTest.t :=
  t ← get_row ab_test_id;
  match t with
  | Some t => mret t
  | None => raise (HTTPException 404 "ab_test not found")
  end.

(** [app/api/ab_tests.py] lines 64-78, [get_ab_test]. *)
Definition get_ab_test (ab_test_id : N) (_user : AppUser.t) : M (AbTest.t * list N) :=
  ab_test ← find_ab_test ab_test_id;
  variant_ids ← _list_variant_ids ab_test_id;
  mret (ab_test, variant_ids).

(** The canonical pair of a test. *)
Definition canonical_pair (t : AbTest.t) : list N :=
  omap (λ i, i) [AbTest.variant_a_id t; AbTest.variant_b_id t].

(** The registered variants, or the canonical pair when none is registered. *)
Definition variants_or_pair (t : AbTest.t) : M (list ContentAsset.t) :=
  variants ← _list_variants (AbTest.id t);
  match variants with
  | [] => select (λ a, ContentAsset.id a ∈b canonical_pair t)
  | _ => mret variants
  end.

(** [int(v.extra_metadata.get("variant_index", 0))]. *)
Definition variant_index (a : ContentAsset.t) : option Z :=
  py_int (default (JInt 0) (dget "variant_index" (ContentAsset.extra_metadata a))).

Definition metadata_or_null (k : string) (a : ContentAsset.t) : json :=
  default JNull (dget k (ContentAsset.extra_metadata a)).

(** [app/api/ab_tests.py] lines 81-159, [add_variant]. Returns the variant's id, its index and
    its generation task. [anthropic] says whether the API key is configured. *)
Definition add_variant (anthropic : bool) (ab_test_id : N) (user : AppUser.t) : M (N * Z * N) :=
  raise_if (negb anthropic)
    (HTTPException 503 "content creator is not configured (ANTHROPIC_API_KEY missing)") ;;
  find_ab_test ab_test_id ;;
  existing ← _list_variants ab_test_id;
  match existing with
  | [] => raise (HTTPException 409 "ab_test has no existing variants to clone from")
  | template :: _ =>
      raise_if (MAX_VARIANTS <=? Z.of_nat (length existing))
        (HTTPException 409 ("ab_test already has the maximum of " +:+ str_of_Z MAX_VARIANTS +:+ " variants")) ;;
      raise_if (existsb (λ v, variant_index v ==b None) existing) (ValueError "invalid literal for int()") ;;
      let indexes := omap variant_index existing in
      let next_index := foldr Z.max (default 0 (head indexes)) indexes + 1 in
      t ← asks now;
      new_asset ← add_row (λ id, {|
        ContentAsset.id := id;
        ContentAsset.tenant_id := ContentAsset.tenant_id template;
        ContentAsset.campaign_id := ContentAsset.campaign_id template;
        ContentAsset.channel_id := ContentAsset.channel_id template;
        ContentAsset.asset_type := ContentAsset.asset_type template;
        ContentAsset.status := AssetStatus.requested;
        ContentAsset.title := None;
        ContentAsset.content := None;
        ContentAsset.extra_metadata := [
          ("touchpoint_id", metadata_or_null "touchpoint_id" template);
          ("channel_platform", metadata_or_null "channel_platform" template);
          ("ab_test_group_id", j_uuid ab_test_id);
          ("variant_index", JInt next_index);
          ("variant_angle", JStr (angle_for_index next_index));
          ("is_baseline", JBool false)];
        ContentAsset.is_required := false;
        ContentAsset.scheduled_at := ContentAsset.scheduled_at template;
        ContentAsset.published_at := None;
        ContentAsset.created_at := t;
        ContentAsset.updated_at := t |});
      agent ← ensure_content_creator_agent (ContentAsset.tenant_id new_asset);
      task ← enqueue_asset_task (ContentAsset.tenant_id new_asset) (Agent.id agent)
        (ContentAsset.campaign_id new_asset) "content_creator.generate_asset"
        [("asset_id", j_uuid (ContentAsset.id new_asset));
         ("campaign_id", j_uuid (ContentAsset.campaign_id new_asset));
         ("triggered_by_user_id", j_uuid (AppUser.id user))] None;
      mret (ContentAsset.id new_asset, next_index, Task.id task)
  end.

(** [app/api/schemas/ab_test.py] lines 52-63, [CreateAbTestRequest]. *)
Record CreateAbTestRequest := {
  req_name : string;
  req_hypothesis : option string;
  req_primary_metric : string;
  variant_ids : list N;
  traffic_split : list (N * Z);
  min_runtime_hours : option Z;
  max_runtime_hours : option Z;
}.

(** The partial unique index [uq_ab_test_active_per_variant_a]. *)
Definition active_on (tenant_id : N) (variant_a : option N) (t : AbTest.t) : bool :=
  (AbTest.tenant_id t ==b tenant_id) && (AbTest.variant_a_id t ==b variant_a) &&
  negb (variant_a ==b None) && (AbTest.status t ∈b [AbTestStatus.designing; AbTestStatus.running]).

Definition same_members (l k : list N) : bool := forallb (λ x, x ∈b k) l && forallb (λ x, x ∈b l) k.

(** [app/api/ab_tests.py] lines 173-264, [create_ab_test]. *)
Definition create_ab_test (campaign_id : N) (body : CreateAbTestRequest) (user : AppUser.t)
    : M AbTest.t :=
  campaign ← get_row campaign_id;
  raise_if (match campaign with
            | Some c => Campaign.tenant_id c !=b AppUser.tenant_id user
            | None => true
            end) (HTTPException 404 "campaign not found") ;;
  raise_if (negb (bool_decide (NoDup (variant_ids body))))
    (HTTPException 422 "duplicate variant ids in request") ;;
  let split_total := foldr Z.add 0 (traffic_split body).*2 in
  raise_if (negb (split_total =? 100))
    (HTTPException 422 ("traffic_split must sum to 100, got " +:+ str_of_Z split_total)) ;;
  raise_if (negb (same_members (traffic_split body).*1 (variant_ids body)))
    (HTTPException 422 "traffic_split keys must match variant_ids exactly") ;;
  variants ← select (λ a, (ContentAsset.id a ∈b variant_ids body) &&
                          (ContentAsset.tenant_id a ==b AppUser.tenant_id user));
  raise_if (negb (bool_decide (length variants = length (variant_ids body))))
    (HTTPException 422 "one or more variants not found") ;;
  foreach variants (λ v,
    raise_if (ContentAsset.campaign_id v !=b campaign_id)
      (HTTPException 422 ("variant " +:+ uuid_str (ContentAsset.id v) +:+ " does not belong to campaign "
                          +:+ uuid_str campaign_id))) ;;
  t ← asks now;
  active ← select (active_on (AppUser.tenant_id user) (head (variant_ids body)));
  raise_if (negb (active ==b []))
    (HTTPException 409 "an active A/B test already exists on this asset family") ;;
  ab_test ← add_row (λ id, {|
    AbTest.id := id;
    AbTest.tenant_id := AppUser.tenant_id user;
    AbTest.campaign_id := campaign_id;
    AbTest.name := req_name body;
    AbTest.hypothesis := req_hypothesis body;
    AbTest.primary_metric := req_primary_metric body;
    AbTest.status := AbTestStatus.designing;
    AbTest.variant_a_id := variant_ids body !! 0%nat;
    AbTest.variant_b_id := variant_ids body !! 1%nat;
    AbTest.winner_id := None;
    AbTest.confidence := None;
    AbTest.lift := None;
    AbTest.last_evaluated_at := None;
    AbTest.traffic_split := (λ kv, (uuid_str kv.1, JInt kv.2)) <$> traffic_split body;
    AbTest.min_runtime_hours := min_runtime_hours body;
    AbTest.max_runtime_hours := max_runtime_hours body;
    AbTest.started_at := None;
    AbTest.stopped_at := None;
    AbTest.created_at := t;
    AbTest.updated_at := t |});
  foreach variants (λ v,
    assign v (with_metadata "ab_test_group_id" (j_uuid (AbTest.id ab_test))) ;; mret ()) ;;
  mret ab_test.

(** [app/api/ab_tests.py] lines 170-170, [_LAUNCH_READY_STATUSES]. *)
Definition LAUNCH_READY_STATUSES : list AssetStatus.t := [AssetStatus.approved; AssetStatus.scheduled].

Definition wrong_status (t : AbTest.t) (what : string) : exn :=
  HTTPException 409 ("ab_test is in status '" +:+ value (AbTest.status t) +:+ "'" +:+ what).

(** [app/api/ab_tests.py] lines 267-325, [launch_ab_test]. *)
Definition launch_ab_test (ab_test_id : N) (_user : AppUser.t) : M AbTest.t :=
  ab_test ← find_ab_test ab_test_id;
  raise_if (AbTest.status ab_test !=b AbTestStatus.designing)
    (wrong_status ab_test ", expected 'designing'") ;;
  variants ← variants_or_pair ab_test;
  raise_if (variants ==b []) (HTTPException 409 "ab_test has no variants to launch") ;;
  let not_ready := List.filter (λ v, negb (status_in LAUNCH_READY_STATUSES v)) variants in
  raise_if (negb (not_ready ==b []))
    (HTTPException 409 (json_repr (JObj [
      ("reason", JStr "variants_not_approved");
      ("variant_ids", JList ((λ v, j_uuid (ContentAsset.id v)) <$> not_ready));
      ("statuses", JList ((λ v, j_enum (ContentAsset.status v)) <$> not_ready))]))) ;;
  t ← asks now;
  assign ab_test (λ x, x <| AbTest.status := AbTestStatus.running |> <| AbTest.started_at := Some t |>).

(** [app/api/ab_tests.py] lines 328-351, [stop_ab_test]. *)
Definition stop_ab_test (ab_test_id : N) (_user : AppUser.t) : M AbTest.t :=
  ab_test ← find_ab_test ab_test_id;
  raise_if (negb (AbTest.status ab_test ∈b [AbTestStatus.designing; AbTestStatus.running]))
    (wrong_status ab_test "") ;;
  t ← asks now;
  assign ab_test (λ x, x <| AbTest.status := AbTestStatus.stopped |> <| AbTest.stopped_at := Some t |>).

(** [app/api/ab_tests.py] lines 354-445, [promote_ab_test]. *)
Definition promote_ab_test (ab_test_id : N) (user : AppUser.t) : M AbTest.t :=
  ab_test ← find_ab_test ab_test_id;
  match AbTest.status ab_test, AbTest.winner_id ab_test with
  | AbTestStatus.significant, Some winner_id =>
      winner ← get_row (R:=ContentAsset.t) winner_id;
      match winner with
      | None => raise (HTTPException 409 "winner content_asset has been deleted")
      | Some winner =>
          let flags := match dget "compliance_violations" (ContentAsset.extra_metadata winner) with
                       | Some v => if truthy v then v else JList []
                       | None => JList []
                       end in
          raise_if (truthy flags && negb (AppUser.role user ∈b [UserRole.manager; UserRole.admin]))
            (HTTPException 409 (json_repr (JObj [
              ("reason", JStr "compliance_review_required"); ("violations", flags)]))) ;;
          variants ← variants_or_pair ab_test;
          foreach variants (λ v,
            if (ContentAsset.id v ==b ContentAsset.id winner)
               || status_in [AssetStatus.archived; AssetStatus.published] v
            then mret ()
            else assign v (set_status AssetStatus.archived) ;; mret ()) ;;
          ab_test' ← assign ab_test (λ x,
            x <| AbTest.traffic_split := [(uuid_str (ContentAsset.id winner), JInt 100)] |>);
          audit (AbTest.tenant_id ab_test) "ab_test" (AbTest.id ab_test) "ab_test_promoted" None None
            [("winner_id", j_uuid (ContentAsset.id winner));
             ("prior_split", JObj (AbTest.traffic_split ab_test));
             ("compliance_violations", flags)] ;;
          mret ab_test'
      end
  | st, _ => raise (HTTPException 409 (json_repr (JObj [
               ("reason", JStr "no_winner"); ("status", j_enum st)])))
  end.
