(* ===== verification/AbTestProofs.v ===== *)
(** * A/B tests: exact shares, sticky assignments, the life cycle *)

From S2P Require Export Fixtures AbTesting LaunchProofs.
Local Open Scope Z_scope.

(** ** Shares *)

Lemma sum_values_cons k w items : sum_values ((k, w) :: items) = w + sum_values items.
Proof. done. Qed.

Lemma sum_values_nonneg items : Forall (λ kw, 0 < kw.2) items → 0 <= sum_values items.
Proof.
  induction 1 as [|[k w] items Hw _ IH]; [done|]. rewrite sum_values_cons. simpl in Hw. lia.
Qed.

Lemma sum_values_perm l k : l ≡ₚ k → sum_values l = sum_values k.
Proof.
  unfold sum_values. intros Hp. apply (fmap_Permutation snd) in Hp.
  induction Hp; simpl; lia.
Qed.

Definition share (items : list (string * Z)) (cum : Z) (v : string) : list Z :=
  List.filter (λ b, pick_bucket items cum b ==b Some v) (seqZ cum (sum_values items)).

Lemma bfilter_all {A} (f : A → bool) l : (∀ x, x ∈ l → f x = true) → List.filter f l = l.
Proof.
  induction l as [|x l IH]; intros Hf; simpl; [done|]. rewrite (Hf x) by left.
  f_equal. apply IH. intros y Hy. apply Hf. by right.
Qed.

(** The buckets split at the first item's share. *)
Lemma share_cons k w items cum v :
  0 < w → Forall (λ kw, 0 < kw.2) items →
  share ((k, w) :: items) cum v =
    (if v ==b k then seqZ cum w else []) ++ share items (cum + w) v.
Proof.
  intros Hw Hpos. unfold share. pose proof (sum_values_nonneg _ Hpos).
  rewrite sum_values_cons, seqZ_app by lia. rewrite List.filter_app. f_equal.
  - destruct (v ==b k) eqn:E; reflect_bools.
    + subst v. apply bfilter_all. intros b Hb%elem_of_seqZ. simpl.
      destruct (Z.ltb_spec b (cum + w)); [|lia]. by rewrite bool_decide_true.
    + apply bfilter_nil_iff. intros b Hb%elem_of_seqZ. simpl.
      destruct (Z.ltb_spec b (cum + w)); [|lia]. rewrite bool_decide_false; congruence.
  - apply bfilter_ext. intros b Hb%elem_of_seqZ. simpl.
    destruct (Z.ltb_spec b (cum + w)); [lia|done].
Qed.

Lemma share_absent items cum v :
  Forall (λ kw, 0 < kw.2) items → v ∉ items.*1 → share items cum v = [].
Proof.
  intros Hpos. revert cum. induction Hpos as [|[k w] items Hw Hpos IH]; intros cum Hv; [done|].
  rewrite fmap_cons, not_elem_of_cons in Hv. destruct Hv as [Hk Hv]. simpl in Hk.
  rewrite share_cons, IH by done. by rewrite bool_decide_false.
Qed.

Lemma share_length items cum v w :
  Forall (λ kw, 0 < kw.2) items → NoDup items.*1 → (v, w) ∈ items →
  Z.of_nat (length (share items cum v)) = w.
Proof.
  intros Hpos. revert cum. induction Hpos as [|[k x] items Hx Hpos IH]; intros cum Hnd Hin.
  - by apply not_elem_of_nil in Hin.
  - rewrite fmap_cons in Hnd. apply NoDup_cons in Hnd as [Hk Hnd]. simpl in Hk, Hx.
    rewrite share_cons by done. apply elem_of_cons in Hin as [[= -> ->]|Hin].
    + rewrite bool_decide_true, share_absent, app_nil_r by done. rewrite length_seqZ. lia.
    + rewrite bool_decide_false; [by apply IH|]. intros ->. apply Hk. by apply (list_elem_of_fmap_2 fst) in Hin.
Qed.

Lemma pick_bucket_total items cum b :
  Forall (λ kw, 0 < kw.2) items → cum <= b < cum + sum_values items →
  ∃ v, pick_bucket items cum b = Some v ∧ v ∈ items.*1.
Proof.
  intros Hpos. revert cum. induction Hpos as [|[k w] items Hw Hpos IH]; intros cum Hb.
  - unfold sum_values in Hb. simpl in Hb. lia.
  - rewrite sum_values_cons in Hb. simpl in *. destruct (Z.ltb_spec b (cum + w)).
    + exists k. split; [done|left].
    + destruct (IH (cum + w)) as (v & Hv & Hin); [lia|]. exists v. split; [done|by right].
Qed.

(** C38: the traffic split is honoured exactly. For a split with different variants and
    positive weights, of the [total] buckets a recipient can fall in exactly [w] choose
    the variant of weight [w]; every recipient gets a variant of the split, so the
    fallback after the loop is never reached; and the choice depends on the test, the
    recipient and the split alone. *)
Theorem pick_variant_exact split :
  split ≠ [] → NoDup split.*1 → Forall (λ kw, 0 < kw.2) split →
  (∀ v w, (v, w) ∈ split →
     Z.of_nat (length (List.filter
       (λ b, pick_bucket (sorted_items split) 0 b ==b Some v) (seqZ 0 (sum_values split)))) = w) ∧
  ∀ ab_test_id ext, ∃ v, pick_variant_index ab_test_id ext split = inr v ∧ v ∈ split.*1 ∧
    pick_bucket (sorted_items split) 0 (bucket_of ab_test_id ext (sum_values split)) = Some v.
Proof.
  intros Hne Hnd Hpos.
  pose proof (merge_sort_Permutation item_le split) as Hp. fold (sorted_items split) in Hp.
  assert (Forall (λ kw, 0 < kw.2) (sorted_items split)) as Hpos' by by rewrite Hp.
  assert (NoDup (sorted_items split).*1) as Hnd' by by rewrite Hp.
  split.
  - intros v w Hin. rewrite <- (sum_values_perm _ _ Hp). apply (share_length _ 0); [done..|]. by rewrite Hp.
  - intros tid ext. assert (0 < sum_values split) as Htot.
    { destruct split as [|[k w] split]; [done|]. rewrite sum_values_cons.
      apply Forall_cons in Hpos as [Hw Hpos]. pose proof (sum_values_nonneg _ Hpos). simpl in Hw. lia. }
    destruct (pick_bucket_total (sorted_items split) 0 (bucket_of tid ext (sum_values split)))
      as (v & Hv & Hin); [done| |].
    { rewrite (sum_values_perm _ _ Hp). unfold bucket_of.
      pose proof (Z.mod_pos_bound (digest_int (uuid_str tid +:+ ":" +:+ ext)) _ Htot). lia. }
    exists v. unfold pick_variant_index. rewrite bool_decide_false by done.
    destruct (Z.leb_spec (sum_values split) 0); [lia|]. rewrite Hv. split; [done|]. split; [|done].
    by rewrite <- Hp.
Qed.

(** ** Assignments are sticky *)

Definition mine_of (tid ab : N) (ext : string) (s : db) : list AbTestAssignment.t :=
  List.filter (assignment_of tid ab ext) (snd <$> map_to_list (t_ab_test_assignment s)).

Lemma elem_of_mine tid ab ext s r :
  r ∈ mine_of tid ab ext s ↔
  (∃ k, t_ab_test_assignment s !! k = Some r) ∧ assignment_of tid ab ext r = true.
Proof. exact (elem_of_select (T:=AbTestAssignment.t) _ s r). Qed.

Lemma assign_variant_assigned tid ab ext e s v :
  AbTestAssignment.variant_id <$> mine_of tid ab ext s = [v] →
  assign_variant tid ab ext e s = (s, inr v).
Proof.
  intros Hm. unfold assign_variant. rewrite (bind_select (T:=AbTestAssignment.t)).
  change (List.filter _ _) with (mine_of tid ab ext s). by rewrite Hm.
Qed.

(** A first assignment: the row that is added, and where its variant comes from. *)
Lemma assign_variant_inr tid ab ext e s s' v :
  assign_variant tid ab ext e s = (s', inr v) →
  AbTestAssignment.variant_id <$> mine_of tid ab ext s' = [v] ∧
  (s' = s ∨
   mine_of tid ab ext s = [] ∧
   s' = s <| t_ab_test_assignment := <[next_uuid s := {|
            AbTestAssignment.id := next_uuid s; AbTestAssignment.tenant_id := tid;
            AbTestAssignment.ab_test_id := ab; AbTestAssignment.audience_external_id := ext;
            AbTestAssignment.variant_id := v; AbTestAssignment.assigned_at := now e |}]>
            (t_ab_test_assignment s) |> <| next_uuid := (next_uuid s + 1)%N |> ∧
   ∃ t split picked, AbTest.id t = ab ∧ (∃ k, t_ab_test s !! k = Some t) ∧
     _coerce_split (JObj (AbTest.traffic_split t)) = inr split ∧
     pick_variant_index ab ext split = inr picked ∧ uuid_parse picked = Some v).
Proof.
  unfold assign_variant. rewrite (bind_select (T:=AbTestAssignment.t)). intros Hrun.
  change (List.filter _ _) with (mine_of tid ab ext s) in Hrun.
  apply bind_inr in Hrun as (s0 & o & Ho & Hrun).
  destruct (mine_of tid ab ext s) as [|r0 [|r1 rest]] eqn:Hm; [|injection Ho as <- <-|done].
  2:{ injection Hrun as <- <-. rewrite Hm. split; [done|by left]. }
  injection Ho as <- <-. rewrite (bind_select (T:=AbTest.t)) in Hrun.
  apply bind_inr in Hrun as (s1 & o & Ho & Hrun). apply scalar_inr in Ho as [-> ->].
  destruct (head _) as [t|] eqn:Ht; [|done].
  apply head_Some_elem_of, (elem_of_select (T:=AbTest.t)) in Ht as [[k Hk] Htest].
  reflect_bools. apply bind_inr in Hrun as (s2 & split & Hsp & Hrun). apply of_sum_inr in Hsp as [Hsp ->].
  apply bind_inr in Hrun as (s3 & picked & Hp & Hrun). apply of_sum_inr in Hp as [Hp ->].
  destruct (uuid_parse picked) as [v'|] eqn:Hu; [|done].
  rewrite bind_asks, (bind_select (T:=AbTestAssignment.t)) in Hrun.
  rewrite bool_decide_true, bind_assoc, (bind_ok _ _ _ _ _ _ (add_row_run _ _ _)) in Hrun by exact Hm.
  cbn beta in Hrun. rewrite bind_ret, (bind_select (T:=AbTestAssignment.t)) in Hrun.
  apply scalar_one_inr in Hrun as [Hone ->].
  match type of Hone with _ <$> List.filter _ (snd <$> map_to_list (rows ?S)) = _ =>
    change (AbTestAssignment.variant_id <$> mine_of tid ab ext S = [v]) in Hone end.
  split; [exact Hone|]. right. split; [done|].
  assert (v' = v) as ->; [|by split; [|eauto 10]].
  apply list_elem_of_singleton. rewrite <- Hone. apply list_elem_of_fmap. eexists.
  rewrite elem_of_mine. split; [|split; [eexists; apply lookup_insert_eq|]]; [done|].
  unfold assignment_of. simpl. by rewrite !bool_decide_true.
Qed.

(** An assignment is for ever. Once a recipient has been given a variant, asking
    again gives the same variant and writes nothing, in any later database that still
    has the assignments, whatever happened meanwhile to the test, its traffic split or
    the clock. The first time, the variant is the bucketed choice of the test's split,
    and the only write is the recipient's own row: other assignments are untouched. *)
Theorem assign_variant_sticky tid ab ext e s s' v :
  (∀ k r, t_ab_test_assignment s !! k = Some r → (k < next_uuid s)%N) →
  assign_variant tid ab ext e s = (s', inr v) →
  (∀ e2 s2, t_ab_test_assignment s2 = t_ab_test_assignment s' →
     assign_variant tid ab ext e2 s2 = (s2, inr v)) ∧
  (∀ k r, t_ab_test_assignment s !! k = Some r → t_ab_test_assignment s' !! k = Some r) ∧
  s' = s <| t_ab_test_assignment := t_ab_test_assignment s' |> <| next_uuid := next_uuid s' |> ∧
  (mine_of tid ab ext s = [] →
     ∃ t split picked, AbTest.id t = ab ∧ (∃ k, t_ab_test s !! k = Some t) ∧
       _coerce_split (JObj (AbTest.traffic_split t)) = inr split ∧
       pick_variant_index ab ext split = inr picked ∧ uuid_parse picked = Some v).
Proof.
  intros Hfresh Hrun. destruct (assign_variant_inr _ _ _ _ _ _ _ Hrun) as [Hone Hcase].
  split_and!.
  - intros e2 s2 Hs2. apply assign_variant_assigned. unfold mine_of in *. by rewrite Hs2.
  - destruct Hcase as [->|(_ & -> & _)]; [done|]. intros k r Hk. simpl.
    rewrite lookup_insert_ne; [done|]. specialize (Hfresh _ _ Hk). lia.
  - destruct Hcase as [->|(_ & -> & _)]; [by destruct s|done].
  - destruct Hcase as [->|(_ & -> & Hex)]; [|done]. intros Hnil. by rewrite Hnil in Hone.
Qed.

(** ** The life cycle *)

(** The assets that take part in a test: its group, or the canonical pair. *)
Definition participants (t : AbTest.t) (s : db) : list ContentAsset.t :=
  match assets_where (in_group (AbTest.id t)) s with
  | [] => assets_where (λ a, ContentAsset.id a ∈b canonical_pair t) s
  | l => l
  end.

Lemma variants_or_pair_run t e s : variants_or_pair t e s = (s, inr (participants t s)).
Proof.
  unfold variants_or_pair, _list_variants, participants, assets_where.
  rewrite (bind_select (T:=ContentAsset.t)).
  change (rows (R:=ContentAsset.t) s) with (t_content_asset s). by destruct (List.filter _ _).
Qed.

Lemma find_ab_test_inr k e s s' t :
  find_ab_test k e s = (s', inr t) → s' = s ∧ t_ab_test s !! k = Some t.
Proof.
  unfold find_ab_test. rewrite (bind_get_row (T:=AbTest.t)). change (rows s) with (t_ab_test s).
  destruct (t_ab_test s !! k); [|done]. by intros [= -> ->].
Qed.

Lemma participants_keyed t s a :
  keyed ContentAsset.t s → a ∈ participants t s → t_content_asset s !! ContentAsset.id a = Some a.
Proof.
  intros Hk. unfold participants. destruct (assets_where (in_group _) s) as [|b l] eqn:E.
  - by intros [? _]%elem_of_assets_where.
  - rewrite <- E. by intros [? _]%elem_of_assets_where.
Qed.

Lemma participants_NoDup t s :
  keyed ContentAsset.t s → NoDup (ContentAsset.id <$> participants t s).
Proof.
  intros Hk. unfold participants. destruct (assets_where (in_group _) s) as [|b l] eqn:E.
  - by apply assets_where_NoDup.
  - rewrite <- E. by apply assets_where_NoDup.
Qed.

(** the gates of launching and stopping. A launch returns only for a test that is
    designing and whose variants exist and are all approved or scheduled; a stop only
    for one that is designing or running. Each writes the test's status and its time
    and nothing else, so neither touches a winner, a split or an asset. *)
Theorem ab_launch_stop_spec k user e s s' t' :
  (∀ i t, t_ab_test s !! i = Some t → AbTest.id t = i) →
  (launch_ab_test k user e s = (s', inr t') →
   ∃ t, t_ab_test s !! k = Some t ∧ AbTest.status t = AbTestStatus.designing ∧
     participants t s ≠ [] ∧
     (∀ a, a ∈ participants t s → ContentAsset.status a ∈ LAUNCH_READY_STATUSES) ∧
     t' = t <| AbTest.status := AbTestStatus.running |> <| AbTest.started_at := Some (now e) |> ∧
     s' = s <| t_ab_test := <[k := touch (now e) t']> (t_ab_test s) |>) ∧
  (stop_ab_test k user e s = (s', inr t') →
   ∃ t, t_ab_test s !! k = Some t ∧
     AbTest.status t ∈ [AbTestStatus.designing; AbTestStatus.running] ∧
     t' = t <| AbTest.status := AbTestStatus.stopped |> <| AbTest.stopped_at := Some (now e) |> ∧
     s' = s <| t_ab_test := <[k := touch (now e) t']> (t_ab_test s) |>).
Proof.
  intros Hkey. split; [unfold launch_ab_test|unfold stop_ab_test]; intros Hrun;
    apply bind_inr in Hrun as (s0 & t & Ht & Hrun); apply find_ab_test_inr in Ht as [-> Ht];
    pose proof (Hkey _ _ Ht) as Hid; apply bind_inr in Hrun as (s0 & [] & H0 & Hrun);
    apply raise_if_inr in H0 as [Hst ->]; reflect_bools.
  - rewrite (bind_ok _ _ _ _ _ _ (variants_or_pair_run t e s)) in Hrun.
    apply bind_inr in Hrun as (s0 & [] & H0 & Hrun). apply raise_if_inr in H0 as [Hne ->].
    apply bind_inr in Hrun as (s0 & [] & H0 & Hrun). apply raise_if_inr in H0 as [Hready ->].
    rewrite bind_asks in Hrun. reflect_bools.
    apply (assign_inr _ _ _ _ _ _ t) in Hrun as [-> ->]; [|by rewrite <- Hid in Ht].
    exists t. split_and!; try done; [|by rewrite <- Hid].
    intros a Ha. pose proof (proj1 (bfilter_nil_iff _ _) Hready a Ha) as Hf.
    apply negb_false_iff in Hf. unfold status_in in Hf. by reflect_bools.
  - rewrite bind_asks in Hrun.
    apply (assign_inr _ _ _ _ _ _ t) in Hrun as [-> ->]; [|by rewrite <- Hid in Ht].
    exists t. split_and!; try done. by rewrite <- Hid.
Qed.

(** A loop that leaves some of the assets out runs over the others. *)
Lemma foreach_unless {A} (skip : A → bool) (f : A → M ()) l e s :
  foreach l (λ v, if skip v then mret () else f v) e s =
  foreach (List.filter (λ v, negb (skip v)) l) f e s.
Proof.
  revert s. induction l as [|v l IH]; intros s; [done|]. simpl. destruct (skip v); simpl.
  - by rewrite bind_ret, IH.
  - unfold mbind, M_bind. destruct (f v e s) as [s1 [x|[]]]; [done|apply IH].
Qed.

Definition same_tests : relation db := λ s s', t_ab_test s' = t_ab_test s.
#[export] Instance same_tests_preorder : PreOrder same_tests.
Proof. split; unfold same_tests; [by intros s|]. intros s1 s2 s3 H12 H23. congruence. Qed.

Lemma audit_same_tests tid ek eid act b a md : respects same_tests (audit tid ek eid act b a md).
Proof. apply (respects_audit same_tests). frame_refl. Qed.

Lemma archive_same_tests l (p : ContentAsset.t → bool) : respects same_tests
  (foreach l (λ v, if p v then mret () else assign v (set_status AssetStatus.archived) ;; mret ())).
Proof. respects_auto. Qed.

Lemma NoDup_fmap_bfilter {A B} (f : A → B) (p : A → bool) l :
  NoDup (f <$> l) → NoDup (f <$> List.filter p l).
Proof.
  induction l as [|x l IH]; simpl; [done|]. intros [Hx Hl]%NoDup_cons.
  destruct (p x); [|auto]. rewrite fmap_cons. apply NoDup_cons. split; [|auto].
  intros Hin. apply Hx. apply list_elem_of_fmap in Hin as (y & -> & Hy).
  apply elem_of_bfilter in Hy as [Hy _]. by apply list_elem_of_fmap_2.
Qed.

(** The variants a promotion archives. *)
Definition kept (w : N) (a : ContentAsset.t) : bool :=
  (ContentAsset.id a ==b w) || status_in [AssetStatus.archived; AssetStatus.published] a.
Definition loser (t : AbTest.t) (w : N) (s : db) (a : ContentAsset.t) : bool :=
  (ContentAsset.id a ∈b (ContentAsset.id <$> participants t s)) && negb (kept w a).

Lemma archive_losers_effect t w e s s' u :
  keyed ContentAsset.t s →
  foreach (participants t s) (λ v,
    if kept w v then mret () else assign v (set_status AssetStatus.archived) ;; mret ()) e s
    = (s', inr u) →
  ∀ k, t_content_asset s' !! k =
    (λ a, if loser t w s a then touch (now e) (set_status AssetStatus.archived a) else a)
      <$> t_content_asset s !! k.
Proof.
  intros Hkey Hrun k. rewrite foreach_unless in Hrun.
  erewrite foreach_assign; [|by apply NoDup_fmap_bfilter, participants_NoDup| |exact Hrun].
  2:{ intros a [Ha _]%elem_of_bfilter. by eapply participants_keyed. }
  destruct (t_content_asset s !! k) as [a|] eqn:Ha; [|done]. cbn [fmap option_fmap option_map].
  pose proof (Hkey k a Ha) as Hid. change (ContentAsset.id a = k) in Hid. subst k.
  f_equal. replace (bool_decide _) with (loser t w s a); [done|].
  unfold loser. apply Bool.eq_iff_eq_true.
  rewrite andb_true_iff, negb_true_iff, !bool_decide_eq_true, !list_elem_of_fmap. split.
  - intros [(b & Hb & Hin) Hk]. exists b. split; [done|]. apply elem_of_bfilter. split; [done|].
    apply (participants_keyed _ _ _ Hkey) in Hin. rewrite <- Hb, Ha in Hin. simplify_eq. by rewrite Hk.
  - intros (b & Hb & [Hin Hk]%elem_of_bfilter). split; [eauto|].
    apply (participants_keyed _ _ _ Hkey) in Hin. rewrite <- Hb, Ha in Hin. simplify_eq.
    by apply negb_true_iff.
Qed.

Lemma pick_single w x n ab ext : 0 < n → pick_variant_index ab ext [(w, n)] = inr x ↔ x = w.
Proof.
  intros Hn. unfold pick_variant_index. rewrite bool_decide_false by done.
  assert (sum_values [(w, n)] = n) as -> by (unfold sum_values; simpl; lia).
  destruct (Z.leb_spec n 0); [lia|]. unfold bucket_of.
  pose proof (Z.mod_pos_bound (digest_int (uuid_str ab +:+ ":" +:+ ext)) n Hn) as Hb.
  change (sorted_items [(w, n)]) with [(w, n)]. cbn [pick_bucket]. rewrite (proj2 (Z.ltb_lt _ (0 + n))) by lia.
  split; [by intros [= ->]|by intros ->].
Qed.

(** Promotion is decided by significance and leaves one variant standing. It returns
    only for a significant test with a winner that still exists, and, when that winner
    has recorded compliance violations, only for a manager or an admin. Every other
    variant is archived unless it was archived or published already; no other asset
    changes, the winner's row included. The split becomes the winner alone, so every
    recipient assigned from then on gets the winner. *)
Theorem promote_ab_test_spec k user e s s' t' :
  keyed ContentAsset.t s → (∀ i t, t_ab_test s !! i = Some t → AbTest.id t = i) →
  promote_ab_test k user e s = (s', inr t') →
  ∃ t w winner, t_ab_test s !! k = Some t ∧ AbTest.status t = AbTestStatus.significant ∧
    AbTest.winner_id t = Some w ∧ t_content_asset s !! w = Some winner ∧
    (opt_truthy (dget "compliance_violations" (ContentAsset.extra_metadata winner)) = true →
     AppUser.role user ∈ [UserRole.manager; UserRole.admin]) ∧
    (∀ i, t_content_asset s' !! i =
       (λ a, if loser t w s a then touch (now e) (set_status AssetStatus.archived a) else a)
         <$> t_content_asset s !! i) ∧
    t_content_asset s' !! w = Some winner ∧
    t' = t <| AbTest.traffic_split := [(uuid_str w, JInt 100)] |> ∧
    t_ab_test s' !! k = Some (touch (now e) t') ∧
    ∀ ab ext, _coerce_split (JObj (AbTest.traffic_split t')) = inr [(uuid_str w, 100)] ∧
      pick_variant_index ab ext [(uuid_str w, 100)] = inr (uuid_str w).
Proof.
  intros Hkey Hkt Hrun. unfold promote_ab_test in Hrun.
  apply bind_inr in Hrun as (s0 & t & Ht & Hrun). apply find_ab_test_inr in Ht as [-> Ht].
  pose proof (Hkt _ _ Ht) as Hid.
  destruct (AbTest.status t) eqn:Hst; try done. destruct (AbTest.winner_id t) as [w|] eqn:Hw; [|done].
  rewrite (bind_get_row (T:=ContentAsset.t)) in Hrun. change (rows s !! w) with (t_content_asset s !! w) in Hrun.
  destruct (t_content_asset s !! w) as [winner|] eqn:Hwin; [|done].
  pose proof (Hkey _ _ Hwin) as Hwid. change (ContentAsset.id winner = w) in Hwid.
  apply bind_inr in Hrun as (s0 & [] & H0 & Hrun). apply raise_if_inr in H0 as [Hflags ->].
  rewrite (bind_ok _ _ _ _ _ _ (variants_or_pair_run t e s)), Hwid in Hrun.
  apply bind_inr in Hrun as (s1 & [] & Hloop & Hrun).
  pose proof (respects_run same_tests _ _ _ _ _ (archive_same_tests _ _) Hloop) as Hs1.
  pose proof (archive_losers_effect t w e s s1 () Hkey Hloop) as Harch.
  apply bind_inr in Hrun as (s2 & t2 & Hass & Hrun).
  apply (assign_inr _ _ _ _ _ _ t) in Hass as [-> ->];
    [|change (t_ab_test s1 !! AbTest.id t = Some t); by rewrite Hs1, Hid].
  apply bind_inr in Hrun as (s3 & [] & Haud & Hrun). injection Hrun as <- <-.
  pose proof (respects_run same_assets _ _ _ _ _ (audit_same_assets _ _ _ _ _ _ _) Haud) as Ha3.
  pose proof (respects_run same_tests _ _ _ _ _ (audit_same_tests _ _ _ _ _ _ _) Haud) as Ht3.
  assert (∀ i, t_content_asset s3 !! i = (λ a, if loser t w s a then touch (now e)
    (set_status AssetStatus.archived a) else a) <$> t_content_asset s !! i) as Hall
    by (intros i; rewrite Ha3; apply Harch).
  exists t, w, winner. split_and!; try done.
  - intros Htr. apply andb_false_iff in Hflags as [Hf|Hf].
    + exfalso. unfold opt_truthy in Htr. destruct (dget _ _) as [v|]; simpl in *; [|done].
      rewrite Htr in Hf. by rewrite Htr in Hf.
    + apply negb_false_iff in Hf. by reflect_bools.
  - rewrite Hall, Hwin. simpl. unfold loser, kept. rewrite Hwid, (bool_decide_true (w = w)) by done.
    by rewrite andb_false_r.
  - rewrite Ht3. simpl. rewrite Hid. apply lookup_insert_eq.
  - intros ab ext. split; [done|]. by apply pick_single.
Qed.

(** ** Samples *)

Definition sample_test (st : AbTestStatus.t) (split : jdict) : AbTest.t := {|
  AbTest.id := 50; AbTest.tenant_id := 1; AbTest.campaign_id := 10; AbTest.name := "Subject line";
  AbTest.hypothesis := None; AbTest.primary_metric := "ctr"; AbTest.status := st;
  AbTest.variant_a_id := Some 40%N; AbTest.variant_b_id := Some 41%N; AbTest.winner_id := None;
  AbTest.confidence := None; AbTest.lift := None; AbTest.last_evaluated_at := None;
  AbTest.traffic_split := split; AbTest.min_runtime_hours := None; AbTest.max_runtime_hours := None;
  AbTest.started_at := None; AbTest.stopped_at := None; AbTest.created_at := 0; AbTest.updated_at := 0 |}.

Definition half_split : list (string * Z) := [(uuid_str 40, 30); (uuid_str 41, 70)].

Definition ab_db (st : AbTestStatus.t) : db :=
  sample_db (sample_campaign CampaignStatus.live)
    [sample_asset 40 AssetType.email AssetStatus.approved [("ab_test_group_id", j_uuid 50)];
     sample_asset 41 AssetType.email AssetStatus.approved [("ab_test_group_id", j_uuid 50)]]
  <| t_ab_test := {[ 50%N := sample_test st ((λ kw, (kw.1, JInt kw.2)) <$> half_split) ]} |>.

Lemma pick_variant_exact_witness :
  (∀ v w, (v, w) ∈ half_split → Z.of_nat (length (List.filter
     (λ b, pick_bucket (sorted_items half_split) 0 b ==b Some v) (seqZ 0 100))) = w) ∧
  ∃ v, pick_variant_index 50 "a@example.com" half_split = inr v ∧ v ∈ half_split.*1.
Proof.
  destruct (pick_variant_exact half_split) as [H1 H2]; [done| | |split].
  - by apply (bool_decide_unpack _); vm_compute.
  - repeat constructor.
  - exact H1.
  - destruct (H2 50%N "a@example.com") as (v & Hv & Hin & _). eauto.
Defined.

Lemma assign_variant_sticky_witness :
  ∃ s' v, assign_variant 1 50 "a@example.com" (demo_env 5) (ab_db AbTestStatus.running) = (s', inr v) ∧
    assign_variant 1 50 "a@example.com" (demo_env 9) (s' <| t_ab_test := ∅ |>)
      = (s' <| t_ab_test := ∅ |>, inr v).
Proof.
  destruct (run_returns (assign_variant 1 50 "a@example.com") (demo_env 5)
    (ab_db AbTestStatus.running)) as (s' & v & E); [by vm_compute|].
  exists s', v. split; [done|].
  refine (proj1 (assign_variant_sticky _ _ _ _ _ _ _ _ E) _ _ _); [|done].
  intros k r Hk. change (t_ab_test_assignment (ab_db AbTestStatus.running)) with (∅ : gmap N AbTestAssignment.t) in Hk.
  by rewrite lookup_empty in Hk.
Defined.

Lemma ab_db_keyed st : keyed ContentAsset.t (ab_db st).
Proof. apply sample_db_keyed. Qed.

Lemma single_test t s :
  t_ab_test s = {[ AbTest.id t := t ]} → ∀ i t', t_ab_test s !! i = Some t' → AbTest.id t' = i.
Proof. intros -> i t' Ht. by apply lookup_singleton_Some in Ht as [<- <-]. Qed.

Lemma ab_db_tests st : ∀ i t, t_ab_test (ab_db st) !! i = Some t → AbTest.id t = i.
Proof. exact (single_test (sample_test st _) (ab_db st) eq_refl). Qed.

Lemma ab_launch_stop_spec_witness :
  ∃ s' t', launch_ab_test 50 (sample_user UserRole.manager) (demo_env 5) (ab_db AbTestStatus.designing)
             = (s', inr t') ∧
    t' = sample_test AbTestStatus.designing ((λ kw, (kw.1, JInt kw.2)) <$> half_split)
           <| AbTest.status := AbTestStatus.running |> <| AbTest.started_at := Some 5 |>.
Proof.
  destruct (run_returns (launch_ab_test 50 (sample_user UserRole.manager)) (demo_env 5)
    (ab_db AbTestStatus.designing)) as (s' & t' & E); [by vm_compute|].
  exists s', t'. split; [done|].
  destruct (proj1 (ab_launch_stop_spec _ _ _ _ _ _ (ab_db_tests _)) E)
    as (t & Ht & _ & _ & _ & -> & _).
  vm_compute in Ht. by injection Ht as <-.
Defined.

Definition won_db : db :=
  ab_db AbTestStatus.significant <| t_ab_test := {[ 50%N :=
    sample_test AbTestStatus.significant [] <| AbTest.winner_id := Some 40%N |> ]} |>.

Lemma won_db_keyed : keyed ContentAsset.t won_db.
Proof. exact (ab_db_keyed AbTestStatus.significant). Qed.

Lemma won_db_tests : ∀ i t, t_ab_test won_db !! i = Some t → AbTest.id t = i.
Proof.
  exact (single_test (sample_test _ [] <| AbTest.winner_id := Some 40%N |>) won_db eq_refl).
Qed.

Lemma promote_ab_test_spec_witness :
  ∃ s' t', promote_ab_test 50 (sample_user UserRole.manager) (demo_env 5) won_db = (s', inr t') ∧
    t_content_asset s' !! 40%N = t_content_asset won_db !! 40%N ∧
    (ContentAsset.status <$> t_content_asset s' !! 41%N) = Some AssetStatus.archived.
Proof.
  destruct (run_returns (promote_ab_test 50 (sample_user UserRole.manager)) (demo_env 5) won_db)
    as (s' & t' & E); [by vm_compute|].
  exists s', t'. split; [done|].
  destruct (promote_ab_test_spec _ _ _ _ _ _ won_db_keyed
    won_db_tests E)
    as (t & w & winner & Ht & _ & Hw & Hwin & _ & Hall & Hkeep & _).
  vm_compute in Ht. injection Ht as <-. injection Hw as <-.
  split; [congruence|]. rewrite Hall. by vm_compute.
Defined.
