(* ===== verification/Review.v ===== *)
(** * Review paths: the review page, the assistant's tools, approval settings

    The other ways a decision on an asset is taken: the form handlers of
    src/app/api/ui/approvals.py, the tools of src/app/assistant/tools.py, the
    helper of src/app/approvals/auto_advance.py that drives the campaign forward,
    and the settings row of src/app/api/approval_settings.py. *)

From S2P Require Export Approvals.
From S2P Require Import Preview.
Local Open Scope Z_scope.

(** ** Driving the campaign forward *)

(** [app/approvals/auto_advance.py] lines 29-55, [try_advance_after_approval]. Returns the
    result and the campaign as it is left. *)
Definition try_advance_after_approval (campaign : Campaign.t) : M (option string * Campaign.t) :=
  r ← (if Campaign.status campaign ==b CampaignStatus.content_in_production
       then try_transition "submit_for_approval" campaign else mret (true, campaign));
  let campaign := r.2 in
  if negb r.1 then mret (None, campaign)
  else
    r ← (if Campaign.status campaign ==b CampaignStatus.approval_pending
         then try_transition "start_launch" campaign else mret (true, campaign));
    let campaign := r.2 in
    if negb r.1 then mret (None, campaign)
    else mret (if Campaign.status campaign ==b CampaignStatus.ready_to_launch
               then Some (value (Campaign.status campaign)) else None, campaign).

(** ** The review page *)

(** The template context of a decision fragment. *)
Record DecisionResult := {
  result_kind : string;
  result_message : string;
  decision_id : option N;
}.

(** A submitted form: its text fields in order; [get] reads the last of a name. *)
Definition form_get (k : string) (form : list (string * string)) : option string :=
  dget k (dmerge [] form).

(** [(form.get(k) or "").strip() or None]. *)
Definition form_text (k : string) (form : list (string * string)) : option string :=
  nonempty_str (Some (str_strip (default "" (form_get k form)))).

(** [app/api/ui/approvals.py] lines 456-467, [_collect_edited_fields]. *)
Definition _collect_edited_fields (form : list (string * string)) : jdict :=
  fold_left (λ out kv,
    if String.prefix "edit_field_" kv.1 && negb (str_empty (str_strip kv.2))
    then dset (String.substring 11 (String.length kv.1) kv.1) (JStr kv.2) out
    else out) (dmerge [] form) [].

(** The two lookups of the approve handler. *)
Definition load_for_review (asset_id : N) : M (ContentAsset.t * Campaign.t) :=
  asset ← get_row asset_id;
  match asset with
  | None => raise (HTTPException 404 "asset not found")
  | Some asset =>
      campaign ← get_row (ContentAsset.campaign_id asset);
      match campaign with
      | None => raise (HTTPException 404 "campaign not found")
      | Some campaign => mret (asset, campaign)
      end
  end.

Definition danger (msg : string) : DecisionResult :=
  {| result_kind := "danger"; result_message := msg; decision_id := None |}.

Definition ui_not_eligible (a : ContentAsset.t) (what : string) : DecisionResult :=
  danger ("Asset is in '" +:+ value (ContentAsset.status a) +:+ "' — not eligible for "
          +:+ what +:+ ".").

(** [app/api/ui/approvals.py] lines 186-325, [approve_via_ui]. *)
Definition approve_via_ui (asset_id : N) (form : list (string * string)) (user : AppUser.t)
    : M DecisionResult :=
  let edited_content := form_text "edited_content" form in
  let note := form_text "note" form in
  let fields := _collect_edited_fields form in
  loaded ← load_for_review asset_id;
  let asset := loaded.1 in let campaign := loaded.2 in
  if negb (status_in [AssetStatus.pending_approval; AssetStatus.rejected; AssetStatus.drafted] asset)
  then mret (ui_not_eligible asset "approval")
  else if _is_compliance_blocked asset then
    mret (danger ("Asset is compliance-blocked. Clear via "
                  +:+ "/api/content-assets/{id}/clear-compliance first."))
  else
    let with_edits := bool_decide (is_Some edited_content) || negb (fields ==b []) ||
                      bool_decide (is_Some note) in
    edits ← (if with_edits
             then p ← edits_payload asset edited_content fields note; mret (Some p)
             else mret None);
    edited ← (if with_edits then apply_edits edited_content fields asset else mret asset);
    let kind := approved_kind edits in
    decision ← record_decision asset (λ _, set_status AssetStatus.approved edited) edited
      (AppUser.id user) kind note edits (value kind) [("via", JStr "ui")];
    advanced ← try_advance_after_approval campaign;
    let tail := if advanced.1 ==b Some "ready_to_launch"
                then " Every required asset is approved — campaign is now ready to launch."
                else "" in
    mret {| result_kind := "success";
            result_message := (if with_edits then "Approved with edits." else "Approved.") +:+ tail;
            decision_id := Some (ApprovalDecisionLog.id decision) |}.

(** A rejection that drops the asset from the campaign. *)
Definition drop_asset (a : ContentAsset.t) : ContentAsset.t :=
  set_status AssetStatus.rejected a <| ContentAsset.is_required := false |>.

(** [app/api/ui/approvals.py] lines 328-424, [reject_via_ui]. *)
Definition reject_via_ui (asset_id : N) (reason category : string) (user : AppUser.t)
    : M DecisionResult :=
  let reason := str_strip reason in
  if str_empty reason then mret (danger "Rejection reason is required.")
  else
    let category_enum :=
      default ApprovalRejectionCategory.other (of_value ApprovalRejectionCategory.t category) in
    asset ← get_row asset_id;
    match asset with
    | None => raise (HTTPException 404 "asset not found")
    | Some asset =>
        if negb (status_in [AssetStatus.pending_approval; AssetStatus.drafted] asset)
        then mret (ui_not_eligible asset "rejection")
        else
          decision ← record_decision asset drop_asset asset (AppUser.id user)
            ApprovalDecision.rejected (Some reason) (Some [("category", j_enum category_enum)])
            "rejected" [("category", j_enum category_enum); ("via", JStr "ui")];
          campaign ← get_row (ContentAsset.campaign_id asset);
          match campaign with
          | Some campaign => try_advance_after_approval campaign ;; mret ()
          | None => mret ()
          end ;;
          mret {| result_kind := "info";
                  result_message := "Rejected — " +:+ value category_enum +:+ ".";
                  decision_id := Some (ApprovalDecisionLog.id decision) |}
    end.

(** ** The pages that show what there is to review *)

(** A row of the queue page. *)
Record QueuePageItem := {
  q_asset : ContentAsset.t;
  q_campaign : Campaign.t;
  q_channel_platform : option json;
  q_overdue : bool;
  q_compliance_blocked : bool;
  q_segment_label : option json;
}.

(** [bool((meta.get("compliance") or {}).get("blocked"))]. *)
Definition compliance_blocked (meta : jdict) : exn + bool :=
  match dget "compliance" meta with
  | Some (JObj d) => inr (opt_truthy (dget "blocked" d))
  | Some v => if truthy v then inl (AttributeError "get") else inr false
  | None => inr false
  end.

(** [app/api/ui/approvals.py] lines 81-110, [_items_in_status]. *)
Definition _items_in_status (status_value : AssetStatus.t) (cutoff : Z) : M (list QueuePageItem) :=
  assets ← select (λ a, ContentAsset.status a ==b status_value);
  campaigns ← gets t_campaign;
  mapM_ (λ ac : ContentAsset.t * Campaign.t,
    let meta := ContentAsset.extra_metadata ac.1 in
    blocked ← of_sum (compliance_blocked meta);
    mret {| q_asset := ac.1; q_campaign := ac.2; q_channel_platform := dget "channel_platform" meta;
            q_overdue := ContentAsset.updated_at ac.1 <? cutoff; q_compliance_blocked := blocked;
            q_segment_label := dget "segment_label" meta |})
    (merge_sort queue_order (omap (λ a, pair a <$> campaigns !! ContentAsset.campaign_id a) assets)).

(** A row of the history beside it. *)
Record RecentDecision := {
  rd_decision : ApprovalDecisionLog.t;
  rd_asset : ContentAsset.t;
  rd_campaign : Campaign.t;
  rd_reviewer_name : string;
}.

(** [reviewer.display_name or reviewer.email]. *)
Definition reviewer_name (u : AppUser.t) : string :=
  default (AppUser.email u) (nonempty_str (AppUser.display_name u)).

(** [app/api/ui/approvals.py] lines 113-147, [_recent_decisions]. *)
Definition _recent_decisions (limit : nat) : M (list RecentDecision) :=
  decisions ← select (λ _, true);
  assets ← gets t_content_asset;
  campaigns ← gets t_campaign;
  users ← gets t_app_user;
  mret (take limit (omap (λ d,
    asset ← assets !! ApprovalDecisionLog.content_asset_id d;
    campaign ← campaigns !! ContentAsset.campaign_id asset;
    reviewer ← users !! ApprovalDecisionLog.reviewer_id d;
    Some {| rd_decision := d; rd_asset := asset; rd_campaign := campaign;
            rd_reviewer_name := reviewer_name reviewer |})
    (order_by_desc ApprovalDecisionLog.decided_at decisions))).

(** What the queue page shows. *)
Record QueuePage := {
  pending_items : list QueuePageItem;
  drafted_items : list QueuePageItem;
  recent_decisions : list RecentDecision;
}.

(** [app/api/ui/approvals.py] lines 51-78, [approval_queue]. *)
Definition approval_queue (_user : AppUser.t) : M QueuePage :=
  t ← asks now;
  let cutoff := t - OVERDUE_AFTER in
  pending ← _items_in_status AssetStatus.pending_approval cutoff;
  drafted ← _items_in_status AssetStatus.drafted cutoff;
  recent ← _recent_decisions 20;
  mret {| pending_items := pending; drafted_items := drafted; recent_decisions := recent |}.

(** [app/api/ui/approvals.py] lines 432-446, [_build_preview]. *)
Definition _build_preview (asset : ContentAsset.t) : exn + (jdict * list string * option json) :=
  let body := match nonempty_str (ContentAsset.content asset) with
              | Some content => [("body", JStr content)]
              | None => []
              end in
  let meta := ContentAsset.extra_metadata asset in
  let built fields :=
    let fields_in := fold_left (λ acc (kv : string * json),
      match kv.2 with JStr _ => dset kv.1 kv.2 acc | _ => acc end) fields body in
    let '(rendered, report) := resolve_merge_fields fields_in [] in
    inr (rendered, unresolved_fields report, dget "channel_platform" meta) in
  match dget "fields" meta with
  | Some (JObj fields) => built fields
  | Some v => if truthy v then inl (AttributeError "items") else built []
  | None => built []
  end.

(** What the review page shows. *)
Record ReviewPage := {
  rv_asset : ContentAsset.t;
  rv_campaign : option Campaign.t;
  rv_audience : option Audience.t;
  preview_fields : jdict;
  preview_unresolved : list string;
  channel_kind : option json;
}.

(** [app/api/ui/approvals.py] lines 150-183, [approval_review]. *)
Definition approval_review (asset_id : N) (_user : AppUser.t) : M ReviewPage :=
  asset ← get_row (R:=ContentAsset.t) asset_id;
  match asset with
  | None => raise (HTTPException 404 "asset not found")
  | Some asset =>
      campaign ← get_row (R:=Campaign.t) (ContentAsset.campaign_id asset);
      audiences ← select (λ a, Audience.campaign_id a ==b ContentAsset.campaign_id asset);
      preview ← of_sum (_build_preview asset);
      mret {| rv_asset := asset; rv_campaign := campaign;
              rv_audience := head (order_by_desc Audience.created_at audiences);
              preview_fields := preview.1.1; preview_unresolved := preview.1.2; channel_kind := preview.2 |}
  end.

(** ** The assistant's tools *)

(** [app/assistant/tools.py] lines 46-52, [ToolResult]. *)
Record ToolResult := {
  tool_summary : string;
  tool_data : jdict;
  requires_confirmation : bool;
}.

Definition result (summary : string) (data : jdict) : ToolResult :=
  {| tool_summary := summary; tool_data := data; requires_confirmation := false |}.
Definition ask (summary : string) (data : jdict) : ToolResult :=
  {| tool_summary := summary; tool_data := data; requires_confirmation := true |}.

(** [app/assistant/tools.py] lines 102-114, [_require_role]. *)
Definition _require_role (user : AppUser.t) (minimum : UserRole.t) : M () :=
  raise_if (ROLE_RANK (AppUser.role user) <? ROLE_RANK minimum)
    (ToolPermissionError ("Your role '" +:+ value (AppUser.role user)
      +:+ "' isn't allowed to do this — need '" +:+ value minimum +:+ "' or higher.")).

(** [app/assistant/tools.py] lines 68-99, [_find_campaign]. *)
Definition _find_campaign (tenant_id : N) (identifier : string) : M Campaign.t :=
  by_id ← match uuid_parse identifier with
          | Some cid =>
              c ← get_row cid;
              mret (c ≫= λ c, if Campaign.tenant_id c ==b tenant_id then Some c else None)
          | None => mret None
          end;
  match by_id with
  | Some c => mret c
  | None =>
      rows ← select (λ c, (Campaign.tenant_id c ==b tenant_id) &&
                          ilike (Campaign.name c) ("%" +:+ identifier +:+ "%"));
      match rows with
      | [] => raise (ToolError ("No campaign matches '" +:+ identifier +:+ "'."))
      | [c] => mret c
      | _ => raise (ToolError ("'" +:+ identifier +:+ "' matches multiple campaigns ("
               +:+ str_join ", " ((λ r, "'" +:+ Campaign.name r +:+ "'") <$> take 5 rows)
               +:+ "). Be more specific."))
      end
  end.

(** The asset a tool is asked about. *)
Definition find_asset (user : AppUser.t) (asset_id : string) : M ContentAsset.t :=
  match uuid_parse asset_id with
  | None => raise (ToolError "asset_id must be a UUID.")
  | Some aid =>
      asset ← get_row aid;
      match asset with
      | Some asset =>
          raise_if (ContentAsset.tenant_id asset !=b AppUser.tenant_id user)
            (ToolError ("No content asset with id " +:+ uuid_str aid +:+ ".")) ;;
          mret asset
      | None => raise (ToolError ("No content asset with id " +:+ uuid_str aid +:+ "."))
      end
  end.

(** [any(isinstance(f, dict) and f.get("severity") == "blocker" for f in flags)] on
    [(extra_metadata or {}).get("compliance_violations") or []]. *)
Definition has_blocker_flag (asset : ContentAsset.t) : M bool :=
  match dget "compliance_violations" (ContentAsset.extra_metadata asset) with
  | Some (JList flags) => mret (existsb (λ f,
      match f with JObj d => as_str (dget "severity" d) ==b Some "blocker" | _ => false end) flags)
  | Some (JObj _) | Some (JStr _) | None => mret false
  | Some v => if truthy v then raise TypeError else mret false
  end.

(** [asset.title or asset.id]. *)
Definition asset_label (a : ContentAsset.t) : string :=
  default (uuid_str (ContentAsset.id a)) (nonempty_str (ContentAsset.title a)).

(** [try_advance_after_approval] when the asset's campaign is visible. *)
Definition advance_campaign_of (a : ContentAsset.t) : M (option string * option Campaign.t) :=
  campaign ← get_row (ContentAsset.campaign_id a);
  match campaign with
  | Some campaign => r ← try_advance_after_approval campaign; mret (r.1, Some r.2)
  | None => mret (None, None)
  end.

Module Assistant.

(** [app/assistant/tools.py] lines 1065-1123, [approve_asset]. *)
Definition approve_asset (user : AppUser.t) (asset_id : string) : M ToolResult :=
  _require_role user UserRole.manager ;;
  asset ← find_asset user asset_id;
  raise_if (negb (status_in [AssetStatus.drafted; AssetStatus.pending_approval;
                             AssetStatus.rejected] asset))
    (ToolError ("Asset is in '" +:+ value (ContentAsset.status asset) +:+ "' — only drafted / "
      +:+ "pending_approval / rejected assets can be approved.")) ;;
  blocked ← has_blocker_flag asset;
  raise_if blocked (ToolError ("Asset is compliance-blocked — clear compliance via the "
    +:+ "asset's review page in the UI first.")) ;;
  asset ← assign asset (set_status AssetStatus.approved);
  advanced ← advance_campaign_of asset;
  mret (result ("Approved '" +:+ asset_label asset +:+ "'." +:+
      (if advanced.1 ==b Some "ready_to_launch"
       then " Every required asset is approved — campaign is now ready to launch." else ""))
    [("asset_id", j_uuid (ContentAsset.id asset));
     ("campaign_id", j_uuid (ContentAsset.campaign_id asset)); ("status", JStr "approved");
     ("campaign_status", jopt (λ c, j_enum (Campaign.status c)) advanced.2)]).

(** [app/assistant/tools.py] lines 1137-1194, [reject_asset]. *)
Definition reject_asset (user : AppUser.t) (asset_id : string) (reason : option string)
    : M ToolResult :=
  _require_role user UserRole.manager ;;
  asset ← find_asset user asset_id;
  raise_if (negb (status_in [AssetStatus.drafted; AssetStatus.pending_approval] asset))
    (ToolError ("Asset is in '" +:+ value (ContentAsset.status asset) +:+ "' — only drafted / "
      +:+ "pending_approval assets can be rejected.")) ;;
  asset ← assign asset (λ a,
    let a := drop_asset a in
    match nonempty_str reason with
    | Some r => with_metadata "last_rejection_reason" (JStr r) a
    | None => a
    end);
  advanced ← advance_campaign_of asset;
  mret (result ("Rejected '" +:+ asset_label asset +:+ "'. "
                +:+ default "(no reason given)" (nonempty_str reason))
    [("asset_id", j_uuid (ContentAsset.id asset));
     ("campaign_id", j_uuid (ContentAsset.campaign_id asset)); ("status", JStr "rejected");
     ("reason", jopt JStr reason);
     ("campaign_status", jopt (λ c, j_enum (Campaign.status c)) advanced.2)]).

End Assistant.

(** [app/assistant/tools.py] lines 918-977, [approve_all_content]. *)
Definition approve_all_content (user : AppUser.t) (campaign : string) (confirm : bool)
    : M ToolResult :=
  _require_role user UserRole.manager ;;
  c ← _find_campaign (AppUser.tenant_id user) campaign;
  rows ← select (λ a, (ContentAsset.campaign_id a ==b Campaign.id c) &&
                      status_in [AssetStatus.drafted; AssetStatus.pending_approval] a);
  let n := str_of_Z (Z.of_nat (length rows)) in
  match rows with
  | [] => mret (result ("No drafts to approve on '" +:+ Campaign.name c +:+ "'.")
                  [("campaign_id", j_uuid (Campaign.id c)); ("approved", JInt 0)])
  | _ =>
      if negb confirm then
        mret (ask ("Approve all " +:+ n +:+ " draft asset(s) on '" +:+ Campaign.name c +:+ "' in "
                   +:+ "one click? Each approval will land in the audit log.")
          [("campaign_id", j_uuid (Campaign.id c)); ("count", JInt (Z.of_nat (length rows)))])
      else
        foreach rows (λ row, assign row (set_status AssetStatus.approved) ;; mret ()) ;;
        advanced ← try_advance_after_approval c;
        let st := value (Campaign.status advanced.2) in
        mret (result ("Approved " +:+ n +:+ " asset(s). " +:+
            (if advanced.1 ==b Some "ready_to_launch"
             then "Campaign is now in `ready_to_launch` — ready to go live."
             else "Campaign is in `" +:+ st +:+ "`."))
          [("campaign_id", j_uuid (Campaign.id c)); ("approved", JInt (Z.of_nat (length rows)));
           ("campaign_status", JStr st)])
  end.

(** [app/assistant/tools.py] lines 1267-1304, [launch_campaign]. *)
Definition launch_campaign (user : AppUser.t) (campaign : string) (confirm : bool) : M ToolResult :=
  _require_role user UserRole.manager ;;
  c ← _find_campaign (AppUser.tenant_id user) campaign;
  let st := Campaign.status c in
  if st ==b CampaignStatus.live then mret (result ("'" +:+ Campaign.name c +:+ "' is already live.") [])
  else
    raise_if (st !=b CampaignStatus.ready_to_launch)
      (ToolError ("'" +:+ Campaign.name c +:+ "' is in '" +:+ value st +:+ "' — only "
        +:+ "`ready_to_launch` campaigns can be launched. Approve all assets first.")) ;;
    if negb confirm then
      mret (ask ("Launch '" +:+ Campaign.name c +:+ "' now? Distribution starts immediately.")
              [("campaign_id", j_uuid (Campaign.id c))])
    else
      t ← asks now;
      assign c (λ c, c <| Campaign.status := CampaignStatus.live |>
                       <| Campaign.launched_at := Some t |>) ;;
      mret (result ("'" +:+ Campaign.name c
                    +:+ "' is now LIVE. Watch the KPI dashboard for traffic.")
        [("campaign_id", j_uuid (Campaign.id c)); ("status", JStr "live");
         ("link", JStr ("/ui/campaigns/" +:+ uuid_str (Campaign.id c)))]).

(** ** Approval settings *)

(** [app/api/schemas/approval_settings.py] lines 10-22, [ApprovalSettingsUpsert]. Amounts in
    cents, at least 0; the currency is three capital letters. *)
Record ApprovalSettingsUpsert := {
  admin_required_above_amount : option Z;
  auto_approval_cap_amount : Z;
  settings_currency : string;
}.

(** [app/api/schemas/approval_settings.py] lines 25-34, [ApprovalSettingsOut]. *)
Record ApprovalSettingsOut := {
  out_id : option N;
  out_tenant_id : N;
  out_admin_required_above_amount : option Z;
  out_auto_approval_cap_amount : Z;
  out_currency : string;
  out_created_at : option Z;
  out_updated_at : option Z;
}.

Definition settings_of_tenant (tenant_id : N) : M (option TenantApprovalSettings.t) :=
  rows ← select (λ r, TenantApprovalSettings.tenant_id r ==b tenant_id);
  scalar_one_or_none rows.

(** [app/api/approval_settings.py] lines 29-54, [get_approval_settings]. *)
Definition get_approval_settings (user : AppUser.t) : M ApprovalSettingsOut :=
  row ← settings_of_tenant (AppUser.tenant_id user);
  mret match row with
  | Some row => {|
      out_id := Some (TenantApprovalSettings.id row);
      out_tenant_id := TenantApprovalSettings.tenant_id row;
      out_admin_required_above_amount := TenantApprovalSettings.admin_required_above_amount row;
      out_auto_approval_cap_amount := TenantApprovalSettings.auto_approval_cap_amount row;
      out_currency := TenantApprovalSettings.currency row;
      out_created_at := Some (TenantApprovalSettings.created_at row);
      out_updated_at := Some (TenantApprovalSettings.updated_at row) |}
  | None => {|
      out_id := None;
      out_tenant_id := AppUser.tenant_id user;
      out_admin_required_above_amount := None;
      out_auto_approval_cap_amount := 0;
      out_currency := "USD";
      out_created_at := None;
      out_updated_at := None |}
  end.

(** [app/api/approval_settings.py] lines 57-86, [upsert_approval_settings]. *)
Definition upsert_approval_settings (body : ApprovalSettingsUpsert) (user : AppUser.t)
    : M TenantApprovalSettings.t :=
  row ← settings_of_tenant (AppUser.tenant_id user);
  t ← asks now;
  match row with
  | None => add_row (λ id, {|
      TenantApprovalSettings.id := id;
      TenantApprovalSettings.tenant_id := AppUser.tenant_id user;
      TenantApprovalSettings.admin_required_above_amount := admin_required_above_amount body;
      TenantApprovalSettings.auto_approval_cap_amount := auto_approval_cap_amount body;
      TenantApprovalSettings.currency := settings_currency body;
      TenantApprovalSettings.created_at := t;
      TenantApprovalSettings.updated_at := t |})
  | Some row => assign row (λ r, r
      <| TenantApprovalSettings.admin_required_above_amount := admin_required_above_amount body |>
      <| TenantApprovalSettings.auto_approval_cap_amount := auto_approval_cap_amount body |>
      <| TenantApprovalSettings.currency := settings_currency body |>
      <| TenantApprovalSettings.updated_at := t |>)
  end.

(** ** The queue page and the queue of the API *)

Lemma compliance_blocked_agrees a b :
  compliance_blocked (ContentAsset.extra_metadata a) = inr b → _is_compliance_blocked a = b.
Proof.
  unfold compliance_blocked, _is_compliance_blocked.
  destruct (dget "compliance" _) as [[]|]; simpl; repeat case_match; naive_solver.
Qed.

(** What both say of an asset that waits. *)
Definition queue_row (a : ContentAsset.t) (c : Campaign.t) (overdue blocked : bool) := (a, c, overdue, blocked).


Lemma mapM_rows {A B C} (f : A → M B) (g : A → C) (h : B → C) l e s s' ys :
  (∀ x s1 s2 y, f x e s1 = (s2, inr y) → s2 = s1 ∧ h y = g x) →
  mapM_ f l e s = (s', inr ys) → s' = s ∧ h <$> ys = g <$> l.
Proof.
  intros Hf. revert s s' ys. induction l as [|x l IH]; intros s s' ys; cbn [mapM_].
  - intros Hrun. by apply ret_inr in Hrun as [-> ->].
  - intros Hrun. apply bind_inr in Hrun as (s1 & y & Hy & Hrun). apply Hf in Hy as [-> Hy].
    apply bind_inr in Hrun as (s2 & ys' & Hys & Hrun). apply IH in Hys as [-> Hys].
    apply ret_inr in Hrun as [-> ->]. split; [done|]. rewrite !fmap_cons. by rewrite Hy, Hys.
Qed.

Lemma items_in_status_inr st cutoff e s s' items :
  _items_in_status st cutoff e s = (s', inr items) →
  s' = s ∧ (λ i, queue_row (q_asset i) (q_campaign i) (q_overdue i) (q_compliance_blocked i)) <$> items =
    (λ ac : ContentAsset.t * Campaign.t,
       queue_row ac.1 ac.2 (ContentAsset.updated_at ac.1 <? cutoff) (_is_compliance_blocked ac.1)) <$>
    merge_sort queue_order (omap (λ a, pair a <$> t_campaign s !! ContentAsset.campaign_id a)
      (List.filter (λ a, ContentAsset.status a ==b st) (snd <$> map_to_list (t_content_asset s)))).
Proof.
  unfold _items_in_status. rewrite bind_select, bind_gets. apply mapM_rows. clear.
  intros [a c] s1 s2 y Hrun. cbv zeta in Hrun.
  apply bind_inr in Hrun as (? & b & Hb & Hrun). apply of_sum_inr in Hb as [Hb ->].
  apply ret_inr in Hrun as [-> ->]. split; [done|].
  unfold queue_row. cbn. apply compliance_blocked_agrees in Hb. cbn in Hb. by rewrite Hb.
Qed.

Lemma recent_decisions_inr n e s s' ds : _recent_decisions n e s = (s', inr ds) → s' = s.
Proof. unfold _recent_decisions. rewrite bind_select, !bind_gets. intros Hrun. by apply ret_inr in Hrun as [-> _]. Qed.

Lemma omap_all {A B} (g : A → B) (l : list A) : omap (λ x, Some (g x)) l = g <$> l.
Proof. induction l as [|x l IH]; [done|]. cbn. by rewrite IH. Qed.

Lemma filter_all {A} (l : list A) : List.filter (λ _, true) l = l.
Proof. induction l as [|x l IH]; [done|]. cbn. by rewrite IH. Qed.

(** The page shows the assets of the API's queue, in its order and with its flags. *)
Lemma queue_page_agrees user e s s' page :
  approval_queue user e s = (s', inr page) →
  s' = s ∧ ∃ items, list_approval_queue None None None None user e s = (s, inr items) ∧
    (λ i, queue_row (q_asset i) (q_campaign i) (q_overdue i) (q_compliance_blocked i)) <$> pending_items page =
    (λ i, queue_row (item_asset i) (item_campaign i) (item_overdue i) (item_compliance_blocked i)) <$> items.
Proof.
  unfold approval_queue. rewrite bind_asks. cbv zeta. intros Hrun.
  apply bind_inr in Hrun as (s1 & pending & Hp & Hrun). apply bind_inr in Hrun as (s2 & drafted & Hd & Hrun).
  apply bind_inr in Hrun as (s3 & recent & Hr & Hrun). apply ret_inr in Hrun as [-> ->]. cbn [pending_items].
  apply items_in_status_inr in Hp as [-> Hp], Hd as [-> _]. apply recent_decisions_inr in Hr as ->.
  split; [done|]. rewrite Hp. unfold list_approval_queue. rewrite bind_select, bind_gets, bind_asks.
  rewrite (List.filter_ext (λ a, (ContentAsset.status a ==b AssetStatus.pending_approval) &&
    agrees None (ContentAsset.campaign_id a) && agrees None (ContentAsset.asset_type a))
    (λ a, ContentAsset.status a ==b AssetStatus.pending_approval)) by (intros a; by rewrite !andb_true_r).
  eexists. split; [reflexivity|].
  rewrite filter_all, omap_all, <- list_fmap_compose. reflexivity.
Qed.
