(* ===== verification/ApprovalProofs.v ===== *)
(** * Approving: proofs about the decision paths

    The gates a decision passes, what a decision writes, the batch endpoint
    against its dry run, and what the other review paths leave out. *)

From S2P Require Export Fixtures LaunchProofs Review.
Local Open Scope Z_scope.

(** ** The gates read what the submission wrote *)

Definition snapshot_cur (row : option TenantApprovalSettings.t) : string :=
  let c := from_option TenantApprovalSettings.currency "USD" row in
  if str_empty c then "USD" else c.

Lemma snapshot_currency_of row t : snapshot_currency (approval_snapshot row t) = JStr (snapshot_cur row).
Proof.
  unfold snapshot_currency, snapshot_cur. simpl.
  by destruct (from_option _ _ row) eqn:E; simpl; rewrite ?E.
Qed.

Lemma dec_gt_zero b : dec_gt (dec_of_cents b) (DFin false 0 0) = Some (0 <? b).
Proof.
  unfold dec_of_cents, dec_gt, dec_coef. f_equal. change (Z.min (-2) 0) with (-2).
  change (-2 - -2) with 0. rewrite Z.pow_0_r, Z.mul_1_r, Z.mul_0_l.
  destruct (Z.ltb_spec b 0); destruct (Z.ltb_spec 0 b); apply Z.ltb_lt || apply Z.ltb_ge; lia.
Qed.

Definition admin_needed (row : option TenantApprovalSettings.t) (c : Campaign.t) : bool :=
  match row ≫= TenantApprovalSettings.admin_required_above_amount with
  | Some limit => (snapshot_cur row ==b Campaign.currency c) && (limit <? Campaign.budget_total c)
  | None => false
  end.

Definition cap_exceeded (row : option TenantApprovalSettings.t) (c : Campaign.t) : bool :=
  (snapshot_cur row ==b Campaign.currency c) &&
  (from_option TenantApprovalSettings.auto_approval_cap_amount 0 row <? Campaign.budget_total c).

Section snapshot.
Context (asset : ContentAsset.t) (row : option TenantApprovalSettings.t) (t : Z).
Context (Hsnap : dget "approval_threshold" (ContentAsset.extra_metadata asset) =
                 Some (JObj (approval_snapshot row t))).

Lemma threshold_snapshot_of e s : threshold_snapshot asset e s = (s, inr (approval_snapshot row t)).
Proof using Hsnap. unfold threshold_snapshot. by rewrite Hsnap. Qed.

Lemma evaluate_threshold_snapshot c e s :
  ∃ td, _evaluate_threshold asset c e s = (s, inr td) ∧ requires_admin td = admin_needed row c.
Proof using Hsnap.
  unfold _evaluate_threshold, admin_needed. rewrite (bind_ok _ _ _ _ _ _ (threshold_snapshot_of e s)).
  cbv zeta. rewrite snapshot_currency_of. unfold is_string.
  change (dget "admin_required_above_amount" (approval_snapshot row t)) with
    (Some (jopt j_cents (row ≫= TenantApprovalSettings.admin_required_above_amount))).
  unfold jopt, j_cents.
  destruct (row ≫= _) as [limit|]; cbn [from_option]; [|by eexists]. cbv beta iota delta [from_option json_str id]. rewrite dec_parse_amount_str, dec_gt_cents.
  destruct (snapshot_cur row ==b _); by eexists.
Qed.

Lemma exceeds_cap_snapshot c e s :
  ∃ cap, _exceeds_auto_approval_cap asset c e s = (s, inr (cap_exceeded row c, cap)).
Proof using Hsnap.
  unfold _exceeds_auto_approval_cap, cap_exceeded.
  rewrite (bind_ok _ _ _ _ _ _ (threshold_snapshot_of e s)).
  cbv zeta. rewrite snapshot_currency_of. unfold is_string.
  change (dget "auto_approval_cap_amount" (approval_snapshot row t)) with
    (Some (match row with
           | Some r => j_cents (TenantApprovalSettings.auto_approval_cap_amount r)
           | None => JStr "0"
           end)).
  destruct row as [r|]; unfold j_cents; cbv beta iota delta [from_option json_str].
  - rewrite dec_parse_amount_str, dec_gt_cents. destruct (_ ==b _); by eexists.
  - change (dec_parse "0") with (Some (DFin false 0 0)). cbv iota. rewrite dec_gt_zero.
    destruct (_ ==b _); by eexists.
Qed.
End snapshot.

(** ** A refused transition changes nothing *)

Definition is_refusal (x : exn) : bool :=
  match x with UnknownTransitionError _ | GuardFailedError _ => true | _ => false end.

Lemma respects_audit_never tid ek eid act b a md (P : exn → Prop) :
  raises P (audit tid ek eid act b a md).
Proof. unfold audit, write_audit. raises_auto. Qed.
Lemma ensure_agent_raises kind name tid :
  raises (λ x, is_refusal x = false) (ensure_agent kind name tid).
Proof.
  unfold ensure_agent, add_tracked, on_insert. raises_auto; [done|]. apply respects_audit_never.
Qed.
Lemma enqueue_task_raises tid aid sk inp cid pid key at_ mx pr :
  raises (λ x, is_refusal x = false) (enqueue_task tid aid sk inp cid pid key at_ mx pr).
Proof. unfold enqueue_task. raises_auto; done. Qed.

(** Extend the walk with the shared operations. *)
Ltac raise_walk_step := first
  [ raises_step
  | match goal with
    | |- raises ?P (audit _ _ _ _ _ _ _) => apply respects_audit_never
    | |- raises ?P (ensure_agent _ _ _) => apply ensure_agent_raises
    | |- raises ?P (enqueue_task _ _ _ _ _ _ _ _ _ _) => apply enqueue_task_raises
    | |- raises ?P (?f _) => unfold f
    | |- raises ?P (?f _ _) => unfold f
    | |- raises ?P (?f _ _ _) => unfold f
    | |- raises ?P (?f _ _ _ _) => unfold f
    | |- raises ?P (?f _ _ _ _ _ _) => unfold f
    end ].
Ltac raise_walk := repeat raise_walk_step; try done.

Lemma entry_raises tr f c :
  tr ∈ campaign_transitions → tr_name tr ≠ "complete_campaign" → on_enter tr = Some f →
  raises (λ x, is_refusal x = false) (f c).
Proof.
  intros Hin Hn Hf.
  repeat (apply elem_of_cons in Hin as [->|Hin];
    [first [by destruct Hn | simplify_eq/=; raise_walk]|]);
    try (by apply not_elem_of_nil in Hin).
Qed.

(** A transition past its guard. *)
Definition enter (c : Campaign.t) (tr : Transition) : M Campaign.t :=
  c' ← move c tr;
  match on_enter tr with Some f => f c' | None => mret () end ;;
  mret c'.

Lemma apply_cases c n e s :
  match sm_get (Campaign.status c, n) campaign_sm with
  | Some tr =>
      (∃ m, apply campaign_sm c n e s = (s, inl (GuardFailedError m))) ∨
      apply campaign_sm c n e s = enter c tr e s
  | None => ∃ m, apply campaign_sm c n e s = (s, inl (UnknownTransitionError m))
  end.
Proof.
  unfold apply. destruct (sm_get _ campaign_sm) as [tr|] eqn:Htr; [|by eexists].
  apply campaign_sm_get in Htr as (Hin & _ & _).
  assert (∃ b, match guard tr with Some g => g c | None => mret true end e s = (s, inr b)) as [b Hb].
  { destruct (guard tr) as [g|] eqn:Hg; [by eapply guards_pure|by exists true]. }
  rewrite (bind_ok _ _ _ _ _ _ Hb). destruct b; [right|left; by eexists].
  unfold enter, move. by rewrite !bind_assoc.
Qed.

Lemma apply_refused c n e s s' x :
  n ≠ "complete_campaign" → apply campaign_sm c n e s = (s', inl x) → is_refusal x = true → s' = s.
Proof.
  intros Hn Hrun Hx. pose proof (apply_cases c n e s) as Hc.
  destruct (sm_get _ campaign_sm) as [tr|] eqn:Htr; [|destruct Hc as [m Hc]; congruence].
  destruct Hc as [[m Hc]|Hc]; [congruence|].
  apply campaign_sm_get in Htr as (Hin & _ & <-).
  assert (raises (λ x, is_refusal x = false) (enter c tr)) as Hr.
  { unfold enter, move. raises_auto; try apply respects_audit_never. by eapply entry_raises. }
  specialize (Hr e s x). rewrite <- Hc, Hrun in Hr. by rewrite Hr in Hx.
Qed.

(** A guarded transition either happens or leaves everything as it was. *)
Lemma try_transition_inr n c e s s' r :
  n ≠ "complete_campaign" → try_transition n c e s = (s', inr r) →
  (r.1 = true ∧ apply campaign_sm c n e s = (s', inr r.2)) ∨ (r = (false, c) ∧ s' = s).
Proof.
  intros Hn. unfold try_transition, try_except, mbind, M_bind.
  destruct (apply campaign_sm c n e s) as [s1 [x|c']] eqn:E.
  - destruct (is_refusal x) eqn:Hx.
    + pose proof (apply_refused _ _ _ _ _ _ Hn E Hx) as ->.
      destruct x; try discriminate; intros [= <- <-]; by right.
    + by destruct x.
  - intros [= <- <-]. by left.
Qed.

(** ** What a decision writes *)

Definition same_decisions : relation db := λ s s',
  t_approval_decision_log s' = t_approval_decision_log s.
#[export] Instance same_decisions_preorder : PreOrder same_decisions.
Proof. split; unfold same_decisions; [by intros s|]. intros s1 s2 s3 H12 H23. congruence. Qed.

Lemma record_decision_run asset f before rv kind why edits action md e s r0 :
  t_content_asset s !! ContentAsset.id asset = Some r0 →
  ∃ s' d, record_decision asset f before rv kind why edits action md e s = (s', inr d) ∧
    t_content_asset s' = <[ContentAsset.id asset := touch (now e) (f r0)]> (t_content_asset s) ∧
    t_approval_decision_log s' = <[ApprovalDecisionLog.id d := d]> (t_approval_decision_log s) ∧
    t_campaign s' = t_campaign s ∧ t_task s' = t_task s ∧
    d = {| ApprovalDecisionLog.id := next_uuid s;
           ApprovalDecisionLog.content_asset_id := ContentAsset.id asset;
           ApprovalDecisionLog.reviewer_id := rv; ApprovalDecisionLog.decision := kind;
           ApprovalDecisionLog.reason := why; ApprovalDecisionLog.edits := edits;
           ApprovalDecisionLog.decided_at := now e |}.
Proof.
  intros Hr. unfold record_decision, log_decision. run_pure. rewrite (bind_ok _ _ _ _ _ _ (add_row_run _ e s)).
  unfold assign. rewrite bind_assoc.
  erewrite bind_ok by (apply update_row_run; exact Hr). cbv beta.
  do 2 eexists. split; [reflexivity|]. done.
Qed.

(** Extend the walk by unfolding the program's own operations. *)
Ltac decision_walk := repeat first
  [ walk_step
  | match goal with
    | |- respects ?R (?f _) => unfold f
    | |- respects ?R (?f _ _) => unfold f
    | |- respects ?R (?f _ _ _) => unfold f
    | |- respects ?R (?f _ _ _ _) => unfold f
    end ].

Lemma entry_same_decisions tr f c :
  tr ∈ campaign_transitions → on_enter tr = Some f → tr_name tr ≠ "complete_campaign" →
  respects same_decisions (f c).
Proof.
  intros Hin Hf Hn.
  repeat (apply elem_of_cons in Hin as [->|Hin];
    [first [by destruct Hn | simplify_eq/=; decision_walk]|]);
    try (by apply not_elem_of_nil in Hin).
Qed.

Lemma apply_same_decisions c n :
  n ≠ "complete_campaign" → respects same_decisions (apply campaign_sm c n).
Proof.
  intros Hn e s. pose proof (apply_cases c n e s) as Hc.
  destruct (sm_get _ campaign_sm) as [tr|] eqn:Htr; [|by destruct Hc as [m ->]].
  destruct Hc as [[m ->]| ->]; [done|]. apply campaign_sm_get in Htr as (Hin & _ & <-).
  revert e s. change (respects same_decisions (enter c tr)). unfold enter, move. walk.
  by eapply entry_same_decisions.
Qed.

(** The campaign may launch after a decision; nothing else happens to it. *)
Lemma maybe_advance_effect c e s s' c' :
  keyed ContentAsset.t s → _maybe_advance_to_ready_to_launch c e s = (s', inr c') →
  (s' = s ∧ c' = c) ∨
  (Campaign.status c = CampaignStatus.approval_pending ∧
   apply campaign_sm c "start_launch" e s = (s', inr c') ∧
   t_approval_decision_log s' = t_approval_decision_log s ∧
   (∀ k a, t_content_asset s !! k = Some a → ∃ a', t_content_asset s' !! k = Some a' ∧
     if approved_of (Campaign.id c) a then scheduled_from (now e) a a' else a' = a) ∧
   ∀ k, t_content_asset s !! k = None → t_content_asset s' !! k = None).
Proof.
  intros Hkey. unfold _maybe_advance_to_ready_to_launch.
  destruct (Campaign.status c !=b _) eqn:Hst; [intros [= <- <-]; by left|]. intros Hrun. inv_run.
  match goal with H : try_transition _ _ _ _ = (_, inr ?r) |- _ =>
    apply try_transition_inr in H as [[_ Hap]|[-> ->]]; [|by left|done] end.
  right. reflect_bools. split; [done|]. split; [done|].
  split; [exact (respects_run same_decisions _ _ _ _ _ (apply_same_decisions _ "start_launch" ltac:(done)) Hap)|].
  apply apply_inr in Hap as (tr & s1 & s2 & Htr & Hg & Hc & Hmove & Hent).
  find_transition Htr. simpl in Hg, Hent. destruct Hent as [u Hent].
  unfold _schedule_approved_assets in Hent. inv_run.
  rewrite approved_guard_run in Hg. injection Hg as <- _.
  match goal with H : schedule_approved_assets _ _ _ = _ |- _ => rename H into Hsch end.
  frame_assets. pose proof (schedule_approved_effect _ _ _ _ _ (keyed_same _ _ H Hkey) Hsch) as Heff.
  clear Hsch. rename Heff into Hsch. rewrite H, Hc in Hsch. simpl Campaign.id in Hsch.
  split; [intros k a Hk|intros k Hk]; specialize (Hsch k); rewrite Hk in Hsch; [|done].
  destruct (approved_of _ a); [done|by exists a].
Qed.

Lemma maybe_advance_assets c e s s' c' :
  keyed ContentAsset.t s → _maybe_advance_to_ready_to_launch c e s = (s', inr c') →
  t_approval_decision_log s' = t_approval_decision_log s ∧
  (∀ k a, t_content_asset s !! k = Some a → ∃ a', t_content_asset s' !! k = Some a' ∧
    (a' = a ∨ approved_of (Campaign.id c) a = true ∧
              Campaign.status c = CampaignStatus.approval_pending ∧ scheduled_from (now e) a a')) ∧
  ∀ k, t_content_asset s !! k = None → t_content_asset s' !! k = None.
Proof.
  intros Hkey Hrun.
  destruct (maybe_advance_effect _ _ _ _ _ Hkey Hrun) as [[-> ->]|(Hcs & _ & Hlog & Heff & Hnone)].
  - split; [done|]. eauto.
  - split; [done|]. split; [|done]. intros k a Hk. destruct (Heff k a Hk) as (a' & Hk' & Ha'). exists a'.
    split; [done|]. destruct (approved_of _ a) eqn:E; [right|left]; auto.
Qed.

(** ** Approving one asset *)

Lemma py_dict_pure v : respects eq (py_dict v).
Proof. unfold py_dict. respects_auto. Qed.

Lemma edits_payload_pure a c fs n : respects eq (edits_payload a c fs n).
Proof. unfold edits_payload. respects_auto; apply py_dict_pure. Qed.

Lemma apply_edits_inr c fs a e s s' a' :
  apply_edits c fs a e s = (s', inr a') →
  s' = s ∧ ContentAsset.id a' = ContentAsset.id a ∧
  ContentAsset.campaign_id a' = ContentAsset.campaign_id a.
Proof.
  unfold apply_edits. cbv zeta. intros Hrun.
  assert (s' = s) as ->.
  { symmetry. eapply (respects_run eq); [|exact Hrun]. unfold apply_edits. respects_auto; apply py_dict_pure. }
  split; [done|]. destruct c as [c|]; destruct (fs ==b []); inv_run; done.
Qed.

Lemma threshold_pure a c : respects eq (_evaluate_threshold a c).
Proof. unfold _evaluate_threshold, threshold_snapshot. respects_auto. Qed.

Lemma load_inr aid e s s' asset c :
  _load_asset_and_campaign aid e s = (s', inr (asset, c)) →
  s' = s ∧ t_content_asset s !! aid = Some asset ∧
  t_campaign s !! ContentAsset.campaign_id asset = Some c.
Proof.
  unfold _load_asset_and_campaign. intros Hrun. inv_run.
  destruct (t_content_asset s !! aid) as [a|] eqn:Ha; [|done]. inv_run.
  destruct (t_campaign s !! ContentAsset.campaign_id a) as [c'|] eqn:Hc; [|done]. injection Hrun as -> -> ->. done.
Qed.

(** The steps of an approval that succeeds. *)
Lemma approve_asset_inr aid body user e s s' d :
  approve_asset aid body user e s = (s', inr d) →
  ∃ asset c td edited edits s1 c',
    t_content_asset s !! aid = Some asset ∧ t_campaign s !! ContentAsset.campaign_id asset = Some c ∧
    approvable asset = true ∧ _is_compliance_blocked asset = false ∧
    _evaluate_threshold asset c e s = (s, inr td) ∧
    (requires_admin td = true → AppUser.role user = UserRole.admin) ∧
    ContentAsset.id edited = ContentAsset.id asset ∧
    ContentAsset.campaign_id edited = ContentAsset.campaign_id asset ∧
    record_decision asset (λ _, set_status AssetStatus.approved edited) edited (AppUser.id user)
      (approved_kind edits) (note body) edits (value (approved_kind edits))
      [("applied_threshold", JObj (applied_threshold td))] e s = (s1, inr d) ∧
    _maybe_advance_to_ready_to_launch c e s1 = (s', inr c').
Proof.
  intros Hrun. unfold approve_asset in Hrun. inv_run.
  match goal with H : _load_asset_and_campaign _ _ _ = (_, inr ?l) |- _ =>
    destruct l as [asset c]; apply load_inr in H as (-> & Ha & Hc) end. simpl in *.
  match goal with H : _evaluate_threshold _ _ _ _ = _ |- _ =>
    pose proof (respects_run eq _ _ _ _ _ (threshold_pure _ _) H) as <- end.
  match goal with H : (if _ then edits_payload _ _ _ _ ≫= _ else _) _ _ = (?s1, _) |- _ =>
    assert (s = s1) as <- by (eapply (respects_run eq); [|exact H];
      respects_auto; apply edits_payload_pure) end.
  match goal with H : (if _ then apply_edits _ _ _ else _) _ _ = (?s1, inr ?a) |- _ =>
    assert (s1 = s ∧ ContentAsset.id a = ContentAsset.id asset ∧
            ContentAsset.campaign_id a = ContentAsset.campaign_id asset) as (-> & Hid & Hcid) by
      (destruct (_ || _); [by eapply apply_edits_inr|by inv_run]) end.
  reflect_bools.
  match goal with H : requires_admin _ && _ = false |- _ => rename H into Hadm end.
  do 7 eexists. split_and!; try eassumption.
  intros Htd. rewrite Htd in Hadm. simpl in Hadm. by reflect_bools.
Qed.

Lemma keyed_insert s s' k (a : ContentAsset.t) :
  keyed ContentAsset.t s → ContentAsset.id a = k →
  t_content_asset s' = <[k := a]> (t_content_asset s) → keyed ContentAsset.t s'.
Proof. intros Hs Ha Heq. unfold keyed, rows_ok. simpl. rewrite Heq. by apply map_Forall_insert_2. Qed.

(** C8: an approval that the API accepts was made by a manager or an admin on an
    asset that was pending approval or rejected and not compliance-blocked, and the
    threshold snapshotted on the asset did not ask for a higher role than the
    reviewer has. Exactly one decision is logged, by that reviewer, for that asset,
    and it is not a rejection; the asset is approved, or already scheduled because
    this approval let a campaign that was pending approval go on to launch. Any
    other asset is left alone, unless it is an approved one of the campaign that
    this launched. *)
Theorem approve_asset_spec aid body user e s s' d :
  keyed ContentAsset.t s →
  request UserRole.manager user (approve_asset aid body) e s = (s', inr d) →
  ∃ asset c td a',
    t_content_asset s !! aid = Some asset ∧
    t_campaign s !! ContentAsset.campaign_id asset = Some c ∧
    2 <= ROLE_RANK (AppUser.role user) ∧ approvable asset = true ∧
    _is_compliance_blocked asset = false ∧
    _evaluate_threshold asset c e s = (s, inr td) ∧
    (requires_admin td = true → AppUser.role user = UserRole.admin) ∧
    t_approval_decision_log s' =
      <[ApprovalDecisionLog.id d := d]> (t_approval_decision_log s) ∧
    ApprovalDecisionLog.content_asset_id d = aid ∧
    ApprovalDecisionLog.reviewer_id d = AppUser.id user ∧
    ApprovalDecisionLog.decision d ≠ ApprovalDecision.rejected ∧
    t_content_asset s' !! aid = Some a' ∧
    (ContentAsset.status a' = AssetStatus.approved ∨
     ContentAsset.status a' = AssetStatus.scheduled ∧
     Campaign.status c = CampaignStatus.approval_pending) ∧
    ∀ k b, k ≠ aid → t_content_asset s !! k = Some b →
      t_content_asset s' !! k = Some b ∨
      approved_of (Campaign.id c) b = true ∧ Campaign.status c = CampaignStatus.approval_pending.
Proof.
  intros Hkey [Hrank Hrun]%request_inr.
  apply approve_asset_inr in Hrun as
    (asset & c & td & edited & edits & s1 & c' & Ha & Hc & Happ & Hblk & Htd & Hadm & Hid & Hcid & Hrec & Hadv).
  pose proof (Hkey _ _ Ha) as Hida. simpl in Hida. rewrite Hida in Hid.
  destruct (record_decision_run asset (λ _, set_status AssetStatus.approved edited) edited
    (AppUser.id user) (approved_kind edits) (note body) edits (value (approved_kind edits))
    [("applied_threshold", JObj (applied_threshold td))] e s asset) as
    (s1' & d' & Hrec' & Hassets & Hlog & _ & _ & Hd); [by rewrite Hida|].
  rewrite Hrec in Hrec'. injection Hrec' as <- <-. rewrite Hida in Hassets, Hd.
  set (new := touch (now e) _) in Hassets.
  assert (keyed ContentAsset.t s1) as Hkey1
    by (by eapply (keyed_insert s s1 aid new)).
  assert (t_content_asset s1 !! aid = Some new) as Hnew by (by rewrite Hassets, lookup_insert_eq).
  destruct (maybe_advance_assets _ _ _ _ _ Hkey1 Hadv) as (Hlog' & Heff & _).
  destruct (Heff _ _ Hnew) as (a' & Ha' & Hst').
  exists asset, c, td, a'. split_and!; try done; try (by rewrite Hd).
  - by rewrite Hlog', Hlog.
  - rewrite Hd. by destruct edits.
  - destruct Hst' as [->|(_ & Hcs & [])]; auto.
  - intros k b Hk Hb. destruct (Heff k b) as (b' & Hb' & H).
    { by rewrite Hassets, lookup_insert_ne. }
    destruct H as [->|(Hof & Hcs & _)]; auto.
Qed.

(** ** The gates, computed *)

(** [m] reads nothing: it returns or raises the same thing everywhere. *)
Definition constant {A} (m : M A) : Prop := ∃ r, ∀ e s, m e s = (s, r).

Lemma constant_ret {A} (x : A) : constant (mret x).
Proof. by exists (inr x). Qed.
Lemma constant_raise {A} x : constant (raise (A:=A) x).
Proof. by exists (inl x). Qed.
Lemma constant_bind {A B} (m : M A) (f : A → M B) :
  constant m → (∀ a, constant (f a)) → constant (m ≫= f).
Proof.
  intros [[x|a] Hm] Hf.
  - exists (inl x). intros e s. unfold mbind, M_bind. by rewrite Hm.
  - destruct (Hf a) as [r Hr]. exists r. intros e s. unfold mbind, M_bind. by rewrite Hm.
Qed.
Ltac constant_auto := repeat match goal with
  | |- constant (mret _) => apply constant_ret
  | |- constant (raise _) => apply constant_raise
  | |- constant (mbind _ _) => apply constant_bind; [|intros ?]
  | |- constant (match ?x with _ => _ end) => destruct x
  end.

Lemma threshold_snapshot_constant a : constant (threshold_snapshot a).
Proof. unfold threshold_snapshot. constant_auto. Qed.
Lemma threshold_constant a c : constant (_evaluate_threshold a c).
Proof. unfold _evaluate_threshold. constant_auto; apply threshold_snapshot_constant. Qed.
Lemma cap_constant a c : constant (_exceeds_auto_approval_cap a c).
Proof. unfold _exceeds_auto_approval_cap. constant_auto; apply threshold_snapshot_constant. Qed.

Lemma judge_constant rs cs user k : constant (judge rs cs user k).
Proof.
  unfold judge. constant_auto; [apply cap_constant|apply threshold_constant].
Qed.

(** What it takes to be approved in a batch. *)
Definition batch_eligible (s : db) (user : AppUser.t) (aid : N) : Prop :=
  ∃ asset c cap td, t_content_asset s !! aid = Some asset ∧
    t_campaign s !! ContentAsset.campaign_id asset = Some c ∧
    approvable asset = true ∧ _is_compliance_blocked asset = false ∧
    (∀ e s, _exceeds_auto_approval_cap asset c e s = (s, inr (false, cap))) ∧
    (∀ e s, _evaluate_threshold asset c e s = (s, inr td)) ∧
    (requires_admin td = true → AppUser.role user = UserRole.admin).

Lemma constant_run {A} (m : M A) e s s1 r : constant m → m e s = (s1, r) → ∀ e s, m e s = (s, r).
Proof. intros [r' Hm] Hr. rewrite Hm in Hr. injection Hr as <- <-. exact Hm. Qed.

Lemma judge_accepted rs cs user k e s s' a c td :
  judge rs cs user k e s = (s', inr (accepted a c td)) →
  s' = s ∧ rs !! k = Some a ∧ cs !! ContentAsset.campaign_id a = Some c ∧ approvable a = true ∧
  _is_compliance_blocked a = false ∧
  (∃ cap, ∀ e s, _exceeds_auto_approval_cap a c e s = (s, inr (false, cap))) ∧
  (∀ e s, _evaluate_threshold a c e s = (s, inr td)) ∧
  (requires_admin td = true → AppUser.role user = UserRole.admin).
Proof.
  unfold judge. intros Hrun.
  destruct (rs !! k) as [a'|]; [|by inv_run].
  destruct (cs !! _) as [c'|] eqn:Hc; [|by inv_run].
  destruct (approvable a') eqn:Happ; [|by inv_run]. cbn [negb] in Hrun.
  destruct (_is_compliance_blocked a') eqn:Hblk; [by inv_run|]. inv_run.
  match goal with H : _exceeds_auto_approval_cap _ _ _ _ = (_, inr ?p) |- _ =>
    pose proof (constant_run _ _ _ _ _ (cap_constant _ _) H) as Hcap; rewrite Hcap in H;
    injection H as <-; destruct p as [[|] cap]; [by inv_run|] end.
  cbn [fst] in Hrun. inv_run.
  match goal with H : _evaluate_threshold _ _ _ _ = (_, inr ?p) |- _ =>
    pose proof (constant_run _ _ _ _ _ (threshold_constant _ _) H) as Htd; rewrite Htd in H;
    injection H as <- end.
  destruct (requires_admin _ && _) eqn:Hadm; [by inv_run|]. injection Hrun as -> -> -> ->.
  split_and!; eauto. intros Hr. rewrite Hr in Hadm. simpl in Hadm. by reflect_bools.
Qed.

(** ** The batch and its dry run *)

Lemma record_decision_total asset f before rv kind why edits action md e s :
  ∃ s' d, record_decision asset f before rv kind why edits action md e s = (s', inr d).
Proof.
  apply raises_never. unfold record_decision, log_decision. raises_auto. apply respects_audit_never.
Qed.

(** What the two runs agree on while the ids of [l] are still to come. *)
Record batch_sim (l : list N) (b b' : batch_state) : Prop := {
  bs_rows : ∀ k, k ∈ l → rows_by_id b !! k = rows_by_id b' !! k;
  bs_approved : (b_approved b).*1 = (b_approved b').*1;
  bs_excluded : b_excluded b = b_excluded b';
  bs_counts : b_counts b = b_counts b';
  bs_campaigns : b_campaigns b = b_campaigns b';
  bs_currency : b_currency b = b_currency b';
}.

Lemma batch_one_sim cs user x l b b' e s s0 s' b1 :
  x ∉ l → batch_sim (x :: l) b b' →
  batch_one cs user false b' x e s = (s', inr b1) →
  ∃ b0, batch_one cs user true b x e s0 = (s0, inr b0) ∧ batch_sim l b0 b1.
Proof.
  intros Hx [Hrows Happ Hexc Hcnt Hcamp Hcur] Hrun.
  unfold batch_one in *.
  destruct (judge_constant (rows_by_id b) cs user x) as [r Hr].
  assert (∀ e s, judge (rows_by_id b') cs user x e s = (s, r)) as Hr'.
  { intros e1 s1. rewrite <- (Hr e1 s1). unfold judge. by rewrite Hrows by left. }
  unfold mbind, M_bind in *. rewrite Hr' in Hrun. rewrite Hr. destruct r as [y|[why det|a c td]]; [done|..].
  - injection Hrun as <- <-. eexists. split; [reflexivity|].
    split; simpl; try congruence. intros k Hk. apply Hrows. by right.
  - eexists. split; [reflexivity|]. unfold try_except, transaction in Hrun.
    destruct (record_decision_total a (set_status AssetStatus.approved) a (AppUser.id user)
      ApprovalDecision.approved None (Some [("batch", JBool true)]) "approved"
      [("applied_threshold", JObj (applied_threshold td)); ("via", JStr "batch_approve")] e s)
      as (s1 & d & Hd). rewrite Hd in Hrun. injection Hrun as <- <-.
    split; simpl; rewrite ?Hexc, ?Hcnt, ?Hcamp, ?Hcur; try done.
    + intros k Hk. rewrite !lookup_insert_ne by (intros ->; done). apply Hrows. by right.
    + by rewrite !fmap_app, Happ.
Qed.

Lemma batch_fold_sim cs user l b b' e s s0 s' b1 :
  NoDup l → batch_sim l b b' →
  foldM (batch_one cs user false) b' l e s = (s', inr b1) →
  ∃ b0, foldM (batch_one cs user true) b l e s0 = (s0, inr b0) ∧ batch_sim [] b0 b1.
Proof.
  revert b b' s. induction l as [|x l IH]; intros b b' s Hnd Hsim Hrun; simpl in *.
  - injection Hrun as <- <-. eauto.
  - apply NoDup_cons in Hnd as [Hx Hnd]. apply bind_inr in Hrun as (s1 & b2 & H1 & H2).
    destruct (batch_one_sim _ _ _ _ _ _ _ _ s0 _ _ Hx Hsim H1) as (b3 & H3 & Hsim').
    destruct (IH _ _ _ Hnd Hsim' H2) as (b0 & H4 & H5). exists b0.
    split; [|done]. by rewrite (bind_ok _ _ _ _ _ _ H3).
Qed.

Lemma batch_sim_refl l b : batch_sim l b b.
Proof. by split. Qed.

Lemma batch_dry_entries cs user l b e s s' b' :
  (∀ p, p ∈ b_approved b → p.2 = None) →
  foldM (batch_one cs user true) b l e s = (s', inr b') → ∀ p, p ∈ b_approved b' → p.2 = None.
Proof.
  revert b s. induction l as [|x l IH]; intros b s Hb Hrun; simpl in Hrun; [by injection Hrun as _ <-|].
  apply bind_inr in Hrun as (s1 & b2 & H1 & H2). refine (IH _ _ _ H2).
  unfold batch_one in H1. inv_run.
  match goal with H : judge _ _ _ _ _ _ = (_, inr ?v) |- _ => destruct v end; inv_run; [done|].
  intros p. simpl. rewrite elem_of_app, list_elem_of_singleton. intros [Hp| ->]; auto.
Qed.

(** On a list of different assets the dry run predicts the real run. When the
    batch succeeds, the dry run on the same database returns the same approved
    assets, the same exclusions with their reasons and the same summary, and it
    changes nothing. *)
Theorem batch_dry_run_predicts ids user e s s' resp :
  NoDup ids →
  batch_approve {| asset_ids := ids; dry_run := false |} user e s = (s', inr resp) →
  ∃ resp0, batch_approve {| asset_ids := ids; dry_run := true |} user e s = (s, inr resp0) ∧
    (approved resp0).*1 = (approved resp).*1 ∧
    (∀ entry, entry ∈ approved resp0 → entry.2 = None) ∧
    excluded resp0 = excluded resp ∧ summary resp0 = summary resp.
Proof.
  intros Hnd Hrun. unfold batch_approve in *. cbn [asset_ids dry_run negb] in *.
  rewrite !bind_select in *. apply bind_inr in Hrun as (s1 & b & Hfold & Hrun). cbv zeta in *.
  destruct (batch_fold_sim _ _ _ _ _ _ _ s _ _ Hnd (batch_sim_refl _ _) Hfold) as (b0 & H0 & Hsim).
  rewrite (bind_ok _ _ _ _ _ _ H0). cbn [when]. inv_run. rewrite bind_ret.
  eexists. split; [reflexivity|]. destruct Hsim as [_ Happ Hexc Hcnt Hcamp Hcur]. simpl.
  split; [done|]. split; [|split; [done|]].
  - eapply batch_dry_entries; [|exact H0]. intros p Hp. by apply not_elem_of_nil in Hp.
  - rewrite Hexc, Hcnt, Hcamp, Hcur, <- (length_fmap fst (b_approved b0)), Happ, length_fmap.
    reflexivity.
Qed.

(** One turn of the loop: the asset is excluded and nothing happens, or it passed the filters and its
    decision is recorded, unless the run is dry. *)
Definition batch_decision (a : ContentAsset.t) (td : ThresholdDecision) (user : AppUser.t) : M ApprovalDecisionLog.t :=
  record_decision a (set_status AssetStatus.approved) a (AppUser.id user) ApprovalDecision.approved None
    (Some [("batch", JBool true)]) "approved"
    [("applied_threshold", JObj (applied_threshold td)); ("via", JStr "batch_approve")].

Lemma batch_one_cases cs user dry b x e s1 s2 b' :
  batch_one cs user dry b x e s1 = (s2, inr b') →
  (∃ why det, (∀ e s, judge (rows_by_id b) cs user x e s = (s, inr (excluded_for why det))) ∧
     s2 = s1 ∧ b' = exclude x why det b) ∨
  ∃ a c td, judge (rows_by_id b) cs user x e s1 = (s1, inr (accepted a c td)) ∧
    if dry then s2 = s1 ∧ b' = approve_entry a x None (count_accepted a c b)
    else ∃ d, batch_decision a td user e s1 = (s2, inr d) ∧
      b' = approve_entry (set_status AssetStatus.approved a) x (Some (ApprovalDecisionLog.id d)) (count_accepted a c b).
Proof.
  intros Hrun. unfold batch_one in Hrun. apply bind_inr in Hrun as (s3 & v & Hj & Hrun).
  pose proof (constant_run _ _ _ _ _ (judge_constant (rows_by_id b) cs user x) Hj) as Hr.
  rewrite Hr in Hj. injection Hj as <-. destruct v as [why det|a c td].
  - injection Hrun as <- <-. left. by exists why, det.
  - right. exists a, c, td. split; [apply Hr|]. cbv zeta in Hrun. destruct dry; [by injection Hrun as <- <-|].
    unfold try_except, transaction in Hrun. unfold mbind at 1, M_bind at 1 in Hrun.
    unfold batch_decision. destruct (record_decision_total a (set_status AssetStatus.approved) a (AppUser.id user)
      ApprovalDecision.approved None (Some [("batch", JBool true)]) "approved"
      [("applied_threshold", JObj (applied_threshold td)); ("via", JStr "batch_approve")] e s1)
      as (s4 & d & Hd). rewrite Hd in Hrun |- *. injection Hrun as <- <-. by exists d.
Qed.

(** An eligible asset the session still has as it was passes the filters. *)
Lemma judge_eligible s user k rs (cs : gmap N Campaign.t) e s1 :
  batch_eligible s user k → rs !! k = t_content_asset s !! k →
  (∀ a c, t_content_asset s !! k = Some a → t_campaign s !! ContentAsset.campaign_id a = Some c →
     cs !! ContentAsset.campaign_id a = Some c) →
  ∃ a c td, judge rs cs user k e s1 = (s1, inr (accepted a c td)).
Proof.
  intros (a & c & cap & td & Ha & Hc & Happ & Hblk & Hcap & Htd & Hadm) Hrs Hcs. exists a, c, td.
  unfold judge. rewrite Hrs, Ha, (Hcs a c Ha Hc), Happ, Hblk. cbn [negb]. cbv zeta.
  rewrite (bind_ok _ _ _ _ _ _ (Hcap e s1)). cbn [fst]. rewrite (bind_ok _ _ _ _ _ _ (Htd e s1)).
  destruct (requires_admin td) eqn:Hra; [|done]. specialize (Hadm eq_refl).
  by rewrite (bool_decide_eq_true_2 (AppUser.role user = _) Hadm).
Qed.

(** The invariant of the batch loop after the ids of [l], all of them among [ids]. *)
Record batch_inv (s : db) (user : AppUser.t) (dry : bool) (ids l : list N) (b : batch_state) : Prop := {
  bi_perm : (b_approved b).*1 ++ (exc_asset_id <$> b_excluded b) ≡ₚ l;
  bi_rows : ∀ k a, rows_by_id b !! k = Some a → approvable a = true → t_content_asset s !! k = Some a;
  bi_rest : ∀ k, k ∈ ids → k ∉ (b_approved b).*1 → rows_by_id b !! k = t_content_asset s !! k;
  bi_ok : ∀ k, k ∈ (b_approved b).*1 → batch_eligible s user k;
  bi_all : ∀ k, k ∈ l → batch_eligible s user k → k ∈ (b_approved b).*1;
  bi_once : dry = false → NoDup (b_approved b).*1;
  bi_done : dry = false → ∀ k, k ∈ (b_approved b).*1 →
              ∃ a, rows_by_id b !! k = Some a ∧ approvable a = false;
}.

(** The campaigns the request loaded: those of the assets it was asked for. *)
Record batch_campaigns (s : db) (ids : list N) (cs : gmap N Campaign.t) : Prop := {
  bc_sound : ∀ k c, cs !! k = Some c → t_campaign s !! k = Some c;
  bc_complete : ∀ k a c, k ∈ ids → t_content_asset s !! k = Some a →
    t_campaign s !! ContentAsset.campaign_id a = Some c → cs !! ContentAsset.campaign_id a = Some c;
}.

Lemma batch_one_inv s user dry ids cs l b x e s1 s2 b' :
  batch_campaigns s ids cs → x ∈ ids → batch_inv s user dry ids l b →
  batch_one cs user dry b x e s1 = (s2, inr b') → batch_inv s user dry ids (l ++ [x]) b'.
Proof.
  intros [Hcs Hcomp] Hx [Hp Hr Hrest Ho Hall Hn Hd] Hrun.
  destruct (batch_one_cases _ _ _ _ _ _ _ _ _ Hrun) as [(why & det & Hj & _ & ->)|(a & c & td & Hj & Hb)].
  { split; cbn [exclude b_approved b_excluded rows_by_id]; try done.
    - rewrite fmap_app, app_assoc, Hp. done.
    - intros k. rewrite elem_of_app, list_elem_of_singleton. intros [?| ->] Hel; [by apply Hall|].
      destruct (decide (x ∈ (b_approved b).*1)) as [|Hnot]; [done|exfalso].
      destruct (judge_eligible s user x (rows_by_id b) cs e s1 Hel (Hrest x Hx Hnot)) as (a & c & td & Hacc).
      { intros a c. by apply Hcomp. }
      rewrite Hj in Hacc. discriminate Hacc. }
  apply judge_accepted in Hj as (_ & Ha & Hcamp & Happ & Hblk & (cap & Hcap) & Htd & Hadm).
  assert (∃ did, b' = approve_entry (if dry then a else set_status AssetStatus.approved a) x did (count_accepted a c b))
    as [did ->] by (destruct dry; [destruct Hb as [_ ->]|destruct Hb as (d & _ & ->)]; by eexists).
  clear Hb. split; cbn [approve_entry count_accepted b_approved b_excluded rows_by_id]; rewrite ?fmap_app; cbn [fmap list_fmap fst].
  - rewrite <- Hp. by rewrite <- !app_assoc, (Permutation_app_comm [x]).
  - intros k b'. rewrite lookup_insert_Some. intros [[<- <-]|[_ Hk]] Hb'; [|eauto].
    destruct dry; [eauto|done].
  - intros k Hk. rewrite not_elem_of_app, list_elem_of_singleton. intros [Hk' Hne]. rewrite lookup_insert_ne by done.
    by apply Hrest.
  - intros k. rewrite elem_of_app, list_elem_of_singleton. intros [?| ->]; [by apply Ho|].
    exists a, c, cap, td. split_and!; eauto.
  - intros k. rewrite !elem_of_app, !list_elem_of_singleton. intros [?| ->] ?; [left; by apply Hall|by right].
  - intros ->. apply NoDup_app. split; [auto|]. split; [|apply NoDup_singleton].
    intros k Hk ->%list_elem_of_singleton. destruct (Hd eq_refl _ Hk) as (a' & Ha' & H). simpl in Ha'. congruence.
  - intros -> k. rewrite elem_of_app, list_elem_of_singleton. intros [Hk| ->].
    + destruct (decide (k = x)) as [->|Hne]; [rewrite lookup_insert_eq; by eexists|].
      rewrite lookup_insert_ne by done. auto.
    + rewrite lookup_insert_eq. by eexists.
Qed.

(** What the loop of a real run has written: the assets it approved, and one decision for each. *)
Definition batch_entry (d : ApprovalDecisionLog.t) : N * option N :=
  (ApprovalDecisionLog.content_asset_id d, Some (ApprovalDecisionLog.id d)).
Definition by_decision_id (ds : list ApprovalDecisionLog.t) : gmap N ApprovalDecisionLog.t :=
  list_to_map ((λ d, (ApprovalDecisionLog.id d, d)) <$> ds).

Record decisions_logged (s s1 : db) (user : AppUser.t) (app : list (N * option N)) (ds : list ApprovalDecisionLog.t)
    : Prop := {
  dl_entries : app = batch_entry <$> ds;
  dl_distinct : NoDup (ApprovalDecisionLog.id <$> ds);
  dl_fresh : ∀ d, d ∈ ds → (ApprovalDecisionLog.id d < next_uuid s1)%N;
  dl_reviewer : ∀ d, d ∈ ds → ApprovalDecisionLog.reviewer_id d = AppUser.id user ∧
                              ApprovalDecisionLog.decision d = ApprovalDecision.approved;
  dl_rows : t_approval_decision_log s1 = by_decision_id ds ∪ t_approval_decision_log s;
}.

Definition approve_row (t : Z) (k : N) (app : list (N * option N)) (a : ContentAsset.t) : ContentAsset.t :=
  if bool_decide (k ∈ app.*1) then touch t (set_status AssetStatus.approved a) else a.

Record batch_written (t : Z) (s s1 : db) (user : AppUser.t) (b : batch_state) : Prop := {
  bw_assets : ∀ k, t_content_asset s1 !! k = approve_row t k (b_approved b) <$> t_content_asset s !! k;
  bw_campaigns : t_campaign s1 = t_campaign s;
  bw_log : ∃ ds, decisions_logged s s1 user (b_approved b) ds;
}.

Lemma batch_decision_run a td user e s1 r0 :
  t_content_asset s1 !! ContentAsset.id a = Some r0 →
  ∃ s2 d, batch_decision a td user e s1 = (s2, inr d) ∧
    t_content_asset s2 = <[ContentAsset.id a := touch (now e) (set_status AssetStatus.approved r0)]> (t_content_asset s1) ∧
    t_approval_decision_log s2 = <[next_uuid s1 := d]> (t_approval_decision_log s1) ∧
    t_campaign s2 = t_campaign s1 ∧ (next_uuid s1 < next_uuid s2)%N ∧
    ApprovalDecisionLog.id d = next_uuid s1 ∧ ApprovalDecisionLog.content_asset_id d = ContentAsset.id a ∧
    ApprovalDecisionLog.reviewer_id d = AppUser.id user ∧ ApprovalDecisionLog.decision d = ApprovalDecision.approved.
Proof.
  intros Hr. unfold batch_decision, record_decision, log_decision. run_pure. rewrite (bind_ok _ _ _ _ _ _ (add_row_run _ e s1)).
  unfold assign. rewrite bind_assoc. erewrite bind_ok by (apply update_row_run; exact Hr). cbv beta.
  do 2 eexists. split; [reflexivity|]. split_and!; try done. cbn. lia.
Qed.

Lemma by_decision_id_snoc ds d m :
  ApprovalDecisionLog.id d ∉ ApprovalDecisionLog.id <$> ds →
  by_decision_id (ds ++ [d]) ∪ m = <[ApprovalDecisionLog.id d := d]> (by_decision_id ds ∪ m).
Proof.
  intros Hd. unfold by_decision_id. rewrite fmap_app. cbn [fmap list_fmap]. rewrite list_to_map_snoc.
  - symmetry. apply insert_union_l.
  - rewrite <- list_fmap_compose. exact Hd.
Qed.

Lemma batch_one_written s user ids cs l b x e s1 s2 b' :
  keyed ContentAsset.t s → batch_inv s user false ids l b → batch_written (now e) s s1 user b →
  batch_one cs user false b x e s1 = (s2, inr b') → batch_written (now e) s s2 user b'.
Proof.
  intros Hkey Hinv [Hassets Hcamp (ds & [Hent Hdist Hfresh Hrev Hlog])] Hrun.
  destruct (batch_one_cases _ _ _ _ _ _ _ _ _ Hrun) as [(why & det & _ & -> & ->)|(a & c & td & Hj & d & Hd & ->)].
  { split; [done|done|]. by exists ds. }
  apply judge_accepted in Hj as (_ & Ha & _ & Happ & _).
  pose proof (bi_rows _ _ _ _ _ _ Hinv _ _ Ha Happ) as Hrow. pose proof (Hkey _ _ Hrow) as Hid. simpl in Hid.
  assert (x ∉ (b_approved b).*1) as Hnew.
  { intros Hx. destruct (bi_done _ _ _ _ _ _ Hinv eq_refl x Hx) as (a' & Ha' & Hno). congruence. }
  assert (t_content_asset s1 !! ContentAsset.id a = Some a) as Hnow.
  { rewrite Hid, Hassets, Hrow. unfold approve_row. by rewrite bool_decide_eq_false_2. }
  destruct (batch_decision_run a td user e s1 a Hnow) as (s2' & d' & Hd' & Hassets' & Hlog' & Hcamp' & Hup & Hdid & Hdc & Hdr & Hdd).
  rewrite Hd in Hd'. injection Hd' as <- <-. rewrite Hid in *.
  assert (ApprovalDecisionLog.id d ∉ ApprovalDecisionLog.id <$> ds) as Hdn.
  { rewrite Hdid. intros (d0 & Heq & Hin)%list_elem_of_fmap. specialize (Hfresh d0 Hin). lia. }
  split; cbn [approve_entry count_accepted b_approved].
  - intros k. rewrite Hassets'. unfold approve_row. rewrite fmap_app. cbn [fmap list_fmap fst].
    destruct (decide (k = x)) as [->|Hne].
    + rewrite lookup_insert_eq, Hrow. cbn. by rewrite bool_decide_eq_true_2 by (apply elem_of_app; right; left).
    + rewrite lookup_insert_ne, Hassets by done. destruct (t_content_asset s !! k); [|done]. cbn. unfold approve_row.
      assert (k ∈ (b_approved b).*1 ++ [x] ↔ k ∈ (b_approved b).*1) as Hiff.
      { rewrite elem_of_app, list_elem_of_singleton. split; [by intros [?|?]|intros ?; by left]. }
      by rewrite (bool_decide_ext _ _ Hiff).
  - congruence.
  - exists (ds ++ [d]). split.
    + rewrite Hent, fmap_app. unfold batch_entry at 3. cbn. by rewrite Hdc.
    + rewrite fmap_app. apply NoDup_app. split; [done|]. split; [|apply NoDup_singleton].
      intros i Hi Hi'%list_elem_of_singleton. by subst i.
    + intros d0. rewrite elem_of_app, list_elem_of_singleton. intros [Hin| ->]; [specialize (Hfresh d0 Hin)|]; lia.
    + intros d0. rewrite elem_of_app, list_elem_of_singleton. intros [Hin| ->]; [by apply Hrev|by split].
    + rewrite by_decision_id_snoc by done. by rewrite Hlog', Hlog, Hdid.
Qed.

Lemma batch_fold_spec s user dry ids cs l l' b e s1 s2 b' :
  keyed ContentAsset.t s → batch_campaigns s ids cs → (∀ k, k ∈ l' → k ∈ ids) →
  batch_inv s user dry ids l b → (if dry then s1 = s else batch_written (now e) s s1 user b) →
  foldM (batch_one cs user dry) b l' e s1 = (s2, inr b') →
  batch_inv s user dry ids (l ++ l') b' ∧ (if dry then s2 = s else batch_written (now e) s s2 user b').
Proof.
  intros Hkey Hcs. revert l b s1. induction l' as [|x l' IH]; intros l b s1 Hin Hinv Hw Hrun; simpl in Hrun.
  - injection Hrun as <- <-. by rewrite app_nil_r.
  - apply bind_inr in Hrun as (s3 & b1 & H1 & H2).
    pose proof (batch_one_inv _ _ _ _ _ _ _ _ _ _ _ _ Hcs (Hin x (list_elem_of_here _ _)) Hinv H1) as Hinv1.
    replace (l ++ x :: l') with ((l ++ [x]) ++ l') by (by rewrite <- app_assoc).
    refine (IH _ _ _ (λ k Hk, Hin k (list_elem_of_further _ _ _ Hk)) Hinv1 _ H2). destruct dry.
    + subst s1. by destruct (batch_one_cases _ _ _ _ _ _ _ _ _ H1) as [(? & ? & _ & -> & _)|(? & ? & ? & _ & -> & _)].
    + eapply batch_one_written; [exact Hkey|exact Hinv|exact Hw|exact H1].
Qed.

(** ** The launches after the batch *)

(** A launch schedules assets that are approved by now, of a campaign that was pending approval. *)
Definition launch_kept (l : list Campaign.t) (s s' : db) : Prop := ∀ k,
  match t_content_asset s !! k with
  | Some a => ∃ a', t_content_asset s' !! k = Some a' ∧ ContentAsset.id a' = ContentAsset.id a ∧
      (a' = a ∨ ContentAsset.status a = AssetStatus.approved ∧ ContentAsset.status a' = AssetStatus.scheduled ∧
         ∃ c, c ∈ l ∧ Campaign.status c = CampaignStatus.approval_pending ∧ ContentAsset.campaign_id a = Campaign.id c)
  | None => t_content_asset s' !! k = None
  end.

Lemma launch_kept_keyed l s s' : launch_kept l s s' → keyed ContentAsset.t s → keyed ContentAsset.t s'.
Proof.
  intros Hl Hkey k a' Ha'. specialize (Hl k). destruct (t_content_asset s !! k) as [a|] eqn:Ha; [|simpl in Ha'; congruence].
  destruct Hl as (a0 & Ha0 & Hid & _). simpl in *. rewrite Ha' in Ha0. injection Ha0 as <-. rewrite Hid. exact (Hkey k a Ha).
Qed.

Lemma launches_assets l e s s' u :
  keyed ContentAsset.t s → foreach l (λ c, _maybe_advance_to_ready_to_launch c ;; mret ()) e s = (s', inr u) →
  t_approval_decision_log s' = t_approval_decision_log s ∧ launch_kept l s s'.
Proof.
  revert s. induction l as [|c l IH]; intros s Hkey Hrun; cbn [foreach] in Hrun.
  { injection Hrun as <- _. split; [done|]. intros k. destruct (t_content_asset s !! k) as [a|]; [|done].
    exists a. auto. }
  apply bind_inr in Hrun as (s0 & [] & H1 & Hrun). apply bind_inr in H1 as (s1 & c' & H1 & Hret). apply ret_inr in Hret as [-> _].
  destruct (maybe_advance_assets _ _ _ _ _ Hkey H1) as (Hlog1 & Hsome & Hnone).
  assert (launch_kept [c] s s1) as Hl1.
  { intros k. destruct (t_content_asset s !! k) as [a|] eqn:Ha; [|by apply Hnone].
    destruct (Hsome k a Ha) as (a' & Ha' & Hc). exists a'. split; [done|].
    destruct Hc as [->|(Hof & Hcs & [])]; [by auto|]. split; [done|]. right. unfold approved_of in Hof. reflect_bools. split_and!; [done..|]. exists c. split_and!; [left|done..]. }
  destruct (IH s1 (launch_kept_keyed _ _ _ Hl1 Hkey) Hrun) as [Hlog2 Hl2]. split; [congruence|].
  intros k. specialize (Hl1 k). specialize (Hl2 k). destruct (t_content_asset s !! k) as [a|].
  - destruct Hl1 as (a1 & Ha1 & Hid1 & H1'). rewrite Ha1 in Hl2. destruct Hl2 as (a2 & Ha2 & Hid2 & H2').
    exists a2. split; [done|]. split; [congruence|].
    destruct H1' as [->|(Hs1 & Hs1' & c1 & ->%list_elem_of_singleton & Hc1)], H2' as [->|(Hs2 & Hs2' & c2 & Hin & Hc2)];
      [by left|right|right|congruence].
    + split_and!; [done..|]. exists c2. split; [by right|done].
    + split_and!; [done..|]. exists c. split; [left|done].
  - by rewrite Hl1 in Hl2.
Qed.

(** The asset's campaign was pending approval. *)
Definition pending_campaign (s : db) (a : ContentAsset.t) : Prop :=
  ∃ c, t_campaign s !! ContentAsset.campaign_id a = Some c ∧ Campaign.status c = CampaignStatus.approval_pending.

Lemma keyed_list_to_map `{Table N T} (p : T → bool) s k r : keyed T s →
  (list_to_map ((λ r, (pk r, r)) <$> List.filter p (snd <$> map_to_list (rows s))) : gmap N T) !! k = Some r ↔
  rows s !! k = Some r ∧ p r = true.
Proof.
  intros Hkey. rewrite <- elem_of_list_to_map.
  - rewrite list_elem_of_fmap. split.
    + intros (r' & [= -> ->] & Hr). by apply (select_pk_lookup p s) in Hr.
    + intros [Hk Hp]. pose proof (Hkey _ _ Hk) as <-. exists r. split; [done|]. by apply (select_pk_lookup p s).
  - rewrite <- list_fmap_compose. exact (select_pk_NoDup p s Hkey).
Qed.

Lemma batch_campaigns_loaded s ids : keyed ContentAsset.t s → keyed Campaign.t s →
  batch_campaigns s ids (list_to_map ((λ c, (Campaign.id c, c)) <$>
    List.filter (λ c, Campaign.id c ∈b (ContentAsset.campaign_id <$> assets_where (λ a, ContentAsset.id a ∈b ids) s))
      (snd <$> map_to_list (rows s)))).
Proof.
  intros Hkey Hckey. split.
  - intros k c Hk. by apply (keyed_list_to_map _ s k c Hckey) in Hk as [Hk _].
  - intros k a c Hin Ha Hc. apply (keyed_list_to_map _ s _ c Hckey). split; [done|].
    pose proof (Hckey _ _ Hc) as Hid. simpl in Hid. rewrite Hid. apply bool_decide_eq_true, list_elem_of_fmap.
    exists a. split; [done|]. apply elem_of_assets_where; [done|]. pose proof (Hkey _ _ Ha) as Hida. simpl in Hida.
    rewrite Hida. split; [done|]. by apply bool_decide_eq_true.
Qed.

Lemma batch_start s user dry ids : keyed ContentAsset.t s →
  batch_inv s user dry ids [] (empty_batch (assets_where (λ a, ContentAsset.id a ∈b ids) s)).
Proof.
  intros Hkey. split; cbn [empty_batch b_approved b_excluded rows_by_id].
  - done.
  - intros k a Hk _. by apply (keyed_list_to_map (λ a, ContentAsset.id a ∈b ids) s k a Hkey) in Hk as [Hk _].
  - intros k Hk _. apply option_eq. intros a.
    etrans; [exact (keyed_list_to_map (λ a, ContentAsset.id a ∈b ids) s k a Hkey)|]. split; [by intros [? _]|].
    intros Ha. split; [done|]. pose proof (Hkey _ _ Ha) as Hid. simpl in Hid. rewrite Hid. by apply bool_decide_eq_true.
  - intros k Hk. by apply not_elem_of_nil in Hk.
  - intros k Hk _. by apply not_elem_of_nil in Hk.
  - intros _. apply NoDup_nil_2.
  - intros _ k Hk. by apply not_elem_of_nil in Hk.
Qed.

(** C13: a batch approval answers for every id it was given exactly once, as approved or as excluded, and
    approves exactly the ids that were eligible in the database as the request found it: pending
    approval or rejected, not compliance-blocked, within the automatic approval cap and, where the
    threshold asks for an admin, sent by one. A dry run changes nothing. A real run approves no asset
    twice, however often it is listed; it logs exactly one decision for each asset it approves, by
    this reviewer, and no other; the assets it approves are approved afterwards, or already scheduled
    because their campaign was pending approval and has been launched, and every other asset is as it
    was, but for the approved ones of such a campaign, which are scheduled. *)
Theorem batch_approve_spec body user e s s' resp :
  keyed ContentAsset.t s → keyed Campaign.t s →
  batch_approve body user e s = (s', inr resp) →
  (approved resp).*1 ++ (exc_asset_id <$> excluded resp) ≡ₚ asset_ids body ∧
  (∀ k, k ∈ asset_ids body → k ∈ (approved resp).*1 ↔ batch_eligible s user k) ∧
  if dry_run body then s' = s else
    NoDup (approved resp).*1 ∧
    (∃ ds, approved resp = batch_entry <$> ds ∧ NoDup (ApprovalDecisionLog.id <$> ds) ∧
       (∀ d, d ∈ ds → ApprovalDecisionLog.reviewer_id d = AppUser.id user ∧
                      ApprovalDecisionLog.decision d = ApprovalDecision.approved) ∧
       t_approval_decision_log s' = by_decision_id ds ∪ t_approval_decision_log s) ∧
    ∀ k, match t_content_asset s !! k with
         | Some a => ∃ a', t_content_asset s' !! k = Some a' ∧
             if bool_decide (k ∈ (approved resp).*1)
             then ContentAsset.status a' = AssetStatus.approved ∨
                  ContentAsset.status a' = AssetStatus.scheduled ∧ pending_campaign s a
             else a' = a ∨ ContentAsset.status a = AssetStatus.approved ∧
                           ContentAsset.status a' = AssetStatus.scheduled ∧ pending_campaign s a
         | None => t_content_asset s' !! k = None
         end.
Proof.
  intros Hkey Hckey Hrun. unfold batch_approve in Hrun. rewrite !bind_select in Hrun.
  apply bind_inr in Hrun as (s1 & b & Hfold & Hrun). cbv zeta in *.
  set (ids := asset_ids body) in *. set (cs := list_to_map _ : gmap N Campaign.t) in *.
  assert (batch_campaigns s ids cs) as Hcs by by apply batch_campaigns_loaded.
  apply (batch_fold_spec s user (dry_run body) ids cs [] ids) in Hfold as [[Hp _ _ Ho Hall Hn _] Hw];
    [|done|done|done|by apply batch_start|destruct (dry_run body); [done|]].
  2:{ split; [|done|].
      - intros k. unfold approve_row. cbn. by destruct (t_content_asset s !! k).
      - exists []. split; try done; [apply NoDup_nil_2|by intros d Hd%not_elem_of_nil..|].
        unfold by_decision_id. cbn. by rewrite (left_id_L ∅ (∪)). }
  assert (∀ k, k ∈ ids → k ∈ (b_approved b).*1 ↔ batch_eligible s user k) as Hiff by (intros k Hk; split; auto).
  destruct (dry_run body); cbn [negb when] in Hrun; [inv_run; by split_and!|].
  apply bind_inr in Hrun as (s2 & u & Hadv & Hrun). apply ret_inr in Hrun as [-> ->].
  cbn [approved excluded]. split; [done|]. split; [done|]. split; [by apply Hn|].
  destruct Hw as [Hassets Hcamp (ds & [Hent Hdist _ Hrev Hlog])].
  assert (keyed ContentAsset.t s1) as Hkey1.
  { intros k a1 Ha1. simpl in Ha1. rewrite Hassets in Ha1. apply fmap_Some in Ha1 as (a & Ha & ->).
    pose proof (Hkey _ _ Ha) as Hid. unfold approve_row. by destruct (bool_decide _). }
  destruct (launches_assets _ _ _ _ _ Hkey1 Hadv) as [Hlog2 Hl]. split.
  { exists ds. split_and!; [done..|]. by rewrite Hlog2. }
  intros k. specialize (Hl k). rewrite Hassets in Hl. destruct (t_content_asset s !! k) as [a|] eqn:Ha; [|exact Hl].
  cbn [fmap option_fmap option_map] in Hl. destruct Hl as (a' & Ha' & _ & Hst). exists a'. split; [done|].
  assert ((∃ c, c ∈ omap (λ cid, cs !! cid) (b_campaigns b) ∧ Campaign.status c = CampaignStatus.approval_pending ∧
    ContentAsset.campaign_id (approve_row (now e) k (b_approved b) a) = Campaign.id c) → pending_campaign s a) as Hpend.
  { intros (c & Hin & Hcst & Hcid). apply list_elem_of_omap in Hin as (cid & _ & Hc).
    apply (bc_sound _ _ _ Hcs) in Hc. pose proof (Hckey _ _ Hc) as Hid. simpl in Hid. exists c. split; [|done].
    replace (ContentAsset.campaign_id a) with cid; [done|]. rewrite <- Hid, <- Hcid. unfold approve_row. by destruct (bool_decide _). }
  unfold approve_row in *. destruct (bool_decide _).
  - destruct Hst as [->|(_ & Hst & Hc)]; [by left|]. right. auto.
  - destruct Hst as [->|(Hst & Hst' & Hc)]; [by left|]. right. auto.
Qed.

(** ** The thresholds in force are those of the submission *)

Definition verdict_reason (v : verdict) : option string :=
  match v with excluded_for why _ => Some why | accepted _ _ _ => None end.

Lemma load_run aid asset c e s :
  t_content_asset s !! aid = Some asset → t_campaign s !! ContentAsset.campaign_id asset = Some c →
  _load_asset_and_campaign aid e s = (s, inr (asset, c)).
Proof.
  intros Ha Hc. unfold _load_asset_and_campaign. run_pure.
  change (rows s !! aid) with (t_content_asset s !! aid). rewrite Ha. run_pure.
  change (rows s !! ContentAsset.campaign_id asset) with (t_campaign s !! ContentAsset.campaign_id asset).
  by rewrite Hc.
Qed.

(** An asset carries the thresholds its submission snapshotted from a settings row
    ([approval_snapshot]), amounts as text; what the gates then decide is the comparison
    of the amounts themselves. A single approval by anyone below an admin is refused
    with 403, and writes nothing, exactly as the budget exceeds the row's limit in the
    campaign's currency; a batch excludes the asset for the cap, then for the role, and
    otherwise accepts it. *)
Theorem snapshot_gates aid body user rs cs asset c row t e s :
  t_content_asset s !! aid = Some asset → t_campaign s !! ContentAsset.campaign_id asset = Some c →
  rs !! aid = Some asset → cs !! ContentAsset.campaign_id asset = Some c →
  approvable asset = true → _is_compliance_blocked asset = false →
  dget "approval_threshold" (ContentAsset.extra_metadata asset) =
    Some (JObj (approval_snapshot row t)) →
  (admin_needed row c = true → AppUser.role user ≠ UserRole.admin →
     ∃ msg, request UserRole.manager user (approve_asset aid body) e s =
              (s, inl (HTTPException 403 msg))) ∧
  ∃ v, judge rs cs user aid e s = (s, inr v) ∧
    verdict_reason v =
      if cap_exceeded row c then Some "above_auto_approval_cap"
      else if admin_needed row c && (AppUser.role user !=b UserRole.admin)
           then Some "requires_admin_role" else None.
Proof.
  intros Ha Hc Hra Hcc Happ Hblk Hsnap.
  destruct (evaluate_threshold_snapshot asset row t Hsnap c e s) as (td & Htd & Hadm).
  destruct (exceeds_cap_snapshot asset row t Hsnap c e s) as (cap & Hcap). split.
  - intros Hneed Hrole. unfold request, require_role, raise_if, when.
    destruct (_ <? _); [by eexists|]. rewrite bind_assoc, !bind_ret. unfold transaction, approve_asset.
    rewrite (bind_ok _ _ _ _ _ _ (load_run _ _ _ _ _ Ha Hc)). cbn [fst snd]. cbv zeta.
    rewrite Happ, Hblk. cbn [negb]. rewrite !bind_pass.
    rewrite (bind_ok _ _ _ _ _ _ Htd), Hadm, Hneed, (bool_decide_false _ Hrole). by eexists.
  - unfold judge. rewrite Hra, Hcc, Happ, Hblk. cbn [negb]. cbv zeta.
    rewrite (bind_ok _ _ _ _ _ _ Hcap). cbn [fst].
    destruct (cap_exceeded row c); [by eexists|].
    rewrite (bind_ok _ _ _ _ _ _ Htd), Hadm. destruct (admin_needed row c && _); by eexists.
Qed.

(** ** Rejecting one asset *)

(** The tables a decision is about are left alone. *)
Definition same_core : relation db := λ s s',
  t_content_asset s' = t_content_asset s ∧ t_approval_decision_log s' = t_approval_decision_log s ∧
  t_task s' = t_task s ∧ t_campaign s' = t_campaign s.
#[export] Instance same_core_preorder : PreOrder same_core.
Proof.
  split; unfold same_core; [done|]. intros s1 s2 s3 (?&?&?&?) (?&?&?&?). split_and!; congruence.
Qed.

Lemma ensure_agent_core tid : respects same_core (ensure_content_creator_agent tid).
Proof. walk. Qed.

Lemma enqueue_asset_task_run tid aid cid sk inp at_ e s :
  enqueue_asset_task tid aid cid sk inp at_ e s =
  add_row (new_task tid aid sk inp (Some cid) None None at_ 3 5 (now e)) e s.
Proof. done. Qed.

(** The task a rejection queues. *)
Definition regenerate_task (asset : ContentAsset.t) (user : AppUser.t) (body : RejectRequest)
    (agent_id : N) (t : Z) : N → Task.t :=
  new_task (ContentAsset.tenant_id asset) agent_id "content_creator.generate_asset"
    [("asset_id", j_uuid (ContentAsset.id asset));
     ("campaign_id", j_uuid (ContentAsset.campaign_id asset));
     ("triggered_by_user_id", j_uuid (AppUser.id user));
     ("rejection_reason", JStr (reason body));
     ("rejection_category", j_enum (category body))]
    (Some (ContentAsset.campaign_id asset)) None None None 3 5 t.

Lemma rejected_guard_run c e s :
  _any_required_asset_rejected c e s =
  (s, inr (has_required s (Campaign.id c) (status_in [AssetStatus.rejected]))).
Proof. done. Qed.

(** A campaign pending approval that has a required rejected asset goes back to
    production; nothing else changes. *)
Lemma maybe_revert_effect c e s s' c' :
  _maybe_revert_to_content_in_production c e s = (s', inr c') →
  t_content_asset s' = t_content_asset s ∧
  t_approval_decision_log s' = t_approval_decision_log s ∧ t_task s' = t_task s ∧
  (Campaign.status c = CampaignStatus.approval_pending →
   has_required s (Campaign.id c) (status_in [AssetStatus.rejected]) = true →
   t_campaign s' = alter (λ r, touch (now e)
     (r <| Campaign.status := CampaignStatus.content_in_production |>)) (Campaign.id c) (t_campaign s)).
Proof.
  unfold _maybe_revert_to_content_in_production. destruct (_ !=b _) eqn:Hst.
  { intros [= <- <-]. reflect_bools. by split_and!. }
  reflect_bools. intros Hrun. inv_run. unfold try_transition, try_except, mbind, M_bind in *.
  match goal with H : context [apply campaign_sm c _ e s] |- _ => revert H end.
  unfold apply. rewrite Hst. change (sm_get _ campaign_sm) with (Some t_regenerate_after_rejection).
  cbn [guard t_regenerate_after_rejection transition].
  rewrite (bind_ok _ _ _ _ _ _ (rejected_guard_run c e s)).
  destruct (has_required s _ _).
  - intros H. injection H as <- _. by split_and!.
  - intros H. injection H as <- _. by split_and!.
Qed.

(** The steps of a rejection that succeeds. *)
Lemma reject_asset_inr aid body user e s s' d :
  reject_asset aid body user e s = (s', inr d) →
  ∃ asset c s1 s2 ag s3 c',
    t_content_asset s !! aid = Some asset ∧ t_campaign s !! ContentAsset.campaign_id asset = Some c ∧
    ContentAsset.status asset = AssetStatus.pending_approval ∧
    record_decision asset (set_status AssetStatus.rejected) asset (AppUser.id user)
      ApprovalDecision.rejected (Some (reason body)) (Some [("category", j_enum (category body))])
      "rejected" [("category", j_enum (category body))] e s = (s1, inr d) ∧
    ensure_content_creator_agent (ContentAsset.tenant_id asset) e s1 = (s2, inr ag) ∧
    s3 = (add_row (regenerate_task asset user body (Agent.id ag) (now e)) e s2).1 ∧
    _maybe_revert_to_content_in_production c e s3 = (s', inr c').
Proof.
  intros Hrun. unfold reject_asset in Hrun. inv_run.
  match goal with H : _load_asset_and_campaign _ _ _ = (_, inr ?l) |- _ =>
    destruct l as [asset c]; apply load_inr in H as (-> & Ha & Hc) end.
  cbn [fst snd] in *. reflect_bools.
  match goal with H : enqueue_asset_task _ _ _ _ _ _ _ _ = _ |- _ =>
    rewrite enqueue_asset_task_run in H; injection H as <- <- end.
  do 7 eexists. split_and!; try eassumption. reflexivity.
Qed.

(** A rejection that the API accepts was of an asset pending approval. It marks
    the asset rejected and touches no other asset, logs one rejection by the reviewer
    with the reason, and queues exactly one task: regenerate this asset, with the
    reason attached. If the asset is required and its campaign was pending approval,
    the campaign goes back to content production. *)
Theorem reject_asset_spec aid body user e s s' d :
  keyed ContentAsset.t s → keyed Campaign.t s →
  request UserRole.manager user (reject_asset aid body) e s = (s', inr d) →
  ∃ asset c task,
    t_content_asset s !! aid = Some asset ∧
    t_campaign s !! ContentAsset.campaign_id asset = Some c ∧
    ContentAsset.status asset = AssetStatus.pending_approval ∧
    t_content_asset s' =
      <[aid := touch (now e) (set_status AssetStatus.rejected asset)]> (t_content_asset s) ∧
    t_approval_decision_log s' =
      <[ApprovalDecisionLog.id d := d]> (t_approval_decision_log s) ∧
    ApprovalDecisionLog.content_asset_id d = aid ∧
    ApprovalDecisionLog.reviewer_id d = AppUser.id user ∧
    ApprovalDecisionLog.decision d = ApprovalDecision.rejected ∧
    ApprovalDecisionLog.reason d = Some (reason body) ∧
    t_task s' = <[Task.id task := task]> (t_task s) ∧
    Task.skill_name task = "content_creator.generate_asset" ∧
    Task.status task = TaskStatus.queued ∧
    dget "asset_id" (Task.input_data task) = Some (j_uuid aid) ∧
    dget "rejection_reason" (Task.input_data task) = Some (JStr (reason body)) ∧
    (ContentAsset.is_required asset = true →
     Campaign.status c = CampaignStatus.approval_pending →
     t_campaign s' !! Campaign.id c =
       Some (touch (now e) (c <| Campaign.status := CampaignStatus.content_in_production |>))).
Proof.
  intros Hkey Hckey [_ Hrun]%request_inr.
  apply reject_asset_inr in Hrun as
    (asset & c & s1 & s2 & ag & ? & c' & Ha & Hc & Hst & Hrec & Hag & -> & Hrev).
  pose proof (Hkey _ _ Ha) as Hida. simpl in Hida.
  destruct (record_decision_run asset (set_status AssetStatus.rejected) asset
    (AppUser.id user) ApprovalDecision.rejected (Some (reason body))
    (Some [("category", j_enum (category body))]) "rejected" [("category", j_enum (category body))]
    e s asset) as (s1' & d' & Hrec' & Hassets & Hlog & Hcamp & Htask & Hd); [by rewrite Hida|].
  rewrite Hrec in Hrec'. injection Hrec' as <- <-. rewrite Hida in *.
  destruct (respects_run same_core _ _ _ _ _ (ensure_agent_core _) Hag) as (Ea & Ed & Et & Ec).
  destruct (maybe_revert_effect _ _ _ _ _ Hrev) as (Ra & Rd & Rt & Rc).
  set (task := regenerate_task asset user body (Agent.id ag) (now e) (next_uuid s2)).
  set (s3 := (add_row _ e s2).1) in *.
  exists asset, c, task. rewrite Ra, Rd, Rt, Hd. split_and!; try done.
  - change (t_content_asset s3) with (t_content_asset s2). by rewrite Ea, Hassets.
  - change (t_approval_decision_log s3) with (t_approval_decision_log s2). by rewrite Ed, Hlog, Hd.
  - rewrite <- Htask, <- Et. done.
  - simpl. by rewrite Hida.
  - intros Hreq Hcs. rewrite Rc; [|done|].
    + rewrite lookup_alter_eq. change (t_campaign s3) with (t_campaign s2).
      pose proof (Hckey _ _ Hc) as Hidc. simpl in Hidc. by rewrite Ec, Hcamp, Hidc, Hc.
    + apply has_required_true. exists aid, (touch (now e) (set_status AssetStatus.rejected asset)).
      change (t_content_asset s3) with (t_content_asset s2). rewrite Ea, Hassets, lookup_insert_eq.
      pose proof (Hckey _ _ Hc) as Hidc. by split_and!.
Qed.

(** ** Driving the campaign forward *)

Lemma submit_keyed c e s s' c' :
  keyed ContentAsset.t s → apply campaign_sm c "submit_for_approval" e s = (s', inr c') →
  keyed ContentAsset.t s'.
Proof.
  intros Hkey Hrun. destruct (submit_effect _ _ _ _ _ Hkey Hrun) as (_ & _ & _ & _ & Heff).
  intros k a Ha. change (t_content_asset s' !! k = Some a) in Ha. rewrite Heff in Ha.
  apply fmap_Some in Ha as (a0 & Ha0 & ->). apply Hkey in Ha0. unfold submit_asset.
  by destruct (drafted_required _ a0).
Qed.

(** The two steps of the advance. *)
Lemma try_submit_inr c e s s' b c' :
  keyed ContentAsset.t s →
  (if Campaign.status c ==b CampaignStatus.content_in_production
   then try_transition "submit_for_approval" c else mret (true, c)) e s = (s', inr (b, c')) →
  (b = false ∧ s' = s ∧ c' = c) ∨
  (b = true ∧ s' = s ∧ c' = c ∧ Campaign.status c ≠ CampaignStatus.content_in_production) ∨
  (b = true ∧ c' = c <| Campaign.status := CampaignStatus.approval_pending |> ∧
   Campaign.status c = CampaignStatus.content_in_production ∧ keyed ContentAsset.t s').
Proof.
  intros Hkey. destruct (_ ==b _) eqn:E; reflect_bools.
  - intros [[Hb Hap]|[[= -> ->] ->]]%try_transition_inr; [|by left|done]. cbn [fst snd] in Hb, Hap.
    subst b. right; right. pose proof (submit_keyed _ _ _ _ _ Hkey Hap).
    apply apply_inr in Hap as (tr & s1 & s2 & Htr & _ & -> & _). by find_transition Htr.
  - intros [= <- <- <-]. right; left. done.
Qed.

Lemma try_launch_inr c e s s' b c' :
  keyed ContentAsset.t s →
  (if Campaign.status c ==b CampaignStatus.approval_pending
   then try_transition "start_launch" c else mret (true, c)) e s = (s', inr (b, c')) →
  (b = false ∧ s' = s ∧ c' = c) ∨
  (b = true ∧ s' = s ∧ c' = c ∧ Campaign.status c ≠ CampaignStatus.approval_pending) ∨
  (b = true ∧ c' = c <| Campaign.status := CampaignStatus.ready_to_launch |> ∧
   Campaign.status c = CampaignStatus.approval_pending ∧
   has_required s' (Campaign.id c) (λ _, true) = true ∧
   ∀ k a, t_content_asset s' !! k = Some a → ContentAsset.campaign_id a = Campaign.id c →
     ContentAsset.is_required a = true →
     ContentAsset.status a = AssetStatus.scheduled ∧ is_Some (ContentAsset.scheduled_at a)).
Proof.
  intros Hkey. destruct (_ ==b _) eqn:E; reflect_bools.
  - intros [[Hb Hap]|[[= -> ->] ->]]%try_transition_inr; [|by left|done]. cbn [fst snd] in Hb, Hap.
    subst b. right; right. destruct (start_launch_effect _ _ _ _ _ Hkey Hap) as (H1 & H2 & H3 & H4 & _).
    by split_and!.
  - intros [= <- <- <-]. right; left. done.
Qed.

(** After a decision outside the API the campaign advances as far as its guards
    allow and no further. Either nothing happens at all; or it was only submitted; or it
    is ready to launch, and then it has a required asset and every required asset of it
    is scheduled with a slot. The caller is told [ready_to_launch] exactly when the
    campaign is. *)
Theorem auto_advance_spec c e s s' r c' :
  keyed ContentAsset.t s → try_advance_after_approval c e s = (s', inr (r, c')) →
  (r = Some "ready_to_launch" ↔ r ≠ None) ∧
  (r ≠ None → Campaign.status c' = CampaignStatus.ready_to_launch) ∧
  ((s' = s ∧ c' = c) ∨
   (r = None ∧ Campaign.status c = CampaignStatus.content_in_production ∧
    c' = c <| Campaign.status := CampaignStatus.approval_pending |>) ∨
   (r ≠ None ∧ c' = c <| Campaign.status := CampaignStatus.ready_to_launch |> ∧
    has_required s' (Campaign.id c) (λ _, true) = true ∧
    ∀ k a, t_content_asset s' !! k = Some a → ContentAsset.campaign_id a = Campaign.id c →
      ContentAsset.is_required a = true →
      ContentAsset.status a = AssetStatus.scheduled ∧ is_Some (ContentAsset.scheduled_at a))).
Proof.
  intros Hkey Hrun. unfold try_advance_after_approval in Hrun.
  apply bind_inr in Hrun as (s1 & [b1 c1] & H1 & Hrun). cbv zeta in Hrun. cbn [fst snd] in Hrun.
  apply (try_submit_inr _ _ _ _ _ _ Hkey) in H1 as
    [(-> & -> & ->)|[(-> & -> & -> & Hst)|(-> & -> & Hst & Hkey1)]].
  - injection Hrun as <- <- <-. naive_solver.
  - cbn [negb] in Hrun. apply bind_inr in Hrun as (s2 & [b2 c2] & H2 & Hrun).
    apply (try_launch_inr _ _ _ _ _ _ Hkey) in H2 as
      [(-> & -> & ->)|[(-> & -> & -> & Hst2)|(-> & -> & Hst2 & Hreq & Hall)]]; cbn [fst snd negb] in Hrun.
    + injection Hrun as <- <- <-. naive_solver.
    + destruct (_ ==b _) eqn:E; injection Hrun as <- <- <-; reflect_bools; rewrite ?E; naive_solver.
    + rewrite bool_decide_true in Hrun by done. injection Hrun as <- <- <-.
      split; [done|]. split; [done|]. right; right. by split_and!.
  - cbn [negb] in Hrun. apply bind_inr in Hrun as (s2 & [b2 c2] & H2 & Hrun).
    apply (try_launch_inr _ _ _ _ _ _ Hkey1) in H2 as
      [(-> & -> & ->)|[(-> & -> & -> & Hst2)|(-> & -> & Hst2 & Hreq & Hall)]]; cbn [fst snd negb] in Hrun.
    + injection Hrun as <- <- <-. split; [done|]. split; [done|]. right; left. done.
    + done.
    + rewrite bool_decide_true in Hrun by done. injection Hrun as <- <- <-.
      split; [done|]. split; [done|]. right; right. by split_and!.
Qed.

(** ** What the other paths leave out *)

(** Under review: an asset over the admin threshold, and one the compliance check
    blocked. *)
Definition over_threshold : jdict :=
  [("approval_threshold", JObj (approval_snapshot (Some (sample_settings (Some 5000) 1000)) 0))].
Definition blocked_md : jdict :=
  [("compliance", JObj [("blocked", JBool true);
                        ("flags", JList [JObj [("severity", JStr "blocker")]])])].

Definition review_db (md : jdict) : db :=
  sample_db (sample_campaign CampaignStatus.approval_pending)
    [sample_asset 11 AssetType.email AssetStatus.pending_approval md].

Definition plain_approval : ApproveRequest :=
  {| edited_content := None; edited_fields := None; note := None |}.

Definition is_forbidden (x : option exn) : bool :=
  match x with Some (HTTPException 403 _) => true | _ => false end.

(** The review page has no admin threshold. On the same database and with the same
    manager, the API refuses the approval of an asset whose budget is over the
    threshold, and the page's form approves it and launches the campaign. *)
Theorem review_page_skips_threshold :
  let manager := sample_user UserRole.manager in
  let s := review_db over_threshold in
  is_forbidden (run_exn (request UserRole.manager manager (approve_asset 11 plain_approval)
                           (demo_env 5) s)) = true ∧
  (result_kind <$> run_val (request UserRole.manager manager (approve_via_ui 11 [])
                              (demo_env 5) s)) = Some "success" ∧
  (ContentAsset.status <$> t_content_asset
     (run_db (request UserRole.manager manager (approve_via_ui 11 []) (demo_env 5) s)) !! 11%N)
    = Some AssetStatus.scheduled.
Proof. vm_compute. by split_and!. Qed.

Lemma try_transition_decisions n c :
  n ≠ "complete_campaign" → respects same_decisions (try_transition n c).
Proof.
  intros Hn. unfold try_transition. apply (respects_try same_decisions).
  - respects_auto. by apply apply_same_decisions.
  - intros x k Hk. destruct x; try discriminate; injection Hk as <-; respects_auto.
Qed.

Lemma try_advance_decisions c : respects same_decisions (try_advance_after_approval c).
Proof. unfold try_advance_after_approval. respects_auto; by apply try_transition_decisions. Qed.

Lemma assistant_approve_decisions user k : respects same_decisions (Assistant.approve_asset user k).
Proof.
  unfold Assistant.approve_asset, _require_role, find_asset, has_blocker_flag, advance_campaign_of.
  respects_auto; apply try_advance_decisions.
Qed.

Lemma approve_all_decisions user c b : respects same_decisions (approve_all_content user c b).
Proof.
  unfold approve_all_content, _require_role, _find_campaign. respects_auto; apply try_advance_decisions.
Qed.

(** The assistant's approvals leave no decision in the log, whatever the request,
    the user and the campaign. *)
Theorem assistant_logs_no_decision user asset_id campaign confirm e s :
  t_approval_decision_log (Assistant.approve_asset user asset_id e s).1
    = t_approval_decision_log s ∧
  t_approval_decision_log (approve_all_content user campaign confirm e s).1
    = t_approval_decision_log s.
Proof.
  split; [apply assistant_approve_decisions|apply approve_all_decisions].
Qed.

(** The assistant looks for the compliance verdict where the content creator does
    not write it: it approves an asset that carries the blocked verdict, which the API
    and the review page refuse. *)
Theorem assistant_approves_blocked :
  let manager := sample_user UserRole.manager in
  let s := review_db blocked_md in
  (∃ msg, run_exn (request UserRole.manager manager (approve_asset 11 plain_approval) (demo_env 5) s)
     = Some (HTTPException 422 msg)) ∧
  (result_kind <$> run_val (request UserRole.manager manager (approve_via_ui 11 [])
                              (demo_env 5) s)) = Some "danger" ∧
  is_Some (run_val (Assistant.approve_asset manager (uuid_str 11) (demo_env 5) s)).
Proof. vm_compute. split_and!; [by eexists|done|by eexists]. Qed.

(** ** The theorems at concrete inputs *)

Lemma approve_asset_spec_witness :
  let admin := sample_user UserRole.admin in
  let s := review_db over_threshold in
  ∃ s' d a', request UserRole.manager admin (approve_asset 11 plain_approval) (demo_env 5) s
               = (s', inr d) ∧
    t_content_asset s' !! 11%N = Some a' ∧ ApprovalDecisionLog.reviewer_id d = 30%N.
Proof.
  intros admin s.
  destruct (run_returns (request UserRole.manager admin (approve_asset 11 plain_approval)) (demo_env 5) s)
    as (s' & d & Hrun); [by vm_compute|].
  destruct (approve_asset_spec 11 plain_approval admin (demo_env 5) s s' d (sample_db_keyed _ _) Hrun)
    as (asset & c & td & a' & _ & _ & _ & _ & _ & _ & _ & _ & _ & Hrv & _ & Ha' & _).
  exists s', d, a'. by split_and!.
Defined.

Lemma snapshot_gates_witness :
  let s := review_db over_threshold in
  let asset := sample_asset 11 AssetType.email AssetStatus.pending_approval over_threshold in
  let c := sample_campaign CampaignStatus.approval_pending in
  ∃ v, judge {[ 11%N := asset ]} {[ 10%N := c ]} (sample_user UserRole.manager) 11 (demo_env 5) s
         = (s, inr v) ∧ verdict_reason v = Some "above_auto_approval_cap".
Proof.
  intros s asset c.
  destruct (snapshot_gates 11 plain_approval (sample_user UserRole.manager) {[ 11%N := asset ]}
    {[ 10%N := c ]} asset c (Some (sample_settings (Some 5000) 1000)) 0 (demo_env 5) s
    eq_refl eq_refl (lookup_singleton_eq _ _) (lookup_singleton_eq _ _) eq_refl eq_refl eq_refl)
    as [_ (v & Hv & Hr)].
  exists v. split; [exact Hv|]. by rewrite Hr.
Defined.

Definition cap_md : jdict :=
  [("approval_threshold", JObj (approval_snapshot (Some (sample_settings None 200000)) 0))].

Lemma batch_dry_run_predicts_witness :
  let admin := sample_user UserRole.admin in
  ∃ s' resp resp0, NoDup [11%N; 12%N] ∧
    batch_approve {| asset_ids := [11%N; 12%N]; dry_run := false |} admin (demo_env 5)
      (review_db cap_md) = (s', inr resp) ∧
    batch_approve {| asset_ids := [11%N; 12%N]; dry_run := true |} admin (demo_env 5)
      (review_db cap_md) = (review_db cap_md, inr resp0) ∧
    (approved resp0).*1 = (approved resp).*1.
Proof.
  intros admin. assert (NoDup [11%N; 12%N]) as Hnd by by apply (bool_decide_eq_true_1 (NoDup _)).
  destruct (run_returns (batch_approve {| asset_ids := [11%N; 12%N]; dry_run := false |} admin)
    (demo_env 5) (review_db cap_md)) as (s' & resp & Hrun); [by vm_compute|].
  destruct (batch_dry_run_predicts _ _ _ _ _ _ Hnd Hrun) as (resp0 & H0 & Happ & _).
  exists s', resp, resp0. by split_and!.
Defined.

Lemma batch_approve_spec_witness :
  let admin := sample_user UserRole.admin in
  let body := {| asset_ids := [11%N; 11%N; 12%N]; dry_run := false |} in
  ∃ s' resp, batch_approve body admin (demo_env 5) (review_db cap_md) = (s', inr resp) ∧
    (approved resp).*1 ++ (exc_asset_id <$> excluded resp) ≡ₚ [11%N; 11%N; 12%N] ∧
    (approved resp).*1 = [11%N] ∧ batch_eligible (review_db cap_md) admin 11 ∧
    size (t_approval_decision_log s') = 1%nat.
Proof.
  intros admin body.
  destruct (run_returns (batch_approve body admin) (demo_env 5) (review_db cap_md))
    as (s' & resp & Hrun); [by vm_compute|].
  assert (keyed Campaign.t (review_db cap_md)) as Hc.
  { apply map_Forall_insert_2; [done|]. apply map_Forall_empty. }
  destruct (batch_approve_spec _ _ _ _ _ _ (sample_db_keyed _ _) Hc Hrun) as (Hperm & Hiff & _).
  assert (run_val (batch_approve body admin (demo_env 5) (review_db cap_md)) = Some resp) as Hr by by rewrite Hrun.
  assert ((λ r, (approved r).*1) <$> run_val (batch_approve body admin (demo_env 5) (review_db cap_md)) = Some [11%N])
    as Happ by by vm_compute.
  rewrite Hr in Happ. injection Happ as Happ.
  assert (size (t_approval_decision_log (run_db (batch_approve body admin (demo_env 5) (review_db cap_md)))) = 1%nat)
    as Hsize by by vm_compute.
  rewrite Hrun in Hsize. exists s', resp. split_and!; [exact Hrun|exact Hperm|exact Happ| |exact Hsize].
  apply (Hiff 11%N); [left|]. rewrite Happ. left.
Defined.

Lemma reject_asset_spec_witness :
  let body := {| reason := "off voice"; category := ApprovalRejectionCategory.off_voice |} in
  let manager := sample_user UserRole.manager in
  ∃ s' d task, request UserRole.manager manager (reject_asset 11 body) (demo_env 5) (review_db [])
                 = (s', inr d) ∧
    t_task s' = {[ Task.id task := task ]} ∧ Task.status task = TaskStatus.queued.
Proof.
  intros body manager.
  destruct (run_returns (request UserRole.manager manager (reject_asset 11 body)) (demo_env 5)
    (review_db [])) as (s' & d & Hrun); [by vm_compute|].
  assert (keyed Campaign.t (review_db [])) as Hc.
  { apply map_Forall_insert_2; [done|]. apply map_Forall_empty. }
  destruct (reject_asset_spec _ _ _ _ _ _ _ (sample_db_keyed _ _) Hc Hrun)
    as (asset & c & task & _ & _ & _ & _ & _ & _ & _ & _ & _ & Ht & _ & Hq & _).
  exists s', d, task. by split_and!.
Defined.

Lemma auto_advance_spec_witness :
  let c := sample_campaign CampaignStatus.approval_pending in
  ∃ s' c', try_advance_after_approval c (demo_env 5) launch_db = (s', inr (Some "ready_to_launch", c')) ∧
    Campaign.status c' = CampaignStatus.ready_to_launch.
Proof.
  intros c. destruct (run_returns (try_advance_after_approval c) (demo_env 5) launch_db)
    as (s' & [r c'] & Hrun); [by vm_compute|].
  assert (r = Some "ready_to_launch") as ->.
  { apply (f_equal run_val) in Hrun. vm_compute in Hrun. by injection Hrun. }
  destruct (auto_advance_spec c (demo_env 5) launch_db s' _ c' (sample_db_keyed _ _) Hrun)
    as (_ & Hready & _).
  exists s', c'. split; [done|]. by apply Hready.
Defined.
