(* ===== verification/CampaignProofs.v ===== *)
(** * The campaign endpoints, proved

    Editing keeps a campaign well formed, the emergency pause stops its work, and clearing a
    compliance block clears it for every check. *)

From S2P Require Export LaunchProofs Approvals Campaigns.
Local Open Scope Z_scope.

(** ** Editing *)

Lemma get_campaign_inr k e s s' c :
  get_campaign k e s = (s', inr c) → s' = s ∧ t_campaign s !! k = Some c.
Proof.
  unfold get_campaign. rewrite bind_get_row. change (rows (R:=Campaign.t) s) with (t_campaign s).
  destruct (t_campaign s !! k); [|done]. by intros [= <- <-].
Qed.

Lemma raise_if_inr' b x e s s' u : raise_if b x e s = (s', inr u) → b = false ∧ s' = s.
Proof. apply raise_if_inr. Qed.

Lemma patched_dates b c c' :
  patched b c = Some c' →
  attr (cp_start_date b) (Campaign.start_date c) = Some (Campaign.start_date c') ∧
  attr (cp_end_date b) (Campaign.end_date c) = Some (Campaign.end_date c').
Proof.
  unfold patched. intros H. repeat (apply bind_Some in H as (? & ? & H)). by injection H as <-.
Qed.

(** What a patch cannot touch. *)
Lemma patched_frame b c c' :
  patched b c = Some c' →
  Campaign.id c' = Campaign.id c ∧ Campaign.tenant_id c' = Campaign.tenant_id c ∧
  Campaign.status c' = Campaign.status c ∧ Campaign.owner_id c' = Campaign.owner_id c ∧
  Campaign.updated_at c' = Campaign.updated_at c.
Proof.
  unfold patched. intros H. repeat (apply bind_Some in H as (? & ? & H)). by injection H as <-.
Qed.

(** One row of the audit trail was added, with [before] and [after]. *)
Definition logged (s s' : db) (action : string) (before after : option jdict) : Prop :=
  ∃ k row, t_audit_log s' = <[k := row]> (t_audit_log s) ∧ AuditLog.action row = action ∧
    AuditLog.before_state row = before ∧ AuditLog.after_state row = after.

Lemma audit_logged tid ek eid act b a md e s s' u :
  audit tid ek eid act b a md e s = (s', inr u) →
  logged s s' act b a ∧ t_campaign s' = t_campaign s ∧ t_task s' = t_task s ∧
  t_content_asset s' = t_content_asset s.
Proof. intros [= <- _]. split; [|done]. by eexists _, _. Qed.

(** An edit that is answered was of a campaign before its launch. With no field set it
    writes nothing. Otherwise the campaign's dates are in order afterwards, the fields that were
    not set, its status, tenant and owner are as they were, no other campaign changes, and one
    audit row keeps it as it was and as it became. *)
Theorem patch_campaign_spec k body user e s s' c' :
  (∀ i c, t_campaign s !! i = Some c → Campaign.id c = i) →
  patch_campaign k body user e s = (s', inr c') →
  ∃ c, t_campaign s !! k = Some c ∧ Campaign.status c ∈ _EDITABLE_STATES ∧
    if bool_decide (patched_fields body = []) then s' = s ∧ c' = c
    else patched body c = Some (c' <| Campaign.updated_at := Campaign.updated_at c |>) ∧
      Campaign.start_date c' <= Campaign.end_date c' ∧ Campaign.status c' = Campaign.status c ∧
      Campaign.tenant_id c' = Campaign.tenant_id c ∧ Campaign.owner_id c' = Campaign.owner_id c ∧
      t_campaign s' = <[k := c']> (t_campaign s) ∧
      logged s s' "updated" (Some (column_snapshot c)) (Some (column_snapshot c')).
Proof.
  intros Hkey H. unfold patch_campaign in H.
  apply bind_inr in H as (s1 & c & [-> Hc]%get_campaign_inr & H). exists c. split; [done|].
  apply bind_inr in H as (s1 & ? & [Hst ->]%raise_if_inr' & H).
  apply negb_false_iff, bool_decide_eq_true in Hst. split; [done|].
  destruct (patched_fields body ==b []); [by injection H as <- <-|].
  apply bind_inr in H as (s1 & ? & Hd & H). rewrite bind_asks in H.
  destruct (patched body c) as [new|] eqn:Hp; [|done].
  destruct (patched_dates _ _ _ Hp) as [E1 E2]. rewrite E1, E2 in Hd.
  apply raise_if_inr' in Hd as [Hd ->]. apply Z.ltb_ge in Hd.
  destruct (patched_frame _ _ _ Hp) as (Hid & Ht & Hs & Ho & Hup).
  apply bind_inr in H as (s1 & after & Ha & H).
  assert (rows (R:=Campaign.t) s !! pk c = Some c) as Hc' by (cbn; by rewrite (Hkey _ _ Hc)).
  apply (assign_inr c _ e s s1 after c Hc') in Ha as [-> ->].
  apply bind_inr in H as (s2 & ? & Hau & H). injection H as <- <-.
  apply audit_logged in Hau as ((i & row & Hlog & Hact & Hb & Haf) & Hcam & _). cbn in Hlog, Hcam.
  split_and!; try done.
  - rewrite <- Hup. by destruct new.
  - rewrite Hcam. by rewrite (Hkey _ _ Hc).
  - by exists i, row.
Qed.

(** ** The emergency pause *)

Lemma or_409_inr {A} prefix (m : M A) e s s' a : or_409 prefix m e s = (s', inr a) ↔ m e s = (s', inr a).
Proof. unfold or_409, try_except. destruct (m e s) as [s1 [[]|x]]; try done. Qed.

Lemma pause_transition st tr :
  sm_get (st, "pause") campaign_sm = Some tr →
  st ∈ [CampaignStatus.live; CampaignStatus.optimising; CampaignStatus.ready_to_launch] ∧
  to_state tr = CampaignStatus.paused ∧ StateMachine.guard tr = None ∧ on_enter tr = Some _cancel_queued_on_pause.
Proof.
  intros (Hin & <- & Hn)%campaign_sm_get.
  repeat (apply elem_of_cons in Hin as [->|Hin]; [first [discriminate Hn | split_and!; try done; by apply (bool_decide_unpack _)]|]).
  by apply not_elem_of_nil in Hin.
Qed.

Lemma move_run c tr e s s' c' :
  t_campaign s !! Campaign.id c = Some c → move c tr e s = (s', inr c') →
  t_campaign s' = <[Campaign.id c := c <| Campaign.status := to_state tr |> <| Campaign.updated_at := now e |>]>
    (t_campaign s) ∧ t_task s' = t_task s.
Proof.
  intros Hc H. unfold move in H. apply bind_inr in H as (s1 & c1 & Ha & H).
  assert (rows (R:=Campaign.t) s !! pk c = Some c) as Hc' by exact Hc.
  apply (assign_inr c _ e s s1 c1 c Hc') in Ha as [-> ->].
  apply bind_inr in H as (s2 & ? & Hau & H). injection H as <- <-.
  apply audit_logged in Hau as (_ & -> & -> & _). done.
Qed.

(** C18: pausing a campaign. Only a live, optimising or scheduled campaign is paused; it is the
    only campaign that changes. Every task of it that was waiting is cancelled, the tasks that
    run and those of other campaigns are as they were, the answer counts the cancelled ones, and
    no worker can claim a task of the campaign afterwards. *)
Theorem pause_campaign_spec k reason user e s s' r :
  (∀ i c, t_campaign s !! i = Some c → Campaign.id c = i) → rows_ok task_ok s →
  pause_campaign_endpoint k reason user e s = (s', inr r) →
  ∃ c, t_campaign s !! k = Some c ∧
    Campaign.status c ∈ [CampaignStatus.live; CampaignStatus.optimising; CampaignStatus.ready_to_launch] ∧
    t_campaign s' = <[k := c <| Campaign.status := CampaignStatus.paused |> <| Campaign.updated_at := now e |>]>
      (t_campaign s) ∧ p_status r = CampaignStatus.paused ∧
    let waiting t := (Task.campaign_id t ==b Some k) && is_queued t in
    p_cancelled_tasks r = Z.of_nat (length (List.filter waiting (snd <$> map_to_list (t_task s)))) ∧
    (∀ i t, t_task s !! i = Some t → ∃ t', t_task s' !! i = Some t' ∧
       if waiting t then Task.status t' = TaskStatus.cancelled else t' = t) ∧
    ∀ locked w l e2 s2 t, claim_next locked w l e2 s' = (s2, inr (Some t)) → Task.campaign_id t ≠ Some k.
Proof.
  intros Hkey Hok H. unfold pause_campaign_endpoint in H.
  apply bind_inr in H as (s1 & c & [-> Hc]%get_campaign_inr & H). exists c. split; [done|].
  pose proof (Hkey _ _ Hc) as Hid. rewrite bind_select in H.
  apply bind_inr in H as (s1 & c1 & Hp & H). apply or_409_inr in Hp.
  apply apply_inr in Hp as (tr & sg & sm & Htr & Hg & -> & Hmove & Hen).
  apply pause_transition in Htr as (Hst & Hto & Hgn & Hon). rewrite Hgn in Hg. subst sg.
  rewrite Hon in Hen. destruct Hen as (u & Hen).
  assert (t_campaign s !! Campaign.id c = Some c) as Hc' by by rewrite Hid.
  destruct (move_run _ _ _ _ _ _ Hc' Hmove) as [Hcam Htask]. rewrite Hto, Hid in Hcam.
  cbn [Campaign.id] in Hen. apply bind_inr in Hen as (s1' & n & Hcan & Hu). injection Hu as ->.
  change (Campaign.id (c <| Campaign.status := to_state tr |>)) with (Campaign.id c) in Hcan. rewrite Hid in *.
  apply bind_inr in H as (s3 & ? & Hau & H). injection H as <- <-.
  apply audit_logged in Hau as (_ & Hcam3 & Htask3 & _).
  assert (rows_ok task_ok sm) as Hokm.
  { unfold rows_ok in *. change (rows (R:=Task.t)) with t_task in *. by rewrite Htask. }
  destruct (cancel_queued_spec k e sm Hokm) as (s2 & n2 & Hcan2 & Hrows & _ & _).
  rewrite Hcan in Hcan2. injection Hcan2 as <- <-. change (rows (R:=Task.t)) with t_task in Hrows.
  split; [done|]. split; [by rewrite Hcam3, <- Hcam; injection Hcan as <- _|].
  split; [by rewrite <- Hto|]. split; [done|].
  assert (∀ i t, t_task s !! i = Some t → ∃ t', t_task s3 !! i = Some t' ∧
       if (Task.campaign_id t ==b Some k) && is_queued t then Task.status t' = TaskStatus.cancelled else t' = t) as Htasks.
  { intros i t Ht. rewrite <- Htask in Ht. destruct (Hrows i t Ht) as (t' & Ht' & Hcase).
    exists t'. rewrite Htask3. split; [done|]. destruct (_ && _); tauto. }
  split; [exact Htasks|]. intros locked w l e2 s4 t Hcl Hk.
  assert (rows_ok task_ok s1) as Hok1.
  { pose proof (update_where_ok task_ok (λ r, (Task.campaign_id r ==b Some k) && is_queued r)
      (cancel_values (now e))) as Hup. injection Hcan as <- _. apply Hup; [intros; eauto with mas|done]. }
  assert (rows_ok task_ok s3) as Hok3.
  { unfold rows_ok in *. change (rows (R:=Task.t)) with t_task in *. by rewrite Htask3. }
  apply claim_next_status in Hcl as (t0 & Ht0 & Hq & Hct); [|done].
  change (rows (R:=Task.t)) with t_task in Ht0. rewrite Htask3 in Ht0.
  injection Hcan as <- _. cbn in Ht0. apply lookup_fmap_Some in Ht0 as (t1 & <- & _).
  destruct (Task.campaign_id t1 ==b Some k) eqn:E; cbn in *.
  - destruct (is_queued t1) eqn:Eq; cbn in *; [done|congruence].
  - apply bool_decide_eq_false in E. congruence.
Qed.

(** ** Clearing a compliance block *)

(** Clearing a compliance block needs one, and afterwards none of the checks sees one, neither
    that of the approval endpoints nor that of the submission guard; the hits and every other
    entry of the metadata stay, the user is recorded, nothing else of the asset and no other
    asset changes, and one audit row keeps it as it was and as it became. *)
Theorem clear_compliance_spec k user e s s' a' :
  (∀ i a, t_content_asset s !! i = Some a → ContentAsset.id a = i) →
  clear_compliance_block k user e s = (s', inr a') →
  ∃ a, t_content_asset s !! k = Some a ∧ _is_compliance_blocked a = true ∧
    _is_compliance_blocked a' = false ∧ compliance_blocked_sql a' = false ∧
    t_content_asset s' = <[k := touch (now e) a']> (t_content_asset s) ∧
    a' <| ContentAsset.extra_metadata := ContentAsset.extra_metadata a |> = a ∧
    (∀ key, key ≠ "compliance" →
       dget key (ContentAsset.extra_metadata a') = dget key (ContentAsset.extra_metadata a)) ∧
    (∃ old new, dget "compliance" (ContentAsset.extra_metadata a) = Some (JObj old) ∧
       dget "compliance" (ContentAsset.extra_metadata a') = Some (JObj new) ∧
       dget "cleared_by_user_id" new = Some (j_uuid (AppUser.id user)) ∧
       ∀ key, key ≠ "blocked" → key ≠ "cleared_by_user_id" → dget key new = dget key old) ∧
    logged s s' "compliance_cleared" (Some (column_snapshot a)) (Some (column_snapshot a')).
Proof.
  intros Hkey H. unfold clear_compliance_block in H. apply bind_inr in H as (s1 & a & Hg & H).
  unfold get_content_asset in Hg. rewrite bind_get_row in Hg.
  change (rows (R:=ContentAsset.t) s) with (t_content_asset s) in Hg.
  destruct (t_content_asset s !! k) as [a0|] eqn:Ha; [|done]. injection Hg as <- <-. exists a0. split; [done|].
  unfold _is_compliance_blocked at 1.
  destruct (dget "compliance" (ContentAsset.extra_metadata a0)) as [v|] eqn:Hc; [|done].
  destruct v as [| | | | | |old]; try done. cbn [as_obj] in H |- *.
  apply bind_inr in H as (s1 & ? & [Hb ->]%raise_if_inr' & H). apply negb_false_iff in Hb.
  apply bind_inr in H as (s1 & after & Has & H).
  assert (rows (R:=ContentAsset.t) s !! pk a0 = Some a0) as Ha' by (cbn; by rewrite (Hkey _ _ Ha)).
  apply (assign_inr a0 _ e s s1 after a0 Ha') in Has as [-> ->].
  apply bind_inr in H as (s2 & n & [_ ->]%of_sum_inr & H).
  apply bind_inr in H as (s2 & ? & Hau & H). injection H as <- <-.
  apply audit_logged in Hau as ((i & row & Hlog & Hact & Hbf & Haf) & _ & _ & Hass).
  assert (dget "compliance" (ContentAsset.extra_metadata (cleared user old a0)) =
    Some (JObj (dset "cleared_by_user_id" (j_uuid (AppUser.id user)) (dset "blocked" (JBool false) old)))) as Hnew
    by apply dget_dset_eq.
  assert (∀ x, dget "blocked" (dset "cleared_by_user_id" x (dset "blocked" (JBool false) old)) = Some (JBool false))
    as Hbl by (intros y; rewrite dget_dset_ne by done; apply dget_dset_eq).
  split; [done|]. split_and!.
  - unfold _is_compliance_blocked. rewrite Hnew. cbn [as_obj]. by rewrite Hbl.
  - unfold compliance_blocked_sql. cbn [jget]. rewrite Hnew. cbn [jget]. by rewrite Hbl.
  - rewrite Hass. cbn. by rewrite (Hkey _ _ Ha).
  - by destruct a0.
  - intros key Hne. by apply dget_dset_ne.
  - eexists old, _. split; [done|]. split; [exact Hnew|]. split; [apply dget_dset_eq|].
    intros key H1 H2. by rewrite !dget_dset_ne.
  - by exists i, row.
Qed.

(** ** Where the code falls short *)

(** A campaign that waits for its start date is paused and resumed: it is live, although the
    guard of [start_live] refuses it. *)
Theorem pause_resume_launches_early :
  let c := sample_campaign CampaignStatus.ready_to_launch <| Campaign.start_date := 20 |> in
  let s := sample_db c [] in
  let manager := sample_user UserRole.manager in
  let s1 := (pause_campaign_endpoint 10 "manual" manager (demo_env (5 * day)) s).1 in
  let s2 := (resume_campaign_endpoint 10 manager (demo_env (6 * day)) s1).1 in
  run_exn (apply_transition 10 "start_live" manager (demo_env (6 * day)) s) =
    Some (HTTPException 409 "transition 'start_live' from 'ready_to_launch' rejected by guard") ∧
  Campaign.status <$> t_campaign s2 !! 10%N = Some CampaignStatus.live.
Proof. split; by vm_compute. Qed.

(** Regenerating an approved asset takes its approval away. *)
Theorem regenerate_drops_approval :
  let a := sample_asset 40 AssetType.email AssetStatus.approved [] in
  let s := sample_db (sample_campaign CampaignStatus.approval_pending) [a] in
  ContentAsset.status <$> t_content_asset
    (regenerate_asset true 40 (sample_user UserRole.marketer) (demo_env 5) s).1 !! 40%N = Some AssetStatus.requested.
Proof. by vm_compute. Qed.

(** ** Samples *)

Definition empty_patch : CampaignPatch := {|
  cp_name := None; cp_campaign_type := None; cp_objective := None; cp_start_date := None; cp_end_date := None;
  cp_budget_total := None; cp_currency := None; cp_brief := None; cp_kpi_targets := None |}.

(** A null date is no validation error but a crash. *)
Theorem null_date_crashes :
  let s := sample_db (sample_campaign CampaignStatus.drafted) [] in
  let body := {| cp_name := None; cp_campaign_type := None; cp_objective := None; cp_start_date := Some None;
    cp_end_date := None; cp_budget_total := None; cp_currency := None; cp_brief := None; cp_kpi_targets := None |} in
  run_exn (patch_campaign 10 body (sample_user UserRole.marketer) (demo_env 5) s) = Some TypeError.
Proof. by vm_compute. Qed.

Lemma sample_campaign_keyed c l i x : t_campaign (sample_db c l) !! i = Some x → Campaign.id x = i.
Proof. intros Hx. cbn in Hx. by apply lookup_singleton_Some in Hx as [<- <-]. Qed.

Lemma sample_campaign_keyed_eq c l x : t_campaign (sample_db c l) !! Campaign.id c = Some x → x = c.
Proof. intros Hx. cbn in Hx. by apply lookup_singleton_Some in Hx as [_ <-]. Qed.

Lemma patch_campaign_spec_witness :
  let body := {| cp_name := Some (Some "Summer"); cp_campaign_type := None; cp_objective := None;
    cp_start_date := None; cp_end_date := Some (Some 60); cp_budget_total := None; cp_currency := None;
    cp_brief := None; cp_kpi_targets := None |} in
  ∃ s' c', patch_campaign 10 body (sample_user UserRole.marketer) (demo_env 5)
      (sample_db (sample_campaign CampaignStatus.drafted) []) = (s', inr c') ∧
    Campaign.start_date c' <= Campaign.end_date c' ∧ Campaign.status c' = CampaignStatus.drafted.
Proof.
  intros body. set (s := sample_db (sample_campaign CampaignStatus.drafted) []).
  destruct (run_returns (patch_campaign 10 body (sample_user UserRole.marketer)) (demo_env 5) s)
    as (s' & c' & E); [by vm_compute|]. exists s', c'. split; [exact E|].
  destruct (patch_campaign_spec 10 body _ _ s s' c' (sample_campaign_keyed _ _) E) as (c & Hc & _ & H).
  apply (sample_campaign_keyed_eq (sample_campaign CampaignStatus.drafted)) in Hc as ->. destruct H as (_ & Hd & -> & _). done.
Defined.

Definition paused_db : db :=
  demo_queue.1 <| t_campaign := {[ 9%N := sample_campaign CampaignStatus.live <| Campaign.id := 9%N |> ]} |>.

Lemma paused_db_keyed i x : t_campaign paused_db !! i = Some x → Campaign.id x = i.
Proof.
  change (t_campaign paused_db) with ({[ 9%N := sample_campaign CampaignStatus.live <| Campaign.id := 9%N |> ]}
    : gmap N Campaign.t). intros Hx. by apply lookup_singleton_Some in Hx as [<- <-].
Qed.

Lemma pause_campaign_spec_witness :
  rows_ok task_ok paused_db ∧
  ∃ s' r, pause_campaign_endpoint 9 "manual" (sample_user UserRole.manager) (demo_env 7) paused_db = (s', inr r) ∧
    p_status r = CampaignStatus.paused ∧ p_cancelled_tasks r = 1.
Proof.
  assert (rows_ok task_ok paused_db) as Hok by exact (queue_ok_rows _ queue_ok_demo). split; [exact Hok|].
  destruct (run_returns (pause_campaign_endpoint 9 "manual" (sample_user UserRole.manager)) (demo_env 7) paused_db)
    as (s' & r & E); [by vm_compute|]. exists s', r. split; [exact E|].
  destruct (pause_campaign_spec 9 "manual" _ _ paused_db s' r paused_db_keyed Hok E) as (c & _ & _ & _ & -> & -> & _).
  split; [reflexivity|by vm_compute].
Defined.

Definition blocked_asset : ContentAsset.t := sample_asset 40 AssetType.email AssetStatus.drafted
  [("compliance", JObj [("blocked", JBool true); ("hits", JList [JStr "guaranteed"])]); ("tone", JStr "warm")].

Lemma clear_compliance_spec_witness :
  let s := sample_db (sample_campaign CampaignStatus.content_in_production) [blocked_asset] in
  ∃ s' a', clear_compliance_block 40 (sample_user UserRole.manager) (demo_env 5) s = (s', inr a') ∧
    _is_compliance_blocked blocked_asset = true ∧ compliance_blocked_sql a' = false ∧
    dget "tone" (ContentAsset.extra_metadata a') = Some (JStr "warm").
Proof.
  intros s. destruct (run_returns (clear_compliance_block 40 (sample_user UserRole.manager)) (demo_env 5) s)
    as (s' & a' & E); [by vm_compute|]. exists s', a'. split; [exact E|].
  destruct (clear_compliance_spec 40 _ _ s s' a' (sample_db_keyed _ _) E)
    as (a & Ha & Hb & _ & Hsql & _ & _ & Hrest & _).
  assert (a = blocked_asset) as -> by (cbn in Ha; rewrite lookup_insert_eq in Ha; by injection Ha).
  split; [exact Hb|]. split; [exact Hsql|]. by rewrite Hrest.
Defined.
