(* ===== verification/ContentProofs.v ===== *)
(** * Properties of content generation

    What a generation task leaves on its asset, and what a draft that breaks a rule cannot
    do. *)

From S2P Require Export ApprovalProofs ContentCreator.
From S2P Require Import StateMachine.
Local Open Scope Z_scope.

Section generation.
Context (re_compile : string → string + regex).
Context (copywriting_tool seo_tool : jdict → exn + jdict).

(** ** The attempts *)

(** Whatever the attempts were, the verdict is the one on the body that is kept. *)
Lemma attempts_checked inputs rules angle baseline variant fuel n hints d r sim g :
  attempts re_compile copywriting_tool inputs rules angle baseline variant fuel n hints d r sim = inr g →
  check_compliance re_compile (body_of (cw_output g)) rules = inr (compliance_result g).
Proof.
  revert n hints d r sim. induction fuel as [|fuel IH]; intros n hints d r sim; cbn [attempts];
    (destruct (copywriting_tool _) as [|output]; [done|]);
    (destruct (check_compliance _ (body_of output) rules) as [|hits] eqn:E; [done|]); cbv zeta.
  - by intros [= <-].
  - destruct (negb _); [by intros [= <-]|]. apply IH.
Qed.

(** ** One generation *)

(** The columns a generation fills. *)
Definition drafted_values (g : generation) (bundle : jdict) (a : ContentAsset.t) : ContentAsset.t :=
  a <| ContentAsset.title := extract_title (cw_output g) |>
    <| ContentAsset.content :=
         if str_empty (body_of (cw_output g)) then None else Some (body_of (cw_output g)) |>
    <| ContentAsset.extra_metadata :=
         dmerge (dmerge (ContentAsset.extra_metadata a) bundle) (metadata_extras g) |>
    <| ContentAsset.status := AssetStatus.drafted |>.

Definition tenant_rules (s : db) (tenant_id : N) : list ComplianceRule.t :=
  List.filter (λ r, ComplianceRule.tenant_id r ==b tenant_id) (snd <$> map_to_list (t_compliance_rule s)).

Lemma generation_reads_pure campaign asset :
  respects eq (_load_active_voice (Campaign.tenant_id campaign)) ∧
  respects eq (_load_audience (Campaign.id campaign)) ∧
  respects eq (_channel_sibling_index (Campaign.id campaign) asset) ∧
  respects eq (_baseline_variant_body asset).
Proof.
  unfold _load_active_voice, _load_audience, _channel_sibling_index, _baseline_variant_body.
  split_and!; respects_auto.
Qed.

Lemma run_generation_inr asset campaign plan e s s' out :
  _run_generation re_compile copywriting_tool seo_tool asset campaign plan e s = (s', inr out) →
  ∃ g bundle,
    check_compliance re_compile (body_of (cw_output g)) (tenant_rules s (Campaign.tenant_id campaign))
      = inr (compliance_result g) ∧
    s' = (update_row (ContentAsset.id asset) (drafted_values g bundle) e s).1 ∧
    dget "error" out = None ∧
    dget "compliance_blocked" out = Some (JBool (blocked (compliance_result g))).
Proof.
  intros Hrun. unfold _run_generation in Hrun.
  destruct (generation_reads_pure campaign asset) as (Hv & Ha & Hs & Hb).
  apply bind_inr in Hrun as (s1 & voice & H1 & Hrun). apply (respects_run eq _ _ _ _ _ Hv) in H1 as <-.
  apply bind_inr in Hrun as (s1 & audience & H1 & Hrun). apply (respects_run eq _ _ _ _ _ Ha) in H1 as <-.
  apply bind_inr in Hrun as (s1 & siblings & H1 & Hrun). apply (respects_run eq _ _ _ _ _ Hs) in H1 as <-.
  cbv zeta in Hrun. apply bind_inr in Hrun as (s1 & rules & H1 & Hrun).
  unfold _load_compliance_rules in H1. injection H1 as <- <-.
  apply bind_inr in Hrun as (s1 & baseline & H1 & Hrun). apply (respects_run eq _ _ _ _ _ Hb) in H1 as <-.
  cbv zeta in Hrun. unfold assign in Hrun. inv_run.
  match goal with H : attempts _ _ _ _ _ _ _ _ _ _ _ _ _ = inr ?g |- _ =>
    exists g; apply attempts_checked in H as Hg end.
  match goal with H : update_row _ ?f _ _ = (_, inr _) |- _ =>
    match f with context [bundle_metadata ?o ?b ?m] => exists (bundle_metadata o b m) end;
    apply (f_equal fst) in H as Hs' end.
  split_and!; [exact Hg|symmetry; exact Hs'|done|done].
Qed.

Lemma bind_inl {A B} (m : M A) (k : A → M B) e s s' x :
  (m ≫= k) e s = (s', inl x) →
  m e s = (s', inl x) ∨ ∃ s1 a, m e s = (s1, inr a) ∧ k a e s1 = (s', inl x).
Proof.
  unfold mbind, M_bind. destruct (m e s) as [s1 [y|a]]; [intros [= <- <-]; by left|].
  intros H. right. by exists s1, a.
Qed.

(** A step that only reads, then the rest. *)
Lemma pure_bind_inl {A B} (m : M A) (k : A → M B) e s s' x :
  respects eq m → (m ≫= k) e s = (s', inl x) → s' = s ∨ ∃ a, k a e s = (s', inl x).
Proof.
  intros Hm [H|(s1 & a & H & Hk)]%bind_inl.
  - left. by apply (respects_run eq _ _ _ _ _ Hm) in H.
  - right. exists a. by apply (respects_run eq _ _ _ _ _ Hm) in H as <-.
Qed.

(** A generation that raises has written nothing. *)
Lemma run_generation_inl asset campaign plan e s s' x :
  _run_generation re_compile copywriting_tool seo_tool asset campaign plan e s = (s', inl x) → s' = s.
Proof.
  intros Hrun. unfold _run_generation in Hrun. cbv zeta in Hrun.
  destruct (generation_reads_pure campaign asset) as (Hv & Ha & Hs & Hb).
  assert (respects eq (_load_compliance_rules (Campaign.tenant_id campaign))) as Hr
    by (unfold _load_compliance_rules; respects_auto).
  assert (∀ A (r : exn + A), respects eq (of_sum r)) as Ho by (intros; respects_auto).
  apply (pure_bind_inl _ _ _ _ _ _ Hv) in Hrun as [?|[voice Hrun]]; [done|].
  apply (pure_bind_inl _ _ _ _ _ _ Ha) in Hrun as [?|[audience Hrun]]; [done|].
  apply (pure_bind_inl _ _ _ _ _ _ Hs) in Hrun as [?|[siblings Hrun]]; [done|].
  apply (pure_bind_inl _ _ _ _ _ _ Hr) in Hrun as [?|[rules Hrun]]; [done|].
  apply (pure_bind_inl _ _ _ _ _ _ Hb) in Hrun as [?|[baseline Hrun]]; [done|].
  apply (pure_bind_inl _ _ _ _ _ _ (Ho _ _)) in Hrun as [?|[g Hrun]]; [done|].
  apply (pure_bind_inl _ _ _ _ _ _ (Ho _ _)) in Hrun as [?|[seo Hrun]]; [done|].
  discriminate Hrun.
Qed.

(** ** The verdict on the asset *)

Lemma drafted_compliance g bundle a :
  dget "compliance" (ContentAsset.extra_metadata (drafted_values g bundle a)) =
  Some (JObj (as_metadata (compliance_result g) (rewritten_for_suppression g))).
Proof.
  cbn. unfold metadata_extras, dmerge. destruct (sim_score g); cbn [app fold_left fst snd].
  - rewrite dget_dset_ne by done. apply dget_dset_eq.
  - apply dget_dset_eq.
Qed.

Lemma blocked_flags hits rewritten (a : ContentAsset.t) :
  dget "compliance" (ContentAsset.extra_metadata a) = Some (JObj (as_metadata hits rewritten)) →
  _is_compliance_blocked a = blocked hits ∧ compliance_blocked_sql a = blocked hits.
Proof.
  intros H. unfold _is_compliance_blocked, compliance_blocked_sql. cbn [jget]. rewrite H.
  cbn. by destruct (blocked hits).
Qed.

(** ** The submission *)

(** The submission a finished draft may set off treats every asset as a submission does. *)
Lemma maybe_submit_inr campaign e s s' u :
  keyed ContentAsset.t s → _maybe_submit_for_approval campaign e s = (s', inr u) →
  (∀ k, t_content_asset s' !! k = t_content_asset s !! k) ∨
  has_required s (Campaign.id campaign) compliance_blocked_sql = false ∧
  ∃ snap, ∀ k, t_content_asset s' !! k =
    submit_asset (now e) (Campaign.id campaign) snap <$> t_content_asset s !! k.
Proof.
  intros Hkey. unfold _maybe_submit_for_approval. destruct (_ !=b _); [intros [= <- _]; by left|].
  intros Hrun. inv_run. destruct (negb _) in Hrun; [inv_run; by left|].
  unfold try_except, mbind, M_bind in Hrun.
  destruct (apply campaign_sm campaign "submit_for_approval" e s) as [s1 [x|c']] eqn:E.
  - left. destruct (is_refusal x) eqn:Hx.
    + apply apply_refused in E as ->; [|done|done].
      destruct x; try discriminate; by injection Hrun as <- _.
    + by destruct x.
  - injection Hrun as <- _. right. apply submit_effect in E as (_ & _ & _ & Hb & Heff); [|done].
    split; [done|]. eexists. exact Heff.
Qed.

Lemma submit_keyed_map s s' t cid snap :
  keyed ContentAsset.t s →
  (∀ k, t_content_asset s' !! k = submit_asset t cid snap <$> t_content_asset s !! k) →
  keyed ContentAsset.t s'.
Proof.
  intros Hkey Heff k a Ha. change (t_content_asset s' !! k = Some a) in Ha. rewrite Heff in Ha.
  apply fmap_Some in Ha as (a0 & Ha0 & ->). apply Hkey in Ha0. unfold submit_asset.
  by destruct (drafted_required _ a0).
Qed.

(** ** The task *)

(** The asset between the start of the task and its generation. *)
Definition generating (t : Z) (a : ContentAsset.t) : ContentAsset.t :=
  touch t (a <| ContentAsset.status := AssetStatus.generating |>).

(** Failing a draft, and what the two ways out of the generation write. *)
Lemma generate_asset_inr aid e s s' out :
  keyed ContentAsset.t s →
  generate_asset re_compile copywriting_tool seo_tool aid e s = (s', inr out) →
  ∃ a c, t_content_asset s !! aid = Some a ∧ t_campaign s !! ContentAsset.campaign_id a = Some c ∧
  ((∃ a', dget "error" out = Some (JStr "compliance_check_failed") ∧
      t_content_asset s' = <[aid := a']> (t_content_asset s) ∧
      ContentAsset.status a' = AssetStatus.failed ∧ ContentAsset.content a' = ContentAsset.content a) ∨
   (∃ g bundle s1,
      check_compliance re_compile (body_of (cw_output g)) (tenant_rules s (Campaign.tenant_id c))
        = inr (compliance_result g) ∧
      dget "error" out = None ∧
      dget "compliance_blocked" out = Some (JBool (blocked (compliance_result g))) ∧
      t_content_asset s1 =
        <[aid := touch (now e) (drafted_values g bundle (generating (now e) a))]> (t_content_asset s) ∧
      _maybe_submit_for_approval c e s1 = (s', inr ()))).
Proof.
  intros Hkey Hrun. unfold generate_asset in Hrun. inv_run.
  change (rows s) with (t_content_asset s) in Hrun.
  destruct (t_content_asset s !! aid) as [a|] eqn:Ha; [|done]. inv_run.
  change (rows s) with (t_campaign s) in Hrun.
  destruct (t_campaign s !! ContentAsset.campaign_id a) as [c|] eqn:Hc; [|done].
  exists a, c. split; [done|]. split; [done|]. pose proof (Hkey _ _ Ha) as Hid. cbn in Hid.
  destruct (plan_for_platform _) as [x|plan]; [inv_run; done|].
  unfold assign in Hrun. rewrite bind_assoc in Hrun. change (pk a) with (ContentAsset.id a) in Hrun.
  assert (rows (R:=ContentAsset.t) s !! aid = Some a) as Ha' by exact Ha.
  rewrite Hid, (bind_ok _ _ _ _ _ _ (update_row_run aid _ e s a Ha')), bind_ret in Hrun.
  set (s0 := set_rows _ s) in Hrun.
  assert (rows (R:=ContentAsset.t) s0 !! aid = Some (generating (now e) a)) as Ha0 by apply lookup_insert_eq.
  assert (∀ f, t_content_asset (update_row (R:=ContentAsset.t) aid f e s0).1 =
    <[aid := touch (now e) (f (generating (now e) a))]> (t_content_asset s)) as Hupd.
  { intros f. rewrite (update_row_run aid f e s0 _ Ha0). cbn. apply insert_insert_eq. }
  apply bind_inr in Hrun as (s1 & done & Htry & Hrun). unfold try_except in Htry.
  destruct ((_run_generation _ _ _ _ _ _ ≫= _) e s0) as [s2 [x|r]] eqn:E.
  - left. apply bind_inl in E as [->%run_generation_inl|(? & ? & _ & [=])].
    destruct x; try (unfold generation_failed, assign in Htry; inv_run; done).
    unfold generation_failed, assign in Htry. change (pk _) with (ContentAsset.id a) in Htry. rewrite Hid in Htry.
    inv_run. injection Hrun as <- <-.
    match goal with H : update_row _ _ _ _ = (?x, _) |- _ => apply (f_equal fst) in H; cbn [fst] in H; rewrite <- H end.
    rewrite Hupd.
    by eexists.
  - right. injection Htry as -> ->. inv_run. match goal with H : _run_generation _ _ _ _ _ _ _ _ = _ |- _ =>
      apply run_generation_inr in H as (g & bundle & Hg & -> & Herr & Hb) end.
    cbn [fst snd] in Hrun. apply bind_inr in Hrun as (s3 & [] & Hsub & Hrun). injection Hrun as -> ->.
    eexists g, bundle, _. split_and!; [exact Hg|done|done| |exact Hsub].
    change (ContentAsset.id _) with (ContentAsset.id a). rewrite Hid. apply Hupd.
Qed.

(** A draft with its verdict. *)
Definition is_draft (text : string) (hits : list ComplianceHit) (a new : ContentAsset.t) : Prop :=
  ContentAsset.id new = ContentAsset.id a ∧
  ContentAsset.campaign_id new = ContentAsset.campaign_id a ∧
  ContentAsset.is_required new = ContentAsset.is_required a ∧
  ContentAsset.content new = (if str_empty text then None else Some text) ∧
  ∃ rewritten, dget "compliance" (ContentAsset.extra_metadata new) = Some (JObj (as_metadata hits rewritten)).

Lemma drafted_is_draft t g bundle a :
  is_draft (body_of (cw_output g)) (compliance_result g) a (touch t (drafted_values g bundle (generating t a))).
Proof.
  unfold is_draft. split_and!; try done. exists (rewritten_for_suppression g).
  exact (drafted_compliance g bundle (generating t a)).
Qed.

(** A submission keeps a draft a draft. *)
Lemma submitted_is_draft t cid snap text hits a new :
  ContentAsset.status new = AssetStatus.drafted → is_draft text hits a new →
  is_draft text hits a (submit_asset t cid snap new) ∧
  ContentAsset.status (submit_asset t cid snap new) =
    (if drafted_required cid new then AssetStatus.pending_approval else AssetStatus.drafted).
Proof.
  intros Hst (Hi & Hc & Hr & Ht & rw & Hb). unfold submit_asset. destruct (drafted_required cid new).
  - split; [|done]. unfold is_draft. split_and!; try done. exists rw. cbn. by rewrite dget_dset_ne.
  - split; [|done]. unfold is_draft. split_and!; eauto.
Qed.

(** A blocked required draft holds its campaign back. *)
Lemma blocked_holds text hits a new aid c2 e2 s s2 c3 :
  keyed ContentAsset.t s → t_content_asset s !! aid = Some new → is_draft text hits a new →
  blocked hits = true → ContentAsset.is_required a = true → Campaign.id c2 = ContentAsset.campaign_id a →
  apply campaign_sm c2 "submit_for_approval" e2 s ≠ (s2, inr c3).
Proof.
  intros Hkey Hnew (_ & Hc & Hr & _ & rw & Hb) Hblk Hreq Hid Hrun.
  apply submit_effect in Hrun as (_ & _ & _ & Hno & _); [|done].
  apply blocked_flags in Hb as [_ Hsql]. rewrite has_required_false in Hno.
  rewrite (Hno aid new Hnew) in Hsql by congruence. congruence.
Qed.
End generation.

(** C11: what a generation task that returns leaves on its asset. Either the compliance check
    could not run, and then the asset is failed, its text is the old one and no other asset
    is touched; or the asset carries a new draft, drafted or already pending approval, whose
    compliance flag is exactly the verdict of the check on the text that is stored, under the
    tenant's rules. A blocked draft is never submitted with its campaign, and as long as it
    is a required asset of it no submission of the campaign succeeds. *)
Theorem generate_asset_spec re_compile copywriting_tool seo_tool aid e s s' out :
  keyed ContentAsset.t s → keyed Campaign.t s →
  generate_asset re_compile copywriting_tool seo_tool aid e s = (s', inr out) →
  ∃ a a' c, t_content_asset s !! aid = Some a ∧ t_content_asset s' !! aid = Some a' ∧
    t_campaign s !! ContentAsset.campaign_id a = Some c ∧
    ((dget "error" out = Some (JStr "compliance_check_failed") ∧
      ContentAsset.status a' = AssetStatus.failed ∧ ContentAsset.content a' = ContentAsset.content a ∧
      ∀ k, k ≠ aid → t_content_asset s' !! k = t_content_asset s !! k) ∨
     (∃ text hits,
        check_compliance re_compile text (tenant_rules s (Campaign.tenant_id c)) = inr hits ∧
        ContentAsset.content a' = (if str_empty text then None else Some text) ∧
        _is_compliance_blocked a' = blocked hits ∧
        ContentAsset.status a' ∈ [AssetStatus.drafted; AssetStatus.pending_approval] ∧
        (blocked hits = true → ContentAsset.is_required a = true →
           ContentAsset.status a' = AssetStatus.drafted ∧
           ∀ c2 e2 s2 c3, Campaign.id c2 = ContentAsset.campaign_id a →
             apply campaign_sm c2 "submit_for_approval" e2 s' ≠ (s2, inr c3)))).
Proof.
  intros Hkey Hkc Hrun. destruct (generate_asset_inr _ _ _ _ _ _ _ _ Hkey Hrun)
    as (a & c & Ha & Hc & [(a' & Herr & Hs' & Hst & Hct)|(g & bundle & s1 & Hg & _ & _ & Hs1 & Hsub)]).
  { exists a, a', c. rewrite Hs', lookup_insert_eq. split_and!; try done. left. split_and!; try done.
    intros k Hk. by rewrite lookup_insert_ne. }
  set (new := touch (now e) _) in Hs1.
  pose proof (drafted_is_draft (now e) g bundle a) as Hd. fold new in Hd.
  assert (t_content_asset s1 !! aid = Some new) as Hnew by by rewrite Hs1, lookup_insert_eq.
  assert (ContentAsset.id new = aid) as Hid by exact (Hkey _ _ Ha).
  assert (keyed ContentAsset.t s1) as Hkey1 by by eapply keyed_insert.
  assert (Campaign.id c = ContentAsset.campaign_id a) as Hcid by exact (Hkc _ _ Hc).
  assert (∃ a', t_content_asset s' !! aid = Some a' ∧ keyed ContentAsset.t s' ∧
    is_draft (body_of (cw_output g)) (compliance_result g) a a' ∧
    ContentAsset.status a' ∈ [AssetStatus.drafted; AssetStatus.pending_approval] ∧
    (blocked (compliance_result g) = true → ContentAsset.is_required a = true →
     ContentAsset.status a' = AssetStatus.drafted)) as (a' & Ha' & Hkey' & Hd' & Hst' & Hblk).
  { apply maybe_submit_inr in Hsub as [Hsame|(Hno & snap & Heff)]; [| |done].
    - exists new. rewrite Hsame. split_and!; try done; [|left].
      intros k b Hb. apply Hkey1. change (t_content_asset s1 !! k = Some b). by rewrite <- Hsame.
    - destruct (submitted_is_draft (now e) (Campaign.id c) snap _ _ a new eq_refl Hd) as [Hd2 Hst2].
      exists (submit_asset (now e) (Campaign.id c) snap new). rewrite Heff, Hnew. split_and!; try done.
      + by eapply submit_keyed_map.
      + rewrite Hst2. destruct (drafted_required _ _); [right; left|left].
      + intros Hb Hr. rewrite Hst2. destruct (drafted_required _ new); [|done].
        destruct Hd as (_ & Hcc & Hrr & _ & rw & Hcomp). apply blocked_flags in Hcomp as [_ Hsql].
        rewrite has_required_false in Hno. rewrite (Hno aid new Hnew) in Hsql by congruence. congruence. }
  exists a, a', c. split_and!; try done. right. exists (body_of (cw_output g)), (compliance_result g).
  destruct Hd' as (Hi & Hcc & Hrr & Htext & rw & Hcomp). pose proof (blocked_flags _ _ _ Hcomp) as [Hfl _].
  split_and!; try done. intros Hb Hr. split; [auto|]. intros c2 e2 s2 c3 Hc2.
  eapply blocked_holds; try done. unfold is_draft. split_and!; eauto.
Qed.

(** An e-mail whose copy promises returns. *)
Definition promise : jdict :=
  [("subject", JStr "Invest now"); ("preheader", JStr "A new fund"); ("body", JStr "Guaranteed returns for all.");
   ("cta", JStr "Join")].

Definition promise_tool : jdict → exn + jdict := copywrite (λ _, inr (JObj promise)) (λ _ _ _, inr "{}").

Definition content_db : db :=
  sample_db (sample_campaign CampaignStatus.content_in_production)
    [sample_asset 11 AssetType.email AssetStatus.requested [("channel_platform", JStr "email")]].

Lemma generate_asset_spec_witness :
  ∃ s' out, generate_asset inl promise_tool seo_call 11 (demo_env 5) content_db = (s', inr out) ∧
    is_Some (t_content_asset s' !! 11%N) ∧
    (_is_compliance_blocked <$> t_content_asset s' !! 11%N) = Some true.
Proof.
  destruct (run_returns (generate_asset inl promise_tool seo_call 11) (demo_env 5) content_db)
    as (s' & out & Hrun); [by vm_compute|].
  assert (keyed ContentAsset.t content_db) as Hk by (apply (bool_decide_eq_true_1 _); by vm_compute).
  assert (keyed Campaign.t content_db) as Hc by (apply (bool_decide_eq_true_1 _); by vm_compute).
  destruct (generate_asset_spec inl promise_tool seo_call 11 (demo_env 5) content_db s' out Hk Hc Hrun)
    as (a & a' & c & _ & Ha' & _).
  assert (s' = (generate_asset inl promise_tool seo_call 11 (demo_env 5) content_db).1) as Hs by by rewrite Hrun.
  exists s', out. split_and!; [exact Hrun|by exists a'|]. rewrite Hs. by vm_compute.
Defined.
