(* ===== verification/EmailConnector.v ===== *)
(** * Email connectors: src/app/integrations/email

    The provider-agnostic connector the dispatch tool talks to, as a record of
    operations with its contract as a class, and the SendGrid implementation over an
    HTTP client that is a parameter. *)

From S2P Require Export PyNum Db.
Local Open Scope Z_scope.

(** ** The interface *)

(** [app/integrations/email/base.py] lines 52-61, [EmailRecipient]. *)
Module EmailRecipient.
Record t := mk { email : string; merge_fields : list (string * string); name : json }.
End EmailRecipient.

(** [app/integrations/email/base.py] lines 64-73, [EmailMessage]. *)
Module EmailMessage.
Record t := mk {
  subject : string;
  html_body : option string;
  text_body : option string;
  headers : list (string * string);
  reply_to : option string;
}.
End EmailMessage.

(** [app/integrations/email/base.py] lines 76-83, [SendResult]. *)
Module SendResult.
Record t := mk {
  email : string;
  provider_message_id : option string;
  accepted : bool;
  error : option string;
}.
End SendResult.

(** [app/integrations/email/base.py] lines 99-143 in [EmailConnector]. The operations the
    dispatch path uses. A call to the provider is a function of what it is given. *)
Record EmailConnector := {
  provider : string;
  verified_senders : exn + list string;
  send_batch : string → EmailMessage.t → list EmailRecipient.t → exn + list SendResult.t;
}.

(** What [send_batch] documents: one result per recipient, in the order passed in. *)
Class ConnectorLaws (c : EmailConnector) := {
  results_in_order : ∀ from_email message recipients results,
    send_batch c from_email message recipients = inr results →
    SendResult.email <$> results = EmailRecipient.email <$> recipients;
}.

(** ** Credential payloads *)

Section payload.
Context (payload : jdict).

(** [app/integrations/email/base.py] lines 108-110, [EmailConnector.api_key]. *)
Definition api_key : string := json_str (default (JStr "") (dget "api_key" payload)).

(** The strings iterated over, when a value is used as a list. *)
Definition strings_in (raw : json) : exn + list json :=
  match raw with
  | JList l => inr l
  | JObj d => inr (JStr <$> d.*1)
  | JStr s => inr ((λ c, JStr (String c "")) <$> String.list_ascii_of_string s)
  | _ => inl TypeError
  end.

(** [app/integrations/email/base.py] lines 112-115, [EmailConnector.verified_senders]. *)
Definition payload_verified_senders : exn + list string :=
  let raw := default JNull (dget "verified_senders" payload) in
  match strings_in (if truthy raw then raw else JList []) with
  | inl x => inl x
  | inr l => inr (str_lower <$> omap (λ v, as_str (Some v)) l)
  end.
End payload.

(** ** SendGrid *)

(** What the HTTP client reports: no response, or a status, a body and the value of the
    [X-Message-Id] header (empty when absent). *)
Inductive http_outcome :=
  | TransportFailure (msg : string)
  | Response (status_code : Z) (text message_id : string).

Section sendgrid.
(** [httpx.AsyncClient.post] to [_SENDGRID_API], given the bearer key and the body. *)
Context (post : string → json → http_outcome).
Context (payload : jdict).

Definition str_pairs (l : list (string * string)) : jdict := (λ kv, (kv.1, JStr kv.2)) <$> l.

Definition personalization (r : EmailRecipient.t) : json :=
  let to := [("email", JStr (EmailRecipient.email r))] in
  let to := if truthy (EmailRecipient.name r) then to ++ [("name", EmailRecipient.name r)] else to in
  JObj (("to", JList [JObj to]) ::
    match EmailRecipient.merge_fields r with
    | [] => []
    | fields => [("substitutions", JObj ((λ kv, ("{{" +:+ kv.1 +:+ "}}", JStr kv.2)) <$> fields))]
    end).

Definition content_block (kind : string) (body : option string) : list json :=
  match body with
  | Some b => if str_empty b then [] else [JObj [("type", JStr kind); ("value", JStr b)]]
  | None => []
  end.

Definition content_blocks (m : EmailMessage.t) : list json :=
  content_block "text/plain" (EmailMessage.text_body m) ++
  content_block "text/html" (EmailMessage.html_body m).

Definition request_body (from_email : string) (m : EmailMessage.t) (rs : list EmailRecipient.t) : json :=
  JObj ([("personalizations", JList (personalization <$> rs));
         ("from", JObj [("email", JStr from_email)]);
         ("subject", JStr (EmailMessage.subject m));
         ("content", JList (content_blocks m))] ++
    (match EmailMessage.headers m with [] => [] | hs => [("headers", JObj (str_pairs hs))] end) ++
    (match EmailMessage.reply_to m with
     | Some r => if str_empty r then [] else [("reply_to", JObj [("email", JStr r)])]
     | None => []
     end)).

Definition accepted_result (base_message_id : string) (idx : nat) (r : EmailRecipient.t) : SendResult.t := {|
  SendResult.email := EmailRecipient.email r;
  SendResult.provider_message_id :=
    if str_empty base_message_id then None else Some (base_message_id +:+ "." +:+ str_of_Z (Z.of_nat idx));
  SendResult.accepted := true;
  SendResult.error := None |}.

(** [app/integrations/email/sendgrid.py] lines 58-142, [SendGridConnector.send_batch]. *)
Definition sendgrid_send_batch (from_email : string) (message : EmailMessage.t)
    (recipients : list EmailRecipient.t) : exn + list SendResult.t :=
  match recipients with
  | [] => inr []
  | _ =>
      if str_empty (api_key payload) then inl (ProviderRejectedError "sendgrid api_key is missing")
      else if bool_decide (content_blocks message = []) then
        inl (ProviderRejectedError "message must have html_body or text_body")
      else
        match post (api_key payload) (request_body from_email message recipients) with
        | TransportFailure exc => inl (ProviderUnreachableError ("sendgrid transport failure: " +:+ exc))
        | Response code text base_message_id =>
            let what := "sendgrid " +:+ str_of_Z code +:+ ": " +:+ str_take 200 text in
            if 500 <=? code then inl (ProviderUnreachableError what)
            else if 400 <=? code then inl (ProviderRejectedError what)
            else inr (imap (accepted_result base_message_id) recipients)
        end
  end.

(** [app/integrations/email/sendgrid.py] lines 55-56 in [SendGridConnector]. *)
Definition SendGridConnector : EmailConnector := {|
  provider := "sendgrid";
  verified_senders := payload_verified_senders payload;
  send_batch := sendgrid_send_batch |}.

(** [app/integrations/email/sendgrid.py] lines 144-157, [SendGridConnector.send_test]. *)
Definition send_test (from_email to_email subject body : string) : exn + SendResult.t :=
  match sendgrid_send_batch from_email (EmailMessage.mk subject None (Some body) [] None)
          [EmailRecipient.mk to_email [] JNull] with
  | inl x => inl x
  | inr (r :: _) => inr r
  | inr [] => inl (LookupError "list index out of range")
  end.

#[export] Instance sendgrid_laws : ConnectorLaws SendGridConnector.
Proof.
  constructor. intros from m rs out. change (send_batch _) with sendgrid_send_batch.
  unfold sendgrid_send_batch. destruct rs as [|r0 rs]; [by intros [= <-]|].
  destruct (str_empty _); [done|]. destruct (bool_decide _); [done|].
  destruct (post _ _) as [|code text mid]; [done|].
  destruct (500 <=? code); [done|]. destruct (400 <=? code); [done|]. intros <-%(inj inr).
  apply list_eq. intros i. rewrite !list_lookup_fmap, list_lookup_imap.
  by destruct ((r0 :: rs) !! i).
Qed.
End sendgrid.

(** [app/integrations/email/__init__.py] lines 24-31, [build_email_connector]. *)
Definition build_email_connector (post : string → json → http_outcome) (provider_name : string)
    (payload : jdict) : exn + EmailConnector :=
  if str_lower (str_strip provider_name) ==b "sendgrid" then inr (SendGridConnector post payload)
  else inl (UnknownProviderError ("unknown email provider: " +:+ str_repr provider_name)).
