(* ===== verification/Webhooks.v ===== *)
(** * Inbound webhooks: src/app/webhooks, src/app/api/webhooks.py

    The uniform receiver: a registry of provider handlers, the signature check, the raw row
    kept of every call, the events written once per provider id. And the older SendGrid
    receiver of src/app/api/integrations_email.py, which also writes suppressions. [loads]
    is [json.loads], [inl] for a JSONDecodeError; bodies are texts. *)

From S2P Require Export AuditTrail EmailConnector Fixtures.
From S2P Require Import PyDecimal.
Local Open Scope Z_scope.

(** ** Timestamps of events *)

(** [datetime.fromtimestamp(ts, tz=utc)] of a JSON number: seconds to the nearest
    microsecond, within the years 1 to 9999; [None] for a value that is no number. *)
Definition timestamp_us (v : json) : option Z :=
  match v with
  | JBool b => Some (if b then second else 0)
  | JInt z => Some (z * second)
  | JFloat d =>
      let x := flt_of_dec d in
      '(num, den) ← flt_ratio x;
      let whole := Z.quot num den in
      us ← flt_round (flt_mul (flt_sub x (flt_of_Z whole)) (flt_of_Z 1000000));
      Some (whole * second + us)
  | _ => None
  end.

Definition MIN_DATETIME : Z := -62135596800 * second.
Definition MAX_DATETIME : Z := 253402300800 * second.

Definition from_timestamp (us : Z) : exn + Z :=
  if (MIN_DATETIME <=? us) && (us <? MAX_DATETIME) then inr us
  else inl (ValueError "year is out of range").

(** [days_from_civil], the inverse of [civil] on valid dates. *)
Definition days_of_civil (y m d : Z) : Z :=
  let y := if m <=? 2 then y - 1 else y in
  let era := y / 400 in
  let yoe := y - era * 400 in
  let doy := (153 * (if m <=? 2 then m + 9 else m - 3) + 2) / 5 + d - 1 in
  era * 146097 + (yoe * 365 + yoe / 4 - yoe / 100 + doy) - 719468.

(** The value of a string of decimal digits. *)
Fixpoint digits (acc : Z) (s : string) : option Z :=
  match s with
  | EmptyString => Some acc
  | String c s => d ← digit_val c; digits (acc * 10 + Z.of_N d) s
  end.
Definition field (i k : nat) (s : string) : option Z := digits 0 (String.substring i k s).

(** [datetime.fromisoformat(s)] of the texts [isoformat] gives an aware UTC datetime. *)
Definition fromisoformat (s : string) : option Z :=
  let n := String.length s in
  y ← field 0 4 s; mo ← field 5 2 s; d ← field 8 2 s;
  h ← field 11 2 s; mi ← field 14 2 s; sec ← field 17 2 s;
  us ← (if (n =? 25)%nat then Some 0 else if (n =? 32)%nat then field 20 6 s else None);
  let t := days_of_civil y mo d * day + h * hour + mi * minute + sec * second + us in
  if isoformat t ==b s then Some t else None.

Example iso_roundtrip :
  fromisoformat (isoformat (19782 * day + 13 * hour + 5 * minute + 1500000))
  = Some (19782 * day + 13 * hour + 5 * minute + 1500000).
Proof. vm_compute. reflexivity. Qed.
Example iso_refused : fromisoformat "2024-02-30T00:00:00+00:00" = None.
Proof. vm_compute. reflexivity. Qed.
Example timestamp_float : timestamp_us (JFloat (Dec 17000000005 (-1))) = Some 1700000000500000.
Proof. vm_compute. reflexivity. Qed.

(** [app/webhooks/dispatcher.py] lines 200-206, [_parse_iso_or_now]. *)
Definition _parse_iso_or_now (value : option string) : M Z :=
  t ← asks now;
  mret (match value with
        | None => t
        | Some v => if str_empty v then t else default t (fromisoformat v)
        end).

(** ** SendGrid's events *)

(** [app/integrations/email/base.py] lines 86-96, [EmailWebhookEvent]. *)
Record EmailWebhookEvent := {
  we_event_id : string;
  we_event_type : string;
  we_email : option string;
  we_occurred_at : option string;
  we_payload : jdict;
}.

(** [app/integrations/email/sendgrid.py] lines 40-52, [_SENDGRID_EVENT_MAP]. *)
Definition _SENDGRID_EVENT_MAP : list (string * string) :=
  [("delivered", "delivered"); ("open", "open"); ("click", "click"); ("bounce", "bounce");
   ("dropped", "bounce"); ("deferred", "other"); ("processed", "other");
   ("spamreport", "spam_complaint"); ("unsubscribe", "unsubscribe");
   ("group_unsubscribe", "unsubscribe"); ("group_resubscribe", "other")].

(** The body of the loop of [parse_webhook]: an event, or nothing without an id. *)
Definition parse_event (raw : jdict) : exn + option EmailWebhookEvent :=
  let sg_event := str_lower (json_str (default (JStr "") (dget "event" raw))) in
  let event_id := if opt_truthy (dget "sg_event_id" raw) then dget "sg_event_id" raw
                  else dget "sg_message_id" raw in
  if negb (opt_truthy event_id) then inr None
  else
    let event at_ := {|
      we_event_id := json_str (default JNull event_id);
      we_event_type := default "other" (dget sg_event _SENDGRID_EVENT_MAP);
      we_email := match dget "email" raw with
                  | Some (JStr s) => if str_empty s then None else Some (str_lower s)
                  | _ => None
                  end;
      we_occurred_at := at_;
      we_payload := raw |} in
    match dget "timestamp" raw ≫= timestamp_us with
    | None => inr (Some (event None))
    | Some us => match from_timestamp us with
                 | inl x => inl x
                 | inr t => inr (Some (event (Some (isoformat t))))
                 end
    end.

Fixpoint parse_events (events : list jdict) : exn + list EmailWebhookEvent :=
  match events with
  | [] => inr []
  | raw :: events =>
      match parse_event raw with
      | inl x => inl x
      | inr e => match parse_events events with
                 | inl x => inl x
                 | inr out => inr (match e with Some e => e :: out | None => out end)
                 end
      end
  end.

(** [app/integrations/email/sendgrid.py] lines 159-205, [SendGridConnector.parse_webhook]. *)
Definition parse_webhook (payload : json) : exn + list EmailWebhookEvent :=
  parse_events (match payload with
                | JList l => omap (λ e, as_obj (Some e)) l
                | JObj d => [d]
                | _ => []
                end).

(** ** Provider handlers *)

(** [app/webhooks/base.py] lines 28-35, [SignatureCheck]. *)
Record SignatureCheck := { sig_valid : bool; sig_reason : option string }.

(** [app/webhooks/base.py] lines 38-49, [MappedEvent]. *)
Record MappedEvent := {
  me_event_id : string;
  me_event_type : string;
  me_occurred_at : option string;
  me_payload : jdict;
}.

(** [app/webhooks/base.py] lines 52-61, [DispatchResult]. *)
Record WebhookResult := {
  r_signature_valid : bool;
  r_signature_reason : option string;
  r_raw_webhook_id : N;
  r_events_written : Z;
  r_events_deduped : Z;
  r_mapped_event_id : option N;
}.

(** [app/webhooks/base.py] lines 64-92, [ProviderHandler]. *)
Record ProviderHandler := {
  h_provider : string;
  verify_signature : list (string * string) → string → option jdict → SignatureCheck;
  map_to_events : string → exn + list MappedEvent;
}.

Definition rejected (why : string) : SignatureCheck := {| sig_valid := false; sig_reason := Some why |}.
Definition verified : SignatureCheck := {| sig_valid := true; sig_reason := None |}.

(** [headers.get("x-mas-webhook-secret") or headers.get("X-MAS-Webhook-Secret")]. *)
Definition provided_secret (headers : list (string * string)) : option string :=
  match dget "x-mas-webhook-secret" headers with
  | Some v => if str_empty v then dget "X-MAS-Webhook-Secret" headers else Some v
  | None => dget "X-MAS-Webhook-Secret" headers
  end.

(** [provided == expected], the expected value being JSON. *)
Definition same_secret (expected : option json) (provided : string) : bool :=
  match expected with Some (JStr s) => provided ==b s | _ => false end.

(** The shared-secret check; [missing] is the reason when the header is absent or empty. *)
Definition check_secret (missing : string) (headers : list (string * string))
    (credential_payload : option jdict) : SignatureCheck :=
  match credential_payload with
  | None => rejected "no_credential"
  | Some payload =>
      let expected := dget "webhook_secret" payload in
      if negb (opt_truthy expected) then rejected "webhook_secret_not_configured"
      else
        let provided := default "" (provided_secret headers) in
        if str_empty provided then rejected missing
        else if same_secret expected provided then verified else rejected "secret_mismatch"
  end.

Section receivers.
Context (loads : string → string + json).
Context (decrypt : string → exn + jdict).

(** [json.loads(body) if body else []]. *)
Definition load_body (body : string) : string + json :=
  if str_empty body then inr (JList []) else loads body.

(** [app/webhooks/sendgrid.py] lines 30-37, [_EVENT_KIND_FOR_NORMALISED]. *)
Definition _EVENT_KIND_FOR_NORMALISED : list (string * string) :=
  [("delivered", "impression"); ("open", "open"); ("click", "click"); ("bounce", "bounce");
   ("spam_complaint", "spam_complaint"); ("unsubscribe", "unsubscribe")].

Definition mapped_event (evt : EmailWebhookEvent) : option MappedEvent :=
  (λ kind, {| me_event_id := we_event_id evt; me_event_type := kind;
              me_occurred_at := we_occurred_at evt; me_payload := we_payload evt |})
  <$> dget (we_event_type evt) _EVENT_KIND_FOR_NORMALISED.

(** [app/webhooks/sendgrid.py] lines 40-96, [SendGridWebhookHandler]. *)
Definition SendGridWebhookHandler : ProviderHandler := {|
  h_provider := "sendgrid";
  verify_signature headers body credential_payload :=
    check_secret "missing_header" headers credential_payload;
  map_to_events body :=
    match load_body body with
    | inl _ => inr []
    | inr payload => match parse_webhook payload with
                     | inl x => inl x
                     | inr events => inr (omap mapped_event events)
                     end
    end |}.

(** [app/webhooks/linkedin.py] lines 30-64, [LinkedInWebhookHandler]. *)
Definition LinkedInWebhookHandler : ProviderHandler := {|
  h_provider := "linkedin";
  verify_signature headers body credential_payload :=
    check_secret "secret_mismatch" headers credential_payload;
  map_to_events body := inr [] |}.

(** ** The registry *)

(** [app/webhooks/registry.py] lines 14-32, [ProviderRegistry]. *)
Definition ProviderRegistry : Type := list (string * ProviderHandler).

(** [app/webhooks/registry.py] lines 18-23, [ProviderRegistry.register]. *)
Definition register_webhook (handler : ProviderHandler) (registry : ProviderRegistry)
    : exn + ProviderRegistry :=
  match dget (h_provider handler) registry with
  | Some _ => inl (ValueError ("webhook handler for '" +:+ h_provider handler +:+ "' already registered"))
  | None => inr (registry ++ [(h_provider handler, handler)])
  end.

(** [app/webhooks/registry.py] lines 25-29, [ProviderRegistry.get]. *)
Definition get_webhook (provider : string) (registry : ProviderRegistry) : exn + ProviderHandler :=
  match dget (str_lower (str_strip provider)) registry with
  | Some h => inr h
  | None => inl (UnknownProviderError ("no webhook handler for provider " +:+ str_repr provider))
  end.

(** [app/webhooks/registry.py] lines 39-49, [register_builtin_handlers]. *)
Definition register_builtin_handlers (registry : ProviderRegistry) : ProviderRegistry :=
  fold_left (λ reg h, match register_webhook h reg with inl _ => reg | inr reg' => reg' end)
    [SendGridWebhookHandler; LinkedInWebhookHandler] registry.

(** [app/webhooks/registry.py] lines 36-36, [default_registry]. *)
Definition default_registry : ProviderRegistry := register_builtin_handlers [].

(** ** The dispatcher *)

(** [app/webhooks/dispatcher.py] lines 162-175, [_load_credential_payload]. *)
Definition _load_credential_payload (tenant_id : N) (provider : string) : M (option jdict) :=
  rows ← select (λ c, (IntegrationCredential.tenant_id c ==b tenant_id) &&
                      (IntegrationCredential.provider c ==b provider));
  row ← scalar_one_or_none rows;
  match row with
  | None => mret None
  | Some row => payload ← of_sum (decrypt (IntegrationCredential.encrypted_payload row));
                mret (Some payload)
  end.

Definition redacted : list string := ["x-mas-webhook-secret"; "authorization"; "cookie"].

(** [app/webhooks/dispatcher.py] lines 178-190, [_normalise_headers]. *)
Definition _normalise_headers (headers : list (string * string)) : jdict :=
  (λ kv : string * string,
     (kv.1, JStr (if str_lower kv.1 ∈b redacted then "***redacted***" else kv.2))) <$> headers.

(** [app/webhooks/dispatcher.py] lines 193-197, [_coerce_event_kind]. *)
Definition _coerce_event_kind (v : string) : option EventKind.t := of_value EventKind.t v.

(** The unique key of an event. *)
Definition has_event_id (tenant_id : N) (event_id : string) (r : AnalyticEvent.t) : bool :=
  (AnalyticEvent.tenant_id r ==b tenant_id) && (AnalyticEvent.provider_event_id r ==b Some event_id).

(** [INSERT .. ON CONFLICT (tenant_id, provider_event_id) DO NOTHING RETURNING id]. *)
Definition insert_new_event (tenant_id : N) (event_id : string) (mk : N → AnalyticEvent.t) : M (option N) :=
  conflict ← select (has_event_id tenant_id event_id);
  match conflict with
  | [] => row ← add_row mk; mret (Some (AnalyticEvent.id row))
  | _ => mret None
  end.

(** The insert both receivers make, ON CONFLICT DO NOTHING: the new id, if any. *)
Definition insert_event (tenant_id : N) (kind : EventKind.t) (payload : jdict) (event_id : string)
    (event_at : Z) : M (option N) :=
  insert_new_event tenant_id event_id (λ id, {|
    AnalyticEvent.id := id;
    AnalyticEvent.tenant_id := tenant_id;
    AnalyticEvent.campaign_id := None;
    AnalyticEvent.channel_id := None;
    AnalyticEvent.event_type := kind;
    AnalyticEvent.metric_value := None;
    AnalyticEvent.payload := payload;
    AnalyticEvent.provider_event_id := Some event_id;
    AnalyticEvent.event_at := event_at |}).

(** What the loop over the mapped events counts: written, deduped, the first id. *)
Definition tally : Type := Z * Z * option N.

Definition write_event (tenant_id : N) (acc : tally) (evt : MappedEvent) : M tally :=
  match _coerce_event_kind (me_event_type evt) with
  | None => mret acc
  | Some kind =>
      at_ ← _parse_iso_or_now (me_occurred_at evt);
      new ← insert_event tenant_id kind (me_payload evt) (me_event_id evt) at_;
      mret (match new with
            | None => (acc.1.1, acc.1.2 + 1, acc.2)
            | Some id => (acc.1.1 + 1, acc.1.2, match acc.2 with Some f => Some f | None => Some id end)
            end)
  end.

Definition raw_webhook_row (tenant_id : N) (provider : string) (sig : SignatureCheck)
    (headers : list (string * string)) (body : string) (t : Z) (id : N) : RawWebhook.t := {|
  RawWebhook.id := id;
  RawWebhook.tenant_id := Some tenant_id;
  RawWebhook.provider := provider;
  RawWebhook.signature_valid := sig_valid sig;
  RawWebhook.signature_reason := sig_reason sig;
  RawWebhook.headers := _normalise_headers headers;
  RawWebhook.payload := body;
  RawWebhook.mapped_event_id := None;
  RawWebhook.received_at := t |}.

(** [app/webhooks/dispatcher.py] lines 46-154, [dispatch_webhook]. *)
Definition dispatch_webhook (registry : ProviderRegistry) (provider : string) (tenant_id : N)
    (headers : list (string * string)) (body : string) : M WebhookResult :=
  handler ← of_sum (get_webhook provider registry);
  credential_payload ← _load_credential_payload tenant_id (h_provider handler);
  let sig := verify_signature handler headers body credential_payload in
  t ← asks now;
  raw ← add_row (raw_webhook_row tenant_id (h_provider handler) sig headers body t);
  if negb (sig_valid sig) then
    audit tenant_id "raw_webhook" (RawWebhook.id raw) "webhook_signature_failed" None None
      [("provider", JStr (h_provider handler));
       ("reason", JStr (match sig_reason sig with
                        | Some r => if str_empty r then "invalid" else r
                        | None => "invalid"
                        end))] ;;
    mret {| r_signature_valid := false; r_signature_reason := sig_reason sig;
            r_raw_webhook_id := RawWebhook.id raw; r_events_written := 0; r_events_deduped := 0;
            r_mapped_event_id := None |}
  else
    mapped ← of_sum (map_to_events handler body);
    counts ← foldM (write_event tenant_id) (0, 0, None) mapped;
    (match counts.2 with
     | Some id => assign raw (λ r, r <| RawWebhook.mapped_event_id := Some id |>) ;; mret ()
     | None => mret ()
     end) ;;
    mret {| r_signature_valid := true; r_signature_reason := None;
            r_raw_webhook_id := RawWebhook.id raw; r_events_written := counts.1.1;
            r_events_deduped := counts.1.2; r_mapped_event_id := counts.2 |}.

(** ** The endpoints *)

(** [app/api/webhooks.py] lines 24-76, [receive_webhook]. The dispatcher commits, so its rows stay
    when the answer is the 401. *)
Definition receive_webhook (registry : ProviderRegistry) (provider : string) (tenant_id : N)
    (headers : list (string * string)) (body : string) : M WebhookResult :=
  match get_webhook provider registry with
  | inl x => raise (HTTPException 404 (exn_str x))
  | inr _ =>
      result ← transaction (dispatch_webhook registry provider tenant_id headers body);
      raise_if (negb (r_signature_valid result))
        (HTTPExceptionDetail 401 (JObj [
          ("reason", JStr (match r_signature_reason result with
                           | Some r => if str_empty r then "invalid_signature" else r
                           | None => "invalid_signature"
                           end));
          ("raw_webhook_id", j_uuid (r_raw_webhook_id result))])) ;;
      mret result
  end.

(** [app/api/admin_unmapped_events.py] lines 33-58, [list_unmapped_webhooks]. *)
Definition list_unmapped_webhooks (provider : option string) (limit : nat)
    : M (list RawWebhook.t * Z) :=
  rows ← select (λ r, (RawWebhook.mapped_event_id r ==b None) &&
                      from_option (λ p, RawWebhook.provider r ==b p) true provider);
  mret (take limit (order_by_desc RawWebhook.received_at rows), Z.of_nat (length rows)).

(** *** The SendGrid receiver *)

(** [app/api/integrations_email.py] lines 395-402, [_EVENT_KIND_MAP]. *)
Definition _EVENT_KIND_MAP : list (string * EventKind.t) :=
  [("delivered", EventKind.impression); ("open", EventKind.open); ("click", EventKind.click);
   ("bounce", EventKind.bounce); ("spam_complaint", EventKind.spam_complaint);
   ("unsubscribe", EventKind.unsubscribe)].

(** [app/api/integrations_email.py] lines 405-406, [_event_kind_for]. *)
Definition _event_kind_for (event_type : string) : option EventKind.t := dget event_type _EVENT_KIND_MAP.

(** [app/api/integrations_email.py] lines 409-413, [_SUPPRESSION_REASON_MAP]. *)
Definition _SUPPRESSION_REASON_MAP : list (string * string) :=
  [("bounce", "bounce"); ("spam_complaint", "complaint"); ("unsubscribe", "unsubscribe")].

(** [app/api/integrations_email.py] lines 416-417, [_suppression_reason_for]. *)
Definition _suppression_reason_for (event_type : string) : option string :=
  dget event_type _SUPPRESSION_REASON_MAP.

(** The suppressions of an address on a channel of a tenant. *)
Definition suppresses (tenant_id : N) (ch : ChannelPlatform.t) (identifier : string)
    (r : SuppressionEntry.t) : bool :=
  (SuppressionEntry.tenant_id r ==b tenant_id) && (SuppressionEntry.channel_platform r ==b ch) &&
  (str_lower (SuppressionEntry.identifier r) ==b str_lower identifier).

(** The insert of a suppression, ON CONFLICT DO NOTHING; the identifier is CITEXT. *)
Definition insert_suppression (tenant_id : N) (ch : ChannelPlatform.t) (identifier reason : string)
    (source_event_id : option N) : M (option SuppressionEntry.t) :=
  t ← asks now;
  conflict ← select (suppresses tenant_id ch identifier);
  match conflict with
  | [] =>
      row ← add_row (λ id, {|
        SuppressionEntry.id := id;
        SuppressionEntry.tenant_id := tenant_id;
        SuppressionEntry.channel_platform := ch;
        SuppressionEntry.identifier := identifier;
        SuppressionEntry.reason := reason;
        SuppressionEntry.source_event_id := source_event_id;
        SuppressionEntry.suppressed_at := t |});
      mret (Some row)
  | _ => mret None
  end.

(** The loop: written, deduped, suppressions. *)
Definition ingest_event (tenant_id : N) (acc : Z * Z * Z) (evt : EmailWebhookEvent) : M (Z * Z * Z) :=
  let '(written, deduped, sup) := acc in
  match _event_kind_for (we_event_type evt) with
  | None => mret acc
  | Some kind =>
      at_ ← _parse_iso_or_now (we_occurred_at evt);
      new ← insert_event tenant_id kind (we_payload evt) (we_event_id evt) at_;
      match new with
      | None => mret (written, deduped + 1, sup)
      | Some id =>
          match _suppression_reason_for (we_event_type evt), we_email evt with
          | Some reason, Some email =>
              row ← insert_suppression tenant_id ChannelPlatform.email email reason (Some id);
              mret (written + 1, deduped, match row with Some _ => sup + 1 | None => sup end)
          | _, _ => mret (written + 1, deduped, sup)
          end
      end
  end.

(** [app/api/integrations_email.py] lines 226-347, [receive_webhook]. The connector it builds is
    SendGrid's, whose parser reads nothing of the credential. Returns the numbers of received
    and written events, of duplicates and of suppressions. *)
Definition receive_email_webhook (tenant_id : N) (x_mas_webhook_secret : option string) (body : string)
    : M (Z * (Z * Z * Z)) :=
  payload ← _load_credential_payload tenant_id "sendgrid";
  match payload with
  | None => raise (HTTPException 404 "no email integration")
  | Some payload =>
      let expected := dget "webhook_secret" payload in
      let secret := default "" x_mas_webhook_secret in
      raise_if (negb (opt_truthy expected) || str_empty secret || negb (same_secret expected secret))
        (HTTPException 401 "invalid webhook secret") ;;
      match load_body body with
      | inl msg => raise (HTTPException 400 ("invalid json: " +:+ msg))
      | inr raw_payload =>
          events ← of_sum (parse_webhook raw_payload);
          counts ← foldM (ingest_event tenant_id) (0, 0, 0) events;
          mret (Z.of_nat (length events), counts)
      end
  end.
End receivers.

(** * Properties of the webhook receivers

    What one call writes, that a replay writes no event, and that the uniform receiver
    suppresses nobody. *)

(** ** The event table *)

(** What the partial unique index covers. *)
Definition event_key (r : AnalyticEvent.t) : option (N * string) :=
  pid ← AnalyticEvent.provider_event_id r; Some (AnalyticEvent.tenant_id r, pid).

Record events_ok (s : db) : Prop := {
  ev_fresh : ∀ k r, t_analytic_event s !! k = Some r → (k < next_uuid s)%N;
  ev_unique : unique_on event_key s;
}.

(** Events are only added, and no suppression changes. *)
Definition events_step : relation db := λ s s',
  events_ok s → events_ok s' ∧ t_analytic_event s ⊆ t_analytic_event s'.
#[export] Instance events_step_preorder : PreOrder events_step.
Proof.
  split; unfold events_step; [by intros s|].
  intros s1 s2 s3 H12 H23 H1. destruct (H12 H1) as [H2 K12]. destruct (H23 H2) as [H3 K23].
  split; [done|]. by transitivity (t_analytic_event s2).
Qed.

(** A step that leaves the table alone and may use up a key. *)
Lemma events_frame s s' :
  t_analytic_event s' = t_analytic_event s → (next_uuid s <= next_uuid s')%N → events_step s s'.
Proof.
  intros Ht Hn [Hf Hu]. rewrite Ht. split; [|done]. split.
  - rewrite Ht. intros k r Hk. specialize (Hf _ _ Hk). lia.
  - unfold unique_on in *. cbn [rows analytic_event_table] in *. by rewrite Ht.
Qed.

Definition seen (tid : N) (s : db) (id : string) : Prop :=
  ∃ k r, t_analytic_event s !! k = Some r ∧ event_key r = Some (tid, id).

Lemma seen_mono tid s s' id :
  t_analytic_event s ⊆ t_analytic_event s' → seen tid s id → seen tid s' id.
Proof. intros Hs (k & r & Hk & Hr). exists k, r. split; [|done]. by eapply lookup_weaken. Qed.

Lemma has_event_id_key tid id r : has_event_id tid id r = true ↔ event_key r = Some (tid, id).
Proof.
  unfold has_event_id, event_key. rewrite andb_true_iff, !bool_decide_eq_true. split.
  - intros [<- ->]. done.
  - destruct (AnalyticEvent.provider_event_id r) as [p|]; [|done]. cbn. by intros [= <- <-].
Qed.

(** The database after the insert. *)
Definition with_event (row : AnalyticEvent.t) (s : db) : db :=
  set_rows (<[next_uuid s := row]> (t_analytic_event s)) (s <| next_uuid := (next_uuid s + 1)%N |>).

(** The insert either finds the id or adds the row. *)
Lemma insert_new_run tid id mk e s :
  (∀ k, AnalyticEvent.id (mk k) = k) →
  (insert_new_event tid id mk e s = (s, inr None) ∧ seen tid s id) ∨
  (¬ seen tid s id ∧ insert_new_event tid id mk e s = (with_event (mk (next_uuid s)) s, inr (Some (next_uuid s)))).
Proof.
  intros Hid. unfold insert_new_event. rewrite bind_select.
  destruct (List.filter _ _) as [|r l] eqn:Hl.
  - right. split.
    + intros (k & r & Hk & Hr). apply has_event_id_key in Hr.
      rewrite (proj1 (select_nil (T:=AnalyticEvent.t) (has_event_id tid id) s) Hl k r Hk) in Hr. done.
    + rewrite (bind_ok _ _ _ _ _ _ (add_row_run mk e s)), Hid. reflexivity.
  - left. split; [done|].
    pose proof (proj1 (elem_of_select (T:=AnalyticEvent.t) (has_event_id tid id) s r)) as Hin.
    rewrite Hl in Hin. destruct (Hin (list_elem_of_here r l)) as [(k & Hk) Hrid].
    exists k, r. split; [done|]. by apply has_event_id_key.
Qed.

Lemma insert_event_run tid kind payload id at_ e s :
  (insert_event tid kind payload id at_ e s = (s, inr None) ∧ seen tid s id) ∨
  (¬ seen tid s id ∧ ∃ row, event_key row = Some (tid, id) ∧ AnalyticEvent.event_type row = kind ∧
   insert_event tid kind payload id at_ e s =
     (with_event row s, inr (Some (next_uuid s)))).
Proof.
  unfold insert_event. edestruct (insert_new_run tid id) as [H|[Hn H]]; [|by left|right; split; [done|]]; [done|].
  eexists. by split_and!; [..|exact H].
Qed.

Lemma with_event_ok tid id row s :
  events_ok s → ¬ seen tid s id → event_key row = Some (tid, id) →
  events_ok (with_event row s) ∧ t_analytic_event s !! next_uuid s = None ∧
  t_analytic_event s ⊆ t_analytic_event (with_event row s) ∧ seen tid (with_event row s) id.
Proof.
  intros [Hf Hu] Hn Hk.
  assert (t_analytic_event s !! next_uuid s = None) as Hfresh.
  { destruct (t_analytic_event s !! next_uuid s) as [r|] eqn:E; [|done]. specialize (Hf _ _ E). lia. }
  split; [split|split_and!; [done|by apply insert_subseteq|]].
  - intros k r. cbn. rewrite lookup_insert_Some. intros [[<- _]|[_ Hr]]; [lia|]. specialize (Hf _ _ Hr). lia.
  - refine (add_row_unique (T:=AnalyticEvent.t) event_key (λ _, row) (demo_env 0) s _ Hu).
    intros k r x Hr Hx Hx'. apply Hn. exists k, r. cbn in *. split; [done|]. congruence.
  - exists (next_uuid s), row. cbn. by rewrite lookup_insert_eq.
Qed.

Lemma insert_event_step tid kind payload id at_ : respects events_step (insert_event tid kind payload id at_).
Proof.
  intros e s Hs. destruct (insert_event_run tid kind payload id at_ e s) as [[-> _]|(Hn & row & Hk & _ & ->)];
    [by split|]. destruct (with_event_ok _ _ _ _ Hs Hn Hk) as (? & _ & ? & _). by split.
Qed.

(** ** The loop of the dispatcher *)

Section loop.
Context (tid : N).

Definition countable (l : list MappedEvent) : Z :=
  Z.of_nat (length (omap (λ m, _coerce_event_kind (me_event_type m)) l)).

Lemma countable_cons m l :
  countable (m :: l) = (match _coerce_event_kind (me_event_type m) with Some _ => 1 | None => 0 end) + countable l.
Proof.
  unfold countable. cbn [omap list_omap]. destruct (_coerce_event_kind (me_event_type m)); cbn [length]; lia.
Qed.

Definition all_seen (s : db) (l : list MappedEvent) : Prop :=
  Forall (λ m, is_Some (_coerce_event_kind (me_event_type m)) → seen tid s (me_event_id m)) l.

(** What a new row of the loop comes from. *)
Definition from_mapped (l : list MappedEvent) (r : AnalyticEvent.t) : Prop :=
  ∃ m, m ∈ l ∧ event_key r = Some (tid, me_event_id m) ∧
    _coerce_event_kind (me_event_type m) = Some (AnalyticEvent.event_type r).

(** The other tables a receiver could touch. *)
Definition only_events (s s' : db) : Prop :=
  t_suppression_entry s' = t_suppression_entry s ∧ t_raw_webhook s' = t_raw_webhook s ∧
  t_integration_credential s' = t_integration_credential s ∧ t_audit_log s' = t_audit_log s.

(** One event: skipped, already there, or a new row. *)
Lemma write_event_run acc m e s :
  (_coerce_event_kind (me_event_type m) = None ∧ write_event tid acc m e s = (s, inr acc)) ∨
  ∃ kind, _coerce_event_kind (me_event_type m) = Some kind ∧
    ((seen tid s (me_event_id m) ∧ write_event tid acc m e s = (s, inr (acc.1.1, acc.1.2 + 1, acc.2))) ∨
     (¬ seen tid s (me_event_id m) ∧ ∃ row, event_key row = Some (tid, me_event_id m) ∧
      AnalyticEvent.event_type row = kind ∧
      write_event tid acc m e s =
        (with_event row s, inr (acc.1.1 + 1, acc.1.2, match acc.2 with Some f => Some f | None => Some (next_uuid s) end)))).
Proof.
  unfold write_event. destruct (_coerce_event_kind (me_event_type m)) as [kind|]; [right|by left].
  exists kind. split; [done|]. unfold _parse_iso_or_now. run_pure.
  destruct (insert_event_run tid kind (me_payload m) (me_event_id m)
    (match me_occurred_at m with
     | Some v => if str_empty v then now e else default (now e) (fromisoformat v)
     | None => now e end) e s) as [[H Hs]|(Hn & row & Hk & Hkind & H)].
  - left. split; [done|]. by rewrite (bind_ok _ _ _ _ _ _ H).
  - right. split; [done|]. exists row. split_and!; [done..|]. by rewrite (bind_ok _ _ _ _ _ _ H).
Qed.

(** Events already there: nothing is written. *)
Lemma write_events_replay l acc e s :
  all_seen s l → foldM (write_event tid) acc l e s = (s, inr (acc.1.1, acc.1.2 + countable l, acc.2)).
Proof.
  revert acc. induction l as [|m l IH]; intros acc Hl; cbn [foldM].
  - destruct acc as [[w d] f]. cbn. unfold countable. cbn. by rewrite Z.add_0_r.
  - apply Forall_cons in Hl as [Hm Hl]. rewrite countable_cons.
    destruct (write_event_run acc m e s) as [[Hk H]|(kind & Hk & [[_ H]|[Hn _]])].
    + rewrite (bind_ok _ _ _ _ _ _ H), (IH acc Hl), Hk. do 5 f_equal; lia.
    + rewrite (bind_ok _ _ _ _ _ _ H), (IH _ Hl), Hk. cbn. do 4 f_equal. lia.
    + destruct Hn. apply Hm. by rewrite Hk.
Qed.

(** What the loop does to the database, with [w] rows written of [n] countable events. *)
Record loop_effect (l : list MappedEvent) (s s' : db) (w : Z) : Prop := {
  le_ok : events_ok s';
  le_kept : t_analytic_event s ⊆ t_analytic_event s';
  le_only : only_events s s';
  le_seen : all_seen s' l;
  le_size : Z.of_nat (size (t_analytic_event s')) = Z.of_nat (size (t_analytic_event s)) + w;
  le_new : ∀ k r, t_analytic_event s' !! k = Some r → t_analytic_event s !! k = Some r ∨ from_mapped l r;
}.

Lemma write_events_run l acc e s :
  events_ok s → ∃ s' acc', foldM (write_event tid) acc l e s = (s', inr acc') ∧
    loop_effect l s s' (acc'.1.1 - acc.1.1) ∧ acc.1.1 <= acc'.1.1 ∧
    acc'.1.1 + acc'.1.2 = acc.1.1 + acc.1.2 + countable l.
Proof.
  revert acc s. induction l as [|m l IH]; intros acc s Hs; cbn [foldM].
  - exists s, acc. split; [done|]. unfold countable. cbn. split; [|lia]. split; try done; [by constructor|lia|auto].
  - assert (∀ s1 acc1, write_event tid acc m e s = (s1, inr acc1) → events_ok s1 →
      loop_effect [m] s s1 (acc1.1.1 - acc.1.1) → acc.1.1 <= acc1.1.1 →
      acc1.1.1 + acc1.1.2 = acc.1.1 + acc.1.2 + countable [m] →
      ∃ s' acc', (write_event tid acc m ≫= (λ b, foldM (write_event tid) b l)) e s = (s', inr acc') ∧
        loop_effect (m :: l) s s' (acc'.1.1 - acc.1.1) ∧ acc.1.1 <= acc'.1.1 ∧
        acc'.1.1 + acc'.1.2 = acc.1.1 + acc.1.2 + countable (m :: l)) as Hstep.
    { intros s1 acc1 H1 Hok1 L1 Hle1 Hsum1. rewrite (bind_ok _ _ _ _ _ _ H1).
      destruct (IH acc1 s1 Hok1) as (s' & acc' & H' & L & Hle & Hsum). exists s', acc'.
      split; [done|]. rewrite countable_cons in Hsum1 |- *. change (countable []) with 0 in Hsum1.
      split; [|split; lia]. destruct L1, L. split; try done.
      - by transitivity (t_analytic_event s1).
      - unfold only_events in *. intuition congruence.
      - apply Forall_cons. split; [|done]. intros Hk. eapply seen_mono; [done|].
        by apply (proj1 (Forall_singleton _ _) le_seen0).
      - lia.
      - intros k r Hr. destruct (le_new1 k r Hr) as [Hr1|(m' & Hm' & Hrest)].
        + destruct (le_new0 k r Hr1) as [?|(m' & Hm' & Hrest)]; [by left|].
          right. exists m'. apply list_elem_of_singleton in Hm' as ->. split; [left|done].
        + right. exists m'. split; [by right|done]. }
    destruct (write_event_run acc m e s) as [[Hk H]|(kind & Hk & [[Hseen H]|(Hn & row & Hrow & Hkind & H)])].
    + apply (Hstep _ _ H); [done| |lia|rewrite countable_cons, Hk; cbn; unfold countable; cbn; lia].
      split; try done; [constructor; [rewrite Hk; by intros [? ?]|constructor]|lia|auto].
    + apply (Hstep _ _ H); [done| |cbn; lia|rewrite countable_cons, Hk; cbn; unfold countable; cbn; lia].
      split; try done; [by constructor|cbn; lia|auto].
    + destruct (with_event_ok _ _ _ _ Hs Hn Hrow) as (Hok1 & Hfresh & Hsub & Hseen).
      apply (Hstep _ _ H); [done| |cbn; lia|rewrite countable_cons, Hk; cbn; unfold countable; cbn; lia].
      split; [done|..].
      * done.
      * done.
      * by apply Forall_singleton.
      * cbn. rewrite map_size_insert_None by done. lia.
      * intros k r. cbn. rewrite lookup_insert_Some. intros [[_ <-]|[_ Hr]]; [right|by left].
        exists m. split; [left|]. by rewrite Hk, Hkind.
Qed.
End loop.

(** ** One call *)

Section receivers.
Context (loads : string → string + json) (decrypt : string → exn + jdict).
Local Abbreviation stored_payload := (_load_credential_payload decrypt).
Local Abbreviation dispatch := (dispatch_webhook decrypt (default_registry loads)).

Lemma load_same tid p e s e' s' :
  t_integration_credential s' = t_integration_credential s →
  stored_payload tid p e s = (s, (stored_payload tid p e s).2) ∧ (stored_payload tid p e' s').2 = (stored_payload tid p e s).2.
Proof.
  intros Hc. unfold _load_credential_payload. rewrite !bind_select. cbn [rows integration_credential_table].
  rewrite Hc. destruct (List.filter _ _) as [|c [|c' l]]; cbn [scalar_one_or_none]; [done| |done].
  rewrite !bind_ret. by destruct (decrypt (IntegrationCredential.encrypted_payload c)).
Qed.

Lemma check_secret_valid missing headers cred :
  sig_valid (check_secret missing headers cred) = true →
  ∃ payload x, cred = Some payload ∧ dget "webhook_secret" payload = Some (JStr x) ∧
    provided_secret headers = Some x ∧ x ≠ "".
Proof.
  unfold check_secret. destruct cred as [payload|]; [|done]. cbv zeta.
  destruct (negb _); [done|]. destruct (str_empty _) eqn:He; [done|]. unfold same_secret.
  destruct (dget "webhook_secret" payload) as [[| | | |x| |]|] eqn:Hd; try done.
  case_bool_decide as Hx; [|done]. intros _. exists payload, x.
  destruct (provided_secret headers) as [y|]; cbn in *; subst; [|done].
  split_and!; try done. by intros ->.
Qed.

Lemma builtin_handlers provider h :
  get_webhook provider (default_registry loads) = inr h →
  h = SendGridWebhookHandler loads ∨ h = LinkedInWebhookHandler.
Proof.
  unfold get_webhook. change (default_registry loads) with
    [("sendgrid", SendGridWebhookHandler loads); ("linkedin", LinkedInWebhookHandler)].
  cbn [dget]. repeat case_bool_decide; intros [= <-]; auto.
Qed.

Lemma builtin_authentic provider h headers body cred :
  get_webhook provider (default_registry loads) = inr h →
  sig_valid (verify_signature h headers body cred) = true →
  ∃ payload x, cred = Some payload ∧ dget "webhook_secret" payload = Some (JStr x) ∧
    provided_secret headers = Some x ∧ x ≠ "".
Proof. intros [-> | ->]%builtin_handlers; apply check_secret_valid. Qed.

Lemma headers_redacted headers k v :
  (k, v) ∈ _normalise_headers headers → str_lower k ∈ redacted → v = JStr "***redacted***".
Proof.
  intros ([k' v'] & [= -> ->] & _)%list_elem_of_fmap Hk. cbn. by rewrite bool_decide_eq_true_2.
Qed.

(** The steps of a call that returns: the raw row, then the rejection or the loop. *)
Lemma dispatch_steps provider tid headers body e s s' r :
  dispatch provider tid headers body e s = (s', inr r) →
  ∃ h cred, get_webhook provider (default_registry loads) = inr h ∧ (stored_payload tid (h_provider h) e s).2 = inr cred ∧
    let sig := verify_signature h headers body cred in
    let raw := raw_webhook_row tid (h_provider h) sig headers body (now e) (next_uuid s) in
    let s1 := set_rows (<[next_uuid s := raw]> (t_raw_webhook s)) (s <| next_uuid := (next_uuid s + 1)%N |>) in
    r_raw_webhook_id r = next_uuid s ∧ r_signature_valid r = sig_valid sig ∧
    if sig_valid sig then
      ∃ mapped s2 acc, map_to_events h body = inr mapped ∧
        foldM (write_event tid) (0, 0, None) mapped e s1 = (s2, inr acc) ∧
        r_events_written r = acc.1.1 ∧ r_events_deduped r = acc.1.2 ∧ r_mapped_event_id r = acc.2 ∧
        s' = match acc.2 with
             | Some id => set_rows (alter (λ w, w <| RawWebhook.mapped_event_id := Some id |>) (next_uuid s)
                            (t_raw_webhook s2)) s2
             | None => s2
             end
    else
      r_mapped_event_id r = None ∧ r_events_written r = 0 ∧
      ∃ log, AuditLog.action log = "webhook_signature_failed" ∧ AuditLog.entity_id log = next_uuid s ∧
        s' = set_rows (<[next_uuid s1 := log]> (t_audit_log s1)) (s1 <| next_uuid := (next_uuid s1 + 1)%N |>).
Proof.
  intros Hrun. unfold dispatch_webhook in Hrun. apply bind_inr in Hrun as (s0 & h & Hh & Hrun).
  apply of_sum_inr in Hh as [Hh ->]. apply bind_inr in Hrun as (s0 & cred & Hc & Hrun).
  destruct (load_same tid (h_provider h) e s e s eq_refl) as [Hl _]. rewrite Hc in Hl.
  injection Hl as ->. exists h, cred. split; [done|]. split; [by rewrite Hc|].
  cbv zeta in *. rewrite bind_asks in Hrun. rewrite (bind_ok _ _ _ _ _ _ (add_row_run _ _ _)) in Hrun.
  set (sig := verify_signature h headers body cred) in *.
  destruct (sig_valid sig) eqn:Hsig; cbn [negb] in Hrun.
  - apply bind_inr in Hrun as (s1 & mapped & Hm & Hrun). apply of_sum_inr in Hm as [Hm ->].
    apply bind_inr in Hrun as (s2 & acc & Hl & Hrun). apply bind_inr in Hrun as (s3 & [] & Hu & Hrun).
    apply ret_inr in Hrun as [-> ->]. cbn. split_and!; [done..|].
    exists mapped, s2, acc. split_and!; [done..|]. destruct acc as [[w d] [id|]]; cbn in *.
    + by injection Hu as <-.
    + by injection Hu as <-.
  - apply bind_inr in Hrun as (s1 & [] & Ha & Hrun). apply ret_inr in Hrun as [-> ->]. cbn.
    split_and!; [done..|]. injection Ha as <-. eexists. split_and!; [| |reflexivity]; done.
Qed.

(** The state after the raw row is as good as before for the events. *)
Lemma raw_row_events_ok raw s :
  events_ok s → events_ok (set_rows (<[next_uuid s := raw]> (t_raw_webhook s)) (s <| next_uuid := (next_uuid s + 1)%N |>)).
Proof. intros Hs. apply (events_frame s); [done|cbn; lia|done]. Qed.

Lemma dispatch_events provider tid headers body :
  respects events_step (dispatch provider tid headers body).
Proof.
  unfold dispatch_webhook, write_event, _parse_iso_or_now, _load_credential_payload, audit, write_audit.
  repeat first [ apply insert_event_step
               | apply (respects_frame_add events_step); intros; apply events_frame; [done|cbn; lia]
               | apply (respects_frame_update events_step); intros; apply events_frame; [done|cbn; lia]
               | respects_step ].
Qed.

(** What the raw row keeps of a call. *)
Definition kept_call (h : ProviderHandler) (body : string) (r : WebhookResult) (raw : RawWebhook.t) : Prop :=
  RawWebhook.provider raw = h_provider h ∧ RawWebhook.payload raw = body ∧
  RawWebhook.signature_valid raw = r_signature_valid r ∧ RawWebhook.mapped_event_id raw = r_mapped_event_id r ∧
  ∀ k v, (k, v) ∈ RawWebhook.headers raw → str_lower k ∈ redacted → v = JStr "***redacted***".

(** C16: a call of the uniform receiver. Every call leaves one raw row with the body, the
    verdict and no secret in its headers. A call without the tenant's secret writes no event
    and one audit row. A call with it writes, for each mapped event of a known kind, a row
    of the tenant unless one with its id is there; nothing else appears and no event is
    lost. *)
Theorem webhook_spec provider tid headers body e s s' r :
  events_ok s → dispatch provider tid headers body e s = (s', inr r) →
  ∃ h raw, get_webhook provider (default_registry loads) = inr h ∧
    t_raw_webhook s' = <[r_raw_webhook_id r := raw]> (t_raw_webhook s) ∧ kept_call h body r raw ∧
    events_ok s' ∧ t_suppression_entry s' = t_suppression_entry s ∧
    if r_signature_valid r then
      (∃ payload x, stored_payload tid (h_provider h) e s = (s, inr (Some payload)) ∧
        dget "webhook_secret" payload = Some (JStr x) ∧ provided_secret headers = Some x ∧ x ≠ "") ∧
      ∃ mapped, map_to_events h body = inr mapped ∧ all_seen tid s' mapped ∧
        t_analytic_event s ⊆ t_analytic_event s' ∧
        Z.of_nat (size (t_analytic_event s')) = Z.of_nat (size (t_analytic_event s)) + r_events_written r ∧
        r_events_written r + r_events_deduped r = countable mapped ∧
        ∀ k ev, t_analytic_event s' !! k = Some ev → t_analytic_event s !! k = Some ev ∨ from_mapped tid mapped ev
    else
      t_analytic_event s' = t_analytic_event s ∧
      ∃ k log, t_audit_log s' !! k = Some log ∧ AuditLog.action log = "webhook_signature_failed" ∧
        AuditLog.entity_id log = r_raw_webhook_id r.
Proof.
  intros Hs Hrun.
  destruct (dispatch_steps _ _ _ _ _ _ _ _ Hrun) as (h & cred & Hh & Hc & Hid & Hv & Hrest). rewrite Hid, Hv.
  pose proof (raw_row_events_ok (raw_webhook_row tid (h_provider h) (verify_signature h headers body cred)
    headers body (now e) (next_uuid s)) s Hs) as Hs1.
  set (sig := verify_signature h headers body cred) in *.
  set (raw := raw_webhook_row tid (h_provider h) sig headers body (now e) (next_uuid s)) in *.
  destruct (sig_valid sig) eqn:Hsig.
  - destruct Hrest as (mapped & s2 & acc & Hm & Hl & Hw & Hd & Hf & ->).
    destruct (write_events_run tid mapped (0, 0, None) e _ Hs1) as (s2' & acc' & Hl' & L & Hle & Hsum).
    rewrite Hl' in Hl. injection Hl as -> ->. destruct L as [Hok Hsub (Hsup & Hraw & _) Hseen Hsize Hnew].
    cbn [fst snd] in *. rewrite Z.sub_0_r in Hsize.
    exists h, (raw <| RawWebhook.mapped_event_id := acc.2 |>). split; [done|].
    assert (∀ m : gmap N RawWebhook.t, events_ok (set_rows m s2)) as Hok' by
      (intros m; apply (events_frame s2); [done|cbn; lia|done]).
    split; [|split; [|split; [|split; [|split]]]].
    + destruct acc.2 as [id|]; cbn; rewrite Hraw; cbn; [by rewrite alter_insert_eq|done].
    + split_and!; [done|done|by rewrite Hv|by rewrite Hf|apply headers_redacted].
    + destruct acc.2; [apply Hok'|done].
    + destruct acc.2; exact Hsup.
    + destruct (builtin_authentic _ _ headers body cred Hh Hsig) as (payload & x & -> & ? & ? & ?).
      exists payload, x. split; [|done]. destruct (load_same tid (h_provider h) e s e s eq_refl) as [-> _].
      by rewrite Hc.
    + exists mapped. rewrite Hw, Hd. destruct acc.2; split_and!; try done; lia.
  - destruct Hrest as (Hf & _ & log & Ha & He & ->). exists h, raw. split_and!; try done.
    + split_and!; [done|done|by rewrite Hv|by rewrite Hf|apply headers_redacted].
    + refine (proj1 (events_frame _ _ _ _ Hs1)); [done|cbn; lia].
    + exists (next_uuid s + 1)%N, log. cbn. by rewrite lookup_insert_eq.
Qed.

(** A webhook delivered again. Whatever happens in between, as long as the credentials
    are the same and the events the first call recorded are still there, the second call
    gives the same verdict, writes no event and reports as duplicates exactly what the first
    one wrote or found. *)
Theorem webhook_replay provider tid headers body e s s1 r1 e2 s2 s3 r2 :
  events_ok s → dispatch provider tid headers body e s = (s1, inr r1) →
  t_integration_credential s2 = t_integration_credential s →
  (∀ id, seen tid s1 id → seen tid s2 id) → events_ok s2 →
  dispatch provider tid headers body e2 s2 = (s3, inr r2) →
  r_signature_valid r2 = r_signature_valid r1 ∧ t_analytic_event s3 = t_analytic_event s2 ∧
  r_events_written r2 = 0 ∧
  (r_signature_valid r1 = true → r_mapped_event_id r2 = None ∧
    r_events_deduped r2 = r_events_written r1 + r_events_deduped r1).
Proof.
  intros Hs H1 Hcred Hseen Hs2 H2.
  destruct (dispatch_steps _ _ _ _ _ _ _ _ H1) as (h & cred & Hh & Hc & _ & Hv1 & R1).
  destruct (dispatch_steps _ _ _ _ _ _ _ _ H2) as (h' & cred' & Hh' & Hc' & _ & Hv2 & R2).
  rewrite Hh in Hh'. injection Hh' as <-.
  destruct (load_same tid (h_provider h) e s e2 s2 Hcred) as [_ El]. rewrite El, Hc in Hc'.
  injection Hc' as <-. rewrite Hv1, Hv2. split; [done|].
  set (sig := verify_signature h headers body cred) in *.
  pose proof (raw_row_events_ok (raw_webhook_row tid (h_provider h) sig headers body (now e) (next_uuid s)) s Hs) as Hs1.
  destruct (sig_valid sig) eqn:Hsig.
  - destruct R1 as (mapped & s1' & acc & Hm & Hl & Hw & Hd & Hf & ->).
    destruct R2 as (mapped' & s3' & acc' & Hm' & Hl' & Hw' & Hd' & Hf' & ->).
    rewrite Hm in Hm'. injection Hm' as <-.
    destruct (write_events_run tid mapped (0, 0, None) e _ Hs1) as (s1'' & acc'' & El1 & L & _ & Hsum).
    rewrite El1 in Hl. injection Hl as -> ->. cbn [fst snd] in Hsum.
    rewrite write_events_replay in Hl'.
    2:{ eapply Forall_impl; [exact (le_seen _ _ _ _ _ L)|]. intros m Hk Hm'. apply (Hseen (me_event_id m)).
        destruct (Hk Hm') as (k & ev & Hev & Hkey). exists k, ev. split; [|done]. by destruct acc.2. }
    injection Hl' as <- <-. cbn in *. split_and!; [done..|]. intros _. split; [done|lia].
  - destruct R1 as (_ & _ & log & _ & _ & ->). destruct R2 as (_ & Hw' & log' & _ & _ & ->). by split_and!.
Qed.

(** ** The two SendGrid receivers *)

Lemma event_kinds_agree evt kind :
  _event_kind_for (we_event_type evt) = Some kind →
  ∃ m, mapped_event evt = Some m ∧ me_event_id m = we_event_id evt ∧
    _coerce_event_kind (me_event_type m) = Some kind.
Proof.
  unfold _event_kind_for, mapped_event. cbn [dget _EVENT_KIND_MAP _EVENT_KIND_FOR_NORMALISED].
  repeat case_bool_decide; intros Hk; simplify_eq; by eexists.
Qed.

(** Every event of the body is in the table already. *)
Definition known (tid : N) (s : db) (evt : EmailWebhookEvent) : Prop :=
  is_Some (_event_kind_for (we_event_type evt)) → seen tid s (we_event_id evt).

Lemma ingest_known tid events acc e s :
  Forall (known tid s) events → ∃ d, foldM (ingest_event tid) acc events e s =
    (s, inr (acc.1.1, acc.1.2 + d, acc.2)).
Proof.
  revert acc. induction events as [|evt events IH]; intros [[w d] p] Hall; cbn [foldM].
  - exists 0. cbn. by rewrite Z.add_0_r.
  - apply Forall_cons in Hall as [Hevt Hall].
    assert (∃ d', ingest_event tid (w, d, p) evt e s = (s, inr (w, d + d', p))) as [d' H1].
    { unfold ingest_event, known in *. destruct (_event_kind_for (we_event_type evt)) as [kind|];
        [|exists 0; by rewrite Z.add_0_r].
      exists 1. unfold _parse_iso_or_now. run_pure.
      edestruct (insert_event_run tid kind (we_payload evt) (we_event_id evt)) as [[H _]|[Hn _]];
        [|by destruct Hn; apply Hevt].
      by rewrite (bind_ok _ _ _ _ _ _ H). }
    rewrite (bind_ok _ _ _ _ _ _ H1). destruct (IH (w, d + d', p) Hall) as [d2 ->].
    exists (d' + d2). cbn. by rewrite Z.add_assoc.
Qed.

(** What came through the uniform receiver suppresses nobody, and the older receiver, which
    would write the suppressions of bounces, complaints and unsubscribes, then takes the same
    body for a duplicate: those recipients stay on the mailing list. *)
Theorem uniform_receiver_blocks_suppression tid headers body e s s1 r secret e2 s2 out :
  events_ok s → dispatch "sendgrid" tid headers body e s = (s1, inr r) → r_signature_valid r = true →
  receive_email_webhook loads decrypt tid secret body e2 s1 = (s2, inr out) →
  t_suppression_entry s2 = t_suppression_entry s ∧ out.2.2 = 0.
Proof.
  intros Hs H1 Hv H2.
  destruct (webhook_spec _ _ _ _ _ _ _ _ Hs H1) as (h & raw & Hh & _ & _ & _ & Hsup & Hif).
  rewrite Hv in Hif. destruct Hif as (_ & mapped & Hm & Hseen & _).
  injection Hh as <-. cbn [map_to_events SendGridWebhookHandler] in Hm.
  unfold receive_email_webhook in H2. apply bind_inr in H2 as (s0 & payload & Hl & H2).
  destruct (load_same tid "sendgrid" e2 s1 e2 s1 eq_refl) as [El _]. rewrite Hl in El. injection El as ->.
  destruct payload as [payload|]; [|done]. cbv zeta in H2.
  apply bind_inr in H2 as (s0 & [] & Hr & H2). apply raise_if_inr in Hr as [_ ->].
  destruct (load_body loads body) as [msg|v]; [done|]. apply bind_inr in H2 as (s0 & events & Hp & H2).
  apply of_sum_inr in Hp as [Hp ->]. rewrite Hp in Hm. injection Hm as <-.
  destruct (ingest_known tid events (0, 0, 0) e2 s1) as [d Hd].
  { apply Forall_forall. intros evt Hin [kind Hk]. destruct (event_kinds_agree _ _ Hk) as (m & Hmap & Hid & Hc).
    unfold all_seen in Hseen. rewrite Forall_forall in Hseen. rewrite <- Hid. apply Hseen; [|by rewrite Hc].
    apply list_elem_of_omap. by exists evt. }
  rewrite (bind_ok _ _ _ _ _ _ Hd) in H2. apply ret_inr in H2 as [-> ->]. by cbn.
Qed.
End receivers.

(** ** An open event, delivered twice *)

Definition webhook_db : db :=
  empty_db <| t_integration_credential := {[ 70%N := sample_credential "sendgrid" None ]} |> <| next_uuid := 100%N |>.
Definition webhook_headers : list (string * string) := [("content-type", "application/json"); ("x-mas-webhook-secret", "s3cret")].
Definition webhook_loads (_ : string) : string + json :=
  inr (JList [JObj [("event", JStr "open"); ("sg_event_id", JStr "e1"); ("timestamp", JInt 1700000000)];
              JObj [("event", JStr "processed"); ("sg_event_id", JStr "e2")]]).
Definition webhook_decrypt (_ : string) : exn + jdict := inr [("webhook_secret", JStr "s3cret")].
Definition deliver (t : Z) : db → db * (exn + WebhookResult) :=
  dispatch_webhook webhook_decrypt (default_registry webhook_loads) "SendGrid" 1 webhook_headers "[...]" (demo_env t).

Lemma webhook_db_ok : events_ok webhook_db.
Proof. split; [by intros k r ?|]. by intros k1 k2 r1 r2 x ?. Qed.

Lemma webhook_spec_witness :
  ∃ s r, deliver 7 webhook_db = (s, inr r) ∧ r_events_written r = 1 ∧ r_signature_valid r = true ∧
    events_ok s ∧ t_suppression_entry s = ∅.
Proof.
  destruct (deliver 7 webhook_db) as [s [x|r]] eqn:Hrun; [by vm_compute in Hrun|].
  destruct (webhook_spec webhook_loads webhook_decrypt _ _ _ _ _ _ _ _ webhook_db_ok Hrun)
    as (h & raw & _ & _ & _ & Hok & Hsup & _).
  assert (inr r = (deliver 7 webhook_db).2) as Hr by (by rewrite Hrun).
  exists s, r. split; [done|]. split_and!; [|by vm_compute in Hr; injection Hr as ->|done|done].
  by vm_compute in Hr; injection Hr as ->.
Defined.

Lemma webhook_replay_witness :
  ∃ s1 s2 r1 r2, deliver 7 webhook_db = (s1, inr r1) ∧ deliver 9 s1 = (s2, inr r2) ∧
    r_events_written r1 = 1 ∧ r_events_written r2 = 0 ∧ t_analytic_event s2 = t_analytic_event s1.
Proof.
  destruct (deliver 7 webhook_db) as [s1 [x|r1]] eqn:H1; [by vm_compute in H1|].
  assert (s1 = (deliver 7 webhook_db).1) as Hs1 by (by rewrite H1).
  assert (inr r1 = (deliver 7 webhook_db).2) as Hr1 by (by rewrite H1).
  destruct (deliver 9 s1) as [s2 [x|r2]] eqn:H2; [by rewrite Hs1 in H2; vm_compute in H2|].
  assert (t_integration_credential s1 = t_integration_credential webhook_db) as Hc by (rewrite Hs1; by vm_compute).
  pose proof (dispatch_events webhook_loads webhook_decrypt "SendGrid" 1 webhook_headers "[...]" (demo_env 7)
    webhook_db webhook_db_ok) as [Hok _]. unfold deliver in H1. rewrite H1 in Hok. cbn [fst] in Hok.
  destruct (webhook_replay webhook_loads webhook_decrypt _ _ _ _ _ _ _ _ _ _ _ _ webhook_db_ok H1
    Hc (λ id h, h) Hok H2) as (_ & He & Hw & _).
  exists s1, s2, r1, r2. split_and!; try done. by vm_compute in Hr1; injection Hr1 as ->.
Defined.
