(* ===== verification/TenantSettings.v ===== *)
(** * Unsubscribing and the settings of a tenant

    src/app/api/unsubscribe.py: the public endpoint that turns a signed link into a
    suppression. [unsign] is [URLSafeSerializer(secret, salt).loads], [None] for a
    BadSignature. And the settings the senders obey: src/app/api/compliance_settings.py,
    compliance_rules.py, frequency_caps.py and provider_rate_limits.py. *)

From S2P Require Export Requests Compliance Webhooks.
Local Open Scope Z_scope.

(** ** The unsubscribe link *)

(** [app/api/unsubscribe.py] lines 39-39, [_SERIALIZER_SALT]. *)
Definition _SERIALIZER_SALT : string := "email-unsubscribe".

(** [app/api/schemas/unsubscribe.py] lines 9-19, [UnsubscribeResponse]. *)
Record UnsubscribeResponse := {
  u_tenant_id : N;
  u_channel_platform : string;
  u_identifier : string;
  u_suppressed_at : Z;
  u_already_existed : bool;
}.

Definition link_not_found : exn := HTTPException 404 "unsubscribe link not found".

Section unsubscribe.
Context (unsign : string → string → string → option json).
(** [get_settings().effective_preview_share_secret()]. *)
Context (preview_share_secret : string).

(** The secrets tried, in order. *)
Definition candidate_secrets (rows : list TenantComplianceSettings.t) : list string :=
  let own := List.filter (λ s, negb (str_empty s)) (omap TenantComplianceSettings.unsubscribe_secret rows) in
  if negb (str_empty preview_share_secret) && negb (preview_share_secret ∈b own)
  then own ++ [preview_share_secret] else own.

(** A payload that is an object with the three keys. *)
Definition token_payload (v : json) : option jdict :=
  match v with
  | JObj d => if forallb (λ k, match dget k d with Some _ => true | None => false end)
                   ["tenant_id"; "channel_platform"; "identifier"]
              then Some d else None
  | _ => None
  end.

(** The first secret that verifies the token. *)
Fixpoint try_secrets (token : string) (secrets : list string) : option jdict :=
  match secrets with
  | [] => None
  | secret :: secrets =>
      match unsign secret _SERIALIZER_SALT token ≫= token_payload with
      | Some d => Some d
      | None => try_secrets token secrets
      end
  end.

(** [app/api/unsubscribe.py] lines 129-166, [_verify_token]. *)
Definition _verify_token (token : string) : M jdict :=
  settings_rows ← select (λ r, match TenantComplianceSettings.unsubscribe_secret r with
                               | Some _ => true | None => false end);
  match try_secrets token (candidate_secrets settings_rows) with
  | Some d => mret d
  | None => raise link_not_found
  end.

(** [UUID(v)] of a JSON value. *)
Definition uuid_of (v : json) : exn + N :=
  match v with
  | JStr s => match uuid_parse s with
              | Some n => inr n
              | None => inl (ValueError "badly formed hexadecimal UUID string")
              end
  | JNull => inl TypeError
  | _ => inl (AttributeError "replace")
  end.

(** [app/api/unsubscribe.py] lines 42-126, [consume_unsubscribe_token]. An identifier that is no
    string is refused by the driver. The entry takes the database's [NOW()], the time of the environment;
    the answer to a fresh one takes [datetime.now(UTC)] of the application, [app_now]. *)
Definition consume_unsubscribe_token (app_now : Z) (token : string) : M UnsubscribeResponse := transaction (
  payload ← _verify_token token;
  tenant_id ← of_sum (uuid_of (default JNull (dget "tenant_id" payload)));
  match as_str (dget "channel_platform" payload) with
  | None => raise link_not_found
  | Some channel =>
      match of_value ChannelPlatform.t channel with
      | None => raise link_not_found
      | Some channel_enum =>
          match as_str (dget "identifier" payload) with
          | None => raise (OtherError "DataError")
          | Some identifier =>
              result ← insert_suppression tenant_id channel_enum identifier "unsubscribe" None;
              match result with
              | None =>
                  rows ← select (suppresses tenant_id channel_enum identifier);
                  existing ← scalar_one rows;
                  mret {| u_tenant_id := tenant_id; u_channel_platform := channel; u_identifier := identifier;
                          u_suppressed_at := SuppressionEntry.suppressed_at existing;
                          u_already_existed := true |}
              | Some row =>
                  audit tenant_id "suppression_entry" (SuppressionEntry.id row) "unsubscribed" None
                    (Some [("channel_platform", JStr channel); ("identifier", JStr identifier);
                           ("reason", JStr "unsubscribe")])
                    [("source", JStr "public_token")] ;;
                  mret {| u_tenant_id := tenant_id; u_channel_platform := channel; u_identifier := identifier;
                          u_suppressed_at := app_now; u_already_existed := false |}
              end
          end
      end
  end).
End unsubscribe.

(** ** Compliance settings *)

(** [app/api/schemas/compliance_settings.py] lines 9-13, [ComplianceSettingsUpsert]. *)
Record ComplianceSettingsUpsert := {
  cs_postal_address : option string;
  cs_unsubscribe_secret : option string;
}.

(** [app/api/schemas/compliance_settings.py] lines 16-25, [ComplianceSettingsOut]. *)
Record ComplianceSettingsOut := {
  cso_id : option N;
  cso_tenant_id : N;
  cso_postal_address : option string;
  cso_has_unsubscribe_secret : bool;
  cso_created_at : option Z;
  cso_updated_at : option Z;
}.

Definition compliance_out (row : TenantComplianceSettings.t) : ComplianceSettingsOut := {|
  cso_id := Some (TenantComplianceSettings.id row);
  cso_tenant_id := TenantComplianceSettings.tenant_id row;
  cso_postal_address := TenantComplianceSettings.postal_address row;
  cso_has_unsubscribe_secret := negb (str_empty (default "" (TenantComplianceSettings.unsubscribe_secret row)));
  cso_created_at := Some (TenantComplianceSettings.created_at row);
  cso_updated_at := Some (TenantComplianceSettings.updated_at row) |}.

Definition settings_of (tenant_id : N) : M (option TenantComplianceSettings.t) :=
  rows ← select (λ r, TenantComplianceSettings.tenant_id r ==b tenant_id);
  scalar_one_or_none rows.

(** [app/api/compliance_settings.py] lines 28-56, [get_compliance_settings]. *)
Definition get_compliance_settings (user : AppUser.t) : M ComplianceSettingsOut :=
  row ← settings_of (AppUser.tenant_id user);
  mret (match row with
        | Some row => compliance_out row
        | None => {| cso_id := None; cso_tenant_id := AppUser.tenant_id user; cso_postal_address := None;
                     cso_has_unsubscribe_secret := false; cso_created_at := None; cso_updated_at := None |}
        end).

(** [app/api/compliance_settings.py] lines 59-96, [upsert_compliance_settings]. *)
Definition upsert_compliance_settings (body : ComplianceSettingsUpsert) (user : AppUser.t)
    : M ComplianceSettingsOut :=
  row ← settings_of (AppUser.tenant_id user);
  t ← asks now;
  row ← match row with
        | None => add_row (λ id, {|
            TenantComplianceSettings.id := id;
            TenantComplianceSettings.tenant_id := AppUser.tenant_id user;
            TenantComplianceSettings.postal_address := cs_postal_address body;
            TenantComplianceSettings.unsubscribe_secret := cs_unsubscribe_secret body;
            TenantComplianceSettings.auto_pause_on_critical_anomaly := false;
            TenantComplianceSettings.created_at := t;
            TenantComplianceSettings.updated_at := t |})
        | Some row => assign row (λ r,
            let r := r <| TenantComplianceSettings.postal_address := cs_postal_address body |> in
            match cs_unsubscribe_secret body with
            | Some s => r <| TenantComplianceSettings.unsubscribe_secret := Some s |>
            | None => r
            end <| TenantComplianceSettings.updated_at := t |>)
        end;
  mret (compliance_out row).

(** ** Compliance rules *)

(** [app/api/schemas/compliance.py] lines 11-17, [ComplianceRuleCreate]. *)
Record ComplianceRuleCreate := {
  cr_keyword : string;
  cr_pattern_kind : CompliancePatternKind.t;
  cr_severity : ComplianceSeverity.t;
  cr_description : option string;
}.

(** [app/api/compliance_rules.py] lines 32-69, [create_compliance_rule]. The keyword is unique per
    tenant. *)
Definition create_compliance_rule (re_compile : string → string + regex) (body : ComplianceRuleCreate)
    (user : AppUser.t) : M ComplianceRule.t :=
  (match cr_pattern_kind body, re_compile (cr_keyword body) with
   | CompliancePatternKind.regex, inl msg =>
       raise (HTTPException 422 ("keyword is not a valid regex: " +:+ msg))
   | _, _ => mret ()
   end) ;;
  t ← asks now;
  same ← select (λ r, (ComplianceRule.tenant_id r ==b AppUser.tenant_id user) &&
                      (ComplianceRule.keyword r ==b cr_keyword body));
  raise_if (negb (bool_decide (length same = 0%nat)))
    (HTTPException 409 ("a compliance rule for '" +:+ cr_keyword body +:+ "' already exists")) ;;
  add_row (λ id, {|
    ComplianceRule.id := id;
    ComplianceRule.tenant_id := AppUser.tenant_id user;
    ComplianceRule.keyword := cr_keyword body;
    ComplianceRule.pattern_kind := value (cr_pattern_kind body);
    ComplianceRule.severity := value (cr_severity body);
    ComplianceRule.description := cr_description body;
    ComplianceRule.created_at := t;
    ComplianceRule.updated_at := t |}).

(** [(0 if r.severity == "block" else 1, r.keyword)], compared. *)
Definition rule_rank (r : ComplianceRule.t) : Z := if ComplianceRule.severity r ==b "block" then 0 else 1.
Definition rule_order (x y : ComplianceRule.t) : Prop :=
  rule_rank x < rule_rank y ∨
  (rule_rank x = rule_rank y ∧ String.leb (ComplianceRule.keyword x) (ComplianceRule.keyword y) = true).
#[export] Instance rule_order_dec : RelDecision rule_order.
Proof. intros x y. unfold rule_order. apply _. Defined.

(** [app/api/compliance_rules.py] lines 72-91, [list_compliance_rules]. The second sort decides. *)
Definition list_compliance_rules : M (list ComplianceRule.t) :=
  rows ← select (λ _, true);
  mret (merge_sort rule_order rows).

(** [app/api/compliance_rules.py] lines 94-104, [delete_compliance_rule]. *)
Definition delete_compliance_rule (rule_id : N) : M () :=
  rule ← get_row (R:=ComplianceRule.t) rule_id;
  match rule with
  | None => raise (HTTPException 404 "rule not found")
  | Some _ => delete_where (λ r, ComplianceRule.id r ==b rule_id) ;; mret ()
  end.

(** ** Frequency caps *)

(** [app/api/schemas/frequency_caps.py] lines 11-16, [FrequencyCapUpsert]. *)
Record FrequencyCapUpsert := {
  fc_max_sends_per_recipient : Z;
  fc_window_days : Z;
  fc_enabled : bool;
}.

Definition no_cap (ch : ChannelPlatform.t) : exn :=
  HTTPException 404 ("no frequency cap configured for " +:+ value ch).

(** The place of a member in its enumeration, which orders an enum column. *)
Definition enum_index (ch : ChannelPlatform.t) : Z :=
  match list_find (eq ch) (members ChannelPlatform.t) with Some (i, _) => Z.of_nat i | None => 0 end.

(** [app/api/frequency_caps.py] lines 28-43, [list_frequency_caps]. *)
Definition list_frequency_caps : M (list FrequencyCapSetting.t) :=
  rows ← select (λ _, true);
  mret (order_by (λ r, enum_index (FrequencyCapSetting.channel_platform r)) rows).

(** [app/api/frequency_caps.py] lines 46-64, [get_frequency_cap]. *)
Definition get_frequency_cap (ch : ChannelPlatform.t) : M FrequencyCapSetting.t :=
  rows ← select (λ r, FrequencyCapSetting.channel_platform r ==b ch);
  row ← scalar_one_or_none rows;
  match row with None => raise (no_cap ch) | Some row => mret row end.

(** [app/api/frequency_caps.py] lines 67-97, [upsert_frequency_cap]. *)
Definition upsert_frequency_cap (ch : ChannelPlatform.t) (body : FrequencyCapUpsert) (user : AppUser.t)
    : M FrequencyCapSetting.t :=
  rows ← select (λ r, (FrequencyCapSetting.tenant_id r ==b AppUser.tenant_id user) &&
                      (FrequencyCapSetting.channel_platform r ==b ch));
  row ← scalar_one_or_none rows;
  t ← asks now;
  match row with
  | None => add_row (λ id, {|
      FrequencyCapSetting.id := id;
      FrequencyCapSetting.tenant_id := AppUser.tenant_id user;
      FrequencyCapSetting.channel_platform := ch;
      FrequencyCapSetting.max_sends_per_recipient := fc_max_sends_per_recipient body;
      FrequencyCapSetting.window_days := fc_window_days body;
      FrequencyCapSetting.enabled := fc_enabled body;
      FrequencyCapSetting.created_at := t;
      FrequencyCapSetting.updated_at := t |})
  | Some row => assign row (λ r, r
      <| FrequencyCapSetting.max_sends_per_recipient := fc_max_sends_per_recipient body |>
      <| FrequencyCapSetting.window_days := fc_window_days body |>
      <| FrequencyCapSetting.enabled := fc_enabled body |>
      <| FrequencyCapSetting.updated_at := t |>)
  end.

(** [app/api/frequency_caps.py] lines 100-122, [delete_frequency_cap]. *)
Definition delete_frequency_cap (ch : ChannelPlatform.t) : M () :=
  row ← get_frequency_cap ch;
  delete_where (λ r, FrequencyCapSetting.id r ==b FrequencyCapSetting.id row) ;;
  mret ().

(** ** Provider rate limits *)

(** [app/api/schemas/provider_rate_limits.py] lines 9-13, [ProviderRateLimitUpsert]. *)
Record ProviderRateLimitUpsert := {
  rl_requests_per_minute : Z;
  rl_enabled : bool;
}.

Definition provider_order (x y : ProviderRateLimit.t) : Prop :=
  String.leb (ProviderRateLimit.provider x) (ProviderRateLimit.provider y) = true.
#[export] Instance provider_order_dec : RelDecision provider_order.
Proof. intros x y. unfold provider_order. apply _. Defined.

(** [app/api/provider_rate_limits.py] lines 31-44, [list_rate_limits]. *)
Definition list_rate_limits : M (list ProviderRateLimit.t) :=
  rows ← select (λ _, true);
  mret (merge_sort provider_order rows).

(** [app/api/provider_rate_limits.py] lines 47-65, [get_rate_limit]. *)
Definition get_rate_limit (provider : string) : M ProviderRateLimit.t :=
  rows ← select (λ r, ProviderRateLimit.provider r ==b provider);
  row ← scalar_one_or_none rows;
  match row with
  | None => raise (HTTPException 404 ("no rate limit configured for " +:+ str_repr provider))
  | Some row => mret row
  end.

(** [app/api/provider_rate_limits.py] lines 68-96, [upsert_rate_limit]. *)
Definition upsert_rate_limit (provider : string) (body : ProviderRateLimitUpsert) (user : AppUser.t)
    : M ProviderRateLimit.t :=
  rows ← select (λ r, (ProviderRateLimit.tenant_id r ==b AppUser.tenant_id user) &&
                      (ProviderRateLimit.provider r ==b provider));
  row ← scalar_one_or_none rows;
  t ← asks now;
  match row with
  | None => add_row (λ id, {|
      ProviderRateLimit.id := id;
      ProviderRateLimit.tenant_id := AppUser.tenant_id user;
      ProviderRateLimit.provider := provider;
      ProviderRateLimit.requests_per_minute := rl_requests_per_minute body;
      ProviderRateLimit.enabled := rl_enabled body;
      ProviderRateLimit.created_at := t;
      ProviderRateLimit.updated_at := t |})
  | Some row => assign row (λ r, r
      <| ProviderRateLimit.requests_per_minute := rl_requests_per_minute body |>
      <| ProviderRateLimit.enabled := rl_enabled body |>
      <| ProviderRateLimit.updated_at := t |>)
  end.

(** [app/api/provider_rate_limits.py] lines 99-118, [delete_rate_limit]. *)
Definition delete_rate_limit (provider : string) : M () :=
  row ← get_rate_limit provider;
  delete_where (λ r, ProviderRateLimit.id r ==b ProviderRateLimit.id row) ;;
  mret ().
