(* ===== verification/EmailDispatch.v ===== *)
(** * The email dispatch tool: src/app/tools/email_dispatch.py

    Suppression, validation, the compliance footer and the normalised result, over any
    [EmailConnector]. *)

From S2P Require Export EmailConnector.
Local Open Scope Z_scope.

(** ** Addresses *)

Definition is_alnum (c : ascii) : bool :=
  let n := code c in
  ((48 <=? n) && (n <=? 57)) || ((65 <=? n) && (n <=? 90)) || ((97 <=? n) && (n <=? 122)).

(** [[a-zA-Z0-9_.+-]] and [[a-zA-Z0-9-]]. *)
Definition local_char (c : ascii) : bool :=
  is_alnum c || (c ∈b ["_"; "."; "+"; "-"]%char).
Definition label_char (c : ascii) : bool := is_alnum c || (c ==b "-"%char).

(** [([a-zA-Z0-9-]+)(\.[a-zA-Z0-9-]+)*] with at least [more] dots still to come; [some]
    says whether the current label has a character. *)
Fixpoint match_labels (more : nat) (some : bool) (s : string) : bool :=
  match s with
  | EmptyString => some && bool_decide (more = 0%nat)
  | String c s' =>
      if label_char c then match_labels more true s'
      else if (c ==b "."%char) && some then match_labels (more - 1) false s'
      else some && bool_decide (more = 0%nat) && (s ==b String (ascii_of_nat 10) "")
  end.

(** The local part up to the first [@]. *)
Fixpoint match_local (some : bool) (s : string) : bool :=
  match s with
  | EmptyString => false
  | String c s' =>
      if c ==b "@"%char then some && match_labels 1 false s'
      else local_char c && match_local true s'
  end.

(** [app/tools/email_dispatch.py] lines 65-67, [_EMAIL_RE]. *)
Definition EMAIL_RE (s : string) : bool := match_local false s.

(** [app/tools/email_dispatch.py] lines 71-73, [_BLOCKED_RECIPIENT_DOMAINS]. *)
Definition BLOCKED_RECIPIENT_DOMAINS : list string :=
  ["example.com"; "example.org"; "example.net"; "test.test"].

(** [email.rsplit("@", 1)[-1]]. *)
Fixpoint after_last_at (s : string) : string :=
  match s with
  | EmptyString => ""
  | String c s' =>
      if (c ==b "@"%char) && negb (contains "@" s') then s'
      else if contains "@" s' then after_last_at s' else s
  end.

(** [app/tools/email_dispatch.py] lines 339-348, [EmailDispatchTool._validate_recipient]. *)
Definition _validate_recipient (email : string) (suppressed : list string) : option string :=
  if email ∈b suppressed then Some "suppressed"
  else if negb (EMAIL_RE email) then Some "invalid_address"
  else if str_lower (after_last_at email) ∈b BLOCKED_RECIPIENT_DOMAINS then Some "blocked_domain"
  else None.

(** ** The compliance footer *)

Record Footer := { unsubscribe_url : string; postal_address : string }.

(** [s.replace("\n", "<br>")]. *)
Fixpoint newlines_to_br (s : string) : string :=
  match s with
  | EmptyString => ""
  | String c s' => if c ==b ascii_of_nat 10 then "<br>" +:+ newlines_to_br s' else String c (newlines_to_br s')
  end.

(** The test both injections make before they append. *)
Definition footer_present (unsub addr body : string) : bool :=
  (negb (str_empty unsub) && contains unsub body) || (negb (str_empty addr) && contains addr body).

Definition nonempty (s t : string) : list string := if str_empty s then [] else [t].

(** [app/tools/email_dispatch.py] lines 351-370, [_inject_footer_text]. *)
Definition _inject_footer_text (body : option string) (footer : Footer) : option string :=
  match body with
  | None => None
  | Some body =>
      let unsub := str_strip (unsubscribe_url footer) in
      let addr := str_strip (postal_address footer) in
      if str_empty unsub && str_empty addr then Some body
      else if footer_present unsub addr body then Some body
      else Some (body +:+ newline +:+ newline +:+ "---" +:+ newline +:+
                 str_join newline (nonempty unsub ("Unsubscribe: " +:+ unsub) ++ nonempty addr addr))
  end.

(** A double quote. *)
Definition dquote : string := String (ascii_of_nat 34) "".

(** [app/tools/email_dispatch.py] lines 373-395, [_inject_footer_html]. *)
Definition _inject_footer_html (body : option string) (footer : Footer) : option string :=
  match body with
  | None => None
  | Some body =>
      let unsub := str_strip (unsubscribe_url footer) in
      let addr := str_strip (postal_address footer) in
      if str_empty unsub && str_empty addr then Some body
      else if footer_present unsub addr body then Some body
      else Some (body +:+
        "<hr style=" +:+ dquote +:+ "margin-top:24px;border:none;border-top:1px solid #ddd" +:+ dquote +:+ "/>" +:+
        "<p style=" +:+ dquote +:+ "font-size:12px;color:#666;margin-top:12px" +:+ dquote +:+ ">" +:+
        str_join middle_dot
          (nonempty unsub ("<a href=" +:+ dquote +:+ unsub +:+ dquote +:+ ">Unsubscribe</a>") ++
           nonempty addr (newlines_to_br addr)) +:+ "</p>")
  end.

(** ** The message *)

(** [app/tools/email_dispatch.py] lines 51-60, [_FORBIDDEN_HEADERS]. *)
Definition FORBIDDEN_HEADERS : list string :=
  ["return-path"; "x-mailer"; "received"; "dkim-signature"; "list-unsubscribe"; "list-unsubscribe-post"].

(** The [message] object of the input schema, and the inputs of a call. *)
Record MessageInput := {
  in_subject : string;
  in_html_body : option string;
  in_text_body : option string;
  in_headers : list (string * string);
  in_reply_to : option string;
}.

Record DispatchInput := {
  in_from_email : json;
  in_audience_batch : list json;
  in_message : MessageInput;
  in_footer : option Footer;
  in_transactional : bool;
}.

(** [app/tools/email_dispatch.py] lines 289-321, [EmailDispatchTool._build_message]. *)
Definition _build_message (payload : MessageInput) (footer : option Footer) : exn + EmailMessage.t :=
  let subject := str_strip (in_subject payload) in
  let bad_headers := List.filter (λ h, str_lower h ∈b FORBIDDEN_HEADERS) (in_headers payload).*1 in
  if str_empty subject then inl (DispatchValidationError "message.subject is required")
  else if negb (bad_headers ==b []) then
    inl (DispatchValidationError ("forbidden headers: " +:+
           json_repr (JList (JStr <$> merge_sort string_le bad_headers))))
  else
    inr {|
      EmailMessage.subject := subject;
      EmailMessage.html_body := match footer with
                                | Some f => _inject_footer_html (in_html_body payload) f
                                | None => in_html_body payload
                                end;
      EmailMessage.text_body := match footer with
                                | Some f => _inject_footer_text (in_text_body payload) f
                                | None => in_text_body payload
                                end;
      EmailMessage.headers := in_headers payload;
      EmailMessage.reply_to := in_reply_to payload |}.

(** ** The call *)

(** The normalised result; the random [batch_id], which nothing reads, is left out. *)
Record DispatchResult := {
  res_provider : string;
  accepted_count : Z;
  rejected_count : Z;
  per_message_ids : list (string * string);
  rejections : list (string * string);
}.

(** [{c.strip().lower() for c in candidates if c}]. *)
Definition normalise (candidates : list string) : list string :=
  (λ c, str_lower (str_strip c)) <$> List.filter (λ c, negb (str_empty c)) candidates.

(** A suppression of the tenant on a channel. *)
Definition suppression_of (tenant_id : N) (ch : ChannelPlatform.t) (r : SuppressionEntry.t) : bool :=
  (SuppressionEntry.tenant_id r ==b tenant_id) && (SuppressionEntry.channel_platform r ==b ch).

(** [app/tools/email_dispatch.py] lines 323-337, [EmailDispatchTool._load_suppressed_emails].
    The column is CITEXT, so membership ignores case. *)
Definition _load_suppressed_emails (tenant_id : N) (candidates : list string) : M (list string) :=
  match normalise candidates with
  | [] => mret []
  | normalised =>
      rows ← select (λ r, suppression_of tenant_id ChannelPlatform.email r &&
                          (str_lower (SuppressionEntry.identifier r) ∈b normalised));
      mret ((λ r, str_lower (SuppressionEntry.identifier r)) <$> rows)
  end.

(** [str(r.get("email", ""))]. *)
Definition email_of (r : jdict) : string := json_str (default (JStr "") (dget "email" r)).

(** The merge fields of a recipient, as strings. *)
Definition merge_fields_of (r : jdict) : exn + list (string * string) :=
  let v := default JNull (dget "merge_fields" r) in
  if negb (truthy v) then inr []
  else match v with
       | JObj d => inr ((λ kv, (kv.1, json_str kv.2)) <$> d)
       | _ => inl (AttributeError "object has no attribute 'items'")
       end.

(** The body of the per-recipient loop, over [(send_payload, rejections)]. *)
Definition check_recipient (suppressed : list string)
    (acc : list EmailRecipient.t * list (string * string)) (r : json)
    : M (list EmailRecipient.t * list (string * string)) :=
  match r with
  | JObj d =>
      let email := str_lower (str_strip (email_of d)) in
      if str_empty email then mret (acc.1, acc.2 ++ [("", "missing_email")])
      else
        match _validate_recipient email suppressed with
        | Some reason => mret (acc.1, acc.2 ++ [(email, reason)])
        | None =>
            match merge_fields_of d with
            | inl x => raise x
            | inr fields =>
                mret (acc.1 ++ [EmailRecipient.mk email fields (default JNull (dget "name" d))], acc.2)
            end
        end
  | _ => mret (acc.1, acc.2 ++ [(json_str r, "invalid_shape")])
  end.

(** What the provider's answer adds to [(per_message_ids, rejections)]. *)
Definition collect_result (acc : list (string * string) * list (string * string)) (res : SendResult.t)
    : list (string * string) * list (string * string) :=
  if SendResult.accepted res then
    match SendResult.provider_message_id res with
    | Some mid => if str_empty mid then acc else (acc.1 ++ [(SendResult.email res, mid)], acc.2)
    | None => acc
    end
  else
    let why := default "" (SendResult.error res) in
    (acc.1, acc.2 ++ [(SendResult.email res, if str_empty why then "provider_rejected" else why)]).

(** [app/tools/email_dispatch.py] lines 182-283, [EmailDispatchTool.call]. *)
Definition call (connector : EmailConnector) (tenant_id : N) (inputs : DispatchInput) : M DispatchResult :=
  let from_email := str_lower (str_strip (json_str (in_from_email inputs))) in
  raise_if (str_empty from_email) (DispatchValidationError "from_email is required") ;;
  senders ← of_sum (verified_senders connector);
  let verified := str_lower <$> senders in
  raise_if (negb (verified ==b []) && negb (from_email ∈b verified))
    (DispatchValidationError ("from_email '" +:+ from_email +:+ "' is not in verified_senders")) ;;
  let transactional := in_transactional inputs in
  message ← of_sum (_build_message (in_message inputs)
                        (if transactional then None else in_footer inputs));
  raise_if (bool_decide (length (in_audience_batch inputs) = 0%nat))
    (DispatchValidationError "audience_batch must be a non-empty list") ;;
  suppressed ← (if transactional then mret []
                else _load_suppressed_emails tenant_id
                       (email_of <$> omap (λ r, as_obj (Some r)) (in_audience_batch inputs)));
  checked ← foldM (check_recipient suppressed) ([], []) (in_audience_batch inputs);
  let send_payload := checked.1 in
  answered ← (match send_payload with
              | [] => mret ([], checked.2)
              | _ => results ← of_sum (send_batch connector from_email message send_payload);
                     mret (fold_left collect_result results ([], checked.2))
              end);
  let accepted := Z.of_nat (length answered.1) in
  mret {|
    res_provider := provider connector;
    accepted_count :=
      if (accepted =? 0) && negb (bool_decide (length send_payload = 0%nat)) && (answered.2 ==b [])
      then Z.of_nat (length send_payload) else accepted;
    rejected_count := Z.of_nat (length answered.2);
    per_message_ids := answered.1;
    rejections := answered.2 |}.
