(* ===== verification/EmailDispatchProofs.v ===== *)
(** * The email tool: addresses, footers and what reaches the provider *)

From S2P Require Export Fixtures EmailDispatch.
Local Open Scope Z_scope.

(** A handler that catches some exceptions: the handlers of the others are discharged. *)
Ltac respects_try_tac := match goal with
  | |- respects ?R (try_except _ _) => apply (respects_try R);
      [|let x := fresh "x" in let k := fresh "k" in let Hk := fresh "Hk" in
        intros x k Hk; destruct x; try discriminate Hk; injection Hk as <-]
  end.

(** ** Normal forms of addresses *)

Lemma is_space_lower c : is_space (lower_char c) = is_space c.
Proof. by destruct c as [[] [] [] [] [] [] [] []]. Qed.

Lemma lower_char_idem c : lower_char (lower_char c) = lower_char c.
Proof. by destruct c as [[] [] [] [] [] [] [] []]. Qed.

Lemma str_lower_idem s : str_lower (str_lower s) = str_lower s.
Proof. induction s as [|c s IH]; simpl; [done|]. by rewrite lower_char_idem, IH. Qed.

Lemma lstrip_lower s : str_lstrip is_space (str_lower s) = str_lower (str_lstrip is_space s).
Proof. induction s as [|c s IH]; simpl; [done|]. rewrite is_space_lower. by destruct (is_space c). Qed.

Lemma rstrip_lower s : str_rstrip is_space (str_lower s) = str_lower (str_rstrip is_space s).
Proof.
  induction s as [|c s IH]; simpl; [done|]. rewrite IH, is_space_lower.
  destruct (str_rstrip is_space s); simpl; [by destruct (is_space c)|done].
Qed.

Lemma rstrip_idem p s : str_rstrip p (str_rstrip p s) = str_rstrip p s.
Proof.
  induction s as [|c s IH]; simpl; [done|].
  destruct (str_rstrip p s) as [|d t] eqn:E.
  - destruct (p c) eqn:Hc; simpl; [done|]. by rewrite Hc.
  - simpl in IH |- *. by rewrite IH.
Qed.

Lemma lstrip_rstrip p s : str_lstrip p s = s → str_lstrip p (str_rstrip p s) = str_rstrip p s.
Proof.
  destruct s as [|c s]; simpl; [done|]. destruct (p c) eqn:Hc.
  - intros E. exfalso. assert (∀ t, String.length (str_lstrip p t) ≤ String.length t)%nat as Hlen.
    { intros t. induction t as [|d t IH]; simpl; [done|]. destruct (p d); simpl; lia. }
    pose proof (Hlen s) as Hs. rewrite E in Hs. simpl in Hs. lia.
  - intros _. destruct (str_rstrip p s); simpl; by rewrite Hc.
Qed.

Lemma lstrip_idem p s : str_lstrip p (str_lstrip p s) = str_lstrip p s.
Proof. induction s as [|c s IH]; simpl; [done|]. destruct (p c) eqn:Hc; [done|]. simpl. by rewrite Hc. Qed.

Lemma strip_idem s : str_strip (str_strip s) = str_strip s.
Proof.
  unfold str_strip, strip_by. rewrite lstrip_rstrip by apply lstrip_idem. apply rstrip_idem.
Qed.

Lemma strip_lower s : str_strip (str_lower s) = str_lower (str_strip s).
Proof. unfold str_strip, strip_by. by rewrite lstrip_lower, rstrip_lower. Qed.

(** Normalising an address twice changes nothing. *)
Lemma normal_idem s : str_lower (str_strip (str_lower (str_strip s))) = str_lower (str_strip s).
Proof. by rewrite strip_lower, strip_idem, str_lower_idem. Qed.

(** ** Substrings *)

Lemma prefix_app p s : String.prefix p (p +:+ s) = true.
Proof.
  induction p as [|c p IH]; [by destruct s|]. rewrite append_cons. simpl.
  by destruct (ascii_dec c c).
Qed.

Lemma contains_here p s : contains p (p +:+ s) = true.
Proof. destruct (p +:+ s) eqn:E; cbn [contains]; by rewrite <- E, prefix_app. Qed.

Lemma contains_app_l p a s : contains p s = true → contains p (a +:+ s) = true.
Proof.
  intros Hs. induction a as [|c a IH]; [done|]. rewrite append_cons. cbn [contains].
  by rewrite IH, orb_true_r.
Qed.

Lemma append_nil_r s : s +:+ "" = s.
Proof. induction s as [|c s IH]; [done|]. by rewrite append_cons, IH. Qed.

(** ** Footers *)

(** A body that carries what the footer must: the link or the address, when not blank. *)
Definition compliant (footer : Footer) (body : string) : Prop :=
  footer_present (str_strip (unsubscribe_url footer)) (str_strip (postal_address footer)) body = true.

Lemma nonempty_some s t : str_empty s = false → nonempty s t = [t].
Proof. unfold nonempty. by intros ->. Qed.

Lemma nonempty_none s t : str_empty s = true → nonempty s t = [].
Proof. unfold nonempty. by intros ->. Qed.

Lemma text_compliant footer body body' :
  str_empty (str_strip (unsubscribe_url footer)) && str_empty (str_strip (postal_address footer)) = false →
  _inject_footer_text (Some body) footer = Some body' → compliant footer body'.
Proof.
  unfold _inject_footer_text, compliant. set (u := str_strip (unsubscribe_url footer)).
  set (a := str_strip (postal_address footer)). intros Hne. rewrite Hne.
  destruct (footer_present u a body) eqn:Hp; intros [= <-]; [done|].
  unfold footer_present. destruct (str_empty u) eqn:Hu; simpl in *.
  - rewrite Hne. simpl. rewrite (nonempty_none u) by done. rewrite (nonempty_some a) by done. simpl.
    do 5 apply contains_app_l. rewrite <- (append_nil_r a) at 2. apply contains_here.
  - rewrite (nonempty_some u) by done. apply orb_true_iff. left. do 5 apply contains_app_l.
    destruct (str_empty a) eqn:Ha.
    + rewrite (nonempty_none a) by done. simpl app. cbn [str_join]. apply contains_app_l.
      rewrite <- (append_nil_r u) at 2. apply contains_here.
    + rewrite (nonempty_some a) by done. simpl app. cbn [str_join]. rewrite append_assoc_s.
      apply contains_app_l, contains_here.
Qed.

Lemma html_compliant footer body body' :
  str_empty (str_strip (unsubscribe_url footer)) = false →
  _inject_footer_html (Some body) footer = Some body' → compliant footer body'.
Proof.
  unfold _inject_footer_html, compliant. set (u := str_strip (unsubscribe_url footer)).
  set (a := str_strip (postal_address footer)). intros Hu. rewrite Hu. cbn [andb].
  destruct (footer_present u a body) eqn:Hp; intros [= <-]; [done|].
  unfold footer_present. rewrite Hu. cbn [negb andb]. apply orb_true_iff. left.
  do 11 apply contains_app_l. rewrite (nonempty_some u) by done. simpl app.
  assert (∀ x, contains u ("<a href=" +:+ (dquote +:+ (u +:+ x))) = true) as Hlink.
  { intros x. do 2 apply contains_app_l. apply contains_here. }
  destruct (nonempty a (newlines_to_br a)) as [|b l]; cbn [str_join]; rewrite !append_assoc_s; apply Hlink.
Qed.

(** A body that is compliant already is left alone. *)
Lemma inject_text_same footer body :
  compliant footer body → _inject_footer_text (Some body) footer = Some body.
Proof. unfold compliant, _inject_footer_text. intros ->. by destruct (_ && _). Qed.

Lemma inject_html_same footer body :
  compliant footer body → _inject_footer_html (Some body) footer = Some body.
Proof. unfold compliant, _inject_footer_html. intros ->. by destruct (_ && _). Qed.

Lemma inject_text_prefix footer body : ∃ x, _inject_footer_text (Some body) footer = Some (body +:+ x).
Proof.
  unfold _inject_footer_text. destruct (_ && _); [|destruct (footer_present _ _ _)];
    [exists ""; by rewrite append_nil_r..|]. by eexists.
Qed.

Lemma inject_html_prefix footer body : ∃ x, _inject_footer_html (Some body) footer = Some (body +:+ x).
Proof.
  unfold _inject_footer_html. destruct (_ && _); [|destruct (footer_present _ _ _)];
    [exists ""; by rewrite append_nil_r..|]. by eexists.
Qed.

(** Every marketing email carries the compliance footer. When the message is built
    with a footer whose unsubscribe link is not blank, each body that exists keeps its
    text at the front and contains the link or the postal address; an absent body stays
    absent; and building the message again from the result adds nothing. *)
Theorem footer_compliance payload footer m :
  str_empty (str_strip (unsubscribe_url footer)) = false →
  _build_message payload (Some footer) = inr m →
  (∀ b, in_text_body payload = Some b → ∃ x,
     EmailMessage.text_body m = Some (b +:+ x) ∧ compliant footer (b +:+ x)) ∧
  (∀ b, in_html_body payload = Some b → ∃ x,
     EmailMessage.html_body m = Some (b +:+ x) ∧ compliant footer (b +:+ x)) ∧
  (in_text_body payload = None → EmailMessage.text_body m = None) ∧
  (in_html_body payload = None → EmailMessage.html_body m = None) ∧
  _build_message {| in_subject := EmailMessage.subject m; in_html_body := EmailMessage.html_body m;
    in_text_body := EmailMessage.text_body m; in_headers := EmailMessage.headers m;
    in_reply_to := EmailMessage.reply_to m |} (Some footer) = inr m.
Proof.
  intros Hu. unfold _build_message.
  destruct (str_empty (str_strip (in_subject payload))) eqn:Hs; [done|].
  destruct (negb (_ ==b [])) eqn:Hh; [done|]. intros [= <-].
  assert (∀ b, ∃ x, _inject_footer_text (Some b) footer = Some (b +:+ x) ∧ compliant footer (b +:+ x)) as Ht.
  { intros b. destruct (inject_text_prefix footer b) as [x Hx]. exists x. split; [done|].
    eapply text_compliant; [|exact Hx]. by rewrite Hu. }
  assert (∀ b, ∃ x, _inject_footer_html (Some b) footer = Some (b +:+ x) ∧ compliant footer (b +:+ x)) as Hm.
  { intros b. destruct (inject_html_prefix footer b) as [x Hx]. exists x. split; [done|].
    by eapply html_compliant. }
  cbn [EmailMessage.subject EmailMessage.html_body EmailMessage.text_body EmailMessage.headers
       EmailMessage.reply_to in_subject in_html_body in_text_body in_headers in_reply_to].
  split_and!.
  - intros b ->. apply Ht.
  - intros b ->. apply Hm.
  - by intros ->.
  - by intros ->.
  - rewrite strip_idem, Hs, Hh. do 2 f_equal.
    + destruct (in_html_body payload) as [b|]; [|done]. destruct (Hm b) as (x & -> & Hc).
      by apply inject_html_same.
    + destruct (in_text_body payload) as [b|]; [|done]. destruct (Ht b) as (x & -> & Hc).
      by apply inject_text_same.
Qed.

(** ** What reaches the provider *)

(** [email] is on the tenant's suppression list. *)
Definition suppressed_now (tenant_id : N) (s : db) (email : string) : bool :=
  existsb (λ r, suppression_of tenant_id ChannelPlatform.email r &&
                (str_lower (SuppressionEntry.identifier r) ==b email))
    (snd <$> map_to_list (t_suppression_entry s)).

(** An address no send may go to. *)
Definition undeliverable (tenant_id : N) (transactional : bool) (s : db) (email : string) : bool :=
  (negb transactional && suppressed_now tenant_id s email) || negb (EMAIL_RE email) ||
  (str_lower (after_last_at email) ∈b BLOCKED_RECIPIENT_DOMAINS).

(** A connector that refuses to be called with an address in [bad]. *)
Definition fenced (bad : string → bool) (c : EmailConnector) : EmailConnector := {|
  provider := provider c;
  verified_senders := verified_senders c;
  send_batch := λ from message recipients,
    if existsb (λ r, bad (EmailRecipient.email r)) recipients
    then inl (AssertionError "a fenced address reached the provider")
    else send_batch c from message recipients |}.

(** The addresses that pass the per-recipient checks. *)
Definition checked_email (suppressed : list string) (r : json) (email : string) : Prop :=
  ∃ d, r = JObj d ∧ email = str_lower (str_strip (email_of d)) ∧ str_empty email = false ∧
    _validate_recipient email suppressed = None.

Lemma check_recipient_inr suppressed acc r e s s' acc' :
  check_recipient suppressed acc r e s = (s', inr acc') →
  s' = s ∧ ∀ x, x ∈ acc'.1 → x ∈ acc.1 ∨ checked_email suppressed r (EmailRecipient.email x).
Proof.
  unfold check_recipient. intros Hrun.
  destruct r as [| | | | | |d]; try (apply ret_inr in Hrun as [-> ->]; split; [done|by left]).
  destruct (str_empty _) eqn:Hne; [apply ret_inr in Hrun as [-> ->]; split; [done|by left]|].
  destruct (_validate_recipient _ _) as [why|] eqn:Hv;
    [apply ret_inr in Hrun as [-> ->]; split; [done|by left]|].
  destruct (merge_fields_of d); [done|]. apply ret_inr in Hrun as [-> ->]. split; [done|].
  intros x. simpl. rewrite elem_of_app, list_elem_of_singleton. intros [Hx| ->]; [by left|].
  right. by exists d.
Qed.

Lemma check_all_inr suppressed l acc e s s' acc' :
  foldM (check_recipient suppressed) acc l e s = (s', inr acc') →
  s' = s ∧ ∀ x, x ∈ acc'.1 → x ∈ acc.1 ∨ ∃ r, r ∈ l ∧ checked_email suppressed r (EmailRecipient.email x).
Proof.
  revert acc s. induction l as [|r l IH]; intros acc s Hrun; simpl in Hrun.
  - apply ret_inr in Hrun as [-> ->]. split; [done|by left].
  - apply bind_inr in Hrun as (s1 & acc1 & H1 & Hrun).
    apply check_recipient_inr in H1 as [-> H1]. apply IH in Hrun as [-> H2]. split; [done|].
    intros x Hx. destruct (H2 x Hx) as [Hx1|(r' & Hr' & Hc)].
    + destruct (H1 x Hx1) as [Hx2|Hc]; [by left|right]. exists r. split; [left|done].
    + right. exists r'. split; [by right|done].
Qed.

Lemma elem_of_normalise x l : x ∈ normalise l ↔ ∃ c, c ∈ l ∧ str_empty c = false ∧ x = str_lower (str_strip c).
Proof.
  unfold normalise. rewrite list_elem_of_fmap. setoid_rewrite elem_of_bfilter.
  setoid_rewrite negb_true_iff.
  split; [intros (c & -> & Hc & Hn); eauto|intros (c & Hc & Hn & ->); eauto].
Qed.

Lemma load_suppressed_run tenant_id candidates e s :
  ∃ l, _load_suppressed_emails tenant_id candidates e s = (s, inr l) ∧
    ∀ x, x ∈ normalise candidates → suppressed_now tenant_id s x = true → x ∈ l.
Proof.
  unfold _load_suppressed_emails. destruct (normalise candidates) as [|n0 ns] eqn:E.
  - exists []. split; [done|]. by intros x ?%not_elem_of_nil.
  - rewrite (bind_select (T:=SuppressionEntry.t)). eexists. split; [reflexivity|].
    intros x Hx Hs. apply existsb_elem_of in Hs as (r & Hr & [Hof Heq]%andb_true_iff).
    apply bool_decide_eq_true_1 in Heq. subst x. apply (list_elem_of_fmap_2 (λ r, str_lower (SuppressionEntry.identifier r))).
    apply elem_of_bfilter. split; [exact Hr|]. by rewrite Hof, (bool_decide_true _ Hx).
Qed.

Lemma checked_deliverable tenant_id transactional s suppressed l r email :
  r ∈ l → checked_email suppressed r email →
  (transactional = false → ∀ x, x ∈ normalise (email_of <$> omap (λ r, as_obj (Some r)) l) →
     suppressed_now tenant_id s x = true → x ∈ suppressed) →
  undeliverable tenant_id transactional s email = false.
Proof.
  intros Hr (d & -> & He & Hne & Hv) Hsup. unfold _validate_recipient in Hv.
  destruct (email ∈b suppressed) eqn:Hin; [done|]. destruct (negb (EMAIL_RE email)) eqn:Hre; [done|].
  destruct (str_lower _ ∈b _) eqn:Hdom; [done|]. unfold undeliverable. rewrite Hre, Hdom, !orb_false_r.
  destruct transactional; [done|]. simpl. apply not_true_iff_false. intros Hs.
  apply bool_decide_eq_false_1 in Hin. apply Hin. apply (Hsup eq_refl); [|done].
  apply elem_of_normalise. exists (email_of d). split; [|split; [|done]].
  - apply (list_elem_of_fmap_2 email_of), list_elem_of_omap. by exists (JObj d).
  - destruct (email_of d); [by subst email|done].
Qed.

Lemma existsb_false {A} (f : A → bool) l : (∀ x, x ∈ l → f x = false) → existsb f l = false.
Proof.
  intros Hf. apply not_true_iff_false. intros (x & Hx & E)%existsb_elem_of. by rewrite Hf in E.
Qed.

Lemma bind_head {A B} (m m' : M A) (f : A → M B) e s : m e s = m' e s → (m ≫= f) e s = (m' ≫= f) e s.
Proof. unfold mbind, M_bind. by intros ->. Qed.

Lemma bind_ext {A B} (m : M A) (f g : A → M B) e s :
  (∀ s1 a, m e s = (s1, inr a) → f a e s1 = g a e s1) → (m ≫= f) e s = (m ≫= g) e s.
Proof. unfold mbind, M_bind. intros Hfg. destruct (m e s) as [s1 [x|a]]; [done|auto]. Qed.

(** A stronger fence than [undeliverable] may be put up where the caller knows more. *)
Lemma call_fenced (bad : string → bool) connector tid inputs e s :
  (∀ r suppressed email, r ∈ in_audience_batch inputs → checked_email suppressed r email →
     undeliverable tid (in_transactional inputs) s email = false → bad email = false) →
  call connector tid inputs e s = call (fenced bad connector) tid inputs e s.
Proof.
  intros Hbad. unfold call. cbv zeta. change (verified_senders (fenced bad connector)) with (verified_senders connector).
  change (provider (fenced bad connector)) with (provider connector).
  apply bind_ext. intros s1 [] H1. apply raise_if_inr in H1 as [_ ->].
  apply bind_ext. intros s1 senders H1. apply of_sum_inr in H1 as [_ ->].
  apply bind_ext. intros s1 [] H1. apply raise_if_inr in H1 as [_ ->].
  apply bind_ext. intros s1 m H1. apply of_sum_inr in H1 as [_ ->].
  apply bind_ext. intros s1 [] H1. apply raise_if_inr in H1 as [_ ->].
  apply bind_ext. intros s1 suppressed Hsup.
  assert (s1 = s ∧ (in_transactional inputs = false → ∀ x,
    x ∈ normalise (email_of <$> omap (λ r, as_obj (Some r)) (in_audience_batch inputs)) →
    suppressed_now tid s x = true → x ∈ suppressed)) as [-> Hin].
  { destruct (in_transactional inputs); [by apply ret_inr in Hsup as [-> _]|].
    destruct (load_suppressed_run tid (email_of <$> omap (λ r, as_obj (Some r)) (in_audience_batch inputs)) e s)
      as (l & Hl & Hin). rewrite Hl in Hsup. injection Hsup as <- <-. done. }
  apply bind_ext. intros s1 checked Hc. apply check_all_inr in Hc as [-> Hc].
  assert (existsb (λ r, bad (EmailRecipient.email r)) checked.1 = false) as Hno.
  { apply existsb_false. intros x Hx. destruct (Hc x Hx) as [Hx0|(r & Hr & Hok)];
      [by apply not_elem_of_nil in Hx0|]. eapply Hbad; [done..|]. by eapply checked_deliverable. }
  destruct (checked.1) as [|p0 ps]; [done|]. unfold fenced at 1. cbn [send_batch]. by rewrite Hno.
Qed.

(** The provider never sees an address it must not get. A call behaves exactly as if
    the connector refused any batch containing a suppressed, malformed or reserved
    address; with [transactional] the suppression list is not consulted, and only the
    other two are kept out. *)
Theorem call_keeps_out connector tid inputs e s :
  call connector tid inputs e s =
  call (fenced (undeliverable tid (in_transactional inputs) s) connector) tid inputs e s.
Proof. apply call_fenced. by intros. Qed.

(** ** Samples *)

Definition sample_footer : Footer :=
  {| unsubscribe_url := "{{unsubscribe_url}}"; postal_address := "1 Main St" |}.
Definition sample_message : MessageInput := {|
  in_subject := "Hello"; in_html_body := None; in_text_body := Some "Body"; in_headers := [];
  in_reply_to := None |}.

Lemma footer_compliance_witness :
  ∃ m x, _build_message sample_message (Some sample_footer) = inr m ∧
    EmailMessage.text_body m = Some ("Body" +:+ x) ∧ compliant sample_footer ("Body" +:+ x).
Proof.
  destruct (_build_message sample_message (Some sample_footer)) as [y|m] eqn:E; [by vm_compute in E|].
  destruct (footer_compliance sample_message sample_footer m eq_refl E) as (H & _).
  destruct (H "Body" eq_refl) as (x & Hx & Hc). exists m, x. by split.
Defined.
