(* ===== verification/Distribution.v ===== *)
(** * Dispatch: the handlers of src/app/agents/distribution.py

    What happens when a scheduled asset's slot arrives: the audience, the A/B slice, the
    three filters (already sent, sent lately, over the frequency cap), the call of the
    tool, one attempt row per recipient, and the campaign going live.

    The credential cipher, the token serializer, the connector factory and the fallback
    secret of the settings are parameters of the section. *)

From S2P Require Export AbTesting EmailDispatch.
Local Open Scope Z_scope.

(** ** Helpers *)

(** [app/agents/distribution.py] lines 891-892, [_idempotency_key]. *)
Definition _idempotency_key (content_asset_id : N) (recipient_email : string) : string :=
  "asset:" +:+ uuid_str content_asset_id +:+ ":recipient:" +:+ str_lower recipient_email.

(** [app/agents/distribution.py] lines 940-959, [_running_ab_test_for_asset]. *)
Definition _running_ab_test_for_asset (asset : ContentAsset.t) : M (option AbTest.t) :=
  let fallback :=
    rows ← select (λ t, (AbTest.tenant_id t ==b ContentAsset.tenant_id asset) &&
                        (AbTest.status t ==b AbTestStatus.running) &&
                        ((AbTest.variant_a_id t ==b Some (ContentAsset.id asset)) ||
                         (AbTest.variant_b_id t ==b Some (ContentAsset.id asset))));
    mret (head rows) in
  match as_str (dget "ab_test_group_id" (ContentAsset.extra_metadata asset)) with
  | None => fallback
  | Some ab_test_id_meta =>
      match uuid_parse ab_test_id_meta with
      | None => mret None
      | Some ab_test_id =>
          ab_test ← get_row ab_test_id;
          match ab_test with
          | Some t => if AbTest.status t ==b AbTestStatus.running then mret (Some t) else fallback
          | None => fallback
          end
      end
  end.

(** [Some b] when the member is assigned, [None] when the assignment failed. *)
Definition assigned_here (asset : ContentAsset.t) (ab_test : AbTest.t) (member : AudienceMember.t)
    : M (option bool) :=
  try_except
    (v ← assign_variant (ContentAsset.tenant_id asset) (AbTest.id ab_test)
           (AudienceMember.external_id member);
     mret (Some (v ==b ContentAsset.id asset)))
    (λ x, match x with AbTestAssignmentError _ => Some (mret None) | _ => None end).

(** [app/agents/distribution.py] lines 895-937, [_filter_audience_for_ab_test]. *)
Definition _filter_audience_for_ab_test (asset : ContentAsset.t)
    (audience_members : list AudienceMember.t) : M (list AudienceMember.t) :=
  ab_test ← _running_ab_test_for_asset asset;
  match ab_test with
  | None => mret audience_members
  | Some ab_test =>
      foldM (λ kept member,
        if str_empty (AudienceMember.external_id member) then mret (kept ++ [member])
        else
          assigned ← assigned_here asset ab_test member;
          mret (if default true assigned then kept ++ [member] else kept))
        [] audience_members
  end.

(** [app/agents/distribution.py] lines 981-989, [_message_from_asset]. *)
Definition _message_from_asset (asset : ContentAsset.t) : M MessageInput :=
  let fields := default JNull (dget "fields" (ContentAsset.extra_metadata asset)) in
  fields ← of_sum (if negb (truthy fields) then inr []
                   else match fields with
                        | JObj d => inr d
                        | _ => inl (AttributeError "object has no attribute 'get'")
                        end);
  let subject := default JNull (dget "subject" fields) in
  let title := default "" (ContentAsset.title asset) in
  let body := default "" (ContentAsset.content asset) in
  mret {|
    in_subject := if truthy subject then json_str subject
                  else if str_empty title then "(no subject)" else title;
    in_html_body := Some body;
    in_text_body := Some body;
    in_headers := [];
    in_reply_to := None |}.

(** [app/agents/distribution.py] lines 992-997, [_string_only_payload]. *)
Definition _string_only_payload (payload : jdict) : list (string * string) :=
  omap (λ kv : string * json, match kv.2 with
                | JStr _ | JInt _ | JFloat _ => Some (kv.1, json_str kv.2)
                | _ => None
                end) payload.

(** [app/agents/distribution.py] lines 1020-1037, [_load_audience_members]. *)
Definition _load_audience_members (campaign_id : N) : M (list AudienceMember.t) :=
  audiences ← select (λ a, Audience.campaign_id a ==b campaign_id);
  match order_by_desc Audience.created_at audiences with
  | [] => mret []
  | audience :: _ => select (λ m, AudienceMember.audience_id m ==b Audience.id audience)
  end.

(** ** Attempts *)

Definition is_sent (r : DispatchAttempt.t) : bool := DispatchAttempt.status r ==b "sent".

(** The recipient column is CITEXT: it compares in lower case. *)
Definition recipient_of (r : DispatchAttempt.t) : string :=
  str_lower (DispatchAttempt.recipient_identifier r).

(** [app/agents/distribution.py] lines 1040-1054, [_existing_attempts]. The keys of the map. *)
Definition _existing_attempts (content_asset_id : N) : M (list string) :=
  rows ← select (λ r, (DispatchAttempt.content_asset_id r ==b content_asset_id) && is_sent r);
  mret (recipient_of <$> rows).

(** [app/agents/distribution.py] lines 74-74, [_DEDUP_WINDOW]. *)
Definition DEDUP_WINDOW : Z := 24 * hour.

(** A send of the tenant since [since] to one of [recipients]. *)
Definition sent_since (tenant_id : N) (since : Z) (recipients : list string) (r : DispatchAttempt.t)
    : bool :=
  (DispatchAttempt.tenant_id r ==b tenant_id) && is_sent r &&
  from_option (λ at_, since <=? at_) false (DispatchAttempt.sent_at r) &&
  (recipient_of r ∈b recipients).

(** [{r.strip().lower() for r in recipients if r}], of values that may not be strings. *)
Definition normalise_json (recipients : list json) : exn + list string :=
  foldr (λ r acc,
    if negb (truthy r) then acc
    else match r, acc with
         | JStr s, inr l => inr (str_lower (str_strip s) :: l)
         | JStr _, inl x => inl x
         | _, _ => inl (AttributeError "object has no attribute 'strip'")
         end) (inr []) recipients.

(** [app/agents/distribution.py] lines 1057-1081, [_recent_sent_recipients]. *)
Definition _recent_sent_recipients (tenant_id : N) (recipients : list json) : M (list string) :=
  normalised ← of_sum (normalise_json recipients);
  match normalised with
  | [] => mret []
  | _ =>
      t ← asks now;
      rows ← select (sent_since tenant_id (t - DEDUP_WINDOW) normalised);
      mret (recipient_of <$> rows)
  end.

(** [app/agents/distribution.py] lines 1131-1176, [_capped_recipients]. The HAVING counts the
    rows of each group of equal recipients. *)
Definition _capped_recipients (tenant_id : N) (channel_platform : ChannelPlatform.t)
    (candidates : list string) : M (list string) :=
  match normalise candidates with
  | [] => mret []
  | normalised =>
      settings ← select (λ r, (FrequencyCapSetting.tenant_id r ==b tenant_id) &&
                              (FrequencyCapSetting.channel_platform r ==b channel_platform) &&
                              FrequencyCapSetting.enabled r);
      setting ← scalar_one_or_none settings;
      match setting with
      | None => mret []
      | Some setting =>
          t ← asks now;
          rows ← select (sent_since tenant_id (t - FrequencyCapSetting.window_days setting * day) normalised);
          let groups := recipient_of <$> rows in
          mret (List.filter (λ x, FrequencyCapSetting.max_sends_per_recipient setting <=?
                                  Z.of_nat (length (List.filter (λ y, y ==b x) groups))) groups)
      end
  end.

(** The values of one attempt. *)
Record Attempt := {
  at_tenant_id : N;
  at_content_asset_id : N;
  at_audience_external_id : option string;
  at_recipient_identifier : string;
  at_idempotency_key : string;
  at_provider : string;
  at_provider_message_id : option string;
  at_status : string;
  at_last_error : option string;
  at_sent_at : option Z;
}.

Definition attempt_row (a : Attempt) (t : Z) (id : N) : DispatchAttempt.t := {|
  DispatchAttempt.id := id;
  DispatchAttempt.tenant_id := at_tenant_id a;
  DispatchAttempt.content_asset_id := at_content_asset_id a;
  DispatchAttempt.audience_external_id := at_audience_external_id a;
  DispatchAttempt.recipient_identifier := at_recipient_identifier a;
  DispatchAttempt.idempotency_key := at_idempotency_key a;
  DispatchAttempt.provider := at_provider a;
  DispatchAttempt.provider_message_id := at_provider_message_id a;
  DispatchAttempt.status := at_status a;
  DispatchAttempt.attempt_count := 1;
  DispatchAttempt.last_error := at_last_error a;
  DispatchAttempt.sent_at := at_sent_at a;
  DispatchAttempt.created_at := t;
  DispatchAttempt.updated_at := t |}.

(** The conflict target of the upsert. *)
Definition same_key (tenant_id : N) (key : string) (r : DispatchAttempt.t) : bool :=
  (DispatchAttempt.tenant_id r ==b tenant_id) && (DispatchAttempt.idempotency_key r ==b key).

(** [app/agents/distribution.py] lines 1084-1128, [_upsert_dispatch_attempt]. *)
Definition _upsert_dispatch_attempt (a : Attempt) : M () :=
  t ← asks now;
  conflict ← select (same_key (at_tenant_id a) (at_idempotency_key a));
  match conflict with
  | [] => add_row (attempt_row a t) ;; mret ()
  | _ =>
      update_where (λ r, same_key (at_tenant_id a) (at_idempotency_key a) r && negb (is_sent r))
        (λ r, r <| DispatchAttempt.attempt_count := DispatchAttempt.attempt_count r + 1 |>
                <| DispatchAttempt.last_error := at_last_error a |>
                <| DispatchAttempt.updated_at := t |>) ;;
      mret ()
  end.

(** ** Footer, unsubscribe links and the connector *)

Section dispatch.
(** [Fernet.decrypt] with the settings' key, then [json.loads]. *)
Context (decrypt : string → exn + jdict).
(** The connector factory; [EmailConnector.build_email_connector] is the program's. *)
Context (build_email_connector : string → jdict → exn + EmailConnector).
(** [itsdangerous.URLSafeSerializer(secret, salt).dumps]. *)
Context (dumps : string → string → json → string).
(** [get_settings().effective_preview_share_secret()]. *)
Context (preview_share_secret : string).

(** [app/agents/distribution.py] lines 1000-1017, [_load_email_connector]. *)
Definition _load_email_connector (tenant_id : N) : M (EmailConnector * jdict) :=
  creds ← select (λ c, (IntegrationCredential.tenant_id c ==b tenant_id) &&
                       (IntegrationCredential.provider c ==b "sendgrid"));
  cred ← scalar_one_or_none creds;
  match cred with
  | None => raise (DistributionPreconditionError "no email integration configured for this tenant")
  | Some cred =>
      payload ← of_sum (decrypt (IntegrationCredential.encrypted_payload cred));
      connector ← of_sum (build_email_connector (IntegrationCredential.provider cred) payload);
      mret (connector, payload)
  end.

Definition compliance_settings (tenant_id : N) : M (option TenantComplianceSettings.t) :=
  rows ← select (λ r, TenantComplianceSettings.tenant_id r ==b tenant_id);
  scalar_one_or_none rows.

(** [app/agents/distribution.py] lines 1217-1240, [_build_compliance_footer]. *)
Definition _build_compliance_footer (tenant_id : N) : M (option Footer) :=
  settings ← compliance_settings tenant_id;
  let address := default "" (settings ≫= TenantComplianceSettings.postal_address) in
  mret (if str_empty address then None
        else Some {| unsubscribe_url := "{{unsubscribe_url}}"; postal_address := address |}).

(** [app/agents/distribution.py] lines 1179-1214, [_build_unsubscribe_signer]. *)
Definition _build_unsubscribe_signer (tenant_id : N) : M (string → string) :=
  settings_row ← compliance_settings tenant_id;
  let own := default "" (settings_row ≫= TenantComplianceSettings.unsubscribe_secret) in
  let secret := if str_empty own then preview_share_secret else own in
  mret (λ email,
    "https://app.example.com/api/unsubscribe/" +:+
    dumps secret "email-unsubscribe"
      (JObj [("tenant_id", JStr (uuid_str tenant_id)); ("channel_platform", JStr "email");
             ("identifier", JStr (str_lower email))])).

(** ** The email handler *)

(** [str((member.payload or {}).get("email", "")).strip().lower()]. *)
Definition member_email (m : AudienceMember.t) : string :=
  str_lower (str_strip (email_of (AudienceMember.payload m))).

(** Where the filtering loop puts each member with an address. *)
Record split_audience := {
  to_send : list (AudienceMember.t * string);
  deduped : list (AudienceMember.t * string);
  capped : list (AudienceMember.t * string);
}.

Definition classify (existing recent caps : list string) (members : list AudienceMember.t)
    : split_audience :=
  foldr (λ member acc,
    let email := member_email member in
    if str_empty email then acc
    else if (email ∈b existing) || (email ∈b recent)
    then {| to_send := to_send acc; deduped := (member, email) :: deduped acc; capped := capped acc |}
    else if email ∈b caps
    then {| to_send := to_send acc; deduped := deduped acc; capped := (member, email) :: capped acc |}
    else {| to_send := (member, email) :: to_send acc; deduped := deduped acc; capped := capped acc |})
    {| to_send := []; deduped := []; capped := [] |} members.

Definition email_attempt (asset : ContentAsset.t) (prov : string) (m : AudienceMember.t) (email : string)
    (mid : option string) (status : string) (why : option string) (at_ : option Z) : Attempt := {|
  at_tenant_id := ContentAsset.tenant_id asset;
  at_content_asset_id := ContentAsset.id asset;
  at_audience_external_id := Some (AudienceMember.external_id m);
  at_recipient_identifier := email;
  at_idempotency_key := _idempotency_key (ContentAsset.id asset) email;
  at_provider := prov;
  at_provider_message_id := mid;
  at_status := status;
  at_last_error := why;
  at_sent_at := at_ |}.

(** A dict built by a comprehension over pairs, keys in lower case. *)
Definition lower_map (l : list (string * string)) : list (string * string) :=
  fold_left (λ d kv, dset (str_lower kv.1) kv.2 d) l [].

(** The outcome of one recipient: its attempt and which counter it goes to. *)
Inductive bucket := BSent | BSuppressed | BRejected.

Definition outcome (asset : ContentAsset.t) (prov : string) (result : DispatchResult) (t : Z)
    (m : AudienceMember.t) (email : string) : Attempt * bucket :=
  match dget email (lower_map (per_message_ids result)) with
  | Some mid => (email_attempt asset prov m email (Some mid) "sent" None (Some t), BSent)
  | None =>
      match dget email (lower_map (rejections result)) with
      | Some reason =>
          if reason ==b "suppressed"
          then (email_attempt asset prov m email None "suppressed" (Some reason) None, BSuppressed)
          else (email_attempt asset prov m email None "rejected" (Some reason) None, BRejected)
      | None =>
          (email_attempt asset prov m email None "failed" (Some "no_provider_acknowledgement") None, BRejected)
      end
  end.

(** [(sent_count, suppressed_count, rejected_count)]. *)
Definition count_bucket (b : bucket) (c : Z * Z * Z) : Z * Z * Z :=
  let '(s, u, r) := c in
  match b with BSent => (s + 1, u, r) | BSuppressed => (s, u + 1, r) | BRejected => (s, u, r + 1) end.

Definition record_outcome (asset : ContentAsset.t) (prov : string) (result : DispatchResult)
    (c : Z * Z * Z) (me : AudienceMember.t * string) : M (Z * Z * Z) :=
  t ← asks now;
  let o := outcome asset prov result t me.1 me.2 in
  _upsert_dispatch_attempt o.1 ;;
  mret (count_bucket o.2 c).

(** The recipient's entry of [audience_batch]. *)
Definition batch_entry (signer : option (string → string)) (me : AudienceMember.t * string) : json :=
  let fields := _string_only_payload (AudienceMember.payload me.1) in
  let fields := match signer with
                | Some sign => dset "unsubscribe_url" (sign me.2) fields
                | None => fields
                end in
  JObj [("email", JStr me.2); ("merge_fields", JObj (str_pairs fields))].

(** The send: the tool call and one attempt per recipient. *)
Definition send_all (connector : EmailConnector) (payload : jdict) (footer : option Footer)
    (asset : ContentAsset.t) (batch : list (AudienceMember.t * string)) : M (Z * Z * Z) :=
  match batch with
  | [] => mret (0, 0, 0)
  | _ =>
      message ← _message_from_asset asset;
      signer ← (match footer with
                | Some _ => f ← _build_unsubscribe_signer (ContentAsset.tenant_id asset); mret (Some f)
                | None => mret None
                end);
      let from_email := default JNull (dget "default_from_email" payload) in
      result ← call connector (ContentAsset.tenant_id asset) {|
        in_from_email := if truthy from_email then from_email else JStr "";
        in_audience_batch := batch_entry signer <$> batch;
        in_message := message;
        in_footer := footer;
        in_transactional := false |};
      foldM (record_outcome asset (provider connector) result) (0, 0, 0) batch
  end.

(** The counts of the summary, and the reason when nothing was sent. *)
Definition skip_reason (sent suppressed rejected skipped : Z) : option string :=
  if (sent =? 0) && (0 <? skipped + suppressed + rejected) then
    Some (if (suppressed <=? skipped) && (rejected <=? skipped) then "frequency_cap"
          else if rejected <=? suppressed then "suppressed" else "rejected")
  else None.

Definition dispatch_summary (counts : Z * Z * Z) (sp : split_audience) (audience_size : Z)
    (footer : option Footer) : jdict :=
  let '(sent, suppressed, rejected) := counts in
  let skipped := Z.of_nat (length (capped sp)) in
  [("sent", JInt sent); ("suppressed", JInt suppressed); ("rejected", JInt rejected);
   ("skipped", JInt skipped); ("deduped", JInt (Z.of_nat (length (deduped sp))));
   ("audience_size", JInt audience_size)] ++
  (match skip_reason sent suppressed rejected skipped with
   | Some r => [("skip_reason", JStr r)]
   | None => []
   end) ++
  (match footer with Some _ => [("compliance_footer_injected", JBool true)] | None => [] end).

(** [app/agents/distribution.py] lines 869-883, [_maybe_go_live]. *)
Definition _maybe_go_live (campaign : Campaign.t) : M () :=
  if Campaign.status campaign !=b CampaignStatus.ready_to_launch then mret ()
  else try_transition "start_live" campaign ;; mret ().

Definition not_found (what : string) (k : N) : exn :=
  DistributionPreconditionError (what +:+ " " +:+ uuid_str k +:+ " not found").

(** The guards the dispatch of an asset shares. *)
Definition load_scheduled (asset_id : N) : M ContentAsset.t :=
  asset ← get_row asset_id;
  match asset with
  | None => raise (not_found "content_asset" asset_id)
  | Some asset =>
      raise_if (ContentAsset.status asset !=b AssetStatus.scheduled)
        (DistributionPreconditionError ("asset " +:+ uuid_str asset_id +:+ " is in '" +:+
           value (ContentAsset.status asset) +:+ "', not eligible for dispatch")) ;;
      mret asset
  end.

Definition load_campaign (campaign_id : N) : M Campaign.t :=
  campaign ← get_row campaign_id;
  match campaign with
  | None => raise (not_found "campaign" campaign_id)
  | Some c => mret c
  end.

Definition wrong_type (asset : ContentAsset.t) (handler kind : string) : exn :=
  DistributionPreconditionError ("asset " +:+ uuid_str (ContentAsset.id asset) +:+ " is type '" +:+
    value (ContentAsset.asset_type asset) +:+ "'; " +:+ handler +:+ " dispatcher only handles '" +:+
    kind +:+ "'").

Definition paused_result (asset : ContentAsset.t) : jdict :=
  [("asset_id", j_uuid (ContentAsset.id asset)); ("status", j_enum (ContentAsset.status asset));
   ("error", JStr "campaign_paused")].

Definition published_values (t : Z) (extra : jdict) (a : ContentAsset.t) : ContentAsset.t :=
  a <| ContentAsset.status := AssetStatus.published |>
    <| ContentAsset.published_at := Some t |>
    <| ContentAsset.extra_metadata := dmerge (ContentAsset.extra_metadata a) extra |>.

(** The three filters of the audience. *)
Definition split_members (asset : ContentAsset.t) (audience_members : list AudienceMember.t)
    : M split_audience :=
  existing ← _existing_attempts (ContentAsset.id asset);
  let with_payload := List.filter (λ m, negb (AudienceMember.payload m ==b [])) audience_members in
  recent ← _recent_sent_recipients (ContentAsset.tenant_id asset)
    ((λ m, default (JStr "") (dget "email" (AudienceMember.payload m))) <$> with_payload);
  caps ← _capped_recipients (ContentAsset.tenant_id asset) ChannelPlatform.email
    (member_email <$> with_payload);
  mret (classify existing recent caps audience_members).

(** [app/agents/distribution.py] lines 249-513, [dispatch_email_asset]. *)
Definition dispatch_email_asset (asset_id : N) : M jdict :=
  asset ← load_scheduled asset_id;
  campaign ← load_campaign (ContentAsset.campaign_id asset);
  if Campaign.status campaign ==b CampaignStatus.paused then mret (paused_result asset)
  else
    raise_if (ContentAsset.asset_type asset !=b AssetType.email) (wrong_type asset "email" "email") ;;
    loaded ← _load_email_connector (ContentAsset.tenant_id asset);
    let '(connector, payload) := loaded in
    members ← _load_audience_members (ContentAsset.campaign_id asset);
    raise_if (bool_decide (length members = 0%nat))
      (DistributionPreconditionError "no audience members materialised for this campaign") ;;
    audience_members ← _filter_audience_for_ab_test asset members;
    sp ← split_members asset audience_members;
    foreach (capped sp) (λ me,
      _upsert_dispatch_attempt (email_attempt asset (provider connector) me.1 me.2 None "skipped"
                                  (Some "frequency_cap") None)) ;;
    footer ← _build_compliance_footer (ContentAsset.tenant_id asset);
    counts ← send_all connector payload footer asset (to_send sp);
    let summary := dispatch_summary counts sp (Z.of_nat (length audience_members)) footer in
    t ← asks now;
    let before := column_snapshot asset in
    asset' ← assign asset (published_values t [("dispatch_summary", JObj summary);
                                               ("dispatch_provider", JStr (provider connector))]);
    audit (ContentAsset.tenant_id asset) "content_asset" (ContentAsset.id asset) "published"
      (Some before) (Some (column_snapshot asset')) [("dispatch_summary", JObj summary)] ;;
    _maybe_go_live campaign ;;
    mret [("asset_id", j_uuid (ContentAsset.id asset)); ("status", j_enum (ContentAsset.status asset'));
          ("summary", JObj summary)].
End dispatch.
