(* ===== verification/SocialDispatch.v ===== *)
(** * Social posts: src/app/tools/social_publish.py and the social handler

    The publish tool over an abstract social connector, and [dispatch_social_asset]
    with its pause of the campaign when the provider has revoked the authorisation. *)

From S2P Require Export Distribution.
Local Open Scope Z_scope.

(** ** The interface *)

(** [app/integrations/social/base.py] lines 90-97, [SocialPost]. *)
Module SocialPost.
Record t := mk { text : string; media_url : json; media_required : bool; visibility : string }.
End SocialPost.

(** [app/integrations/social/base.py] lines 100-105, [PostResult]. *)
Module PostResult.
Record t := mk { provider_post_id : string; url : string }.
End PostResult.

(** [app/integrations/social/base.py] lines 140-151 in [SocialConnector]. What the dispatch path uses. *)
Record SocialConnector := {
  social_provider : string;
  publish_post : json → string → SocialPost.t → exn + PostResult.t;
}.

(** ** The tool *)

(** [app/tools/social_publish.py] lines 168-171, [_reconstruct_url]. *)
Definition _reconstruct_url (provider provider_post_id : string) : string :=
  if provider ==b "linkedin" then
    "https://www.linkedin.com/feed/update/" +:+ provider_post_id +:+ "/"
  else provider_post_id.

(** [app/tools/social_publish.py] lines 155-165, [SocialPublishTool._cached_attempt]. *)
Definition _cached_attempt (tenant_id : N) (idempotency_key : string) : M (option DispatchAttempt.t) :=
  rows ← select (same_key tenant_id idempotency_key);
  scalar_one_or_none rows.

(** The [content] object of the input schema. *)
Record SocialContent := { c_text : string; c_media_url : json; c_media_required : bool }.

Record PublishResult := { p_post_id : string; p_url : string; p_idempotent_hit : bool }.

(** The provider's post id of a cached attempt that can be returned. *)
Definition cached_post_id (cached : option DispatchAttempt.t) : option string :=
  match cached with
  | Some r => if is_sent r then
                match DispatchAttempt.provider_message_id r with
                | Some mid => if str_empty mid then None else Some mid
                | None => None
                end
              else None
  | None => None
  end.

(** [app/tools/social_publish.py] lines 100-153, [SocialPublishTool.call]. *)
Definition publish (connector : SocialConnector) (access_token : json) (tenant_id : N)
    (platform page_urn : string) (content : SocialContent) (key : string) : M PublishResult :=
  let idempotency_key := str_strip key in
  raise_if (str_empty idempotency_key) (SocialPublishError "idempotency_key is required") ;;
  let platform := str_lower (str_strip platform) in
  raise_if (platform !=b social_provider connector)
    (SocialPublishError ("connector provider '" +:+ social_provider connector +:+
       "' does not match requested platform '" +:+ platform +:+ "'")) ;;
  let page_urn := str_strip page_urn in
  raise_if (str_empty page_urn) (SocialPublishError "page_urn is required") ;;
  let text := str_strip (c_text content) in
  raise_if (str_empty text) (SocialPublishError "content.text is required") ;;
  cached ← _cached_attempt tenant_id idempotency_key;
  match cached_post_id cached with
  | Some mid =>
      mret {| p_post_id := mid; p_url := _reconstruct_url (social_provider connector) mid;
              p_idempotent_hit := true |}
  | None =>
      result ← of_sum (publish_post connector access_token page_urn
        {| SocialPost.text := text; SocialPost.media_url := c_media_url content;
           SocialPost.media_required := c_media_required content; SocialPost.visibility := "PUBLIC" |});
      mret {| p_post_id := PostResult.provider_post_id result; p_url := PostResult.url result;
              p_idempotent_hit := false |}
  end.

(** ** The handler *)

(** The first of [keys] that holds text. *)
Fixpoint first_text (fields : jdict) (keys : list string) : option string :=
  match keys with
  | [] => None
  | k :: keys =>
      match as_str (dget k fields) with
      | Some v => if str_empty (str_strip v) then first_text fields keys else Some (str_strip v)
      | None => first_text fields keys
      end
  end.

(** [app/agents/distribution.py] lines 719-731, [_social_text_from_asset]. *)
Definition _social_text_from_asset (asset : ContentAsset.t) : M string :=
  let fields := default JNull (dget "fields" (ContentAsset.extra_metadata asset)) in
  fields ← of_sum (if negb (truthy fields) then inr []
                   else match fields with
                        | JObj d => inr d
                        | _ => inl (AttributeError "object has no attribute 'get'")
                        end);
  let content := default "" (ContentAsset.content asset) in
  let title := default "" (ContentAsset.title asset) in
  mret (match first_text fields ["body"; "text"; "headline"] with
        | Some t => t
        | None => if str_empty content then title else content
        end).

(** [app/agents/distribution.py] lines 734-751, [_pause_campaign_on_oauth_revoked]. *)
Definition _pause_campaign_on_oauth_revoked (campaign : Campaign.t) (channel_id : N) (provider : string)
    : M Campaign.t :=
  pause_campaign campaign "oauth_revoked"
    [("provider", JStr provider); ("channel_id", j_uuid channel_id)].

Definition social_key (asset_id channel_id : N) : string :=
  "asset:" +:+ uuid_str asset_id +:+ ":channel:" +:+ uuid_str channel_id.

(** The assignments to an asset whose authorisation was revoked, and to a published one. *)
Definition revoked_values (msg : string) (a : ContentAsset.t) : ContentAsset.t :=
  with_metadata "dispatch_error" (JObj [("kind", JStr "oauth_revoked"); ("message", JStr msg)])
    (a <| ContentAsset.status := AssetStatus.failed |>).

Definition posted_metadata (provider : string) (result : PublishResult) : jdict :=
  let hit := p_idempotent_hit result in
  [("social_post", JObj [("provider", JStr provider); ("provider_post_id", JStr (p_post_id result));
                         ("url", JStr (p_url result)); ("idempotent_hit", JBool hit)]);
   ("dispatch_summary", JObj [("sent", JInt (if hit then 0 else 1));
                              ("idempotent_hits", JInt (if hit then 1 else 0));
                              ("audience_size", JInt 1)]);
   ("dispatch_provider", JStr provider)].

Definition social_attempt (asset : ContentAsset.t) (page_urn key provider : string) (post_id : string)
    (t : Z) : Attempt := {|
  at_tenant_id := ContentAsset.tenant_id asset;
  at_content_asset_id := ContentAsset.id asset;
  at_audience_external_id := None;
  at_recipient_identifier := page_urn;
  at_idempotency_key := key;
  at_provider := provider;
  at_provider_message_id := Some post_id;
  at_status := "sent";
  at_last_error := None;
  at_sent_at := Some t |}.

(** Where a post goes: provider, page and credential payload. *)
Record Destination := { d_provider : string; d_page_urn : string; d_payload : jdict }.

Section social.
Context (decrypt : string → exn + jdict).
(** [build_social_connector] with the client configuration of the settings. *)
Context (build_social_connector : string → exn + SocialConnector).

(** [app/agents/distribution.py] lines 569-612 in [dispatch_social_asset]. *)
Definition load_destination (channel_id : N) : M Destination :=
  channel ← get_row channel_id;
  match channel with
  | None => raise (not_found "channel" channel_id)
  | Some channel =>
      let api_config := Channel.api_config channel in
      let named := default JNull (dget "provider" api_config) in
      let provider := if truthy named then json_str named else value (Channel.platform channel) in
      let page := default JNull (dget "page_urn" api_config) in
      let page_urn := if truthy page then json_str page else "" in
      raise_if (str_empty page_urn) (DistributionPreconditionError
        ("channel " +:+ uuid_str channel_id +:+ " api_config is missing page_urn")) ;;
      creds ← select (λ c, (IntegrationCredential.channel_id c ==b Some (Channel.id channel)) &&
                           (IntegrationCredential.provider c ==b provider));
      cred ← scalar_one_or_none creds;
      match cred with
      | None => raise (DistributionPreconditionError
                         ("no " +:+ provider +:+ " credential attached to channel " +:+ uuid_str (Channel.id channel)))
      | Some cred =>
          payload ← of_sum (decrypt (IntegrationCredential.encrypted_payload cred));
          raise_if (provider !=b "linkedin") (DistributionPreconditionError
            ("no client config for social provider '" +:+ provider +:+ "'")) ;;
          mret {| d_provider := provider; d_page_urn := page_urn; d_payload := payload |}
      end
  end.

(** The branch of a revoked authorisation: pause, fail the asset, return. *)
Definition on_revoked (campaign : Campaign.t) (asset : ContentAsset.t) (channel_id : N)
    (provider msg : string) : M jdict :=
  _pause_campaign_on_oauth_revoked campaign channel_id provider ;;
  asset' ← assign asset (revoked_values msg);
  mret [("asset_id", j_uuid (ContentAsset.id asset)); ("status", j_enum (ContentAsset.status asset'));
        ("error", JStr "oauth_revoked"); ("message", JStr msg)].

(** The branch of a publication, new or found. *)
Definition on_published (campaign : Campaign.t) (asset : ContentAsset.t) (dest : Destination)
    (key : string) (result : PublishResult) : M jdict :=
  sent_at ← asks now;
  _upsert_dispatch_attempt
    (social_attempt asset (d_page_urn dest) key (d_provider dest) (p_post_id result) sent_at) ;;
  let before := column_snapshot asset in
  asset' ← assign asset (published_values sent_at (posted_metadata (d_provider dest) result));
  audit (ContentAsset.tenant_id asset) "content_asset" (ContentAsset.id asset) "published"
    (Some before) (Some (column_snapshot asset'))
    [("provider", JStr (d_provider dest)); ("provider_post_id", JStr (p_post_id result))] ;;
  _maybe_go_live campaign ;;
  mret [("asset_id", j_uuid (ContentAsset.id asset)); ("status", j_enum (ContentAsset.status asset'));
        ("provider_post_id", JStr (p_post_id result)); ("url", JStr (p_url result))].

(** [app/agents/distribution.py] lines 521-716, [dispatch_social_asset]. *)
Definition dispatch_social_asset (asset_id : N) : M jdict :=
  asset ← load_scheduled asset_id;
  raise_if (ContentAsset.asset_type asset !=b AssetType.social_post)
    (wrong_type asset "social" "social_post") ;;
  match ContentAsset.channel_id asset with
  | None => raise (DistributionPreconditionError ("asset " +:+ uuid_str asset_id +:+
                     " has no channel_id; cannot dispatch without a destination"))
  | Some channel_id =>
      campaign ← load_campaign (ContentAsset.campaign_id asset);
      if Campaign.status campaign ==b CampaignStatus.paused then mret (paused_result asset)
      else
        dest ← load_destination channel_id;
        connector ← of_sum (build_social_connector (d_provider dest));
        let key := social_key (ContentAsset.id asset) channel_id in
        access_token ← of_sum (match dget "access_token" (d_payload dest) with
                               | Some v => inr v
                               | None => inl KeyError
                               end);
        text ← _social_text_from_asset asset;
        let md := ContentAsset.extra_metadata asset in
        let content := {| c_text := text; c_media_url := default JNull (dget "media_url" md);
                          c_media_required := opt_truthy (dget "media_required" md) |} in
        outcome ← try_except
          (r ← publish connector access_token (ContentAsset.tenant_id asset) (d_provider dest)
                 (d_page_urn dest) content key;
           mret (inr r))
          (λ x, match x with OAuthRevokedError m => Some (mret (inl m)) | _ => None end);
        match outcome with
        | inl msg => on_revoked campaign asset channel_id (d_provider dest) msg
        | inr result => on_published campaign asset dest key result
        end
  end.
End social.

(** ** The queue handlers: src/app/orchestrator/handlers/distribution.py *)

(** [app/orchestrator/handlers/distribution.py] lines 12-24, [distribution_dispatch_email_handler]. *)
Definition distribution_dispatch_email_handler (decrypt : string → exn + jdict)
    (build : string → jdict → exn + EmailConnector) (dumps : string → string → json → string)
    (secret : string) (task : Task.t) : M (option jdict) :=
  asset_id ← of_sum (input_asset_id task);
  output ← dispatch_email_asset decrypt build dumps secret asset_id;
  mret (Some output).

(** [app/orchestrator/handlers/distribution.py] lines 27-40, [distribution_dispatch_social_handler]. *)
Definition distribution_dispatch_social_handler (decrypt : string → exn + jdict)
    (build : string → exn + SocialConnector) (task : Task.t) : M (option jdict) :=
  asset_id ← of_sum (input_asset_id task);
  output ← dispatch_social_asset decrypt build asset_id;
  mret (Some output).
