(* ===== verification/DistributionProofs.v ===== *)
(** * Dispatch: what is sent, what is recorded, and what is never lost

    The audience and its partition, the attempts on record, whom a dispatch keeps out, what one
    that goes through leaves, and when the campaign goes live. *)

From S2P Require Export EmailDispatchProofs ApprovalProofs SocialDispatch.
Local Open Scope Z_scope.

(** ** Idempotency keys *)

Lemma append_inj_l a b c : a +:+ b = a +:+ c → b = c.
Proof. induction a as [|x a IH]; [done|]. rewrite !append_cons. intros [= H]. auto. Qed.

Lemma append_inj_len a a' b b' :
  String.length a = String.length a' → a +:+ b = a' +:+ b' → a = a' ∧ b = b'.
Proof.
  revert a'. induction a as [|x a IH]; intros [|y a']; simpl; try done.
  intros [= Hl]. rewrite !append_cons. intros [= -> H]. destruct (IH a' Hl H) as [-> ->]. done.
Qed.

Lemma length_uuid_str n : String.length (uuid_str n) = 36%nat.
Proof. unfold uuid_str. by rewrite !length_append, !length_hexs. Qed.

(** the idempotency key of an attempt identifies it: two keys are equal only for the
    same asset and the same address up to case, and a social key is never an email key. *)
Theorem idempotency_key_inj a b x y :
  (a < 2 ^ 128)%N → (b < 2 ^ 128)%N →
  (_idempotency_key a x = _idempotency_key b y ↔ a = b ∧ str_lower x = str_lower y) ∧
  ∀ c, _idempotency_key a x ≠ social_key b c.
Proof.
  intros Ha Hb. unfold _idempotency_key, social_key. split; [split|].
  - intros H%append_inj_l. apply append_inj_len in H as [Huuid H]; [|by rewrite !length_uuid_str].
    apply uuid_str_inj in Huuid as ->; [|done..]. by apply append_inj_l in H.
  - by intros [-> ->].
  - intros c H%append_inj_l. apply append_inj_len in H as [_ H]; [|by rewrite !length_uuid_str]. done.
Qed.

(** ** The attempts table *)

Definition attempt_key (r : DispatchAttempt.t) : option (N * string) :=
  Some (DispatchAttempt.tenant_id r, DispatchAttempt.idempotency_key r).

(** Attempts sit below the key supply and there is one per tenant and key. *)
Record attempts_ok (s : db) : Prop := {
  ao_fresh : ∀ k r, t_dispatch_attempt s !! k = Some r → (k < next_uuid s)%N;
  ao_unique : unique_on attempt_key s;
}.

(** A sent row is never lost, overwritten or downgraded. *)
Definition sent_kept (s s' : db) : Prop :=
  ∀ k r, t_dispatch_attempt s !! k = Some r → is_sent r = true →
    t_dispatch_attempt s' !! k = Some r.

Definition attempts_step : relation db := λ s s',
  attempts_ok s → attempts_ok s' ∧ sent_kept s s'.
#[export] Instance attempts_step_preorder : PreOrder attempts_step.
Proof.
  split; unfold attempts_step, sent_kept; [by intros s|].
  intros s1 s2 s3 H12 H23 H1. destruct (H12 H1) as [H2 K12]. destruct (H23 H2) as [H3 K23]. eauto.
Qed.

(** A step that leaves the table alone and may use up a key. *)
Lemma attempts_frame s s' :
  t_dispatch_attempt s' = t_dispatch_attempt s → (next_uuid s <= next_uuid s')%N → attempts_step s s'.
Proof.
  intros Ht Hn [Hf Hu]. split; [split|].
  - intros k r. rewrite Ht. intros Hk. specialize (Hf _ _ Hk). lia.
  - unfold unique_on in *. change (rows (R:=DispatchAttempt.t)) with t_dispatch_attempt in *. by rewrite Ht.
  - intros k r. by rewrite Ht.
Qed.

Lemma attempts_frame_add {T} `{Table N T} (mk : N → T) :
  (∀ m s, t_dispatch_attempt (set_rows (R:=T) m s) = t_dispatch_attempt s) →
  (∀ m s, next_uuid (set_rows (R:=T) m s) = next_uuid s) →
  respects attempts_step (add_row mk).
Proof.
  intros Ht Hn e s. simpl. apply attempts_frame; [by rewrite Ht|]. rewrite Hn. simpl. lia.
Qed.

Lemma upsert_attempts a : respects attempts_step (_upsert_dispatch_attempt a).
Proof.
  intros e s. unfold _upsert_dispatch_attempt. rewrite bind_asks, bind_select.
  change (rows (R:=DispatchAttempt.t) s) with (t_dispatch_attempt s).
  destruct (List.filter _ _) as [|r0 rest] eqn:Hsel; intros [Hf Hu].
  - rewrite (bind_ok _ _ _ _ _ _ (add_row_run _ e s)). simpl.
    pose proof (proj1 (select_nil (T:=DispatchAttempt.t) _ s) Hsel) as Hno.
    split; [split|]; simpl.
    + intros k r. simpl. rewrite lookup_insert_Some. intros [[<- _]|[_ Hr]]; [lia|].
      specialize (Hf _ _ Hr). lia.
    + refine (add_row_unique attempt_key _ e s _ Hu). intros k r x Hr [= <-] [= Ht Hk].
      specialize (Hno k r Hr). unfold same_key in Hno. by rewrite Ht, Hk, !bool_decide_true in Hno.
    + intros k r Hr _. simpl. rewrite lookup_insert_ne; [done|]. specialize (Hf _ _ Hr). lia.
  - unfold mbind, M_bind. simpl. split; [split|]; simpl.
    + intros k r. rewrite lookup_fmap_Some. intros (r' & _ & Hr). eauto.
    + refine (update_where_unique attempt_key _ _ _ e s Hu). done.
    + intros k r Hr Hs. simpl. rewrite lookup_fmap, Hr. simpl. by rewrite Hs, andb_false_r.
Qed.

(** Walk through a program, keeping the attempts. *)
Ltac attempts_frame_done := intros ? ?; apply attempts_frame; [done|apply N.le_refl].
Ltac attempts_step_tac := first
  [ match goal with
    | |- respects attempts_step (_upsert_dispatch_attempt _) => apply upsert_attempts
    | |- respects attempts_step (add_row _) => apply attempts_frame_add; done
    | |- respects attempts_step (update_row _ _) => attempts_frame_done
    | |- respects attempts_step (update_where _ _) => attempts_frame_done
    end
  | respects_try_tac | respects_step
  | match goal with
    | |- respects ?R (?f _) => unfold f
    | |- respects ?R (?f _ _) => unfold f
    | |- respects ?R (?f _ _ _) => unfold f
    | |- respects ?R (?f _ _ _ _) => unfold f
    | |- respects ?R (?f _ _ _ _ _) => unfold f
    | |- respects ?R (?f _ _ _ _ _ _) => unfold f
    | |- respects ?R (?f _ _ _ _ _ _ _) => unfold f
    | |- respects ?R (?f _ _ _ _ _ _ _ _) => unfold f
    | |- respects ?R (?f _ _ _ _ _ _ _ _ _) => unfold f
    | |- respects ?R (?f _ _ _ _ _ _ _ _ _ _) => unfold f
    end ].
Ltac attempts_walk := repeat attempts_step_tac.

(** Going live writes a campaign and its audit row. *)
Lemma start_live_transition st tr :
  sm_get (st, "start_live") campaign_sm = Some tr → tr = t_start_live.
Proof.
  intros (Hin & _ & Hn)%campaign_sm_get.
  repeat (apply elem_of_cons in Hin as [->|Hin]; [first [discriminate Hn | reflexivity]|]).
  by apply not_elem_of_nil in Hin.
Qed.

Lemma respects_go_live (R : relation db) `{!PreOrder R} c :
  (∀ m s, R s (set_rows (R:=Campaign.t) m s)) →
  (∀ m s, R s (set_rows (R:=AuditLog.t) m (s <| next_uuid := (next_uuid s + 1)%N |>))) →
  respects R (_maybe_go_live c).
Proof.
  intros Hc Ha. unfold _maybe_go_live, try_transition.
  repeat first [ respects_step | respects_try_tac ]. intros e s.
  pose proof (apply_cases c "start_live" e s) as Hcase.
  destruct (sm_get _ campaign_sm) as [tr|] eqn:Htr; [|by destruct Hcase as [m ->]].
  destruct Hcase as [[m ->]| ->]; [done|]. apply start_live_transition in Htr as ->.
  revert e s. change (respects R (enter c t_start_live)). unfold enter, move, assign.
  cbn [on_enter t_start_live transition].
  repeat first [ apply (respects_audit R); exact Ha
               | apply (respects_frame_update R); intros m s; apply Hc | respects_step ].
Qed.

Lemma go_live_attempts c : respects attempts_step (_maybe_go_live c).
Proof.
  apply respects_go_live; [apply _|intros m s; apply attempts_frame; simpl; [done|lia]..].
Qed.

Lemma ab_filter_attempts asset l : respects attempts_step (_filter_audience_for_ab_test asset l).
Proof. unfold _filter_audience_for_ab_test, _running_ab_test_for_asset, assigned_here, assign_variant. attempts_walk. Qed.

Lemma call_attempts c tid i : respects attempts_step (call c tid i).
Proof. unfold call, check_recipient. attempts_walk. Qed.

Lemma send_all_attempts dumps secret c p f a l : respects attempts_step (send_all dumps secret c p f a l).
Proof.
  unfold send_all. destruct l as [|me l]; [attempts_walk|].
  repeat first [ apply call_attempts | attempts_step_tac ].
Qed.

Lemma dispatch_email_attempts decrypt build dumps secret k :
  respects attempts_step (dispatch_email_asset decrypt build dumps secret k).
Proof.
  unfold dispatch_email_asset.
  repeat first [ apply ab_filter_attempts | apply send_all_attempts | apply go_live_attempts | attempts_step_tac ].
Qed.

Lemma dispatch_social_attempts decrypt build k :
  respects attempts_step (dispatch_social_asset decrypt build k).
Proof.
  unfold dispatch_social_asset, on_revoked, on_published.
  repeat first [ apply go_live_attempts | attempts_step_tac ].
Qed.

(** C12: a recorded send is for ever. Whatever the provider answers, and whether a
    dispatch returns or raises, the attempts table keeps one row per tenant and
    idempotency key, and a row that says [sent] is still there, unchanged. *)
Theorem sent_attempts_kept decrypt build_email build_social dumps secret k e s :
  attempts_ok s →
  (let s' := (dispatch_email_asset decrypt build_email dumps secret k e s).1 in
   attempts_ok s' ∧ sent_kept s s') ∧
  (let s' := (dispatch_social_asset decrypt build_social k e s).1 in
   attempts_ok s' ∧ sent_kept s s').
Proof.
  intros Hs. split; [by apply dispatch_email_attempts|by apply dispatch_social_attempts].
Qed.

(** ** Who is not sent to *)

Definition attempts_of (s : db) : list DispatchAttempt.t := snd <$> map_to_list (t_dispatch_attempt s).

(** The asset has gone to this address before. *)
Definition already_sent (a : ContentAsset.t) (s : db) (email : string) : bool :=
  existsb (λ r, (DispatchAttempt.content_asset_id r ==b ContentAsset.id a) && is_sent r &&
                (recipient_of r ==b email)) (attempts_of s).

(** The number of sends of the tenant to [email] since [since]. *)
Definition sends_since (tid : N) (since : Z) (s : db) (email : string) : Z :=
  Z.of_nat (length (List.filter (sent_since tid since [email]) (attempts_of s))).

(** The tenant has an enabled cap for email and [email] has reached it. *)
Definition over_cap (tid : N) (t : Z) (s : db) (email : string) : bool :=
  existsb (λ r, (FrequencyCapSetting.tenant_id r ==b tid) &&
                (FrequencyCapSetting.channel_platform r ==b ChannelPlatform.email) &&
                FrequencyCapSetting.enabled r &&
                let n := sends_since tid (t - FrequencyCapSetting.window_days r * day) s email in
                (0 <? n) && (FrequencyCapSetting.max_sends_per_recipient r <=? n))
    (snd <$> map_to_list (t_frequency_cap_setting s)).

Definition off_limits (a : ContentAsset.t) (t : Z) (s : db) (email : string) : bool :=
  let tid := ContentAsset.tenant_id a in
  undeliverable tid false s email || already_sent a s email ||
  (0 <? sends_since tid (t - DEDUP_WINDOW) s email) || over_cap tid t s email.

(** *** The filters *)

Lemma classify_to_send existing recent caps members me :
  me ∈ to_send (classify existing recent caps members) →
  me.1 ∈ members ∧ me.2 = member_email me.1 ∧ str_empty me.2 = false ∧
  (me.2 ∉ existing) ∧ (me.2 ∉ recent) ∧ (me.2 ∉ caps).
Proof.
  induction members as [|m members IH]; cbn [classify foldr]; [by intros ?%not_elem_of_nil|].
  fold (classify existing recent caps members). cbv zeta.
  assert (me ∈ to_send (classify existing recent caps members) →
    me.1 ∈ m :: members ∧ me.2 = member_email me.1 ∧ str_empty me.2 = false ∧
    (me.2 ∉ existing) ∧ (me.2 ∉ recent) ∧ (me.2 ∉ caps)) as Hrest.
  { intros (H & ?)%IH. split; [by right|done]. }
  destruct (str_empty (member_email m)) eqn:Hne; [done|].
  destruct (_ || _) eqn:Hdup; [done|]. destruct (_ ∈b caps) eqn:Hcap; [done|]. cbn [to_send].
  rewrite elem_of_cons. intros [->|H]; [|by apply Hrest]. reflect_bools. cbn [fst snd].
  split_and!; try done. left.
Qed.

(** A valid address comes from a string. *)
Lemma valid_email_is_string v :
  EMAIL_RE (str_lower (str_strip (json_str v))) = true → (∃ x, v = JStr x) ∨ truthy v = true.
Proof.
  destruct v as [|[]|z|[m x]|x|[|y l]|[|y l]]; simpl; try done; try (by right); try (by left; exists x).
  - destruct (Z.eqb_spec z 0) as [->|]; [done|by right].
  - destruct (Z.eqb_spec m 0) as [->|]; [done|by right].
Qed.

Lemma elem_of_normalise_json v x l l' :
  normalise_json l = inr l' → v ∈ l → v = JStr x → str_empty x = false → str_lower (str_strip x) ∈ l'.
Proof.
  revert l'. induction l as [|w l IH]; intros l' Hn Hin Hv Hx; [by apply not_elem_of_nil in Hin|].
  cbn [normalise_json foldr] in Hn. fold (normalise_json l) in Hn.
  apply elem_of_cons in Hin as [->|Hin].
  - subst w. simpl in Hn. rewrite Hx in Hn. simpl in Hn. destruct (normalise_json l); [done|].
    injection Hn as <-. left.
  - destruct (truthy w); simpl in Hn; [|by eapply IH]. destruct w, (normalise_json l); try done.
    injection Hn as <-. right. by eapply IH.
Qed.

Lemma normalise_json_strings l l' v :
  normalise_json l = inr l' → v ∈ l → truthy v = true → ∃ x, v = JStr x.
Proof.
  revert l'. induction l as [|w l IH]; intros l' Hn Hin Hv; [by apply not_elem_of_nil in Hin|].
  cbn [normalise_json foldr] in Hn. fold (normalise_json l) in Hn.
  apply elem_of_cons in Hin as [<-|Hin].
  - rewrite Hv in Hn. destruct v; try done. eauto.
  - destruct (truthy w); simpl in Hn; [|by eapply IH]. destruct w, (normalise_json l); try done. by eapply IH.
Qed.

Lemma sent_since_sub tid since l x r :
  x ∈ l → sent_since tid since [x] r = true → sent_since tid since l r = true ∧ recipient_of r = x.
Proof.
  unfold sent_since. intros Hx [H Hr]%andb_true_iff. apply bool_decide_eq_true_1, list_elem_of_singleton in Hr.
  rewrite H, Hr, bool_decide_true by done. done.
Qed.

(** The rows of one recipient's group. *)
Lemma group_count tid since l x (rows : list DispatchAttempt.t) :
  x ∈ l →
  List.filter (λ y, y ==b x) (recipient_of <$> List.filter (sent_since tid since l) rows) =
  recipient_of <$> List.filter (sent_since tid since [x]) rows.
Proof.
  intros Hx. induction rows as [|r rows IH]; [done|]. cbn [List.filter].
  destruct (sent_since tid since [x] r) eqn:E1.
  - destruct (sent_since_sub _ _ _ _ _ Hx E1) as [-> Hr]. rewrite !fmap_cons. cbn [List.filter].
    by rewrite Hr, bool_decide_true, IH.
  - destruct (sent_since tid since l r) eqn:E2; [|done]. rewrite fmap_cons. cbn [List.filter].
    rewrite bool_decide_false; [done|]. intros Hr. unfold sent_since in *.
    apply andb_true_iff in E2 as [E2 _]. rewrite E2, Hr in E1.
    cbn [andb] in E1. apply bool_decide_eq_false_1 in E1. by destruct E1; left.
Qed.

Lemma capped_inr tid candidates e s s' caps x :
  _capped_recipients tid ChannelPlatform.email candidates e s = (s', inr caps) →
  s' = s ∧ (x ∈ normalise candidates → x ∉ caps → over_cap tid (now e) s x = false).
Proof.
  unfold _capped_recipients. destruct (normalise candidates) as [|n0 ns] eqn:En.
  { intros [= <- <-]. split; [done|]. by intros ?%not_elem_of_nil. }
  rewrite (bind_select (T:=FrequencyCapSetting.t)). intros Hrun.
  apply bind_inr in Hrun as (s1 & o & Ho & Hrun). apply scalar_cases in Ho as [-> [(-> & Hsel)|(r & -> & Hsel)]].
  - injection Hrun as <- <-. split; [done|]. intros _ _. apply existsb_false. intros r Hr.
    pose proof (proj1 (bfilter_nil_iff _ _) Hsel r Hr) as Hf. by rewrite Hf.
  - rewrite bind_asks, (bind_select (T:=DispatchAttempt.t)) in Hrun. injection Hrun as <- <-.
    split; [done|]. intros Hx Hcap. apply existsb_false. intros r' Hr'.
    apply not_true_iff_false. intros [Htest Hn]%andb_true_iff. cbv zeta in Hn.
    assert (r' = r) as ->.
    { apply list_elem_of_singleton. rewrite <- Hsel. by apply elem_of_bfilter. }
    apply andb_true_iff in Hn as [Hn Hmax]. apply Hcap, elem_of_bfilter.
    rewrite (group_count _ _ _ _ _ Hx), length_fmap. split; [|exact Hmax].
    unfold sends_since, attempts_of in Hn. change (rows (R:=DispatchAttempt.t) s) with (t_dispatch_attempt s).
    destruct (List.filter (sent_since _ _ [x]) _) as [|r0 rest] eqn:Efil; [done|].
    pose proof (list_elem_of_here r0 rest) as H0. rewrite <- Efil in H0. apply elem_of_bfilter in H0 as [Hin H0].
    destruct (sent_since_sub _ _ _ _ _ Hx H0) as [H1 <-]. apply list_elem_of_fmap_2, elem_of_bfilter. done.
Qed.

Lemma recent_inr tid l e s s' recent x :
  _recent_sent_recipients tid l e s = (s', inr recent) →
  s' = s ∧ ((∃ l', normalise_json l = inr l' ∧ x ∈ l') → x ∉ recent →
            sends_since tid (now e - DEDUP_WINDOW) s x = 0).
Proof.
  unfold _recent_sent_recipients. intros Hrun. apply bind_inr in Hrun as (s1 & l' & Hl & Hrun).
  apply of_sum_inr in Hl as [Hl ->]. destruct l' as [|n0 ns].
  { injection Hrun as <- <-. split; [done|]. rewrite Hl.
    by intros (l' & [= <-] & ?%not_elem_of_nil). }
  rewrite bind_asks, (bind_select (T:=DispatchAttempt.t)) in Hrun. injection Hrun as <- <-. split; [done|].
  rewrite Hl. intros (l' & [= <-] & Hx) Hnot. unfold sends_since.
  destruct (List.filter _ (attempts_of s)) as [|r0 rest] eqn:E; [done|]. exfalso.
  pose proof (list_elem_of_here r0 rest) as H0. rewrite <- E in H0. apply elem_of_bfilter in H0 as [Hin H0].
  destruct (sent_since_sub _ _ _ _ _ Hx H0) as [H1 <-]. apply Hnot, list_elem_of_fmap_2, elem_of_bfilter. done.
Qed.

Lemma existing_inr asset e s s' existing x :
  _existing_attempts (ContentAsset.id asset) e s = (s', inr existing) →
  s' = s ∧ (x ∉ existing → already_sent asset s x = false).
Proof.
  unfold _existing_attempts. rewrite (bind_select (T:=DispatchAttempt.t)). intros [= <- <-].
  split; [done|]. intros Hnot. apply existsb_false. intros r Hr. apply not_true_iff_false.
  intros [Htest Hx]%andb_true_iff. apply bool_decide_eq_true_1 in Hx as <-.
  apply Hnot, list_elem_of_fmap_2, elem_of_bfilter. done.
Qed.

(** Who the filters let through. *)
Lemma split_members_inr asset members e s s' sp :
  split_members asset members e s = (s', inr sp) →
  s' = s ∧ ∀ me, me ∈ to_send sp →
    me.2 = member_email me.1 ∧ str_empty me.2 = false ∧
    (undeliverable (ContentAsset.tenant_id asset) false s me.2 = false →
     off_limits asset (now e) s me.2 = false).
Proof.
  unfold split_members. intros Hrun. apply bind_inr in Hrun as (s1 & existing & He & Hrun).
  pose proof (λ x, existing_inr _ _ _ _ _ x He) as He'. destruct (He' "") as [-> _].
  cbv zeta in Hrun. apply bind_inr in Hrun as (s2 & recent & Hr & Hrun).
  pose proof (λ x, recent_inr _ _ _ _ _ _ x Hr) as Hr'. destruct (Hr' "") as [-> _].
  assert (∃ l', normalise_json ((λ m, default (JStr "") (dget "email" (AudienceMember.payload m))) <$>
    List.filter (λ m, negb (AudienceMember.payload m ==b [])) members) = inr l') as [l' Hl'].
  { unfold _recent_sent_recipients in Hr. apply bind_inr in Hr as (? & l' & Hl & _).
    apply of_sum_inr in Hl as [Hl _]. eauto. }
  apply bind_inr in Hrun as (s3 & caps & Hc & Hrun).
  pose proof (λ x, capped_inr _ _ _ _ _ _ x Hc) as Hc'. destruct (Hc' "") as [-> _].
  injection Hrun as <- <-. split; [done|]. intros me Hme.
  destruct (classify_to_send _ _ _ _ _ Hme) as (Hin & Hmail & Hne & Hn1 & Hn2 & Hn3).
  split; [done|]. split; [done|]. intros Hund. unfold off_limits. rewrite Hund.
  rewrite (proj2 (He' me.2) Hn1). cbn [orb].
  assert (AudienceMember.payload me.1 ≠ []) as Hpay.
  { intros Hp. unfold member_email, email_of in Hmail. rewrite Hp in Hmail. by rewrite Hmail in Hne. }
  assert (me.1 ∈ List.filter (λ m, negb (AudienceMember.payload m ==b [])) members) as Hin'.
  { apply elem_of_bfilter. by rewrite bool_decide_false. }
  set (v := default (JStr "") (dget "email" (AudienceMember.payload me.1))).
  assert (v ∈ (λ m, default (JStr "") (dget "email" (AudienceMember.payload m))) <$>
    List.filter (λ m, negb (AudienceMember.payload m ==b [])) members) as Hv
    by (apply list_elem_of_fmap; exists me.1; done).
  assert (∃ x, v = JStr x) as [x Hx].
  { destruct (valid_email_is_string v) as [?|Ht]; [|done|by eapply normalise_json_strings].
    unfold undeliverable in Hund. rewrite Hmail in Hund. unfold member_email, email_of in Hund. fold v in Hund.
    destruct (EMAIL_RE _); [done|]. by rewrite orb_true_r in Hund. }
  assert (me.2 = str_lower (str_strip x)) as Hmx by (rewrite Hmail; unfold member_email, email_of; fold v; by rewrite Hx).
  assert (str_empty x = false) as Hxne by (destruct x; [by rewrite Hmx in Hne|done]).
  rewrite (proj2 (Hr' me.2)); [|exists l'; split; [done|]|done].
  2:{ rewrite Hmx. by eapply elem_of_normalise_json. }
  apply (proj2 (Hc' me.2)); [|done]. apply elem_of_normalise. exists me.2. split; [|split; [done|]].
  - rewrite Hmail. by apply list_elem_of_fmap_2.
  - rewrite Hmail. unfold member_email. by rewrite normal_idem.
Qed.

(** *** The handler behind a fence *)

Definition same_mail : relation db := λ s s',
  t_dispatch_attempt s' = t_dispatch_attempt s ∧ t_suppression_entry s' = t_suppression_entry s ∧
  t_frequency_cap_setting s' = t_frequency_cap_setting s.
#[export] Instance same_mail_preorder : PreOrder same_mail.
Proof. split; unfold same_mail; [by intros s|]. intros s1 s2 s3 (?&?&?) (?&?&?). split_and!; congruence. Qed.

Definition same_suppressions : relation db := λ s s', t_suppression_entry s' = t_suppression_entry s.
#[export] Instance same_suppressions_preorder : PreOrder same_suppressions.
Proof. split; unfold same_suppressions; [by intros s|]. intros s1 s2 s3 H12 H23. congruence. Qed.

Lemma ab_filter_same_mail asset l : respects same_mail (_filter_audience_for_ab_test asset l).
Proof.
  unfold _filter_audience_for_ab_test, _running_ab_test_for_asset, assigned_here, assign_variant.
  repeat first [ respects_step | respects_try_tac ].
Qed.

Lemma upsert_same_suppressions a : respects same_suppressions (_upsert_dispatch_attempt a).
Proof. unfold _upsert_dispatch_attempt. respects_auto. Qed.

Lemma off_limits_same a t s s' x : same_mail s s' → off_limits a t s' x = off_limits a t s x.
Proof.
  intros (H1 & H2 & H3). unfold off_limits, undeliverable, suppressed_now, already_sent, over_cap, sends_since,
    attempts_of. by rewrite H1, H2, H3.
Qed.

Lemma undeliverable_same tid b s s' x :
  same_suppressions s s' → undeliverable tid b s' x = undeliverable tid b s x.
Proof. intros H. unfold undeliverable, suppressed_now. by rewrite H. Qed.

(** The fence around whatever connector the factory builds. *)
Definition fenced_build (bad : string → bool) (build : string → jdict → exn + EmailConnector)
    (provider_name : string) (payload : jdict) : exn + EmailConnector :=
  match build provider_name payload with inl x => inl x | inr c => inr (fenced bad c) end.

Lemma load_connector_fenced decrypt build bad tid e s s1 c p :
  _load_email_connector decrypt build tid e s = (s1, inr (c, p)) →
  s1 = s ∧ _load_email_connector decrypt (fenced_build bad build) tid e s = (s, inr (fenced bad c, p)).
Proof.
  unfold _load_email_connector. rewrite !(bind_select (T:=IntegrationCredential.t)). intros Hrun.
  apply bind_inr in Hrun as (s2 & cred & Hc & Hrun). pose proof Hc as Hc'. apply scalar_cases in Hc' as [-> _].
  rewrite (bind_ok _ _ _ _ _ _ Hc). destruct cred as [cred|]; [|done].
  apply bind_inr in Hrun as (s3 & payload & Hd & Hrun). pose proof Hd as Hd'. apply of_sum_inr in Hd' as [_ ->].
  rewrite (bind_ok _ _ _ _ _ _ Hd). apply bind_inr in Hrun as (s4 & conn & Hb & Hrun).
  apply of_sum_inr in Hb as [Hb ->]. injection Hrun as <- <- <-. split; [done|].
  unfold fenced_build. by rewrite Hb.
Qed.

Lemma load_connector_raises decrypt build bad tid e s s1 x :
  _load_email_connector decrypt build tid e s = (s1, inl x) →
  _load_email_connector decrypt (fenced_build bad build) tid e s = (s1, inl x).
Proof.
  unfold _load_email_connector. rewrite !(bind_select (T:=IntegrationCredential.t)).
  unfold mbind, M_bind. destruct (scalar_one_or_none _ e s) as [s2 [y|[cred|]]]; [done| |done].
  destruct (of_sum (decrypt _) e s2) as [s3 [y|payload]]; [done|].
  unfold fenced_build. by destruct (build _ payload).
Qed.

Lemma send_all_fenced dumps secret bad c p footer a batch e s :
  (∀ me, me ∈ batch → me.2 = member_email me.1 ∧
     (undeliverable (ContentAsset.tenant_id a) false s me.2 = false → bad me.2 = false)) →
  send_all dumps secret c p footer a batch e s = send_all dumps secret (fenced bad c) p footer a batch e s.
Proof.
  intros Hb. unfold send_all. destruct batch as [|me0 batch]; [done|].
  apply bind_ext. intros s1 m H1.
  assert (s1 = s) as ->.
  { unfold _message_from_asset in H1. cbv zeta in H1. inv_run. done. }
  apply bind_ext. intros s1 signer H2.
  assert (s1 = s) as ->.
  { destruct footer; [|by apply ret_inr in H2 as [-> _]].
    unfold _build_unsubscribe_signer, compliance_settings in H2. by inv_run. }
  cbv zeta. change (provider (fenced bad c)) with (provider c). apply bind_head, call_fenced.
  intros r suppressed email Hr (d & -> & He & _ & _) Hund. cbn [in_audience_batch] in Hr.
  apply list_elem_of_fmap in Hr as (me & Hd & Hme). injection Hd as ->.
  destruct (Hb me Hme) as [Hmail Hbad].
  assert (email = me.2) as ->; [|by apply Hbad].
  rewrite He. unfold email_of. simpl. rewrite Hmail. apply normal_idem.
Qed.

(** C7: nobody is mailed twice, against their will or too often. For every connector
    factory, provider answer and fault, dispatching an asset behaves exactly as if the
    connector refused any batch with an address that has received this asset, has been
    sent anything by the tenant in the last 24 hours, has reached the tenant's frequency
    cap, is suppressed, or is malformed or reserved, all as of the start of the run. *)
Theorem dispatch_email_keeps_out decrypt build dumps secret k asset e s :
  t_content_asset s !! k = Some asset →
  dispatch_email_asset decrypt build dumps secret k e s =
  dispatch_email_asset decrypt (fenced_build (off_limits asset (now e) s) build) dumps secret k e s.
Proof.
  intros Hk. unfold dispatch_email_asset. apply bind_ext. intros s1 a Ha.
  unfold load_scheduled in Ha. rewrite (bind_get_row (T:=ContentAsset.t)) in Ha.
  change (rows s !! k) with (t_content_asset s !! k) in Ha. rewrite Hk in Ha. inv_run.
  apply bind_ext. intros s1 c Hc. unfold load_campaign in Hc. rewrite (bind_get_row (T:=Campaign.t)) in Hc.
  change (rows s !! ContentAsset.campaign_id asset) with (t_campaign s !! ContentAsset.campaign_id asset) in Hc.
  destruct (t_campaign s !! _); [|done]. apply ret_inr in Hc as [-> ->].
  destruct (_ ==b CampaignStatus.paused); [done|].
  apply bind_ext. intros s1 [] H1. apply raise_if_inr in H1 as [_ ->].
  set (bad := off_limits asset (now e) s).
  destruct (_load_email_connector decrypt build (ContentAsset.tenant_id asset) e s) as [s1 [x|[conn p]]] eqn:Hl.
  { rewrite (bind_fail _ _ _ _ _ _ Hl). symmetry. apply bind_fail. by apply load_connector_raises. }
  destruct (load_connector_fenced _ _ bad _ _ _ _ _ _ Hl) as [-> Hl'].
  rewrite (bind_ok _ _ _ _ _ _ Hl), (bind_ok _ _ _ _ _ _ Hl').
  change (provider (fenced bad conn)) with (provider conn).
  apply bind_ext. intros s1 members Hm.
  assert (s1 = s) as -> by (unfold _load_audience_members in Hm; inv_run; by destruct (order_by_desc _ _); inv_run).
  apply bind_ext. intros s1 [] H1. apply raise_if_inr in H1 as [_ ->].
  apply bind_ext. intros s1 am Hf. pose proof (respects_run same_mail _ _ _ _ _ (ab_filter_same_mail _ _) Hf) as Hs1.
  apply bind_ext. intros s2 sp Hsp. apply split_members_inr in Hsp as [-> Hsp].
  apply bind_ext. intros s2 [] Hcap.
  assert (same_suppressions s1 s2) as Hs2.
  { refine (respects_run same_suppressions _ _ _ _ _ _ Hcap). respects_auto. apply upsert_same_suppressions. }
  apply bind_ext. intros s3 footer Hfoot.
  assert (s3 = s2) as -> by (unfold _build_compliance_footer, compliance_settings in Hfoot; by inv_run).
  apply bind_head, send_all_fenced. intros me Hme. destruct (Hsp me Hme) as (Hmail & _ & Hoff).
  split; [done|]. intros Hund. unfold bad. rewrite <- (off_limits_same _ _ _ _ _ Hs1).
  apply Hoff. by rewrite <- (undeliverable_same _ _ _ _ _ Hs2).
Qed.

(** ** What a dispatch records *)

(** An attempt of the tenant under [key] is on record. *)
Definition attempted (tid : N) (key : string) (s : db) : Prop :=
  ∃ k r, t_dispatch_attempt s !! k = Some r ∧ same_key tid key r = true.

(** Keys on record stay on record, and assets are not touched. *)
Definition records : relation db := λ s s',
  (attempts_ok s → attempts_ok s' ∧ ∀ tid key, attempted tid key s → attempted tid key s') ∧
  t_content_asset s' = t_content_asset s.
#[export] Instance records_preorder : PreOrder records.
Proof.
  split; [by intros s|]. intros s1 s2 s3 [H12 A12] [H23 A23]. split; [|congruence].
  intros H1. destruct (H12 H1) as [H2 K12]. destruct (H23 H2) as [H3 K23]. eauto.
Qed.

Lemma records_frame s s' :
  t_dispatch_attempt s' = t_dispatch_attempt s → t_content_asset s' = t_content_asset s →
  (next_uuid s <= next_uuid s')%N → records s s'.
Proof.
  intros Ht Ha Hn. split; [|done]. intros Hok. split; [by apply (attempts_frame s)|].
  intros tid key (k & r & Hk & Hr). exists k, r. by rewrite Ht.
Qed.

Lemma elem_of_attempts p s r :
  r ∈ List.filter p (snd <$> map_to_list (t_dispatch_attempt s)) ↔
  (∃ k, t_dispatch_attempt s !! k = Some r) ∧ p r = true.
Proof. exact (elem_of_select (T:=DispatchAttempt.t) p s r). Qed.

Lemma upsert_records a e s :
  ∃ s', _upsert_dispatch_attempt a e s = (s', inr ()) ∧ records s s' ∧
    (attempts_ok s → attempted (at_tenant_id a) (at_idempotency_key a) s').
Proof.
  pose proof (upsert_attempts a e s) as Hok. unfold _upsert_dispatch_attempt in *.
  rewrite bind_asks, bind_select in *. change (rows (R:=DispatchAttempt.t) s) with (t_dispatch_attempt s) in *.
  destruct (List.filter _ _) as [|r0 rest] eqn:Hsel.
  - rewrite (bind_ok _ _ _ _ _ _ (add_row_run _ e s)) in *. eexists. split; [reflexivity|]. split; [split|].
    + intros H. destruct (Hok H) as [H' _]. split; [exact H'|]. intros tid key (k & r & Hk & Hr). exists k, r.
      split; [|done]. simpl. rewrite lookup_insert_ne; [done|]. pose proof (ao_fresh s H _ _ Hk). lia.
    + done.
    + intros _. eexists _, _. split; [simpl; apply lookup_insert_eq|]. unfold same_key. simpl.
      by rewrite !bool_decide_true.
  - eexists. split; [reflexivity|]. split; [split|].
    + intros H. destruct (Hok H) as [H' _]. split; [exact H'|]. intros tid key (k & r & Hk & Hr).
      eexists k, _. simpl. rewrite lookup_fmap, Hk. split; [done|]. by destruct (_ && _).
    + done.
    + intros _. pose proof (list_elem_of_here r0 rest) as H0. rewrite <- Hsel in H0.
      apply elem_of_attempts in H0 as [[k Hk] Hr]. eexists k, _. simpl. rewrite lookup_fmap, Hk. split; [done|].
      by destruct (_ && _).
Qed.

Lemma upsert_all_records {A} (f : A → Attempt) (l : list A) e s s' u :
  foreach l (λ x, _upsert_dispatch_attempt (f x)) e s = (s', inr u) →
  records s s' ∧ (attempts_ok s → ∀ x, x ∈ l → attempted (at_tenant_id (f x)) (at_idempotency_key (f x)) s').
Proof.
  revert s. induction l as [|x l IH]; intros s Hrun; simpl in Hrun.
  - apply ret_inr in Hrun as [-> _]. split; [done|]. by intros _ x ?%not_elem_of_nil.
  - destruct (upsert_records (f x) e s) as (s1 & Hs1 & R1 & A1). rewrite (bind_ok _ _ _ _ _ _ Hs1) in Hrun.
    destruct (IH _ Hrun) as [R2 A2]. split; [by etrans|]. intros Hok y.
    destruct (proj1 R1 Hok) as [Hok1 _]. rewrite elem_of_cons. intros [->|Hy]; [|by apply A2].
    by apply (proj1 R2 Hok1), A1.
Qed.

Lemma outcome_key asset prov result t m email :
  at_tenant_id (outcome asset prov result t m email).1 = ContentAsset.tenant_id asset ∧
  at_idempotency_key (outcome asset prov result t m email).1 = _idempotency_key (ContentAsset.id asset) email.
Proof.
  unfold outcome. destruct (dget _ (lower_map (per_message_ids _))); [done|].
  destruct (dget _ (lower_map (rejections _))); [|done]. by destruct (_ ==b _).
Qed.

Definition bucket_sum (c : Z * Z * Z) : Z := c.1.1 + c.1.2 + c.2.
Definition buckets_nonneg (c : Z * Z * Z) : Prop := 0 <= c.1.1 ∧ 0 <= c.1.2 ∧ 0 <= c.2.

Lemma record_outcomes_inr asset prov result l c e s s' c' :
  foldM (record_outcome asset prov result) c l e s = (s', inr c') →
  records s s' ∧ bucket_sum c' = bucket_sum c + Z.of_nat (length l) ∧
  (buckets_nonneg c → buckets_nonneg c') ∧
  (attempts_ok s → ∀ me, me ∈ l →
     attempted (ContentAsset.tenant_id asset) (_idempotency_key (ContentAsset.id asset) me.2) s').
Proof.
  revert c s. induction l as [|x l IH]; intros c s Hrun.
  - simpl in Hrun. apply ret_inr in Hrun as [-> ->]. split; [reflexivity|]. split; [simpl; lia|]. split; [done|].
    by intros _ me ?%not_elem_of_nil.
  - cbn [foldM] in Hrun. apply bind_inr in Hrun as (s0 & c0 & Hone & Hrun).
    unfold record_outcome in Hone. rewrite bind_asks in Hone.
    set (o := outcome asset prov result (now e) x.1 x.2) in Hrun.
    destruct (upsert_records o.1 e s) as (s1 & Hs1 & R1 & A1). rewrite (bind_ok _ _ _ _ _ _ Hs1) in Hone.
    apply ret_inr in Hone as [-> ->]. destruct (IH _ _ Hrun) as (R2 & Hsum & Hnn & A2).
    destruct (outcome_key asset prov result (now e) x.1 x.2) as [Ht Hkey]. fold o in Ht, Hkey.
    split; [by etrans|]. split; [|split].
    + rewrite Hsum. fold o. destruct c as [[a b] d]. unfold bucket_sum. cbn [length]. destruct o.2; cbn [count_bucket fst snd]; lia.
    + intros Hc. apply Hnn. destruct c as [[a b] d], Hc as (?&?&?). unfold buckets_nonneg in *.
      fold o. destruct o.2; cbn [count_bucket fst snd] in *; lia.
    + intros Hok me. destruct (proj1 R1 Hok) as [Hok1 _]. rewrite elem_of_cons. intros [->|Hy]; [|by apply A2].
      rewrite <- Hkey, <- Ht. by apply (proj1 R2 Hok1), A1.
Qed.

Lemma ab_filter_records asset l : respects records (_filter_audience_for_ab_test asset l).
Proof.
  unfold _filter_audience_for_ab_test, _running_ab_test_for_asset, assigned_here, assign_variant.
  repeat first [ match goal with |- respects records (add_row _) =>
                   intros ? ?; apply records_frame; [done|done|simpl; lia] end
               | respects_step | respects_try_tac ].
Qed.

Lemma call_pure c tid i e s s' r : call c tid i e s = (s', inr r) → s' = s.
Proof.
  unfold call. intros Hrun. inv_run.
  repeat match goal with
  | H : foldM (check_recipient _) _ _ _ _ = _ |- _ => apply check_all_inr in H as [-> _]
  | H : _load_suppressed_emails ?t ?c ?e ?s = _ |- _ =>
      let l := fresh in let E := fresh in destruct (load_suppressed_run t c e s) as (l & E & _);
      rewrite E in H; injection H as <- <-
  | H : match ?x with _ => _ end _ _ = _ |- _ => destruct x; inv_run
  end; done.
Qed.

(** How many of a batch the tool's result puts into a bucket. *)
Definition in_bucket (asset : ContentAsset.t) (prov : string) (result : DispatchResult) (t : Z)
    (l : list (AudienceMember.t * string)) (b : bucket) : Z :=
  Z.of_nat (length (List.filter (λ me, match (outcome asset prov result t me.1 me.2).2, b with
    | BSent, BSent | BSuppressed, BSuppressed | BRejected, BRejected => true | _, _ => false end) l)).
Definition bucket_counts asset prov result t l : Z * Z * Z :=
  (in_bucket asset prov result t l BSent, in_bucket asset prov result t l BSuppressed,
   in_bucket asset prov result t l BRejected).

Lemma record_outcomes_counts asset prov result l c e s s' c' :
  foldM (record_outcome asset prov result) c l e s = (s', inr c') →
  c' = (c.1.1 + in_bucket asset prov result (now e) l BSent, c.1.2 + in_bucket asset prov result (now e) l BSuppressed,
        c.2 + in_bucket asset prov result (now e) l BRejected).
Proof.
  revert c s. induction l as [|x l IH]; intros c s Hrun.
  - injection Hrun as _ <-. destruct c as [[a b] d]. unfold in_bucket. cbn. by rewrite !Z.add_0_r.
  - cbn [foldM] in Hrun. apply bind_inr in Hrun as (s0 & c0 & Hone & Hrun).
    unfold record_outcome in Hone. rewrite bind_asks in Hone.
    set (o := outcome asset prov result (now e) x.1 x.2) in Hone.
    destruct (upsert_records o.1 e s) as (s1 & Hs1 & _). rewrite (bind_ok _ _ _ _ _ _ Hs1) in Hone.
    apply ret_inr in Hone as [_ ->]. rewrite (IH _ _ Hrun). clear Hrun Hs1. destruct c as [[a b] d]. unfold in_bucket.
    cbn [List.filter]. change (outcome asset prov result (now e) x.1 x.2) with o.
    destruct o as [att []]; cbn [count_bucket fst snd length]; (apply f_equal2; [apply f_equal2|]); lia.
Qed.

(** What the tool was handed and answered. *)
Definition tool_answered connector tid (batch : list (AudienceMember.t * string)) e (result : DispatchResult) : Prop :=
  ∃ inputs signer s, in_audience_batch inputs = batch_entry signer <$> batch ∧ in_transactional inputs = false ∧
    call connector tid inputs e s = (s, inr result).

Lemma send_all_counts dumps secret c p footer a batch e s s' counts :
  send_all dumps secret c p footer a batch e s = (s', inr counts) →
  (batch = [] ∧ counts = (0, 0, 0)) ∨
  ∃ result, tool_answered c (ContentAsset.tenant_id a) batch e result ∧
    counts = bucket_counts a (provider c) result (now e) batch.
Proof.
  unfold send_all. intros Hrun. destruct batch as [|me0 batch]; [by injection Hrun as _ <-; left|right].
  apply bind_inr in Hrun as (s1 & m & _ & Hrun). apply bind_inr in Hrun as (s2 & signer & _ & Hrun).
  cbv zeta in Hrun. apply bind_inr in Hrun as (s3 & result & Hcall & Hrun). pose proof (call_pure _ _ _ _ _ _ _ Hcall) as ->.
  exists result. split; [eexists _, signer, _; split; [|split; [|exact Hcall]]; done|]. rewrite (record_outcomes_counts _ _ _ _ _ _ _ _ _ Hrun). done.
Qed.

Lemma send_all_inr dumps secret c p footer a batch e s s' counts :
  send_all dumps secret c p footer a batch e s = (s', inr counts) →
  records s s' ∧ bucket_sum counts = Z.of_nat (length batch) ∧ buckets_nonneg counts ∧
  (attempts_ok s → ∀ me, me ∈ batch →
     attempted (ContentAsset.tenant_id a) (_idempotency_key (ContentAsset.id a) me.2) s').
Proof.
  unfold send_all. intros Hrun. destruct batch as [|me0 batch].
  { apply ret_inr in Hrun as [-> ->]. split; [reflexivity|]. split; [done|]. split; [done|].
    by intros _ me ?%not_elem_of_nil. }
  apply bind_inr in Hrun as (s1 & m & H1 & Hrun).
  assert (s1 = s) as -> by (unfold _message_from_asset in H1; cbv zeta in H1; by inv_run).
  apply bind_inr in Hrun as (s1 & signer & H2 & Hrun).
  assert (s1 = s) as ->.
  { destruct footer; [|by apply ret_inr in H2 as [-> _]].
    unfold _build_unsubscribe_signer, compliance_settings in H2. by inv_run. }
  cbv zeta in Hrun. apply bind_inr in Hrun as (s1 & r & H3 & Hrun). apply call_pure in H3 as ->.
  apply record_outcomes_inr in Hrun as (R & Hsum & Hnn & A). split; [done|].
  split; [by rewrite Hsum|]. split; [by apply Hnn|done].
Qed.

(** *** The filters partition the audience *)

Lemma classify_partition existing recent caps members :
  let sp := classify existing recent caps members in
  (length (to_send sp) + length (deduped sp) + length (capped sp) =
   length (List.filter (λ m, negb (str_empty (member_email m))) members))%nat.
Proof.
  cbv zeta. induction members as [|m members IH]; [done|]. cbn [classify foldr List.filter].
  fold (classify existing recent caps members). cbv zeta. destruct (str_empty (member_email m)); [done|].
  destruct (_ || _); [cbn; cbn in IH; lia|]. destruct (_ ∈b caps); cbn; cbn in IH; lia.
Qed.

(** The list each member with an address goes to depends on the address. *)
Lemma classify_lists existing recent caps members :
  let mail m := (m, member_email m) in
  let has m := negb (str_empty (member_email m)) in
  let gone m := (member_email m ∈b existing) || (member_email m ∈b recent) in
  let sp := classify existing recent caps members in
  to_send sp = mail <$> List.filter (λ m, has m && negb (gone m) && negb (member_email m ∈b caps)) members ∧
  deduped sp = mail <$> List.filter (λ m, has m && gone m) members ∧
  capped sp = mail <$> List.filter (λ m, has m && negb (gone m) && (member_email m ∈b caps)) members.
Proof.
  cbv zeta. induction members as [|m members (IH1 & IH2 & IH3)]; [done|]. cbn [classify foldr List.filter].
  fold (classify existing recent caps members). cbv zeta. destruct (str_empty (member_email m)); [done|]. cbn [negb andb].
  destruct (_ || _); cbn [negb andb].
  { cbn [to_send deduped capped]. by rewrite IH1, IH2, IH3. }
  destruct (_ ∈b caps); cbn [negb to_send deduped capped]; by rewrite IH1, IH2, IH3.
Qed.

(** The tenant has sent the asset to this address, or anything in the last 24 hours. *)
Definition gone_before (a : ContentAsset.t) (t : Z) (s : db) (email : string) : bool :=
  already_sent a s email || (0 <? sends_since (ContentAsset.tenant_id a) (t - DEDUP_WINDOW) s email).

Lemma existing_only asset e s s' existing x :
  _existing_attempts (ContentAsset.id asset) e s = (s', inr existing) → x ∈ existing → already_sent asset s x = true.
Proof.
  unfold _existing_attempts. rewrite (bind_select (T:=DispatchAttempt.t)). intros [= _ <-] Hx.
  apply list_elem_of_fmap in Hx as (r & -> & [Hr Hp]%elem_of_bfilter). apply existsb_elem_of. exists r.
  split; [exact Hr|]. by rewrite Hp, bool_decide_true.
Qed.

(** A send found among those to several addresses is one to its own. *)
Lemma sent_since_counts tid since l x s :
  x ∈ (recipient_of <$> List.filter (sent_since tid since l) (attempts_of s)) → x ∈ l ∧ 0 < sends_since tid since s x.
Proof.
  intros (r & -> & [Hr Hp]%elem_of_bfilter)%list_elem_of_fmap. unfold sent_since in Hp.
  apply andb_prop in Hp as [Hp Hin]. apply bool_decide_eq_true in Hin. split; [done|]. unfold sends_since.
  assert (r ∈ List.filter (sent_since tid since [recipient_of r]) (attempts_of s)) as H.
  { apply elem_of_bfilter. split; [done|]. unfold sent_since. rewrite Hp. apply bool_decide_eq_true_2. by left. }
  destruct (List.filter _ _); [by apply not_elem_of_nil in H|]. cbn. lia.
Qed.

Lemma recent_only tid l e s s' recent x :
  _recent_sent_recipients tid l e s = (s', inr recent) → x ∈ recent → 0 < sends_since tid (now e - DEDUP_WINDOW) s x.
Proof.
  unfold _recent_sent_recipients. intros Hrun Hx. apply bind_inr in Hrun as (s1 & l' & Hl & Hrun).
  apply of_sum_inr in Hl as [_ ->]. destruct l' as [|n0 ns]; [injection Hrun as _ <-; by apply not_elem_of_nil in Hx|].
  rewrite bind_asks, (bind_select (T:=DispatchAttempt.t)) in Hrun. injection Hrun as _ <-.
  exact (proj2 (sent_since_counts _ _ _ _ s Hx)).
Qed.

Lemma capped_only tid candidates e s s' caps x :
  _capped_recipients tid ChannelPlatform.email candidates e s = (s', inr caps) → x ∈ caps → over_cap tid (now e) s x = true.
Proof.
  unfold _capped_recipients. destruct (normalise candidates) as [|n0 ns] eqn:En.
  { intros [= _ <-]. by intros ?%not_elem_of_nil. }
  rewrite (bind_select (T:=FrequencyCapSetting.t)). intros Hrun Hx.
  apply bind_inr in Hrun as (s1 & o & Ho & Hrun). apply scalar_cases in Ho as [-> [(-> & Hsel)|(r & -> & Hsel)]].
  { injection Hrun as _ <-. by apply not_elem_of_nil in Hx. }
  rewrite bind_asks, (bind_select (T:=DispatchAttempt.t)) in Hrun. injection Hrun as _ <-.
  apply elem_of_bfilter in Hx as [Hx Hmax]. destruct (sent_since_counts _ _ _ _ s Hx) as [Hin Hpos].
  rewrite (group_count _ _ _ _ _ Hin), length_fmap in Hmax.
  pose proof (list_elem_of_here r []) as Hr. rewrite <- Hsel in Hr. apply elem_of_bfilter in Hr as [Hr Hp].
  apply existsb_elem_of. exists r. split; [exact Hr|]. rewrite Hp. cbn [andb]. cbv zeta. apply andb_true_intro.
  split; [by apply Z.ltb_lt|exact Hmax].
Qed.

(** Where the filters put the members: each with an address in one list, and which one is a matter of
    what has been sent to the address, when it is an address. *)
Record placed (asset : ContentAsset.t) (t : Z) (s : db) (members : list AudienceMember.t) (sp : split_audience) : Prop := {
  pl_members me : me ∈ to_send sp ++ deduped sp ++ capped sp →
    me.1 ∈ members ∧ me.2 = member_email me.1 ∧ str_empty me.2 = false;
  pl_all : (length (to_send sp) + length (deduped sp) + length (capped sp) =
    length (List.filter (λ m, negb (str_empty (member_email m))) members))%nat;
  pl_deduped m : m ∈ members → EMAIL_RE (member_email m) = true →
    (m, member_email m) ∈ deduped sp ↔ gone_before asset t s (member_email m) = true;
  pl_capped m : m ∈ members → EMAIL_RE (member_email m) = true →
    (m, member_email m) ∈ capped sp ↔ gone_before asset t s (member_email m) = false ∧
      over_cap (ContentAsset.tenant_id asset) t s (member_email m) = true;
  pl_to_send m : m ∈ members → EMAIL_RE (member_email m) = true →
    (m, member_email m) ∈ to_send sp ↔ gone_before asset t s (member_email m) = false ∧
      over_cap (ContentAsset.tenant_id asset) t s (member_email m) = false;
}.

Lemma elem_of_mailed (p : AudienceMember.t → bool) members m :
  (m, member_email m) ∈ ((λ m, (m, member_email m)) <$> List.filter p members) ↔ m ∈ members ∧ p m = true.
Proof.
  rewrite list_elem_of_fmap. setoid_rewrite elem_of_bfilter. split; [by intros (m' & [= <-] & ?)|by exists m].
Qed.

(** What the three queries find of a valid address of a member. *)
Lemma filters_found asset members e s existing recent caps m :
  let with_payload := List.filter (λ m, negb (AudienceMember.payload m ==b [])) members in
  _existing_attempts (ContentAsset.id asset) e s = (s, inr existing) →
  _recent_sent_recipients (ContentAsset.tenant_id asset)
    ((λ m, default (JStr "") (dget "email" (AudienceMember.payload m))) <$> with_payload) e s = (s, inr recent) →
  _capped_recipients (ContentAsset.tenant_id asset) ChannelPlatform.email (member_email <$> with_payload) e s = (s, inr caps) →
  m ∈ members → EMAIL_RE (member_email m) = true →
  (member_email m ∈b existing) || (member_email m ∈b recent) = gone_before asset (now e) s (member_email m) ∧
  (member_email m ∈b caps) = over_cap (ContentAsset.tenant_id asset) (now e) s (member_email m).
Proof.
  intros with_payload He Hr Hc Hin Hre.
  assert (m ∈ with_payload) as Hin'.
  { apply elem_of_bfilter. split; [done|]. rewrite bool_decide_false; [done|]. intros Hp.
    unfold member_email, email_of in Hre. by rewrite Hp in Hre. }
  assert (∃ l', normalise_json ((λ m, default (JStr "") (dget "email" (AudienceMember.payload m))) <$> with_payload) = inr l')
    as [l' Hl'].
  { unfold _recent_sent_recipients in Hr. apply bind_inr in Hr as (? & l' & Hl & _). apply of_sum_inr in Hl as [Hl _]. eauto. }
  set (v := default (JStr "") (dget "email" (AudienceMember.payload m))).
  assert (v ∈ (λ m, default (JStr "") (dget "email" (AudienceMember.payload m))) <$> with_payload) as Hv
    by (apply list_elem_of_fmap; by exists m).
  assert (∃ x, v = JStr x) as [x Hx].
  { destruct (valid_email_is_string v) as [?|Ht]; [exact Hre|done|by eapply normalise_json_strings]. }
  assert (member_email m = str_lower (str_strip x)) as Hmx by (unfold member_email, email_of; fold v; by rewrite Hx).
  assert (str_empty x = false) as Hxne by (destruct x; [by rewrite Hmx in Hre|done]).
  split.
  - unfold gone_before. f_equal.
    + case_bool_decide as Hex; [by symmetry; eapply existing_only|]. symmetry. by apply (existing_inr _ _ _ _ _ _ He).
    + case_bool_decide as Hrc; symmetry; [by apply Z.ltb_lt, (recent_only _ _ _ _ _ _ _ Hr)|].
      rewrite (proj2 (recent_inr _ _ _ _ _ _ (member_email m) Hr)); [done| |done]. exists l'. split; [done|].
      rewrite Hmx. by eapply elem_of_normalise_json.
  - case_bool_decide as Hcp; [by symmetry; eapply capped_only|]. symmetry.
    apply (proj2 (capped_inr _ _ _ _ _ _ (member_email m) Hc)); [|done]. apply elem_of_normalise. exists (member_email m).
    split; [by apply list_elem_of_fmap_2|]. split; [by destruct (member_email m)|]. unfold member_email. by rewrite normal_idem.
Qed.

Lemma split_members_placed asset members e s s' sp :
  split_members asset members e s = (s', inr sp) → placed asset (now e) s members sp.
Proof.
  unfold split_members. intros Hrun. cbv zeta in Hrun. apply bind_inr in Hrun as (s1 & existing & He & Hrun).
  destruct (existing_inr _ _ _ _ _ "" He) as [-> _]. apply bind_inr in Hrun as (s2 & recent & Hr & Hrun).
  destruct (recent_inr _ _ _ _ _ _ "" Hr) as [-> _]. apply bind_inr in Hrun as (s3 & caps & Hc & Hrun).
  destruct (capped_inr _ _ _ _ _ _ "" Hc) as [-> _]. injection Hrun as _ <-.
  destruct (classify_lists existing recent caps members) as (Hs & Hd & Hcap). split.
  - intros me. rewrite Hs, Hd, Hcap, !elem_of_app, !list_elem_of_fmap. setoid_rewrite elem_of_bfilter.
    intros [(m & -> & Hm & Hp)|[(m & -> & Hm & Hp)|(m & -> & Hm & Hp)]]; (split; [done|]); (split; [done|]);
      cbn [snd]; by destruct (str_empty _).
  - apply classify_partition.
  - intros m Hin Hre. destruct (filters_found asset members e s existing recent caps m He Hr Hc Hin Hre) as [Hg Ho].
    rewrite Hd, elem_of_mailed, Hg. destruct (member_email m); [done|]. cbn [str_empty negb andb]. tauto.
  - intros m Hin Hre. destruct (filters_found asset members e s existing recent caps m He Hr Hc Hin Hre) as [Hg Ho].
    rewrite Hcap, elem_of_mailed, Hg, Ho. destruct (member_email m); [done|]. cbn [str_empty negb andb].
    destruct (gone_before _ _ _ _), (over_cap _ _ _ _); cbn; intuition congruence.
  - intros m Hin Hre. destruct (filters_found asset members e s existing recent caps m He Hr Hc Hin Hre) as [Hg Ho].
    rewrite Hs, elem_of_mailed, Hg, Ho. destruct (member_email m); [done|]. cbn [str_empty negb andb].
    destruct (gone_before _ _ _ _), (over_cap _ _ _ _); cbn; intuition congruence.
Qed.

Lemma load_scheduled_inr k e s s' a :
  load_scheduled k e s = (s', inr a) →
  s' = s ∧ t_content_asset s !! k = Some a ∧ ContentAsset.status a = AssetStatus.scheduled.
Proof.
  unfold load_scheduled. rewrite (bind_get_row (T:=ContentAsset.t)).
  change (rows s !! k) with (t_content_asset s !! k). destruct (t_content_asset s !! k); [|done].
  intros Hrun. inv_run. by reflect_bools.
Qed.

Lemma load_campaign_inr k e s s' c :
  load_campaign k e s = (s', inr c) → s' = s ∧ t_campaign s !! k = Some c.
Proof.
  unfold load_campaign. rewrite (bind_get_row (T:=Campaign.t)).
  change (rows s !! k) with (t_campaign s !! k). destruct (t_campaign s !! k); [|done]. intros Hrun. by inv_run.
Qed.

Lemma load_connector_pure decrypt build tid e s s' r :
  _load_email_connector decrypt build tid e s = (s', inr r) → s' = s.
Proof.
  unfold _load_email_connector. intros Hrun. inv_run.
  match goal with H : match ?x with _ => _ end _ _ = _ |- _ => destruct x; inv_run end; done.
Qed.

(** The published asset with its summary. *)
Definition published_with (t : Z) (summary : jdict) (prov : string) (a : ContentAsset.t) : ContentAsset.t :=
  touch t (published_values t [("dispatch_summary", JObj summary); ("dispatch_provider", JStr prov)] a).

(** *** The audience *)

(** The members of the campaign's newest audience. *)
Definition newest_audience (cid : N) (s : db) (members : list AudienceMember.t) : Prop :=
  members ≠ [] ∧ ∃ i audience, t_audience s !! i = Some audience ∧ Audience.campaign_id audience = cid ∧
    (∀ j other, t_audience s !! j = Some other → Audience.campaign_id other = cid →
       Audience.created_at other <= Audience.created_at audience) ∧
    ∀ m, m ∈ members ↔ ∃ k, t_audience_member s !! k = Some m ∧ AudienceMember.audience_id m = Audience.id audience.

Lemma load_members_spec cid e s s' members :
  _load_audience_members cid e s = (s', inr members) → members ≠ [] → s' = s ∧ newest_audience cid s members.
Proof.
  unfold _load_audience_members. rewrite (bind_select (T:=Audience.t)).
  set (p := λ a, Audience.campaign_id a ==b cid). intros Hrun Hne.
  destruct (order_by_desc Audience.created_at _) as [|audience l] eqn:Ho; [by injection Hrun as _ <-|].
  apply order_by_desc_head in Ho as [Hin Hbest]. apply (elem_of_select (T:=Audience.t) p s) in Hin as [[i Hi] Hp].
  apply bool_decide_eq_true in Hp. injection Hrun as <- <-. split; [done|]. split; [exact Hne|].
  exists i, audience. split; [exact Hi|]. split; [exact Hp|]. split.
  - intros j other Hj Hc. apply Hbest. apply (elem_of_select (T:=Audience.t) p s). split; [by exists j|].
    by apply bool_decide_eq_true_2.
  - intros m. etrans; [exact (elem_of_select (T:=AudienceMember.t) _ s m)|]. rewrite bool_decide_eq_true.
    split; [intros [[k Hk] Hm]; by exists k|intros (k & Hk & Hm); split; [by exists k|done]].
Qed.

(** *** The campaign *)

Definition same_campaigns : relation db := λ s s', t_campaign s' = t_campaign s.
#[export] Instance same_campaigns_preorder : PreOrder same_campaigns.
Proof. split; unfold same_campaigns; [by intros s|]. intros s1 s2 s3 H12 H23. congruence. Qed.

Lemma upsert_campaigns a : respects same_campaigns (_upsert_dispatch_attempt a).
Proof. unfold _upsert_dispatch_attempt. respects_auto. Qed.

Lemma upsert_all_campaigns {A} (f : A → Attempt) (l : list A) :
  respects same_campaigns (foreach l (λ x, _upsert_dispatch_attempt (f x))).
Proof. respects_auto. apply upsert_campaigns. Qed.

Lemma ab_filter_campaigns asset l : respects same_campaigns (_filter_audience_for_ab_test asset l).
Proof.
  unfold _filter_audience_for_ab_test, _running_ab_test_for_asset, assigned_here, assign_variant.
  repeat first [ respects_step | respects_try_tac ].
Qed.

Lemma record_outcomes_campaigns asset prov result c l : respects same_campaigns (foldM (record_outcome asset prov result) c l).
Proof.
  revert c. induction l as [|x l IH]; intros c; cbn [foldM]; [respects_auto|].
  apply respects_bind; [apply _| |apply IH]. unfold record_outcome. respects_auto. apply upsert_campaigns.
Qed.

Lemma send_all_campaigns dumps secret c p footer a batch e s s' counts :
  send_all dumps secret c p footer a batch e s = (s', inr counts) → t_campaign s' = t_campaign s.
Proof.
  unfold send_all. intros Hrun. destruct batch as [|me0 batch]; [by injection Hrun as <- _|].
  apply bind_inr in Hrun as (s1 & m & H1 & Hrun).
  assert (s1 = s) as -> by (unfold _message_from_asset in H1; cbv zeta in H1; by inv_run).
  apply bind_inr in Hrun as (s1 & signer & H2 & Hrun).
  assert (s1 = s) as ->.
  { destruct footer; [|by apply ret_inr in H2 as [-> _]].
    unfold _build_unsubscribe_signer, compliance_settings in H2. by inv_run. }
  cbv zeta in Hrun. apply bind_inr in Hrun as (s1 & r & H3 & Hrun). apply call_pure in H3 as ->.
  exact (respects_run same_campaigns _ _ _ _ _ (record_outcomes_campaigns _ _ _ _ _) Hrun).
Qed.

(** The campaign may go live: it waits for launch, its start date has come, and it has required assets,
    all of them past approval. *)
Definition may_go_live (c : Campaign.t) (t : Z) (assets : gmap N ContentAsset.t) : Prop :=
  Campaign.status c = CampaignStatus.ready_to_launch ∧ Campaign.start_date c <= date_of t ∧
  (∃ k a, assets !! k = Some a ∧ ContentAsset.campaign_id a = Campaign.id c ∧ ContentAsset.is_required a = true) ∧
  ∀ k a, assets !! k = Some a → ContentAsset.campaign_id a = Campaign.id c → ContentAsset.is_required a = true →
    ContentAsset.status a ∉ pre_scheduled.

Lemma may_go_live_true c e s :
  (Campaign.status c ==b CampaignStatus.ready_to_launch) && ((Campaign.start_date c <=? date_of (now e)) &&
    has_required s (Campaign.id c) (λ _, true) && negb (has_required s (Campaign.id c) (status_in pre_scheduled))) = true ↔
  may_go_live c (now e) (t_content_asset s).
Proof.
  rewrite !andb_true_iff, bool_decide_eq_true, Z.leb_le, negb_true_iff, <- not_true_iff_false, !has_required_true.
  unfold may_go_live, status_in. setoid_rewrite bool_decide_eq_true. split.
  - intros (Hst & [Hd (k & a & Hk & Hc & Hr & _)] & Hno). split; [done|]. split; [done|]. split; [by exists k, a|].
    intros k' a' Hk' Hc' Hr' Hin. apply Hno. by exists k', a'.
  - intros (Hst & Hd & (k & a & Hk & Hc & Hr) & Hno). split; [done|]. split; [split; [done|by exists k, a]|].
    intros (k' & a' & Hk' & Hc' & Hr' & Hin). by eapply Hno.
Qed.

Lemma start_live_entry : sm_get (CampaignStatus.ready_to_launch, "start_live") campaign_sm = Some t_start_live.
Proof. unfold sm_get. rewrite campaign_sm_entries. reflexivity. Qed.

(** Going live, exactly when it may. *)
Lemma go_live_spec c e s s' u :
  t_campaign s !! Campaign.id c = Some c → _maybe_go_live c e s = (s', inr u) →
  (may_go_live c (now e) (t_content_asset s) ∧
   t_campaign s' = <[Campaign.id c := touch (now e) (c <| Campaign.status := CampaignStatus.live |>)]> (t_campaign s)) ∨
  (¬ may_go_live c (now e) (t_content_asset s) ∧ t_campaign s' = t_campaign s).
Proof.
  intros Hc Hrun. unfold _maybe_go_live in Hrun. pose proof (may_go_live_true c e s) as Hmay.
  destruct (Campaign.status c ==b CampaignStatus.ready_to_launch) eqn:Hst; cbn [negb andb] in Hrun, Hmay.
  2: { injection Hrun as <- _. right. split; [|done]. intros H%Hmay. done. }
  apply bool_decide_eq_true in Hst. apply bind_inr in Hrun as (s1 & r & Htry & [= <- _]).
  unfold try_transition, try_except, StateMachine.apply in Htry. cbv zeta in Htry.
  rewrite Hst, start_live_entry in Htry. change (StateMachine.guard t_start_live) with (Some _ready_to_go_live) in Htry. cbv iota beta in Htry.
  rewrite bind_assoc, (bind_ok _ _ _ _ _ _ (go_live_guard_run c e s)) in Htry.
  match type of Hmay with ?b = true ↔ _ => set (ready := b) in *; destruct ready end; [left|right].
  - split; [by apply Hmay|]. cbn [negb] in Htry. rewrite bind_assoc, bind_pass in Htry.
    assert (rows (R:=Campaign.t) s !! pk c = Some c) as Hc' by exact Hc.
    assert (assign c (λ c, c <| Campaign.status := to_state t_start_live |>) e s =
      (set_rows (<[pk c := touch (now e) (c <| Campaign.status := CampaignStatus.live |>)]> (rows s)) s,
       inr (c <| Campaign.status := CampaignStatus.live |>))) as Has.
    { unfold assign. by rewrite (bind_ok _ _ _ _ _ _ (update_row_run _ _ e s c Hc')). }
    rewrite bind_assoc, (bind_ok _ _ _ _ _ _ Has) in Htry. by injection Htry as <- _.
  - split; [by intros H%Hmay|]. cbn in Htry. by injection Htry as <- _.
Qed.

Lemma placed_same asset t s s1 members sp : same_mail s s1 → placed asset t s1 members sp → placed asset t s members sp.
Proof.
  intros (H1 & _ & H3) [Hm Ha Hd Hc Hs]. unfold gone_before, already_sent, over_cap, sends_since, attempts_of in *.
  rewrite H1, ?H3 in *. by split.
Qed.

(** The attempts made before the asset is published are there after it. *)
Lemma attempts_recorded asset prov sp s s1 s2 s3 s5 s' (a' : ContentAsset.t) :
  attempts_ok s → records s s1 → records s1 s2 →
  (attempts_ok s1 → ∀ me, me ∈ capped sp →
     attempted (ContentAsset.tenant_id asset)
       (at_idempotency_key (email_attempt asset prov me.1 me.2 None "skipped" (Some "frequency_cap") None)) s2) →
  records s2 s3 →
  (attempts_ok s2 → ∀ me, me ∈ to_send sp →
     attempted (ContentAsset.tenant_id asset) (_idempotency_key (ContentAsset.id asset) me.2) s3) →
  records (set_rows (R:=ContentAsset.t) (<[pk asset := a']> (rows s3)) s3) s5 → records s5 s' →
  ∀ me, me ∈ to_send sp ++ capped sp →
    attempted (ContentAsset.tenant_id asset) (_idempotency_key (ContentAsset.id asset) me.2) s'.
Proof.
  intros Hok R1 R2 A2 R3 A3 R4 R5. destruct (proj1 R1 Hok) as [Hok1 _]. destruct (proj1 R2 Hok1) as [Hok2 _].
  destruct (proj1 R3 Hok2) as [Hok3 K3].
  assert (attempts_ok (set_rows (R:=ContentAsset.t) (<[pk asset := a']> (rows s3)) s3)) as Hok4 by by apply (attempts_frame s3).
  destruct (proj1 R4 Hok4) as [Hok5 K5]. destruct (proj1 R5 Hok5) as [_ K6].
  intros me Hme. apply K6, K5. change (attempted (ContentAsset.tenant_id asset)
    (_idempotency_key (ContentAsset.id asset) me.2) s3).
  apply elem_of_app in Hme as [Hme|Hme]; [by apply A3|]. apply K3. exact (A2 Hok1 me Hme).
Qed.

(** What the counts of a summary are. *)
Definition counts_of (asset : ContentAsset.t) conn (t : Z) e (batch : list (AudienceMember.t * string)) (counts : Z * Z * Z) : Prop :=
  (batch = [] ∧ counts = (0, 0, 0)) ∨
  ∃ result, tool_answered conn (ContentAsset.tenant_id asset) batch e result ∧
    counts = bucket_counts asset (provider conn) result t batch.

(** C33: what a dispatch that goes through leaves behind. The audience is the newest one of the campaign,
    less what an A/B test gives the other variant. Every member with an address is in one of three
    lists, a well-formed address decides in which: deduplicated when the asset, or anything in the last 24 hours, was sent to the address, else
    capped when the tenant's cap is reached for it, else handed to the tool. Exactly the asset is
    written: published now, with a summary that counts, of the recipients handed over, those the tool
    accepted, suppressed and rejected, which are all of them, and the members of the other two lists.
    Every recipient handed over or capped has an attempt on record under its key. And the campaign
    goes live, in this state after the dispatch, if it waits for launch, its start date has come
    and no required asset of it is before scheduling; otherwise it is as it was. *)
Theorem dispatch_email_spec decrypt build dumps secret k asset c e s s' out :
  attempts_ok s → t_content_asset s !! k = Some asset → ContentAsset.id asset = k →
  t_campaign s !! ContentAsset.campaign_id asset = Some c → Campaign.id c = ContentAsset.campaign_id asset →
  Campaign.status c ≠ CampaignStatus.paused →
  dispatch_email_asset decrypt build dumps secret k e s = (s', inr out) →
  ∃ loaded s1 members sp conn p counts footer,
    newest_audience (ContentAsset.campaign_id asset) s loaded ∧
    _filter_audience_for_ab_test asset loaded e s = (s1, inr members) ∧
    placed asset (now e) s members sp ∧
    _load_email_connector decrypt build (ContentAsset.tenant_id asset) e s = (s, inr (conn, p)) ∧
    counts_of asset conn (now e) e (to_send sp) counts ∧
    bucket_sum counts = Z.of_nat (length (to_send sp)) ∧
    t_content_asset s' = <[k := published_with (now e) (dispatch_summary counts sp
      (Z.of_nat (length members)) footer) (provider conn) asset]> (t_content_asset s) ∧
    (∀ me, me ∈ to_send sp ++ capped sp →
       attempted (ContentAsset.tenant_id asset) (_idempotency_key k me.2) s') ∧
    ((may_go_live c (now e) (t_content_asset s') ∧
      t_campaign s' = <[Campaign.id c := touch (now e) (c <| Campaign.status := CampaignStatus.live |>)]> (t_campaign s)) ∨
     (¬ may_go_live c (now e) (t_content_asset s') ∧ t_campaign s' = t_campaign s)).
Proof.
  intros Hok Hk Hid Hcam Hcid Hlive Hrun. unfold dispatch_email_asset in Hrun.
  apply bind_inr in Hrun as (s1 & a & H1 & Hrun). apply load_scheduled_inr in H1 as (-> & Ha & Hst).
  simplify_eq. apply bind_inr in Hrun as (s1 & c0 & H1 & Hrun). apply load_campaign_inr in H1 as [-> H1].
  simplify_eq. rewrite bool_decide_false in Hrun by done.
  apply bind_inr in Hrun as (s1 & [] & H1 & Hrun). apply raise_if_inr in H1 as [_ ->].
  apply bind_inr in Hrun as (s1 & [conn p] & Hl & Hrun). pose proof (load_connector_pure _ _ _ _ _ _ _ Hl) as ->.
  apply bind_inr in Hrun as (s1 & loaded & Hm & Hrun). apply bind_inr in Hrun as (s1' & [] & H1' & Hrun).
  apply raise_if_inr in H1' as [Hne ->].
  apply bool_decide_eq_false in Hne.
  apply load_members_spec in Hm as [-> Hm]; [|by intros ->].
  apply bind_inr in Hrun as (s1 & am & Hf & Hrun).
  pose proof (respects_run records _ _ _ _ _ (ab_filter_records _ _) Hf) as R1.
  pose proof (respects_run same_campaigns _ _ _ _ _ (ab_filter_campaigns _ _) Hf) as C1.
  pose proof (respects_run same_mail _ _ _ _ _ (ab_filter_same_mail _ _) Hf) as M1.
  apply bind_inr in Hrun as (s2 & sp & Hsp & Hrun). pose proof (split_members_placed _ _ _ _ _ _ Hsp) as Hpl.
  apply (placed_same _ _ s) in Hpl; [|done]. apply split_members_inr in Hsp as [-> _].
  apply bind_inr in Hrun as (s2 & [] & Hcap & Hrun).
  pose proof (respects_run same_campaigns _ _ _ _ _ (upsert_all_campaigns _ _) Hcap) as C2.
  apply upsert_all_records in Hcap as [R2 A2].
  apply bind_inr in Hrun as (s3 & footer & Hfoot & Hrun).
  assert (s3 = s2) as -> by (unfold _build_compliance_footer, compliance_settings in Hfoot; by inv_run).
  apply bind_inr in Hrun as (s3 & counts & Hsend & Hrun). pose proof (send_all_counts _ _ _ _ _ _ _ _ _ _ _ Hsend) as Hcounts.
  pose proof (send_all_campaigns _ _ _ _ _ _ _ _ _ _ _ Hsend) as C3.
  apply send_all_inr in Hsend as (R3 & Hsum & _ & A3). cbv zeta in Hrun. rewrite bind_asks in Hrun.
  assert (records s s3) as R13 by (by etrans; [|etrans]).
  apply bind_inr in Hrun as (s4 & a' & Hass & Hrun).
  apply (assign_inr _ _ _ _ _ _ asset) in Hass as [-> ->];
    [|change (t_content_asset s3 !! ContentAsset.id asset = Some asset); by rewrite (proj2 R13)].
  apply bind_inr in Hrun as (s5 & [] & Haud & Hrun). apply bind_inr in Hrun as (s6 & [] & Hgo & Hrun).
  apply ret_inr in Hrun as [-> _].
  pose proof (respects_run same_campaigns _ _ _ _ _ (respects_audit same_campaigns _ _ _ _ _ _ _ ltac:(done)) Haud) as C4.
  pose proof (respects_run records _ _ _ _ _ (respects_audit records _ _ _ _ _ _ _
    ltac:(intros; apply records_frame; simpl; [done|done|lia])) Haud) as R4.
  pose proof (respects_run records _ _ _ _ _ (respects_go_live records _
    ltac:(intros; apply records_frame; simpl; [done|done|lia])
    ltac:(intros; apply records_frame; simpl; [done|done|lia])) Hgo) as R5.
  assert (t_campaign s5 = t_campaign s) as C5.
  { unfold same_campaigns in *. rewrite C4. change (t_campaign s3 = t_campaign s). congruence. }
  exists loaded, s1, am, sp, conn, p, counts, footer. split_and!; try done.
  - rewrite (proj2 R5), (proj2 R4). simpl. by rewrite (proj2 R13).
  - exact (attempts_recorded asset (provider conn) sp s s1 s2 s3 s5 s6 _ Hok R1 R2 A2 R3 A3 R4 R5).
  - rewrite (proj2 R5), <- C5. eapply go_live_spec; [|exact Hgo]. by rewrite C5, Hcid.
Qed.

(** ** Samples: one campaign, three members, one already sent to and one suppressed *)

Definition sample_decrypt (_ : string) : exn + jdict :=
  inr [("default_from_email", JStr "news@acme.io"); ("access_token", JStr "tok")].

Definition accept_all : EmailConnector := {|
  provider := "sendgrid"; verified_senders := inr [];
  send_batch := λ _ _ rs, inr ((λ r, SendResult.mk (EmailRecipient.email r) (Some "m1") true None) <$> rs) |}.
Definition sample_build (_ : string) (_ : jdict) : exn + EmailConnector := inr accept_all.

Definition sample_member (ext email : string) : AudienceMember.t := {|
  AudienceMember.audience_id := 60; AudienceMember.external_id := ext;
  AudienceMember.payload := [("email", JStr email)]; AudienceMember.source := None;
  AudienceMember.fetched_at := None; AudienceMember.added_at := 0 |}.

Definition sample_audience : Audience.t := {|
  Audience.id := 60; Audience.tenant_id := 1; Audience.campaign_id := 10; Audience.name := "all";
  Audience.segment_criteria := []; Audience.estimated_size := None; Audience.actual_size := None;
  Audience.refreshed_at := None; Audience.created_at := 0; Audience.updated_at := 0 |}.

Definition sent_row (key email : string) : DispatchAttempt.t :=
  attempt_row {| at_tenant_id := 1; at_content_asset_id := 40; at_audience_external_id := None;
    at_recipient_identifier := email; at_idempotency_key := key; at_provider := "sendgrid";
    at_provider_message_id := Some "m0"; at_status := "sent"; at_last_error := None;
    at_sent_at := Some 1 |} 1 80.

Definition sample_suppression (email : string) : SuppressionEntry.t := {|
  SuppressionEntry.id := 81; SuppressionEntry.tenant_id := 1;
  SuppressionEntry.channel_platform := ChannelPlatform.email; SuppressionEntry.identifier := email;
  SuppressionEntry.reason := "bounce"; SuppressionEntry.source_event_id := None;
  SuppressionEntry.suppressed_at := 0 |}.

Definition mail_asset : ContentAsset.t := sample_asset 40 AssetType.email AssetStatus.scheduled [].

Definition mail_db : db :=
  sample_db (sample_campaign CampaignStatus.ready_to_launch) [mail_asset]
  <| t_audience := {[ 60%N := sample_audience ]} |>
  <| t_audience_member := list_to_map ((λ m, ((60%N, AudienceMember.external_id m), m)) <$>
       [sample_member "a" "Ann@acme.io"; sample_member "b" "bob@acme.io"; sample_member "c" "cy@acme.io"]) |>
  <| t_integration_credential := {[ 70%N := sample_credential "sendgrid" None ]} |>
  <| t_dispatch_attempt := {[ 80%N := sent_row (_idempotency_key 40 "bob@acme.io") "bob@acme.io" ]} |>
  <| t_suppression_entry := {[ 81%N := sample_suppression "CY@acme.io" ]} |>.

Definition run_mail (build : string → jdict → exn + EmailConnector) : M jdict :=
  dispatch_email_asset sample_decrypt build (λ _ _ _, "t") "s" 40.

Lemma single_attempt_ok k r s :
  t_dispatch_attempt s = {[ k := r ]} → (k < next_uuid s)%N → attempts_ok s.
Proof.
  intros Ht Hn. split.
  - intros k' r'. rewrite Ht. by intros [<- <-]%lookup_singleton_Some.
  - intros k1 k2 r1 r2 x. change (rows (R:=DispatchAttempt.t) s) with (t_dispatch_attempt s). rewrite Ht.
    by intros [<- _]%lookup_singleton_Some [<- _]%lookup_singleton_Some.
Qed.

Lemma mail_db_ok : attempts_ok mail_db.
Proof. by apply (single_attempt_ok 80 (sent_row (_idempotency_key 40 "bob@acme.io") "bob@acme.io")). Qed.

Lemma idempotency_key_inj_witness :
  (40 < 2 ^ 128)%N ∧ _idempotency_key 40 "A@x.io" = _idempotency_key 40 "a@X.io".
Proof. split; [done|]. by apply (idempotency_key_inj 40 40 "A@x.io" "a@X.io"). Defined.

Lemma sent_attempts_kept_witness :
  attempts_ok mail_db ∧ sent_kept mail_db (run_mail sample_build (demo_env 5) mail_db).1.
Proof.
  split; [exact mail_db_ok|].
  exact (proj2 (proj1 (sent_attempts_kept sample_decrypt sample_build (λ _, inl KeyError) (λ _ _ _, "t") "s" 40
    (demo_env 5) mail_db mail_db_ok))).
Defined.

Lemma dispatch_email_keeps_out_witness :
  off_limits mail_asset 5 mail_db "bob@acme.io" = true ∧ off_limits mail_asset 5 mail_db "cy@acme.io" = true ∧
  off_limits mail_asset 5 mail_db "ann@acme.io" = false ∧
  run_mail sample_build (demo_env 5) mail_db =
  run_mail (fenced_build (off_limits mail_asset 5 mail_db) sample_build) (demo_env 5) mail_db.
Proof.
  split; [by vm_compute|]. split; [by vm_compute|]. split; [by vm_compute|].
  exact (dispatch_email_keeps_out _ _ _ _ 40 mail_asset (demo_env 5) mail_db eq_refl).
Defined.

Lemma dispatch_email_spec_witness :
  ∃ s' out, run_mail sample_build (demo_env 5) mail_db = (s', inr out) ∧
    (ContentAsset.status <$> t_content_asset s' !! 40%N) = Some AssetStatus.published ∧
    as_obj (dget "summary" out) ≫= dget "sent" = Some (JInt 1).
Proof.
  destruct (run_returns (run_mail sample_build) (demo_env 5) mail_db) as (s' & out & E); [by vm_compute|].
  exists s', out. split; [done|]. split.
  - destruct (dispatch_email_spec _ _ _ _ _ _ _ _ _ _ _ mail_db_ok (eq_refl : t_content_asset mail_db !! 40%N = Some mail_asset)
      eq_refl (eq_refl : _ = Some (sample_campaign CampaignStatus.ready_to_launch)) eq_refl ltac:(done) E)
      as (l & s1 & ms & sp & conn & p & counts & f & _ & _ & _ & _ & _ & _ & -> & _). by rewrite lookup_insert_eq.
  - apply (f_equal (λ x, run_val x ≫= λ o, as_obj (dget "summary" o) ≫= dget "sent")) in E.
    vm_compute in E. exact (eq_sym E).
Defined.
