(* ===== verification/UnsubscribeProofs.v ===== *)
(** * The unsubscribe link, from the footer to the suppression list

    The link the dispatcher signs into a message is the one the public endpoint honours, and
    what it writes is what the email tool reads. *)

From S2P Require Export DistributionProofs TenantSettings.
Local Open Scope Z_scope.

(** ** The suppression table *)

(** Its unique constraint; the identifier is CITEXT. *)
Definition suppression_key (r : SuppressionEntry.t) : option (N * ChannelPlatform.t * string) :=
  Some (SuppressionEntry.tenant_id r, SuppressionEntry.channel_platform r,
        str_lower (SuppressionEntry.identifier r)).

Record suppressions_ok (s : db) : Prop := {
  su_fresh : ∀ k r, t_suppression_entry s !! k = Some r → (k < next_uuid s)%N;
  su_unique : unique_on suppression_key s;
}.

Lemma suppresses_key tid ch x r :
  suppresses tid ch x r = true ↔ suppression_key r = Some (tid, ch, str_lower x).
Proof.
  unfold suppresses, suppression_key. rewrite !andb_true_iff, !bool_decide_eq_true. split.
  - by intros [[-> ->] ->].
  - by intros [= -> -> ->].
Qed.

(** After the insert the address is suppressed, by exactly one row. *)
Lemma insert_suppression_run tid ch x reason ev e s :
  suppressions_ok s →
  ∃ s' o r, insert_suppression tid ch x reason ev e s = (s', inr o) ∧ suppressions_ok s' ∧
    t_tenant_compliance_settings s' = t_tenant_compliance_settings s ∧
    t_suppression_entry s ⊆ t_suppression_entry s' ∧
    List.filter (suppresses tid ch x) (snd <$> map_to_list (t_suppression_entry s')) = [r] ∧
    match o with
    | Some r' => r' = r ∧ SuppressionEntry.suppressed_at r = now e ∧
        List.filter (suppresses tid ch x) (snd <$> map_to_list (t_suppression_entry s)) = []
    | None => s' = s
    end.
Proof.
  intros [Hf Hu]. unfold insert_suppression. rewrite bind_asks, bind_select.
  assert (∀ s' k r, unique_on suppression_key s' → t_suppression_entry s' !! k = Some r →
    suppresses tid ch x r = true →
    List.filter (suppresses tid ch x) (snd <$> map_to_list (t_suppression_entry s')) = [r]) as Hsingle.
  { intros s' k r Hu' Hk Hr. refine (select_single (T:=SuppressionEntry.t) (suppresses tid ch x) s' k r Hk Hr _).
    intros k' r' Hk' Hr'. eapply Hu'; [exact Hk'|exact Hk|by apply suppresses_key|by apply suppresses_key]. }
  destruct (List.filter _ _) as [|r l] eqn:Hl.
  - set (row := {| SuppressionEntry.id := next_uuid s; SuppressionEntry.tenant_id := tid;
      SuppressionEntry.channel_platform := ch; SuppressionEntry.identifier := x;
      SuppressionEntry.reason := reason; SuppressionEntry.source_event_id := ev;
      SuppressionEntry.suppressed_at := now e |}).
    eexists _, _, row. split; [reflexivity|].
    assert (suppressions_ok (set_rows (<[next_uuid s := row]> (t_suppression_entry s))
              (s <| next_uuid := (next_uuid s + 1)%N |>))) as Hok.
    { split.
      - intros k r. cbn. rewrite lookup_insert_Some. intros [[<- _]|[_ Hr]]; [lia|]. specialize (Hf _ _ Hr). lia.
      - refine (add_row_unique (T:=SuppressionEntry.t) suppression_key (λ _, row) e s _ Hu).
        intros k r y Hk Hy Hy'.
        assert (suppresses tid ch x r = true) as Hr by (apply suppresses_key; rewrite Hy', <- Hy; done).
        by rewrite (proj1 (select_nil (T:=SuppressionEntry.t) _ s) Hl k r Hk) in Hr. }
    split; [exact Hok|]. split; [done|]. split_and!; try done.
    + cbn. apply insert_subseteq. destruct (t_suppression_entry s !! next_uuid s) as [r|] eqn:E; [|done].
      specialize (Hf _ _ E). lia.
    + apply (Hsingle _ (next_uuid s)); [apply Hok|by cbn; rewrite lookup_insert_eq|].
      apply suppresses_key. done.
  - exists s, None, r. split; [done|]. split; [by split|]. split_and!; [done|done| |done].
    pose proof (proj1 (elem_of_select (T:=SuppressionEntry.t) (suppresses tid ch x) s r)) as Hin.
    rewrite Hl in Hin. destruct (Hin (list_elem_of_here r l)) as [(k & Hk) Hr]. by eapply Hsingle.
Qed.

Lemma existsb_pointwise {A} (p q : A → bool) l : (∀ x, p x = q x) → existsb p l = existsb q l.
Proof. intros Hpq. induction l as [|x l IH]; [done|]. simpl. by rewrite Hpq, IH. Qed.

Lemma suppressed_now_suppresses tid x s :
  suppressed_now tid s (str_lower x) =
  existsb (suppresses tid ChannelPlatform.email (str_lower x)) (snd <$> map_to_list (t_suppression_entry s)).
Proof.
  unfold suppressed_now. apply existsb_pointwise. intros r. unfold suppresses, suppression_of.
  by rewrite str_lower_idem.
Qed.

Lemma existsb_filter {A} (p : A → bool) l :
  existsb p l = match List.filter p l with [] => false | _ => true end.
Proof. induction l as [|x l IH]; [done|]. simpl. by destruct (p x). Qed.

(** An audit row touches neither table. *)
Lemma audit_writes tid ek eid act b a md e s :
  ∃ s', audit tid ek eid act b a md e s = (s', inr ()) ∧
    t_suppression_entry s' = t_suppression_entry s ∧
    t_tenant_compliance_settings s' = t_tenant_compliance_settings s ∧ (next_uuid s <= next_uuid s')%N.
Proof. eexists. split; [reflexivity|]. cbn. split_and!; [done..|lia]. Qed.

Lemma suppressions_ok_frame s s' :
  t_suppression_entry s' = t_suppression_entry s → (next_uuid s <= next_uuid s')%N →
  suppressions_ok s → suppressions_ok s'.
Proof.
  intros Ht Hn [Hf Hu]. split.
  - intros k r. rewrite Ht. intros Hk. specialize (Hf _ _ Hk). lia.
  - unfold unique_on in *. change (rows (R:=SuppressionEntry.t)) with t_suppression_entry in *. by rewrite Ht.
Qed.

(** ** The link *)

Section link.
Context (dumps : string → string → json → string) (unsign : string → string → string → option json).
Context (preview_share_secret : string).
Implicit Types (s : db) (email token secret : string).

(** What the dispatcher puts into the link, and the link it makes of it. *)
Definition link_payload (tenant_id : N) email : jdict :=
  [("tenant_id", JStr (uuid_str tenant_id)); ("channel_platform", JStr "email");
   ("identifier", JStr (str_lower email))].
Definition link_of token : string := "https://app.example.com/api/unsubscribe/" +:+ token.

(** itsdangerous: a token verifies under the secret that signed it and under no other, and
    gives back what was signed. *)
Definition signature_sound (payload : json) : Prop :=
  ∀ secret secret', unsign secret' _SERIALIZER_SALT (dumps secret _SERIALIZER_SALT payload) =
    if bool_decide (secret' = secret) then Some payload else None.

Lemma try_secrets_verifies secret secrets payload d :
  signature_sound payload → token_payload payload = Some d → secret ∈ secrets →
  try_secrets unsign (dumps secret _SERIALIZER_SALT payload) secrets = Some d.
Proof.
  intros Hsign Hd. induction 1 as [secrets|x secrets Hin IH]; simpl; rewrite Hsign.
  - by rewrite bool_decide_true by done; simpl; rewrite Hd.
  - case_bool_decide; simpl; by rewrite ?Hd.
Qed.

(** The secret the dispatcher signs with is one the endpoint tries. *)
Lemma signer_secret tenant_id e s s1 signer :
  preview_share_secret ≠ "" →
  _build_unsubscribe_signer dumps preview_share_secret tenant_id e s = (s1, inr signer) →
  ∃ secret, secret ∈ candidate_secrets preview_share_secret
      (List.filter (λ r, match TenantComplianceSettings.unsubscribe_secret r with
                         | Some _ => true | None => false end)
         (snd <$> map_to_list (t_tenant_compliance_settings s))) ∧
    ∀ email, signer email = link_of (dumps secret _SERIALIZER_SALT (JObj (link_payload tenant_id email))).
Proof.
  intros Hp. unfold _build_unsubscribe_signer, compliance_settings.
  rewrite bind_assoc, bind_select, bind_inr. intros (s' & row & Hrow & [= _ <-]).
  apply scalar_inr in Hrow as [_ Hrow].
  eexists. split; [|intros email; reflexivity]. unfold candidate_secrets.
  set (own := List.filter (λ x : string, negb (str_empty x)) _).
  assert (preview_share_secret ∈
    if negb (str_empty preview_share_secret) && negb (preview_share_secret ∈b own)
    then own ++ [preview_share_secret] else own) as Hfallback.
  { assert (str_empty preview_share_secret = false) as -> by (by destruct preview_share_secret). simpl. case_bool_decide; simpl; [done|].
    apply elem_of_app. right. by left. }
  destruct (str_empty (default "" (row ≫= TenantComplianceSettings.unsubscribe_secret))) eqn:E; [done|].
  assert (default "" (row ≫= TenantComplianceSettings.unsubscribe_secret) ∈ own) as Hown.
  { destruct row as [row|]; [|done]. simpl in *.
    destruct (TenantComplianceSettings.unsubscribe_secret row) as [secret|] eqn:Es; [|done]. simpl in *.
    subst own. apply elem_of_bfilter. split; [|by rewrite E].
    apply list_elem_of_omap. exists row. split; [|done]. apply elem_of_bfilter. rewrite Es. split; [|done].
    symmetry in Hrow. apply head_Some_elem_of, elem_of_bfilter in Hrow. tauto. }
  destruct (negb _ && negb _); [apply elem_of_app; by left|done].
Qed.

(** Consuming a token that verifies, for a tenant and an address. *)
Lemma consume_verified app_now tenant_id email token e s :
  (tenant_id < 2 ^ 128)%N → suppressions_ok s →
  _verify_token unsign preview_share_secret token e s = (s, inr (link_payload tenant_id email)) →
  ∃ s' resp r, consume_unsubscribe_token unsign preview_share_secret app_now token e s = (s', inr resp) ∧
    suppressions_ok s' ∧ t_tenant_compliance_settings s' = t_tenant_compliance_settings s ∧
    t_suppression_entry s ⊆ t_suppression_entry s' ∧
    List.filter (suppresses tenant_id ChannelPlatform.email (str_lower email))
      (snd <$> map_to_list (t_suppression_entry s')) = [r] ∧
    (existsb (suppresses tenant_id ChannelPlatform.email (str_lower email))
       (snd <$> map_to_list (t_suppression_entry s)) = true → s' = s) ∧
    (existsb (suppresses tenant_id ChannelPlatform.email (str_lower email))
       (snd <$> map_to_list (t_suppression_entry s)) = false → SuppressionEntry.suppressed_at r = now e) ∧
    resp = let already := existsb (suppresses tenant_id ChannelPlatform.email (str_lower email))
                            (snd <$> map_to_list (t_suppression_entry s)) in
           {| u_tenant_id := tenant_id; u_channel_platform := "email"; u_identifier := str_lower email;
              u_suppressed_at := if already then SuppressionEntry.suppressed_at r else app_now;
              u_already_existed := already |}.
Proof.
  intros Hid Hok Hv. unfold consume_unsubscribe_token.
  destruct (insert_suppression_run tenant_id ChannelPlatform.email (str_lower email) "unsubscribe" None e s Hok)
    as (s' & o & r & Hins & Hok' & Hset & Hsub & Hone & Ho).
  assert (∀ m : M UnsubscribeResponse, transaction m e s = match m e s with (_, inl x) => (s, inl x) | r => r end)
    as Htx by done. rewrite Htx. clear Htx.
  rewrite (bind_ok _ _ _ _ _ _ Hv). simpl. rewrite (uuid_parse_str _ Hid).
  assert (of_value ChannelPlatform.t "email" = Some ChannelPlatform.email) as Hch by reflexivity.
  rewrite (bind_ok (of_sum (inr tenant_id)) _ e s s tenant_id eq_refl).
  rewrite (bind_ok _ _ _ _ _ _ Hins).
  destruct o as [r'|].
  - destruct Ho as (-> & Ht & Hnone).
    edestruct audit_writes as (s2 & Ha & Hs2 & Hc2 & Hn2). rewrite (bind_ok _ _ _ _ _ _ Ha).
    eexists s2, _, r. split; [reflexivity|]. rewrite Hs2, Hc2. split_and!; try done.
    + by apply (suppressions_ok_frame s').
    + by rewrite existsb_filter, Hnone.
    + by rewrite existsb_filter, Hnone.
  - subst s'. rewrite bind_select.
    change (rows (R:=SuppressionEntry.t) s) with (t_suppression_entry s). rewrite Hone.
    eexists s, _, r. split; [reflexivity|]. rewrite existsb_filter, Hone. by split_and!.
Qed.

(** A token signed with a secret some tenant has verifies. *)
Lemma verify_known tenant_id email secret row k e s :
  signature_sound (JObj (link_payload tenant_id email)) →
  t_tenant_compliance_settings s !! k = Some row →
  TenantComplianceSettings.unsubscribe_secret row = Some secret → secret ≠ "" →
  _verify_token unsign preview_share_secret
    (dumps secret _SERIALIZER_SALT (JObj (link_payload tenant_id email))) e s =
  (s, inr (link_payload tenant_id email)).
Proof.
  intros Hsign Hk Hsecret Hne. unfold _verify_token. rewrite bind_select.
  rewrite (try_secrets_verifies secret _ _ (link_payload tenant_id email) Hsign eq_refl); [done|].
  unfold candidate_secrets. set (own := List.filter (λ x : string, negb (str_empty x)) _).
  assert (secret ∈ own) as Hown.
  { apply elem_of_bfilter. split; [|by destruct secret]. apply list_elem_of_omap. exists row. split; [|done].
    apply (elem_of_select (T:=TenantComplianceSettings.t)). rewrite Hsecret. eauto. }
  destruct (negb _ && negb _); [apply elem_of_app; by left|done].
Qed.

(** A link is honoured as long as the compliance settings are what they were when it was signed. *)
Lemma verify_signed tenant_id email e s s1 signer s2 :
  preview_share_secret ≠ "" → signature_sound (JObj (link_payload tenant_id email)) →
  _build_unsubscribe_signer dumps preview_share_secret tenant_id e s = (s1, inr signer) →
  t_tenant_compliance_settings s2 = t_tenant_compliance_settings s →
  ∃ token, signer email = link_of token ∧
    ∀ e3 s3, t_tenant_compliance_settings s3 = t_tenant_compliance_settings s2 →
    _verify_token unsign preview_share_secret token e3 s3 = (s3, inr (link_payload tenant_id email)).
Proof.
  intros Hp Hsign Hb Hs2. destruct (signer_secret _ _ _ _ _ Hp Hb) as (secret & Hin & Hlink).
  eexists. split; [apply Hlink|]. intros e3 s3 Hs3. unfold _verify_token. rewrite bind_select.
  change (rows (R:=TenantComplianceSettings.t) s3) with (t_tenant_compliance_settings s3).
  rewrite Hs3, Hs2. by rewrite (try_secrets_verifies secret _ _ (link_payload tenant_id email) Hsign eq_refl Hin).
Qed.

(** C14: the link the dispatcher signs into a message is honoured. As long as the compliance
    settings have not changed since, posting the token of the link suppresses the address in the
    tenant it was sent for: the email tool's filter finds it, in the one entry the address has. The
    answer says whether the entry was there; a fresh one is answered with the application's clock,
    and stored with the database's. A second post answers that the entry already existed, with the
    time that is stored, and writes nothing; the entries there before stay. *)
Theorem unsubscribe_roundtrip tenant_id email e s s1 signer e2 e3 s2 app2 app3 :
  (tenant_id < 2 ^ 128)%N → preview_share_secret ≠ "" →
  signature_sound (JObj (link_payload tenant_id email)) →
  _build_unsubscribe_signer dumps preview_share_secret tenant_id e s = (s1, inr signer) →
  t_tenant_compliance_settings s2 = t_tenant_compliance_settings s → suppressions_ok s2 →
  ∃ token resp entry s3, signer email = "https://app.example.com/api/unsubscribe/" +:+ token ∧
    consume_unsubscribe_token unsign preview_share_secret app2 token e2 s2 = (s3, inr resp) ∧
    u_tenant_id resp = tenant_id ∧ u_channel_platform resp = "email" ∧ u_identifier resp = str_lower email ∧
    u_already_existed resp = suppressed_now tenant_id s2 (str_lower email) ∧
    suppressed_now tenant_id s3 (str_lower email) = true ∧
    t_suppression_entry s2 ⊆ t_suppression_entry s3 ∧
    List.filter (suppresses tenant_id ChannelPlatform.email (str_lower email))
      (snd <$> map_to_list (t_suppression_entry s3)) = [entry] ∧
    (if u_already_existed resp then u_suppressed_at resp = SuppressionEntry.suppressed_at entry
     else u_suppressed_at resp = app2 ∧ SuppressionEntry.suppressed_at entry = now e2) ∧
    ∃ s4, consume_unsubscribe_token unsign preview_share_secret app3 token e3 s3 =
        (s4, inr {| u_tenant_id := tenant_id; u_channel_platform := "email";
                    u_identifier := str_lower email; u_suppressed_at := SuppressionEntry.suppressed_at entry;
                    u_already_existed := true |}) ∧
      t_suppression_entry s4 = t_suppression_entry s3.
Proof.
  intros Hid Hp Hsign Hb Hset Hok.
  destruct (verify_signed _ _ _ _ _ _ s2 Hp Hsign Hb Hset) as (token & Hlink & Hv).
  destruct (consume_verified app2 tenant_id email token e2 s2 Hid Hok (Hv _ _ eq_refl))
    as (s3 & resp & r & Hc & Hok3 & Hset3 & Hsub & Hone & _ & Hfresh & ->).
  destruct (consume_verified app3 tenant_id email token e3 s3 Hid Hok3 (Hv _ _ Hset3))
    as (s4 & resp4 & r4 & Hc4 & _ & _ & _ & Hone4 & Hsame & _ & ->).
  exists token. eexists _, r, s3. split; [done|]. split; [exact Hc|]. cbv zeta in *.
  rewrite !suppressed_now_suppresses. cbn [u_tenant_id u_channel_platform u_identifier u_already_existed u_suppressed_at].
  assert (existsb (suppresses tenant_id ChannelPlatform.email (str_lower email))
    (snd <$> map_to_list (t_suppression_entry s3)) = true) as Hex by by rewrite existsb_filter, Hone.
  split_and!; try done.
  - destruct (existsb _ (snd <$> map_to_list (t_suppression_entry s2))); [done|]. split; [done|by apply Hfresh].
  - exists s4. rewrite (Hsame Hex) in *. split; [|done].
    rewrite Hone in Hone4. injection Hone4 as <-. by rewrite Hc4, Hex.
Qed.

(** Whoever knows the secret of one tenant signs links for every other: the endpoint tries all
    the secrets and takes the tenant from the payload. *)
Theorem foreign_secret_unsubscribes app_now tenant_id other email secret k e s :
  (tenant_id < 2 ^ 128)%N → suppressions_ok s → signature_sound (JObj (link_payload tenant_id email)) →
  t_tenant_compliance_settings s !! k = Some other → TenantComplianceSettings.tenant_id other ≠ tenant_id →
  TenantComplianceSettings.unsubscribe_secret other = Some secret → secret ≠ "" →
  ∃ s' resp, consume_unsubscribe_token unsign preview_share_secret app_now
      (dumps secret _SERIALIZER_SALT (JObj (link_payload tenant_id email))) e s = (s', inr resp) ∧
    suppressed_now tenant_id s' (str_lower email) = true.
Proof.
  intros Hid Hok Hsign Hk _ Hsecret Hne.
  destruct (consume_verified app_now tenant_id email _ e s Hid Hok (verify_known tenant_id email secret other k e s Hsign Hk Hsecret Hne))
    as (s' & resp & r & Hc & _ & _ & _ & Hone & _).
  exists s', resp. split; [exact Hc|]. by rewrite suppressed_now_suppresses, existsb_filter, Hone.
Qed.

End link.

(** itsdangerous, abstracted: the token of the sample names the secret that signed it. *)
Definition sample_dumps (secret _ : string) (_ : json) : string := secret.
Definition sample_unsign (payload : json) (secret _ token : string) : option json :=
  if bool_decide (secret = token) then Some payload else None.

Lemma unsubscribe_roundtrip_witness :
  let unsign := sample_unsign (JObj (link_payload 7 "Ann@Example.com")) in
  ∃ signer token s3 resp,
    _build_unsubscribe_signer sample_dumps "preview" 7 (demo_env 0) empty_db = (empty_db, inr signer) ∧
    signer "Ann@Example.com" = link_of token ∧
    consume_unsubscribe_token unsign "preview" 4 token (demo_env 5) empty_db = (s3, inr resp) ∧
    u_suppressed_at resp = 4 ∧ u_identifier resp = "ann@example.com" ∧ u_already_existed resp = false ∧
    suppressed_now 7 s3 "ann@example.com" = true.
Proof.
  simpl. destruct (_build_unsubscribe_signer sample_dumps "preview" 7 (demo_env 0) empty_db)
    as [s1 [x|signer]] eqn:Hb; [discriminate Hb|].
  assert (s1 = empty_db) as -> by (by injection Hb).
  destruct (unsubscribe_roundtrip sample_dumps (sample_unsign (JObj (link_payload 7 "Ann@Example.com")))
    "preview" 7 "Ann@Example.com" (demo_env 0) empty_db empty_db signer (demo_env 5) (demo_env 6) empty_db 4 6)
    as (token & resp & entry & s3 & Hs & Hc & _ & _ & Hi & Hx & Hn & _ & _ & Ht & _).
  - done.
  - done.
  - intros secret secret'. reflexivity.
  - exact Hb.
  - reflexivity.
  - split.
    + intros k r H. done.
    + intros k1 k2 r1 r2 x H. done.
  - rewrite Hx in Ht. exists signer, token, s3, resp.
    split_and!; [reflexivity|exact Hs|exact Hc|apply Ht|exact Hi|exact Hx|exact Hn].
Defined.
