(* ===== verification/SocialProofs.v ===== *)
(** * Social posts: published at most once, and what a revoked authorisation does *)

From S2P Require Export DistributionProofs.
Local Open Scope Z_scope.

(** ** Keys survive stripping *)

Lemma strip_key a c : str_strip (social_key a c) = social_key a c.
Proof.
  apply strip_by_none. unfold social_key, uuid_str.
  assert (∀ k m, str_all (λ x, negb (is_space x)) (hexs k m) = true) as Hh.
  { intros k m. apply (str_all_impl is_hex); [|apply is_hex_hexs].
    by intros [[] [] [] [] [] [] [] []]. }
  by rewrite !str_all_app, !Hh.
Qed.

(** ** A connector that must not be called *)

Definition mute (c : SocialConnector) : SocialConnector := {|
  social_provider := social_provider c;
  publish_post := λ _ _ _, inl (AssertionError "a second publication") |}.

Definition mute_build (build : string → exn + SocialConnector) (p : string) : exn + SocialConnector :=
  match build p with inl x => inl x | inr c => inr (mute c) end.

Lemma of_sum_mute build p e s :
  match build p with
  | inl x => of_sum (build p) e s = (s, inl x) ∧ of_sum (mute_build build p) e s = (s, inl x)
  | inr c => of_sum (build p) e s = (s, inr c) ∧ of_sum (mute_build build p) e s = (s, inr (mute c))
  end.
Proof. unfold mute_build. by destruct (build p). Qed.

(** The published post is on record under the key. *)
Definition posted (tid : N) (key : string) (s : db) : Prop :=
  ∃ k r mid, t_dispatch_attempt s !! k = Some r ∧ same_key tid key r = true ∧ is_sent r = true ∧
    DispatchAttempt.provider_message_id r = Some mid ∧ str_empty mid = false.

Lemma attempts_single p s k r :
  t_dispatch_attempt s !! k = Some r → p r = true →
  (∀ k' r', t_dispatch_attempt s !! k' = Some r' → p r' = true → k' = k) →
  List.filter p (snd <$> map_to_list (rows (R:=DispatchAttempt.t) s)) = [r].
Proof. exact (select_single (T:=DispatchAttempt.t) p s k r). Qed.

Lemma cached_posted tid key e s :
  attempts_ok s → posted tid key s →
  ∃ o mid, _cached_attempt tid key e s = (s, inr o) ∧ cached_post_id o = Some mid.
Proof.
  intros Hok (k & r & mid & Hk & Hkey & Hsent & Hmid & Hne). exists (Some r), mid.
  unfold _cached_attempt. rewrite (bind_select (T:=DispatchAttempt.t)).
  rewrite (attempts_single _ s k r Hk Hkey).
  - split; [done|]. simpl. by rewrite Hsent, Hmid, Hne.
  - intros k' r' Hk' Hkey'. unfold same_key in *.
    apply andb_true_iff in Hkey as [Ht Hi], Hkey' as [Ht' Hi'].
    apply bool_decide_eq_true_1 in Ht, Hi, Ht', Hi'.
    refine (ao_unique s Hok k' k r' r (tid, key) Hk' Hk _ _); unfold attempt_key; congruence.
Qed.

Lemma publish_mute c tok tid p u content key e s :
  attempts_ok s → posted tid key s → str_strip key = key →
  publish c tok tid p u content key e s = publish (mute c) tok tid p u content key e s.
Proof.
  intros Hok Hp Hkey. unfold publish. cbv zeta.
  change (social_provider (mute c)) with (social_provider c). rewrite Hkey.
  do 4 (apply bind_ext; intros ? [] H1; apply raise_if_inr in H1 as [_ ->]).
  destruct (cached_posted tid key e s Hok Hp) as (o & mid & Ho & Hmid).
  rewrite !(bind_ok _ _ _ _ _ _ Ho). by rewrite Hmid.
Qed.

Lemma load_destination_pure decrypt ch e s s' d :
  load_destination decrypt ch e s = (s', inr d) → s' = s.
Proof.
  unfold load_destination. intros Hrun. inv_run. destruct (t_channel s !! ch); [|done].
  cbv zeta in Hrun. inv_run.
  match goal with H : match ?x with _ => _ end _ _ = _ |- _ => destruct x; inv_run end; done.
Qed.

Lemma social_text_pure a e s s' t : _social_text_from_asset a e s = (s', inr t) → s' = s.
Proof. unfold _social_text_from_asset. cbv zeta. intros Hrun. by inv_run. Qed.

(** Records are kept by whatever keeps sent rows. *)
Lemma posted_kept tid key s s' : sent_kept s s' → posted tid key s → posted tid key s'.
Proof. intros H (k & r & mid & Hk & ? & Hs & ?). exists k, r, mid. split; [by apply H|done]. Qed.

Lemma upsert_posts a e s s' u mid :
  attempts_ok s → at_status a = "sent" → at_provider_message_id a = Some mid → str_empty mid = false →
  ¬ attempted (at_tenant_id a) (at_idempotency_key a) s →
  _upsert_dispatch_attempt a e s = (s', inr u) → posted (at_tenant_id a) (at_idempotency_key a) s'.
Proof.
  intros Hok Hst Hmid Hne Hno. unfold _upsert_dispatch_attempt.
  rewrite bind_asks, (bind_select (T:=DispatchAttempt.t)).
  destruct (List.filter _ _) as [|r0 rest] eqn:Hsel.
  - rewrite (bind_ok _ _ _ _ _ _ (add_row_run _ e s)). intros [= <- _]. eexists _, _, mid.
    split; [apply lookup_insert_eq|]. unfold same_key, is_sent. simpl. by rewrite Hst, !bool_decide_true.
  - exfalso. apply Hno. pose proof (list_elem_of_here r0 rest) as H0. rewrite <- Hsel in H0.
    apply elem_of_attempts in H0 as [[k Hk] Hr]. by exists k, r0.
Qed.

Lemma published_posts c asset dest key result e s s' out :
  attempts_ok s → str_empty (p_post_id result) = false →
  (posted (ContentAsset.tenant_id asset) key s ∨ ¬ attempted (ContentAsset.tenant_id asset) key s) →
  on_published c asset dest key result e s = (s', inr out) →
  posted (ContentAsset.tenant_id asset) key s'.
Proof.
  intros Hok Hne Hrec. unfold on_published. rewrite bind_asks. intros Hrun. cbv zeta in Hrun.
  apply bind_inr in Hrun as (s1 & [] & Hup & Hrun).
  pose proof (respects_run attempts_step _ _ _ _ _ (upsert_attempts _) Hup Hok) as [Hok1 K1].
  assert (posted (ContentAsset.tenant_id asset) key s1) as Hp1.
  { destruct Hrec as [Hp|Hno]; [by eapply posted_kept|].
    refine (upsert_posts _ _ _ _ _ (p_post_id result) Hok _ _ _ _ Hup); done. }
  refine (posted_kept _ _ _ _ (proj2 (respects_run attempts_step _ _ _ _ _ _ Hrun Hok1)) Hp1).
  repeat first [ apply go_live_attempts | attempts_step_tac ].
Qed.

Lemma social_mute decrypt build k asset ch e s :
  attempts_ok s → t_content_asset s !! k = Some asset → ContentAsset.channel_id asset = Some ch →
  posted (ContentAsset.tenant_id asset) (social_key (ContentAsset.id asset) ch) s →
  dispatch_social_asset decrypt build k e s = dispatch_social_asset decrypt (mute_build build) k e s.
Proof.
  intros Hok Hk Hch Hp. unfold dispatch_social_asset.
  apply bind_ext. intros s1 a H1. apply load_scheduled_inr in H1 as (-> & Ha & _). simplify_eq.
  apply bind_ext. intros s1 [] H1. apply raise_if_inr in H1 as [_ ->]. rewrite Hch.
  apply bind_ext. intros s1 c H1. apply load_campaign_inr in H1 as [-> _].
  destruct (_ ==b CampaignStatus.paused); [done|].
  apply bind_ext. intros s1 dest H1. apply load_destination_pure in H1 as ->.
  pose proof (of_sum_mute build (d_provider dest) e s) as Hm.
  destruct (build (d_provider dest)) as [x|conn]; destruct Hm as [Hm1 Hm2].
  { rewrite (bind_fail _ _ _ _ _ _ Hm2). by rewrite (bind_fail _ _ _ _ _ _ Hm1). }
  rewrite (bind_ok _ _ _ _ _ _ Hm2), (bind_ok _ _ _ _ _ _ Hm1). cbv zeta.
  apply bind_ext. intros s1 tok H1. apply of_sum_inr in H1 as [_ ->].
  apply bind_ext. intros s1 text H1. apply social_text_pure in H1 as ->.
  apply bind_head. unfold try_except.
  rewrite (bind_head _ (publish (mute conn) tok (ContentAsset.tenant_id asset) (d_provider dest)
    (d_page_urn dest) {| c_text := text; c_media_url := default JNull (dget "media_url" (ContentAsset.extra_metadata asset));
      c_media_required := opt_truthy (dget "media_required" (ContentAsset.extra_metadata asset)) |}
    (social_key (ContentAsset.id asset) ch))); [done|].
  apply publish_mute; [done|done|apply strip_key].
Qed.

Lemma publish_pure c tok tid p u content key e s s' r :
  publish c tok tid p u content key e s = (s', r) → s' = s.
Proof.
  assert (respects eq (publish c tok tid p u content key)) as Hp.
  { unfold publish, _cached_attempt. respects_auto. }
  intros Hrun. specialize (Hp e s). by rewrite Hrun in Hp.
Qed.

Lemma publish_try_pure c tok tid p u content key e s s' (r : string + PublishResult) :
  try_except (r ← publish c tok tid p u content key; mret (inr r))
    (λ x, match x with OAuthRevokedError m => Some (mret (inl m)) | _ => None end) e s = (s', inr r) →
  s' = s.
Proof.
  unfold try_except, mbind, M_bind. destruct (publish c tok tid p u content key e s) as [s1 [x|a]] eqn:E;
    apply publish_pure in E as ->; [destruct x; try done|]; by intros [= <- _].
Qed.

(** A post is published at most once. When the attempts record a sent post for the
    asset on its channel, a dispatch behaves exactly as with a connector that fails when
    called: the provider is not contacted, whatever the state of the asset, the
    campaign and the credentials. And a dispatch that publishes leaves that record,
    when the key was new or on record as posted. *)
Theorem social_publishes_once decrypt build k asset ch e s :
  attempts_ok s → t_content_asset s !! k = Some asset → ContentAsset.channel_id asset = Some ch →
  let tid := ContentAsset.tenant_id asset in
  let key := social_key (ContentAsset.id asset) ch in
  (posted tid key s →
   dispatch_social_asset decrypt build k e s = dispatch_social_asset decrypt (mute_build build) k e s) ∧
  (∀ s' out pid, posted tid key s ∨ ¬ attempted tid key s →
     dispatch_social_asset decrypt build k e s = (s', inr out) →
     dget "provider_post_id" out = Some (JStr pid) → str_empty pid = false → posted tid key s').
Proof.
  intros Hok Hk Hch tid key. split; [by apply social_mute|].
  intros s' out pid Hrec Hrun Hpid Hne. unfold dispatch_social_asset in Hrun.
  apply bind_inr in Hrun as (s1 & a & H1 & Hrun). apply load_scheduled_inr in H1 as (-> & Ha & _). simplify_eq.
  apply bind_inr in Hrun as (s1 & [] & H1 & Hrun). apply raise_if_inr in H1 as [_ ->]. rewrite Hch in Hrun.
  apply bind_inr in Hrun as (s1 & c & H1 & Hrun). apply load_campaign_inr in H1 as [-> _].
  destruct (_ ==b CampaignStatus.paused); [by apply ret_inr in Hrun as [_ ->]|].
  apply bind_inr in Hrun as (s1 & dest & H1 & Hrun). apply load_destination_pure in H1 as ->.
  apply bind_inr in Hrun as (s1 & conn & H1 & Hrun). apply of_sum_inr in H1 as [_ ->]. cbv zeta in Hrun.
  apply bind_inr in Hrun as (s1 & tok & H1 & Hrun). apply of_sum_inr in H1 as [_ ->].
  apply bind_inr in Hrun as (s1 & text & H1 & Hrun). apply social_text_pure in H1 as ->.
  apply bind_inr in Hrun as (s1 & [msg|result] & H1 & Hrun).
  { unfold on_revoked in Hrun. inv_run. done. }
  assert (s1 = s) as -> by (by eapply publish_try_pure).
  eapply published_posts; [done| |exact Hrec|exact Hrun].
  unfold on_published in Hrun. cbv zeta in Hrun. inv_run. by injection Hpid as <-.
Qed.

(** ** A revoked authorisation *)

Lemma audit_run tid ek eid act b a md e s s' u :
  audit tid ek eid act b a md e s = (s', inr u) →
  t_campaign s' = t_campaign s ∧ t_task s' = t_task s ∧ t_content_asset s' = t_content_asset s ∧
  t_dispatch_attempt s' = t_dispatch_attempt s.
Proof. unfold audit, write_audit. intros Hrun. by injection Hrun as <- _. Qed.

(** Nothing of the campaign is waiting for a worker. *)
Definition no_queued (cid : N) (s : db) : Prop :=
  ∀ k t, t_task s !! k = Some t → Task.campaign_id t = Some cid → is_queued t = false.

Lemma cancel_no_queued cid e s s' n :
  cancel_queued_for_campaign cid e s = (s', inr n) →
  no_queued cid s' ∧ t_campaign s' = t_campaign s ∧ t_content_asset s' = t_content_asset s ∧
  t_dispatch_attempt s' = t_dispatch_attempt s.
Proof.
  unfold cancel_queued_for_campaign. intros Hrun. rewrite bind_asks in Hrun.
  injection Hrun as <- _. split; [|done]. intros k t Hk Hcid. simpl in Hk.
  apply lookup_fmap_Some in Hk as (t0 & <- & _).
  destruct ((Task.campaign_id t0 ==b Some cid) && is_queued t0) eqn:E; [done|].
  rewrite Hcid, bool_decide_true in E by done. exact E.
Qed.

Lemma pause_inr c why md e s s' c' :
  t_campaign s !! Campaign.id c = Some c → Campaign.status c ≠ CampaignStatus.paused →
  pause_campaign c why md e s = (s', inr c') →
  t_campaign s' = <[Campaign.id c := touch (now e) (c <| Campaign.status := CampaignStatus.paused |>)]> (t_campaign s) ∧
  no_queued (Campaign.id c) s' ∧ t_content_asset s' = t_content_asset s ∧
  t_dispatch_attempt s' = t_dispatch_attempt s.
Proof.
  intros Hc Hst. unfold pause_campaign. rewrite bool_decide_false by done. cbv zeta. intros Hrun.
  apply bind_inr in Hrun as (s1 & c1 & H1 & Hrun). apply (assign_inr _ _ _ _ _ _ c) in H1 as [-> ->]; [|done].
  apply bind_inr in Hrun as (s2 & n & H2 & Hrun). apply cancel_no_queued in H2 as (Hq & Hcam & Has & Hat).
  apply bind_inr in Hrun as (s3 & u & H3 & Hrun). apply audit_run in H3 as (Hc3 & Ht3 & Ha3 & Hd3).
  apply ret_inr in Hrun as [-> _]. rewrite Hc3, Hcam, Ha3, Has, Hd3, Hat. split; [done|].
  split; [|done]. intros k t Hk Hcid. apply (Hq k); [by rewrite <- Ht3|done].
Qed.

Lemma social_outcome_revoked c asset dest key result e s s' out :
  on_published c asset dest key result e s = (s', inr out) → dget "error" out = None.
Proof. unfold on_published. cbv zeta. intros Hrun. by inv_run. Qed.

(** A revoked authorisation stops the campaign and keeps what it wrote. When the
    provider answers that the token is revoked the dispatch does not raise: it returns,
    with the asset failed and the reason on it, the campaign paused, none of its tasks
    left for a worker to claim, and no attempt recorded. *)
Theorem social_revoked_pauses decrypt build k asset c e s s' out :
  t_content_asset s !! k = Some asset → ContentAsset.id asset = k →
  t_campaign s !! ContentAsset.campaign_id asset = Some c → Campaign.id c = ContentAsset.campaign_id asset →
  dispatch_social_asset decrypt build k e s = (s', inr out) →
  dget "error" out = Some (JStr "oauth_revoked") →
  ∃ msg, dget "message" out = Some (JStr msg) ∧
    t_content_asset s' = <[k := touch (now e) (revoked_values msg asset)]> (t_content_asset s) ∧
    t_campaign s' = <[Campaign.id c := touch (now e) (c <| Campaign.status := CampaignStatus.paused |>)]>
                      (t_campaign s) ∧
    no_queued (Campaign.id c) s' ∧ t_dispatch_attempt s' = t_dispatch_attempt s.
Proof.
  intros Hk Hid Hc Hcid Hrun Herr. unfold dispatch_social_asset in Hrun.
  apply bind_inr in Hrun as (s1 & a & H1 & Hrun). apply load_scheduled_inr in H1 as (-> & Ha & _). simplify_eq.
  apply bind_inr in Hrun as (s1 & [] & H1 & Hrun). apply raise_if_inr in H1 as [_ ->].
  destruct (ContentAsset.channel_id asset) as [ch|]; [|done].
  apply bind_inr in Hrun as (s1 & c0 & H1 & Hrun). apply load_campaign_inr in H1 as [-> H1]. simplify_eq.
  destruct (Campaign.status c ==b CampaignStatus.paused) eqn:Hp; [by apply ret_inr in Hrun as [_ ->]|].
  apply bool_decide_eq_false_1 in Hp.
  apply bind_inr in Hrun as (s1 & dest & H2 & Hrun). apply load_destination_pure in H2 as ->.
  apply bind_inr in Hrun as (s1 & conn & H2 & Hrun). apply of_sum_inr in H2 as [_ ->]. cbv zeta in Hrun.
  apply bind_inr in Hrun as (s1 & tok & H2 & Hrun). apply of_sum_inr in H2 as [_ ->].
  apply bind_inr in Hrun as (s1 & text & H2 & Hrun). apply social_text_pure in H2 as ->.
  apply bind_inr in Hrun as (s1 & [msg|result] & H2 & Hrun); apply publish_try_pure in H2 as ->.
  2:{ apply social_outcome_revoked in Hrun. congruence. }
  unfold on_revoked, _pause_campaign_on_oauth_revoked in Hrun.
  apply bind_inr in Hrun as (s1 & c1 & H2 & Hrun).
  rewrite <- Hcid in Hc. apply (pause_inr _ _ _ _ _ _ _ Hc Hp) in H2 as (Hcam & Hq & Has & Hat).
  apply bind_inr in Hrun as (s2 & a2 & H3 & Hrun). apply (assign_inr _ _ _ _ _ _ asset) in H3 as [-> ->];
    [|change (t_content_asset s1 !! ContentAsset.id asset = Some asset); by rewrite Has].
  apply ret_inr in Hrun as [-> ->]. exists msg. split; [done|].
  split; [change (<[ContentAsset.id asset := touch (now e) (revoked_values msg asset)]> (t_content_asset s1)
    = <[ContentAsset.id asset := touch (now e) (revoked_values msg asset)]> (t_content_asset s)); by rewrite Has|].
  done.
Qed.

(** ** Samples *)

Definition social_asset : ContentAsset.t :=
  sample_asset 40 AssetType.social_post AssetStatus.scheduled [] <| ContentAsset.channel_id := Some 90%N |>.

Definition sample_channel : Channel.t := {|
  Channel.id := 90; Channel.tenant_id := 1; Channel.name := "page"; Channel.platform := ChannelPlatform.linkedin;
  Channel.api_config := [("page_urn", JStr "urn:li:1")]; Channel.is_active := true;
  Channel.created_at := 0; Channel.updated_at := 0 |}.

Definition social_db (attempts : gmap N DispatchAttempt.t) : db :=
  sample_db (sample_campaign CampaignStatus.live) [social_asset]
  <| t_channel := {[ 90%N := sample_channel ]} |>
  <| t_integration_credential := {[ 70%N := sample_credential "linkedin" (Some 90%N) ]} |>
  <| t_dispatch_attempt := attempts |>.

Definition posted_db : db := social_db {[ 80%N := sent_row (social_key 40 90) "urn:li:1" ]}.

Definition linkedin (answer : exn + PostResult.t) (_ : string) : exn + SocialConnector :=
  inr {| social_provider := "linkedin"; publish_post := λ _ _ _, answer |}.

Lemma posted_db_ok : attempts_ok posted_db.
Proof. by apply (single_attempt_ok 80 (sent_row (social_key 40 90) "urn:li:1")). Qed.

Lemma social_publishes_once_witness :
  ∃ s' out, dispatch_social_asset sample_decrypt (mute_build (linkedin (inr (PostResult.mk "p2" "u2")))) 40
              (demo_env 5) posted_db = (s', inr out) ∧
    dget "provider_post_id" out = Some (JStr "m0").
Proof.
  destruct (run_returns (dispatch_social_asset sample_decrypt (linkedin (inr (PostResult.mk "p2" "u2"))) 40)
    (demo_env 5) posted_db) as (s' & out & E); [by vm_compute|]. exists s', out.
  rewrite (proj1 (social_publishes_once sample_decrypt (linkedin (inr (PostResult.mk "p2" "u2"))) 40
    social_asset 90 (demo_env 5) posted_db posted_db_ok eq_refl eq_refl)) in E.
  - split; [exact E|]. apply (f_equal (λ x, run_val x ≫= dget "provider_post_id")) in E.
    vm_compute in E. exact (eq_sym E).
  - exists 80%N, (sent_row (social_key 40 90) "urn:li:1"), "m0". repeat split.
Defined.

Lemma social_revoked_pauses_witness :
  ∃ s' out, dispatch_social_asset sample_decrypt (linkedin (inl (OAuthRevokedError "gone"))) 40
              (demo_env 5) (social_db ∅) = (s', inr out) ∧
    (Campaign.status <$> t_campaign s' !! 10%N) = Some CampaignStatus.paused ∧
    (ContentAsset.status <$> t_content_asset s' !! 40%N) = Some AssetStatus.failed.
Proof.
  destruct (run_returns (dispatch_social_asset sample_decrypt (linkedin (inl (OAuthRevokedError "gone"))) 40)
    (demo_env 5) (social_db ∅)) as (s' & out & E); [by vm_compute|]. exists s', out. split; [done|].
  assert (dget "error" out = Some (JStr "oauth_revoked")) as Herr.
  { apply (f_equal (λ x, run_val x ≫= dget "error")) in E. vm_compute in E. exact (eq_sym E). }
  destruct (social_revoked_pauses _ _ 40 social_asset (sample_campaign CampaignStatus.live) _ (social_db ∅) _ _
    eq_refl eq_refl eq_refl eq_refl E Herr) as (msg & _ & -> & -> & _).
  by rewrite !lookup_insert_eq.
Defined.
