(* ===== verification/SocialConnectors.v ===== *)
(** * The social connectors: src/app/integrations/social

    LinkedIn, Meta and X behind one interface: the OAuth exchange, the pages, and publishing with its
    retries. The HTTP client, [json.loads] ([loads]) and [email.utils.parsedate_to_datetime]
    ([parse_date]) are parameters. *)

From S2P Require Export Http SocialDispatch.
From S2P Require Import PyDecimal.
Local Open Scope Z_scope.

(** ** What the connectors share *)

(** [app/integrations/social/base.py] lines 70-77, [OAuthTokens]. *)
Module OAuthTokens.
Record t := mk { access_token : json; refresh_token : json; expires_at : Z; scopes : list string }.
End OAuthTokens.

(** [app/integrations/social/base.py] lines 80-87, [AuthorisedPage]. *)
Module AuthorisedPage.
Record t := mk { page_id : string; page_name : string; urn : string; extra : list (string * string) }.
End AuthorisedPage.

(** [app/integrations/social/linkedin.py] lines 41-41, [_MAX_RETRIES]. *)
Definition _MAX_RETRIES : nat := 2.
(** [app/integrations/social/linkedin.py] lines 42-42, [_RETRYABLE_STATUS]. *)
Definition _RETRYABLE_STATUS : list Z := [429; 500; 502; 503; 504].
(** [app/integrations/social/linkedin.py] lines 43-43, [_REVOKED_STATUS]. *)
Definition _REVOKED_STATUS : list Z := [401; 403].

(** [f"{what} {resp.status_code}: {resp.text[:200]}"]. *)
Definition status_msg (what : string) (r : http_response) : string :=
  what +:+ " " +:+ str_of_Z (status_code r) +:+ ": " +:+ str_take 200 (resp_text r).

(** [app/integrations/social/linkedin.py] lines 298-314, [LinkedInConnector._raise_for_status]. Also
    that of X. *)
Definition raise_for_status (provider where_ : string) (r : http_response) : exn + () :=
  let msg := status_msg (provider +:+ " " +:+ where_) r in
  if status_code r <? 400 then inr ()
  else if status_code r ∈b _REVOKED_STATUS then inl (OAuthRevokedError msg)
  else if 500 <=? status_code r then inl (ProviderUnreachableError msg)
  else inl (ProviderRejectedError msg).

(** [app/integrations/social/meta.py] lines 290-312, [MetaConnector._raise_for_status]. *)
Definition meta_raise_for_status (where_ : string) (r : http_response) : exn + () :=
  let msg := status_msg ("meta " +:+ where_) r in
  if status_code r <? 400 then inr ()
  else if status_code r ∈b _REVOKED_STATUS then inl (OAuthRevokedError msg)
  else if (status_code r =? 400) && contains "OAuthException" (resp_text r) then
    inl (OAuthRevokedError ("meta " +:+ where_ +:+ " OAuthException: " +:+ str_take 200 (resp_text r)))
  else if 500 <=? status_code r then inl (ProviderUnreachableError msg)
  else inl (ProviderRejectedError msg).

(** [app/integrations/social/linkedin.py] lines 321-322, [_auth_headers]. *)
Definition _auth_headers (access_token : json) : list (string * string) :=
  [("Authorization", "Bearer " +:+ json_str access_token)].

(** [app/integrations/social/linkedin.py] lines 325-328, [_share_url]. *)
Definition _share_url (urn : string) : string := "https://www.linkedin.com/feed/update/" +:+ urn +:+ "/".

(** [max(x, 0.0)], which keeps NaN. *)
Definition at_least_zero (d : pydec) : pydec :=
  match dec_ltb d (dec_of_Z 0) with Some true => dec_of_Z 0 | _ => d end.

(** What [parsedate_to_datetime] makes of a header: nothing it can read, a time without a zone, or a
    time. *)
Inductive parsed_date := BadDate | NaiveDate | AwareDate (t : Z).

Definition bearer_json (access_token : json) (more : list (string * string)) : list (string * string) :=
  _auth_headers access_token ++ more ++ [("Content-Type", "application/json")].

(** [s.split()]: the words between white space. *)
Fixpoint words (cur s : string) : list string :=
  let close := if str_empty cur then [] else [cur] in
  match s with
  | EmptyString => close
  | String c s => if is_space c then close ++ words "" s else words (cur +:+ String c "") s
  end.

Section connectors.
Context (send : list http_event → http_request → http_result).
Context (loads : string → option json).
Context (parse_date : string → parsed_date).
(** The clock, read once by an operation, and the client of the settings. *)
Context (now : Z) (client_id client_secret : string).

(** [app/integrations/social/linkedin.py] lines 331-361, [_parse_retry_after]. *)
Definition _parse_retry_after (value : option string) : exn + option pydec :=
  match value with
  | None => inr None
  | Some v =>
      let stripped := str_strip v in
      if str_empty stripped then inr None
      else match float_of_str stripped with
           | Some seconds => inr (Some (at_least_zero seconds))
           | None =>
               match parse_date stripped with
               | BadDate => inr None
               | NaiveDate => inl TypeError
               | AwareDate target => inr (Some (DFin false (Z.to_N (Z.max (target - now) 0)) (-6)))
               end
           end
  end.

(** [app/integrations/social/meta.py] lines 319-325, [_parse_retry_after]. And that of X. *)
Definition parse_retry_seconds (value : option string) : exn + option pydec :=
  inr (value ≫= λ v, at_least_zero <$> float_of_str (str_strip v)).

(** The loop of [publish_post]: [retries] retries are left. *)
Fixpoint post_retrying (provider : string) (retry_after : option string → exn + option pydec) (rq : http_request)
    (retries : nat) (backoff : Z) : Http http_response :=
  out ← h_send send rq;
  match out with
  | TransportError msg =>
      match retries with
      | O => h_raise (ProviderUnreachableError (provider +:+ " transport failure: " +:+ msg))
      | S retries => h_sleep (Backoff backoff) ;; post_retrying provider retry_after rq retries (2 * backoff)
      end
  | ClientError msg => h_raise (OtherError msg)
  | Responded resp =>
      match retries with
      | O => mret resp
      | S retries =>
          if status_code resp ∈b _RETRYABLE_STATUS then
            asked ← h_of_sum (retry_after (header "retry-after" resp));
            h_sleep (from_option RetryAfter (Backoff backoff) asked) ;;
            post_retrying provider retry_after rq retries (2 * backoff)
          else mret resp
      end
  end.

Definition media_check (post : SocialPost.t) : exn + () :=
  if SocialPost.media_required post && negb (truthy (SocialPost.media_url post))
  then inl (MediaRequiredError "post.media_required=true but no media_url supplied") else inr ().

(** A plain request; any transport failure is [failed]. *)
Definition call_once (failed : string) (rq : http_request) : Http http_response :=
  out ← h_send send rq;
  match out with
  | TransportError msg => h_raise (ProviderUnreachableError (failed +:+ ": " +:+ msg))
  | ClientError msg => h_raise (OtherError msg)
  | Responded resp => mret resp
  end.

(** The answer of a token endpoint: [expires_in] with its default, and the scopes it lists. *)
Definition token_status (what : string) (r : http_response) : exn + () :=
  if 500 <=? status_code r then inl (ProviderUnreachableError (status_msg what r))
  else if 400 <=? status_code r then inl (ProviderRejectedError (status_msg what r))
  else inr ().

Definition scopes_of (v : json) : exn + list string :=
  if truthy v then match v with JStr s => inr (words "" s) | _ => inl (AttributeError "split") end else inr [].

(** ** LinkedIn *)

(** [app/integrations/social/linkedin.py] lines 48-53, [LinkedInConnector.default_scopes]. *)
Definition linkedin_scopes : list string :=
  ["r_liteprofile"; "r_organization_social"; "w_organization_social"; "rw_organization_admin"].

(** [scopes or self.default_scopes]. *)
Definition scopes_or (default_scopes : list string) (scopes : option (list string)) : list string :=
  match scopes with Some (x :: l) => x :: l | _ => default_scopes end.

(** [app/integrations/social/linkedin.py] lines 69-83, [LinkedInConnector.authorize_url]. *)
Definition linkedin_authorize_url (state redirect_uri : string) (scopes : option (list string)) : string :=
  "https://www.linkedin.com/oauth/v2/authorization?" +:+ urlencode [
    ("response_type", "code"); ("client_id", client_id); ("redirect_uri", redirect_uri); ("state", state);
    ("scope", str_join " " (scopes_or linkedin_scopes scopes))].

(** [app/integrations/social/linkedin.py] lines 116-149, [LinkedInConnector._post_token]. *)
Definition linkedin_post_token (data : jdict) : Http OAuthTokens.t :=
  resp ← call_once "linkedin token transport failure"
    (mkrequest "POST" "https://www.linkedin.com/oauth/v2/accessToken" [] (FormBody data) form_headers None);
  h_of_sum (token_status "linkedin token" resp) ;;
  body ← h_of_sum (resp_json loads resp);
  raw ← h_of_sum (jget_or_raise "expires_in" body);
  expires_in ← h_of_sum (int_or raw 0);
  scopes_raw ← h_of_sum (jget_or_raise "scope" body);
  scopes ← h_of_sum (scopes_of scopes_raw);
  match body with
  | JObj d =>
      match dget "access_token" d with
      | Some token => mret {|
          OAuthTokens.access_token := JStr (json_str token);
          OAuthTokens.refresh_token := default JNull (dget "refresh_token" d);
          OAuthTokens.expires_at := now + (if expires_in =? 0 then 3600 else expires_in) * second;
          OAuthTokens.scopes := scopes |}
      | None => h_raise KeyError
      end
  | _ => h_raise (AttributeError "get")
  end.

(** [app/integrations/social/linkedin.py] lines 85-96, [LinkedInConnector.exchange_code]. *)
Definition linkedin_exchange_code (code redirect_uri : string) : Http OAuthTokens.t :=
  linkedin_post_token [("grant_type", JStr "authorization_code"); ("code", JStr code);
    ("redirect_uri", JStr redirect_uri); ("client_id", JStr client_id); ("client_secret", JStr client_secret)].

(** A refused refresh is a revoked authorisation. *)
Definition refused_is_revoked (provider : string) (x : exn) : option exn :=
  match x with
  | ProviderRejectedError m => Some (OAuthRevokedError (provider +:+ " refresh failed: " +:+ m))
  | _ => None
  end.

(** [app/integrations/social/linkedin.py] lines 98-114, [LinkedInConnector.refresh_tokens]. *)
Definition linkedin_refresh_tokens (refresh_token : string) : Http OAuthTokens.t :=
  h_try (linkedin_post_token [("grant_type", JStr "refresh_token"); ("refresh_token", JStr refresh_token);
           ("client_id", JStr client_id); ("client_secret", JStr client_secret)])
    (refused_is_revoked "linkedin").

(** The text after the last colon. *)
Definition after_last_colon (s : string) : string := default "" (last (str_split ":"%char "" s)).

(** One entry of the access control list: the page, when it is an organization whose name can be read. *)
Definition linkedin_page (failed : string) (access_token acl : json) : Http (option AuthorisedPage.t) :=
  organization ← h_of_sum (jget_or_raise "organization" acl);
  target ← h_of_sum (jget_or_raise "organizationalTarget" acl);
  match (if truthy organization then organization else target) with
  | JStr org_urn =>
      if negb (String.prefix "urn:li:organization:" org_urn) then mret None
      else
        let org_id := after_last_colon org_urn in
        name_resp ← call_once failed (mkrequest "GET" ("https://api.linkedin.com/v2/organizations/" +:+ org_id) []
                      NoBody (_auth_headers access_token) None);
        if 400 <=? status_code name_resp then mret None
        else
          payload ← h_of_sum (resp_json loads name_resp);
          localized ← h_of_sum (jget_or_raise "localizedName" payload);
          name ← h_of_sum (jget_or_raise "name" payload);
          let name := if truthy localized then localized else if truthy name then name
                      else JStr ("Organization " +:+ org_id) in
          mret (Some {| AuthorisedPage.page_id := org_id; AuthorisedPage.page_name := json_str name;
                        AuthorisedPage.urn := org_urn; AuthorisedPage.extra := [("role", "ADMINISTRATOR")] |})
  | _ => mret None
  end.

Fixpoint collect {A B} (f : A → Http (option B)) (l : list A) : Http (list B) :=
  match l with
  | [] => mret []
  | x :: l => y ← f x; ys ← collect f l; mret (match y with Some y => y :: ys | None => ys end)
  end.

(** [app/integrations/social/linkedin.py] lines 155-202, [LinkedInConnector.list_authorised_pages]. *)
Definition linkedin_list_authorised_pages (access_token : json) : Http (list AuthorisedPage.t) :=
  let failed := "linkedin pages transport failure" in
  resp ← call_once failed (mkrequest "GET" "https://api.linkedin.com/v2/organizationAcls"
    [("q", "roleAssignee"); ("role", "ADMINISTRATOR"); ("state", "APPROVED")] NoBody (_auth_headers access_token) None);
  h_of_sum (raise_for_status "linkedin" "organizationAcls" resp) ;;
  body ← h_of_sum (resp_json loads resp);
  acls ← h_of_sum (match body with JObj d => strings_in (default (JList []) (dget "elements" d))
                   | _ => inl (AttributeError "get") end);
  collect (linkedin_page failed access_token) acls.

(** [app/integrations/social/linkedin.py] lines 277-292, [LinkedInConnector._build_ugc_body]. *)
Definition _build_ugc_body (page_urn : string) (post : SocialPost.t) : json := JObj [
  ("author", JStr page_urn);
  ("lifecycleState", JStr "PUBLISHED");
  ("specificContent", JObj [("com.linkedin.ugc.ShareContent",
      JObj [("shareCommentary", JObj [("text", JStr (SocialPost.text post))]);
            ("shareMediaCategory", JStr "NONE")])]);
  ("visibility", JObj [("com.linkedin.ugc.MemberNetworkVisibility", JStr (SocialPost.visibility post))])].

(** [app/integrations/social/linkedin.py] lines 208-275, [LinkedInConnector.publish_post]. *)
Definition linkedin_publish_post (access_token : json) (page_urn : string) (post : SocialPost.t) : Http PostResult.t :=
  h_of_sum (media_check post) ;;
  resp ← post_retrying "linkedin" _parse_retry_after
    (mkrequest "POST" "https://api.linkedin.com/v2/ugcPosts" [] (JsonBody (_build_ugc_body page_urn post))
       (bearer_json access_token [("X-Restli-Protocol-Version", "2.0.0")]) None) _MAX_RETRIES 1;
  h_of_sum (raise_for_status "linkedin" "ugcPosts" resp) ;;
  data ← h_of_sum (resp_json loads resp);
  id ← h_of_sum (jget_or_raise "id" data);
  let urn := if truthy id then json_str id else default "" (header "x-restli-id" resp) in
  h_raise_if (str_empty urn) (ProviderRejectedError "linkedin returned no post id") ;;
  mret {| PostResult.provider_post_id := urn; PostResult.url := _share_url urn |}.

(** ** Meta *)

(** [app/integrations/social/meta.py] lines 56-60, [MetaConnector.default_scopes]. *)
Definition meta_scopes : list string := ["pages_show_list"; "pages_manage_posts"; "pages_read_engagement"].

(** [app/integrations/social/meta.py] lines 71-73, [MetaConnector.feed_url]. *)
Definition feed_url (page_id : string) : string := "https://graph.facebook.com/v18.0/" +:+ page_id +:+ "/feed".

(** [app/integrations/social/meta.py] lines 79-93, [MetaConnector.authorize_url]. *)
Definition meta_authorize_url (state redirect_uri : string) (scopes : option (list string)) : string :=
  "https://www.facebook.com/v18.0/dialog/oauth?" +:+ urlencode [
    ("client_id", client_id); ("redirect_uri", redirect_uri); ("state", state);
    ("scope", str_join "," (scopes_or meta_scopes scopes)); ("response_type", "code")].

Definition meta_token_url : string := "https://graph.facebook.com/v18.0/oauth/access_token".
Definition meta_tokens (token : string) (expires_in : Z) : OAuthTokens.t := {|
  OAuthTokens.access_token := JStr token; OAuthTokens.refresh_token := JNull;
  OAuthTokens.expires_at := now + expires_in * second; OAuthTokens.scopes := meta_scopes |}.

(** [app/integrations/social/meta.py] lines 143-169, [MetaConnector._exchange_for_long_lived]. *)
Definition _exchange_for_long_lived (short_token : string) : Http (option OAuthTokens.t) :=
  out ← h_send send (mkrequest "GET" meta_token_url [("grant_type", "fb_exchange_token"); ("client_id", client_id);
          ("client_secret", client_secret); ("fb_exchange_token", short_token)] NoBody [] None);
  match out with
  | TransportError _ => mret None
  | ClientError msg => h_raise (OtherError msg)
  | Responded resp =>
      if 400 <=? status_code resp then mret None
      else
        body ← h_of_sum (resp_json loads resp);
        access ← h_of_sum (jget_or_raise "access_token" body);
        expires ← h_of_sum (jget_or_raise "expires_in" body);
        expires_in ← h_of_sum (int_or expires (60 * 24 * 3600));
        mret (Some (meta_tokens (if truthy access then json_str access else short_token) expires_in))
  end.

(** [app/integrations/social/meta.py] lines 95-141, [MetaConnector.exchange_code]. *)
Definition meta_exchange_code (code redirect_uri : string) : Http OAuthTokens.t :=
  resp ← call_once "meta token transport failure" (mkrequest "GET" meta_token_url
    [("client_id", client_id); ("client_secret", client_secret); ("redirect_uri", redirect_uri); ("code", code)]
    NoBody [] None);
  h_of_sum (token_status "meta token" resp) ;;
  short ← h_of_sum (resp_json loads resp);
  access ← h_of_sum (jget_or_raise "access_token" short);
  let access_token := if truthy access then json_str access else "" in
  h_raise_if (str_empty access_token) (ProviderRejectedError "meta token: no access_token in response") ;;
  expires ← h_of_sum (jget_or_raise "expires_in" short);
  expires_in ← h_of_sum (int_or expires 3600);
  long_lived ← _exchange_for_long_lived access_token;
  mret (default (meta_tokens access_token expires_in) long_lived).

(** [app/integrations/social/meta.py] lines 171-178, [MetaConnector.refresh_tokens]. *)
Definition meta_refresh_tokens (refresh_token : string) : Http OAuthTokens.t :=
  h_raise (OAuthRevokedError "meta does not support refresh tokens; re-OAuth required").

(** One page of the account. *)
Definition meta_page (item : json) : Http (option AuthorisedPage.t) :=
  id ← h_of_sum (jget_or_raise "id" item);
  let page_id := if truthy id then json_str id else "" in
  if str_empty page_id then mret None
  else
    name ← h_of_sum (jget_or_raise "name" item);
    token ← h_of_sum (jget_or_raise "access_token" item);
    mret (Some {| AuthorisedPage.page_id := page_id;
                  AuthorisedPage.page_name := if truthy name then json_str name else page_id;
                  AuthorisedPage.urn := page_id;
                  AuthorisedPage.extra := [("page_token", if truthy token then json_str token else "")] |}).

(** [app/integrations/social/meta.py] lines 184-217, [MetaConnector.list_authorised_pages]. *)
Definition meta_list_authorised_pages (access_token : json) : Http (list AuthorisedPage.t) :=
  resp ← call_once "meta me/accounts transport failure" (mkrequest "GET" "https://graph.facebook.com/v18.0/me/accounts"
    [("access_token", json_str access_token); ("fields", "id,name,access_token")] NoBody [] None);
  h_of_sum (meta_raise_for_status "me/accounts" resp) ;;
  body ← h_of_sum (resp_json loads resp);
  data ← h_of_sum (match body with JObj d => strings_in (default (JList []) (dget "data" d))
                   | _ => inl (AttributeError "get") end);
  collect meta_page data.

(** [app/integrations/social/meta.py] lines 223-284, [MetaConnector.publish_post]. *)
Definition meta_publish_post (access_token : json) (page_urn : string) (post : SocialPost.t) : Http PostResult.t :=
  h_of_sum (media_check post) ;;
  let body := ("message", JStr (SocialPost.text post)) ::
    (if truthy (SocialPost.media_url post) then [("link", SocialPost.media_url post)] else []) in
  resp ← post_retrying "meta" parse_retry_seconds
    (mkrequest "POST" (feed_url page_urn) [] (FormBody (body ++ [("access_token", access_token)])) [] None)
    _MAX_RETRIES 1;
  h_of_sum (meta_raise_for_status "feed" resp) ;;
  data ← h_of_sum (resp_json loads resp);
  id ← h_of_sum (jget_or_raise "id" data);
  let post_id := if truthy id then json_str id else "" in
  h_raise_if (str_empty post_id) (ProviderRejectedError "meta feed returned no id") ;;
  mret {| PostResult.provider_post_id := post_id; PostResult.url := "https://www.facebook.com/" +:+ post_id |}.

(** ** X *)

(** [app/integrations/social/x.py] lines 53-58, [XConnector.default_scopes]. *)
Definition x_scopes : list string := ["tweet.read"; "tweet.write"; "users.read"; "offline.access"].

(** [self._code_verifier or "challenge"]. *)
Definition verifier_of (code_verifier : option string) : string :=
  default "challenge" (code_verifier ≫= λ v, if str_empty v then None else Some v).

(** [app/integrations/social/x.py] lines 83-104, [XConnector.authorize_url]. *)
Definition x_authorize_url (code_verifier : option string) (state redirect_uri : string)
    (scopes : option (list string)) : string :=
  "https://twitter.com/i/oauth2/authorize?" +:+ urlencode [
    ("response_type", "code"); ("client_id", client_id); ("redirect_uri", redirect_uri); ("state", state);
    ("scope", str_join " " (scopes_or x_scopes scopes)); ("code_challenge", verifier_of code_verifier);
    ("code_challenge_method", "plain")].

(** [app/integrations/social/x.py] lines 135-171, [XConnector._post_token]. *)
Definition x_post_token (data : jdict) : Http OAuthTokens.t :=
  resp ← call_once "x token transport failure"
    (mkrequest "POST" "https://api.twitter.com/2/oauth2/token" [] (FormBody data) form_headers
       (if str_empty client_secret then None else Some (client_id, client_secret)));
  h_of_sum (token_status "x token" resp) ;;
  body ← h_of_sum (resp_json loads resp);
  raw ← h_of_sum (jget_or_raise "expires_in" body);
  expires_in ← h_of_sum (int_or raw 7200);
  scopes_raw ← h_of_sum (jget_or_raise "scope" body);
  scopes ← h_of_sum (scopes_of scopes_raw);
  match body with
  | JObj d =>
      match dget "access_token" d with
      | Some token => mret {|
          OAuthTokens.access_token := JStr (json_str token);
          OAuthTokens.refresh_token := default JNull (dget "refresh_token" d);
          OAuthTokens.expires_at := now + expires_in * second;
          OAuthTokens.scopes := scopes |}
      | None => h_raise KeyError
      end
  | _ => h_raise (AttributeError "get")
  end.

(** [app/integrations/social/x.py] lines 106-118, [XConnector.exchange_code]. *)
Definition x_exchange_code (code_verifier : option string) (code redirect_uri : string) : Http OAuthTokens.t :=
  x_post_token [("grant_type", JStr "authorization_code"); ("code", JStr code); ("redirect_uri", JStr redirect_uri);
    ("client_id", JStr client_id); ("code_verifier", JStr (verifier_of code_verifier))].

(** [app/integrations/social/x.py] lines 120-133, [XConnector.refresh_tokens]. *)
Definition x_refresh_tokens (refresh_token : string) : Http OAuthTokens.t :=
  h_try (x_post_token [("grant_type", JStr "refresh_token"); ("refresh_token", JStr refresh_token);
           ("client_id", JStr client_id)])
    (refused_is_revoked "x").

(** [v or {}] of the [data] of a body. *)
Definition data_of (body : json) : exn + json :=
  match jget_or_raise "data" body with
  | inl x => inl x
  | inr v => inr (if truthy v then v else JObj [])
  end.

(** [app/integrations/social/x.py] lines 177-206, [XConnector.list_authorised_pages]. *)
Definition x_list_authorised_pages (access_token : json) : Http (list AuthorisedPage.t) :=
  resp ← call_once "x users/me transport failure"
    (mkrequest "GET" "https://api.twitter.com/2/users/me" [] NoBody (_auth_headers access_token) None);
  h_of_sum (raise_for_status "x" "users/me" resp) ;;
  parsed ← h_of_sum (resp_json loads resp);
  body ← h_of_sum (data_of parsed);
  id ← h_of_sum (jget_or_raise "id" body);
  username ← h_of_sum (jget_or_raise "username" body);
  name ← h_of_sum (jget_or_raise "name" body);
  let user_id := if truthy id then json_str id else "" in
  let username := if truthy username then json_str username else if truthy name then json_str name else "" in
  h_raise_if (str_empty user_id) (ProviderRejectedError "x users/me returned no id") ;;
  mret [{| AuthorisedPage.page_id := user_id;
           AuthorisedPage.page_name := if str_empty username then "@" +:+ user_id else username;
           AuthorisedPage.urn := user_id;
           AuthorisedPage.extra := [("username", username)] |}].

(** [app/integrations/social/x.py] lines 212-275, [XConnector.publish_post]. *)
Definition x_publish_post (access_token : json) (page_urn : string) (post : SocialPost.t) : Http PostResult.t :=
  h_of_sum (media_check post) ;;
  let media := SocialPost.media_url post in
  let text := if truthy media && negb (SocialPost.media_required post)
              then str_strip (SocialPost.text post +:+ newline +:+ json_str media) else SocialPost.text post in
  resp ← post_retrying "x" parse_retry_seconds
    (mkrequest "POST" "https://api.twitter.com/2/tweets" [] (JsonBody (JObj [("text", JStr text)]))
       (bearer_json access_token []) None) _MAX_RETRIES 1;
  h_of_sum (raise_for_status "x" "tweets" resp) ;;
  parsed ← h_of_sum (resp_json loads resp);
  data ← h_of_sum (data_of parsed);
  id ← h_of_sum (jget_or_raise "id" data);
  let tweet_id := if truthy id then json_str id else "" in
  h_raise_if (str_empty tweet_id) (ProviderRejectedError "x tweets returned no id") ;;
  author ← h_of_sum (jget_or_raise "author_id" data);
  let username := if truthy author then json_str author else page_urn in
  mret {| PostResult.provider_post_id := tweet_id;
          PostResult.url := "https://twitter.com/" +:+ username +:+ "/status/" +:+ tweet_id |}.

(** ** The factory *)

(** [app/integrations/social/base.py] lines 108-151, [SocialConnector]. Every operation of the
    interface. *)
Record SocialProvider := {
  sp_provider : string;
  sp_authorize_url : string → string → option (list string) → string;
  sp_exchange_code : string → string → Http OAuthTokens.t;
  sp_refresh_tokens : string → Http OAuthTokens.t;
  sp_list_authorised_pages : json → Http (list AuthorisedPage.t);
  sp_publish_post : json → string → SocialPost.t → Http PostResult.t;
}.

Definition linkedin_connector : SocialProvider := {|
  sp_provider := "linkedin"; sp_authorize_url := linkedin_authorize_url; sp_exchange_code := linkedin_exchange_code;
  sp_refresh_tokens := linkedin_refresh_tokens; sp_list_authorised_pages := linkedin_list_authorised_pages;
  sp_publish_post := linkedin_publish_post |}.
Definition x_connector : SocialProvider := {|
  sp_provider := "x"; sp_authorize_url := x_authorize_url None; sp_exchange_code := x_exchange_code None;
  sp_refresh_tokens := x_refresh_tokens; sp_list_authorised_pages := x_list_authorised_pages;
  sp_publish_post := x_publish_post |}.
Definition meta_connector : SocialProvider := {|
  sp_provider := "meta"; sp_authorize_url := meta_authorize_url; sp_exchange_code := meta_exchange_code;
  sp_refresh_tokens := meta_refresh_tokens; sp_list_authorised_pages := meta_list_authorised_pages;
  sp_publish_post := meta_publish_post |}.

(** [app/integrations/social/__init__.py] lines 24-40, [build_social_connector]. *)
Definition build_social_connector (provider : string) : exn + SocialProvider :=
  let name := str_lower (str_strip provider) in
  if name ==b "linkedin" then inr linkedin_connector
  else if name ==b "x" then inr x_connector
  else if name ==b "meta" then inr meta_connector
  else inl (UnknownSocialProviderError ("unknown social provider: " +:+ str_repr provider)).

(** What the dispatch path asks of a connector: each publication is a conversation of its own. *)
Definition as_dispatched (p : SocialProvider) : SocialConnector := {|
  social_provider := sp_provider p;
  publish_post token page post := settle (sp_publish_post p token page post) |}.
End connectors.

(** * The social connectors: how often a post is sent, and what the authorization URL carries *)

(** ** Publishing *)

(** An answer after which the same request may be sent again. *)
Definition retryable (out : http_result) : bool :=
  match out with
  | TransportError _ => true
  | ClientError _ => false
  | Responded r => status_code r ∈b _RETRYABLE_STATUS
  end.

Section exchange.
Context (send : list http_event → http_request → http_result).

(** The requests of [new], sent after [pre], with their answers. *)
Fixpoint exchange (pre new : list http_event) : list (http_request * http_result) :=
  match new with
  | [] => []
  | Sent r :: new => (r, send pre r) :: exchange (pre ++ [Sent r]) new
  | Slept w :: new => exchange (pre ++ [Slept w]) new
  end.

(** What a run of the loop comes to, in terms of the answers it got. *)
Definition loop_result (provider : string) (retry_after : option string → exn + option pydec) (retries : nat)
    (l : list http_result) (last : http_result) (r : exn + http_response) : Prop :=
  match r with
  | inr resp => last = Responded resp ∧ (retryable last = true → length l = retries)
  | inl x =>
      (∃ m, last = TransportError m ∧ length l = retries ∧
        x = ProviderUnreachableError (provider +:+ " transport failure: " +:+ m)) ∨
      (∃ m, last = ClientError m ∧ x = OtherError m) ∨
      (∃ resp, last = Responded resp ∧ retry_after (header "retry-after" resp) = inl x)
  end.

(** The loop sends one request again and again while the answers are retryable, at most [retries]
    times more, and comes to what the last answer says. *)
Lemma post_retrying_spec provider retry_after rq retries backoff h h' r :
  post_retrying send provider retry_after rq retries backoff h = (h', r) →
  ∃ new l last, h' = h ++ new ∧ exchange h new = ((rq,.) <$> l) ++ [(rq, last)] ∧
    Forall (λ out, retryable out = true) l ∧ (length l <= retries)%nat ∧
    loop_result provider retry_after retries l last r.
Proof.
  assert (∀ h w new l last r n, exchange ((h ++ [Sent rq]) ++ [Slept w]) new = ((rq,.) <$> l) ++ [(rq, last)] →
    retryable (send h rq) = true → Forall (λ out, retryable out = true) l → (length l <= n)%nat →
    loop_result provider retry_after n l last r →
    ∃ new' l' last', ((h ++ [Sent rq]) ++ [Slept w]) ++ new = h ++ new' ∧
      exchange h new' = ((rq,.) <$> l') ++ [(rq, last')] ∧ Forall (λ out, retryable out = true) l' ∧
      (length l' <= S n)%nat ∧ loop_result provider retry_after (S n) l' last' r) as Hagain.
  { clear h h' r. intros h w new l last r' n Hex Hout Hl Hlen Hres. exists (Sent rq :: Slept w :: new), (send h rq :: l), last.
    split; [by rewrite <- !app_assoc|]. split; [cbn; by rewrite <- Hex|]. split; [by constructor|].
    split; [cbn; lia|]. destruct r' as [x|resp]; cbn in *.
    - destruct Hres as [(m & ? & ? & ?)|[?|?]]; [left; exists m; split_and!; [done|lia|done]|right; by left|right; by right].
    - destruct Hres as [? Hr]. split; [done|]. intros Hlast. by rewrite Hr. }
  assert (∀ h, exchange h [Sent rq] = [] ++ [(rq, send h rq)]) as Hone by done.
  revert backoff h h' r. induction retries as [|retries IH]; intros backoff h h' r; cbn [post_retrying];
    unfold mbind, H_bind, h_send; cbn [fst snd]; specialize (Hone h); destruct (send h rq) as [m|m|resp] eqn:Hsend.
  - intros [= <- <-]. exists [Sent rq], [], (TransportError m). split_and!; try done. left. by exists m.
  - intros [= <- <-]. exists [Sent rq], [], (ClientError m). split_and!; try done. right. left. by exists m.
  - intros [= <- <-]. by exists [Sent rq], [], (Responded resp).
  - intros Hrun. change (post_retrying send provider retry_after rq retries (2 * backoff)
      ((h ++ [Sent rq]) ++ [Slept (Backoff backoff)]) = (h', r)) in Hrun.
    apply IH in Hrun as (new & l & last & -> & Hex & Hl & Hlen & Hres). eapply Hagain; eauto. by rewrite Hsend.
  - intros [= <- <-]. exists [Sent rq], [], (ClientError m). split_and!; try done; [cbn; lia|]. right. left. by exists m.
  - case_bool_decide as Hst.
    + unfold h_of_sum, h_sleep, h_raise. destruct (retry_after (header "retry-after" resp)) as [x|asked] eqn:Hra.
      * intros [= <- <-]. exists [Sent rq], [], (Responded resp). split_and!; try done; [cbn; lia|]. right. right. by exists resp.
      * intros Hrun. change (post_retrying send provider retry_after rq retries (2 * backoff)
          ((h ++ [Sent rq]) ++ [Slept (from_option RetryAfter (Backoff backoff) asked)]) = (h', r)) in Hrun.
        apply IH in Hrun as (new & l & last & -> & Hex & Hl & Hlen & Hres). eapply Hagain; eauto.
        rewrite Hsend. cbn. by apply bool_decide_eq_true_2.
    + intros [= <- <-]. exists [Sent rq], [], (Responded resp). split_and!; try done; [cbn; lia|]. split; [done|].
      cbn. by intros ?%bool_decide_eq_true_1.
Qed.
End exchange.

(** What a connector makes of the last response. *)
Definition judged (resp : http_response) (r : exn + PostResult.t) : Prop :=
  match r with
  | inr result => status_code resp < 400 ∧ PostResult.provider_post_id result ≠ ""
  | inl (OAuthRevokedError _) => status_code resp ∈ [400; 401; 403]
  | inl (ProviderUnreachableError _) => 500 <= status_code resp
  | inl _ => True
  end.

(** A program that sends nothing, and what it comes to. *)
Definition quiet {A} (Q : exn + A → Prop) (m : Http A) : Prop := ∀ h h' r, m h = (h', r) → h' = h ∧ Q r.

Lemma quiet_ret {A} (Q : exn + A → Prop) a : Q (inr a) → quiet Q (mret a).
Proof. by intros HQ h h' r [= <- <-]. Qed.
Lemma quiet_sum {A B} (Q : exn + B → Prop) (x : exn + A) f :
  (∀ e, x = inl e → Q (inl e)) → (∀ a, x = inr a → quiet Q (f a)) → quiet Q (h_of_sum x ≫= f).
Proof.
  intros He Ha h h' r. unfold mbind, H_bind. destruct x as [e|a]; cbn; [|by apply (Ha a)].
  intros [= <- <-]. split; [done|by apply He].
Qed.
Lemma quiet_raise_if {B} (Q : exn + B → Prop) b x f :
  (b = true → Q (inl x)) → (b = false → quiet Q (f ())) → quiet Q (h_raise_if b x ≫= f).
Proof.
  intros Ht Hf h h' r. unfold mbind, H_bind. destruct b; cbn; [|by apply Hf].
  intros [= <- <-]. split; [done|by apply Ht].
Qed.

Lemma h_of_sum_run {A} (x : exn + A) h : h_of_sum x h = (h, x).
Proof. by destruct x. Qed.
Lemma h_raise_if_run b x h : h_raise_if b x h = (h, if b then inl x else inr ()).
Proof. by destruct b. Qed.

Lemma revoked_codes z : (z ∈b _REVOKED_STATUS) = true → z ∈ [400; 401; 403].
Proof. intros E%bool_decide_eq_true_1. by right. Qed.

Lemma raise_for_status_judged provider where_ resp x :
  raise_for_status provider where_ resp = inl x → judged resp (inl x).
Proof.
  unfold raise_for_status. intros H. repeat case_match; simplify_eq; cbn; try done; [|lia].
  by apply revoked_codes.
Qed.

Lemma meta_raise_judged where_ resp x :
  meta_raise_for_status where_ resp = inl x → judged resp (inl x).
Proof.
  unfold meta_raise_for_status. intros H. destruct (_ <? 400); [done|]. destruct (_ ∈b _) eqn:Hrev.
  { injection H as <-. by apply revoked_codes. }
  destruct ((status_code resp =? 400) && _) eqn:E.
  { injection H as <-. apply andb_prop in E as [E _]. apply Z.eqb_eq in E. cbn. rewrite E. left. }
  destruct (500 <=? _) eqn:E5; injection H as <-; cbn; [lia|done].
Qed.

Lemma raise_for_status_ok provider where_ resp u : raise_for_status provider where_ resp = inr u → status_code resp < 400.
Proof. unfold raise_for_status. repeat case_match; try done. intros _. lia. Qed.
Lemma meta_raise_ok where_ resp u : meta_raise_for_status where_ resp = inr u → status_code resp < 400.
Proof. unfold meta_raise_for_status. repeat case_match; try done. intros _. lia. Qed.

Section publish.
Context (send : list http_event → http_request → http_result).
Context (loads : string → option json) (parse_date : string → parsed_date).
Context (now : Z) (client_id client_secret : string).

(** A publication that sends [rq] after [h] and comes to [r]: never again after an answer that is no
    retryable failure, at most three times, and [r] is what the last answer says. *)
Definition published (h h' : list http_event) (rq : http_request) (r : exn + PostResult.t) : Prop :=
  ∃ new l last, h' = h ++ new ∧ exchange send h new = ((rq,.) <$> l) ++ [(rq, last)] ∧
    Forall (λ out, retryable out = true) l ∧ (length l <= 2)%nat ∧
    match last with
    | TransportError _ => length l = 2%nat ∧ ∃ m, r = inl (ProviderUnreachableError m)
    | ClientError m => r = inl (OtherError m)
    | Responded resp => judged resp r ∧ (retryable last = true → length l = 2%nat ∨ r = inl TypeError)
    end.

Lemma loop_published provider retry_after rq tail h h' r :
  (∀ resp, quiet (judged resp) (tail resp)) →
  (∀ v x, retry_after v = inl x → x = TypeError) →
  (post_retrying send provider retry_after rq _MAX_RETRIES 1 ≫= tail) h = (h', r) → published h h' rq r.
Proof.
  intros Htail Hra. unfold mbind, H_bind.
  destruct (post_retrying _ _ _ _ _ _ h) as [h1 out] eqn:Hloop.
  apply post_retrying_spec in Hloop as (new & l & last & -> & Hex & Hl & Hlen & Hres).
  destruct out as [x|resp]; cbn in Hres.
  - intros [= <- <-]. exists new, l, last. split_and!; try done.
    destruct Hres as [(m & -> & ? & ->)|[(m & -> & ->)|(resp & -> & ->%Hra)]]; [by eauto|done|].
    split; [done|by right].
  - destruct Hres as [-> Hr]. intros (-> & Hj)%Htail. exists new, l, (Responded resp). split_and!; try done.
    intros ?. left. by apply Hr.
Qed.

Lemma parse_retry_after_raises v x : _parse_retry_after parse_date now v = inl x → x = TypeError.
Proof. unfold _parse_retry_after. intros H. repeat case_match; by simplify_eq. Qed.

Lemma resp_json_judged resp r x : resp_json loads r = inl x → judged resp (inl x).
Proof. unfold resp_json. intros H. case_match; by simplify_eq. Qed.
Lemma jget_judged resp k v x : jget_or_raise k v = inl x → judged resp (inl x).
Proof. unfold jget_or_raise. intros H. case_match; by simplify_eq. Qed.
Lemma data_judged resp v x : data_of v = inl x → judged resp (inl x).
Proof. unfold data_of. intros H. case_match eqn:E; simplify_eq. by eapply jget_judged. Qed.

Ltac judge := intros ?; repeat first
  [ apply quiet_sum; [intros ? ?; first [ by eapply raise_for_status_judged | by eapply meta_raise_judged
                                        | by eapply resp_json_judged | by eapply jget_judged | by eapply data_judged ]
                     |intros ? ?]
  | apply quiet_raise_if; [done|intros ?]
  | apply quiet_ret; split;
      [first [by eapply raise_for_status_ok | by eapply meta_raise_ok]|by apply str_empty_ne] ].

Lemma linkedin_published token page post h h' r :
  media_check post = inr () →
  linkedin_publish_post send loads parse_date now token page post h = (h', r) → ∃ rq, published h h' rq r.
Proof.
  intros Hm. unfold linkedin_publish_post. rewrite Hm. intros Hrun. eexists.
  eapply loop_published; [|exact parse_retry_after_raises|exact Hrun]. clear Hrun. judge.
Qed.

Lemma meta_published token page post h h' r :
  media_check post = inr () →
  meta_publish_post send loads token page post h = (h', r) → ∃ rq, published h h' rq r.
Proof.
  intros Hm. unfold meta_publish_post. rewrite Hm. intros Hrun. eexists.
  eapply (loop_published _ parse_retry_seconds); [|intros ? ? Hra; discriminate Hra|exact Hrun]. clear Hrun. judge.
Qed.

Lemma x_published token page post h h' r :
  media_check post = inr () →
  x_publish_post send loads token page post h = (h', r) → ∃ rq, published h h' rq r.
Proof.
  intros Hm. unfold x_publish_post. rewrite Hm. intros Hrun. eexists.
  eapply (loop_published _ parse_retry_seconds); [|intros ? ? Hra; discriminate Hra|exact Hrun]. clear Hrun. judge.
Qed.
End publish.

(** C26: how a post is published, by each connector. A post whose required media is missing is refused
    before anything is sent. Otherwise one and the same request is sent, once or, as long as the
    answers are transport failures or retryable statuses, up to three times; it is never sent again
    after any other answer, so not after one that says the post was accepted. That answer has to arrive: a
    post the provider accepted but whose answer is lost counts as a transport failure and is sent
    again, see [lost_answer_posts_twice]. The outcome is what the last
    answer says: a post id that is not empty under a status below 400, a revoked authorisation only
    for 400, 401 and 403, an unreachable provider for a transport failure or a status from 500. *)
Theorem publish_post_spec send loads parse_date now client_id client_secret provider p token page post h h' r :
  build_social_connector send loads parse_date now client_id client_secret provider = inr p →
  sp_publish_post p token page post h = (h', r) →
  if SocialPost.media_required post && negb (truthy (SocialPost.media_url post))
  then h' = h ∧ ∃ m, r = inl (MediaRequiredError m)
  else ∃ rq, published send h h' rq r.
Proof.
  intros Hp Hrun.
  assert (sp_publish_post p ∈ [linkedin_publish_post send loads parse_date now; meta_publish_post send loads;
                               x_publish_post send loads]) as Hin.
  { unfold build_social_connector in Hp. repeat case_match; simplify_eq; [left|right; right; left|right; left]. }
  clear Hp. pose proof (eq_refl (media_check post)) as Hm. unfold media_check in Hm at 1.
  destruct (SocialPost.media_required post && _) eqn:Hmedia; symmetry in Hm.
  - assert ((h', r) = (h, inl (MediaRequiredError "post.media_required=true but no media_url supplied"))) as [= -> ->].
    { rewrite <- Hrun. repeat (apply elem_of_cons in Hin as [->|Hin]; [|]); try by apply not_elem_of_nil in Hin.
      - unfold linkedin_publish_post. by rewrite Hm.
      - unfold meta_publish_post. by rewrite Hm.
      - unfold x_publish_post. by rewrite Hm. }
    eauto.
  - repeat (apply elem_of_cons in Hin as [Hf|Hin]; [rewrite Hf in Hrun|]); [..|by apply not_elem_of_nil in Hin].
    + by eapply linkedin_published.
    + by eapply meta_published.
    + by eapply x_published.
Qed.

(** A far side that times out once and then accepts. *)
Definition sample_send (h : list http_event) (rq : http_request) : http_result :=
  match requests h with
  | [] => TransportError "timed out"
  | _ => Responded (mkresponse 201 "{}" [("x-restli-id", "urn:li:share:7")])
  end.
Definition sample_post : SocialPost.t := {|
  SocialPost.text := "Hello"; SocialPost.media_url := JNull; SocialPost.media_required := false;
  SocialPost.visibility := "PUBLIC" |}.

Lemma publish_post_spec_witness :
  let run p := sp_publish_post p (JStr "tok") "urn:li:organization:1" sample_post [] in
  ∃ p, build_social_connector sample_send (λ _, Some (JObj [])) (λ _, BadDate) 0 "id" "secret" "LinkedIn " = inr p ∧
  (run p).2 = inr (PostResult.mk "urn:li:share:7" "https://www.linkedin.com/feed/update/urn:li:share:7/") ∧
  length (requests (run p).1) = 2%nat ∧
  ∃ rq, published sample_send [] (run p).1 rq (run p).2.
Proof.
  cbv zeta. eexists. split; [reflexivity|]. split; [vm_compute; reflexivity|]. split; [vm_compute; reflexivity|].
  exact (publish_post_spec sample_send (λ _, Some (JObj [])) (λ _, BadDate) 0 "id" "secret" "LinkedIn "
    (linkedin_connector sample_send (λ _, Some (JObj [])) (λ _, BadDate) 0 "id" "secret") (JStr "tok")
    "urn:li:organization:1" sample_post [] _ _ eq_refl (surjective_pairing _)).
Defined.

(** ** Where the connectors fall short *)

(** A provider that publishes a post for every request it receives, and whose answers to the first [lost]
    of them do not arrive within the timeout of the client. *)
Definition publishing_send (lost : nat) (h : list http_event) (rq : http_request) : http_result :=
  if (length (requests h) <? lost)%nat then TransportError "read timed out"
  else Responded (mkresponse 201 "{}" [("x-restli-id", "urn:li:share:7")]).

(** An answer that is lost has the same post sent once more, with nothing in the request by which the
    provider could tell; when all three answers are lost there are three posts and the caller is told
    that the provider cannot be reached. *)
Theorem lost_answer_posts_twice :
  let publish lost := linkedin_publish_post (publishing_send lost) (λ _, Some (JObj [])) (λ _, BadDate) 0 (JStr "tok")
      "urn:li:organization:1" sample_post [] in
  (∃ rq, requests (publish 1%nat).1 = [rq; rq] ∧
     (publish 1%nat).2 = inr (PostResult.mk "urn:li:share:7" "https://www.linkedin.com/feed/update/urn:li:share:7/")) ∧
  ∃ rq m, requests (publish 3%nat).1 = [rq; rq; rq] ∧ (publish 3%nat).2 = inl (ProviderUnreachableError m).
Proof. split; repeat (eexists; try (split; vm_compute; reflexivity)). Qed.

(** A Retry-After date without a zone is a naive datetime: the subtraction raises, nothing catches
    it, and the retry is lost. *)
Theorem naive_retry_date_raises :
  let send h rq := match requests h with
    | [] => Responded (mkresponse 503 "" [("retry-after", "Wed, 21 Oct 2026 07:28:00 -0000")])
    | _ => Responded (mkresponse 201 "{}" [("x-restli-id", "1")]) end in
  settle (linkedin_publish_post send (λ _, Some (JObj [])) (λ _, NaiveDate) 0 (JStr "t") "urn" sample_post) = inl TypeError.
Proof. vm_compute. reflexivity. Qed.

(** X appends the link of optional media to the text, and drops that of required media. *)
Theorem x_drops_required_media :
  let send (h : list http_event) rq := Responded (mkresponse 201 "" []) in
  let tweet required := match requests (x_publish_post send (λ _, Some (JObj [("data", JObj [("id", JStr "9")])]))
      (JStr "t") "me" (SocialPost.mk "Look" (JStr "https://m.io/1") required "PUBLIC") []).1 with
    | [rq] => rq_body rq | _ => NoBody end in
  tweet false = JsonBody (JObj [("text", JStr ("Look" +:+ newline +:+ "https://m.io/1"))]) ∧
  tweet true = JsonBody (JObj [("text", JStr "Look")]).
Proof. split; vm_compute; reflexivity. Qed.

(** ** The authorization URL *)

(** Reading a query back: [urllib.parse.parse_qsl], on what [urlencode] writes. *)
Definition hex_digit (c : ascii) : N :=
  let n := N_of_ascii c in if (n <? 58)%N then (n - 48)%N else (n - 55)%N.
Definition byte_of (a b : ascii) : N := (hex_digit a * 16 + hex_digit b)%N.

Fixpoint unquote_plus (s : string) : string :=
  match s with
  | EmptyString => ""
  | String c s1 =>
      if c ==b "+"%char then String " " (unquote_plus s1)
      else if c ==b "%"%char then
        match s1 with
        | String a (String b s2) =>
            if (byte_of a b <? 128)%N then String (ascii_of_N (byte_of a b)) (unquote_plus s2)
            else match s2 with
                 | String _ (String a' (String b' s3)) =>
                     String (ascii_of_N ((byte_of a b - 192) * 64 + (byte_of a' b' - 128))) (unquote_plus s3)
                 | _ => ""
                 end
        | _ => ""
        end
      else String c (unquote_plus s1)
  end.

Definition parse_query (q : string) : list (string * string) :=
  (λ part, match str_split "="%char "" part with
           | [k; v] => (unquote_plus k, unquote_plus v)
           | _ => (part, "")
           end) <$> str_split "&"%char "" q.

Lemma unquote_char c rest : unquote_plus (quote_one c +:+ rest) = String c (unquote_plus rest).
Proof. destruct c as [[] [] [] [] [] [] [] []]; reflexivity. Qed.

Lemma unquote_quote s : unquote_plus (quote_plus s) = s.
Proof. induction s as [|c s IH]; [done|]. cbn [quote_plus]. by rewrite unquote_char, IH. Qed.

Definition no_char (c : ascii) (s : string) : bool := str_all (λ x, x !=b c) s.

Lemma no_char_app c s t : no_char c (s +:+ t) = no_char c s && no_char c t.
Proof.
  unfold no_char. induction s as [|x s IH]; [done|]. rewrite append_cons. cbn [str_all].
  by rewrite IH, andb_assoc.
Qed.

Lemma quote_char_plain c : no_char "&" (quote_one c) = true ∧ no_char "=" (quote_one c) = true.
Proof. destruct c as [[] [] [] [] [] [] [] []]; by vm_compute. Qed.

Lemma quote_plus_plain s : no_char "&" (quote_plus s) = true ∧ no_char "=" (quote_plus s) = true.
Proof.
  induction s as [|c s [IH1 IH2]]; [done|]. cbn [quote_plus]. rewrite !no_char_app.
  destruct (quote_char_plain c) as [-> ->]. by rewrite IH1, IH2.
Qed.

Lemma str_app_assoc (a b c : string) : (a +:+ b) +:+ c = a +:+ b +:+ c.
Proof. induction a as [|x a IH]; [done|]. by rewrite !append_cons, IH. Qed.
Lemma str_app_nil (a : string) : a +:+ "" = a.
Proof. induction a as [|x a IH]; [done|]. by rewrite append_cons, IH. Qed.

Lemma str_split_last c acc s : no_char c s = true → str_split c acc s = [acc +:+ s].
Proof.
  revert acc. induction s as [|x s IH]; intros acc; cbn.
  - by rewrite str_app_nil.
  - intros [Hx Hs]%andb_prop. rewrite negb_true_iff in Hx. rewrite Hx, IH by done.
    by rewrite str_app_assoc.
Qed.

Lemma str_split_sep c acc s rest :
  no_char c s = true → str_split c acc (s +:+ String c rest) = (acc +:+ s) :: str_split c "" rest.
Proof.
  revert acc. induction s as [|x s IH]; intros acc.
  - intros _. change ("" +:+ String c rest) with (String c rest). cbn [str_split].
    by rewrite bool_decide_eq_true_2, str_app_nil.
  - unfold no_char. cbn [str_all]. intros [Hx Hs]%andb_prop. rewrite append_cons. cbn [str_split].
    rewrite negb_true_iff in Hx. rewrite Hx, IH by done. by rewrite str_app_assoc.
Qed.

Lemma no_amp_pair k v : no_char "&" (quote_plus k +:+ "=" +:+ quote_plus v) = true.
Proof. rewrite !no_char_app. by rewrite (proj1 (quote_plus_plain k)), (proj1 (quote_plus_plain v)). Qed.

Lemma split_pair k v : str_split "=" "" (quote_plus k +:+ "=" +:+ quote_plus v) = [quote_plus k; quote_plus v].
Proof.
  change (quote_plus k +:+ "=" +:+ quote_plus v) with (quote_plus k +:+ String "=" (quote_plus v)).
  rewrite str_split_sep by apply quote_plus_plain. by rewrite str_split_last by apply quote_plus_plain.
Qed.

Lemma split_joined parts :
  parts ≠ [] → Forall (λ p, no_char "&" p = true) parts → str_split "&" "" (str_join "&" parts) = parts.
Proof.
  induction parts as [|p parts IH]; [done|]. intros _ [Hp Hps]%Forall_cons.
  destruct parts as [|q parts]; [by apply str_split_last|].
  change (str_join "&" (p :: q :: parts)) with (p +:+ String "&" (str_join "&" (q :: parts))).
  rewrite str_split_sep by done. by rewrite IH.
Qed.

Lemma parse_urlencode params : params ≠ [] → parse_query (urlencode params) = params.
Proof.
  intros Hne. unfold parse_query, urlencode. rewrite split_joined; [|by destruct params|].
  - rewrite <- list_fmap_compose. rewrite <- (list_fmap_id params) at 2. apply list_fmap_ext. intros i [k v] _.
    cbn. rewrite split_pair. by rewrite !unquote_quote.
  - apply Forall_fmap, Forall_true. intros [k v]. apply no_amp_pair.
Qed.

(** The authorization URL of every provider carries its parameters intact. Its query decodes to
    the client, the state and the redirect address that were given, whatever characters they hold,
    and asks for a code. *)
Theorem authorize_url_roundtrip send loads parse_date now client_id client_secret provider p state redirect_uri scopes :
  build_social_connector send loads parse_date now client_id client_secret provider = inr p →
  ∃ base query, sp_authorize_url p state redirect_uri scopes = base +:+ "?" +:+ query ∧ no_char "?" base = true ∧
    dget "state" (parse_query query) = Some state ∧ dget "redirect_uri" (parse_query query) = Some redirect_uri ∧
    dget "client_id" (parse_query query) = Some client_id ∧ dget "response_type" (parse_query query) = Some "code".
Proof.
  assert (∀ base params, no_char "?" base = true → params ≠ [] →
    dget "state" params = Some state → dget "redirect_uri" params = Some redirect_uri →
    dget "client_id" params = Some client_id → dget "response_type" params = Some "code" →
    ∃ base' query, base +:+ "?" +:+ urlencode params = base' +:+ "?" +:+ query ∧ no_char "?" base' = true ∧
      dget "state" (parse_query query) = Some state ∧ dget "redirect_uri" (parse_query query) = Some redirect_uri ∧
      dget "client_id" (parse_query query) = Some client_id ∧ dget "response_type" (parse_query query) = Some "code") as Hq.
  { intros base params Hb Hne H1 H2 H3 H4. exists base, (urlencode params). by rewrite parse_urlencode. }
  unfold build_social_connector. intros Hp. repeat case_match; simplify_eq.
  - eapply (Hq "https://www.linkedin.com/oauth/v2/authorization"); done.
  - eapply (Hq "https://twitter.com/i/oauth2/authorize"); done.
  - eapply (Hq "https://www.facebook.com/v18.0/dialog/oauth"); done.
Qed.

Lemma authorize_url_roundtrip_witness :
  ∃ base query, linkedin_authorize_url "id" "a&b=c d" "https://x.io/?cb" None = base +:+ "?" +:+ query ∧
    dget "state" (parse_query query) = Some "a&b=c d".
Proof.
  destruct (authorize_url_roundtrip sample_send (λ _, None) (λ _, BadDate) 0 "id" "secret" "linkedin"
    (linkedin_connector sample_send (λ _, None) (λ _, BadDate) 0 "id" "secret") "a&b=c d" "https://x.io/?cb" None eq_refl)
    as (base & query & Hurl & _ & Hstate & _). exists base, query. split; [exact Hurl|exact Hstate].
Defined.
