(* ===== verification/AdsConnectors.v ===== *)
(** * The ad platforms: src/app/integrations/ads

    Google Ads and Meta Ads behind one interface: the OAuth exchange and the accounts. Campaigns, ad
    sets and spend are not written yet and raise. *)

From S2P Require Export SocialConnectors.
Local Open Scope Z_scope.

(** [app/integrations/ads/base.py] lines 65-70, [AdAccount]. *)
Record AdAccount := {
  ad_account_id : string; ad_name : string; ad_currency : string; ad_extra : list (string * json) }.

(** [app/integrations/ads/base.py] lines 73-82, [AdCampaign]. *)
Record AdCampaign := {
  ac_name : string; ac_daily_budget : pydec; ac_start_date : Z; ac_end_date : option Z; ac_status : string;
  ac_extra : list (string * string) }.

(** [app/integrations/ads/base.py] lines 85-93, [AdSet]. *)
Record AdSet := {
  as_campaign_id : string; as_name : string; as_targeting : jdict; as_daily_budget : option pydec;
  as_extra : list (string * string) }.

(** [app/integrations/ads/base.py] lines 96-99, [AdCampaignUpsertResult]. *)
Record AdCampaignUpsertResult := { platform_campaign_id : string; campaign_is_new : bool }.
(** [app/integrations/ads/base.py] lines 102-105, [AdSetUpsertResult]. *)
Record AdSetUpsertResult := { platform_ad_set_id : string; ad_set_is_new : bool }.
(** [app/integrations/ads/base.py] lines 108-115, [SpendRecord]. *)
Record SpendRecord := { sr_day : Z; sr_platform_campaign_id : string; sr_amount : pydec; sr_currency : string }.
(** [app/integrations/ads/base.py] lines 118-125, [PlatformAdState]. *)
Record PlatformAdState := { pa_platform_campaign_id : string; pa_status : string; pa_disapprovals : list string }.

(** [AdConnector]: what a connector defines itself. *)
Record AdProvider := {
  ap_provider : string;
  ap_authorize_url : string → string → option (list string) → string;
  ap_exchange_code : string → string → Http OAuthTokens.t;
  ap_list_ad_accounts : json → Http (list AdAccount);
}.

Definition deferred (provider what : string) : exn :=
  NotImplementedError (provider +:+ "." +:+ what +:+ " is deferred to a follow-up").

(** [app/integrations/ads/base.py] lines 154-164, [AdConnector.upsert_campaign]. *)
Definition upsert_campaign (c : AdProvider) (access_token : json) (account_id : string) (campaign : AdCampaign)
    (platform_campaign_id : option string) : Http AdCampaignUpsertResult :=
  h_raise (deferred (ap_provider c) "upsert_campaign").
(** [app/integrations/ads/base.py] lines 166-176, [AdConnector.upsert_ad_set]. *)
Definition upsert_ad_set (c : AdProvider) (access_token : json) (account_id : string) (ad_set : AdSet)
    (platform_ad_set_id : option string) : Http AdSetUpsertResult :=
  h_raise (deferred (ap_provider c) "upsert_ad_set").
(** [app/integrations/ads/base.py] lines 178-188, [AdConnector.fetch_spend]. *)
Definition fetch_spend (c : AdProvider) (access_token : json) (account_id : string) (since until : Z)
    : Http (list SpendRecord) :=
  h_raise (deferred (ap_provider c) "fetch_spend").
(** [app/integrations/ads/base.py] lines 190-199, [AdConnector.fetch_platform_state]. *)
Definition fetch_platform_state (c : AdProvider) (access_token : json) (account_id : string) (ids : list string)
    : Http (list PlatformAdState) :=
  h_raise (deferred (ap_provider c) "fetch_platform_state").

(** [resp.json().get(k, []) or []], to iterate over. *)
Definition listed (k : string) (body : json) : exn + list json :=
  match jget_or_raise k body with
  | inl x => inl x
  | inr v => if truthy v then strings_in v else inr []
  end.

Section connectors.
Context (send : list http_event → http_request → http_result) (loads : string → option json).
Context (now : Z) (client_id client_secret : string).

(** The end of both token requests. *)
Definition ad_tokens (what : string) (scopes : list string) (refresh : jdict → json) (resp : http_response)
    : Http OAuthTokens.t :=
  h_of_sum (token_status what resp) ;;
  body ← h_of_sum (resp_json loads resp);
  raw ← h_of_sum (jget_or_raise "expires_in" body);
  expires_in ← h_of_sum (int_or raw 3600);
  match body with
  | JObj d =>
      match dget "access_token" d with
      | Some token => mret {|
          OAuthTokens.access_token := JStr (json_str token);
          OAuthTokens.refresh_token := refresh d;
          OAuthTokens.expires_at := now + expires_in * second;
          OAuthTokens.scopes := scopes |}
      | None => h_raise KeyError
      end
  | _ => h_raise (AttributeError "get")
  end.

(** ** Google Ads *)

(** [app/integrations/ads/google.py] lines 31-35, [GoogleAdsConnector.default_scopes]. *)
Definition google_scopes : list string := ["https://www.googleapis.com/auth/adwords"; "openid"; "email"].

(** [app/integrations/ads/google.py] lines 47-63, [GoogleAdsConnector.authorize_url]. *)
Definition google_authorize_url (state redirect_uri : string) (scopes : option (list string)) : string :=
  "https://accounts.google.com/o/oauth2/v2/auth?" +:+ urlencode [
    ("client_id", client_id); ("redirect_uri", redirect_uri); ("state", state);
    ("scope", str_join " " (scopes_or google_scopes scopes)); ("response_type", "code");
    ("access_type", "offline"); ("prompt", "consent")].

(** [app/integrations/ads/google.py] lines 78-103, [GoogleAdsConnector._post_token]. *)
Definition google_post_token (data : jdict) : Http OAuthTokens.t :=
  resp ← call_once send "google_ads token transport failure"
    (mkrequest "POST" "https://oauth2.googleapis.com/token" [] (FormBody data) [] None);
  ad_tokens "google_ads token" google_scopes (λ d, default JNull (dget "refresh_token" d)) resp.

(** [app/integrations/ads/google.py] lines 65-76, [GoogleAdsConnector.exchange_code]. *)
Definition google_exchange_code (code redirect_uri : string) : Http OAuthTokens.t :=
  google_post_token [("grant_type", JStr "authorization_code"); ("code", JStr code);
    ("redirect_uri", JStr redirect_uri); ("client_id", JStr client_id); ("client_secret", JStr client_secret)].

(** One resource name. *)
Definition google_account (resource : json) : option AdAccount :=
  let account_id := default "" (last (str_split "/"%char "" (json_str resource))) in
  if str_empty account_id then None
  else Some {| ad_account_id := account_id; ad_name := "Customer " +:+ account_id; ad_currency := "";
               ad_extra := [("resource_name", resource)] |}.

(** What the status of a listing says. *)
Definition customers_status (resp : http_response) : exn + () :=
  let what := "google_ads customers" in
  if status_code resp ∈b [401; 403] then inl (OAuthRevokedError (what +:+ " " +:+ str_of_Z (status_code resp)))
  else token_status what resp.

(** [app/integrations/ads/google.py] lines 105-149, [GoogleAdsConnector.list_ad_accounts]. *)
Definition google_list_ad_accounts (access_token : json) : Http (list AdAccount) :=
  resp ← call_once send "google_ads customers transport failure"
    (mkrequest "GET" "https://googleads.googleapis.com/v16/customers:listAccessibleCustomers" [] NoBody
       (_auth_headers access_token) None);
  h_of_sum (customers_status resp) ;;
  body ← h_of_sum (resp_json loads resp);
  resources ← h_of_sum (listed "resourceNames" body);
  mret (omap google_account resources).

(** ** Meta Ads *)

(** [app/integrations/ads/meta.py] lines 30-34, [MetaAdsConnector.default_scopes]. *)
Definition meta_ads_scopes : list string := ["ads_management"; "ads_read"; "business_management"].

(** [app/integrations/ads/meta.py] lines 45-59, [MetaAdsConnector.authorize_url]. *)
Definition meta_ads_authorize_url (state redirect_uri : string) (scopes : option (list string)) : string :=
  "https://www.facebook.com/v18.0/dialog/oauth?" +:+ urlencode [
    ("client_id", client_id); ("redirect_uri", redirect_uri); ("state", state);
    ("scope", str_join "," (scopes_or meta_ads_scopes scopes)); ("response_type", "code")].

(** [app/integrations/ads/meta.py] lines 61-96, [MetaAdsConnector.exchange_code]. *)
Definition meta_ads_exchange_code (code redirect_uri : string) : Http OAuthTokens.t :=
  resp ← call_once send "meta_ads token transport failure" (mkrequest "GET" meta_token_url
    [("client_id", client_id); ("client_secret", client_secret); ("redirect_uri", redirect_uri); ("code", code)]
    NoBody [] None);
  ad_tokens "meta_ads token" meta_ads_scopes (λ _, JNull) resp.

(** One account. *)
Definition meta_ads_account (item : json) : exn + option AdAccount :=
  match item with
  | JObj d =>
      let text_of k := match dget k d with Some v => if truthy v then json_str v else "" | None => "" end in
      let account_id := text_of "id" in
      inr (if str_empty account_id then None
           else Some {| ad_account_id := account_id;
                        ad_name := if opt_truthy (dget "name" d) then text_of "name" else account_id;
                        ad_currency := text_of "currency"; ad_extra := [] |})
  | _ => inl (AttributeError "get")
  end.

Definition adaccounts_status (resp : http_response) : exn + () :=
  let what := "meta_ads me/adaccounts" in
  if status_code resp ∈b [401; 403] then inl (OAuthRevokedError (what +:+ " " +:+ str_of_Z (status_code resp)))
  else if (status_code resp =? 400) && contains "OAuthException" (resp_text resp) then
    inl (OAuthRevokedError ("meta_ads OAuthException: " +:+ str_take 200 (resp_text resp)))
  else token_status what resp.

(** [app/integrations/ads/meta.py] lines 98-147, [MetaAdsConnector.list_ad_accounts]. *)
Definition meta_ads_list_ad_accounts (access_token : json) : Http (list AdAccount) :=
  resp ← call_once send "meta_ads me/adaccounts transport failure"
    (mkrequest "GET" "https://graph.facebook.com/v18.0/me/adaccounts"
       [("access_token", json_str access_token); ("fields", "id,name,currency")] NoBody [] None);
  h_of_sum (adaccounts_status resp) ;;
  body ← h_of_sum (resp_json loads resp);
  items ← h_of_sum (listed "data" body);
  collect (λ item, h_of_sum (meta_ads_account item)) items.

(** ** The factory *)

Definition google_ads_connector : AdProvider := {|
  ap_provider := "google_ads"; ap_authorize_url := google_authorize_url;
  ap_exchange_code := google_exchange_code; ap_list_ad_accounts := google_list_ad_accounts |}.
Definition meta_ads_connector : AdProvider := {|
  ap_provider := "meta_ads"; ap_authorize_url := meta_ads_authorize_url;
  ap_exchange_code := meta_ads_exchange_code; ap_list_ad_accounts := meta_ads_list_ad_accounts |}.

(** [app/integrations/ads/__init__.py] lines 24-36, [build_ad_connector]. *)
Definition build_ad_connector (provider : string) : exn + AdProvider :=
  let name := str_lower (str_strip provider) in
  if name ==b "google_ads" then inr google_ads_connector
  else if name ==b "meta_ads" then inr meta_ads_connector
  else inl (UnknownAdProviderError ("unknown ad provider: " +:+ str_repr provider)).
End connectors.
