(* ===== verification/WebAnalytics.v ===== *)
(** * Web analytics: src/app/integrations/web_analytics

    The Plausible connector, the attribution of its events to campaigns and their ingestion; the
    endpoints that start a sync and list the ingest jobs and the dispatch attempts. *)

From S2P Require Export Requests Webhooks Http Agents.
From S2P Require Import PyDecimal SpendReconciliation.
Local Open Scope Z_scope.

(** [app/integrations/web_analytics/base.py] lines 16-32, [WebAnalyticsEvent]. The campaign is
    whatever the provider put there. *)
Record WebAnalyticsEvent := {
  wa_provider_event_id : string;
  wa_event_type : EventKind.t;
  wa_metric_value : flt;
  wa_event_at : Z;
  wa_utm_campaign : json;
  wa_utm_source : json;
  wa_utm_medium : json;
  wa_payload : jdict;
}.

(** [float(v)] of a JSON value. *)
Definition py_float (v : json) : exn + flt :=
  match v with
  | JBool b => inr (flt_of_Z (if b then 1 else 0))
  | JInt z => inr (flt_of_Z z)
  | JFloat d => inr (flt_of_dec d)
  | JStr s => match float_of_str s ≫= flt_of_pydec with
              | Some x => inr x
              | None => inl (ValueError "could not convert string to float")
              end
  | _ => inl TypeError
  end.

Section plausible.
Context (send : list http_event → http_request → http_result).
Context (loads : string → option json).
Context (api_key site_id : string).

(** The two events of one row of the breakdown. *)
Definition row_events (since until : Z) (row : json) : exn + list WebAnalyticsEvent :=
  match row with
  | JObj d =>
      let get k := default JNull (dget k d) in
      let or0 k := if truthy (get k) then get k else JInt 0 in
      let utm := if truthy (get "visit:utm_campaign") then get "visit:utm_campaign" else get "utm_campaign" in
      let window_id := date_str (date_of since) +:+ ":" +:+ date_str (date_of until) in
      let base_id := "plausible:" +:+ site_id +:+ ":" +:+ window_id +:+ ":" +:+
                     (if truthy utm then json_str utm else "none") in
      let event suffix kind x := {|
        wa_provider_event_id := base_id +:+ suffix; wa_event_type := kind; wa_metric_value := x;
        wa_event_at := until; wa_utm_campaign := utm; wa_utm_source := JNull; wa_utm_medium := JNull;
        wa_payload := [("utm_campaign", utm); ("raw", row)] |} in
      match py_float (or0 "pageviews"), py_float (or0 "visitors") with
      | inr pv, inr vs => inr [event ":pageviews" EventKind.impression pv; event ":visitors" EventKind.click vs]
      | inl x, _ | _, inl x => inl x
      end
  | _ => inl (AttributeError "get")
  end.

(** The rows in order; the first that cannot be read raises. *)
Fixpoint rows_events (since until : Z) (rows : list json) : exn + list WebAnalyticsEvent :=
  match rows with
  | [] => inr []
  | row :: rows =>
      match row_events since until row with
      | inl x => inl x
      | inr evs => match rows_events since until rows with inl x => inl x | inr l => inr (evs ++ l) end
      end
  end.

(** [app/integrations/web_analytics/plausible.py] lines 36-88, [PlausibleConnector.fetch_events]. *)
Definition fetch_events (since until : Z) : Http (list WebAnalyticsEvent) :=
  let url := "https://plausible.io/api/v1/stats/breakdown?" +:+ urlencode [
    ("site_id", site_id); ("period", "custom");
    ("date", date_str (date_of since) +:+ "," +:+ date_str (date_of until));
    ("property", "visit:utm_campaign"); ("metrics", "visitors,pageviews")] in
  resp ← h_call send (mkrequest "GET" url [] NoBody [("Authorization", "Bearer " +:+ api_key)] None);
  h_of_sum (httpx_raise_for_status resp) ;;
  data ← h_of_sum (resp_json loads resp);
  rows ← h_of_sum (match data with JObj d => strings_in (default (JList []) (dget "results" d))
                   | _ => inl (AttributeError "get") end);
  h_of_sum (rows_events since until rows).
End plausible.

(** ** Attribution and ingestion *)

(** [app/integrations/web_analytics/attribution.py] lines 16-30, [resolve_campaign_by_utm]. *)
Definition resolve_campaign_by_utm (tenant_id : N) (utm_campaign : string) : M (option N) :=
  if str_empty utm_campaign then mret None
  else
    rows ← select (λ c, (Campaign.tenant_id c ==b tenant_id) && ilike (Campaign.name c) utm_campaign);
    mret (Campaign.id <$> head rows).

(** [app/integrations/web_analytics/ingest.py] lines 24-28, [IngestSummary]. *)
Record IngestSummary := { imported : Z; duplicates : Z; unattributed : Z }.

(** [(ev.utm_campaign or "").strip().lower()]. *)
Definition utm_key (ev : WebAnalyticsEvent) : exn + string :=
  match wa_utm_campaign ev with
  | JStr s => inr (str_lower (str_strip s))
  | v => if truthy v then inl (AttributeError "strip") else inr ""
  end.

(** One event of the first loop: the cache, by key, of the campaigns found. *)
Definition cache_event (tenant_id : N) (cache : list (string * option N)) (ev : WebAnalyticsEvent)
    : M (list (string * option N)) :=
  key ← of_sum (utm_key ev);
  if truthy (wa_utm_campaign ev) && negb (bool_decide (is_Some (dget key cache))) then
    c ← resolve_campaign_by_utm tenant_id (json_str (wa_utm_campaign ev));
    mret (dset key c cache)
  else mret cache.

(** [payload.setdefault(k, v)] if [v]. *)
Definition setdefault (k : string) (v : json) (d : jdict) : jdict :=
  if truthy v then match dget k d with Some _ => d | None => dset k v d end else d.

Definition event_campaign (cache : list (string * option N)) (ev : WebAnalyticsEvent) : option N :=
  if truthy (wa_utm_campaign ev) then
    match utm_key ev with inr key => mjoin (dget key cache) | inl _ => None end
  else None.

(** The float in the Numeric(18,4) column: its text, rounded by the database. *)
Definition metric_column (x : flt) : M Z :=
  match dec_of_flt x with
  | Some d => store (numeric_column 18 4 d)
  | None => raise (OtherError "DataError")
  end.

(** One row of the insert: whether the event was new. *)
Definition insert_web_event (tenant_id : N) (cache : list (string * option N)) (ev : WebAnalyticsEvent) : M bool :=
  metric ← metric_column (wa_metric_value ev);
  let payload := setdefault "utm_medium" (wa_utm_medium ev) (setdefault "utm_source" (wa_utm_source ev)
                   (setdefault "utm_campaign" (wa_utm_campaign ev) (wa_payload ev))) in
  row ← insert_new_event tenant_id (wa_provider_event_id ev) (λ id, {|
    AnalyticEvent.id := id;
    AnalyticEvent.tenant_id := tenant_id;
    AnalyticEvent.campaign_id := event_campaign cache ev;
    AnalyticEvent.channel_id := None;
    AnalyticEvent.event_type := wa_event_type ev;
    AnalyticEvent.metric_value := Some metric;
    AnalyticEvent.payload := payload;
    AnalyticEvent.provider_event_id := Some (wa_provider_event_id ev);
    AnalyticEvent.event_at := wa_event_at ev |});
  mret (bool_decide (is_Some row)).

(** [app/integrations/web_analytics/ingest.py] lines 31-92, [ingest_events]. *)
Definition ingest_events (tenant_id : N) (events : list WebAnalyticsEvent) : M IngestSummary :=
  match events with
  | [] => mret {| imported := 0; duplicates := 0; unattributed := 0 |}
  | _ =>
      cache ← foldM (cache_event tenant_id) [] events;
      let unattributed := Z.of_nat (length (List.filter (λ ev, bool_decide (event_campaign cache ev = None)) events)) in
      inserted ← mapM_ (insert_web_event tenant_id cache) events;
      let imported := Z.of_nat (length (List.filter id inserted)) in
      mret {| imported := imported; duplicates := Z.of_nat (length events) - imported; unattributed := unattributed |}
  end.

(** [app/integrations/web_analytics/ingest.py] lines 95-105, [count_events_for_tenant]. *)
Definition count_events_for_tenant (tenant_id : N) : M Z :=
  rows ← select (λ r, AnalyticEvent.tenant_id r ==b tenant_id);
  mret (Z.of_nat (length rows)).

(** ** The endpoints *)

(** [app/api/schemas/integration.py] lines 33-41, [PlausibleSyncResponse]. *)
Record PlausibleSyncResponse := {
  ps_fetched : Z; ps_imported : Z; ps_duplicates : Z; ps_unattributed : Z; ps_window_start : Z; ps_window_end : Z }.

(** The record of a sync in the task table. *)
Definition sync_task (tenant_id agent_id : N) (days since until : Z) (site_id : string) (fetched : Z)
    (summary : IngestSummary) (id : N) : Task.t := {|
  Task.id := id; Task.tenant_id := tenant_id; Task.campaign_id := None; Task.agent_id := agent_id;
  Task.parent_task_id := None; Task.skill_name := "ingest.web_analytics.plausible";
  Task.status := TaskStatus.succeeded; Task.priority := 5; Task.attempt := 1; Task.max_attempts := 3;
  Task.idempotency_key := None; Task.leased_until := None; Task.worker_id := None;
  Task.input_data := [("days", JInt days); ("window_start", JStr (isoformat since));
                      ("window_end", JStr (isoformat until)); ("site_id", JStr site_id)];
  Task.output_data := [("fetched", JInt fetched); ("imported", JInt (imported summary));
                       ("duplicates", JInt (duplicates summary)); ("unattributed", JInt (unattributed summary))];
  Task.error_message := None; Task.scheduled_for := until; Task.started_at := Some until;
  Task.completed_at := Some until; Task.created_at := until; Task.updated_at := until |}.

(** [app/api/integrations.py] lines 213-277, [plausible_sync]. *)
Definition plausible_sync (send : list http_event → http_request → http_result) (loads : string → option json)
    (plausible_api_key plausible_site_id : string) (days : option Z) (user : AppUser.t) : M PlausibleSyncResponse :=
  raise_if (str_empty plausible_api_key || str_empty plausible_site_id)
    (HTTPException 503 "Plausible is not configured (PLAUSIBLE_API_KEY + PLAUSIBLE_SITE_ID)") ;;
  let days := default 7 days in
  until ← asks now;
  since ← of_sum (match from_timestamp (until - days * day) with
                  | inr t => inr t
                  | inl _ => inl (OtherError "date value out of range")
                  end);
  events ← of_sum (settle (fetch_events send loads plausible_api_key plausible_site_id since until));
  summary ← ingest_events (AppUser.tenant_id user) events;
  agent ← _ensure_orchestrator_agent (AppUser.tenant_id user);
  let fetched := Z.of_nat (length events) in
  add_row (sync_task (AppUser.tenant_id user) (Agent.id agent) days since until plausible_site_id fetched summary) ;;
  mret {| ps_fetched := fetched; ps_imported := imported summary; ps_duplicates := duplicates summary;
          ps_unattributed := unattributed summary; ps_window_start := since; ps_window_end := until |}.

(** [int(delta.total_seconds() * 1000)]: both steps in binary64. *)
Definition total_ms (delta : Z) : Z :=
  match flt_ratio (flt_mul (flt_of_ratio delta 1000000) (flt_of_Z 1000)) with
  | Some (num, den) => Z.quot num den
  | None => 0
  end.

(** [app/api/ingest.py] lines 23-27, [_duration_ms]. *)
Definition _duration_ms (task : Task.t) : option Z :=
  match Task.started_at task, Task.completed_at task with
  | Some s, Some c => Some (total_ms (c - s))
  | _, _ => None
  end.

(** [app/api/schemas/ingest.py] lines 12-28, [IngestJobOut]. *)
Record IngestJobOut := { job : Task.t; duration_ms : option Z }.

(** [app/api/ingest.py] lines 30-63, [list_ingest_jobs]. The page and the total. *)
Definition list_ingest_jobs (status_filter : option TaskStatus.t) (limit offset : nat) : M (list IngestJobOut * Z) :=
  rows ← select (λ t, like_match "ingest.%" (Task.skill_name t) &&
                      from_option (λ st, Task.status t ==b st) true status_filter);
  let sorted := order_by_desc Task.scheduled_for rows in
  mret ((λ t, {| job := t; duration_ms := _duration_ms t |}) <$> take limit (drop offset sorted),
        Z.of_nat (length rows)).

(** [app/api/distribution.py] lines 27-57, [list_campaign_dispatch_attempts]. *)
Definition list_campaign_dispatch_attempts (campaign_id : N) (asset_id : option N) (attempt_status : option string)
    : M (list DispatchAttempt.t * Z) :=
  assets ← select (λ a, ContentAsset.campaign_id a ==b campaign_id);
  rows ← select (λ d, (DispatchAttempt.content_asset_id d ∈b ContentAsset.id <$> assets) &&
                      from_option (λ k, DispatchAttempt.content_asset_id d ==b k) true asset_id &&
                      from_option (λ st, DispatchAttempt.status d ==b st) true attempt_status);
  mret (order_by_desc DispatchAttempt.created_at rows, Z.of_nat (length rows)).

(** [app/api/distribution.py] lines 60-74, [get_dispatch_attempt]. *)
Definition get_dispatch_attempt (attempt_id : N) : M DispatchAttempt.t :=
  row ← get_row attempt_id;
  match row with Some row => mret row | None => raise (HTTPException 404 "dispatch attempt not found") end.

(** * Properties of the ingestion of web analytics *)

(** ** The first loop only reads *)

Lemma cache_events_pure tid cache events : respects eq (foldM (cache_event tid) cache events).
Proof.
  revert cache. induction events as [|ev events IH]; intros cache; cbn [foldM]; [respects_auto|].
  apply respects_bind; [apply _| |apply IH]. unfold cache_event, resolve_campaign_by_utm. respects_auto.
Qed.

(** ** Whose campaign an event is *)

(** The campaign of the tenant a utm_campaign names: the first whose name it matches, as ILIKE does. *)
Definition utm_match (tid : N) (s : db) (utm : string) : option N :=
  if str_empty utm then None
  else Campaign.id <$> head (List.filter (λ c, (Campaign.tenant_id c ==b tid) && ilike (Campaign.name c) utm)
                               (snd <$> map_to_list (t_campaign s))).

(** Events whose utm_campaign differs in case and in surrounding space count as one, and the first of
    them is looked up. *)
Definition same_utm (ev ev' : WebAnalyticsEvent) : bool :=
  truthy (wa_utm_campaign ev') &&
  match utm_key ev, utm_key ev' with inr k, inr k' => k ==b k' | _, _ => false end.
Definition attributed (tid : N) (s : db) (events : list WebAnalyticsEvent) (ev : WebAnalyticsEvent) : option N :=
  if truthy (wa_utm_campaign ev)
  then head (List.filter (same_utm ev) events) ≫= λ ev', utm_match tid s (json_str (wa_utm_campaign ev'))
  else None.

(** What is found is a campaign of the tenant whose name matches; where nothing is, none does. *)
Lemma utm_match_spec tid s utm : utm ≠ "" →
  match utm_match tid s utm with
  | Some k => ∃ i c, t_campaign s !! i = Some c ∧ Campaign.id c = k ∧ Campaign.tenant_id c = tid ∧
                ilike (Campaign.name c) utm = true
  | None => ∀ i c, t_campaign s !! i = Some c → Campaign.tenant_id c = tid → ilike (Campaign.name c) utm = false
  end.
Proof.
  intros Hne. unfold utm_match. destruct (str_empty utm) eqn:He; [by destruct utm|].
  set (p := λ c, (Campaign.tenant_id c ==b tid) && ilike (Campaign.name c) utm).
  destruct (List.filter p _) as [|c l] eqn:Hl; cbn.
  - intros i c Hi Htid. pose proof (proj1 (select_nil (T:=Campaign.t) p s) Hl i c Hi) as Hp.
    unfold p in Hp. by rewrite bool_decide_eq_true_2 in Hp.
  - assert (c ∈ List.filter p (snd <$> map_to_list (t_campaign s))) as Hc by (rewrite Hl; left).
    assert ((∃ i, t_campaign s !! i = Some c) ∧ p c = true) as [[i Hi] Hp]
      by exact (proj1 (elem_of_select (T:=Campaign.t) p s c) Hc). exists i, c. split; [exact Hi|]. split; [done|].
    by apply andb_prop in Hp as [?%bool_decide_eq_true ?].
Qed.

(** The cache after the first loop. *)
Lemma cache_event_run tid cache ev e s s' cache' :
  cache_event tid cache ev e s = (s', inr cache') → ∃ key, utm_key ev = inr key ∧
  ∀ k, dget k cache' = match dget k cache with
    | Some x => Some x
    | None => if truthy (wa_utm_campaign ev) && (key ==b k)
              then Some (utm_match tid s (json_str (wa_utm_campaign ev))) else None
    end.
Proof.
  unfold cache_event. intros (s1 & key & Hkey & H)%bind_inr. unfold of_sum in Hkey.
  destruct (utm_key ev) as [x|key'] eqn:Hk; [done|]. injection Hkey as <- <-. exists key'. split; [done|]. intros k.
  destruct (truthy (wa_utm_campaign ev)) eqn:Ht; cbn [andb] in H |- *.
  2: { injection H as _ <-. by destruct (dget k cache). }
  destruct (dget key' cache) as [x|] eqn:Hd; cbn [negb] in H.
  { rewrite bool_decide_eq_true_2 in H by eauto. injection H as _ <-.
    destruct (decide (key' = k)) as [<-|Hne]; [by rewrite Hd|]. rewrite bool_decide_eq_false_2 by done. by destruct (dget k cache). }
  rewrite bool_decide_eq_false_2 in H by (by intros [? ?]). cbn [negb] in H.
  assert (cache' = dset key' (utm_match tid s (json_str (wa_utm_campaign ev))) cache) as ->.
  { unfold resolve_campaign_by_utm, utm_match in *. destruct (str_empty _); by injection H. }
  destruct (decide (key' = k)) as [<-|Hne].
  - by rewrite dget_dset_eq, Hd, bool_decide_eq_true_2.
  - rewrite dget_dset_ne, (bool_decide_eq_false_2 (key' = k)) by done. by destruct (dget k cache).
Qed.

Lemma cache_events_run tid events cache e s s' cache' ev :
  foldM (cache_event tid) cache events e s = (s', inr cache') → truthy (wa_utm_campaign ev) = true →
  ∀ key, utm_key ev = inr key → dget key cache' = match dget key cache with
    | Some x => Some x
    | None => (λ ev', utm_match tid s (json_str (wa_utm_campaign ev'))) <$> head (List.filter (same_utm ev) events)
    end.
Proof.
  intros H Ht key Hkey. revert cache H. induction events as [|ev1 events IH]; intros cache H; cbn [foldM] in H.
  { injection H as _ <-. by destruct (dget key cache). }
  apply bind_inr in H as (s1 & cache1 & H1 & H).
  assert (s1 = s) as ->.
  { symmetry. eapply (respects_run eq); [|exact H1]. unfold cache_event, resolve_campaign_by_utm. respects_auto. }
  apply cache_event_run in H1 as (key1 & Hkey1 & H1). rewrite (IH _ H), H1.
  destruct (dget key cache) as [x|]; [done|]. cbn [List.filter]. unfold same_utm at 2. rewrite Hkey, Hkey1.
  destruct (truthy (wa_utm_campaign ev1)); [|done]. cbn [andb].
  destruct (decide (key1 = key)) as [->|Hne]; [by rewrite !bool_decide_eq_true_2|].
  by rewrite (bool_decide_eq_false_2 (key1 = key)), (bool_decide_eq_false_2 (key = key1)) by congruence.
Qed.

Lemma cache_attributes tid events e s s' cache ev :
  foldM (cache_event tid) [] events e s = (s', inr cache) → event_campaign cache ev = attributed tid s events ev.
Proof.
  intros H. unfold event_campaign, attributed. destruct (truthy _) eqn:Ht; [|done].
  destruct (utm_key ev) as [x|key] eqn:Hkey.
  - assert (List.filter (same_utm ev) events = []) as ->; [|done].
    apply bfilter_nil_iff. intros ev' _. unfold same_utm. rewrite Hkey. apply andb_false_r.
  - rewrite (cache_events_run _ _ _ _ _ _ _ ev H Ht key Hkey). cbn. by destruct (head _).
Qed.

(** ** The insert *)

Definition count_true (l : list bool) : Z := Z.of_nat (length (List.filter id l)).

Lemma count_true_cons b l : count_true (b :: l) = (if b then 1 else 0) + count_true l.
Proof. unfold count_true. destruct b; cbn; lia. Qed.

Section insert.
Context (tid : N) (cache : list (string * option N)) (camp : WebAnalyticsEvent → option N).
Context (Hcamp : ∀ ev, event_campaign cache ev = camp ev).

(** A row made of one of [events]. *)
Definition from_web (events : list WebAnalyticsEvent) (r : AnalyticEvent.t) : Prop :=
  ∃ ev, ev ∈ events ∧ event_key r = Some (tid, wa_provider_event_id ev) ∧
    AnalyticEvent.event_type r = wa_event_type ev ∧ AnalyticEvent.campaign_id r = camp ev ∧
    AnalyticEvent.event_at r = wa_event_at ev.

(** One event: there already, or a new row. *)
Lemma insert_web_run ev e s s' b :
  insert_web_event tid cache ev e s = (s', inr b) →
  (b = false ∧ s' = s ∧ seen tid s (wa_provider_event_id ev)) ∨
  (b = true ∧ ¬ seen tid s (wa_provider_event_id ev) ∧ ∃ row, from_web [ev] row ∧ s' = with_event row s).
Proof.
  unfold insert_web_event. intros (s1 & metric & Hm & Hrun)%bind_inr.
  assert (s1 = s) as -> by (symmetry; eapply (respects_run eq _ _ _ _ _); [|exact Hm];
    unfold metric_column, store; respects_auto).
  match type of Hrun with (insert_new_event _ _ ?f ≫= _) _ _ = _ => set (mk := f) in Hrun end.
  destruct (insert_new_run tid (wa_provider_event_id ev) mk e s) as [[H Hs]|[Hn H]]; [done| |];
    rewrite (bind_ok _ _ _ _ _ _ H) in Hrun; injection Hrun as <- <-; [by left|right].
  split; [done|]. split; [done|]. exists (mk (next_uuid s)). split; [|done].
  exists ev. split; [left|]. by rewrite <- Hcamp.
Qed.

Record ingested (events : list WebAnalyticsEvent) (s s' : db) (new : Z) : Prop := {
  in_ok : events_ok s';
  in_old : t_analytic_event s ⊆ t_analytic_event s';
  in_frame : s' = s <| t_analytic_event := t_analytic_event s' |> <| next_uuid := next_uuid s' |>;
  in_size : Z.of_nat (size (t_analytic_event s')) = Z.of_nat (size (t_analytic_event s)) + new;
  in_seen : Forall (λ ev, seen tid s' (wa_provider_event_id ev)) events;
  in_new k r : t_analytic_event s' !! k = Some r → t_analytic_event s !! k = None → from_web events r;
}.

Lemma from_web_more events1 events2 r : (∀ ev, ev ∈ events1 → ev ∈ events2) → from_web events1 r → from_web events2 r.
Proof. intros Hsub (ev & Hin & H). exists ev. split; [by apply Hsub|done]. Qed.

Lemma insert_all_run events e s s' l :
  events_ok s → mapM_ (insert_web_event tid cache) events e s = (s', inr l) →
  ingested events s s' (count_true l) ∧ length l = length events ∧
  (Forall (λ ev, seen tid s (wa_provider_event_id ev)) events → s' = s ∧ count_true l = 0).
Proof.
  revert s l. induction events as [|ev events IH]; intros s l Hok; cbn [mapM_].
  { intros [= <- <-]. split; [|done]. split; try done; [by destruct s|unfold count_true; cbn; lia|].
    intros k r H1 H2. by rewrite H1 in H2. }
  intros (s1 & b & Hev & (s2 & bs & Hrest & [= <- <-])%bind_inr)%bind_inr.
  destruct (insert_web_run ev e s s1 b Hev) as [(-> & -> & Hs)|(-> & Hn & row & Hrow & ->)].
  - destruct (IH s bs Hok Hrest) as (HI & Hlen & Hre). rewrite count_true_cons. split; [|split].
    + destruct HI as [? ? ? ? Hsn Hnw]. split; try done.
      * constructor; [by eapply seen_mono|done].
      * intros k r H1 H2. eapply from_web_more; [|by eapply Hnw]. intros ? ?. by right.
    + cbn. by rewrite Hlen.
    + by intros [_ Hall]%Forall_cons; apply Hre.
  - destruct Hrow as (ev' & ->%list_elem_of_singleton & Hkey & Hrest').
    destruct (with_event_ok tid _ row s Hok Hn Hkey) as (Hok1 & Hfresh & Hsub & Hseen).
    destruct (IH _ bs Hok1 Hrest) as (HI & Hlen & _). rewrite count_true_cons. split; [|split].
    + destruct HI as [? Hold Hframe Hsize Hsn Hnw]. split; [done|by etrans|..].
      * rewrite Hframe. by destruct s.
      * rewrite Hsize. cbn. rewrite map_size_insert_None by done. lia.
      * constructor; [by eapply seen_mono|done].
      * intros k r H1 H2. destruct (t_analytic_event (with_event row s) !! k) as [r'|] eqn:Hk.
        -- pose proof (lookup_weaken _ _ _ _ Hk Hold) as H1'. rewrite H1 in H1'. injection H1' as <-.
           cbn in Hk. apply lookup_insert_Some in Hk as [[_ <-]|[_ Hk]]; [|by rewrite Hk in H2].
           exists ev. split; [left|done].
        -- eapply from_web_more; [|by eapply Hnw]. intros ? ?. by right.
    + cbn. by rewrite Hlen.
    + intros [Hs _]%Forall_cons. by destruct (Hn Hs).
Qed.
End insert.

Lemma ingest_events_run tid events e s s' r :
  events_ok s → ingest_events tid events e s = (s', inr r) →
  ingested tid (attributed tid s events) events s s' (imported r) ∧
  imported r + duplicates r = Z.of_nat (length events) ∧
  unattributed r = Z.of_nat (length (List.filter (λ ev, bool_decide (attributed tid s events ev = None)) events)) ∧
  (Forall (λ ev, seen tid s (wa_provider_event_id ev)) events → s' = s ∧ imported r = 0).
Proof.
  intros Hok. unfold ingest_events. destruct events as [|ev0 events0] eqn:Hev.
  { intros [= <- <-]. cbn. split_and!; try done. split; try done; [by destruct s|lia|].
    intros k r H1 H2. by rewrite H1 in H2. }
  rewrite <- Hev. intros (s1 & cache & Hc & (s2 & l & Hl & [= <- <-])%bind_inr)%bind_inr.
  pose proof (respects_run eq _ _ _ _ _ (cache_events_pure _ _ _) Hc) as <-.
  assert (∀ ev, event_campaign cache ev = attributed tid s events ev) as Hcamp by (intros ev; by eapply cache_attributes).
  destruct (insert_all_run tid cache _ Hcamp events e s s2 l Hok Hl) as (HI & Hlen & Hre).
  cbn [imported duplicates unattributed]. fold (count_true l). split_and!; [done|lia| |exact Hre].
  do 2 f_equal. apply List.filter_ext. intros ev. by rewrite Hcamp.
Qed.

Lemma attributed_spec tid s events ev k :
  attributed tid s events ev = Some k → ∃ i c ev', t_campaign s !! i = Some c ∧ Campaign.id c = k ∧
    Campaign.tenant_id c = tid ∧ ev' ∈ events ∧ utm_key ev' = utm_key ev ∧
    ilike (Campaign.name c) (json_str (wa_utm_campaign ev')) = true.
Proof.
  unfold attributed. destruct (truthy _); [|done]. destruct (List.filter (same_utm ev) events) as [|ev' l] eqn:Hl; [done|].
  cbn. intros Hm. assert (ev' ∈ List.filter (same_utm ev) events) as [Hin Hsame]%elem_of_bfilter by (rewrite Hl; left).
  unfold same_utm in Hsame. apply andb_prop in Hsame as [Ht Hsame].
  pose proof (utm_match_spec tid s (json_str (wa_utm_campaign ev'))) as Hspec. rewrite Hm in Hspec.
  destruct Hspec as (i & c & ? & ? & ? & ?).
  { intros He. unfold utm_match in Hm. by rewrite He in Hm. }
  exists i, c, ev'. split_and!; try done.
  destruct (utm_key ev), (utm_key ev'); try done. by apply bool_decide_eq_true in Hsame as ->.
Qed.

(** C29: ingesting analytics events. Rows are only added to the event table, one per event id that the
    tenant does not have yet, with the kind and the time of an event of that id and the campaign it is
    attributed to: the first campaign of the tenant whose name the utm_campaign matches, in the spelling
    of the first event that has it up to case and surrounding space; none without one. Afterwards every
    id is there, once. Imported and duplicates add up to the events, imported is the growth of the table,
    and unattributed counts the events that no campaign was found for. Ingesting the same events
    again, at any time while the ids are still there, adds nothing and counts every one as a duplicate. *)
Theorem ingest_events_spec tid events e s s' r :
  events_ok s → ingest_events tid events e s = (s', inr r) →
  ingested tid (attributed tid s events) events s s' (imported r) ∧
  (∀ ev k, attributed tid s events ev = Some k → ∃ i c ev', t_campaign s !! i = Some c ∧ Campaign.id c = k ∧
     Campaign.tenant_id c = tid ∧ ev' ∈ events ∧ utm_key ev' = utm_key ev ∧
     ilike (Campaign.name c) (json_str (wa_utm_campaign ev')) = true) ∧
  imported r + duplicates r = Z.of_nat (length events) ∧
  unattributed r = Z.of_nat (length (List.filter (λ ev, bool_decide (attributed tid s events ev = None)) events)) ∧
  ∀ e2 s2 s3 r2, events_ok s2 → (∀ id, seen tid s' id → seen tid s2 id) →
    ingest_events tid events e2 s2 = (s3, inr r2) →
    s3 = s2 ∧ imported r2 = 0 ∧ duplicates r2 = Z.of_nat (length events).
Proof.
  intros Hok Hrun. destruct (ingest_events_run _ _ _ _ _ _ Hok Hrun) as (HI & Hsum & Hun & _).
  split; [done|]. split; [|split; [done|split; [done|]]].
  - intros ev k Hk. by apply attributed_spec in Hk.
  - intros e2 s2 s3 r2 Hok2 Hseen Hrun2.
    destruct (ingest_events_run _ _ _ _ _ _ Hok2 Hrun2) as (_ & Hsum2 & _ & Hre).
    destruct Hre as [-> ?]; [|split_and!; [done|done|lia]].
    eapply Forall_impl; [exact (in_seen _ _ _ _ _ _ HI)|]. intros ev. apply Hseen.
Qed.

Definition sample_web (id : string) (utm : json) : WebAnalyticsEvent := {|
  wa_provider_event_id := id; wa_event_type := EventKind.impression; wa_metric_value := flt_of_Z 12;
  wa_event_at := 5; wa_utm_campaign := utm; wa_utm_source := JNull; wa_utm_medium := JNull; wa_payload := [] |}.

Lemma ingest_events_spec_witness :
  let events := [sample_web "a" (JStr "spring"); sample_web "b" JNull; sample_web "a" JNull] in
  let s := sample_db (sample_campaign CampaignStatus.live) [] in
  ∃ s' r, ingest_events 1 events (demo_env 7) s = (s', inr r) ∧ imported r = 2 ∧ duplicates r = 1 ∧ unattributed r = 2 ∧
    ingest_events 1 events (demo_env 8) s' = (s', inr {| imported := 0; duplicates := 3; unattributed := 2 |}).
Proof.
  intros events s. set (run := ingest_events 1 events (demo_env 7) s).
  assert ((λ r, (imported r, duplicates r, unattributed r)) <$> run_val run = Some (2, 1, 2)) as Hval by (vm_compute; reflexivity).
  destruct run as [s' [x|r]] eqn:Hrun; [discriminate Hval|]. injection Hval as Hi Hd Hu. exists s', r.
  split; [reflexivity|]. split; [exact Hi|]. split; [exact Hd|]. split; [exact Hu|].
  assert (events_ok s) as Hok.
  { split; [intros k x H|intros k1 k2 r1 r2 x H]; by destruct (lookup_empty_Some _ _ H). }
  destruct (ingest_events_spec 1 events (demo_env 7) s s' r Hok Hrun) as (HI & _ & _ & _ & Hreplay).
  destruct (ingest_events 1 events (demo_env 8) s') as [s3 [x|r2]] eqn:Hrun2.
  - exfalso. unfold run in Hrun. assert (s' = run_db (ingest_events 1 events (demo_env 7) s)) as -> by (by rewrite Hrun).
    assert (run_exn (ingest_events 1 events (demo_env 8) (run_db (ingest_events 1 events (demo_env 7) s))) = None) as H
      by (vm_compute; reflexivity). by rewrite Hrun2 in H.
  - destruct (Hreplay (demo_env 8) s' s3 r2 (in_ok _ _ _ _ _ _ HI) (λ id H, H) Hrun2) as (-> & Hi2 & Hd2).
    unfold run in Hrun. assert (s' = run_db (ingest_events 1 events (demo_env 7) s)) as -> by (by rewrite Hrun).
    assert (unattributed <$> run_val (ingest_events 1 events (demo_env 8) (run_db (ingest_events 1 events (demo_env 7) s)))
      = Some 2) as H by (vm_compute; reflexivity).
    rewrite Hrun2 in H. injection H as Hu2. destruct r2 as [i2 d2 u2]. cbn in *. by subst.
Defined.

(** ** Where the ingestion falls short *)

(** The same figures, asked for a day later, are new events: the ids name the window, so daily syncs
    of seven days count every visit seven times. *)
Theorem overlapping_windows_count_twice :
  let send (h : list http_event) rq := Responded (mkresponse 200 "" []) in
  let loads (s : string) := Some (JObj [("results", JList [JObj [("visit:utm_campaign", JStr "spring");
                              ("pageviews", JInt 40); ("visitors", JInt 30)]])]) in
  let sync t := plausible_sync send loads "key" "site" None (sample_user UserRole.admin) (demo_env t) in
  let s := sample_db (sample_campaign CampaignStatus.live) [] in
  ps_imported <$> run_val (sync (100 * day) s) = Some 2 ∧
  ps_imported <$> run_val (sync (101 * day) (run_db (sync (100 * day) s))) = Some 2.
Proof. split; vm_compute; reflexivity. Qed.

(** The campaign found for the first spelling of a name is used for all: a stray space hides it. *)
Theorem stray_space_unattributed :
  let ingest l := unattributed <$> run_val (ingest_events 1 l (demo_env 7) (sample_db (sample_campaign CampaignStatus.live) [])) in
  ingest [sample_web "a" (JStr "spring"); sample_web "b" (JStr " spring")] = Some 0 ∧
  ingest [sample_web "b" (JStr " spring"); sample_web "a" (JStr "spring")] = Some 2.
Proof. split; vm_compute; reflexivity. Qed.

(** A wildcard in a utm_campaign matches every campaign. *)
Theorem wildcard_attributed :
  unattributed <$> run_val (ingest_events 1 [sample_web "a" (JStr "%")] (demo_env 7)
    (sample_db (sample_campaign CampaignStatus.live) [])) = Some 0.
Proof. vm_compute. reflexivity. Qed.

(** A second and a millisecond take 1000 ms: both steps round in binary. *)
Theorem duration_loses_a_millisecond : total_ms 1001000 = 1000.
Proof. vm_compute. reflexivity. Qed.
