(* ===== verification/Integrations.v ===== *)
(** * Integrations: src/app/api/integrations.py, integrations_social.py and integrations_email.py

    The OAuth flows of HubSpot and the social providers, the channels they give rise to, and the
    configuration of the email provider. The browser session is threaded explicitly. The cipher
    ([encrypt], [decrypt]), the HTTP clients and [secrets.token_urlsafe] are parameters. *)

From S2P Require Import ReportsApi.
From S2P Require Export Requests AuditTrail SocialConnectors WebAnalytics.
Local Open Scope Z_scope.

(** ** Credentials in the audit trail *)

(** A new credential is audited without its payload. *)
#[export] Instance integration_credential_snapshot : Snapshot IntegrationCredential.t := λ c, [
  ("id", j_uuid (IntegrationCredential.id c));
  ("tenant_id", j_uuid (IntegrationCredential.tenant_id c));
  ("channel_id", jopt j_uuid (IntegrationCredential.channel_id c));
  ("provider", JStr (IntegrationCredential.provider c));
  ("label", JStr (IntegrationCredential.label c));
  ("key_version", JInt (IntegrationCredential.key_version c));
  ("expires_at", jopt j_time (IntegrationCredential.expires_at c));
  ("created_at", j_time (IntegrationCredential.created_at c));
  ("updated_at", j_time (IntegrationCredential.updated_at c))].
#[export] Instance integration_credential_tracked : Tracked IntegrationCredential.t :=
  {| entity_kind := "integration_credential"; tenant_of := IntegrationCredential.tenant_id |}.

(** The settings of the integrations, of [Settings]. *)
Record integration_settings := {
  hubspot_client_id : string; hubspot_client_secret : string; hubspot_redirect_uri : string;
  linkedin_client_id : string; linkedin_client_secret : string; linkedin_redirect_uri : string;
}.

(** ** HubSpot *)

(** [app/integrations/base.py] lines 22-28, [CrmRecord]. *)
Record CrmRecord := { external_id : string; properties : jdict; crm_updated_at : option Z }.

Section hubspot.
Context (send : list http_event → http_request → http_result) (loads : string → option json).
Context (now : Z) (client_id client_secret : string).

(** [app/integrations/hubspot.py] lines 29-32, [HubSpotConnector.default_scopes]. *)
Definition hubspot_scopes : list string := ["crm.objects.contacts.read"; "crm.objects.companies.read"].

(** [app/integrations/hubspot.py] lines 42-55, [HubSpotConnector.authorize_url]. *)
Definition hubspot_authorize_url (state redirect_uri : string) (scopes : option (list string)) : string :=
  "https://app.hubspot.com/oauth/authorize?" +:+ urlencode [
    ("client_id", client_id); ("redirect_uri", redirect_uri);
    ("scope", str_join " " (scopes_or hubspot_scopes scopes)); ("state", state)].

(** [app/integrations/hubspot.py] lines 111-119, [HubSpotConnector._post_token]. *)
Definition hubspot_post_token (form : jdict) : Http json :=
  resp ← h_call send (mkrequest "POST" "https://api.hubapi.com/oauth/v1/token" [] (FormBody form) form_headers None);
  h_of_sum (httpx_raise_for_status resp) ;;
  h_of_sum (resp_json loads resp).

(** [app/integrations/hubspot.py] lines 121-128, [HubSpotConnector._tokens_from_response]. *)
Definition _tokens_from_response (data : json) : exn + OAuthTokens.t :=
  match data with
  | JObj d =>
      match py_int (default (JInt 0) (dget "expires_in" d)) with
      | None => inl (ValueError "invalid literal for int()")
      | Some expires_in =>
          match dget "access_token" d with
          | None => inl KeyError
          | Some token => inr {|
              OAuthTokens.access_token := token;
              OAuthTokens.refresh_token := default JNull (dget "refresh_token" d);
              OAuthTokens.expires_at := now + expires_in * second;
              OAuthTokens.scopes := hubspot_scopes |}
          end
      end
  | _ => inl (AttributeError "get")
  end.

(** [app/integrations/hubspot.py] lines 57-67, [HubSpotConnector.exchange_code]. *)
Definition hubspot_exchange_code (code redirect_uri : string) : Http OAuthTokens.t :=
  data ← hubspot_post_token [("grant_type", JStr "authorization_code"); ("client_id", JStr client_id);
    ("client_secret", JStr client_secret); ("redirect_uri", JStr redirect_uri); ("code", JStr code)];
  h_of_sum (_tokens_from_response data).

(** [app/integrations/hubspot.py] lines 69-78, [HubSpotConnector.refresh]. *)
Definition hubspot_refresh (refresh_token : json) : Http OAuthTokens.t :=
  data ← hubspot_post_token [("grant_type", JStr "refresh_token"); ("client_id", JStr client_id);
    ("client_secret", JStr client_secret); ("refresh_token", refresh_token)];
  h_of_sum (_tokens_from_response data).

(** [s.replace("Z", "+00:00")]. *)
Fixpoint replace_z (s : string) : string :=
  match s with
  | EmptyString => ""
  | String c s => if c ==b "Z"%char then "+00:00" +:+ replace_z s else String c (replace_z s)
  end.

(** [datetime.fromisoformat(s)] of the forms HubSpot writes: UTC, with no fraction of a second or
    with milliseconds. *)
Definition hs_fromisoformat (s : string) : option Z :=
  fromisoformat (if (String.length s =? 29)%nat then String.substring 0 23 s +:+ "000+00:00" else s).

Example hs_time : hs_fromisoformat (replace_z "2024-02-29T13:05:01.250Z") =
  fromisoformat "2024-02-29T13:05:01.250000+00:00" ∧ is_Some (hs_fromisoformat (replace_z "2024-02-29T13:05:01Z")).
Proof. split; [reflexivity|]. vm_compute. eauto. Qed.

(** [app/integrations/hubspot.py] lines 19-24, [_parse_hs_datetime]. *)
Definition _parse_hs_datetime (value : json) : exn + option Z :=
  if negb (truthy value) then inr None
  else match value with
       | JStr s => match hs_fromisoformat (replace_z s) with
                   | Some t => inr (Some t)
                   | None => inl (ValueError "Invalid isoformat string")
                   end
       | _ => inl (AttributeError "replace")
       end.

(** One contact of a page. *)
Definition crm_record (r : json) : exn + CrmRecord :=
  match r with
  | JObj d =>
      match dget "id" d, default (JObj []) (dget "properties" d) with
      | None, _ => inl KeyError
      | Some rid, JObj props =>
          match _parse_hs_datetime (default JNull (dget "hs_lastmodifieddate" props)) with
          | inl x => inl x
          | inr t => inr {| external_id := json_str rid; properties := props; crm_updated_at := t |}
          end
      | Some _, _ => inl TypeError
      end
  | _ => inl TypeError
  end.

Fixpoint crm_records (l : list json) : exn + list CrmRecord :=
  match l with
  | [] => inr []
  | r :: l => match crm_record r with
              | inl x => inl x
              | inr c => match crm_records l with inl x => inl x | inr cs => inr (c :: cs) end
              end
  end.

(** [payload.get(k, {})] on what should be an object. *)
Definition get_obj (k : string) (v : json) : exn + json :=
  match v with JObj d => inr (default (JObj []) (dget k d)) | _ => inl (AttributeError "get") end.

(** [app/integrations/hubspot.py] lines 80-107, [HubSpotConnector.list_contacts]. *)
Definition list_contacts (access_token : json) (limit : Z) (after : option string) : Http (list CrmRecord * json) :=
  let params := ("limit", str_of_Z limit) :: match after with
                                              | Some a => if str_empty a then [] else [("after", a)]
                                              | None => []
                                              end in
  resp ← h_call send (mkrequest "GET" "https://api.hubapi.com/crm/v3/objects/contacts" params NoBody
                        (_auth_headers access_token) None);
  h_of_sum (httpx_raise_for_status resp) ;;
  payload ← h_of_sum (resp_json loads resp);
  results ← h_of_sum (match payload with JObj d => strings_in (default (JList []) (dget "results" d))
                      | _ => inl (AttributeError "get") end);
  records ← h_of_sum (crm_records results);
  paging ← h_of_sum (get_obj "paging" payload);
  next ← h_of_sum (get_obj "next" paging);
  next_after ← h_of_sum (jget_or_raise "after" next);
  mret (records, next_after).
End hubspot.

(** ** Credentials at rest: src/app/integrations/credentials.py *)

(** [json.dumps(v)]. *)
Fixpoint json_dumps (v : json) : string :=
  match v with
  | JNull => "null"
  | JBool b => if b then "true" else "false"
  | JInt z => str_of_Z z
  | JFloat d => float_repr d
  | JStr s => ReportsApi.dumps_str s
  | JList l => "[" +:+ str_join ", " (json_dumps <$> l) +:+ "]"
  | JObj d => "{" +:+ str_join ", " ((λ kv, ReportsApi.dumps_str kv.1 +:+ ": " +:+ json_dumps kv.2) <$> d) +:+ "}"
  end.

Section credentials.
(** Fernet under the deployment's key; [None]: [InvalidToken]. *)
Context (fernet_encrypt : string → string) (fernet_decrypt : string → option string).
Context (loads : string → option json).

(** [app/integrations/credentials.py] lines 29-30, [EncryptedPayload.encrypt]. *)
Definition payload_encrypt (payload : jdict) : string := fernet_encrypt (json_dumps (JObj payload)).

(** [app/integrations/credentials.py] lines 32-39, [EncryptedPayload.decrypt]. What is not an object is
    one the readers' [payload.get] raises on. *)
Definition payload_decrypt (ciphertext : string) : exn + jdict :=
  match fernet_decrypt ciphertext with
  | None => inl (OtherError "credentials_secret cannot decrypt this payload; was the key rotated?")
  | Some raw => match loads raw with
                | Some (JObj payload) => inr payload
                | Some _ => inl (AttributeError "get")
                | None => inl (ValueError "JSONDecodeError")
                end
  end.

(** A cipher that decrypts what it encrypted gives back the payload that was stored. *)
Lemma payload_roundtrip payload :
  (∀ x, fernet_decrypt (fernet_encrypt x) = Some x) → (∀ v, loads (json_dumps v) = Some v) →
  payload_decrypt (payload_encrypt payload) = inr payload.
Proof. intros Hf Hl. unfold payload_decrypt, payload_encrypt. by rewrite Hf, Hl. Qed.

(** After a rotation of the key nothing stored is read, and the failure is the one of the class. *)
Lemma rotated_key_unreadable payload :
  fernet_decrypt (payload_encrypt payload) = None →
  payload_decrypt (payload_encrypt payload)
    = inl (OtherError "credentials_secret cannot decrypt this payload; was the key rotated?").
Proof. intros Hf. unfold payload_decrypt. by rewrite Hf. Qed.
End credentials.

(** [app/secrets/__init__.py] lines 32-36, [_BaseStore.require]. On what [get] gave. *)
Definition require_secret (value : option string) : exn + string :=
  match value with
  | Some v => if str_empty v then inl KeyError else inr v
  | None => inl KeyError
  end.

(** [app/secrets/__init__.py] lines 46-47, [EnvSecretStore.get]. *)
Definition env_secret (environ : list (string * string)) (key : string) : option string := dget key environ.

(** [app/secrets/__init__.py] lines 58-62, [KmsSecretStore.get]. *)
Definition kms_secret (key : string) : exn + option string :=
  inl (NotImplementedError "KmsSecretStore is a stub. Implement when deploy target is chosen (see docs/build-plan.md § Locked decisions).").

(** ** The browser session *)

(** [session.pop(k, None)], what is left. *)
Definition session_without (k : string) (s : session) : session := List.filter (λ kv, kv.1 !=b k) s.

Definition is_ascii (s : string) : bool := str_all (λ c, (N_of_ascii c <? 128)%N) s.

(** [not expected or not secrets.compare_digest(expected, state)]: texts outside ASCII raise. *)
Definition state_mismatch (expected : option string) (state : string) : exn + bool :=
  match expected with
  | None => inr true
  | Some x => if str_empty x then inr true
              else if is_ascii x && is_ascii state then inr (x !=b state) else inl TypeError
  end.

Definition bad_state : exn := HTTPException 400 "oauth state mismatch".

(** [payload["access_token"]]. *)
Definition stored_token (payload : jdict) : exn + json :=
  match dget "access_token" payload with Some v => inr v | None => inl KeyError end.

(** [list(payload.get("scopes", []))]. *)
Definition stored_scopes (payload : jdict) : exn + list json := strings_in (default (JList []) (dget "scopes" payload)).

Section endpoints.
Context (cfg : integration_settings).
Context (encrypt : jdict → string) (decrypt : string → exn + jdict).
Context (send : list http_event → http_request → http_result) (loads : string → option json).
Context (parse_date : string → parsed_date).

(** ** Credentials of a tenant *)

(** [app/api/integrations_social.py] lines 71-86, [_load_credential]. And [_load_hubspot_credential]. *)
Definition _load_credential (tenant_id : N) (provider : string) : M (option IntegrationCredential.t) :=
  rows ← select (λ c, (IntegrationCredential.tenant_id c ==b tenant_id) &&
                      (IntegrationCredential.provider c ==b provider) &&
                      (IntegrationCredential.channel_id c ==b None));
  scalar_one_or_none rows.

(** A new credential row. *)
Definition new_credential (tenant_id : N) (channel_id : option N) (provider label encrypted : string)
    (expires_at : option Z) (t : Z) (id : N) : IntegrationCredential.t := {|
  IntegrationCredential.id := id; IntegrationCredential.tenant_id := tenant_id;
  IntegrationCredential.channel_id := channel_id; IntegrationCredential.provider := provider;
  IntegrationCredential.label := label; IntegrationCredential.encrypted_payload := encrypted;
  IntegrationCredential.key_version := 1; IntegrationCredential.expires_at := expires_at;
  IntegrationCredential.created_at := t; IntegrationCredential.updated_at := t |}.

(** What the callbacks store of the tokens. *)
Definition token_payload (tokens : OAuthTokens.t) : jdict := [
  ("access_token", OAuthTokens.access_token tokens); ("refresh_token", OAuthTokens.refresh_token tokens);
  ("scopes", JList (JStr <$> OAuthTokens.scopes tokens))].

Definition set_tokens (tokens : OAuthTokens.t) (c : IntegrationCredential.t) : IntegrationCredential.t := c
  <| IntegrationCredential.encrypted_payload := encrypt (token_payload tokens) |>
  <| IntegrationCredential.expires_at := Some (OAuthTokens.expires_at tokens) |>.

(** The end of both callbacks: a new credential, or the one there is, reconnected. [before] is what
    the audit row says of the old one. *)
Definition store_tokens (provider : string) (before : IntegrationCredential.t → option jdict) (tokens : OAuthTokens.t)
    (user : AppUser.t) : M jdict :=
  existing ← _load_credential (AppUser.tenant_id user) provider;
  t ← asks now;
  match existing with
  | None => add_tracked (new_credential (AppUser.tenant_id user) None provider "default"
                           (encrypt (token_payload tokens)) (Some (OAuthTokens.expires_at tokens)) t) ;; mret ()
  | Some existing =>
      assign existing (set_tokens tokens) ;;
      audit (AppUser.tenant_id user) "integration_credential" (IntegrationCredential.id existing) "reconnected"
        (before existing) (Some [("expires_at", JStr (isoformat (OAuthTokens.expires_at tokens)))])
        [("provider", JStr provider)]
  end ;;
  mret [("status", JStr "connected"); ("provider", JStr provider)].

(** ** HubSpot *)

(** [app/api/schemas/integration.py] lines 9-14, [IntegrationStatus]. *)
Record IntegrationStatus := {
  is_provider : string; is_label : string; is_connected : bool; is_expires_at : option Z; is_scopes : list json }.

(** [app/api/integrations.py] lines 60-81, [hubspot_status]. *)
Definition hubspot_status (user : AppUser.t) : M IntegrationStatus :=
  cred ← _load_credential (AppUser.tenant_id user) "hubspot";
  match cred with
  | None => mret {| is_provider := "hubspot"; is_label := "default"; is_connected := false;
                    is_expires_at := None; is_scopes := [] |}
  | Some cred =>
      payload ← of_sum (decrypt (IntegrationCredential.encrypted_payload cred));
      scopes ← of_sum (stored_scopes payload);
      mret {| is_provider := "hubspot"; is_label := IntegrationCredential.label cred; is_connected := true;
              is_expires_at := IntegrationCredential.expires_at cred; is_scopes := scopes |}
  end.

(** [app/api/schemas/integrations_social.py] lines 9-15, [SocialIntegrationStatus]. *)
Record SocialIntegrationStatus := {
  st_provider : string; st_connected : bool; st_expires_at : option Z; st_scopes : list json }.

(** [app/api/integrations_social.py] lines 117-136, [social_status]. *)
Definition social_status (provider : string) (user : AppUser.t) : M SocialIntegrationStatus :=
  cred ← _load_credential (AppUser.tenant_id user) provider;
  match cred with
  | None => mret {| st_provider := provider; st_connected := false; st_expires_at := None; st_scopes := [] |}
  | Some cred =>
      payload ← of_sum (decrypt (IntegrationCredential.encrypted_payload cred));
      scopes ← of_sum (stored_scopes payload);
      mret {| st_provider := provider; st_connected := true;
              st_expires_at := IntegrationCredential.expires_at cred; st_scopes := scopes |}
  end.

(** [app/api/integrations.py] lines 84-102, [hubspot_connect]. [state] is the fresh random text; the
    session and the address to go to. *)
Definition hubspot_connect (state : string) (s : session) : session * (exn + string) :=
  if str_empty (hubspot_client_id cfg) then
    (s, inl (HTTPException 503 "HUBSPOT_CLIENT_ID is not configured for this deployment"))
  else (dset "hubspot_oauth_state" state s,
        inr (hubspot_authorize_url (hubspot_client_id cfg) state (hubspot_redirect_uri cfg) None)).

(** [app/api/integrations.py] lines 105-163, [hubspot_callback]. *)
Definition hubspot_callback (s : session) (code state : string) (user : AppUser.t) : session * M jdict :=
  (session_without "hubspot_oauth_state" s,
   mismatch ← of_sum (state_mismatch (dget "hubspot_oauth_state" s) state);
   raise_if mismatch bad_state ;;
   t ← asks now;
   tokens ← of_sum (settle (hubspot_exchange_code send loads t (hubspot_client_id cfg) (hubspot_client_secret cfg)
                              code (hubspot_redirect_uri cfg)));
   store_tokens "hubspot" (λ c, Some [("expires_at", jopt (λ x, JStr (isoformat x)) (IntegrationCredential.expires_at c))])
     tokens user).

(** [app/api/integrations.py] lines 41-41, [_REFRESH_LEEWAY]. *)
Definition _REFRESH_LEEWAY : Z := 2 * minute.

(** [app/api/schemas/integration.py] lines 17-22, [HubSpotTestResponse]. *)
Record HubSpotTestResponse := { hs_count : Z; hs_sample : list jdict; hs_next_after : json }.

(** The payload and the token after the refresh. *)
Definition refresh_hubspot (cred : IntegrationCredential.t) (payload : jdict) (refresh_token : json) : M json :=
  raise_if (negb (truthy refresh_token))
    (HTTPException 401 "hubspot credential expired and no refresh_token available") ;;
  t ← asks now;
  new_tokens ← of_sum (settle (hubspot_refresh send loads t (hubspot_client_id cfg) (hubspot_client_secret cfg) refresh_token));
  let payload := dset "access_token" (OAuthTokens.access_token new_tokens) payload in
  let payload := if truthy (OAuthTokens.refresh_token new_tokens)
                 then dset "refresh_token" (OAuthTokens.refresh_token new_tokens) payload else payload in
  assign cred (λ c, c <| IntegrationCredential.encrypted_payload := encrypt payload |>
                      <| IntegrationCredential.expires_at := Some (OAuthTokens.expires_at new_tokens) |>) ;;
  mret (OAuthTokens.access_token new_tokens).

(** [app/api/integrations.py] lines 166-210, [hubspot_test]. *)
Definition hubspot_test (user : AppUser.t) : M HubSpotTestResponse :=
  cred ← _load_credential (AppUser.tenant_id user) "hubspot";
  match cred with
  | None => raise (HTTPException 404 "no hubspot credential - run /api/integrations/hubspot/connect first")
  | Some cred =>
      payload ← of_sum (decrypt (IntegrationCredential.encrypted_payload cred));
      access_token ← of_sum (stored_token payload);
      t ← asks now;
      access_token ← (if from_option (λ x, x <=? t + _REFRESH_LEEWAY) false (IntegrationCredential.expires_at cred)
                      then refresh_hubspot cred payload (default JNull (dget "refresh_token" payload))
                      else mret access_token);
      page ← of_sum (settle (list_contacts send loads access_token 5 None));
      mret {| hs_count := Z.of_nat (length page.1);
              hs_sample := (λ c, [("id", JStr (external_id c)); ("properties", JObj (properties c))]) <$> take 3 page.1;
              hs_next_after := page.2 |}
  end.

(** ** Social providers *)

(** [app/api/integrations_social.py] lines 54-54, [_PROVIDER_PLATFORM]. *)
Definition _PROVIDER_PLATFORM : list (string * ChannelPlatform.t) := [("linkedin", ChannelPlatform.linkedin)].

(** [app/api/integrations_social.py] lines 57-61, [_provider_settings]. *)
Definition _provider_settings (provider : string) : exn + (string * string * string) :=
  if provider ==b "linkedin" then inr (linkedin_client_id cfg, linkedin_client_secret cfg, linkedin_redirect_uri cfg)
  else inl (UnknownSocialProviderError ("unknown social provider: " +:+ str_repr provider)).

(** [app/api/integrations_social.py] lines 64-68, [_build_connector]. *)
Definition _build_connector (t : Z) (provider : string) : exn + SocialProvider :=
  match _provider_settings provider with
  | inl x => inl x
  | inr (client_id, client_secret, _) => build_social_connector send loads parse_date t client_id client_secret provider
  end.

(** An unknown provider is not found. *)
Definition or_404 {A} (r : exn + A) : exn + A :=
  match r with inl (UnknownSocialProviderError m) => inl (HTTPException 404 m) | r => r end.

Definition oauth_state_key (provider : string) : string := provider +:+ "_oauth_state".

(** [app/api/integrations_social.py] lines 139-162, [social_connect]. *)
Definition social_connect (provider state : string) (s : session) : session * (exn + string) :=
  match or_404 (_provider_settings provider) with
  | inl x => (s, inl x)
  | inr (client_id, _, redirect_uri) =>
      if str_empty client_id then
        (s, inl (HTTPException 503 (str_upper provider +:+ "_CLIENT_ID is not configured for this deployment")))
      else
        (dset (oauth_state_key provider) state s,
         match _build_connector 0 provider with
         | inl x => inl x
         | inr connector => inr (sp_authorize_url connector state redirect_uri None)
         end)
  end.

(** [app/api/integrations_social.py] lines 165-229, [social_callback]. *)
Definition social_callback (provider : string) (s : session) (code state : string) (user : AppUser.t)
    : session * M jdict :=
  (session_without (oauth_state_key provider) s,
   mismatch ← of_sum (state_mismatch (dget (oauth_state_key provider) s) state);
   raise_if mismatch bad_state ;;
   settings ← of_sum (or_404 (_provider_settings provider));
   t ← asks now;
   connector ← of_sum (_build_connector t provider);
   tokens ← of_sum (settle (sp_exchange_code connector code settings.2));
   store_tokens provider (λ _, None) tokens user).

(** The pages a connected account may publish to. [unreachable]: what becomes of a provider that
    cannot be reached or refuses. *)
Definition authorised_pages (unreachable : exn → exn) (provider : string) (user : AppUser.t)
    : M (IntegrationCredential.t * list AuthorisedPage.t) :=
  cred ← _load_credential (AppUser.tenant_id user) provider;
  match cred with
  | None => raise (HTTPException 404 (provider +:+ " is not connected; run /connect first"))
  | Some cred =>
      payload ← of_sum (decrypt (IntegrationCredential.encrypted_payload cred));
      t ← asks now;
      connector ← of_sum (_build_connector t provider);
      token ← of_sum (stored_token payload);
      pages ← of_sum (match settle (sp_list_authorised_pages connector token) with
                      | inl (OAuthRevokedError _) =>
                          inl (HTTPException 401 (provider +:+ " authorisation revoked; reconnect required"))
                      | inl x => inl (unreachable x)
                      | inr pages => inr pages
                      end);
      mret (cred, pages)
  end.

(** A bad gateway. *)
Definition or_502 (x : exn) : exn :=
  match x with ProviderUnreachableError m | ProviderRejectedError m => HTTPException 502 m | x => x end.

(** [app/api/schemas/integrations_social.py] lines 18-21, [AuthorisedPageOut]. *)
Record AuthorisedPageOut := { po_page_id : string; po_page_name : string; po_urn : string }.

(** [app/api/integrations_social.py] lines 237-274, [list_pages]. *)
Definition list_pages (provider : string) (user : AppUser.t) : M (string * list AuthorisedPageOut) :=
  r ← authorised_pages or_502 provider user;
  mret (provider, (λ p, {| po_page_id := AuthorisedPage.page_id p; po_page_name := AuthorisedPage.page_name p;
                           po_urn := AuthorisedPage.urn p |}) <$> r.2).

(** [app/api/schemas/integrations_social.py] lines 29-33, [CreateSocialChannelRequest]. *)
Record CreateSocialChannelRequest := { cs_page_id : string; cs_name : option string }.

(** [app/api/schemas/integrations_social.py] lines 36-42, [CreateSocialChannelResponse]. *)
Record CreateSocialChannelResponse := {
  sc_channel_id : N; sc_provider : string; sc_page_id : string; sc_page_name : string }.

(** [app/api/integrations_social.py] lines 277-358, [create_channel]. A name the tenant already uses
    violates the unique constraint of the table. *)
Definition create_channel (provider : string) (body : CreateSocialChannelRequest) (user : AppUser.t)
    : M CreateSocialChannelResponse :=
  match dget provider _PROVIDER_PLATFORM with
  | None => raise (HTTPException 404 ("unknown social provider: " +:+ str_repr provider))
  | Some platform =>
      r ← authorised_pages id provider user;
      match List.find (λ p, AuthorisedPage.page_id p ==b cs_page_id body) r.2 with
      | None => raise (HTTPException 422 ("page_id '" +:+ cs_page_id body +:+ "' is not in your authorised pages"))
      | Some selected =>
          let name := default (AuthorisedPage.page_name selected) (nonempty_str (cs_name body)) in
          taken ← select (λ c, (Channel.tenant_id c ==b AppUser.tenant_id user) && (Channel.name c ==b name));
          raise_if (negb (bool_decide (taken = []))) IntegrityError ;;
          t ← asks now;
          channel ← add_row (λ id, {|
            Channel.id := id; Channel.tenant_id := AppUser.tenant_id user; Channel.name := name;
            Channel.platform := platform;
            Channel.api_config := [("provider", JStr provider); ("page_id", JStr (AuthorisedPage.page_id selected));
              ("page_urn", JStr (AuthorisedPage.urn selected)); ("page_name", JStr (AuthorisedPage.page_name selected))];
            Channel.is_active := true; Channel.created_at := t; Channel.updated_at := t |});
          add_tracked (new_credential (AppUser.tenant_id user) (Some (Channel.id channel)) provider
            (AuthorisedPage.page_id selected) (IntegrationCredential.encrypted_payload r.1)
            (IntegrationCredential.expires_at r.1) t) ;;
          mret {| sc_channel_id := Channel.id channel; sc_provider := provider;
                  sc_page_id := AuthorisedPage.page_id selected; sc_page_name := AuthorisedPage.page_name selected |}
      end
  end.

(** [app/api/integrations_social.py] lines 89-109, [_load_channel_credential]. *)
Definition _load_channel_credential (tenant_id channel_id : N) : M (Channel.t * IntegrationCredential.t) :=
  channel ← get_row (R:=Channel.t) channel_id;
  match channel ≫= λ c, if Channel.tenant_id c ==b tenant_id then Some c else None with
  | None => raise (HTTPException 404 "channel not found")
  | Some channel =>
      rows ← select (λ c, IntegrationCredential.channel_id c ==b Some channel_id);
      cred ← scalar_one_or_none rows;
      match cred with
      | None => raise (HTTPException 404 "no credential attached to this channel")
      | Some cred => mret (channel, cred)
      end
  end.

(** [app/api/integrations_social.py] lines 366-411, [social_send_test]. *)
Definition social_send_test (channel_id : N) (text : string) (user : AppUser.t) : M (string * PostResult.t) :=
  loaded ← _load_channel_credential (AppUser.tenant_id user) channel_id;
  payload ← of_sum (decrypt (IntegrationCredential.encrypted_payload loaded.2));
  let text_of k := match dget k (Channel.api_config loaded.1) with Some v => json_str v | None => "" end in
  let provider := text_of "provider" in
  let page_urn := text_of "page_urn" in
  raise_if (str_empty provider || str_empty page_urn)
    (HTTPException 409 "channel api_config is missing provider or page_urn") ;;
  t ← asks now;
  connector ← of_sum (_build_connector t provider);
  token ← of_sum (stored_token payload);
  result ← of_sum (match settle (sp_publish_post connector token page_urn
                             (SocialPost.mk text JNull false "PUBLIC")) with
                   | inl (OAuthRevokedError m) => inl (HTTPException 401 m)
                   | inl x => inl (or_502 x)
                   | inr result => inr result
                   end);
  mret (provider, result).

(** ** Email *)

(** [app/api/schemas/integrations_email.py] lines 10-17, [EmailConfigUpsert]. *)
Record EmailConfigUpsert := {
  ec_provider : string; ec_api_key : string; ec_default_from_email : string;
  ec_verified_senders : list string; ec_webhook_secret : option string }.

(** [app/api/schemas/integrations_email.py] lines 20-31, [EmailConfigOut]. *)
Record EmailConfigOut := {
  eo_id : N; eo_tenant_id : N; eo_provider : string; eo_default_from_email : string;
  eo_verified_senders : list json; eo_api_key_last4 : string; eo_has_webhook_secret : bool;
  eo_created_at : Z; eo_updated_at : Z }.

(** The end of a text: [s[-4:]] when it has four characters. *)
Definition last4 (s : string) : string :=
  if (4 <=? String.length s)%nat then String.substring (String.length s - 4) 4 s else s.

(** [app/api/integrations_email.py] lines 377-392, [_config_response]. *)
Definition _config_response (row : IntegrationCredential.t) (payload : jdict) : exn + EmailConfigOut :=
  let text_of k := match dget k payload with Some v => json_str v | None => "" end in
  match strings_in (default (JList []) (dget "verified_senders" payload)) with
  | inl x => inl x
  | inr senders => inr {|
      eo_id := IntegrationCredential.id row; eo_tenant_id := IntegrationCredential.tenant_id row;
      eo_provider := IntegrationCredential.provider row; eo_default_from_email := text_of "default_from_email";
      eo_verified_senders := senders; eo_api_key_last4 := last4 (text_of "api_key");
      eo_has_webhook_secret := opt_truthy (dget "webhook_secret" payload);
      eo_created_at := IntegrationCredential.created_at row; eo_updated_at := IntegrationCredential.updated_at row |}
  end.

(** What is stored of a configuration. *)
Definition email_payload (body : EmailConfigUpsert) : jdict := [
  ("api_key", JStr (ec_api_key body)); ("default_from_email", JStr (str_lower (ec_default_from_email body)));
  ("verified_senders", JList (JStr <$> (str_lower <$> ec_verified_senders body)));
  ("webhook_secret", jopt JStr (ec_webhook_secret body))].

Definition email_credentials (tenant_id : N) (provider : string) : M (option IntegrationCredential.t) :=
  rows ← select (λ c, (IntegrationCredential.tenant_id c ==b tenant_id) &&
                      (IntegrationCredential.provider c ==b provider));
  scalar_one_or_none rows.

(** [app/api/integrations_email.py] lines 65-148, [upsert_email_config]. [post] is the HTTP client of
    the email connector, which is only probed here. [app_now] is [datetime.now(UTC)], the application's
    clock; the row's trigger stamps it with the database's. *)
Definition upsert_email_config (post : string → json → http_outcome) (app_now : Z) (body : EmailConfigUpsert) (user : AppUser.t)
    : M EmailConfigOut :=
  raise_if (negb (str_lower (ec_default_from_email body) ∈b (str_lower <$> ec_verified_senders body)))
    (HTTPException 422 "default_from_email must appear in verified_senders") ;;
  of_sum (match build_email_connector post (ec_provider body) [("api_key", JStr "probe")] with
          | inl (UnknownProviderError m) => inl (HTTPException 422 m)
          | inl x => inl x
          | inr _ => inr ()
          end) ;;
  let payload := email_payload body in
  existing ← email_credentials (AppUser.tenant_id user) (ec_provider body);
  t ← asks now;
  row ← match existing with
        | None => add_tracked (new_credential (AppUser.tenant_id user) None (ec_provider body) "default"
                                 (encrypt payload) None t)
        | Some existing =>
            assign existing (λ c, c <| IntegrationCredential.encrypted_payload := encrypt payload |>
                                    <| IntegrationCredential.key_version := 1 |>
                                    <| IntegrationCredential.updated_at := app_now |>)
        end;
  audit (IntegrationCredential.tenant_id row) "integration_credential" (IntegrationCredential.id row)
    "email_config_saved" None None [("provider", JStr (ec_provider body))] ;;
  of_sum (_config_response row payload).

Definition no_email : exn := HTTPException 404 "no email integration configured".

(** [app/api/integrations_email.py] lines 151-170, [get_email_config]. *)
Definition get_email_config (user : AppUser.t) : M EmailConfigOut :=
  row ← email_credentials (AppUser.tenant_id user) "sendgrid";
  match row with
  | None => raise no_email
  | Some row =>
      payload ← of_sum (decrypt (IntegrationCredential.encrypted_payload row));
      of_sum (_config_response row payload)
  end.

(** [app/api/schemas/integrations_email.py] lines 34-40, [SendTestRequest]. *)
Record SendTestRequest := { te_to_email : string; te_from_email : option string; te_subject : string; te_body : string }.

(** [app/api/schemas/integrations_email.py] lines 43-47, [SendTestResponse]. *)
Record SendTestResponse := {
  tr_accepted : bool; tr_provider : string; tr_message_id : option string; tr_error : option string }.

(** What the response says of an error of the connector. *)
Definition test_failed (provider : string) (x : exn) : exn + SendTestResponse :=
  let failed m := inr {| tr_accepted := false; tr_provider := provider; tr_message_id := None; tr_error := Some m |} in
  match x with
  | ProviderUnreachableError m => failed ("provider_unreachable: " +:+ m)
  | ProviderRejectedError m => failed m
  | x => inl x
  end.

(** The lower-cased verified senders. *)
Fixpoint lower_all (l : list json) : exn + list string :=
  match l with
  | [] => inr []
  | JStr s :: l => match lower_all l with inl x => inl x | inr r => inr (str_lower s :: r) end
  | _ => inl (AttributeError "lower")
  end.

(** [app/api/integrations_email.py] lines 355-374, [_load_connector]. *)
Definition _load_connector (post : string → json → http_outcome) (tenant_id : N) : M (EmailConnector * jdict) :=
  row ← email_credentials tenant_id "sendgrid";
  match row with
  | None => raise no_email
  | Some row =>
      payload ← of_sum (decrypt (IntegrationCredential.encrypted_payload row));
      connector ← of_sum (build_email_connector post (IntegrationCredential.provider row) payload);
      mret (connector, payload)
  end.

(** [app/api/integrations_email.py] lines 178-218, [send_test]. *)
Definition send_test_email (post : string → json → http_outcome) (body : SendTestRequest) (user : AppUser.t)
    : M SendTestResponse :=
  loaded ← _load_connector post (AppUser.tenant_id user);
  let connector := loaded.1 in
  let payload := loaded.2 in
  let stored := default JNull (dget "default_from_email" payload) in
  let from_email := str_lower (match nonempty_str (te_from_email body) with
                               | Some f => f
                               | None => if truthy stored then json_str stored else ""
                               end) in
  senders ← of_sum (strings_in (default (JList []) (dget "verified_senders" payload)));
  verified ← of_sum (lower_all senders);
  raise_if (str_empty from_email || (negb (bool_decide (verified = [])) && negb (from_email ∈b verified)))
    (HTTPException 422 "from_email is not in verified_senders") ;;
  of_sum (match send_test post payload from_email (te_to_email body) (te_subject body) (te_body body) with
          | inl x => test_failed (provider connector) x
          | inr r => inr {| tr_accepted := SendResult.accepted r; tr_provider := provider connector;
                            tr_message_id := SendResult.provider_message_id r; tr_error := SendResult.error r |}
          end).
End endpoints.
