(* ===== verification/IntegrationProofs.v ===== *)
(** * What the integrations store

    An OAuth callback stores the tokens it was given, and only for the session that asked; the
    email configuration that is saved is the one that is read back, if its provider is spelled as
    the readers look for it. *)

From S2P Require Export Fixtures Integrations.
Local Open Scope Z_scope.

(** ** The credentials of a tenant *)

Record creds_ok (s : db) : Prop := {
  cr_keyed : keyed IntegrationCredential.t s;
  cr_fresh : ∀ k c, t_integration_credential s !! k = Some c → (k < next_uuid s)%N;
}.

(** What a handler that writes one credential leaves: the row, alone under the query that looked
    for it, and every other credential as it was. *)
Definition one_written (p : IntegrationCredential.t → bool) (s s' : db) (k : N) (c : IntegrationCredential.t) : Prop :=
  creds_ok s' ∧ t_integration_credential s' = <[k := c]> (t_integration_credential s) ∧
  List.filter p (snd <$> map_to_list (t_integration_credential s')) = [c].

Lemma elem_of_creds p (s : db) r :
  r ∈ List.filter p (snd <$> map_to_list (t_integration_credential s)) ↔
  (∃ k, t_integration_credential s !! k = Some r) ∧ p r = true.
Proof. exact (elem_of_select (T:=IntegrationCredential.t) p s r). Qed.

Lemma found_alone p s s' k c :
  keyed IntegrationCredential.t s → p c = true →
  t_integration_credential s' = <[k := c]> (t_integration_credential s) →
  (∀ r, r ∈ List.filter p (snd <$> map_to_list (t_integration_credential s)) → IntegrationCredential.id r = k) →
  List.filter p (snd <$> map_to_list (t_integration_credential s')) = [c].
Proof.
  intros Hk Hp Ht Hall. refine (select_single (T:=IntegrationCredential.t) p s' k c _ Hp _); change (rows (R:=IntegrationCredential.t) s') with (t_integration_credential s'); rewrite Ht.
  - apply lookup_insert_eq.
  - intros k' r. rewrite lookup_insert_Some. intros [[<- _]|[Hne Hr]] Hpr; [done|].
    rewrite <- (Hall r). { symmetry. by apply (Hk k' r). }
    apply elem_of_creds. eauto.
Qed.

Lemma audit_creds tid ek eid act b a md e s s' u :
  audit tid ek eid act b a md e s = (s', inr u) →
  t_integration_credential s' = t_integration_credential s ∧ next_uuid s' = (next_uuid s + 1)%N.
Proof. by intros [= <- _]. Qed.

Lemma creds_ok_put s s' k c :
  creds_ok s → t_integration_credential s' = <[k := c]> (t_integration_credential s) →
  IntegrationCredential.id c = k → (next_uuid s <= next_uuid s')%N → (k < next_uuid s')%N → creds_ok s'.
Proof.
  intros [Hk Hf] Ht Hid Hle Hlt. split.
  - intros i r. change (rows (R:=IntegrationCredential.t) s') with (t_integration_credential s'). rewrite Ht, lookup_insert_Some.
    intros [[<- <-]|[_ Hr]]; [done|]. by apply (Hk i r).
  - intros i r. rewrite Ht, lookup_insert_Some. intros [[<- _]|[_ Hr]]; [done|]. specialize (Hf _ _ Hr). lia.
Qed.

(** A new credential row. *)
Lemma cred_added p mk e s s' r :
  creds_ok s → List.filter p (snd <$> map_to_list (t_integration_credential s)) = [] →
  (∀ k, IntegrationCredential.id (mk k) = k) → (∀ k, p (mk k) = true) →
  add_tracked mk e s = (s', inr r) →
  r = mk (next_uuid s) ∧ one_written p s s' (next_uuid s) r.
Proof.
  intros Hok Hno Hid Hp H. unfold add_tracked, on_insert in H. rewrite (bind_ok _ _ _ _ _ _ (add_row_run _ e s)) in H.
  apply bind_inr in H as (s1 & [] & Ha & [= <- <-]). apply audit_creds in Ha as [Ht Hn]. split; [done|].
  assert (t_integration_credential s1 = <[next_uuid s := mk (next_uuid s)]> (t_integration_credential s)) as Ht' by done.
  cbn in Hn. split; [|split; [done|]].
  - apply (creds_ok_put s s1 (next_uuid s) (mk (next_uuid s)) Hok Ht'); [done|lia|lia].
  - apply (found_alone p s s1 (next_uuid s) (mk (next_uuid s)) (cr_keyed _ Hok)); [done|done|]. rewrite Hno. by intros r ?%not_elem_of_nil.
Qed.

(** The credential there is, written again and audited. *)
Lemma cred_assigned p old f e s s' r :
  creds_ok s → List.filter p (snd <$> map_to_list (t_integration_credential s)) = [old] →
  (∀ t c, IntegrationCredential.id (touch t (f c)) = IntegrationCredential.id c) →
  (∀ t, p (touch t (f old)) = p old) →
  assign old f e s = (s', inr r) →
  r = f old ∧ one_written p s s' (IntegrationCredential.id old) (touch (now e) (f old)).
Proof.
  intros Hok Hone Hid Hp H.
  assert ((∃ k, t_integration_credential s !! k = Some old) ∧ p old = true) as [[k Hold] Hpold].
  { apply elem_of_creds. rewrite Hone. left. }
  assert (IntegrationCredential.id old = k) as <- by by apply (cr_keyed _ Hok k old).
  assert (rows (R:=IntegrationCredential.t) s !! pk old = Some old) as Hold' by exact Hold.
  apply (assign_inr old f e s s' r old Hold') in H as [-> ->]. split; [done|]. split; [|split; [done|]].
  - eapply (creds_ok_put s); [done|reflexivity| |cbn; lia|exact (cr_fresh _ Hok _ _ Hold)]. apply Hid.
  - eapply (found_alone p s); [apply Hok|by rewrite Hp|reflexivity|]. rewrite Hone. by intros r ->%list_elem_of_singleton.
Qed.

Lemma one_written_frame p s s1 s' k c :
  one_written p s s1 k c → t_integration_credential s' = t_integration_credential s1 →
  next_uuid s' = (next_uuid s1 + 1)%N → one_written p s s' k c.
Proof.
  intros ([Hk Hf] & Ht & Hone) Heq Hn. split; [|by rewrite Heq]. split.
  - intros i r. change (rows (R:=IntegrationCredential.t) s') with (t_integration_credential s'). rewrite Heq. apply (Hk i r).
  - intros i r. rewrite Heq. intros Hr. specialize (Hf _ _ Hr). lia.
Qed.

(** ** The OAuth callback *)

Section callbacks.
Context (cfg : integration_settings).
Context (encrypt : jdict → string).

(** The query of [_load_credential]. *)
Definition tenant_credential (tenant_id : N) (provider : string) (c : IntegrationCredential.t) : bool :=
  (IntegrationCredential.tenant_id c ==b tenant_id) && (IntegrationCredential.provider c ==b provider) &&
  (IntegrationCredential.channel_id c ==b None).

Lemma new_is_tenants tenant_id provider label x exp t k :
  tenant_credential tenant_id provider (new_credential tenant_id None provider label x exp t k) = true.
Proof. unfold tenant_credential. cbn. by rewrite !bool_decide_eq_true_2. Qed.

Lemma bind_load {B} tenant_id provider (f : option IntegrationCredential.t → M B) e s :
  (_load_credential tenant_id provider ≫= f) e s =
  match List.filter (tenant_credential tenant_id provider) (snd <$> map_to_list (t_integration_credential s)) with
  | [] => f None e s
  | [c] => f (Some c) e s
  | _ => (s, inl MultipleResultsFound)
  end.
Proof.
  unfold _load_credential. rewrite bind_assoc, bind_select.
  change (rows (R:=IntegrationCredential.t) s) with (t_integration_credential s).
  change (List.filter _ _) with
    (List.filter (tenant_credential tenant_id provider) (snd <$> map_to_list (t_integration_credential s))).
  by destruct (List.filter _ _) as [|c [|c' l]].
Qed.

(** The tokens are in the one credential of the tenant for the provider, and nowhere else. *)
Definition tokens_stored (tenant_id : N) (provider : string) (tokens : OAuthTokens.t) (s s' : db) : Prop :=
  ∃ k c, one_written (tenant_credential tenant_id provider) s s' k c ∧
    IntegrationCredential.encrypted_payload c = encrypt (token_payload tokens) ∧
    IntegrationCredential.expires_at c = Some (OAuthTokens.expires_at tokens) ∧
    tenant_credential tenant_id provider c = true ∧
    ∀ r, t_integration_credential s !! k = Some r → tenant_credential tenant_id provider r = true.

Lemma store_tokens_spec provider before tokens user e s s' r :
  creds_ok s → store_tokens encrypt provider before tokens user e s = (s', r) →
  match r with
  | inl x => s' = s ∧ x = MultipleResultsFound
  | inr _ => tokens_stored (AppUser.tenant_id user) provider tokens s s'
  end.
Proof.
  intros Hok. unfold store_tokens. rewrite bind_load.
  destruct (List.filter _ _) as [|old [|? ?]] eqn:Hsel; [| |by intros [= <- <-]]; rewrite bind_asks; intros H.
  - destruct r as [x|j]; [discriminate H|].
    apply bind_inr in H as (s1 & [] & H & [= <- _]). apply bind_inr in H as (s2 & row & H & [= <-]).
    eapply (cred_added (tenant_credential (AppUser.tenant_id user) provider)) in H as [-> Hw]; [|done|done|done|].
    + eexists _, _. split; [exact Hw|]. cbn. do 2 (split; [done|]).
      split; [apply new_is_tenants|]. intros r Hr%(cr_fresh _ Hok). lia.
    + intros k. apply new_is_tenants.
  - destruct r as [x|j]; [discriminate H|].
    apply bind_inr in H as (s1 & [] & H & [= <- _]). apply bind_inr in H as (s2 & row & H & Ha).
    apply audit_creds in Ha as [Ht Hn].
    assert ((∃ k, t_integration_credential s !! k = Some old) ∧ tenant_credential (AppUser.tenant_id user) provider old = true)
      as [[k Hk] Hold] by (apply elem_of_creds; rewrite Hsel; left).
    assert (IntegrationCredential.id old = k) as Hid by exact (cr_keyed _ Hok k old Hk).
    eapply (cred_assigned (tenant_credential (AppUser.tenant_id user) provider)) in H as [-> Hw]; [|done|done|done|done].
    eexists _, _. split; [by eapply one_written_frame|]. cbn. do 2 (split; [done|]).
    split; [exact Hold|]. intros r Hr.
    assert (r = old) as -> by congruence. done.
Qed.

(** A callback whose state is not the session's is refused before anything else. *)
Lemma state_mismatch_inr expected state b :
  state_mismatch expected state = inr b → b = false → expected = Some state ∧ state ≠ "".
Proof.
  unfold state_mismatch. intros H ->. destruct expected as [x|]; [|done].
  destruct (str_empty x) eqn:Hx; [done|]. destruct (_ && _); [|done].
  injection H as H. apply negb_false_iff, bool_decide_eq_true in H as ->. split; [done|by apply str_empty_ne].
Qed.

Lemma session_without_get k s : dget k (session_without k s) = None.
Proof.
  induction s as [|[k' v] s IH]; [done|]. cbn. destruct (decide (k' = k)) as [->|Hne].
  - by rewrite bool_decide_eq_true_2.
  - rewrite bool_decide_eq_false_2 by done. cbn. by rewrite bool_decide_eq_false_2.
Qed.

Context (send : list http_event → http_request → http_result) (loads : string → option json).
Context (parse_date : string → parsed_date).

(** The two kinds of callback endpoint, with the session key, the provider and the exchange of the
    code of each. *)
Inductive oauth_flow := HubSpotFlow | SocialFlow (provider : string).

Definition flow_provider (f : oauth_flow) : string := match f with HubSpotFlow => "hubspot" | SocialFlow p => p end.
Definition flow_key (f : oauth_flow) : string := oauth_state_key (flow_provider f).
Definition flow_callback (f : oauth_flow) : session → string → string → AppUser.t → session * M jdict :=
  match f with
  | HubSpotFlow => hubspot_callback cfg encrypt send loads
  | SocialFlow p => social_callback cfg encrypt send loads parse_date p
  end.
Definition flow_exchange (f : oauth_flow) (t : Z) (code : string) : exn + OAuthTokens.t :=
  match f with
  | HubSpotFlow => settle (hubspot_exchange_code send loads t (hubspot_client_id cfg) (hubspot_client_secret cfg)
                             code (hubspot_redirect_uri cfg))
  | SocialFlow p =>
      match or_404 (_provider_settings cfg p), _build_connector cfg send loads parse_date t p with
      | inl x, _ | _, inl x => inl x
      | inr settings, inr connector => settle (sp_exchange_code connector code settings.2)
      end
  end.

(** Both callbacks: the state is checked, the code exchanged, the tokens stored. *)
Lemma flow_callback_run f sess code state user e s :
  ∃ before, (flow_callback f sess code state user).2 e s =
  match state_mismatch (dget (flow_key f) sess) state with
  | inl x => (s, inl x)
  | inr true => (s, inl bad_state)
  | inr false =>
      match flow_exchange f (now e) code with
      | inl x => (s, inl x)
      | inr tokens => store_tokens encrypt (flow_provider f) before tokens user e s
      end
  end.
Proof.
  destruct f as [|p]; cbn; eexists; destruct (state_mismatch _ _) as [x|[]]; try done;
    cbn [of_sum]; rewrite bind_ret, bind_pass; [rewrite bind_asks; by destruct (settle _)|].
  destruct (or_404 _) as [x|settings]; [done|]. cbn [of_sum]. rewrite bind_ret, bind_asks.
  destruct (_build_connector _ _ _ _ _ _) as [x|connector]; [done|]. cbn [of_sum]. rewrite bind_ret.
  by destruct (settle _).
Qed.
End callbacks.

(** C25: an OAuth callback stores tokens only for the browser session that asked for them. The state
    it is called with must be the one the session holds for the provider; it is forgotten, so that a
    second call with it is refused whatever it brings. A refused callback changes nothing, and with a
    wrong state no code is exchanged. An answered one leaves, as the tenant's one credential for the
    provider, exactly the tokens the provider gave for the code, encrypted, and every other credential as it
    was. *)
Theorem oauth_callback_spec cfg encrypt send loads parse_date f sess code state user e s s' r :
  creds_ok s →
  let callback := flow_callback cfg encrypt send loads parse_date f in
  let sess' := (callback sess code state user).1 in
  (callback sess code state user).2 e s = (s', r) →
  (∀ code2 state2 user2 e2 s2, (callback sess' code2 state2 user2).2 e2 s2 = (s2, inl bad_state)) ∧
  (dget (flow_key f) sess ≠ Some state → s' = s ∧ (r = inl bad_state ∨ r = inl TypeError)) ∧
  match r with
  | inl _ => s' = s
  | inr _ => dget (flow_key f) sess = Some state ∧ state ≠ "" ∧
      ∃ tokens, flow_exchange cfg send loads parse_date f (now e) code = inr tokens ∧
        tokens_stored encrypt (AppUser.tenant_id user) (flow_provider f) tokens s s'
  end.
Proof.
  intros Hok callback sess' Hrun. subst callback. split_and!.
  - intros code2 state2 user2 e2 s2.
    destruct (flow_callback_run cfg encrypt send loads parse_date f sess' code2 state2 user2 e2 s2) as [b Heq]. rewrite Heq.
    assert (dget (flow_key f) sess' = None) as ->; [|done].
    destruct f; apply session_without_get.
  - intros Hne. destruct (flow_callback_run cfg encrypt send loads parse_date f sess code state user e s) as [b Heq].
    rewrite Heq in Hrun.
    destruct (state_mismatch _ _) as [x|[]] eqn:Hm.
    + injection Hrun as <- <-. split; [done|]. right. unfold state_mismatch in Hm. repeat case_match; by simplify_eq.
    + injection Hrun as <- <-. split; [done|by left].
    + by apply state_mismatch_inr in Hm as [? _].
  - destruct (flow_callback_run cfg encrypt send loads parse_date f sess code state user e s) as [b Heq].
    rewrite Heq in Hrun.
    destruct (state_mismatch _ _) as [x|[]] eqn:Hm; [by injection Hrun as <- <-..|].
    apply state_mismatch_inr in Hm as [Hs Hne]; [|done].
    destruct (flow_exchange _ _ _ _ _ _ _) as [x|tokens]; [by injection Hrun as <- <-|].
    apply (store_tokens_spec encrypt) in Hrun; [|done].
    destruct r as [x|j]; [apply Hrun|]. by eauto.
Qed.

Definition sample_settings_oauth : integration_settings := {|
  hubspot_client_id := "hs"; hubspot_client_secret := "shh"; hubspot_redirect_uri := "https://mas.io/hs";
  linkedin_client_id := "li"; linkedin_client_secret := "shh"; linkedin_redirect_uri := "https://mas.io/li" |}.

(** A provider that gives a token for every code. *)
Definition giving (h : list http_event) (rq : http_request) : http_result := Responded (mkresponse 200 "tokens" []).
Definition read_tokens (text : string) : option json :=
  Some (JObj [("access_token", JStr "AQX"); ("expires_in", JInt 60); ("scope", JStr "w_organization_social")]).

Lemma oauth_callback_spec_witness :
  let user := sample_user UserRole.admin in
  let connect := social_connect sample_settings_oauth giving read_tokens (λ _, BadDate) "linkedin" "st4te" [] in
  let callback sess state := social_callback sample_settings_oauth (λ _, "gAAAA") giving read_tokens (λ _, BadDate)
                               "linkedin" sess "c0de" state user in
  let run := (callback connect.1 "st4te").2 (demo_env 5) empty_db in
  run.2 = inr [("status", JStr "connected"); ("provider", JStr "linkedin")] ∧
  (∃ tokens, OAuthTokens.access_token tokens = JStr "AQX" ∧
     tokens_stored (λ _, "gAAAA") 1 "linkedin" tokens empty_db run.1) ∧
  (callback (callback connect.1 "st4te").1 "st4te").2 (demo_env 6) run.1 = (run.1, inl bad_state).
Proof.
  intros user connect callback run.
  destruct (oauth_callback_spec sample_settings_oauth (λ _, "gAAAA") giving read_tokens (λ _, BadDate) (SocialFlow "linkedin")
    connect.1 "c0de" "st4te" user (demo_env 5) empty_db run.1 run.2) as (Hagain & _ & Hspec).
  - split; [by intros k c Hc|by intros k c Hc].
  - apply surjective_pairing.
  - split; [vm_compute; reflexivity|]. split; [|apply Hagain].
    destruct run.2 as [x|j] eqn:Hr; [vm_compute in Hr; discriminate Hr|].
    destruct Hspec as (_ & _ & tokens & Ht & Hst). exists tokens. split; [|exact Hst].
    vm_compute in Ht. by injection Ht as <-.
Defined.

(** ** The email configuration *)

(** The query of the email endpoints, whatever the channel. *)
Definition provider_credential (tenant_id : N) (provider : string) (c : IntegrationCredential.t) : bool :=
  (IntegrationCredential.tenant_id c ==b tenant_id) && (IntegrationCredential.provider c ==b provider).

Lemma bind_email {B} tenant_id provider (f : option IntegrationCredential.t → M B) e s :
  (email_credentials tenant_id provider ≫= f) e s =
  match List.filter (provider_credential tenant_id provider) (snd <$> map_to_list (t_integration_credential s)) with
  | [] => f None e s
  | [c] => f (Some c) e s
  | _ => (s, inl MultipleResultsFound)
  end.
Proof.
  unfold email_credentials. rewrite bind_assoc, bind_select.
  change (rows (R:=IntegrationCredential.t) s) with (t_integration_credential s).
  change (List.filter _ _) with
    (List.filter (provider_credential tenant_id provider) (snd <$> map_to_list (t_integration_credential s))).
  by destruct (List.filter _ _) as [|c [|c' l]].
Qed.

(** What is answered of a configuration, saved in [row]. *)
Definition config_answer (row : IntegrationCredential.t) (body : EmailConfigUpsert) : EmailConfigOut := {|
  eo_id := IntegrationCredential.id row; eo_tenant_id := IntegrationCredential.tenant_id row; eo_provider := ec_provider body;
  eo_default_from_email := str_lower (ec_default_from_email body);
  eo_verified_senders := JStr <$> (str_lower <$> ec_verified_senders body);
  eo_api_key_last4 := last4 (ec_api_key body);
  eo_has_webhook_secret := from_option (λ x, negb (str_empty x)) false (ec_webhook_secret body);
  eo_created_at := IntegrationCredential.created_at row; eo_updated_at := IntegrationCredential.updated_at row |}.

Lemma config_response_saved row body :
  IntegrationCredential.provider row = ec_provider body →
  _config_response row (email_payload body) = inr (config_answer row body).
Proof. intros Hp. unfold _config_response, config_answer, opt_truthy. cbn. rewrite Hp. by destruct (ec_webhook_secret body) as [[]|]. Qed.

Lemma provider_credential_true tenant_id provider c :
  provider_credential tenant_id provider c = true →
  IntegrationCredential.tenant_id c = tenant_id ∧ IntegrationCredential.provider c = provider.
Proof. unfold provider_credential. by intros [?%bool_decide_eq_true ?%bool_decide_eq_true]%andb_prop. Qed.

(** A row and the same row with the time stamp of the database. *)
Definition restamped (row stored : IntegrationCredential.t) : Prop :=
  stored <| IntegrationCredential.updated_at := IntegrationCredential.updated_at row |> = row.

(** The row written: new, or the one there was. *)
Definition write_config encrypt app_now body user (existing : option IntegrationCredential.t) (t : Z) : M IntegrationCredential.t :=
  match existing with
  | None => add_tracked (new_credential (AppUser.tenant_id user) None (ec_provider body) "default"
                           (encrypt (email_payload body)) None t)
  | Some old =>
      assign old (λ c, c <| IntegrationCredential.encrypted_payload := encrypt (email_payload body) |>
                         <| IntegrationCredential.key_version := 1 |>
                         <| IntegrationCredential.updated_at := app_now |>)
  end.

Lemma save_row encrypt app_now body user (existing : option IntegrationCredential.t) e s s' row :
  let p := provider_credential (AppUser.tenant_id user) (ec_provider body) in
  creds_ok s →
  List.filter p (snd <$> map_to_list (t_integration_credential s)) = option_list existing →
  write_config encrypt app_now body user existing (now e) e s = (s', inr row) →
  ∃ stored, restamped row stored ∧ p stored = true ∧ one_written p s s' (IntegrationCredential.id stored) stored ∧
    (∀ r, t_integration_credential s !! IntegrationCredential.id stored = Some r → p r = true) ∧
    IntegrationCredential.encrypted_payload stored = encrypt (email_payload body).
Proof.
  intros p Hok Hsel H. destruct existing as [old|]; cbn [write_config] in H.
  - assert ((∃ k, t_integration_credential s !! k = Some old) ∧ p old = true) as [[k Hk] Hold].
    { apply elem_of_creds. rewrite Hsel. left. }
    assert (IntegrationCredential.id old = k) as Hid by exact (cr_keyed _ Hok k old Hk).
    eapply (cred_assigned p) in H as [-> Hw]; [|done|done|done|done].
    match type of Hw with one_written _ _ _ _ ?c => exists c end.
    split; [by destruct old|]. split; [exact Hold|]. split; [exact Hw|]. split; [|done]. cbn. rewrite Hid, Hk. by intros r [= <-].
  - eapply (cred_added p) in H as [-> Hw]; [|done|done|done|].
    + match type of Hw with one_written _ _ _ _ ?c => exists c end.
      split; [done|]. split; [|split; [exact Hw|split; [|done]]].
      * unfold p, provider_credential. cbn. by rewrite !bool_decide_eq_true_2.
      * cbn. intros r Hr%(cr_fresh _ Hok). lia.
    + intros k. unfold p, provider_credential. cbn. by rewrite !bool_decide_eq_true_2.
Qed.

(** A query that the row written does not answer to, before or after, finds what it found. *)
Lemma written_apart p q s s' k c :
  creds_ok s → one_written p s s' k c → q c = false →
  (∀ r, t_integration_credential s !! k = Some r → q r = false) →
  List.filter q (snd <$> map_to_list (t_integration_credential s')) ≡ₚ
  List.filter q (snd <$> map_to_list (t_integration_credential s)).
Proof.
  intros [Hk _] ([Hk' _] & Ht & _) Hc Hr. apply NoDup_Permutation.
  - exact (NoDup_fmap_1 _ _ (select_pk_NoDup (T:=IntegrationCredential.t) q s' Hk')).
  - exact (NoDup_fmap_1 _ _ (select_pk_NoDup (T:=IntegrationCredential.t) q s Hk)).
  - intros r. rewrite !elem_of_creds, Ht. setoid_rewrite lookup_insert_Some. split.
    + intros [[i [[<- <-]|[_ Hi]]] Hq]; [congruence|]. split; [by exists i|done].
    + intros [[i Hi] Hq]. split; [|done]. exists i. right. split; [|done]. intros <-. by rewrite (Hr _ Hi) in Hq.
Qed.

(** Reading depends on what the query finds. *)
Lemma get_config_found decrypt user user2 e e2 s s2 :
  AppUser.tenant_id user2 = AppUser.tenant_id user →
  List.filter (provider_credential (AppUser.tenant_id user) "sendgrid") (snd <$> map_to_list (t_integration_credential s)) ≡ₚ
  List.filter (provider_credential (AppUser.tenant_id user) "sendgrid") (snd <$> map_to_list (t_integration_credential s2)) →
  get_email_config decrypt user e s = (s, (get_email_config decrypt user2 e2 s2).2).
Proof.
  intros Hu Hp. unfold get_email_config. rewrite !bind_email, Hu.
  destruct (List.filter _ (snd <$> map_to_list (t_integration_credential s))) as [|c [|c' l]] eqn:Hl.
  - by apply Permutation_nil_l in Hp as <-.
  - apply Permutation_singleton_l in Hp as <-. destruct (decrypt _); [done|]. cbn [of_sum]. rewrite !bind_ret.
    by destruct (_config_response _ _).
  - apply Permutation_length in Hp. by destruct (List.filter _ (snd <$> map_to_list (t_integration_credential s2))) as [|? [|? ?]].
Qed.

(** What the endpoint does once it knows the row there is. *)
Definition save_config encrypt app_now body user (existing : option IntegrationCredential.t) : M EmailConfigOut :=
  t ← asks now;
  row ← write_config encrypt app_now body user existing t;
  audit (IntegrationCredential.tenant_id row) "integration_credential" (IntegrationCredential.id row)
    "email_config_saved" None None [("provider", JStr (ec_provider body))] ;;
  of_sum (_config_response row (email_payload body)).

Lemma save_config_spec encrypt decrypt app_now body user existing e s s' r :
  let p := provider_credential (AppUser.tenant_id user) (ec_provider body) in
  decrypt (encrypt (email_payload body)) = inr (email_payload body) → creds_ok s →
  List.filter p (snd <$> map_to_list (t_integration_credential s)) = option_list existing →
  save_config encrypt app_now body user existing e s = (s', r) →
  ∃ row stored, r = inr (config_answer row body) ∧ restamped row stored ∧
    IntegrationCredential.tenant_id stored = AppUser.tenant_id user ∧
    one_written p s s' (IntegrationCredential.id stored) stored ∧
    IntegrationCredential.encrypted_payload stored = encrypt (email_payload body) ∧
    ∀ e2 user2, AppUser.tenant_id user2 = AppUser.tenant_id user →
      get_email_config decrypt user2 e2 s' =
      (s', if ec_provider body ==b "sendgrid" then inr (config_answer stored body)
           else (get_email_config decrypt user2 e2 s).2).
Proof.
  intros p Hdec Hok Hsel. unfold save_config. rewrite bind_asks.
  assert (∃ s1 row, write_config encrypt app_now body user existing (now e) e s = (s1, inr row)) as (s1 & row & Hrow).
  { destruct existing; do 2 eexists; reflexivity. }
  rewrite (bind_ok _ _ _ _ _ _ Hrow).
  apply (save_row encrypt app_now body user existing e s s1 row Hok Hsel) in Hrow as (stored & Hst & Hps & Hw & Hold & Hpay).
  apply provider_credential_true in Hps as [Hten Hprov].
  rewrite (config_response_saved row body) by by rewrite <- Hst.
  intros H. destruct r as [x|o]; [discriminate H|].
  apply bind_inr in H as (s2 & [] & Ha & [= <- <-]). apply audit_creds in Ha as [Ht Hn].
  eapply one_written_frame in Hw; [|exact Ht|exact Hn].
  exists row, stored. do 5 (split; [done|]). intros e2 user2 Hu. case_bool_decide as Hsg.
  - unfold get_email_config. rewrite bind_email, Hu, <- Hsg, (proj2 (proj2 Hw)), Hpay, Hdec.
    cbn [of_sum]. rewrite bind_ret. by rewrite (config_response_saved stored body Hprov).
  - apply get_config_found; [done|]. eapply written_apart; [done|exact Hw| |].
    + unfold provider_credential. by rewrite (bool_decide_eq_false_2 (_ = "sendgrid")), andb_false_r by congruence.
    + intros c Hc. apply Hold, provider_credential_true in Hc as [_ Hc].
      unfold provider_credential. by rewrite (bool_decide_eq_false_2 (_ = "sendgrid")), andb_false_r by congruence.
Qed.

(** C28: saving the email configuration and reading it back. A configuration that is refused changes
    nothing. One that is saved has its default sender among its verified senders, in whatever case
    they were written, and names SendGrid, in whatever case; it is the tenant's one credential for the
    provider as spelled, holding the encrypted configuration, and no other credential changes. When the
    provider is spelled [sendgrid], anyone of the tenant reads what the save answered: the senders in
    lower case, of the key its last four characters only, of the webhook secret only whether there is
    one; the time of the last change, which a repeated save answers by the application's clock, is then
    the database's. Spelled otherwise it is not found again: what is read is what was read before,
    see [provider_case_lost]. *)
Theorem email_config_roundtrip encrypt decrypt post app_now body user e s s' r :
  decrypt (encrypt (email_payload body)) = inr (email_payload body) → creds_ok s →
  upsert_email_config encrypt post app_now body user e s = (s', r) →
  match r with
  | inl _ => s' = s
  | inr o =>
      str_lower (ec_default_from_email body) ∈ str_lower <$> ec_verified_senders body ∧
      str_lower (str_strip (ec_provider body)) = "sendgrid" ∧
      ∃ row stored, o = config_answer row body ∧ restamped row stored ∧
        IntegrationCredential.tenant_id stored = AppUser.tenant_id user ∧
        one_written (provider_credential (AppUser.tenant_id user) (ec_provider body)) s s' (IntegrationCredential.id stored) stored ∧
        IntegrationCredential.encrypted_payload stored = encrypt (email_payload body) ∧
        ∀ e2 user2, AppUser.tenant_id user2 = AppUser.tenant_id user →
          get_email_config decrypt user2 e2 s' =
          (s', if ec_provider body ==b "sendgrid" then inr (config_answer stored body)
               else (get_email_config decrypt user2 e2 s).2)
  end.
Proof.
  intros Hdec Hok. unfold upsert_email_config.
  destruct (_ ∈b _) eqn:Hdef; cbn [negb]; [rewrite bind_pass|by intros [= <- <-]].
  apply bool_decide_eq_true_1 in Hdef. unfold build_email_connector.
  destruct (str_lower (str_strip (ec_provider body)) ==b "sendgrid") eqn:Hname; [|by intros [= <- <-]].
  apply bool_decide_eq_true_1 in Hname. cbn [of_sum]. rewrite bind_ret, bind_email.
  destruct (List.filter _ _) as [|old [|? ?]] eqn:Hsel; [| |by intros [= <- <-]]; intros H;
    [apply (save_config_spec encrypt decrypt app_now body user None) in H
    |apply (save_config_spec encrypt decrypt app_now body user (Some old)) in H];
    try done; destruct H as (row & stored & -> & H); do 2 (split; [done|]); by exists row, stored.
Qed.

Lemma email_config_roundtrip_witness :
  let body := {| ec_provider := "sendgrid"; ec_api_key := "SG.secret-1234"; ec_default_from_email := "Team@Acme.io";
    ec_verified_senders := ["team@acme.io"; "NEWS@acme.io"]; ec_webhook_secret := Some "whsec" |} in
  let admin := sample_user UserRole.admin in
  let run := upsert_email_config (λ _, "gAAAA") (λ _ _, TransportFailure "down") 5 body admin (demo_env 5) empty_db in
  ∃ o o', run.2 = inr o ∧ get_email_config (λ _, inr (email_payload body)) admin (demo_env 6) run.1 = (run.1, inr o') ∧
    eo_api_key_last4 o' = "1234" ∧ eo_has_webhook_secret o' = true ∧ eo_verified_senders o' = eo_verified_senders o.
Proof.
  intros body admin run. destruct run.2 as [x|o] eqn:Hr; [vm_compute in Hr; discriminate Hr|].
  assert (run = (run.1, inr o)) as Hrun by (rewrite <- Hr; apply surjective_pairing).
  destruct (email_config_roundtrip (λ _, "gAAAA") (λ _, inr (email_payload body)) (λ _ _, TransportFailure "down") 5 body admin
    (demo_env 5) empty_db run.1 (inr o) eq_refl ltac:(split; by intros k c Hc) Hrun)
    as (_ & _ & row & stored & -> & _ & _ & _ & _ & Hget).
  exists (config_answer row body), (config_answer stored body). split; [reflexivity|]. split; [exact (Hget _ _ eq_refl)|].
  repeat split; reflexivity.
Defined.

(** The endpoint takes the provider's name in any case, and stores it as it was written: a
    configuration saved under [SendGrid] is not found again. *)
Theorem provider_case_lost :
  let body := {| ec_provider := "SendGrid"; ec_api_key := "SG.secret-1234"; ec_default_from_email := "a@acme.io";
    ec_verified_senders := ["a@acme.io"]; ec_webhook_secret := None |} in
  let admin := sample_user UserRole.admin in
  let run := upsert_email_config (λ _, "gAAAA") (λ _ _, TransportFailure "down") 5 body admin (demo_env 5) empty_db in
  eo_provider <$> run_val run = Some "SendGrid" ∧
  get_email_config (λ _, inr (email_payload body)) admin (demo_env 6) run.1 = (run.1, inl no_email).
Proof. split; vm_compute; reflexivity. Qed.
