(* ===== verification/PreviewProofs.v ===== *)
(** * Previews, proved

    What a preview resolves, what the audit of an audience counts, how long a shared link
    works, and what a preview does not show. *)

From S2P Require Import Fixtures Preview Approvals SocialDispatch.
Local Open Scope Z_scope.

(** ** Merge fields *)

Lemma collect_spec names out :
  NoDup out →
  NoDup (fold_left (λ out name, if name ∈b out then out else out ++ [name]) names out) ∧
  ∀ n : string, n ∈ fold_left (λ out name, if name ∈b out then out else out ++ [name]) names out ↔
    n ∈ out ∨ n ∈ names.
Proof.
  revert out. induction names as [|x names IH]; intros out Hout; simpl.
  { split; [done|]. intros n. rewrite elem_of_nil. tauto. }
  case_bool_decide as Hx.
  - destruct (IH out Hout) as [H1 H2]. split; [done|]. intros n. rewrite H2, elem_of_cons. split; [tauto|].
    intros [?|[->|?]]; tauto.
  - destruct (IH (out ++ [x])) as [H1 H2].
    { apply NoDup_app. split; [done|]. split; [|apply NoDup_singleton].
      intros y Hy ->%list_elem_of_singleton. done. }
    split; [done|]. intros n. rewrite H2, elem_of_app, list_elem_of_singleton, elem_of_cons. tauto.
Qed.

Lemma extract_spec l :
  NoDup (extract_merge_fields l) ∧
  ∀ n, n ∈ extract_merge_fields l ↔ ∃ s, JStr s ∈ l ∧ n ∈ merge_names s.
Proof.
  unfold extract_merge_fields. set (f := λ (out : list string) (v : json), _).
  enough (∀ out, NoDup out → NoDup (fold_left f l out) ∧
    ∀ n, n ∈ fold_left f l out ↔ n ∈ out ∨ ∃ s, JStr s ∈ l ∧ n ∈ merge_names s) as H.
  { destruct (H [] NoDup_nil_2) as [H1 H2]. split; [done|]. intros n. rewrite H2, elem_of_nil. tauto. }
  induction l as [|v l IH]; intros out Hout; simpl.
  { split; [done|]. intros n. split; [tauto|]. intros [?|(s & []%elem_of_nil & _)]; done. }
  assert (NoDup (f out v) ∧ ∀ n, n ∈ f out v ↔ n ∈ out ∨ ∃ s, v = JStr s ∧ n ∈ merge_names s) as [Hf1 Hf2].
  { destruct v as [| | | |s| |]; simpl; try (split; [done|]; intros n; split; [tauto|]; intros [?|(s' & ? & _)]; done).
    destruct (collect_spec (merge_names s) out Hout) as [H1 H2]. split; [done|].
    intros n. rewrite H2. split.
    - intros [?|?]; [by left|right; by exists s].
    - intros [?|(s' & [= <-] & ?)]; [by left|by right]. }
  destruct (IH _ Hf1) as [H1 H2]. split; [done|]. intros n. rewrite H2, Hf2. split.
  - intros [[?|(s & -> & ?)]|(s & ? & ?)]; [by left|right; exists s; split; [by left|done]|].
    right. exists s. split; [by right|done].
  - intros [?|(s & [<-|Hs]%elem_of_cons & ?)]; [tauto| |]; eauto.
Qed.

Lemma resolve_names_spec lookup referenced :
  let r := resolve_names lookup referenced in
  (∀ n, dget n r.1 = if n ∈b referenced then field_value lookup n else None) ∧
  r.2 = List.filter (λ n, field_value lookup n ==b None) referenced.
Proof.
  unfold resolve_names. set (f := λ (acc : list (string * string) * list string) name, _).
  enough (∀ acc, let r := fold_left f referenced acc in
    (∀ n, dget n r.1 =
       from_option Some (dget n acc.1) (if n ∈b referenced then field_value lookup n else None)) ∧
    r.2 = acc.2 ++ List.filter (λ n, field_value lookup n ==b None) referenced) as H.
  { destruct (H ([], [])) as [H1 H2]. split; [|done]. intros n. rewrite H1.
    destruct (n ∈b referenced); [by destruct (field_value lookup n)|done]. }
  induction referenced as [|x l IH]; intros acc; cbn [fold_left].
  { split; [|by rewrite app_nil_r]. intros n. by rewrite (bool_decide_eq_false_2 (n ∈ [])) by apply not_elem_of_nil. }
  destruct (IH (f acc x)) as [H1 H2]. split.
  - intros n. rewrite H1. unfold f at 1. clear H1 H2 IH.
    destruct (decide (n = x)) as [->|Hne].
    + rewrite (bool_decide_eq_true_2 (x ∈ x :: l)) by left.
      destruct (field_value lookup x) as [v|] eqn:E; [|by destruct (x ∈b l)].
      cbn [fst]. rewrite dget_dset_eq. by destruct (x ∈b l).
    + replace (n ∈b x :: l) with (n ∈b l) by (apply bool_decide_ext; rewrite elem_of_cons; tauto).
      f_equal. destruct (field_value lookup x); cbn [fst]; [by rewrite dget_dset_ne|done].
  - rewrite H2. unfold f. cbn [List.filter]. destruct (field_value lookup x) eqn:E; cbn [snd].
    + done.
    + by rewrite <- app_assoc.
Qed.

Lemma substring_all s : String.substring 0 (String.length s) s = s.
Proof. induction s as [|c s IH]; [done|]. cbn. by rewrite IH. Qed.

(** A text without merge fields is rendered as it is. *)
Lemma render_plain resolved s : merge_names s = [] → render resolved (JStr s) = JStr s.
Proof.
  unfold merge_names, render, re_sub. intros Hs%fmap_nil_inv. rewrite Hs. cbn [sub_spans].
  unfold slice. cbn [fst snd]. by rewrite Nat.sub_0_r, substring_all.
Qed.

(** The preview answers for every merge field of a draft: the names it lists are exactly the names
    between braces in its texts, in lower case and each once; a listed name has the caller's value,
    looked up whatever its case, else the default one, else it is among the unresolved ones; only the
    values change in what is rendered, and a text without merge fields does not. *)
Theorem resolve_merge_fields_spec text_fields sample_values :
  let '(rendered, r) := resolve_merge_fields text_fields sample_values in
  let v := field_value (_normalise_keys sample_values) in
  NoDup (referenced_fields r) ∧
  (∀ n, n ∈ referenced_fields r ↔ ∃ k s, (k, JStr s) ∈ text_fields ∧ n ∈ merge_names s) ∧
  (∀ n, dget n (resolved_fields r) = if n ∈b referenced_fields r then v n else None) ∧
  unresolved_fields r = List.filter (λ n, v n ==b None) (referenced_fields r) ∧
  rendered = (λ kv, (kv.1, render (resolved_fields r) kv.2)) <$> text_fields ∧
  ∀ s, merge_names s = [] → render (resolved_fields r) (JStr s) = JStr s.
Proof.
  unfold resolve_merge_fields.
  destruct (extract_spec (snd <$> text_fields)) as [H1 H2].
  pose proof (resolve_names_spec (_normalise_keys sample_values) (extract_merge_fields (snd <$> text_fields))) as H3.
  destruct (resolve_names _ _) as [resolved unresolved]. cbn zeta in *. destruct H3 as [H3 H4]. cbn in *.
  split; [done|]. split.
  { intros n. rewrite H2. split.
    - intros (s & ([k v] & E & Hin)%list_elem_of_fmap & Hn). cbn in E. subst v. eauto.
    - intros (k & s & Hin & Hn). exists s. split; [|done]. apply list_elem_of_fmap. by exists (k, JStr s). }
  split; [done|]. split; [done|]. split; [done|]. intros s Hs. by apply render_plain.
Qed.

(** ** The audit of an audience *)

Definition lacks (name : string) (payload : json) : bool :=
  negb (_is_resolvable (match payload with JObj d => default JNull (dget name d) | _ => JNull end)).

Lemma count_one_get payload counts x n :
  dget n (count_one payload counts x) =
  if n ==b x then
    let c := default (mkcount 0 0) (dget x counts) in
    Some (mkcount (n_total c + 1) (n_unresolved c + (if lacks x payload then 1 else 0)))
  else dget n counts.
Proof.
  unfold count_one, lacks. case_bool_decide as E; [subst n; rewrite dget_dset_eq|by rewrite dget_dset_ne].
  by destruct (_is_resolvable _).
Qed.

Lemma count_all_get payload names counts n :
  NoDup names →
  dget n (fold_left (count_one payload) names counts) =
  if n ∈b names then
    let c := default (mkcount 0 0) (dget n counts) in
    Some (mkcount (n_total c + 1) (n_unresolved c + (if lacks n payload then 1 else 0)))
  else dget n counts.
Proof.
  intros Hnd. revert counts. induction Hnd as [|x names Hx _ IH]; intros counts; cbn [fold_left].
  { by rewrite (bool_decide_eq_false_2 (n ∈ [])) by apply not_elem_of_nil. }
  rewrite IH, count_one_get. destruct (decide (n = x)) as [->|Hne].
  - rewrite (bool_decide_eq_false_2 (x ∈ names)) by done. rewrite (bool_decide_eq_true_2 (x = x)) by done.
    by rewrite (bool_decide_eq_true_2 (x ∈ x :: names)) by left.
  - rewrite (bool_decide_eq_false_2 (n = x)) by done.
    by replace (n ∈b x :: names) with (n ∈b names) by (apply bool_decide_ext; rewrite elem_of_cons; tauto).
Qed.

(** The audit counts, for each referenced name, the members whose payload has no text for it. *)
Lemma audit_counts names payloads n :
  NoDup names → n ∈ names →
  dget n (audit_audience_resolution names payloads) =
  Some (mkcount (Z.of_nat (length payloads)) (Z.of_nat (length (List.filter (lacks n) payloads)))).
Proof.
  intros Hnd Hn. unfold audit_audience_resolution. set (init := fold_left _ names []).
  assert (dget n init = Some (mkcount 0 0)) as Hinit.
  { subst init. clear Hnd. revert Hn. generalize ([] : list (string * field_count)).
    induction names as [|x l IH] using rev_ind; intros d Hn; [by apply not_elem_of_nil in Hn|].
    rewrite fold_left_app. cbn [fold_left]. destruct (decide (n = x)) as [->|Hne]; [by rewrite dget_dset_eq|].
    rewrite dget_dset_ne by done. apply IH. apply elem_of_app in Hn as [?|?%list_elem_of_singleton]; done. }
  clearbody init. enough (∀ t u init, dget n init = Some (mkcount t u) →
    dget n (fold_left (λ counts payload, fold_left (count_one payload) names counts) payloads init) =
    Some (mkcount (t + Z.of_nat (length payloads)) (u + Z.of_nat (length (List.filter (lacks n) payloads)))))
    as H by exact (H 0 0 init Hinit).
  clear init Hinit. induction payloads as [|p ps IH]; intros t u init Hinit.
  { cbn. by rewrite Hinit, !Z.add_0_r. }
  cbn [fold_left List.filter]. erewrite IH.
  2: { rewrite count_all_get by done. rewrite (bool_decide_eq_true_2 (n ∈ names)) by done.
       rewrite Hinit. reflexivity. }
  destruct (lacks n p); cbn [length n_total n_unresolved default]; do 2 f_equal; cbn; lia.
Qed.

(** What the endpoint reports of a referenced field. *)
Lemma audit_against_audience_spec asset_id e s s' r :
  audit_against_audience asset_id e s = (s', inr r) →
  s' = s ∧ Forall (λ a, ae_total_members a = ar_total_members r ∧ 0 <= ae_unresolved a <= ar_total_members r)
             (ar_field_audit r).
Proof.
  unfold audit_against_audience, preview_target. rewrite bind_assoc, bind_get_row.
  destruct (_ !! asset_id) as [asset|]; [|done]. rewrite bind_ret, bind_select.
  destruct (head _) as [audience|]; [|intros [= <- <-]; by repeat constructor].
  rewrite bind_select. set (members := List.filter _ _). intros [= <- <-]. split; [done|].
  apply Forall_fmap, Forall_forall. intros field Hfield. cbn. split; [done|].
  destruct (extract_spec (snd <$> _asset_text_fields asset)) as [Hnd _].
  assert (referenced_fields (resolve_merge_fields (_asset_text_fields asset) []).2 =
          extract_merge_fields (snd <$> _asset_text_fields asset)) as E
    by (unfold resolve_merge_fields; by destruct (resolve_names _ _)).
  rewrite E in Hfield |- *. rewrite (audit_counts _ _ field Hnd Hfield). cbn.
  split; [lia|]. apply Nat2Z.inj_le. etrans; [apply List.filter_length_le|done].
Qed.

(** ** Shared links *)

Section share.
Context (dumps : string → string → Z → json → string).
Context (loads : string → string → Z → Z → string → load_result).
Context (secret : string) (preview_share_ttl_days : Z).

(** itsdangerous: a token loads as what was signed, unless more seconds than [max_age] have passed
    since it was signed, or it comes from the future. *)
Definition timed_sound (payload : json) : Prop :=
  ∀ t0 t max_age, loads secret _PREVIEW_SALT t max_age (dumps secret _PREVIEW_SALT t0 payload) =
    let age := t / second - t0 / second in
    if (0 <=? age) && (age <=? max_age) then Loaded payload else SignatureExpired.

Lemma age_within t0 t days :
  0 <= t - t0 <= days * day → (0 <=? t / second - t0 / second) && (t / second - t0 / second <=? days * 86400) = true.
Proof.
  intros [H1 H2]. change day with (86400 * second) in H2.
  assert (t0 / second <= t / second) by (apply Z.div_le_mono; [done|lia]).
  assert (t / second <= t0 / second + days * 86400).
  { rewrite <- Z.div_add by done. apply Z.div_le_mono; [done|lia]. }
  apply andb_true_iff. split; apply Z.leb_le; lia.
Qed.

Lemma age_beyond t0 t days :
  days * day + second <= t - t0 → (0 <=? t / second - t0 / second) && (t / second - t0 / second <=? days * 86400) = false.
Proof.
  intros H. change day with (86400 * second) in H.
  assert (t0 / second + (days * 86400 + 1) <= t / second).
  { rewrite <- Z.div_add by done. apply Z.div_le_mono; [done|lia]. }
  apply andb_false_iff. right. apply Z.leb_gt. lia.
Qed.

(** C21: a shared preview link shows its asset, and only its asset, for the days the deployment
    allows. Sharing writes one audit row and nothing else, and puts the days asked for into the
    answer. Whatever has happened to the database since, the link then answers without changing it:
    up to preview_share_ttl_days days after the sharing, the preview of the asset as it is now, or
    404 when it is gone or has another tenant; one second later, 410. The days asked for play no
    part in it. *)
Theorem preview_share_spec asset_id ttl_days user e s s' r asset e2 s2 :
  timed_sound (share_payload asset) →
  t_content_asset s !! asset_id = Some asset → ContentAsset.id asset = asset_id →
  (asset_id < 2 ^ 128)%N → (ContentAsset.tenant_id asset < 2 ^ 128)%N →
  share_preview dumps secret preview_share_ttl_days asset_id ttl_days user e s = (s', inr r) →
  (t_content_asset s' = t_content_asset s ∧ sh_url_path r = "/api/preview-links/" +:+ sh_token r ∧
   (∀ d, ttl_days = Some d → 0 < d → sh_expires_at r = now e + d * day)) ∧
  (0 <= now e2 - now e <= preview_share_ttl_days * day →
   consume_share_token loads secret preview_share_ttl_days (sh_token r) e2 s2 =
   (s2, match t_content_asset s2 !! asset_id with
        | Some a => if ContentAsset.tenant_id a ==b ContentAsset.tenant_id asset
                    then inr (_build_preview a []) else inl preview_link_not_found
        | None => inl preview_link_not_found
        end)) ∧
  (preview_share_ttl_days * day + second <= now e2 - now e →
   consume_share_token loads secret preview_share_ttl_days (sh_token r) e2 s2 =
   (s2, inl (HTTPException 410 "preview link has expired"))).
Proof.
  intros Hsound Hrow Hid Hn Ht. unfold share_preview, preview_target.
  rewrite bind_assoc, bind_get_row. change (rows (R:=ContentAsset.t) s) with (t_content_asset s).
  rewrite Hrow, bind_ret, bind_asks. cbv zeta.
  intros (s1 & [] & Ha & H)%bind_inr. injection H as <- <-. cbn [sh_url_path sh_token sh_expires_at].
  split.
  { split; [by injection Ha as <-|]. split; [done|]. intros d -> Hd.
    by rewrite (proj2 (Z.eqb_neq d 0)) by lia. }
  unfold consume_share_token. rewrite bind_asks, Hsound. cbv zeta. split; intros Hage.
  - rewrite age_within by done. unfold share_payload.
    set (d := [("asset_id", _); ("tenant_id", _)]).
    assert (uuid_of_any (default JNull (dget "asset_id" d)) = Some asset_id) as ->.
    { rewrite <- Hid. apply uuid_parse_str. by rewrite Hid. }
    assert (uuid_of_any (default JNull (dget "tenant_id" d)) = Some (ContentAsset.tenant_id asset)) as ->.
    { by apply uuid_parse_str. }
    rewrite bind_get_row.
    change (rows (R:=ContentAsset.t) s2) with (t_content_asset s2).
    destruct (t_content_asset s2 !! asset_id) as [a|]; [|done]. by case_bool_decide.
  - by rewrite age_beyond.
Qed.
End share.

(** A serializer for one payload that writes the time into the token, in binary. *)
Fixpoint pos_token (p : positive) : string :=
  match p with
  | xH => ""
  | xO p => String "0" (pos_token p)
  | xI p => String "1" (pos_token p)
  end.
Fixpoint token_pos (s : string) : positive :=
  match s with
  | "" => xH
  | String c s => if c ==b "0"%char then xO (token_pos s) else xI (token_pos s)
  end.
Definition sample_timed_dumps (secret salt : string) (t : Z) (payload : json) : string :=
  match t with Z0 => "z" | Zpos p => String "+" (pos_token p) | Zneg p => String "-" (pos_token p) end.
Definition token_time (token : string) : Z :=
  match token with
  | "" => 0
  | String c s => if c ==b "+"%char then Zpos (token_pos s)
                  else if c ==b "-"%char then Zneg (token_pos s) else 0
  end.
Definition sample_timed_loads (payload : json) (secret salt : string) (t max_age : Z) (token : string)
    : load_result :=
  let age := t / second - token_time token / second in
  if (0 <=? age) && (age <=? max_age) then Loaded payload else SignatureExpired.

Lemma token_pos_token p : token_pos (pos_token p) = p.
Proof. induction p as [p IH|p IH|]; cbn; by rewrite ?IH. Qed.

Lemma token_time_dumps secret salt t payload : token_time (sample_timed_dumps secret salt t payload) = t.
Proof. destruct t; cbn; by rewrite ?token_pos_token. Qed.

(** With three days configured and thirty asked for, the link works on the third day and not on the
    fourth, although the answer says the thirtieth. *)
Lemma preview_share_spec_witness :
  let a := sample_asset 11 AssetType.email AssetStatus.drafted [] in
  let s := sample_db (sample_campaign CampaignStatus.content_in_production) [a] in
  let loads := sample_timed_loads (share_payload a) in
  ∃ s' r,
    share_preview sample_timed_dumps "k" 3 11 (Some 30) (sample_user UserRole.marketer) (demo_env 0) s = (s', inr r) ∧
    sh_expires_at r = 30 * day ∧
    consume_share_token loads "k" 3 (sh_token r) (demo_env (3 * day)) s = (s, inr (_build_preview a [])) ∧
    consume_share_token loads "k" 3 (sh_token r) (demo_env (4 * day)) s =
      (s, inl (HTTPException 410 "preview link has expired")).
Proof.
  intros a s loads.
  destruct (share_preview sample_timed_dumps "k" 3 11 (Some 30) (sample_user UserRole.marketer) (demo_env 0) s)
    as [s' [x|r]] eqn:Hrun; [discriminate Hrun|].
  assert (timed_sound sample_timed_dumps loads "k" (share_payload a)) as Hsound.
  { intros t0 t m. unfold loads, sample_timed_loads. by rewrite token_time_dumps. }
  pose proof (preview_share_spec sample_timed_dumps loads "k" 3 11 (Some 30) (sample_user UserRole.marketer)
    (demo_env 0) s s' r a) as Hspec.
  destruct (Hspec (demo_env (3 * day)) s Hsound eq_refl eq_refl eq_refl eq_refl Hrun) as ((_ & _ & Hd) & H1 & _).
  destruct (Hspec (demo_env (4 * day)) s Hsound eq_refl eq_refl eq_refl eq_refl Hrun) as (_ & _ & H2).
  exists s', r. split; [reflexivity|]. split; [exact (Hd 30 eq_refl eq_refl)|]. split.
  - apply H1. clear. vm_compute. done.
  - apply H2. clear. vm_compute. done.
Defined.

(** ** What a preview does not show *)

Lemma fold_texts_get l out k s :
  NoDup l.*1 → (k, JStr s) ∈ l →
  dget k (fold_left (λ out (kv : string * json), match kv.2 with JStr _ => dset kv.1 kv.2 out | _ => out end) l out)
  = Some (JStr s).
Proof.
  induction l as [|[k' v'] l IH] using rev_ind; [by intros _ ?%not_elem_of_nil|].
  rewrite fmap_app, fold_left_app. cbn [fold_left fst snd].
  intros (Hl & Hk & _)%NoDup_app [Hin|[= <- <-]%list_elem_of_singleton]%elem_of_app.
  - assert (k ≠ k') as Hne.
    { intros ->. apply (Hk k'); [by apply (list_elem_of_fmap_2 fst) in Hin|by left]. }
    destruct v'; try by apply IH. rewrite dget_dset_ne by done. by apply IH.
  - by rewrite dget_dset_eq.
Qed.

Lemma text_fields_body asset fields body :
  NoDup fields.*1 →
  dget "fields" (ContentAsset.extra_metadata asset) = Some (JObj fields) →
  dget "body" fields = Some (JStr body) →
  dget "body" (_asset_text_fields asset) = Some (JStr body).
Proof.
  intros Hnd Hf Hb. unfold _asset_text_fields. rewrite Hf. cbn [as_obj].
  assert (items fields ≡ₚ fields) as Hperm by apply merge_sort_Permutation.
  apply fold_texts_get; [by rewrite Hperm|]. rewrite Hperm. by apply elem_dget.
Qed.

(** A reviewer's edit of the content leaves the body among the fields as it was: the preview goes on
    showing, and a social channel publishing, the text before the edit. *)
Theorem edited_content_not_shown asset fields body edited e s :
  NoDup fields.*1 →
  dget "fields" (ContentAsset.extra_metadata asset) = Some (JObj fields) →
  dget "body" fields = Some (JStr body) → str_empty (str_strip body) = false →
  ∃ asset', apply_edits (Some edited) [] asset e s = (s, inr asset') ∧
    ContentAsset.content asset' = Some edited ∧
    _social_text_from_asset asset' e s = (s, inr (str_strip body)) ∧
    dget "body" (_asset_text_fields asset') = Some (JStr body).
Proof.
  intros Hnd Hf Hb Hne. eexists. split; [reflexivity|]. split; [done|]. split.
  - unfold _social_text_from_asset.
    match goal with |- context [dget "fields" ?m] =>
      change (dget "fields" m) with (dget "fields" (ContentAsset.extra_metadata asset)) end.
    rewrite Hf. change (default JNull (Some (JObj fields))) with (JObj fields). cbv zeta.
    assert (truthy (JObj fields) = true) as -> by (by destruct fields).
    change (negb true) with false. cbv iota.
    rewrite (bind_ok (of_sum (inr fields)) _ e s s fields eq_refl). unfold first_text.
    rewrite Hb. cbn [as_str]. by rewrite Hne.
  - by apply (text_fields_body _ fields).
Qed.
