(* ===== verification/KpiRollup.v ===== *)
(** * Campaign KPIs: src/app/analytics/kpi_rollup.py, src/app/api/analytics_kpis.py

    The rollup counts the events that belong to a campaign, by kind, with the rates
    derived from the counts and the freshness of each source. *)

From S2P Require Export SpendReconciliation.
From S2P Require Import PyDecimal.
Local Open Scope Z_scope.

(** [app/analytics/kpi_rollup.py] lines 44-50, [DOCUMENTED_LATENCY_SECONDS]. *)
Definition DOCUMENTED_LATENCY_SECONDS : list (string * Z) :=
  [("plausible", 300); ("sendgrid", 60); ("linkedin", 600); ("csv_upload", 0); ("unknown", 0)].

(** [app/analytics/kpi_rollup.py] lines 52-59, [SourceFreshness]. *)
Record SourceFreshness := {
  source_name : string;
  last_event_at : option Z;
  freshness_seconds : option Z;
  documented_latency_seconds : Z;
}.

(** [app/analytics/kpi_rollup.py] lines 62-74 in [CampaignKpis]. *)
Module CampaignKpis.
Record t := mk {
  impressions : Z;
  opens : Z;
  clicks : Z;
  replies : Z;
  conversions : Z;
  unsubscribes : Z;
  bounces : Z;
  spam_complaints : Z;
  spend : pydec;
}.
End CampaignKpis.

(** [app/analytics/kpi_rollup.py] lines 127-134, [CampaignKpiSnapshot]. *)
Record CampaignKpiSnapshot := {
  snapshot_campaign_id : N;
  kpis : CampaignKpis.t;
  sources : list SourceFreshness;
  generated_at : Z;
}.

(** ** Derived rates *)

(** [(Decimal(n) / Decimal(d)).quantize(Decimal("0.0001"))], zero for no denominator. *)
Definition rate (n d : Z) : option pydec :=
  if d =? 0 then Some (DFin false 0 (-4)) else dec_div (dec_of_Z n) (dec_of_Z d) ≫= dec_quantize 4.

(** The cost per conversion, to the cent; [Some None] without conversions. *)
Definition cost_per (spend : pydec) (conversions : Z) : option (option pydec) :=
  if conversions =? 0 then Some None
  else Some <$> (dec_div spend (dec_of_Z conversions) ≫= dec_quantize 2).

(** [app/analytics/kpi_rollup.py] lines 77-124, [CampaignKpis.as_dict]. [None]: a quotient that
    [quantize] refuses. *)
Definition as_dict (k : CampaignKpis.t) : option jdict :=
  ctr ← rate (CampaignKpis.clicks k) (CampaignKpis.impressions k);
  open_rate ← rate (CampaignKpis.opens k) (CampaignKpis.impressions k);
  click_to_open ← rate (CampaignKpis.clicks k) (CampaignKpis.opens k);
  unsub_rate ← rate (CampaignKpis.unsubscribes k) (CampaignKpis.impressions k);
  cpl ← cost_per (CampaignKpis.spend k) (CampaignKpis.conversions k);
  let num d := JStr (dec_str d) in
  Some [("impressions", JInt (CampaignKpis.impressions k));
        ("opens", JInt (CampaignKpis.opens k));
        ("clicks", JInt (CampaignKpis.clicks k));
        ("replies", JInt (CampaignKpis.replies k));
        ("conversions", JInt (CampaignKpis.conversions k));
        ("unsubscribes", JInt (CampaignKpis.unsubscribes k));
        ("bounces", JInt (CampaignKpis.bounces k));
        ("spam_complaints", JInt (CampaignKpis.spam_complaints k));
        ("spend", num (CampaignKpis.spend k));
        ("derived", JObj [
          ("ctr", num ctr); ("open_rate", num open_rate); ("click_to_open", num click_to_open);
          ("unsubscribe_rate", num unsub_rate);
          ("cpl", jopt num cpl); ("cpa", jopt num cpl)])].

(** ** The events of a scope *)

(** A dispatch attempt of the tenant carries the event's message id, for an asset that
    satisfies [p]. *)
Definition linked (s : db) (tenant_id : N) (p : DispatchAttempt.t → bool) (ev : AnalyticEvent.t) : bool :=
  match astext (dget "sg_message_id" (AnalyticEvent.payload ev)) with
  | None => false
  | Some mid =>
      existsb (λ d, (DispatchAttempt.tenant_id d ==b tenant_id) &&
                    (DispatchAttempt.provider_message_id d ==b Some mid) && p d)
        (snd <$> map_to_list (t_dispatch_attempt s))
  end.

(** The attempt's asset, joined. *)
Definition of_asset (s : db) (p : ContentAsset.t → bool) (d : DispatchAttempt.t) : bool :=
  from_option p false (t_content_asset s !! DispatchAttempt.content_asset_id d).

(** The filter [compute_campaign_kpis] builds. *)
Definition base_filter (s : db) (tenant_id campaign_id : N) (channel_id content_asset_id : option N)
    (ev : AnalyticEvent.t) : bool :=
  let mine a := (ContentAsset.tenant_id a ==b tenant_id) && (ContentAsset.campaign_id a ==b campaign_id) in
  (AnalyticEvent.tenant_id ev ==b tenant_id) &&
  ((AnalyticEvent.campaign_id ev ==b Some campaign_id) || linked s tenant_id (of_asset s mine) ev) &&
  match channel_id with
  | None => true
  | Some c => (AnalyticEvent.channel_id ev ==b Some c) ||
              linked s tenant_id (of_asset s (λ a, mine a && (ContentAsset.channel_id a ==b Some c))) ev
  end &&
  match content_asset_id with
  | None => true
  | Some a => linked s tenant_id (λ d, DispatchAttempt.content_asset_id d ==b a) ev
  end.

Definition scope_events (tenant_id campaign_id : N) (channel_id content_asset_id : option N)
    : M (list AnalyticEvent.t) :=
  gets (λ s, List.filter (base_filter s tenant_id campaign_id channel_id content_asset_id)
               (snd <$> map_to_list (t_analytic_event s))).

(** ** The rollup *)

Definition count_kind (events : list AnalyticEvent.t) (k : EventKind.t) : Z :=
  Z.of_nat (length (List.filter (λ ev, AnalyticEvent.event_type ev ==b k) events)).

(** The sum of the spend events' values; [Decimal(metric_sum or 0)]. *)
Definition spend_total (events : list AnalyticEvent.t) : pydec :=
  let total := foldr Z.add 0 (omap AnalyticEvent.metric_value
                 (List.filter (λ ev, AnalyticEvent.event_type ev ==b EventKind.spend) events)) in
  if total =? 0 then dec_of_Z 0 else dec_of_col 4 total.

Definition event_source (ev : AnalyticEvent.t) : string :=
  match astext (dget "sg_message_id" (AnalyticEvent.payload ev)) with
  | Some _ => "sendgrid"
  | None => if from_option (String.prefix "plausible:") false (AnalyticEvent.provider_event_id ev)
            then "plausible" else "unknown"
  end.

(** [app/analytics/kpi_rollup.py] lines 269-321, [_source_freshness]. *)
Definition _source_freshness (events : list AnalyticEvent.t) (now : Z) : list SourceFreshness :=
  omap (λ name,
    match AnalyticEvent.event_at <$> List.filter (λ ev, event_source ev ==b name) events with
    | [] => None
    | t :: ts =>
        let last_at := foldr Z.max t ts in
        Some {| source_name := name;
                last_event_at := Some last_at;
                freshness_seconds := Some (Z.max (Z.quot (now - last_at) second) 0);
                documented_latency_seconds :=
                  from_option snd 0 (find (λ e : string * Z, e.1 ==b name) DOCUMENTED_LATENCY_SECONDS) |}
    end) ["sendgrid"; "plausible"; "unknown"].

(** [app/analytics/kpi_rollup.py] lines 137-266, [compute_campaign_kpis]. *)
Definition compute_campaign_kpis (tenant_id campaign_id : N) (channel_id content_asset_id : option N)
    (now : Z) : M CampaignKpiSnapshot :=
  events ← scope_events tenant_id campaign_id channel_id content_asset_id;
  let count := count_kind events in
  mret {|
    snapshot_campaign_id := campaign_id;
    kpis := {|
      CampaignKpis.impressions := count EventKind.impression;
      CampaignKpis.opens := count EventKind.open;
      CampaignKpis.clicks := count EventKind.click;
      CampaignKpis.replies := count EventKind.reply;
      CampaignKpis.conversions := count EventKind.conversion;
      CampaignKpis.unsubscribes := count EventKind.unsubscribe;
      CampaignKpis.bounces := count EventKind.bounce;
      CampaignKpis.spam_complaints := count EventKind.spam_complaint;
      CampaignKpis.spend := spend_total events |};
    sources := _source_freshness events now;
    generated_at := now |}.

(** [app/api/analytics_kpis.py] lines 38-87, [get_campaign_kpis]. *)
Definition get_campaign_kpis (campaign_id : N) (channel_id content_asset_id : option N) (user : AppUser.t)
    : M (jdict * list SourceFreshness) :=
  tenant_campaign campaign_id user ;;
  t ← asks now;
  snapshot ← compute_campaign_kpis (AppUser.tenant_id user) campaign_id channel_id content_asset_id t;
  match as_dict (kpis snapshot) with
  | Some d => mret (d, sources snapshot)
  | None => raise InvalidOperation
  end.

Example rate_sample : rate 1 3 = Some (DFin false 3333 (-4)).
Proof. vm_compute. reflexivity. Qed.
