(* ===== verification/Recommendations.v ===== *)
(** * Optimisation recommendations: src/app/analytics/recommendations.py

    The budget-shift rule: the channel with the lowest cost per outcome against the one
    with the highest, and how much of the latter's allocation to move. *)

From S2P Require Export Segmentation KpiRollup.
From S2P Require Import PyDecimal.
Local Open Scope Z_scope.

(** [app/analytics/recommendations.py] lines 52-52, [MIN_DATA_DAYS]. *)
Definition MIN_DATA_DAYS : Z := 5.
(** [app/analytics/recommendations.py] lines 58-58, [_BUDGET_SHIFT_DEFAULT_PCT]. *)
Definition _BUDGET_SHIFT_DEFAULT_PCT : pydec := DFin false 30 (-2).
(** [app/analytics/recommendations.py] lines 59-59, [_BUDGET_SHIFT_FLOOR_PCT]. *)
Definition _BUDGET_SHIFT_FLOOR_PCT : pydec := DFin false 10 (-2).
(** [app/analytics/recommendations.py] lines 60-60, [_BUDGET_SHIFT_CEILING_PCT]. *)
Definition _BUDGET_SHIFT_CEILING_PCT : pydec := DFin false 50 (-2).
(** [app/analytics/recommendations.py] lines 64-64, [_BUDGET_SHIFT_MIN_RATIO]. *)
Definition _BUDGET_SHIFT_MIN_RATIO : pydec := DFin false 12 (-1).
(** [app/analytics/recommendations.py] lines 65-65, [_CONFIDENCE_HIGH_RATIO]. *)
Definition _CONFIDENCE_HIGH_RATIO : pydec := DFin false 20 (-1).
(** [app/analytics/recommendations.py] lines 66-66, [_CONFIDENCE_MEDIUM_RATIO]. *)
Definition _CONFIDENCE_MEDIUM_RATIO : pydec := DFin false 15 (-1).
Definition MAX_UPLIFT : pydec := DFin false 99999 (-4).

Definition zero : pydec := dec_of_Z 0.

(** [app/analytics/recommendations.py] lines 69-87, [ChannelMetric]. *)
Module ChannelMetric.
Record t := mk {
  channel_id : N;
  name : string;
  spend : pydec;
  clicks : Z;
  impressions : Z;
  conversions : Z;
  min_daily_spend : option pydec;
}.
End ChannelMetric.

Definition outcomes_of (outcome : string) (m : ChannelMetric.t) : Z :=
  if outcome ==b "conversion" then ChannelMetric.conversions m else ChannelMetric.clicks m.

(** [m.spend > 0]: a sum of column values is finite. *)
Definition has_spend (m : ChannelMetric.t) : bool :=
  default false (dec_gt (ChannelMetric.spend m) zero).

(** [app/analytics/recommendations.py] lines 79-87, [ChannelMetric.cost_per_outcome]. *)
Definition cost_per_outcome (outcome : string) (m : ChannelMetric.t) : pydec :=
  if negb (has_spend m) then zero
  else if outcomes_of outcome m <=? 0 then zero
  else default zero (dec_div (ChannelMetric.spend m) (dec_of_Z (outcomes_of outcome m))).

(** [app/analytics/recommendations.py] lines 90-98, [ProposalBundle]. [storable]: the proposal
    has no float JSON cannot hold. *)
Record ProposalBundle := {
  bundle_kind : string;
  proposal : jdict;
  storable : bool;
  rationale : string;
  predicted_uplift : pydec;
}.

(** [app/analytics/recommendations.py] lines 313-318, [_confidence_label]. *)
Definition _confidence_label (ratio : pydec) : M string :=
  high ← tested (dec_geb ratio _CONFIDENCE_HIGH_RATIO);
  if high : bool then mret "high"
  else
    medium ← tested (dec_geb ratio _CONFIDENCE_MEDIUM_RATIO);
    mret (if medium : bool then "medium" else "low").

(** [app/analytics/recommendations.py] lines 321-327, [_as_decimal]. *)
Definition _as_decimal (v : option json) : option pydec :=
  match v with None | Some JNull => None | Some v => dec_parse (json_str v) end.

(** ** Loading *)

(** [app/analytics/recommendations.py] lines 335-425, [_channel_metrics]. *)
Definition _channel_metrics (tenant_id campaign_id : N) (since : Z) : M (list ChannelMetric.t) :=
  events ← campaign_events tenant_id campaign_id (λ ev, since <=? AnalyticEvent.event_at ev);
  mapM_ (λ channel_id,
    let mine := List.filter (λ ev, AnalyticEvent.channel_id ev ==b Some channel_id) events in
    channel ← get_row (R:=Channel.t) channel_id;
    let name := from_option Channel.name "" channel in
    mret {|
      ChannelMetric.channel_id := channel_id;
      ChannelMetric.name := if str_empty name then uuid_str channel_id else name;
      ChannelMetric.spend := default zero (dec_add zero (spend_total mine));
      ChannelMetric.clicks := count_kind mine EventKind.click;
      ChannelMetric.impressions := count_kind mine EventKind.impression;
      ChannelMetric.conversions := count_kind mine EventKind.conversion;
      ChannelMetric.min_daily_spend :=
        channel ≫= λ c, _as_decimal (dget "min_daily_spend" (Channel.api_config c)) |})
    (remove_dups (omap AnalyticEvent.channel_id events)).

(** [float(v)] of a JSON value, as the decimal it prints; [None] is an infinity or a NaN. *)
Definition py_float (v : json) : exn + option dec :=
  match v with
  | JBool b => inr (Some (Dec (if b then 1 else 0) 0))
  | JInt z => match flt_repr (flt_of_Z z) with
              | Some d => inr (Some d)
              | None => inl (OtherError "OverflowError")
              end
  | JFloat d => inr (Some d)
  | JStr s => match dec_parse s with
              | Some d => inr (flt_of_pydec d ≫= flt_repr)
              | None => inl (ValueError ("could not convert string to float: " +:+ json_repr v))
              end
  | _ => inl TypeError
  end.

(** An entry of [{channel_name: {allocation_pct, allocation_amount}}]. *)
Record allocation := mkalloc { alloc_name : string; alloc_pct : option dec; alloc_amount : option json }.

(** One channel of the strategy. A name that is not text matches no channel, and a list or
    an object cannot be a key. *)
Definition read_allocation (c : json) : exn + list allocation :=
  match c with
  | JObj c =>
      let name := default JNull (dget "name" c) in
      if negb (truthy name) then inr []
      else
        match py_float (default (JInt 0) (dget "allocation_pct" c)), name with
        | inl x, _ => inl x
        | inr pct, JStr name => inr [mkalloc name pct (dget "allocation_amount" c)]
        | inr _, JList _ | inr _, JObj _ => inl TypeError
        | inr _, _ => inr []
        end
  | _ => inl (AttributeError "object has no attribute 'get'")
  end.

Fixpoint read_allocations (l : list json) : exn + list allocation :=
  match l with
  | [] => inr []
  | c :: l => match read_allocation c, read_allocations l with
              | inl x, _ | _, inl x => inl x
              | inr a, inr r => inr (a ++ r)
              end
  end.

(** [app/analytics/recommendations.py] lines 428-458, [_resolve_strategy_allocations]. *)
Definition _resolve_strategy_allocations (tenant_id campaign_id : N) : M (list allocation) :=
  rows ← select (λ p, (StrategyProposal.tenant_id p ==b tenant_id) &&
    (StrategyProposal.campaign_id p ==b campaign_id) && StrategyProposal.is_accepted p);
  match order_by_desc StrategyProposal.version rows with
  | [] => mret []
  | p :: _ =>
      let channels := default JNull (dget "channels" (StrategyProposal.payload p)) in
      if negb (truthy channels) then mret []
      else l ← of_sum (json_iter channels); of_sum (read_allocations l)
  end.

(** A later entry of a name replaces an earlier one. *)
Definition find_allocation (name : string) (l : list allocation) : option allocation :=
  last (List.filter (λ a, alloc_name a ==b name) l).

(** ** Rule: budget shift *)

Section rule.
Context (outcome : string).

Definition cheaper (x y : ChannelMetric.t) : Prop :=
  dec_gt (cost_per_outcome outcome x) (cost_per_outcome outcome y) ≠ Some true.
#[local] Instance cheaper_dec : RelDecision cheaper.
Proof. intros x y. unfold cheaper. apply _. Defined.

(** [eligible], cheapest first. *)
Definition ranked (metrics : list ChannelMetric.t) : list ChannelMetric.t :=
  merge_sort cheaper (List.filter (λ m, has_spend m && (0 <? outcomes_of outcome m)) metrics).
End rule.

(** The amount to move and the share of the laggard's allocation it is, with the note of a
    clamp to the laggard's minimum daily spend; [None] when too little would move. *)
Definition size_shift (laggard : ChannelMetric.t) (amount : pydec)
    : M (option (pydec * pydec * option string)) :=
  proposed ← calc (dec_mul amount _BUDGET_SHIFT_DEFAULT_PCT);
  clamped ←
    match ChannelMetric.min_daily_spend laggard with
    | None => mret (proposed, None)
    | Some floor =>
        positive ← tested (dec_gt floor zero);
        if negb positive then mret (proposed, None)
        else
          max_shift ← calc (dec_sub amount floor);
          less ← tested (dec_ltb max_shift proposed);
          if negb less then mret (proposed, None)
          else
            negative ← tested (dec_gt zero max_shift);
            mret (if negative : bool then zero else max_shift,
                  Some (" Shift clamped to keep '" +:+ ChannelMetric.name laggard +:+
                        "' above its minimum daily spend floor of " +:+ dec_str floor +:+ "."))
    end;
  let '(proposed, floor_note) := clamped in
  share ← calc (dec_div proposed amount);
  small ← tested (dec_ltb share _BUDGET_SHIFT_FLOOR_PCT);
  if small : bool then mret None
  else
    large ← tested (dec_gt share _BUDGET_SHIFT_CEILING_PCT);
    if large : bool then
      proposed ← calc (dec_mul amount _BUDGET_SHIFT_CEILING_PCT);
      mret (Some (proposed, _BUDGET_SHIFT_CEILING_PCT, floor_note))
    else mret (Some (proposed, share, floor_note)).

(** The predicted uplift of moving [proposed], clamped to [0, 9.9999]. *)
Definition uplift_of (proposed leader_cpo laggard_cpo current_outcomes : pydec) : M pydec :=
  a ← calc (dec_div proposed leader_cpo);
  b ← calc (dec_div proposed laggard_cpo);
  extra ← calc (dec_sub a b);
  some ← tested (dec_gt current_outcomes zero);
  uplift ← (if some : bool then calc (dec_div extra current_outcomes) else mret zero);
  over ← tested (dec_gt uplift MAX_UPLIFT);
  let uplift := if over : bool then MAX_UPLIFT else uplift in
  under ← tested (dec_ltb uplift zero);
  mret (if under : bool then zero else uplift).

(** One end of the shift in the proposal. *)
Definition shift_end (m : ChannelMetric.t) (a : allocation) (amount new_amount : pydec) : json :=
  JObj [("channel", JStr (ChannelMetric.name m));
        ("channel_id", j_uuid (ChannelMetric.channel_id m));
        ("allocation_pct", jopt JFloat (alloc_pct a));
        ("allocation_amount", JStr (dec_str amount));
        ("new_allocation_amount", JStr (dec_str new_amount))].

(** [f"{x:.2%}"] of a float. *)
Definition percent_format (x : flt) : string :=
  from_option (λ d, dec_format_f 2 (pydec_of_dec d)) "" (flt_round_dec 2 (flt_mul x (flt_of_Z 100))) +:+ "%".

Definition times_sign : string := String (ascii_of_N 215) "".

(** The proposal of a shift that has been sized. *)
Definition make_bundle (outcome confidence : string) (leader laggard : ChannelMetric.t)
    (leader_cpo laggard_cpo ratio : pydec) (leader_alloc laggard_alloc : allocation)
    (laggard_amount proposed share : pydec) (floor_note : option string) (metrics : list ChannelMetric.t)
    : M ProposalBundle :=
  let leader_amount := match _as_decimal (alloc_amount leader_alloc) with
                       | Some d => if dec_zero d then zero else d
                       | None => zero
                       end in
  new_laggard ← calc (dec_sub laggard_amount proposed);
  new_leader ← calc (dec_add leader_amount proposed);
  let current_outcomes := dec_of_Z (foldr Z.add 0 (outcomes_of outcome <$> metrics)) in
  uplift ← uplift_of proposed leader_cpo laggard_cpo current_outcomes;
  new_laggard ← calc (dec_quantize 2 new_laggard);
  new_leader ← calc (dec_quantize 2 new_leader);
  moved ← calc (dec_quantize 2 proposed);
  pct ← calc (dec_mul share (dec_of_Z 100) ≫= dec_quantize 2);
  mret {|
    bundle_kind := "budget_shift";
    proposal := [
      ("from", shift_end laggard laggard_alloc laggard_amount new_laggard);
      ("to", shift_end leader leader_alloc leader_amount new_leader);
      ("proposed_amount", JStr (dec_str moved));
      ("shift_pct", jopt JFloat (flt_of_pydec pct ≫= flt_repr));
      ("confidence", JStr confidence);
      ("outcome", JStr outcome);
      ("clamped_to_floor", JBool (negb (floor_note ==b None)))];
    storable := negb (alloc_pct laggard_alloc ==b None) && negb (alloc_pct leader_alloc ==b None);
    rationale :=
      "Channel '" +:+ ChannelMetric.name leader +:+ "' cost-per-" +:+ outcome +:+ " is " +:+
      dec_format_f 4 leader_cpo +:+ " vs '" +:+ ChannelMetric.name laggard +:+ "' at " +:+
      dec_format_f 4 laggard_cpo +:+ " over the last " +:+ str_of_Z MIN_DATA_DAYS +:+ " days (" +:+
      dec_format_f 2 ratio +:+ times_sign +:+ " ratio, confidence: " +:+ confidence +:+
      "). Shifting " +:+ dec_str moved +:+ " of '" +:+ ChannelMetric.name laggard +:+
      "'s budget to '" +:+ ChannelMetric.name leader +:+ "' is projected to lift total " +:+
      outcome +:+ "s by " +:+ from_option percent_format "" (flt_of_pydec uplift) +:+ "." +:+
      default "" floor_note;
    predicted_uplift := uplift |}.

(** [app/analytics/recommendations.py] lines 156-310, [_try_budget_shift]. *)
Definition _try_budget_shift (tenant_id campaign_id : N) (now : Z) : M (option ProposalBundle) :=
  metrics ← _channel_metrics tenant_id campaign_id (now - MIN_DATA_DAYS * day);
  if (length metrics <? 2)%nat then mret None
  else
    let outcome := if 0 <? foldr Z.add 0 (ChannelMetric.conversions <$> metrics)
                   then "conversion" else "click" in
    match ranked outcome metrics with
    | leader :: m :: rest =>
        let laggard := List.last rest m in
        let leader_cpo := cost_per_outcome outcome leader in
        let laggard_cpo := cost_per_outcome outcome laggard in
        free ← tested (dec_leb leader_cpo zero);
        if free : bool then mret None
        else
          ratio ← calc (dec_div laggard_cpo leader_cpo);
          close ← tested (dec_ltb ratio _BUDGET_SHIFT_MIN_RATIO);
          if close : bool then mret None
          else
            confidence ← _confidence_label ratio;
            allocations ← _resolve_strategy_allocations tenant_id campaign_id;
            match find_allocation (ChannelMetric.name laggard) allocations,
                  find_allocation (ChannelMetric.name leader) allocations with
            | Some laggard_alloc, Some leader_alloc =>
                match _as_decimal (alloc_amount laggard_alloc) with
                | None => mret None
                | Some laggard_amount =>
                    none ← tested (dec_leb laggard_amount zero);
                    if none : bool then mret None
                    else
                      shift ← size_shift laggard laggard_amount;
                      match shift with
                      | None => mret None
                      | Some (proposed, share, floor_note) =>
                          bundle ← make_bundle outcome confidence leader laggard leader_cpo laggard_cpo
                            ratio leader_alloc laggard_alloc laggard_amount proposed share floor_note metrics;
                          mret (Some bundle)
                      end
                end
            | _, _ => mret None
            end
    | _ => mret None
    end.

(** [(target.get(k) or {}).get("channel")]. *)
Definition channel_at (k : string) (target : jdict) : exn + json :=
  match default JNull (dget k target) with
  | JObj o => inr (default JNull (dget "channel" o))
  | v => if truthy v then inl (AttributeError "object has no attribute 'get'") else inr JNull
  end.

Fixpoint any_pending (from_channel to_channel : json) (rows : list OptimisationRecommendation.t)
    : exn + bool :=
  match rows with
  | [] => inr false
  | r :: rows =>
      match channel_at "from" (OptimisationRecommendation.proposal r),
            channel_at "to" (OptimisationRecommendation.proposal r) with
      | inr f, inr t => if py_eq f from_channel && py_eq t to_channel then inr true
                        else any_pending from_channel to_channel rows
      | inl x, _ | _, inl x => inl x
      end
  end.

(** [app/analytics/recommendations.py] lines 461-488, [_already_pending]. *)
Definition _already_pending (tenant_id campaign_id : N) (kind : string) (target : jdict) : M bool :=
  from_channel ← of_sum (channel_at "from" target);
  to_channel ← of_sum (channel_at "to" target);
  rows ← select (λ r, (OptimisationRecommendation.tenant_id r ==b tenant_id) &&
    (OptimisationRecommendation.campaign_id r ==b campaign_id) &&
    (OptimisationRecommendation.kind r ==b kind) &&
    (OptimisationRecommendation.status r ==b "pending"));
  of_sum (any_pending from_channel to_channel rows).

(** [app/analytics/recommendations.py] lines 101-148, [generate_recommendations]. *)
Definition generate_recommendations (tenant_id campaign_id : N) (now : Z)
    : M (list OptimisationRecommendation.t) :=
  campaign ← get_row (R:=Campaign.t) campaign_id;
  match campaign with
  | None => mret []
  | Some campaign =>
      if Campaign.tenant_id campaign !=b tenant_id then mret []
      else if now - Campaign.start_date campaign * day <? MIN_DATA_DAYS * day then mret []
      else
        bundle ← _try_budget_shift tenant_id campaign_id now;
        match bundle with
        | None => mret []
        | Some bundle =>
            pending ← _already_pending tenant_id campaign_id (bundle_kind bundle) (proposal bundle);
            if pending : bool then mret []
            else
              raise_if (negb (storable bundle)) (OtherError "StatementError") ;;
              uplift ← store (numeric_column 6 4 (predicted_uplift bundle));
              t ← asks Db.now;
              rec ← add_row (λ id, {|
                OptimisationRecommendation.id := id;
                OptimisationRecommendation.tenant_id := tenant_id;
                OptimisationRecommendation.campaign_id := campaign_id;
                OptimisationRecommendation.kind := bundle_kind bundle;
                OptimisationRecommendation.proposal := proposal bundle;
                OptimisationRecommendation.rationale := Some (rationale bundle);
                OptimisationRecommendation.predicted_uplift := Some uplift;
                OptimisationRecommendation.status := "pending";
                OptimisationRecommendation.applied_at := None;
                OptimisationRecommendation.applied_by := None;
                OptimisationRecommendation.created_at := t |});
              mret [rec]
        end
  end.
