(* ===== verification/Anomaly.v ===== *)
(** * Anomaly detection: src/app/analytics/anomaly.py

    One detection pass compares the last day of a metric's daily counts with the median
    and the population standard deviation of the days before it. Medians, deviations and
    sigmas are binary64 values, computed as the Standard Library's [statistics] does. *)

From Stdlib Require Import Floats.SpecFloat.
From S2P Require Export AuditTrail SpendReconciliation.
From S2P Require Import PyDecimal.
Local Open Scope Z_scope.

(** [app/analytics/anomaly.py] lines 46-48, [_CRITICAL_METRICS]. *)
Definition _CRITICAL_METRICS : list EventKind.t :=
  [EventKind.unsubscribe; EventKind.bounce; EventKind.spam_complaint].

(** [app/analytics/anomaly.py] lines 53-61, [_HOT_METRICS]. *)
Definition _HOT_METRICS : list EventKind.t :=
  [EventKind.open; EventKind.click; EventKind.reply; EventKind.conversion; EventKind.unsubscribe;
   EventKind.bounce; EventKind.spam_complaint].

(** [app/analytics/anomaly.py] lines 65-65, [BASELINE_DAYS]. *)
Definition BASELINE_DAYS : nat := 14.
(** [app/analytics/anomaly.py] lines 66-66, [SIGMA_THRESHOLD]. *)
Definition SIGMA_THRESHOLD : pydec := DFin false 30 (-1).
(** [app/analytics/anomaly.py] lines 68-68, [SILENCE_BETWEEN_FIRES]. *)
Definition SILENCE_BETWEEN_FIRES : Z := 24 * hour.

(** ** Statistics *)

(** [float(statistics.median(data))] of a non-empty list. *)
Definition median (data : list Z) : flt :=
  let sorted := merge_sort Z.le data in
  let n := length data in
  if Nat.odd n then flt_of_Z (nth (n / 2) sorted 0)
  else flt_of_ratio (nth (n / 2 - 1) sorted 0 + nth (n / 2) sorted 0) 2.

(** The integer root of [n / m], rounded to odd. *)
Definition isqrt_rto (n m : Z) : Z :=
  let a := Z.sqrt (n / m) in if a * a * m =? n then a else Z.lor a 1.

Definition bit_length (z : Z) : Z := if z =? 0 then 0 else Z.log2 z + 1.

(** The correctly rounded root of [n / m]: 109 bits are twice the significand plus three. *)
Definition flt_sqrt_of_frac (n m : Z) : flt :=
  let q := (bit_length n - bit_length m - 109) / 2 in
  if 0 <=? q then flt_of_ratio (Z.shiftl (isqrt_rto n (Z.shiftl m (2 * q))) q) 1
  else flt_of_ratio (isqrt_rto (Z.shiftl n (- (2 * q))) m) (Z.shiftl 1 (- q)).

(** [statistics.pstdev(data)]: the variance is an exact fraction. *)
Definition pstdev (data : list Z) : flt :=
  let n := Z.of_nat (length data) in
  let sum := foldr Z.add 0 data in
  let num := n * foldr Z.add 0 ((λ x, x * x) <$> data) - sum * sum in
  let den := n * n in
  let g := Z.gcd num den in
  flt_sqrt_of_frac (num / g) (den / g).

Definition flt_abs (x : flt) : flt := SFabs x.
Definition flt_eqb (x y : flt) : bool := SFeqb x y.

Example median_even : median [4; 1; 3; 2] = flt_of_dec (Dec 25 (-1)).
Proof. vm_compute. reflexivity. Qed.
Example pstdev_sample : flt_repr (pstdev [1; 2; 3; 4]) = Some (Dec 1118033988749895 (-15)).
Proof. vm_compute. reflexivity. Qed.
Example pstdev_exact : pstdev [2; 4; 4; 4; 5; 5; 7; 9] = flt_of_Z 2.
Proof. vm_compute. reflexivity. Qed.

(** ** Detection *)

(** [app/analytics/anomaly.py] lines 71-82, [DetectedAnomaly]. *)
Module DetectedAnomaly.
Record t := mk {
  metric : EventKind.t;
  window_start : Z;
  window_end : Z;
  observed_value : Z;
  baseline_median : flt;
  baseline_stddev : flt;
  sigma : flt;
  severity : string;
}.
End DetectedAnomaly.

(** Each day that has events, in order, with its number of events. *)
Definition group_by_day (events : list AnalyticEvent.t) : list (Z * Z) :=
  let days := (λ ev, AnalyticEvent.event_at ev / day) <$> events in
  (λ d, (d, Z.of_nat (length (List.filter (λ x, x =? d) days)))) <$> merge_sort Z.le (remove_dups days).

(** [app/analytics/anomaly.py] lines 205-248, [_daily_counts]. *)
Definition _daily_counts (tenant_id campaign_id : N) (metric : EventKind.t) (now : Z) : M (list (Z * Z)) :=
  events ← campaign_events tenant_id campaign_id (λ ev,
    (AnalyticEvent.event_type ev ==b metric) &&
    (now - Z.of_nat BASELINE_DAYS * day <=? AnalyticEvent.event_at ev));
  mret (group_by_day events).

(** The deviation of an observation in standard deviations; [None] when a constant baseline
    is met exactly. *)
Definition sigma_of (observed_value : Z) (median stddev : flt) : option flt :=
  if flt_eqb stddev (S754_zero false) then
    if flt_eqb (flt_of_Z observed_value) median then None else Some (flt_of_Z 9999)
  else Some (flt_div (flt_abs (flt_sub (flt_of_Z observed_value) median)) stddev).

(** [Decimal(str(sigma)) > SIGMA_THRESHOLD]. *)
Definition exceeds_threshold (sigma : flt) : bool :=
  default false (dec_of_flt sigma ≫= λ d, dec_gt d SIGMA_THRESHOLD).

(** What a series of daily counts shows. *)
Definition detect_series (metric : EventKind.t) (series : list (Z * Z)) : option DetectedAnomaly.t :=
  if (length series <? BASELINE_DAYS)%nat then None
  else
    match last series with
    | None => None
    | Some (observed_day, observed_value) =>
        let baseline := snd <$> take (length series - 1) series in
        if baseline ==b [] then None
        else
          let m := median baseline in
          let sd := pstdev baseline in
          sigma ← sigma_of observed_value m sd;
          if negb (exceeds_threshold sigma) then None
          else Some {|
            DetectedAnomaly.metric := metric;
            DetectedAnomaly.window_start := observed_day * day;
            DetectedAnomaly.window_end := observed_day * day + day;
            DetectedAnomaly.observed_value := observed_value;
            DetectedAnomaly.baseline_median := m;
            DetectedAnomaly.baseline_stddev := sd;
            DetectedAnomaly.sigma := sigma;
            DetectedAnomaly.severity :=
              if metric ∈b _CRITICAL_METRICS then "critical" else "warning" |}
    end.

(** [app/analytics/anomaly.py] lines 143-202, [_detect_one]. *)
Definition _detect_one (tenant_id campaign_id : N) (metric : EventKind.t) (now : Z)
    : M (option DetectedAnomaly.t) :=
  series ← _daily_counts tenant_id campaign_id metric now;
  mret (detect_series metric series).

(** [app/analytics/anomaly.py] lines 251-282, [_notify_critical_anomaly]. *)
Definition _notify_critical_anomaly (anomaly : MetricAnomaly.t) : M () :=
  campaign ← get_row (R:=Campaign.t) (MetricAnomaly.campaign_id anomaly);
  let recipients := match campaign ≫= Campaign.owner_id with Some o => [j_uuid o] | None => [] end in
  audit (MetricAnomaly.tenant_id anomaly) "metric_anomaly" (MetricAnomaly.id anomaly)
    "anomaly_notification_dispatched" None None
    [("metric", JStr (MetricAnomaly.metric anomaly));
     ("severity", JStr (MetricAnomaly.severity anomaly));
     ("recipients", JList recipients);
     ("campaign_id", j_uuid (MetricAnomaly.campaign_id anomaly))].

(** [Decimal(str(round(x, k)))] in a [Numeric(p, c)] column. *)
Definition store_flt (p c k : Z) (x : flt) : M Z :=
  d ← calc (flt_round_to k x ≫= dec_of_flt);
  store (numeric_column p c d).

(** The undismissed anomalies of the metric that are too recent for another one. *)
Definition silences (tenant_id campaign_id : N) (metric : EventKind.t) (now : Z) (a : MetricAnomaly.t) : bool :=
  (MetricAnomaly.tenant_id a ==b tenant_id) && (MetricAnomaly.campaign_id a ==b campaign_id) &&
  (MetricAnomaly.metric a ==b value metric) &&
  (now - SILENCE_BETWEEN_FIRES <=? MetricAnomaly.created_at a) &&
  (MetricAnomaly.dismissed_at a ==b None).

(** The row of a detected anomaly. *)
Definition add_anomaly (tenant_id campaign_id : N) (detected : DetectedAnomaly.t) : M MetricAnomaly.t :=
  observed ← store (numeric_column 18 6 (dec_of_Z (DetectedAnomaly.observed_value detected)));
  m ← store_flt 18 6 6 (DetectedAnomaly.baseline_median detected);
  sd ← store_flt 18 6 6 (DetectedAnomaly.baseline_stddev detected);
  sigma ← store_flt 8 4 4 (DetectedAnomaly.sigma detected);
  t ← asks now;
  add_row (λ id, {|
    MetricAnomaly.id := id;
    MetricAnomaly.tenant_id := tenant_id;
    MetricAnomaly.campaign_id := campaign_id;
    MetricAnomaly.metric := value (DetectedAnomaly.metric detected);
    MetricAnomaly.window_start := DetectedAnomaly.window_start detected;
    MetricAnomaly.window_end := DetectedAnomaly.window_end detected;
    MetricAnomaly.observed_value := observed;
    MetricAnomaly.baseline_median := m;
    MetricAnomaly.baseline_stddev := sd;
    MetricAnomaly.sigma := sigma;
    MetricAnomaly.severity := DetectedAnomaly.severity detected;
    MetricAnomaly.dismissed_at := None;
    MetricAnomaly.dismissed_by := None;
    MetricAnomaly.created_at := t |}).

(** One turn of the loop over the hot metrics. *)
Definition detect_metric (campaign_id tenant_id : N) (now : Z) (metric : EventKind.t)
    : M (list MetricAnomaly.t) :=
  detected ← _detect_one tenant_id campaign_id metric now;
  match detected with
  | None => mret []
  | Some detected =>
      active ← select (silences tenant_id campaign_id metric now);
      if negb (active ==b []) then mret []
      else
        row ← add_anomaly tenant_id campaign_id detected;
        when (DetectedAnomaly.severity detected ==b "critical") (_notify_critical_anomaly row) ;;
        mret [row]
  end.

(** [app/analytics/anomaly.py] lines 85-140, [detect_anomalies]. *)
Definition detect_anomalies (campaign_id tenant_id : N) (now : Z) : M (list MetricAnomaly.t) :=
  rows ← mapM_ (detect_metric campaign_id tenant_id now) _HOT_METRICS;
  mret (mjoin rows).

(** ** Auto-pause and dismissal *)

(** The two most recent undismissed anomalies of a metric are both critical. *)
Definition two_critical (tenant_id campaign_id : N) (metric : EventKind.t) : M bool :=
  rows ← select (λ a, (MetricAnomaly.tenant_id a ==b tenant_id) &&
    (MetricAnomaly.campaign_id a ==b campaign_id) && (MetricAnomaly.metric a ==b value metric) &&
    (MetricAnomaly.dismissed_at a ==b None));
  let recent := take 2 (order_by_desc MetricAnomaly.created_at rows) in
  mret ((2 <=? length recent)%nat && forallb (λ r, MetricAnomaly.severity r ==b "critical") recent).

(** [app/analytics/anomaly.py] lines 290-326, [should_auto_pause]. *)
Definition should_auto_pause (tenant_id campaign_id : N) : M bool :=
  rows ← select (λ t, TenantComplianceSettings.tenant_id t ==b tenant_id);
  settings ← scalar_one_or_none rows;
  match settings with
  | Some t =>
      if TenantComplianceSettings.auto_pause_on_critical_anomaly t then
        fires ← mapM_ (two_critical tenant_id campaign_id) _CRITICAL_METRICS;
        mret (existsb id fires)
      else mret false
  | None => mret false
  end.

(** [app/analytics/anomaly.py] lines 329-344, [dismiss_anomaly]. *)
Definition dismiss_anomaly (anomaly_id dismissed_by : N) (now : Z) : M MetricAnomaly.t :=
  row ← get_row (R:=MetricAnomaly.t) anomaly_id;
  match row with
  | None => raise (LookupError ("metric_anomaly " +:+ uuid_str anomaly_id +:+ " not found"))
  | Some row =>
      assign row (λ a, a <| MetricAnomaly.dismissed_at := Some now |>
                         <| MetricAnomaly.dismissed_by := Some dismissed_by |>)
  end.
