(* ===== verification/Analytics.v ===== *)
(** * The analytics agent: src/app/agents/analytics.py, src/app/api/analytics.py

    The nightly pass over a campaign, and the endpoints on anomalies and
    recommendations. *)

From S2P Require Export Fixtures Agents Recommendations Anomaly.
From S2P Require Import SpendReconciliation PyDecimal.
Local Open Scope Z_scope.

(** [app/agents/analytics.py] lines 39-58, [ensure_analytics_agent]. *)
Definition ensure_analytics_agent : N → M Agent.t :=
  ensure_agent AgentKind.analytics_optimisation "Analytics & Optimisation".

(** [app/agents/analytics.py] lines 61-68, [AnalysisResult]. *)
Record AnalysisResult := {
  analysed_campaign : N;
  anomalies : list MetricAnomaly.t;
  recommendations : list OptimisationRecommendation.t;
  auto_paused : bool;
}.

(** The pause of [analyse_campaign]. *)
Definition auto_pause (tenant_id campaign_id : N) (anomalies : list MetricAnomaly.t) : M bool :=
  campaign ← get_row (R:=Campaign.t) campaign_id;
  match campaign with
  | Some campaign =>
      if Campaign.status campaign ==b CampaignStatus.paused then mret false
      else
        assign campaign (λ c, c <| Campaign.status := CampaignStatus.paused |>) ;;
        audit tenant_id "campaign" campaign_id "campaign_auto_paused"
          (Some [("status", j_enum (Campaign.status campaign))])
          (Some [("status", j_enum CampaignStatus.paused)])
          [("trigger", JStr "analytics_auto_pause");
           ("anomaly_ids", JList (j_uuid ∘ MetricAnomaly.id <$> anomalies))] ;;
        mret true
  | None => mret false
  end.

(** [app/agents/analytics.py] lines 71-119, [analyse_campaign]. *)
Definition analyse_campaign (tenant_id campaign_id : N) (now : Z) : M AnalysisResult :=
  anomalies ← detect_anomalies campaign_id tenant_id now;
  recommendations ← generate_recommendations tenant_id campaign_id now;
  fires ← (if anomalies ==b [] then mret false else should_auto_pause tenant_id campaign_id);
  paused ← (if fires : bool then auto_pause tenant_id campaign_id anomalies else mret false);
  mret {| analysed_campaign := campaign_id; anomalies := anomalies;
          recommendations := recommendations; auto_paused := paused |}.

(** ** Endpoints *)

(** [app/api/analytics.py] lines 49-71, [list_anomalies]. *)
Definition list_anomalies (campaign_id : N) (include_dismissed : bool) (user : AppUser.t)
    : M (list MetricAnomaly.t) :=
  tenant_campaign campaign_id user ;;
  rows ← select (λ a, (MetricAnomaly.campaign_id a ==b campaign_id) &&
    (include_dismissed || (MetricAnomaly.dismissed_at a ==b None)));
  mret (order_by_desc MetricAnomaly.created_at rows).

(** [app/api/analytics.py] lines 74-95, [dismiss_anomaly_endpoint]. *)
Definition dismiss_anomaly_endpoint (anomaly_id : N) (user : AppUser.t) : M MetricAnomaly.t :=
  anomaly ← get_row (R:=MetricAnomaly.t) anomaly_id;
  match anomaly with
  | None => raise (HTTPException 404 "anomaly not found")
  | Some anomaly =>
      if MetricAnomaly.dismissed_at anomaly ==b None then
        t ← asks now;
        dismiss_anomaly anomaly_id (AppUser.id user) t
      else mret anomaly
  end.

(** [app/api/analytics.py] lines 103-134, [list_recommendations]. *)
Definition list_recommendations (campaign_id : N) (min_uplift : dec) (include_low_uplift : bool)
    (user : AppUser.t) : M (list OptimisationRecommendation.t) :=
  tenant_campaign campaign_id user ;;
  rows ← select (λ r, (OptimisationRecommendation.campaign_id r ==b campaign_id) &&
    (include_low_uplift ||
     match OptimisationRecommendation.predicted_uplift r with
     | None => true
     | Some u => default false (dec_geb (dec_of_col 4 u) (pydec_of_dec min_uplift))
     end));
  mret (order_by_desc OptimisationRecommendation.created_at rows).

(** A recommendation that is still pending. *)
Definition pending_recommendation (recommendation_id : N) : M OptimisationRecommendation.t :=
  rec ← get_row (R:=OptimisationRecommendation.t) recommendation_id;
  match rec with
  | None => raise (HTTPException 404 "recommendation not found")
  | Some rec =>
      raise_if (OptimisationRecommendation.status rec !=b "pending")
        (HTTPException 409 ("recommendation is in status '" +:+ OptimisationRecommendation.status rec +:+ "'")) ;;
      mret rec
  end.

(** INSERT ... ON CONFLICT DO UPDATE of one allocation. *)
Definition upsert_allocated (campaign_id : N) (entry : N * pydec) : M () :=
  allocated ← store (numeric_column 14 2 entry.2);
  existing ← get_row (R:=CampaignChannelBudget.t) (campaign_id, entry.1);
  match existing with
  | Some _ =>
      update_row (R:=CampaignChannelBudget.t) (campaign_id, entry.1)
        (λ r, r <| CampaignChannelBudget.allocated := allocated |>)
  | None =>
      t ← asks now;
      put_row {| CampaignChannelBudget.campaign_id := campaign_id;
                 CampaignChannelBudget.channel_id := entry.1;
                 CampaignChannelBudget.allocated := allocated;
                 CampaignChannelBudget.spent := 0;
                 CampaignChannelBudget.updated_at := t |}
  end.

(** [proposal.get(k) or {}]. *)
Definition payload_of (k : string) (proposal : jdict) : exn + jdict :=
  match default JNull (dget k proposal) with
  | JObj o => inr o
  | v => if truthy v then inl (AttributeError "object has no attribute 'get'") else inr []
  end.

(** [UUID(v)]: [None] is a [TypeError] or a [ValueError]. A number or an object has no
    [replace] and raises past the handler. *)
Definition uuid_of_json (v : json) : exn + option N :=
  match v with
  | JStr s => inr (uuid_parse s)
  | _ => inl (AttributeError "object has no attribute 'replace'")
  end.

(** [Decimal(str(payload.get("new_allocation_amount") or "0"))]. *)
Definition new_allocation (payload : jdict) : M pydec :=
  let v := default JNull (dget "new_allocation_amount" payload) in
  calc (dec_parse (json_str (if truthy v then v else JStr "0"))).

(** [app/api/analytics.py] lines 181-226, [_apply_budget_shift]. *)
Definition _apply_budget_shift (rec : OptimisationRecommendation.t) : M () :=
  let proposal := OptimisationRecommendation.proposal rec in
  from_payload ← of_sum (payload_of "from" proposal);
  to_payload ← of_sum (payload_of "to" proposal);
  let from_channel_id := default JNull (dget "channel_id" from_payload) in
  let to_channel_id := default JNull (dget "channel_id" to_payload) in
  if negb (truthy from_channel_id) || negb (truthy to_channel_id) then mret ()
  else
    from_id ← of_sum (uuid_of_json from_channel_id);
    match from_id with
    | None => mret ()
    | Some from_id =>
        to_id ← of_sum (uuid_of_json to_channel_id);
        match to_id with
        | None => mret ()
        | Some to_id =>
            new_from ← new_allocation from_payload;
            new_to ← new_allocation to_payload;
            foreach [(from_id, new_from); (to_id, new_to)]
              (upsert_allocated (OptimisationRecommendation.campaign_id rec))
        end
    end.

(** [app/api/analytics.py] lines 137-178, [accept_recommendation]. *)
Definition accept_recommendation (recommendation_id : N) (user : AppUser.t)
    : M OptimisationRecommendation.t :=
  rec ← pending_recommendation recommendation_id;
  when (OptimisationRecommendation.kind rec ==b "budget_shift") (_apply_budget_shift rec) ;;
  t ← asks now;
  rec ← assign rec (λ r, r <| OptimisationRecommendation.status := "applied" |>
                           <| OptimisationRecommendation.applied_at := Some t |>
                           <| OptimisationRecommendation.applied_by := Some (AppUser.id user) |>);
  audit (OptimisationRecommendation.tenant_id rec) "optimisation_recommendation"
    (OptimisationRecommendation.id rec) "recommendation_accepted" None None
    [("kind", JStr (OptimisationRecommendation.kind rec));
     ("predicted_uplift", JStr (from_option (λ u, dec_str (dec_of_col 4 u)) "None"
        (OptimisationRecommendation.predicted_uplift rec)))] ;;
  mret rec.

(** [app/api/analytics.py] lines 229-260, [reject_recommendation]. *)
Definition reject_recommendation (recommendation_id : N) (user : AppUser.t)
    : M OptimisationRecommendation.t :=
  rec ← pending_recommendation recommendation_id;
  rec ← assign rec (λ r, r <| OptimisationRecommendation.status := "rejected" |>);
  audit (OptimisationRecommendation.tenant_id rec) "optimisation_recommendation"
    (OptimisationRecommendation.id rec) "recommendation_rejected" None None
    [("kind", JStr (OptimisationRecommendation.kind rec))] ;;
  mret rec.

(** ** A campaign with two channels *)

Definition channel_row (id : N) (name : string) : Channel.t :=
  Channel.mk id 1 name ChannelPlatform.email [] true 0 0.

Definition spend_event (id : N) (channel : N) (kind : EventKind.t) (value : option Z) (t : Z) : AnalyticEvent.t :=
  AnalyticEvent.mk id 1 (Some 10%N) (Some channel) kind value [] None t.

Definition shift_db : db :=
  sample_db (sample_campaign CampaignStatus.live) []
    <| t_channel := {[ 41%N := channel_row 41 "Email"; 42%N := channel_row 42 "LinkedIn" ]} |>
    <| t_strategy_proposal := {[ 60%N := StrategyProposal.mk 60 1 10 1
         [("channels", JList [
            JObj [("name", JStr "Email"); ("allocation_pct", JInt 60); ("allocation_amount", JInt 600)];
            JObj [("name", JStr "LinkedIn"); ("allocation_pct", JInt 40); ("allocation_amount", JInt 400)]])]
         true "user" None [] 0 0 ]} |>
    <| t_analytic_event := list_to_map ((λ ev, (AnalyticEvent.id ev, ev)) <$> [
         spend_event 1 41 EventKind.spend (Some 1000000) (9 * day);
         spend_event 2 41 EventKind.click None (9 * day);
         spend_event 3 41 EventKind.click None (9 * day);
         spend_event 4 42 EventKind.spend (Some 1000000) (9 * day);
         spend_event 5 42 EventKind.click None (9 * day)]) |>.

Example shift_run :
  match (generate_recommendations 1 10 (10 * day) (demo_env (10 * day)) shift_db).2 with
  | inr [r] => OptimisationRecommendation.rationale r
  | _ => None
  end = Some ("Channel 'Email' cost-per-click is 50.0000 vs 'LinkedIn' at 100.0000 over the last 5 days (2.00"
    +:+ times_sign +:+ " ratio, confidence: high). Shifting 120.00 of 'LinkedIn's budget to 'Email' is "
    +:+ "projected to lift total clicks by 40.00%.").
Proof. vm_compute. reflexivity. Qed.
