(* ===== verification/AnomalyProofs.v ===== *)
(** * Properties of anomaly detection

    When a metric deviates, what a detection pass reports and writes, that it is not repeated, and where it falls short of its
    documentation. *)

From S2P Require Export Analytics.
From S2P Require Import PyDecimal.
Local Open Scope Z_scope.

(** ** Daily counts *)

Lemma group_by_day_positive events d n : (d, n) ∈ group_by_day events → 1 <= n.
Proof.
  unfold group_by_day. set (days := _ <$> events).
  intros (x & [= -> ->] & Hx)%list_elem_of_fmap.
  rewrite merge_sort_Permutation, elem_of_remove_dups in Hx.
  assert (x ∈ List.filter (λ y, y =? x) days) as Hin by (apply elem_of_bfilter; split; [done|apply Z.eqb_refl]).
  destruct (List.filter _ days); [by apply elem_of_nil in Hin|cbn; lia].
Qed.

Definition is_critical (m : EventKind.t) : bool := m ∈b _CRITICAL_METRICS.

Lemma detect_series_facts m events d :
  detect_series m (group_by_day events) = Some d →
  DetectedAnomaly.metric d = m ∧ 1 <= DetectedAnomaly.observed_value d ∧
  DetectedAnomaly.severity d = (if is_critical m then "critical" else "warning").
Proof.
  unfold detect_series. destruct (_ <? _)%nat; [done|].
  destruct (last _) as [[day value]|] eqn:Hl; [|done]. destruct (_ ==b []); [done|].
  destruct (sigma_of _ _ _); [|done]. cbn [mbind option_bind]. destruct (negb _); [done|]. intros [= <-].
  split_and!; [done| |done]. cbn. eapply group_by_day_positive, last_Some_elem_of. exact Hl.
Qed.

(** A series deviates: after at least thirteen days there is one whose count is more than three
    standard deviations of the days before from their median, or not that median when these are all
    alike. *)
Definition deviates (series : list (Z * Z)) : Prop :=
  ∃ before d n sigma, series = before ++ [(d, n)] ∧ (13 ≤ length before)%nat ∧
    sigma_of n (median (snd <$> before)) (pstdev (snd <$> before)) = Some sigma ∧ exceeds_threshold sigma = true.

Lemma detect_series_deviates m series : deviates series ↔ detect_series m series ≠ None.
Proof.
  unfold deviates, detect_series. split.
  - intros (before & d & n & sigma & -> & Hlen & Hs & Hx). rewrite length_app. cbn [length].
    destruct (Nat.ltb_spec (length before + 1) BASELINE_DAYS) as [Hlt|_]; [unfold BASELINE_DAYS in Hlt; lia|].
    rewrite last_snoc. replace (length before + 1 - 1)%nat with (length before) by lia.
    rewrite take_app_length, bool_decide_eq_false_2, Hs by (by intros ?%fmap_nil_inv; subst before; cbn in Hlen; lia).
    cbn [mbind option_bind]. by rewrite Hx.
  - destruct (Nat.ltb_spec (length series) BASELINE_DAYS) as [_|Hle]; [done|].
    destruct (last series) as [[d n]|] eqn:Hl; [|done]. apply last_Some in Hl as [before ->].
    rewrite length_app in *. cbn [length] in *. replace (length before + 1 - 1)%nat with (length before) by lia.
    rewrite take_app_length. destruct (_ ==b []); [done|]. destruct (sigma_of _ _ _) as [sigma|] eqn:Hs; [|done].
    cbn [mbind option_bind]. destruct (exceeds_threshold sigma) eqn:Hx; [|done]. intros _.
    exists before, d, n, sigma. unfold BASELINE_DAYS in Hle. split_and!; [done|lia|done|done].
Qed.

Lemma observed_column v z : 0 <= v → numeric_column 18 6 (dec_of_Z v) = Some z → z = v * 10 ^ 6.
Proof.
  intros Hv. unfold numeric_column, dec_of_Z. rewrite (proj2 (Z.ltb_ge v 0)) by done.
  unfold rescale. change (- (6) <=? 0) with true. cbv iota. rewrite Z2N.id by lia.
  rewrite Z.abs_eq by done. change (0 - - (6)) with 6. cbv zeta. destruct (_ <? _); congruence.
Qed.

(** ** One metric *)

Section pass.
Context (campaign_id tenant_id : N) (now : Z).

(** The days of the window that have events of a metric, with their counts. *)
Definition daily_series (s : db) (m : EventKind.t) : list (Z * Z) :=
  group_by_day (List.filter (λ ev, campaign_event s tenant_id campaign_id ev &&
    ((AnalyticEvent.event_type ev ==b m) &&
     (now - Z.of_nat BASELINE_DAYS * day <=? AnalyticEvent.event_at ev)))
    (snd <$> map_to_list (t_analytic_event s))).

(** What the events of a state show for a metric. *)
Definition detected (s : db) (m : EventKind.t) : option DetectedAnomaly.t := detect_series m (daily_series s m).

(** An anomaly of the metric of the last 24 hours that nobody has dismissed. *)
Definition silenced (s : db) (m : EventKind.t) : Prop :=
  ∃ k a, t_metric_anomaly s !! k = Some a ∧ silences tenant_id campaign_id m now a = true.

(** Nothing to report, or reported recently. *)
Definition quiet (s : db) (m : EventKind.t) : Prop := detected s m = None ∨ silenced s m.

(** A row for a metric. *)
Definition reports (s : db) (m : EventKind.t) (t : Z) (r : MetricAnomaly.t) : Prop :=
  ∃ d, detected s m = Some d ∧
    MetricAnomaly.tenant_id r = tenant_id ∧ MetricAnomaly.campaign_id r = campaign_id ∧
    MetricAnomaly.metric r = value m ∧ MetricAnomaly.created_at r = t ∧ MetricAnomaly.dismissed_at r = None ∧
    MetricAnomaly.observed_value r = DetectedAnomaly.observed_value d * 10 ^ 6 ∧
    10 ^ 6 <= MetricAnomaly.observed_value r ∧
    MetricAnomaly.severity r = (if is_critical m then "critical" else "warning").

(** The audit row that stands for the notification. *)
Definition notified (s : db) (r : MetricAnomaly.t) : Prop :=
  ∃ k l, t_audit_log s !! k = Some l ∧ (k < next_uuid s)%N ∧
    AuditLog.action l = "anomaly_notification_dispatched" ∧ AuditLog.entity_id l = MetricAnomaly.id r.

(** What detection leaves alone: the events and what links them to the campaign, and every row
    that had a key before. *)
Definition extends : relation db := λ s s',
  t_analytic_event s' = t_analytic_event s ∧ t_dispatch_attempt s' = t_dispatch_attempt s ∧
  t_content_asset s' = t_content_asset s ∧ (next_uuid s <= next_uuid s')%N ∧
  ∀ k, (k < next_uuid s)%N → t_metric_anomaly s' !! k = t_metric_anomaly s !! k ∧
                              t_audit_log s' !! k = t_audit_log s !! k.

#[global] Instance extends_preorder : PreOrder extends.
Proof.
  split; [by intros s; unfold extends; split_and!|].
  intros s1 s2 s3 (A1 & A2 & A3 & A4 & A5) (B1 & B2 & B3 & B4 & B5). unfold extends. split_and!; try congruence; [lia|].
  intros k Hk. destruct (A5 k Hk) as [<- <-]. apply B5. lia.
Qed.

Lemma detected_extends s s' m : extends s s' → detected s' m = detected s m.
Proof.
  intros (He & Hd & Ha & _). unfold detected, daily_series. rewrite He. erewrite bfilter_ext; [reflexivity|].
  intros ev _. cbv beta. unfold campaign_event, indirect_link. by rewrite Hd, Ha.
Qed.

Lemma bfilter_none {A} (p : A → bool) l : List.filter p l = [] → ∀ x, x ∈ l → p x = false.
Proof. intros H. by apply bfilter_nil_iff. Qed.

Lemma silenced_select s m :
  List.filter (silences tenant_id campaign_id m now) (snd <$> map_to_list (t_metric_anomaly s)) ≠ [] →
  silenced s m.
Proof.
  intros H. destruct (List.filter _ _) as [|a l] eqn:E; [done|].
  assert (a ∈ a :: l) as Ha by left. rewrite <- E in Ha. apply elem_of_bfilter in Ha as [Ha Hs].
  change (t_metric_anomaly s) with (rows (R:=MetricAnomaly.t) s) in Ha.
  rewrite elem_of_rows in Ha. destruct Ha as [k Hk]. by exists k, a.
Qed.

(** Nothing happens for a quiet metric. *)
Lemma quiet_run s m e : quiet s m → detect_metric campaign_id tenant_id now m e s = (s, inr []).
Proof.
  intros Hq. unfold detect_metric, _detect_one, _daily_counts, campaign_events.
  rewrite bind_assoc, bind_assoc. cbn [mbind M_bind gets]. unfold mbind, M_bind. cbn [gets mret M_ret].
  match goal with |- context [detect_series m ?x] => change (detect_series m x) with (detected s m) end.
  destruct Hq as [->|(k & a & Ha & Hs)]; [done|]. destruct (detected s m); [|done].
  cbn [select gets]. destruct (List.filter _ _) as [|b l] eqn:E; [|done].
  rewrite (bfilter_none _ _ E a) in Hs; [done|].
  change (t_metric_anomaly s) with (rows (R:=MetricAnomaly.t) s). rewrite elem_of_rows. by exists k.
Qed.

Lemma store_inr o e s s' z : store o e s = (s', inr z) → s' = s ∧ o = Some z.
Proof. destruct o; [|done]. by intros [= <- <-]. Qed.

Lemma store_flt_inr p c k x e s s' z : store_flt p c k x e s = (s', inr z) → s' = s.
Proof.
  unfold store_flt. intros (s1 & d & Hc & Hs)%bind_inr. apply store_inr in Hs as [-> _].
  destruct (_ ≫= dec_of_flt); [|done]. by injection Hc.
Qed.

(** The notification adds one audit row. *)
Lemma notify_inr b r e s s' u :
  when b (_notify_critical_anomaly r) e s = (s', inr u) →
  extends s s' ∧ t_metric_anomaly s' = t_metric_anomaly s ∧ (b = true → notified s' r).
Proof.
  intros [[-> Hrun]|[-> ->]]%when_inr; [|done].
  unfold _notify_critical_anomaly, audit, write_audit in Hrun. injection Hrun as <- _.
  split_and!; [|done|].
  - unfold extends. cbn. split_and!; try done; [lia|]. intros k Hk. split; [done|]. rewrite lookup_insert_ne by lia. done.
  - intros _. eexists (next_uuid s), _. cbn. rewrite lookup_insert_eq. split; [done|]. split; [lia|done].
Qed.

(** What a metric that is not quiet leads to. *)
Lemma detect_metric_inr s m e s' out :
  Db.now e = now → detect_metric campaign_id tenant_id now m e s = (s', inr out) →
  (s' = s ∧ out = [] ∧ quiet s m) ∨
  (∃ r, out = [r] ∧ ¬ silenced s m ∧ reports s m now r ∧ MetricAnomaly.id r = next_uuid s ∧
     t_metric_anomaly s' = <[next_uuid s := r]> (t_metric_anomaly s) ∧ extends s s' ∧
     (next_uuid s < next_uuid s')%N ∧ (is_critical m = true → notified s' r)).
Proof.
  intros Hnow Hrun. unfold detect_metric, _detect_one, _daily_counts, campaign_events in Hrun. inv_run.
  match type of Hrun with context [detect_series m ?x] => change (detect_series m x) with (detected s m) in Hrun end.
  destruct (detected s m) as [d|] eqn:Hd; [|inv_run; left; split_and!; [done|done|by left]]. inv_run.
  destruct (List.filter _ _) as [|b l] eqn:E in Hrun; cbn [negb] in Hrun.
  2: { destruct (negb _) eqn:Hn in Hrun; [|by rewrite bool_decide_eq_false_2 in Hn].
       inv_run. left. split_and!; [done|done|]. right. apply silenced_select. by rewrite E. }
  rewrite bool_decide_eq_true_2 in Hrun by done. cbn [negb] in Hrun. unfold add_anomaly in Hrun. inv_run.
  repeat match goal with
  | H : store _ _ _ = _ |- _ => apply store_inr in H as [-> ?]
  | H : store_flt _ _ _ _ _ _ = _ |- _ => apply store_flt_inr in H as ->
  end.
  match goal with H : add_row _ _ _ = _ |- _ => rewrite add_row_run in H; injection H as <- <- end.
  match goal with H : when _ _ _ _ = _ |- _ => apply notify_inr in H as (Hext & Ha & Hn) end.
  unfold detected, daily_series in Hd. pose proof (detect_series_facts _ _ _ Hd) as (Hm & Hobs & Hsev).
  change (detected s m = Some d) in Hd. right. eexists. split; [done|]. split_and!.
  - intros (k & a & Hk & Hs). rewrite (bfilter_none _ _ E a) in Hs; [done|].
    change (t_metric_anomaly s) with (rows (R:=MetricAnomaly.t) s). rewrite elem_of_rows. by exists k.
  - exists d. cbn. match goal with H : numeric_column _ _ _ = Some _ |- _ => apply observed_column in H as ->; [|lia] end.
    split_and!; try done; [by rewrite Hm|lia].
  - done.
  - by rewrite Ha.
  - etrans; [|exact Hext]. unfold extends. cbn. split_and!; try done; [lia|].
    intros k Hk. split; [|done]. rewrite lookup_insert_ne by lia. done.
  - destruct Hext as (_ & _ & _ & Hnext & _). cbn in Hnext. lia.
  - rewrite Hsev in Hn. intros Hc. apply Hn. by rewrite Hc.
Qed.

(** ** The pass *)

(** Every key of the table has been handed out. *)
Definition fresh (s : db) : Prop := ∀ k r, t_metric_anomaly s !! k = Some r → (k < next_uuid s)%N.

Lemma silenced_extends s s' m : fresh s → extends s s' → silenced s m → silenced s' m.
Proof.
  intros Hf (_ & _ & _ & _ & Hk) (k & a & Ha & Hs). exists k, a. split; [|done].
  by destruct (Hk k (Hf _ _ Ha)) as [-> _].
Qed.

Lemma quiet_extends s s' m : fresh s → extends s s' → quiet s m → quiet s' m.
Proof.
  intros Hf He [Hd|Hs]; [left; by rewrite (detected_extends _ _ _ He)|right; by eapply silenced_extends].
Qed.

Lemma notified_extends s s' r : extends s s' → notified s r → notified s' r.
Proof.
  intros (_ & _ & _ & Hn & Hk) (k & l & Hl & Hlt & Hrest). exists k, l. destruct (Hk k Hlt) as [_ ->].
  split_and!; try done; try lia; by apply Hrest.
Qed.

Lemma fresh_add s s' r :
  fresh s → t_metric_anomaly s' = <[next_uuid s := r]> (t_metric_anomaly s) → (next_uuid s < next_uuid s')%N →
  fresh s'.
Proof.
  intros Hf Hs Hn k a. rewrite Hs. destruct (decide (k = next_uuid s)) as [->|Hne]; [done|].
  rewrite lookup_insert_ne by done. intros Ha%Hf. lia.
Qed.

(** A report silences its metric. *)
Lemma reports_silence s s' m r :
  reports s m now r → t_metric_anomaly s' !! MetricAnomaly.id r = Some r → silenced s' m.
Proof.
  intros (d & _ & Ht & Hc & Hm & Hat & Hdis & _) Hr. exists (MetricAnomaly.id r), r. split; [done|].
  unfold silences. rewrite Ht, Hc, Hm, Hat, Hdis, !bool_decide_eq_true_2 by done.
  cbn [andb]. rewrite andb_true_r. apply Z.leb_le. assert (0 <= SILENCE_BETWEEN_FIRES) by by vm_compute. lia.
Qed.

(** A report of another metric silences nothing. *)
Lemma silenced_before s s' m m' r :
  m' ≠ m → reports s m now r → t_metric_anomaly s' = <[next_uuid s := r]> (t_metric_anomaly s) →
  silenced s' m' → silenced s m'.
Proof.
  intros Hne (d & _ & _ & _ & Hm & _) Hs (k & a & Ha & Hsil). rewrite Hs in Ha.
  apply lookup_insert_Some in Ha as [[_ <-]|[_ Ha]]; [|by exists k, a].
  unfold silences in Hsil. rewrite Hm in Hsil. rewrite (bool_decide_eq_false_2 (value m = value m')) in Hsil.
  - by rewrite andb_false_r in Hsil.
  - intros E%value_inj. by apply Hne.
Qed.

(** The loop over metrics. *)
Lemma detect_loop ms e s s' rows :
  Db.now e = now → fresh s → NoDup ms →
  mapM_ (detect_metric campaign_id tenant_id now) ms e s = (s', inr rows) →
  extends s s' ∧ fresh s' ∧ (∀ m, m ∈ ms → quiet s' m) ∧
  (∀ k r, t_metric_anomaly s' !! k = Some r → t_metric_anomaly s !! k = Some r ∨ r ∈ mjoin rows) ∧
  (∀ r, r ∈ mjoin rows → t_metric_anomaly s' !! MetricAnomaly.id r = Some r ∧
     ∃ m, m ∈ ms ∧ ¬ silenced s m ∧ reports s m now r ∧ (is_critical m = true → notified s' r)) ∧
  NoDup (MetricAnomaly.metric <$> mjoin rows) ∧
  (∀ m, m ∈ ms → quiet s m ∨ ∃ r, r ∈ mjoin rows ∧ MetricAnomaly.metric r = value m).
Proof.
  intros Hnow. revert s rows. induction ms as [|m ms IH]; intros s rows Hf Hnd Hrun.
  { injection Hrun as <- <-. split_and!; try done; [by intros ? ?%elem_of_nil|by left|by intros ? ?%elem_of_nil|constructor|by intros ? ?%elem_of_nil]. }
  apply NoDup_cons in Hnd as [Hm Hnd]. cbn [mapM_] in Hrun.
  apply bind_inr in Hrun as (s1 & out & H1 & Hrun). apply bind_inr in Hrun as (s2 & outs & H2 & Hrun).
  injection Hrun as -> <-.
  apply (detect_metric_inr _ _ _ _ _ Hnow) in H1 as [(-> & -> & Hq)|(r & -> & Hns & Hrep & Hid & Hrow & Hext & Hlt & Hnot)].
  - destruct (IH _ _ Hf Hnd H2) as (He & Hf' & Hqs & Hold & Hnew & HN & Hall). split_and!; try done.
    + intros x [->|Hx]%elem_of_cons; [exact (quiet_extends _ _ _ Hf He Hq)|by apply Hqs].
    + intros x Hx. destruct (Hnew x Hx) as (? & m' & ? & Hrest). split; [done|]. exists m'. split; [by right|done].
    + intros x [->|Hx]%elem_of_cons; [by left|by apply Hall].
  - pose proof (fresh_add _ _ _ Hf Hrow Hlt) as Hf1.
    destruct (IH _ _ Hf1 Hnd H2) as (He & Hf' & Hqs & Hold & Hnew & HN & Hall).
    assert (t_metric_anomaly s' !! MetricAnomaly.id r = Some r) as Hr'.
    { destruct He as (_ & _ & _ & _ & Hk). destruct (Hk (MetricAnomaly.id r)) as [-> _]; [by rewrite Hid|].
      by rewrite Hrow, Hid, lookup_insert_eq. }
    split_and!.
    + by trans s1.
    + done.
    + intros x [->|Hx]%elem_of_cons; [right; exact (reports_silence _ _ _ _ Hrep Hr')|by apply Hqs].
    + intros k x Hx. destruct (Hold k x Hx) as [Hk|Hx']; [|right; by right].
      rewrite Hrow in Hk. destruct (decide (k = next_uuid s)) as [->|Hne].
      * rewrite lookup_insert_eq in Hk. injection Hk as <-. right. by left.
      * rewrite lookup_insert_ne in Hk by done. by left.
    + intros x [->|Hx]%elem_of_cons.
      * split; [done|]. exists m. split_and!; try done; [by left|]. intros Hc. eapply notified_extends; [exact He|auto].
      * destruct (Hnew x Hx) as (? & m' & Hm' & Hns' & Hrep' & Hnot'). split; [done|]. exists m'.
        split_and!; [by right| | |done].
        -- intros Hsil. apply Hns'. exact (silenced_extends _ _ _ Hf Hext Hsil).
        -- destruct Hrep' as (d & Hd & Hrest). exists d. split; [|done]. by rewrite <- (detected_extends _ _ _ Hext).
    + cbn. apply NoDup_cons. split; [|done]. intros (x & Hx & Hin)%list_elem_of_fmap.
      destruct (Hnew x Hin) as (_ & m' & Hm' & _ & (d' & _ & _ & _ & Hmx & _) & _).
      destruct Hrep as (d & _ & _ & _ & Hmr & _). rewrite Hmr, Hmx in Hx. by apply value_inj in Hx as ->.
    + intros x [->|Hx]%elem_of_cons.
      * right. exists r. split; [by left|]. by destruct Hrep as (d & _ & _ & _ & Hmr & _).
      * destruct (Hall x Hx) as [[Hd|Hsil]|(r' & Hin & Hmr)]; [left; left|left; right|right].
        -- by rewrite <- (detected_extends _ _ _ Hext).
        -- assert (x ≠ m) as Hxm by (by intros ->). exact (silenced_before s s1 m x r Hxm Hrep Hrow Hsil).
        -- exists r'. split; [by right|done].
Qed.

Lemma quiet_loop ms e s :
  (∀ m, m ∈ ms → quiet s m) →
  mapM_ (detect_metric campaign_id tenant_id now) ms e s = (s, inr ((λ _, []) <$> ms)).
Proof.
  induction ms as [|m ms IH]; intros Hq; [done|]. cbn [mapM_].
  rewrite (bind_ok _ _ _ _ _ _ (quiet_run _ _ e (Hq m ltac:(left)))).
  rewrite (bind_ok _ _ _ _ _ _ (IH (λ x Hx, Hq x (list_elem_of_further _ _ _ Hx)))). done.
Qed.
End pass.

Lemma mjoin_nils {A B} (l : list A) : mjoin ((λ _, @nil B) <$> l) = [].
Proof. induction l as [|x l IH]; [done|]. exact IH. Qed.

(** C34: a detection pass. It reports a hot metric exactly when its daily counts deviate and it is not
    silenced, that is, when no anomaly of it from the last 24 hours is still undismissed (a dismissed one does
    not silence, whatever is said of it: [dismissed_fires_again]). Every anomaly it returns is a row of the
    table; its observed count is at least one, it is critical exactly for unsubscribes, bounces and spam
    complaints, and then it is notified. There is one per metric at most, nothing else is added
    to the table and no earlier row of it changes. Running the pass again at the same time
    reports nothing and changes nothing. *)
Theorem detect_anomalies_spec campaign_id tenant_id e s s' out :
  fresh s → detect_anomalies campaign_id tenant_id (now e) e s = (s', inr out) →
  (∀ m, m ∈ _HOT_METRICS →
     (deviates (daily_series campaign_id tenant_id (now e) s m) ∧ ¬ silenced campaign_id tenant_id (now e) s m ↔
      ∃ r, r ∈ out ∧ MetricAnomaly.metric r = value m)) ∧
  (∀ k r, t_metric_anomaly s !! k = Some r → t_metric_anomaly s' !! k = Some r) ∧
  (∀ k r, t_metric_anomaly s' !! k = Some r → t_metric_anomaly s !! k = Some r ∨ r ∈ out) ∧
  (∀ r, r ∈ out → t_metric_anomaly s' !! MetricAnomaly.id r = Some r ∧
     ∃ m, m ∈ _HOT_METRICS ∧ ¬ silenced campaign_id tenant_id (now e) s m ∧
       reports campaign_id tenant_id (now e) s m (now e) r ∧
       (is_critical m = true → notified s' r)) ∧
  NoDup (MetricAnomaly.metric <$> out) ∧
  ∀ e2, detect_anomalies campaign_id tenant_id (now e) e2 s' = (s', inr []).
Proof.
  intros Hf Hrun. unfold detect_anomalies in Hrun. apply bind_inr in Hrun as (s1 & rows & Hloop & Hrun).
  injection Hrun as -> <-.
  assert (NoDup _HOT_METRICS) as Hnd by (apply (bool_decide_eq_true_1 _); by vm_compute).
  destruct (detect_loop _ _ _ _ e s s' rows eq_refl Hf Hnd Hloop) as (He & Hf' & Hq & Hold & Hnew & HN & Hall).
  split_and!; try done.
  - intros m Hm. rewrite (detect_series_deviates m). split.
    + intros [Hd Hs]. by destruct (Hall m Hm) as [[?|?]|?].
    + intros (r & Hr & Hmr). destruct (Hnew r Hr) as (_ & m' & _ & Hs & (d & Hd & _ & _ & Hmr' & _) & _).
      rewrite Hmr in Hmr'. apply value_inj in Hmr' as <-. split; [|done].
      change (detected campaign_id tenant_id (now e) s m ≠ None). by rewrite Hd.
  - intros k r Hk. destruct He as (_ & _ & _ & _ & Hkeep). by destruct (Hkeep k (Hf _ _ Hk)) as [-> _].
  - intros e2. unfold detect_anomalies. rewrite (bind_ok _ _ _ _ _ _ (quiet_loop _ _ _ _ e2 s' Hq)).
    by rewrite mjoin_nils.
Qed.

(** ** Fourteen days of bounces, the last with two *)

Definition bounce (id : N) (t : Z) : AnalyticEvent.t :=
  AnalyticEvent.mk id 1 (Some 10%N) None EventKind.bounce None [] None t.

(** One bounce on each day from 0 to 13, and [extra] more on the last. *)
Definition bounces (extra : nat) : list AnalyticEvent.t :=
  ((λ i : nat, bounce (N.of_nat i) (Z.of_nat i * day + hour)) <$> seq 0 14) ++
  ((λ i : nat, bounce (N.of_nat (100 + i)) (13 * day + 2 * hour)) <$> seq 0 extra).

Definition anomaly_db (events : list AnalyticEvent.t) : db :=
  sample_db (sample_campaign CampaignStatus.live) []
    <| t_analytic_event := list_to_map ((λ ev, (AnalyticEvent.id ev, ev)) <$> events) |>
    <| next_uuid := 100000%N |>.

Definition noon : env := demo_env (13 * day + 12 * hour).

Lemma detect_anomalies_spec_witness :
  ∃ s' r, detect_anomalies 10 1 (now noon) noon (anomaly_db (bounces 1)) = (s', inr [r]) ∧
    MetricAnomaly.severity r = "critical" ∧ MetricAnomaly.sigma r = 99990000 ∧
    detect_anomalies 10 1 (now noon) noon s' = (s', inr []).
Proof.
  assert (fresh (anomaly_db (bounces 1))) as Hf by (intros k r Hr; discriminate Hr).
  destruct (run_returns (detect_anomalies 10 1 (now noon)) noon (anomaly_db (bounces 1)))
    as (s' & out & Hrun); [by vm_compute|].
  destruct (detect_anomalies_spec 10 1 noon _ s' out Hf Hrun) as (_ & _ & _ & _ & _ & Htwice).
  assert (match (detect_anomalies 10 1 (now noon) noon (anomaly_db (bounces 1))).2 with
          | inr [r] => (MetricAnomaly.severity r ==b "critical") && (MetricAnomaly.sigma r =? 99990000)
          | _ => false
          end = true) as H by by vm_compute.
  rewrite Hrun in H. cbn [snd] in H. destruct out as [|r [|]]; [done| |done]. reflect_bools.
  exists s', r. split_and!; [exact Hrun|done|done|apply Htwice].
Defined.

(** Dismissing does not silence. The pass looks only for undismissed anomalies, so after an
    administrator dismisses the anomaly the next pass reports it again, at once. *)
Theorem dismissed_fires_again :
  ∃ s1 r s2 d s3 r',
    detect_anomalies 10 1 (now noon) noon (anomaly_db (bounces 1)) = (s1, inr [r]) ∧
    dismiss_anomaly_endpoint (MetricAnomaly.id r) (sample_user UserRole.admin) noon s1 = (s2, inr d) ∧
    detect_anomalies 10 1 (now noon) noon s2 = (s3, inr [r']) ∧
    MetricAnomaly.metric r' = MetricAnomaly.metric r.
Proof. do 6 eexists. split_and!; [by vm_compute|by vm_compute|by vm_compute|by vm_compute]. Qed.

(** A spike that is large enough is not recorded. The deviation is stored with four digits
    before the point; beyond, the insert fails, and with it the pass over every metric. *)
Theorem large_spike_fails :
  let events := bounce 99 (12 * day + 2 * hour) :: bounces 2700 in
  (detect_anomalies 10 1 (now noon) noon (anomaly_db events)).2 = inl (OtherError "DataError").
Proof. by vm_compute. Qed.
