(* ===== verification/AbSignificance.v ===== *)
(** * A/B significance: src/app/tools/ab_testing.py and src/app/ab_testing/significance.py

    The statistics of two arms and the evaluator that applies their verdict to a running test.
    The arithmetic is binary64 ([Flt]); [erf], [log] and [pow] are the C library's functions,
    [pow] with the OverflowError Python makes of its range errors. *)

From Stdlib Require Import Floats.SpecFloat.
From S2P Require Export AbTesting KpiRollup AbTestProofs.
From S2P Require Import PyDecimal Anomaly.
Local Open Scope Z_scope.

(** ** Floats that can fail *)

#[local] Instance result_ret : MRet (sum exn) := λ A a, inr a.
#[local] Instance result_bind : MBind (sum exn) := λ A B f r,
  match r with inl x => inl x | inr a => f a end.

Definition f0 : flt := S754_zero false.
Definition f1 : flt := flt_of_Z 1.
(** The literal [m * 10 ^ e]. *)
Definition lit (m e : Z) : flt := flt_of_dec (Dec m e).

(** [a / b] on floats. *)
Definition flt_truediv (a b : flt) : exn + flt :=
  if flt_eqb b f0 then inl (OtherError "ZeroDivisionError") else inr (flt_div a b).
Definition flt_neg (x : flt) : flt := SFopp x.
Definition flt_lt (a b : flt) : bool := flt_gt b a.
Definition flt_le (a b : flt) : bool := SFleb a b.

(** [math.sqrt(x)]. *)
Definition math_sqrt (x : flt) : exn + flt :=
  if flt_lt x f0 then inl (ValueError "math domain error") else inr (SFsqrt prec emax x).

(** [math.ceil(x)]. *)
Definition math_ceil (x : flt) : exn + Z :=
  match x with
  | S754_zero _ => inr 0
  | S754_finite s m e =>
      let v := if s then Zneg m else Zpos m in
      inr (if 0 <=? e then v * 2 ^ e else - ((- v) / 2 ^ (- e)))
  | S754_infinity _ => inl (OtherError "OverflowError")
  | S754_nan => inl (ValueError "cannot convert float NaN to integer")
  end.

(** [((((c0 * x + c1) * x + c2) ...] *)
Definition horner (x : flt) (cs : list flt) : flt :=
  match cs with
  | [] => f0
  | c :: cs => foldl (λ acc c, flt_add (flt_mul acc x) c) c cs
  end.

(** ** The verdict *)

Record ab_result := {
  p_value : flt;
  r_lift : flt;
  confidence_interval : flt * flt;
  r_decision : string;
  winner_arm : option string;
  min_n_for_power : option Z;
  r_reason : option string;
  degrees_of_freedom : option (flt + Z);
}.

(** [app/tools/ab_testing.py] lines 285-295, [_inconclusive]. *)
Definition _inconclusive (reason : string) (lift : flt) : ab_result := {|
  p_value := f1;
  r_lift := lift;
  confidence_interval := (f0, f0);
  r_decision := "inconclusive";
  winner_arm := None;
  min_n_for_power := None;
  r_reason := Some reason;
  degrees_of_freedom := None |}.

Section tool.
Context (erf log : flt → flt) (pow : flt → flt → exn + flt).

(** [app/tools/ab_testing.py] lines 48-50, [_normal_cdf]. *)
Definition _normal_cdf (z : flt) : flt :=
  flt_mul (lit 5 (-1)) (flt_add f1 (erf (flt_div z (SFsqrt prec emax (flt_of_Z 2))))).

Definition coef_a : list flt :=
  [lit (-3969683028665376) (-14); lit 2209460984245205 (-13); lit (-2759285104469687) (-13);
   lit 1383577518672690 (-13); lit (-3066479806614716) (-14); lit 2506628277459239 (-15)].
Definition coef_b : list flt :=
  [lit (-5447609879822406) (-14); lit 1615858368580409 (-13); lit (-1556989798598866) (-13);
   lit 6680131188771972 (-14); lit (-1328068155288572) (-14)].
Definition coef_c : list flt :=
  [lit (-7784894002430293) (-18); lit (-3223964580411365) (-16); lit (-2400758277161838) (-15);
   lit (-2549732539343734) (-15); lit 4374664141464968 (-15); lit 2938163982698783 (-15)].
Definition coef_d : list flt :=
  [lit 7784695709041462 (-18); lit 3224671290700398 (-16); lit 2445134137142996 (-15);
   lit 3754408661907416 (-15)].

(** [app/tools/ab_testing.py] lines 65-118, [_inv_norm_cdf]. *)
Definition _inv_norm_cdf (p : flt) : exn + flt :=
  if negb (flt_lt f0 p && flt_lt p f1) then inl (ValueError "p must be in (0, 1)")
  else
    let p_low := lit 2425 (-5) in
    let p_high := flt_sub f1 p_low in
    if flt_lt p p_low then
      q ← math_sqrt (flt_mul (flt_of_Z (-2)) (log p));
      flt_truediv (horner q coef_c) (flt_add (flt_mul (horner q coef_d) q) f1)
    else if flt_le p p_high then
      let q := flt_sub p (lit 5 (-1)) in
      let r := flt_mul q q in
      flt_truediv (flt_mul (horner r coef_a) q) (flt_add (flt_mul (horner r coef_b) r) f1)
    else
      q ← math_sqrt (flt_mul (flt_of_Z (-2)) (log (flt_sub f1 p)));
      flt_truediv (flt_neg (horner q coef_c)) (flt_add (flt_mul (horner q coef_d) q) f1).

(** [app/tools/ab_testing.py] lines 53-62, [_z_critical]. *)
Definition _z_critical (confidence : flt) : exn + flt :=
  let alpha := flt_sub f1 confidence in
  _inv_norm_cdf (flt_sub f1 (flt_div alpha (flt_of_Z 2))).

(** [app/tools/ab_testing.py] lines 121-122, [_two_tailed_p_from_z]. *)
Definition _two_tailed_p_from_z (z : flt) : flt :=
  flt_mul (flt_of_Z 2) (flt_sub f1 (_normal_cdf (flt_abs z))).

(** [p * (1 - p)]. *)
Definition spread (p : flt) : flt := flt_mul p (flt_sub f1 p).

(** [app/tools/ab_testing.py] lines 130-148, [_min_n_for_proportion_power]. *)
Definition _min_n_for_proportion_power (p_a p_b confidence : flt) : exn + Z :=
  if flt_eqb p_a p_b then inr 10000000
  else
    z_alpha ← _z_critical confidence;
    z_beta ← _inv_norm_cdf (lit 8 (-1));
    let pooled := flt_div (flt_add p_a p_b) (flt_of_Z 2) in
    sa ← math_sqrt (flt_mul (flt_mul (flt_of_Z 2) pooled) (flt_sub f1 pooled));
    sb ← math_sqrt (flt_add (spread p_a) (spread p_b));
    numerator ← pow (flt_add (flt_mul z_alpha sa) (flt_mul z_beta sb)) (flt_of_Z 2);
    denom ← pow (flt_sub p_a p_b) (flt_of_Z 2);
    if flt_eqb denom f0 then inr 10000000
    else
      n ← math_ceil (flt_div numerator denom);
      inr (Z.max 1 n).

(** [max(x, 0.0)]. *)
Definition at_least_0 (x : flt) : flt := if flt_gt f0 x then f0 else x.

(** [app/tools/ab_testing.py] lines 156-224, [_two_proportion_test]. *)
Definition _two_proportion_test (n_a : Z) (x_a : flt) (n_b : Z) (x_b : flt) (confidence : flt)
    : exn + ab_result :=
  if (n_a <=? 0) || (n_b <=? 0) then inr (_inconclusive "zero_sample" f0)
  else
    let p_a := flt_div x_a (flt_of_Z n_a) in
    let p_b := flt_div x_b (flt_of_Z n_b) in
    let pooled := flt_div (flt_add x_a x_b) (flt_of_Z (n_a + n_b)) in
    denom ← math_sqrt (at_least_0 (flt_mul (spread pooled)
      (flt_add (flt_div f1 (flt_of_Z n_a)) (flt_div f1 (flt_of_Z n_b)))));
    if flt_eqb denom f0 then inr (_inconclusive "degenerate" f0)
    else
      let z := flt_div (flt_sub p_b p_a) denom in
      let p_value := _two_tailed_p_from_z z in
      z_alpha ← _z_critical confidence;
      se_unpooled ← math_sqrt (flt_add (flt_div (spread p_a) (flt_of_Z n_a))
                                       (flt_div (spread p_b) (flt_of_Z n_b)));
      let delta := flt_sub p_b p_a in
      let interval := (flt_sub delta (flt_mul z_alpha se_unpooled),
                       flt_add delta (flt_mul z_alpha se_unpooled)) in
      let lift := if flt_gt p_a f0 then flt_div (flt_sub p_b p_a) p_a
                  else if flt_gt p_b f0 then S754_infinity false else f0 in
      let result decision arm min_n := {|
        p_value := p_value; r_lift := lift; confidence_interval := interval; r_decision := decision;
        winner_arm := arm; min_n_for_power := min_n; r_reason := None; degrees_of_freedom := None |} in
      if flt_lt p_value (flt_sub f1 confidence) && negb (flt_eqb z f0) then
        inr (result "winner" (Some (if flt_gt p_b p_a then "b" else "a")) None)
      else
        min_n ← _min_n_for_proportion_power p_a p_b confidence;
        inr (if (n_a <? min_n) || (n_b <? min_n) then result "inconclusive" None (Some min_n)
             else result "loser" None None).

(** [app/tools/ab_testing.py] lines 227-282, [_welch_t_test]. *)
Definition _welch_t_test (n_a : Z) (mean_a var_a : flt) (n_b : Z) (mean_b var_b : flt) (confidence : flt)
    : exn + ab_result :=
  if (n_a <? 2) || (n_b <? 2) then inr (_inconclusive "too_few_observations" f0)
  else
    let va := flt_div var_a (flt_of_Z n_a) in
    let vb := flt_div var_b (flt_of_Z n_b) in
    se ← math_sqrt (flt_add va vb);
    if flt_eqb se f0 then inr (_inconclusive "zero_variance" (flt_sub mean_b mean_a))
    else
      let t := flt_div (flt_sub mean_b mean_a) se in
      df_num ← pow (flt_add va vb) (flt_of_Z 2);
      va2 ← pow va (flt_of_Z 2);
      vb2 ← pow vb (flt_of_Z 2);
      let df_den := flt_add (flt_div va2 (flt_of_Z (n_a - 1))) (flt_div vb2 (flt_of_Z (n_b - 1))) in
      let df := if flt_gt df_den f0 then inl (flt_div df_num df_den) else inr (Z.max n_a n_b) in
      let p_value := _two_tailed_p_from_z t in
      z_alpha ← _z_critical confidence;
      let delta := flt_sub mean_b mean_a in
      let interval := (flt_sub delta (flt_mul z_alpha se), flt_add delta (flt_mul z_alpha se)) in
      let result decision arm := {|
        p_value := p_value; r_lift := delta; confidence_interval := interval; r_decision := decision;
        winner_arm := arm; min_n_for_power := None; r_reason := None; degrees_of_freedom := Some df |} in
      inr (if flt_lt p_value (flt_sub f1 confidence) && negb (flt_eqb t f0)
           then result "winner" (Some (if flt_gt mean_b mean_a then "b" else "a"))
           else result (if Z.max n_a n_b <? 30 then "inconclusive" else "loser") None).

(** One arm of the tool's input. *)
Record arm := { arm_n : Z; arm_x : flt; arm_mean : flt; arm_variance : flt }.

(** [app/tools/ab_testing.py] lines 343-367, [AbTestingTool.call]. *)
Definition call_ab_testing (arm_a arm_b : arm) (metric_kind : string) (confidence : flt) : exn + ab_result :=
  if metric_kind ==b "rate" then
    _two_proportion_test (arm_n arm_a) (arm_x arm_a) (arm_n arm_b) (arm_x arm_b) confidence
  else if metric_kind ==b "continuous" then
    _welch_t_test (arm_n arm_a) (arm_mean arm_a) (arm_variance arm_a)
                  (arm_n arm_b) (arm_mean arm_b) (arm_variance arm_b) confidence
  else inr (_inconclusive ("unsupported_metric_kind:" +:+ metric_kind) f0).

(** ** The evaluator *)

(** [app/ab_testing/significance.py] lines 59-75, [EvalResult]. *)
Record EvalResult := {
  e_ab_test_id : N;
  e_status : AbTestStatus.t;
  e_skipped : bool;
  e_skip_reason : option string;
  e_decision : option string;
  e_winner_id : option N;
  e_p_value : option flt;
  e_lift : option flt;
  e_sample_a : option (Z * Z);
  e_sample_b : option (Z * Z);
}.

Definition skipped_result (id : N) (st : AbTestStatus.t) (reason : string) : EvalResult := {|
  e_ab_test_id := id; e_status := st; e_skipped := true; e_skip_reason := Some reason;
  e_decision := None; e_winner_id := None; e_p_value := None; e_lift := None;
  e_sample_a := None; e_sample_b := None |}.

(** [app/ab_testing/significance.py] lines 41-41, [EVAL_THROTTLE]. *)
Definition EVAL_THROTTLE : Z := 15 * minute.

(** [app/ab_testing/significance.py] lines 46-56, [_METRIC_TO_EVENT_KIND]. *)
Definition _METRIC_TO_EVENT_KIND : list (string * EventKind.t) :=
  [("open", EventKind.open); ("open_rate", EventKind.open); ("click", EventKind.click);
   ("click_rate", EventKind.click); ("ctr", EventKind.click); ("conversion", EventKind.conversion);
   ("conversion_rate", EventKind.conversion); ("reply", EventKind.reply);
   ("unsubscribe", EventKind.unsubscribe)].

Definition event_kind_of (metric : string) : option EventKind.t :=
  snd <$> find (λ e : string * EventKind.t, e.1 ==b metric) _METRIC_TO_EVENT_KIND.

(** The recipients of an arm, and the events that count for it. *)
Definition arm_size (tenant_id ab_test_id variant_id : N) (s : db) : Z :=
  Z.of_nat (length (List.filter (λ r,
    (AbTestAssignment.tenant_id r ==b tenant_id) && (AbTestAssignment.ab_test_id r ==b ab_test_id) &&
    (AbTestAssignment.variant_id r ==b variant_id)) (snd <$> map_to_list (t_ab_test_assignment s)))).
Definition arm_events (tenant_id variant_id : N) (kind : EventKind.t) (s : db) : Z :=
  Z.of_nat (length (List.filter (λ ev,
    (AnalyticEvent.tenant_id ev ==b tenant_id) && (AnalyticEvent.event_type ev ==b kind) &&
    linked s tenant_id (λ d, DispatchAttempt.content_asset_id d ==b variant_id) ev)
    (snd <$> map_to_list (t_analytic_event s)))).

(** [app/ab_testing/significance.py] lines 218-275, [_arm_sample]. *)
Definition _arm_sample (tenant_id ab_test_id variant_id : N) (event_kind : EventKind.t) : M (Z * Z) :=
  n ← gets (arm_size tenant_id ab_test_id variant_id);
  x ← gets (arm_events tenant_id variant_id event_kind);
  mret (n, x).

(** [Decimal(str(round(x, 4)))] in the [Numeric(p, 4)] column; the column refuses an infinity. *)
Definition store_4 (p : Z) (x : flt) : M Z :=
  match flt_round_to 4 x ≫= dec_of_flt with
  | Some d => store (numeric_column p 4 d)
  | None => raise (OtherError "DataError")
  end.

(** The gates before anything is computed: a reason to skip, or the two arms and the kind. *)
Definition evaluation_gate (ab_test : AbTest.t) (now : Z) : string + (N * N * EventKind.t) :=
  let status := AbTest.status ab_test in
  if status ∈b [AbTestStatus.stopped; AbTestStatus.significant] then inl ("already_" +:+ value status)
  else if status !=b AbTestStatus.running then inl ("status_" +:+ value status)
  else if from_option (λ last, now - last <? EVAL_THROTTLE) false (AbTest.last_evaluated_at ab_test)
  then inl "throttled"
  else
    match AbTest.variant_a_id ab_test, AbTest.variant_b_id ab_test with
    | Some variant_a, Some variant_b =>
        match event_kind_of (AbTest.primary_metric ab_test) with
        | Some kind => inr (variant_a, variant_b, kind)
        | None => inl ("unsupported_metric:" +:+ AbTest.primary_metric ab_test)
        end
    | _, _ => inl "single_variant_test"
    end.

(** The test has run its hours. *)
Definition timed_out (ab_test : AbTest.t) (now : Z) : bool :=
  match AbTest.max_runtime_hours ab_test, AbTest.started_at ab_test with
  | Some h, Some t => h * hour <=? now - t
  | _, _ => false
  end.

(** [app/ab_testing/significance.py] lines 78-210, [evaluate_test]. *)
Definition evaluate_test (ab_test_id : N) (now : Z) (confidence : flt) : M EvalResult :=
  found ← get_row (R:=AbTest.t) ab_test_id;
  match found with
  | None => mret (skipped_result ab_test_id AbTestStatus.designing "not_found")
  | Some ab_test =>
      match evaluation_gate ab_test now with
      | inl reason => mret (skipped_result ab_test_id (AbTest.status ab_test) reason)
      | inr (variant_a, variant_b, event_kind) =>
          let tenant_id := AbTest.tenant_id ab_test in
          sample_a ← _arm_sample tenant_id (AbTest.id ab_test) variant_a event_kind;
          sample_b ← _arm_sample tenant_id (AbTest.id ab_test) variant_b event_kind;
          result ← of_sum (call_ab_testing
            {| arm_n := sample_a.1; arm_x := flt_of_Z sample_a.2; arm_mean := f0; arm_variance := f0 |}
            {| arm_n := sample_b.1; arm_x := flt_of_Z sample_b.2; arm_mean := f0; arm_variance := f0 |}
            "rate" confidence);
          lift ← store_4 8 (r_lift result);
          let winner_id := if r_decision result ==b "winner"
                           then Some (if winner_arm result ==b Some "b" then variant_b else variant_a)
                           else None in
          stored ← match winner_id with
                   | Some _ => c ← store_4 5 confidence; mret (Some c)
                   | None => mret (AbTest.confidence ab_test)
                   end;
          ab_test ← assign ab_test (λ t, t
            <| AbTest.last_evaluated_at := Some now |>
            <| AbTest.lift := Some lift |>
            <| AbTest.confidence := stored |>
            <| AbTest.winner_id := match winner_id with Some w => Some w | None => AbTest.winner_id t end |>
            <| AbTest.status := match winner_id with
                                | Some _ => AbTestStatus.significant
                                | None => if timed_out t now then AbTestStatus.inconclusive
                                          else AbTest.status t
                                end |>);
          mret {| e_ab_test_id := AbTest.id ab_test; e_status := AbTest.status ab_test; e_skipped := false;
                  e_skip_reason := None; e_decision := Some (r_decision result); e_winner_id := winner_id;
                  e_p_value := Some (p_value result); e_lift := Some (r_lift result);
                  e_sample_a := Some sample_a; e_sample_b := Some sample_b |}
      end
  end.
End tool.

(** * The verdict of an A/B test, proved

    The two-proportion test does not depend on which arm is called A, and the evaluator
    respects the life cycle of the test. *)

#[local] Existing Instances result_ret result_bind.

(** ** Binary64, up to sign *)

Lemma flt_add_comm x y : flt_add x y = flt_add y x.
Proof.
  unfold flt_add, SFadd. destruct x as [[]|[]| |s m e], y as [[]|[]| |s' m' e']; try done.
  by rewrite (Z.min_comm e' e), Z.add_comm.
Qed.

Lemma binary_round_aux_opp sx mx ex lx :
  binary_round_aux prec emax (negb sx) mx ex lx = SFopp (binary_round_aux prec emax sx mx ex lx).
Proof.
  unfold binary_round_aux. destruct (shr_fexp prec emax mx ex lx) as [mrs' e'].
  destruct (shr_fexp prec emax _ e' loc_Exact) as [mrs'' e'']. destruct (shr_m mrs''); try done.
  by destruct (e'' <=? emax - prec).
Qed.

Lemma binary_round_opp sx mx ex :
  binary_round prec emax (negb sx) mx ex = SFopp (binary_round prec emax sx mx ex).
Proof. unfold binary_round. destruct (shl_align _ _ _). apply binary_round_aux_opp. Qed.

Lemma binary_normalize_opp m e :
  binary_normalize prec emax (- m) e false =
  if m =? 0 then S754_zero false else SFopp (binary_normalize prec emax m e false).
Proof. destruct m; [done|exact (binary_round_opp false p e)|exact (binary_round_opp true p e)]. Qed.

Lemma flt_sub_swap x y :
  flt_sub y x = SFopp (flt_sub x y) ∨ ∃ s s', flt_sub x y = S754_zero s ∧ flt_sub y x = S754_zero s'.
Proof.
  unfold flt_sub, SFsub. destruct x as [[]|[]| |s m e], y as [[]|[]| |s' m' e']; simpl; eauto.
  all: try (left; by destruct s). all: try (left; by destruct s').
  rewrite (Z.min_comm e' e).
  match goal with |- binary_normalize _ _ (?a - ?b) _ _ = _ ∨ _ =>
    replace (a - b) with (- (b - a)) by (generalize a b; intros; ring);
    rewrite binary_normalize_opp; destruct (b - a =? 0) eqn:E end.
  - apply Z.eqb_eq in E. rewrite E. right. by exists false, false.
  - by left.
Qed.

Lemma flt_div_opp x y : flt_div (SFopp x) y = SFopp (flt_div x y).
Proof.
  unfold flt_div, SFdiv. destruct x as [[]|[]| |s m e], y as [[]|[]| |s' m' e']; try done; simpl.
  all: try (by destruct s). all: try (by destruct s').
  destruct (SFdiv_core_binary _ _ _ _ _ _) as [[q eq] l].
  replace (xorb (negb s) s') with (negb (xorb s s')) by (by destruct s, s').
  apply binary_round_aux_opp.
Qed.

Lemma flt_abs_opp x : flt_abs (SFopp x) = flt_abs x.
Proof. by destruct x as [[]|[]| |[] m e]. Qed.

Lemma flt_eqb_opp x : flt_eqb (SFopp x) f0 = flt_eqb x f0.
Proof. by destruct x as [[]|[]| |[] m e]. Qed.

(** A quotient of a zero, when it is a number. *)
Lemma flt_div_zero s c : flt_div (S754_zero s) c = S754_nan ∨ ∃ s', flt_div (S754_zero s) c = S754_zero s'.
Proof. destruct c as [?|?| |? ? ?]; simpl; eauto. Qed.

Lemma flt_div_zeros s s' c :
  flt_abs (flt_div (S754_zero s) c) = flt_abs (flt_div (S754_zero s') c) ∧
  flt_eqb (flt_div (S754_zero s) c) f0 = flt_eqb (flt_div (S754_zero s') c) f0.
Proof. by destruct c as [[]|[]| |[] m e], s, s'. Qed.

(** The statistic of the swapped arms differs by its sign only. *)
Lemma statistic_swap x y c :
  flt_abs (flt_div (flt_sub y x) c) = flt_abs (flt_div (flt_sub x y) c) ∧
  flt_eqb (flt_div (flt_sub y x) c) f0 = flt_eqb (flt_div (flt_sub x y) c) f0.
Proof.
  destruct (flt_sub_swap x y) as [->|(s & s' & -> & ->)]; [|apply flt_div_zeros].
  by rewrite flt_div_opp, flt_abs_opp, flt_eqb_opp.
Qed.

Lemma SFcompare_swap x y : SFcompare y x = CompOpp <$> SFcompare x y.
Proof.
  destruct x as [[]|[]| |[] m e], y as [[]|[]| |[] m' e']; try done; simpl;
    rewrite (Z.compare_antisym e e'); destruct (e ?= e'); try done; simpl;
    change (Pos.compare_cont Eq ?a ?b) with (Pos.compare a b); rewrite (Pos.compare_antisym m m');
    by destruct (Pos.compare m m').
Qed.

Lemma SFcompare_finite s m e s' m' e' :
  SFcompare (S754_finite s m e) (S754_finite s' m' e') = Some Eq → s = s' ∧ m = m' ∧ e = e'.
Proof.
  intros H. destruct s, s'; simpl in H; try discriminate;
    destruct (e ?= e') eqn:He; try discriminate; apply Z.compare_eq in He;
    injection H as H; (split; [done|]); (split; [|done]); apply Pos.compare_eq;
    unfold Pos.compare; by destruct (Pos.compare_cont Eq m m').
Qed.

(** Two floats that are not ordered strictly have no difference, or none that is a number. *)
Lemma SFcompare_sub x y :
  SFcompare x y = Some Eq ∨ SFcompare x y = None →
  flt_sub x y = S754_nan ∨ ∃ s, flt_sub x y = S754_zero s.
Proof.
  intros H. destruct x as [sx|sx| |s m e], y as [sy|sy| |s' m' e'].
  all: first [ by left
    | by repeat match goal with b : bool |- _ => destruct b end; destruct H; try discriminate; eauto
    | destruct H as [(<- & <- & <-)%SFcompare_finite|H] ].
  - right. exists false. unfold flt_sub, SFsub. by rewrite Z.sub_diag.
  - exfalso. simpl in H. destruct s, s', (e ?= e'); discriminate.
Qed.

(** Of two floats with a difference that is a number and not zero, one is greater. *)
Lemma flt_gt_swap x y :
  flt_sub x y ≠ S754_nan → (∀ s, flt_sub x y ≠ S754_zero s) → flt_gt x y = negb (flt_gt y x).
Proof.
  intros Hnan Hz. unfold flt_gt, SFltb. rewrite (SFcompare_swap x y).
  destruct (SFcompare x y) as [[]|] eqn:E; try done; exfalso.
  - destruct (SFcompare_sub x y) as [?|[s Hs]]; eauto. by eapply Hz.
  - destruct (SFcompare_sub x y) as [?|[s Hs]]; eauto. by eapply Hz.
Qed.

(** ** The test of two proportions *)

Section symmetry.
Context (erf log : flt → flt) (pow : flt → flt → exn + flt).
(** The C library: [erf(nan)] is a NaN, and a square does not depend on the sign. *)
Context (erf_nan : erf S754_nan = S754_nan).
Context (pow_even : ∀ x, pow (SFopp x) (flt_of_Z 2) = pow x (flt_of_Z 2)).

Lemma two_tailed_nan : _two_tailed_p_from_z erf S754_nan = S754_nan.
Proof.
  unfold _two_tailed_p_from_z, _normal_cdf. change (flt_abs S754_nan) with S754_nan.
  change (flt_div S754_nan ?y) with S754_nan. by rewrite erf_nan.
Qed.

Lemma flt_eqb_comm x y : flt_eqb x y = flt_eqb y x.
Proof. unfold flt_eqb, SFeqb. rewrite (SFcompare_swap y x). by destruct (SFcompare y x) as [[]|]. Qed.

Lemma min_n_swap p_a p_b c :
  _min_n_for_proportion_power log pow p_a p_b c = _min_n_for_proportion_power log pow p_b p_a c.
Proof.
  unfold _min_n_for_proportion_power. rewrite (flt_eqb_comm p_b p_a), (flt_add_comm p_b p_a),
    (flt_add_comm (spread p_b) (spread p_a)).
  assert (pow (flt_sub p_b p_a) (flt_of_Z 2) = pow (flt_sub p_a p_b) (flt_of_Z 2)) as ->; [|done].
  destruct (flt_sub_swap p_a p_b) as [->|(s & s' & -> & ->)]; [apply pow_even|].
  destruct s, s'; try done; symmetry; first [exact (pow_even (S754_zero false)) | exact (pow_even (S754_zero true))].
Qed.

(** What a verdict says, apart from the lift and its interval. *)
Definition verdict (v : ab_result) := (r_decision v, p_value v, winner_arm v, min_n_for_power v, r_reason v).
Definition swap_arm (a : string) : string := if bool_decide (a = "b") then "a" else "b".
Definition swapped (v : string * flt * option string * option Z * option string) :=
  let '(d, p, w, n, r) := v in (d, p, swap_arm <$> w, n, r).
Definition map_result {A B} (f : A → B) (r : exn + A) : exn + B :=
  match r with inl x => inl x | inr a => inr (f a) end.

(** Significance needs one rate to be above the other. *)
Lemma winner_ordered p_a p_b denom confidence :
  flt_lt (_two_tailed_p_from_z erf (flt_div (flt_sub p_b p_a) denom)) (flt_sub f1 confidence) = true →
  flt_eqb (flt_div (flt_sub p_b p_a) denom) f0 = false → flt_gt p_a p_b = negb (flt_gt p_b p_a).
Proof.
  intros Hlt Hz.
  assert (flt_div (flt_sub p_b p_a) denom ≠ S754_nan) as Hnan.
  { intros E. rewrite E, two_tailed_nan in Hlt. unfold flt_lt, flt_gt, SFltb in Hlt.
    by destruct (flt_sub f1 confidence) as [?|?| |? ? ?]. }
  assert (flt_gt p_b p_a = negb (flt_gt p_a p_b)) as ->; [|by rewrite negb_involutive].
  apply flt_gt_swap.
  - intros E. apply Hnan. by rewrite E.
  - intros s E. rewrite E in *. destruct (flt_div_zero s denom) as [?|[s' Hs]]; [done|].
    rewrite Hs in Hz. by destruct s'.
Qed.

(** A two-proportion test does not depend on which arm is called A: swapping the arms gives
    the same decision, p-value, sample-size advice and error, and names the other arm the
    winner. *)
Theorem two_proportion_symmetric n_a x_a n_b x_b confidence :
  map_result verdict (_two_proportion_test erf log pow n_b x_b n_a x_a confidence) =
  map_result (swapped ∘ verdict) (_two_proportion_test erf log pow n_a x_a n_b x_b confidence).
Proof.
  unfold _two_proportion_test. rewrite (orb_comm (n_b <=? 0)).
  destruct ((n_a <=? 0) || (n_b <=? 0)); [done|]. cbv zeta.
  rewrite (flt_add_comm x_b x_a), (Z.add_comm n_b n_a),
    (flt_add_comm (flt_div f1 (flt_of_Z n_b)) (flt_div f1 (flt_of_Z n_a))).
  set (p_a := flt_div x_a (flt_of_Z n_a)). set (p_b := flt_div x_b (flt_of_Z n_b)).
  rewrite (flt_add_comm (flt_div (spread p_b) _) (flt_div (spread p_a) _)).
  unfold mbind, result_bind.
  destruct (math_sqrt (at_least_0 _)) as [?|denom]; [done|].
  destruct (flt_eqb denom f0); [done|].
  destruct (_z_critical log confidence) as [?|z_alpha]; [done|].
  destruct (math_sqrt (flt_add _ _)) as [?|se]; [done|].
  assert (_two_tailed_p_from_z erf (flt_div (flt_sub p_a p_b) denom) =
          _two_tailed_p_from_z erf (flt_div (flt_sub p_b p_a) denom)) as Hp.
  { unfold _two_tailed_p_from_z. by destruct (statistic_swap p_b p_a denom) as [-> _]. }
  destruct (statistic_swap p_b p_a denom) as [_ ->]. rewrite Hp, (min_n_swap p_b p_a).
  destruct (flt_lt _ _ && _) eqn:Hsig.
  - apply andb_true_iff in Hsig as [Hlt Hz%negb_true_iff].
    unfold map_result, verdict, swapped, compose. simpl. rewrite (winner_ordered p_a p_b denom confidence Hlt Hz).
    by destruct (flt_gt p_b p_a).
  - destruct (_min_n_for_proportion_power _ _ _ _ _) as [?|n]; [done|].
    rewrite (orb_comm (n_b <? n)). by destruct (_ || _).
Qed.
End symmetry.

(** ** The evaluator *)

Section evaluator.
Context (erf log : flt → flt) (pow : flt → flt → exn + flt).

(** What is computed is a running test with two variants, not evaluated in the last quarter of
    an hour. *)
Lemma evaluation_gate_inr t now a b kind :
  evaluation_gate t now = inr (a, b, kind) →
  AbTest.status t = AbTestStatus.running ∧ AbTest.variant_a_id t = Some a ∧ AbTest.variant_b_id t = Some b ∧
  from_option (λ last, EVAL_THROTTLE <= now - last) True (AbTest.last_evaluated_at t) ∧
  event_kind_of (AbTest.primary_metric t) = Some kind.
Proof.
  unfold evaluation_gate. destruct (AbTest.status t) eqn:Est; try done.
  destruct (from_option _ _ _) eqn:El; [done|].
  destruct (AbTest.variant_a_id t), (AbTest.variant_b_id t); try done.
  destruct (event_kind_of _) eqn:Ek; [|done]. intros [= -> -> ->]. split_and!; try done.
  destruct (AbTest.last_evaluated_at t); simpl in *; [|done]. by apply Z.ltb_ge in El.
Qed.

(** A test is left alone unless it is running and its last evaluation is old. *)
Lemma evaluation_gate_inl t now :
  AbTest.status t ≠ AbTestStatus.running ∨
    (∃ last, AbTest.last_evaluated_at t = Some last ∧ now - last < EVAL_THROTTLE) →
  ∃ reason, evaluation_gate t now = inl reason.
Proof.
  unfold evaluation_gate. intros [Hst|(last & Hl & Hlt)].
  - destruct (AbTest.status t); try done; by eexists.
  - destruct (AbTest.status t); simpl; try by eexists.
    rewrite Hl. simpl. apply Z.ltb_lt in Hlt. rewrite Hlt. by eexists.
Qed.

Lemma evaluate_skips k now c e s t reason :
  t_ab_test s !! k = Some t → evaluation_gate t now = inl reason →
  evaluate_test erf log pow k now c e s = (s, inr (skipped_result k (AbTest.status t) reason)).
Proof.
  intros Hk Hg. unfold evaluate_test. rewrite bind_get_row.
  change (rows (R:=AbTest.t) s) with (t_ab_test s). by rewrite Hk, Hg.
Qed.

Lemma evaluate_throttled k now now2 c e s t :
  t_ab_test s !! k = Some t → AbTest.last_evaluated_at t = Some now → now2 - now < EVAL_THROTTLE →
  ∃ reason, evaluate_test erf log pow k now2 c e s = (s, inr (skipped_result k (AbTest.status t) reason)).
Proof.
  intros Hk Hl Hlt. destruct (evaluation_gate_inl t now2) as [reason Hg]; [right; eauto|].
  exists reason. by apply evaluate_skips.
Qed.

Lemma store_4_inr p x e s s' z : store_4 p x e s = (s', inr z) → s' = s.
Proof.
  unfold store_4, store. destruct (_ ≫= _); [|by intros [=]]. destruct (numeric_column _ _ _); by intros [=].
Qed.

(** The outcome of a pass on the row of a test. *)
Definition evaluated (now : Z) (t t' : AbTest.t) (r : EvalResult) : Prop :=
  AbTest.last_evaluated_at t' = Some now ∧ AbTest.traffic_split t' = AbTest.traffic_split t ∧
  AbTest.status t' = e_status r ∧
  match e_winner_id r with
  | Some w => e_decision r = Some "winner" ∧ AbTest.status t' = AbTestStatus.significant ∧
      AbTest.winner_id t' = Some w ∧ (Some w = AbTest.variant_a_id t ∨ Some w = AbTest.variant_b_id t)
  | None => e_decision r ≠ Some "winner" ∧ AbTest.winner_id t' = AbTest.winner_id t ∧
      AbTest.status t' = if timed_out t now then AbTestStatus.inconclusive else AbTestStatus.running
  end.

(** C17: a pass either skips and writes nothing, or the test was running, with two variants, and
    was not evaluated in the last fifteen minutes; it then writes that test's row and nothing
    else: the time of the pass, and either a verdict, significant with one of the two variants
    as the winner, or none, inconclusive exactly when the hours of the test are over. Traffic
    is never touched. In the next fifteen minutes a second pass writes nothing. *)
Theorem evaluate_test_spec k now c e s s' r :
  (∀ i t, t_ab_test s !! i = Some t → AbTest.id t = i) →
  evaluate_test erf log pow k now c e s = (s', inr r) →
  (e_skipped r = true ∧ s' = s) ∨
  ∃ t t', t_ab_test s !! k = Some t ∧ AbTest.status t = AbTestStatus.running ∧
    from_option (λ last, EVAL_THROTTLE <= now - last) True (AbTest.last_evaluated_at t) ∧
    e_skipped r = false ∧ s' = set_rows (<[k := t']> (t_ab_test s)) s ∧ evaluated now t t' r ∧
    ∀ e2 now2 c2, now2 - now < EVAL_THROTTLE → ∃ reason,
      evaluate_test erf log pow k now2 c2 e2 s' = (s', inr (skipped_result k (e_status r) reason)).
Proof.
  intros Hkey. unfold evaluate_test at 1. rewrite bind_get_row.
  change (rows (R:=AbTest.t) s) with (t_ab_test s).
  destruct (t_ab_test s !! k) as [t|] eqn:Hk; [|intros [= <- <-]; by left].
  destruct (evaluation_gate t now) as [reason|[[a b] kind]] eqn:Hg; [intros [= <- <-]; by left|].
  destruct (evaluation_gate_inr _ _ _ _ _ Hg) as (Hrun & Ha & Hb & Hlast & _).
  rewrite bind_inr. intros (s1 & sa & [= <- Hsa] & H). 
  rewrite bind_inr in H. destruct H as (s1 & sb & [= <- Hsb] & H).
  rewrite bind_inr in H. destruct H as (s1 & v & [_ ->]%of_sum_inr & H).
  rewrite bind_inr in H. destruct H as (s1 & lift & ->%store_4_inr & H).
  rewrite bind_inr in H. destruct H as (s1 & stored & Hst & H).
  assert (s1 = s) as ->.
  { destruct (r_decision v ==b "winner"); [|by injection Hst].
    rewrite bind_inr in Hst. destruct Hst as (s2 & ? & ->%store_4_inr & [= <- _]). done. }
  clear Hst Hsa Hsb. 
  set (w := if r_decision v ==b "winner" then Some (if winner_arm v ==b Some "b" then b else a) else None) in H.
  assert (match w with
          | Some x => r_decision v = "winner" ∧ (x = a ∨ x = b)
          | None => r_decision v ≠ "winner"
          end) as Hw.
  { subst w. destruct (r_decision v ==b "winner") eqn:E.
    - apply bool_decide_eq_true in E. split; [done|]. destruct (_ ==b _); auto.
    - by apply bool_decide_eq_false in E. }
  clearbody w. unfold assign in H. rewrite bind_assoc in H.
  change (pk t) with (AbTest.id t) in H. rewrite (Hkey _ _ Hk) in H.
  assert (rows (R:=AbTest.t) s !! k = Some t) as Hrow by exact Hk.
  rewrite (bind_ok _ _ _ _ _ _ (update_row_run k _ e s t Hrow)) in H.
  match type of H with context [<[k := ?x]> _] => set (t' := x) in H end.
  injection H as <- <-. right. exists t, t'. split; [done|]. split; [done|]. split; [done|]. split; [done|].
  split; [done|]. split.
  - unfold evaluated. subst t'. cbn. destruct w as [x|]; cbn.
    + destruct Hw as [-> Hx]. split_and!; try done. rewrite Ha, Hb. destruct Hx; subst; auto.
    + split_and!; try done; try congruence. by rewrite Hrun.
  - intros e2 now2 c2 Hlt.
    refine (evaluate_throttled k now now2 c2 e2 _ t' (lookup_insert_eq (t_ab_test s) k t') eq_refl Hlt).
Qed.
End evaluator.

(** ** A baseline without a success *)

Section baseline.
Context (erf log : flt → flt) (pow : flt → flt → exn + flt).

Lemma zero_rate n : flt_gt (flt_div f0 n) f0 = false.
Proof. by destruct (flt_div_zero false n) as [E|[s E]]; unfold f0 at 1; rewrite E; [|destruct s]. Qed.

(** No success in arm A and some in arm B: unless the test is degenerate, the lift is infinite. *)
Lemma zero_baseline_lift n_a n_b x_b c v :
  flt_gt (flt_div x_b (flt_of_Z n_b)) f0 = true →
  _two_proportion_test erf log pow n_a f0 n_b x_b c = inr v → r_reason v = None →
  r_lift v = S754_infinity false.
Proof.
  intros Hb. unfold _two_proportion_test. destruct (_ || _); [by intros [= <-]|]. cbv zeta.
  rewrite zero_rate, Hb. unfold mbind, result_bind. destruct (math_sqrt (at_least_0 _)); [done|].
  destruct (flt_eqb _ _); [by intros [= <-]|]. destruct (_z_critical _ _); [done|].
  destruct (math_sqrt _); [done|]. destruct (_ && _); [by intros [= <-]|].
  destruct (_min_n_for_proportion_power _ _ _ _ _); [done|]. by destruct (_ || _); intros [= <-].
Qed.

(** Then the pass fails, every time, and the test never ends by itself: the column of the lift
    takes no infinity. *)
Theorem zero_baseline_never_evaluates k t a b kind now c e s v :
  t_ab_test s !! k = Some t → evaluation_gate t now = inr (a, b, kind) →
  let n x := arm_size (AbTest.tenant_id t) (AbTest.id t) x s in
  let x y := flt_of_Z (arm_events (AbTest.tenant_id t) y kind s) in
  arm_events (AbTest.tenant_id t) a kind s = 0 →
  flt_gt (flt_div (x b) (flt_of_Z (n b))) f0 = true →
  _two_proportion_test erf log pow (n a) (x a) (n b) (x b) c = inr v → r_reason v = None →
  evaluate_test erf log pow k now c e s = (s, inl (OtherError "DataError")).
Proof.
  intros Hk Hg n x Ha Hb Hv Hr. unfold evaluate_test. rewrite bind_get_row.
  change (rows (R:=AbTest.t) s) with (t_ab_test s). rewrite Hk, Hg.
  rewrite (bind_ok (_arm_sample _ _ a kind) _ e s s _ eq_refl), (bind_ok (_arm_sample _ _ b kind) _ e s s _ eq_refl).
  unfold call_ab_testing. cbn [arm_n arm_x fst snd]. rewrite bool_decide_true by done.
  subst n x. cbv beta in *. rewrite Hv, (bind_ok (of_sum (inr v)) _ e s s v eq_refl).
  rewrite Ha in Hv. change (flt_of_Z 0) with f0 in Hv.
  unfold store_4. by rewrite (zero_baseline_lift _ _ _ _ _ Hb Hv Hr).
Qed.
End baseline.

(** ** Samples *)

(** A stand-in for the C library: the identity cut at one, and the product. *)
Definition sample_erf (x : flt) : flt := if flt_gt x f1 then f1 else x.
Definition sample_log (x : flt) : flt := flt_sub x f1.
Definition sample_pow (x _ : flt) : exn + flt := inr (flt_mul x x).

Lemma sample_pow_even x : sample_pow (SFopp x) (flt_of_Z 2) = sample_pow x (flt_of_Z 2).
Proof. unfold sample_pow. f_equal. by destruct x as [[]|[]| |[] m e]. Qed.

Lemma two_proportion_symmetric_witness :
  let run := _two_proportion_test sample_erf sample_log sample_pow in
  let c := lit 95 (-2) in
  map_result verdict (run 500 (flt_of_Z 75) 500 (flt_of_Z 125) c) = inr ("winner", f0, Some "b", None, None) ∧
  map_result verdict (run 500 (flt_of_Z 125) 500 (flt_of_Z 75) c) = inr ("winner", f0, Some "a", None, None).
Proof.
  intros run c. split; [by vm_compute|]. unfold run.
  rewrite (two_proportion_symmetric sample_erf sample_log sample_pow eq_refl sample_pow_even
             500 (flt_of_Z 75) 500 (flt_of_Z 125)).
  by vm_compute.
Defined.

(** Twenty recipients an arm; one clicked in A, nineteen in B. *)
Definition sample_assignment (i : N) : AbTestAssignment.t := {|
  AbTestAssignment.id := 100 + i; AbTestAssignment.tenant_id := 1; AbTestAssignment.ab_test_id := 50;
  AbTestAssignment.audience_external_id := uuid_str i;
  AbTestAssignment.variant_id := if (i <? 20)%N then 40 else 41; AbTestAssignment.assigned_at := 0 |}.
Definition sample_attempt (i : N) : DispatchAttempt.t := {|
  DispatchAttempt.id := 200 + i; DispatchAttempt.tenant_id := 1;
  DispatchAttempt.content_asset_id := if (i <? 20)%N then 40 else 41;
  DispatchAttempt.audience_external_id := Some (uuid_str i); DispatchAttempt.recipient_identifier := uuid_str i;
  DispatchAttempt.idempotency_key := uuid_str i; DispatchAttempt.provider := "sendgrid";
  DispatchAttempt.provider_message_id := Some (uuid_str i); DispatchAttempt.status := "sent";
  DispatchAttempt.attempt_count := 1; DispatchAttempt.last_error := None; DispatchAttempt.sent_at := Some 0;
  DispatchAttempt.created_at := 0; DispatchAttempt.updated_at := 0 |}.
Definition sample_click (i : N) : AnalyticEvent.t := {|
  AnalyticEvent.id := 300 + i; AnalyticEvent.tenant_id := 1; AnalyticEvent.campaign_id := None;
  AnalyticEvent.channel_id := None; AnalyticEvent.event_type := EventKind.click;
  AnalyticEvent.metric_value := None; AnalyticEvent.payload := [("sg_message_id", JStr (uuid_str i))];
  AnalyticEvent.provider_event_id := None; AnalyticEvent.event_at := 0 |}.

Definition sample_rows {A} (f : N → A) (l : list N) : gmap N A := list_to_map ((λ i, (i, f i)) <$> l).
Definition clicked_db : db :=
  ab_db AbTestStatus.running
  <| t_ab_test_assignment := sample_rows sample_assignment (N.of_nat <$> seq 0 40) |>
  <| t_dispatch_attempt := sample_rows sample_attempt (N.of_nat <$> seq 0 40) |>
  <| t_analytic_event := sample_rows sample_click (N.of_nat <$> 0%nat :: seq 20 19) |>.

Lemma clicked_tests i t : t_ab_test clicked_db !! i = Some t → AbTest.id t = i.
Proof.
  change (t_ab_test clicked_db) with (t_ab_test (ab_db AbTestStatus.running)). apply ab_db_tests.
Qed.

Lemma evaluate_test_spec_witness :
  ∃ s' r t', evaluate_test sample_erf sample_log sample_pow 50 (2 * hour) (lit 95 (-2)) (demo_env 5) clicked_db
      = (s', inr r) ∧
    e_skipped r = false ∧ t_ab_test s' !! 50%N = Some t' ∧
    AbTest.status t' = e_status r ∧ AbTest.last_evaluated_at t' = Some (2 * hour).
Proof.
  destruct (run_returns (evaluate_test sample_erf sample_log sample_pow 50 (2 * hour) (lit 95 (-2)))
    (demo_env 5) clicked_db) as (s' & r & E); [by vm_compute|].
  exists s', r.
  destruct (evaluate_test_spec sample_erf sample_log sample_pow 50 (2 * hour) (lit 95 (-2)) (demo_env 5)
    clicked_db s' r clicked_tests E) as [[Hs _]|(t & t' & _ & _ & _ & Hs & Hs' & Hev & _)].
  - assert (∀ x, run_val (evaluate_test sample_erf sample_log sample_pow 50 (2 * hour) (lit 95 (-2))
      (demo_env 5) clicked_db) = Some x → e_skipped x = false) as H by (intros x; vm_compute; by intros [= <-]).
    rewrite E in H. exfalso. specialize (H r eq_refl). by rewrite H in Hs.
  - exists t'. destruct Hev as (H1 & _ & H2 & _). refine (conj E (conj Hs (conj _ (conj H2 H1)))). rewrite Hs'.
    exact (lookup_insert_eq (t_ab_test clicked_db) 50%N t').
Defined.
