(* ===== verification/Handlers.v ===== *)
(** * The handlers of the worker: src/app/orchestrator/handlers and src/app/tools

    The registry a deployment runs with: the agents' handlers and one handler per tool. The life cycle
    that WorkerSpec proves of the queue asks of a handler that it only enqueues and cancels what
    waits; here every built-in one is shown to. *)

From S2P Require Export WorkerSpec.
From S2P Require Import Agents Segmentation Strategist ContentCreator SocialDispatch StateMachine LaunchProofs Seo Copywriting.
Local Open Scope Z_scope.

(** ** Tools *)

(** [app/tools/base.py] lines 17-31, [Tool]. *)
Record Tool := { tool_name : string; call : jdict → exn + jdict }.

(** [app/tools/base.py] lines 34-50, [ToolRegistry]. *)
Definition ToolRegistry : Type := list (string * Tool).
Definition register (tool : Tool) (r : ToolRegistry) : exn + ToolRegistry :=
  match dget (tool_name tool) r with
  | Some _ => inl (ValueError ("tool '" +:+ tool_name tool +:+ "' is already registered"))
  | None => inr (dset (tool_name tool) tool r)
  end.
Definition get_tool (name : string) (r : ToolRegistry) : option Tool := dget name r.
Definition all_tools (r : ToolRegistry) : list Tool := snd <$> r.
Definition tool_names (r : ToolRegistry) : list string := merge_sort String.le (fst <$> r).

(** The inputs without the marker the handler adds. *)
Definition without_attempt (inputs : jdict) : jdict := List.filter (λ kv, kv.1 !=b "__attempt__") inputs.

(** [app/tools/_stubs.py] lines 14-28, [EchoTool]. *)
Definition EchoTool : Tool := {| tool_name := "echo_tool"; call inputs := inr (without_attempt inputs) |}.

(** [int(v)]. *)
Definition int_arg (v : json) : exn + Z :=
  match py_int v with
  | Some z => inr z
  | None => match v with
            | JStr _ => inl (ValueError "invalid literal for int() with base 10")
            | _ => inl TypeError
            end
  end.

(** [app/tools/_stubs.py] lines 31-65, [FlakyTool]. *)
Definition FlakyTool : Tool := {|
  tool_name := "flaky_tool";
  call inputs :=
    match int_arg (default (JInt 1) (dget "__attempt__" inputs)) with
    | inl x => inl x
    | inr attempt =>
        match int_arg (default (JInt 2) (dget "fail_count" inputs)) with
        | inl x => inl x
        | inr fail_count =>
            if attempt <=? fail_count
            then inl (OtherError ("flaky_tool: failing attempt " +:+ str_of_Z attempt +:+
                                  " of expected " +:+ str_of_Z fail_count))
            else inr [("succeeded_on_attempt", JInt attempt)]
        end
    end |}.

Definition SeoAnalysisTool : Tool := {| tool_name := "seo.analysis"; call := seo_call |}.
Definition CopywritingTool (loads : string → string + json) (call_model : nat → string → bool → exn + string) : Tool :=
  {| tool_name := "copywriting.generate"; call := copywrite loads call_model |}.

(** [app/tools/__init__.py] lines 21-39, [register_builtin_tools]. On an empty registry; [ab_testing]
    reads its arguments from JSON and is otherwise AbSignificance's, [copywriting] is there with an API
    key. *)
Definition register_builtin_tools (ab_testing : Tool) (copywriting : option Tool) : exn + ToolRegistry :=
  foldl (λ r tool, match r with inl x => inl x | inr r => register tool r end) (inr [])
    ([EchoTool; FlakyTool; SeoAnalysisTool; ab_testing] ++ option_list copywriting).

(** ** A tool as a handler *)

Section tools.
(** The milliseconds a call takes, on the monotonic clock. *)
Context (latency_ms : Task.t → Z).

(** [app/orchestrator/handlers/tool.py] lines 21-65, [_build_tool_handler]. *)
Definition _build_tool_handler (tool : Tool) : HandlerFn := λ task,
  let inputs := dset "__attempt__" (JInt (Task.attempt task)) (Task.input_data task) in
  let common := [("tool", JStr (tool_name tool)); ("latency_ms", JInt (latency_ms task));
                 ("attempt", JInt (Task.attempt task))] in
  match call tool inputs with
  | inl exc =>
      committing (agent_log_emit (Task.tenant_id task) (Task.agent_id task) (Some (Task.id task))
                    ("tool." +:+ tool_name tool +:+ ".failed")
                    (common ++ [("error", JStr (exn_str exc))]) "error" ;;
                  raise exc)
  | inr outputs =>
      pending (agent_log_emit (Task.tenant_id task) (Task.agent_id task) (Some (Task.id task))
                 ("tool." +:+ tool_name tool +:+ ".succeeded")
                 (common ++ [("inputs", JObj (without_attempt inputs)); ("outputs", JObj outputs)]) "info" ;;
               mret (Some outputs))
  end.

(** [app/orchestrator/handlers/tool.py] lines 68-71, [register_tool_handlers]. *)
Definition register_tool_handlers (r : ToolRegistry) (h : HANDLERS) : HANDLERS :=
  foldl (λ h tool, register_handler (tool_name tool) (_build_tool_handler tool) h) h (all_tools r).

(** [app/orchestrator/handlers/echo.py] lines 15-18, [echo_handler]. *)
Definition echo_handler : HandlerFn := λ task, pending (mret (Some (Task.input_data task))).

(** What the handlers reach outside the repository. *)
Record outside := {
  o_re_compile : string → string + regex;
  o_loads : string → string + json;
  o_call_model : nat → string → bool → exn + string;
  o_configured : bool;
  o_planner : option (StrategyContext.t → exn + PlannerResult);
  o_decrypt : string → exn + jdict;
  o_email : string → jdict → exn + EmailConnector;
  o_dumps : string → string → json → string;
  o_secret : string;
  o_social : string → exn + SocialConnector;
}.

(** [app/orchestrator/handlers/__init__.py] lines 24-43, [register_builtin_handlers]. *)
Definition register_builtin_handlers (o : outside) (tools : ToolRegistry) : HANDLERS :=
  register_tool_handlers tools
    (register_handler "distribution.dispatch_social"
       (λ task, pending (distribution_dispatch_social_handler (o_decrypt o) (o_social o) task))
    (register_handler "distribution.dispatch_email"
       (λ task, pending (distribution_dispatch_email_handler (o_decrypt o) (o_email o) (o_dumps o) (o_secret o) task))
    (register_handler "content_creator.generate_asset"
       (λ task, pending (content_creator_generate_asset_handler (o_re_compile o) (o_loads o) (o_call_model o)
                           (o_configured o) task))
    (register_handler "campaign_strategist.propose"
       (λ task, pending (campaign_strategist_propose_handler (o_planner o) task))
    (register_handler "audience_targeting.materialise"
       (λ task, pending (audience_materialise_handler task))
    (register_handler "echo" echo_handler [])))))).
End tools.

(** ** What a handler does to the queue *)

(** The part of the database the life cycle is about, and [handler_step] on it. *)
Definition skeleton (s : db) : db := empty_db <| t_task := t_task s |> <| next_uuid := next_uuid s |>.
Definition jobs_frame : relation db := λ s s', handler_step (skeleton s) (skeleton s').

#[export] Instance jobs_frame_preorder : PreOrder jobs_frame.
Proof.
  split; unfold jobs_frame; [intros s; apply reflexivity|]. intros s1 s2 s3. apply transitivity.
Qed.

Lemma skeleton_ok s : store_ok (skeleton s) ↔ store_ok s.
Proof. split; intros [Hq Hf]; (split; [by eapply queue_ok_same; [|exact Hq]|exact Hf]). Qed.

Lemma jobs_frame_iff s s' : jobs_frame s s' ↔ handler_step s s'.
Proof. unfold jobs_frame, handler_step. by rewrite !skeleton_ok. Qed.

Lemma jobs_respects {A} (m : M A) : respects handler_step m → respects jobs_frame m.
Proof. intros H e s. by apply jobs_frame_iff. Qed.

(** A row added to another table takes a key of the supply. *)
Lemma jobs_bump s s' :
  t_task s' = t_task s → next_uuid s' = (next_uuid s + 1)%N → jobs_frame s s'.
Proof.
  intros Ht Hn. apply jobs_frame_iff. intros [Hq Hf]. split.
  - split; [by eapply queue_ok_same|]. intros k t. rewrite Ht, Hn. intros Hk. specialize (Hf k t Hk). lia.
  - intros k. rewrite Ht. destruct (t_task s !! k); [by left|done].
Qed.

Create HintDb jobs.
Ltac jobs_head t := match t with ?f _ => jobs_head f | _ => unfold t end.
Ltac jobs_cases := let H := fresh in intros ? ? H; repeat (case_match; try discriminate H); injection H as <-.
Ltac jobs_step := first
  [ match goal with
    | |- respects jobs_frame (enqueue_task _ _ _ _ _ _ _ _ _ _) => apply jobs_respects, enqueue_handler_step
    | |- respects jobs_frame (cancel_queued_for_campaign _) => apply jobs_respects, cancel_handler_step
    | |- respects jobs_frame (add_row _) => apply (respects_frame_add jobs_frame); intros; by apply jobs_bump
    | |- respects jobs_frame (audit _ _ _ _ _ _ _) => apply (respects_audit jobs_frame); intros; by apply jobs_bump
    | |- respects jobs_frame (add_tracked _) =>
        apply (respects_add_tracked jobs_frame); [intros; by apply jobs_bump|]
    | |- respects jobs_frame (try_except _ _) => apply (respects_try jobs_frame); [|jobs_cases]
    | |- respects jobs_frame (StateMachine.apply campaign_sm _ _) => solve [auto with jobs nocore]
    end
  | respects_step
  | match goal with |- respects jobs_frame ?m => progress jobs_head m end ].
Ltac jobs := repeat jobs_step.

Lemma jobs_apply c n : respects jobs_frame (StateMachine.apply campaign_sm c n).
Proof.
  assert (Forall (λ tr, from_option (λ g, ∀ c, respects jobs_frame (g c)) True (StateMachine.guard tr) ∧
    from_option (λ f, ∀ c, respects jobs_frame (f c)) True (on_enter tr)) campaign_transitions) as Hall.
  { unfold campaign_transitions. repeat apply Forall_cons_2; try apply Forall_nil_2;
      cbn [StateMachine.guard on_enter from_option]; split; try done; intros ?; jobs. }
  unfold StateMachine.apply. destruct (sm_get _ _) as [tr|] eqn:Hget; [|jobs].
  apply campaign_sm_get in Hget as (Hin & _ & _). rewrite Forall_forall in Hall.
  destruct (Hall tr Hin) as [Hg Hf]. jobs; [by apply Hg|by apply Hf].
Qed.
#[export] Hint Resolve jobs_apply : jobs.

Lemma jobs_materialise_handler task : respects jobs_frame (audience_materialise_handler task).
Proof. unfold audience_materialise_handler. jobs. Qed.

Lemma jobs_propose_handler planner task : respects jobs_frame (campaign_strategist_propose_handler planner task).
Proof. unfold campaign_strategist_propose_handler. jobs. Qed.

Lemma jobs_social_handler decrypt build task : respects jobs_frame (distribution_dispatch_social_handler decrypt build task).
Proof. unfold distribution_dispatch_social_handler. jobs. Qed.

Lemma jobs_generate_handler rc ld cm cf task : respects jobs_frame (content_creator_generate_asset_handler rc ld cm cf task).
Proof. unfold content_creator_generate_asset_handler. jobs. Qed.

Lemma jobs_email_handler decrypt build dumps secret task :
  respects jobs_frame (distribution_dispatch_email_handler decrypt build dumps secret task).
Proof. unfold distribution_dispatch_email_handler. jobs. Qed.
#[export] Hint Resolve jobs_materialise_handler jobs_propose_handler jobs_social_handler jobs_generate_handler
  jobs_email_handler : jobs.

(** A handler that keeps to its part, in what it commits along the way and in what it leaves. *)
Definition handler_ok (f : HandlerFn) : Prop := ∀ t e s,
  handler_step s (f t e s).1.1 ∧ handler_step s (f t e s).1.2.

Lemma handler_ok_pending (f : Task.t → M (option jdict)) :
  (∀ t, respects jobs_frame (f t)) → handler_ok (λ t, pending (f t)).
Proof.
  intros Hf t e s. pose proof (Hf t e s) as H. unfold pending. destruct (f t e s) as [s' r].
  split; [apply reflexivity|by apply jobs_frame_iff].
Qed.

Lemma handler_ok_tool latency_ms tool : handler_ok (_build_tool_handler latency_ms tool).
Proof.
  intros t e s. unfold _build_tool_handler. destruct (call tool _) as [x|out];
    (split; [|apply jobs_frame_iff, jobs_bump; done]).
  - apply jobs_frame_iff, jobs_bump; done.
  - apply reflexivity.
Qed.

Lemma handlers_ok_register n f h : handler_ok f → handlers_ok h → handlers_ok (register_handler n f h).
Proof.
  intros Hf Hh m g. unfold get_handler, register_handler. destruct (decide (m = n)) as [->|Hne].
  - rewrite dget_dset_eq. intros [= <-]. exact Hf.
  - rewrite dget_dset_ne by done. apply Hh.
Qed.

Lemma builtin_handlers_ok latency_ms o tools : handlers_ok (register_builtin_handlers latency_ms o tools).
Proof.
  unfold register_builtin_handlers, register_tool_handlers.
  assert (∀ l h, handlers_ok h →
    handlers_ok (foldl (λ h tool, register_handler (tool_name tool) (_build_tool_handler latency_ms tool) h) h l)) as Htools.
  { induction l as [|tool l IH]; intros h Hh; [done|]. apply IH, handlers_ok_register; [apply handler_ok_tool|done]. }
  apply Htools.
  repeat (apply handlers_ok_register; [apply handler_ok_pending; intros t; first [solve [auto with jobs nocore] | jobs]|]).
  by intros n f.
Qed.

(** The skills a deployment has handlers for. *)
Definition builtin_skills (tools : ToolRegistry) : list string :=
  ["echo"; "audience_targeting.materialise"; "campaign_strategist.propose"; "content_creator.generate_asset";
   "distribution.dispatch_email"; "distribution.dispatch_social"] ++ (tool_name <$> all_tools tools).

Lemma known_register h n f t : known h t = true ∨ Task.skill_name t = n → known (register_handler n f h) t = true.
Proof.
  unfold known, get_handler, register_handler. rewrite !bool_decide_eq_true.
  destruct (decide (Task.skill_name t = n)) as [->|Hne]; [by rewrite dget_dset_eq|].
  rewrite dget_dset_ne by congruence. by intros [?|?].
Qed.

Lemma builtin_known latency_ms o tools t :
  Task.skill_name t ∈ builtin_skills tools → known (register_builtin_handlers latency_ms o tools) t = true.
Proof.
  unfold register_builtin_handlers, register_tool_handlers, builtin_skills.
  set (h0 := register_handler "distribution.dispatch_social" _ _). rewrite elem_of_app.
  assert (∀ l h, known h t = true ∨ Task.skill_name t ∈ tool_name <$> l →
    known (foldl (λ h tool, register_handler (tool_name tool) (_build_tool_handler latency_ms tool) h) h l) t = true) as Htools.
  { induction l as [|tool l IH]; intros h; cbn; [intros [?|[]%not_elem_of_nil]; done|].
    rewrite elem_of_cons. intros [?|[?|?]]; apply IH; [left; apply known_register; by left
      |left; apply known_register; by right|by right]. }
  intros [Hin|Hin]; apply Htools; [left|by right]. unfold h0.
  repeat (apply elem_of_cons in Hin as [Hin|Hin]; [repeat first [apply known_register; right; exact Hin | apply known_register; left]|]).
  by apply not_elem_of_nil in Hin.
Qed.

(** C2: the queue a deployment runs on. With the handlers that are built in, whatever the language
    model, the providers and the mail and social connectors do, and with whatever tools are registered,
    any interleaving of the transactions of callers, workers, the reaper and cancellations, and any
    crash, keeps the queue well formed and moves every task only along the life cycle of a job. No task
    is lost; it is started at most [max 1 max_attempts] times, and once more for every lapse of its
    lease; one that failed had used up its tries, or no built-in handler or tool has its name; what
    is finished stays finished the same way, unless a worker that lost its lease is still to
    report. *)
Theorem builtin_worker_life latency_ms o tools c c' :
  let h := register_builtin_handlers latency_ms o tools in
  system_ok h c → rtc (system_step h) c c' →
  system_ok h c' ∧ jobs_evolve h c c' ∧
  (∀ k t', t_task (sys_db c') !! k = Some t' →
     Task.attempt t' <= Z.max 1 (Task.max_attempts t') + Z.of_nat (sys_lapses c' k) ∧
     (Task.status t' = TaskStatus.failed →
        Task.max_attempts t' <= Task.attempt t' ∨ Task.skill_name t' ∉ builtin_skills tools)) ∧
  ∀ k t, t_task (sys_db c) !! k = Some t → ∃ t', t_task (sys_db c') !! k = Some t' ∧
    Task.attempt t <= Task.attempt t' ∧ Task.max_attempts t' = Task.max_attempts t ∧
    (is_terminal (Task.status t) = true → sys_lapses c k = 0%nat ∨ holders k (sys_workers c) = 0%nat →
       phase_of (Task.status t') = phase_of (Task.status t) ∧ Task.attempt t' = Task.attempt t).
Proof.
  cbv zeta. intros Hok Hrun.
  destruct (refines_ok _ _ _ (system_refines _ _ _ (builtin_handlers_ok latency_ms o tools) Hrun) Hok) as [Hok' Hev].
  split; [done|]. split; [done|]. split.
  - intros k t' Hk. destruct (system_ok_task _ _ _ _ Hok' Hk) as [Ht _ _ _ Hf]. cbn in *. split; [done|].
    intros Hst. destruct (decide (Task.skill_name t' ∈ builtin_skills tools)) as [Hin|]; [left|by right].
    apply Hf; [by rewrite Hst|by apply builtin_known].
  - intros k t Hk. destruct (task_evolves _ _ _ _ _ Hok Hev Hk) as (t' & ? & ? & ? & _ & _ & ?). by exists t'.
Qed.

(** ** The log of a tool's run *)

(** A tool that raises: its log row is committed before the exception reaches the worker, so the failure
    leaves two traces, that row and the task's, and nothing else. *)
Lemma tool_failure_logged latency_ms tool h w l locked e1 e2 e3 s s1 t x :
  queue_ok s → uniform_ok e3 →
  claim_next locked w l e1 s = (s1, inr (Some t)) →
  get_handler (Task.skill_name t) h = Some (_build_tool_handler latency_ms tool) →
  call tool (dset "__attempt__" (JInt (Task.attempt t)) (Task.input_data t)) = inl x →
  ∃ t' row, run_once h locked w l e1 e2 e3 s =
      (s <| t_task := <[Task.id t := t']> (t_task s) |>
         <| t_agent_log := <[next_uuid s := row]> (t_agent_log s) |>
         <| next_uuid := (next_uuid s + 1)%N |>, inr true) ∧
    Task.error_message t' = Some (exn_str x) ∧ AgentLog.severity row = "error" ∧
    AgentLog.task_id row = Some (Task.id t) ∧ dget "error" (AgentLog.log_data row) = Some (JStr (exn_str x)).
Proof.
  intros Hs Hun Hc Hh Hx. eassert (_build_tool_handler latency_ms tool t e2 s1 = (_, _, inl x)) as Hrun.
  { unfold _build_tool_handler. rewrite Hx. reflexivity. }
  destruct (run_once_failing _ _ _ _ _ _ _ _ _ _ _ _ _ _ Hs Hun Hc Hh Hrun eq_refl) as (t' & -> & _ & _ & _ & Herr & _).
  pose proof (claim_next_run locked w l e1 s (queue_ok_rows _ Hs)) as Hq. rewrite Hc in Hq.
  destruct Hq as (t0 & _ & _ & _ & ->). exists t'. eexists. split; [reflexivity|]. done.
Qed.

(** ** The theorem at a concrete run: a worker echoes a task *)

Definition nothing_outside : outside := {|
  o_re_compile _ := inl ""; o_loads _ := inl ""; o_call_model _ _ _ := inl KeyError; o_configured := false;
  o_planner := None; o_decrypt _ := inl KeyError; o_email _ _ := inl KeyError; o_dumps _ _ _ := "";
  o_secret := ""; o_social _ := inl KeyError |}.
Definition stub_tools : ToolRegistry := [("echo_tool", EchoTool); ("flaky_tool", FlakyTool)].
Definition builtin_demo : HANDLERS := register_builtin_handlers (λ _, 7) nothing_outside stub_tools.

Lemma builtin_worker_life_witness :
  let s' := (run_once builtin_demo ∅ "w" 300 (demo_env 6) (demo_env 7) (demo_env 8) one_task).1 in
  system_ok builtin_demo (idle s') ∧ (Task.status <$> t_task s' !! 1%N) = Some TaskStatus.succeeded ∧
  jobs_evolve builtin_demo (idle one_task) (idle s').
Proof.
  cbv zeta.
  destruct (builtin_worker_life (λ _, 7) nothing_outside stub_tools (idle one_task) _ (idle_ok _)
    (run_once_steps builtin_demo one_task [] (λ _, 0%nat) ∅ "w" 300 (demo_env 6) (demo_env 7) (demo_env 8)
       (demo_uniform 7) (demo_uniform 8))) as (Hok & Hev & _).
  split; [exact Hok|]. split; [vm_compute; reflexivity|exact Hev].
Defined.

(** The flaky tool fails as often as it is told, then succeeds. *)
Example flaky_tool_attempts :
  (λ n, match call FlakyTool [("fail_count", JInt 2); ("__attempt__", JInt n)] with inl _ => false | inr _ => true end)
  <$> [1; 2; 3] = [false; false; true].
Proof. reflexivity. Qed.
