(* ===== verification/AssistantTools.v ===== *)
(** * The tools of the assistant: src/app/assistant/tools.py

    What the dashboard assistant can do on behalf of a user; the tools that decide on assets are in
    Review. The inputs have the types of the tools' schemas. The language models behind the agents,
    the HTTP client and [json.loads] are parameters. *)

From S2P Require Export Review AssistantMemory Outbound KpiRollup Analytics ContentCreator Strategist Webhooks Campaigns.
From S2P Require Import PyDecimal SpendReconciliation.
From S2P Require StateMachine Scheduling Campaigns Anomaly Analytics Strategist Outbound.
Local Open Scope Z_scope.

Definition plural (n : Z) (one many : string) : string := if n =? 1 then one else many.
Definition count_of {A} (l : list A) : Z := Z.of_nat (length l).

(** [f"{c.budget_total} {c.currency}"]. *)
Definition budget_text (c : Campaign.t) : string :=
  dec_str (dec_of_cents (Campaign.budget_total c)) +:+ " " +:+ Campaign.currency c.
Definition campaign_link (c : Campaign.t) (rest : string) : json :=
  JStr ("/ui/campaigns/" +:+ uuid_str (Campaign.id c) +:+ rest).
Definition in_campaign (c : Campaign.t) : string * json := ("campaign_id", j_uuid (Campaign.id c)).

(** ** Reading *)

Definition campaign_item (c : Campaign.t) : json := JObj [
  ("id", j_uuid (Campaign.id c));
  ("name", JStr (Campaign.name c));
  ("status", j_enum (Campaign.status c));
  ("start_date", JStr (date_str (Campaign.start_date c)));
  ("end_date", JStr (date_str (Campaign.end_date c)));
  ("budget", JStr (budget_text c))].

(** [app/assistant/tools.py] lines 122-155, [list_campaigns]. *)
Definition list_campaigns (user : AppUser.t) (status : option string) : M ToolResult :=
  _require_role user UserRole.viewer ;;
  let status := nonempty_str status in
  wanted ← match status with
           | None => mret None
           | Some st => match of_value CampaignStatus.t st with
                        | Some v => mret (Some v)
                        | None => raise (ToolError ("Unknown status '" +:+ st +:+ "'."))
                        end
           end;
  rows ← select (λ c, (Campaign.tenant_id c ==b AppUser.tenant_id user) &&
                      from_option (λ v, Campaign.status c ==b v) true wanted);
  let items := campaign_item <$> take 20 (order_by_desc Campaign.updated_at rows) in
  mret (result ("Found " +:+ str_of_Z (count_of items) +:+ " campaign" +:+ plural (count_of items) "" "s" +:+
      from_option (λ st, " in status '" +:+ st +:+ "'") "" status +:+ ".")
    [("campaigns", JList items)]).

(** [app/assistant/tools.py] lines 158-180, [get_campaign]. *)
Definition get_campaign (user : AppUser.t) (identifier : string) : M ToolResult :=
  _require_role user UserRole.viewer ;;
  c ← _find_campaign (AppUser.tenant_id user) identifier;
  mret (result ("Campaign '" +:+ Campaign.name c +:+ "' is in status '" +:+ value (Campaign.status c) +:+ "'.")
    [("id", j_uuid (Campaign.id c));
     ("name", JStr (Campaign.name c));
     ("status", j_enum (Campaign.status c));
     ("type", j_enum (Campaign.campaign_type c));
     ("objective", JStr (Campaign.objective c));
     ("brief_excerpt", JStr (str_take 300 (default "" (Campaign.brief c))));
     ("budget", JStr (budget_text c));
     ("start_date", JStr (date_str (Campaign.start_date c)));
     ("end_date", JStr (date_str (Campaign.end_date c)));
     ("link", campaign_link c "")]).

(** The campaign a filter names, if it does. *)
Definition filter_campaign (user : AppUser.t) (campaign : option string) : M (option N) :=
  match nonempty_str campaign with
  | None => mret None
  | Some i => c ← _find_campaign (AppUser.tenant_id user) i; mret (Some (Campaign.id c))
  end.

Definition anomaly_item (a : MetricAnomaly.t) : json := JObj [
  ("id", j_uuid (MetricAnomaly.id a));
  ("metric", JStr (MetricAnomaly.metric a));
  ("severity", JStr (MetricAnomaly.severity a));
  ("sigma", JStr (dec_str (dec_of_col 4 (MetricAnomaly.sigma a))));
  ("observed", JStr (dec_str (dec_of_col 6 (MetricAnomaly.observed_value a))));
  ("baseline_median", JStr (dec_str (dec_of_col 6 (MetricAnomaly.baseline_median a))));
  ("campaign_id", j_uuid (MetricAnomaly.campaign_id a))].

(** [app/assistant/tools.py] lines 269-305, [show_anomalies]. *)
Definition show_anomalies (user : AppUser.t) (campaign severity : option string) : M ToolResult :=
  _require_role user UserRole.viewer ;;
  c ← filter_campaign user campaign;
  let severity := nonempty_str severity in
  raise_if (from_option (λ s, negb (s ∈b ["warning"; "critical"])) false severity)
    (ToolError "severity must be 'warning' or 'critical'.") ;;
  rows ← select (λ a, (MetricAnomaly.tenant_id a ==b AppUser.tenant_id user) &&
                      (MetricAnomaly.dismissed_at a ==b None) &&
                      from_option (λ k, MetricAnomaly.campaign_id a ==b k) true c &&
                      from_option (λ s, MetricAnomaly.severity a ==b s) true severity);
  let items := anomaly_item <$> take 20 (order_by_desc MetricAnomaly.created_at rows) in
  mret (result (str_of_Z (count_of items) +:+ " open anomal" +:+ plural (count_of items) "y" "ies" +:+ " found.")
    [("anomalies", JList items)]).

(** [str(r.predicted_uplift) if r.predicted_uplift else None]. *)
Definition uplift (r : OptimisationRecommendation.t) : option string :=
  OptimisationRecommendation.predicted_uplift r ≫= λ z,
    if z =? 0 then None else Some (dec_str (dec_of_col 4 z)).

Definition recommendation_item (r : OptimisationRecommendation.t) : json := JObj [
  ("id", j_uuid (OptimisationRecommendation.id r));
  ("kind", JStr (OptimisationRecommendation.kind r));
  ("rationale", jopt JStr (OptimisationRecommendation.rationale r));
  ("predicted_uplift", jopt JStr (uplift r));
  ("campaign_id", j_uuid (OptimisationRecommendation.campaign_id r))].

(** [app/assistant/tools.py] lines 308-337, [show_recommendations]. *)
Definition show_recommendations (user : AppUser.t) (campaign : option string) : M ToolResult :=
  _require_role user UserRole.viewer ;;
  c ← filter_campaign user campaign;
  rows ← select (λ r, (OptimisationRecommendation.tenant_id r ==b AppUser.tenant_id user) &&
                      (OptimisationRecommendation.status r ==b "pending") &&
                      from_option (λ k, OptimisationRecommendation.campaign_id r ==b k) true c);
  let items := recommendation_item <$> take 10 (order_by_desc OptimisationRecommendation.created_at rows) in
  mret (result (str_of_Z (count_of items) +:+ " pending recommendation" +:+ plural (count_of items) "" "s" +:+ ".")
    [("recommendations", JList items)]).

Definition approval_item (a : ContentAsset.t) : json := JObj [
  ("id", j_uuid (ContentAsset.id a));
  ("title", JStr (default "(no title)" (nonempty_str (ContentAsset.title a))));
  ("asset_type", j_enum (ContentAsset.asset_type a));
  ("campaign_id", j_uuid (ContentAsset.campaign_id a));
  ("review_link", JStr ("/ui/approvals/" +:+ uuid_str (ContentAsset.id a)))].

(** [app/assistant/tools.py] lines 340-365, [show_pending_approvals]. *)
Definition show_pending_approvals (user : AppUser.t) : M ToolResult :=
  _require_role user UserRole.viewer ;;
  rows ← select (λ a, (ContentAsset.tenant_id a ==b AppUser.tenant_id user) &&
                      (ContentAsset.status a ==b AssetStatus.pending_approval));
  let items := approval_item <$> take 20 (order_by_desc ContentAsset.updated_at rows) in
  mret (result (str_of_Z (count_of items) +:+ " asset" +:+ plural (count_of items) "" "s" +:+ " waiting on approval.")
    [("approvals", JList items); ("queue_link", JStr "/ui/approvals/queue")]).

(** [app/assistant/tools.py] lines 368-394, [summarise_kpis]. *)
Definition summarise_kpis (user : AppUser.t) (identifier : string) : M ToolResult :=
  _require_role user UserRole.viewer ;;
  c ← _find_campaign (AppUser.tenant_id user) identifier;
  t ← asks now;
  snap ← compute_campaign_kpis (AppUser.tenant_id user) (Campaign.id c) None None t;
  match as_dict (kpis snap) with
  | None => raise InvalidOperation
  | Some kpis =>
      let k name := json_str (default JNull (dget name kpis)) in
      mret (result ("'" +:+ Campaign.name c +:+ "': " +:+ k "opens" +:+ " opens, " +:+ k "clicks" +:+ " clicks, " +:+
          k "conversions" +:+ " conversions, $" +:+ k "spend" +:+ " spent.")
        [("kpis", JObj kpis); ("link", campaign_link c "")])
  end.

(** ** Campaigns *)

(** [app/assistant/tools.py] lines 183-210, [pause_campaign]. *)
Definition pause_campaign (user : AppUser.t) (identifier : string) (confirm : bool) : M ToolResult :=
  _require_role user UserRole.manager ;;
  c ← _find_campaign (AppUser.tenant_id user) identifier;
  if Campaign.status c ==b CampaignStatus.paused
  then mret (result ("Campaign '" +:+ Campaign.name c +:+ "' is already paused.") [])
  else if negb confirm then
    mret (ask ("Confirm: pause '" +:+ Campaign.name c +:+ "'? This cancels every queued dispatch " +:+
        "task. Running tasks finish. Reply 'yes' or include `confirm: true` to proceed.")
      [in_campaign c; ("campaign_name", JStr (Campaign.name c))])
  else
    Scheduling.pause_campaign c "manual_via_assistant" [] ;;
    mret (result ("Paused '" +:+ Campaign.name c +:+ "'. Queued dispatch tasks cancelled.")
      [in_campaign c; ("status", JStr "paused")]).

(** [app/assistant/tools.py] lines 213-232, [resume_campaign]. *)
Definition resume_campaign (user : AppUser.t) (identifier : string) : M ToolResult :=
  _require_role user UserRole.manager ;;
  c ← _find_campaign (AppUser.tenant_id user) identifier;
  raise_if (Campaign.status c !=b CampaignStatus.paused)
    (ToolError ("Campaign '" +:+ Campaign.name c +:+ "' is in '" +:+ value (Campaign.status c) +:+
       "' - only paused campaigns can be resumed.")) ;;
  c ← StateMachine.apply campaign_sm c "resume";
  mret (result ("Resumed '" +:+ Campaign.name c +:+ "'. Dispatch tasks re-enqueued.")
    [in_campaign c; ("status", j_enum (Campaign.status c))]).

(** [app/assistant/tools.py] lines 235-266, [complete_campaign]. *)
Definition complete_campaign (user : AppUser.t) (identifier : string) (confirm : bool) : M ToolResult :=
  _require_role user UserRole.manager ;;
  c ← _find_campaign (AppUser.tenant_id user) identifier;
  if Campaign.status c ==b CampaignStatus.completed
  then mret (result ("'" +:+ Campaign.name c +:+ "' is already completed.") [])
  else if negb confirm then
    mret (ask ("Confirm: mark '" +:+ Campaign.name c +:+ "' completed? This auto-generates an " +:+
        "end-of-campaign report and locks spend after reconciliation. Reply 'yes' to proceed.")
      [in_campaign c])
  else
    c ← StateMachine.apply campaign_sm c "complete_campaign";
    mret (result ("Marked '" +:+ Campaign.name c +:+ "' completed. Report generated.")
      [in_campaign c; ("status", j_enum (Campaign.status c)); ("report_link", campaign_link c "/report")]).

(** [date.fromisoformat(s)] on the calendar formats, with and without dashes. *)
Definition date_fromisoformat (s : string) : option Z :=
  match String.length s with
  | 10%nat =>
      y ← field 0 4 s; mo ← field 5 2 s; d ← field 8 2 s;
      let t := days_of_civil y mo d in
      if date_str t ==b s then Some t else None
  | 8%nat =>
      y ← field 0 4 s; mo ← field 4 2 s; d ← field 6 2 s;
      let t := days_of_civil y mo d in
      if date_str t ==b String.substring 0 4 s +:+ "-" +:+ String.substring 4 2 s +:+ "-" +:+ String.substring 6 2 s
      then Some t else None
  | _ => None
  end.

(** What the schema of create_campaign asks for. *)
Record CampaignInput := {
  ci_name : string;
  ci_campaign_type : string;
  ci_objective : string;
  ci_brief : string;
  ci_budget_total : string;
  ci_currency : string;
  ci_start_date : string;
  ci_end_date : string;
  ci_primary_kpi_metric : string;
  ci_primary_kpi_target : Z;
}.

(** The checks of the input: the type, the budget and the dates. *)
Definition check_campaign_input (i : CampaignInput) : exn + (CampaignType.t * pydec * Z * Z) :=
  match of_value CampaignType.t (ci_campaign_type i) with
  | None => inl (ToolError ("Unknown campaign_type '" +:+ ci_campaign_type i +:+ "'. Valid: " +:+
                   str_join ", " (value <$> members CampaignType.t) +:+ "."))
  | Some ctype =>
      match dec_parse (ci_budget_total i) with
      | None => inl (ToolError ("budget_total '" +:+ ci_budget_total i +:+ "' isn't a number."))
      | Some budget =>
          match date_fromisoformat (ci_start_date i), date_fromisoformat (ci_end_date i) with
          | Some sd, Some ed =>
              if ed <? sd then inl (ToolError "end_date is before start_date.") else inr (ctype, budget, sd, ed)
          | _, _ => inl (ToolError "Dates must be ISO format (YYYY-MM-DD).")
          end
      end
  end.

(** [app/assistant/tools.py] lines 397-469, [create_campaign]. A budget the column cannot hold is
    refused by the database; NaN is left out. *)
Definition create_campaign (user : AppUser.t) (i : CampaignInput) : M ToolResult :=
  _require_role user UserRole.marketer ;;
  checked ← of_sum (check_campaign_input i);
  let '(ctype, budget, sd, ed) := checked in
  cents ← store (numeric_column 14 2 budget);
  t ← asks now;
  c ← add_tracked (λ id, {|
    Campaign.id := id;
    Campaign.tenant_id := AppUser.tenant_id user;
    Campaign.owner_id := Some (AppUser.id user);
    Campaign.name := str_strip (ci_name i);
    Campaign.status := CampaignStatus.drafted;
    Campaign.campaign_type := ctype;
    Campaign.objective := str_strip (ci_objective i);
    Campaign.budget_total := cents;
    Campaign.currency := str_upper (ci_currency i);
    Campaign.start_date := sd;
    Campaign.end_date := ed;
    Campaign.brief := Some (str_strip (ci_brief i));
    Campaign.kpi_targets :=
      [("primary", JObj [("metric", JStr (ci_primary_kpi_metric i)); ("target", JInt (ci_primary_kpi_target i))]);
       ("secondary", JList [])];
    Campaign.launched_at := None;
    Campaign.completed_at := None;
    Campaign.created_at := t;
    Campaign.updated_at := t |});
  mret (result ("Created campaign '" +:+ Campaign.name c +:+ "' (status: drafted). Next step: " +:+
      "upload audience CSV or build from CRM, then ask me to run the Strategist.")
    [in_campaign c; ("link", campaign_link c "")]).

(** ** Decisions on the analysis *)

(** [app/assistant/tools.py] lines 472-511, [accept_recommendation]. *)
Definition accept_recommendation (user : AppUser.t) (identifier : string) (confirm : bool) : M ToolResult :=
  _require_role user UserRole.marketer ;;
  match uuid_parse identifier with
  | None => raise (ToolError "recommendation identifier must be a UUID.")
  | Some rid =>
      rec ← get_row (R:=OptimisationRecommendation.t) rid;
      match rec with
      | Some rec =>
          raise_if (OptimisationRecommendation.tenant_id rec !=b AppUser.tenant_id user)
            (ToolError ("No recommendation found with id " +:+ uuid_str rid +:+ ".")) ;;
          raise_if (OptimisationRecommendation.status rec !=b "pending")
            (ToolError ("Recommendation is in status '" +:+ OptimisationRecommendation.status rec +:+
               "', not pending.")) ;;
          let id := j_uuid (OptimisationRecommendation.id rec) in
          let kind := OptimisationRecommendation.kind rec in
          if negb confirm then
            mret (ask ("Confirm: accept the " +:+ kind +:+ " recommendation? Predicted uplift: " +:+
                default "-" (uplift rec) +:+ ". This applies the change immediately.")
              [("recommendation_id", id); ("kind", JStr kind)])
          else
            when (kind ==b "budget_shift") (_apply_budget_shift rec) ;;
            t ← asks now;
            assign rec (λ r, r <| OptimisationRecommendation.status := "applied" |>
                               <| OptimisationRecommendation.applied_at := Some t |>
                               <| OptimisationRecommendation.applied_by := Some (AppUser.id user) |>) ;;
            mret (result ("Applied " +:+ kind +:+ " recommendation.")
              [("recommendation_id", id); ("status", JStr "applied")])
      | None => raise (ToolError ("No recommendation found with id " +:+ uuid_str rid +:+ "."))
      end
  end.

(** [app/assistant/tools.py] lines 514-536, [dismiss_anomaly]. *)
Definition dismiss_anomaly (user : AppUser.t) (identifier : string) : M ToolResult :=
  _require_role user UserRole.admin ;;
  match uuid_parse identifier with
  | None => raise (ToolError "anomaly identifier must be a UUID.")
  | Some aid =>
      t ← asks now;
      row ← try_except (Anomaly.dismiss_anomaly aid (AppUser.id user) t)
        (λ x, match x with LookupError msg => Some (raise (ToolError msg)) | _ => None end);
      mret (result ("Dismissed anomaly on metric '" +:+ MetricAnomaly.metric row +:+ "' (silenced 24h).")
        [("anomaly_id", j_uuid (MetricAnomaly.id row))])
  end.

(** ** Questions and the demo audience *)

(** One option of a question, as a value and a label. *)
Definition normalise_option (o : json) : option json :=
  match o with
  | JStr s => Some (JObj [("value", JStr s); ("label", JStr s)])
  | JObj d =>
      let value := default JNull (dget "value" d) in
      if truthy value
      then Some (JObj [("value", JStr (json_str value));
                       ("label", JStr (json_str (py_or (default JNull (dget "label" d)) value)))])
      else None
  | _ => None
  end.

(** [app/assistant/tools.py] lines 544-578, [request_input]. *)
Definition request_input (user : AppUser.t) (prompt : string) (options : list json) (context : option string)
    : M ToolResult :=
  _require_role user UserRole.viewer ;;
  mret (ask prompt [("choices", JList (omap normalise_option options)); ("context", jopt JStr context)]).

(** The [i]-th demo contact. *)
Definition demo_member (audience_id : N) (t i : Z) : AudienceMember.t := {|
  AudienceMember.audience_id := audience_id;
  AudienceMember.external_id := "demo-" +:+ pad 3 i;
  AudienceMember.payload := [
    ("email", JStr ("contact" +:+ pad 3 i +:+ "@demo-co-" +:+ str_of_Z (i mod 5) +:+ ".test"));
    ("first_name", JStr ("Demo" +:+ str_of_Z i));
    ("company", JStr ("Demo Co " +:+ str_of_Z (i mod 5)))];
  AudienceMember.source := Some "seed";
  AudienceMember.fetched_at := Some t;
  AudienceMember.added_at := t |}.

(** [app/assistant/tools.py] lines 581-642, [synthesise_audience]. *)
Definition synthesise_audience (user : AppUser.t) (campaign : string) (size : Z) (persona : string) : M ToolResult :=
  _require_role user UserRole.marketer ;;
  raise_if ((size <? 1) || (200 <? size)) (ToolError "size must be between 1 and 200.") ;;
  c ← _find_campaign (AppUser.tenant_id user) campaign;
  t ← asks now;
  aud ← add_tracked (λ id, {|
    Audience.id := id;
    Audience.tenant_id := AppUser.tenant_id user;
    Audience.campaign_id := Campaign.id c;
    Audience.name := "Demo audience - " +:+ str_take 40 persona;
    Audience.segment_criteria := [("_demo", JBool true); ("persona", JStr persona)];
    Audience.estimated_size := Some size;
    Audience.actual_size := Some size;
    Audience.refreshed_at := Some t;
    Audience.created_at := t;
    Audience.updated_at := t |});
  foreach (seqZ 0 size) (λ i, put_row (demo_member (Audience.id aud) t i)) ;;
  (if Campaign.status c ==b CampaignStatus.drafted
   then assign c (λ c, c <| Campaign.status := CampaignStatus.audience_built |>) ;; mret () else mret ()) ;;
  mret (result ("Built a synthetic audience of " +:+ str_of_Z size +:+ " contacts for '" +:+ Campaign.name c +:+
      "'. The campaign is now in `audience_built` - ready for the Strategist.")
    [in_campaign c; ("audience_id", j_uuid (Audience.id aud)); ("size", JInt size)]).

(** ** Strategy *)

(** [", ".join(f"{ch.get('name')} {ch.get('allocation_pct')}%" for ch in channels)]. *)
Definition channel_summary (payload : jdict) : exn + string :=
  match dget "channels" payload with
  | None => inr "(no channels)"
  | Some (JList chs) =>
      if forallb (λ ch, match ch with JObj _ => true | _ => false end) chs then
        let s := str_join ", " (omap (λ ch, match ch with
          | JObj d => Some (json_str (default JNull (dget "name" d)) +:+ " " +:+
                            json_str (default JNull (dget "allocation_pct" d)) +:+ "%")
          | _ => None
          end) chs) in
        inr (if str_empty s then "(no channels)" else s)
      else inl (AttributeError "get")
  | Some _ => inl TypeError
  end.

(** The proposals of a campaign, the latest version first. *)
Definition latest_proposal (rows : list StrategyProposal.t) : option StrategyProposal.t :=
  head (order_by_desc StrategyProposal.version rows).

(** [app/assistant/tools.py] lines 645-724, [generate_strategy]. [anthropic]: an API key is
    configured. *)
Definition generate_strategy (anthropic : bool) (planner : StrategyContext.t → exn + PlannerResult)
    (user : AppUser.t) (campaign : string) (confirm : bool) : M ToolResult :=
  _require_role user UserRole.marketer ;;
  c ← _find_campaign (AppUser.tenant_id user) campaign;
  if negb confirm then
    mret (ask ("This will make a real Anthropic call (~$0.02) to draft a strategy for '" +:+ Campaign.name c +:+
        "'. Continue?")
      [in_campaign c; ("campaign_name", JStr (Campaign.name c))])
  else
    raise_if (negb anthropic)
      (ToolError "ANTHROPIC_API_KEY is not configured - the Strategist needs a live LLM.") ;;
    ensure_strategist_agent (AppUser.tenant_id user) ;;
    try_except (propose planner (Campaign.id c) (Some (AppUser.id user)) ;; mret ())
      (λ x, match x with StrategistPreconditionError msg => Some (raise (ToolError msg)) | _ => None end) ;;
    rows ← select (λ p, StrategyProposal.campaign_id p ==b Campaign.id c);
    match latest_proposal rows with
    | None => raise NoResultFound
    | Some proposal =>
        channels ← of_sum (channel_summary (StrategyProposal.payload proposal));
        let version := StrategyProposal.version proposal in
        mret (result ("Drafted proposal v" +:+ str_of_Z version +:+ ": " +:+ channels +:+
            ". Review it and accept when ready.")
          [in_campaign c; ("proposal_id", j_uuid (StrategyProposal.id proposal)); ("version", JInt version);
           ("proposal_payload", JObj (StrategyProposal.payload proposal))])
    end.

(** [app/assistant/tools.py] lines 727-801, [accept_strategy]. The UPDATE that demotes the others is
    sent before the change of the proposal is flushed. *)
Definition accept_strategy (user : AppUser.t) (campaign : string) (confirm : bool) : M ToolResult :=
  _require_role user UserRole.marketer ;;
  c ← _find_campaign (AppUser.tenant_id user) campaign;
  rows ← select (λ p, (StrategyProposal.campaign_id p ==b Campaign.id c) && negb (StrategyProposal.is_accepted p));
  match latest_proposal rows with
  | None => raise (ToolError ("No unaccepted proposal for '" +:+ Campaign.name c +:+
                     "'. Did you run the Strategist yet?"))
  | Some proposal =>
      let version := str_of_Z (StrategyProposal.version proposal) in
      let id := ("proposal_id", j_uuid (StrategyProposal.id proposal)) in
      if negb confirm then
        mret (ask ("Accept proposal v" +:+ version +:+ " for '" +:+ Campaign.name c +:+
            "'? This locks the channel mix + calendar.") [id])
      else
        update_where (λ p, (StrategyProposal.campaign_id p ==b Campaign.id c) &&
                           (StrategyProposal.id p !=b StrategyProposal.id proposal) && StrategyProposal.is_accepted p)
          (λ p, p <| StrategyProposal.is_accepted := false |>) ;;
        proposal ← assign proposal (λ p, p <| StrategyProposal.is_accepted := true |>);
        touchpoints ← try_except (seed_calendar proposal)
          (λ x, Some (raise (ToolError ("Calendar seeding failed: " +:+ exn_str x))));
        (if Campaign.status c ∈b [CampaignStatus.audience_built; CampaignStatus.drafted]
         then assign c (λ c, c <| Campaign.status := CampaignStatus.strategy_set |>) ;; mret () else mret ()) ;;
        mret (result ("Accepted proposal v" +:+ version +:+ "; " +:+ str_of_Z (count_of touchpoints) +:+
            " touchpoint(s) scheduled. Ready to draft content.")
          [in_campaign c; id; ("touchpoints", JInt (count_of touchpoints))])
  end.

(** ** Content *)

Section content.
Context (re_compile : string → string + regex).
Context (copywriting_tool seo_tool : jdict → exn + jdict).

(** One asset of the loop: the number that succeeded and the failures. *)
Definition draft_asset (acc : Z * list json) (asset_id : N) : M (Z * list json) :=
  try_except (generate_asset re_compile copywriting_tool seo_tool asset_id ;; mret (acc.1 + 1, acc.2))
    (λ x, Some (mret (acc.1, acc.2 ++ [JObj [("asset_id", j_uuid asset_id);
                                             ("error", JStr (str_take 200 (exn_str x)))]]))).

(** [app/assistant/tools.py] lines 804-915, [generate_content]. *)
Definition generate_content (anthropic : bool) (user : AppUser.t) (campaign : string) (confirm : bool) : M ToolResult :=
  _require_role user UserRole.marketer ;;
  c ← _find_campaign (AppUser.tenant_id user) campaign;
  raise_if (negb anthropic)
    (ToolError "ANTHROPIC_API_KEY is not configured - Content Creator needs a live LLM.") ;;
  proposals ← select (λ p, (StrategyProposal.campaign_id p ==b Campaign.id c) && StrategyProposal.is_accepted p);
  chosen ← scalar_one_or_none proposals;
  match chosen with
  | None => raise (ToolError "No accepted strategy proposal yet. Run + accept the Strategist first.")
  | Some chosen =>
      touchpoints ← select (λ tp, StrategyTouchpoint.proposal_id tp ==b StrategyProposal.id chosen);
      raise_if (bool_decide (length touchpoints = 0%nat))
        (ToolError "The accepted proposal has no touchpoints to draft for.") ;;
      let n_assets := count_of touchpoints in
      if negb confirm then
        mret (ask ("This will draft " +:+ str_of_Z n_assets +:+ " content asset(s) via real Anthropic calls (~$" +:+
            dec_str (DFin false (Z.to_N (15 * n_assets)) (-3)) +:+ "). Continue?")
          [in_campaign c; ("n_assets", JInt n_assets)])
      else
        ensure_content_creator_agent (AppUser.tenant_id user) ;;
        asset_rows ← try_except (seed_assets_for_campaign c)
          (λ x, match x with ContentCreatorError msg => Some (raise (ToolError msg)) | _ => None end);
        done ← foldM draft_asset (0, []) asset_rows;
        let '(succeeded, failed) := done in
        (if Campaign.status c ==b CampaignStatus.strategy_set
         then assign c (λ c, c <| Campaign.status := CampaignStatus.content_in_production |>) ;; mret ()
         else mret ()) ;;
        mret (result ("Drafted " +:+ str_of_Z succeeded +:+ "/" +:+ str_of_Z n_assets +:+ " asset(s)" +:+
            (match failed with [] => "" | _ => "; " +:+ str_of_Z (count_of failed) +:+ " failed" end) +:+
            ". Review them and approve when ready.")
          [in_campaign c; ("succeeded", JInt succeeded); ("failed", JList failed)])
  end.
End content.

(** The text up to the first line feed. *)
Definition first_line (s : string) : string := default "" (head (str_split (ascii_of_N 10) "" s)).

(** One draft of the review list. *)
Definition draft_item (a : ContentAsset.t) : exn + json :=
  match py_or (default JNull (dget "fields" (ContentAsset.extra_metadata a))) (JObj []) with
  | JObj fields => inr (JObj [
      ("id", j_uuid (ContentAsset.id a));
      ("title", py_or (default JNull (dget "subject" fields))
                  (JStr (default "(no title)" (nonempty_str (ContentAsset.title a)))));
      ("asset_type", j_enum (ContentAsset.asset_type a));
      ("status", j_enum (ContentAsset.status a));
      ("preview", JStr (str_take 160 (first_line (str_strip (default "" (ContentAsset.content a))))));
      ("compliance_flags",
         py_or (default JNull (dget "compliance_violations" (ContentAsset.extra_metadata a))) (JList []));
      ("scheduled_at", jopt (λ t, JStr (isoformat t)) (ContentAsset.scheduled_at a))])
  | _ => inl (AttributeError "get")
  end.

(** The campaign whose drafts are listed: the one named, or the active one. *)
Definition review_campaign (user : AppUser.t) (campaign : option string) : M Campaign.t :=
  match nonempty_str campaign with
  | Some i => _find_campaign (AppUser.tenant_id user) i
  | None =>
      active ← get_active_campaign (AppUser.id user);
      match active with
      | None => raise (ToolError ("No active campaign in this conversation. Tell me which " +:+
                  "campaign to review, or say 'where did we leave off' to see the last one I touched."))
      | Some active =>
          c ← get_row (R:=Campaign.t) active;
          match c with
          | Some c => raise_if (Campaign.tenant_id c !=b AppUser.tenant_id user)
                        (ToolError "Active campaign no longer exists.") ;; mret c
          | None => raise (ToolError "Active campaign no longer exists.")
          end
      end
  end.

(** [app/assistant/tools.py] lines 980-1062, [list_drafts_for_review]. *)
Definition list_drafts_for_review (user : AppUser.t) (campaign : option string) : M ToolResult :=
  _require_role user UserRole.viewer ;;
  c ← review_campaign user campaign;
  rows ← select (λ a, (ContentAsset.campaign_id a ==b Campaign.id c) &&
                      status_in [AssetStatus.drafted; AssetStatus.pending_approval] a);
  items ← mapM_ (λ a, of_sum (draft_item a)) (merge_sort asset_list_order rows);
  mret (result (str_of_Z (count_of items) +:+ " draft" +:+ plural (count_of items) "" "s" +:+ " on '" +:+
      Campaign.name c +:+ "' waiting on review.")
    [("drafts", JList items); in_campaign c; ("campaign_name", JStr (Campaign.name c))]).

(** ** The pointer to the active campaign *)

Definition next_steps : list (string * string) := [
  ("drafted", "Build a synthetic audience");
  ("audience_built", "Draft the strategy");
  ("strategy_set", "Draft the content");
  ("content_in_production", "Review the drafts");
  ("approval_pending", "Review the drafts");
  ("ready_to_launch", "Launch the campaign");
  ("live", "Check current KPIs");
  ("optimising", "Check current KPIs");
  ("paused", "Resume or complete");
  ("completed", "Open the end-of-campaign report")].

Definition choice (value label : string) : json := JObj [("value", JStr value); ("label", JStr label)].

(** [app/assistant/tools.py] lines 1197-1264, [where_did_we_leave_off]. *)
Definition where_did_we_leave_off (user : AppUser.t) : M ToolResult :=
  _require_role user UserRole.viewer ;;
  active ← get_active_campaign (AppUser.id user);
  match active with
  | None => mret (ask ("No active campaign yet. Tell me what you'd like to create or which campaign to look at, " +:+
                       "and I'll pick up from there.")
      [("choices", JList [
          choice "List my campaigns" "List my campaigns";
          choice "Show me anything that needs my attention" "Anything need attention?";
          choice "I want to create a new campaign" "Start a new campaign"])])
  | Some active =>
      c ← get_row (R:=Campaign.t) active;
      let visible := c ≫= λ c, if Campaign.tenant_id c ==b AppUser.tenant_id user then Some c else None in
      match visible with
      | None =>
          set_active_campaign (AppUser.id user) (AppUser.tenant_id user) None ;;
          mret (result "The campaign we were on is gone (deleted or out of reach). Pick something else?" [])
      | Some c =>
          let status := value (Campaign.status c) in
          let next_step := default "Take a look" (dget status next_steps) in
          mret (result ("You were working on '" +:+ Campaign.name c +:+ "'. It's in '" +:+ status +:+
              "'. Next: " +:+ str_lower next_step +:+ ".")
            [in_campaign c; ("campaign_name", JStr (Campaign.name c)); ("status", JStr status);
             ("next_step", JStr next_step); ("link", campaign_link c "")])
      end
  end.

(** ** The outbound flow *)

(** [app/assistant/tools.py] lines 1312-1333, [_resolve_audience_for_campaign]. *)
Definition _resolve_audience_for_campaign (campaign : Campaign.t) : M Audience.t :=
  rows ← select (λ a, Audience.campaign_id a ==b Campaign.id campaign);
  match head (order_by_desc Audience.created_at rows) with
  | Some a => mret a
  | None => raise (ToolError ("'" +:+ Campaign.name campaign +:+ "' has no audience attached yet. Upload a CSV at " +:+
                     "/ui/outbound/upload, then come back."))
  end.

(** The errors shown: the first five. *)
Definition shown_errors (errors : list string) : json := JList (JStr <$> take 5 errors).

(** [app/assistant/tools.py] lines 1336-1395, [enrich_audience]. The settings and the client of the
    people directory are parameters. *)
Definition enrich_audience (post : string → string → jdict → apollo_outcome) (loads : string → option json)
    (apollo_api_key apollo_base_url : string)
    (user : AppUser.t) (campaign : string) (max_to_enrich : Z) : M ToolResult :=
  _require_role user UserRole.marketer ;;
  c ← _find_campaign (AppUser.tenant_id user) campaign;
  audience ← _resolve_audience_for_campaign c;
  raise_if (str_empty apollo_api_key)
    (ToolError ("Apollo enrichment isn't configured (no APOLLO_API_KEY). Ask your admin to set the key in " +:+
       ".env.local, then try again.")) ;;
  summary ← Outbound.enrich_audience (match_person post loads apollo_api_key apollo_base_url)
              (Audience.id audience) max_to_enrich;
  let n := str_of_Z in
  mret (result ("Enriched " +:+ n (es_enriched summary) +:+ "/" +:+ n (es_total_members summary) +:+
      " contact(s) on '" +:+ Campaign.name c +:+ "' via Apollo. " +:+ n (es_already_complete summary) +:+
      " already complete, " +:+ n (es_not_found summary) +:+ " not in Apollo, " +:+ n (es_failed summary) +:+ " failed.")
    [in_campaign c; ("campaign_name", JStr (Campaign.name c)); ("audience_id", j_uuid (Audience.id audience));
     ("total_members", JInt (es_total_members summary)); ("enriched", JInt (es_enriched summary));
     ("already_complete", JInt (es_already_complete summary)); ("not_found", JInt (es_not_found summary));
     ("failed", JInt (es_failed summary)); ("errors", shown_errors (es_errors summary))]).

Definition segment_item (s : SegmentationResult) : json := JObj [
  ("key", JStr (seg_key (seg_bucket s))); ("label", JStr (seg_label (seg_bucket s)));
  ("count", JInt (count_of (seg_members s)))].

Definition drafts_link (c : Campaign.t) : string :=
  "/ui/campaigns/" +:+ uuid_str (Campaign.id c) +:+ "/personalised-drafts".

(** [app/assistant/tools.py] lines 1398-1489, [draft_outbound]. *)
Definition draft_outbound (loads : string → option json) (call_model : string → model_answer) (anthropic : bool)
    (user : AppUser.t) (campaign : string) (confirm overwrite : bool) : M ToolResult :=
  _require_role user UserRole.marketer ;;
  c ← _find_campaign (AppUser.tenant_id user) campaign;
  audience ← _resolve_audience_for_campaign c;
  rows ← select (λ m, AudienceMember.audience_id m ==b Audience.id audience);
  raise_if (bool_decide (length rows = 0%nat)) (ToolError ("Audience for '" +:+ Campaign.name c +:+ "' is empty.")) ;;
  segments ← of_sum (segment_members rows);
  let n_calls := count_of segments * 2 in
  let n := str_of_Z in
  if negb confirm then
    mret (ask ("Draft personalised outreach for '" +:+ Campaign.name c +:+ "'? This will segment " +:+
        n (count_of rows) +:+ " contact(s) into " +:+ n (count_of segments) +:+ " bucket(s) and make " +:+
        n n_calls +:+ " LLM call(s) (LinkedIn DM + email per segment).")
      [in_campaign c; ("audience_id", j_uuid (Audience.id audience)); ("members", JInt (count_of rows));
       ("segments", JList (segment_item <$> segments)); ("llm_calls", JInt n_calls)])
  else
    raise_if (negb anthropic) (ToolError "Anthropic API key not configured - can't draft outreach.") ;;
    summary ← generate_outreach_drafts loads call_model c (Audience.id audience) ["linkedin_dm"; "email"] overwrite;
    mret (result ("Drafted " +:+ n (og_linkedin_assets summary) +:+ " LinkedIn + " +:+
        n (og_email_assets summary) +:+ " email template(s) across " +:+ n (og_segments_generated summary) +:+
        " segment(s) on '" +:+ Campaign.name c +:+ "'. " +:+ n (og_skipped_existing summary) +:+
        " skipped (already drafted). Open " +:+ drafts_link c +:+ " to review.")
      [in_campaign c; ("audience_id", j_uuid (Audience.id audience));
       ("segments_generated", JInt (og_segments_generated summary));
       ("linkedin_assets", JInt (og_linkedin_assets summary)); ("email_assets", JInt (og_email_assets summary));
       ("skipped_existing", JInt (og_skipped_existing summary)); ("errors", shown_errors (og_errors summary));
       ("link", JStr (drafts_link c))]).

(** [l[:n]]. *)
Definition py_take {A} (n : Z) (l : list A) : list A :=
  take (Z.to_nat (if n <? 0 then Z.of_nat (length l) + n else n)) l.

(** The first two hundred characters are cut to 180 in the previews; one entry per email address. *)
Definition contact_entry (d : PersonalisedDraft) : jdict := [
  ("email", contact_email d); ("name", contact_name d); ("title", contact_title d);
  ("company", contact_company d); ("segment", JStr (draft_segment_label d))].
Definition add_preview (d : PersonalisedDraft) (entry : jdict) : jdict :=
  if draft_channel d ==b "linkedin_dm" then dset "linkedin_preview" (JStr (str_take 180 (draft_body d))) entry
  else dset "email_preview" (JStr (str_take 180 (draft_body d)))
         (dset "email_subject" (jopt JStr (draft_subject d)) entry).

(** The dictionary by address; an address that cannot be hashed raises. *)
Definition by_contact (drafts : list PersonalisedDraft) : exn + list (string * jdict) :=
  if existsb (λ d, match contact_email d with JList _ | JObj _ => true | _ => false end) drafts then inl TypeError
  else inr (fold_left (λ acc d,
         let k := json_repr (contact_email d) in
         dset k (add_preview d (default (contact_entry d) (dget k acc))) acc) drafts []).

(** [app/assistant/tools.py] lines 1492-1555, [list_personalised_drafts]. *)
Definition list_personalised_drafts (user : AppUser.t) (campaign : string) (preview_count : Z) : M ToolResult :=
  _require_role user UserRole.viewer ;;
  c ← _find_campaign (AppUser.tenant_id user) campaign;
  audience ← _resolve_audience_for_campaign c;
  drafts ← render_personalised_drafts (Campaign.id c) (Audience.id audience);
  match drafts with
  | [] => mret (result ("No personalised drafts yet for '" +:+ Campaign.name c +:+
                        "'. Call `draft_outbound` to generate them.")
            [in_campaign c; ("audience_id", j_uuid (Audience.id audience)); ("draft_count", JInt 0)])
  | _ =>
      contacts ← of_sum (by_contact drafts);
      let preview := py_take preview_count contacts in
      mret (result (str_of_Z (count_of contacts) +:+ " contact(s) have rendered drafts on '" +:+ Campaign.name c +:+
          "'. Showing " +:+ str_of_Z (count_of preview) +:+ " as a preview. Open " +:+ drafts_link c +:+
          " for the full list.")
        [in_campaign c; ("audience_id", j_uuid (Audience.id audience)); ("draft_count", JInt (count_of contacts));
         ("preview", JList ((λ kv, JObj kv.2) <$> preview)); ("link", JStr (drafts_link c))])
  end.

(** ** The catalog *)

(** What the tools call outside the program. *)
Record services := {
  sv_anthropic : bool;
  sv_planner : StrategyContext.t → exn + PlannerResult;
  sv_re_compile : string → string + regex;
  sv_copywriting : jdict → exn + jdict;
  sv_seo : jdict → exn + jdict;
  sv_post : string → string → jdict → apollo_outcome;
  sv_loads : string → option json;
  sv_apollo_key : string;
  sv_apollo_url : string;
  sv_outreach : string → model_answer;
}.

(** A tool: the names of its required and of its other arguments, and its body. *)
Record tool := mktool {
  required : list string;
  optional : list string;
  body : AppUser.t → jdict → M ToolResult;
}.

Definition arg_str (k : string) (i : jdict) : string := default "" (as_str (dget k i)).
Definition arg_opt (k : string) (i : jdict) : option string := as_str (dget k i).
Definition arg_bool (k : string) (i : jdict) : bool := opt_truthy (dget k i).
Definition arg_int (k : string) (d : Z) (i : jdict) : Z := match dget k i with Some (JInt z) => z | _ => d end.
Definition arg_default (k d : string) (i : jdict) : string := default d (as_str (dget k i)).

Definition campaign_input (i : jdict) : CampaignInput := {|
  ci_name := arg_str "name" i;
  ci_campaign_type := arg_str "campaign_type" i;
  ci_objective := arg_str "objective" i;
  ci_brief := arg_str "brief" i;
  ci_budget_total := arg_str "budget_total" i;
  ci_currency := arg_default "currency" "USD" i;
  ci_start_date := arg_str "start_date" i;
  ci_end_date := arg_str "end_date" i;
  ci_primary_kpi_metric := arg_default "primary_kpi_metric" "conversion" i;
  ci_primary_kpi_target := arg_int "primary_kpi_target" 100 i |}.

(** [app/assistant/tools.py] lines 2001-2031, [TOOL_HANDLERS]. With the parameters of each function. *)
Definition TOOL_HANDLERS (sv : services) : list (string * tool) := [
  ("list_campaigns", mktool [] ["status"] (λ u i, list_campaigns u (arg_opt "status" i)));
  ("get_campaign", mktool ["identifier"] [] (λ u i, get_campaign u (arg_str "identifier" i)));
  ("create_campaign", mktool ["name"; "campaign_type"; "objective"; "brief"; "budget_total"; "start_date"; "end_date"]
     ["currency"; "primary_kpi_metric"; "primary_kpi_target"] (λ u i, create_campaign u (campaign_input i)));
  ("pause_campaign", mktool ["identifier"] ["confirm"] (λ u i, pause_campaign u (arg_str "identifier" i) (arg_bool "confirm" i)));
  ("resume_campaign", mktool ["identifier"] [] (λ u i, resume_campaign u (arg_str "identifier" i)));
  ("complete_campaign", mktool ["identifier"] ["confirm"] (λ u i, complete_campaign u (arg_str "identifier" i) (arg_bool "confirm" i)));
  ("show_anomalies", mktool [] ["campaign"; "severity"] (λ u i, show_anomalies u (arg_opt "campaign" i) (arg_opt "severity" i)));
  ("show_recommendations", mktool [] ["campaign"] (λ u i, show_recommendations u (arg_opt "campaign" i)));
  ("show_pending_approvals", mktool [] [] (λ u _, show_pending_approvals u));
  ("summarise_kpis", mktool ["identifier"] [] (λ u i, summarise_kpis u (arg_str "identifier" i)));
  ("accept_recommendation", mktool ["identifier"] ["confirm"] (λ u i, accept_recommendation u (arg_str "identifier" i) (arg_bool "confirm" i)));
  ("dismiss_anomaly", mktool ["identifier"] [] (λ u i, dismiss_anomaly u (arg_str "identifier" i)));
  ("request_input", mktool ["prompt"] ["options"; "context"]
     (λ u i, request_input u (arg_str "prompt" i) (default [] (as_list (dget "options" i))) (arg_opt "context" i)));
  ("synthesise_audience", mktool ["campaign"] ["size"; "persona"]
     (λ u i, synthesise_audience u (arg_str "campaign" i) (arg_int "size" 20 i) (arg_default "persona" "Demo contacts" i)));
  ("generate_strategy", mktool ["campaign"] ["confirm"]
     (λ u i, generate_strategy (sv_anthropic sv) (sv_planner sv) u (arg_str "campaign" i) (arg_bool "confirm" i)));
  ("accept_strategy", mktool ["campaign"] ["confirm"] (λ u i, accept_strategy u (arg_str "campaign" i) (arg_bool "confirm" i)));
  ("generate_content", mktool ["campaign"] ["confirm"]
     (λ u i, generate_content (sv_re_compile sv) (sv_copywriting sv) (sv_seo sv) (sv_anthropic sv) u
               (arg_str "campaign" i) (arg_bool "confirm" i)));
  ("approve_all_content", mktool ["campaign"] ["confirm"] (λ u i, approve_all_content u (arg_str "campaign" i) (arg_bool "confirm" i)));
  ("launch_campaign", mktool ["campaign"] ["confirm"] (λ u i, launch_campaign u (arg_str "campaign" i) (arg_bool "confirm" i)));
  ("list_drafts_for_review", mktool [] ["campaign"] (λ u i, list_drafts_for_review u (arg_opt "campaign" i)));
  ("approve_asset", mktool ["asset_id"] [] (λ u i, Assistant.approve_asset u (arg_str "asset_id" i)));
  ("reject_asset", mktool ["asset_id"] ["reason"] (λ u i, Assistant.reject_asset u (arg_str "asset_id" i) (arg_opt "reason" i)));
  ("where_did_we_leave_off", mktool [] [] (λ u _, where_did_we_leave_off u));
  ("enrich_audience", mktool ["campaign"] ["max_to_enrich"]
     (λ u i, enrich_audience (sv_post sv) (sv_loads sv) (sv_apollo_key sv) (sv_apollo_url sv) u
               (arg_str "campaign" i) (arg_int "max_to_enrich" 200 i)));
  ("draft_outbound", mktool ["campaign"] ["confirm"; "overwrite"]
     (λ u i, draft_outbound (sv_loads sv) (sv_outreach sv) (sv_anthropic sv) u (arg_str "campaign" i)
               (arg_bool "confirm" i) (arg_bool "overwrite" i)));
  ("list_personalised_drafts", mktool ["campaign"] ["preview_count"]
     (λ u i, list_personalised_drafts u (arg_str "campaign" i) (arg_int "preview_count" 3 i)))].

(** [await handler(session, user=user, **tool_input)]: a missing or an unknown argument is a TypeError. *)
Definition call_tool (t : tool) (user : AppUser.t) (input : jdict) : M ToolResult :=
  raise_if (negb (forallb (λ k, bool_decide (is_Some (dget k input))) (required t)) ||
            negb (forallb (λ k, k ∈b required t ++ optional t) input.*1)) TypeError ;;
  body t user input.
