(* ===== verification/AssistantRouter.v ===== *)
(** * The assistant: src/app/assistant/router.py and src/app/api/ui/dashboard.py

    The loop that lets a language model call the tools, the chat endpoint of the dashboard, the
    figures of the dashboard, its campaign pages, and the script that calls the tools in turn to
    bring a stuck campaign to its launch (Module Recovery). The model ([create]) and the SDK's dump of a content block
    ([dump]) are parameters. *)

From S2P Require Export AssistantTools.
From S2P Require Import Tenancy.
Local Open Scope Z_scope.

(** [app/assistant/router.py] lines 40-40, [_MAX_TURNS]. *)
Definition _MAX_TURNS : nat := 4.

(** A block of a response. *)
Inductive block :=
  | TextBlock (text : string)
  | ToolUseBlock (id name : string) (input : json)
  | OtherBlock (v : json).

(** A response: the tokens it used, when it says so, and its blocks. *)
Record Message := { usage : option (Z * Z); content : list block }.

(** [app/assistant/router.py] lines 138-154, [AssistantResult]. *)
Record AssistantResult := mkassistant {
  r_text : string;
  r_tool_name : option string;
  r_tool_summary : option string;
  r_tool_data : jdict;
  r_requires_confirmation : bool;
  r_error : option string;
  r_turns : Z;
  r_input_tokens : Z;
  r_output_tokens : Z;
  r_messages : list json;
}.
#[global] Instance assistant_result_eta : Eta AssistantResult :=
  λ r, mkassistant (r_text r) (r_tool_name r) (r_tool_summary r) (r_tool_data r) (r_requires_confirmation r)
         (r_error r) (r_turns r) (r_input_tokens r) (r_output_tokens r) (r_messages r).

Definition empty_result (text : string) : AssistantResult :=
  mkassistant text None None [] false None 0 0 0 [].

(** The texts before the first tool call, and that call. *)
Fixpoint scan (blocks : list block) : list string * option (string * string * json) :=
  match blocks with
  | [] => ([], None)
  | ToolUseBlock id name input :: _ => ([], Some (id, name, input))
  | TextBlock t :: blocks => (t :: (scan blocks).1, (scan blocks).2)
  | OtherBlock _ :: blocks => scan blocks
  end.

(** ["\n\n".join(t for t in text_chunks if t.strip()).strip()]. *)
Definition join_chunks (chunks : list string) : string :=
  str_strip (str_join blank_line (List.filter (λ t, negb (str_empty (str_strip t))) chunks)).

(** [dict(tool_use.input or {})]. *)
Definition tool_input (input : json) : exn + jdict :=
  match input with
  | JObj d => inr d
  | v => if truthy v then inl TypeError else inr []
  end.

Section router.
Context (sv : services) (create : list json → exn + Message) (dump : block → json).

(** The message of the model, and the one that answers its call. *)
Definition assistant_message (response : Message) : json :=
  JObj [("role", JStr "assistant"); ("content", JList (dump <$> content response))].
Definition user_message (message : string) : json :=
  JObj [("role", JStr "user"); ("content", JStr message)].
Definition tool_result_message (id text : string) (is_error : bool) : json :=
  JObj [("role", JStr "user");
        ("content", JList [JObj [("type", JStr "tool_result"); ("tool_use_id", JStr id);
                                 ("content", JStr text); ("is_error", JBool is_error)]])].

(** What a call leaves for the model: the text, the result, and whether it failed. *)
Record tool_run := { run_text : string; run_result : ToolResult; run_failed : bool }.

(** The campaign of a result becomes the active one. *)
Definition remember_campaign (user : AppUser.t) (data : jdict) : M () :=
  let campaign_id := default JNull (dget "campaign_id" data) in
  if truthy campaign_id then
    match uuid_parse (json_str campaign_id) with
    | Some cid => set_active_campaign (AppUser.id user) (AppUser.tenant_id user) (Some cid)
    | None => mret ()
    end
  else mret ().

(** The call of a tool under its exception handlers. What the tool has written stays. *)
Definition run_tool (user : AppUser.t) (t : tool) (input : json) : M tool_run :=
  let failed prefix summary := Some (mret {| run_text := prefix; run_result := result summary [];
                                             run_failed := true |}) in
  try_except
    (input ← of_sum (tool_input input);
     tr ← call_tool t user input;
     remember_campaign user (tool_data tr) ;;
     mret {| run_text := tool_summary tr; run_result := tr; run_failed := false |})
    (λ x, match x with
          | ToolPermissionError m => failed ("PERMISSION_ERROR: " +:+ m) m
          | ToolError m => failed ("ERROR: " +:+ m) m
          | x => failed ("INTERNAL_ERROR: " +:+ exn_str x) ("Internal error: " +:+ exn_str x)
          end).

Definition add_usage (response : Message) (r : AssistantResult) : AssistantResult :=
  match usage response with
  | Some (i, o) => r <| r_input_tokens := r_input_tokens r + i |> <| r_output_tokens := r_output_tokens r + o |>
  | None => r
  end.

(** The summary, the data and the confirmation of a tool's result. *)
Definition show_tool (tr : ToolResult) (r : AssistantResult) : AssistantResult :=
  r <| r_tool_summary := Some (tool_summary tr) |> <| r_tool_data := tool_data tr |>
    <| r_requires_confirmation := requires_confirmation tr |>.

(** The turns that are left. *)
Fixpoint converse (user : AppUser.t) (fuel : nat) (turn : Z) (messages : list json) (r : AssistantResult)
    (last_tool_result : option ToolResult) : M AssistantResult :=
  match fuel with
  | O => raise (AssistantError ("Assistant exceeded " +:+ str_of_Z (Z.of_nat _MAX_TURNS) +:+
                                " turns without a final response."))
  | S fuel =>
      response ← of_sum (create messages);
      let r := add_usage response (r <| r_turns := turn + 1 |>) in
      let '(chunks, tool_use) := scan (content response) in
      match tool_use with
      | None =>
          let r := r <| r_text := join_chunks chunks |> in
          let r := from_option (λ tr, show_tool tr r) r last_tool_result in
          mret (r <| r_messages := messages ++ [assistant_message response] |>)
      | Some (id, name, input) =>
          match dget name (TOOL_HANDLERS sv) with
          | None => raise (ToolUnavailableError ("Model called unknown tool '" +:+ name +:+ "'."))
          | Some t =>
              out ← run_tool user t input;
              let r := if run_failed out then r else r <| r_tool_name := Some name |> in
              let messages := messages ++ [assistant_message response;
                                           tool_result_message id (run_text out) (run_failed out)] in
              if requires_confirmation (run_result out) then
                mret (show_tool (run_result out) (r <| r_text := join_chunks chunks |>) <| r_messages := messages |>)
              else converse user fuel (turn + 1) messages r (Some (run_result out))
          end
      end
  end.

(** [app/assistant/router.py] lines 165-326, [handle_message]. *)
Definition handle_message (user : AppUser.t) (message : string) (history : list json) : M AssistantResult :=
  converse user _MAX_TURNS 0 (history ++ [user_message message]) (empty_result "") None.

(** ** The endpoints *)

(** [app/api/ui/dashboard.py] lines 188-193, [_error_payload]. *)
Definition _error_payload (msg : string) : AssistantResult := empty_result "" <| r_error := Some msg |>.

(** [app/api/ui/dashboard.py] lines 108-174, [assistant_chat]. The message shown and the result. *)
Definition assistant_chat (message : string) (user : AppUser.t) : M (string * AssistantResult) :=
  let user_message := str_strip message in
  if negb (sv_anthropic sv) then
    mret (user_message, _error_payload ("ANTHROPIC_API_KEY is not configured. Ask your admin to set it; " +:+
                                        "the assistant needs a live LLM to route intent."))
  else
    history ← load_history (AppUser.id user);
    outcome ← try_except (r ← handle_message user user_message history; mret (inr r))
      (λ x, match x with
            | AssistantError m | ToolUnavailableError m => Some (mret (inl m))
            | _ => None
            end);
    match outcome with
    | inl m => mret (user_message, _error_payload m)
    | inr r =>
        match r_messages r with
        | [] => mret ()
        | messages => save_history (AppUser.id user) (AppUser.tenant_id user) messages
        end ;;
        mret (user_message, r)
    end.
End router.

(** [app/api/ui/dashboard.py] lines 177-185, [assistant_clear]. *)
Definition assistant_clear (user : AppUser.t) : M () := clear_history (AppUser.id user).

(** ** The thread of the dashboard *)

(** The bubbles of one message. *)
Definition bubbles (msg : json) : list json :=
  let role := default "" (as_str (msg_get "role" msg)) in
  match msg_get "content" msg with
  | Some (JStr text) =>
      if role ==b "user" then [JObj [("role", JStr "user"); ("text", JStr text)]] else []
  | Some (JList blocks) =>
      if role ==b "user" then
        omap (λ block, if as_str (msg_get "type" block) ==b Some "tool_result"
                       then Some (JObj [("role", JStr "tool");
                              ("text", JStr (str_take 200 (json_str (default (JStr "") (msg_get "content" block)))))])
                       else None) blocks
      else if role ==b "assistant" then
        let texts := omap (λ block, if as_str (msg_get "type" block) ==b Some "text"
                                    then Some (default "" (as_str (msg_get "text" block))) else None) blocks in
        let tool_use := List.find (λ block, as_str (msg_get "type" block) ==b Some "tool_use") blocks in
        let text := str_strip (str_join " " (List.filter (λ t, negb (str_empty t)) texts)) in
        if negb (str_empty text) || bool_decide (is_Some tool_use) then
          [JObj [("role", JStr "assistant"); ("text", JStr text);
                 ("tool_name", default JNull (tool_use ≫= msg_get "name"))]]
        else []
      else []
  | _ => []
  end.

(** [app/api/ui/dashboard.py] lines 27-75, [_format_history_for_template]. *)
Definition _format_history_for_template (messages : list json) : list json := concat (bubbles <$> messages).

(** ** The figures of the dashboard *)

(** [app/dashboard/stats.py] lines 25-36, [CampaignCard]. *)
Record CampaignCard := {
  card_id : N; card_name : string; card_status : string; card_start_date : Z; card_end_date : Z;
  card_budget_total : Z; card_currency : string; card_updated_at : Z }.

(** [app/dashboard/stats.py] lines 39-49, [DashboardStats]. *)
Record DashboardStats := {
  total_campaigns : Z;
  campaigns_by_status : list (string * Z);
  pending_approvals : Z;
  open_anomalies : Z;
  critical_anomalies : Z;
  pending_recommendations : Z;
  recent_campaigns : list CampaignCard;
}.

Definition campaign_card (c : Campaign.t) : CampaignCard := {|
  card_id := Campaign.id c; card_name := Campaign.name c; card_status := value (Campaign.status c);
  card_start_date := Campaign.start_date c; card_end_date := Campaign.end_date c;
  card_budget_total := Campaign.budget_total c; card_currency := Campaign.currency c;
  card_updated_at := Campaign.updated_at c |}.

(** [app/dashboard/stats.py] lines 52-134, [load_dashboard_stats]. *)
Definition load_dashboard_stats (recent_limit : nat) : M DashboardStats :=
  campaigns ← select (λ _ : Campaign.t, true);
  assets ← select (λ a, ContentAsset.status a ==b AssetStatus.pending_approval);
  open ← select (λ a, MetricAnomaly.dismissed_at a ==b None);
  critical ← select (λ a, (MetricAnomaly.dismissed_at a ==b None) && (MetricAnomaly.severity a ==b "critical"));
  recs ← select (λ r, OptimisationRecommendation.status r ==b "pending");
  let in_status st := count_of (List.filter (λ c, Campaign.status c ==b st) campaigns) in
  mret {|
    total_campaigns := foldr Z.add 0 (in_status <$> members CampaignStatus.t);
    campaigns_by_status := (λ st, (value st, in_status st)) <$> members CampaignStatus.t;
    pending_approvals := count_of assets;
    open_anomalies := count_of open;
    critical_anomalies := count_of critical;
    pending_recommendations := count_of recs;
    recent_campaigns := campaign_card <$> take recent_limit (order_by_desc Campaign.updated_at campaigns) |}.


(** ** The pages: src/app/api/ui/dashboard.py and src/app/api/ui/campaigns.py

    A page is the context its template renders. *)

Record DashboardPage := {
  db_stats : DashboardStats; db_user : AppUser.t; db_thread : list json; db_active_campaign : option Campaign.t }.

(** [app/api/ui/dashboard.py] lines 78-105, [dashboard]. *)
Definition dashboard (current_user : AppUser.t) : M DashboardPage :=
  stats ← load_dashboard_stats 6;
  history ← load_history (AppUser.id current_user);
  active ← get_active_campaign (AppUser.id current_user);
  campaign ← match active with
             | Some cid => get_row (R:=Campaign.t) cid
             | None => mret None
             end;
  mret {| db_stats := stats; db_user := current_user; db_thread := _format_history_for_template history;
          db_active_campaign := campaign ≫= λ c,
            if Campaign.tenant_id c ==b AppUser.tenant_id current_user then Some c else None |}.

Record MyDecision := { md_decision : ApprovalDecisionLog.t; md_asset : ContentAsset.t; md_campaign : Campaign.t }.
Record MePage := {
  me_user : AppUser.t; me_tenant : option Tenant.t; my_campaigns : list Campaign.t; my_decisions : list MyDecision }.

(** [app/api/ui/dashboard.py] lines 196-260, [ui_me]. *)
Definition ui_me (current_user : AppUser.t) : M MePage :=
  tenant ← get_row (R:=Tenant.t) (AppUser.tenant_id current_user);
  campaigns ← select (λ c, Campaign.owner_id c ==b Some (AppUser.id current_user));
  decisions ← select (λ d, ApprovalDecisionLog.reviewer_id d ==b AppUser.id current_user);
  assets ← gets t_content_asset;
  all_campaigns ← gets t_campaign;
  mret {| me_user := current_user; me_tenant := tenant;
          my_campaigns := take 5 (order_by_desc Campaign.created_at campaigns);
          my_decisions := take 5 (omap (λ d,
            a ← assets !! ApprovalDecisionLog.content_asset_id d;
            c ← all_campaigns !! ContentAsset.campaign_id a;
            Some {| md_decision := d; md_asset := a; md_campaign := c |})
            (order_by_desc ApprovalDecisionLog.decided_at decisions)) |}.

(** ORDER BY is_accepted DESC, version DESC. *)
Definition proposal_order (x y : StrategyProposal.t) : Prop :=
  (StrategyProposal.is_accepted x = true ∧ StrategyProposal.is_accepted y = false) ∨
  (StrategyProposal.is_accepted x = StrategyProposal.is_accepted y ∧
   StrategyProposal.version y ≤ StrategyProposal.version x).
#[export] Instance proposal_order_dec : RelDecision proposal_order.
Proof. intros x y. unfold proposal_order. apply _. Defined.

(** ORDER BY scheduled_at ASC NULLS LAST, created_at ASC. *)
Definition content_order (x y : ContentAsset.t) : Prop :=
  match ContentAsset.scheduled_at x, ContentAsset.scheduled_at y with
  | Some t, Some t' => t < t' ∨ t = t' ∧ ContentAsset.created_at x ≤ ContentAsset.created_at y
  | Some _, None => True
  | None, Some _ => False
  | None, None => ContentAsset.created_at x ≤ ContentAsset.created_at y
  end.
#[export] Instance content_order_dec : RelDecision content_order.
Proof. intros x y. unfold content_order. do 2 destruct (ContentAsset.scheduled_at _); apply _. Defined.

(** ORDER BY scheduled_at ASC, position ASC. *)
Definition touchpoint_order (x y : StrategyTouchpoint.t) : Prop :=
  StrategyTouchpoint.scheduled_at x < StrategyTouchpoint.scheduled_at y ∨
  (StrategyTouchpoint.scheduled_at x = StrategyTouchpoint.scheduled_at y ∧
   StrategyTouchpoint.position x ≤ StrategyTouchpoint.position y).
#[export] Instance touchpoint_order_dec : RelDecision touchpoint_order.
Proof. intros x y. unfold touchpoint_order. apply _. Defined.

Record CampaignPage := {
  cp_campaign : Campaign.t;
  cp_audience : option Audience.t;
  cp_proposal : option StrategyProposal.t;
  cp_content_assets : list ContentAsset.t;
  cp_touchpoints : list StrategyTouchpoint.t;
  cp_owner_label : option string;
}.

(** [app/api/ui/campaigns.py] lines 32-106, [campaign_detail]. *)
Definition campaign_detail (campaign_id : N) : M CampaignPage :=
  campaign ← get_row (R:=Campaign.t) campaign_id;
  match campaign with
  | None => raise (HTTPException 404 "campaign not found")
  | Some campaign =>
      audiences ← select (λ a, Audience.campaign_id a ==b Campaign.id campaign);
      proposals ← select (λ p, StrategyProposal.campaign_id p ==b Campaign.id campaign);
      let proposal := head (merge_sort proposal_order proposals) in
      assets ← select (λ a, ContentAsset.campaign_id a ==b Campaign.id campaign);
      touchpoints ← match proposal with
                    | Some p => rows ← select (λ t, StrategyTouchpoint.proposal_id t ==b StrategyProposal.id p);
                                mret (merge_sort touchpoint_order rows)
                    | None => mret []
                    end;
      owner ← match Campaign.owner_id campaign with
              | Some u => get_row (R:=AppUser.t) u
              | None => mret None
              end;
      mret {| cp_campaign := campaign; cp_audience := head (order_by_desc Audience.created_at audiences);
              cp_proposal := proposal; cp_content_assets := merge_sort content_order assets;
              cp_touchpoints := touchpoints; cp_owner_label := reviewer_name <$> owner |}
  end.

(** [app/api/ui/campaigns.py] lines 109-136, [campaign_report]. *)
Definition campaign_report (campaign_id : N) : M (Campaign.t * option CampaignReport.t) :=
  campaign ← get_row (R:=Campaign.t) campaign_id;
  match campaign with
  | None => raise (HTTPException 404 "campaign not found")
  | Some campaign =>
      rows ← select (λ r, (CampaignReport.campaign_id r ==b campaign_id) && CampaignReport.is_latest r);
      report ← scalar_one_or_none rows;
      mret (campaign, report)
  end.

#[local] Instance proposal_order_total : Total proposal_order.
Proof.
  intros x y. unfold proposal_order. destruct (StrategyProposal.is_accepted x), (StrategyProposal.is_accepted y);
    intuition lia.
Qed.
#[local] Instance proposal_order_trans : Transitive proposal_order.
Proof.
  intros x y z. unfold proposal_order.
  destruct (StrategyProposal.is_accepted x), (StrategyProposal.is_accepted y), (StrategyProposal.is_accepted z);
    intuition (try discriminate; lia).
Qed.

(** The detail page shows an accepted proposal if the campaign has one, and the newest of those it could
    show, with all of its touchpoints. *)
Lemma campaign_detail_proposal k e s s' page :
  campaign_detail k e s = (s', inr page) →
  s' = s ∧
  match cp_proposal page with
  | Some p =>
      (∀ q j, t_strategy_proposal s !! j = Some q → StrategyProposal.campaign_id q = Campaign.id (cp_campaign page) →
        proposal_order p q) ∧
      ∀ t j, t_strategy_touchpoint s !! j = Some t → StrategyTouchpoint.proposal_id t = StrategyProposal.id p →
        t ∈ cp_touchpoints page
  | None => ∀ q j, t_strategy_proposal s !! j = Some q →
      StrategyProposal.campaign_id q ≠ Campaign.id (cp_campaign page)
  end.
Proof.
  unfold campaign_detail. rewrite bind_get_row. destruct (rows s !! k) as [c|]; [|done].
  rewrite !bind_select. cbv zeta.
  set (ps := List.filter (λ p, StrategyProposal.campaign_id p ==b Campaign.id c) _).
  intros Hrun.
  assert (∀ q j, t_strategy_proposal s !! j = Some q → StrategyProposal.campaign_id q = Campaign.id c → q ∈ ps) as Hps.
  { intros q j Hq Hc. apply (elem_of_select (λ p, StrategyProposal.campaign_id p ==b Campaign.id c) s).
    split; [by exists j|]. by apply bool_decide_eq_true. }
  apply bind_inr in Hrun as (s1 & ts & Hts & Hrun).
  apply bind_inr in Hrun as (s2 & owner & Ho & Hrun). apply ret_inr in Hrun as [-> ->]. cbn.
  assert (s2 = s1) as -> by (destruct (Campaign.owner_id c); by inv_run).
  destruct (merge_sort proposal_order ps) as [|p ps'] eqn:Hsort; cbn [head] in Hts |- *.
  - apply ret_inr in Hts as [-> _]. split; [done|]. intros q j Hq Hc. pose proof (Hps q j Hq Hc) as Hin.
    rewrite <- (merge_sort_Permutation proposal_order ps), Hsort in Hin. by apply elem_of_nil in Hin.
  - rewrite bind_select in Hts. apply ret_inr in Hts as [-> ->]. split; [done|].
    apply merge_sort_head in Hsort as [_ Hhead]; [|apply _..]. split.
    + intros q j Hq Hc. destruct (Hhead q (Hps q j Hq Hc)) as [->|?]; [|done].
      right. split; [done|]. reflexivity.
    + intros t j Ht Hp. rewrite merge_sort_Permutation.
      apply (elem_of_select (λ t, StrategyTouchpoint.proposal_id t ==b StrategyProposal.id p) s).
      split; [by exists j|]. by apply bool_decide_eq_true.
Qed.

(** [app/api/ui/templates.py] lines 18-39, [_STATUS_BADGE_VARIANTS]. *)
Definition _STATUS_BADGE_VARIANTS : list (string * string) := [
  ("drafted", "neutral"); ("audience_built", "info"); ("strategy_set", "info"); ("content_in_production", "info");
  ("approval_pending", "warn"); ("ready_to_launch", "info"); ("live", "success"); ("optimising", "success");
  ("paused", "warn"); ("completed", "neutral"); ("requested", "neutral"); ("generating", "info");
  ("pending_approval", "warn"); ("approved", "success"); ("rejected", "danger"); ("scheduled", "info");
  ("published", "success"); ("failed", "danger")].

(** [app/api/ui/templates.py] lines 42-43, [status_badge_class]. *)
Definition status_badge_class (status : string) : string := default "neutral" (dget status _STATUS_BADGE_VARIANTS).

(** Every status of a campaign has a badge of its own; of an asset three fall back to the neutral one. *)
Lemma badges_complete :
  (∀ st : CampaignStatus.t, is_Some (dget (value st) _STATUS_BADGE_VARIANTS)) ∧
  ∀ st : AssetStatus.t, dget (value st) _STATUS_BADGE_VARIANTS = None ↔
    st ∈ [AssetStatus.measuring; AssetStatus.variant_winner; AssetStatus.archived].
Proof.
  split; [intros []; by eexists|]. intros st. destruct st; cbn; split; intros H;
    first [done | discriminate H | exfalso; revert H; apply (bool_decide_unpack (_ ∉ _)); by vm_compute
          | apply (bool_decide_unpack (_ ∈ _)); by vm_compute].
Qed.

(** ** The recovery script: src/scripts/recover_stuck_campaign.py *)

Module Recovery.

(** [async with SessionLocal() as session, session.begin()], then [set_tenant_context]. *)
Definition in_tenant {A} (tenant_id : N) (m : M A) : M A := transaction (scoped tenant_id m).

(** [scripts/recover_stuck_campaign.py] lines 55-73, [_pick_user]. *)
Definition _pick_user (tenant_id : N) : M AppUser.t :=
  seniors ← select (λ u, (AppUser.tenant_id u ==b tenant_id) && (AppUser.role u ∈b [UserRole.admin; UserRole.manager]));
  match seniors with
  | u :: _ => mret u
  | [] =>
      users ← select (λ u, AppUser.tenant_id u ==b tenant_id);
      match users with
      | u :: _ => mret u
      | [] => raise NoResultFound
      end
  end.

(** The first lookup, which sees every tenant. *)
Definition target (identifier : string) : M (option Campaign.t) :=
  match uuid_parse identifier with
  | Some cid => get_row cid
  | None => rows ← select (λ c, ilike (Campaign.name c) ("%" +:+ identifier +:+ "%")); mret (head rows)
  end.

(** [c = await session.get(Campaign, campaign_id)], of which [attr] is the first attribute read. *)
Definition load (attr : string) (campaign_id : N) : M Campaign.t :=
  c ← get_row campaign_id;
  match c with
  | Some c => mret c
  | None => raise (AttributeError attr)
  end.

Section steps.
Context (sv : services) (tenant_id campaign_id : N).
Let campaign := uuid_str campaign_id.

(** The last step: its approver is looked up again. *)
Definition approve_step : M ToolResult :=
  manager ← _pick_user tenant_id;
  approve_all_content manager campaign true.

(** Everything after the lookup: every step is a transaction of its own. What is printed of a
    proposal is a list of channels each of which is an object, as [generate_strategy] has checked. *)
Definition steps : M Z :=
  user ← in_tenant tenant_id (user ← _pick_user tenant_id; load "id" campaign_id ;; mret user);
  in_tenant tenant_id (
    c ← load "status" campaign_id;
    when (Campaign.status c ==b CampaignStatus.drafted) (
      synthesise_audience user campaign 20 "Mid-market non-financial-services compliance buyers" ;; mret ())) ;;
  in_tenant tenant_id (generate_strategy (sv_anthropic sv) (sv_planner sv) user campaign true) ;;
  in_tenant tenant_id (accept_strategy user campaign true) ;;
  in_tenant tenant_id (generate_content (sv_re_compile sv) (sv_copywriting sv) (sv_seo sv) (sv_anthropic sv)
                         user campaign true) ;;
  in_tenant tenant_id approve_step ;;
  in_tenant tenant_id (load "name" campaign_id) ;;
  mret 0.
End steps.

(** [scripts/recover_stuck_campaign.py] lines 76-199, [run]. The exit code. *)
Definition run (sv : services) (identifier : string) : M Z :=
  c ← target identifier;
  match c with
  | Some c => steps sv (Campaign.tenant_id c) (Campaign.id c)
  | None => mret 2
  end.

(** [scripts/recover_stuck_campaign.py] lines 202-206, [main]. *)
Definition main (sv : services) (argv : list string) : M Z :=
  match argv with
  | _ :: identifier :: _ => run sv identifier
  | _ => mret 2
  end.

End Recovery.
