(* ===== verification/AssistantProofs.v ===== *)
(** * The assistant: what a chat and the recovery script may do

    Whatever the language model answers: a tool asked to confirm has done nothing yet, a viewer's
    chat writes the viewer's own conversation only, and the conversation that is stored can be sent
    back to the model. The recovery script stays in the tenant of its campaign. *)

From S2P Require Import Fixtures ReportProofs LaunchProofs StrategistProofs.
From S2P Require Export AssistantRouter.
From S2P Require Tenancy.
Local Open Scope Z_scope.

(** ** Programs that only read *)

Lemma require_role_pure user r : respects eq (_require_role user r).
Proof. unfold _require_role. respects_auto. Qed.

Lemma find_campaign_pure tid i : respects eq (_find_campaign tid i).
Proof. unfold _find_campaign. respects_auto. Qed.

Lemma resolve_audience_pure c : respects eq (_resolve_audience_for_campaign c).
Proof. unfold _resolve_audience_for_campaign. respects_auto. Qed.

Lemma filter_campaign_pure user c : respects eq (filter_campaign user c).
Proof. unfold filter_campaign. respects_auto. apply find_campaign_pure. Qed.

Lemma get_active_campaign_pure k : respects eq (get_active_campaign k).
Proof. unfold get_active_campaign. respects_auto. Qed.

Create HintDb reading.
#[export] Hint Resolve require_role_pure find_campaign_pure resolve_audience_pure filter_campaign_pure
  get_active_campaign_pure : reading.

Ltac reading := repeat first [ solve [auto with reading nocore] | respects_step ].

Lemma kpis_pure tid cid ch a t : respects eq (compute_campaign_kpis tid cid ch a t).
Proof. unfold compute_campaign_kpis, scope_events. respects_auto. Qed.

Lemma render_drafts_pure cid aid : respects eq (render_personalised_drafts cid aid).
Proof. unfold render_personalised_drafts, member_drafts. pure_walk. Qed.
#[export] Hint Resolve kpis_pure render_drafts_pure : reading.

Lemma review_campaign_pure user c : respects eq (review_campaign user c).
Proof. unfold review_campaign. reading. Qed.
#[export] Hint Resolve review_campaign_pure : reading.

(** ** Asking first *)

Lemma pause_asks user i : respects eq (pause_campaign user i false).
Proof. unfold pause_campaign. cbn [negb]. reading. Qed.
Lemma complete_asks user i : respects eq (complete_campaign user i false).
Proof. unfold complete_campaign. cbn [negb]. reading. Qed.
Lemma accept_recommendation_asks user i : respects eq (accept_recommendation user i false).
Proof. unfold accept_recommendation. cbn [negb]. reading. Qed.
Lemma generate_strategy_asks anthropic planner user i : respects eq (generate_strategy anthropic planner user i false).
Proof. unfold generate_strategy. cbn [negb]. reading. Qed.
Lemma accept_strategy_asks user i : respects eq (accept_strategy user i false).
Proof. unfold accept_strategy. cbn [negb]. reading. Qed.
Lemma generate_content_asks re cw seo anthropic user i : respects eq (generate_content re cw seo anthropic user i false).
Proof. unfold generate_content. cbn [negb]. reading. Qed.
Lemma approve_all_asks user i : respects eq (approve_all_content user i false).
Proof. unfold approve_all_content. cbn [negb]. reading. Qed.
Lemma launch_asks user i : respects eq (launch_campaign user i false).
Proof. unfold launch_campaign. cbn [negb]. reading. Qed.
Lemma draft_outbound_asks loads cm anthropic user i o : respects eq (draft_outbound loads cm anthropic user i false o).
Proof. unfold draft_outbound. cbn [negb]. reading. Qed.
#[export] Hint Resolve pause_asks complete_asks accept_recommendation_asks generate_strategy_asks accept_strategy_asks
  generate_content_asks approve_all_asks launch_asks draft_outbound_asks : reading.

Lemma call_tool_pure t user input : respects eq (body t user input) → respects eq (call_tool t user input).
Proof. intros H. unfold call_tool. by respects_auto. Qed.

(** C24: asking first. A tool that takes [confirm] does nothing before it is confirmed: called by any
    user with any input in which the flag is missing or false, it leaves the database as it is,
    whether it answers or raises. *)
Theorem assistant_asks_first sv name t user input e s :
  (name, t) ∈ TOOL_HANDLERS sv → "confirm" ∈ optional t → opt_truthy (dget "confirm" input) = false →
  (call_tool t user input e s).1 = s.
Proof.
  intros Ht Hopt Hc. symmetry. apply (call_tool_pure t user input). clear e s.
  assert (Forall (λ nt, "confirm" ∈ optional nt.2 → respects eq (body nt.2 user input)) (TOOL_HANDLERS sv)) as Hall.
  { unfold TOOL_HANDLERS. repeat apply Forall_cons_2; try apply Forall_nil_2; cbn [snd optional body];
      intros Hin; apply (bool_decide_eq_true_2 _) in Hin; (discriminate Hin || (unfold arg_bool; rewrite Hc; auto with reading nocore)). }
  rewrite Forall_forall in Hall. exact (Hall _ Ht Hopt).
Qed.

Lemma assistant_asks_first_witness :
  let s := sample_db (sample_campaign CampaignStatus.live) [] in
  let input := [("identifier", JStr "Spring")] in
  (pause_campaign (sample_user UserRole.manager) "Spring" true (demo_env 7) s).1 ≠ s ∧
  ∀ sv t, dget "pause_campaign" (TOOL_HANDLERS sv) = Some t →
    (call_tool t (sample_user UserRole.manager) input (demo_env 7) s).1 = s.
Proof.
  intros s input. split.
  - intros H. assert (t_campaign (pause_campaign (sample_user UserRole.manager) "Spring" true (demo_env 7) s).1 !! 10%N
      = t_campaign s !! 10%N) as Hc by congruence. vm_compute in Hc. discriminate Hc.
  - intros sv t Ht. apply (assistant_asks_first sv "pause_campaign" t).
    + injection Ht as <-. unfold TOOL_HANDLERS. do 3 right. left.
    + injection Ht as <-. left.
    + reflexivity.
Defined.

(** ** What a viewer can change *)

(** Nothing but the conversation of user [k], provided every conversation is under its key. *)
Definition own_conversation (k : N) : relation db := λ s s',
  keyed AssistantConversation.t s →
  keyed AssistantConversation.t s' ∧ s' = s <| t_assistant_conversation := t_assistant_conversation s' |> ∧
  ∀ j, j ≠ k → t_assistant_conversation s' !! j = t_assistant_conversation s !! j.

#[global] Instance own_conversation_preorder k : PreOrder (own_conversation k).
Proof.
  split.
  - intros s Hk. split; [done|]. split; [by destruct s|done].
  - intros s1 s2 s3 H1 H2 Hk. destruct (H1 Hk) as (Hk2 & E2 & Hj2), (H2 Hk2) as (Hk3 & E3 & Hj3).
    split; [done|]. split; [by rewrite E3, E2|]. intros j Hj. by rewrite Hj3, Hj2.
Qed.

Lemma reading_respects `{!PreOrder R} {A} (m : M A) : respects eq m → respects R m.
Proof. intros H e s. rewrite <- (H e s). reflexivity. Qed.

(** A conversation written under its key. *)
Lemma own_conversation_insert k row s :
  AssistantConversation.user_id row = k →
  own_conversation k s (s <| t_assistant_conversation := <[k := row]> (t_assistant_conversation s) |>).
Proof.
  intros Hrow Hk. split; [|split; [done|]].
  - intros j r. cbn. rewrite lookup_insert_Some. intros [[<- <-]|[_ Hj]]; [done|by apply Hk].
  - intros j Hj. cbn. by rewrite lookup_insert_ne.
Qed.

Lemma own_conversation_alter k f s :
  (∀ r, AssistantConversation.user_id (f r) = AssistantConversation.user_id r) →
  own_conversation k s (s <| t_assistant_conversation := alter f k (t_assistant_conversation s) |>).
Proof.
  intros Hf Hk. split; [|split; [done|]].
  - intros j r. cbn. rewrite lookup_alter_Some. intros [(<- & r' & Hr & ->)|[_ Hj]]; [|by apply Hk].
    change (AssistantConversation.user_id (f r') = k). rewrite Hf. by apply Hk.
  - intros j Hj. cbn. by rewrite lookup_alter_ne.
Qed.

(** The three writes of the memory: a new row, or attributes of the one there is. *)
Lemma conversation_write (uid : N) (f : Z → AssistantConversation.t → AssistantConversation.t) (absent : Z → M ()) :
  (∀ t r, AssistantConversation.user_id (f t r) = AssistantConversation.user_id r) →
  (∀ t, respects (own_conversation uid) (absent t)) →
  respects (own_conversation uid)
    (row ← get_row (R:=AssistantConversation.t) uid;
     t ← asks now;
     match row with None => absent t | Some row => assign row (f t) ;; mret () end).
Proof.
  intros Hf Habsent e s. rewrite bind_get_row, bind_asks.
  destruct (rows s !! uid) as [row|] eqn:E; [|apply Habsent].
  intros Hk. pose proof (Hk uid row E) as Hpk. revert Hk.
  change (own_conversation uid s
    (s <| t_assistant_conversation := alter (f (now e)) (pk row) (t_assistant_conversation s) |>)).
  rewrite Hpk. apply own_conversation_alter, Hf.
Qed.

Lemma put_conversation (row : AssistantConversation.t) :
  respects (own_conversation (AssistantConversation.user_id row)) (put_row row).
Proof. intros e s. by apply (own_conversation_insert _ row s). Qed.

Lemma set_active_own uid tid c : respects (own_conversation uid) (set_active_campaign uid tid c).
Proof.
  apply (conversation_write uid
    (λ t r, r <| AssistantConversation.active_campaign_id := c |> <| AssistantConversation.updated_at := t |>)
    (λ t, put_row (new_conversation uid tid [] c t))); [done|].
  intros t. apply (put_conversation (new_conversation uid tid [] c t)).
Qed.

Lemma save_history_own uid tid msgs : respects (own_conversation uid) (save_history uid tid msgs).
Proof.
  apply (conversation_write uid
    (λ t r, r <| AssistantConversation.messages := _trim msgs |> <| AssistantConversation.updated_at := t |>)
    (λ t, put_row (new_conversation uid tid (_trim msgs) None t))); [done|].
  intros t. apply (put_conversation (new_conversation uid tid (_trim msgs) None t)).
Qed.

Lemma list_campaigns_pure user st : respects eq (list_campaigns user st).
Proof. unfold list_campaigns. reading. Qed.
Lemma get_campaign_pure user i : respects eq (get_campaign user i).
Proof. unfold get_campaign. reading. Qed.
Lemma show_anomalies_pure user c sev : respects eq (show_anomalies user c sev).
Proof. unfold show_anomalies. reading. Qed.
Lemma show_recommendations_pure user c : respects eq (show_recommendations user c).
Proof. unfold show_recommendations. reading. Qed.
Lemma show_pending_pure user : respects eq (show_pending_approvals user).
Proof. unfold show_pending_approvals. reading. Qed.
Lemma summarise_kpis_pure user i : respects eq (summarise_kpis user i).
Proof. unfold summarise_kpis. reading. Qed.
Lemma request_input_pure user p o c : respects eq (request_input user p o c).
Proof. unfold request_input. reading. Qed.
Lemma list_drafts_pure user c : respects eq (list_drafts_for_review user c).
Proof. unfold list_drafts_for_review. reading. Qed.
Lemma list_personalised_pure user c n : respects eq (list_personalised_drafts user c n).
Proof. unfold list_personalised_drafts. reading. Qed.
#[export] Hint Resolve list_campaigns_pure get_campaign_pure show_anomalies_pure show_recommendations_pure
  show_pending_pure summarise_kpis_pure request_input_pure list_drafts_pure list_personalised_pure : reading.

Section viewer.
Context (user : AppUser.t) (Hviewer : AppUser.role user = UserRole.viewer).

(** A tool above the role of the user raises first. *)
Lemma refused_pure {A} r (m : M A) : 0 < ROLE_RANK r → respects eq (_require_role user r ≫= λ _, m).
Proof.
  intros Hr e s. unfold _require_role. rewrite Hviewer.
  assert ((ROLE_RANK UserRole.viewer <? ROLE_RANK r) = true) as -> by (apply Z.ltb_lt; exact Hr). reflexivity.
Qed.

Lemma where_own : respects (own_conversation (AppUser.id user)) (where_did_we_leave_off user).
Proof.
  unfold where_did_we_leave_off. respects_auto;
    first [ apply set_active_own | apply (reading_respects (R:=own_conversation _)); reading ].
Qed.

Lemma viewer_tool sv name t input :
  (name, t) ∈ TOOL_HANDLERS sv → respects (own_conversation (AppUser.id user)) (call_tool t user input).
Proof.
  intros Ht. unfold call_tool. respects_auto. revert name t Ht.
  assert (Forall (λ nt, respects (own_conversation (AppUser.id user)) (body nt.2 user input)) (TOOL_HANDLERS sv)) as Hall.
  { unfold TOOL_HANDLERS. repeat apply Forall_cons_2; try apply Forall_nil_2; cbn [snd body];
      first [ apply where_own | apply reading_respects; first [ solve [auto with reading nocore] | apply refused_pure; reflexivity ] ]. }
  rewrite Forall_forall in Hall. intros name t Ht. exact (Hall _ Ht).
Qed.

Lemma viewer_run_tool sv name t input :
  (name, t) ∈ TOOL_HANDLERS sv → respects (own_conversation (AppUser.id user)) (run_tool user t input).
Proof.
  intros Ht. unfold run_tool, remember_campaign. apply respects_try; [apply _| |].
  - respects_auto; [by eapply viewer_tool|apply set_active_own].
  - intros x k Hk. destruct x; injection Hk as <-; respects_auto.
Qed.

Lemma viewer_converse sv create dump fuel turn messages r last :
  respects (own_conversation (AppUser.id user)) (converse sv create dump user fuel turn messages r last).
Proof.
  revert turn messages r last. induction fuel as [|fuel IH]; intros turn messages r last; cbn [converse]; [respects_auto|].
  respects_auto; [|apply IH]. eapply viewer_run_tool, elem_dget. eassumption.
Qed.
End viewer.

(** C22: a viewer's chat is harmless. Whatever the language model answers and whichever tools it
    calls, a message of a viewer changes no table but the stored conversations, and there no row but
    the viewer's own, also when the request fails. *)
Theorem viewer_chat_harmless sv create dump message user e s :
  AppUser.role user = UserRole.viewer → keyed AssistantConversation.t s →
  let s' := (assistant_chat sv create dump message user e s).1 in
  s' = s <| t_assistant_conversation := t_assistant_conversation s' |> ∧
  ∀ j, j ≠ AppUser.id user → t_assistant_conversation s' !! j = t_assistant_conversation s !! j.
Proof.
  intros Hv Hk. cbv zeta. eapply (proj2 (B := _ ∧ _)), (λ H, H Hk).
  enough (respects (own_conversation (AppUser.id user)) (assistant_chat sv create dump message user)) as H by apply H.
  clear e s Hk. unfold assistant_chat, load_history, handle_message. respects_auto; try apply save_history_own.
  apply respects_try; [apply _| |].
  - respects_auto. by apply viewer_converse.
  - intros x k Hx. destruct x; try discriminate Hx; injection Hx as <-; respects_auto.
Qed.

(** ** The conversation that is stored *)

(** The stored conversations and the users are as they were. *)
Definition same_threads : relation db := λ s s',
  t_assistant_conversation s' = t_assistant_conversation s ∧ t_app_user s' = t_app_user s.
#[global] Instance same_threads_preorder : PreOrder same_threads.
Proof. split; [by intros s|]. intros s1 s2 s3 [? ?] [? ?]. split; congruence. Qed.

(** Walk through a program, unfolding what it calls. *)
Ltac unfold_head t := match t with ?f _ => unfold_head f | _ => unfold t end.
Ltac handler_cases := let H := fresh in intros ? ? H; repeat (case_match; try discriminate H); injection H as <-.
Ltac threads_step := first
  [ walk_step
  | match goal with
    | |- respects ?R (add_tracked _) => apply (respects_add_tracked R); frame_rows
    | |- respects ?R (try_except _ _) => apply (respects_try R); [|handler_cases]
    | |- respects ?R (StateMachine.apply campaign_sm _ _) => solve [auto with threads nocore]
    | |- respects ?R (enrich_rows _ _ _ _ _ _) => solve [auto with threads nocore]
    | |- respects ?R ?m => progress unfold_head m
    end ].
Create HintDb threads.
Ltac threads := repeat threads_step.

Lemma threads_apply c n : respects same_threads (StateMachine.apply campaign_sm c n).
Proof.
  assert (Forall (λ tr, from_option (λ g, ∀ c, respects same_threads (g c)) True (StateMachine.guard tr) ∧
    from_option (λ f, ∀ c, respects same_threads (f c)) True (on_enter tr)) campaign_transitions) as Hall.
  { unfold campaign_transitions. repeat apply Forall_cons_2; try apply Forall_nil_2;
      cbn [StateMachine.guard on_enter from_option]; split; try done; intros ?; threads. }
  unfold StateMachine.apply. destruct (sm_get _ _) as [tr|] eqn:Hget; [|threads].
  apply campaign_sm_get in Hget as (Hin & _ & _). rewrite Forall_forall in Hall.
  destruct (Hall tr Hin) as [Hg Hf]. threads; [by apply Hg|by apply Hf].
Qed.

Lemma threads_enrich_rows mp max t rows n r : respects same_threads (enrich_rows mp max t rows n r).
Proof.
  revert n r. induction rows as [|m rows IH]; intros n r; cbn [enrich_rows]; respects_auto; try apply IH; threads.
Qed.
#[export] Hint Resolve threads_apply threads_enrich_rows : threads.

(** Every stored conversation is as before, or new and empty. *)
Definition thread_frame : relation db := λ s s', ∀ k row', t_assistant_conversation s' !! k = Some row' →
  AssistantConversation.messages row' = [] ∨
  ∃ row, t_assistant_conversation s !! k = Some row ∧ AssistantConversation.messages row' = AssistantConversation.messages row.
#[global] Instance thread_frame_preorder : PreOrder thread_frame.
Proof.
  split; [intros s k row ?; right; by exists row|].
  intros s1 s2 s3 H1 H2 k row Hrow. destruct (H2 k row Hrow) as [?|(row2 & Hrow2 & ->)]; [by left|by apply H1].
Qed.

Lemma same_threads_frame {A} (m : M A) : respects same_threads m → respects thread_frame m.
Proof. intros H e s k row. rewrite (proj1 (H e s)). intros ?. right. by exists row. Qed.

Lemma set_active_frame uid tid c : respects thread_frame (set_active_campaign uid tid c).
Proof.
  unfold set_active_campaign. intros e s. rewrite bind_get_row, bind_asks.
  destruct (rows s !! uid) as [row|]; intros k row' Hrow.
  - change (alter (λ r, r <| AssistantConversation.active_campaign_id := c |>
      <| AssistantConversation.updated_at := now e |>) (pk row) (t_assistant_conversation s) !! k = Some row') in Hrow.
    apply lookup_alter_Some in Hrow as [(<- & r & Hr & ->)|[_ Hk]]; right; by eexists.
  - change (<[uid := new_conversation uid tid [] c (now e)]> (t_assistant_conversation s) !! k = Some row') in Hrow.
    apply lookup_insert_Some in Hrow as [[<- <-]|[_ Hk]]; [by left|right; by eexists].
Qed.

Lemma tool_frame sv name t user input :
  (name, t) ∈ TOOL_HANDLERS sv → respects thread_frame (call_tool t user input).
Proof.
  intros Ht. unfold call_tool. respects_auto. revert name t Ht.
  assert (Forall (λ nt, respects thread_frame (body nt.2 user input)) (TOOL_HANDLERS sv)) as Hall.
  { unfold TOOL_HANDLERS. repeat apply Forall_cons_2; try apply Forall_nil_2; cbn [snd body];
      first [ apply same_threads_frame; solve [threads] | idtac ].
    unfold where_did_we_leave_off. respects_auto; first [ apply set_active_frame | apply reading_respects; reading ]. }
  rewrite Forall_forall in Hall. intros name t Ht. exact (Hall _ Ht).
Qed.

(** The calls the last message makes, [p] being those before the list. *)
Definition open_calls (p : list string) (messages : list json) : list string := from_option tool_uses p (last messages).

Lemma conversation_snoc p messages m :
  conversation p (messages ++ [m]) ↔
  conversation p messages ∧ ∀ i, i ∈ tool_results m → i ∈ open_calls p messages.
Proof.
  revert p. induction messages as [|x l IH]; intros p; cbn [app conversation].
  - unfold open_calls. cbn. tauto.
  - rewrite IH. assert (open_calls p (x :: l) = open_calls (tool_uses x) l) as ->; [|tauto].
    unfold open_calls. rewrite last_cons. by destruct (last l).
Qed.

Section chat.
Context (sv : services) (create : list json → exn + Message) (dump : block → json).

(** What the SDK's dump of a block says of its kind. *)
Record dump_ok : Prop := {
  dump_text text : msg_get "type" (dump (TextBlock text)) = Some (JStr "text");
  dump_call id name input : msg_get "type" (dump (ToolUseBlock id name input)) = Some (JStr "tool_use");
  dump_call_id id name input : msg_get "id" (dump (ToolUseBlock id name input)) = Some (JStr id);
  dump_other v : as_str (msg_get "type" (dump (OtherBlock v))) ∉ [Some "tool_use"; Some "tool_result"];
}.

(** The model numbers its calls: the identifiers of a response are distinct and new. *)
Definition fresh_calls : Prop := ∀ messages response, create messages = inr response →
  NoDup (calls messages) → NoDup (calls (messages ++ [assistant_message dump response])).

Context (Hdump : dump_ok) (Hfresh : fresh_calls).

Lemma assistant_no_results response : tool_results (assistant_message dump response) = [].
Proof.
  change (tool_results (assistant_message dump response)) with
    (omap (λ block, if as_str (msg_get "type" block) ==b Some "tool_result"
        then match as_str (msg_get "tool_use_id" block) with
             | Some i => if str_empty i then None else Some i | None => None end
        else None) (dump <$> content response)).
  induction (content response) as [|b l IH]; [done|]. cbn.
  rewrite bool_decide_eq_false_2; [exact IH|]. destruct b as [text|id name input|v].
  - by rewrite (dump_text Hdump).
  - by rewrite (dump_call Hdump).
  - intros E. destruct (dump_other Hdump v). rewrite E. right. left.
Qed.

Lemma scan_call blocks chunks id name input :
  scan blocks = (chunks, Some (id, name, input)) → ToolUseBlock id name input ∈ blocks.
Proof.
  revert chunks. induction blocks as [|b l IH]; intros chunks; [done|]. destruct b as [t|i n v|v]; cbn [scan].
  - destruct (scan l) as [ch u]. cbn. intros [= <- ->]. right. by eapply IH.
  - intros [= <- -> -> ->]. left.
  - intros H. right. by eapply IH.
Qed.

Lemma called response id name input :
  ToolUseBlock id name input ∈ content response → str_empty id = false →
  id ∈ tool_uses (assistant_message dump response).
Proof.
  intros Hin Hid.
  change (tool_uses (assistant_message dump response)) with
    (omap (λ block, if as_str (msg_get "type" block) ==b Some "tool_use"
        then match as_str (msg_get "id" block) with
             | Some i => if str_empty i then None else Some i | None => None end
        else None) (dump <$> content response)).
  apply list_elem_of_omap. exists (dump (ToolUseBlock id name input)).
  split; [by apply list_elem_of_fmap_2|]. rewrite (dump_call Hdump), (dump_call_id Hdump). cbn. by rewrite Hid.
Qed.

Lemma user_message_plain message : tool_results (user_message message) = [] ∧ tool_uses (user_message message) = [].
Proof. done. Qed.

Lemma result_message id text b : tool_uses (tool_result_message id text b) = [] ∧
  tool_results (tool_result_message id text b) = if str_empty id then [] else [id].
Proof. split; [done|]. by destruct id. Qed.

(** What a list of messages must be to go to the model. *)
Definition sendable (messages : list json) : Prop := conversation [] messages ∧ NoDup (calls messages).

Lemma sendable_answer messages response :
  sendable messages → create messages = inr response → sendable (messages ++ [assistant_message dump response]).
Proof.
  intros [Hc Hnd] Hcr. split; [|by apply (Hfresh messages)]. apply conversation_snoc. split; [done|].
  rewrite assistant_no_results. by intros i ?%not_elem_of_nil.
Qed.

Lemma sendable_result messages response id name input text b :
  ToolUseBlock id name input ∈ content response → sendable (messages ++ [assistant_message dump response]) →
  sendable (messages ++ [assistant_message dump response; tool_result_message id text b]).
Proof.
  intros Hin [Hc Hnd]. rewrite cons_middle, app_assoc. destruct (result_message id text b) as [Hu Hr]. split.
  - apply conversation_snoc. split; [done|]. rewrite Hr. unfold open_calls. rewrite last_snoc. cbn [from_option].
    destruct (str_empty id) eqn:Hid; [by intros i ?%not_elem_of_nil|]. intros i ->%list_elem_of_singleton.
    by eapply called.
  - rewrite calls_app. unfold calls at 2. cbn [fmap list_fmap concat]. rewrite Hu. by rewrite !app_nil_r.
Qed.

Lemma run_tool_frame name t user input :
  (name, t) ∈ TOOL_HANDLERS sv → respects thread_frame (run_tool user t input).
Proof.
  intros Ht. unfold run_tool, remember_campaign. apply respects_try; [apply _| |].
  - respects_auto; [by eapply tool_frame|apply set_active_frame].
  - intros x k Hk. destruct x; injection Hk as <-; respects_auto.
Qed.

Lemma converse_frame user fuel turn messages r last :
  respects thread_frame (converse sv create dump user fuel turn messages r last).
Proof.
  revert turn messages r last. induction fuel as [|fuel IH]; intros turn messages r last; cbn [converse]; [respects_auto|].
  respects_auto; [|apply IH]. eapply run_tool_frame, elem_dget. eassumption.
Qed.

(** The turns that are left keep the messages sendable, and take one call of the model each. *)
Lemma converse_spec user fuel turn messages r last e s s' r' :
  sendable messages → converse sv create dump user fuel turn messages r last e s = (s', inr r') →
  sendable (r_messages r') ∧ messages `prefix_of` r_messages r' ∧ turn < r_turns r' <= turn + Z.of_nat fuel.
Proof.
  revert turn messages r last e s. induction fuel as [|fuel IH]; intros turn messages r last e s Hs; cbn [converse]; [done|].
  intros (s1 & response & [Hcr ->]%of_sum_inr & Hrun)%bind_inr.
  pose proof (sendable_answer messages response Hs Hcr) as Hanswer.
  set (r1 := add_usage _ _) in Hrun.
  assert (r_turns r1 = turn + 1) as Hturn by (unfold r1, add_usage; by destruct (usage response) as [[]|]).
  destruct (scan (content response)) as [chunks [[[id name] input]|]] eqn:Hscan.
  - destruct (dget name (TOOL_HANDLERS sv)) as [t|] eqn:Ht; [|done].
    apply bind_inr in Hrun as (s2 & out & _ & Hrun).
    pose proof (sendable_result messages response id name input (run_text out) (run_failed out)
      (scan_call _ _ _ _ _ Hscan) Hanswer) as Hnext.
    destruct (requires_confirmation (run_result out)).
    + injection Hrun as <- <-. cbn. split; [exact Hnext|]. split; [by apply prefix_app_r|].
      destruct (run_failed out); cbn; lia.
    + apply IH in Hrun as (? & Hpre & ?); [|done]. split; [done|]. split; [|lia].
      etrans; [|exact Hpre]. by apply prefix_app_r.
  - injection Hrun as <- <-. split; [exact Hanswer|]. split; [by apply prefix_app_r|].
    destruct last as [tr|]; cbn; lia.
Qed.

Lemma sendable_user messages message : sendable messages → sendable (messages ++ [user_message message]).
Proof.
  intros [Hc Hnd]. split.
  - apply conversation_snoc. split; [done|]. by intros i ?%not_elem_of_nil.
  - by rewrite calls_app, app_nil_r.
Qed.

(** A stored conversation: sendable, and no longer than the window. *)
Definition stored_ok (messages : list json) : Prop := sendable messages ∧ (length messages <= MAX_MESSAGES)%nat.

Lemma trim_stored messages : sendable messages → stored_ok (_trim messages).
Proof.
  intros [Hc Hnd]. unfold _trim. case_bool_decide as Hlen; [done|].
  set (w := (length messages - MAX_MESSAGES)%nat). destruct (peel_drop (drop w messages)) as (n & Hpeel & _).
  rewrite Hpeel, drop_drop. assert (length (drop (w + n) messages) <= MAX_MESSAGES)%nat as Hl by (rewrite length_drop; lia).
  split; [|exact Hl]. split.
  - destruct (drop (w + n) messages) as [|m r] eqn:E; [done|].
    destruct (peel_first (drop w messages) m r) as [_ Hd]; [by rewrite Hpeel, drop_drop|].
    destruct (slice_answered messages _ m r Hc Hnd E Hd) as [Hm _].
    destruct (conversation_drop [] (w + n) messages Hc) as (p & Hp & _). rewrite E in Hp.
    destruct Hp as [_ Hr]. split; [|exact Hr]. rewrite Hm. by intros i ?%not_elem_of_nil.
  - rewrite <- (take_drop (w + n) messages), calls_app in Hnd. by apply NoDup_app in Hnd as (_ & _ & ?).
Qed.

Definition threads_ok (s : db) : Prop :=
  ∀ k row, t_assistant_conversation s !! k = Some row → stored_ok (AssistantConversation.messages row).

Lemma threads_ok_frame s s' : thread_frame s s' → threads_ok s → threads_ok s'.
Proof.
  intros Hf Hok k row Hrow. destruct (Hf k row Hrow) as [->|(row0 & Hrow0 & ->)]; [|by eapply Hok].
  split; [split; [done|apply NoDup_nil_2]|]. cbn. lia.
Qed.

Lemma save_history_ok uid tid messages e s :
  sendable messages → threads_ok s → threads_ok (save_history uid tid messages e s).1.
Proof.
  intros Hs Hok. unfold save_history. rewrite bind_get_row, bind_asks.
  destruct (rows s !! uid) as [row|]; intros k row' Hrow.
  - change (alter (λ r, r <| AssistantConversation.messages := _trim messages |>
      <| AssistantConversation.updated_at := now e |>) (pk row) (t_assistant_conversation s) !! k = Some row') in Hrow.
    apply lookup_alter_Some in Hrow as [(<- & r & Hr & ->)|[_ Hk]]; [by apply trim_stored|by eapply Hok].
  - change (<[uid := new_conversation uid tid (_trim messages) None (now e)]> (t_assistant_conversation s) !! k
      = Some row') in Hrow.
    apply lookup_insert_Some in Hrow as [[<- <-]|[_ Hk]]; [by apply trim_stored|by eapply Hok].
Qed.
End chat.

(** C23: the stored conversations stay well formed. Each has at most twenty messages, every tool
    result in it answers a call of the message just before, and no two calls share an identifier. A
    chat keeps it so for every user, whatever the model and the tools do and also when the request
    fails half way, provided the SDK dumps blocks with their kind and identifier and the model
    numbers its calls afresh. *)
Theorem chat_keeps_threads sv create dump message user e s :
  dump_ok dump → fresh_calls create dump → threads_ok s →
  threads_ok (assistant_chat sv create dump message user e s).1.
Proof.
  intros Hdump Hfresh Hok. unfold assistant_chat. destruct (sv_anthropic sv); cbn [negb]; [|done].
  unfold load_history. rewrite bind_assoc, bind_get_row, bind_ret.
  set (history := from_option _ _ _).
  assert (sendable history) as Hh.
  { unfold history. destruct (rows s !! AppUser.id user) as [row|] eqn:E; [by apply (Hok _ _ E)|].
    split; [done|apply NoDup_nil_2]. }
  set (m := try_except _ _).
  assert (∀ s1 out, m e s = (s1, out) → threads_ok s1 ∧ ∀ r, out = inr (inr r) → sendable (r_messages r)) as Hm.
  { intros s1 out. unfold m, try_except, handle_message, mbind, M_bind.
    pose proof (converse_frame sv create dump user _MAX_TURNS 0 (history ++ [user_message (str_strip message)])
      (empty_result "") None e s) as Hframe.
    pose proof (converse_spec sv create dump Hdump Hfresh user _MAX_TURNS 0 (history ++ [user_message (str_strip message)])
      (empty_result "") None e s) as Hspec.
    destruct (converse _ _ _ _ _ _ _ _ _ e s) as [s2 [x|r]].
    - apply threads_ok_frame in Hframe; [|done]. destruct x; by intros [= <- <-].
    - intros [= <- <-]. split; [by eapply threads_ok_frame|]. intros r' [= ->].
      by destruct (Hspec s2 r' (sendable_user _ _ Hh) eq_refl). }
  unfold mbind at 1, M_bind at 1. destruct (m e s) as [s1 out] eqn:Hrun. destruct (Hm s1 out eq_refl) as [Hok1 Hr].
  destruct out as [x|[msg|r]]; [done..|]. specialize (Hr r eq_refl).
  unfold mbind, M_bind. destruct (r_messages r) as [|m0 l] eqn:Em; [done|].
  pose proof (save_history_ok (AppUser.id user) (AppUser.tenant_id user) (m0 :: l) e s1 Hr Hok1) as Hsave.
  by destruct (save_history _ _ _ e s1) as [s2 [x|[]]].
Qed.

(** A model that first pauses a campaign and then answers. *)
Definition sample_dump (b : block) : json :=
  match b with
  | TextBlock text => JObj [("type", JStr "text"); ("text", JStr text)]
  | ToolUseBlock id name input =>
      JObj [("type", JStr "tool_use"); ("id", JStr id); ("name", JStr name); ("input", input)]
  | OtherBlock v => JObj [("type", JStr "thinking"); ("thinking", v)]
  end.
Definition sample_create (messages : list json) : exn + Message :=
  match calls messages with
  | [] => inr {| usage := Some (10, 5); content := [TextBlock "Pausing.";
                 ToolUseBlock "t1" "pause_campaign" (JObj [("identifier", JStr "Spring"); ("confirm", JBool true)])] |}
  | _ => inr {| usage := None; content := [TextBlock "Done."] |}
  end.
Definition sample_services : services := {|
  sv_anthropic := true; sv_planner := λ _, inl TypeError; sv_re_compile := λ _, inl "";
  sv_copywriting := λ _, inl TypeError; sv_seo := λ _, inl TypeError;
  sv_post := λ _ _ _, Timeout; sv_loads := λ _, None; sv_apollo_key := ""; sv_apollo_url := "";
  sv_outreach := λ _, ModelText "" |}.

Lemma sample_dump_ok : dump_ok sample_dump.
Proof.
  split; [done..|]. intros v. cbn. intros [H|H%list_elem_of_singleton]%elem_of_cons; [discriminate H|discriminate H].
Qed.

Lemma sample_create_fresh : fresh_calls sample_create sample_dump.
Proof.
  intros messages response. unfold sample_create. rewrite calls_app.
  destruct (calls messages) as [|i l]; intros [= <-] Hnd.
  - cbn. apply NoDup_singleton.
  - by rewrite app_nil_r.
Qed.

Definition chat_db : db := sample_db (sample_campaign CampaignStatus.live) []
  <| t_assistant_conversation := {[ 30%N := new_conversation 30 1 [sample_question "hello"] None 0 ]} |>.
Definition sample_chat (r : UserRole.t) : M (string * AssistantResult) :=
  assistant_chat sample_services sample_create sample_dump " pause it " (sample_user r).

(** A manager's chat does pause the campaign. *)
Example manager_chat_pauses :
  Campaign.status <$> t_campaign (run_db (sample_chat UserRole.manager (demo_env 7) chat_db)) !! 10%N
  = Some CampaignStatus.paused.
Proof. vm_compute. reflexivity. Qed.

Lemma viewer_chat_harmless_witness :
  let r := sample_chat UserRole.viewer (demo_env 7) chat_db in
  run_exn r = None ∧ t_campaign (run_db r) = t_campaign chat_db.
Proof.
  cbv zeta. split; [vm_compute; reflexivity|].
  destruct (viewer_chat_harmless sample_services sample_create sample_dump " pause it " (sample_user UserRole.viewer)
    (demo_env 7) chat_db) as [Heq _].
  - reflexivity.
  - intros k row H. change (({[ 30%N := new_conversation 30 1 [sample_question "hello"] None 0 ]}
      : gmap N AssistantConversation.t) !! k = Some row) in H. by apply lookup_singleton_Some in H as [<- <-].
  - unfold run_db, sample_chat. rewrite Heq. reflexivity.
Defined.

Lemma chat_keeps_threads_witness :
  let s' := run_db (sample_chat UserRole.manager (demo_env 7) chat_db) in
  ∃ row, t_assistant_conversation s' !! 30%N = Some row ∧ length (AssistantConversation.messages row) = 5%nat ∧
    stored_ok (AssistantConversation.messages row).
Proof.
  cbv zeta.
  assert ((λ row, length (AssistantConversation.messages row)) <$>
    t_assistant_conversation (run_db (sample_chat UserRole.manager (demo_env 7) chat_db)) !! 30%N = Some 5%nat) as Hlen
    by (vm_compute; reflexivity).
  destruct (t_assistant_conversation _ !! 30%N) as [row|] eqn:E; [|discriminate Hlen].
  exists row. split; [reflexivity|]. split; [by injection Hlen|].
  refine (chat_keeps_threads sample_services sample_create sample_dump " pause it " (sample_user UserRole.manager)
    (demo_env 7) chat_db sample_dump_ok sample_create_fresh _ 30%N row E).
  intros k row0 H. change (({[ 30%N := new_conversation 30 1 [sample_question "hello"] None 0 ]}
    : gmap N AssistantConversation.t) !! k = Some row0) in H. apply lookup_singleton_Some in H as [<- <-].
  split; [|unfold MAX_MESSAGES; cbn; lia]. split; [|apply NoDup_nil_2]. split; [|done]. intros i Hi. by apply not_elem_of_nil in Hi.
Defined.

(** ** Where the assistant falls short *)

(** Only the first call of a response is run, and all its calls are stored: the second one is never
    answered. *)
Definition two_calls (messages : list json) : exn + Message :=
  inr {| usage := None; content := [ToolUseBlock "t1" "request_input" (JObj [("prompt", JStr "Which one?")]);
                                    ToolUseBlock "t2" "list_campaigns" (JObj [])] |}.

Theorem second_call_unanswered :
  let s' := run_db (assistant_chat sample_services two_calls sample_dump "go" (sample_user UserRole.viewer)
                      (demo_env 7) empty_db) in
  (λ row, (calls (AssistantConversation.messages row),
           concat (tool_results <$> AssistantConversation.messages row))) <$> t_assistant_conversation s' !! 30%N
  = Some (["t1"; "t2"], ["t1"]).
Proof. vm_compute. reflexivity. Qed.

(** A campaign with a proposal, and no audience to seed the calendar with. *)
Definition proposal_db : db := sample_db (sample_campaign CampaignStatus.audience_built) []
  <| t_strategy_proposal := {[ 40%N := {|
       StrategyProposal.id := 40; StrategyProposal.tenant_id := 1; StrategyProposal.campaign_id := 10;
       StrategyProposal.version := 1; StrategyProposal.payload := []; StrategyProposal.is_accepted := false;
       StrategyProposal.created_by_kind := "agent"; StrategyProposal.created_by_id := None;
       StrategyProposal.validation_warnings := []; StrategyProposal.created_at := 0;
       StrategyProposal.updated_at := 0 |} ]} |>.
Definition accept_create (messages : list json) : exn + Message :=
  match calls messages with
  | [] => inr {| usage := None; content := [
      ToolUseBlock "t1" "accept_strategy" (JObj [("campaign", JStr "Spring"); ("confirm", JBool true)])] |}
  | _ => inr {| usage := None; content := [TextBlock "That failed."] |}
  end.

(** A tool that fails after it has written: the failure goes to the model as text and the writes are
    committed with the request. Here the proposal is accepted although its calendar was not made,
    and the campaign stays where it was. *)
Theorem failed_accept_is_kept :
  let r := assistant_chat sample_services accept_create sample_dump "accept it" (sample_user UserRole.manager)
             (demo_env 7) proposal_db in
  run_exn r = None ∧
  StrategyProposal.is_accepted <$> t_strategy_proposal (run_db r) !! 40%N = Some true ∧
  t_strategy_touchpoint (run_db r) = ∅ ∧
  Campaign.status <$> t_campaign (run_db r) !! 10%N = Some CampaignStatus.audience_built.
Proof. repeat split; vm_compute; reflexivity. Qed.

(** A proposal the assistant set aside in favour of another keeps its touchpoints, and accepting it again
    over the API seeds its calendar a second time: every touchpoint is there twice and the tenant's
    cap, which each calendar keeps by itself, is broken. *)
Theorem reaccepted_calendar_doubles :
  let cap := [("platform", JStr "email"); ("per", JStr "month"); ("limit", JInt 1)] in
  let s1 := run_db (Strategist.accept_strategy 61 (demo_env 5) strategy_db) in
  let s2 := run_db (AssistantTools.accept_strategy (sample_user UserRole.manager) "Spring" true (demo_env 6) s1) in
  let r3 := Strategist.accept_strategy 61 (demo_env 7) s2 in
  StrategyProposal.is_accepted <$> t_strategy_proposal s2 !! 60%N = Some true ∧
  length (calendar_of s2 60) = 3%nat ∧ length (calendar_of s2 61) = 3%nat ∧
  run_exn r3 = None ∧ length (calendar_of (run_db r3) 60) = 0%nat ∧ length (calendar_of (run_db r3) 61) = 6%nat ∧
  respects_cap (calendar_of s1 61) cap ∧ ¬ respects_cap (calendar_of (run_db r3) 61) cap.
Proof.
  cbv zeta. split_and!; [vm_compute; reflexivity..| |];
    rewrite <- (cap_violation_none false); vm_compute; [reflexivity|discriminate].
Qed.

(** ** The recovery script *)

Import Tenancy Recovery.
Local Open Scope Z_scope.

(** What the tenants other than [tid] see, and the webhooks they own. *)
Definition others_same (tid : N) : relation db := λ s s', ∀ tid2, tid2 ≠ tid →
  view tid2 s' = view tid2 s <| t_raw_webhook := restrict (webhook_visible tid2) (t_raw_webhook s') |>
                             <| next_uuid := next_uuid s' |> ∧
  ∀ k w, RawWebhook.tenant_id w = Some tid2 → t_raw_webhook s' !! k = Some w ↔ t_raw_webhook s !! k = Some w.
#[export] Instance others_same_preorder tid : PreOrder (others_same tid).
Proof.
  split.
  - intros s tid2 _. split; [by destruct s|done].
  - intros s1 s2 s3 H1 H2 tid2 Hne. destruct (H1 tid2 Hne) as [V1 W1], (H2 tid2 Hne) as [V2 W2].
    split; [by rewrite V2, V1|]. intros k w Hw. by rewrite W2, W1.
Qed.

Lemma others_campaigns tid tid2 s s' :
  others_same tid s s' → tid2 ≠ tid → t_campaign (view tid2 s') = t_campaign (view tid2 s).
Proof. intros Ho Hne. destruct (Ho tid2 Hne) as [-> _]. reflexivity. Qed.

Lemma in_tenant_cases {A} tid (m : M A) e s s' r :
  in_tenant tid m e s = (s', r) →
  s' = s ∧ (∃ x, r = inl x) ∨
  ∃ v a, m e (view tid s) = (v, inr a) ∧ r = inr a ∧ s' = merge tid s v ∧ admissible tid v ∧ collision_free tid s v.
Proof.
  unfold in_tenant, transaction. intros Hrun.
  destruct (scoped tid m e s) as [s1 r1] eqn:Hs. destruct r1 as [x|a]; injection Hrun as <- <-; [by left; eauto|].
  apply scoped_cases in Hs as [[_ [?|?]]|(v & Hm & -> & Ha & Hc)]; [done..|]. right. by exists v, a.
Qed.

Lemma in_tenant_others {A} tid (m : M A) : respects (others_same tid) (in_tenant tid m).
Proof.
  intros e s. destruct (in_tenant tid m e s) as [s' r] eqn:Hrun. cbn.
  apply in_tenant_cases in Hrun as [[-> _]|(v & a & _ & _ & -> & Ha & Hc)]; [reflexivity|].
  intros tid2 Hne. split; [by rewrite (view_merge_other tid tid2 s v)|]. intros k w. by apply merge_webhook.
Qed.

(** A table a session of [tid] has not written is as it was. *)
Lemma overlay_restrict {R} `{Countable K} (p : R → bool) (m : gmap K R) : overlay p m (restrict p m) = m.
Proof.
  apply map_eq. intros k. apply option_eq. intros r.
  assert (no_collision p m (restrict p m)) as Hc.
  { intros j x Hx. destruct (p x) eqn:Hp; [by left|right]. apply eq_None_not_Some. intros [y [Hy Hq]%lookup_restrict]. congruence. }
  rewrite lookup_overlay, lookup_restrict by done. split; [by intros [[? _]|[? _]]|].
  intros Hr. destruct (p r) eqn:Hp; auto.
Qed.

Lemma in_tenant_same {A} tid (m : M A) : respects same_threads m → respects same_threads (in_tenant tid m).
Proof.
  intros Hm e s. destruct (in_tenant tid m e s) as [s' r] eqn:Hrun. cbn.
  apply in_tenant_cases in Hrun as [[-> _]|(v & a & Hrun & _ & -> & _)]; [reflexivity|].
  destruct (Hm e (view tid s)) as [Ht Hu]. rewrite Hrun in Ht, Hu. cbn in Ht, Hu.
  split; cbn; [rewrite Ht|rewrite Hu]; apply overlay_restrict.
Qed.

Lemma pick_user_pure tid : respects eq (_pick_user tid).
Proof. unfold _pick_user. respects_auto. Qed.
Lemma load_pure attr k : respects eq (load attr k).
Proof. unfold load. respects_auto. Qed.
#[export] Hint Resolve pick_user_pure load_pure : reading.

Lemma pick_user_inr tid e s s' u :
  _pick_user tid e s = (s', inr u) → s' = s ∧ (∃ k, t_app_user s !! k = Some u) ∧ AppUser.tenant_id u = tid.
Proof.
  intros Hrun. pose proof (pick_user_pure tid e s) as Hs. rewrite Hrun in Hs. cbn in Hs. subst s'. split; [done|].
  unfold _pick_user in Hrun. rewrite bind_select in Hrun.
  destruct (List.filter _ _) as [|v l] eqn:Hl.
  - rewrite bind_select in Hrun. destruct (List.filter (λ u, AppUser.tenant_id u ==b tid) _) as [|v l] eqn:Hl2; [done|].
    injection Hrun as ->. assert (u ∈ u :: l) as Hin by left.
    rewrite <- Hl2 in Hin. apply (elem_of_select (λ u, AppUser.tenant_id u ==b tid) s) in Hin as [Hin Hp].
    by apply bool_decide_eq_true in Hp.
  - injection Hrun as ->. assert (u ∈ u :: l) as Hin by left.
    rewrite <- Hl in Hin. apply (elem_of_select (λ u, (AppUser.tenant_id u ==b tid) && _) s) in Hin as [Hin Hp].
    apply andb_true_iff in Hp as [Hp _]. by apply bool_decide_eq_true in Hp.
Qed.

(** Whoever approves is a manager or an admin of the tenant. *)
Lemma approve_step_inr tid k e s s' x :
  in_tenant tid (approve_step tid k) e s = (s', inr x) →
  ∃ j u, t_app_user s !! j = Some u ∧ AppUser.tenant_id u = tid ∧ AppUser.role u ∈ [UserRole.manager; UserRole.admin].
Proof.
  intros [[_ [y Hy]]|(v & a & Hrun & _)]%in_tenant_cases; [discriminate Hy|].
  unfold approve_step in Hrun. apply bind_inr in Hrun as (s1 & u & Hu & Hrun).
  apply pick_user_inr in Hu as (-> & [j Hj] & Ht). apply lookup_restrict in Hj as [Hj _].
  exists j, u. split_and!; [done..|].
  unfold approve_all_content in Hrun. apply bind_inr in Hrun as (s2 & [] & Hr & _).
  unfold _require_role in Hr. apply raise_if_inr in Hr as [Hr _]. apply Z.ltb_ge in Hr.
  destruct (AppUser.role u); cbn in Hr |- *; first [lia | set_solver].
Qed.

Section steps.
Context (sv : services) (tid k : N).

Lemma steps_others : respects (others_same tid) (steps sv tid k).
Proof. unfold steps. respects_auto; apply in_tenant_others. Qed.

(** A run of the steps that ends well has reached the approval with the users of its start. *)
Lemma steps_inr e s s' z :
  steps sv tid k e s = (s', inr z) →
  z = 0 ∧ ∃ s1 s2 x, t_app_user s1 = t_app_user s ∧ in_tenant tid (approve_step tid k) e s1 = (s2, inr x).
Proof.
  assert (∀ A (m : M A) e s s' x, respects same_threads m → in_tenant tid m e s = (s', inr x) →
            t_app_user s' = t_app_user s) as Hkeep.
  { intros A m e0 s0 s0' x Hm Hrun. pose proof (in_tenant_same tid m Hm e0 s0) as [_ Hu]. by rewrite Hrun in Hu. }
  unfold steps. intros Hrun.
  apply bind_inr in Hrun as (s1 & user & H1 & Hrun). apply Hkeep in H1; [|solve [apply reading_respects; reading]].
  do 4 (let H := fresh in let Hu := fresh "Hu" in apply bind_inr in Hrun as (? & ? & H & Hrun);
        apply Hkeep in H as Hu; [clear H|solve [threads]]).
  apply bind_inr in Hrun as (s7 & approved & Happrove & Hrun).
  apply bind_inr in Hrun as (s8 & c & _ & Hrun). apply ret_inr in Hrun as [_ ->].
  split; [done|]. eexists _, s7, approved. split; [|exact Happrove]. congruence.
Qed.
End steps.

(** C27: the recovery of a campaign ends with exit code 0 or with the failure of a step; the steps before
    it are kept. However it ends, no other tenant sees a change; and the exit code is 0 only if the
    campaign's tenant has a manager or an admin: without one, the last step refuses the user the
    script falls back to. *)
Theorem recovery_confined sv identifier e s s' r c :
  (target identifier e s).2 = inr (Some c) → run sv identifier e s = (s', r) →
  others_same (Campaign.tenant_id c) s s' ∧
  (r = inr 0 ∨ ∃ x, r = inl x) ∧
  (r = inr 0 → ∃ k u, t_app_user s !! k = Some u ∧ AppUser.tenant_id u = Campaign.tenant_id c ∧
                      AppUser.role u ∈ [UserRole.manager; UserRole.admin]).
Proof.
  intros Hc. assert (target identifier e s = (s, inr (Some c))) as Hlook.
  { assert (respects eq (target identifier)) as Hp by (unfold target; respects_auto).
    specialize (Hp e s). destruct (target identifier e s) as [s1 o]. cbn in Hp, Hc. by subst. }
  unfold run. rewrite (bind_ok _ _ _ _ _ _ Hlook). intros Hrun. split_and!.
  - pose proof (steps_others sv (Campaign.tenant_id c) (Campaign.id c) e s) as Ho. by rewrite Hrun in Ho.
  - destruct r as [x|z]; [by right; exists x|left]. by apply steps_inr in Hrun as [-> _].
  - intros ->. apply steps_inr in Hrun as (_ & s1 & s2 & x & <- & Happrove).
    by eapply approve_step_inr.
Qed.

(** A tenant with one drafted campaign, one user and one channel, next to another tenant's campaign; the
    planner puts everything on mail. *)
Definition sample_mail : Channel.t := {|
  Channel.id := 51; Channel.tenant_id := 1; Channel.name := "Mail"; Channel.platform := ChannelPlatform.email;
  Channel.api_config := []; Channel.is_active := true; Channel.created_at := 0; Channel.updated_at := 0 |}.
Definition stuck_db (r : UserRole.t) : db := empty_db
  <| t_campaign := {[ 10%N := sample_campaign CampaignStatus.drafted;
                      11%N := sample_campaign CampaignStatus.drafted <| Campaign.id := 11%N |>
                        <| Campaign.tenant_id := 2%N |> <| Campaign.name := "Summer" |> ]} |>
  <| t_app_user := {[ 30%N := sample_user r ]} |> <| t_channel := {[ 51%N := sample_mail ]} |>
  <| next_uuid := 100%N |>.
Definition mail_plan : json := JObj [
  ("channels", JList [JObj [("platform", JStr "email"); ("allocation_pct", JInt 100);
     ("allocation_amount", JStr "1000"); ("rationale", JStr "reach")]]);
  ("kpis", JObj [("primary", JObj [("metric", JStr "ctr"); ("target", JInt 2); ("rationale", JStr "r")])])].
Definition mail_copy : exn + jdict :=
  inr [("subject", JStr "Hi"); ("preheader", JStr "x"); ("body", JStr "Hello there"); ("cta", JStr "Go")].
Definition recovery_services (copy : exn + jdict) : services := {|
  sv_anthropic := true; sv_planner := plan (λ _, Some mail_plan) (λ _ _ _, inr "plan");
  sv_re_compile := λ _, inl ""; sv_copywriting := λ _, copy; sv_seo := λ _, inl TypeError;
  sv_post := λ _ _ _, Timeout; sv_loads := λ _, None; sv_apollo_key := ""; sv_apollo_url := "";
  sv_outreach := λ _, ModelText "" |}.
Definition campaign_status (s : db) : option CampaignStatus.t := Campaign.status <$> t_campaign s !! 10%N.

(** The whole way from a drafted campaign to one that is ready to launch. *)
Lemma recovery_confined_witness :
  let '(s', r) := run (recovery_services mail_copy) "spring" (demo_env 7) (stuck_db UserRole.manager) in
  r = inr 0 ∧ campaign_status s' = Some CampaignStatus.ready_to_launch ∧
  t_campaign (view 2 s') = t_campaign (view 2 (stuck_db UserRole.manager)).
Proof.
  assert (let '(s', r) := run (recovery_services mail_copy) "spring" (demo_env 7) (stuck_db UserRole.manager) in
          r = inr 0 ∧ campaign_status s' = Some CampaignStatus.ready_to_launch) as Hr by by vm_compute.
  destruct (run _ _ _ _) as [s' r] eqn:Hrun. destruct Hr as [-> Hst].
  split; [done|]. split; [exact Hst|].
  assert ((target "spring" (demo_env 7) (stuck_db UserRole.manager)).2 = inr (Some (sample_campaign CampaignStatus.drafted)))
    as Ht by by vm_compute.
  destruct (recovery_confined _ _ _ _ _ _ _ Ht Hrun) as [Hother _].
  by apply (others_campaigns 1 2).
Defined.

(** Without a manager or an admin the script falls back to the first user: its marketer gets as far as
    the drafts, which are paid for and kept, and is then refused. *)
Example recovery_without_approver :
  let '(s', r) := run (recovery_services mail_copy) "spring" (demo_env 7) (stuck_db UserRole.marketer) in
  r = inl (ToolPermissionError "Your role 'marketer' isn't allowed to do this — need 'manager' or higher.") ∧
  campaign_status s' = Some CampaignStatus.content_in_production ∧ size (t_content_asset s') = 4%nat.
Proof. vm_compute. by split_and!. Qed.

(** When no draft could be written the script still reports success, and says to launch. *)
Theorem recovery_reports_success :
  let '(s', r) := run (recovery_services (inl TypeError)) "spring" (demo_env 7) (stuck_db UserRole.manager) in
  r = inr 0 ∧ campaign_status s' = Some CampaignStatus.content_in_production ∧
  Forall (λ a, ContentAsset.status a.2 = AssetStatus.requested) (map_to_list (t_content_asset s')).
Proof. vm_compute. split_and!; try done. by repeat constructor. Qed.
